(* ===== verification/_CoqProject ===== *)
-Q . S2P
Prelude.v
PyNum.v
PyVal.v
PyText.v
PyTime.v
Json.v
Tally.v
Scoring.v
Sla.v
Posture.v
Waivers.v
ControlTests.v
Declared.v
Observations.v
AwsChecks.v
M365Checks.v
CloudChecks.v
Ksi.v
Readiness.v
Approvals.v
Hash.v
AuditChain.v
Mfa.v
Scanners.v
Queue.v
Capability.v
Resolve.v
PostureScan.v
Cr26.v
Cr26Seed.v
Cr26Ver.v
Cr26Ocr.v
Cr26Sdr.v
Enforcement.v
EntraAccounts.v
Sessions.v
SignIn.v
Provisioning.v
Portal.v
Conmon.v
Derivation.v
Scope.v
BaselineDelta.v
Systems.v
Assessor.v
Adjudication.v
Poams.v
Risks.v
