(* ===== verification/Prelude.v ===== *)
(** * Concord: the compliance core, modelled and verified

    Concord (src/README.md) is a governance, risk and compliance platform: a
    FastAPI application over PostgreSQL. This library models the parts of
    src/src/ccf that decide something, as functions on explicit tables, and proves
    that they decide it rightly. The web layer, the ORM and the vendors' APIs
    around them are not modelled.

    ** The program's parts and how they meet

    Evidence enters by posture scans and scanner exports. posture/scope.py says by
    which providers a system is measured, posture/resolve.py which checks of a
    provider apply to a tenant, its packs' included, and the provider's connector
    (connectors/) reads the rows of each and hands them to the check's evaluator
    (posture/providers/, or posture/declared.py and parameters.py for a pack).
    The per-resource verdicts are rolled up (posture/rollup.py, types.py),
    compared with the previous scan (drift.py) and recorded against the system's
    generated control tests (posture/scan.py). Every verdict
    passes through the single writer governance/control_tests.py:record_result,
    which asks governance/waivers.py what is covered, and on an uncovered failure
    raises an alert (governance/bus.py, governance/delivery.py), one remediation
    task and one POA&M, on a recovery closes the task and annotates the POA&M.
    Scanner exports reach the same POA&M table through ingest/scanners.py. The
    results, with implementation status, evidence and dependencies, feed the KSI
    rules of fedramp20x/validation.py; their states feed fedramp20x/readiness.py.
    scoring/engine.py computes the SPRS score and patching/sla.py reports
    remediation timeliness from the POA&Ms. capability/derive.py annotates control
    implementations with the status their capabilities support. Human decisions go through
    governance/approvals.py; sign-in through mfa.py and identity/mfa_service.py;
    long work through queue.py. Every change is appended to the hash chain of
    api/audit.py. The FedRAMP CR26 deliverables are stored with their validation
    verdict by cr26/store.py; the seeders of cr26/ (cpo, incident, scn, ver, ocr, sdr)
    build each from the tables and from what a person wrote into the stored one.
    A failing check can also be closed in the tenant itself: enforcement/ builds a
    plan from the recorded findings, has it approved by a second person, applies it
    through a registered provider and can reverse it.

    People sign in through api/login_service.py and the gate of api/auth_deps.py,
    are provisioned by identity/ and see one organization; outsiders come in by the
    portal. What they do reaches the same tables: systems, implementations and
    scores (api/routes/systems.py, scoring.py, automation.py), POA&Ms and approvals
    (poams.py, approvals.py), risks and audit findings (risks.py, grc.py). Beside
    them governance/conmon.py opens tasks and POA&Ms for controls that have gone
    stale, governance/automation.py derives states from a system's profile, and
    assessment/engine/ asks a model about every objective of a control and proposes
    a finding that a person accepts or rejects. An accepted finding that is not
    satisfied opens a POA&M; closing that POA&M queues the control for evaluation
    again.

    ** Files

    - Prelude: results that can raise ([res], [let!]), strings with the character
      classes of Python, membership, string order, [latest_of], hints and tactics.
    - PyNum, PyVal, PyText: the language's numbers (binary64 with correct
      rounding, [round]), JSON values with [==], [in], [str] and [repr], dates,
      [float(text)].
    - Json: the JSON printer ([json.dumps] with sorted keys) and its injectivity.
    - Hash: SHA-1, SHA-256, HMAC, base32 and UTF-8, checked on published vectors.
    - Tally: sums and counts over lists and maps; bumping a counter in a dict.
    - Scoring: scoring/engine.py. [score_control], [add_control] and [finish] are
      the body, the tallies and the last lines of [score_system].
    - Sla: patching/sla.py. [measure] folds [measure_step] over the POA&Ms.
    - Posture: posture/rollup.py, types.py, drift.py, latest.py.
    - Waivers: governance/waivers.py; [candidate_rows] is its query.
    - ControlTests: governance/control_tests.py, bus.py, delivery.py and
      posture/remediation.py on the tables of [Db].
    - Declared: posture/declared.py and parameters.py.
    - PyTime: [datetime.fromisoformat], differences, [isoformat] and [str] of
      datetimes. Observations: reading rows of JSON whose shape nobody promises,
      and [credits], when a list of findings rolls up to a pass.
    - AwsChecks, M365Checks, CloudChecks (Azure, Google Cloud, PuppetDB):
      posture/providers/. [X_EVALUATORS] is the provider's registry of evaluators,
      [X_REQUIREMENTS] beside it says what each check requires of the rows.
    - Resolve: posture/checks.py, posture/resolve.py and the [scan] and [_evaluate]
      of the five connectors; [scan_one] is the body of their loops.
    - PostureScan: posture/scan.py on [Scans], which holds a [Db]; [scan_outcome] is
      the loop body. Scope: posture/scope.py on the same tables.
    - Ksi: fedramp20x/validation.py and posture/evidence.py.
    - Readiness: fedramp20x/readiness.py.
    - Approvals: governance/approvals.py, with the step relation [step].
    - AuditChain: api/audit.py, with transactions and the chain lock as steps; what
      PostgreSQL's JSONB makes of a document is a parameter.
    - Mfa: mfa.py and identity/mfa_service.py, with [mfa_step] and [mfa_run].
    - Scanners: ingest/scanners.py on the POA&M table of ControlTests.
    - Queue: queue.py and what prep/jobs.py writes back, with [qstep] and [qrun].
    - Capability: capability/ and catalog/canonical.py on the tables of [CapDb].
    - Cr26: cr26/store.py and validate.py; the class [DocStore] is what a store
      promises, [store_instance] the proof that this one keeps it.
    - Cr26Seed: cr26/cpo.py, incident.py and scn.py over any [DocStore].
    - Cr26Ver: cr26/ver.py. [walk_row] and [merge_authored] are the loop bodies of
      [render_all] and [merge_accepted]; [fate] and [row_entry] specify them.
    - Cr26Ocr: cr26/ocr.py. Cr26Sdr: cr26/sdr.py and the placeholder test of
      ssp/completeness.py; [narrative_part], [keep_entry] and [repair_requirement]
      are its loop bodies.
    - Enforcement: enforcement/types.py and service.py over an environment and any
      registry; [lawful] is what a provider promises, [wstep] a request under
      concurrency, on a plan loaded any time before, [estep] one on the row as it is.
    - EntraAccounts: enforcement/providers/m365.py, over a Graph with [graph_laws].
    - Sessions: signed cookies and tokens of auth.py; SignIn: api/login_service.py,
      the gate of api/auth_deps.py and the second-factor policies; Provisioning:
      identity/provisioning.py and the SCIM routes; Portal: portal/.
    - Conmon: governance/conmon.py. Derivation: governance/automation.py and the
      responsibility templates of ssp/. BaselineDelta: the uplift between baselines.
    - Systems: the requests on systems, implementations, scores and profiles, on the
      tables of [Estate].
    - Assessor: assessment/engine/ up to a proposal, on the tables of [Engine];
      retrieval and the model are Section variables. [evaluate_one] is the loop body
      of [evaluate_control_proposal].
    - Adjudication: acceptance, rejection, the queue and calibration on the same
      tables; [estep] interleaves the transactions of requests, of workers' claims
      and of each job, reaping and the outside.
    - Poams: api/routes/poams.py and approvals.py on a [Desk], which holds an
      [Engine] and the approvals; [serve] answers one request, [desk_run] any
      sequence with the rest of the program between.
    - Risks: governance/risk.py, api/routes/risks.py and the findings of grc.py on a
      [Register] over a [Desk]; [register_run] as above.

    ** What the theorems show

    - Control tests: recording a result is total on well-formed tables and takes
      exactly the consequence its status calls for; evidence is appended and never
      altered by waivers or alerting; no recorded result closes a POA&M or
      replaces a plan a person wrote; a scheduler run records each due test once;
      assertions and capture liveness mean what they say.
    - Waivers: suppression exactly when every resource needing cover has an
      active waiver; the batch query is the single query; inactive waivers change
      nothing.
    - Posture: the worst considered verdict wins; drift reports exactly the
      resources that changed; the latest informative result.
    - Declared checks: definite answers do not rest on missing values; validated
      predicates meet none of the evaluator's own errors; findings follow rows.
    - Posture providers: each of the 42 checks passes exactly when what it requires
      is in the rows that were read, save for the stated false passes of three
      Microsoft 365 checks, and its findings can always be rolled up.
    - Resolution and scans: packs add to the platform's checks and change none, and
      reach no other host; which resolved checks find an evaluator; with access every
      resolved check gets its outcome whatever fails, and what happens without; a
      scan's report adds up and keeps what people decided; the most trusted verdict
      is believed, then the most recent; leaving scope withdraws what was credited
      and loses nothing.
    - KSI and readiness: a rule passes exactly when the system satisfies it;
      tested controls; best implementation status; one verdict per KSI; a ready
      status is justified; sub-scores and blend in bounds; disclosures inert.
    - Scoring and timeliness: score floor, range and accounting; derived states
      cannot change a score; every POA&M lands in one bucket and one severity;
      compliance cannot be raised by accepting risk or losing dates.
    - Approvals: invariant of the reachable states with separation of duties;
      approved rows are final.
    - Second factor: a code is accepted exactly when it is the HOTP of an unspent
      step of the window; no step opens two sessions; recovery codes work once.
    - Scan ingestion: reconciliation refines a per-row specification
      ([row_fate]); the same scan again settles.
    - Queue: no attempt of a job is claimed twice under any interleaving; a retry
      cap bounds the claims; a waiting job is overtaken only so often before it is
      claimed.
    - Capabilities: the rollup never claims more than every capability supports;
      derivation refines a per-row specification ([derived_row]), never touches an
      authored status and is idempotent; what it records is read back.
    - Audit chain: under any interleaving the committed chain is the history of
      what was committed, and verifies as long as JSONB gives every diff back as it
      was hashed (so when none holds a float), and not beyond; tampering is found
      unless SHA-256 collides, except for the loss of the newest rows.
    - CR26: no document without its verdict; each seeder keeps what was authored,
      invents nothing and names what it could not say; every POA&M is placed
      exactly once by the reports; no rationale is lost, and of the narratives under
      one id the last is kept; no scaffolding is rendered; the shape of what is
      rendered, and what of it nobody checks; filing again is stable.
    - Enforcement: a request is answered by a stored plan or refusal; nothing is
      written without an authorisation that still holds, stale plan objects and late
      approvals included; where requests do not overlap, plans follow their lifecycle
      and the audit trail tells it; reversing restores what was not recorded as
      failed; what the row lock is worth; one provider per check; the account
      provider keeps its contract.
    - Sign-in, provisioning, portal: a session is earned, guesses are bounded when
      handled one after the other, revocation is final, the gate lets in who proved
      who they are; one account per identity; SCIM shows and changes nothing outside
      its organization.
    - Continuous monitoring, derivation, systems: a scan opens what is missing and
      nothing twice; a derivation fills blanks only and reports the stored score;
      the uplift adds up; requests keep the tables sound and stay in reach.
    - Assessment: the roll-up is strict; a verdict rests on passages that were
      shown; a proposal says what its objectives show; a finding of record is earned
      by acceptance; the engine's tables stay sound under any order of its
      transactions; calibration counts every decision once.
    - POA&Ms and risks: an accepted risk has its owner, date, reason and approval;
      closing is earned and asks for the control to be assessed again, once;
      requests stay in reach; scores are in range and current; a finding is promoted
      once.

    ** Conventions, bounds and fuel

    A character is a code point below 256; other text of the source appears only
    in literals, as its UTF-8 bytes. A table is a list of rows in id order, a
    query a filter, [scalar_one_or_none] raises on two rows, a new row takes the
    next number of a sequence. [now] is the time the call reads, one value per
    call; timestamps are microseconds and dates days since 1970, without the
    range limits of [datetime]. A [Decision] on a Python condition stands for its
    truth value; dicts that are only looked up are [gmap]s, dicts whose order is
    visible are association lists. A savepoint is a match on the result of its
    body. Floats are finite except where text is read ([xfloat] in PyText); the
    quotients formed stay far from overflow and subnormals.

    The declared evaluator's fuel is 9 minus its depth, the source's own cap, so
    exhaustion is the source's error branch. KSI rules recurse structurally.
    Base-32 groups, blocks and four-character groups use the length of the input
    as fuel, which every step lowers. [pretty]-printing and [shortest_dec] use at
    most 17 digits, enough to separate two doubles.

    ** Not modelled

    The remaining routes, templates, schemas and the command line (input and output
    around the modelled functions, and listings); migrations and ORM declarations
    beyond the modelled columns; what connectors fetch, integrations, AI providers
    and the retrieval of passages (network clients; a fetch is a function to rows or
    an exception, parameter of the scans); provider readiness, the attested and
    Secure Score collections and scan_all.py, which calls them around the modelled
    scan; the envelope cipher,
    the XML, JSON, CSV and spreadsheet readers and the document writers (parameters
    where used); row-level security and concurrency other than the queue's, the
    audit chain's, the plans' and the engine's transactions; logs and metrics. The scheduler, digests,
    analytics, boundary, evidence and package modules are mostly queries and
    bookkeeping over the tables modelled here; they are left out. *)

From Stdlib Require Export Ascii.
From stdpp Require Export base tactics option list strings gmap pretty sorting.
From Stdlib Require Export ZArith Lia.

(** * Fallible computations

    A Python function that can raise is modelled by a value of [res]: [Ok v]
    when it returns [v], [Err e] when it raises [e].  An exception is its class
    name and its message. *)

Record exn := Exn { exn_class : string; exn_msg : string }.

Inductive res (A : Type) : Type :=
| Ok (a : A)
| Err (e : exn).
Arguments Ok {A} _.
Arguments Err {A} _.

#[export] Instance exn_eq_dec : EqDecision exn.
Proof. solve_decision. Defined.

#[export] Instance res_eq_dec `{EqDecision A} : EqDecision (res A).
Proof. solve_decision. Defined.

Definition res_bind {A B} (m : res A) (f : A -> res B) : res B :=
  match m with Ok a => f a | Err e => Err e end.

Declare Scope res_scope.
Delimit Scope res_scope with res.

Notation "'let!' x := m 'in' k" := (res_bind m (fun x => k))
  (at level 10, x name, m at level 100, k at level 200) : res_scope.

#[global] Open Scope res_scope.

Definition is_ok {A} (m : res A) : bool :=
  match m with Ok _ => true | Err _ => false end.

Definition ValueError (m : string) : exn := Exn "ValueError" m.
Definition TypeError (m : string) : exn := Exn "TypeError" m.
Definition KeyError (m : string) : exn := Exn "KeyError" m.

Lemma res_bind_Ok {A B} (m : res A) (f : A -> res B) b :
  res_bind m f = Ok b <-> exists a, m = Ok a /\ f a = Ok b.
Proof. destruct m; simpl; naive_solver. Qed.

(** [session.execute(select(...)).scalar_one_or_none()] *)
Definition scalar_one_or_none {A} (rows : list A) : res (option A) :=
  match rows with
  | [] => Ok None
  | [r] => Ok (Some r)
  | _ => Err (Exn "MultipleResultsFound" "Multiple rows were found when one or none was required")
  end.

(** [map] over a list with a function that can raise: the first exception
    stops the traversal, as in a Python [for] loop or comprehension. *)
Fixpoint res_map {A B} (f : A -> res B) (l : list A) : res (list B) :=
  match l with
  | [] => Ok []
  | x :: l' => let! y := f x in let! ys := res_map f l' in Ok (y :: ys)
  end.

(** A loop that updates an accumulator and can raise. *)
Fixpoint res_fold {A B} (f : A -> B -> res A) (acc : A) (l : list B) : res A :=
  match l with
  | [] => Ok acc
  | x :: l' => let! acc' := f acc x in res_fold f acc' l'
  end.

Lemma res_map_Forall2 {A B} (f : A -> res B) l l' :
  res_map f l = Ok l' <-> Forall2 (fun x y => f x = Ok y) l l'.
Proof.
  revert l'. induction l as [|x l IH]; intros l'; simpl.
  - split; [intros [= <-]; constructor | inversion 1; done].
  - rewrite res_bind_Ok. setoid_rewrite res_bind_Ok. split.
    + intros (y & Hy & ys & Hys & [= <-]). constructor; [done|]. by apply IH.
    + inversion 1; subst. eexists; split; [done|]. eexists; split; [by apply IH|done].
Qed.

Lemma res_map_Ok_all {A B} (f : A -> res B) l :
  (forall x, x ∈ l -> exists y, f x = Ok y) -> exists l', res_map f l = Ok l'.
Proof.
  induction l as [|x l IH]; simpl; intros H; [by eexists|].
  destruct (H x) as [y ->]; [by constructor|].
  destruct IH as [ys ->]; [|by eexists]. intros z Hz. apply H. by constructor.
Qed.

Lemma res_map_Ok_in {A B} (f : A -> res B) (g : A -> B) l :
  (forall x, x ∈ l -> f x = Ok (g x)) -> res_map f l = Ok (map g l).
Proof.
  induction l as [|x l IH]; simpl; intros H; [done|]. rewrite H by by left. simpl.
  rewrite IH; [done|]. intros y Hy. apply H. by right.
Qed.

(** * Strings

    A Python [str] is a Rocq [string]; a character is a code point below 256.
    The character classes are those of Python restricted to that range. *)

Local Open Scope N_scope.

Definition cp (c : ascii) : N := N_of_ascii c.

(** [str.isspace] / regex [\s]: U+0009-U+000D, U+001C-U+0020, U+0085, U+00A0. *)
Definition is_space (c : ascii) : bool :=
  let n := cp c in
  ((9 <=? n) && (n <=? 13)) || ((28 <=? n) && (n <=? 32)) || (n =? 133) || (n =? 160).

(** Regex [\d]: below U+0100 only the ASCII digits are decimal digits. *)
Definition is_digit (c : ascii) : bool :=
  let n := cp c in (48 <=? n) && (n <=? 57).

Definition is_upper_ascii (c : ascii) : bool :=
  let n := cp c in (65 <=? n) && (n <=? 90).

Definition is_lower_ascii (c : ascii) : bool :=
  let n := cp c in (97 <=? n) && (n <=? 122).

Definition is_alpha_ascii (c : ascii) : bool := is_upper_ascii c || is_lower_ascii c.

(** [str.lower] on one character: A-Z, and U+00C0-U+00DE without U+00D7. *)
Definition lower_char (c : ascii) : ascii :=
  let n := cp c in
  if is_upper_ascii c || ((192 <=? n) && (n <=? 222) && negb (n =? 215))
  then ascii_of_N (n + 32) else c.

(** [str.upper] on one character: a-z, U+00E0-U+00FE without U+00F7, and the
    sharp s, which becomes two letters; the capitals of U+00B5 and U+00FF lie
    outside the range and those two characters are left as they are. *)
Definition upper_char (c : ascii) : string :=
  let n := cp c in
  if is_lower_ascii c || ((224 <=? n) && (n <=? 254) && negb (n =? 247))
  then String (ascii_of_N (n - 32)) EmptyString
  else if n =? 223 then "SS"%string else String c EmptyString.

Local Close Scope N_scope.

Fixpoint str_map (f : ascii -> ascii) (s : string) : string :=
  match s with EmptyString => EmptyString | String c s' => String (f c) (str_map f s') end.

Definition lower (s : string) : string := str_map lower_char s.
Fixpoint upper (s : string) : string :=
  match s with EmptyString => EmptyString | String c s' => (upper_char c +:+ upper s')%string end.

Fixpoint str_forallb (p : ascii -> bool) (s : string) : bool :=
  match s with EmptyString => true | String c s' => p c && str_forallb p s' end.

Fixpoint drop_while (p : ascii -> bool) (s : string) : string :=
  match s with
  | EmptyString => EmptyString
  | String c s' => if p c then drop_while p s' else s
  end.

Fixpoint take_while (p : ascii -> bool) (s : string) : string :=
  match s with
  | EmptyString => EmptyString
  | String c s' => if p c then String c (take_while p s') else EmptyString
  end.

(** Removes the longest suffix whose characters satisfy [p]. *)
Fixpoint drop_end (p : ascii -> bool) (s : string) : string :=
  match s with
  | EmptyString => EmptyString
  | String c s' => match drop_end p s' with
                   | EmptyString => if p c then EmptyString else String c EmptyString
                   | r => String c r
                   end
  end.

Definition lstrip (s : string) : string := drop_while is_space s.
Definition rstrip (s : string) : string := drop_end is_space s.
(** [str.strip()] with no argument. *)
Definition strip (s : string) : string := rstrip (lstrip s).

(** [sep.join(parts)]. *)
Fixpoint join (sep : string) (parts : list string) : string :=
  match parts with
  | [] => ""
  | [p] => p
  | p :: ps => (p +:+ sep +:+ join sep ps)%string
  end.

(** [s.split(c)] on a one-character separator: never empty. *)
Fixpoint split_on (c : ascii) (s : string) : list string :=
  match s with
  | EmptyString => [""%string]
  | String d s' =>
      if decide (d = c) then ""%string :: split_on c s'
      else match split_on c s' with
           | [] => [String d ""]
           | p :: ps => String d p :: ps
           end
  end.

Fixpoint startswith (pre s : string) : bool :=
  match pre, s with
  | EmptyString, _ => true
  | String a pre', String b s' => if decide (a = b) then startswith pre' s' else false
  | String _ _, EmptyString => false
  end.

(** [sub in s] for strings. *)
Fixpoint str_contains (sub s : string) : bool :=
  startswith sub s ||
  match s with EmptyString => false | String _ s' => str_contains sub s' end.

Local Open Scope string_scope.
Lemma app_nil_str (s : string) : "" +:+ s = s.
Proof. done. Qed.
Lemma app_cons_str c (s t : string) : String c s +:+ t = String c (s +:+ t).
Proof. done. Qed.

Lemma app_nil_r_str (s : string) : s +:+ "" = s.
Proof. induction s as [|c s IH]; [done|]. by rewrite app_cons_str, IH. Qed.
Lemma app_assoc_str (s t u : string) : (s +:+ t) +:+ u = s +:+ t +:+ u.
Proof. induction s as [|c s IH]; [done|]. by rewrite !app_cons_str, IH. Qed.
(** Concatenations to the right, literals at the front. *)
Ltac str_simp := repeat first [ rewrite app_assoc_str | rewrite app_cons_str | rewrite app_nil_str ].
(** Where a substring of a concatenation, a join or a stripped text comes from. *)

Lemma startswith_app tok s t : startswith tok s = true -> startswith tok (s +:+ t) = true.
Proof.
  revert s. induction tok as [|a tok IH]; intros [|b s]; try done. rewrite app_cons_str. cbn [startswith].
  case_decide; [|done]. apply IH.
Qed.
Lemma str_contains_app tok s t : str_contains tok s = true -> str_contains tok (s +:+ t) = true.
Proof.
  induction s as [|c s IH]; cbn [str_contains]; intros [H|H]%orb_prop; try done.
  - destruct tok; [|done]. by destruct ("" +:+ t).
  - apply (startswith_app _ _ t) in H. rewrite app_cons_str in *. cbn [str_contains]. by rewrite H.
  - rewrite app_cons_str. cbn [str_contains]. rewrite IH by done. by rewrite orb_true_r.
Qed.
Lemma drop_end_prefix p s : exists t, s = drop_end p s +:+ t.
Proof.
  induction s as [|c s [t IH]]; [by exists ""|]. cbn [drop_end]. destruct (drop_end p s) as [|d u].
  - destruct (p c); [by exists (String c s)|]. exists s. done.
  - exists t. rewrite app_cons_str. by f_equal.
Qed.
Lemma str_contains_strip tok s : str_contains tok (strip s) = true -> str_contains tok s = true.
Proof.
  unfold strip, rstrip. destruct (drop_end_prefix is_space (lstrip s)) as [t Ht]. intros H.
  apply (str_contains_app _ _ t) in H. rewrite <-Ht in H. clear Ht. unfold lstrip in H.
  induction s as [|c s IH]; [done|]. cbn [drop_while] in H. destruct (is_space c); [|done].
  cbn [str_contains]. rewrite IH by done. by rewrite orb_true_r.
Qed.

Section separator.
Context (sep : ascii).
Fixpoint str_mem (s : string) : bool :=
  match s with EmptyString => false | String c s' => bool_decide (c = sep) || str_mem s' end.

Lemma startswith_sep tok s t : str_mem tok = false -> startswith tok (s +:+ String sep t) = true -> startswith tok s = true.
Proof.
  revert s. induction tok as [|a tok IH]; intros s; [done|]. cbn [str_mem]. intros [Ha Ht]%orb_false_elim.
  apply bool_decide_eq_false in Ha. destruct s as [|b s]; [rewrite app_nil_str|rewrite app_cons_str]; cbn [startswith].
  - by rewrite decide_False.
  - case_decide; [|done]. by apply IH.
Qed.
Lemma str_contains_sep tok s t : str_mem tok = false -> tok <> "" -> str_contains tok (s +:+ String sep t) = true ->
  str_contains tok s = true \/ str_contains tok t = true.
Proof.
  intros Hm Hne. induction s as [|c s IH]; [rewrite app_nil_str|rewrite app_cons_str]; cbn [str_contains]; intros [H|H]%orb_prop; try tauto.
  - apply (startswith_sep tok "") in H; [|done]. by destruct tok.
  - rewrite <-app_cons_str in H. apply startswith_sep in H; [|done]. rewrite H. by left.
  - destruct (IH H) as [E|E]; [|by right]. rewrite E, orb_true_r. by left.
Qed.
Lemma str_contains_join tok l : str_mem tok = false -> tok <> "" -> str_contains tok (join (String sep "") l) = true ->
  exists s, s ∈ l /\ str_contains tok s = true.
Proof.
  intros Hm Hne. induction l as [|s l IH]; [by destruct tok|]. destruct l as [|u l].
  - intros H. exists s. split; [left|done].
  - change (join (String sep "") (s :: u :: l)) with (s +:+ String sep (join (String sep "") (u :: l))).
    intros [H|H]%str_contains_sep; [exists s; split; [left|done]| |done|done].
    destruct (IH H) as (v & Hv & E). exists v. split; [by right|done].
Qed.
End separator.

Lemma drop_while_nil p s : drop_while p s = "" -> str_forallb p s = true.
Proof. induction s as [|c s IH]; [done|]. cbn. by destruct (p c). Qed.
Lemma drop_end_nil p s : drop_end p s = "" <-> str_forallb p s = true.
Proof.
  induction s as [|c s IH]; [done|]. cbn [drop_end str_forallb]. destruct (drop_end p s) as [|d u].
  - rewrite (proj1 IH) by done. destruct (p c); naive_solver.
  - split; [done|]. intros [_ H]%andb_prop. by apply IH in H.
Qed.
Lemma strip_nil s : strip s = "" <-> str_forallb is_space s = true.
Proof.
  unfold strip, rstrip, lstrip. rewrite drop_end_nil. induction s as [|c s IH]; [done|]. cbn [drop_while].
  destruct (is_space c) eqn:E; cbn [str_forallb]; rewrite E; [|done]. exact IH.
Qed.
Local Close Scope string_scope.

Fixpoint remove_char (c : ascii) (s : string) : string :=
  match s with
  | EmptyString => EmptyString
  | String d s' => if decide (d = c) then remove_char c s' else String d (remove_char c s')
  end.

(** The truth value of a string, and [a or b] on strings. *)
Definition str_truthy (s : string) : bool := bool_decide (s ≠ ""%string).
Definition str_or (a b : string) : string := if str_truthy a then a else b.
(** [(o or "")] for an optional string. *)
Definition or_empty (o : option string) : string := default ""%string o.

(** Membership of a value in a tuple, list or set of values. *)
Definition mem `{EqDecision A} (x : A) (l : list A) : bool := bool_decide (x ∈ l).

#[global] Arguments mem : simpl never.
#[global] Arguments lower : simpl never.
#[global] Arguments upper : simpl never.
#[global] Arguments strip : simpl never.

Lemma mem_true `{EqDecision A} (x : A) l : mem x l = true <-> x ∈ l.
Proof. apply bool_decide_eq_true. Qed.
Lemma mem_false `{EqDecision A} (x : A) l : mem x l = false <-> x ∉ l.
Proof. apply bool_decide_eq_false. Qed.

Lemma mem_spec `{EqDecision A} (x : A) l : reflect (x ∈ l) (mem x l).
Proof. apply bool_decide_reflect. Qed.

Lemma mem_nil `{EqDecision A} (x : A) : mem x [] = false.
Proof. done. Qed.
Lemma mem_cons `{EqDecision A} (x y : A) l : mem x (y :: l) = bool_decide (x = y) || mem x l.
Proof.
  unfold mem. apply eq_true_iff_eq. rewrite orb_true_iff, !bool_decide_eq_true.
  apply elem_of_cons.
Qed.

Lemma filter_none {A} (P : A -> Prop) `{!forall x, Decision (P x)} l :
  (forall x, x ∈ l -> ~ P x) -> filter P l = [].
Proof.
  intros HP. destruct (filter P l) as [|x k] eqn:E; [done|]. exfalso.
  assert (x ∈ filter P l) as [Hp Hx]%list_elem_of_filter by (rewrite E; by left). exact (HP x Hx Hp).
Qed.

Lemma filter_all {A} (P : A -> Prop) `{!forall x, Decision (P x)} (l : list A) :
  (forall x, x ∈ l -> P x) -> filter P l = l.
Proof.
  induction l as [|x l IH]; intros HP; [done|]. rewrite filter_cons_True by (apply HP; by left).
  f_equal. apply IH. intros y Hy. apply HP. by right.
Qed.

Lemma Forall_filter {A} (Q P : A -> Prop) `{!forall x, Decision (P x)} (l : list A) :
  Forall Q l -> Forall Q (filter P l).
Proof. rewrite !Forall_forall. intros HQ x [_ Hx]%list_elem_of_filter. auto. Qed.

Create HintDb mem.
#[export] Hint Rewrite @mem_nil @mem_cons : mem.

(** Membership in a literal list, case by case. *)
Ltac in_list := repeat (first [ by left | right ]).

(** The elements of a literal list, one goal each. *)
Ltac elem_cases H :=
  repeat (apply elem_of_cons in H as [ ->|H]); try (exfalso; by apply not_elem_of_nil in H).

(** Closed (non-)membership by evaluation. *)
Ltac mem_absurd H := exfalso; apply mem_true in H; vm_compute in H; discriminate H.
Ltac mem_closed := first [ apply mem_false; vm_compute; reflexivity
                         | apply mem_true; vm_compute; reflexivity ].

Lemma Forall2_impl_in {A B} (P Q : A -> B -> Prop) l k :
  Forall2 P l k -> (forall x y, x ∈ l -> y ∈ k -> P x y -> Q x y) -> Forall2 Q l k.
Proof. induction 1 as [|x y l k H _ IH]; intros Hi; constructor; [apply Hi; by (left || done)|]. apply IH. intros. apply Hi; by (right || done). Qed.

(** A key without duplicates identifies its row. *)
Lemma nodup_key_inj {A B} (f : A -> B) l x y : NoDup (map f l) -> x ∈ l -> y ∈ l -> f x = f y -> x = y.
Proof.
  induction l as [|z l IH]; [by intros _ ?%not_elem_of_nil|]. cbn [map].
  intros [Hz Hn]%NoDup_cons Hx Hy E. apply elem_of_cons in Hx as [ ->|Hx], Hy as [ ->|Hy]; [done| | |by apply IH].
  - destruct Hz. rewrite E. by apply (list_elem_of_fmap_2 f).
  - destruct Hz. rewrite <-E. by apply (list_elem_of_fmap_2 f).
Qed.

(** [omap]: a comprehension with a condition. *)

Lemma omap_none {A B} (f : A -> option B) l : (forall x, x ∈ l -> f x = None) -> omap f l = [].
Proof. induction l as [|x l IH]; intros H; [done|]. cbn [omap list_omap]. rewrite H by by left. apply IH. intros y Hy. apply H. by right. Qed.

Lemma omap_snoc {A B} (f : A -> option B) l x : omap f (l ++ [x]) = (omap f l ++ option_list (f x))%list.
Proof. rewrite omap_app. cbn [omap list_omap]. by destruct (f x). Qed.
Lemma omap_omap {A B C} (f : A -> option B) (g : B -> option C) (l : list A) : omap g (omap f l) = omap (fun x => f x ≫= g) l.
Proof. induction l as [|x l IH]; [done|]. cbn. destruct (f x) as [y|]; cbn; [|done]. destruct (g y); by rewrite <-IH. Qed.
Lemma omap_only {A B} (g : A -> option B) (l : list A) x : NoDup l -> x ∈ l -> (forall y, y ∈ l -> y <> x -> g y = None) ->
  omap g l = option_list (g x).
Proof.
  intros Hn Hx Hg. induction l as [|y l IH]; [by apply not_elem_of_nil in Hx|]. apply NoDup_cons in Hn as [Hy Hl].
  cbn [omap list_omap]. apply elem_of_cons in Hx as [ ->|Hx].
  - rewrite (omap_none g l) by (intros z Hz; apply Hg; [by right|intros ->; done]).
    by destruct (g y).
  - rewrite (Hg y) by set_solver. apply IH; set_solver.
Qed.
Lemma omap_map_eq {A B C} (f : B -> option C) (g : A -> B) (l : list A) : omap f (map g l) = omap (fun x => f (g x)) l.
Proof. induction l as [|x l IH]; [done|]. cbn. by rewrite IH. Qed.
Lemma omap_ext_in {A B} (f g : A -> option B) (l : list A) : (forall x, x ∈ l -> f x = g x) -> omap f l = omap g l.
Proof.
  induction l as [|x l IH]; [done|]. intros H. cbn [omap list_omap]. rewrite H by left. rewrite IH; [done|].
  intros y Hy. apply H. by right.
Qed.

(** ** Lexicographic order of strings by code point (Python's [<] on [str]). *)

Fixpoint str_leb (s t : string) : bool :=
  match s, t with
  | EmptyString, _ => true
  | String _ _, EmptyString => false
  | String a s', String b t' =>
      if (cp a <? cp b)%N then true
      else if (cp b <? cp a)%N then false
      else str_leb s' t'
  end.

Definition str_le (s t : string) : Prop := str_leb s t = true.

#[export] Instance str_le_dec s t : Decision (str_le s t).
Proof. unfold str_le. apply _. Defined.

Lemma cp_inj a b : cp a = cp b -> a = b.
Proof.
  unfold cp. intros H. rewrite <- (ascii_N_embedding a), <- (ascii_N_embedding b).
  by rewrite H.
Qed.

#[export] Instance str_le_total : Total str_le.
Proof.
  unfold str_le. intros s. induction s as [|a s IH]; intros [|b t]; simpl; eauto.
  destruct (N.ltb_spec (cp a) (cp b)), (N.ltb_spec (cp b) (cp a)); auto; lia.
Qed.

#[export] Instance str_le_trans : Transitive str_le.
Proof.
  unfold str_le. intros s. induction s as [|a s IH]; intros [|b t] [|c u]; simpl; try done.
  destruct (N.ltb_spec (cp a) (cp b)), (N.ltb_spec (cp b) (cp a)),
    (N.ltb_spec (cp b) (cp c)), (N.ltb_spec (cp c) (cp b)),
    (N.ltb_spec (cp a) (cp c)), (N.ltb_spec (cp c) (cp a)); try done; try lia.
  apply IH.
Qed.

#[export] Instance str_le_antisym : AntiSymm (=) str_le.
Proof.
  unfold str_le. intros s. induction s as [|a s IH]; intros [|b t]; simpl; try done.
  destruct (N.ltb_spec (cp a) (cp b)), (N.ltb_spec (cp b) (cp a)); try done; try lia.
  intros H1 H2. f_equal; [apply cp_inj; lia | by apply IH].
Qed.

#[export] Instance str_le_refl : Reflexive str_le.
Proof. intros s. destruct (total str_le s s); done. Qed.

#[export] Instance str_le_preorder : PreOrder str_le.
Proof. split; apply _. Qed.

(** [sorted(...)] of strings, and [sorted(set(...))]. *)
Definition sorted_strs (l : list string) : list string := merge_sort str_le l.
Definition sorted_set (l : list string) : list string := sorted_strs (remove_dups l).

Lemma sorted_strs_perm l : sorted_strs l ≡ₚ l.
Proof. apply merge_sort_Permutation. Qed.

Lemma sorted_strs_sorted l : StronglySorted str_le (sorted_strs l).
Proof. apply StronglySorted_merge_sort; apply _. Qed.

Lemma elem_of_sorted_strs x l : x ∈ sorted_strs l <-> x ∈ l.
Proof. by rewrite sorted_strs_perm. Qed.

Lemma elem_of_sorted_set x l : x ∈ sorted_set l <-> x ∈ l.
Proof. unfold sorted_set. by rewrite elem_of_sorted_strs, elem_of_remove_dups. Qed.

Lemma sorted_set_NoDup l : NoDup (sorted_set l).
Proof. unfold sorted_set. rewrite sorted_strs_perm. apply NoDup_remove_dups. Qed.

Lemma sorted_set_ext l k : (forall x, x ∈ l <-> x ∈ k) -> sorted_set l = sorted_set k.
Proof.
  intros H. apply (StronglySorted_unique str_le); try apply sorted_strs_sorted.
  unfold sorted_set. rewrite !sorted_strs_perm.
  apply NoDup_Permutation; try apply NoDup_remove_dups.
  intros x. by rewrite !elem_of_remove_dups.
Qed.

Lemma StronglySorted_sublist {A} (R : relation A) l k :
  l `sublist_of` k -> StronglySorted R k -> StronglySorted R l.
Proof.
  induction 1 as [|x l k Hs IH|x l k Hs IH]; intros H; [done| |].
  - apply StronglySorted_inv in H as [H1 H2]. constructor; [auto|].
    apply Forall_forall. intros y Hy. eapply Forall_forall; [exact H2|].
    by eapply elem_of_sublist.
  - apply StronglySorted_inv in H as [H1 _]. auto.
Qed.

Lemma bool_filter_sublist {A} (f : A -> bool) (l : list A) : List.filter f l `sublist_of` l.
Proof. induction l as [|x l IH]; [done|]. cbn [List.filter]. destruct (f x); by constructor. Qed.

Lemma nodup_filter {A B} (f : A -> B) p l : NoDup (map f l) -> NoDup (map f (List.filter p l)).
Proof. intros H. eapply sublist_NoDup; [exact H|]. apply fmap_sublist, bool_filter_sublist. Qed.

Lemma filter_sorted_set (f : string -> bool) l : List.filter f (sorted_set l) = sorted_set (List.filter f l).
Proof.
  apply (StronglySorted_unique str_le).
  - eapply StronglySorted_sublist; [apply bool_filter_sublist|apply sorted_strs_sorted].
  - apply sorted_strs_sorted.
  - apply NoDup_Permutation; [eapply sublist_NoDup; [apply sorted_set_NoDup|apply bool_filter_sublist]|apply sorted_set_NoDup|].
    intros x. rewrite elem_of_sorted_set, !list_elem_of_In, !filter_In, <-!list_elem_of_In, elem_of_sorted_set. done.
Qed.

(** ** The first row of an [ORDER BY ... DESC]: [later a b] puts [a] before [b]. *)

Definition latest_of {A} (later : A -> A -> bool) (rows : list A) : option A :=
  match rows with
  | [] => None
  | r :: rs => Some (fold_left (fun best r => if later r best then r else best) rs r)
  end.

Section latest.
Context {A : Type} (later : A -> A -> bool).
Hypothesis later_asym : forall a b, later a b = true -> later b a = false.
Hypothesis not_later_trans : forall a b c,
  later a b = false -> later b c = false -> later a c = false.

Lemma later_irrefl a : later a a = false.
Proof. destruct (later a a) eqn:E; [|done]. rewrite <- E. by apply later_asym. Qed.

Lemma latest_fold r rs :
  let best := fold_left (fun best r => if later r best then r else best) rs r in
  best ∈ r :: rs /\ forall x, x ∈ r :: rs -> later x best = false.
Proof.
  cbv zeta. revert r. induction rs as [|x rs IH]; intros r; simpl.
  - split; [by left|]. intros y ->%list_elem_of_singleton. apply later_irrefl.
  - destruct (IH (if later x r then x else r)) as [H1 H2].
    set (best := fold_left _ rs _) in *. clearbody best.
    pose proof (H2 _ ltac:(by left)) as H3. split.
    + destruct (later x r); set_solver.
    + destruct (later x r) eqn:E; intros y [ ->|[ ->|Hy]%elem_of_cons]%elem_of_cons;
        try done; try (apply H2; by right).
      * apply not_later_trans with x; [by apply later_asym|done].
      * by apply not_later_trans with r.
Qed.

Lemma latest_of_spec rows :
  match latest_of later rows with
  | Some r => r ∈ rows /\ forall x, x ∈ rows -> later x r = false
  | None => rows = []
  end.
Proof. destruct rows as [|r rs]; [done|]. apply latest_fold. Qed.
End latest.

(** ** Rows in strict order of a numeric key *)

Section strict_key.
Context {A : Type} (key : A -> Z).
Definition increasing (l : list A) : Prop := StronglySorted (fun a b => key a < key b)%Z l.

Lemma sorted_by_unique l l' :
  increasing l -> StronglySorted (fun a b => key a <= key b)%Z l' -> l' ≡ₚ l -> l' = l.
Proof.
  revert l'. induction l as [|x l IH]; intros l' Hl Hl' Hp; [by apply Permutation_nil_r in Hp|].
  destruct l' as [|y l']; [by apply Permutation_nil_l in Hp|].
  apply StronglySorted_inv in Hl as [Hl Hx], Hl' as [Hl' Hy]. rewrite Forall_forall in Hx, Hy.
  assert (y = x) as ->.
  { assert (y ∈ x :: l) as [Hyx|Hyl]%elem_of_cons by (rewrite <-Hp; by left); [done|].
    assert (x ∈ y :: l') as [Hxy|Hxl]%elem_of_cons by (rewrite Hp; by left); [done|].
    specialize (Hx y Hyl). specialize (Hy x Hxl). lia. }
  f_equal. apply IH; try done. by apply Permutation_cons_inv in Hp.
Qed.

Lemma increasing_app l k :
  increasing (l ++ k) <-> increasing l /\ increasing k /\ forall x y, x ∈ l -> y ∈ k -> (key x < key y)%Z.
Proof.
  unfold increasing. induction l as [|a l IH]; cbn [app].
  - split; [|tauto]. intros H. split; [constructor|split; [done|]]. by intros x y ?%not_elem_of_nil.
  - split.
    + intros [H1 H2]%StronglySorted_inv. apply IH in H1 as (Hl & Hk & Hlk). rewrite Forall_forall in H2.
      split; [constructor; [done|]; apply Forall_forall; intros; apply H2; set_solver|].
      split; [done|]. intros x y [ ->|Hx]%elem_of_cons Hy; [apply H2; set_solver|auto].
    + intros (Hal & Hk & Hlk). apply StronglySorted_inv in Hal as [Hl Ha]. rewrite Forall_forall in Ha.
      constructor; [apply IH; split; [done|split; [done|]]; intros; apply Hlk; set_solver|].
      apply Forall_forall. intros x [Hx|Hx]%elem_of_app; [auto|apply Hlk; set_solver].
Qed.

Lemma latest_increasing l x :
  (forall y, y ∈ l -> (key y < key x)%Z) -> latest_of (fun a b => key b <? key a)%Z (l ++ [x]) = Some x.
Proof.
  intros H. destruct l as [|y l]; [done|]. cbn [app latest_of]. rewrite fold_left_app. cbn [fold_left].
  rewrite (proj2 (Z.ltb_lt _ _)); [done|]. apply H.
  clear H. revert y. induction l as [|z l IH]; intros y; [by left|]. cbn [fold_left].
  specialize (IH (if (key y <? key z)%Z then z else y)). destruct (key y <? key z)%Z; set_solver.
Qed.
End strict_key.

(** ** [sorted(...)] with a key: equal elements stay in order *)

Section stable_sort.
Context {A : Type} (le : A -> A -> bool).

Fixpoint insert_sorted (x : A) (l : list A) : list A :=
  match l with [] => [x] | y :: l' => if le x y then x :: l else y :: insert_sorted x l' end.
Definition stable_sort (l : list A) : list A := foldr insert_sorted [] l.

Lemma insert_sorted_perm x l : insert_sorted x l ≡ₚ x :: l.
Proof.
  induction l as [|y l IH]; [done|]. cbn [insert_sorted]. destruct (le x y); [done|]. rewrite IH. constructor.
Qed.
Lemma stable_sort_perm l : stable_sort l ≡ₚ l.
Proof. induction l as [|x l IH]; [done|]. cbn [stable_sort foldr]. rewrite insert_sorted_perm. by apply Permutation_skip. Qed.

Hypothesis le_total : forall x y, le x y = true \/ le y x = true.
Hypothesis le_trans : forall x y z, le x y = true -> le y z = true -> le x z = true.

Lemma stable_sort_sorted l : StronglySorted (fun x y => le x y = true) (stable_sort l).
Proof.
  induction l as [|x l IH]; [constructor|]. cbn [stable_sort foldr].
  change (foldr insert_sorted [] l) with (stable_sort l). revert IH. generalize (stable_sort l).
  intros k. induction k as [|y k IHk]; intros Hk; cbn [insert_sorted]; [repeat constructor|].
  apply StronglySorted_inv in Hk as [Hk Hy]. pose proof Hy as Hy'. rewrite Forall_forall in Hy. destruct (le x y) eqn:E.
  - repeat constructor; try done. apply Forall_forall. intros z Hz. by apply le_trans with y; [|apply Hy].
  - constructor; [by apply IHk|]. apply Forall_forall. intros z Hz. rewrite insert_sorted_perm in Hz.
    apply elem_of_cons in Hz as [ ->|Hz]; [|by apply Hy]. destruct (le_total x y); congruence.
Qed.

Lemma stable_sort_id l : StronglySorted (fun x y => le x y = true) l -> stable_sort l = l.
Proof.
  induction l as [|x l IH]; [done|]. intros [Hl Hx]%StronglySorted_inv. cbn [stable_sort foldr].
  change (foldr insert_sorted [] l) with (stable_sort l). rewrite IH by done.
  destruct l as [|y l]; [done|]. cbn [insert_sorted]. apply Forall_cons in Hx as [ -> _]. done.
Qed.
End stable_sort.

(** ** The first row that matches *)

Lemma find_app_none {A} (p : A -> bool) l k : List.find p l = None -> List.find p (l ++ k) = List.find p k.
Proof. induction l as [|x l IH]; [done|]. cbn [app List.find]. by destruct (p x). Qed.

Lemma find_app_not {A} (p : A -> bool) l x : p x = false -> List.find p (l ++ [x]) = List.find p l.
Proof.
  intros H. induction l as [|y l IH]; cbn [app List.find]; [by rewrite H|]. by rewrite IH.
Qed.
