(* ===== verification/PyNum.v ===== *)
(** Python numbers: rounding to the nearest integer with ties to even, binary64
    floats as dyadic rationals with correctly rounded operations, [round(x, 1)],
    and the percentage idiom [round(100 * part / whole, 1)] the code base uses
    for every reported share.

    A finite float is [fm * 2 ^ fe].  Infinities and NaN do not arise: every
    division of the modelled code is guarded.  Subnormals do not arise either
    (the smallest positive quotient the code forms is far above 2^-1000).
    The result of [round(x, 1)] is kept as its number of tenths, an integer. *)

From S2P Require Export Prelude.

Local Open Scope Z_scope.

(** ** Nearest integer of a ratio, ties to even *)

Definition rhe (p q : Z) : Z :=
  let d := p / q in
  let r := p mod q in
  match 2 * r ?= q with
  | Lt => d
  | Gt => d + 1
  | Eq => if Z.even d then d else d + 1
  end.

Lemma rhe_ge n p q : 0 < q -> n * q <= p -> n <= rhe p q.
Proof.
  intros Hq H. assert (n <= p / q) by (apply Z.div_le_lower_bound; lia).
  unfold rhe. repeat case_match; lia.
Qed.

Lemma rhe_le n p q : 0 < q -> p <= n * q -> rhe p q <= n.
Proof.
  intros Hq H. unfold rhe.
  pose proof (Z.div_mod p q ltac:(lia)) as E.
  pose proof (Z.mod_pos_bound p q Hq) as B.
  set (d := p / q) in *. set (r := p mod q) in *.
  assert (d <= n) by nia.
  assert (d = n -> r = 0) by nia.
  destruct (Z.compare_spec (2 * r) q); repeat case_match; nia.
Qed.

Lemma rhe_exact n q : 0 < q -> rhe (n * q) q = n.
Proof.
  intros Hq. apply Z.le_antisymm; [apply rhe_le | apply rhe_ge]; lia.
Qed.

Lemma rhe_mono p p' q : 0 < q -> p <= p' -> rhe p q <= rhe p' q.
Proof.
  intros Hq H. unfold rhe.
  pose proof (Z.div_mod p q ltac:(lia)) as E.
  pose proof (Z.mod_pos_bound p q Hq) as B.
  pose proof (Z.div_mod p' q ltac:(lia)) as E'.
  pose proof (Z.mod_pos_bound p' q Hq) as B'.
  pose proof (Z.div_le_mono p p' q Hq H).
  set (d := p / q) in *. set (r := p mod q) in *.
  set (d' := p' / q) in *. set (r' := p' mod q) in *.
  destruct (decide (d = d')) as [->|].
  - assert (r <= r') by nia.
    destruct (Z.compare_spec (2 * r) q), (Z.compare_spec (2 * r') q);
      destruct (Z.even d'); nia.
  - repeat case_match; nia.
Qed.

(** The distance to the ratio is at most one half. *)
Lemma rhe_half p q : 0 < q -> 2 * Z.abs (rhe p q * q - p) <= q.
Proof.
  intros Hq. unfold rhe.
  pose proof (Z.div_mod p q ltac:(lia)) as E.
  pose proof (Z.mod_pos_bound p q Hq) as B.
  set (d := p / q) in *. set (r := p mod q) in *.
  destruct (Z.compare_spec (2 * r) q); repeat case_match; nia.
Qed.

(** ** Floats *)

Record float := Fl { fm : Z; fe : Z }.

#[export] Instance float_eq_dec : EqDecision float.
Proof. solve_decision. Defined.

Definition fl_num (x : float) : Z := if fe x <? 0 then fm x else fm x * 2 ^ fe x.
Definition fl_den (x : float) : Z := if fe x <? 0 then 2 ^ (- fe x) else 1.

Lemma fl_den_pos x : 0 < fl_den x.
Proof. unfold fl_den. case_match; lia. Qed.

(** The exponent at which a positive ratio has a 53-bit significand. *)
Definition fl_exp (a q : Z) : Z :=
  let k := Z.log2 a - Z.log2 q in
  if (if k <? 0 then q <=? a * 2 ^ (- k) else q * 2 ^ k <=? a) then k - 52 else k - 53.

(** The significand of [a / q] at exponent [e]. *)
Definition fl_mant (a q e : Z) : Z :=
  if e <? 0 then rhe (a * 2 ^ (- e)) q else rhe a (q * 2 ^ e).

(** The float nearest to [p / q] ([q > 0]), ties to even. *)
Definition fl_of_ratio (p q : Z) : float :=
  if p =? 0 then Fl 0 0
  else let e := fl_exp (Z.abs p) q in Fl (Z.sgn p * fl_mant (Z.abs p) q e) e.

Definition fl_of_Z (z : Z) : float := fl_of_ratio z 1.
Definition fl_zero : float := Fl 0 0.

Definition fl_add (x y : float) : float :=
  fl_of_ratio (fl_num x * fl_den y + fl_num y * fl_den x) (fl_den x * fl_den y).
Definition fl_mul (x y : float) : float :=
  fl_of_ratio (fl_num x * fl_num y) (fl_den x * fl_den y).
(** [x / y] for [y <> 0]. *)
Definition fl_div (x y : float) : float :=
  fl_of_ratio (fl_num x * fl_den y * Z.sgn (fl_num y)) (fl_den x * Z.abs (fl_num y)).
Definition fl_leb (x y : float) : bool := fl_num x * fl_den y <=? fl_num y * fl_den x.
Definition fl_ltb (x y : float) : bool := fl_num x * fl_den y <? fl_num y * fl_den x.
Definition fl_eqb (x y : float) : bool := fl_num x * fl_den y =? fl_num y * fl_den x.
Definition fl_is_zero (x : float) : bool := fm x =? 0.

(** [min] and [max] of two floats, as Python evaluates [max(a, b)] and [min(a, b)]:
    the first argument wins a tie. *)
Definition fl_max (x y : float) : float := if fl_ltb x y then y else x.
Definition fl_min (x y : float) : float := if fl_ltb y x then y else x.

(** [a / b] on two ints: Python's true division is correctly rounded. *)
Definition truediv (a b : Z) : float := fl_of_ratio (a * Z.sgn b) (Z.abs b).

(** [round(x, 1)] in tenths: the decimal rounding of the exact binary value. *)
Definition round1 (x : float) : Z := rhe (10 * fl_num x) (fl_den x).

(** [round(x)]: the nearest integer of the exact binary value. *)
Definition round0 (x : float) : Z := rhe (fl_num x) (fl_den x).

(** [int(x)] truncates toward zero. *)
Definition fl_trunc (x : float) : Z := Z.quot (fl_num x) (fl_den x).

(** [round(100 * part / whole, 1)] on ints. *)
Definition pct1 (part whole : Z) : Z := round1 (truediv (100 * part) whole).

(** ** Bounds *)

Lemma fl_exp_spec a q :
  0 < a -> 0 < q ->
  let e := fl_exp a q in
  if e <? 0 then q * 2 ^ 52 <= a * 2 ^ (- e) else q * 2 ^ 52 * 2 ^ e <= a.
Proof.
  intros Ha Hq. unfold fl_exp.
  pose proof (Z.log2_spec a Ha) as [La _].
  pose proof (Z.log2_spec q Hq) as [_ Lq].
  set (la := Z.log2 a) in *. set (lq := Z.log2 q) in *.
  assert (0 <= la) by apply Z.log2_nonneg. assert (0 <= lq) by apply Z.log2_nonneg.
  cbv zeta.
  assert (Hlow : forall e, e = la - lq - 53 ->
      if e <? 0 then q * 2 ^ 52 <= a * 2 ^ (- e) else q * 2 ^ 52 * 2 ^ e <= a).
  { intros e He. destruct (Z.ltb_spec e 0).
    - assert (q * 2 ^ 52 <= 2 ^ Z.succ lq * 2 ^ 52) by nia.
      assert (2 ^ Z.succ lq * 2 ^ 52 = 2 ^ la * 2 ^ (- e)) as Hx
        by (rewrite <- !Z.pow_add_r by lia; f_equal; lia).
      assert (0 < 2 ^ (- e)) by lia. nia.
    - assert (2 ^ Z.succ lq * (2 ^ 52 * 2 ^ e) = 2 ^ la) as Hx
        by (rewrite <- !Z.pow_add_r by lia; f_equal; lia).
      assert (0 < 2 ^ e) by lia. nia. }
  destruct (Z.ltb_spec (la - lq) 0).
  - destruct (Z.leb_spec q (a * 2 ^ (- (la - lq)))); [|by apply Hlow].
    rewrite (proj2 (Z.ltb_lt (la - lq - 52) 0)) by lia.
    replace (- (la - lq - 52)) with (- (la - lq) + 52) by lia.
    rewrite Z.pow_add_r by lia. nia.
  - destruct (Z.leb_spec (q * 2 ^ (la - lq)) a); [|by apply Hlow].
    destruct (Z.ltb_spec (la - lq - 52) 0).
    + assert (2 ^ 52 = 2 ^ (la - lq) * 2 ^ (- (la - lq - 52))) as ->
        by (rewrite <- Z.pow_add_r by lia; f_equal; lia).
      assert (0 < 2 ^ (- (la - lq - 52))) by lia. nia.
    + assert (2 ^ 52 * 2 ^ (la - lq - 52) = 2 ^ (la - lq)) as Hx
        by (rewrite <- Z.pow_add_r by lia; f_equal; lia). nia.
Qed.

(** A ratio at most an integer [K < 2^53] is rounded to a float at most [K]. *)
Lemma fl_of_ratio_le K p q :
  0 < q -> 0 <= K < 2 ^ 53 -> 0 <= p <= K * q ->
  0 <= fl_num (fl_of_ratio p q) <= K * fl_den (fl_of_ratio p q).
Proof.
  intros Hq HK Hp. unfold fl_of_ratio.
  destruct (Z.eqb_spec p 0) as [->|Hp0]; [unfold fl_num, fl_den; simpl; lia|].
  rewrite (Z.abs_eq p), (Z.sgn_pos p), Z.mul_1_l by lia.
  pose proof (fl_exp_spec p q ltac:(lia) Hq) as He.
  set (e := fl_exp p q) in *. cbv zeta in He |- *.
  unfold fl_num, fl_den, fl_mant; simpl.
  destruct (Z.ltb_spec e 0) as [Hneg|Hpos].
  - assert (0 < 2 ^ (- e)) by lia. split.
    + apply rhe_ge; [lia|nia].
    + apply rhe_le; [lia|nia].
  - destruct (decide (e = 0)) as [->|].
    + change (2 ^ 0) with 1. rewrite !Z.mul_1_r. split; [apply rhe_ge|apply rhe_le]; lia.
    + exfalso. assert (2 ^ 1 <= 2 ^ e) by (apply Z.pow_le_mono_r; lia).
      assert (q * 2 ^ 53 <= p); [|nia].
      replace (2 ^ 53) with (2 ^ 52 * 2 ^ 1) by reflexivity. nia.
Qed.

Lemma fl_of_ratio_ge K p q :
  0 < q -> 0 <= K < 2 ^ 53 -> K * q <= p ->
  K * fl_den (fl_of_ratio p q) <= fl_num (fl_of_ratio p q).
Proof.
  intros Hq HK Hp. unfold fl_of_ratio.
  destruct (Z.eqb_spec p 0) as [->|Hp0]; [unfold fl_num, fl_den; simpl; nia|].
  assert (0 < p) by nia.
  rewrite (Z.abs_eq p), (Z.sgn_pos p), Z.mul_1_l by lia.
  pose proof (fl_exp_spec p q ltac:(lia) Hq) as He.
  set (e := fl_exp p q) in *. cbv zeta in He |- *.
  unfold fl_num, fl_den, fl_mant; simpl.
  destruct (Z.ltb_spec e 0) as [Hneg|Hpos].
  - assert (0 < 2 ^ (- e)) by lia. apply rhe_ge; [lia|nia].
  - destruct (decide (e = 0)) as [->|].
    + change (2 ^ 0) with 1. rewrite !Z.mul_1_r. apply rhe_ge; lia.
    + assert (2 ^ 1 <= 2 ^ e) by (apply Z.pow_le_mono_r; lia).
      assert (2 ^ 52 <= rhe p (q * 2 ^ e)) by (apply rhe_ge; nia).
      assert (2 ^ 53 = 2 ^ 52 * 2 ^ 1) by reflexivity. nia.
Qed.

(** A part of a whole is reported between 0.0 and 100.0. *)
Lemma pct1_bounds part whole :
  0 < whole -> 0 <= part <= whole -> 0 <= pct1 part whole <= 1000.
Proof.
  intros Hw Hp. unfold pct1, truediv, round1.
  rewrite Z.sgn_pos, Z.mul_1_r, Z.abs_eq by lia.
  pose proof (fl_of_ratio_le 100 (100 * part) whole Hw ltac:(lia) ltac:(lia)) as [H0 H1].
  pose proof (fl_den_pos (fl_of_ratio (100 * part) whole)).
  split; [apply rhe_ge|apply rhe_le]; lia.
Qed.

(** The whole is reported as 100.0, nothing as 0.0. *)
Lemma pct1_full whole : 0 < whole -> pct1 whole whole = 1000.
Proof.
  intros Hw. apply Z.le_antisymm; [apply pct1_bounds; lia|].
  unfold pct1, truediv, round1.
  rewrite Z.sgn_pos, Z.mul_1_r, Z.abs_eq by lia.
  pose proof (fl_of_ratio_ge 100 (100 * whole) whole Hw ltac:(lia) ltac:(lia)).
  pose proof (fl_den_pos (fl_of_ratio (100 * whole) whole)).
  apply rhe_ge; lia.
Qed.

Lemma pct1_zero whole : 0 < whole -> pct1 0 whole = 0.
Proof.
  intros Hw. unfold pct1, truediv, round1, fl_of_ratio. simpl. reflexivity.
Qed.

(** ** Monotonicity *)

(** [2 ^ e] for a possibly negative [e], cleared of denominators: the value of
    [m * 2 ^ e] is compared after scaling by a common power [2 ^ k]. *)
Definition scale (k e : Z) : Z := 2 ^ (k + e).

Lemma fl_exp_upper a q :
  0 < a -> 0 < q ->
  let e := fl_exp a q in
  if e <? 0 then a * 2 ^ (- e) <= q * 2 ^ 53 else a <= q * 2 ^ 53 * 2 ^ e.
Proof.
  intros Ha Hq. unfold fl_exp.
  pose proof (Z.log2_spec a Ha) as [_ La].
  pose proof (Z.log2_spec q Hq) as [Lq _].
  set (la := Z.log2 a) in *. set (lq := Z.log2 q) in *.
  assert (0 <= la) by apply Z.log2_nonneg. assert (0 <= lq) by apply Z.log2_nonneg.
  cbv zeta. rewrite Z.pow_succ_r in La by lia.
  assert (Hup : forall e, e = la - lq - 52 ->
      if e <? 0 then a * 2 ^ (- e) <= q * 2 ^ 53 else a <= q * 2 ^ 53 * 2 ^ e).
  { intros e He. destruct (Z.ltb_spec e 0).
    - assert (2 ^ la * 2 ^ (- e) = 2 ^ lq * 2 ^ 52) as Hx
        by (rewrite <- !Z.pow_add_r by lia; f_equal; lia).
      assert (0 < 2 ^ (- e)) by lia. assert (2 ^ 53 = 2 * 2 ^ 52) by reflexivity. nia.
    - assert (2 ^ lq * (2 ^ 52 * 2 ^ e) = 2 ^ la) as Hx
        by (rewrite <- !Z.pow_add_r by lia; f_equal; lia).
      assert (0 < 2 ^ e) by lia. assert (2 ^ 53 = 2 * 2 ^ 52) by reflexivity. nia. }
  destruct (Z.ltb_spec (la - lq) 0).
  - destruct (Z.leb_spec q (a * 2 ^ (- (la - lq)))); [by apply Hup|].
    rewrite (proj2 (Z.ltb_lt (la - lq - 53) 0)) by lia.
    replace (- (la - lq - 53)) with (- (la - lq) + 53) by lia.
    rewrite Z.pow_add_r by lia. nia.
  - destruct (Z.leb_spec (q * 2 ^ (la - lq)) a); [by apply Hup|].
    destruct (Z.ltb_spec (la - lq - 53) 0).
    + assert (2 ^ 53 = 2 ^ (la - lq) * 2 ^ (- (la - lq - 53))) as ->
        by (rewrite <- Z.pow_add_r by lia; f_equal; lia).
      assert (0 < 2 ^ (- (la - lq - 53))) by lia. nia.
    + assert (2 ^ 53 * 2 ^ (la - lq - 53) = 2 ^ (la - lq)) as Hx
        by (rewrite <- Z.pow_add_r by lia; f_equal; lia). nia.
Qed.

Lemma pow_split k e : 0 <= k + e -> 0 <= k ->
  if e <? 0 then scale k e * 2 ^ (- e) = 2 ^ k else scale k e = 2 ^ k * 2 ^ e.
Proof.
  intros H1 H2. unfold scale. destruct (Z.ltb_spec e 0).
  - rewrite <- Z.pow_add_r by lia. f_equal. lia.
  - rewrite <- Z.pow_add_r by lia. f_equal.
Qed.

(** The scaled value of a float, an integer once [k] is large enough. *)
Lemma fl_scaled k x : 0 <= k + fe x -> 0 <= k ->
  fl_num x * 2 ^ k = fm x * scale k (fe x) * fl_den x.
Proof.
  intros H1 H2. unfold fl_num, fl_den. pose proof (pow_split k (fe x) H1 H2) as E.
  destruct (fe x <? 0); [rewrite <- E|rewrite E]; ring.
Qed.

Lemma fl_of_ratio_pos p q :
  0 < p -> fl_of_ratio p q = Fl (fl_mant p q (fl_exp p q)) (fl_exp p q).
Proof.
  intros Hp. unfold fl_of_ratio. rewrite (proj2 (Z.eqb_neq p 0)) by lia. cbv zeta.
  rewrite Z.abs_eq, Z.sgn_pos, Z.mul_1_l by lia. done.
Qed.

Lemma fl_mant_bounds p q :
  0 < p -> 0 < q -> 2 ^ 52 <= fl_mant p q (fl_exp p q) <= 2 ^ 53.
Proof.
  intros Hp Hq. pose proof (fl_exp_spec p q Hp Hq) as L.
  pose proof (fl_exp_upper p q Hp Hq) as U.
  set (e := fl_exp p q) in *. cbv zeta in L, U. unfold fl_mant.
  destruct (Z.ltb_spec e 0).
  - assert (0 < 2 ^ (- e)) by lia. split; [apply rhe_ge|apply rhe_le]; lia.
  - assert (0 < 2 ^ e) by lia. split; [apply rhe_ge|apply rhe_le]; nia.
Qed.

Lemma fl_exp_mono p p' q : 0 < p <= p' -> 0 < q -> fl_exp p q <= fl_exp p' q.
Proof.
  intros Hp Hq. pose proof (fl_exp_spec p q ltac:(lia) Hq) as L.
  pose proof (fl_exp_upper p' q ltac:(lia) Hq) as U.
  set (e := fl_exp p q) in *. set (e' := fl_exp p' q) in *. cbv zeta in L, U.
  destruct (Z.le_gt_cases e e') as [|Hgt]; [done|].
  set (k := Z.abs e + Z.abs e').
  assert (q * 2 ^ 52 * scale k e <= p * 2 ^ k) as L'.
  { pose proof (pow_split k e ltac:(lia) ltac:(lia)) as E.
    assert (0 < scale k e) by (unfold scale; lia).
    destruct (e <? 0); [rewrite <- E|rewrite E; assert (0 < 2 ^ k) by lia]; nia. }
  assert (p' * 2 ^ k <= q * 2 ^ 53 * scale k e') as U'.
  { pose proof (pow_split k e' ltac:(lia) ltac:(lia)) as E.
    assert (0 < scale k e') by (unfold scale; lia).
    destruct (e' <? 0); [rewrite <- E|rewrite E; assert (0 < 2 ^ k) by lia]; nia. }
  assert (2 * scale k e' <= scale k e).
  { unfold scale. rewrite <- Z.pow_succ_r by lia. apply Z.pow_le_mono_r; lia. }
  assert (0 < scale k e') by (unfold scale; lia).
  destruct (decide (e - e' = 1)).
  - (* the boundary: equality everywhere, so both ratios are that power of two *)
    assert (p * 2 ^ k = p' * 2 ^ k) by (assert (2 ^ 53 = 2 * 2 ^ 52) by reflexivity;
      assert (0 < 2 ^ k) by lia; nia).
    assert (p = p') by (assert (0 < 2 ^ k) by lia; nia). subst p'. unfold e, e' in *. lia.
  - assert (4 * scale k e' <= scale k e).
    { unfold scale. change 4 with (2 ^ 2). rewrite <- Z.pow_add_r by lia.
      apply Z.pow_le_mono_r; lia. }
    assert (2 ^ 53 = 2 * 2 ^ 52) by reflexivity. assert (0 < 2 ^ k) by lia. nia.
Qed.

Lemma fl_of_ratio_mono p p' q :
  0 < q -> 0 <= p <= p' -> fl_leb (fl_of_ratio p q) (fl_of_ratio p' q) = true.
Proof.
  intros Hq Hp. unfold fl_leb. rewrite Z.leb_le.
  pose proof (fl_den_pos (fl_of_ratio p q)) as D.
  pose proof (fl_den_pos (fl_of_ratio p' q)) as D'.
  destruct (decide (p = 0)) as [->|].
  { pose proof (fl_of_ratio_ge 0 p' q Hq ltac:(lia) ltac:(lia)).
    change (fl_num (fl_of_ratio 0 q)) with 0. lia. }
  rewrite !fl_of_ratio_pos in * by lia.
  pose proof (fl_exp_mono p p' q ltac:(lia) Hq) as Hm.
  pose proof (fl_mant_bounds p q ltac:(lia) Hq) as B.
  pose proof (fl_mant_bounds p' q ltac:(lia) Hq) as B'.
  set (e := fl_exp p q) in *. set (e' := fl_exp p' q) in *.
  set (k := Z.abs e + Z.abs e').
  assert (0 < 2 ^ k) by lia.
  assert (fl_mant p q e * scale k e <= fl_mant p' q e' * scale k e') as Hs.
  { destruct (decide (e = e')) as [->|].
    - assert (0 < scale k e') by (unfold scale; lia).
      assert (fl_mant p q e' <= fl_mant p' q e'); [|nia].
      unfold fl_mant. destruct (Z.ltb_spec e' 0); apply rhe_mono; try lia; nia.
    - assert (2 * scale k e <= scale k e').
      { unfold scale. rewrite <- Z.pow_succ_r by lia. apply Z.pow_le_mono_r; lia. }
      assert (0 < scale k e) by (unfold scale; lia).
      assert (2 ^ 53 = 2 * 2 ^ 52) by reflexivity. nia. }
  pose proof (fl_scaled k (Fl (fl_mant p q e) e) ltac:(simpl; lia) ltac:(lia)) as S.
  pose proof (fl_scaled k (Fl (fl_mant p' q e') e') ltac:(simpl; lia) ltac:(lia)) as S'.
  simpl in S, S'. set (x := Fl _ e) in *. set (x' := Fl _ e') in *.
  apply (Z.mul_le_mono_pos_r _ _ (2 ^ k)); [done|].
  replace (fl_num x * fl_den x' * 2 ^ k) with (fl_num x * 2 ^ k * fl_den x') by ring.
  replace (fl_num x' * fl_den x * 2 ^ k) with (fl_num x' * 2 ^ k * fl_den x) by ring.
  rewrite S, S', <- !(Z.mul_assoc _ (fl_den _)), (Z.mul_comm (fl_den x') (fl_den x)).
  apply Z.mul_le_mono_nonneg_r; [nia|exact Hs].
Qed.

Lemma rhe_cross p q p' q' :
  0 < q -> 0 < q' -> p * q' <= p' * q -> rhe p q <= rhe p' q'.
Proof.
  intros Hq Hq' H.
  assert (forall a b c, 0 < b -> 0 < c -> rhe (a * c) (b * c) = rhe a b) as Hsc.
  { intros a b c Hb Hc. unfold rhe.
    rewrite Z.div_mul_cancel_r, Z.mul_mod_distr_r by lia.
    by rewrite Z.mul_assoc, <- Zmult_compare_compat_r by lia. }
  rewrite <- (Hsc p q q'), <- (Hsc p' q' q) by lia.
  rewrite (Z.mul_comm q' q). apply rhe_mono; nia.
Qed.

Lemma round1_mono x y : fl_leb x y = true -> round1 x <= round1 y.
Proof.
  unfold fl_leb, round1. rewrite Z.leb_le. intros H.
  apply rhe_cross; [apply fl_den_pos..|]. nia.
Qed.

(** A larger part of the same whole never reports a smaller percentage. *)
Lemma pct1_mono part part' whole :
  0 < whole -> 0 <= part <= part' -> pct1 part whole <= pct1 part' whole.
Proof.
  intros Hw Hp. unfold pct1, truediv. rewrite Z.sgn_pos, !Z.mul_1_r, Z.abs_eq by lia.
  apply round1_mono, fl_of_ratio_mono; lia.
Qed.

Create HintDb pynum.
#[export] Hint Resolve rhe_ge rhe_le pct1_bounds pct1_mono : pynum.

Example truediv_third : truediv 1 3 = Fl 6004799503160661 (-54).
Proof. vm_compute. reflexivity. Qed.
Example round1_one_third : pct1 1 3 = 333.
Proof. vm_compute. reflexivity. Qed.
(** 100 * 21 / 2000 is 1.05, whose nearest float lies above 1.05. *)
Example round1_not_a_tie : pct1 21 2000 = 11.
Proof. vm_compute. reflexivity. Qed.
Example round1_tie_even : pct1 1 16 = 62.
Proof. vm_compute. reflexivity. Qed.

(** ** [min(l, key=f)] and [max(l, key=f)] on a non-empty list: the first
    element with the least (greatest) key. *)

Section by_key.
Context {A : Type} (key : A -> Z).

Definition min_by (x : A) (l : list A) : A :=
  fold_left (fun best v => if key v <? key best then v else best) l x.

Definition max_by (x : A) (l : list A) : A :=
  fold_left (fun best v => if key best <? key v then v else best) l x.

Lemma min_by_spec x l :
  min_by x l ∈ x :: l /\ forall y, y ∈ x :: l -> key (min_by x l) <= key y.
Proof.
  unfold min_by. revert x. induction l as [|v l IH]; intros x; simpl.
  - split; [by left|]. intros y Hy. apply list_elem_of_singleton in Hy as ->. lia.
  - destruct (IH (if key v <? key x then v else x)) as [H1 H2]. split.
    + destruct (key v <? key x); set_solver.
    + assert (key (fold_left (fun best v => if key v <? key best then v else best) l
        (if key v <? key x then v else x)) <= key (if key v <? key x then v else x))
        by (apply H2; by left).
      destruct (Z.ltb_spec (key v) (key x)); intros y [->|[->|Hy]%elem_of_cons]%elem_of_cons;
        try lia; apply H2; by right.
Qed.

Lemma max_by_spec x l :
  max_by x l ∈ x :: l /\ forall y, y ∈ x :: l -> key y <= key (max_by x l).
Proof.
  unfold max_by. revert x. induction l as [|v l IH]; intros x; simpl.
  - split; [by left|]. intros y Hy. apply list_elem_of_singleton in Hy as ->. lia.
  - destruct (IH (if key x <? key v then v else x)) as [H1 H2]. split.
    + destruct (key x <? key v); set_solver.
    + assert (key (if key x <? key v then v else x) <=
        key (fold_left (fun best v => if key best <? key v then v else best) l
        (if key x <? key v then v else x))) by (apply H2; by left).
      destruct (Z.ltb_spec (key x) (key v)); intros y [->|[->|Hy]%elem_of_cons]%elem_of_cons;
        try lia; apply H2; by right.
Qed.

End by_key.

(** [tuple.index(x)]: raises on a missing element. *)
Fixpoint index_of (x : string) (l : list string) : res Z :=
  match l with
  | [] => Err (ValueError "tuple.index(x): x not in tuple")
  | y :: l' => if decide (x = y) then Ok 0 else let! n := index_of x l' in Ok (n + 1)
  end.

Lemma index_of_ok x l : x ∈ l -> exists n, index_of x l = Ok n.
Proof.
  induction l as [|y l IH]; [by intros ?%not_elem_of_nil|].
  intros H. simpl. case_decide; [by eexists|].
  apply elem_of_cons in H as [?|H]; [done|]. destruct (IH H) as [n ->]. by eexists.
Qed.
