(* ===== verification/PyVal.v ===== *)
(** The Python values the program receives from JSON: [None], booleans, ints,
    floats, strings, lists and dicts with string keys, with the operations of
    the language the code applies to them: truth value, [==], [in], [str] and
    [repr], dict lookup and insertion.

    A dict is an association list in insertion order whose keys are distinct;
    [dget]/[dset] are [d.get(k)] and [d[k] = v]. *)

From S2P Require Export Prelude PyNum.

Local Open Scope Z_scope.

Inductive pyval :=
| VNone
| VBool (b : bool)
| VInt (z : Z)
| VFloat (x : float)
| VStr (s : string)
| VList (l : list pyval)
| VDict (d : list (string * pyval)).

(** ** Dicts *)

Section dict.
Context {A : Type}.
Implicit Types d : list (string * A).

Fixpoint dget (k : string) d : option A :=
  match d with
  | [] => None
  | (k', v) :: d' => if decide (k = k') then Some v else dget k d'
  end.

Fixpoint dset (k : string) (v : A) d : list (string * A) :=
  match d with
  | [] => [(k, v)]
  | (k', v') :: d' => if decide (k = k') then (k, v) :: d' else (k', v') :: dset k v d'
  end.

Definition dkeys d : list string := map fst d.
Definition dvals d : list A := map snd d.
Definition dhas (k : string) d : bool := mem k (dkeys d).

Lemma dget_dset_eq k v d : dget k (dset k v d) = Some v.
Proof.
  induction d as [|[k' v'] d IH]; simpl; [by rewrite decide_True|].
  case_decide; simpl; [by rewrite decide_True|]. by rewrite decide_False.
Qed.

Lemma dget_dset_ne k k' v d : k ≠ k' -> dget k (dset k' v d) = dget k d.
Proof.
  intros Hne. induction d as [|[k2 v2] d IH]; simpl; [by rewrite decide_False|].
  case_decide; simpl; repeat case_decide; naive_solver.
Qed.

Lemma dset_dset k (v w : A) d : dset k w (dset k v d) = dset k w d.
Proof.
  induction d as [|[k' x] d IH]; simpl; [by rewrite decide_True|].
  case_decide; simpl; [by rewrite decide_True|]. by rewrite decide_False, IH.
Qed.

Lemma dset_same k v d : dget k d = Some v -> dset k v d = d.
Proof.
  induction d as [|[k' x] d IH]; simpl; [done|]. case_decide as E; [by intros [= ->]; subst|]. intros H. by rewrite IH.
Qed.

Lemma dget_None k d : dget k d = None <-> k ∉ dkeys d.
Proof.
  induction d as [|[k' v] d IH]; simpl; [split; [intros _ H; inversion H|done]|].
  rewrite not_elem_of_cons. case_decide; naive_solver.
Qed.

Lemma dget_Some_elem k v d : dget k d = Some v -> (k, v) ∈ d.
Proof.
  induction d as [|[k' v'] d IH]; simpl; [done|].
  case_decide; subst; [intros [= ->]; left|right; auto].
Qed.

Lemma dget_elem k v d : NoDup (dkeys d) -> (k, v) ∈ d -> dget k d = Some v.
Proof.
  induction d as [|[k' v'] d IH]; simpl; [by inversion 2|].
  intros [Hk Hd]%NoDup_cons [[= <- <-]|Hin]%elem_of_cons; [by rewrite decide_True|].
  case_decide; subst; [|auto]. destruct Hk. by apply (list_elem_of_fmap_2 fst) in Hin.
Qed.

Lemma elem_of_dkeys_dset k k' v d : k ∈ dkeys (dset k' v d) <-> k = k' \/ k ∈ dkeys d.
Proof.
  induction d as [|[k2 v2] d IH]; simpl; [set_solver|].
  case_decide; subst; simpl; rewrite !elem_of_cons; [tauto|]. rewrite IH. tauto.
Qed.

Lemma dset_NoDup k v d : NoDup (dkeys d) -> NoDup (dkeys (dset k v d)).
Proof.
  induction d as [|[k2 v2] d IH]; simpl; intros Hd.
  - constructor; [apply not_elem_of_nil|constructor].
  - apply NoDup_cons in Hd as [Hk Hd].
    case_decide; subst; simpl; constructor; auto.
    rewrite elem_of_dkeys_dset. naive_solver.
Qed.
End dict.

(** ** Truth value, type tests, equality *)

Definition truthy (v : pyval) : bool :=
  match v with
  | VNone => false
  | VBool b => b
  | VInt z => negb (z =? 0)
  | VFloat x => negb (fl_is_zero x)
  | VStr s => str_truthy s
  | VList l => match l with [] => false | _ => true end
  | VDict d => match d with [] => false | _ => true end
  end.

Definition is_none (v : pyval) : bool := match v with VNone => true | _ => false end.
Definition is_str (v : pyval) : bool := match v with VStr _ => true | _ => false end.

(** A number's exact value as a ratio: [True == 1 == 1.0]. *)
Definition as_num (v : pyval) : option (Z * Z) :=
  match v with
  | VBool b => Some (if b then 1 else 0, 1)
  | VInt z => Some (z, 1)
  | VFloat x => Some (fl_num x, fl_den x)
  | _ => None
  end.

Fixpoint py_eq (a b : pyval) {struct a} : bool :=
  match a, b with
  | VNone, VNone => true
  | VStr s, VStr t => bool_decide (s = t)
  | VList l, VList k =>
      (fix go (l k : list pyval) : bool :=
         match l, k with
         | [], [] => true
         | x :: l', y :: k' => py_eq x y && go l' k'
         | _, _ => false
         end) l k
  | VDict d, VDict e =>
      Nat.eqb (List.length d) (List.length e) &&
      (fix go (d : list (string * pyval)) : bool :=
         match d with
         | [] => true
         | (k, x) :: d' =>
             match dget k e with Some y => py_eq x y | None => false end && go d'
         end) d
  | _, _ =>
      match as_num a, as_num b with
      | Some (p, q), Some (p', q') => p * q' =? p' * q
      | _, _ => false
      end
  end.

(** [v in l] on a list. *)
Definition py_in (v : pyval) (l : list pyval) : bool := existsb (py_eq v) l.

(** Lists and dicts are unhashable: [set(l)] raises on them. *)
Definition hashable (v : pyval) : bool :=
  match v with VList _ | VDict _ => false | _ => true end.

(** [v.get(k)] on a dict value: [VNone] for a missing key. *)
Definition vget (k : string) (d : list (string * pyval)) : pyval := default VNone (dget k d).

(** ** Recursion into a value

    [f] applied to [d[k]], and [f] mapped over a list, in a form a recursive
    definition on values can use; iterating a value yields its elements, the
    characters of a string or the keys of a dict. *)

Section with_value.
Context {B : Type} (f : pyval -> B).
Fixpoint dget_with (k : string) (d : list (string * pyval)) : option B :=
  match d with
  | [] => None
  | (k', v) :: d' => if decide (k = k') then Some (f v) else dget_with k d'
  end.
Lemma dget_with_spec k d : dget_with k d = f <$> dget k d.
Proof. induction d as [|[k' v] d IH]; simpl; [done|]. by case_decide. Qed.
End with_value.

Section map_value.
Context {B : Type} (f : pyval -> res B).
Fixpoint res_mapv (l : list pyval) : res (list B) :=
  match l with
  | [] => Ok []
  | v :: l' => let! a := f v in let! b := res_mapv l' in Ok (a :: b)
  end.
Lemma res_mapv_eq l : res_mapv l = res_map f l.
Proof. induction l as [|v l IH]; simpl; [done|]. by rewrite IH. Qed.
End map_value.

Fixpoint str_chars (s : string) : list string :=
  match s with EmptyString => [] | String c s' => String c "" :: str_chars s' end.

Definition not_iterable (t : string) : exn := TypeError ("'" +:+ t +:+ "' object is not iterable").

(** ** [str] and [repr] *)

Definition quote1 : ascii := "'"%char.
Definition quote2 : ascii := ascii_of_nat 34.
Definition backslash : ascii := ascii_of_nat 92.

Definition hex_digit (n : N) : ascii :=
  if (n <? 10)%N then ascii_of_N (48 + n) else ascii_of_N (87 + n).

Definition repr_char (q c : ascii) : string :=
  let n := cp c in
  if decide (c = backslash) then String backslash (String backslash "")
  else if decide (c = q) then String backslash (String q "")
  else if (n =? 10)%N then String backslash "n"
  else if (n =? 13)%N then String backslash "r"
  else if (n =? 9)%N then String backslash "t"
  else if ((n <? 32) || ((127 <=? n) && (n <=? 160)) || (n =? 173))%N
  then String backslash (String "x" (String (hex_digit (n / 16)) (String (hex_digit (n mod 16)) "")))
  else String c "".

Fixpoint str_concat_map (f : ascii -> string) (s : string) : string :=
  match s with EmptyString => "" | String c s' => f c +:+ str_concat_map f s' end.

Fixpoint str_has (c : ascii) (s : string) : bool :=
  match s with EmptyString => false | String d s' => bool_decide (c = d) || str_has c s' end.

(** [repr(s)] on a string: single quotes unless the text has only single ones. *)
Definition repr_str (s : string) : string :=
  let q := if str_has quote1 s && negb (str_has quote2 s) then quote2 else quote1 in
  String q (str_concat_map (repr_char q) s +:+ String q "").

(** The decimal digits of a float with [n] significant digits: the integer
    significand and the decimal exponent of its last digit. *)
Definition dec_of_float (p q : Z) (n : nat) : Z * Z :=
  let guess := (Z.log2 p - Z.log2 q) * 30103 / 100000 in
  let at_exp e :=
    if e <? 0 then rhe (p * 10 ^ (- e)) q else rhe p (q * 10 ^ e) in
  let fix find fuel e :=
    match fuel with
    | O => e
    | S f => if at_exp e <? 10 ^ (Z.of_nat n) then e else find f (e + 1)
    end in
  let e := find 4%nat (guess - Z.of_nat n - 1) in
  (at_exp e, e).

(** The shortest decimal that reads back as the float. *)
Fixpoint shortest_dec (p q : Z) (fuel n : nat) : Z * Z :=
  let '(m, e) := dec_of_float p q n in
  match fuel with
  | O => (m, e)
  | S f =>
      let x := if e <? 0 then fl_of_ratio m (10 ^ (- e)) else fl_of_ratio (m * 10 ^ e) 1 in
      if fl_num x * q =? p * fl_den x then (m, e) else shortest_dec p q f (S n)
  end.

Fixpoint zeros (n : nat) : string := match n with O => "" | S n' => String "0" (zeros n') end.

Fixpoint str_take (n : nat) (s : string) : string :=
  match n, s with
  | S n', String c s' => String c (str_take n' s')
  | _, _ => ""
  end.
Fixpoint str_drop (n : nat) (s : string) : string :=
  match n, s with
  | S n', String _ s' => str_drop n' s'
  | _, _ => s
  end.

(** [repr(x)] of a float in the range printed without an exponent; outside it
    (below 1e-4 or from 1e16) the exponent form. *)
Definition repr_float (x : float) : string :=
  let p := fl_num x in
  let q := fl_den x in
  if p =? 0 then "0.0" else
  let '(m, e) := shortest_dec (Z.abs p) q 17 1 in
  let digits := pretty m in
  let len := Z.of_nat (String.length digits) in
  let point := len + e in
  let body :=
    if (-4 <? point) && (point <=? 16) then
      if point <=? 0 then "0." +:+ zeros (Z.to_nat (- point)) +:+ digits
      else if len <=? point then digits +:+ zeros (Z.to_nat (point - len)) +:+ ".0"
      else str_take (Z.to_nat point) digits +:+ "." +:+ str_drop (Z.to_nat point) digits
    else
      let ex := point - 1 in
      let mant := if len =? 1 then digits
                  else str_take 1 digits +:+ "." +:+ str_drop 1 digits in
      let exs := pretty (Z.abs ex) in
      mant +:+ (if ex <? 0 then "e-" else "e+") +:+
      (if Z.abs ex <? 10 then "0" +:+ exs else exs)
  in
  if p <? 0 then "-" +:+ body else body.

Fixpoint py_repr (v : pyval) : string :=
  match v with
  | VNone => "None"
  | VBool b => if b then "True" else "False"
  | VInt z => pretty z
  | VFloat x => repr_float x
  | VStr s => repr_str s
  | VList l => "[" +:+ join ", " (map py_repr l) +:+ "]"
  | VDict d => "{" +:+ join ", " (map (fun kv => repr_str kv.1 +:+ ": " +:+ py_repr kv.2) d) +:+ "}"
  end.

Definition py_str (v : pyval) : string :=
  match v with VStr s => s | _ => py_repr v end.

(** [type(v).__name__]. *)
Definition type_name (v : pyval) : string :=
  match v with
  | VNone => "NoneType" | VBool _ => "bool" | VInt _ => "int" | VFloat _ => "float"
  | VStr _ => "str" | VList _ => "list" | VDict _ => "dict"
  end.

(** [iter(v)] *)
Definition iter_val (v : pyval) : res (list pyval) :=
  match v with
  | VList l => Ok l
  | VStr s => Ok (map VStr (str_chars s))
  | VDict d => Ok (map VStr (dkeys d))
  | _ => Err (not_iterable (type_name v))
  end.

(** An attribute or method a value of another type does not have. *)
Definition AttributeError (t attr : string) : exn :=
  Exn "AttributeError" ("'" +:+ t +:+ "' object has no attribute '" +:+ attr +:+ "'").

Example repr_float_tenth : repr_float (fl_of_ratio 1 10) = "0.1".
Proof. vm_compute. reflexivity. Qed.
Example repr_float_big : repr_float (fl_of_ratio (10 ^ 22) 1) = "1e+22".
Proof. vm_compute. reflexivity. Qed.
Example repr_list : py_repr (VList [VInt 1; VStr "a'b"; VFloat (fl_of_ratio 5 2)]) =
  ("[1, " +:+ String quote2 ("a'b" +:+ String quote2 ", 2.5]"))%string.
Proof. vm_compute. reflexivity. Qed.

(** ** An induction principle that reaches inside lists and dicts *)

Section pyval_ind.
Variable P : pyval -> Prop.
Hypothesis HNone : P VNone.
Hypothesis HBool : forall b, P (VBool b).
Hypothesis HInt : forall z, P (VInt z).
Hypothesis HFloat : forall x, P (VFloat x).
Hypothesis HStr : forall s, P (VStr s).
Hypothesis HList : forall l, Forall P l -> P (VList l).
Hypothesis HDict : forall d, Forall (fun kv => P kv.2) d -> P (VDict d).

Fixpoint pyval_induction (v : pyval) : P v :=
  match v with
  | VNone => HNone
  | VBool b => HBool b
  | VInt z => HInt z
  | VFloat x => HFloat x
  | VStr s => HStr s
  | VList l =>
      HList l ((fix go l : Forall P l :=
                  match l with
                  | [] => @List.Forall_nil _ P
                  | x :: l' => @List.Forall_cons _ P x l' (pyval_induction x) (go l')
                  end) l)
  | VDict d =>
      HDict d ((fix go d : Forall (fun kv => P kv.2) d :=
                  match d with
                  | [] => @List.Forall_nil _ (fun kv => P kv.2)
                  | kv :: d' => @List.Forall_cons _ (fun kv => P kv.2) kv d'
                                  (pyval_induction kv.2) (go d')
                  end) d)
  end.
End pyval_ind.

(** [==] is reflexive on values whose dicts have distinct keys. *)
Fixpoint wf_val (v : pyval) : Prop :=
  match v with
  | VList l => (fix go l := match l with [] => True | x :: l' => wf_val x /\ go l' end) l
  | VDict d => NoDup (dkeys d) /\
      (fix go (d : list (string * pyval)) :=
         match d with [] => True | kv :: d' => wf_val kv.2 /\ go d' end) d
  | _ => True
  end.

Lemma py_eq_refl v : wf_val v -> py_eq v v = true.
Proof.
  induction v as [| | | | |l IH|d IH] using pyval_induction; simpl;
    try (intros _; by (rewrite Z.eqb_refl || rewrite bool_decide_eq_true || idtac)).
  - induction IH as [|x l Hx _ IHl]; [done|]. intros [H1 H2].
    rewrite Hx by done. by apply IHl.
  - intros [Hnd Hwf]. rewrite Nat.eqb_refl. simpl.
    assert (forall e, (forall k y, (k, y) ∈ e -> dget k d = Some y) ->
       Forall (fun kv => wf_val kv.2 -> py_eq kv.2 kv.2 = true) e ->
       (fix go (d : list (string * pyval)) : Prop :=
         match d with [] => True | kv :: d' => wf_val kv.2 /\ go d' end) e ->
       (fix go (d0 : list (string * pyval)) : bool :=
         match d0 with
         | [] => true
         | (k, x) :: d' =>
             match dget k d with Some y => py_eq x y | None => false end && go d'
         end) e = true) as Hgo.
    { induction e as [|[k x] e IHe]; [done|]. intros Hg HF [Hw Hws].
      apply Forall_cons in HF as [Hx HF]. rewrite (Hg k x) by left. simpl in *.
      rewrite Hx by done. apply IHe; auto. intros. apply Hg. by right. }
    apply Hgo; auto. intros. by apply dget_elem.
Qed.
