(* ===== verification/PyText.v ===== *)
(** Text conversions of the standard library the program relies on: dates and
    timestamps in ISO form, and [float(s)] on a string.

    A date is the number of days since 1970-01-01, a UTC timestamp the number of
    microseconds since then. *)

From S2P Require Export Prelude PyNum PyVal.

Local Open Scope string_scope.
Local Open Scope Z_scope.

(** ** Dates *)

(** The proleptic Gregorian date of a day number: [(year, month, day)]. *)
Definition civil (days : Z) : Z * Z * Z :=
  let z := days + 719468 in
  let era := z / 146097 in
  let doe := z mod 146097 in
  let yoe := (doe - doe / 1460 + doe / 36524 - doe / 146096) / 365 in
  let doy := doe - (365 * yoe + yoe / 4 - yoe / 100) in
  let mp := (5 * doy + 2) / 153 in
  let d := doy - (153 * mp + 2) / 5 + 1 in
  let m := if mp <? 10 then mp + 3 else mp - 9 in
  (yoe + era * 400 + (if m <=? 2 then 1 else 0), m, d).


(** A non-negative number in at least [n] digits. *)
Definition zfill (n : nat) (z : Z) : string :=
  let s := pretty z in
  zeros (n - String.length s) +:+ s.

Definition date_iso (days : Z) : string :=
  let '(y, m, d) := civil days in
  zfill 4 y +:+ "-" +:+ zfill 2 m +:+ "-" +:+ zfill 2 d.

Definition day_us : Z := 86400 * 1000000.

(** [dt.date()] *)
Definition dt_date (us : Z) : Z := us / day_us.

(** [dt.isoformat()] of an aware UTC timestamp. *)
Definition dt_iso (us : Z) : string :=
  let t := us mod day_us in
  let s := t / 1000000 in
  let f := t mod 1000000 in
  date_iso (dt_date us) +:+ "T" +:+ zfill 2 (s / 3600) +:+ ":" +:+ zfill 2 (s / 60 mod 60) +:+
  ":" +:+ zfill 2 (s mod 60) +:+ (if f =? 0 then "" else "." +:+ zfill 6 f) +:+ "+00:00".

Example date_iso_leap : date_iso 20513 = "2026-03-01" /\ date_iso 19782 = "2024-02-29".
Proof. vm_compute. done. Qed.
Example dt_iso_us : dt_iso 86399000042 = "1970-01-01T23:59:59.000042+00:00".
Proof. vm_compute. done. Qed.

(** ** [float(s)] *)

(** A float read from text can also be infinite or not a number. *)
Inductive xfloat :=
| XFin (x : float)
| XInf (neg : bool)
| XNaN.

Definition x_ltb (a b : xfloat) : bool :=
  match a, b with
  | XNaN, _ | _, XNaN => false
  | XFin x, XFin y => fl_ltb x y
  | XInf n, XInf m => n && negb m
  | XInf n, XFin _ => n
  | XFin _, XInf m => negb m
  end.
Definition x_eqb (a b : xfloat) : bool :=
  match a, b with
  | XFin x, XFin y => fl_eqb x y
  | XInf n, XInf m => eqb n m
  | _, _ => false
  end.
Definition x_leb (a b : xfloat) : bool := x_ltb a b || x_eqb a b.

Definition digits_val (s : string) : Z :=
  (fix go (acc : Z) (s : string) : Z :=
     match s with
     | EmptyString => acc
     | String c s' => go (10 * acc + Z.of_N (cp c - 48)%N) s'
     end) 0 s.

(** An underscore is only allowed between two digits; [None] otherwise. *)
Fixpoint strip_underscores (prev : ascii) (s : string) : option string :=
  match s with
  | EmptyString => if decide (prev = "_"%char) then None else Some ""
  | String c s' =>
      if decide (c = "_"%char) then
        if is_digit prev then strip_underscores c s' else None
      else if bool_decide (prev = "_"%char) && negb (is_digit c) then None
      else String c <$> strip_underscores c s'
  end.

(** An optional sign: is it negative, and what follows. *)
Definition sign_of (s : string) : bool * string :=
  match s with
  | String c s' =>
      if decide (c = "-"%char) then (true, s')
      else if decide (c = "+"%char) then (false, s') else (false, s)
  | EmptyString => (false, s)
  end.

Definition all_digits (s : string) : bool := str_truthy s && str_forallb is_digit s.

(** [int(s)]: an optional sign and at most 4300 digits, with underscores
    between digits. *)
Definition py_int (s : string) : res Z :=
  let bad := ValueError ("invalid literal for int() with base 10: " +:+ repr_str s) in
  match strip_underscores "."%char (strip s) with
  | None => Err bad
  | Some t =>
      let '(neg, u) := sign_of t in
      if negb (all_digits u) then Err bad
      else if 4300 <? Z.of_nat (String.length u) then
        Err (ValueError ("Exceeds the limit (4300 digits) for integer string conversion: value has " +:+
          pretty (Z.of_nat (String.length u)) +:+ " digits; use sys.set_int_max_str_digits() to increase the limit"))
      else Ok (if neg then - digits_val u else digits_val u)
  end.

(** [digits[.digits][e[+-]digits]]: significand and decimal exponent. *)
Definition parse_decimal (s : string) : option (Z * Z) :=
  let ip := take_while is_digit s in
  let r := drop_while is_digit s in
  let '(fp, r2) := match r with
                   | String c r' => if decide (c = "."%char)
                                    then (take_while is_digit r', drop_while is_digit r')
                                    else ("", r)
                   | EmptyString => ("", r)
                   end in
  if negb (str_truthy ip) && negb (str_truthy fp) then None else
  let sig := digits_val (ip +:+ fp) in
  let frac := Z.of_nat (String.length fp) in
  match r2 with
  | EmptyString => Some (sig, - frac)
  | String c r3 =>
      if mem c ["e"%char; "E"%char] then
        let '(neg, ds) := sign_of r3 in
        if all_digits ds then Some (sig, (if neg then - digits_val ds else digits_val ds) - frac)
        else None
      else None
  end.

(** The double nearest to a non-negative ratio, infinite past the largest one. *)
Definition double_of_ratio (neg : bool) (p q : Z) : xfloat :=
  let sg := if neg then -1 else 1 in
  if p =? 0 then XFin (Fl 0 0) else
  let e := Z.max (fl_exp p q) (-1074) in
  let m := fl_mant p q e in
  if (0 <=? e) && (2 ^ 1024 <=? m * 2 ^ e) then XInf neg else XFin (Fl (sg * m) e).

Definition py_float (s : string) : option xfloat :=
  match strip_underscores "."%char (strip s) with
  | None => None
  | Some t =>
      let '(neg, u) := sign_of t in
      let w := lower u in
      if mem w ["inf"; "infinity"] then Some (XInf neg)
      else if decide (w = "nan") then Some XNaN
      else match parse_decimal u with
           | None => None
           | Some (sig, ex) =>
               Some (if ex <? 0 then double_of_ratio neg sig (10 ^ (- ex))
                     else double_of_ratio neg (sig * 10 ^ ex) 1)
           end
  end.

Example py_float_examples :
  py_float " 1_000.5e1 " = Some (XFin (fl_of_ratio 10005 1)) /\
  py_float "1__0" = None /\ py_float "-inf" = Some (XInf true) /\ py_float "1." <> None /\
  py_float "." = None /\ py_float "1e" = None /\ py_float "1e400" = Some (XInf false) /\
  py_float "abc" = None /\ py_float "" = None.
Proof. vm_compute. repeat split; discriminate. Qed.

(** ** Formatting of optional values in f-strings *)

Definition fmt_opt (o : option string) : string := default "None" o.

(** [repr] of a tuple of strings. *)
Definition repr_tuple (l : list string) : string :=
  match l with
  | [x] => "(" +:+ repr_str x +:+ ",)"
  | _ => "(" +:+ join ", " (map repr_str l) +:+ ")"
  end.

Definition str_take512 (s : string) : string := str_take 512 s.

(** Comparison of floats read from text
    is a linear order away from NaN. *)
Lemma x_ltb_not_leb a b : a <> XNaN -> b <> XNaN -> x_ltb a b = negb (x_leb b a).
Proof.
  destruct a as [x|[]|], b as [y|[]|]; try done. intros _ _. unfold x_leb. simpl.
  unfold fl_ltb, fl_eqb. apply eq_true_iff_eq.
  rewrite negb_true_iff, orb_false_iff, !Z.ltb_lt, Z.ltb_ge, Z.eqb_neq. lia.
Qed.

(** [float(z)] of an int. *)
Definition float_of_int (z : Z) : res xfloat :=
  match double_of_ratio (z <? 0) (Z.abs z) 1 with
  | XFin x => Ok (XFin x)
  | _ => Err (Exn "OverflowError" "int too large to convert to float")
  end.

(** [float(v)] *)
Definition float_of_val (v : pyval) : res xfloat :=
  match v with
  | VFloat x => Ok (XFin x)
  | VBool b => float_of_int (if b then 1 else 0)
  | VInt z => float_of_int z
  | VStr s => match py_float s with Some x => Ok x | None => Err (ValueError ("could not convert string to float: " +:+ repr_str s)) end
  | _ => Err (Exn "TypeError" ("float() argument must be a string or a real number, not '" +:+ type_name v +:+ "'"))
  end.
