(* ===== verification/PyTime.v ===== *)
(** [datetime.fromisoformat], aware and naive timestamps, and what the program computes
    from them: differences, whole days, and [isoformat].

    The grammar is that of the standard library's own definition (Lib/_pydatetime.py,
    Python 3.12): a calendar or week date, with or without separators, any one
    character, a time of up to six fractional digits, and [Z] or an offset. *)

From S2P Require Export PyText.

Local Open Scope string_scope.
Local Open Scope Z_scope.

(** ** Digits *)

Definition take_num (n : nat) (s : string) : option (Z * string) :=
  let d := str_take n s in
  if (String.length d =? n)%nat && str_forallb is_digit d then Some (digits_val d, str_drop n s) else None.

Definition expect (c : ascii) (s : string) : option string :=
  match s with String d s' => if decide (d = c) then Some s' else None | EmptyString => None end.

Definition char_at (n : nat) (s : string) : option ascii := match str_drop n s with String c _ => Some c | EmptyString => None end.
Definition char_is (n : nat) (c : ascii) (s : string) : bool := bool_decide (char_at n s = Some c).
Definition digit_at (n : nat) (s : string) : bool := match char_at n s with Some c => is_digit c | None => false end.

(** ** Calendar *)

Definition is_leap (y : Z) : bool := (y mod 4 =? 0) && (negb (y mod 100 =? 0) || (y mod 400 =? 0)).
Definition days_in_month (y m : Z) : Z :=
  if m =? 2 then if is_leap y then 29 else 28 else if mem m [4; 6; 9; 11] then 30 else 31.

(** The day number of a date of the proleptic Gregorian calendar. *)
Definition days_of_civil (y m d : Z) : Z :=
  let y := if m <=? 2 then y - 1 else y in
  let era := y / 400 in
  let yoe := y mod 400 in
  let doy := (153 * (if m >? 2 then m - 3 else m + 9) + 2) / 5 + d - 1 in
  let doe := yoe * 365 + yoe / 4 - yoe / 100 + doy in
  era * 146097 + doe - 719468.

Definition MINYEAR : Z := 1.
Definition MAXYEAR : Z := 9999.
Definition valid_date (y m d : Z) : bool :=
  (MINYEAR <=? y) && (y <=? MAXYEAR) && (1 <=? m) && (m <=? 12) && (1 <=? d) && (d <=? days_in_month y m).

(** The weekday, Monday being 0, and the Monday of the first ISO week. *)
Definition weekday (days : Z) : Z := (days + 3) mod 7.
Definition isoweek1monday (y : Z) : Z :=
  let first := days_of_civil y 1 1 in
  let w := weekday first in
  if w >? 3 then first - w + 7 else first - w.
Definition has_week_53 (y : Z) : bool :=
  let w := weekday (days_of_civil y 1 1) in (w =? 3) || ((w =? 2) && is_leap y).
Definition isoweek_days (y w d : Z) : option Z :=
  if (MINYEAR <=? y) && (y <=? MAXYEAR) && (1 <=? w) && ((w <=? 52) || ((w =? 53) && has_week_53 y)) && (1 <=? d) && (d <=? 7)
  then let n := isoweek1monday y + (w - 1) * 7 + (d - 1) in
       if let '(y', _, _) := civil n in (MINYEAR <=? y') && (y' <=? MAXYEAR) then Some n else None
  else None.

(** ** Parsing *)

(** Where the date ends. *)
Definition separator_location (s : string) : option nat :=
  let len := String.length s in
  if (len <? 7)%nat then None
  else if (len =? 7)%nat then Some 7%nat
  else if char_is 4 "-" s then
    if char_is 5 "W" s then
      if char_is 8 "-" s then
        if (len =? 9)%nat then None else if digit_at 10 s then Some 8%nat else Some 10%nat
      else Some 8%nat
    else Some 10%nat
  else if char_is 4 "W" s then
    let idx := (7 + String.length (take_while is_digit (str_drop 7 s)))%nat in
    if (idx <? 9)%nat then Some idx else if Nat.even idx then Some 7%nat else Some 8%nat
  else Some 8%nat.

Definition parse_date (s : string) : option Z :=
  '(y, r) ← take_num 4 s;
  let sep := char_is 0 "-" r in
  let r := if sep then str_drop 1 r else r in
  match expect "W" r with
  | Some r =>
      '(w, r) ← take_num 2 r;
      match r with
      | EmptyString => isoweek_days y w 1
      | _ => r ← (if sep then expect "-" r else Some r);
             '(d, r) ← take_num 1 r;
             if str_truthy r then None else isoweek_days y w d
      end
  | None =>
      '(m, r) ← take_num 2 r;
      r ← (if sep then expect "-" r else Some r);
      '(d, r) ← take_num 2 r;
      if str_truthy r then None else if valid_date y m d then Some (days_of_civil y m d) else None
  end.

(** [.] or [,] and digits, of which six count. *)
Definition parse_fraction (s : string) : option Z :=
  match s with
  | EmptyString => Some 0
  | String c r =>
      if bool_decide (c = "."%char \/ c = ","%char) && all_digits r
      then let d := str_take 6 r in Some (digits_val d * 10 ^ (6 - Z.of_nat (String.length d)))
      else None
  end.
(** [HH[:?MM[:?SS[{.,}fff[fff]]]]], separators throughout or nowhere. *)
Definition parse_clock (s : string) : option (Z * Z * Z * Z) :=
  '(h, r) ← take_num 2 s;
  if negb (str_truthy r) then Some (h, 0, 0, 0) else
  let sep := char_is 0 ":" r in
  '(m, r) ← take_num 2 (if sep then str_drop 1 r else r);
  if negb (str_truthy r) then Some (h, m, 0, 0) else
  r ← (if sep then expect ":" r else Some r);
  '(sc, r) ← take_num 2 r;
  us ← parse_fraction r;
  Some (h, m, sc, us).

Definition us_per_second : Z := 1000000.
Definition clock_us (t : Z * Z * Z * Z) : Z := let '(h, m, s, us) := t in ((h * 60 + m) * 60 + s) * us_per_second + us.
Definition valid_clock (t : Z * Z * Z * Z) : bool := let '(h, m, s, _) := t in (h <? 24) && (m <? 60) && (s <? 60).

Definition zone_char (c : ascii) : bool := bool_decide (c = "+"%char \/ c = "-"%char \/ c = "Z"%char).
(** What follows the clock: nothing, [Z], or an offset of less than a day. *)
Definition parse_zone (s : string) : option (option Z) :=
  match s with
  | EmptyString => Some None
  | "Z" => Some (Some 0)
  | String c r =>
      if decide (c = "Z"%char) then None else
      t ← parse_clock r;
      if clock_us t <? day_us then Some (Some (if decide (c = "-"%char) then - clock_us t else clock_us t)) else None
  end.

(** A timestamp: its local time, in microseconds since 1970, and its offset from UTC if it
    has one. *)
Record DateTime := { dt_local : Z; dt_offset : option Z }.

Definition parse_time (s : string) : option (Z * option Z) :=
  let clock := take_while (fun c => negb (zone_char c)) s in
  t ← parse_clock clock;
  zone ← parse_zone (str_drop (String.length clock) s);
  if valid_clock t then Some (clock_us t, zone) else None.

(** [None] for the [ValueError]. *)
Definition fromisoformat (s : string) : option DateTime :=
  at_ ← separator_location s;
  days ← parse_date (str_take at_ s);
  let r := str_drop (S at_) s in
  '(us, zone) ← (if str_truthy r then parse_time r else Some (0, None));
  Some {| dt_local := days * day_us + us; dt_offset := zone |}.

(** [s.replace("Z", "+00:00")] *)
Fixpoint zulu (s : string) : string :=
  match s with
  | EmptyString => ""
  | String c s' => if decide (c = "Z"%char) then "+00:00" +:+ zulu s' else String c (zulu s')
  end.

(** ** Using a timestamp *)

Definition utc (t : DateTime) : option Z := (fun o => dt_local t - o) <$> dt_offset t.
(** Whole days of a difference: [.days] rounds down. *)
Definition td_days (us : Z) : Z := us / day_us.

Definition naive_error (verb : string) : exn := TypeError ("can't " +:+ verb +:+ " offset-naive and offset-aware datetimes").
(** [now - t] of an aware [now]. *)
Definition minus_dt (now : Z) (t : DateTime) : res Z :=
  match utc t with Some u => Ok (now - u) | None => Err (naive_error "subtract") end.
(** [a > b] *)
Definition dt_gt (a b : DateTime) : res bool :=
  match utc a, utc b with
  | Some x, Some y => Ok (y <? x)
  | None, None => Ok (dt_local b <? dt_local a)
  | _, _ => Err (naive_error "compare")
  end.

(** The offset as [isoformat] writes it. *)
Definition offset_iso (o : Z) : string :=
  let a := Z.abs o in
  let s := a / us_per_second in
  (if o <? 0 then "-" else "+") +:+ zfill 2 (s / 3600) +:+ ":" +:+ zfill 2 (s / 60 mod 60) +:+
  (if a mod (60 * us_per_second) =? 0 then ""
   else ":" +:+ zfill 2 (s mod 60) +:+ (if a mod us_per_second =? 0 then "" else "." +:+ zfill 6 (a mod us_per_second))).
Definition iso_with (sep : string) (t : DateTime) : string :=
  let us := dt_local t mod day_us in
  let s := us / us_per_second in
  date_iso (dt_date (dt_local t)) +:+ sep +:+ zfill 2 (s / 3600) +:+ ":" +:+ zfill 2 (s / 60 mod 60) +:+ ":" +:+ zfill 2 (s mod 60) +:+
  (if us mod us_per_second =? 0 then "" else "." +:+ zfill 6 (us mod us_per_second)) +:+ match dt_offset t with Some o => offset_iso o | None => "" end.
Definition isoformat : DateTime -> string := iso_with "T".
(** [str(t)] *)
Definition dt_str : DateTime -> string := iso_with " ".

Example zulu_time : fromisoformat (zulu "2024-02-29T12:30:45.5Z") = Some {| dt_local := (days_of_civil 2024 2 29) * day_us + 45045500000; dt_offset := Some 0 |}.
Proof. vm_compute. reflexivity. Qed.
Example forms :
  map (fun s => isoformat <$> fromisoformat s)
    ["2024-03-01"; "20240301"; "2024-W09-5"; "2024W095"; "2024-W09"; "2024-03-01T10"; "20240301T101112"; "2024-03-01 10:11:12,123456789-05:30"] =
  map Some ["2024-03-01T00:00:00"; "2024-03-01T00:00:00"; "2024-03-01T00:00:00"; "2024-03-01T00:00:00"; "2024-02-26T00:00:00"; "2024-03-01T10:00:00"; "2024-03-01T10:11:12";
            "2024-03-01T10:11:12.123456-05:30"].
Proof. vm_compute. reflexivity. Qed.
Example malformed :
  map fromisoformat [""; "never"; "2024-2-3"; "2023-02-29"; "2024-03-01T"; "2024-03-01T1"; "2024-03-01T25:00"; "2024-03-01T10:11:12Z1"; "2024-03-01T10:11+24:00"; "0000-01-01"] =
  [None; None; None; None; Some {| dt_local := days_of_civil 2024 3 1 * day_us; dt_offset := None |}; None; None; None; None; None].
Proof. vm_compute. reflexivity. Qed.
