(* ===== verification/Json.v ===== *)
(** [json.dumps(v, sort_keys=True, separators=(",", ":"))] of the standard
    library: the canonical text the audit chain hashes.

    [sort_keys] orders the keys of every dict, [emit] prints. Two values print
    alike exactly when they are equal up to the order of their keys, which is
    what makes the text a faithful stand-in for the value; floats, whose
    printing is [repr_float], are outside that statement. *)

From S2P Require Export PyText.

Local Open Scope string_scope.
Local Open Scope Z_scope.

(** ** Text *)

(** [ensure_ascii] escapes every character outside the printable ASCII range. *)
Definition json_char (c : ascii) : string :=
  let n := cp c in
  if decide (c = quote2) then String backslash (String quote2 "")
  else if decide (c = backslash) then String backslash (String backslash "")
  else if (n =? 8)%N then String backslash "b"
  else if (n =? 9)%N then String backslash "t"
  else if (n =? 10)%N then String backslash "n"
  else if (n =? 12)%N then String backslash "f"
  else if (n =? 13)%N then String backslash "r"
  else if ((32 <=? n) && (n <=? 126))%N then String c ""
  else String backslash
         (String "u" (String "0" (String "0" (String (hex_digit (n / 16)) (String (hex_digit (n mod 16)) ""))))).

Definition json_str (s : string) : string :=
  String quote2 (str_concat_map json_char s +:+ String quote2 "").

(** ** Keys in order *)

Section by_key.
Context {A : Type}.
Definition key_le (x y : string * A) : Prop := str_le x.1 y.1.
#[export] Instance key_le_dec x y : Decision (key_le x y).
Proof. unfold key_le. apply _. Defined.
#[export] Instance key_le_total : Total key_le.
Proof. intros x y. apply str_le_total. Qed.
#[export] Instance key_le_trans : Transitive key_le.
Proof. intros x y z. apply str_le_trans. Qed.

Definition sort_items (d : list (string * A)) : list (string * A) := merge_sort key_le d.
End by_key.

Fixpoint sort_keys (v : pyval) : pyval :=
  match v with
  | VList l => VList (map sort_keys l)
  | VDict d => VDict (sort_items (map (fun kv => (kv.1, sort_keys kv.2)) d))
  | _ => v
  end.

Fixpoint emit (v : pyval) : string :=
  match v with
  | VNone => "null"
  | VBool b => if b then "true" else "false"
  | VInt z => pretty z
  | VFloat x => repr_float x
  | VStr s => json_str s
  | VList l => "[" +:+ join "," (map emit l) +:+ "]"
  | VDict d => "{" +:+ join "," (map (fun kv => json_str kv.1 +:+ ":" +:+ emit kv.2) d) +:+ "}"
  end.

Definition json_dumps (v : pyval) : string := emit (sort_keys v).

Example json_dumps_example :
  json_dumps (VDict [("b", VList [VInt (-3); VNone; VBool true]);
                     ("a", VStr (String quote2 (String (ascii_of_nat 233) "")))]) =
  ("{" +:+ json_str "a" +:+ ":" +:+ String quote2 (String backslash (String quote2 (String backslash
     ("u00e9" +:+ String quote2 ("," +:+ json_str "b" +:+ ":[-3,null,true]}")))))).
Proof. vm_compute. reflexivity. Qed.

(** No float anywhere in the value. *)
Fixpoint float_free (v : pyval) : bool :=
  match v with
  | VFloat _ => false
  | VList l => forallb float_free l
  | VDict d => forallb (fun kv => float_free kv.2) d
  | _ => true
  end.

(** ** The text determines the value *)

Definition num_char (c : ascii) : bool := is_digit c || bool_decide (c = "-"%char).

Lemma str_forallb_app p s t : str_forallb p (s +:+ t) = str_forallb p s && str_forallb p t.
Proof. induction s as [|c s IH]; [done|]. cbn [str_forallb String.append]. by rewrite <-andb_assoc, <-IH. Qed.

Lemma pretty_go_digits x s : str_forallb is_digit s = true -> str_forallb is_digit (pretty_N_go x s) = true.
Proof.
  revert s. induction (N.lt_wf_0 x) as [x _ IH]. intros s Hs.
  destruct (decide (0 < x)%N) as [Hx|Hx].
  - rewrite pretty_N_go_step by done. apply IH; [by apply N.div_lt|]. cbn [str_forallb]. rewrite Hs, andb_true_r.
    unfold pretty_N_char. by repeat case_match.
  - assert (x = 0%N) as -> by lia. by rewrite pretty_N_go_0.
Qed.

Lemma pretty_Z_chars (z : Z) : str_forallb num_char (pretty z) = true /\ pretty z <> "".
Proof.
  assert (Hw : forall s, str_forallb is_digit s = true -> str_forallb num_char s = true).
  { induction s as [|c s IH]; [done|]. cbn [str_forallb]. intros [H1 H2]%andb_true_iff.
    rewrite IH by done. unfold num_char. by rewrite H1. }
  assert (Hp : forall p : positive, str_forallb is_digit (pretty (N.pos p)) = true /\ pretty (N.pos p) <> "").
  { intros p. split; [by apply pretty_go_digits|]. intros H.
    apply (f_equal String.length) in H. revert H. change (pretty (N.pos p)) with (pretty_N_go (N.pos p) "").
    rewrite pretty_N_go_step by done. assert (forall x s, (String.length s <= String.length (pretty_N_go x s))%nat) as Hl.
    { intros x. induction (N.lt_wf_0 x) as [x _ IH]. intros s. destruct (decide (0 < x)%N) as [Hx|Hx].
      - rewrite pretty_N_go_step by done. specialize (IH (x / 10)%N ltac:(by apply N.div_lt) (String (pretty_N_char (x mod 10)) s)).
        cbn [String.length] in IH. lia.
      - assert (x = 0%N) as -> by lia. by rewrite pretty_N_go_0. }
    specialize (Hl (N.pos p / 10)%N (String (pretty_N_char (N.pos p mod 10)) "")). cbn [String.length] in *. lia. }
  destruct z as [|p|p]; [done| |].
  - destruct (Hp p) as [H1 H2]. change (pretty (Z.pos p)) with (pretty (N.pos p)). split; [by apply Hw|done].
  - destruct (Hp p) as [H1 _]. change (pretty (Z.neg p)) with (String "-" (pretty (N.pos p))). split; [|done].
    cbn [str_forallb]. by rewrite (Hw _ H1).
Qed.

(** What may follow a value: nothing, a comma or a closing bracket. *)
Definition delim (r : string) : bool :=
  match r with
  | EmptyString => true
  | String c _ => bool_decide (c = ","%char) || bool_decide (c = "]"%char) || bool_decide (c = "}"%char)
  end.

Lemma take_while_app p s r : str_forallb p s = true ->
  match r with EmptyString => True | String c _ => p c = false end -> take_while p (s +:+ r) = s.
Proof.
  intros Hs Hr. induction s as [|c s IH]; cbn [str_forallb] in Hs.
  - destruct r as [|c r]; [done|]. simpl. by rewrite Hr.
  - apply andb_true_iff in Hs as [Hc Hs]. simpl. by rewrite Hc, IH.
Qed.

Lemma app_inv_str s r r' : s +:+ r = s +:+ r' -> r = r'.
Proof. induction s as [|c s IH]; [done|]. cbn [String.append]. intros [= H]. auto. Qed.

Lemma delim_not_num r : delim r = true -> match r with EmptyString => True | String c _ => num_char c = false end.
Proof.
  destruct r as [|c r]; [done|]. cbn [delim]. rewrite !orb_true_iff, !bool_decide_eq_true.
  by intros [[ -> | -> ]| -> ].
Qed.

Lemma pretty_Z_prefix (z z' : Z) r r' :
  delim r = true -> delim r' = true -> pretty z +:+ r = pretty z' +:+ r' -> z = z' /\ r = r'.
Proof.
  intros Hr Hr' E. destruct (pretty_Z_chars z) as [Hz _], (pretty_Z_chars z') as [Hz' _].
  assert (pretty z = pretty z') as Ez.
  { pose proof (take_while_app num_char (pretty z) r Hz (delim_not_num r Hr)) as H1.
    pose proof (take_while_app num_char (pretty z') r' Hz' (delim_not_num r' Hr')) as H2.
    rewrite E in H1. congruence. }
  rewrite Ez in E. split; [by apply (inj pretty)|by apply app_inv_str in E].
Qed.

(** The escape of a character is recognised by what follows it. *)
Definition unhex (c : ascii) : N := if (cp c <? 58)%N then (cp c - 48)%N else (cp c - 87)%N.
Definition unescape (s : string) : option (ascii * string) :=
  match s with
  | EmptyString => None
  | String c s' =>
      if decide (c = quote2) then None
      else if decide (c = backslash) then
        match s' with
        | String "u" (String _ (String _ (String a (String b r)))) => Some (ascii_of_N (16 * unhex a + unhex b), r)
        | String "b" r => Some (ascii_of_N 8, r)
        | String "t" r => Some (ascii_of_N 9, r)
        | String "n" r => Some (ascii_of_N 10, r)
        | String "f" r => Some (ascii_of_N 12, r)
        | String "r" r => Some (ascii_of_N 13, r)
        | String d r => Some (d, r)
        | EmptyString => None
        end
      else Some (c, s')
  end.

Lemma unescape_char c r : unescape (json_char c +:+ r) = Some (c, r).
Proof. destruct c as [[] [] [] [] [] [] [] []]; vm_compute; reflexivity. Qed.

Lemma json_str_prefix s t r r' : json_str s +:+ r = json_str t +:+ r' -> s = t /\ r = r'.
Proof.
  unfold json_str. str_simp. intros [= E]. revert t E.
  assert (Hq : forall x, unescape (String quote2 x) = None) by done.
  induction s as [|c s IH]; intros [|d t]; cbn [str_concat_map]; str_simp; intros E.
  - by injection E.
  - apply (f_equal unescape) in E. by rewrite unescape_char, Hq in E.
  - apply (f_equal unescape) in E. by rewrite unescape_char, Hq in E.
  - pose proof (f_equal unescape E) as E'. rewrite !unescape_char in E'.
    injection E' as -> E'. destruct (IH t) as [-> ->]; [|done]. str_simp. exact E'.
Qed.

(** A printer whose text, before a delimiter, determines what was printed. *)
Definition prefix_free {A} (f : A -> string) (ok : A -> Prop) (a : A) : Prop :=
  ok a -> forall b r r', ok b -> delim r = true -> delim r' = true -> f a +:+ r = f b +:+ r' -> a = b /\ r = r'.

Section items.
Context {A : Type} (f : A -> string) (ok : A -> Prop) (close : ascii).
Hypothesis close_delim : delim (String close "") = true.
Hypothesis close_comma : close <> ","%char.
(** No printed item starts with the closing bracket. *)
Hypothesis open_ok : forall a r r', ok a -> f a +:+ r = String close r' -> False.

(** The items after the first, and the closing bracket. *)
Fixpoint items_tail (l : list A) : string :=
  match l with [] => String close "" | x :: l' => String "," (f x +:+ items_tail l') end.

Lemma join_items l s : join "," (map f l) +:+ String close s =
  match l with [] => String close s | x :: l' => f x +:+ (items_tail l' +:+ s) end.
Proof.
  destruct l as [|x l]; [done|]. revert x. induction l as [|y l IH]; intros x.
  - cbn [map join items_tail]. by str_simp.
  - change (join "," (map f (x :: y :: l))) with (f x +:+ ("," +:+ join "," (map f (y :: l)))).
    str_simp. rewrite IH. cbn [items_tail]. by str_simp.
Qed.

Lemma delim_tail l r : delim (items_tail l +:+ r) = true.
Proof. destruct l; cbn [items_tail]; str_simp; [exact close_delim|reflexivity]. Qed.

Lemma items_tail_prefix l l' r r' :
  Forall (prefix_free f ok) l -> Forall ok l -> Forall ok l' ->
  items_tail l +:+ r = items_tail l' +:+ r' -> l = l' /\ r = r'.
Proof.
  revert l'. induction l as [|x l IH]; intros [|y l'] Hp Hok Hok'; cbn [items_tail]; str_simp; intros E.
  - by injection E as ->.
  - injection E as E _. by destruct close_comma.
  - injection E as E _. by destruct close_comma.
  - injection E as E. apply Forall_cons in Hp as [Hx Hp], Hok as [Ox Hok], Hok' as [Oy Hok'].
    destruct (Hx Ox y _ _ Oy (delim_tail l r) (delim_tail l' r') E) as [-> E'].
    destruct (IH l' Hp Hok Hok' E') as [-> ->]. done.
Qed.

Lemma join_prefix l l' r r' :
  Forall (prefix_free f ok) l -> Forall ok l -> Forall ok l' ->
  join "," (map f l) +:+ String close r = join "," (map f l') +:+ String close r' -> l = l' /\ r = r'.
Proof.
  intros Hp Hok Hok'. rewrite !join_items. destruct l as [|x l], l' as [|y l']; intros E.
  - by injection E as ->.
  - apply Forall_cons in Hok' as [Oy _]. symmetry in E. by apply open_ok in E.
  - apply Forall_cons in Hok as [Ox _]. by apply open_ok in E.
  - apply Forall_cons in Hp as [Hx Hp], Hok as [Ox Hok], Hok' as [Oy Hok'].
    destruct (Hx Ox y _ _ Oy (delim_tail l r) (delim_tail l' r') E) as [-> E'].
    destruct (items_tail_prefix l l' r r' Hp Hok Hok' E') as [-> ->]. done.
Qed.
End items.

Lemma emit_head v r : float_free v = true ->
  match emit v +:+ r with
  | EmptyString => False
  | String c _ =>
      match v with
      | VNone => c = "n"%char
      | VBool true => c = "t"%char
      | VBool false => c = "f"%char
      | VInt _ => num_char c = true
      | VFloat _ => False
      | VStr _ => c = quote2
      | VList _ => c = "["%char
      | VDict _ => c = "{"%char
      end
  end.
Proof.
  destruct v as [|[]|z|x|s|l|d]; try done. intros _. cbn [emit].
  destruct (pretty_Z_chars z) as [H1 H2]. destruct (pretty z) as [|c s]; [done|].
  rewrite app_cons_str. by apply andb_true_iff in H1 as [H1 _].
Qed.

Lemma forallb_Forall {A} (p : A -> bool) l : forallb p l = true <-> Forall (fun x => p x = true) l.
Proof. rewrite forallb_forall, Forall_forall. by setoid_rewrite list_elem_of_In. Qed.

Lemma emit_not_close v c r r' : float_free v = true -> c = "]"%char \/ c = "}"%char -> emit v +:+ r = String c r' -> False.
Proof.
  intros Ov Hc E. pose proof (emit_head v r Ov) as Hh. rewrite E in Hh.
  destruct v as [|[]| | | | |]; subst; destruct Hc; subst; done.
Qed.

Lemma item_prefix (kv : string * pyval) :
  prefix_free emit (fun v => float_free v = true) kv.2 ->
  prefix_free (fun kv => json_str kv.1 +:+ ":" +:+ emit kv.2) (fun kv => float_free kv.2 = true) kv.
Proof.
  destruct kv as [k v]. intros Hv Ov [k' w] r r' Ow Hr Hr'. cbn [fst snd] in *. str_simp. intros E.
  apply json_str_prefix in E as [-> [= E]]. by destruct (Hv Ov w r r' Ow Hr Hr' E) as [-> ->].
Qed.

(** Before a delimiter, the printed text determines the value. *)
Lemma emit_prefix v : prefix_free emit (fun v => float_free v = true) v.
Proof.
  induction v as [|b|z|x|s|l IH|d IH] using pyval_induction;
    intros Ov w r r' Ow Hr Hr' E; pose proof (emit_head _ r Ov) as Hh; rewrite E in Hh;
    pose proof (emit_head _ r' Ow) as Hh'; destruct (emit w +:+ r') as [|c t] eqn:Ew; try done;
    (destruct w as [|[]|z'|x'|s'|l'|d']; try done; try (subst c; try destruct b; done); try subst c);
    try (destruct b; try done); rewrite <-E in Ew; cbn [emit] in Ew.
  1-3: by apply app_inv_str in Ew.
  1-2: subst c; done.
  - by destruct (pretty_Z_prefix z z' r r' Hr Hr' (eq_sym Ew)) as [-> ->].
  - by destruct (json_str_prefix s s' r r' (eq_sym Ew)) as [-> ->].
  - revert Ew. str_simp. intros [= Ew]. cbn [float_free] in Ov, Ow. rewrite forallb_Forall in Ov, Ow.
    destruct (join_prefix emit (fun v => float_free v = true) "]"%char eq_refl ltac:(done)
      (fun a r r' Oa => emit_not_close a _ r r' Oa (or_introl eq_refl)) l l' r r' IH Ov Ow (eq_sym Ew)) as [-> ->].
    done.
  - revert Ew. str_simp. intros [= Ew]. cbn [float_free] in Ov, Ow. rewrite forallb_Forall in Ov, Ow.
    destruct (join_prefix (fun kv => json_str kv.1 +:+ ":" +:+ emit kv.2) (fun kv => float_free kv.2 = true) "}"%char
      eq_refl ltac:(done) ltac:(done) d d' r r' (Forall_impl _ _ _ IH item_prefix) Ov Ow (eq_sym Ew)) as [-> ->].
    done.
Qed.

Lemma sort_keys_float_free v : float_free (sort_keys v) = float_free v.
Proof.
  induction v as [| | | | |l IH|d IH] using pyval_induction; try done; cbn [sort_keys float_free]; apply eq_true_iff_eq.
  - rewrite !forallb_Forall. rewrite Forall_map. clear -IH.
    induction IH as [|x l Hx _ IHl]; [done|]. rewrite !Forall_cons, IHl. cbn. by rewrite Hx.
  - rewrite !forallb_Forall. unfold sort_items. rewrite merge_sort_Permutation, Forall_map.
    induction IH as [|x l Hx _ IHl]; [done|]. rewrite !Forall_cons, IHl. cbn. by rewrite Hx.
Qed.

(** Two float-free values have the same canonical text exactly when they are
    equal up to the order of the keys. *)
Lemma json_dumps_inj v w :
  float_free v = true -> float_free w = true -> json_dumps v = json_dumps w <-> sort_keys v = sort_keys w.
Proof.
  intros Hv Hw. unfold json_dumps. split; [|by intros ->]. intros E.
  rewrite <-sort_keys_float_free in Hv, Hw.
  apply (f_equal (fun s => s +:+ "")) in E.
  by destruct (emit_prefix _ Hv _ "" "" Hw eq_refl eq_refl E) as [-> _].
Qed.

(** ** The text is printable ASCII *)

Definition printable (c : ascii) : bool := ((32 <=? cp c) && (cp c <=? 126))%N.

Lemma json_str_printable s : str_forallb printable (json_str s) = true.
Proof.
  assert (Hc : forall c, str_forallb printable (json_char c) = true)
    by (intros [[] [] [] [] [] [] [] []]; vm_compute; reflexivity).
  unfold json_str. rewrite <-(app_cons_str quote2), str_forallb_app.
  assert (forall t, str_forallb printable (str_concat_map json_char t) = true) as H.
  { induction t as [|c t IH]; [done|]. cbn [str_concat_map]. by rewrite str_forallb_app, Hc, IH. }
  cbn [str_forallb]. by rewrite H.
Qed.

Lemma join_printable l : Forall (fun s => str_forallb printable s = true) l -> str_forallb printable (join "," l) = true.
Proof.
  induction 1 as [|x l Hx H IH]; [done|]. destruct l as [|y l]; [done|].
  change (join "," (x :: y :: l)) with (x +:+ ("," +:+ join "," (y :: l))).
  rewrite !str_forallb_app, Hx, IH. reflexivity.
Qed.

Lemma emit_printable v : float_free v = true -> str_forallb printable (emit v) = true.
Proof.
  induction v as [|b|z|x|s|l IH|d IH] using pyval_induction; intros Ov; try done; cbn [emit float_free] in *.
  - by destruct b.
  - destruct (pretty_Z_chars z) as [H _]. revert H. generalize (pretty z). intros s.
    induction s as [|c s IH]; [done|]. cbn [str_forallb]. intros [H1 H2]%andb_true_iff. rewrite IH by done.
    rewrite andb_true_r. revert H1. unfold num_char, is_digit, printable.
    rewrite orb_true_iff, bool_decide_eq_true. intros [H1| ->]; [|done].
    apply andb_true_iff in H1 as [H1%N.leb_le H3%N.leb_le]. apply andb_true_iff. rewrite !N.leb_le. lia.
  - apply json_str_printable.
  - rewrite !str_forallb_app, join_printable; [done|]. apply forallb_Forall in Ov.
    apply Forall_map. rewrite Forall_forall in *. auto.
  - rewrite !str_forallb_app, join_printable; [done|]. apply forallb_Forall in Ov.
    apply Forall_map. rewrite Forall_forall in *. intros kv Hkv.
    rewrite !str_forallb_app, json_str_printable. cbn. by apply IH, Ov.
Qed.

Lemma json_dumps_printable v : float_free v = true -> str_forallb printable (json_dumps v) = true.
Proof. intros H. apply emit_printable. by rewrite sort_keys_float_free. Qed.

(** ** Printed integers read back *)

Lemma digits_val_pretty (n : N) : digits_val (pretty n) = Z.of_N n.
Proof.
  unfold digits_val. set (go := fix go (acc : Z) (s : string) {struct s} : Z := _).
  assert (Hg : forall x s, go 0 (pretty_N_go x s) = go (Z.of_N x) s).
  { intros x. induction (N.lt_wf_0 x) as [x _ IH]. intros s. destruct (decide (0 < x)%N) as [Hx|Hx].
    - rewrite pretty_N_go_step by done. rewrite IH by (by apply N.div_lt). cbn [go].
      assert (Z.of_N (cp (pretty_N_char (x mod 10)) - 48)%N = Z.of_N (x mod 10)) as ->.
      { pose proof (N.mod_lt x 10 ltac:(done)) as Hl. generalize dependent (x mod 10)%N. intros m Hl.
        assert (m = 0 \/ m = 1 \/ m = 2 \/ m = 3 \/ m = 4 \/ m = 5 \/ m = 6 \/ m = 7 \/ m = 8 \/ m = 9)%N as Hm by lia.
        naive_solver. }
      f_equal. rewrite (N.div_mod x 10) at 3 by done. lia.
    - assert (x = 0%N) as -> by lia. by rewrite pretty_N_go_0. }
  unfold pretty, pretty_N. case_decide as E; [by subst n|]. by rewrite Hg.
Qed.

Lemma pretty_N_length (k : nat) (x : N) s : (x < 10 ^ N.of_nat k)%N -> (String.length (pretty_N_go x s) <= k + String.length s)%nat.
Proof.
  revert x s. induction k as [|k IH]; intros x s Hx.
  - cbn in Hx. assert (x = 0%N) as -> by lia. by rewrite pretty_N_go_0.
  - destruct (decide (0 < x)%N) as [H0|H0]; [|assert (x = 0%N) as -> by lia; rewrite pretty_N_go_0; lia].
    rewrite pretty_N_go_step by done. etransitivity; [apply IH|cbn [String.length]; lia].
    apply N.Div0.div_lt_upper_bound. rewrite Nat2N.inj_succ, N.pow_succ_r' in Hx. done.
Qed.

Lemma strip_digits s : str_forallb is_digit s = true -> strip s = s /\ strip_underscores "."%char s = Some s.
Proof.
  intros H. assert (Hs : forall c, is_digit c = true -> is_space c = false).
  { intros c. unfold is_digit, is_space. intros [?%N.leb_le ?%N.leb_le]%andb_true_iff.
    repeat match goal with |- context [(?a <=? ?b)%N] => destruct (N.leb_spec a b) | |- context [(?a =? ?b)%N] => destruct (N.eqb_spec a b) end; try done; lia. }
  assert (Hl : lstrip s = s).
  { destruct s as [|c s]; [done|]. cbn in H. apply andb_true_iff in H as [Hc _]. unfold lstrip. cbn [drop_while]. by rewrite Hs. }
  split.
  - unfold strip. rewrite Hl. unfold rstrip. clear Hl. induction s as [|c s IH]; [done|]. cbn [str_forallb] in H.
    apply andb_true_iff in H as [Hc H]. cbn [drop_end]. rewrite IH by done. destruct s; [by rewrite Hs|done].
  - clear Hl. assert (forall p, p <> "_"%char -> strip_underscores p s = Some s) as Hu; [|by apply Hu].
    induction s as [|c s IH]; intros p Hp; cbn [strip_underscores]; [by rewrite decide_False|].
    cbn [str_forallb] in H. apply andb_true_iff in H as [Hc H].
    assert (c <> "_"%char) as Hn by (intros ->; done). rewrite decide_False by done.
    rewrite bool_decide_false by done. cbn [andb]. by rewrite IH.
Qed.

Lemma pretty_digits z : 0 <= z -> str_forallb is_digit (pretty z) = true /\ pretty z <> "".
Proof.
  intros Hz. split; [|apply pretty_Z_chars]. destruct z as [|p|p]; [done| |lia]. by apply (pretty_go_digits (N.pos p) "").
Qed.

(** A key of a table: a row's id in text is that id again. *)
Lemma py_int_pretty z : 0 <= z < 2 ^ 63 -> py_int (pretty z) = Ok z /\ strip (pretty z) = pretty z.
Proof.
  intros Hz. destruct (pretty_digits z ltac:(lia)) as [Hd Hne]. destruct (strip_digits _ Hd) as [Hs Hu]. split; [|done].
  unfold py_int. rewrite Hs, Hu.
  assert (sign_of (pretty z) = (false, pretty z)) as ->.
  { destruct (pretty z) as [|c s]; [done|]. cbn [str_forallb] in Hd. apply andb_true_iff in Hd as [Hc _].
    cbn [sign_of]. rewrite !decide_False by (intros ->; done). done. }
  unfold all_digits, str_truthy. rewrite Hd, bool_decide_true by done. cbn [andb negb].
  assert (pretty z = pretty (Z.to_N z)) as E by (destruct z as [|p|p]; [done|done|lia]).
  assert ((String.length (pretty z) <= 19)%nat) as Hlen.
  { rewrite E. unfold pretty, pretty_N. case_decide; [cbn; lia|]. apply (pretty_N_length 19 (Z.to_N z) "").
    apply N2Z.inj_lt. rewrite Z2N.id by lia. change (Z.of_N (10 ^ N.of_nat 19)) with 10000000000000000000.
    change (2 ^ 63) with 9223372036854775808 in Hz. lia. }
  rewrite (proj2 (Z.ltb_ge 4300 _)) by lia. rewrite E, digits_val_pretty, Z2N.id by lia. done.
Qed.
