(* ===== verification/Tally.v ===== *)
(** Counting dictionaries: the [dict[str, int]] and [dict[str, row]] tallies the
    reports build with [d[k] += n] and [d.setdefault(k, ...)], and sums over
    them.  The order of such a dict is never read, so it is a [gmap]. *)

From S2P Require Export Prelude.

Local Open Scope Z_scope.

(** The sum of [f] over the values of a map. *)
Definition msum {A} (f : A -> Z) (m : gmap string A) : Z :=
  map_fold (fun _ x acc => f x + acc) 0 m.

(** [d[k] = d.get(k, 0) + n]. *)
Definition bump (k : string) (n : Z) (m : gmap string Z) : gmap string Z :=
  <[k := default 0 (m !! k) + n]> m.

(** [dict.fromkeys(keys, 0)]. *)
Definition zeros_for (keys : list string) : gmap string Z :=
  foldr (fun k m => <[k := 0]> m) ∅ keys.

#[global] Arguments zeros_for : simpl never.
#[global] Arguments bump : simpl never.

(** The sum of [f] over a list. *)
Definition lsum {A} (f : A -> Z) (l : list A) : Z := foldr (fun x acc => f x + acc) 0 l.

(** [sum(1 for x in l if p(x))]. *)
Definition lcount {A} (p : A -> bool) (l : list A) : Z := lsum (fun x => if p x then 1 else 0) l.

Section msum.
Context {A : Type} (f : A -> Z).
Implicit Types m : gmap string A.

Lemma msum_empty : msum f ∅ = 0.
Proof. apply map_fold_empty. Qed.

Lemma msum_insert_None k v m : m !! k = None -> msum f (<[k := v]> m) = f v + msum f m.
Proof.
  intros H. unfold msum. rewrite map_fold_insert_L; [done| |done]. intros; lia.
Qed.

Lemma msum_insert k v m :
  msum f (<[k := v]> m) = f v + msum f m - from_option f 0 (m !! k).
Proof.
  destruct (m !! k) as [x|] eqn:E; simpl; [|rewrite msum_insert_None by done; lia].
  rewrite <- insert_delete_eq, msum_insert_None by apply lookup_delete_eq.
  rewrite <- (insert_delete_id m k x) at 2 by done.
  rewrite msum_insert_None by apply lookup_delete_eq. lia.
Qed.

Lemma msum_nonneg m : (forall k x, m !! k = Some x -> 0 <= f x) -> 0 <= msum f m.
Proof.
  induction m as [|k x m Hk IH] using map_ind; intros H.
  - by rewrite msum_empty.
  - rewrite msum_insert_None by done.
    assert (0 <= f x) by (apply (H k); apply lookup_insert_eq).
    assert (0 <= msum f m); [|lia]. apply IH. intros k' y Hy. apply (H k').
    by rewrite lookup_insert_ne by congruence.
Qed.

Lemma msum_elem_le k x m :
  (forall k x, m !! k = Some x -> 0 <= f x) -> m !! k = Some x -> f x <= msum f m.
Proof.
  intros H Hk. rewrite <- (insert_delete_id m k x), msum_insert_None
    by (done || apply lookup_delete_eq).
  assert (0 <= msum f (delete k m)); [|lia]. apply msum_nonneg.
  intros k' y. rewrite lookup_delete_Some. intros [_ ?]. by eapply H.
Qed.
End msum.

Lemma msum_bump k n m : msum id (bump k n m) = n + msum id m.
Proof. unfold bump. rewrite msum_insert. destruct (m !! k); simpl; unfold id; lia. Qed.

Lemma lookup_bump k n m k' :
  default 0 (bump k n m !! k') = default 0 (m !! k') + (if decide (k = k') then n else 0).
Proof.
  unfold bump. case_decide as H.
  - subst. by rewrite lookup_insert_eq.
  - rewrite lookup_insert_ne by done. lia.
Qed.

Lemma bump_bounded k n m :
  0 <= n -> (forall j x, m !! j = Some x -> 0 <= x) ->
  forall j x, bump k n m !! j = Some x -> 0 <= x.
Proof.
  intros Hn H j x. unfold bump. destruct (decide (k = j)) as [->|].
  - rewrite lookup_insert_eq. intros [= <-].
    destruct (m !! j) eqn:E; simpl; [apply H in E|]; lia.
  - rewrite lookup_insert_ne by done. apply H.
Qed.

Lemma zeros_for_cons k keys : zeros_for (k :: keys) = <[k := 0]> (zeros_for keys).
Proof. reflexivity. Qed.

Lemma lookup_zeros_for keys k : k ∈ keys -> zeros_for keys !! k = Some 0.
Proof.
  induction keys as [|k' keys IH]; [by intros ?%not_elem_of_nil|].
  intros Hk. rewrite zeros_for_cons. destruct (decide (k' = k)) as [->|]; [apply lookup_insert_eq|].
  rewrite lookup_insert_ne by done. apply IH. set_solver.
Qed.

Lemma zeros_for_zero keys k x : zeros_for keys !! k = Some x -> x = 0.
Proof.
  induction keys as [|k' keys IH]; [done|].
  rewrite zeros_for_cons.
  destruct (decide (k' = k)) as [->|]; [by rewrite lookup_insert_eq; intros [= <-]|].
  by rewrite lookup_insert_ne.
Qed.

Lemma default_zeros_for keys k : default 0 (zeros_for keys !! k) = 0.
Proof. destruct (zeros_for keys !! k) eqn:E; [by apply zeros_for_zero in E|done]. Qed.

Lemma msum_zeros_for keys : msum id (zeros_for keys) = 0.
Proof.
  induction keys as [|k keys IH]; [apply msum_empty|].
  rewrite zeros_for_cons, msum_insert, IH.
  destruct (zeros_for keys !! k) eqn:E; simpl; [apply zeros_for_zero in E as ->|]; done.
Qed.

Section lsum.
Context {A : Type}.
Implicit Types (f g : A -> Z) (l : list A).

Lemma lsum_app f l k : lsum f (l ++ k) = lsum f l + lsum f k.
Proof. induction l as [|x l IH]; simpl; [done|]. rewrite IH. lia. Qed.

Lemma lsum_snoc f l x : lsum f (l ++ [x]) = lsum f l + f x.
Proof. rewrite lsum_app. simpl. lia. Qed.

Lemma lsum_perm f l k : l ≡ₚ k -> lsum f l = lsum f k.
Proof. induction 1; simpl in *; lia. Qed.

Lemma lsum_le f g l : (forall x, x ∈ l -> f x <= g x) -> lsum f l <= lsum g l.
Proof.
  induction l as [|x l IH]; simpl; intros H; [lia|].
  pose proof (H x ltac:(by left)). pose proof (IH ltac:(intros; apply H; by right)). lia.
Qed.

Lemma lsum_ext f g l : (forall x, x ∈ l -> f x = g x) -> lsum f l = lsum g l.
Proof.
  intros H. apply Z.le_antisymm; apply lsum_le; intros x Hx; rewrite (H x Hx); lia.
Qed.

Lemma lsum_nonneg f l : (forall x, x ∈ l -> 0 <= f x) -> 0 <= lsum f l.
Proof.
  intros H. transitivity (lsum (fun _ : A => 0) l).
  - clear H. induction l; simpl; lia.
  - by apply lsum_le.
Qed.

Lemma lsum_const c l : lsum (fun _ : A => c) l = c * Z.of_nat (List.length l).
Proof. induction l; simpl; lia. Qed.

Lemma lsum_plus f g l : lsum (fun x => f x + g x) l = lsum f l + lsum g l.
Proof. induction l; simpl; lia. Qed.

Lemma lsum_map {B} (h : B -> A) f (l : list B) : lsum f (map h l) = lsum (fun x => f (h x)) l.
Proof. induction l; simpl; congruence. Qed.

Lemma lcount_bounds (p : A -> bool) l : 0 <= lcount p l <= Z.of_nat (List.length l).
Proof.
  unfold lcount. split; [apply lsum_nonneg; intros; case_match; lia|].
  rewrite <- (Z.mul_1_l (Z.of_nat _)), <- lsum_const.
  apply lsum_le. intros. case_match; lia.
Qed.
End lsum.

Lemma lcount_snoc {A} (p : A -> bool) l x :
  lcount p (l ++ [x]) = lcount p l + (if p x then 1 else 0).
Proof. apply lsum_snoc. Qed.

Lemma lsum_omap {A B} (f : B -> Z) (g : A -> option B) l :
  lsum f (omap g l) = lsum (fun x => from_option f 0 (g x)) l.
Proof. induction l as [|x l IH]; simpl; [done|]. rewrite <- IH. by destruct (g x). Qed.

Create HintDb tally.
#[export] Hint Rewrite @msum_empty msum_bump msum_zeros_for @lsum_app @lsum_snoc : tally.

Lemma lcount_cons {A} (p : A -> bool) x l : lcount p (x :: l) = (if p x then 1 else 0) + lcount p l.
Proof. reflexivity. Qed.
Lemma lcount_ext {A} (p q : A -> bool) l : (forall x, x ∈ l -> p x = q x) -> lcount p l = lcount q l.
Proof. intros H. apply lsum_ext. intros x Hx. by rewrite H. Qed.
Lemma lcount_none {A} (q : A -> bool) l : (forall x, x ∈ l -> q x = false) -> lcount q l = 0.
Proof.
  intros H. unfold lcount. rewrite (lsum_ext _ (fun _ => 0)), lsum_const; [done|].
  intros x Hx. by rewrite H.
Qed.

Lemma lcount_zero {A} (p : A -> bool) l : lcount p l = 0 -> forall x, x ∈ l -> p x = false.
Proof.
  induction l as [|y l IH]; [by intros _ x ?%not_elem_of_nil|].
  unfold lcount in *. simpl. pose proof (lcount_bounds p l) as Hb. unfold lcount in Hb.
  destruct (p y) eqn:E; intros H; [lia|]. intros x [ ->|Hx]%elem_of_cons; [done|]. apply IH; [lia|done].
Qed.

Lemma lcount_filter {A} (p : A -> bool) l : Z.of_nat (List.length (List.filter p l)) = lcount p l.
Proof. induction l as [|x l IH]; [done|]. rewrite lcount_cons. cbn [List.filter]. destruct (p x); cbn [List.length]; lia. Qed.
Lemma lcount_some {A} (p : A -> bool) l : lcount p l <> 0 -> exists x, x ∈ l /\ p x = true.
Proof.
  induction l as [|x l IH]; [done|]. rewrite lcount_cons. destruct (p x) eqn:E; [intros _; exists x; by split; [left|]|].
  intros H. destruct IH as (y & Hy & Hp); [lia|]. exists y. by split; [right|].
Qed.

(** ** Rows with a key *)

Lemma key_inj {A K} (key : A -> K) rows p q :
  NoDup (map key rows) -> p ∈ rows -> q ∈ rows -> key p = key q -> p = q.
Proof.
  intros Hnd (i & Hi)%list_elem_of_lookup (k & Hk)%list_elem_of_lookup E.
  assert (i = k) as ->; [|congruence]. eapply NoDup_lookup; [exact Hnd| |].
  - by rewrite list_lookup_fmap, Hi.
  - rewrite list_lookup_fmap, Hk. simpl. by rewrite E.
Qed.

(** A sum that only sees the row with one key. *)
Lemma lsum_at_key {A} (key : A -> Z) (g : A -> Z) rows p :
  NoDup (map key rows) -> p ∈ rows ->
  lsum (fun q => if key q =? key p then g q else 0) rows = g p.
Proof.
  induction rows as [|r rows IH]; [by intros _ ?%not_elem_of_nil|]. cbn [map lsum foldr].
  intros [Hr Hnd]%NoDup_cons Hin. fold (lsum (fun q => if key q =? key p then g q else 0) rows).
  destruct (Z.eqb_spec (key r) (key p)) as [E|E].
  - assert (r = p) as -> by (by eapply (key_inj key (r :: rows)); [constructor|left| |]).
    rewrite (lsum_ext _ (fun _ => 0)), lsum_const; [lia|]. intros q Hq.
    destruct (Z.eqb_spec (key q) (key p)) as [E'|]; [|done]. destruct Hr. rewrite <-E'.
    by apply list_elem_of_fmap_2.
  - apply elem_of_cons in Hin as [ ->|Hin]; [done|]. rewrite IH by done. lia.
Qed.

(** ** The row of a key: found by a test, replaced in place, or appended *)

Section keyed.
Context {A K : Type} `{EqDecision K} (key : A -> K) (is_key : K -> A -> bool) (Hkey : forall k r, is_key k r = true <-> key r = k).

Lemma find_key_elem k l r : NoDup (map key l) -> (List.find (is_key k) l = Some r <-> r ∈ l /\ key r = k).
Proof.
  intros Hn. split.
  - intros [Hin Hk]%find_some. split; [by apply list_elem_of_In|by apply Hkey].
  - intros [Hin Hk]. destruct (List.find (is_key k) l) as [x|] eqn:E.
    + apply find_some in E as [Hx Hkx]. apply Hkey in Hkx. f_equal. eapply (key_inj key); [exact Hn|by apply list_elem_of_In|done|congruence].
    + eapply find_none in E; [|by apply list_elem_of_In]. apply Hkey in Hk. congruence.
Qed.

Lemma find_key_app k l r : List.find (is_key k) (l ++ [r]) = match List.find (is_key k) l with Some x => Some x | None => if is_key k r then Some r else None end.
Proof. induction l as [|x l IH]; [done|]. cbn. by destruct (is_key k x). Qed.

Lemma find_key_update k k' f l : (forall r, key (f r) = key r) ->
  List.find (is_key k') (map (fun r => if is_key k r then f r else r) l) = if decide (k' = k) then f <$> List.find (is_key k) l else List.find (is_key k') l.
Proof.
  intros Hf. induction l as [|x l IH]; [by case_decide|]. cbn [map List.find].
  assert (Hx : is_key k' (if is_key k x then f x else x) = is_key k' x).
  { destruct (is_key k x); [|done]. apply eq_true_iff_eq. rewrite !Hkey. by rewrite Hf. }
  rewrite Hx, IH. destruct (is_key k' x) eqn:E'.
  - apply Hkey in E'. destruct (is_key k x) eqn:E; [apply Hkey in E; case_decide; [done|exfalso; congruence]|].
    case_decide as Hd; [|done]. exfalso. apply not_true_iff_false in E. apply E, Hkey. congruence.
  - case_decide as Hd; [|done]. rewrite <-Hd, E'. done.
Qed.

Lemma nodup_key_update k f l : (forall r, key (f r) = key r) -> NoDup (map key l) -> NoDup (map key (map (fun r => if is_key k r then f r else r) l)).
Proof. intros Hf Hn. rewrite map_map. erewrite map_ext; [exact Hn|]. intros x. cbn. by destruct (is_key k x). Qed.
Lemma nodup_key_app k l r : key r = k -> List.find (is_key k) l = None -> NoDup (map key l) -> NoDup (map key (l ++ [r])).
Proof.
  intros Hr E Hn. rewrite map_app. apply NoDup_app. split; [done|]. split; [|apply NoDup_singleton]. intros j (x & -> & Hx)%list_elem_of_fmap Hj%list_elem_of_singleton.
  assert (List.find (is_key k) l = Some x) by (apply find_key_elem; [done|split; [done|congruence]]). congruence.
Qed.

(** [scalar_one_or_none] of the rows of a key is the one found. *)
Lemma scalar_key k l : NoDup (map key l) -> scalar_one_or_none (List.filter (is_key k) l) = Ok (List.find (is_key k) l).
Proof.
  intros Hn. induction l as [|x l IH]; [done|]. cbn [map] in Hn. apply NoDup_cons in Hn as [Hx Hn]. cbn [List.filter List.find].
  destruct (is_key k x) eqn:E; [|by apply IH]. apply Hkey in E.
  assert (List.filter (is_key k) l = []) as ->; [|done]. destruct (List.filter _ l) as [|y l'] eqn:Ef; [done|].
  assert (Hy : In y (y :: l')) by by left. rewrite <-Ef in Hy. apply filter_In in Hy as [Hy Ey%Hkey]. destruct Hx. rewrite E, <-Ey.
  by apply (list_elem_of_fmap_2 key), list_elem_of_In.
Qed.
End keyed.
