(* ===== verification/Scoring.v ===== *)
(** SPRS scoring ([src/src/ccf/scoring/engine.py]): the point tables, the
    deduction and credit of one control, and the fold [score_system] that builds
    the [ScoreSummary].

    A reference-matrix row is a dict of Python values; the recorded states and
    their sources are string maps.  [percentage] is kept in tenths. *)

From S2P Require Export Prelude PyNum PyVal Tally.

Local Open Scope string_scope.
Local Open Scope Z_scope.

Definition MAX_SPRS_SCORE : Z := 110.
Definition SPRS_FLOOR : Z := -203.
Definition SSP_CONTROL_ID : string := "CA.L2-3.12.4".

Definition STATES : list string :=
  ["not_assessed"; "not_implemented"; "planned"; "partial"; "implemented"; "inherited";
   "not_applicable"].

Definition MET : list string := ["implemented"; "inherited"; "not_applicable"].
Definition MISS : list string := ["not_assessed"; "not_implemented"; "planned"].

Definition BASE : list (string * Z) :=
  [("5", 5); ("3", 3); ("1", 1); ("3/5", 5); ("Special", 0)].
Definition PARTIAL : list (string * Z) :=
  [("5", 5); ("3", 3); ("1", 1); ("3/5", 3); ("Special", 0)].

Definition DERIVED : string := "derived".
Definition ASSESSED : string := "assessed".

Definition normalize_point_value (point_value : option string) : string :=
  let pv := strip (or_empty point_value) in
  if dhas pv BASE then pv else "1".

(** The subscripts [_PARTIAL[pv]] and [_BASE[pv]] read a normalized bucket, so
    the default is never used ([BASE_normalized] below). *)
Definition deduction_for (point_value state : option string) : Z :=
  let pv := normalize_point_value point_value in
  let st := strip (str_or (or_empty state) "not_assessed") in
  if mem st MET then 0
  else if bool_decide (st = "partial") then default 0 (dget pv PARTIAL)
  else if mem st MISS then default 0 (dget pv BASE)
  else default 0 (dget pv BASE).

Definition credit_for (point_value state : option string) : Z :=
  let pv := normalize_point_value point_value in
  default 0 (dget pv BASE) - deduction_for (Some pv) state.

Record ControlScore := {
  cs_control_id : string;
  cs_domain : string;
  cs_point_value : string;
  cs_state : string;
  cs_deduction : Z;
  cs_source : string;
  cs_credited : Z }.

(** One row of [by_domain] / [by_point_value]. *)
Record Bucket := { b_controls : Z; b_met : Z; b_deductions : Z }.

Record ScoreSummary := {
  score : Z;
  max_score : Z;
  deductions_total : Z;
  percentage : Z;
  total_controls : Z;
  met_controls : Z;
  ssp_present : bool;
  ssp_present_source : option string;
  assessed_controls : Z;
  derived_controls : Z;
  derived_credit : Z;
  state_counts : gmap string Z;
  by_domain : gmap string Bucket;
  by_point_value : gmap string Bucket;
  controls : list ControlScore }.

(** [ScoreSummary(score=MAX_SPRS_SCORE)] with the zeroed [state_counts]. *)
Definition empty_summary : ScoreSummary := {|
  score := MAX_SPRS_SCORE; max_score := MAX_SPRS_SCORE; deductions_total := 0;
  percentage := 0; total_controls := 0; met_controls := 0;
  ssp_present := true; ssp_present_source := None;
  assessed_controls := 0; derived_controls := 0; derived_credit := 0;
  state_counts := zeros_for STATES; by_domain := ∅; by_point_value := ∅; controls := [] |}.

Definition add_row (met : bool) (ded : Z) (b : option Bucket) : Bucket :=
  let b := default {| b_controls := 0; b_met := 0; b_deductions := 0 |} b in
  {| b_controls := b_controls b + 1;
     b_met := b_met b + (if met then 1 else 0);
     b_deductions := b_deductions b + ded |}.

Section score_system.
Context (states sources : gmap string string) (default_state : string).

(** The row the loop body builds for one reference, or [None] when the
    reference has no control id ([continue]). *)
Definition score_control (ref : list (string * pyval)) : option ControlScore :=
  let cid := py_str (default (VStr "") (dget "control_id" ref)) in
  if str_truthy cid then
    let field k dflt :=
      let v := default (VStr "") (dget k ref) in
      py_str (if truthy v then v else VStr dflt) in
    let domain := field "domain" "?" in
    let pv := normalize_point_value (Some (field "point_value" "1")) in
    let state := default default_state (states !! cid) in
    let state := if mem state STATES then state else default_state in
    let ded := deduction_for (Some pv) (Some state) in
    let src := default ASSESSED (sources !! cid) in
    let src := if negb (bool_decide (src = DERIVED)) || bool_decide (state = "not_assessed")
               then ASSESSED else src in
    Some {| cs_control_id := cid; cs_domain := domain; cs_point_value := pv;
            cs_state := state; cs_deduction := ded; cs_source := src;
            cs_credited := credit_for (Some pv) (Some state) |}
  else None.

(** The accumulation of one row into the summary. *)
Definition add_control (s : ScoreSummary) (c : ControlScore) : ScoreSummary :=
  let met := mem (cs_state c) MET in
  let derived := bool_decide (cs_source c = DERIVED) in
  let is_ssp := bool_decide (cs_control_id c = SSP_CONTROL_ID) in
  let present := met || bool_decide (cs_state c = "partial") in
  {| score := score s;
     max_score := max_score s;
     deductions_total := deductions_total s + cs_deduction c;
     percentage := percentage s;
     total_controls := total_controls s + 1;
     met_controls := met_controls s + (if met then 1 else 0);
     ssp_present := if is_ssp then present else ssp_present s;
     ssp_present_source :=
       if is_ssp then (if present then Some (cs_source c) else None)
       else ssp_present_source s;
     assessed_controls := assessed_controls s +
       (if derived then 0
        else if bool_decide (cs_state c = "not_assessed") then 0 else 1);
     derived_controls := derived_controls s + (if derived then 1 else 0);
     derived_credit := derived_credit s + (if derived then cs_credited c else 0);
     state_counts := bump (cs_state c) 1 (state_counts s);
     by_domain := <[cs_domain c :=
       add_row met (cs_deduction c) (by_domain s !! cs_domain c)]> (by_domain s);
     by_point_value := <[cs_point_value c :=
       add_row met (cs_deduction c) (by_point_value s !! cs_point_value c)]> (by_point_value s);
     controls := controls s ++ [c] |}.

Definition score_step (s : ScoreSummary) (ref : list (string * pyval)) : ScoreSummary :=
  match score_control ref with Some c => add_control s c | None => s end.

Definition finish (s : ScoreSummary) : ScoreSummary :=
  let sc := Z.max SPRS_FLOOR (MAX_SPRS_SCORE - deductions_total s) in
  {| score := sc; max_score := max_score s; deductions_total := deductions_total s;
     percentage := round1 (fl_mul (truediv sc MAX_SPRS_SCORE) (fl_of_Z 100));
     total_controls := total_controls s; met_controls := met_controls s;
     ssp_present := ssp_present s; ssp_present_source := ssp_present_source s;
     assessed_controls := assessed_controls s; derived_controls := derived_controls s;
     derived_credit := derived_credit s; state_counts := state_counts s;
     by_domain := by_domain s; by_point_value := by_point_value s;
     controls := controls s |}.

Definition score_system (refs : list (list (string * pyval))) : ScoreSummary :=
  finish (fold_left score_step refs empty_summary).
End score_system.

(** ** One control *)

Lemma normalize_in_BASE o : normalize_point_value o ∈ dkeys BASE.
Proof.
  unfold normalize_point_value, dhas. destruct (mem _ _) eqn:E; [by apply mem_true in E|].
  vm_compute. set_solver.
Qed.

(** The five buckets, with their base and partial deductions. *)
Lemma normalize_cases o :
  exists b p, dget (normalize_point_value o) BASE = Some b /\
    dget (normalize_point_value o) PARTIAL = Some p /\ 0 <= p <= b /\ b <= 5.
Proof.
  pose proof (normalize_in_BASE o) as H. revert H.
  generalize (normalize_point_value o). intros pv H. cbn in H.
  repeat (apply elem_of_cons in H as [->|H]); [..|by apply not_elem_of_nil in H];
    eexists _, _; repeat split; vm_compute; congruence.
Qed.

Lemma strip_BASE pv : pv ∈ dkeys BASE -> normalize_point_value (Some pv) = pv.
Proof.
  intros H. cbn in H.
  repeat (apply elem_of_cons in H as [->|H]); [reflexivity..|by apply not_elem_of_nil in H].
Qed.

Lemma normalize_idemp o :
  normalize_point_value (Some (normalize_point_value o)) = normalize_point_value o.
Proof. apply strip_BASE, normalize_in_BASE. Qed.

Lemma deduction_bounds pv st :
  0 <= deduction_for pv st <= default 0 (dget (normalize_point_value pv) BASE).
Proof.
  unfold deduction_for.
  destruct (normalize_cases pv) as (b & p & -> & -> & ? & ?). simpl.
  repeat case_match; lia.
Qed.

Lemma credit_nonneg pv st : 0 <= credit_for pv st.
Proof.
  unfold credit_for. pose proof (deduction_bounds (Some (normalize_point_value pv)) st) as H.
  rewrite normalize_idemp in H. lia.
Qed.

(** Deduction and credit split the bucket's base value. *)
Lemma credit_plus_deduction pv st :
  credit_for (Some pv) st + deduction_for (Some (normalize_point_value (Some pv))) st =
  default 0 (dget (normalize_point_value (Some pv)) BASE).
Proof. unfold credit_for. lia. Qed.

(** ** The fold *)

(** The rows the loop keeps. *)
Definition scored (states sources : gmap string string) (d : string)
    (refs : list (list (string * pyval))) : list ControlScore :=
  omap (score_control states sources d) refs.

Definition met_row (c : ControlScore) : bool := mem (cs_state c) MET.
Definition derived_row (c : ControlScore) : bool := bool_decide (cs_source c = DERIVED).
Definition unassessed_row (c : ControlScore) : bool := bool_decide (cs_state c = "not_assessed").

Record summary_inv (s : ScoreSummary) : Prop := {
  inv_total : total_controls s = Z.of_nat (List.length (controls s));
  inv_ded : deductions_total s = lsum cs_deduction (controls s);
  inv_met : met_controls s = lcount met_row (controls s);
  inv_derived : derived_controls s = lcount derived_row (controls s);
  inv_credit : derived_credit s =
    lsum (fun c => if derived_row c then cs_credited c else 0) (controls s);
  inv_assessed : assessed_controls s =
    lcount (fun c => negb (derived_row c) && negb (unassessed_row c)) (controls s);
  inv_states : forall st, default 0 (state_counts s !! st) =
    lcount (fun c => bool_decide (cs_state c = st)) (controls s);
  inv_states_sum : msum id (state_counts s) = total_controls s;
  inv_dom : msum b_controls (by_domain s) = total_controls s;
  inv_dom_met : msum b_met (by_domain s) = met_controls s;
  inv_dom_ded : msum b_deductions (by_domain s) = deductions_total s;
  inv_pv : msum b_controls (by_point_value s) = total_controls s;
  inv_pv_met : msum b_met (by_point_value s) = met_controls s;
  inv_pv_ded : msum b_deductions (by_point_value s) = deductions_total s }.

Lemma empty_summary_inv : summary_inv empty_summary.
Proof.
  split; simpl; try done.
  - intros st. apply (default_zeros_for STATES st).
Qed.

Lemma msum_add_row (f : Bucket -> Z) met ded k (m : gmap string Bucket) n :
  (forall o, f (add_row met ded o) = from_option f 0 o + n) ->
  msum f (<[k := add_row met ded (m !! k)]> m) = msum f m + n.
Proof. intros H. rewrite msum_insert, H. lia. Qed.

Lemma add_control_inv s c : summary_inv s -> summary_inv (add_control s c).
Proof.
  intros [Ht Hd Hm Hdr Hc Ha Hs Hss D1 D2 D3 P1 P2 P3].
  split; simpl; rewrite ?length_app, ?lcount_snoc, ?lsum_snoc; simpl.
  - lia.
  - lia.
  - rewrite Hm. reflexivity.
  - rewrite Hdr. reflexivity.
  - rewrite Hc. reflexivity.
  - rewrite Ha. unfold derived_row, unassessed_row. repeat case_bool_decide; simpl; lia.
  - intros st. rewrite lookup_bump, lcount_snoc, Hs. case_bool_decide; case_decide; done || lia.
  - rewrite msum_bump. lia.
  - erewrite msum_add_row; [by rewrite D1|]. by intros [?|].
  - erewrite msum_add_row; [by rewrite D2|]. by intros [?|].
  - erewrite msum_add_row; [by rewrite D3|]. by intros [?|].
  - erewrite msum_add_row; [by rewrite P1|]. by intros [?|].
  - erewrite msum_add_row; [by rewrite P2|]. by intros [?|].
  - erewrite msum_add_row; [by rewrite P3|]. by intros [?|].
Qed.

Section fold.
Context (states sources : gmap string string) (d : string).
Implicit Types refs : list (list (string * pyval)).

Lemma score_fold_inv refs s :
  summary_inv s -> summary_inv (fold_left (score_step states sources d) refs s).
Proof.
  revert s. induction refs as [|r refs IH]; intros s Hs; simpl; [done|].
  apply IH. unfold score_step. case_match; [by apply add_control_inv|done].
Qed.

Lemma score_fold_controls refs s :
  controls (fold_left (score_step states sources d) refs s) =
  (controls s ++ scored states sources d refs)%list.
Proof.
  revert s. induction refs as [|r refs IH]; intros s; simpl; [by rewrite app_nil_r|].
  rewrite IH. unfold score_step, scored. simpl.
  destruct (score_control _ _ _ r); simpl; [by rewrite <- app_assoc|done].
Qed.

Lemma score_system_inv refs : summary_inv (score_system states sources d refs).
Proof.
  destruct (score_fold_inv refs _ empty_summary_inv). split; simpl; done.
Qed.

Lemma score_system_controls refs :
  controls (score_system states sources d refs) = scored states sources d refs.
Proof. simpl. by rewrite score_fold_controls. Qed.

Lemma score_system_deductions refs :
  deductions_total (score_system states sources d refs) =
  lsum cs_deduction (scored states sources d refs).
Proof. by rewrite (inv_ded _ (score_system_inv refs)), score_system_controls. Qed.

(** What one kept row holds. *)
Lemma scored_row refs c :
  c ∈ scored states sources d refs ->
  0 <= cs_deduction c /\ 0 <= cs_credited c /\
  (cs_source c = DERIVED \/ cs_source c = ASSESSED) /\
  (cs_source c = DERIVED -> cs_state c <> "not_assessed").
Proof.
  unfold scored. rewrite list_elem_of_omap. intros (r & _ & Hr).
  unfold score_control in Hr. destruct (str_truthy _); [|done].
  injection Hr as <-. simpl. split; [apply deduction_bounds|]. split; [apply credit_nonneg|].
  repeat case_bool_decide; simpl; naive_solver.
Qed.
End fold.

Lemma percentage_table :
  forallb (fun n => let z := Z.of_nat n - 203 in
             let p := round1 (fl_mul (truediv z MAX_SPRS_SCORE) (fl_of_Z 100)) in
             (-1845 <=? p) && (p <=? 1000)) (seq 0 314) = true.
Proof. vm_compute. reflexivity. Qed.

Lemma percentage_bounds z :
  -203 <= z <= 110 ->
  -1845 <= round1 (fl_mul (truediv z MAX_SPRS_SCORE) (fl_of_Z 100)) <= 1000.
Proof.
  intros Hz. pose proof percentage_table as H. rewrite forallb_forall in H.
  specialize (H (Z.to_nat (z + 203))).
  replace (Z.of_nat (Z.to_nat (z + 203)) - 203) with z in H by lia.
  cbv zeta in H. rewrite andb_true_iff, !Z.leb_le in H. apply H.
  apply in_seq. lia.
Qed.

(** ** Properties *)

(** the SPRS score is 110 minus the deductions of the rows that carry a
    control id, floored at -203; it always lies in [-203, 110] and its
    percentage in [-184.5, 100.0], whatever the recorded states and sources. *)
Theorem score_system_score states sources d refs :
  let s := score_system states sources d refs in
  score s = Z.max SPRS_FLOOR
              (MAX_SPRS_SCORE - lsum cs_deduction (scored states sources d refs)) /\
  SPRS_FLOOR <= score s <= MAX_SPRS_SCORE /\
  -1845 <= percentage s <= 1000.
Proof.
  cbv zeta. assert (Hsc : score (score_system states sources d refs) =
    Z.max SPRS_FLOOR (MAX_SPRS_SCORE - lsum cs_deduction (scored states sources d refs)))
    by (rewrite <- score_system_deductions; reflexivity).
  assert (0 <= lsum cs_deduction (scored states sources d refs))
    by (apply lsum_nonneg; intros c Hc; apply scored_row in Hc; tauto).
  assert (SPRS_FLOOR <= score (score_system states sources d refs) <= MAX_SPRS_SCORE) as Hb
    by (rewrite Hsc; unfold SPRS_FLOOR, MAX_SPRS_SCORE; lia).
  split; [done|]. split; [done|]. exact (percentage_bounds _ Hb).
Qed.

(** every tally of the summary accounts for every scored row exactly once:
    the state counts, the domain rows and the point-value rows each add up to
    [total_controls] (and to [met_controls] and [deductions_total]), and the
    assessed, derived and not-assessed rows partition the total. *)
Theorem score_system_accounting states sources d refs :
  let s := score_system states sources d refs in
  total_controls s = Z.of_nat (List.length (scored states sources d refs)) /\
  msum id (state_counts s) = total_controls s /\
  msum b_controls (by_domain s) = total_controls s /\
  msum b_controls (by_point_value s) = total_controls s /\
  msum b_met (by_domain s) = met_controls s /\
  msum b_met (by_point_value s) = met_controls s /\
  msum b_deductions (by_domain s) = deductions_total s /\
  msum b_deductions (by_point_value s) = deductions_total s /\
  assessed_controls s + derived_controls s
    + default 0 (state_counts s !! "not_assessed") = total_controls s.
Proof.
  cbv zeta. pose proof (score_system_inv states sources d refs) as H.
  repeat split; try apply H.
  - rewrite (inv_total _ H). by rewrite score_system_controls.
  - rewrite (inv_assessed _ H), (inv_derived _ H), (inv_states _ H), (inv_total _ H).
    rewrite score_system_controls. unfold lcount. rewrite <- !lsum_plus.
    rewrite <- (Z.mul_1_l (Z.of_nat _)), <- lsum_const. apply lsum_ext.
    intros c Hc. apply scored_row in Hc as (_ & _ & _ & Hc).
    unfold derived_row, unassessed_row. repeat case_bool_decide; simpl; naive_solver.
Qed.

(** where a state came from never changes the score: two runs that differ
    only in [sources] agree on the score, the deductions, the state counts and
    the domain and point-value breakdowns. *)
Theorem score_system_sources_irrelevant states src1 src2 d refs :
  let s1 := score_system states src1 d refs in
  let s2 := score_system states src2 d refs in
  score s1 = score s2 /\ percentage s1 = percentage s2 /\
  deductions_total s1 = deductions_total s2 /\ state_counts s1 = state_counts s2 /\
  by_domain s1 = by_domain s2 /\ by_point_value s1 = by_point_value s2 /\
  ssp_present s1 = ssp_present s2.
Proof.
  cbv zeta.
  assert (forall refs t1 t2,
    deductions_total t1 = deductions_total t2 -> state_counts t1 = state_counts t2 ->
    by_domain t1 = by_domain t2 -> by_point_value t1 = by_point_value t2 ->
    ssp_present t1 = ssp_present t2 ->
    let u1 := fold_left (score_step states src1 d) refs t1 in
    let u2 := fold_left (score_step states src2 d) refs t2 in
    deductions_total u1 = deductions_total u2 /\ state_counts u1 = state_counts u2 /\
    by_domain u1 = by_domain u2 /\ by_point_value u1 = by_point_value u2 /\
    ssp_present u1 = ssp_present u2) as Hfold.
  { clear refs. induction refs as [|r refs IH]; intros t1 t2 E1 E2 E3 E4 E5; simpl; [done|].
    apply IH; unfold score_step, score_control; destruct (str_truthy _); simpl;
      rewrite ?E1, ?E2, ?E3, ?E4, ?E5; done. }
  destruct (Hfold refs empty_summary empty_summary eq_refl eq_refl eq_refl eq_refl eq_refl)
    as (E1 & E2 & E3 & E4 & E5).
  unfold score_system, finish. simpl. by rewrite E1, E2, E3, E4, E5.
Qed.

Definition without_derived (states sources : gmap string string) : gmap string string :=
  filter (fun kv : string * string => sources !! kv.1 <> Some DERIVED) states.

Lemma lookup_without_derived states sources k :
  without_derived states sources !! k =
  if decide (sources !! k = Some DERIVED) then None else states !! k.
Proof.
  unfold without_derived. case_decide as H.
  - apply map_lookup_filter_None_2. right. intros x _. simpl. tauto.
  - destruct (states !! k) eqn:E.
    + by apply map_lookup_filter_Some_2.
    + by apply map_lookup_filter_None_2; left.
Qed.

Lemma deduction_not_assessed o :
  deduction_for (Some (normalize_point_value o)) (Some "not_assessed") =
  default 0 (dget (normalize_point_value o) BASE).
Proof. unfold deduction_for. by rewrite normalize_idemp. Qed.

Lemma without_derived_row states sources r :
  from_option cs_deduction 0
    (score_control (without_derived states sources) sources "not_assessed" r) =
  from_option cs_deduction 0 (score_control states sources "not_assessed" r) +
  from_option (fun c => if derived_row c then cs_credited c else 0) 0
    (score_control states sources "not_assessed" r).
Proof.
  unfold score_control. destruct (str_truthy _); [|reflexivity].
  unfold derived_row, credit_for; cbn [from_option cs_deduction cs_source cs_credited].
  rewrite lookup_without_derived, normalize_idemp.
  generalize (py_str (default (VStr "") (dget "control_id" r))). intros cid.
  match goal with |- context [normalize_point_value ?o] =>
    pose proof (deduction_not_assessed o) as Hna; set (pv := normalize_point_value o) in * end.
  destruct (decide (sources !! cid = Some DERIVED)) as [Hs|Hs].
  - rewrite Hs. cbn [default from_option id].
    change (mem "not_assessed" STATES) with true. cbn iota. rewrite Hna.
    destruct (mem (default "not_assessed" (states !! cid)) STATES); cbn iota.
    + destruct (decide (default "not_assessed" (states !! cid) = "not_assessed")) as [E|E].
      * rewrite E, Hna. change (bool_decide ("not_assessed" = "not_assessed")) with true.
        rewrite orb_true_r. case_bool_decide; lia.
      * rewrite (bool_decide_eq_false_2 (default "not_assessed" _ = _)) by done.
        change (bool_decide (DERIVED = DERIVED)) with true. cbn [negb orb].
        rewrite bool_decide_eq_true_2 by done. lia.
    + rewrite Hna. change (bool_decide ("not_assessed" = "not_assessed")) with true.
      rewrite orb_true_r. case_bool_decide; lia.
  - assert (bool_decide ((if negb (bool_decide (default ASSESSED (sources !! cid) = DERIVED))
        || bool_decide ((if mem (default "not_assessed" (states !! cid)) STATES
             then default "not_assessed" (states !! cid) else "not_assessed") = "not_assessed")
        then ASSESSED else default ASSESSED (sources !! cid)) = DERIVED) = false) as ->.
    { apply bool_decide_eq_false_2. destruct (sources !! cid) as [src|]; simpl; [|done].
      destruct (bool_decide_reflect (src = DERIVED)); simpl; [congruence|discriminate]. }
    lia.
Qed.

(** [derived_credit] is exactly what the derived states are worth: dropping
    every derived state from the record (so it reads as not assessed) raises
    the total deduction by precisely [derived_credit]. *)
Theorem derived_credit_is_what_derivation_earned states sources refs :
  let s := score_system states sources "not_assessed" refs in
  deductions_total (score_system (without_derived states sources) sources "not_assessed" refs) =
  deductions_total s + derived_credit s.
Proof.
  cbv zeta. rewrite !score_system_deductions, (inv_credit _ (score_system_inv _ _ _ _)),
    score_system_controls. unfold scored.
  rewrite !lsum_omap, <- lsum_plus. apply lsum_ext. intros r _. apply without_derived_row.
Qed.
