(* ===== verification/Sla.v ===== *)
(** Flaw-remediation timeframes ([src/src/ccf/patching/sla.py]): the declared
    window, the bucket of one POA&M, its CR26 accepted-weakness state, and the
    report [measure] builds.  A date is its proleptic ordinal, so the number of
    days between two dates is their difference. *)

From S2P Require Export Prelude PyNum Tally.

Local Open Scope string_scope.
Local Open Scope Z_scope.

(** [ccf.constants] *)
Definition POAM_CLOSED_STATUSES : list string := ["completed"; "closed"].

Definition ACCEPTED_WEAKNESS_DAYS : Z := 192.
Definition ACCEPTED_WEAKNESS_STATES : list string := ["accepted"; "not_accepted"; "unknown"].

Definition SLA_BUCKETS : list string :=
  ["within_sla"; "breached"; "accepted"; "closed_on_time"; "closed_late"; "unknown"].

Definition FLAW_SOURCES : list string := ["scan"].

Record RemediationWindow := {
  w_critical : Z; w_high : Z; w_moderate : Z; w_low : Z }.

(** The defaults: FedRAMP's timeframes. *)
Definition FEDRAMP_TIMEFRAMES : RemediationWindow :=
  {| w_critical := 30; w_high := 30; w_moderate := 90; w_low := 180 |}.

Definition days_for (w : RemediationWindow) (severity : option string) : Z :=
  let s := lower (or_empty severity) in
  if bool_decide (s = "critical") then w_critical w
  else if bool_decide (s = "high") then w_high w
  else if bool_decide (s = "moderate") then w_moderate w
  else if bool_decide (s = "low") then w_low w
  else Z.min (Z.min (Z.min (w_critical w) (w_high w)) (w_moderate w)) (w_low w).

(** The columns of a POA&M the measurement reads. *)
Record Poam := {
  poam_id : Z;
  poam_source : option string;
  poam_severity : option string;
  poam_status : string;
  identified_on : option Z;
  closed_on : option Z }.

Definition latency (p : Poam) : option Z :=
  match identified_on p, closed_on p with
  | Some identified, Some closed =>
      let days := closed - identified in if 0 <=? days then Some days else None
  | _, _ => None
  end.

Definition classify (p : Poam) (allowed_days today : Z) : string :=
  if bool_decide (poam_status p = "risk_accepted") then "accepted"
  else match identified_on p with
  | None => "unknown"
  | Some identified =>
      if mem (poam_status p) POAM_CLOSED_STATUSES then
        match latency p with
        | None => "unknown"
        | Some days => if days <=? allowed_days then "closed_on_time" else "closed_late"
        end
      else match closed_on p with
      | Some _ => "unknown"
      | None => if today - identified <=? allowed_days then "within_sla" else "breached"
      end
  end.

Definition accepted_weakness_state (p : Poam) (today : Z) : string :=
  if bool_decide (poam_status p = "risk_accepted") then "accepted"
  else match identified_on p with
  | None => "unknown"
  | Some identified =>
      if mem (poam_status p) POAM_CLOSED_STATUSES then
        match latency p with None => "unknown" | Some _ => "not_accepted" end
      else match closed_on p with
      | Some _ => "unknown"
      | None => if ACCEPTED_WEAKNESS_DAYS <? today - identified then "accepted"
                else "not_accepted"
      end
  end.

Record SlaReport := {
  measured : Z;
  excluded : Z;
  buckets : gmap string Z;
  by_severity : gmap string (gmap string Z);
  breaching_ids : list Z;
  median_closed_latency_days : option Z;
  compliance_pct : option Z;
  window : RemediationWindow }.

(** [int(statistics.median(l))] of a non-empty list of non-negative ints. *)
Definition int_median (l : list Z) : Z :=
  let s := merge_sort Z.le l in
  let n := List.length s in
  let at_ i := default 0 (s !! i) in
  if Nat.odd n then at_ (n / 2)%nat else Z.quot (at_ (n / 2 - 1)%nat + at_ (n / 2)%nat) 2.

(** The loop state: the report under construction and [latencies]. *)
Record MeasureState := {
  m_measured : Z; m_excluded : Z;
  m_buckets : gmap string Z;
  m_by_severity : gmap string (gmap string Z);
  m_breaching : list Z;
  m_latencies : list Z }.

Definition measure_start : MeasureState :=
  {| m_measured := 0; m_excluded := 0; m_buckets := zeros_for SLA_BUCKETS;
     m_by_severity := ∅; m_breaching := []; m_latencies := [] |}.

Definition is_flaw (p : Poam) : bool := mem (or_empty (poam_source p)) FLAW_SOURCES.

Definition measure_step (w : RemediationWindow) (today : Z) (m : MeasureState) (p : Poam)
    : MeasureState :=
  if is_flaw p then
    let allowed := days_for w (poam_severity p) in
    let bucket := classify p allowed today in
    let severity := lower (str_or (or_empty (poam_severity p)) "unknown") in
    let per := default (zeros_for SLA_BUCKETS) (m_by_severity m !! severity) in
    {| m_measured := m_measured m + 1;
       m_excluded := m_excluded m;
       m_buckets := bump bucket 1 (m_buckets m);
       m_by_severity := <[severity := bump bucket 1 per]> (m_by_severity m);
       m_breaching := if bool_decide (bucket = "breached")
                      then (m_breaching m ++ [poam_id p])%list else m_breaching m;
       m_latencies :=
         if mem bucket ["closed_on_time"; "closed_late"] then
           match latency p with
           | Some l => (m_latencies m ++ [l])%list
           | None => m_latencies m
           end
         else m_latencies m |}
  else
    {| m_measured := m_measured m; m_excluded := m_excluded m + 1;
       m_buckets := m_buckets m; m_by_severity := m_by_severity m;
       m_breaching := m_breaching m; m_latencies := m_latencies m |}.

Definition bucket_of (r : gmap string Z) (b : string) : Z := default 0 (r !! b).

Definition measure_finish (w : RemediationWindow) (m : MeasureState) : SlaReport :=
  {| measured := m_measured m; excluded := m_excluded m;
     buckets := m_buckets m; by_severity := m_by_severity m;
     breaching_ids := merge_sort Z.le (m_breaching m);
     median_closed_latency_days :=
       match m_latencies m with [] => None | l => Some (int_median l) end;
     compliance_pct :=
       if m_measured m =? 0 then None
       else Some (pct1 (bucket_of (m_buckets m) "within_sla"
                        + bucket_of (m_buckets m) "closed_on_time") (m_measured m));
     window := w |}.

Definition measure (poams : list Poam) (w : RemediationWindow) (today : Z) : SlaReport :=
  measure_finish w (fold_left (measure_step w today) poams measure_start).

(** ** One POA&M *)

(** The bucket of a flaw under the window. *)
Definition bucket_for (w : RemediationWindow) (today : Z) (p : Poam) : string :=
  classify p (days_for w (poam_severity p)) today.

Definition severity_key (p : Poam) : string := lower (str_or (or_empty (poam_severity p)) "unknown").

Definition compliant (w : RemediationWindow) (today : Z) (p : Poam) : bool :=
  mem (bucket_for w today p) ["within_sla"; "closed_on_time"].

Ltac classify_cases :=
  repeat first
    [ progress simpl
    | case_bool_decide
    | match goal with
      | |- context [match ?o with Some _ => _ | None => _ end] => destruct o eqn:?
      | |- context [if mem ?x ?l then _ else _] => destruct (mem x l) eqn:?
      | |- context [if ?a <=? ?b then _ else _] => destruct (Z.leb_spec a b)
      | |- context [if ?a <? ?b then _ else _] => destruct (Z.ltb_spec a b)
      end ].

Lemma classify_in_buckets p allowed today : classify p allowed today ∈ SLA_BUCKETS.
Proof. unfold classify, SLA_BUCKETS. classify_cases; in_list. Qed.

Lemma days_for_pos w sev :
  0 < w_critical w -> 0 < w_high w -> 0 < w_moderate w -> 0 < w_low w -> 0 < days_for w sev.
Proof. intros. unfold days_for. repeat case_bool_decide; lia. Qed.

(** ** The loop *)

Section measure.
Context (w : RemediationWindow) (today : Z).
Implicit Types (p : Poam) (ps : list Poam).

Definition flaws ps : list Poam := filter (fun p => is_flaw p = true) ps.
Definition in_bucket (b : string) p : bool := bool_decide (bucket_for w today p = b).

Record measure_inv (m : MeasureState) (seen : list Poam) : Prop := {
  mi_measured : m_measured m = Z.of_nat (List.length (flaws seen));
  mi_total : m_measured m + m_excluded m = Z.of_nat (List.length seen);
  mi_bucket : forall b, bucket_of (m_buckets m) b = lcount (in_bucket b) (flaws seen);
  mi_sum : msum id (m_buckets m) = m_measured m;
  mi_sev : msum (msum id) (m_by_severity m) = m_measured m;
  mi_sev_cell : forall s b, bucket_of (default (zeros_for SLA_BUCKETS) (m_by_severity m !! s)) b =
    lcount (fun p => bool_decide (severity_key p = s) && in_bucket b p) (flaws seen);
  mi_breaching : m_breaching m = map poam_id (filter (fun p => in_bucket "breached" p = true) (flaws seen)) }.

Lemma flaws_snoc ps p : flaws (ps ++ [p]) = (flaws ps ++ if is_flaw p then [p] else [])%list.
Proof.
  unfold flaws. rewrite filter_app. f_equal.
  destruct (is_flaw p) eqn:E; [by rewrite filter_cons_True|by rewrite filter_cons_False; [|congruence]].
Qed.

Lemma measure_inv_start : measure_inv measure_start [].
Proof.
  split; simpl; try done.
  - intros b. apply (default_zeros_for SLA_BUCKETS b).
  - intros s b. rewrite lookup_empty. apply (default_zeros_for SLA_BUCKETS b).
Qed.

Lemma bucket_of_bump b b' m :
  bucket_of (bump b 1 m) b' = bucket_of m b' + (if bool_decide (b = b') then 1 else 0).
Proof.
  unfold bucket_of. rewrite lookup_bump. case_bool_decide; case_decide; done || lia.
Qed.

Lemma measure_inv_step m seen p :
  measure_inv m seen -> measure_inv (measure_step w today m p) (seen ++ [p]).
Proof.
  intros [Hm Ht Hb Hs Hsv Hc Hbr]. unfold measure_step.
  destruct (is_flaw p) eqn:Hf; split; simpl; rewrite ?flaws_snoc, ?Hf, ?app_nil_r;
    try done; try (rewrite ?length_app; simpl; lia).
  - intros b. rewrite bucket_of_bump, Hb. by rewrite lcount_snoc.
  - rewrite msum_bump. lia.
  - rewrite msum_insert, msum_bump, Hsv.
    destruct (m_by_severity m !! _); simpl; [lia|]. rewrite msum_zeros_for. lia.
  - intros s b. rewrite lcount_snoc, <- Hc.
    fold (severity_key p) (bucket_for w today p).
    destruct (decide (severity_key p = s)) as [<-|Hne].
    + rewrite lookup_insert_eq. simpl. rewrite bucket_of_bump.
      rewrite (bool_decide_eq_true_2 (severity_key p = _)) by done. done.
    + rewrite lookup_insert_ne by done.
      rewrite (bool_decide_eq_false_2 (severity_key p = _)) by done. simpl. lia.
  - rewrite filter_app, map_app, <- Hbr. fold (bucket_for w today p).
    destruct (bool_decide (bucket_for w today p = "breached")) eqn:E.
    + rewrite filter_cons_True by done. done.
    + rewrite filter_cons_False by (unfold in_bucket; congruence). by rewrite app_nil_r.
Qed.

Lemma measure_inv_fold ps m seen :
  measure_inv m seen -> measure_inv (fold_left (measure_step w today) ps m) (seen ++ ps).
Proof.
  revert m seen. induction ps as [|p ps IH]; intros m seen H; simpl; [by rewrite app_nil_r|].
  replace (seen ++ p :: ps)%list with ((seen ++ [p]) ++ ps)%list by (by rewrite <- app_assoc).
  by apply IH, measure_inv_step.
Qed.

Lemma measure_final ps : measure_inv (fold_left (measure_step w today) ps measure_start) ps.
Proof. apply (measure_inv_fold ps measure_start []), measure_inv_start. Qed.

Definition compliant_count ps : Z := lcount (compliant w today) (flaws ps).

Lemma compliant_buckets ps :
  lcount (in_bucket "within_sla") (flaws ps) + lcount (in_bucket "closed_on_time") (flaws ps) =
  compliant_count ps.
Proof.
  unfold compliant_count, lcount. rewrite <- lsum_plus. apply lsum_ext. intros p _.
  unfold in_bucket, compliant. autorewrite with mem.
  repeat case_bool_decide; simpl; lia || congruence.
Qed.

Lemma measure_compliance ps :
  compliance_pct (measure ps w today) =
  if Z.of_nat (List.length (flaws ps)) =? 0 then None
  else Some (pct1 (compliant_count ps) (Z.of_nat (List.length (flaws ps)))).
Proof.
  unfold measure, measure_finish. simpl. destruct (measure_final ps) as [-> _ Hb _ _ _ _].
  by rewrite !Hb, compliant_buckets.
Qed.
End measure.

(** ** Record-keeping changes to one POA&M *)

(** Formally accepting the residual risk. *)
Definition accept_risk (p : Poam) : Poam :=
  {| poam_id := poam_id p; poam_source := poam_source p; poam_severity := poam_severity p;
     poam_status := "risk_accepted"; identified_on := identified_on p; closed_on := closed_on p |}.

(** Losing the identification date. *)
Definition undated (p : Poam) : Poam :=
  {| poam_id := poam_id p; poam_source := poam_source p; poam_severity := poam_severity p;
     poam_status := poam_status p; identified_on := None; closed_on := closed_on p |}.

(** Marking a weakness closed without recording when. *)
Definition closed_undated (p : Poam) : Poam :=
  {| poam_id := poam_id p; poam_source := poam_source p; poam_severity := poam_severity p;
     poam_status := "closed"; identified_on := identified_on p; closed_on := None |}.

(** The order on reported percentages: nothing measured compares only with
    nothing measured. *)
Definition pct_le (a b : option Z) : Prop :=
  match a, b with
  | Some x, Some y => x <= y
  | None, None => True
  | _, _ => False
  end.

Lemma not_compliant_accept w today p : compliant w today (accept_risk p) = false.
Proof. done. Qed.

Lemma not_compliant_undated w today p : compliant w today (undated p) = false.
Proof. unfold compliant, bucket_for, classify. simpl. case_bool_decide; done. Qed.

Lemma not_compliant_closed_undated w today p : compliant w today (closed_undated p) = false.
Proof.
  unfold compliant, bucket_for, classify, latency. simpl.
  by destruct (identified_on p).
Qed.

Lemma measure_replace_le w today pre post p p' :
  is_flaw p' = is_flaw p -> compliant w today p' = false ->
  pct_le (compliance_pct (measure (pre ++ p' :: post) w today))
         (compliance_pct (measure (pre ++ p :: post) w today)).
Proof.
  intros Hf Hc. rewrite !measure_compliance. unfold compliant_count, flaws, lcount.
  rewrite !filter_app, !length_app, !lsum_app, !filter_cons, Hf.
  destruct (decide (is_flaw p = true)); simpl; [|by destruct (_ =? 0); simpl].
  rewrite Hc. destruct (Z.eqb_spec (Z.of_nat (List.length (filter (fun p => is_flaw p = true) pre)
    + S (List.length (filter (fun p => is_flaw p = true) post)))) 0); [lia|].
  simpl. apply pct1_mono; [lia|].
  assert (forall l, 0 <= lsum (fun x => if compliant w today x then 1 else 0) l) as Hnn
    by (intros l; apply (lcount_bounds (compliant w today) l)).
  pose proof (Hnn (filter (fun p => is_flaw p = true) pre)).
  pose proof (Hnn (filter (fun p => is_flaw p = true) post)).
  destruct (compliant w today p); lia.
Qed.

(** ** Properties *)

(** the report accounts for every POA&M: measured and excluded add up to
    the input, the buckets add up to the measured count (overall and over the
    severities), each bucket holds exactly the flaws [classify] puts there, and
    [breaching_ids] is the sorted list of the breached flaws' ids. *)
Theorem measure_accounts ps w today :
  let r := measure ps w today in
  measured r = Z.of_nat (List.length (flaws ps)) /\
  measured r + excluded r = Z.of_nat (List.length ps) /\
  msum id (buckets r) = measured r /\
  msum (msum id) (by_severity r) = measured r /\
  (forall b, bucket_of (buckets r) b = lcount (in_bucket w today b) (flaws ps)) /\
  breaching_ids r ≡ₚ map poam_id (filter (fun p => in_bucket w today "breached" p = true) (flaws ps)) /\
  StronglySorted Z.le (breaching_ids r).
Proof.
  cbv zeta. pose proof (measure_final w today ps) as [? ? ? ? ? ? Hb].
  repeat split; try done; simpl.
  - by rewrite merge_sort_Permutation, Hb.
  - apply StronglySorted_merge_sort; apply _.
Qed.

(** the remediation bucket and the CR26 state agree on what cannot be
    measured and on what was declared accepted, whatever window the
    organization declared; a row the CR26 rule calls accepted without a
    declaration is an open, dated, never-closed row older than 192 days. *)
Theorem accepted_state_agrees_with_classify p allowed today :
  (accepted_weakness_state p today = "unknown" <-> classify p allowed today = "unknown") /\
  (classify p allowed today = "accepted" <-> poam_status p = "risk_accepted") /\
  (accepted_weakness_state p today = "accepted" <->
     poam_status p = "risk_accepted" \/
     (exists d, identified_on p = Some d /\ closed_on p = None /\
        poam_status p ∉ POAM_CLOSED_STATUSES /\ ACCEPTED_WEAKNESS_DAYS < today - d)) /\
  accepted_weakness_state p today ∈ ACCEPTED_WEAKNESS_STATES /\
  classify p allowed today ∈ SLA_BUCKETS.
Proof.
  split; [|split; [|split; [|split; [|apply classify_in_buckets]]]].
  - unfold accepted_weakness_state, classify. classify_cases; split; congruence.
  - unfold classify. classify_cases; split; congruence.
  - unfold accepted_weakness_state. classify_cases; (split; [intros ?|]); try discriminate;
      try done; try (by left); try (intros [?|(d & ? & ? & ? & ?)]; simplify_eq; try lia;
        by match goal with H : mem _ _ = true |- _ => apply mem_true in H end).
    all: right; eexists; repeat split; try done; by apply mem_false.
  - unfold accepted_weakness_state. classify_cases; in_list.
Qed.

(** neither accepting risk nor poor record-keeping can raise the compliance
    percentage: replacing any POA&M by its risk-accepted, undated or
    closed-without-a-date version never increases it, and it always lies in
    [0.0, 100.0]. *)
Theorem compliance_cannot_be_gamed pre p post w today :
  let pct q := compliance_pct (measure (pre ++ q :: post) w today) in
  pct_le (pct (accept_risk p)) (pct p) /\
  pct_le (pct (undated p)) (pct p) /\
  pct_le (pct (closed_undated p)) (pct p) /\
  pct_le (Some 0) (Some (default 0 (pct p))) /\
  pct_le (Some (default 0 (pct p))) (Some 1000).
Proof.
  cbv zeta. split; [|split; [|split]].
  - by apply measure_replace_le.
  - apply measure_replace_le; [done|apply not_compliant_undated].
  - apply measure_replace_le; [done|apply not_compliant_closed_undated].
  - rewrite measure_compliance. simpl. destruct (Z.eqb_spec
      (Z.of_nat (List.length (flaws (pre ++ p :: post)))) 0); simpl; [lia|].
    pose proof (lcount_bounds (compliant w today) (flaws (pre ++ p :: post))).
    apply pct1_bounds; unfold compliant_count; lia.
Qed.
