(* ===== verification/Posture.v ===== *)
(** Posture findings ([src/src/ccf/posture/rollup.py], [types.py], [drift.py],
    [latest.py]): the verdict vocabulary, the worst-wins rollup of per-resource
    verdicts into a check outcome, the drift between two results, and which
    result of a test is the latest informative one. *)

From S2P Require Export Prelude PyNum PyVal Tally.

Local Open Scope string_scope.
Local Open Scope Z_scope.

(** [fedramp20x.VALIDATION_STATUSES] *)
Definition VALIDATION_STATUSES : list string :=
  ["pass"; "warn"; "fail"; "not_tested"; "manual_review_required"; "not_applicable"].

(** [fedramp20x.validation.VERDICT_RANK]; [.get(v, 0)] elsewhere. *)
Definition VERDICT_RANK : list (string * Z) :=
  [("pass", 4); ("warn", 3); ("manual_review_required", 2); ("fail", 1);
   ("not_applicable", 0); ("not_tested", 0)].

Definition verdict_rank (v : string) : Z := default 0 (dget v VERDICT_RANK).

Definition EXCLUDED_FROM_ROLLUP : list string := ["not_applicable"; "not_tested"].

(** [frozenset(VALIDATION_STATUSES) - {"pass"} - EXCLUDED_FROM_ROLLUP] *)
Definition REQUIRES_COVER : list string :=
  filter (fun v => v <> "pass" /\ v ∉ EXCLUDED_FROM_ROLLUP) VALIDATION_STATUSES.

Definition unknown_verdict (v : string) : exn := ValueError ("unknown verdict: " +:+ repr_str v).

(** The loop of [roll_up_findings]: the considered verdicts, in order. *)
Fixpoint considered_verdicts (vs : list string) : res (list string) :=
  match vs with
  | [] => Ok []
  | v :: vs' =>
      if mem v VALIDATION_STATUSES then
        if mem v EXCLUDED_FROM_ROLLUP then considered_verdicts vs'
        else let! ws := considered_verdicts vs' in Ok (v :: ws)
      else Err (unknown_verdict v)
  end.

Definition roll_up_findings (verdicts : list string) : res string :=
  let! considered := considered_verdicts verdicts in
  match considered with
  | [] => Ok "not_applicable"
  | v :: vs => Ok (min_by verdict_rank v vs)
  end.

Record PostureCheck := {
  pc_key : string;
  pc_title : string;
  pc_provider : string;
  pc_resource_type : string;
  pc_expected : string;
  pc_control_ids : list string;
  pc_capability_key : option string;
  pc_required_permissions : list string }.

Record ResourceFinding := {
  resource_id : string;
  resource_type : string;
  verdict : string;
  observed : string;
  detail : list (string * pyval) }.

Record CheckOutcome := {
  co_check_key : string;
  co_verdict : string;
  co_expected : string;
  co_findings : list ResourceFinding }.

Definition evaluated (o : CheckOutcome) : Z := Z.of_nat (List.length (co_findings o)).
Definition considered (o : CheckOutcome) : Z :=
  lcount (fun f => negb (mem (verdict f) EXCLUDED_FROM_ROLLUP)) (co_findings o).
Definition failing (o : CheckOutcome) : Z :=
  lcount (fun f => bool_decide (verdict f = "fail")) (co_findings o).

Fixpoint check_verdicts (fs : list ResourceFinding) : res unit :=
  match fs with
  | [] => Ok tt
  | f :: fs' => if mem (verdict f) VALIDATION_STATUSES then check_verdicts fs'
                else Err (unknown_verdict (verdict f))
  end.

Definition from_findings (check : PostureCheck) (findings : list ResourceFinding)
    : res CheckOutcome :=
  let! _ := check_verdicts findings in
  let! v := roll_up_findings (map verdict findings) in
  Ok {| co_check_key := pc_key check; co_verdict := v;
        co_expected := pc_expected check; co_findings := findings |}.

(** ** Drift *)

Definition TRANSITION_KINDS : list string :=
  ["regressed"; "recovered"; "improved"; "appeared"; "disappeared"; "changed"].

Record ResourceTransition := {
  tr_resource_id : string;
  tr_kind : string;
  tr_before : option string;
  tr_after : option string;
  tr_observed : option string }.

(** [{f.resource_id: f for f in findings}]: the last occurrence wins. *)
Definition by_id (findings : list ResourceFinding) : gmap string ResourceFinding :=
  fold_left (fun m f => <[resource_id f := f]> m) findings ∅.

Definition PROBLEM_SEVERITY : list string := ["manual_review_required"; "warn"; "fail"].

Definition worse (before after : string) : res bool :=
  let! a := index_of after PROBLEM_SEVERITY in
  let! b := index_of before PROBLEM_SEVERITY in
  Ok (b <? a).

Definition classify (before after : ResourceFinding) : res (option string) :=
  let was_problem := mem (verdict before) REQUIRES_COVER in
  let is_problem := mem (verdict after) REQUIRES_COVER in
  if negb was_problem && is_problem then Ok (Some "regressed")
  else if was_problem && negb is_problem then
    Ok (Some (if bool_decide (verdict after = "pass") then "recovered" else "changed"))
  else if was_problem && is_problem then
    if bool_decide (verdict before <> verdict after) then
      let! w := worse (verdict before) (verdict after) in
      Ok (Some (if w then "regressed" else "improved"))
    else Ok (if bool_decide (observed before <> observed after) then Some "changed" else None)
  else if bool_decide (verdict before <> verdict after)
          || bool_decide (observed before <> observed after)
  then Ok (Some "changed") else Ok None.

(** The body of the loop of [diff_resources] for one resource id. *)
Definition transition_for (old new : gmap string ResourceFinding) (rid : string)
    : res (option ResourceTransition) :=
  match old !! rid, new !! rid with
  | None, Some now =>
      Ok (Some {| tr_resource_id := rid; tr_kind := "appeared"; tr_before := None;
                  tr_after := Some (verdict now); tr_observed := Some (observed now) |})
  | Some was, None =>
      Ok (Some {| tr_resource_id := rid; tr_kind := "disappeared";
                  tr_before := Some (verdict was); tr_after := None; tr_observed := None |})
  | Some was, Some now =>
      let! kind := classify was now in
      Ok (match kind with
          | None => None
          | Some k => Some {| tr_resource_id := rid; tr_kind := k;
                              tr_before := Some (verdict was); tr_after := Some (verdict now);
                              tr_observed := Some (observed now) |}
          end)
  | None, None => Ok None
  end.

Definition diff_resources (before after : list ResourceFinding) : res (list ResourceTransition) :=
  let old := by_id before in
  let new := by_id after in
  let! ts := res_map (transition_for old new)
               (sorted_set (map resource_id before ++ map resource_id after)) in
  Ok (omap id ts).

(** ** Recorded results *)

Definition OUT_OF_SCOPE_EVIDENCE_REF : string := "ccf:scope:outside-environment".

(** One row of [control_test_results] with its resource rows. *)
Record TestResult := {
  tres_id : Z;
  tres_test_id : Z;
  tres_run_at : Z;
  tres_evaluated : Z;
  tres_evidence_ref : option string;
  tres_findings : list ResourceFinding }.

Definition informative (r : TestResult) : bool :=
  (0 <? tres_evaluated r) || bool_decide (tres_evidence_ref r = Some OUT_OF_SCOPE_EVIDENCE_REF).

(** [ORDER BY run_at DESC, id DESC]: [a] comes before [b]. *)
Definition newer (a b : TestResult) : bool :=
  (tres_run_at b <? tres_run_at a) ||
  ((tres_run_at b =? tres_run_at a) && (tres_id b <? tres_id a)).

(** The correlated [LIMIT 1] subquery for one test. *)
Definition latest_result (test_id : Z) (rows : list TestResult) : option TestResult :=
  latest_of newer (filter (fun r => tres_test_id r = test_id /\ informative r = true) rows).

Definition latest_result_ids (test_ids : list Z) (rows : list TestResult) : list (Z * Z) :=
  omap (fun t => (fun r => (t, tres_id r)) <$> latest_result t rows) test_ids.

(** The rows of one test, newest id first. *)
Definition id_desc (a b : TestResult) : Prop := tres_id b <= tres_id a.

#[export] Instance id_desc_dec a b : Decision (id_desc a b).
Proof. unfold id_desc. apply _. Defined.

Definition results_desc (test_id : Z) (rows : list TestResult) : list TestResult :=
  merge_sort id_desc (filter (fun r => tres_test_id r = test_id) rows).

Definition latest_drift (test_id : Z) (rows : list TestResult) : res (list ResourceTransition) :=
  match results_desc test_id rows with
  | newer_r :: older_r :: _ => diff_resources (tres_findings older_r) (tres_findings newer_r)
  | _ => Ok []
  end.

(** ** Rollup lemmas *)

Lemma considered_verdicts_spec vs :
  match considered_verdicts vs with
  | Ok ws => ws = filter (fun v => v ∉ EXCLUDED_FROM_ROLLUP) vs /\
             forall v, v ∈ vs -> v ∈ VALIDATION_STATUSES
  | Err e => exists v, v ∈ vs /\ v ∉ VALIDATION_STATUSES /\ e = unknown_verdict v
  end.
Proof.
  induction vs as [|v vs IH]; simpl; [split; [done|]; by intros v ?%not_elem_of_nil|].
  destruct (mem v VALIDATION_STATUSES) eqn:Hv.
  - apply mem_true in Hv. destruct (mem v EXCLUDED_FROM_ROLLUP) eqn:He;
      destruct (considered_verdicts vs) as [ws|e]; simpl.
    + apply mem_true in He. destruct IH as [-> IH]. rewrite filter_cons_False by tauto.
      split; [done|]. intros w [->|Hw]%elem_of_cons; auto.
    + destruct IH as (w & Hw & ?). exists w. split; [by right|done].
    + apply mem_false in He. destruct IH as [-> IH]. rewrite filter_cons_True by done.
      split; [done|]. intros w [->|Hw]%elem_of_cons; auto.
    + destruct IH as (w & Hw & ?). exists w. split; [by right|done].
  - apply mem_false in Hv. exists v. split; [by left|done].
Qed.

(** The considered verdicts, worst first. *)
Lemma considered_cases v :
  v ∈ VALIDATION_STATUSES -> v ∉ EXCLUDED_FROM_ROLLUP ->
  v = "fail" \/ v = "manual_review_required" \/ v = "warn" \/ v = "pass".
Proof. unfold VALIDATION_STATUSES, EXCLUDED_FROM_ROLLUP. rewrite !elem_of_cons. tauto. Qed.

Lemma REQUIRES_COVER_cases v :
  v ∈ REQUIRES_COVER <-> v = "fail" \/ v = "manual_review_required" \/ v = "warn".
Proof.
  change REQUIRES_COVER with ["warn"; "fail"; "manual_review_required"].
  rewrite !elem_of_cons, elem_of_nil. tauto.
Qed.

Lemma check_verdicts_Ok fs :
  (forall v, v ∈ map verdict fs -> v ∈ VALIDATION_STATUSES) -> check_verdicts fs = Ok tt.
Proof.
  induction fs as [|f fs IH]; simpl; intros H; [done|].
  rewrite (proj2 (mem_true _ _)) by (apply H; by left). apply IH. intros. apply H. by right.
Qed.

(** ** Drift lemmas *)

Lemma lookup_by_id_app fs f rid :
  by_id (fs ++ [f]) !! rid = if decide (resource_id f = rid) then Some f else by_id fs !! rid.
Proof.
  unfold by_id. rewrite fold_left_app. simpl. case_decide as H.
  - subst. apply lookup_insert_eq.
  - by apply lookup_insert_ne.
Qed.

Lemma by_id_is_Some fs rid : is_Some (by_id fs !! rid) <-> rid ∈ map resource_id fs.
Proof.
  induction fs as [|f fs IH] using rev_ind.
  - unfold by_id. simpl. rewrite lookup_empty, elem_of_nil. split; [by intros []|done].
  - rewrite lookup_by_id_app, map_app, elem_of_app, <- IH. simpl. rewrite list_elem_of_singleton.
    case_decide; [naive_solver|]. split; [auto|]. intros [?|?]; [done|congruence].
Qed.

(** What a transition reports about: verdict and observation. *)
Definition shown (f : ResourceFinding) : string * string := (verdict f, observed f).

Lemma worse_ok a b : a ∈ REQUIRES_COVER -> b ∈ REQUIRES_COVER -> exists w, worse a b = Ok w.
Proof.
  intros Ha Hb. unfold worse.
  destruct (index_of_ok b PROBLEM_SEVERITY) as [n ->].
  { apply REQUIRES_COVER_cases in Hb. unfold PROBLEM_SEVERITY. rewrite !elem_of_cons. tauto. }
  destruct (index_of_ok a PROBLEM_SEVERITY) as [m ->]; [|by eexists].
  apply REQUIRES_COVER_cases in Ha. unfold PROBLEM_SEVERITY. rewrite !elem_of_cons. tauto.
Qed.

Ltac classify_goals :=
  (split; [|split]);
  [ split; intros; try congruence; naive_solver
  | split; intros; naive_solver
  | intros s Hs; simplify_eq; in_list ].

Lemma classify_spec before after :
  exists k, classify before after = Ok k /\
    (k = None <-> shown before = shown after) /\
    (k = Some "recovered" <-> verdict before ∈ REQUIRES_COVER /\ verdict after = "pass") /\
    (forall s, k = Some s -> s ∈ ["regressed"; "recovered"; "improved"; "changed"]).
Proof.
  unfold classify, shown.
  destruct (mem_spec (verdict before) REQUIRES_COVER) as [Hb|Hb],
    (mem_spec (verdict after) REQUIRES_COVER) as [Ha|Ha]; simpl.
  - destruct (worse_ok _ _ Hb Ha) as [w ->].
    assert (verdict after <> "pass") by (intros E; rewrite E in Ha; mem_absurd Ha).
    repeat case_bool_decide; simpl; eexists; (split; [done|]); try destruct w; classify_goals.
  - assert (verdict before <> verdict after) by congruence.
    repeat case_bool_decide; eexists; (split; [done|]); classify_goals.
  - assert (verdict before <> verdict after) by congruence.
    eexists; (split; [done|]); classify_goals.
  - repeat case_bool_decide; simpl; eexists; (split; [done|]); classify_goals.
Qed.

(** The drift of one resource, in terms of the two indexes. *)
Lemma transition_for_spec old new rid :
  is_Some (old !! rid) \/ is_Some (new !! rid) ->
  exists o, transition_for old new rid = Ok o /\
    (o = None <-> shown <$> old !! rid = shown <$> new !! rid) /\
    (forall t, o = Some t ->
       tr_resource_id t = rid /\ tr_kind t ∈ TRANSITION_KINDS /\
       tr_before t = verdict <$> old !! rid /\ tr_after t = verdict <$> new !! rid /\
       (tr_kind t = "recovered" <->
          exists was now, old !! rid = Some was /\ new !! rid = Some now /\
            verdict was ∈ REQUIRES_COVER /\ verdict now = "pass")).
Proof.
  unfold transition_for. intros H.
  destruct (old !! rid) as [was|], (new !! rid) as [now|]; simpl.
  - destruct (classify_spec was now) as (k & -> & H1 & H2 & H3). simpl.
    eexists. split; [done|]. split.
    + destruct k as [k|]; [|by rewrite (proj1 H1 eq_refl)].
      split; [done|]. intros E. assert (shown was = shown now) as E' by congruence.
      by apply H1 in E'.
    + intros t. destruct k as [k|]; [|done]. intros [= <-]. simpl.
      specialize (H3 k eq_refl). split; [done|]. split.
      { revert H3. unfold TRANSITION_KINDS. rewrite !elem_of_cons. tauto. }
      split; [done|]. split; [done|].
      transitivity (Some k = Some "recovered"); [split; congruence|]. rewrite H2. split.
      * intros [? ?]. by exists was, now.
      * intros (? & ? & [= <-] & [= <-] & ? & ?). done.
  - eexists. split; [done|]. split; [done|]. intros t [= <-]. simpl.
    split; [done|]. split; [in_list|]. split; [done|]. split; [done|].
    split; [discriminate|]. intros (? & ? & ? & ? & ?). discriminate.
  - eexists. split; [done|]. split; [done|]. intros t [= <-]. simpl.
    split; [done|]. split; [in_list|]. split; [done|]. split; [done|].
    split; [discriminate|]. intros (? & ? & ? & ? & ?). discriminate.
  - destruct H as [[]|[]]; done.
Qed.

(** What the comparison of each resource yields. *)
Lemma transitions_spec old new ks os :
  (forall k, k ∈ ks -> is_Some (old !! k) \/ is_Some (new !! k)) ->
  Forall2 (fun k o => transition_for old new k = Ok o) ks os ->
  Forall2 (fun k o => (o = None <-> shown <$> old !! k = shown <$> new !! k) /\
     (forall t, o = Some t ->
       tr_resource_id t = k /\ tr_kind t ∈ TRANSITION_KINDS /\
       tr_before t = verdict <$> old !! k /\ tr_after t = verdict <$> new !! k /\
       (tr_kind t = "recovered" <->
          exists was now, old !! k = Some was /\ new !! k = Some now /\
            verdict was ∈ REQUIRES_COVER /\ verdict now = "pass"))) ks os.
Proof.
  intros Hks Hos. apply Forall2_same_length_lookup_2; [by eapply Forall2_length|].
  intros i k o Hk Ho. eapply Forall2_lookup_lr in Hos; [|done..].
  assert (k ∈ ks) as Hkk by (apply list_elem_of_lookup; eauto).
  destruct (transition_for_spec old new k (Hks k Hkk)) as (o' & Ho' & H).
  rewrite Ho' in Hos. injection Hos as <-. done.
Qed.

Lemma fmap_omap_sublist {A B} (f : A -> B) (g : B -> option A) (ks : list B) (os : list (option A)) :
  Forall2 (fun k o => forall t, o = Some t -> f t = k) ks os ->
  map f (omap id os) `sublist_of` ks.
Proof.
  induction 1 as [|k o ks os Ho _ IH]; [constructor|]. destruct o as [t|]; simpl.
  - rewrite (Ho t eq_refl). by constructor.
  - by constructor.
Qed.

(** ** Properties *)

(** a check fails exactly when some resource fails, passes exactly when
    something was considered and everything considered passed, is
    not-applicable exactly when nothing was considered, and otherwise reports
    the worst considered verdict; the only error is an unknown verdict. *)
Theorem roll_up_worst_wins vs :
  match roll_up_findings vs with
  | Ok r =>
      (r = "not_applicable" <-> forall v, v ∈ vs -> v ∈ EXCLUDED_FROM_ROLLUP) /\
      (r = "fail" <-> "fail" ∈ vs) /\
      (r = "pass" <-> "pass" ∈ vs /\
         forall v, v ∈ vs -> v = "pass" \/ v ∈ EXCLUDED_FROM_ROLLUP) /\
      (forall v, v ∈ vs -> v ∉ EXCLUDED_FROM_ROLLUP -> verdict_rank r <= verdict_rank v) /\
      r ∈ VALIDATION_STATUSES
  | Err e => exists v, v ∈ vs /\ v ∉ VALIDATION_STATUSES /\ e = unknown_verdict v
  end.
Proof.
  unfold roll_up_findings. pose proof (considered_verdicts_spec vs) as H.
  destruct (considered_verdicts vs) as [ws|e]; simpl; [|done]. destruct H as [Hws Hall].
  assert (Hin : forall v, v ∈ ws <-> v ∉ EXCLUDED_FROM_ROLLUP /\ v ∈ vs)
    by (intros v; by rewrite Hws, list_elem_of_filter).
  assert (forall v, v ∈ vs -> v ∈ EXCLUDED_FROM_ROLLUP \/ v ∈ ws) as Hsplit.
  { intros v Hv. destruct (decide (v ∈ EXCLUDED_FROM_ROLLUP)); [by left|right].
    by apply Hin. }
  assert (forall v, v ∈ ws -> v = "fail" \/ v = "manual_review_required" \/ v = "warn" \/ v = "pass")
    as Hcases by (intros v [? ?]%Hin; apply considered_cases; auto).
  clear Hws. destruct ws as [|w ws].
  - assert (forall v, v ∈ vs -> v ∈ EXCLUDED_FROM_ROLLUP) as Hex
      by (intros v Hv; destruct (Hsplit v Hv) as [|?%not_elem_of_nil]; done).
    repeat split; try done; try in_list.
    + intros Hf. apply Hex in Hf. mem_absurd Hf.
    + intros [Hp _]. apply Hex in Hp. mem_absurd Hp.
    + intros v Hv Hne. destruct Hne. auto.
  - destruct (min_by_spec verdict_rank w ws) as [Hr Hmin].
    set (r := min_by verdict_rank w ws) in *. clearbody r.
    pose proof (proj1 (Hin r) Hr) as [Hrex Hrvs]. pose proof (Hcases r Hr) as Hrc.
    split; [|split; [|split; [|split]]].
    + split; [intros ->; by destruct Hrc as [?|[?|[?|?]]]|intros Hex; destruct Hrex; auto].
    + split; [by intros <-|]. intros Hf.
      assert ("fail" ∈ w :: ws) as Hf' by (apply Hin; split; [mem_closed|done]).
      specialize (Hmin _ Hf'). destruct Hrc as [->|[->|[->| ->]]]; vm_compute in Hmin; done.
    + split.
      * intros ->. split; [done|]. intros v Hv. destruct (Hsplit v Hv) as [|Hv']; [by right|].
        left. specialize (Hmin _ Hv').
        destruct (Hcases v Hv') as [->|[->|[->| ->]]]; vm_compute in Hmin; done.
      * intros [_ Hp]. destruct (Hp r Hrvs); done.
    + intros v Hv Hne. apply Hmin, Hin. done.
    + destruct Hrc as [->|[->|[->| ->]]]; in_list.
Qed.

(** the drift between two results never fails to classify; it reports, in
    strictly increasing resource order and once each, exactly the resources
    whose verdict or observation differs between the two indexes, with a known
    kind, and says "recovered" only of a move from a verdict that needs cover
    to a pass. *)
Theorem diff_resources_spec before after :
  exists ts, diff_resources before after = Ok ts /\
    NoDup (map tr_resource_id ts) /\ StronglySorted str_le (map tr_resource_id ts) /\
    (forall rid, rid ∈ map tr_resource_id ts <->
       shown <$> by_id before !! rid <> shown <$> by_id after !! rid) /\
    (forall t, t ∈ ts ->
       tr_kind t ∈ TRANSITION_KINDS /\
       tr_before t = verdict <$> by_id before !! tr_resource_id t /\
       tr_after t = verdict <$> by_id after !! tr_resource_id t /\
       (tr_kind t = "recovered" -> exists was, tr_before t = Some was /\
          was ∈ REQUIRES_COVER /\ tr_after t = Some "pass")).
Proof.
  unfold diff_resources. set (old := by_id before). set (new := by_id after).
  set (ks := sorted_set (map resource_id before ++ map resource_id after)).
  assert (Hks : forall k, k ∈ ks <-> is_Some (old !! k) \/ is_Some (new !! k)).
  { intros k. unfold ks, old, new. by rewrite elem_of_sorted_set, elem_of_app, !by_id_is_Some. }
  destruct (res_map_Ok_all (transition_for old new) ks) as [os Hos].
  { intros k Hk. apply Hks in Hk.
    destruct (transition_for_spec old new k Hk) as (o & ? & _). by exists o. }
  rewrite Hos. simpl. exists (omap id os). split; [done|].
  apply res_map_Forall2 in Hos.
  assert (Hspec := transitions_spec old new ks os (fun k Hk => proj1 (Hks k) Hk) Hos).
  assert (map tr_resource_id (omap id os) `sublist_of` ks) as Hsub.
  { eapply (fmap_omap_sublist _ (fun _ => None)). eapply Forall2_impl; [exact Hspec|].
    intros k o [_ H] t Ht. by apply H. }
  split; [eapply sublist_NoDup; [apply sorted_set_NoDup|exact Hsub]|].
  split; [eapply StronglySorted_sublist; [exact Hsub|apply sorted_strs_sorted]|].
  split.
  - intros rid. rewrite list_elem_of_fmap. split.
    + intros (t & -> & Ht). apply list_elem_of_omap in Ht as (o & Ho & Hot); unfold id in Hot; subst o.
      apply list_elem_of_lookup in Ho as [i Ho].
      eapply Forall2_lookup_r in Hspec as (k & Hk & H1 & H2); [|exact Ho].
      destruct (H2 t eq_refl) as [-> _]. intros E. by apply H1 in E.
    + intros Hne. assert (rid ∈ ks) as Hk.
      { apply Hks. destruct (old !! rid), (new !! rid); eauto. by destruct Hne. }
      apply list_elem_of_lookup in Hk as [i Hk].
      eapply Forall2_lookup_l in Hspec as (o & Ho & H1 & H2); [|exact Hk].
      destruct o as [t|]; [|by destruct Hne; apply H1].
      exists t. split; [by destruct (H2 t eq_refl) as [-> _]|].
      apply list_elem_of_omap. exists (Some t). split; [|done].
      apply list_elem_of_lookup. eauto.
  - intros t Ht. apply list_elem_of_omap in Ht as (o & Ho & Hot); unfold id in Hot; subst o.
    apply list_elem_of_lookup in Ho as [i Ho].
    eapply Forall2_lookup_r in Hspec as (k & Hk & H1 & H2); [|exact Ho].
    destruct (H2 t eq_refl) as (-> & Hkind & Hbef & Haft & Hrec).
    repeat split; try done. intros Hr. apply Hrec in Hr as (was & now & E1 & E2 & ? & E3).
    exists (verdict was). rewrite Hbef, Haft, E1, E2. simpl. by rewrite E3.
Qed.

Lemma not_newer_trans a b c : newer a b = false -> newer b c = false -> newer a c = false.
Proof.
  unfold newer. rewrite !orb_false_iff, !andb_false_iff, !Z.ltb_ge, !Z.eqb_neq. lia.
Qed.

Lemma newer_asym a b : newer a b = true -> newer b a = false.
Proof.
  unfold newer. rewrite orb_true_iff, andb_true_iff, orb_false_iff, andb_false_iff,
    !Z.ltb_lt, !Z.ltb_ge, Z.eqb_eq, Z.eqb_neq. lia.
Qed.

(** the latest result of a test is an informative result of that test than
    which no informative one is newer, and there is one whenever any exists; a
    result that evaluated nothing and is not the out-of-scope determination
    never displaces it, wherever it is recorded. *)
Theorem latest_result_informative test_id rows :
  match latest_result test_id rows with
  | Some r => r ∈ rows /\ tres_test_id r = test_id /\ informative r = true /\
      forall r', r' ∈ rows -> tres_test_id r' = test_id -> informative r' = true ->
        newer r' r = false
  | None => forall r, r ∈ rows -> tres_test_id r = test_id -> informative r = false
  end /\
  (forall pre post empty, rows = (pre ++ post)%list -> informative empty = false ->
     latest_result test_id (pre ++ empty :: post)%list = latest_result test_id rows).
Proof.
  split.
  - unfold latest_result.
    assert (forall r, r ∈ filter (fun r => tres_test_id r = test_id /\ informative r = true) rows <->
      (tres_test_id r = test_id /\ informative r = true) /\ r ∈ rows) as Hin
      by (intros r; by rewrite list_elem_of_filter).
    pose proof (latest_of_spec newer newer_asym not_newer_trans
      (filter (fun r => tres_test_id r = test_id /\ informative r = true) rows)) as H.
    destruct (latest_of _ _) as [best|].
    + destruct H as [H1 H2]. apply Hin in H1 as [[? ?] ?]. repeat split; try done.
      intros r' ? ? ?. apply H2, Hin. done.
    + intros r Hr Ht. destruct (informative r) eqn:E; [|done].
      destruct (not_elem_of_nil r). rewrite <- H. by apply Hin.
  - intros pre post empty -> He. unfold latest_result. rewrite !filter_app.
    rewrite (filter_cons_False _ empty) by (intros [_ ?]; congruence). done.
Qed.
