(* ===== verification/Waivers.v ===== *)
(** Waivers ([src/src/ccf/governance/waivers.py]): which acceptances are in
    force, which failing resources they cover, which candidate waivers a
    control test resolves (one query for many tests), and who may approve one.

    [today] is a day number; a database table is the list of its rows. *)

From S2P Require Export Posture.

Local Open Scope string_scope.
Local Open Scope Z_scope.

Definition APPROVED : string := "approved".
Definition WAIVER_STATUSES : list string := ["requested"; APPROVED; "revoked"].

(** The columns of [waivers] that resolution reads. *)
Record Waiver := {
  wv_id : Z;
  wv_organization_id : option Z;
  wv_system_id : Z;
  wv_check_key : option string;
  wv_control_id : option string;
  wv_resource_id : option string;
  wv_status : string;
  wv_expires_on : option Z }.

(** The columns of [control_tests] the governance code reads and writes. *)
Record ControlTest := {
  ct_id : Z;
  ct_organization_id : option Z;
  ct_system_id : option Z;
  ct_control_id : string;
  ct_name : string;
  ct_method : string;
  ct_connector_type : option string;
  ct_frequency : option string;
  ct_expected : option string;
  ct_assertion : option (list (string * pyval));
  ct_active : bool;
  ct_source : string;
  ct_check_key : option string;
  ct_check_source : option string;
  ct_last_status : option string;
  ct_last_tested_at : option Z }.

Record Coverage := {
  suppress : bool;
  waived : Z;
  by_resource : gmap string Z;
  uncovered : list string }.

Definition is_active (w : Waiver) (today : Z) : bool :=
  bool_decide (wv_status w = APPROVED) &&
  match wv_expires_on w with None => true | Some e => today <=? e end.

(** [{w.resource_id: w for w in active if w.resource_id is not None}] *)
Definition by_resource_waiver (active : list Waiver) : gmap string Waiver :=
  fold_left (fun m w => match wv_resource_id w with
                        | Some r => <[r := w]> m
                        | None => m
                        end) active ∅.

(** [next((w for w in active if w.resource_id is None), None)] *)
Definition whole_check (active : list Waiver) : option Waiver :=
  head (filter (fun w => wv_resource_id w = None) active).

(** The waiver recorded against one failing resource: the specific one first. *)
Definition covering (active : list Waiver) (rid : string) : option Waiver :=
  match by_resource_waiver active !! rid with
  | Some w => Some w
  | None => whole_check active
  end.

Definition attribute (active : list Waiver) (acc : gmap string Z * list string)
    (f : ResourceFinding) : gmap string Z * list string :=
  match covering active (resource_id f) with
  | Some w => (<[resource_id f := wv_id w]> acc.1, acc.2)
  | None => (acc.1, acc.2 ++ [resource_id f])%list
  end.

Definition cover (findings : list ResourceFinding) (waivers : list Waiver) (today : Z)
    : Coverage :=
  let active := filter (fun w => is_active w today = true) waivers in
  let needing := filter (fun f => mem (verdict f) REQUIRES_COVER = true) findings in
  match needing with
  | [] => {| suppress := (if whole_check active then true else false) &&
                         match findings with [] => true | _ => false end;
             waived := 0; by_resource := ∅; uncovered := [] |}
  | _ =>
      let '(attributed, uncov) := fold_left (attribute active) needing (∅, []) in
      {| suppress := match uncov with [] => true | _ => false end;
         waived := Z.of_nat (size attributed);
         by_resource := attributed; uncovered := uncov |}
  end.

(** The arm of [waiver_matches] on the target: the control id, or the check
    key of a test that has a non-empty one. *)
Definition waiver_matches (w : Waiver) (t : ControlTest) : bool :=
  match ct_system_id t with
  | None => false
  | Some s =>
      if bool_decide (wv_organization_id w <> ct_organization_id t)
         || bool_decide (wv_system_id w <> s) then false
      else if bool_decide (wv_control_id w = Some (ct_control_id t)) then true
      else str_truthy (or_empty (ct_check_key t)) && bool_decide (wv_check_key w = ct_check_key t)
  end.

Definition by_waiver_id (a b : Waiver) : Prop := wv_id a <= wv_id b.

#[export] Instance by_waiver_id_dec a b : Decision (by_waiver_id a b).
Proof. unfold by_waiver_id. apply _. Defined.

(** The query: rows whose organization and system are among those of the
    scoped tests, [ORDER BY id]. *)
Definition candidate_rows (table : list Waiver) (scoped : list ControlTest) : list Waiver :=
  merge_sort by_waiver_id
    (filter (fun w => wv_organization_id w ∈ map ct_organization_id scoped /\
                      Some (wv_system_id w) ∈ map ct_system_id scoped) table).

Definition waivers_for_tests (table : list Waiver) (tests : list ControlTest)
    : gmap Z (list Waiver) :=
  let scoped := filter (fun t => ct_system_id t <> None) tests in
  let out := fold_left (fun m t => <[ct_id t := []]> m) tests ∅ in
  match scoped with
  | [] => out
  | _ =>
      let rows := candidate_rows table scoped in
      fold_left (fun m t => <[ct_id t := filter (fun w => waiver_matches w t = true) rows]> m)
        scoped out
  end.

(** [(await waivers_for_tests(session, [test]))[test.id]] *)
Definition waivers_for_test (table : list Waiver) (test : ControlTest) : res (list Waiver) :=
  match waivers_for_tests table [test] !! ct_id test with
  | Some ws => Ok ws
  | None => Err (KeyError (pretty (ct_id test)))
  end.

Definition can_approve (requested_by approver : option string) (is_global : bool) : bool :=
  if is_global then true
  else str_truthy (or_empty approver) && bool_decide (requested_by <> approver).

(** ** Lemmas on coverage *)

Lemma lookup_by_resource_waiver ws r :
  match by_resource_waiver ws !! r with
  | Some w => w ∈ ws /\ wv_resource_id w = Some r
  | None => forall w, w ∈ ws -> wv_resource_id w <> Some r
  end.
Proof.
  induction ws as [|w ws IH] using rev_ind.
  { unfold by_resource_waiver. simpl. rewrite lookup_empty. by intros w ?%not_elem_of_nil. }
  unfold by_resource_waiver in *. rewrite fold_left_app. simpl.
  set (m := fold_left _ ws ∅) in *. clearbody m.
  assert (forall m' : gmap string Waiver, m' !! r = m !! r -> wv_resource_id w <> Some r ->
    match m' !! r with
    | Some w0 => w0 ∈ (ws ++ [w])%list /\ wv_resource_id w0 = Some r
    | None => forall w0, w0 ∈ (ws ++ [w])%list -> wv_resource_id w0 <> Some r
    end) as Hskip.
  { intros m' -> Hne. destruct (m !! r).
    - destruct IH. split; [|done]. apply elem_of_app. by left.
    - intros w0 [?| ->%list_elem_of_singleton]%elem_of_app; [by apply IH|done]. }
  destruct (wv_resource_id w) as [r'|] eqn:E; [|by apply Hskip].
  destruct (decide (r' = r)) as [ ->|Hne].
  - rewrite lookup_insert_eq. split; [|done]. apply elem_of_app. right. by left.
  - apply Hskip; [by apply lookup_insert_ne|congruence].
Qed.

Lemma whole_check_spec ws :
  match whole_check ws with
  | Some w => w ∈ ws /\ wv_resource_id w = None
  | None => forall w, w ∈ ws -> wv_resource_id w <> None
  end.
Proof.
  unfold whole_check.
  assert (forall w, w ∈ filter (fun w => wv_resource_id w = None) ws <->
    wv_resource_id w = None /\ w ∈ ws) as H by (intros; by rewrite list_elem_of_filter).
  destruct (filter _ ws) as [|w l]; simpl.
  - intros w Hw E. destruct (not_elem_of_nil w). by apply H.
  - destruct (H w) as [[? ?] _]; [by left|done].
Qed.

(** A resource is covered exactly when some active waiver names it or names no
    resource at all; one that names it is preferred. *)
Lemma covering_spec ws r :
  match covering ws r with
  | Some w => w ∈ ws /\ (wv_resource_id w = Some r \/
      wv_resource_id w = None /\ forall w', w' ∈ ws -> wv_resource_id w' <> Some r)
  | None => forall w, w ∈ ws -> wv_resource_id w <> Some r /\ wv_resource_id w <> None
  end.
Proof.
  unfold covering. pose proof (lookup_by_resource_waiver ws r) as H1.
  pose proof (whole_check_spec ws) as H2.
  destruct (by_resource_waiver ws !! r); [naive_solver|].
  destruct (whole_check ws); naive_solver.
Qed.

(** The loop of [cover]: covered resources are attributed, the rest listed. *)
Lemma attribute_all active fs acc :
  let '(m, unc) := fold_left (attribute active) fs acc in
  unc = (acc.2 ++ filter (fun r => covering active r = None) (map resource_id fs))%list /\
  forall r, m !! r = if decide (r ∈ map resource_id fs /\ covering active r <> None)
                     then wv_id <$> covering active r else acc.1 !! r.
Proof.
  revert acc. induction fs as [|f fs IH]; intros acc; cbn [fold_left map].
  - destruct acc as [m unc]. split; [symmetry; apply app_nil_r|]. intros r.
    rewrite decide_False; [done|]. by intros [?%not_elem_of_nil _].
  - specialize (IH (attribute active acc f)).
    destruct (fold_left _ fs _) as [m unc]. destruct IH as [-> IH].
    unfold attribute. destruct (covering active (resource_id f)) as [w|] eqn:E; simpl.
    + rewrite filter_cons_False by (rewrite E; done). split; [done|]. intros r. rewrite IH.
      unfold attribute. rewrite E. simpl.
      destruct (decide (r = resource_id f)) as [ ->|Hne].
      * rewrite lookup_insert_eq, E. simpl.
        rewrite (decide_True (P := resource_id f ∈ _ :: _ /\ _)) by (split; [by left|done]).
        by destruct (decide _).
      * rewrite lookup_insert_ne by done. apply decide_ext.
        rewrite elem_of_cons. naive_solver.
    + rewrite filter_cons_True by done. rewrite <- app_assoc. split; [done|]. intros r.
      rewrite IH. unfold attribute. rewrite E. simpl. apply decide_ext.
      rewrite elem_of_cons. naive_solver.
Qed.

Lemma elem_of_active (ws : list Waiver) today w :
  w ∈ filter (fun w => is_active w today = true) ws <-> is_active w today = true /\ w ∈ ws.
Proof. by rewrite list_elem_of_filter. Qed.

(** The resources of the findings that need cover. *)
Definition needing_cover (findings : list ResourceFinding) : list string :=
  map resource_id (filter (fun f => mem (verdict f) REQUIRES_COVER = true) findings).

(** [cover] in closed form. *)
Lemma cover_closed findings waivers today :
  let active := filter (fun w => is_active w today = true) waivers in
  let c := cover findings waivers today in
  uncovered c = filter (fun r => covering active r = None) (needing_cover findings) /\
  (forall r, by_resource c !! r = if decide (r ∈ needing_cover findings)
                                  then wv_id <$> covering active r else None) /\
  waived c = Z.of_nat (size (by_resource c)) /\
  (suppress c = true <->
     uncovered c = [] /\ (needing_cover findings = [] -> findings = [] /\ is_Some (whole_check active))).
Proof.
  cbv zeta. unfold cover, needing_cover.
  set (active := filter _ waivers).
  destruct (filter _ findings) as [|f fs] eqn:E; cbn [uncovered by_resource waived suppress map].
  - split; [done|]. split; [intros r; rewrite lookup_empty, decide_False; [done|apply not_elem_of_nil]|].
    split; [done|]. rewrite andb_true_iff.
    destruct (whole_check active), findings; split; intros H; try naive_solver.
    all: destruct H as [_ H]; destruct (H eq_refl) as [? []]; done.
  - pose proof (attribute_all active (f :: fs) (∅, [])) as H.
    change (fold_left (attribute active) fs (attribute active (∅, []) f))
      with (fold_left (attribute active) (f :: fs) (∅, [])).
    destruct (fold_left _ _ _) as [m unc]. destruct H as [-> H]. simpl in *.
    split; [done|]. split.
    { intros r. rewrite H, lookup_empty. repeat case_decide; try naive_solver.
      destruct (covering active r); naive_solver. }
    split; [done|]. destruct (filter _ (_ :: _)); naive_solver.
Qed.

(** ** Lemmas on candidate resolution *)

Lemma lookup_fold_insert {V} (g : ControlTest -> V) ts (m : gmap Z V) t :
  t ∈ ts -> NoDup (map ct_id ts) ->
  fold_left (fun m t => <[ct_id t := g t]> m) ts m !! ct_id t = Some (g t).
Proof.
  revert m. induction ts as [|t' ts IH] using rev_ind; intros m; [by intros ?%not_elem_of_nil|].
  rewrite map_app, fold_left_app. simpl.
  intros [Ht| ->%list_elem_of_singleton]%elem_of_app (Hnd & Hdis & _)%NoDup_app.
  - rewrite lookup_insert_ne; [by apply IH|]. intros E. apply (Hdis (ct_id t)).
    + by apply list_elem_of_fmap_2.
    + rewrite <- E. by left.
  - apply lookup_insert_eq.
Qed.

Lemma lookup_fold_insert_ne {V} (g : ControlTest -> V) ts (m : gmap Z V) k :
  k ∉ map ct_id ts -> fold_left (fun m t => <[ct_id t := g t]> m) ts m !! k = m !! k.
Proof.
  revert m. induction ts as [|t ts IH]; intros m; simpl; [done|].
  rewrite not_elem_of_cons. intros [Hne H]. rewrite IH by done. by apply lookup_insert_ne.
Qed.

Lemma waiver_matches_scope w t :
  waiver_matches w t = true ->
  Some (wv_system_id w) = ct_system_id t /\ wv_organization_id w = ct_organization_id t /\
  (wv_control_id w = Some (ct_control_id t) \/
   exists k, ct_check_key t = Some k /\ k <> "" /\ wv_check_key w = Some k).
Proof.
  unfold waiver_matches. destruct (ct_system_id t) as [s|]; [|done].
  repeat case_bool_decide; simpl; try done; intros H'.
  - naive_solver.
  - apply andb_true_iff in H' as [Hk1 _]. apply bool_decide_eq_true in Hk1.
    destruct (ct_check_key t) as [k|] eqn:Ek; [|done]. naive_solver.
  - by rewrite andb_false_r in H'.
Qed.

(** Among ordered rows, the matching ones in id order: filtering commutes with
    the query's ordering. *)
Lemma candidate_rows_elem table scoped w :
  w ∈ candidate_rows table scoped <->
  w ∈ table /\ wv_organization_id w ∈ map ct_organization_id scoped /\
  Some (wv_system_id w) ∈ map ct_system_id scoped.
Proof. unfold candidate_rows. rewrite merge_sort_Permutation, list_elem_of_filter. tauto. Qed.

#[export] Instance by_waiver_id_total : Total by_waiver_id.
Proof. intros a b. unfold by_waiver_id. lia. Qed.
#[export] Instance by_waiver_id_trans : Transitive by_waiver_id.
Proof. intros a b c. unfold by_waiver_id. lia. Qed.

Lemma StronglySorted_filter {A} (R : relation A) (P : A -> Prop) `{!forall x, Decision (P x)} l :
  StronglySorted R l -> StronglySorted R (filter P l).
Proof. apply StronglySorted_sublist, sublist_filter. Qed.

(** Two sublists of lists sorted by distinct ids with the same elements. *)
Lemma waivers_unique (l k : list Waiver) :
  (forall x y, x ∈ l -> y ∈ l -> wv_id x = wv_id y -> x = y) ->
  NoDup l -> NoDup k -> (forall x, x ∈ l <-> x ∈ k) ->
  StronglySorted by_waiver_id l -> StronglySorted by_waiver_id k -> l = k.
Proof.
  revert k. induction l as [|x l IH]; intros k Hinj Hl Hk Heq Hsl Hsk.
  - destruct k as [|y k]; [done|]. destruct (not_elem_of_nil y). apply Heq. by left.
  - destruct k as [|y k]; [destruct (not_elem_of_nil x); apply Heq; by left|].
    apply StronglySorted_inv in Hsl as [Hsl Hx]. apply StronglySorted_inv in Hsk as [Hsk Hy].
    rewrite Forall_forall in Hx, Hy. apply NoDup_cons in Hl as [Hxl Hl], Hk as [Hyk Hk].
    assert (x = y) as <-.
    { assert (x ∈ y :: k) as H1 by (apply Heq; by left).
      assert (y ∈ x :: l) as H2 by (apply Heq; by left).
      apply elem_of_cons in H1 as [?|H1], H2 as [?|H2]; try done.
      apply Hinj; [by left|by right|]. specialize (Hx y H2). specialize (Hy x H1).
      unfold by_waiver_id in *. lia. }
    f_equal. apply IH; try done.
    + intros a b ? ?. apply Hinj; by right.
    + intros z. specialize (Heq z). rewrite !elem_of_cons in Heq. naive_solver.
Qed.

(** What a batch gives one of its tests. *)
Lemma waivers_for_tests_elem (table : list Waiver) ts t :
  NoDup (map wv_id table) -> NoDup (map ct_id ts) -> t ∈ ts ->
  exists ws, waivers_for_tests table ts !! ct_id t = Some ws /\
    (forall w, w ∈ ws <-> w ∈ table /\ waiver_matches w t = true) /\
    StronglySorted by_waiver_id ws /\ NoDup ws.
Proof.
  intros Htab Hnd Hin. unfold waivers_for_tests. set (scoped := filter _ ts).
  assert (Hsc : forall x, x ∈ scoped <-> ct_system_id x <> None /\ x ∈ ts)
    by (intros; unfold scoped; by rewrite list_elem_of_filter).
  assert (NoDup (map ct_id scoped)) as Hnds.
  { eapply sublist_NoDup; [exact Hnd|]. apply fmap_sublist, sublist_filter. }
  destruct (decide (ct_system_id t = None)) as [E|E].
  - exists []. split; [|split; [|split; constructor]].
    + assert (ct_id t ∉ map ct_id scoped) as Hni.
      { intros (x & Ex & [Hx Hxts]%Hsc)%list_elem_of_fmap. destruct Hx.
        assert (x = t) as ->; [|done].
        apply list_elem_of_lookup in Hin as [i Hi], Hxts as [j Hj].
        assert (i = j) as <-; [|by simplify_eq].
        eapply NoDup_lookup; [exact Hnd| |]; rewrite list_lookup_fmap.
        - rewrite Hi. done.
        - rewrite Hj. simpl. by f_equal. }
      destruct scoped; [by apply (lookup_fold_insert (fun _ => []))|].
      rewrite lookup_fold_insert_ne by done. by apply (lookup_fold_insert (fun _ => [])).
    + intros w. rewrite elem_of_nil. split; [done|]. intros [_ (? & _)%waiver_matches_scope]. congruence.
  - assert (t ∈ scoped) as Hts by (by apply Hsc).
    destruct scoped as [|t0 l] eqn:El; [by apply not_elem_of_nil in Hts|]. rewrite <- El in *.
    rewrite lookup_fold_insert by done. eexists; split; [done|]. split; [|split].
    + intros w. rewrite list_elem_of_filter, candidate_rows_elem. split; [naive_solver|].
      intros [? Hm]. pose proof (waiver_matches_scope _ _ Hm) as (-> & -> & _).
      repeat split; try done; by apply list_elem_of_fmap_2.
    + apply StronglySorted_filter, StronglySorted_merge_sort; apply _.
    + apply NoDup_filter. unfold candidate_rows. rewrite merge_sort_Permutation.
      apply NoDup_filter. by eapply NoDup_fmap_1.
Qed.

(** The single-test resolution: it never raises, and without distinct ids the
    candidates still match. *)
Lemma waivers_for_test_elem (table : list Waiver) t ws :
  waivers_for_test table t = Ok ws -> forall w, w ∈ ws -> w ∈ table /\ waiver_matches w t = true.
Proof.
  unfold waivers_for_test, waivers_for_tests. intros H w Hw.
  destruct (filter (fun t => ct_system_id t <> None) [t]) as [|t0 l] eqn:E; simpl in H.
  - rewrite lookup_insert_eq in H. injection H as <-. by apply not_elem_of_nil in Hw.
  - assert (t0 :: l = [t]) as [= -> ->].
    { destruct (decide (ct_system_id t <> None)) as [Ht|Ht];
        [rewrite filter_cons_True in E by done|rewrite filter_cons_False in E by done];
        by rewrite filter_nil in E. }
    simpl in H. rewrite lookup_insert_eq in H. injection H as <-.
    apply list_elem_of_filter in Hw as [Hm [? _]%candidate_rows_elem]. done.
Qed.

(** A waiver in force that reaches a resource, by name or as a whole. *)
Definition reaches (waivers : list Waiver) (today : Z) (w : Waiver) (r : string) : Prop :=
  is_active w today = true /\ w ∈ waivers /\ (wv_resource_id w = Some r \/ wv_resource_id w = None).

Lemma active_covering waivers today :
  let active := filter (fun w => is_active w today = true) waivers in
  (forall w, w ∈ active <-> is_active w today = true /\ w ∈ waivers) /\
  (forall r, covering active r = None <-> ~ exists w, reaches waivers today w r) /\
  (forall r w, covering active r = Some w -> exists w, reaches waivers today w r).
Proof.
  cbv zeta. set (active := filter _ waivers).
  assert (Hact : forall w, w ∈ active <-> is_active w today = true /\ w ∈ waivers)
    by (intros; apply elem_of_active).
  unfold reaches. clearbody active. split; [done|]. split.
  - intros r. pose proof (covering_spec active r) as H. split; [intros E; rewrite E in H; naive_solver|].
    intros Hn. destruct (covering active r) as [w|]; [|done]. destruct Hn. exists w.
    destruct H as [?%Hact ?]. naive_solver.
  - intros r w E. pose proof (covering_spec active r) as H. rewrite E in H. exists w.
    destruct H as [?%Hact ?]. naive_solver.
Qed.

Lemma suppress_iff findings waivers today :
  suppress (cover findings waivers today) = true <->
  (needing_cover findings <> [] /\ forall r, r ∈ needing_cover findings -> exists w, reaches waivers today w r) \/
  (findings = [] /\ exists w, is_active w today = true /\ w ∈ waivers /\ wv_resource_id w = None).
Proof.
  pose proof (cover_closed findings waivers today) as (Hu & _ & _ & Hs).
  pose proof (active_covering waivers today) as (Hact & Hcov & Hsome).
  set (c := cover findings waivers today) in *. clearbody c.
  set (active := filter _ waivers) in *. clearbody active.
  assert (Hul : forall r, r ∈ uncovered c <-> covering active r = None /\ r ∈ needing_cover findings)
    by (intros; by rewrite Hu, list_elem_of_filter).
  split.
  - intros [Hn Hfs]%Hs. destruct (needing_cover findings) as [|r0 rs] eqn:E.
    + right. destruct (Hfs eq_refl) as [? [w Hwc]]. split; [done|].
      pose proof (whole_check_spec active) as Hwh. rewrite Hwc in Hwh. exists w.
      destruct Hwh as [?%Hact ?]. naive_solver.
    + left. split; [done|]. intros r Hr.
      destruct (covering active r) as [w|] eqn:Ec; [by eapply Hsome|].
      assert (r ∈ uncovered c) as Hx by (by apply Hul).
      rewrite Hn in Hx. by apply not_elem_of_nil in Hx.
  - intros H. apply Hs. split.
    + destruct (uncovered c) as [|r l]; [done|]. destruct (proj1 (Hul r)) as [Hc Hr]; [by left|].
      apply Hcov in Hc. destruct Hc. destruct H as [[_ H]|[-> _]]; [auto|by apply not_elem_of_nil in Hr].
    + intros E. destruct H as [[? _]|[-> (w & ? & ? & ?)]]; [done|]. split; [done|].
      pose proof (whole_check_spec active) as Hwh. destruct (whole_check active); [done|].
      destruct (Hwh w); [by apply Hact|done].
Qed.

(** ** Properties *)

(** coverage is decided exactly by the active waivers: with failing
    resources the consequence is suppressed iff each of them has an active
    waiver naming it or naming no resource; with no findings at all only an
    active whole-check waiver suppresses, and a result that has findings but
    none to accept is never suppressed; a resource is attributed iff it needs
    cover and has one, to the resource-specific waiver when one exists; the
    uncovered list is what is left. *)
Theorem cover_spec findings waivers today :
  let c := cover findings waivers today in
  let ok w r := is_active w today = true /\ w ∈ waivers /\
                (wv_resource_id w = Some r \/ wv_resource_id w = None) in
  (suppress c = true <->
     (needing_cover findings <> [] /\ forall r, r ∈ needing_cover findings -> exists w, ok w r) \/
     (findings = [] /\ exists w, is_active w today = true /\ w ∈ waivers /\ wv_resource_id w = None)) /\
  (forall r, r ∈ uncovered c <-> r ∈ needing_cover findings /\ ~ exists w, ok w r) /\
  (forall r i, by_resource c !! r = Some i -> r ∈ needing_cover findings /\
     exists w, ok w r /\ wv_id w = i /\
       ((exists w', ok w' r /\ wv_resource_id w' = Some r) -> wv_resource_id w = Some r)) /\
  (forall r, r ∈ needing_cover findings -> r ∈ uncovered c \/ is_Some (by_resource c !! r)) /\
  waived c = Z.of_nat (size (by_resource c)).
Proof.
  cbv zeta. pose proof (cover_closed findings waivers today) as (Hu & Hb & Hw & Hs).
  pose proof (active_covering waivers today) as (Hact & Hcov & _).
  split; [apply suppress_iff|].
  assert (Hul : forall r, r ∈ uncovered (cover findings waivers today) <->
    covering (filter (fun w => is_active w today = true) waivers) r = None /\ r ∈ needing_cover findings)
    by (intros; by rewrite Hu, list_elem_of_filter).
  set (c := cover findings waivers today) in *. clearbody c.
  set (active := filter _ waivers) in *. clearbody active. split; [|split; [|split]].
  - intros r. rewrite Hul, Hcov. tauto.
  - intros r i H. specialize (Hb r). rewrite H in Hb. case_decide as Hr; [|done]. split; [done|].
    pose proof (covering_spec active r) as Hc. destruct (covering active r) as [w|]; [|done].
    injection Hb as ->. destruct Hc as [[? ?]%Hact Hc]. exists w.
    split; [naive_solver|]. split; [done|].
    intros (w' & (? & ? & _) & ?). destruct Hc as [?|[_ Hc]]; [done|].
    destruct (Hc w'); [by apply Hact|done].
  - intros r Hr. destruct (covering active r) as [w|] eqn:E; [right|left; by apply Hul].
    rewrite Hb, decide_True by done. rewrite E. by eexists.
  - done.
Qed.

(** only waivers in force count: one that is requested, revoked, unknown
    or past its last day changes nothing wherever it sits among the
    candidates, an approved one is in force up to and including its last day,
    and once expired never comes back. *)
Theorem inactive_waivers_are_inert findings pre w post today :
  (is_active w today = false ->
     cover findings (pre ++ w :: post)%list today = cover findings (pre ++ post)%list today) /\
  (is_active w today = true <-> wv_status w = "approved" /\
     forall e, wv_expires_on w = Some e -> today <= e) /\
  (forall later, today <= later -> is_active w today = false -> is_active w later = false).
Proof.
  split; [|split].
  - intros H. unfold cover. rewrite !filter_app, filter_cons_False by congruence. done.
  - unfold is_active, APPROVED. rewrite andb_true_iff, bool_decide_eq_true.
    destruct (wv_expires_on w); [rewrite Z.leb_le|]; naive_solver.
  - intros later Hl. unfold is_active. rewrite !andb_false_iff.
    destruct (wv_expires_on w); [|tauto]. rewrite !Z.leb_gt. intros [?|?]; [by left|right; lia].
Qed.

(** the batch resolution gives every test of the batch exactly the
    waivers the single-test resolution gives it, and those are the table's
    rows that match it: none from another organization or system, and none at
    all for an organization-wide test. *)
Theorem batch_resolution_is_single_resolution (table : list Waiver) tests t :
  NoDup (map wv_id table) -> NoDup (map ct_id tests) -> t ∈ tests ->
  exists ws, waivers_for_tests table tests !! ct_id t = Some ws /\
    waivers_for_test table t = Ok ws /\
    (forall w, w ∈ ws <-> w ∈ table /\ waiver_matches w t = true) /\
    StronglySorted by_waiver_id ws /\
    (forall w, w ∈ ws -> ct_system_id t = Some (wv_system_id w) /\
                         ct_organization_id t = wv_organization_id w).
Proof.
  intros Htab Hids Ht.
  destruct (waivers_for_tests_elem table tests t) as (ws & E & Hws & Hs & Hn); [done..|].
  destruct (waivers_for_tests_elem table [t] t) as (ws' & E' & Hws' & Hs' & Hn');
    [done|repeat constructor; apply not_elem_of_nil|by left|].
  assert (ws = ws') as <-.
  { apply waivers_unique; try done; [|intros; by rewrite Hws, Hws'].
    intros x y [Hx _]%Hws [Hy _]%Hws Exy.
    apply list_elem_of_lookup in Hx as [i Hi], Hy as [j Hj].
    assert (i = j) as <-; [|by simplify_eq]. eapply NoDup_lookup; [exact Htab| |]; rewrite list_lookup_fmap.
    - rewrite Hi. done.
    - rewrite Hj. simpl. by f_equal. }
  exists ws. split; [done|]. split; [by unfold waivers_for_test; rewrite E'|]. split; [done|]. split; [done|].
  intros w [_ (? & ? & _)%waiver_matches_scope]%Hws. done.
Qed.

Definition ex_waiver (i : Z) (o s : Z) : Waiver :=
  {| wv_id := i; wv_organization_id := Some o; wv_system_id := s; wv_check_key := Some "k";
     wv_control_id := None; wv_resource_id := None; wv_status := "approved"; wv_expires_on := None |}.
Definition ex_test (i : Z) (s : option Z) : ControlTest :=
  {| ct_id := i; ct_organization_id := Some 1; ct_system_id := s; ct_control_id := "AC-2";
     ct_name := "t"; ct_method := "connector"; ct_connector_type := Some "aws";
     ct_frequency := Some "daily"; ct_expected := None; ct_assertion := None; ct_active := true;
     ct_source := "authored"; ct_check_key := Some "k"; ct_check_source := None;
     ct_last_status := None; ct_last_tested_at := None |}.

Example batch_resolution_witness :
  NoDup (map wv_id [ex_waiver 2 1 7; ex_waiver 1 1 7; ex_waiver 3 2 7]) /\
  NoDup (map ct_id [ex_test 10 (Some 7); ex_test 11 None]) /\
  exists ws, waivers_for_tests [ex_waiver 2 1 7; ex_waiver 1 1 7; ex_waiver 3 2 7]
      [ex_test 10 (Some 7); ex_test 11 None] !! 10 = Some ws /\ map wv_id ws = [1; 2].
Proof.
  assert (NoDup (map wv_id [ex_waiver 2 1 7; ex_waiver 1 1 7; ex_waiver 3 2 7])) as H1
    by (apply (bool_decide_unpack _); vm_compute; exact I).
  assert (NoDup (map ct_id [ex_test 10 (Some 7); ex_test 11 None])) as H2
    by (apply (bool_decide_unpack _); vm_compute; exact I).
  split; [exact H1|]. split; [exact H2|].
  destruct (batch_resolution_is_single_resolution _ _ (ex_test 10 (Some 7)) H1 H2 ltac:(by left))
    as (ws & E & _).
  exists ws. split; [exact E|]. vm_compute in E. injection E as <-. reflexivity.
Defined.
