(* ===== verification/ControlTests.v ===== *)
(** Control tests ([src/src/ccf/governance/control_tests.py]) and the event bus
    they write to ([governance/bus.py], [governance/delivery.py]): assertion
    evaluation, connector freshness, the one writer of results with its alert,
    remediation task, POA&M and recovery, and the scheduler's run.

    The tables the code touches are the fields of [Db]; a query is a filter on
    a table, and [scalar_one_or_none] raises when two rows match.  [now] is the
    timestamp [datetime.now(UTC)] returns during the call and a new row takes
    the next number of the sequence [db_seq] as its id. *)

From S2P Require Export Waivers PyText.

Local Open Scope string_scope.
Local Open Scope Z_scope.

(** ** Remediation playbooks *)

Record RemediationPlaybook := {
  actions : list string;
  evidence : list string;
  milestones : list string }.

Definition PLAYBOOKS : list (string * RemediationPlaybook) :=
  [("m365.identity.mfa_registered",
    {| actions :=
       ["Identify users without registered MFA methods from the failing-resource list.";
        "Require registration through Conditional Access or authentication-methods registration campaign.";
        "Confirm break-glass and service accounts have documented compensating controls or approved exclusions."];
       evidence :=
       ["Graph authentication method registration report or equivalent export.";
        "Conditional Access/authentication methods policy export.";
        "Re-scan result showing all applicable users pass or approved waivers for exclusions."];
       milestones :=
       ["Notify affected account owners and set registration deadline.";
        "Enable or update MFA registration enforcement.";
        "Re-run the automated M365 identity check and attach passing evidence."] |});
   ("m365.policy.legacy_auth_blocked",
    {| actions :=
       ["Review Conditional Access policies for legacy client app coverage.";
        "Create or enable a policy blocking Exchange ActiveSync and other legacy authentication clients.";
        "Monitor sign-in logs for blocked legacy-auth attempts and legitimate application impact."];
       evidence :=
       ["Conditional Access policy export showing legacy clients blocked.";
        "Sign-in log sample showing policy enforcement.";
        "Passing re-scan result for the legacy-auth check."];
       milestones :=
       [] |});
   ("aws.iam.root_mfa_enabled",
    {| actions :=
       ["Sign in with the account root user through the approved emergency process.";
        "Register a hardware or virtual MFA device for the root user.";
        "Store root credentials and MFA recovery material according to privileged-access procedure."];
       evidence :=
       ["IAM account summary or credential report showing root MFA enabled.";
        "Privileged-access procedure or access vault record.";
        "Passing re-scan result for root MFA."];
       milestones :=
       [] |});
   ("aws.cloudtrail.multi_region_logging",
    {| actions :=
       ["Create or update an organization/account CloudTrail trail to apply to all regions.";
        "Enable logging and confirm the trail writes to the approved protected destination.";
        "Review CloudTrail status for delivery errors."];
       evidence :=
       ["CloudTrail trail configuration export showing multi-region logging enabled.";
        "Trail status showing IsLogging=true.";
        "Passing re-scan result for CloudTrail multi-region logging."];
       milestones :=
       [] |})].

Definition playbook_for (check_key : option string) : option RemediationPlaybook :=
  match check_key with
  | None => None
  | Some k => if str_truthy k then dget k PLAYBOOKS else None
  end.

(** ** Assertions *)

Definition FREQ_DAYS : list (string * Z) :=
  [("daily", 1); ("weekly", 7); ("monthly", 30); ("quarterly", 91); ("annual", 365)].

Inductive coerced :=
| CBool (b : bool)
| CNum (x : xfloat)
| CStr (s : string).

Definition coerce (v : string) : coerced :=
  let t := lower (strip v) in
  if mem t ["true"; "enabled"; "yes"; "on"] then CBool true
  else if mem t ["false"; "disabled"; "no"; "off"] then CBool false
  else match py_float v with Some x => CNum x | None => CStr v end.

Definition fl_of_bool (b : bool) : xfloat := XFin (fl_of_Z (if b then 1 else 0)).

(** [==] on what [_coerce] returns: a bool equals the number 0 or 1. *)
Definition coerced_eqb (a b : coerced) : bool :=
  match a, b with
  | CBool x, CBool y => eqb x y
  | CBool x, CNum y => x_eqb (fl_of_bool x) y
  | CNum x, CBool y => x_eqb x (fl_of_bool y)
  | CNum x, CNum y => x_eqb x y
  | CStr s, CStr t => bool_decide (s = t)
  | _, _ => false
  end.

Definition operator_of (assertion : list (string * pyval)) : string :=
  lower (py_str (default (VStr "equals") (dget "operator" assertion))).
Definition expected_raw_of (assertion : list (string * pyval)) : string :=
  py_str (default (VStr "") (dget "value" assertion)).

Definition compare_op (op : string) (a e : xfloat) : bool :=
  if decide (op = "gte") then x_leb e a
  else if decide (op = "gt") then x_ltb e a
  else if decide (op = "lte") then x_leb a e
  else x_ltb a e.

Definition evaluate_assertion (assertion : list (string * pyval)) (captured : string)
    : bool * string :=
  let op := operator_of assertion in
  let expected_raw := expected_raw_of assertion in
  let actual := coerce captured in
  let expected := coerce expected_raw in
  let done (ok : bool) := (ok, "captured " +:+ repr_str captured +:+ " " +:+
                      (if ok then "meets" else "violates") +:+ " " +:+ op +:+ " " +:+
                      repr_str expected_raw) in
  if mem op ["equals"; "eq"; "=="] then done (coerced_eqb actual expected)
  else if mem op ["not_equals"; "ne"; "!="] then done (negb (coerced_eqb actual expected))
  else if decide (op = "contains") then done (str_contains (lower expected_raw) (lower captured))
  else if mem op ["gte"; "gt"; "lte"; "lt"] then
    match py_float captured, py_float expected_raw with
    | Some a, Some e => done (compare_op op a e)
    | _, _ => (false, "non-numeric value " +:+ repr_str captured +:+ " for operator " +:+ op)
    end
  else (false, "unknown assertion operator: " +:+ op).

(** ** The tables *)

Record ConnectorConfig := {
  cc_organization_id : option Z;
  cc_name : string;
  cc_connector_type : string;
  cc_status : string;
  cc_last_sync : option Z;
  cc_objects_discovered : Z }.

Record CaptureSnapshot := {
  cs_organization_id : option Z;
  cs_connector : string;
  cs_odp_key : string;
  cs_value : string;
  cs_captured_at : Z }.

Record ControlTestResult := {
  ctr_id : Z;
  ctr_test_id : Z;
  ctr_status : string;
  ctr_detail : option string;
  ctr_evidence_ref : option string;
  ctr_evaluated : Z;
  ctr_failing : Z;
  ctr_waived : Z;
  ctr_expected : option string }.

Record ControlTestResourceResult := {
  crr_result_id : Z;
  crr_resource_id : string;
  crr_resource_type : string;
  crr_verdict : string;
  crr_observed : string;
  crr_detail : list (string * pyval);
  crr_waiver_id : option Z }.

Record Task := {
  tk_id : Z;
  tk_organization_id : option Z;
  tk_system_id : option Z;
  tk_title : string;
  tk_description : string;
  tk_kind : string;
  tk_priority : string;
  tk_status : string;
  tk_source : string;
  tk_entity_type : string;
  tk_entity_id : string;
  tk_dedupe_key : option string;
  tk_due_on : option Z;
  tk_closed_at : option Z }.

(** A milestone written together with its POA&M carries that POA&M's number. *)
Record PoamMilestone := {
  ms_id : Z;
  ms_description : string;
  ms_due_on : option Z;
  ms_completed_on : option Z;
  ms_status : string;
  ms_sort_order : Z }.

(** The columns only people fill in. *)
Record PoamDetails := {
  pd_owner_user_id : option Z;
  pd_point_of_contact : option string;
  pd_resources_required : option string;
  pd_cost_estimate : option string;
  pd_scheduled_completion : option Z;
  pd_risk_id : option Z;
  pd_vendor_id : option Z }.
Definition no_details : PoamDetails :=
  {| pd_owner_user_id := None; pd_point_of_contact := None; pd_resources_required := None; pd_cost_estimate := None;
     pd_scheduled_completion := None; pd_risk_id := None; pd_vendor_id := None |}.

Record POAM := {
  pm_id : Z;
  pm_system_id : Z;
  pm_control_id : option Z;
  pm_title : string;
  pm_weakness : option string;
  pm_severity : string;
  pm_status : string;
  pm_source : option string;
  pm_remediation_plan : option string;
  pm_plan_source : string;
  pm_identified_on : option Z;
  pm_due_on : option Z;
  pm_original_due_on : option Z;
  pm_source_ref : option string;
  pm_scanner : option string;
  pm_finding_uid : option string;
  pm_closed_on : option Z;
  pm_acceptance_rationale : option string;
  pm_milestones : list PoamMilestone;
  pm_details : PoamDetails }.

Record Notification := {
  nt_id : Z;
  nt_organization_id : option Z;
  nt_user_id : option Z;
  nt_severity : string;
  nt_category : string;
  nt_title : string;
  nt_body : option string;
  nt_entity_type : option string;
  nt_entity_id : option string;
  nt_dedupe_key : option string }.

Record Event := {
  ev_id : Z;
  ev_organization_id : option Z;
  ev_actor : option string;
  ev_verb : string;
  ev_entity_type : string;
  ev_entity_id : option string;
  ev_summary : string }.

Record Webhook := {
  wh_organization_id : option Z;
  wh_url : string;
  wh_secret : option string;
  wh_events : list string;
  wh_active : bool }.

(** What leaves the process: an event posted to a subscribed hook, or the text
    of an alert posted to the configured notification webhook. *)
Inductive outbound :=
| PostEvent (url : string) (signed : bool) (event : Event)
| PostAlert (url : string) (text : string).

Record Db := {
  db_seq : Z;
  db_waivers : list Waiver;
  db_connectors : list ConnectorConfig;
  db_captures : list CaptureSnapshot;
  db_controls : list (string * Z);
  db_webhooks : list Webhook;
  db_notify_url : string;
  db_notify_min_severity : string;
  db_results : list ControlTestResult;
  db_resources : list ControlTestResourceResult;
  db_tasks : list Task;
  db_poams : list POAM;
  db_notifications : list Notification;
  db_events : list Event;
  db_outbox : list outbound }.

Definition set_seq (v : Z) (db : Db) : Db :=
  {| db_seq := v; db_waivers := db_waivers db; db_connectors := db_connectors db; db_captures :=
     db_captures db; db_controls := db_controls db; db_webhooks := db_webhooks db; db_notify_url
     := db_notify_url db; db_notify_min_severity := db_notify_min_severity db; db_results :=
     db_results db; db_resources := db_resources db; db_tasks := db_tasks db; db_poams :=
     db_poams db; db_notifications := db_notifications db; db_events := db_events db; db_outbox
     := db_outbox db |}.
Definition set_results (v : list ControlTestResult) (db : Db) : Db :=
  {| db_seq := db_seq db; db_waivers := db_waivers db; db_connectors := db_connectors db;
     db_captures := db_captures db; db_controls := db_controls db; db_webhooks := db_webhooks
     db; db_notify_url := db_notify_url db; db_notify_min_severity := db_notify_min_severity db;
     db_results := v; db_resources := db_resources db; db_tasks := db_tasks db; db_poams :=
     db_poams db; db_notifications := db_notifications db; db_events := db_events db; db_outbox
     := db_outbox db |}.
Definition set_resources (v : list ControlTestResourceResult) (db : Db) : Db :=
  {| db_seq := db_seq db; db_waivers := db_waivers db; db_connectors := db_connectors db;
     db_captures := db_captures db; db_controls := db_controls db; db_webhooks := db_webhooks
     db; db_notify_url := db_notify_url db; db_notify_min_severity := db_notify_min_severity db;
     db_results := db_results db; db_resources := v; db_tasks := db_tasks db; db_poams :=
     db_poams db; db_notifications := db_notifications db; db_events := db_events db; db_outbox
     := db_outbox db |}.
Definition set_tasks (v : list Task) (db : Db) : Db :=
  {| db_seq := db_seq db; db_waivers := db_waivers db; db_connectors := db_connectors db;
     db_captures := db_captures db; db_controls := db_controls db; db_webhooks := db_webhooks
     db; db_notify_url := db_notify_url db; db_notify_min_severity := db_notify_min_severity db;
     db_results := db_results db; db_resources := db_resources db; db_tasks := v; db_poams :=
     db_poams db; db_notifications := db_notifications db; db_events := db_events db; db_outbox
     := db_outbox db |}.
Definition set_poams (v : list POAM) (db : Db) : Db :=
  {| db_seq := db_seq db; db_waivers := db_waivers db; db_connectors := db_connectors db;
     db_captures := db_captures db; db_controls := db_controls db; db_webhooks := db_webhooks
     db; db_notify_url := db_notify_url db; db_notify_min_severity := db_notify_min_severity db;
     db_results := db_results db; db_resources := db_resources db; db_tasks := db_tasks db;
     db_poams := v; db_notifications := db_notifications db; db_events := db_events db;
     db_outbox := db_outbox db |}.
Definition set_notifications (v : list Notification) (db : Db) : Db :=
  {| db_seq := db_seq db; db_waivers := db_waivers db; db_connectors := db_connectors db;
     db_captures := db_captures db; db_controls := db_controls db; db_webhooks := db_webhooks
     db; db_notify_url := db_notify_url db; db_notify_min_severity := db_notify_min_severity db;
     db_results := db_results db; db_resources := db_resources db; db_tasks := db_tasks db;
     db_poams := db_poams db; db_notifications := v; db_events := db_events db; db_outbox :=
     db_outbox db |}.
Definition set_events (v : list Event) (db : Db) : Db :=
  {| db_seq := db_seq db; db_waivers := db_waivers db; db_connectors := db_connectors db;
     db_captures := db_captures db; db_controls := db_controls db; db_webhooks := db_webhooks
     db; db_notify_url := db_notify_url db; db_notify_min_severity := db_notify_min_severity db;
     db_results := db_results db; db_resources := db_resources db; db_tasks := db_tasks db;
     db_poams := db_poams db; db_notifications := db_notifications db; db_events := v; db_outbox
     := db_outbox db |}.
Definition set_outbox (v : list outbound) (db : Db) : Db :=
  {| db_seq := db_seq db; db_waivers := db_waivers db; db_connectors := db_connectors db;
     db_captures := db_captures db; db_controls := db_controls db; db_webhooks := db_webhooks
     db; db_notify_url := db_notify_url db; db_notify_min_severity := db_notify_min_severity db;
     db_results := db_results db; db_resources := db_resources db; db_tasks := db_tasks db;
     db_poams := db_poams db; db_notifications := db_notifications db; db_events := db_events
     db; db_outbox := v |}.

(** An attribute assignment on the rows a lookup found. *)
Definition update_where {A} (p : A -> bool) (f : A -> A) (rows : list A) : list A :=
  map (fun r => if p r then f r else r) rows.

(** A new row takes the next id of the sequence. *)
Definition next_id (db : Db) : Z * Db := (db_seq db, set_seq (db_seq db + 1) db).

(** ** The event bus *)

Definition hook_receives (ev : Event) (h : Webhook) : bool :=
  wh_active h &&
  match ev_organization_id ev with
  | None => true
  | Some o => bool_decide (wh_organization_id h = Some o) || bool_decide (wh_organization_id h = None)
  end &&
  (bool_decide (wh_events h = []) || mem (ev_verb ev) (wh_events h)
   || mem (ev_entity_type ev) (wh_events h)).

Definition dispatch_webhooks (ev : Event) (db : Db) : Db :=
  set_outbox (db_outbox db ++
    map (fun h => PostEvent (wh_url h) (str_truthy (or_empty (wh_secret h))) ev)
      (filter (fun h => hook_receives ev h = true) (db_webhooks db)))%list db.

Definition emit (verb entity_type summary : string) (org_id : option Z) (actor : option string)
    (entity_id : option string) (db : Db) : Db :=
  let '(i, db) := next_id db in
  let ev := {| ev_id := i; ev_organization_id := org_id; ev_actor := actor; ev_verb := verb;
               ev_entity_type := entity_type; ev_entity_id := entity_id;
               ev_summary := str_take 512 summary |} in
  dispatch_webhooks ev (set_events (db_events db ++ [ev])%list db).

Definition RANK : list (string * Z) := [("info", 0); ("warning", 1); ("critical", 2)].

Definition deliver (n : Notification) (db : Db) : Db :=
  if negb (str_truthy (db_notify_url db)) then db
  else
    let threshold := default 2 (dget (db_notify_min_severity db) RANK) in
    if default 0 (dget (nt_severity n) RANK) <? threshold then db
    else
      let text := "[" +:+ upper (nt_severity n) +:+ "] " +:+ nt_title n in
      let text := if str_truthy (or_empty (nt_body n))
                  then text +:+ String (ascii_of_nat 10) (or_empty (nt_body n)) else text in
      set_outbox (db_outbox db ++ [PostAlert (db_notify_url db) text])%list db.

Definition refresh_notification (title severity : string) (body : option string)
    (n : Notification) : Notification :=
  {| nt_id := nt_id n; nt_organization_id := nt_organization_id n; nt_user_id := nt_user_id n;
     nt_severity := severity; nt_category := nt_category n; nt_title := str_take 512 title;
     nt_body := body; nt_entity_type := nt_entity_type n; nt_entity_id := nt_entity_id n;
     nt_dedupe_key := nt_dedupe_key n |}.

Definition has_dedupe (k : string) (n : Notification) : bool :=
  bool_decide (nt_dedupe_key n = Some k).

(** [notify] with a dedupe key, as the control-test machinery calls it. *)
Definition notify (category title : string) (org_id : option Z) (severity : string)
    (body : option string) (entity_type entity_id : string) (dedupe_key : option string)
    (db : Db) : res Db :=
  let create :=
    let '(i, db) := next_id db in
    let n := {| nt_id := i; nt_organization_id := org_id; nt_user_id := None;
                nt_severity := severity; nt_category := category; nt_title := str_take 512 title;
                nt_body := body; nt_entity_type := Some entity_type;
                nt_entity_id := Some entity_id; nt_dedupe_key := dedupe_key |} in
    deliver n (set_notifications (db_notifications db ++ [n])%list db) in
  if str_truthy (or_empty dedupe_key) then
    let k := or_empty dedupe_key in
    let! existing := scalar_one_or_none
      (filter (fun n => has_dedupe k n = true) (db_notifications db)) in
    match existing with
    | Some _ => Ok (set_notifications
        (update_where (has_dedupe k) (refresh_notification title severity body)
           (db_notifications db)) db)
    | None => Ok create
    end
  else Ok create.

(** ** Remediation guidance *)

Definition GENERATED_PLAN : string := "generated".
Definition POAM_ACTIVE_STATUSES : list string := ["open"; "in_progress"].
Definition NL : string := String (ascii_of_nat 10) "".

Definition remediation_guidance (t : ControlTest) (dtl : string) : string :=
  let expected := str_or (or_empty (ct_expected t)) "the expected control state" in
  let provider := str_or (or_empty (ct_connector_type t)) "the applicable provider" in
  let lines := (
    ["Remediation objective: bring " +:+ ct_control_id t +:+ " into alignment so " +:+
     expected +:+ "."] ++
    (if str_truthy (or_empty (ct_check_key t))
     then ["Automated check: " +:+ or_empty (ct_check_key t) +:+ "."] else []) ++
    ["Observed condition: " +:+ dtl])%list in
  let bullets := map (fun s => "- " +:+ s) in
  let steps :=
    match playbook_for (ct_check_key t) with
    | None =>
        ["Recommended actions: review the failing resources from the latest " +:+ provider +:+
         " scan, correct the provider configuration or resource assignment, and re-run the automated control check.";
         "Validation evidence: attach the passing scan result, affected resource identifiers, and any provider policy/configuration export used to prove the corrected state."]
    | Some p => (
        ["Recommended actions:"] ++ bullets (actions p) ++
        (match milestones p with [] => [] | _ => ["Suggested milestones:"] ++ bullets (milestones p) end) ++
        ["Validation evidence:"] ++ bullets (evidence p))%list
    end in
  join NL (lines ++ steps ++
    ["SSP impact: update the implementation statement and evidence references for this control if the remediation changes responsibility, implementation status, or inherited/provider-managed coverage."])%list.

(** ** Connector freshness *)

Definition CONNECTOR_STALE_DAYS_DEFAULT : Z := 30.

Definition scan_owned (t : ControlTest) : bool := str_truthy (or_empty (ct_check_key t)).

Definition is_due (t : ControlTest) (today : Z) : bool :=
  if negb (ct_active t) then false
  else match dget (lower (or_empty (ct_frequency t))) FREQ_DAYS with
       | None => false
       | Some days =>
           match ct_last_tested_at t with
           | None => true
           | Some at_ => days <=? today - dt_date at_
           end
       end.

Definition connector_backing_state (conn : option ConnectorConfig) (today stale_after_days : Z)
    : string :=
  match conn with
  | None => "missing"
  | Some c =>
      match cc_last_sync c with
      | None => "unsynced"
      | Some sync =>
          if bool_decide (cc_status c <> "configured") then "unsynced"
          else if stale_after_days <? today - dt_date sync then "stale"
          else if cc_objects_discovered c <=? 0 then "empty"
          else "current"
      end
  end.

(** [ORDER BY last_sync DESC NULLS LAST]: the first of the latest. *)
Definition sync_later (a b : ConnectorConfig) : bool :=
  match cc_last_sync a, cc_last_sync b with
  | Some x, Some y => y <? x
  | Some _, None => true
  | None, _ => false
  end.
Definition org_is (o x : option Z) : bool :=
  match o with None => true | Some i => bool_decide (x = Some i) end.

Definition connector_for (t : ControlTest) (db : Db) : option ConnectorConfig :=
  match ct_connector_type t with
  | None => None
  | Some k =>
      if negb (str_truthy k) then None else
      latest_of sync_later
        (filter (fun c => bool_decide (cc_connector_type c = k) &&
                          org_is (ct_organization_id t) (cc_organization_id c) = true)
           (db_connectors db))
  end.

Definition has_recent_capture (org : Z) (connector_type : string) (today stale_after_days : Z)
    (db : Db) : bool :=
  match filter (fun c => cs_organization_id c = Some org /\ cs_connector c = connector_type)
          (db_captures db) with
  | [] => false
  | c :: cs =>
      let newest := fold_left Z.max (map cs_captured_at cs) (cs_captured_at c) in
      today - dt_date newest <=? stale_after_days
  end.

Definition HOST_PROFILE_CONNECTOR : string := "aws_govcloud".

(** [resolve_credential] decrypts the stored bundle with a third-party library:
    a parameter, which returns no credential, a credential, or raises. *)
Definition capture_identity_is_tenants_own
    (resolve_credential : Z -> string -> res (option (list (string * pyval))))
    (org : Z) (connector_type : string) : bool :=
  if bool_decide (connector_type <> HOST_PROFILE_CONNECTOR) then true
  else match resolve_credential org connector_type with
       | Err _ => false
       | Ok None => true
       | Ok (Some cred) =>
           if truthy (vget "access_key_id" cred) && truthy (vget "secret_access_key" cred)
           then true else negb (truthy (vget "profile" cred))
       end.

Definition organization_capture_is_live
    (resolve_credential : Z -> string -> res (option (list (string * pyval))))
    (organization_id : option Z) (connector_type : option string) (today stale_after_days : Z)
    (db : Db) : bool :=
  match organization_id, connector_type with
  | Some org, Some k =>
      if negb (str_truthy k) then false else
      let conn := latest_of sync_later
        (filter (fun c => cc_organization_id c = Some org /\ cc_connector_type c = k)
           (db_connectors db)) in
      if bool_decide (connector_backing_state conn today stale_after_days <> "current") then false
      else if negb (has_recent_capture org k today stale_after_days db) then false
      else capture_identity_is_tenants_own resolve_credential org k
  | _, _ => false
  end.

Definition evaluate_connector (t : ControlTest) (conn : option ConnectorConfig) (today : Z)
    : string * string :=
  let days := default CONNECTOR_STALE_DAYS_DEFAULT
                (dget (lower (or_empty (ct_frequency t))) FREQ_DAYS) in
  let state := connector_backing_state conn today days in
  match conn with
  | None => ("warn", "No " +:+ fmt_opt (ct_connector_type t) +:+
                     " connector registered to collect evidence.")
  | Some c =>
      let never := ("warn", "Connector '" +:+ cc_name c +:+ "' has not completed a successful sync.") in
      match cc_last_sync c with
      | None => never
      | Some sync =>
          if decide (state = "unsynced") then never
          else if decide (state = "stale") then
            ("warn", "Connector '" +:+ cc_name c +:+ "' last synced " +:+
                     date_iso (dt_date sync) +:+ " — stale.")
          else if decide (state = "empty") then
            ("fail", "Connector '" +:+ cc_name c +:+
                     "' synced but discovered no configuration objects.")
          else ("pass", "Connector '" +:+ cc_name c +:+ "' current (" +:+
                        pretty (cc_objects_discovered c) +:+ " objects, synced " +:+
                        date_iso (dt_date sync) +:+ ").")
      end
  end.

(** [_latest_capture]: a key that is not a string cannot be bound to the column. *)
Definition latest_capture (t : ControlTest) (db : Db) : res (option CaptureSnapshot) :=
  let odp_key := vget "odp_key" (default [] (ct_assertion t)) in
  if negb (truthy odp_key) then Ok None else
  match odp_key with
  | VStr k =>
      Ok (latest_of (fun a b => cs_captured_at b <? cs_captured_at a)
        (filter (fun c => bool_decide (Some (cs_connector c) = ct_connector_type t) &&
                          bool_decide (cs_odp_key c = k) &&
                          org_is (ct_organization_id t) (cs_organization_id c) = true)
           (db_captures db)))
  | _ => Err (Exn "DBAPIError" "invalid input for query argument")
  end.

Definition evaluate_test (t : ControlTest) (today : Z) (db : Db)
    : res (string * string * option string) :=
  if str_truthy (or_empty (ct_check_key t)) then
    Ok (str_or (or_empty (ct_last_status t)) "warn",
        "Assessed by posture scan '" +:+ or_empty (ct_check_key t) +:+
        "', not by connector freshness — re-run a scan to refresh this result.", None)
  else
    let assertion := default [] (ct_assertion t) in
    if truthy (vget "odp_key" assertion) then
      let! snap := latest_capture t db in
      match snap with
      | None =>
          Ok ("warn", "No captured value for '" +:+ py_str (vget "odp_key" assertion) +:+
                      "' from " +:+ fmt_opt (ct_connector_type t) +:+
                      " yet — run collection first.", None)
      | Some s =>
          let '(ok, dtl) := evaluate_assertion assertion (cs_value s) in
          Ok (if ok : bool then "pass" else "fail", dtl,
              Some (cs_connector s +:+ ":" +:+ cs_odp_key s +:+ "@" +:+
                    date_iso (dt_date (cs_captured_at s))))
      end
    else
      let conn := connector_for t db in
      let '(st, dtl) := evaluate_connector t conn today in
      Ok (st, dtl, cc_name <$> conn).

(** ** Consequences of a failure *)

Definition fix_key (t : ControlTest) : string := "ctltest-fix:" +:+ pretty (ct_id t).
Definition source_ref_of (t : ControlTest) : string := "control_test:" +:+ pretty (ct_id t).

Definition is_fix_task (t : ControlTest) (k : Task) : bool :=
  bool_decide (tk_dedupe_key k = Some (fix_key t)).

(** The open POA&M of one control test in one system. *)
Definition is_open_poam (t : ControlTest) (p : POAM) : bool :=
  bool_decide (Some (pm_system_id p) = ct_system_id t) &&
  bool_decide (pm_source p = Some "control_test") &&
  bool_decide (pm_source_ref p = Some (source_ref_of t)) &&
  mem (pm_status p) POAM_ACTIVE_STATUSES.

Definition set_plan (weakness plan : option string) (plan_source : string) (p : POAM) : POAM :=
  {| pm_id := pm_id p; pm_system_id := pm_system_id p; pm_control_id := pm_control_id p;
     pm_title := pm_title p; pm_weakness := weakness; pm_severity := pm_severity p;
     pm_status := pm_status p; pm_source := pm_source p; pm_remediation_plan := plan;
     pm_plan_source := plan_source; pm_identified_on := pm_identified_on p;
     pm_due_on := pm_due_on p; pm_original_due_on := pm_original_due_on p;
     pm_source_ref := pm_source_ref p; pm_scanner := pm_scanner p;
     pm_finding_uid := pm_finding_uid p; pm_closed_on := pm_closed_on p;
     pm_acceptance_rationale := pm_acceptance_rationale p; pm_milestones := pm_milestones p; pm_details := pm_details p |}.

(** The branch of [ensure_poam_for_control_test] on an existing row. *)
Definition refresh_poam (weakness guidance : string) (p : POAM) : POAM :=
  if decide (pm_plan_source p = GENERATED_PLAN) then
    set_plan (Some weakness) (Some guidance) (pm_plan_source p) p
  else if negb (str_truthy (or_empty (pm_remediation_plan p))) then
    set_plan (Some weakness) (Some guidance) GENERATED_PLAN p
  else set_plan (Some weakness) (pm_remediation_plan p) (pm_plan_source p) p.

Definition failed_weakness (t : ControlTest) (dtl : string) : string :=
  "Automated control test '" +:+ ct_name t +:+ "' (" +:+ ct_control_id t +:+ ") failed: " +:+ dtl.
Definition ensure_poam_for_control_test (t : ControlTest) (dtl : string) (now : Z) (db : Db)
    : res Db :=
  match ct_system_id t with
  | None => Ok db
  | Some sys =>
      let weakness := failed_weakness t dtl in
      let guidance := remediation_guidance t dtl in
      let! existing := scalar_one_or_none
        (filter (fun p => is_open_poam t p = true) (db_poams db)) in
      match existing with
      | Some _ => Ok (set_poams
          (update_where (is_open_poam t) (refresh_poam weakness guidance) (db_poams db)) db)
      | None =>
          let! control := scalar_one_or_none
            (filter (fun c => c.1 = ct_control_id t) (db_controls db)) in
          let '(i, db) := next_id db in
          let today := dt_date now in
          let due := today + 30 in
          let poam :=
            {| pm_id := i; pm_system_id := sys; pm_control_id := snd <$> control;
               pm_title := "Control test failed: " +:+ ct_name t +:+ " (" +:+ ct_control_id t +:+ ")";
               pm_weakness := Some weakness; pm_severity := "high"; pm_status := "open";
               pm_source := Some "control_test"; pm_remediation_plan := Some guidance;
               pm_plan_source := GENERATED_PLAN; pm_identified_on := Some today;
               pm_due_on := Some due; pm_original_due_on := Some due;
               pm_source_ref := Some (source_ref_of t); pm_scanner := None;
               pm_finding_uid := None; pm_closed_on := None; pm_acceptance_rationale := None;
               pm_milestones := [{| ms_id := i; ms_description := "Remediate " +:+ ct_control_id t; ms_due_on := Some due;
                                    ms_completed_on := None; ms_status := "pending"; ms_sort_order := 0 |}];
               pm_details := no_details |} in
          Ok (set_poams (db_poams db ++ [poam])%list db)
      end
  end.

Definition alert_on_failure (t : ControlTest) (status dtl : string) (now : Z) (db : Db) : res Db :=
  let sev := if decide (status = "fail") then "critical" else "warning" in
  let! db := notify "conmon"
    ("Control test " +:+ status +:+ ": " +:+ ct_name t +:+ " (" +:+ ct_control_id t +:+ ")")
    (ct_organization_id t) sev (Some dtl) "control_test" (pretty (ct_id t))
    (Some ("ctltest:" +:+ pretty (ct_id t))) db in
  if bool_decide (status <> "fail") then Ok db else
  let! exists_ := scalar_one_or_none (filter (fun k => is_fix_task t k = true) (db_tasks db)) in
  let db :=
    match exists_ with
    | Some _ => db
    | None =>
        let '(i, db) := next_id db in
        let task :=
          {| tk_id := i; tk_organization_id := ct_organization_id t; tk_system_id := ct_system_id t;
             tk_title := "Remediate failed control test: " +:+ ct_name t; tk_description := dtl;
             tk_kind := "remediation"; tk_priority := "high"; tk_status := "open";
             tk_source := "auto"; tk_entity_type := "control_test"; tk_entity_id := pretty (ct_id t);
             tk_dedupe_key := Some (fix_key t); tk_due_on := None; tk_closed_at := None |} in
        set_tasks (db_tasks db ++ [task])%list db
    end in
  ensure_poam_for_control_test t dtl now db.

(** ** Recovery *)

Definition close_task (now : Z) (k : Task) : Task :=
  if decide (tk_status k = "open") then
    {| tk_id := tk_id k; tk_organization_id := tk_organization_id k; tk_system_id := tk_system_id k;
       tk_title := tk_title k; tk_description := tk_description k; tk_kind := tk_kind k;
       tk_priority := tk_priority k; tk_status := "done"; tk_source := tk_source k;
       tk_entity_type := tk_entity_type k; tk_entity_id := tk_entity_id k;
       tk_dedupe_key := tk_dedupe_key k; tk_due_on := tk_due_on k; tk_closed_at := Some now |}
  else k.

Definition append_note (note : string) (p : POAM) : POAM :=
  let plan := if str_truthy (or_empty (pm_remediation_plan p))
              then or_empty (pm_remediation_plan p) +:+ NL +:+ note else note in
  set_plan (pm_weakness p) (Some plan) (pm_plan_source p) p.

Definition recovery_note (t : ControlTest) (result_id now : Z) : string :=
  "Control test '" +:+ ct_name t +:+ "' now passes as of " +:+ dt_iso now +:+ " (result #" +:+ pretty result_id +:+ ") -- review for closure.".
(** The body of the [try] of [_resolve_on_recovery]. *)
Definition recovery_steps (t : ControlTest) (result_id now : Z) (db : Db) : res Db :=
  let! task := scalar_one_or_none (filter (fun k => is_fix_task t k = true) (db_tasks db)) in
  let db := match task with
            | Some _ => set_tasks (update_where (is_fix_task t) (close_task now) (db_tasks db)) db
            | None => db
            end in
  match ct_system_id t with
  | None => Ok db
  | Some _ =>
      let! poam := scalar_one_or_none (filter (fun p => is_open_poam t p = true) (db_poams db)) in
      match poam with
      | None => Ok db
      | Some p =>
          let note := recovery_note t result_id now in
          let db := set_poams (update_where (is_open_poam t) (append_note note) (db_poams db)) db in
          notify "conmon"
            ("Control test recovered: " +:+ ct_name t +:+ " (" +:+ ct_control_id t +:+ ")")
            (ct_organization_id t) "info" (Some note) "poam" (pretty (pm_id p))
            (Some ("poam-recovery:" +:+ pretty (pm_id p))) db
      end
  end.

(** The savepoint: an exception rolls the steps back and is only logged. *)
Definition resolve_on_recovery (t : ControlTest) (result_id now : Z) (db : Db) : Db :=
  match recovery_steps t result_id now db with
  | Ok db' => db'
  | Err _ => db
  end.

(** ** Recording a result *)

Definition set_last (status : string) (now : Z) (t : ControlTest) : ControlTest :=
  {| ct_id := ct_id t; ct_organization_id := ct_organization_id t; ct_system_id := ct_system_id t;
     ct_control_id := ct_control_id t; ct_name := ct_name t; ct_method := ct_method t;
     ct_connector_type := ct_connector_type t; ct_frequency := ct_frequency t;
     ct_expected := ct_expected t; ct_assertion := ct_assertion t; ct_active := ct_active t;
     ct_source := ct_source t; ct_check_key := ct_check_key t;
     ct_check_source := ct_check_source t; ct_last_status := Some status;
     ct_last_tested_at := Some now |}.

Definition resource_row (res_id : Z) (by_res : gmap string Z) (f : ResourceFinding)
    : ControlTestResourceResult :=
  {| crr_result_id := res_id; crr_resource_id := str_take 512 (resource_id f);
     crr_resource_type := str_take 64 (resource_type f); crr_verdict := verdict f;
     crr_observed := observed f; crr_detail := detail f;
     crr_waiver_id := by_res !! resource_id f |}.

(** What the waiver savepoint yields: the coverage, or nothing when there is
    no candidate or the lookup raised. *)
Definition coverage_of (t : ControlTest) (status : string) (resources : list ResourceFinding)
    (now : Z) (db : Db) : option Coverage :=
  if mem status ["fail"; "warn"] then
    match waivers_for_test (db_waivers db) t with
    | Ok (w :: ws) => Some (cover resources (w :: ws) (dt_date now))
    | _ => None
    end
  else None.

(** The branch on the consequence: alert, suppress, recover or nothing. *)
Definition consequences (t : ControlTest) (previous_status : option string) (status dtl : string)
    (coverage : option Coverage) (open_remediation : bool) (result_id now : Z) (db : Db)
    : res Db :=
  if mem status ["fail"; "warn"] then
    if negb open_remediation then Ok db
    else if match coverage with None => true | Some c => negb (suppress c) end
    then alert_on_failure t status dtl now db
    else Ok db
  else if bool_decide (status = "pass") && bool_decide (previous_status <> Some "pass")
  then Ok (resolve_on_recovery t result_id now db)
  else Ok db.

Definition record_result (t : ControlTest) (status : string) (dtl : option string)
    (evidence_ref : option string) (actor : string) (evaluated failing : Z)
    (expected : option string) (resources : list ResourceFinding) (open_remediation : bool)
    (now : Z) (db : Db) : res (ControlTestResult * ControlTest * Db) :=
  if negb (mem status VALIDATION_STATUSES)
  then Err (ValueError ("status must be one of " +:+ repr_tuple VALIDATION_STATUSES)) else
  let previous_status := ct_last_status t in
  let '(i, db) := next_id db in
  let t' := set_last status now t in
  let coverage := coverage_of t' status resources now db in
  let result :=
    {| ctr_id := i; ctr_test_id := ct_id t; ctr_status := status; ctr_detail := dtl;
       ctr_evidence_ref := evidence_ref; ctr_evaluated := evaluated; ctr_failing := failing;
       ctr_waived := match coverage with Some c => waived c | None => 0 end;
       ctr_expected := expected |} in
  let by_res := match coverage with Some c => by_resource c | None => ∅ end in
  let db := set_resources (db_resources db ++ map (resource_row i by_res) resources)%list
              (set_results (db_results db ++ [result])%list db) in
  let! db := consequences t' previous_status status (or_empty dtl) coverage open_remediation i now db in
  Ok (result, t', emit "tested" "control_test"
        ("Control test " +:+ status +:+ ": " +:+ ct_control_id t) (ct_organization_id t)
        (Some actor) (Some (pretty (ct_id t))) db).

(** ** The scheduler's run *)

Definition run_selected (org_id : option Z) (t : ControlTest) : bool :=
  ct_active t && bool_decide (ct_method t = "connector") &&
  negb (bool_decide (ct_source t = "generated")) && org_is org_id (ct_organization_id t).

Record RunCounts := { rc_evaluated : Z; rc_pass : Z; rc_warn : Z; rc_fail : Z }.

Definition count_status (st : string) (c : RunCounts) : res RunCounts :=
  let e := rc_evaluated c + 1 in
  if decide (st = "pass") then
    Ok {| rc_evaluated := e; rc_pass := rc_pass c + 1; rc_warn := rc_warn c; rc_fail := rc_fail c |}
  else if decide (st = "warn") then
    Ok {| rc_evaluated := e; rc_pass := rc_pass c; rc_warn := rc_warn c + 1; rc_fail := rc_fail c |}
  else if decide (st = "fail") then
    Ok {| rc_evaluated := e; rc_pass := rc_pass c; rc_warn := rc_warn c; rc_fail := rc_fail c + 1 |}
  else Err (KeyError (repr_str st)).

(** One iteration: a due test is evaluated and recorded by the scheduler. *)
Definition run_one (today now : Z) (org_id : option Z) (t : ControlTest)
    (acc : RunCounts * Db) : res (ControlTest * (RunCounts * Db)) :=
  if negb (run_selected org_id t && is_due t today) then Ok (t, acc) else
  let! r := evaluate_test t today acc.2 in
  let '(st, dtl, ref) := r in
  let! r2 := record_result t st (Some dtl) ref "scheduler" 0 0 None [] true now acc.2 in
  let '(_, t', db') := r2 in
  let! c := count_status st acc.1 in
  Ok (t', (c, db')).

(** One reading of the clock stands for those of the run's recordings. *)
Fixpoint run_tests (today now : Z) (org_id : option Z) (ts : list ControlTest)
    (acc : RunCounts * Db) : res (list ControlTest * (RunCounts * Db)) :=
  match ts with
  | [] => Ok ([], acc)
  | t :: ts' =>
      let! r := run_one today now org_id t acc in
      let! rs := run_tests today now org_id ts' r.2 in
      Ok (r.1 :: rs.1, rs.2)
  end.

Definition run_due (today : option Z) (now : Z) (org_id : option Z) (tests : list ControlTest)
    (db : Db) : res (list ControlTest * (RunCounts * Db)) :=
  run_tests (default (dt_date now) today) now org_id tests
    ({| rc_evaluated := 0; rc_pass := 0; rc_warn := 0; rc_fail := 0 |}, db).

(** ** Well-formed tables

    The unique dedupe keys, one open POA&M per test, unique control names. *)

Definition at_most_one {A} (p : A -> bool) (rows : list A) : Prop :=
  (List.length (filter (fun r => p r = true) rows) <= 1)%nat.

Record wf_db (db : Db) : Prop := {
  wf_tasks : forall t, at_most_one (is_fix_task t) (db_tasks db);
  wf_notifications : forall k, at_most_one (has_dedupe k) (db_notifications db);
  wf_poams : forall t, at_most_one (is_open_poam t) (db_poams db);
  wf_controls : forall c, at_most_one (fun r => bool_decide (r.1 = c)) (db_controls db) }.

(** The tables that hold evidence and configuration agree. *)
Definition same_evidence (a b : Db) : Prop :=
  db_results a = db_results b /\ db_resources a = db_resources b /\
  db_waivers a = db_waivers b /\ db_controls a = db_controls b /\
  db_connectors a = db_connectors b /\ db_captures a = db_captures b.

(** The remediation queue agrees. *)
Definition same_work (a b : Db) : Prop := db_tasks a = db_tasks b /\ db_poams a = db_poams b.

#[export] Instance same_evidence_preorder : PreOrder same_evidence.
Proof.
  split; unfold same_evidence; [by intros a|].
  intros a b c (-> & -> & -> & -> & -> & ->) H. done.
Qed.
#[export] Instance same_work_preorder : PreOrder same_work.
Proof. split; unfold same_work; [by intros a|]. intros a b c [-> ->] H. done. Qed.

Create HintDb ctl.
#[export] Hint Unfold same_evidence same_work : ctl.

Lemma scalar_at_most_one {A} (p : A -> bool) rows :
  at_most_one p rows ->
  exists o, scalar_one_or_none (filter (fun r => p r = true) rows) = Ok o /\
    match o with
    | None => filter (fun r => p r = true) rows = []
    | Some r => filter (fun r => p r = true) rows = [r]
    end.
Proof.
  unfold at_most_one. intros H. destruct (filter _ rows) as [|r [|r' rs]]; simpl in *;
    [by exists None|by exists (Some r)|lia].
Qed.

Lemma scalar_Some {A} (rows : list A) x : scalar_one_or_none rows = Ok (Some x) -> rows = [x].
Proof. destruct rows as [|? [|]]; simpl; congruence. Qed.
Lemma scalar_None {A} (rows : list A) : scalar_one_or_none rows = Ok None -> rows = [].
Proof. by destruct rows as [|? [|]]. Qed.

Lemma at_most_one_add {A} (p q : A -> bool) rows x :
  at_most_one p rows -> (p x = true -> forall r, p r = q r) ->
  filter (fun r => q r = true) rows = [] -> at_most_one p (rows ++ [x]).
Proof.
  unfold at_most_one. intros Hp Hq Hf. rewrite filter_app, length_app. destruct (p x) eqn:E.
  - rewrite filter_cons_True by done. simpl.
    assert (filter (fun r => p r = true) rows = []) as ->; [|done].
    rewrite <- Hf. apply list_filter_iff. intros r. by rewrite Hq.
  - rewrite filter_cons_False by congruence. simpl. lia.
Qed.

Lemma at_most_one_update {A} (p q : A -> bool) f rows :
  (forall x, p (f x) = p x) -> at_most_one p rows -> at_most_one p (update_where q f rows).
Proof.
  unfold at_most_one, update_where. intros Hf. set (g := fun r => if q r then f r else r).
  assert (forall x, p (g x) = p x) as Hg by (intros x; unfold g; destruct (q x); auto).
  intros H. assert (filter (fun r => p r = true) (map g rows) =
                    map g (filter (fun r => p r = true) rows)) as ->; [|by rewrite length_map].
  clear H. induction rows as [|x rows IH]; [done|]. simpl. destruct (p x) eqn:E.
  - rewrite !filter_cons_True by congruence. simpl. by rewrite IH.
  - rewrite !filter_cons_False by congruence. done.
Qed.

Lemma deliver_frame n db :
  same_evidence (deliver n db) db /\ same_work (deliver n db) db /\
  db_notifications (deliver n db) = db_notifications db.
Proof. unfold deliver. repeat case_match; repeat autounfold with ctl; simpl; tauto. Qed.

Lemma wf_db_ext a b :
  db_tasks a = db_tasks b -> db_notifications a = db_notifications b ->
  db_poams a = db_poams b -> db_controls a = db_controls b -> wf_db b -> wf_db a.
Proof. intros E1 E2 E3 E4 []. split; rewrite ?E1, ?E2, ?E3, ?E4; done. Qed.

(** A dedupe key that is a non-empty literal prefix is truthy. *)
Lemma notify_spec category title org sev body et eid k db :
  str_truthy k = true ->
  match notify category title org sev body et eid (Some k) db with
  | Ok db' => same_evidence db' db /\ same_work db' db /\ (wf_db db -> wf_db db')
  | Err _ => ~ wf_db db
  end.
Proof.
  intros Hk. unfold notify. simpl. rewrite Hk.
  destruct (scalar_one_or_none _) as [[n|]|e] eqn:E; simpl.
  - repeat autounfold with ctl. split; [done|]. split; [done|]. intros []. split; try done.
    intros k'. by apply at_most_one_update.
  - set (n := {| nt_id := db_seq db |}).
    destruct (deliver_frame n (set_notifications (db_notifications db ++ [n])%list
      (set_seq (db_seq db + 1) db))) as ((H1 & H2 & H3 & H4 & H5) & [H6 H7] & H8).
    repeat autounfold with ctl. split; [done|]. split; [done|].
    intros []. eapply (wf_db_ext _ (set_notifications (db_notifications db ++ [n])%list db)); try done.
    split; try done. intros k'. simpl. apply (at_most_one_add _ (has_dedupe k)); [done| |].
    + unfold has_dedupe, n. simpl. rewrite bool_decide_eq_true. by intros [= <-].
    + by apply scalar_None in E.
  - intros Hwf. destruct (scalar_at_most_one (has_dedupe k) (db_notifications db)) as (o & Ho & _);
      [apply Hwf|]. congruence.
Qed.

(** ** The POA&M a failure keeps open *)

Lemma is_open_poam_ext t p u v w :
  is_open_poam t (set_plan u v w p) = is_open_poam t p.
Proof. done. Qed.

Lemma refresh_poam_key t w g p : is_open_poam t (refresh_poam w g p) = is_open_poam t p.
Proof. unfold refresh_poam. by repeat case_match. Qed.

(** Two tests whose open-POA&M predicates meet on a row have the same one. *)
Lemma is_open_poam_same t t' p :
  is_open_poam t p = true -> is_open_poam t' p = true -> forall r, is_open_poam t r = is_open_poam t' r.
Proof.
  unfold is_open_poam. rewrite !andb_true_iff, !bool_decide_eq_true.
  intros [[[Ha _] Hb] _] [[[Hc _] Hd] _] r.
  assert (source_ref_of t = source_ref_of t') as -> by congruence. by rewrite <- Ha, <- Hc.
Qed.

Lemma existing_elem {A} (p : A -> bool) rows x :
  filter (fun r => p r = true) rows = [x] -> x ∈ rows /\ p x = true.
Proof.
  intros H. assert (x ∈ filter (fun r => p r = true) rows) as Hx by (rewrite H; by left).
  apply list_elem_of_filter in Hx. tauto.
Qed.

(** A POA&M after a step on one test's behalf: the same row up to its weakness
    and plan, and the plan is never one somebody else wrote. *)
Record poam_kept (p p' : POAM) : Prop := {
  kept_id : pm_id p' = pm_id p;
  kept_system : pm_system_id p' = pm_system_id p;
  kept_status : pm_status p' = pm_status p;
  kept_title : pm_title p' = pm_title p;
  kept_severity : pm_severity p' = pm_severity p;
  kept_due : pm_due_on p' = pm_due_on p;
  kept_milestones : pm_milestones p' = pm_milestones p;
  kept_details : pm_details p' = pm_details p;
  kept_plan : pm_plan_source p <> GENERATED_PLAN -> forall plan,
    pm_remediation_plan p = Some plan -> str_truthy plan = true ->
    pm_plan_source p' = pm_plan_source p /\
    exists tail, pm_remediation_plan p' = Some (plan +:+ tail) }.

Lemma str_app_empty s : s +:+ "" = s.
Proof. induction s as [|c s IH]; [done|]. change (String c (s +:+ "") = String c s). by rewrite IH. Qed.

Lemma poam_kept_refl p : poam_kept p p.
Proof. split; try done. intros _ plan -> _. split; [done|]. exists "". by rewrite str_app_empty. Qed.

Lemma refresh_poam_kept w g p : poam_kept p (refresh_poam w g p).
Proof.
  unfold refresh_poam. destruct (decide _) as [Hg|Hg]; [split; try done; by intros []|].
  destruct (str_truthy (or_empty (pm_remediation_plan p))) eqn:Ht; simpl; split; try done; simpl.
  - intros _ plan -> _. split; [done|]. exists "". by rewrite str_app_empty.
  - intros _ plan E Hp. rewrite E in Ht. simpl in Ht. congruence.
Qed.

Lemma append_note_kept note p : poam_kept p (append_note note p).
Proof.
  unfold append_note. split; try done. simpl. intros _ plan -> Ht. simpl. rewrite Ht.
  split; [done|]. eexists. done.
Qed.

Lemma update_where_kept q f rows :
  (forall p, poam_kept p (f p)) -> Forall2 poam_kept rows (update_where q f rows).
Proof.
  intros Hf. unfold update_where. induction rows as [|p rows IH]; simpl; constructor; [|done].
  destruct (q p); [apply Hf|apply poam_kept_refl].
Qed.

Lemma kept_all rows : Forall2 poam_kept rows rows.
Proof. induction rows; constructor; [apply poam_kept_refl|done]. Qed.

(** The rows before are kept and at most the new one follows, open. *)
Definition poams_grow (t : ControlTest) (before after : list POAM) : Prop :=
  exists kept new, after = (kept ++ new)%list /\ Forall2 poam_kept before kept /\
    (new = [] \/ exists p, new = [p] /\ is_open_poam t p = true /\ pm_status p = "open").

Lemma poams_grow_kept t before after : Forall2 poam_kept before after -> poams_grow t before after.
Proof. exists after, []. rewrite app_nil_r. tauto. Qed.

Lemma ensure_poam_spec t dtl now db :
  match ensure_poam_for_control_test t dtl now db with
  | Ok db' =>
      same_evidence db' db /\ db_tasks db' = db_tasks db /\
      db_notifications db' = db_notifications db /\ poams_grow t (db_poams db) (db_poams db') /\
      (ct_system_id t <> None -> exists p, p ∈ db_poams db' /\ is_open_poam t p = true) /\
      (wf_db db -> wf_db db')
  | Err _ => ~ wf_db db
  end.
Proof.
  unfold ensure_poam_for_control_test. destruct (ct_system_id t) as [sys|] eqn:Es.
  2:{ split; [reflexivity|]. split; [done|]. split; [done|].
      split; [apply poams_grow_kept, kept_all|done]. }
  destruct (scalar_one_or_none (filter (fun p => is_open_poam t p = true) _)) as [[p|]|e] eqn:E;
    cbn [res_bind].
  - repeat autounfold with ctl. cbn. split; [done|]. split; [done|]. split; [done|]. split.
    { apply poams_grow_kept, update_where_kept, refresh_poam_kept. }
    split.
    + intros _. apply scalar_Some, existing_elem in E as [Hin Hp]. eexists. split.
      * unfold update_where. apply (list_elem_of_fmap_2 _ _ p), Hin.
      * simpl. rewrite Hp, refresh_poam_key. done.
    + intros []. split; try done. intros t'. apply at_most_one_update; [|done].
      intros x. apply refresh_poam_key.
  - destruct (scalar_one_or_none (filter (fun c => c.1 = ct_control_id t) _)) as [c|e] eqn:Ec;
      cbn [res_bind next_id].
    + set (p := {| pm_id := _ |}). repeat autounfold with ctl. cbn.
      assert (is_open_poam t p = true) as Hp.
      { unfold is_open_poam, p. cbn. rewrite !bool_decide_eq_true_2 by done. done. }
      split; [done|]. split; [done|]. split; [done|]. split.
      { exists (db_poams db), [p]. split; [done|]. split; [apply kept_all|]. right. by exists p. }
      split; [intros _; exists p; split; [apply elem_of_app; right; by left|done]|].
      intros []. split; try done. intros t'. apply (at_most_one_add _ (is_open_poam t)); [done| |].
      * intros Hp'. by apply is_open_poam_same with p.
      * by apply scalar_None in E.
    + intros []. specialize (wf_controls0 (ct_control_id t)). unfold at_most_one in wf_controls0.
      assert (filter (fun r => bool_decide (r.1 = ct_control_id t) = true) (db_controls db) =
              filter (fun c => c.1 = ct_control_id t) (db_controls db)) as Heq.
      { apply list_filter_iff. intros r. apply bool_decide_eq_true. }
      rewrite Heq in wf_controls0. destruct (filter _ (db_controls db)) as [|? [|]]; simpl in *; try done. lia.
  - intros Hwf. destruct (scalar_at_most_one (is_open_poam t) (db_poams db)) as (o & Ho & _);
      [apply Hwf|]. congruence.
Qed.

(** ** Alerts and recovery *)

Lemma fix_task_same t t' k :
  is_fix_task t k = true -> is_fix_task t' k = true -> forall r, is_fix_task t r = is_fix_task t' r.
Proof.
  unfold is_fix_task. rewrite !bool_decide_eq_true. intros Ha Hb r.
  assert (fix_key t = fix_key t') as -> by congruence. done.
Qed.

Lemma tasks_add_wf (ts : list Task) t t' k :
  at_most_one (is_fix_task t') ts -> is_fix_task t k = true ->
  filter (fun k => is_fix_task t k = true) ts = [] -> at_most_one (is_fix_task t') (ts ++ [k]).
Proof. intros H1 H2 H3. apply (at_most_one_add _ (is_fix_task t)); [done| |done].
  intros H. by apply fix_task_same with k. Qed.

Lemma ctltest_key_truthy i : str_truthy ("ctltest:" +:+ i) = true.
Proof. done. Qed.

Lemma alert_on_failure_spec t st dtl now db :
  match alert_on_failure t st dtl now db with
  | Ok db' =>
      same_evidence db' db /\ poams_grow t (db_poams db) (db_poams db') /\
      (st <> "fail" -> same_work db' db) /\
      (db_tasks db' = db_tasks db \/
         exists k, db_tasks db' = (db_tasks db ++ [k])%list /\ is_fix_task t k = true) /\
      (st = "fail" -> (exists k, k ∈ db_tasks db' /\ is_fix_task t k = true) /\
         (ct_system_id t <> None -> exists p, p ∈ db_poams db' /\ is_open_poam t p = true)) /\
      (wf_db db -> wf_db db')
  | Err _ => ~ wf_db db
  end.
Proof.
  unfold alert_on_failure.
  match goal with |- context [notify ?c ?ti ?o ?s ?b ?et ?ei (Some ?k) db] =>
    pose proof (notify_spec c ti o s b et ei k db eq_refl) as Hn;
    destruct (notify c ti o s b et ei (Some k) db) as [db1|e] end; [|exact Hn].
  cbn [res_bind]. destruct Hn as (He1 & [Ht1 Hp1] & Hw1). case_bool_decide as Hst.
  { split; [done|]. split; [apply poams_grow_kept; rewrite Hp1; apply kept_all|].
    split; [done|]. split; [by left|]. split; [done|exact Hw1]. }
  destruct (scalar_one_or_none (filter (fun k => is_fix_task t k = true) (db_tasks db1)))
    as [o|e] eqn:E; cbn [res_bind].
  2:{ intros Hwf. apply Hw1 in Hwf.
      destruct (scalar_at_most_one (is_fix_task t) (db_tasks db1)) as (o & Ho & _);
        [apply Hwf|congruence]. }
  match goal with |- context [ensure_poam_for_control_test t dtl now ?d] => set (db2 := d) end.
  assert (same_evidence db2 db1 /\ db_poams db2 = db_poams db1 /\
    (db_tasks db2 = db_tasks db1 \/
     exists k, db_tasks db2 = (db_tasks db1 ++ [k])%list /\ is_fix_task t k = true) /\
    (exists k, k ∈ db_tasks db2 /\ is_fix_task t k = true) /\ (wf_db db1 -> wf_db db2))
    as (He2 & Hp2 & Ht2 & Hk2 & Hw2).
  { unfold db2. clear db2. destruct o as [k|]; cbn [next_id].
    - split; [done|]. split; [done|]. split; [by left|]. split; [|done].
      exists k. apply existing_elem. by apply scalar_Some in E.
    - set (k := {| tk_id := _ |}). assert (is_fix_task t k = true) as Hk
        by (unfold is_fix_task; by apply bool_decide_eq_true_2).
      split; [done|]. split; [done|]. split; [right; by exists k|].
      split; [exists k; split; [apply elem_of_app; right; by left|done]|].
      intros []. split; try done. intros t'. apply (tasks_add_wf _ t); [done..|].
      by apply scalar_None in E. }
  clearbody db2. pose proof (ensure_poam_spec t dtl now db2) as Hp.
  destruct (ensure_poam_for_control_test t dtl now db2) as [db3|e].
  - destruct Hp as (He3 & Ht3 & _ & Hg & Ho & Hw3). split; [by rewrite He3, He2|].
    split; [by rewrite <- Hp1, <- Hp2|]. split; [done|].
    split; [by rewrite Ht3, <- Ht1|]. split; [rewrite Ht3; done|]. auto.
  - auto.
Qed.

(** What recovery does to the tasks: the test's open fix task is closed. *)
Definition tasks_resolved (t : ControlTest) (now : Z) (before after : list Task) : Prop :=
  after = before \/ after = update_where (is_fix_task t) (close_task now) before.

Lemma close_task_key t now k : is_fix_task t (close_task now k) = is_fix_task t k.
Proof. unfold close_task. by case_match. Qed.

Lemma recovery_key_truthy i : str_truthy ("poam-recovery:" +:+ i) = true.
Proof. done. Qed.

Lemma recovery_steps_spec t rid now db :
  match recovery_steps t rid now db with
  | Ok db' =>
      same_evidence db' db /\ Forall2 poam_kept (db_poams db) (db_poams db') /\
      tasks_resolved t now (db_tasks db) (db_tasks db') /\
      (forall k, k ∈ db_tasks db' -> is_fix_task t k = true -> tk_status k <> "open") /\
      (wf_db db -> wf_db db')
  | Err _ => ~ wf_db db
  end.
Proof.
  unfold recovery_steps.
  destruct (scalar_one_or_none (filter (fun k => is_fix_task t k = true) (db_tasks db)))
    as [o|e] eqn:E; cbn [res_bind].
  2:{ intros Hwf. destruct (scalar_at_most_one (is_fix_task t) (db_tasks db)) as (o & Ho & _);
        [apply Hwf|congruence]. }
  match goal with |- context [db_poams ?d] => set (db1 := d) end.
  assert (same_evidence db1 db /\ db_poams db1 = db_poams db /\
    tasks_resolved t now (db_tasks db) (db_tasks db1) /\
    (forall k, k ∈ db_tasks db1 -> is_fix_task t k = true -> tk_status k <> "open") /\
    (wf_db db -> wf_db db1)) as (He & Hp & Ht & Ho & Hw).
  { unfold db1. clear db1. destruct o as [k|].
    - split; [done|]. split; [done|]. split; [by right|]. split.
      + cbn. intros k' Hk' Hf. unfold update_where in Hk'.
        apply list_elem_of_fmap in Hk' as (k0 & -> & _).
        destruct (is_fix_task t k0) eqn:Ek; [|congruence]. unfold close_task.
        destruct (decide _); done.
      + intros []. split; try done. intros t'. apply at_most_one_update; [|done].
        intros x. apply close_task_key.
    - split; [done|]. split; [done|]. split; [by left|]. split; [|done].
      intros k Hk Hf. destruct (not_elem_of_nil k). apply scalar_None in E.
      rewrite <- E. by rewrite list_elem_of_filter. }
  clearbody db1. destruct (ct_system_id t).
  2:{ split; [done|]. split; [rewrite Hp; apply kept_all|done]. }
  destruct (scalar_one_or_none (filter (fun p => is_open_poam t p = true) (db_poams db1)))
    as [[p|]|e] eqn:E2; cbn [res_bind].
  - match goal with |- context [notify ?c ?ti ?o ?s ?b ?et ?ei (Some ?k) ?d] =>
      pose proof (notify_spec c ti o s b et ei k d eq_refl) as Hn; set (db2 := d) in *;
      destruct (notify c ti o s b et ei (Some k) db2) as [db3|e] end.
    + destruct Hn as (He3 & [Ht3 Hp3] & Hw3). split; [rewrite He3; done|].
      split; [rewrite Hp3, <- Hp; apply update_where_kept, append_note_kept|].
      split; [by rewrite Ht3|]. split; [by rewrite Ht3|].
      intros Hwf. apply Hw3. specialize (Hw Hwf). destruct Hw. split; try done.
      intros t'. apply at_most_one_update; done.
    + intros Hwf. apply Hn. specialize (Hw Hwf). destruct Hw. split; try done.
      intros t'. apply at_most_one_update; done.
  - split; [done|]. split; [rewrite Hp; apply kept_all|done].
  - intros Hwf. destruct (scalar_at_most_one (is_open_poam t) (db_poams db1)) as (o' & Ho' & _);
      [apply Hw, Hwf|congruence].
Qed.

Lemma resolve_on_recovery_spec t rid now db :
  let db' := resolve_on_recovery t rid now db in
  same_evidence db' db /\ Forall2 poam_kept (db_poams db) (db_poams db') /\
  tasks_resolved t now (db_tasks db) (db_tasks db') /\
  (wf_db db -> wf_db db' /\
     forall k, k ∈ db_tasks db' -> is_fix_task t k = true -> tk_status k <> "open").
Proof.
  cbv zeta. unfold resolve_on_recovery. pose proof (recovery_steps_spec t rid now db) as H.
  destruct (recovery_steps _ _ _ _) as [db'|e].
  - destruct H as (? & ? & ? & ? & ?). split; [done|]. split; [done|]. split; [done|]. auto.
  - split; [done|]. split; [apply kept_all|]. split; [by left|]. intros ?. by destruct H.
Qed.

(** ** The branch on the consequence *)

Definition alerts (status : string) (coverage : option Coverage) (open_remediation : bool) : bool :=
  mem status ["fail"; "warn"] && open_remediation &&
  match coverage with None => true | Some c => negb (suppress c) end.
Definition recovers (status : string) (previous_status : option string) : bool :=
  bool_decide (status = "pass") && bool_decide (previous_status <> Some "pass").

Lemma consequences_spec t prev st dtl cov opn rid now db :
  match consequences t prev st dtl cov opn rid now db with
  | Ok db' =>
      same_evidence db' db /\ poams_grow t (db_poams db) (db_poams db') /\
      (wf_db db -> wf_db db') /\
      (alerts st cov opn = false -> recovers st prev = false ->
         same_work db' db /\ db_notifications db' = db_notifications db) /\
      (st <> "fail" -> Forall2 poam_kept (db_poams db) (db_poams db')) /\
      (st = "fail" -> alerts st cov opn = true ->
         (exists k, k ∈ db_tasks db' /\ is_fix_task t k = true) /\
         (ct_system_id t <> None -> exists p, p ∈ db_poams db' /\ is_open_poam t p = true)) /\
      (recovers st prev = true -> tasks_resolved t now (db_tasks db) (db_tasks db') /\
         (wf_db db -> forall k, k ∈ db_tasks db' -> is_fix_task t k = true -> tk_status k <> "open"))
  | Err _ => ~ wf_db db
  end.
Proof.
  unfold consequences, alerts, recovers. destruct (mem st _) eqn:Hm; simpl.
  - assert (st <> "pass") as Hp by (intros ->; done). rewrite (bool_decide_eq_false_2 _ Hp).
    assert (same_evidence db db /\ poams_grow t (db_poams db) (db_poams db)) as [H1 H2]
      by (split; [reflexivity|apply poams_grow_kept, kept_all]).
    pose proof (kept_all (db_poams db)) as H3.
    destruct opn; simpl; [|naive_solver].
    destruct (match cov with Some c => negb (suppress c) | None => true end); [|naive_solver].
    pose proof (alert_on_failure_spec t st dtl now db) as H.
    destruct (alert_on_failure t st dtl now db); [|done].
    destruct H as (H4 & H5 & H6 & _ & H7 & H8). split; [done|]. split; [done|]. split; [done|].
    split; [done|]. split; [|split; [auto|done]].
    intros Hne. destruct (H6 Hne) as [_ ->]. done.
  - destruct (bool_decide (st = "pass") && _) eqn:Hr; cbn [andb].
    + apply andb_true_iff in Hr as [Hr _]. apply bool_decide_eq_true in Hr. subst st.
      destruct (resolve_on_recovery_spec t rid now db) as (H1 & H2 & H3 & H4).
      split; [done|]. split; [by apply poams_grow_kept|]. split; [intros; by apply H4|].
      split; [done|]. split; [done|]. split; [done|]. intros _. split; [done|].
      intros Hwf. by apply H4.
    + split; [reflexivity|]. split; [apply poams_grow_kept, kept_all|]. split; [done|].
      split; [done|]. split; [intros; apply kept_all|]. split; [|done]. done.
Qed.

(** ** The consequence, exactly *)

(** A row under a key: refreshed where it stands, or added after the others. *)
Definition upserted {A} (p : A -> bool) (refresh : A -> A) (is_new : A -> Prop) (before after : list A) : Prop :=
  if existsb p before then after = update_where p refresh before
  else exists n, after = (before ++ [n])%list /\ p n = true /\ is_new n.
(** A notification under its dedupe key: one row, saying this. *)
Definition notified (key title severity body : string) (org : option Z) (entity_type entity_id : string) : list Notification -> list Notification -> Prop :=
  upserted (has_dedupe key) (refresh_notification title severity (Some body))
    (fun n => nt_organization_id n = org /\ nt_user_id n = None /\ nt_category n = "conmon" /\ nt_severity n = severity /\
              nt_title n = str_take 512 title /\ nt_body n = Some body /\ nt_entity_type n = Some entity_type /\ nt_entity_id n = Some entity_id).
Definition alerted (t : ControlTest) (st dtl : string) : list Notification -> list Notification -> Prop :=
  notified ("ctltest:" +:+ pretty (ct_id t)) ("Control test " +:+ st +:+ ": " +:+ ct_name t +:+ " (" +:+ ct_control_id t +:+ ")")
    (if bool_decide (st = "fail") then "critical" else "warning") dtl (ct_organization_id t) "control_test" (pretty (ct_id t)).
(** The test's remediation task: one is opened unless there is one already, in any state. *)
Definition task_opened (t : ControlTest) (dtl : string) : list Task -> list Task -> Prop :=
  upserted (is_fix_task t) id
    (fun k => tk_status k = "open" /\ tk_kind k = "remediation" /\ tk_priority k = "high" /\ tk_description k = dtl /\ tk_closed_at k = None /\
              tk_organization_id k = ct_organization_id t /\ tk_system_id k = ct_system_id t /\ tk_entity_id k = pretty (ct_id t)).
(** The open POA&M of a test of a system: refreshed, or opened for thirty days. *)
Definition poam_opened (t : ControlTest) (dtl : string) (now : Z) (before after : list POAM) : Prop :=
  match ct_system_id t with
  | None => after = before
  | Some sys => upserted (is_open_poam t) (refresh_poam (failed_weakness t dtl) (remediation_guidance t dtl))
      (fun p => pm_system_id p = sys /\ pm_status p = "open" /\ pm_severity p = "high" /\ pm_weakness p = Some (failed_weakness t dtl) /\
                pm_remediation_plan p = Some (remediation_guidance t dtl) /\ pm_identified_on p = Some (dt_date now) /\
                pm_due_on p = Some (dt_date now + 30) /\ pm_closed_on p = None) before after
  end.
(** A recovery: the task is done; the open POA&M, if there is one, stays as it is but for a
    note, and its reader is told. *)
Definition recovered (t : ControlTest) (result_id now : Z) (a b : Db) : Prop :=
  db_tasks b = update_where (is_fix_task t) (close_task now) (db_tasks a) /\
  db_poams b = update_where (is_open_poam t) (append_note (recovery_note t result_id now)) (db_poams a) /\
  match List.find (is_open_poam t) (db_poams a) with
  | None => db_notifications b = db_notifications a
  | Some p => notified ("poam-recovery:" +:+ pretty (pm_id p)) ("Control test recovered: " +:+ ct_name t +:+ " (" +:+ ct_control_id t +:+ ")") "info"
                (recovery_note t result_id now) (ct_organization_id t) "poam" (pretty (pm_id p)) (db_notifications a) (db_notifications b)
  end.
(** What a result of each status leads to. *)
Definition consequence_of (t : ControlTest) (previous_status : option string) (st dtl : string) (alerting : bool) (result_id now : Z) (a b : Db) : Prop :=
  if alerting then
    alerted t st dtl (db_notifications a) (db_notifications b) /\
    if bool_decide (st = "fail") then task_opened t dtl (db_tasks a) (db_tasks b) /\ poam_opened t dtl now (db_poams a) (db_poams b)
    else same_work b a
  else if recovers st previous_status then recovered t result_id now a b
  else same_work b a /\ db_notifications b = db_notifications a.

Lemma alerts_spec st cov opn : alerts st cov opn = true <-> (st = "fail" \/ st = "warn") /\ opn = true /\ forall c, cov = Some c -> suppress c = false.
Proof.
  unfold alerts. rewrite !andb_true_iff, mem_true, !elem_of_cons, elem_of_nil. destruct cov as [c|]; [rewrite negb_true_iff|]; naive_solver.
Qed.
Lemma existsb_found {A} (p : A -> bool) rows x : filter (fun r => p r = true) rows = [x] -> existsb p rows = true.
Proof. intros [Hin Hp]%existing_elem. apply existsb_exists. exists x. by rewrite <- list_elem_of_In. Qed.
Lemma filter_none_spec {A} (p : A -> bool) rows : filter (fun r => p r = true) rows = [] -> existsb p rows = false /\ forall f, update_where p f rows = rows.
Proof.
  unfold update_where. induction rows as [|r rows IH]; [done|]. rewrite filter_cons. case_decide as E; [done|]. intros [H1 H2]%IH. cbn [existsb map].
  apply not_true_is_false in E. rewrite E. split; [done|]. intros f. by rewrite H2.
Qed.
Lemma find_filter {A} (p : A -> bool) rows o : scalar_one_or_none (filter (fun r => p r = true) rows) = Ok o -> List.find p rows = o.
Proof.
  intros H. assert (E : forall l : list A, List.find p l = head (filter (fun r => p r = true) l)).
  { induction l as [|r l IH]; [done|]. cbn [List.find]. rewrite filter_cons. by destruct (p r). }
  rewrite E. destruct (filter _ rows) as [|r [|]]; [by injection H|by injection H|done].
Qed.
Lemma notify_exact title org sev body et eid k db db' : str_truthy k = true -> notify "conmon" title org sev (Some body) et eid (Some k) db = Ok db' ->
  notified k title sev body org et eid (db_notifications db) (db_notifications db').
Proof.
  intros Hk. unfold notify, notified, upserted. simpl. rewrite Hk. destruct (scalar_one_or_none _) as [[n|]|e] eqn:E; simpl; [| |done]; intros [= <-].
  - by rewrite (existsb_found _ _ n) by by apply scalar_Some.
  - apply scalar_None, filter_none_spec in E as [-> _]. match goal with |- context [deliver ?n ?d] => destruct (deliver_frame n d) as (_ & _ & ->); exists n end.
    split; [done|]. split; [by apply bool_decide_eq_true_2|done].
Qed.
Lemma ensure_poam_exact t dtl now db db' : ensure_poam_for_control_test t dtl now db = Ok db' -> poam_opened t dtl now (db_poams db) (db_poams db').
Proof.
  unfold ensure_poam_for_control_test, poam_opened, upserted. destruct (ct_system_id t) as [sys|] eqn:Es; [|by intros [= <-]].
  destruct (scalar_one_or_none (filter (fun p => is_open_poam t p = true) _)) as [[p|]|e] eqn:E; cbn [res_bind]; [| |done].
  - intros [= <-]. by rewrite (existsb_found _ _ p) by by apply scalar_Some.
  - destruct (scalar_one_or_none (filter (fun c => c.1 = ct_control_id t) _)) as [c|e]; cbn [res_bind next_id]; [|done]. intros [= <-].
    apply scalar_None, filter_none_spec in E as [-> _]. eexists. split; [reflexivity|]. split; [|done].
    unfold is_open_poam. cbn. by rewrite !bool_decide_eq_true_2.
Qed.
Lemma alert_exact t st dtl now db db' : alert_on_failure t st dtl now db = Ok db' ->
  alerted t st dtl (db_notifications db) (db_notifications db') /\
  if bool_decide (st = "fail") then task_opened t dtl (db_tasks db) (db_tasks db') /\ poam_opened t dtl now (db_poams db) (db_poams db') else same_work db' db.
Proof.
  unfold alert_on_failure, alerted. replace (if decide (st = "fail") then "critical" else "warning") with (if bool_decide (st = "fail") then "critical" else "warning") by (by rewrite decide_bool_decide).
  match goal with |- context [notify ?c ?ti ?o ?s ?b ?et ?ei (Some ?k) db] =>
    pose proof (notify_spec c ti o s b et ei k db eq_refl) as Hn; destruct (notify c ti o s b et ei (Some k) db) as [db1|e] eqn:En end; [|done].
  apply notify_exact in En; [|done]. destruct Hn as (_ & [Ht Hp] & _). cbn [res_bind]. case_bool_decide as Hst; case_bool_decide as Hst2; try done; [|by intros [= <-]].
  destruct (scalar_one_or_none _) as [o|e] eqn:E; cbn [res_bind]; [|done]. intros Hpoam.
  match type of Hpoam with ensure_poam_for_control_test _ _ _ ?d = _ => set (db2 := d) in *; pose proof (ensure_poam_spec t dtl now db2) as Hs end.
  rewrite Hpoam in Hs. destruct Hs as (_ & Ht3 & Hn3 & _). apply ensure_poam_exact in Hpoam.
  assert (db_notifications db2 = db_notifications db1 /\ db_poams db2 = db_poams db1) as [Hn2 Hp2] by (by unfold db2; destruct o).
  split; [by rewrite Hn3, Hn2|]. split; [|by rewrite <- Hp, <- Hp2]. rewrite Ht3, <- Ht. unfold task_opened, upserted, db2. destruct o as [k|].
  - rewrite (existsb_found _ _ k) by by apply scalar_Some. unfold update_where. cbn. rewrite <- (map_id (db_tasks db1)) at 1. apply map_ext. intros r. by destruct (is_fix_task t r).
  - apply scalar_None, filter_none_spec in E as [-> _]. eexists. split; [reflexivity|]. split; [by apply bool_decide_eq_true_2|done].
Qed.
Lemma recovery_exact t rid now db db' : recovery_steps t rid now db = Ok db' -> recovered t rid now db db'.
Proof.
  unfold recovery_steps. destruct (scalar_one_or_none (filter (fun k => is_fix_task t k = true) (db_tasks db))) as [o|e] eqn:E; cbn [res_bind]; [|done].
  match goal with |- context [db_poams ?d] => set (db1 := d) end.
  assert (db_tasks db1 = update_where (is_fix_task t) (close_task now) (db_tasks db) /\ db_poams db1 = db_poams db /\ db_notifications db1 = db_notifications db) as (Ht & Hp & Hn).
  { unfold db1. destruct o; [done|]. apply scalar_None, filter_none_spec in E as [_ E]. by rewrite E. }
  clearbody db1. unfold recovered. destruct (ct_system_id t) as [sys|] eqn:Es.
  2:{ intros [= <-]. assert (Hno : filter (fun p => is_open_poam t p = true) (db_poams db) = []).
      { destruct (filter (fun p => is_open_poam t p = true) (db_poams db)) as [|p l] eqn:Ef; [done|]. assert (p ∈ p :: l) as Hin by by left. rewrite <- Ef in Hin. apply list_elem_of_filter in Hin as [Hin _].
        unfold is_open_poam in Hin. rewrite !andb_true_iff, bool_decide_eq_true, Es in Hin. by destruct Hin as [[[? _] _] _]. }
      rewrite (find_filter _ _ None) by by rewrite Hno. apply filter_none_spec in Hno as [_ Hno]. by rewrite Ht, Hp, Hn, Hno. }
  destruct (scalar_one_or_none (filter (fun p => is_open_poam t p = true) (db_poams db1))) as [[p|]|e] eqn:E2; cbn [res_bind]; [| |done].
  - rewrite Hp in E2. rewrite (find_filter _ _ _ E2). intros H.
    match type of H with notify ?c ?ti ?o ?s ?b ?et ?ei (Some ?k) ?d = _ => pose proof (notify_spec c ti o s b et ei k d eq_refl) as Hs end.
    rewrite H in Hs. destruct Hs as (_ & [-> ->] & _). apply notify_exact in H; [|done]. cbn in *. rewrite Ht, Hp. rewrite <- Hn. done.
  - intros [= <-]. rewrite Hp in E2. rewrite (find_filter _ _ _ E2). apply scalar_None, filter_none_spec in E2 as [_ E2]. by rewrite Ht, Hp, Hn, E2.
Qed.
Lemma consequences_exact t prev st dtl cov opn rid now db db' : wf_db db -> consequences t prev st dtl cov opn rid now db = Ok db' ->
  consequence_of t prev st dtl (alerts st cov opn) rid now db db'.
Proof.
  intros Hwf. unfold consequences, consequence_of, alerts, recovers. destruct (mem st ["fail"; "warn"]) eqn:Em; cbn [andb].
  - assert (Hp : st <> "pass") by (by intros ->). rewrite (bool_decide_eq_false_2 _ Hp). cbn [andb].
    destruct opn; cbn [negb andb]; [|by intros [= <-]]. destruct (match cov with None => true | Some c => negb (suppress c) end); [apply alert_exact|by intros [= <-]].
  - destruct (bool_decide (st = "pass") && _); intros [= <-]; [|done]. unfold resolve_on_recovery. pose proof (recovery_steps_spec t rid now db) as Hs.
    destruct (recovery_steps t rid now db) as [db'|e] eqn:E; [by apply recovery_exact|by destruct Hs].
Qed.

(** The state in which the consequence is decided: the evidence is written. *)
Definition recorded (t : ControlTest) (st : string) (dtl ref : option string) (ev fl : Z)
    (exp : option string) (resources : list ResourceFinding) (now : Z) (db : Db)
    : ControlTestResult * Db :=
  let cov := coverage_of (set_last st now t) st resources now db in
  let result :=
    {| ctr_id := db_seq db; ctr_test_id := ct_id t; ctr_status := st; ctr_detail := dtl;
       ctr_evidence_ref := ref; ctr_evaluated := ev; ctr_failing := fl;
       ctr_waived := match cov with Some c => waived c | None => 0 end; ctr_expected := exp |} in
  let by_res := match cov with Some c => by_resource c | None => ∅ end in
  (result, set_resources (db_resources db ++ map (resource_row (db_seq db) by_res) resources)%list
             (set_results (db_results db ++ [result])%list (set_seq (db_seq db + 1) db))).

Lemma record_result_eq t st dtl ref actor ev fl exp resources opn now db :
  st ∈ VALIDATION_STATUSES ->
  record_result t st dtl ref actor ev fl exp resources opn now db =
  let '(r, db1) := recorded t st dtl ref ev fl exp resources now db in
  let! db2 := consequences (set_last st now t) (ct_last_status t) st (or_empty dtl)
                (coverage_of (set_last st now t) st resources now db) opn (db_seq db) now db1 in
  Ok (r, set_last st now t, emit "tested" "control_test"
        ("Control test " +:+ st +:+ ": " +:+ ct_control_id t) (ct_organization_id t)
        (Some actor) (Some (pretty (ct_id t))) db2).
Proof. intros H. unfold record_result. by rewrite (proj2 (mem_true _ _) H). Qed.

Lemma emit_frame v et s o a e db :
  same_evidence (emit v et s o a e db) db /\ same_work (emit v et s o a e db) db /\
  db_notifications (emit v et s o a e db) = db_notifications db /\
  (wf_db db -> wf_db (emit v et s o a e db)).
Proof. repeat autounfold with ctl. split_and?; try reflexivity. by apply wf_db_ext. Qed.

(** [record_result] in one statement: what is written, and the consequence. *)
Lemma record_result_cases t st dtl ref actor ev fl exp resources opn now db :
  st ∈ VALIDATION_STATUSES ->
  let '(r, db1) := recorded t st dtl ref ev fl exp resources now db in
  match record_result t st dtl ref actor ev fl exp resources opn now db with
  | Ok (r', t', db') =>
      r' = r /\ t' = set_last st now t /\
      exists db2, consequences t' (ct_last_status t) st (or_empty dtl)
          (coverage_of t' st resources now db) opn (db_seq db) now db1 = Ok db2 /\
        same_evidence db' db2 /\ same_work db' db2 /\
        db_notifications db' = db_notifications db2 /\ (wf_db db2 -> wf_db db')
  | Err _ => ~ wf_db db
  end.
Proof.
  intros H. rewrite record_result_eq by done. cbn [recorded].
  match goal with |- context [consequences ?a ?b ?c ?d ?e ?f ?g ?h ?i] =>
    pose proof (consequences_spec a b c d e f g h i) as Hc; destruct (consequences a b c d e f g h i) eqn:Ec end.
  - cbn [res_bind]. split; [done|]. split; [done|]. eexists. split; [exact Ec|]. apply emit_frame.
  - cbn [res_bind]. intros Hwf. apply Hc. by apply (wf_db_ext _ db).
Qed.

(** A waiver recorded against a resource row is a waiver of this test's tenant
    and system, in force on the day, on a row that needs cover. *)
Lemma coverage_attribution t st resources now db c r i :
  coverage_of t st resources now db = Some c -> by_resource c !! r = Some i ->
  exists w, w ∈ db_waivers db /\ wv_id w = i /\ waiver_matches w t = true /\
    is_active w (dt_date now) = true /\ r ∈ needing_cover resources.
Proof.
  unfold coverage_of. destruct (mem _ _); [|done].
  destruct (waivers_for_test (db_waivers db) t) as [[|w0 ws]|] eqn:E; try done.
  intros [= <-] Hr. pose proof (cover_closed resources (w0 :: ws) (dt_date now)) as (_ & Hb & _).
  rewrite Hb in Hr. case_decide; [|done].
  match type of Hr with context [covering ?a r] => pose proof (covering_spec a r) as Hs;
    destruct (covering a r) as [w|] end; [|done].
  injection Hr as <-. destruct Hs as [[Ha Hin]%elem_of_active _].
  exists w. apply waivers_for_test_elem with (w := w) in E as [? ?]; auto.
Qed.

(** ** Properties *)

(** recording a result never loses or alters evidence, whatever the
    waivers, the alerting switch or the consequence: exactly one result row
    and one resource row per finding are appended, verdicts and observations as
    given; a waiver is named only on a row that needs cover and only when it is
    the test's own and in force that day; the test's last status is the status
    recorded; and the call is refused only for an unknown status or tables that
    already hold duplicates. *)
Theorem record_result_keeps_evidence t st dtl ref actor ev fl exp resources opn now db :
  match record_result t st dtl ref actor ev fl exp resources opn now db with
  | Ok (r, t', db') =>
      st ∈ VALIDATION_STATUSES /\
      db_results db' = (db_results db ++ [r])%list /\ ctr_status r = st /\ ctr_detail r = dtl /\
      ctr_evaluated r = ev /\ ctr_failing r = fl /\ ctr_test_id r = ct_id t /\
      t' = set_last st now t /\
      exists rows, db_resources db' = (db_resources db ++ rows)%list /\
        Forall2 (fun f row =>
          crr_result_id row = ctr_id r /\ crr_resource_id row = str_take 512 (resource_id f) /\
          crr_verdict row = verdict f /\ crr_observed row = observed f /\ crr_detail row = detail f /\
          forall i, crr_waiver_id row = Some i -> exists w, w ∈ db_waivers db /\ wv_id w = i /\
            waiver_matches w t = true /\ is_active w (dt_date now) = true /\
            resource_id f ∈ needing_cover resources) resources rows
  | Err _ => st ∉ VALIDATION_STATUSES \/ ~ wf_db db
  end.
Proof.
  destruct (decide (st ∈ VALIDATION_STATUSES)) as [Hst|Hst].
  2:{ unfold record_result. rewrite (proj2 (mem_false _ _) Hst). by left. }
  pose proof (record_result_cases t st dtl ref actor ev fl exp resources opn now db Hst) as H.
  cbn [recorded] in H.
  destruct (record_result _ _ _ _ _ _ _ _ _ _ _ _) as [[[r t'] db']|e]; [|by right].
  destruct H as (-> & -> & db2 & Hc & (He1 & He2 & _) & _).
  match type of Hc with consequences ?a ?b ?c ?d ?e ?f ?g ?h ?i = _ =>
    pose proof (consequences_spec a b c d e f g h i) as Hs; rewrite Hc in Hs end.
  destruct Hs as ((E1 & E2 & _) & _). split; [done|].
  split; [by rewrite He1, E1|]. do 5 (split; [done|]). split; [done|].
  exists (map (resource_row (db_seq db)
    match coverage_of (set_last st now t) st resources now db with
    | Some c => by_resource c | None => ∅ end) resources).
  split; [by rewrite He2, E2|]. apply Forall2_fmap_r, Forall_Forall2_diag, Forall_forall.
  intros f _. do 5 (split; [done|]). simpl. intros i Hi.
  destruct (coverage_of _ _ _ _ _) as [c|] eqn:Ec; [|by rewrite lookup_empty in Hi].
  eapply coverage_attribution in Hi; [|exact Ec]. exact Hi.
Qed.

(** C28: on tables without duplicates every valid result is recorded, and the consequence
    is the one its status calls for. A failure or a warning alerts unless remediation is
    switched off or the findings are fully waived: the test's notification is raised or
    refreshed, critical for a failure; a failure also opens the test's remediation task
    where there is none and, for a test of a system, opens or refreshes its POA&M, and a
    warning opens neither. A pass after anything else closes the open task and leaves
    every POA&M as it is, but for a note on the test's open one, which is announced. Every
    other result - a suppressed failure, a repeated pass, not applicable, a manual review -
    leaves tasks, POA&Ms and notifications untouched. No POA&M is closed; and however often
    a test is recorded it has at most one task and one open POA&M. *)
Theorem record_result_consequence t st dtl ref actor ev fl exp resources opn now db :
  wf_db db -> st ∈ VALIDATION_STATUSES ->
  exists r t' db', record_result t st dtl ref actor ev fl exp resources opn now db = Ok (r, t', db') /\
    wf_db db' /\ t' = set_last st now t /\
    let coverage := coverage_of t' st resources now db in
    let alerting := alerts st coverage opn in
    (alerting = true <-> (st = "fail" \/ st = "warn") /\ opn = true /\ forall c, coverage = Some c -> suppress c = false) /\
    consequence_of t (ct_last_status t) st (or_empty dtl) alerting (ctr_id r) now db db' /\
    poams_grow t (db_poams db) (db_poams db') /\ (st <> "fail" -> Forall2 poam_kept (db_poams db) (db_poams db')) /\
    (st = "pass" -> ct_last_status t <> Some "pass" -> forall k, k ∈ db_tasks db' -> is_fix_task t k = true -> tk_status k <> "open").
Proof.
  intros Hwf Hst.
  pose proof (record_result_cases t st dtl ref actor ev fl exp resources opn now db Hst) as H.
  cbn [recorded] in H.
  destruct (record_result _ _ _ _ _ _ _ _ _ _ _ _) as [[[r t'] db']|e]; [|done].
  exists r, t', db'. split; [done|]. destruct H as (-> & -> & db2 & Hc & _ & [E1 E2] & E3 & Hwf').
  match type of Hc with consequences ?a ?b ?c ?d ?e ?f ?g ?h ?i = _ =>
    pose proof (consequences_spec a b c d e f g h i) as Hs; rewrite Hc in Hs; set (db1 := i) in * end.
  assert (wf_db db1) as Hwf1 by (by apply (wf_db_ext _ db)).
  destruct Hs as (_ & Hg & Hw & _ & Hk & _ & Hr). split; [auto|]. split; [done|]. cbv zeta. rewrite E1, E2.
  apply consequences_exact in Hc; [|done]. split; [apply alerts_spec|]. split.
  { unfold consequence_of, recovered, same_work in Hc |- *. rewrite E1, E2, E3. exact Hc. }
  split; [exact Hg|]. split; [exact Hk|]. intros -> Hp. apply Hr; [|done]. unfold recovers. by rewrite !bool_decide_eq_true_2 by done.
Qed.

Definition empty_db : Db :=
  {| db_seq := 1; db_waivers := [ex_waiver 1 1 7]; db_connectors := []; db_captures := [];
     db_controls := []; db_webhooks := []; db_notify_url := ""; db_notify_min_severity := "critical";
     db_results := []; db_resources := []; db_tasks := []; db_poams := [];
     db_notifications := []; db_events := []; db_outbox := [] |}.

Lemma empty_db_wf : wf_db empty_db.
Proof. split; intros; unfold at_most_one; simpl; lia. Qed.

Example record_result_consequence_witness :
  wf_db empty_db /\ "fail" ∈ VALIDATION_STATUSES /\
  exists r t' db', record_result (ex_test 10 (Some 8)) "fail" None None "user" 0 0 None [] true 0
    empty_db = Ok (r, t', db') /\ wf_db db' /\
    alerted (ex_test 10 (Some 8)) "fail" "" [] (db_notifications db') /\
    task_opened (ex_test 10 (Some 8)) "" [] (db_tasks db') /\ poam_opened (ex_test 10 (Some 8)) "" 0 [] (db_poams db').
Proof.
  assert ("fail" ∈ VALIDATION_STATUSES) as Hin by in_list.
  split; [apply empty_db_wf|]. split; [exact Hin|].
  destruct (record_result_consequence (ex_test 10 (Some 8)) "fail" None None "user" 0 0 None [] true 0
    empty_db empty_db_wf Hin) as (r & t' & db' & E & Hwf & -> & _ & Hc & _).
  exists r, (set_last "fail" 0 (ex_test 10 (Some 8))), db'. split; [exact E|]. split; [exact Hwf|]. exact Hc.
Defined.

(** recording results never closes, re-titles, re-rates or re-dates a
    POA&M, nor drops one: every row is still there with its status, severity
    and dates, a plan that the machinery did not generate is kept with its
    author (at most followed by a recovery note), and the only new row is an
    open POA&M of this test opened by a failure. *)
Theorem poams_are_never_closed_by_a_test t st dtl ref actor ev fl exp resources opn now db :
  match record_result t st dtl ref actor ev fl exp resources opn now db with
  | Ok (_, _, db') =>
      poams_grow t (db_poams db) (db_poams db') /\
      (st <> "fail" -> Forall2 poam_kept (db_poams db) (db_poams db'))
  | Err _ => True
  end.
Proof.
  destruct (decide (st ∈ VALIDATION_STATUSES)) as [Hst|Hst].
  2:{ unfold record_result. by rewrite (proj2 (mem_false _ _) Hst). }
  pose proof (record_result_cases t st dtl ref actor ev fl exp resources opn now db Hst) as H.
  cbn [recorded] in H.
  destruct (record_result _ _ _ _ _ _ _ _ _ _ _ _) as [[[r t'] db']|e]; [|done].
  destruct H as (-> & -> & db2 & Hc & _ & [_ ->] & _ & _).
  match type of Hc with consequences ?a ?b ?c ?d ?e ?f ?g ?h ?i = _ =>
    pose proof (consequences_spec a b c d e f g h i) as Hs; rewrite Hc in Hs end.
  destruct Hs as (_ & Hg & _ & _ & Hk & _). split; [exact Hg|exact Hk].
Qed.

(** ** Connector freshness *)

Lemma sync_later_asym a b : sync_later a b = true -> sync_later b a = false.
Proof.
  unfold sync_later. destruct (cc_last_sync a), (cc_last_sync b); try done.
  rewrite Z.ltb_lt, Z.ltb_ge. lia.
Qed.
Lemma not_sync_later_trans a b c :
  sync_later a b = false -> sync_later b c = false -> sync_later a c = false.
Proof.
  unfold sync_later. destruct (cc_last_sync a), (cc_last_sync b), (cc_last_sync c); try done.
  rewrite !Z.ltb_ge. lia.
Qed.

Lemma backing_current c today n :
  connector_backing_state (Some c) today n = "current" <->
  cc_status c = "configured" /\ 0 < cc_objects_discovered c /\
  exists s, cc_last_sync c = Some s /\ today - dt_date s <= n.
Proof.
  unfold connector_backing_state. destruct (cc_last_sync c) as [s|]; [|split; [done|naive_solver]].
  destruct (bool_decide_reflect (cc_status c <> "configured")) as [Hs|Hs];
    [split; [done|naive_solver]|].
  apply dec_stable in Hs. destruct (Z.ltb_spec n (today - dt_date s));
    [split; [done|intros (_ & _ & s' & [= <-] & ?); lia]|].
  destruct (Z.leb_spec (cc_objects_discovered c) 0); [split; [done|lia]|].
  split; [|done]. intros _. repeat split; try done. by exists s.
Qed.

(** [max(captured_at)] is recent exactly when some capture is. *)
Lemma fold_max_le a xs m : fold_left Z.max xs a <= m <-> a <= m /\ Forall (fun x => x <= m) xs.
Proof.
  revert a. induction xs as [|x xs IH]; intros a; simpl; [split; [by split|tauto]|].
  rewrite IH, list.Forall_cons. rewrite Z.max_lub_iff. tauto.
Qed.

Lemma dt_date_ge us d : d <= dt_date us <-> d * day_us <= us.
Proof. unfold dt_date, day_us. split; intros; [|apply Z.div_le_lower_bound; lia].
  pose proof (Z.mul_div_le us (86400 * 1000000)). nia. Qed.

Lemma has_recent_capture_spec org k today n db :
  has_recent_capture org k today n db = true <->
  exists c, c ∈ db_captures db /\ cs_organization_id c = Some org /\ cs_connector c = k /\
    today - dt_date (cs_captured_at c) <= n.
Proof.
  unfold has_recent_capture.
  assert (forall c, c ∈ filter (fun c => cs_organization_id c = Some org /\ cs_connector c = k)
    (db_captures db) <-> (cs_organization_id c = Some org /\ cs_connector c = k) /\ c ∈ db_captures db)
    as Hin by (intros; by rewrite list_elem_of_filter).
  destruct (filter _ (db_captures db)) as [|c cs].
  { split; [done|]. intros (c & ? & ? & ? & ?). destruct (not_elem_of_nil c). by apply Hin. }
  set (mx := fold_left Z.max _ _).
  assert (Hrw : today - dt_date mx <= n <-> ~ (mx <= (today - n) * day_us - 1)).
  { transitivity (today - n <= dt_date mx); [lia|]. rewrite dt_date_ge. lia. }
  rewrite Z.leb_le, Hrw. unfold mx. rewrite fold_max_le. clear Hrw.
  assert (forall x, ~ x <= (today - n) * day_us - 1 <-> today - dt_date x <= n) as Hd.
  { intros x. transitivity (today - n <= dt_date x); [rewrite dt_date_ge; lia|lia]. }
  split.
  - intros Hn. destruct (decide (cs_captured_at c <= (today - n) * day_us - 1)) as [Hc|Hc].
    + destruct (decide (Forall (fun x => x <= (today - n) * day_us - 1) (map cs_captured_at cs)))
        as [?|Hf]; [tauto|].
      apply not_Forall_Exists in Hf; [|apply _]. apply Exists_exists in Hf as (x & Hx & Hlt).
      apply list_elem_of_fmap in Hx as (c' & -> & Hc'). exists c'.
      destruct (proj1 (Hin c')) as [[? ?] ?]; [by right|]. repeat split; try done. by apply Hd.
    + exists c. destruct (proj1 (Hin c)) as [[? ?] ?]; [by left|]. repeat split; try done. by apply Hd.
  - intros (c' & H1 & H2 & H3 & H4) [Hc Hf]. apply Hd in H4. apply H4.
    assert (c' ∈ c :: cs) as [->|Hc']%elem_of_cons by (by apply Hin); [done|].
    rewrite Forall_forall in Hf. apply Hf. by apply list_elem_of_fmap_2.
Qed.

(** an organization's capture counts as live exactly when all three rungs
    hold: its most recently synced connector of the type is configured, synced
    within the window and discovered something; a snapshot this connector
    captured for this organization is within the window too; and the credential
    is not a host profile. Without a snapshot no status column makes it live. *)
Theorem capture_is_live_iff rc org ty today n db :
  organization_capture_is_live rc org ty today n db = true <->
  exists o k, org = Some o /\ ty = Some k /\ k <> "" /\
    (exists c s, c ∈ db_connectors db /\ cc_organization_id c = Some o /\ cc_connector_type c = k /\
       cc_status c = "configured" /\ 0 < cc_objects_discovered c /\
       cc_last_sync c = Some s /\ today - dt_date s <= n /\
       latest_of sync_later (filter (fun c => cc_organization_id c = Some o /\ cc_connector_type c = k)
         (db_connectors db)) = Some c) /\
    (exists c, c ∈ db_captures db /\ cs_organization_id c = Some o /\ cs_connector c = k /\
       today - dt_date (cs_captured_at c) <= n) /\
    (k <> "aws_govcloud" \/ rc o k = Ok None \/
       exists cred, rc o k = Ok (Some cred) /\
         (truthy (vget "access_key_id" cred) = true /\ truthy (vget "secret_access_key" cred) = true \/
          truthy (vget "profile" cred) = false)).
Proof.
  unfold organization_capture_is_live. destruct org as [o|]; [|split; [done|naive_solver]].
  destruct ty as [k|]; [|split; [done|naive_solver]].
  destruct (str_truthy k) eqn:Hk; cbn [negb].
  2:{ apply bool_decide_eq_false, dec_stable in Hk. split; [done|naive_solver]. }
  apply bool_decide_eq_true in Hk. set (rows := filter _ (db_connectors db)).
  pose proof (latest_of_spec sync_later sync_later_asym not_sync_later_trans rows) as Hl.
  destruct (bool_decide_reflect (connector_backing_state (latest_of sync_later rows) today n <> "current"))
    as [Hc|Hc].
  { split; [done|]. intros (o' & k' & [= <-] & [= <-] & _ & (c & s & _ & _ & _ & ? & ? & ? & ? & E) & _).
    destruct Hc. fold rows in E. rewrite E. apply backing_current. repeat split; try done. by exists s. }
  apply dec_stable in Hc. destruct (latest_of sync_later rows) as [c|] eqn:El; [|done].
  apply backing_current in Hc as (Hc1 & Hc2 & s & Hs & Hle). destruct Hl as [Hin _].
  apply list_elem_of_filter in Hin as [[Ho Ht] Hin].
  destruct (has_recent_capture o k today n db) eqn:Hr; cbn [negb].
  2:{ split; [done|]. intros (o' & k' & [= <-] & [= <-] & _ & _ & Hex & _).
      apply has_recent_capture_spec in Hex. congruence. }
  apply has_recent_capture_spec in Hr.
  assert (capture_identity_is_tenants_own rc o k = true <->
    (k <> "aws_govcloud" \/ rc o k = Ok None \/
       exists cred, rc o k = Ok (Some cred) /\
         (truthy (vget "access_key_id" cred) = true /\ truthy (vget "secret_access_key" cred) = true \/
          truthy (vget "profile" cred) = false))) as ->.
  { unfold capture_identity_is_tenants_own, HOST_PROFILE_CONNECTOR.
    case_bool_decide; [tauto|].
    destruct (rc o k) as [[cred|]|e]; [|tauto|split; [done|intros [?|[?|(? & ? & _)]]; done]].
    destruct (truthy (vget "access_key_id" cred) && truthy (vget "secret_access_key" cred)) eqn:E.
    - apply andb_true_iff in E as [E1 E2]. split; [|done]. intros _. right. right. exists cred. tauto.
    - apply andb_false_iff in E. rewrite negb_true_iff. split.
      + intros Hp. right. right. exists cred. tauto.
      + intros [?|[?|(cred' & [= <-] & [[? ?]|?])]]; [done|done|destruct E; congruence|done]. }
  split.
  - intros Hid. exists o, k. repeat (split; [done|]). split; [|by split].
    exists c, s. repeat split; done.
  - intros (o' & k' & [= <-] & [= <-] & _ & _ & _ & Hid). exact Hid.
Qed.

(** ** Assertions *)

(** The outcome of the assertion [{"operator": op, "value": v}] on a captured text. *)
Definition asserts (op v captured : string) : bool :=
  (evaluate_assertion [("operator", VStr op); ("value", VStr v)] captured).1.

Lemma x_eqb_refl x : x <> XNaN -> x_eqb x x = true.
Proof. destruct x as [f|[]|]; simpl; try done. intros _. unfold fl_eqb. apply Z.eqb_refl. Qed.

Lemma coerced_eqb_refl c : c <> CNum XNaN -> coerced_eqb c c = true.
Proof.
  destruct c as [[]|x|s]; simpl; try done; intros H.
  - apply x_eqb_refl. congruence.
  - by apply bool_decide_eq_true.
Qed.

Lemma x_leb_antisym a b : x_leb a b && x_leb b a = x_eqb a b || (x_ltb a b && x_ltb b a).
Proof.
  unfold x_leb. destruct a as [x|[]|], b as [y|[]|]; try done. simpl. unfold fl_ltb, fl_eqb.
  apply eq_true_iff_eq.
  rewrite !orb_true_iff, !andb_true_iff, !orb_true_iff, !Z.ltb_lt, !Z.eqb_eq. lia.
Qed.

Lemma x_ltb_asym a b : x_ltb a b && x_ltb b a = false.
Proof.
  destruct a as [x|[]|], b as [y|[]|]; try done. simpl. unfold fl_ltb.
  apply andb_false_iff. rewrite !Z.ltb_ge. lia.
Qed.

Lemma asserts_order op v c :
  op ∈ ["gte"; "gt"; "lte"; "lt"] ->
  asserts op v c = match py_float c, py_float v with
                   | Some a, Some e => compare_op op a e
                   | _, _ => false
                   end.
Proof.
  intros H. elem_cases H;
    unfold asserts, evaluate_assertion;
    (match goal with |- context [operator_of [("operator", VStr ?o); _]] =>
       change (operator_of [("operator", VStr o); ("value", VStr v)]) with o end);
    change (expected_raw_of _) with v; autorewrite with mem; simpl;
    by destruct (py_float c), (py_float v).
Qed.

(** an assertion means what its operator says: inequality is the negation
    of equality; a captured text always equals itself, unless it reads as NaN;
    the enabled/disabled spellings agree with true and false; the order operators pass
    only on two numbers, where (NaN apart) [lt] is the negation of [gte], [gt]
    of [lte], and both hold exactly on equal numbers; and an operator outside
    the eleven spellings never passes. *)
Theorem assertion_semantics :
  (forall v c, asserts "not_equals" v c = negb (asserts "equals" v c)) /\
  (forall v, coerce v <> CNum XNaN -> asserts "equals" v v = true) /\
  (forall on off, on ∈ ["true"; "Enabled"; " yes "; "ON"] -> off ∈ ["false"; "Disabled"; "no"; "off"] ->
     asserts "equals" "true" on = true /\ asserts "equals" "true" off = false /\
     asserts "equals" "false" off = true) /\
  (forall v c op, op ∈ ["gte"; "gt"; "lte"; "lt"] -> py_float c = None \/ py_float v = None ->
     asserts op v c = false) /\
  (forall v c a e, py_float c = Some a -> py_float v = Some e -> a <> XNaN -> e <> XNaN ->
     asserts "lt" v c = negb (asserts "gte" v c) /\ asserts "gt" v c = negb (asserts "lte" v c) /\
     asserts "gte" v c && asserts "lte" v c = x_eqb e a) /\
  (forall assertion c,
     operator_of assertion ∉ ["equals"; "eq"; "=="; "not_equals"; "ne"; "!="; "contains"; "gte"; "gt"; "lte"; "lt"] ->
     (evaluate_assertion assertion c).1 = false).
Proof.
  split; [done|]. split; [|split; [|split; [|split]]].
  - intros v Hv. unfold asserts, evaluate_assertion. simpl. by apply coerced_eqb_refl.
  - intros on off Hon Hoff.
    elem_cases Hon; elem_cases Hoff; vm_compute; done.
  - intros v c op Hop H. rewrite asserts_order by done. destruct (py_float c), (py_float v); naive_solver.
  - intros v c a e Ha He Hna Hne. rewrite !asserts_order by in_list. rewrite Ha, He.
    unfold compare_op. simpl. rewrite x_ltb_not_leb, (x_ltb_not_leb e a) by done.
    rewrite x_leb_antisym, x_ltb_asym, orb_false_r. done.
  - intros assertion c H. unfold evaluate_assertion.
    rewrite !not_elem_of_cons in H. destruct H as (?&?&?&?&?&?&?&?&?&?&?&_).
    autorewrite with mem. rewrite !bool_decide_eq_false_2 by done. simpl.
    by destruct (decide (operator_of assertion = "contains")).
Qed.

(** ** The scheduler's run *)

(** What the scheduler can evaluate: not a posture-scan test, and an assertion
    whose key, if any, is a string. *)
Definition runnable (t : ControlTest) : bool :=
  negb (str_truthy (or_empty (ct_check_key t))) &&
  let k := vget "odp_key" (default [] (ct_assertion t)) in negb (truthy k) || is_str k.

Definition due_now (today : Z) (org_id : option Z) (t : ControlTest) : bool :=
  run_selected org_id t && is_due t today.

Lemma evaluate_connector_status t conn today :
  (evaluate_connector t conn today).1 ∈ ["pass"; "warn"; "fail"].
Proof. unfold evaluate_connector. repeat case_match; simpl; in_list. Qed.

Lemma evaluate_test_ok t today db :
  runnable t = true ->
  exists st dtl ref, evaluate_test t today db = Ok (st, dtl, ref) /\ st ∈ ["pass"; "warn"; "fail"].
Proof.
  unfold runnable, evaluate_test, latest_capture. rewrite andb_true_iff, negb_true_iff.
  intros [-> Hk]. set (a := default [] (ct_assertion t)) in *.
  destruct (truthy (vget "odp_key" a)) eqn:Ht; cbn [negb].
  - destruct (vget "odp_key" a) as [| | | |k| |] eqn:Ek; try done.
    cbn [res_bind]. destruct (latest_of _ _) as [s|].
    + destruct (evaluate_assertion a (cs_value s)) as [[] dtl]; do 3 eexists; (split; [done|]); in_list.
    + do 3 eexists; (split; [done|]); in_list.
  - pose proof (evaluate_connector_status t (connector_for t db) today) as H.
    destruct (evaluate_connector _ _ _) as [st dtl]. do 3 eexists. split; [done|exact H].
Qed.

Lemma count_status_ok st c :
  st ∈ ["pass"; "warn"; "fail"] -> rc_evaluated c = rc_pass c + rc_warn c + rc_fail c ->
  exists c', count_status st c = Ok c' /\ rc_evaluated c' = rc_evaluated c + 1 /\
    rc_evaluated c' = rc_pass c' + rc_warn c' + rc_fail c'.
Proof.
  intros H He. elem_cases H;
    unfold count_status; simpl; eexists; (split; [done|]); simpl; lia.
Qed.

(** Recording through the scheduler, in the terms the run needs. *)
Lemma record_result_ok t st dtl ref actor resources opn now db :
  wf_db db -> st ∈ VALIDATION_STATUSES ->
  exists r db', record_result t st dtl ref actor 0 0 None resources opn now db =
      Ok (r, set_last st now t, db') /\ wf_db db' /\
    db_results db' = (db_results db ++ [r])%list /\ ctr_test_id r = ct_id t /\ ctr_status r = st.
Proof.
  intros Hwf Hst.
  pose proof (record_result_cases t st dtl ref actor 0 0 None resources opn now db Hst) as H.
  cbn [recorded] in H.
  destruct (record_result _ _ _ _ _ _ _ _ _ _ _ _) as [[[r t'] db']|e]; [|done].
  destruct H as (-> & -> & db2 & Hc & (He & _) & _ & _ & Hw).
  match type of Hc with consequences ?a ?b ?c ?d ?e ?f ?g ?h ?i = _ =>
    pose proof (consequences_spec a b c d e f g h i) as Hs; rewrite Hc in Hs; set (db1 := i) in * end.
  destruct Hs as ((E & _) & _ & Hw2 & _). do 2 eexists. split; [done|].
  split; [apply Hw, Hw2; by apply (wf_db_ext _ db)|]. rewrite He, E. done.
Qed.

Lemma three_statuses st : st ∈ ["pass"; "warn"; "fail"] -> st ∈ VALIDATION_STATUSES.
Proof. unfold VALIDATION_STATUSES. rewrite !elem_of_cons. tauto. Qed.

Lemma run_one_ok today now org_id t c db :
  wf_db db -> rc_evaluated c = rc_pass c + rc_warn c + rc_fail c ->
  (due_now today org_id t = true -> runnable t = true) ->
  exists t' c' db', run_one today now org_id t (c, db) = Ok (t', (c', db')) /\ wf_db db' /\
    rc_evaluated c' = rc_pass c' + rc_warn c' + rc_fail c' /\
    if due_now today org_id t
    then rc_evaluated c' = rc_evaluated c + 1 /\ (exists st, t' = set_last st now t) /\
         exists r, db_results db' = (db_results db ++ [r])%list /\ ctr_test_id r = ct_id t
    else t' = t /\ c' = c /\ db' = db.
Proof.
  intros Hwf Hc Hr. unfold run_one. fold (due_now today org_id t).
  destruct (due_now today org_id t); cbn [negb]; [|by exists t, c, db].
  destruct (evaluate_test_ok t today db) as (st & dtl & ref & Ee & Hst); [auto|].
  cbn [snd]. rewrite Ee. cbn [res_bind].
  destruct (record_result_ok t st (Some dtl) ref "scheduler" [] true now db Hwf
    (three_statuses st Hst)) as (r & db' & Er & Hwf' & Hres & Hid & _).
  rewrite Er. cbn [res_bind fst].
  destruct (count_status_ok st c Hst Hc) as (c' & Ec & ? & ?). rewrite Ec. cbn [res_bind].
  do 3 eexists. split; [done|]. split; [done|]. split; [done|]. split; [done|].
  split; [by exists st|by exists r].
Qed.

Lemma run_tests_ok today now org_id ts c db :
  wf_db db -> rc_evaluated c = rc_pass c + rc_warn c + rc_fail c ->
  (forall t, t ∈ ts -> due_now today org_id t = true -> runnable t = true) ->
  exists ts' c' db', run_tests today now org_id ts (c, db) = Ok (ts', (c', db')) /\ wf_db db' /\
    rc_evaluated c' = rc_pass c' + rc_warn c' + rc_fail c' /\
    rc_evaluated c' = rc_evaluated c + lcount (due_now today org_id) ts /\
    (exists rs, db_results db' = (db_results db ++ rs)%list /\
       map ctr_test_id rs = map ct_id (filter (fun t => due_now today org_id t = true) ts)) /\
    Forall2 (fun t t' => if due_now today org_id t then exists st, t' = set_last st now t else t' = t)
      ts ts'.
Proof.
  revert c db. induction ts as [|t ts IH]; intros c db Hwf Hc Hr.
  { exists [], c, db. repeat (split; [done|]). split; [unfold lcount; simpl; lia|].
    split; [exists []; by rewrite app_nil_r|constructor]. }
  destruct (run_one_ok today now org_id t c db Hwf Hc) as (t' & c1 & db1 & E1 & Hwf1 & Hc1 & H1);
    [apply Hr; by left|].
  destruct (IH c1 db1 Hwf1 Hc1) as (ts' & c2 & db2 & E2 & Hwf2 & Hc2 & Hn & (rs & Hrs & Hids) & HF);
    [intros ? ?; apply Hr; by right|].
  exists (t' :: ts'), c2, db2. simpl. rewrite E1. cbn [res_bind snd fst]. rewrite E2. cbn [res_bind snd fst].
  split; [done|]. split; [done|]. split; [done|]. unfold lcount in *. simpl.
  destruct (due_now today org_id t) eqn:Hd.
  - destruct H1 as (Hn1 & Hs1 & r & Hr1 & Hi1). split; [lia|]. split.
    + exists (r :: rs). rewrite Hrs, Hr1, <- app_assoc. split; [done|].
      rewrite filter_cons_True by done. simpl. by rewrite Hi1, Hids.
    + constructor; [by rewrite Hd|done].
  - destruct H1 as (-> & -> & ->). split; [lia|]. split.
    + exists rs. split; [done|]. rewrite filter_cons_False by congruence. done.
    + constructor; [by rewrite Hd|done].
Qed.

(** A test recorded today is not due again today. *)
Lemma set_last_not_due st now t : is_due (set_last st now t) (dt_date now) = false.
Proof.
  unfold is_due. cbn [set_last ct_active ct_frequency ct_last_tested_at].
  destruct (ct_active t); [|done]. cbn [negb].
  destruct (dget (lower (or_empty (ct_frequency t))) FREQ_DAYS) as [d|] eqn:E; [|done]. apply dget_Some_elem in E.
  rewrite Z.sub_diag. apply Z.leb_gt. unfold FREQ_DAYS in E. rewrite !elem_of_cons in E.
  destruct E as [E|[E|[E|[E|[E|E%not_elem_of_nil]]]]]; try done; injection E as _ ->; lia.
Qed.

Lemma run_tests_idle today now org_id ts acc :
  (forall t, t ∈ ts -> due_now today org_id t = false) ->
  run_tests today now org_id ts acc = Ok (ts, acc).
Proof.
  induction ts as [|t ts IH]; intros H; simpl; [done|]. unfold run_one at 1.
  fold (due_now today org_id t). rewrite H by (by left). simpl.
  rewrite IH by (intros; apply H; by right). done.
Qed.

(** C40: when no due test belongs to a posture scan, the scheduler's run never
    fails: it records exactly one result per due active connector test of the
    organization, in order, and stamps those tests and no other; the counts
    add up to them; the tables stay free of duplicates; and running again the
    same day records nothing. *)
Theorem run_due_records_each_due_test_once now org_id tests db :
  wf_db db ->
  (forall t, t ∈ tests -> due_now (dt_date now) org_id t = true -> runnable t = true) ->
  exists tests' c db', run_due None now org_id tests db = Ok (tests', (c, db')) /\ wf_db db' /\
    rc_evaluated c = lcount (due_now (dt_date now) org_id) tests /\
    rc_evaluated c = rc_pass c + rc_warn c + rc_fail c /\
    (exists rs, db_results db' = (db_results db ++ rs)%list /\
       map ctr_test_id rs = map ct_id (filter (fun t => due_now (dt_date now) org_id t = true) tests)) /\
    Forall2 (fun t t' => if due_now (dt_date now) org_id t then exists st, t' = set_last st now t
                         else t' = t) tests tests' /\
    exists c0, run_due None now org_id tests' db' = Ok (tests', (c0, db')) /\ rc_evaluated c0 = 0.
Proof.
  intros Hwf Hr. unfold run_due. simpl.
  edestruct (run_tests_ok (dt_date now) now org_id tests) as (ts' & c & db' & E & Hwf' & Hc & Hn & Hrs & HF);
    [exact Hwf| |exact Hr|]; [|rewrite E; exists ts', c, db']; [done|].
  split; [done|]. split; [done|]. split; [exact Hn|]. split; [done|]. split; [done|]. split; [done|].
  eexists. split; [apply run_tests_idle|done]. intros t' Ht'.
  apply list_elem_of_lookup in Ht' as [i Hi].
  destruct (Forall2_lookup_r _ _ _ _ _ HF Hi) as (t & Ht & Hd).
  unfold due_now in *. destruct (run_selected org_id t && is_due t (dt_date now)) eqn:Eq.
  - destruct Hd as [st ->]. apply andb_false_iff. right. apply set_last_not_due.
  - by rewrite Hd.
Qed.

Definition ex_plain (i : Z) : ControlTest :=
  {| ct_id := i; ct_organization_id := Some 1; ct_system_id := Some 7; ct_control_id := "AC-2";
     ct_name := "t"; ct_method := "connector"; ct_connector_type := Some "aws";
     ct_frequency := Some "daily"; ct_expected := None; ct_assertion := None; ct_active := true;
     ct_source := "authored"; ct_check_key := None; ct_check_source := None;
     ct_last_status := None; ct_last_tested_at := None |}.

Example run_due_witness :
  wf_db empty_db /\ due_now 0 None (ex_plain 1) = true /\
  exists tests' c db', run_due None 0 None [ex_plain 1] empty_db = Ok (tests', (c, db')) /\
    rc_evaluated c = 1.
Proof.
  split; [apply empty_db_wf|]. split; [reflexivity|].
  destruct (run_due_records_each_due_test_once 0 None [ex_plain 1] empty_db empty_db_wf)
    as (ts & c & db' & E & _ & Hc & _).
  - intros t [ ->|H%not_elem_of_nil]%elem_of_cons; done.
  - exists ts, c, db'. split; [exact E|]. rewrite Hc. vm_compute. reflexivity.
Defined.
