(* ===== verification/Declared.v ===== *)
(** Declared posture checks: the three-valued predicates a pack manifest
    carries and their validator ([src/src/ccf/posture/declared.py]), and the
    parameters a pack may set on a platform check
    ([src/src/ccf/posture/parameters.py]).

    The nesting cap of the source is the fuel of the two recursions: a call at
    [_depth = d] has fuel [9 - d], so running out of fuel is exactly the source's
    "_depth > 8" branch. *)

From S2P Require Export Posture PyText.

Local Open Scope string_scope.
Local Open Scope Z_scope.

Definition OPS : list string :=
  ["truthy"; "falsy"; "equals"; "not_equals"; "contains"; "intersects"; "all_of"; "any_of"].
Definition MODES : list string := ["per_resource"; "any_row"].
Definition COMPOSITE : list string := ["all_of"; "any_of"].
Definition MEMBERSHIP : list string := ["contains"; "intersects"].
Definition MAX_PREDICATE_DEPTH : nat := 8.

Definition PredicateError (m : string) : exn := Exn "PredicateError" m.

Notation row := (list (string * pyval)) (only parsing).

Record DeclaredSpec := {
  ds_mode : string;
  ds_resource_type : string;
  ds_predicate : pyval;
  ds_expected : string;
  ds_resource_id_field : option string;
  ds_pass_observed : option string;
  ds_fail_observed : option string }.

(** One step of [resolve_path]: [current.get(segment)] on a dict. *)
Definition step_into (current : pyval) (segment : string) : pyval :=
  match current with VDict d => vget segment d | _ => VNone end.

Definition resolve_path (r : pyval) (path : string) : pyval :=
  fold_left step_into (split_on "."%char path) r.

Definition require (predicate : row) (key : string) : res pyval :=
  match dget key predicate with
  | Some v => Ok v
  | None => Err (PredicateError ("predicate " +:+ py_repr (vget "op" predicate) +:+
                                 " requires " +:+ repr_str key))
  end.

Definition is_true (r : option bool) : bool := bool_decide (r = Some true).
Definition is_false (r : option bool) : bool := bool_decide (r = Some false).
Definition is_unknown (r : option bool) : bool := bool_decide (r = None).

(** How the children's answers combine, once evaluated. *)
Definition combine (op : string) (results : list (option bool)) : option bool :=
  if decide (op = "all_of") then
    if existsb is_false results then Some false
    else if existsb is_unknown results then None else Some true
  else if existsb is_true results then Some true
  else if existsb is_unknown results then None else Some false.

(** [set(observed) & set(values)]: building a set of an unhashable raises. *)
Definition unhashable (v : pyval) : exn := TypeError ("unhashable type: " +:+ repr_str (type_name v)).

Fixpoint check_hashable (l : list pyval) : res unit :=
  match l with
  | [] => Ok tt
  | v :: l' => if hashable v then check_hashable l' else Err (unhashable v)
  end.

Definition evaluate_membership (op : string) (predicate : row) (observed : pyval)
    : res (option bool) :=
  if decide (op = "contains") then
    match observed with
    | VList l => let! v := require predicate "value" in Ok (Some (py_in v l))
    | _ => Ok None
    end
  else
    let! values := require predicate "values" in
    match values with
    | VList vs =>
        match observed with
        | VList l =>
            let! _ := check_hashable l in
            let! _ := check_hashable vs in
            Ok (Some (existsb (fun x => py_in x vs) l))
        | _ => Ok None
        end
    | _ => Err (PredicateError "'intersects' requires 'values' to be a list")
    end.

Definition evaluate_value (op : string) (predicate : row) (observed : pyval) : res (option bool) :=
  if is_none observed then Ok None
  else if decide (op = "truthy") then Ok (Some (truthy observed))
  else if decide (op = "falsy") then Ok (Some (negb (truthy observed)))
  else
    let! v := require predicate "value" in
    let equal := py_eq observed v in
    Ok (Some (if decide (op = "equals") then equal else negb equal)).

Definition depth_error : exn :=
  PredicateError ("predicate nesting exceeds max depth of " +:+ pretty (Z.of_nat MAX_PREDICATE_DEPTH)).

Definition known_op (v : pyval) : option string :=
  match v with VStr s => if mem s OPS then Some s else None | _ => None end.

Fixpoint evaluate_at (fuel : nat) (predicate : pyval) (r : row) : res (option bool) :=
  match fuel with
  | O => Err depth_error
  | S fuel' =>
      match predicate with
      | VDict p =>
          match known_op (vget "op" p) with
          | None => Err (PredicateError ("unknown predicate op: " +:+ py_repr (vget "op" p)))
          | Some op =>
              if mem op COMPOSITE then
                match vget "predicates" p with
                | VList ((_ :: _) as children) =>
                    let! results := res_map (fun child => evaluate_at fuel' child r) children in
                    Ok (combine op results)
                | _ => Err (PredicateError (repr_str op +:+ " requires a non-empty 'predicates' list"))
                end
              else
                let! path := require p "path" in
                let observed := resolve_path (VDict r) (py_str path) in
                if mem op MEMBERSHIP then evaluate_membership op p observed
                else evaluate_value op p observed
          end
      | _ => Err (PredicateError ("predicate must be an object, got " +:+ type_name predicate))
      end
  end.

Definition evaluate_predicate (predicate : pyval) (r : row) : res (option bool) :=
  evaluate_at (S MAX_PREDICATE_DEPTH) predicate r.

Definition row_id (spec : DeclaredSpec) (r : row) : string :=
  let fallback := let i := vget "id" r in if truthy i then py_str i else "unknown" in
  if str_truthy (or_empty (ds_resource_id_field spec)) then
    match resolve_path (VDict r) (or_empty (ds_resource_id_field spec)) with
    | VStr s => if str_truthy s then s else fallback
    | _ => fallback
    end
  else fallback.

(** [_paths]: iterating a value that is not iterable raises. *)
Fixpoint paths_of (predicate : pyval) : res (list string) :=
  match predicate with
  | VDict p =>
      if existsb (fun c => py_eq (vget "op" p) (VStr c)) COMPOSITE then
        default (Ok []) (dget_with (fun children =>
          match children with
          | VList l => let! ps := res_mapv paths_of l in Ok (concat ps)
          | VNone | VStr _ | VDict _ => Ok []
          | v => if truthy v then Err (not_iterable (type_name v)) else Ok []
          end) "predicates" p)
      else Ok (match vget "path" p with VStr s => [s] | _ => [] end)
  | _ => Ok []
  end.

Definition undeterminable_observed (predicate : pyval) : res string :=
  let! paths := paths_of predicate in
  Ok (match paths with
      | [] => "could not evaluate: the collection reported nothing usable"
      | _ => "could not evaluate: no value at " +:+ join ", " (sorted_set paths)
      end).

Definition observed_text (spec : DeclaredSpec) (result : option bool) (examined : option Z)
    : res string :=
  match result with
  | None =>
      let! base := undeterminable_observed (ds_predicate spec) in
      Ok (if decide (examined = Some 0) then "could not evaluate: the collection returned no rows"
          else base)
  | Some true => Ok (str_or (or_empty (ds_pass_observed spec)) ("satisfied: " +:+ ds_expected spec))
  | Some false =>
      if str_truthy (or_empty (ds_fail_observed spec)) then Ok (or_empty (ds_fail_observed spec))
      else Ok ("not satisfied: " +:+ ds_expected spec +:+
               match examined with
               | Some n => " (examined " +:+ pretty n +:+ ")"
               | None => ""
               end)
  end.

Definition verdict_of (result : option bool) : string :=
  match result with
  | None => "manual_review_required"
  | Some true => "pass"
  | Some false => "fail"
  end.

Definition row_finding (spec : DeclaredSpec) (r : row) : res ResourceFinding :=
  let! result := evaluate_predicate (ds_predicate spec) r in
  let! obs := observed_text spec result None in
  Ok {| resource_id := row_id spec r; resource_type := ds_resource_type spec;
        verdict := verdict_of result; observed := obs; detail := [] |}.

(** [any_row]: the collection's answer from its rows' answers. *)
Definition any_row_result (results : list (option bool)) : option bool :=
  if existsb is_true results then Some true
  else match results with
       | [] => None
       | _ => if forallb is_false results then Some false else None
       end.

Definition evaluate_declared (spec : DeclaredSpec) (rows : list row) (subject : option string)
    : res (list ResourceFinding) :=
  if negb (mem (ds_mode spec) MODES)
  then Err (PredicateError ("unknown mode: " +:+ repr_str (ds_mode spec)))
  else if decide (ds_mode spec = "per_resource") then res_map (row_finding spec) rows
  else
    let! results := res_map (evaluate_predicate (ds_predicate spec)) rows in
    let result := any_row_result results in
    let! obs := observed_text spec result (Some (Z.of_nat (List.length rows))) in
    Ok [{| resource_id := str_or (or_empty subject) "unknown";
           resource_type := ds_resource_type spec; verdict := verdict_of result;
           observed := obs; detail := [] |}].

(** ** The validator *)

Fixpoint validate_at (fuel : nat) (predicate : pyval) (where_ : string) : list string :=
  match fuel with
  | O => [where_ +:+ " exceeds max nesting depth of " +:+ pretty (Z.of_nat MAX_PREDICATE_DEPTH)]
  | S fuel' =>
      match predicate with
      | VDict p =>
          match known_op (vget "op" p) with
          | None => [where_ +:+ " has unknown op " +:+ py_repr (vget "op" p) +:+ " (allowed: " +:+
                     join ", " (sorted_strs OPS) +:+ ")"]
          | Some op =>
              if mem op COMPOSITE then
                match vget "predicates" p with
                | VList ((_ :: _) as children) =>
                    (fix go (i : Z) (cs : list pyval) : list string :=
                       match cs with
                       | [] => []
                       | c :: cs' =>
                           (validate_at fuel' c (where_ +:+ ".predicates[" +:+ pretty i +:+ "]") ++
                            go (i + 1) cs')%list
                       end) 0 children
                | _ => [where_ +:+ " " +:+ repr_str op +:+ " requires a non-empty 'predicates' list"]
                end
              else
                ((if match vget "path" p with VStr s => str_truthy s | _ => false end then []
                  else [where_ +:+ " " +:+ repr_str op +:+ " requires a non-empty 'path'"]) ++
                 (if mem op ["equals"; "not_equals"; "contains"] && negb (dhas "value" p)
                  then [where_ +:+ " " +:+ repr_str op +:+ " requires 'value'"] else []) ++
                 (if bool_decide (op = "intersects") &&
                     negb (match vget "values" p with VList _ => true | _ => false end)
                  then [where_ +:+ " 'intersects' requires 'values' to be a list"] else []))%list
          end
      | _ => [where_ +:+ " must be an object"]
      end
  end.

Definition validate_predicate (predicate : pyval) (where_ : string) : list string :=
  validate_at (S MAX_PREDICATE_DEPTH) predicate where_.

(** ** Parameters of platform checks *)

Definition ParameterError (m : string) : exn := Exn "ParameterError" m.

Definition PARAMETERIZABLE : list (string * list string) :=
  [("m365.identity.mfa_registered", []);
   ("m365.policy.legacy_auth_blocked", []);
   ("m365.identity.stale_accounts", ["threshold_days"]);
   ("m365.identity.phishing_resistant_mfa", []);
   ("m365.identity.phishable_methods_disabled", []);
   ("m365.policy.guest_invites_restricted", []);
   ("m365.policy.default_user_permissions_restricted", []);
   ("m365.audit.signin_records_current", []);
   ("m365.audit.directory_changes_recorded", []);
   ("m365.device.compliance_enforced", []);
   ("m365.identity.risky_users_resolved", []);
   ("m365.device.session_lock_enforced", ["max_minutes"]);
   ("m365.device.storage_encryption_required", []);
   ("m365.policy.session_reauthentication_required", []);
   ("aws.iam.root_mfa_enabled", []);
   ("aws.iam.password_policy", []);
   ("aws.iam.access_key_rotation", ["threshold_days"]);
   ("aws.cloudtrail.multi_region_logging", []);
   ("aws.cloudtrail.log_file_validation", []);
   ("aws.s3.public_access_blocked", []);
   ("aws.s3.default_encryption", []);
   ("aws.ec2.ebs_encryption_by_default", []);
   ("m365.identity.lockout_threshold_enforced", ["max_attempts"]);
   ("m365.security.alerts_triaged", ["threshold_days"]);
   ("m365.device.removable_storage_blocked", []);
   ("m365.identity.system_use_notification", []);
   ("m365.policy.device_compliance_required", []);
   ("aws.ec2.security_groups_no_public_admin_ingress", []);
   ("aws.vpc.flow_logs_enabled", []);
   ("aws.rds.not_publicly_accessible", []);
   ("aws.inspector.enabled", []);
   ("aws.ssm.patch_compliance", [])].

Definition EXPECTED_TEMPLATES : list (string * string) :=
  [("m365.identity.stale_accounts",
    "no enabled account has been inactive longer than {threshold_days} days");
   ("m365.device.session_lock_enforced",
    "at least one device compliance policy requires a password and locks the screen after no more than {max_minutes} minutes of inactivity");
   ("m365.identity.lockout_threshold_enforced",
    "the tenant's sign-in lockout threshold is enabled and no greater than {max_attempts} failed attempts");
   ("m365.security.alerts_triaged",
    "no high or critical security alert has been left unresolved for more than {threshold_days} days");
   ("aws.iam.access_key_rotation",
    "no active IAM access key is older than {threshold_days} days")].

Definition VALIDATORS : list (string * string) :=
  [("threshold_days", "positive_int"); ("max_minutes", "positive_int")].

Definition positive_int_error (name : string) (value : pyval) : option string :=
  match value with
  | VInt z => if z <=? 0
              then Some ("parameter " +:+ repr_str name +:+ " must be greater than zero, got " +:+ pretty z)
              else None
  | _ => Some ("parameter " +:+ repr_str name +:+ " must be an integer, got " +:+ type_name value)
  end.

(** The loop body of [validate_parameters] for one parameter. *)
Definition parameter_errors (evaluator_key : string) (accepted : list string) (nv : string * pyval)
    : list string :=
  let '(name, value) := nv in
  if negb (mem name accepted) then
    ["parameter " +:+ repr_str name +:+ " is not accepted by " +:+ repr_str evaluator_key +:+
     " (accepts: " +:+ str_or (join ", " accepted) "none" +:+ ")"]
  else if decide (dget name VALIDATORS = Some "positive_int") then
    match positive_int_error name value with Some e => [e] | None => [] end
  else [].

Definition validate_parameters (evaluator_key : string) (parameters : pyval) : list string :=
  match dget evaluator_key PARAMETERIZABLE with
  | None => ["unknown evaluator " +:+ repr_str evaluator_key]
  | Some accepted =>
      match parameters with
      | VDict ps => concat (map (parameter_errors evaluator_key accepted) ps)
      | _ => ["'parameters' must be an object"]
      end
  end.

(** [template.format] with the parameters as keywords, on templates whose fields are
    plain [{name}] replacements. *)
Fixpoint format_fields (fuel : nat) (s : string) (kw : list (string * pyval)) : res string :=
  match fuel with
  | O => Ok s
  | S fuel' =>
      match s with
      | EmptyString => Ok ""
      | String c s' =>
          if decide (c = "{"%char) then
            let name := take_while (fun d => negb (bool_decide (d = "}"%char))) s' in
            let rest := str_drop 1 (drop_while (fun d => negb (bool_decide (d = "}"%char))) s') in
            match dget name kw with
            | Some v => let! t := format_fields fuel' rest kw in Ok (py_str v +:+ t)
            | None => Err (KeyError (repr_str name))
            end
          else let! t := format_fields fuel' s' kw in Ok (String c t)
      end
  end.

Definition str_format (s : string) (kw : list (string * pyval)) : res string :=
  format_fields (String.length s) s kw.

Definition with_expected (c : PostureCheck) (e : string) : PostureCheck :=
  {| pc_key := pc_key c; pc_title := pc_title c; pc_provider := pc_provider c;
     pc_resource_type := pc_resource_type c; pc_expected := e; pc_control_ids := pc_control_ids c;
     pc_capability_key := pc_capability_key c;
     pc_required_permissions := pc_required_permissions c |}.

Definition parameterize (check : PostureCheck) (parameters : list (string * pyval))
    : res PostureCheck :=
  match parameters with
  | [] => Ok check
  | _ =>
      match validate_parameters (pc_key check) (VDict parameters) with
      | [] =>
          match dget (pc_key check) EXPECTED_TEMPLATES with
          | None => Ok check
          | Some template =>
              let! e := str_format template parameters in Ok (with_expected check e)
          end
      | errors => Err (ParameterError (join "; " errors))
      end
  end.

Example parameterize_sixty :
  str_format "older than {threshold_days} days" [("threshold_days", VInt 60)] =
  Ok "older than 60 days".
Proof. reflexivity. Qed.

(** ** Lemmas on the evaluator *)

Lemma split_on_ne_nil c s : split_on c s <> [].
Proof. destruct s; simpl; [done|]. case_decide; [done|]. by destruct (split_on c s). Qed.

Lemma known_op_Some v op : known_op v = Some op <-> v = VStr op /\ op ∈ OPS.
Proof.
  unfold known_op. destruct v; try (split; [done|naive_solver]).
  destruct (mem s OPS) eqn:E; [apply mem_true in E|apply mem_false in E]; naive_solver.
Qed.

Lemma check_hashable_spec l :
  match check_hashable l with
  | Ok _ => forall v, v ∈ l -> hashable v = true
  | Err e => exists v, v ∈ l /\ hashable v = false /\ e = unhashable v
  end.
Proof.
  induction l as [|v l IH]; simpl; [by intros v ?%not_elem_of_nil|].
  destruct (hashable v) eqn:E.
  - destruct (check_hashable l); [|destruct IH as (w & ? & ?); exists w; split; [by right|done]].
    intros w [ ->|Hw]%elem_of_cons; auto.
  - exists v. split; [by left|done].
Qed.

Lemma res_map_Err {A B} (f : A -> res B) l e :
  res_map f l = Err e -> exists x, x ∈ l /\ f x = Err e.
Proof.
  induction l as [|x l IH]; simpl; [done|]. destruct (f x) eqn:E; simpl.
  - destruct (res_map f l); simpl; [done|]. intros [= ->]. destruct IH as (y & ? & ?); [done|].
    exists y. split; [by right|done].
  - intros [= ->]. exists x. split; [by left|done].
Qed.

(** The errors of a list of children, at any starting index, are empty only
    when each child's are, under some name. *)
Lemma validate_children fuel where_ i cs :
  (fix go (i : Z) (cs : list pyval) : list string :=
     match cs with
     | [] => []
     | c :: cs' => (validate_at fuel c (where_ +:+ ".predicates[" +:+ pretty i +:+ "]") ++
                    go (i + 1) cs')%list
     end) i cs = [] ->
  forall c, c ∈ cs -> exists w, validate_at fuel c w = [].
Proof.
  revert i. induction cs as [|c cs IH]; intros i; [by intros _ c ?%not_elem_of_nil|].
  intros [H1 H2]%app_nil c' [ ->|Hc]%elem_of_cons; [by eexists|]. by eapply IH.
Qed.

(** Which error an evaluation of a validated predicate can still raise. *)
Definition hashing_error (e : exn) : Prop := exists v, hashable v = false /\ e = unhashable v.

Lemma validated_at fuel p where_ r :
  validate_at fuel p where_ = [] ->
  match evaluate_at fuel p r with Ok _ => True | Err e => hashing_error e end.
Proof.
  revert p where_. induction fuel as [|fuel IH]; intros p where_; [done|].
  destruct p as [| | | | | |d]; try done. cbn [validate_at evaluate_at].
  destruct (known_op (vget "op" d)) as [op|] eqn:Hop; [|done].
  apply known_op_Some in Hop as [_ Hops]. destruct (mem op COMPOSITE) eqn:Hc.
  - destruct (vget "predicates" d) as [| | | | |[|c cs]|]; try done. intros H.
    pose proof (validate_children fuel where_ 0 (c :: cs) H) as Hall.
    destruct (res_map _ (c :: cs)) eqn:E; cbn [res_bind]; [done|].
    apply res_map_Err in E as (x & Hx & Ee). destruct (Hall x Hx) as [w Hw].
    specialize (IH x w Hw). by rewrite Ee in IH.
  - intros [Hpath [Hval Hvals]%app_nil]%app_nil. unfold require.
    destruct (vget "path" d) eqn:Ep; try done. unfold vget in Ep.
    destruct (dget "path" d) as [v|]; [|done]. simpl in Ep. subst v. cbn [res_bind].
    assert (mem op ["equals"; "not_equals"; "contains"] = true -> exists v, dget "value" d = Some v) as Hv.
    { intros Hm. rewrite Hm in Hval. destruct (dhas "value" d) eqn:Eh; [|done].
      apply mem_true in Eh. destruct (dget "value" d) as [v|] eqn:Ev; [by exists v|].
      by apply dget_None in Ev. }
    assert (op = "intersects" -> exists vs, dget "values" d = Some (VList vs)) as Hvs.
    { intros ->. destruct (vget "values" d) eqn:Ev; try done. unfold vget in Ev.
      destruct (dget "values" d); [|done]. simpl in Ev. subst. by eexists. }
    set (obs := resolve_path _ _). clearbody obs. clear Hpath Hval Hvals IH.
    elem_cases Hops; try done; cbv [MEMBERSHIP]; autorewrite with mem; simpl;
      unfold evaluate_membership, evaluate_value, require; simpl;
      try (destruct (Hv eq_refl) as [v ->]); try (destruct (Hvs eq_refl) as [vs ->]); simpl;
      try (by destruct obs); try (by destruct (is_none obs)).
    destruct obs as [| | | | |l|]; try done.
    pose proof (check_hashable_spec l) as H1. destruct (check_hashable l) as [|e]; simpl.
    + pose proof (check_hashable_spec vs) as H2. destruct (check_hashable vs) as [|e]; simpl; [done|].
      destruct H2 as (v & _ & ? & ?). by exists v.
    + destruct H1 as (v & _ & ? & ?). by exists v.
Qed.

(** Information order on three-valued answers. *)
Definition answers_le (a b : option bool) : Prop := a = None \/ a = b.

(** [r'] is [r] with some of its values missing. *)
Definition less_info (r' r : row) : Prop :=
  forall path, resolve_path (VDict r') path = VNone \/
               resolve_path (VDict r') path = resolve_path (VDict r) path.

Lemma answers_known l k :
  Forall2 answers_le l k -> existsb is_unknown l = false -> l = k.
Proof.
  induction 1 as [|a b l k [ ->|Hab] _ IH]; simpl; [done|done|].
  intros [_ Hl]%orb_false_iff. by rewrite Hab, IH.
Qed.

Lemma answers_exists v l k :
  Forall2 answers_le l k -> existsb (fun r => bool_decide (r = Some v)) l = true ->
  existsb (fun r => bool_decide (r = Some v)) k = true.
Proof.
  induction 1 as [|a b l k Hab _ IH]; simpl; [done|]. rewrite !orb_true_iff, !bool_decide_eq_true.
  intros [ ->|?]; [left|auto]. by destruct Hab.
Qed.

Lemma combine_mono op l k : Forall2 answers_le l k -> answers_le (combine op l) (combine op k).
Proof.
  intros H. destruct (existsb is_unknown l) eqn:E.
  2:{ right. by rewrite (answers_known _ _ H E). }
  unfold combine. rewrite E.
  pose proof (answers_exists false _ _ H) as Hf. pose proof (answers_exists true _ _ H) as Ht.
  fold is_false in Hf. fold is_true in Ht. destruct (decide (op = "all_of")).
  - destruct (existsb is_false l); [rewrite Hf by done; by right|by left].
  - destruct (existsb is_true l); [rewrite Ht by done; by right|by left].
Qed.

Lemma membership_mono op p a b x y :
  a = VNone \/ a = b -> evaluate_membership op p a = Ok x -> evaluate_membership op p b = Ok y ->
  answers_le x y.
Proof.
  intros [ ->| ->]; [|intros ->; intros [= ->]; by right].
  unfold evaluate_membership. case_match; [intros [= <-]; by left|].
  destruct (require p "values") as [[]|]; simpl; try done. intros [= <-]. by left.
Qed.

Lemma value_mono op p a b x y :
  a = VNone \/ a = b -> evaluate_value op p a = Ok x -> evaluate_value op p b = Ok y ->
  answers_le x y.
Proof.
  intros [ ->| ->]; [intros [= <-]; by left|]. intros ->. intros [= ->]. by right.
Qed.

Lemma evaluate_mono fuel p r' r a b :
  less_info r' r -> evaluate_at fuel p r' = Ok a -> evaluate_at fuel p r = Ok b -> answers_le a b.
Proof.
  intros Hl. revert p a b. induction fuel as [|fuel IH]; intros p a b; [done|].
  destruct p as [| | | | | |d]; try done. cbn [evaluate_at].
  destruct (known_op (vget "op" d)) as [op|]; [|done]. destruct (mem op COMPOSITE).
  - destruct (vget "predicates" d) as [| | | | |[|c cs]|]; try done.
    set (l := c :: cs). clearbody l. rewrite !res_bind_Ok.
    intros (xs & Hx & [= <-]) (ys & Hy & [= <-]). apply combine_mono.
    apply res_map_Forall2 in Hx, Hy. clear -IH Hx Hy. revert ys Hy.
    induction Hx as [|x v l xs Hv _ IHl]; intros ys Hy; inversion Hy; subst; constructor; eauto.
  - destruct (require d "path") as [path|]; [|done]. cbn [res_bind].
    destruct (mem op MEMBERSHIP); [apply membership_mono|apply value_mono]; apply Hl.
Qed.

Lemma verdict_of_pass res : verdict_of res = "pass" <-> res = Some true.
Proof. by destruct res as [[]|]. Qed.
Lemma verdict_of_fail res : verdict_of res = "fail" <-> res = Some false.
Proof. by destruct res as [[]|]. Qed.

Lemma any_row_true results : any_row_result results = Some true <-> Some true ∈ results.
Proof.
  unfold any_row_result. destruct (existsb is_true results) eqn:E.
  - split; [|done]. intros _. apply existsb_exists in E as (x & Hx & Ht).
    apply bool_decide_eq_true in Ht. subst. by apply list_elem_of_In.
  - split; [by repeat case_match|]. intros H. apply list_elem_of_In in H.
    assert (existsb is_true results = true) as E'; [|congruence].
    apply existsb_exists. by exists (Some true).
Qed.

Lemma any_row_false results :
  any_row_result results = Some false <-> results <> [] /\ forall x, x ∈ results -> x = Some false.
Proof.
  unfold any_row_result. destruct (existsb is_true results) eqn:E.
  - split; [done|]. intros [_ H]. apply existsb_exists in E as (x & Hx & Ht).
    apply bool_decide_eq_true in Ht. subst. apply list_elem_of_In, H in Hx. done.
  - destruct results as [|x l]; [naive_solver|]. set (k := x :: l) in *.
    destruct (forallb is_false k) eqn:Ef.
    + split; [|done]. intros _. split; [done|]. rewrite forallb_forall in Ef. intros y Hy.
      apply list_elem_of_In, Ef in Hy. by apply bool_decide_eq_true in Hy.
    + split; [done|]. intros [_ H]. assert (forallb is_false k = true); [|congruence].
      apply forallb_forall. intros y Hy. apply bool_decide_eq_true, H, list_elem_of_In, Hy.
Qed.

(** ** Properties of declared checks *)

(** a predicate the validator accepts never meets one of the evaluator's
    own errors on any row: wrong shapes, unknown operators, missing operands
    and excessive nesting are all caught at install. What is left is the hash
    of a list or dict inside an [intersects], and the validator does accept
    such predicates. *)
Theorem validated_predicates_evaluate :
  (forall p where_ r, validate_predicate p where_ = [] ->
     match evaluate_predicate p r with Ok _ => True | Err e => hashing_error e end) /\
  (exists p r e, validate_predicate p "predicate" = [] /\ evaluate_predicate p r = Err e /\
     e = TypeError "unhashable type: 'dict'").
Proof.
  split; [intros p where_ r; apply validated_at|].
  exists (VDict [("op", VStr "intersects"); ("path", VStr "assignedRoles"); ("values", VList [VStr "admin"])]),
    [("assignedRoles", VList [VDict [("id", VStr "admin")]])]. eexists. done.
Qed.

(** a verdict never rests on a missing value: if a row already satisfies
    or violates a predicate, no row that agrees with it and reports more can
    turn the answer around, whatever the nesting of all_of and any_of. *)
Theorem determinate_answers_are_stable p r' r b x :
  less_info r' r -> evaluate_predicate p r' = Ok (Some b) -> evaluate_predicate p r = Ok x ->
  x = Some b.
Proof.
  intros Hl Ha Hb. by destruct (evaluate_mono _ _ _ _ _ _ Hl Ha Hb).
Qed.

Example determinate_answers_witness :
  exists p r' r, less_info r' r /\ evaluate_predicate p r' = Ok (Some false) /\
    evaluate_predicate p r = Ok (Some false).
Proof.
  pose (p := VDict [("op", VStr "all_of"); ("predicates", VList
    [VDict [("op", VStr "truthy"); ("path", VStr "b")]; VDict [("op", VStr "truthy"); ("path", VStr "a")]])]).
  pose (r' := [("a", VBool false)] : row). pose (r := [("a", VBool false); ("b", VInt 1)] : row).
  assert (less_info r' r) as Hl.
  { intros path. unfold resolve_path. destruct (split_on _ path) as [|s l] eqn:E;
      [by apply split_on_ne_nil in E|]. simpl.
    unfold vget. simpl. repeat case_decide; subst; try done; try (by right); left; simpl;
      clear; induction l; done. }
  assert (evaluate_predicate p r' = Ok (Some false)) as Ha by (vm_compute; reflexivity).
  exists p, r', r. split; [exact Hl|]. split; [exact Ha|].
  destruct (evaluate_predicate p r) as [x|e] eqn:E; [|vm_compute in E; discriminate E].
  rewrite (determinate_answers_are_stable p r' r false x Hl Ha E). reflexivity.
Defined.

(** the findings of a declared check say what its rows answered: per
    resource, one finding per row in order, under the row's own id, passing
    exactly when the row satisfies the predicate and failing exactly when it
    violates it; for the collection, a single finding that passes exactly when
    some row satisfies it and fails exactly when there is a row and all of them
    violate it. In particular an empty collection never passes or fails. *)
Theorem evaluate_declared_spec spec rows subject :
  match evaluate_declared spec rows subject with
  | Err _ => True
  | Ok fs =>
      (ds_mode spec = "per_resource" ->
         Forall2 (fun r f => exists x, evaluate_predicate (ds_predicate spec) r = Ok x /\
                    (verdict f = "pass" <-> x = Some true) /\ (verdict f = "fail" <-> x = Some false) /\
                    (x = None -> verdict f = "manual_review_required") /\
                    resource_id f = row_id spec r) rows fs) /\
      (ds_mode spec = "any_row" -> exists f, fs = [f] /\
         (verdict f = "pass" <->
            exists r, r ∈ rows /\ evaluate_predicate (ds_predicate spec) r = Ok (Some true)) /\
         (verdict f = "fail" <-> rows <> [] /\
            forall r, r ∈ rows -> evaluate_predicate (ds_predicate spec) r = Ok (Some false)))
  end.
Proof.
  unfold evaluate_declared. destruct (mem (ds_mode spec) MODES); simpl; [|done].
  destruct (decide (ds_mode spec = "per_resource")) as [Hm|Hm].
  - destruct (res_map _ rows) as [fs|] eqn:E; [|done]. split; [|congruence]. intros _.
    apply res_map_Forall2 in E. eapply Forall2_impl; [exact E|]. intros r f. simpl. unfold row_finding.
    rewrite res_bind_Ok. intros (x & Hx & (obs & _ & [= <-])%res_bind_Ok). exists x.
    cbn [verdict resource_id]. rewrite verdict_of_pass, verdict_of_fail. split; [done|]. split; [done|]. split; [done|].
    split; [by intros ->|done].
  - destruct (res_map _ rows) as [xs|] eqn:E; cbn [res_bind]; [|done].
    destruct (observed_text _ _ _) as [obs|]; cbn [res_bind]; [|done]. split; [done|]. intros _.
    eexists. split; [done|]. cbn [verdict]. rewrite verdict_of_pass, verdict_of_fail, any_row_true, any_row_false.
    apply res_map_Forall2 in E. split; split.
    + intros [i Hi]%list_elem_of_lookup. destruct (Forall2_lookup_r _ _ _ _ _ E Hi) as (r & Hr & He).
      exists r. split; [apply list_elem_of_lookup; eauto|done].
    + intros (r & [i Hi]%list_elem_of_lookup & He).
      destruct (Forall2_lookup_l _ _ _ _ _ E Hi) as (x & Hx & He'). rewrite He in He'.
      injection He' as <-. apply list_elem_of_lookup. eauto.
    + intros [Hne Hall]. split; [intros ->; by inversion E; subst|].
      intros r [i Hi]%list_elem_of_lookup. destruct (Forall2_lookup_l _ _ _ _ _ E Hi) as (x & Hx & He).
      rewrite He. f_equal. apply Hall, list_elem_of_lookup. eauto.
    + intros [Hne Hall]. split; [intros ->; by inversion E; subst|].
      intros x [i Hi]%list_elem_of_lookup. destruct (Forall2_lookup_r _ _ _ _ _ E Hi) as (r & Hr & He).
      rewrite Hall in He by (apply list_elem_of_lookup; eauto). by injection He.
Qed.

(** ** Parameters *)

(** The replacement fields of a template. *)
Fixpoint fields_of (fuel : nat) (s : string) : list string :=
  match fuel with
  | O => []
  | S fuel' =>
      match s with
      | EmptyString => []
      | String c s' =>
          if decide (c = "{"%char) then
            take_while (fun d => negb (bool_decide (d = "}"%char))) s' ::
            fields_of fuel' (str_drop 1 (drop_while (fun d => negb (bool_decide (d = "}"%char))) s'))
          else fields_of fuel' s'
      end
  end.

Lemma format_fields_ok fuel s kw :
  (forall n, n ∈ fields_of fuel s -> n ∈ dkeys kw) -> exists t, format_fields fuel s kw = Ok t.
Proof.
  revert s. induction fuel as [|fuel IH]; intros s H; [by eexists|].
  destruct s as [|c s]; [by eexists|]. simpl in *. destruct (decide (c = "{"%char)).
  - destruct (dget _ kw) as [v|] eqn:E.
    + match goal with |- context [format_fields fuel ?r kw] => destruct (IH r) as [t ->] end;
        [intros n Hn; apply H; by right|by eexists].
    + apply dget_None in E. destruct E. apply H. by left.
  - destruct (IH s H) as [t ->]. by eexists.
Qed.

Lemma concat_nil {A B} (f : A -> list B) l : concat (map f l) = [] -> forall x, x ∈ l -> f x = [].
Proof.
  induction l as [|y l IH]; simpl; [by intros _ x ?%not_elem_of_nil|].
  intros [H1 H2]%app_nil x [ ->|Hx]%elem_of_cons; auto.
Qed.

Lemma parameter_errors_nil key accepted n v :
  parameter_errors key accepted (n, v) = [] ->
  n ∈ accepted /\ (dget n VALIDATORS = Some "positive_int" -> exists z, v = VInt z /\ 0 < z).
Proof.
  unfold parameter_errors. destruct (mem n accepted) eqn:Ha; cbn [negb]; [|done].
  apply mem_true in Ha. split; [done|]. intros Hv. rewrite decide_True in H by done.
  destruct v as [| |z| | | |]; try done. simpl in H. destruct (Z.leb_spec z 0); [done|]. by exists z.
Qed.

(** Every template asks for exactly the one parameter its check accepts. *)
Lemma templates_need_their_parameter key t :
  dget key EXPECTED_TEMPLATES = Some t ->
  exists n, dget key PARAMETERIZABLE = Some [n] /\ fields_of (String.length t) t = [n].
Proof.
  intros H. apply dget_Some_elem in H. unfold EXPECTED_TEMPLATES in H.
  repeat (apply elem_of_cons in H as [[= -> ->]|H]; [eexists; split; vm_compute; reflexivity|]).
  by apply not_elem_of_nil in H.
Qed.

(** Accepted parameters apply: the template has no other field. *)
Lemma parameterize_applies check ps :
  validate_parameters (pc_key check) (VDict ps) = [] -> exists c, parameterize check ps = Ok c.
Proof.
  intros Ev. unfold parameterize. destruct ps as [|p ps]; [by eexists|]. set (l := p :: ps) in *. rewrite Ev.
  destruct (dget (pc_key check) EXPECTED_TEMPLATES) as [t|] eqn:Et; [|by eexists].
  destruct (templates_need_their_parameter _ _ Et) as (n & Ep & Ef).
  destruct (format_fields_ok (String.length t) t l) as [u Hu]; [|unfold str_format; rewrite Hu; by eexists].
  rewrite Ef. intros n' ->%list_elem_of_singleton. unfold validate_parameters in Ev. rewrite Ep in Ev.
  destruct p as [k v]. assert (parameter_errors (pc_key check) [n] (k, v) = []) as Hp
    by (apply (concat_nil _ _ Ev); by left).
  apply parameter_errors_nil in Hp as [->%list_elem_of_singleton _]. by left.
Qed.
Lemma parameterize_Err check ps e : parameterize check ps = Err e -> exn_class e = "ParameterError".
Proof.
  intros E. destruct (validate_parameters (pc_key check) (VDict ps)) as [|m ms] eqn:Ev.
  - destruct (parameterize_applies _ _ Ev) as (c & Ec). by rewrite Ec in E.
  - unfold parameterize in E. destruct ps; [done|]. rewrite Ev in E. by injection E as <-.
Qed.
(** What was applied: the wording alone changes, to the template with these values. *)
Lemma parameterize_Ok check ps c : parameterize check ps = Ok c ->
  with_expected c (pc_expected check) = check /\
  (forall t, ps <> [] -> dget (pc_key check) EXPECTED_TEMPLATES = Some t -> str_format t ps = Ok (pc_expected c)) /\
  (ps = [] \/ validate_parameters (pc_key check) (VDict ps) = []).
Proof.
  unfold parameterize. destruct ps as [|p ps].
  { intros [= <-]. split_and!; [by destruct check|done|by left]. }
  set (l := p :: ps) in *. destruct (validate_parameters (pc_key check) (VDict l)) as [|e es] eqn:Ev; [|done]. intros Hc. split_and!; [| |by right].
  - destruct (dget _ EXPECTED_TEMPLATES) as [t|]; [|injection Hc as <-; by destruct check]. apply res_bind_Ok in Hc as (u & _ & [= <-]). by destruct check.
  - intros t _ Et. rewrite Et in Hc. by apply res_bind_Ok in Hc as (u & Hu & [= <-]).
Qed.

(** parameterizing a platform check succeeds exactly when there is nothing
    to apply or the validator accepts the parameters; it changes nothing but
    the expected text, which is then the provider's template with these very
    values; every applied parameter is one the check accepts and every
    threshold a positive integer. The lockout bound is the exception: it has
    no validator, so any value at all is accepted and rendered. *)
Theorem parameterize_spec check ps :
  ((exists c, parameterize check ps = Ok c) <->
     ps = [] \/ validate_parameters (pc_key check) (VDict ps) = []) /\
  (forall c, parameterize check ps = Ok c ->
     with_expected c (pc_expected check) = check /\
     (forall t, ps <> [] -> dget (pc_key check) EXPECTED_TEMPLATES = Some t ->
        str_format t ps = Ok (pc_expected c)) /\
     (forall n v, (n, v) ∈ ps ->
        (exists accepted, dget (pc_key check) PARAMETERIZABLE = Some accepted /\ n ∈ accepted) /\
        (n <> "max_attempts" -> n ∈ ["threshold_days"; "max_minutes"] ->
           exists z, v = VInt z /\ 0 < z))) /\
  validate_parameters "m365.identity.lockout_threshold_enforced"
    (VDict [("max_attempts", VStr "unlimited")]) = [].
Proof.
  split; [|split; [|reflexivity]].
  - split; [intros (c & Hc); by apply parameterize_Ok in Hc as (_ & _ & H)|]. intros [->|Ev]; [by eexists|by apply parameterize_applies].
  - intros c Hc. apply parameterize_Ok in Hc as (Hw & Ht & Hps). split_and!; [done|done|]. intros n v Hin.
    destruct Hps as [->|Ev]; [by apply not_elem_of_nil in Hin|]. unfold validate_parameters in Ev.
    destruct (dget (pc_key check) PARAMETERIZABLE) as [acc|]; [|done].
    pose proof (concat_nil _ _ Ev _ Hin) as Hp. apply parameter_errors_nil in Hp as [Ha Hz].
    split; [by exists acc|]. intros _ Hn. apply Hz. elem_cases Hn; reflexivity.
Qed.
