(* ===== verification/Observations.v ===== *)
(** What the posture evaluators of src/src/ccf/posture/providers share: reading the rows a
    provider's API returned, and the finding a row gives.

    A row is the decoded object the API returned, so any field may be missing or of any
    type: an attribute a value does not have raises. *)

From S2P Require Export Posture PyTime.
From S2P Require Import Declared.

Local Open Scope string_scope.
Local Open Scope Z_scope.

(** ** Reading *)

Notation row := (list (string * pyval)) (only parsing).

(** [v.get(k)] *)
Definition obj_get (k : string) (v : pyval) : res pyval :=
  match v with VDict d => Ok (vget k d) | _ => Err (AttributeError (type_name v) "get") end.
(** [v.get(k, default)] *)
Definition obj_get_or (k : string) (d : pyval) (v : pyval) : res pyval :=
  match v with VDict m => Ok (default d (dget k m)) | _ => Err (AttributeError (type_name v) "get") end.
(** [a or b] *)
Definition py_or (a b : pyval) : pyval := if truthy a then a else b.
Definition py_upper (v : pyval) : string := upper (py_str v).
Definition is_true_val (v : pyval) : bool := match v with VBool b => b | _ => false end.
Definition is_int (v : pyval) : option Z := match v with VInt z => Some z | _ => None end.
Definition is_dict (v : pyval) : option row := match v with VDict d => Some d | _ => None end.
(** [str(r.get(a) or r.get(b) or alternative)] *)
Definition named (a b : pyval) (alternative : string) : string := py_str (py_or (py_or a b) (VStr alternative)).
(** [int(v)] *)
Definition int_of (v : pyval) : res Z :=
  match v with
  | VInt z => Ok z
  | VBool b => Ok (if b then 1 else 0)
  | VFloat x => Ok (fl_trunc x)
  | VStr s => py_int s
  | _ => Err (TypeError ("int() argument must be a string, a bytes-like object or a real number, not '" +:+ type_name v +:+ "'"))
  end.
(** [for x in v or []] *)
Definition each (v : pyval) : res (list pyval) := iter_val (py_or v (VList [])).
(** Every element as a dict key, which [set(v)] needs. *)
Definition as_set (v : pyval) : res (list pyval) := let! l := each v in let! _ := check_hashable l in Ok l.
(** The members of a set of strings that a set of values has, in order. *)
Definition members_of (names : list string) (l : list pyval) : list string := sorted_strs (List.filter (fun s => py_in (VStr s) l) names).
Definition count {A} (l : list A) : Z := Z.of_nat (List.length l).
Definition texts (l : list string) : pyval := VList (map VStr l).

(** [next((r for r in rows if f(r)), None)]: rows after the first hit are not looked at. *)
Fixpoint first_such {A} (f : A -> res bool) (l : list A) : res (option A) :=
  match l with
  | [] => Ok None
  | x :: l' => let! b := f x in if b then Ok (Some x) else first_such f l'
  end.
(** The rows a condition that can raise selects. *)
Definition such {A} (f : A -> res bool) (l : list A) : res (list A) :=
  let! bs := res_map (fun x => let! b := f x in Ok (x, b)) l in Ok (map fst (List.filter snd bs)).
(** [s in v] *)
Definition holds_text (s : string) (v : pyval) : res bool :=
  match v with
  | VList l => Ok (py_in (VStr s) l)
  | VDict d => Ok (dhas s d)
  | VStr t => Ok (str_contains s t)
  | _ => Err (TypeError ("argument of type '" +:+ type_name v +:+ "' is not iterable"))
  end.
(** [a <= v] of an integer. *)
Definition int_le (a : Z) (v : pyval) : res bool :=
  match as_num v with
  | Some (p, q) => Ok (a * q <=? p)
  | None => Err (TypeError ("'<=' not supported between instances of 'int' and '" +:+ type_name v +:+ "'"))
  end.

(** A parameter a pack set, validated when the check was resolved: the thresholds are
    positive integers. *)
Definition int_param (k : string) (d : Z) (parameters : row) : res Z :=
  match dget k parameters with
  | None => Ok d
  | Some (VInt z) => Ok z
  | Some v => Err (TypeError ("unsupported type for timedelta days component: " +:+ type_name v))
  end.

Definition finding (rid rtype v obs : string) (d : row) : ResourceFinding :=
  {| resource_id := rid; resource_type := rtype; verdict := v; observed := obs; detail := d |}.
Definition pass_or_fail (b : bool) : string := if b then "pass" else "fail".
Definition check (key title provider rtype expected : string) (controls permissions : list string) : PostureCheck :=
  {| pc_key := key; pc_title := title; pc_provider := provider; pc_resource_type := rtype; pc_expected := expected; pc_control_ids := controls;
     pc_capability_key := None; pc_required_permissions := permissions |}.

(** ** Findings a connector can roll up *)

(** A connector builds an outcome from the findings, which raises on a verdict outside the
    vocabulary. *)
Definition sound_finding (f : ResourceFinding) : Prop := verdict f ∈ VALIDATION_STATUSES.

Lemma sound_rollup c fs : Forall sound_finding fs -> exists v, roll_up_findings (map verdict fs) = Ok v /\ from_findings c fs =
  Ok {| co_check_key := pc_key c; co_verdict := v; co_expected := pc_expected c; co_findings := fs |}.
Proof.
  intros H. assert (Hv : forall v, v ∈ map verdict fs -> v ∈ VALIDATION_STATUSES).
  { intros v (f & -> & Hin)%list_elem_of_fmap. exact (proj1 (Forall_forall _ _) H f Hin). }
  pose proof (roll_up_worst_wins (map verdict fs)) as Hr. unfold from_findings. rewrite (check_verdicts_Ok _ Hv). cbn [res_bind].
  destruct (roll_up_findings _) as [v|x]; [by exists v|]. destruct Hr as (v & Hin & Hno & _). by destruct (Hno (Hv v Hin)).
Qed.

(** What the rolled-up verdict says of the findings. *)
Lemma rollup_says fs v : roll_up_findings (map verdict fs) = Ok v ->
  (v = "pass" <-> (exists f, f ∈ fs /\ verdict f = "pass") /\ forall f, f ∈ fs -> verdict f = "pass" \/ verdict f ∈ EXCLUDED_FROM_ROLLUP) /\
  (v = "fail" <-> exists f, f ∈ fs /\ verdict f = "fail").
Proof.
  intros E. pose proof (roll_up_worst_wins (map verdict fs)) as H. rewrite E in H. destruct H as (_ & Hf & Hp & _).
  assert (Hm : forall w, w ∈ map verdict fs <-> exists f, f ∈ fs /\ verdict f = w).
  { intros w. split; [intros (f & -> & Hin)%list_elem_of_fmap; by exists f|intros (f & Hin & <-); by apply list_elem_of_fmap_2]. }
  rewrite Hp, Hf, !Hm. split; [|done]. split; intros [H1 H2]; (split; [done|]).
  - intros f Hin. apply H2, Hm. by exists f.
  - intros w (f & Hin & <-)%Hm. by apply H2.
Qed.

Lemma sound_pass_or_fail b : pass_or_fail b ∈ VALIDATION_STATUSES.
Proof. destruct b; apply mem_true; reflexivity. Qed.
Lemma pass_or_fail_pass b : pass_or_fail b = "pass" <-> b = true.
Proof. by destruct b. Qed.
Lemma pass_or_fail_fail b : pass_or_fail b = "fail" <-> b = false.
Proof. by destruct b. Qed.

(** The rolled-up verdict of one finding, and of a fleet judged row by row: a row is right,
    out of the question, or neither. *)
Lemma one_finding f v : roll_up_findings (map verdict [f]) = Ok v -> (v = "pass" <-> verdict f = "pass") /\ (v = "fail" <-> verdict f = "fail").
Proof.
  intros [Hp Hf]%(rollup_says [f]). rewrite Hp, Hf. setoid_rewrite list_elem_of_singleton. split.
  - split; [intros [(g & -> & E) _]; done|intros E]. split; [by exists f|intros g ->; by left].
  - split; [by intros (g & -> & E)|intros E; by exists f].
Qed.

(** Rows and their findings correspond. *)
Lemma Forall2_elem_l {A B} (P : A -> B -> Prop) l k : Forall2 P l k -> forall x, x ∈ l -> exists y, y ∈ k /\ P x y.
Proof.
  induction 1 as [|x y l k H _ IH]; intros z Hz; [by apply not_elem_of_nil in Hz|].
  apply elem_of_cons in Hz as [->|Hz]; [exists y; split; [by left|done]|]. destruct (IH z Hz) as (w & Hw & Pw). exists w. split; [by right|done].
Qed.
Lemma Forall2_elem_r {A B} (P : A -> B -> Prop) l k : Forall2 P l k -> forall y, y ∈ k -> exists x, x ∈ l /\ P x y.
Proof. intros H%Forall2_flip y Hy. exact (Forall2_elem_l _ _ _ H y Hy). Qed.

Section fleet.
Context {A : Type} (f : A -> res ResourceFinding) (right away wrong : A -> Prop).
Hypothesis judged : forall r x, f r = Ok x ->
  (verdict x = "pass" <-> right r) /\ (verdict x ∈ EXCLUDED_FROM_ROLLUP <-> away r) /\ (verdict x = "fail" <-> wrong r).

Lemma fleet_verdict rows fs v : res_map f rows = Ok fs -> roll_up_findings (map verdict fs) = Ok v ->
  (v = "pass" <-> (exists r, r ∈ rows /\ right r) /\ forall r, r ∈ rows -> right r \/ away r) /\ (v = "fail" <-> exists r, r ∈ rows /\ wrong r).
Proof.
  intros Hm%res_map_Forall2 [Hp Hf]%rollup_says.
  assert (Hl : forall r, r ∈ rows -> exists x, x ∈ fs /\ f r = Ok x) by (intros r Hr; exact (Forall2_elem_l _ _ _ Hm r Hr)).
  assert (Hr : forall x, x ∈ fs -> exists r, r ∈ rows /\ f r = Ok x) by (intros x Hx; exact (Forall2_elem_r _ _ _ Hm x Hx)).
  rewrite Hp, Hf. split; [split|split].
  - intros [(x & Hx & E) Hall]. split.
    + destruct (Hr x Hx) as (r & Hin & Er). exists r. split; [done|]. by apply (judged r x Er).
    + intros r Hin. destruct (Hl r Hin) as (x' & Hx' & Er). destruct (judged r x' Er) as (J1 & J2 & _). destruct (Hall x' Hx'); [left|right]; tauto.
  - intros [(r & Hin & H1) Hall]. split.
    + destruct (Hl r Hin) as (x & Hx & Er). exists x. split; [done|]. by apply (judged r x Er).
    + intros x Hx. destruct (Hr x Hx) as (r' & Hin' & Er). destruct (judged r' x Er) as (J1 & J2 & _). destruct (Hall r' Hin'); [left|right]; tauto.
  - intros (x & Hx & E). destruct (Hr x Hx) as (r & Hin & Er). exists r. split; [done|]. by apply (judged r x Er).
  - intros (r & Hin & H1). destruct (Hl r Hin) as (x & Hx & Er). exists x. split; [done|]. by apply (judged r x Er).
Qed.
End fleet.

(** ** Credit

    Findings credit a condition when they are sound and roll up to a pass exactly under it. *)

Definition credits (fs : list ResourceFinding) (P : Prop) : Prop :=
  Forall sound_finding fs /\ forall v, roll_up_findings (map verdict fs) = Ok v -> (v = "pass" <-> P).
Definition all_of_some {A} (P : A -> Prop) (rows : list A) : Prop := rows <> [] /\ forall r, r ∈ rows -> P r.

Lemma credits_one f (P : Prop) : sound_finding f -> (verdict f = "pass" <-> P) -> credits [f] P.
Proof. intros Hs HP. split; [by apply Forall_singleton|]. intros v [-> _]%one_finding. done. Qed.

Lemma credits_iff fs (P Q : Prop) : credits fs P -> (P <-> Q) -> credits fs Q.
Proof. intros [H1 H2] E. split; [done|]. intros v Hv. by rewrite (H2 v Hv). Qed.
#[export] Instance credits_proper fs : Proper (iff ==> iff) (credits fs).
Proof. intros P Q E. split; intros H; (eapply credits_iff; [exact H|]); by rewrite E. Qed.

Section credited_fleet.
Context {A : Type} (f : A -> res ResourceFinding) (right away : A -> Prop).
Hypothesis judged : forall r x, f r = Ok x -> sound_finding x /\ (verdict x = "pass" <-> right r) /\ (verdict x ∈ EXCLUDED_FROM_ROLLUP <-> away r).

Lemma credits_fleet rows fs : res_map f rows = Ok fs -> credits fs ((exists r, r ∈ rows /\ right r) /\ forall r, r ∈ rows -> right r \/ away r).
Proof.
  intros Hm. split.
  - apply res_map_Forall2 in Hm. apply Forall_forall. intros x Hx. destruct (Forall2_elem_r _ _ _ Hm x Hx) as (r & _ & Er). by apply (judged r x Er).
  - intros v Hv. refine (proj1 (fleet_verdict f right away (fun r => exists x, f r = Ok x /\ verdict x = "fail") _ rows fs v Hm Hv)).
    intros r x Er. destruct (judged r x Er) as (_ & J1 & J2). split_and!; [done|done|]. split; [intros E; by exists x|].
    intros (x' & Er' & E). rewrite Er in Er'. by injection Er' as ->.
Qed.

Lemma credits_all rows fs : (forall r, r ∈ rows -> ~ away r) -> res_map f rows = Ok fs -> credits fs (all_of_some right rows).
Proof.
  intros Hno Hm. eapply credits_iff; [by apply credits_fleet|]. split.
  - intros [(r & Hr & _) Hall]. split; [by intros ->; apply not_elem_of_nil in Hr|]. intros r' Hr'. destruct (Hall r' Hr'); [done|]. by destruct (Hno r' Hr').
  - intros [Hne Hall]. split; [|by left; apply Hall]. destruct rows as [|r rows]; [done|]. exists r. split; [by left|]. apply Hall. by left.
Qed.
End credited_fleet.

Lemma excluded_cases v : v ∈ EXCLUDED_FROM_ROLLUP <-> v = "not_applicable" \/ v = "not_tested".
Proof. unfold EXCLUDED_FROM_ROLLUP. rewrite !elem_of_cons, elem_of_nil. tauto. Qed.
Lemma judged_not_excluded b : pass_or_fail b ∉ EXCLUDED_FROM_ROLLUP.
Proof. rewrite excluded_cases. by destruct b; intros [?|?]. Qed.
Lemma is_true_val_true v : is_true_val v = true <-> v = VBool true.
Proof. destruct v as [|[]| | | | |]; split; done. Qed.

Ltac vocabulary := apply mem_true; reflexivity.
(** A row judged right or not, never out of the question. *)
Lemma judged_bool f b (P : Prop) : verdict f = pass_or_fail b -> (b = true <-> P) ->
  sound_finding f /\ (verdict f = "pass" <-> P) /\ (verdict f ∈ EXCLUDED_FROM_ROLLUP <-> False).
Proof.
  intros E H. unfold sound_finding. rewrite E, pass_or_fail_pass, H. split_and!; [apply sound_pass_or_fail|done|].
  split; [intros []%judged_not_excluded|done].
Qed.
(** A row nobody could judge. *)
Lemma judged_open f (P : Prop) : verdict f = "manual_review_required" -> ~ P ->
  sound_finding f /\ (verdict f = "pass" <-> P) /\ (verdict f ∈ EXCLUDED_FROM_ROLLUP <-> False).
Proof. intros E H. unfold sound_finding. rewrite E. split_and!; [vocabulary|done|]. split; [intros [?|?]%excluded_cases; done|done]. Qed.

Lemma obj_get_dict k v x : obj_get k v = Ok x <-> exists d, v = VDict d /\ vget k d = x.
Proof. destruct v; cbn; try (split; [done|by intros (? & ? & _)]). split; [intros [= <-]; by eexists|by intros (? & [= <-] & <-)]. Qed.

Lemma some_filtered {A} (p : A -> bool) l : List.filter p l <> [] <-> exists a, a ∈ l /\ p a = true.
Proof.
  split.
  - destruct (List.filter p l) as [|a k] eqn:E; [done|]. intros _. exists a. assert (a ∈ List.filter p l) as H by (rewrite E; by left).
    by rewrite list_elem_of_In, filter_In, <-list_elem_of_In in H.
  - intros (a & Hin & Ha) E. assert (a ∈ List.filter p l) as H by (rewrite list_elem_of_In, filter_In, <-list_elem_of_In; done).
    rewrite E in H. by apply not_elem_of_nil in H.
Qed.
Lemma truthy_ne s : str_truthy s = true <-> s <> "".
Proof. apply bool_decide_eq_true. Qed.

(** Nothing observed, nothing credited. *)
Lemma nothing_credits rid rt w obs d (P : Prop) : w ∈ VALIDATION_STATUSES -> w <> "pass" -> ~ P -> credits [finding rid rt w obs d] P.
Proof. intros Hw Hp HP. apply credits_one; [done|]. by cbn. Qed.

Lemma sorted_strs_nil l : sorted_strs l = [] <-> l = [].
Proof. unfold sorted_strs. split; [intros E|by intros ->]. apply Permutation_nil_r. rewrite <-E. symmetry. apply merge_sort_Permutation. Qed.
