(* ===== verification/AwsChecks.v ===== *)
(** AWS posture checks ([src/src/ccf/posture/providers/aws.py]): thirteen evaluators of the
    rows the account's APIs returned, and their registry.

    boto3 hands timestamps over as [datetime] objects; an access key's creation date is
    therefore kept apart from the row's other fields. *)

From S2P Require Export Observations.

Local Open Scope string_scope.
Local Open Scope Z_scope.

Definition ACCESS_KEY_MAX_AGE_DAYS : Z := 90.
Definition MIN_PASSWORD_LENGTH : Z := 14.
Definition MIN_PASSWORD_REUSE_PREVENTION : Z := 24.
Definition ACTIVE_KEY_STATUS : string := "Active".

(** ** The checks *)

Definition aws_check (key title rtype expected : string) (controls permissions : list string) : PostureCheck :=
  check key title "aws_govcloud" rtype expected controls permissions.

Definition ROOT_MFA_ENABLED : PostureCheck :=
  aws_check "aws.iam.root_mfa_enabled" "The account root user has MFA enabled" "aws_account"
    "the account root user has a multi-factor authentication device enabled" ["IA-2"; "IA-2(1)"] ["iam:GetAccountSummary"].
Definition PASSWORD_POLICY : PostureCheck :=
  aws_check "aws.iam.password_policy" "The IAM password policy meets the required minimums" "aws_account"
    ("the IAM account password policy requires at least " +:+ pretty MIN_PASSWORD_LENGTH +:+ " characters and prohibits reuse of the last " +:+
     pretty MIN_PASSWORD_REUSE_PREVENTION +:+ " passwords") ["IA-5"; "IA-5(1)"] ["iam:GetAccountPasswordPolicy"].
Definition ACCESS_KEY_ROTATION : PostureCheck :=
  aws_check "aws.iam.access_key_rotation" "No active access key is older than the rotation threshold" "iam_access_key"
    ("no active IAM access key is older than " +:+ pretty ACCESS_KEY_MAX_AGE_DAYS +:+ " days") ["IA-5(1)"] ["iam:ListUsers"; "iam:ListAccessKeys"].
Definition CLOUDTRAIL_MULTI_REGION : PostureCheck :=
  aws_check "aws.cloudtrail.multi_region_logging" "A multi-region CloudTrail trail is logging" "aws_account"
    "at least one multi-region CloudTrail trail exists and is actively logging" ["AU-2"; "AU-12"] ["cloudtrail:DescribeTrails"; "cloudtrail:GetTrailStatus"].
Definition CLOUDTRAIL_LOG_FILE_VALIDATION : PostureCheck :=
  aws_check "aws.cloudtrail.log_file_validation" "Every CloudTrail trail validates its log files" "cloudtrail_trail"
    "each CloudTrail trail has log file validation enabled" ["AU-9"; "AU-9(3)"] ["cloudtrail:DescribeTrails"].
Definition S3_PUBLIC_ACCESS_BLOCKED : PostureCheck :=
  aws_check "aws.s3.public_access_blocked" "Every bucket blocks public access at the bucket level" "s3_bucket"
    "each S3 bucket has all four public-access-block settings enabled" ["AC-3"; "AC-4"; "SC-7"] ["s3:ListAllMyBuckets"; "s3:GetBucketPublicAccessBlock"].
Definition S3_DEFAULT_ENCRYPTION : PostureCheck :=
  aws_check "aws.s3.default_encryption" "Every bucket encrypts objects at rest by default" "s3_bucket"
    "each S3 bucket has a default server-side encryption rule" ["SC-28"; "SC-28(1)"] ["s3:ListAllMyBuckets"; "s3:GetEncryptionConfiguration"].
Definition INSPECTOR_ENABLED : PostureCheck :=
  aws_check "aws.inspector.enabled" "Amazon Inspector scans every resource type" "aws_account"
    "Inspector is enabled for EC2, ECR and Lambda in this account" ["RA-5"; "RA-5(2)"] ["inspector2:BatchGetAccountStatus"].
Definition PATCH_COMPLIANCE : PostureCheck :=
  aws_check "aws.ssm.patch_compliance" "Every managed instance is patched" "aws_instance"
    "no Systems Manager-managed instance has missing or failed patches" ["SI-2"; "SI-2(2)"; "CM-6"] ["ssm:DescribeInstancePatchStates"].
Definition RDS_NOT_PUBLICLY_ACCESSIBLE : PostureCheck :=
  aws_check "aws.rds.not_publicly_accessible" "No database instance is reachable from the internet" "aws_db_instance"
    "no RDS instance has PubliclyAccessible enabled" ["SC-7"; "SC-7(3)"; "AC-4"] ["rds:DescribeDBInstances"].
Definition SECURITY_GROUP_ADMIN_INGRESS : PostureCheck :=
  aws_check "aws.ec2.security_groups_no_public_admin_ingress" "No security group exposes SSH or RDP to the internet" "aws_security_group"
    "no security group permits ingress from 0.0.0.0/0 or ::/0 to port 22 or 3389" ["SC-7"; "AC-4"; "CM-7"] ["ec2:DescribeSecurityGroups"].
Definition VPC_FLOW_LOGS : PostureCheck :=
  aws_check "aws.vpc.flow_logs_enabled" "Every VPC records network flow logs" "aws_vpc"
    "each VPC has at least one flow log in the ACTIVE state" ["AU-2"; "AU-12"; "SI-4"] ["ec2:DescribeVpcs"; "ec2:DescribeFlowLogs"].
Definition EBS_ENCRYPTION_BY_DEFAULT : PostureCheck :=
  aws_check "aws.ec2.ebs_encryption_by_default" "New EBS volumes are encrypted by default" "aws_account"
    "EBS encryption by default is enabled in this account and region" ["SC-28"; "SC-28(1)"] ["ec2:GetEbsEncryptionByDefault"].

Definition AWS_CHECKS : list PostureCheck :=
  [ROOT_MFA_ENABLED; PASSWORD_POLICY; ACCESS_KEY_ROTATION; CLOUDTRAIL_MULTI_REGION; CLOUDTRAIL_LOG_FILE_VALIDATION; S3_PUBLIC_ACCESS_BLOCKED;
   S3_DEFAULT_ENCRYPTION; EBS_ENCRYPTION_BY_DEFAULT; SECURITY_GROUP_ADMIN_INGRESS; VPC_FLOW_LOGS; RDS_NOT_PUBLICLY_ACCESSIBLE; INSPECTOR_ENABLED;
   PATCH_COMPLIANCE].
Definition AWS_ENDPOINTS : list (string * string) :=
  [(pc_key ROOT_MFA_ENABLED, "iam.get_account_summary"); (pc_key PASSWORD_POLICY, "iam.get_account_password_policy");
   (pc_key ACCESS_KEY_ROTATION, "iam.list_access_keys"); (pc_key CLOUDTRAIL_MULTI_REGION, "cloudtrail.describe_trails");
   (pc_key CLOUDTRAIL_LOG_FILE_VALIDATION, "cloudtrail.describe_trails"); (pc_key S3_PUBLIC_ACCESS_BLOCKED, "s3.get_public_access_block");
   (pc_key S3_DEFAULT_ENCRYPTION, "s3.get_bucket_encryption"); (pc_key EBS_ENCRYPTION_BY_DEFAULT, "ec2.get_ebs_encryption_by_default");
   (pc_key SECURITY_GROUP_ADMIN_INGRESS, "ec2.describe_security_groups"); (pc_key VPC_FLOW_LOGS, "ec2.describe_flow_logs");
   (pc_key RDS_NOT_PUBLICLY_ACCESSIBLE, "rds.describe_db_instances"); (pc_key INSPECTOR_ENABLED, "inspector2.batch_get_account_status");
   (pc_key PATCH_COMPLIANCE, "ssm.describe_instance_patch_states")].

(** ** Identity *)

Definition summary_map (rows : list row) : option row := head (omap (fun r => is_dict (vget "SummaryMap" r)) rows).
Definition evaluate_root_mfa (rows : list row) (account_id : string) : list ResourceFinding :=
  match summary_map rows with
  | None => [finding account_id "aws_account" "manual_review_required" "IAM account summary unavailable; root MFA state not observed"
               [("rows", VInt (count rows))]]
  | Some summary =>
      let raw := vget "AccountMFAEnabled" summary in
      let enabled := py_eq raw (VInt 1) in
      [finding account_id "aws_account" (pass_or_fail enabled)
         (if enabled then "root user has an MFA device enabled" else "root user has no MFA device enabled (AccountMFAEnabled=0)")
         [("AccountMFAEnabled", raw); ("AccountAccessKeysPresent", vget "AccountAccessKeysPresent" summary)]]
  end.

Definition or_not_set (v : pyval) : string := if is_none v then "not set" else py_str v.
Definition at_least (minimum : Z) (v : pyval) : bool := match is_int v with Some n => minimum <=? n | None => false end.
Definition shortfall (what : string) (minimum : Z) (v : pyval) : list string :=
  if at_least minimum v then [] else [what +:+ " " +:+ or_not_set v +:+ " (requires " +:+ pretty minimum +:+ ")"].
Definition evaluate_password_policy (min_length reuse_generations : Z) (rows : list row) (account_id : string) : list ResourceFinding :=
  match head (omap (fun r => is_dict (vget "PasswordPolicy" r)) rows) with
  | None => [finding account_id "aws_account" "fail"
               "no IAM account password policy is configured; the AWS default applies (no minimum length, no reuse prevention)" [("policy", VNone)]]
  | Some policy =>
      let length := vget "MinimumPasswordLength" policy in
      let reuse := vget "PasswordReusePrevention" policy in
      let problems := (shortfall "minimum length" min_length length ++ shortfall "password reuse prevention" reuse_generations reuse)%list in
      [finding account_id "aws_account" (pass_or_fail (bool_decide (problems = [])))
         (if bool_decide (problems = []) then "minimum length " +:+ py_str length +:+ ", password reuse prevention " +:+ py_str reuse else join "; " problems)
         [("MinimumPasswordLength", length); ("PasswordReusePrevention", reuse); ("ExpirePasswords", vget "ExpirePasswords" policy);
          ("MaxPasswordAge", vget "MaxPasswordAge" policy)]]
  end.

(** [CreateDate]: the object boto3 made, or whatever a recorded payload holds. *)
Inductive aws_date := DateObject (t : DateTime) | DateValue (v : pyval).
Record AwsRow := { aw_fields : row; aw_create_date : aws_date }.

Definition parse_aws_datetime (d : aws_date) : option Z :=
  match d with
  | DateObject t => utc t
  | DateValue (VStr s) => if str_truthy s then fromisoformat (zulu s) ≫= utc else None
  | DateValue _ => None
  end.
(** [str(value)] *)
Definition aws_date_str (d : aws_date) : string := match d with DateObject t => dt_str t | DateValue v => py_str v end.
Definition key_ref (r : row) : string := match vget "AccessKeyId" r with VStr s => str_or s "unknown" | _ => "unknown" end.
Definition key_finding (now threshold_days : Z) (k : AwsRow) : ResourceFinding :=
  let r := aw_fields k in
  let user := vget "UserName" r in
  let status := vget "Status" r in
  if negb (py_eq status (VStr ACTIVE_KEY_STATUS)) then
    finding (key_ref r) "iam_access_key" "not_applicable" ("access key status " +:+ py_repr status +:+ "; cannot authenticate")
      [("UserName", user); ("Status", status)]
  else match parse_aws_datetime (aw_create_date k) with
       | None => finding (key_ref r) "iam_access_key" "manual_review_required"
                   ("active access key for user " +:+ py_repr user +:+ " has no readable creation date; age not observed")
                   [("UserName", user); ("CreateDate", VStr (aws_date_str (aw_create_date k)))]
       | Some created =>
           let elapsed := now - created in
           finding (key_ref r) "iam_access_key" (pass_or_fail (elapsed <=? threshold_days * day_us))
             ("active access key for user " +:+ py_repr user +:+ " created " +:+ pretty (td_days elapsed) +:+ " day(s) ago")
             [("UserName", user); ("age_days", VInt (td_days elapsed))]
       end.
Definition evaluate_access_key_rotation (threshold_days now : Z) (rows : list AwsRow) : list ResourceFinding := map (key_finding now threshold_days) rows.

(** ** Audit *)

Definition trail_name (t : row) : pyval := py_or (vget "Name" t) (vget "TrailARN" t).
Definition trail_summary (t : row) : pyval :=
  VDict [("name", trail_name t); ("multi_region", vget "IsMultiRegionTrail" t); ("logging", vget "IsLogging" t)].
Definition is_multi_region (t : row) : bool := is_true_val (vget "IsMultiRegionTrail" t).
Definition evaluate_cloudtrail_multi_region (rows : list row) (account_id : string) : list ResourceFinding :=
  match List.filter (fun t => is_multi_region t && is_true_val (vget "IsLogging" t)) rows with
  | winner :: _ =>
      [finding account_id "aws_account" "pass" ("multi-region trail " +:+ py_repr (trail_name winner) +:+ " is logging")
         [("trail", py_or (vget "TrailARN" winner) (vget "Name" winner)); ("IncludeGlobalServiceEvents", vget "IncludeGlobalServiceEvents" winner);
          ("trails_examined", VInt (count rows))]]
  | [] =>
      let unknown := List.filter (fun t => is_multi_region t && negb (dhas "IsLogging" t)) rows in
      let trails := [("trails", VList (map trail_summary rows))] in
      if negb (bool_decide (unknown = [])) then
        [finding account_id "aws_account" "manual_review_required"
           (pretty (count unknown) +:+ " multi-region trail(s) exist but their logging status could not be read") trails]
      else [finding account_id "aws_account" "fail"
              (if bool_decide (rows = []) then "no CloudTrail trail is configured in this account"
               else "no multi-region trail is logging; " +:+ pretty (count rows) +:+ " trail(s) examined") trails]
  end.
Definition trail_finding (t : row) : ResourceFinding :=
  let ref := py_str (py_or (trail_name t) (VStr "unknown trail")) in
  let enabled := is_true_val (vget "LogFileValidationEnabled" t) in
  finding (py_str (py_or (vget "TrailARN" t) (VStr ref))) "cloudtrail_trail" (pass_or_fail enabled)
    (if enabled then ref +:+ ": log file validation enabled" else ref +:+ ": log file validation is not enabled")
    [("LogFileValidationEnabled", vget "LogFileValidationEnabled" t); ("IsMultiRegionTrail", vget "IsMultiRegionTrail" t)].
Definition evaluate_cloudtrail_log_file_validation (rows : list row) : list ResourceFinding := map trail_finding rows.

(** ** Storage *)

Definition PUBLIC_ACCESS_BLOCK_SETTINGS : list string := ["BlockPublicAcls"; "IgnorePublicAcls"; "BlockPublicPolicy"; "RestrictPublicBuckets"].
Definition bucket_name (r : row) : string := py_str (py_or (vget "Name" r) (VStr "unknown bucket")).
Definition unreadable_bucket (what : string) (r : row) : ResourceFinding :=
  finding (bucket_name r) "s3_bucket" "manual_review_required"
    (bucket_name r +:+ ": " +:+ what +:+ " configuration could not be read (" +:+ py_str (vget "Unreadable" r) +:+ ")") [("error", vget "Unreadable" r)].
Definition public_access_finding (r : row) : res ResourceFinding :=
  if truthy (vget "Unreadable" r) then Ok (unreadable_bucket "public-access-block" r) else
  let config := py_or (vget "PublicAccessBlockConfiguration" r) (VDict []) in
  let! values := res_map (fun s => let! v := obj_get s config in Ok (s, v)) PUBLIC_ACCESS_BLOCK_SETTINGS in
  let missing := map fst (List.filter (fun sv => negb (is_true_val sv.2)) values) in
  Ok (finding (bucket_name r) "s3_bucket" (pass_or_fail (bool_decide (missing = [])))
        (if bool_decide (missing = []) then bucket_name r +:+ ": public access blocked on all four settings"
         else bucket_name r +:+ ": not enabled — " +:+ join ", " missing) values).
Definition evaluate_s3_public_access_blocked (rows : list row) : res (list ResourceFinding) := res_map public_access_finding rows.

Definition rule_algorithm (rule : row) : res string :=
  let! v := obj_get "SSEAlgorithm" (py_or (vget "ApplyServerSideEncryptionByDefault" rule) (VDict [])) in Ok (py_str (py_or v (VStr ""))).
Definition encryption_finding (r : row) : res ResourceFinding :=
  if truthy (vget "Unreadable" r) then Ok (unreadable_bucket "encryption" r) else
  let! configured := obj_get "Rules" (py_or (vget "ServerSideEncryptionConfiguration" r) (VDict [])) in
  let! rules := each configured in
  let! algorithms := res_map rule_algorithm (omap is_dict rules) in
  let applied := List.filter str_truthy algorithms in
  Ok (finding (bucket_name r) "s3_bucket" (pass_or_fail (negb (bool_decide (applied = []))))
        (if bool_decide (applied = []) then bucket_name r +:+ ": no default server-side encryption rule"
         else bucket_name r +:+ ": default encryption with " +:+ join ", " applied) [("algorithms", texts applied); ("rules_examined", VInt (count rules))]).
Definition evaluate_s3_default_encryption (rows : list row) : res (list ResourceFinding) := res_map encryption_finding rows.

Definition evaluate_ebs_encryption_by_default (rows : list row) (account_id : string) : list ResourceFinding :=
  match rows with
  | summary :: _ =>
      if dhas "EbsEncryptionByDefault" summary then
        let setting := vget "EbsEncryptionByDefault" summary in
        let region := vget "Region" summary in
        let scope := if truthy region then " in " +:+ py_str region else "" in
        [finding account_id "aws_account" (pass_or_fail (is_true_val setting))
           ((if is_true_val setting then "EBS encryption by default is enabled" else "EBS encryption by default is disabled") +:+ scope)
           [("EbsEncryptionByDefault", setting); ("region_assessed", region)]]
      else [finding account_id "aws_account" "manual_review_required" "the account did not report an EBS default-encryption setting"
              [("rows_examined", VInt (count rows))]]
  | [] => [finding account_id "aws_account" "manual_review_required" "the account did not report an EBS default-encryption setting" [("rows_examined", VInt 0)]]
  end.

(** ** Network *)

Definition ADMIN_PORTS : list Z := [22; 3389].
Definition ANY_IPV4 : string := "0.0.0.0/0".
Definition ANY_IPV6 : string := "::/0".
Definition ranges (k cidr : string) (permission : row) : res (list pyval) := let! l := each (vget k permission) in res_map (obj_get cidr) l.
Definition open_to_world (permission : row) : res (list pyval) :=
  let! four := ranges "IpRanges" "CidrIp" permission in
  let! six := ranges "Ipv6Ranges" "CidrIpv6" permission in
  Ok (List.filter (fun c => py_in c [VStr ANY_IPV4; VStr ANY_IPV6]) (four ++ six)%list).
Definition unrestricted_admin_exposure (p : pyval) : res (list string) :=
  match p with
  | VDict permission =>
      let! world := open_to_world permission in
      if bool_decide (world = []) then Ok []
      else if bool_decide (py_str (default (VStr "") (dget "IpProtocol" permission)) = "-1") then Ok (map (fun c => "all protocols from " +:+ py_str c) world)
      else
      let from_port := vget "FromPort" permission in
      if is_none from_port then Ok [] else
      let to_port := vget "ToPort" permission in
      let! low := int_of from_port in
      let! high := int_of (if is_none to_port then from_port else to_port) in
      let exposed := List.filter (fun p => (low <=? p) && (p <=? high)) ADMIN_PORTS in
      Ok (flat_map (fun p => map (fun c => "port " +:+ pretty p +:+ " from " +:+ py_str c) world) exposed)
  | _ => Err (AttributeError (type_name p) "get")
  end.
Definition group_finding (g : row) : res ResourceFinding :=
  let group_id := named (vget "GroupId" g) (vget "GroupName" g) "unknown" in
  let! permissions := each (vget "IpPermissions" g) in
  let! found := res_map unrestricted_admin_exposure permissions in
  let exposures := concat found in
  Ok (finding group_id "aws_security_group" (pass_or_fail (bool_decide (exposures = [])))
        (if bool_decide (exposures = []) then "no unrestricted ingress to an administrative port"
         else py_str (py_or (vget "GroupName" g) (VStr group_id)) +:+ " permits " +:+ join "; " exposures)
        [("group_name", vget "GroupName" g); ("exposures", texts exposures); ("admin_ports", VList (map VInt ADMIN_PORTS))]).
Definition evaluate_security_group_admin_ingress (rows : list row) (account_id : string) : res (list ResourceFinding) :=
  match rows with
  | [] => Ok [finding account_id "aws_account" "manual_review_required" "the account reported no security groups, so none were assessed" [("rows_examined", VInt 0)]]
  | _ => res_map group_finding rows
  end.

Definition is_active_log (log : pyval) : res bool :=
  let! status := obj_get_or "FlowLogStatus" (VStr "") log in Ok (bool_decide (py_upper status = "ACTIVE")).
Definition inactive_text (log : pyval) : res string :=
  let! i := obj_get "FlowLogId" log in let! s := obj_get "FlowLogStatus" log in Ok (py_str i +:+ " is " +:+ py_str s).
Definition vpc_finding (v : row) : res ResourceFinding :=
  let! logs := each (vget "FlowLogs" v) in
  let! states := res_map is_active_log logs in
  let active := map fst (List.filter snd (combine logs states)) in
  let! inactive := res_map inactive_text (List.filter (fun log => negb (py_in log active)) logs) in
  Ok (finding (py_str (py_or (vget "VpcId" v) (VStr "unknown"))) "aws_vpc" (pass_or_fail (negb (bool_decide (active = []))))
        (if negb (bool_decide (active = [])) then pretty (count active) +:+ " active flow log(s)"
         else if negb (bool_decide (inactive = [])) then "no active flow log; " +:+ join "; " inactive
         else "no flow log is configured for this VPC")
        [("active", VInt (count active)); ("configured", VInt (count logs))]).
Definition evaluate_vpc_flow_logs (rows : list row) (account_id : string) : res (list ResourceFinding) :=
  match rows with
  | [] => Ok [finding account_id "aws_account" "manual_review_required" "the account reported no VPCs, so none were assessed" [("rows_examined", VInt 0)]]
  | _ => res_map vpc_finding rows
  end.

(** ** Databases, scanning, patches *)

Definition RDS_UNSETTLED_STATES : list string := ["creating"; "modifying"; "backing-up"; "deleting"; "rebooting"; "starting"].
Definition rds_finding (db : row) : ResourceFinding :=
  let name := py_str (py_or (vget "DBInstanceIdentifier" db) (VStr "unknown")) in
  let status := lower (strip (py_str (py_or (vget "DBInstanceStatus" db) (VStr "")))) in
  let facts := [("engine", vget "Engine" db); ("status", vget "DBInstanceStatus" db)] in
  if mem status RDS_UNSETTLED_STATES then finding name "aws_db_instance" "not_applicable" ("not assessed while the instance is " +:+ status) facts
  else if negb (dhas "PubliclyAccessible" db) then
    finding name "aws_db_instance" "manual_review_required" "the instance did not report whether it is publicly accessible" facts
  else let public := is_true_val (vget "PubliclyAccessible" db) in
       finding name "aws_db_instance" (pass_or_fail (negb public))
         (if public then "the instance is publicly accessible, so it is not separated from the public network"
          else "the instance is not publicly accessible") facts.
Definition evaluate_rds_not_publicly_accessible (rows : list row) (account_id : string) : list ResourceFinding :=
  match rows with
  | [] => [finding account_id "aws_account" "not_applicable" "the account runs no RDS instances" [("rows_examined", VInt 0)]]
  | _ => map rds_finding rows
  end.

Definition INSPECTOR_ACTIVE : list string := ["ENABLED"].
Definition inspector_state (v : pyval) : res (string * pyval) :=
  let! s := obj_get_or "status" (VStr "") (py_or v (VDict [])) in
  let! shown := obj_get "status" (py_or v (VDict [])) in Ok (py_upper s, shown).
Definition evaluate_inspector_enabled (rows : list row) (account_id : string) : res (list ResourceFinding) :=
  match vget "resourceState" (default [] (head rows)) with
  | VDict ((_ :: _) as state) =>
      let! states := res_map (fun kv => let! s := inspector_state kv.2 in Ok (kv.1, s)) state in
      let disabled := sorted_strs (map fst (List.filter (fun ks => negb (mem (ks.2).1 INSPECTOR_ACTIVE)) states)) in
      Ok [finding account_id "aws_account" (pass_or_fail (bool_decide (disabled = [])))
            (if bool_decide (disabled = []) then "Inspector is enabled for every reported resource type"
             else "Inspector is not scanning " +:+ join ", " disabled)
            [("disabled", texts disabled); ("states", VDict (map (fun ks => (ks.1, (ks.2).2)) states))]]
  | v => if truthy v then Err (AttributeError (type_name v) "items")
         else Ok [finding account_id "aws_account" "manual_review_required" "the account did not report an Inspector status"
                    [("rows_examined", VInt (count rows))]]
  end.

Definition patch_finding (r : row) : res ResourceFinding :=
  let name := py_str (py_or (vget "InstanceId" r) (VStr "unknown")) in
  let status := vget "PatchComplianceStatus" r in
  if negb (dhas "MissingCount" r) && negb (dhas "FailedCount" r) then
    Ok (finding name "aws_instance" "manual_review_required" "the instance reported no patch compliance data" [("status", status)])
  else
  let! missing := int_of (py_or (vget "MissingCount" r) (VInt 0)) in
  let! failed := int_of (py_or (vget "FailedCount" r) (VInt 0)) in
  let parts := ((if missing =? 0 then [] else [pretty missing +:+ " missing"]) ++ (if failed =? 0 then [] else [pretty failed +:+ " failed"]))%list in
  Ok (finding name "aws_instance" (pass_or_fail (missing + failed =? 0))
        (if missing + failed =? 0 then "no missing or failed patches" else "patches: " +:+ join " and " parts)
        [("missing", VInt missing); ("failed", VInt failed); ("status", status)]).
Definition evaluate_patch_compliance (rows : list row) (account_id : string) : res (list ResourceFinding) :=
  match rows with
  | [] => Ok [finding account_id "aws_account" "not_applicable" "no Systems Manager-managed instances were reported" [("rows_examined", VInt 0)]]
  | _ => res_map patch_finding rows
  end.

(** ** The registry *)

(** What a connector hands an evaluator: the parameters, the account, the time, the rows. *)
Definition aws_evaluator : Type := row -> string -> Z -> list AwsRow -> res (list ResourceFinding).
Definition of_fields (f : list row -> string -> res (list ResourceFinding)) : aws_evaluator := fun _ account_id _ rows => f (map aw_fields rows) account_id.
Definition AWS_EVALUATORS : list (string * aws_evaluator) :=
  [(pc_key ROOT_MFA_ENABLED, of_fields (fun rows a => Ok (evaluate_root_mfa rows a)));
   (pc_key PASSWORD_POLICY, of_fields (fun rows a => Ok (evaluate_password_policy MIN_PASSWORD_LENGTH MIN_PASSWORD_REUSE_PREVENTION rows a)));
   (pc_key ACCESS_KEY_ROTATION, fun parameters _ now rows => let! days := int_param "threshold_days" ACCESS_KEY_MAX_AGE_DAYS parameters in
                                                             Ok (evaluate_access_key_rotation days now rows));
   (pc_key CLOUDTRAIL_MULTI_REGION, of_fields (fun rows a => Ok (evaluate_cloudtrail_multi_region rows a)));
   (pc_key CLOUDTRAIL_LOG_FILE_VALIDATION, of_fields (fun rows _ => Ok (evaluate_cloudtrail_log_file_validation rows)));
   (pc_key S3_PUBLIC_ACCESS_BLOCKED, of_fields (fun rows _ => evaluate_s3_public_access_blocked rows));
   (pc_key S3_DEFAULT_ENCRYPTION, of_fields (fun rows _ => evaluate_s3_default_encryption rows));
   (pc_key EBS_ENCRYPTION_BY_DEFAULT, of_fields (fun rows a => Ok (evaluate_ebs_encryption_by_default rows a)));
   (pc_key SECURITY_GROUP_ADMIN_INGRESS, of_fields evaluate_security_group_admin_ingress);
   (pc_key VPC_FLOW_LOGS, of_fields evaluate_vpc_flow_logs);
   (pc_key RDS_NOT_PUBLICLY_ACCESSIBLE, of_fields (fun rows a => Ok (evaluate_rds_not_publicly_accessible rows a)));
   (pc_key INSPECTOR_ENABLED, of_fields evaluate_inspector_enabled);
   (pc_key PATCH_COMPLIANCE, of_fields evaluate_patch_compliance)].

(** ** What each check requires

    Stated on the rows, independently of the findings: what must have been observed for the
    control to be credited. *)

Definition root_has_mfa (rows : list row) : Prop := exists s, summary_map rows = Some s /\ py_eq (vget "AccountMFAEnabled" s) (VInt 1) = true.
Definition password_policy_is_strong (rows : list row) : Prop :=
  exists p n m, head (omap (fun r => is_dict (vget "PasswordPolicy" r)) rows) = Some p /\
    vget "MinimumPasswordLength" p = VInt n /\ MIN_PASSWORD_LENGTH <= n /\ vget "PasswordReusePrevention" p = VInt m /\ MIN_PASSWORD_REUSE_PREVENTION <= m.
Definition active_key (k : AwsRow) : Prop := py_eq (vget "Status" (aw_fields k)) (VStr ACTIVE_KEY_STATUS) = true.
Definition young_key (days now : Z) (k : AwsRow) : Prop := exists t, parse_aws_datetime (aw_create_date k) = Some t /\ now - t <= days * day_us.
Definition keys_are_rotated (days now : Z) (rows : list AwsRow) : Prop :=
  (exists k, k ∈ rows /\ active_key k) /\ forall k, k ∈ rows -> active_key k -> young_key days now k.
Definition a_trail_logs_everywhere (rows : list row) : Prop :=
  exists t, t ∈ rows /\ vget "IsMultiRegionTrail" t = VBool true /\ vget "IsLogging" t = VBool true.
Definition validates_logs (t : row) : Prop := vget "LogFileValidationEnabled" t = VBool true.
Definition blocks_public_access (r : row) : Prop :=
  truthy (vget "Unreadable" r) = false /\
  exists d, py_or (vget "PublicAccessBlockConfiguration" r) (VDict []) = VDict d /\ forall s, s ∈ PUBLIC_ACCESS_BLOCK_SETTINGS -> vget s d = VBool true.
Definition encrypts_by_default (r : row) : Prop :=
  truthy (vget "Unreadable" r) = false /\
  exists d rules rule a, py_or (vget "ServerSideEncryptionConfiguration" r) (VDict []) = VDict d /\ each (vget "Rules" d) = Ok rules /\
    VDict rule ∈ rules /\ rule_algorithm rule = Ok a /\ a <> "".
Definition ebs_is_encrypted (rows : list row) : Prop := exists r rest, rows = r :: rest /\ vget "EbsEncryptionByDefault" r = VBool true.
(** A rule open to the world on every protocol or over an administrative port. *)
Definition admin_rule (p : row) : Prop :=
  exists c world, open_to_world p = Ok (c :: world) /\
    (py_str (default (VStr "") (dget "IpProtocol" p)) = "-1" \/
     exists low high port, vget "FromPort" p <> VNone /\ int_of (vget "FromPort" p) = Ok low /\
       int_of (if is_none (vget "ToPort" p) then vget "FromPort" p else vget "ToPort" p) = Ok high /\ port ∈ ADMIN_PORTS /\ low <= port <= high).
Definition exposes_admin_ports (g : row) : Prop := exists l p, each (vget "IpPermissions" g) = Ok l /\ VDict p ∈ l /\ admin_rule p.
Definition records_flow (v : row) : Prop := exists logs log, each (vget "FlowLogs" v) = Ok logs /\ log ∈ logs /\ is_active_log log = Ok true.
Definition settled_db (db : row) : Prop := lower (strip (py_str (py_or (vget "DBInstanceStatus" db) (VStr "")))) ∉ RDS_UNSETTLED_STATES.
Definition private_db (db : row) : Prop := dhas "PubliclyAccessible" db = true /\ vget "PubliclyAccessible" db <> VBool true.
Definition databases_are_private (rows : list row) : Prop :=
  (exists db, db ∈ rows /\ settled_db db) /\ forall db, db ∈ rows -> settled_db db -> private_db db.
Definition inspects_everything (rows : list row) : Prop :=
  exists r rest kv l, rows = r :: rest /\ vget "resourceState" r = VDict (kv :: l) /\
    forall k v, (k, v) ∈ kv :: l -> exists s, obj_get_or "status" (VStr "") (py_or v (VDict [])) = Ok s /\ py_upper s = "ENABLED".
Definition is_patched (r : row) : Prop :=
  (dhas "MissingCount" r = true \/ dhas "FailedCount" r = true) /\
  exists m f, int_of (py_or (vget "MissingCount" r) (VInt 0)) = Ok m /\ int_of (py_or (vget "FailedCount" r) (VInt 0)) = Ok f /\ m + f = 0.

Definition on_fields (P : list row -> Prop) : row -> Z -> list AwsRow -> Prop := fun _ _ rows => P (map aw_fields rows).
Definition AWS_REQUIREMENTS : list (string * (row -> Z -> list AwsRow -> Prop)) :=
  [(pc_key ROOT_MFA_ENABLED, on_fields root_has_mfa);
   (pc_key PASSWORD_POLICY, on_fields password_policy_is_strong);
   (pc_key ACCESS_KEY_ROTATION, fun parameters now rows => exists days, int_param "threshold_days" ACCESS_KEY_MAX_AGE_DAYS parameters = Ok days /\
                                                             keys_are_rotated days now rows);
   (pc_key CLOUDTRAIL_MULTI_REGION, on_fields a_trail_logs_everywhere);
   (pc_key CLOUDTRAIL_LOG_FILE_VALIDATION, on_fields (all_of_some validates_logs));
   (pc_key S3_PUBLIC_ACCESS_BLOCKED, on_fields (all_of_some blocks_public_access));
   (pc_key S3_DEFAULT_ENCRYPTION, on_fields (all_of_some encrypts_by_default));
   (pc_key EBS_ENCRYPTION_BY_DEFAULT, on_fields ebs_is_encrypted);
   (pc_key SECURITY_GROUP_ADMIN_INGRESS, on_fields (all_of_some (fun g => ~ exposes_admin_ports g)));
   (pc_key VPC_FLOW_LOGS, on_fields (all_of_some records_flow));
   (pc_key RDS_NOT_PUBLICLY_ACCESSIBLE, on_fields databases_are_private);
   (pc_key INSPECTOR_ENABLED, on_fields inspects_everything);
   (pc_key PATCH_COMPLIANCE, on_fields (all_of_some is_patched))].

(** ** Lemmas *)

Lemma root_mfa_credits rows a : credits (evaluate_root_mfa rows a) (root_has_mfa rows).
Proof.
  unfold evaluate_root_mfa, root_has_mfa. destruct (summary_map rows) as [s|].
  - apply credits_one; [apply sound_pass_or_fail|]. cbn [finding verdict]. rewrite pass_or_fail_pass. split; [by exists s|by intros (s' & [= <-] & E)].
  - apply credits_one; [vocabulary|]. split; [done|by intros (s & ? & _)].
Qed.

Lemma at_least_spec m v : at_least m v = true <-> exists n, v = VInt n /\ m <= n.
Proof.
  unfold at_least. destruct v; cbn [is_int]; try (split; [done|by intros (n & ? & _)]). rewrite Z.leb_le.
  split; [by exists z|by intros (n & [= <-] & H)].
Qed.

Lemma password_credits rows a : credits (evaluate_password_policy MIN_PASSWORD_LENGTH MIN_PASSWORD_REUSE_PREVENTION rows a) (password_policy_is_strong rows).
Proof.
  unfold evaluate_password_policy, password_policy_is_strong. destruct (head _) as [p|].
  - apply credits_one; [apply sound_pass_or_fail|]. cbn [finding verdict]. rewrite pass_or_fail_pass, bool_decide_eq_true. unfold shortfall.
    destruct (at_least _ (vget "MinimumPasswordLength" p)) eqn:E1; destruct (at_least _ (vget "PasswordReusePrevention" p)) eqn:E2; cbn [app].
    + apply at_least_spec in E1 as (n & En & Hn), E2 as (m & Em & Hm). split; [|done]. intros _. by exists p, n, m.
    + split; [done|]. intros (p' & n & m & [= <-] & _ & _ & Em & Hm). rewrite (proj2 (at_least_spec _ _)) in E2 by eauto. done.
    + split; [done|]. intros (p' & n & m & [= <-] & En & Hn & _). rewrite (proj2 (at_least_spec _ _)) in E1 by eauto. done.
    + split; [done|]. intros (p' & n & m & [= <-] & En & Hn & _). rewrite (proj2 (at_least_spec _ _)) in E1 by eauto. done.
  - apply credits_one; [vocabulary|]. split; [done|by intros (p & n & m & ? & _)].
Qed.

Lemma keys_credit days now rows : credits (evaluate_access_key_rotation days now rows) (keys_are_rotated days now rows).
Proof.
  eapply credits_iff.
  - apply (credits_fleet (fun k => Ok (key_finding now days k)) (fun k => active_key k /\ young_key days now k) (fun k => ~ active_key k)); [|by apply res_map_Ok_in].
    intros k x [= <-]. unfold key_finding, active_key, young_key. destruct (py_eq _ _) eqn:Es; cbn [negb].
    + destruct (parse_aws_datetime _) as [t|]; cbn [finding verdict].
      * split; [apply sound_pass_or_fail|]. rewrite pass_or_fail_pass, Z.leb_le. split; [split; [intros; split; [done|by exists t]|by intros [_ (t' & [= <-] & H)]]|].
        split; [intros []%judged_not_excluded|by intros []].
      * split; [vocabulary|]. split; [split; [done|by intros [_ (t & ? & _)]]|]. split; [intros [?|?]%excluded_cases; done|by intros []].
    + split; [vocabulary|]. split; [split; [done|by intros [? _]]|]. split; [by intros _|intros _; vocabulary].
  - unfold keys_are_rotated. split; intros [(k & Hk & H) Hall].
    + split; [by exists k; tauto|]. intros k' Hk' Ha. destruct (Hall k' Hk') as [[_ ?]|?]; done.
    + split; [exists k; split; [done|]; split; [done|by apply Hall]|]. intros k' Hk'. unfold active_key in *. destruct (py_eq (vget "Status" (aw_fields k')) (VStr ACTIVE_KEY_STATUS)) eqn:E; [left|by right].
      split; [done|]. by apply Hall.
Qed.

Lemma trails_credit rows a : credits (evaluate_cloudtrail_multi_region rows a) (a_trail_logs_everywhere rows).
Proof.
  assert (Hw : forall t, t ∈ List.filter (fun t => is_multi_region t && is_true_val (vget "IsLogging" t)) rows <->
    t ∈ rows /\ vget "IsMultiRegionTrail" t = VBool true /\ vget "IsLogging" t = VBool true).
  { intros t. unfold is_multi_region. by rewrite list_elem_of_In, filter_In, <-list_elem_of_In, andb_true_iff, !is_true_val_true. }
  unfold evaluate_cloudtrail_multi_region, a_trail_logs_everywhere.
  destruct (List.filter (fun t => is_multi_region t && is_true_val _) rows) as [|w l].
  - assert (Hno : ~ exists t, t ∈ rows /\ vget "IsMultiRegionTrail" t = VBool true /\ vget "IsLogging" t = VBool true)
      by (intros (t & []%Hw%not_elem_of_nil)).
    cbv zeta. destruct (negb _); (apply credits_one; [vocabulary|]; split; [done|intros H; by destruct (Hno H)]).
  - apply credits_one; [vocabulary|]. split; [|done]. intros _. exists w. apply Hw. by left.
Qed.

Lemma logs_credit rows : credits (evaluate_cloudtrail_log_file_validation rows) (all_of_some validates_logs rows).
Proof.
  apply (credits_all (fun t => Ok (trail_finding t)) validates_logs (fun _ => False)); [|by intros ? _ []|by apply res_map_Ok_in].
  intros t x [= <-]. cbn [finding verdict]. unfold validates_logs. rewrite <-is_true_val_true, <-pass_or_fail_pass.
  split_and!; [apply sound_pass_or_fail|done|split; [intros []%judged_not_excluded|done]].
Qed.

Lemma settings_read config values : res_map (fun s => let! v := obj_get s config in Ok (s, v)) PUBLIC_ACCESS_BLOCK_SETTINGS = Ok values ->
  exists d, config = VDict d /\ values = map (fun s => (s, vget s d)) PUBLIC_ACCESS_BLOCK_SETTINGS.
Proof. destruct config; try done. intros [= <-]. by eexists. Qed.

Lemma public_access_judged r x : public_access_finding r = Ok x ->
  sound_finding x /\ (verdict x = "pass" <-> blocks_public_access r) /\ (verdict x ∈ EXCLUDED_FROM_ROLLUP <-> False).
Proof.
  unfold public_access_finding, blocks_public_access. destruct (truthy (vget "Unreadable" r)).
  - intros [= <-]. apply judged_open; [done|by intros [? _]].
  - intros (values & Hv & [= <-])%res_bind_Ok. apply settings_read in Hv as (d & -> & ->). eapply judged_bool; [done|].
    rewrite bool_decide_eq_true. split.
    + intros E. split; [done|]. exists d. split; [done|]. intros s Hs. apply is_true_val_true, not_false_iff_true. intros Hf.
      assert (s ∈ map fst (List.filter (fun sv : string * pyval => negb (is_true_val sv.2)) (map (fun s => (s, vget s d)) PUBLIC_ACCESS_BLOCK_SETTINGS))) as H.
      { apply list_elem_of_fmap. exists (s, vget s d). split; [done|]. apply list_elem_of_In, filter_In. rewrite <-list_elem_of_In. split; [|cbn [snd]; by rewrite Hf].
        apply list_elem_of_fmap. by exists s. }
      rewrite E in H. by apply not_elem_of_nil in H.
    + intros (_ & d' & [= <-] & H). destruct (map fst _) as [|s l] eqn:E; [done|]. exfalso.
      assert (s ∈ s :: l) as Hs by by left. rewrite <-E in Hs. apply list_elem_of_fmap in Hs as ([s' v] & -> & Hs).
      apply list_elem_of_In, filter_In in Hs as [Hs Hn]. apply list_elem_of_In, list_elem_of_fmap in Hs as (s & [= -> ->] & Hs).
      apply H, is_true_val_true in Hs. cbn in Hn. by rewrite Hs in Hn.
Qed.

Lemma encryption_judged r x : encryption_finding r = Ok x ->
  sound_finding x /\ (verdict x = "pass" <-> encrypts_by_default r) /\ (verdict x ∈ EXCLUDED_FROM_ROLLUP <-> False).
Proof.
  unfold encryption_finding, encrypts_by_default. destruct (truthy (vget "Unreadable" r)).
  - intros [= <-]. apply judged_open; [done|by intros [? _]].
  - intros (configured & (d & Ed & <-)%obj_get_dict & (rules & Er & (algs & Ea & [= <-])%res_bind_Ok)%res_bind_Ok)%res_bind_Ok.
    eapply judged_bool; [done|]. rewrite negb_true_iff, bool_decide_eq_false, some_filtered. setoid_rewrite truthy_ne. apply res_map_Forall2 in Ea.
    assert (Hrule : forall rule, rule ∈ omap is_dict rules <-> VDict rule ∈ rules).
    { intros rule. rewrite list_elem_of_omap. split; [intros ([] & Hin & [=]); by subst|intros H; by eexists]. }
    split.
    + intros (a & Ha & Hne). split; [done|]. destruct (Forall2_elem_r _ _ _ Ea a Ha) as (rule & Hin%Hrule & E). by exists d, rules, rule, a.
    + intros (_ & d' & rules' & rule & a & E' & Er' & Hin & E & Hne). rewrite Ed in E'. injection E' as <-. rewrite Er in Er'. injection Er' as <-.
      destruct (Forall2_elem_l _ _ _ Ea rule) as (a' & Ha' & Ea'); [by apply Hrule|]. exists a'. split; [done|]. congruence.
Qed.

Lemma ebs_credits rows a : credits (evaluate_ebs_encryption_by_default rows a) (ebs_is_encrypted rows).
Proof.
  unfold evaluate_ebs_encryption_by_default, ebs_is_encrypted. destruct rows as [|r rows].
  - apply credits_one; [vocabulary|]. split; [done|by intros (? & ? & ? & _)].
  - destruct (dhas _ r) eqn:Eh.
    + apply credits_one; [apply sound_pass_or_fail|]. cbn [finding verdict]. rewrite pass_or_fail_pass, is_true_val_true.
      split; [by intros H; exists r, rows|by intros (? & ? & [= <- <-] & H)].
    + apply credits_one; [vocabulary|]. split; [done|]. intros (? & ? & [= <- <-] & H). apply mem_false, dget_None in Eh. unfold vget in H. by rewrite Eh in H.
Qed.

Lemma flat_map_nil {A B} (f : A -> list B) l : flat_map f l = [] <-> forall x, x ∈ l -> f x = [].
Proof.
  induction l as [|x l IH]; cbn [flat_map]; [split; [by intros _ x ?%not_elem_of_nil|done]|]. split.
  - intros [E1 E2]%app_eq_nil y [->|Hy]%elem_of_cons; [done|]. by apply IH.
  - intros H. rewrite (H x) by by left. apply IH. intros y Hy. apply H. by right.
Qed.

Lemma exposure_spec p l : unrestricted_admin_exposure (VDict p) = Ok l -> l <> [] <-> admin_rule p.
Proof.
  unfold unrestricted_admin_exposure, admin_rule. intros (world & Ew & E)%res_bind_Ok. setoid_rewrite Ew. destruct world as [|c world]; cbn [bool_decide] in E.
  { injection E as <-. split; [done|by intros (? & ? & ? & _)]. }
  rewrite bool_decide_eq_false_2 in E by done. destruct (bool_decide (py_str _ = "-1")) eqn:Ep.
  { injection E as <-. apply bool_decide_eq_true_1 in Ep. split; [intros _; exists c, world; split; [done|by left]|by cbn]. }
  apply bool_decide_eq_false_1 in Ep. destruct (is_none (vget "FromPort" p)) eqn:Ef.
  { injection E as <-. split; [done|]. intros (? & ? & _ & [?|(? & ? & ? & Hn & _)]); [done|]. by destruct (vget "FromPort" p). }
  apply res_bind_Ok in E as (low & El & (high & Eh & E)%res_bind_Ok).
  assert (Hn : vget "FromPort" p <> VNone) by (intros Hn; by rewrite Hn in Ef).
  remember (List.filter (fun p => (low <=? p) && (p <=? high)) ADMIN_PORTS) as exposed eqn:Ex.
  assert (Hin : forall port, port ∈ exposed <-> port ∈ ADMIN_PORTS /\ low <= port <= high).
  { intros port. by rewrite Ex, list_elem_of_In, filter_In, <-list_elem_of_In, andb_true_iff, !Z.leb_le. }
  injection E as <-. clear Ex. split.
  - intros Hne. exists c, world. split; [done|right]. destruct exposed as [|port k]; [done|]. exists low, high, port.
    destruct (proj1 (Hin port) ltac:(by left)) as [? [? ?]]. done.
  - intros (? & ? & _ & [?|(low' & high' & port & _ & El' & Eh' & Hp)]); [done|]. rewrite El in El'. injection El' as <-. rewrite Eh in Eh'. injection Eh' as <-.
    intros E. by specialize (proj1 (flat_map_nil _ _) E port (proj2 (Hin port) Hp)).
Qed.

Lemma group_judged g x : group_finding g = Ok x ->
  sound_finding x /\ (verdict x = "pass" <-> ~ exposes_admin_ports g) /\ (verdict x ∈ EXCLUDED_FROM_ROLLUP <-> False).
Proof.
  unfold group_finding, exposes_admin_ports. intros (ps & Ep & (found & Ef & [= <-])%res_bind_Ok)%res_bind_Ok. eapply judged_bool; [done|].
  rewrite bool_decide_eq_true. apply res_map_Forall2 in Ef. split.
  - intros E (ps' & p & Ep' & Hin & Ha). rewrite Ep in Ep'. injection Ep' as <-. destruct (Forall2_elem_l _ _ _ Ef _ Hin) as (l & Hl & El).
    apply (exposure_spec _ _ El) in Ha. apply Ha. apply list_elem_of_In, in_split in Hl as (l1 & l2 & ->). rewrite concat_app in E.
    apply app_eq_nil in E as [_ E]. by apply app_eq_nil in E as [E _].
  - intros H. apply concat_nil_Forall, Forall_forall. intros l Hl. destruct (Forall2_elem_r _ _ _ Ef l Hl) as (p & Hp & El).
    destruct l as [|s l]; [done|]. destruct p; try done. destruct H. exists ps, d. split_and!; [done|done|]. by apply (exposure_spec _ _ El).
Qed.

Lemma vpc_judged v x : vpc_finding v = Ok x -> sound_finding x /\ (verdict x = "pass" <-> records_flow v) /\ (verdict x ∈ EXCLUDED_FROM_ROLLUP <-> False).
Proof.
  unfold vpc_finding, records_flow. intros (logs & El & (states & Es & (inactive & _ & [= <-])%res_bind_Ok)%res_bind_Ok)%res_bind_Ok. eapply judged_bool; [done|].
  rewrite negb_true_iff, bool_decide_eq_false. apply res_map_Forall2 in Es.
  assert (Hc : List.filter snd (combine logs states) <> [] <-> exists log, log ∈ logs /\ is_active_log log = Ok true).
  { rewrite some_filtered. clear El. induction Es as [|log b logs states Hb _ IH]; cbn [combine]; [split; intros (? & ?%not_elem_of_nil & _); done|].
    setoid_rewrite elem_of_cons. split.
    - intros ([l b'] & [[= -> ->]|Hin] & Ht); [exists log; split; [by left|]; cbn in Ht; by subst|]. destruct (proj1 IH) as (l' & Hl' & E); [by exists (l, b')|]. exists l'. tauto.
    - intros (l & [->|Hin] & E); [exists (log, b); split; [by left|]; cbn; congruence|]. destruct (proj2 IH) as (y & Hy & E'); [by exists l|]. exists y. tauto. }
  transitivity (List.filter snd (combine logs states) <> []).
  - split; intros H E; apply H; [by rewrite E|by apply map_eq_nil in E].
  - rewrite Hc. split; [intros (log & Hin & E); by exists logs, log|]. intros (logs' & log & El' & Hin & E). rewrite El in El'. injection El' as <-. by exists log.
Qed.

Lemma databases_credit rows a : credits (evaluate_rds_not_publicly_accessible rows a) (databases_are_private rows).
Proof.
  unfold evaluate_rds_not_publicly_accessible, databases_are_private. destruct rows as [|r rows].
  { apply nothing_credits; [vocabulary|done|]. by intros [(? & ?%not_elem_of_nil & _) _]. }
  eapply credits_iff; [apply (credits_fleet (fun db => Ok (rds_finding db)) (fun db => settled_db db /\ private_db db) (fun db => ~ settled_db db)); [|by apply res_map_Ok_in]|].
  - intros db x [= <-]. unfold rds_finding, settled_db, private_db. destruct (mem _ RDS_UNSETTLED_STATES) eqn:Es; [apply mem_true in Es|apply mem_false in Es].
    { split; [vocabulary|]. split; [split; [done|by intros [? _]]|]. split; [by intros _ ?|intros _; vocabulary]. }
    destruct (dhas "PubliclyAccessible" db) eqn:Eh; cbn [negb finding verdict].
    + split; [apply sound_pass_or_fail|]. rewrite pass_or_fail_pass, negb_true_iff, <-is_true_val_true, not_true_iff_false. split; [by split; [|intros (_ & _ & ?)]|].
      split; [intros []%judged_not_excluded|by intros []].
    + split; [vocabulary|]. split; [split; [done|by intros (_ & ? & _)]|]. split; [intros [?|?]%excluded_cases; done|by intros []].
  - split; intros [(db & Hdb & H) Hall].
    + split; [by exists db; tauto|]. intros db' Hin Hs. destruct (Hall db' Hin) as [[_ ?]|?]; done.
    + split; [by exists db; auto|]. intros db' Hin. destruct (decide (lower (strip (py_str (py_or (vget "DBInstanceStatus" db') (VStr "")))) ∈ RDS_UNSETTLED_STATES)); [by right; intros []|left; auto].
Qed.

Lemma inspector_credits rows a fs : evaluate_inspector_enabled rows a = Ok fs -> credits fs (inspects_everything rows).
Proof.
  unfold evaluate_inspector_enabled, inspects_everything. set (st := vget "resourceState" (default [] (head rows))).
  assert (Hst : (exists kv l, st = VDict (kv :: l)) \/ forall r rest kv l, ~ (rows = r :: rest /\ vget "resourceState" r = VDict (kv :: l))).
  { destruct st as [| | | | | |[|kv l]] eqn:E; [..|by left; eexists _, _]; right; intros r rest kv' l' [-> E']; unfold st in E; cbn [head default from_option id] in E; congruence. }
  destruct Hst as [(kv & l & Est)|Hno].
  - rewrite Est. intros (states & Hs & [= <-])%res_bind_Ok. apply credits_one; [apply sound_pass_or_fail|]. cbn [finding verdict].
    rewrite pass_or_fail_pass, bool_decide_eq_true, sorted_strs_nil. apply res_map_Forall2 in Hs.
    assert (Hread : forall (k : string) v (y : string * (string * pyval)), (let! s := inspector_state v in Ok (k, s)) = Ok y ->
      exists s shown, y = (k, (py_upper s, shown)) /\ obj_get_or "status" (VStr "") (py_or v (VDict [])) = Ok s).
    { intros k v y (z & Hz & [= <-])%res_bind_Ok. unfold inspector_state in Hz. apply res_bind_Ok in Hz as (s & Es & (w & Ew & [= <-])%res_bind_Ok). by exists s, w. }
    assert (Hrows : exists r rest, rows = r :: rest /\ vget "resourceState" r = VDict (kv :: l)) by (unfold st in Est; destruct rows as [|r rest]; [done|by exists r, rest]).
    destruct Hrows as (r & rest & -> & Er). split.
    + intros E. exists r, rest, kv, l. split_and!; [done|done|]. intros k v Hin. destruct (Forall2_elem_l _ _ _ Hs _ Hin) as (y & Hy & Ey).
      destruct (Hread _ _ _ Ey) as (s & shown & -> & Es). exists s. split; [done|]. destruct (mem (py_upper s) INSPECTOR_ACTIVE) eqn:Em; [by apply mem_true, list_elem_of_singleton in Em|].
      exfalso. assert (map fst (List.filter (fun ks : string * (string * pyval) => negb (mem (ks.2).1 INSPECTOR_ACTIVE)) states) <> []); [|done].
      intros Hnil%map_eq_nil. apply some_filtered in Hnil; [done|]. exists (k, (py_upper s, shown)). cbn. by rewrite Em.
    + intros (r' & rest' & kv' & l' & [= <- <-] & Er' & H). rewrite Er in Er'. injection Er' as <- <-.
      destruct (map fst _) as [|k ks] eqn:E; [done|]. exfalso. assert (Hne : List.filter (fun ks : string * (string * pyval) => negb (mem (ks.2).1 INSPECTOR_ACTIVE)) states <> []) by (intros Hn; by rewrite Hn in E).
      apply some_filtered in Hne as (y & Hy & Hm). destruct (Forall2_elem_r _ _ _ Hs y Hy) as ([k' v'] & Hin & Ey). destruct (Hread _ _ _ Ey) as (s & shown & -> & Es).
      destruct (H k' v' Hin) as (s' & Es' & Eu). cbn [snd] in Es. rewrite Es in Es'. injection Es' as <-. cbn in Hm. by rewrite Eu in Hm.
  - assert (Hn : ~ inspects_everything rows) by (intros (r & rest & kv & l & Er & Es & _); by apply (Hno r rest kv l)).
    destruct st as [| | | | | |[|kv l]] eqn:E; [intros Hfs..|]; [try (destruct (truthy _); [done|]); injection Hfs as <-; by apply nothing_credits; [vocabulary|..]..|].
    exfalso. unfold st in E. destruct rows as [|r rest]; [done|]. by apply (Hno r rest kv l).
Qed.

Lemma patch_judged r x : patch_finding r = Ok x -> sound_finding x /\ (verdict x = "pass" <-> is_patched r) /\ (verdict x ∈ EXCLUDED_FROM_ROLLUP <-> False).
Proof.
  unfold patch_finding, is_patched. destruct (dhas "MissingCount" r) eqn:E1; destruct (dhas "FailedCount" r) eqn:E2; cbn [negb andb];
    try (intros [= <-]; apply judged_open; [done|intros [[|] _]; congruence]);
    (intros (m & Em & (f & Ef & [= <-])%res_bind_Ok)%res_bind_Ok; eapply judged_bool; [done|]; rewrite Z.eqb_eq; split;
      [intros H; split; [by (left + right)|by exists m, f]|intros (_ & m' & f' & Em' & Ef' & H); congruence]).
Qed.

(** A fleet whose every row is judged right or wrong, or an answer that says it saw nothing. *)
Lemma fleet_or_nothing (f : row -> res ResourceFinding) (right : row -> Prop) nothing rows fs :
  (forall r x, f r = Ok x -> sound_finding x /\ (verdict x = "pass" <-> right r) /\ (verdict x ∈ EXCLUDED_FROM_ROLLUP <-> False)) ->
  verdict nothing ∈ VALIDATION_STATUSES -> verdict nothing <> "pass" ->
  match rows with [] => Ok [nothing] | _ => res_map f rows end = Ok fs -> credits fs (all_of_some right rows).
Proof.
  intros Hj Hv Hp. destruct rows as [|r rows].
  - intros [= <-]. apply credits_one; [done|]. split; [done|by intros []].
  - intros Hm. by apply (credits_all f right (fun _ => False)); [|intros ? _ []|].
Qed.

Lemma aws_credits key : forall ev, dget key AWS_EVALUATORS = Some ev -> exists need, dget key AWS_REQUIREMENTS = Some need /\
  forall parameters account_id now rows fs, ev parameters account_id now rows = Ok fs -> credits fs (need parameters now rows).
Proof.
  intros ev. unfold AWS_EVALUATORS, AWS_REQUIREMENTS, of_fields, on_fields. cbn [dget].
  repeat (case_decide; [intros [= <-]; eexists; split; [reflexivity|]; intros parameters account_id now rows fs E; cbv beta in E |- *|]); try done.
  - injection E as <-. apply root_mfa_credits.
  - injection E as <-. apply password_credits.
  - apply res_bind_Ok in E as (days & Ed & [= <-]). eapply credits_iff; [apply keys_credit|]. split; [by exists days|]. intros (d & Ed' & ?). rewrite Ed in Ed'. by injection Ed' as <-.
  - injection E as <-. apply trails_credit.
  - injection E as <-. apply logs_credit.
  - by apply (credits_all _ _ _ public_access_judged); [intros ? _ []|].
  - by apply (credits_all _ _ _ encryption_judged); [intros ? _ []|].
  - injection E as <-. apply ebs_credits.
  - unfold evaluate_security_group_admin_ingress in E. refine (fleet_or_nothing _ _ _ _ _ group_judged _ _ E); [vocabulary|done].
  - unfold evaluate_vpc_flow_logs in E. refine (fleet_or_nothing _ _ _ _ _ vpc_judged _ _ E); [vocabulary|done].
  - injection E as <-. apply databases_credit.
  - by eapply inspector_credits.
  - unfold evaluate_patch_compliance in E. refine (fleet_or_nothing _ _ _ _ _ patch_judged _ _ E); [vocabulary|done].
Qed.

(** ** Properties *)

(** C10: a control is credited on AWS exactly when what it requires was observed. Every
    registered check has an evaluator, a source and a requirement; whatever the APIs
    returned, when an evaluator answers its findings can be rolled up, and the verdict is a
    pass exactly under the requirement on the rows: a field that is missing, unreadable or
    of another type never passes a check, and a single bad resource fails it. *)
Theorem aws_passes_are_observed :
  map fst AWS_EVALUATORS = map fst AWS_REQUIREMENTS /\
  (forall c, c ∈ AWS_CHECKS -> dhas (pc_key c) AWS_EVALUATORS = true /\ dhas (pc_key c) AWS_ENDPOINTS = true) /\
  forall key ev, dget key AWS_EVALUATORS = Some ev -> exists need, dget key AWS_REQUIREMENTS = Some need /\
    forall c parameters account_id now rows fs, ev parameters account_id now rows = Ok fs ->
    exists o, from_findings c fs = Ok o /\ co_findings o = fs /\ (co_verdict o = "pass" <-> need parameters now rows).
Proof.
  split; [reflexivity|]. split.
  { intros c Hc. apply list_elem_of_In in Hc. cbn [AWS_CHECKS In] in Hc. repeat (destruct Hc as [<-|Hc]; [by vm_compute|]). done. }
  intros key ev Hev. destruct (aws_credits key ev Hev) as (need & Hn & H). exists need. split; [done|].
  intros c parameters account_id now rows fs E. destruct (H _ _ _ _ _ E) as [Hs Hv]. destruct (sound_rollup c fs Hs) as (v & Ev & Eo).
  eexists. split; [exact Eo|]. split; [done|]. by apply Hv.
Qed.

Definition fields_only (r : row) : AwsRow := {| aw_fields := r; aw_create_date := DateValue VNone |}.
Definition group_row (port : Z) (cidr : string) : row :=
  [("GroupId", VStr "sg-1"); ("IpPermissions", VList [VDict [("IpProtocol", VStr "tcp"); ("FromPort", VInt port); ("ToPort", VInt port);
    ("IpRanges", VList [VDict [("CidrIp", VStr cidr)]])]])].
Definition group_rows : list AwsRow := [fields_only (group_row 443 ANY_IPV4); fields_only (group_row 22 ANY_IPV4)].
Definition group_findings : list ResourceFinding :=
  match evaluate_security_group_admin_ingress (map aw_fields group_rows) "a" with Ok fs => fs | Err _ => [] end.
Lemma aws_passes_are_observed_witness : exists need, dget (pc_key SECURITY_GROUP_ADMIN_INGRESS) AWS_REQUIREMENTS = Some need /\
  exists o, from_findings SECURITY_GROUP_ADMIN_INGRESS group_findings = Ok o /\ co_findings o = group_findings /\
    (co_verdict o = "pass" <-> need [] 0 group_rows).
Proof.
  destruct (proj2 (proj2 aws_passes_are_observed) (pc_key SECURITY_GROUP_ADMIN_INGRESS) (of_fields evaluate_security_group_admin_ingress) ltac:(reflexivity)) as (need & Hn & H).
  exists need. split; [exact Hn|]. apply (H SECURITY_GROUP_ADMIN_INGRESS [] "a" 0). vm_compute. reflexivity.
Defined.
(** One exposed group is enough to fail the account. *)
Example exposed_group_fails : map verdict group_findings = ["pass"; "fail"] /\ roll_up_findings (map verdict group_findings) = Ok "fail".
Proof. vm_compute. by split. Qed.
