(* ===== verification/M365Checks.v ===== *)
(** Microsoft 365 posture checks ([src/src/ccf/posture/providers/m365.py]): nineteen
    evaluators of the rows Graph returned, and their registry. *)

From S2P Require Export Observations.

Local Open Scope string_scope.
Local Open Scope Z_scope.

Definition STALE_ACCOUNT_DAYS : Z := 90.
Definition LEGACY_CLIENT_APP_TYPES : list string := ["exchangeActiveSync"; "other"].
Definition PHISHING_RESISTANT_METHODS : list string := ["Fido2"; "X509Certificate"].
Definition PHISHABLE_METHODS : list string := ["Sms"; "Voice"; "Email"].
Definition UNRESTRICTED_INVITE_SETTINGS : list string := ["everyone"; "adminsGuestInvitersAndAllMembers"].
Definition PRIVILEGED_DEFAULT_PERMISSIONS : list string := ["allowedToCreateTenants"; "allowedToCreateApps"; "allowedToCreateSecurityGroups"].
Definition AUDIT_RECENCY_DAYS : Z := 7.
Definition DEVICE_NONCOMPLIANT_STATES : list string := ["noncompliant"; "conflict"; "error"; "inGracePeriod"].
Definition DEVICE_UNEVALUATED_STATES : list string := ["unknown"; "notApplicable"; "configManager"].
Definition RISK_UNRESOLVED_STATES : list string := ["atRisk"; "confirmedCompromised"].
Definition LOCK_TIMEOUT_KEY : string := "passwordMinutesOfInactivityBeforeLock".
Definition LOCK_REQUIRED_KEY : string := "passwordRequired".
Definition SESSION_LOCK_MAX_MINUTES : Z := 15.
Definition LOCKOUT_MAX_ATTEMPTS : Z := 10.
Definition ALERT_TRIAGE_DAYS : Z := 30.
Definition ALERT_OPEN_STATES : list string := ["new"; "inprogress"].
Definition ALERT_ACTIONABLE_SEVERITIES : list string := ["high"; "critical"].
Definition PASSWORD_SETTINGS_NAME : string := "Password Rule Settings".
Definition LOCKOUT_THRESHOLD_KEY : string := "LockoutThreshold".
Definition LOCKOUT_DURATION_KEY : string := "LockoutDurationInSeconds".
Definition REMOVABLE_STORAGE_KEY : string := "storageBlockRemovableStorage".
Definition SIGNIN_FREQUENCY_KEY : string := "signInFrequency".
Definition DEVICE_GRANT_CONTROLS : list string := ["compliantDevice"; "domainJoinedDevice"].

(** ** The checks *)

Definition m365_check (key title rtype expected : string) (controls permissions : list string) : PostureCheck :=
  check key title "msgraph" rtype expected controls permissions.
Definition MFA_REGISTERED : PostureCheck :=
  m365_check "m365.identity.mfa_registered" "Every user has an MFA method registered" "entra_user"
    "every user has a multi-factor authentication method registered" ["IA-2"; "IA-2(1)"] ["AuditLog.Read.All"].
Definition LEGACY_AUTH_BLOCKED : PostureCheck :=
  m365_check "m365.policy.legacy_auth_blocked" "Legacy authentication is blocked" "m365_tenant"
    "an enabled Conditional Access policy blocks legacy authentication clients" ["IA-2"; "AC-17"] ["Policy.Read.All"].
Definition STALE_ACCOUNTS : PostureCheck :=
  m365_check "m365.identity.stale_accounts" "No enabled account is inactive past the threshold" "entra_user"
    ("no enabled account has been inactive longer than " +:+ pretty STALE_ACCOUNT_DAYS +:+ " days") ["AC-2"; "AC-2(3)"] ["AuditLog.Read.All"; "User.Read.All"].
Definition PHISHING_RESISTANT_MFA : PostureCheck :=
  m365_check "m365.identity.phishing_resistant_mfa" "A phishing-resistant authentication method is enabled" "m365_tenant"
    "at least one of FIDO2 or certificate-based authentication is enabled" ["IA-2(11)"] ["Policy.Read.All"].
Definition PHISHABLE_METHODS_DISABLED : PostureCheck :=
  m365_check "m365.identity.phishable_methods_disabled" "Interceptable authentication methods are disabled" "m365_tenant"
    "SMS, voice and email are not enabled as authentication methods" ["IA-2(1)"; "IA-2(2)"] ["Policy.Read.All"].
Definition GUEST_INVITES_RESTRICTED : PostureCheck :=
  m365_check "m365.policy.guest_invites_restricted" "Guest invitations are restricted to administrators" "m365_tenant"
    "inviting external guests is not open to all members" ["AC-3"; "AC-6"] ["Policy.Read.All"].
Definition DEFAULT_USER_PERMISSIONS_RESTRICTED : PostureCheck :=
  m365_check "m365.policy.default_user_permissions_restricted" "Default user permissions withhold privileged capability" "m365_tenant"
    "ordinary accounts cannot create tenants, register applications, or create security groups" ["AC-6"; "AC-6(1)"] ["Policy.Read.All"].
Definition SIGNIN_AUDIT_CURRENT : PostureCheck :=
  m365_check "m365.audit.signin_records_current" "Sign-in audit records are being produced" "m365_tenant"
    ("a sign-in audit record exists within the last " +:+ pretty AUDIT_RECENCY_DAYS +:+ " days") ["AU-2"; "AU-12"] ["AuditLog.Read.All"].
Definition DIRECTORY_AUDIT_CURRENT : PostureCheck :=
  m365_check "m365.audit.directory_changes_recorded" "Directory changes are recorded in the audit log" "m365_tenant"
    ("a directory audit record exists within the last " +:+ pretty AUDIT_RECENCY_DAYS +:+ " days") ["AU-2"; "AU-3"; "AU-12"] ["AuditLog.Read.All"].
Definition DEVICE_COMPLIANCE : PostureCheck :=
  m365_check "m365.device.compliance_enforced" "Managed devices meet their compliance baseline" "managed_device"
    "every evaluated managed device is compliant with its assigned policy" ["CM-6"; "CM-2"; "SI-2"] ["DeviceManagementManagedDevices.Read.All"].
Definition RISKY_USERS_RESOLVED : PostureCheck :=
  m365_check "m365.identity.risky_users_resolved" "Flagged risky users have been dealt with" "entra_user"
    "no user remains at risk without a disposition" ["AC-2(12)"; "SI-4"; "AU-6"] ["IdentityRiskyUser.Read.All"].
Definition SESSION_LOCK_ENFORCED : PostureCheck :=
  m365_check "m365.device.session_lock_enforced" "A device compliance policy locks the screen after inactivity" "m365_tenant"
    ("at least one device compliance policy requires a password and locks the screen after no more than " +:+ pretty SESSION_LOCK_MAX_MINUTES +:+
     " minutes of inactivity") ["AC-11"; "AC-11(1)"] ["DeviceManagementConfiguration.Read.All"].
Definition LOCKOUT_THRESHOLD : PostureCheck :=
  m365_check "m365.identity.lockout_threshold_enforced" "Sign-in lockout is enabled with a bounded threshold" "m365_tenant"
    ("the tenant's sign-in lockout threshold is enabled and no greater than " +:+ pretty LOCKOUT_MAX_ATTEMPTS +:+ " failed attempts")
    ["AC-7"; "AC-7(1)"] ["Directory.Read.All"].
Definition SECURITY_ALERTS_TRIAGED : PostureCheck :=
  m365_check "m365.security.alerts_triaged" "No high-severity security alert is left unactioned" "m365_security_alert"
    ("no high or critical security alert has been left unresolved for more than " +:+ pretty ALERT_TRIAGE_DAYS +:+ " days")
    ["SI-4"; "SI-5"; "IR-4"] ["SecurityAlert.Read.All"].
Definition REMOVABLE_STORAGE_BLOCKED : PostureCheck :=
  m365_check "m365.device.removable_storage_blocked" "A device configuration blocks removable storage" "m365_tenant"
    "at least one device configuration profile blocks removable storage" ["MP-7"; "AC-20(2)"] ["DeviceManagementConfiguration.Read.All"].
Definition STORAGE_ENCRYPTION_REQUIRED : PostureCheck :=
  m365_check "m365.device.storage_encryption_required" "A device compliance policy requires storage encryption" "m365_tenant"
    "at least one device compliance policy requires device storage to be encrypted" ["SC-28"; "SC-28(1)"; "AC-19(5)"] ["DeviceManagementConfiguration.Read.All"].
Definition SESSION_REAUTHENTICATION_REQUIRED : PostureCheck :=
  m365_check "m365.policy.session_reauthentication_required" "Conditional Access forces periodic reauthentication" "m365_tenant"
    "an enabled Conditional Access policy sets a sign-in frequency, so a session cannot continue indefinitely without reauthenticating"
    ["AC-12"] ["Policy.Read.All"].
Definition SYSTEM_USE_NOTIFICATION : PostureCheck :=
  m365_check "m365.identity.system_use_notification" "A system use notification is displayed before access is granted" "m365_tenant"
    "at least one terms-of-use agreement that the user must be shown before accepting (isViewingBeforeAcceptanceRequired)" ["AC-8"] ["Agreement.Read.All"].
Definition DEVICE_COMPLIANCE_REQUIRED : PostureCheck :=
  m365_check "m365.policy.device_compliance_required" "Access requires a device the tenant has identified" "m365_tenant"
    "an enabled Conditional Access policy granting only on compliantDevice or domainJoinedDevice" ["IA-3"] ["Policy.Read.All"].
Definition M365_CHECKS : list PostureCheck :=
  [MFA_REGISTERED; LEGACY_AUTH_BLOCKED; STALE_ACCOUNTS; PHISHING_RESISTANT_MFA; PHISHABLE_METHODS_DISABLED; GUEST_INVITES_RESTRICTED;
   DEFAULT_USER_PERMISSIONS_RESTRICTED; SIGNIN_AUDIT_CURRENT; DIRECTORY_AUDIT_CURRENT; DEVICE_COMPLIANCE; RISKY_USERS_RESOLVED; SESSION_LOCK_ENFORCED;
   STORAGE_ENCRYPTION_REQUIRED; SESSION_REAUTHENTICATION_REQUIRED; LOCKOUT_THRESHOLD; SECURITY_ALERTS_TRIAGED; SYSTEM_USE_NOTIFICATION;
   DEVICE_COMPLIANCE_REQUIRED; REMOVABLE_STORAGE_BLOCKED].
Definition M365_ENDPOINTS : list (string * string) :=
  [(pc_key MFA_REGISTERED, "/v1.0/reports/authenticationMethods/userRegistrationDetails");
   (pc_key LEGACY_AUTH_BLOCKED, "/v1.0/identity/conditionalAccess/policies");
   (pc_key STALE_ACCOUNTS, "/v1.0/users?$select=id,userPrincipalName,accountEnabled,signInActivity&$top=500");
   (pc_key PHISHING_RESISTANT_MFA, "/v1.0/policies/authenticationMethodsPolicy"); (pc_key PHISHABLE_METHODS_DISABLED, "/v1.0/policies/authenticationMethodsPolicy");
   (pc_key GUEST_INVITES_RESTRICTED, "/v1.0/policies/authorizationPolicy"); (pc_key DEFAULT_USER_PERMISSIONS_RESTRICTED, "/v1.0/policies/authorizationPolicy");
   (pc_key SIGNIN_AUDIT_CURRENT, "/v1.0/auditLogs/signIns?$top=1"); (pc_key DIRECTORY_AUDIT_CURRENT, "/v1.0/auditLogs/directoryAudits?$top=1");
   (pc_key DEVICE_COMPLIANCE, "/v1.0/deviceManagement/managedDevices?$select=id,deviceName,complianceState,operatingSystem&$top=500");
   (pc_key RISKY_USERS_RESOLVED, "/v1.0/identityProtection/riskyUsers?$select=id,userPrincipalName,riskLevel,riskState&$top=500");
   (pc_key SESSION_LOCK_ENFORCED, "/v1.0/deviceManagement/deviceCompliancePolicies"); (pc_key STORAGE_ENCRYPTION_REQUIRED, "/v1.0/deviceManagement/deviceCompliancePolicies");
   (pc_key SESSION_REAUTHENTICATION_REQUIRED, "/v1.0/identity/conditionalAccess/policies"); (pc_key LOCKOUT_THRESHOLD, "/beta/settings");
   (pc_key SECURITY_ALERTS_TRIAGED, "/v1.0/security/alerts_v2"); (pc_key REMOVABLE_STORAGE_BLOCKED, "/v1.0/deviceManagement/deviceConfigurations");
   (pc_key SYSTEM_USE_NOTIFICATION, "/v1.0/identityGovernance/termsOfUse/agreements"); (pc_key DEVICE_COMPLIANCE_REQUIRED, "/v1.0/identity/conditionalAccess/policies")].

(** ** Findings and timestamps *)

(** One finding, the tenant as the resource. *)
Definition tenant_verdict (passed unassessable : bool) : string := if unassessable then "manual_review_required" else pass_or_fail passed.
Definition tenant_finding (tenant_id : string) (passed unassessable : bool) (obs : string) (d : row) : list ResourceFinding :=
  [finding tenant_id "m365_tenant" (tenant_verdict passed unassessable) obs d].
Definition parse_graph_datetime (v : pyval) : option DateTime :=
  match v with VStr s => if str_truthy s then fromisoformat (zulu s) else None | _ => None end.
Definition display_name (p : row) : string := py_repr (py_or (vget "displayName" p) (vget "id" p)).
Definition user_ref (r : row) : string :=
  match vget "userPrincipalName" r with
  | VStr s => if str_truthy s then s else py_str (py_or (vget "id" r) (VStr "unknown"))
  | _ => py_str (py_or (vget "id" r) (VStr "unknown"))
  end.

(** ** Identity *)

Definition mfa_finding (r : row) : ResourceFinding :=
  let capable := truthy (vget "isMfaCapable" r) in
  let registered := truthy (vget "isMfaRegistered" r) in
  finding (user_ref r) "entra_user" (pass_or_fail capable)
    (if capable then "MFA-capable: a policy-allowed method is registered"
     else if registered then "not MFA-capable: a method is registered but not allowed by the current authentication methods policy"
     else "not MFA-capable: no MFA method registered")
    [("userType", vget "userType" r); ("isAdmin", vget "isAdmin" r); ("isMfaRegistered", VBool registered)].
Definition evaluate_mfa_registered (rows : list row) : list ResourceFinding := map mfa_finding rows.

Definition nested (k k' : string) (p : row) : res pyval := obj_get k' (py_or (vget k p) (VDict [])).
Definition is_enabled (p : row) : bool := py_eq (vget "state" p) (VStr "enabled").
Definition blocks_legacy_auth (policy : row) : res bool :=
  if negb (is_enabled policy) then Ok false else
  let! types := nested "conditions" "clientAppTypes" policy in
  let! app_types := as_set types in
  if bool_decide (members_of LEGACY_CLIENT_APP_TYPES app_types = []) then Ok false else
  let! controls := nested "grantControls" "builtInControls" policy in
  holds_text "block" (py_or controls (VList [])).
Definition evaluate_legacy_auth_blocked (rows : list row) (tenant_id : string) : res (list ResourceFinding) :=
  let! blocking := first_such blocks_legacy_auth rows in
  Ok (match blocking with
      | Some p => tenant_finding tenant_id true false ("blocked by Conditional Access policy " +:+ display_name p) [("policy_id", vget "id" p)]
      | None => tenant_finding tenant_id false false "no enabled Conditional Access policy blocks legacy authentication" [("policies_examined", VInt (count rows))]
      end).

Definition stale_finding (now threshold_days : Z) (r : row) : res ResourceFinding :=
  if negb (truthy (vget "accountEnabled" r)) then Ok (finding (user_ref r) "entra_user" "not_applicable" "account disabled" []) else
  let! last_sign_in := nested "signInActivity" "lastSignInDateTime" r in
  match parse_graph_datetime last_sign_in with
  | None => Ok (finding (user_ref r) "entra_user" "not_applicable" "no interactive sign-in activity reported" [])
  | Some last =>
      let! elapsed := minus_dt now last in
      Ok (finding (user_ref r) "entra_user" (pass_or_fail (elapsed <=? threshold_days * day_us))
            ("last interactive sign-in " +:+ pretty (td_days elapsed) +:+ " day(s) ago") [("last_sign_in", last_sign_in)])
  end.
Definition evaluate_stale_accounts (threshold_days now : Z) (rows : list row) : res (list ResourceFinding) := res_map (stale_finding now threshold_days) rows.

Definition first_row (rows : list row) : row := default [] (head rows).
Definition method_id (m : pyval) : option string :=
  match m with VDict d => if py_eq (vget "state" d) (VStr "enabled") then Some (py_str (vget "id" d)) else None | _ => None end.
Definition enabled_methods (rows : list row) : res (list string) :=
  let! configs := each (vget "authenticationMethodConfigurations" (first_row rows)) in Ok (sorted_set (omap method_id configs)).
Definition among (names enabled : list string) : list string := sorted_strs (List.filter (fun s => mem s enabled) names).
Definition evaluate_phishing_resistant_mfa (rows : list row) (tenant_id : string) : res (list ResourceFinding) :=
  let! enabled := enabled_methods rows in
  let available := among PHISHING_RESISTANT_METHODS enabled in
  Ok (if bool_decide (available = []) then
        tenant_finding tenant_id false false
          ("no phishing-resistant method is enabled; expected one of " +:+ join ", " (sorted_strs PHISHING_RESISTANT_METHODS)) [("enabled_methods", texts enabled)]
      else tenant_finding tenant_id true false ("phishing-resistant method(s) enabled: " +:+ join ", " available) [("enabled", texts available)]).
Definition evaluate_phishable_methods_disabled (rows : list row) (tenant_id : string) : res (list ResourceFinding) :=
  let! enabled := enabled_methods rows in
  let offending := among PHISHABLE_METHODS enabled in
  Ok (if bool_decide (offending = []) then
        tenant_finding tenant_id true false "no interceptable authentication method is enabled" [("enabled_methods", texts enabled)]
      else tenant_finding tenant_id false false ("interceptable method(s) enabled: " +:+ join ", " offending) [("offending", texts offending)]).

Definition evaluate_guest_invites_restricted (rows : list row) (tenant_id : string) : list ResourceFinding :=
  let setting := vget "allowInvitesFrom" (first_row rows) in
  if is_none setting then [finding tenant_id "m365_tenant" "not_applicable" "the tenant reported no guest-invitation setting" []]
  else if mem (py_str setting) UNRESTRICTED_INVITE_SETTINGS then
    tenant_finding tenant_id false false ("guest invitations are open to " +:+ py_repr setting) [("allowInvitesFrom", setting)]
  else tenant_finding tenant_id true false ("guest invitations restricted to " +:+ py_repr setting) [("allowInvitesFrom", setting)].
Definition evaluate_default_user_permissions (rows : list row) (tenant_id : string) : list ResourceFinding :=
  match vget "defaultUserRolePermissions" (first_row rows) with
  | VDict permissions =>
      let granted := List.filter (fun name => is_true_val (vget name permissions)) PRIVILEGED_DEFAULT_PERMISSIONS in
      if bool_decide (granted = []) then
        tenant_finding tenant_id true false "default users hold none of the privileged capabilities checked" [("checked", texts PRIVILEGED_DEFAULT_PERMISSIONS)]
      else tenant_finding tenant_id false false ("default users may: " +:+ join ", " granted) [("granted", texts granted)]
  | _ => [finding tenant_id "m365_tenant" "not_applicable" "the tenant reported no default user-role permissions" []]
  end.

Definition risky_finding (r : row) : ResourceFinding :=
  let state := py_str (py_or (vget "riskState" r) (VStr "unknown")) in
  let level := py_str (py_or (vget "riskLevel" r) (VStr "unknown")) in
  let ref := named (vget "userPrincipalName" r) (vget "id" r) "unknown user" in
  let outstanding := mem state RISK_UNRESOLVED_STATES in
  finding (py_str (py_or (vget "id" r) (VStr ref))) "entra_user" (pass_or_fail (negb outstanding))
    (if outstanding then ref +:+ ": risk " +:+ level +:+ ", " +:+ state else ref +:+ ": " +:+ state) [("riskState", VStr state); ("riskLevel", VStr level)].
Definition evaluate_risky_users_resolved (rows : list row) : list ResourceFinding := map risky_finding rows.

(** ** Audit records *)

(** The newest readable timestamp of a field. *)
Definition newer_stamp (field : string) (newest : option DateTime) (r : row) : res (option DateTime) :=
  match parse_graph_datetime (vget field r), newest with
  | None, _ => Ok newest
  | Some t, None => Ok (Some t)
  | Some t, Some n => let! later := dt_gt t n in Ok (Some (if later then t else n))
  end.
Definition audit_recency (field label : string) (rows : list row) (tenant_id : string) (now : Z) : res (list ResourceFinding) :=
  let! newest := res_fold (newer_stamp field) None rows in
  match newest with
  | None => Ok (tenant_finding tenant_id false false ("no " +:+ label +:+ " record was returned") [("records_examined", VInt (count rows))])
  | Some t =>
      let! elapsed := minus_dt now t in
      let age := td_days elapsed in
      Ok (tenant_finding tenant_id (age <=? AUDIT_RECENCY_DAYS) false ("most recent " +:+ label +:+ " record is " +:+ pretty age +:+ " day(s) old")
            [("newest", VStr (isoformat t)); ("threshold_days", VInt AUDIT_RECENCY_DAYS)])
  end.
Definition evaluate_signin_audit_current : list row -> string -> Z -> res (list ResourceFinding) := audit_recency "createdDateTime" "sign-in".
Definition evaluate_directory_audit_current : list row -> string -> Z -> res (list ResourceFinding) := audit_recency "activityDateTime" "directory audit".

(** ** Devices *)

Definition device_finding (r : row) : ResourceFinding :=
  let state := py_str (py_or (vget "complianceState" r) (VStr "unknown")) in
  let ref := named (vget "deviceName" r) (vget "id" r) "unknown device" in
  let vo := if mem state DEVICE_UNEVALUATED_STATES then ("not_applicable", "not evaluated (" +:+ state +:+ ")")
            else if mem state DEVICE_NONCOMPLIANT_STATES then ("fail", state +:+ " against its assigned policy")
            else ("pass", "compliant (" +:+ py_str (py_or (vget "operatingSystem" r) (VStr "unknown OS")) +:+ ")") in
  finding (py_str (py_or (vget "id" r) (VStr ref))) "managed_device" vo.1 (ref +:+ ": " +:+ vo.2) [("complianceState", VStr state)].
Definition evaluate_device_compliance (rows : list row) : list ResourceFinding := map device_finding rows.

Definition lock_minutes (policy : row) : option Z :=
  match vget LOCK_TIMEOUT_KEY policy with VInt n => if n <=? 0 then None else Some n | _ => None end.
Definition locks_in_time (max_minutes : Z) (p : row) : bool :=
  is_true_val (vget LOCK_REQUIRED_KEY p) && match lock_minutes p with Some m => m <=? max_minutes | None => false end.
Definition minutes_val (p : row) : pyval := match lock_minutes p with Some m => VInt m | None => VNone end.
Definition lock_shortfall (max_minutes : Z) (rows : list row) : string :=
  match omap lock_minutes rows with
  | m :: l =>
      let soonest := min_by id m l in
      if max_minutes <? soonest then
        pretty (count (m :: l)) +:+ " policy/policies set a lock, the soonest at " +:+ pretty soonest +:+ " minute(s), longer than the " +:+
        pretty max_minutes +:+ " expected"
      else pretty (count (m :: l)) +:+ " policy/policies set a lock but do not require a password"
  | [] => if bool_decide (rows = []) then "no device compliance policy exists"
          else "none of " +:+ pretty (count rows) +:+ " device compliance policy/policies configures an inactivity lock"
  end.
Definition evaluate_session_lock_enforced (max_minutes : Z) (rows : list row) (tenant_id : string) : list ResourceFinding :=
  match List.filter (locks_in_time max_minutes) rows with
  | first :: others =>
      tenant_finding tenant_id true false
        (display_name first +:+ " requires a password and locks after " +:+ py_str (minutes_val first) +:+ " minute(s)")
        [("policy_id", vget "id" first); ("lock_minutes", minutes_val first); ("qualifying_policies", VInt (count (first :: others)));
         ("policies_examined", VInt (count rows))]
  | [] => tenant_finding tenant_id false false (lock_shortfall max_minutes rows)
            [("policies_examined", VInt (count rows)); ("policies_with_a_lock", VInt (count (omap lock_minutes rows))); ("expected_max_minutes", VInt max_minutes)]
  end.

Definition requires_encryption (p : row) : bool := is_true_val (vget "storageRequireEncryption" p).
Definition evaluate_storage_encryption_required (rows : list row) (tenant_id : string) : list ResourceFinding :=
  match List.filter requires_encryption rows with
  | first :: others =>
      tenant_finding tenant_id true false (display_name first +:+ " requires storage encryption")
        [("policy_id", vget "id" first); ("requiring_policies", VInt (count (first :: others))); ("policies_examined", VInt (count rows))]
  | [] => tenant_finding tenant_id false false
            (if bool_decide (rows = []) then "no device compliance policy exists"
             else "none of " +:+ pretty (count rows) +:+ " device compliance policy/policies requires storage encryption")
            [("policies_examined", VInt (count rows))]
  end.

Definition blocks_removable (r : row) : bool := is_true_val (vget REMOVABLE_STORAGE_KEY r).
Definition evaluate_removable_storage_blocked (rows : list row) (tenant_id : string) : list ResourceFinding :=
  let opinions := List.filter (dhas REMOVABLE_STORAGE_KEY) rows in
  match List.filter blocks_removable opinions with
  | first :: others =>
      tenant_finding tenant_id true false (display_name first +:+ " blocks removable storage")
        [("blocking_profiles", VInt (count (first :: others))); ("profiles_with_a_setting", VInt (count opinions)); ("profiles_examined", VInt (count rows))]
  | [] =>
      if bool_decide (opinions = []) then
        tenant_finding tenant_id false true
          (if bool_decide (rows = []) then "no device configuration profile exists"
           else "none of " +:+ pretty (count rows) +:+ " configuration profile(s) configures removable storage") [("profiles_examined", VInt (count rows))]
      else tenant_finding tenant_id false false (pretty (count opinions) +:+ " configuration profile(s) set removable storage and none blocks it")
             [("profiles_with_a_setting", VInt (count opinions)); ("profiles_examined", VInt (count rows))]
  end.

(** ** Conditional Access *)

Definition sets_signin_frequency (policy : row) : option row :=
  if negb (is_enabled policy) then None else
  match vget "sessionControls" policy with
  | VDict controls => match vget SIGNIN_FREQUENCY_KEY controls with
                      | VDict frequency => if is_true_val (vget "isEnabled" frequency) then Some frequency else None
                      | _ => None
                      end
  | _ => None
  end.
Definition described_frequency (frequency : row) : string :=
  if py_eq (vget "frequencyInterval" frequency) (VStr "everyTime") then "reauthentication on every use"
  else if negb (is_none (vget "value" frequency)) then
    py_str (vget "value" frequency) +:+ " " +:+ py_str (py_or (vget "type" frequency) (VStr "unit(s)"))
  else "an enabled sign-in frequency with no stated period".
Definition evaluate_session_reauthentication_required (rows : list row) (tenant_id : string) : list ResourceFinding :=
  match head (omap (fun p => (fun f => (p, f)) <$> sets_signin_frequency p) rows) with
  | Some (policy, frequency) =>
      tenant_finding tenant_id true false (display_name policy +:+ " requires " +:+ described_frequency frequency)
        [("policy_id", vget "id" policy); ("sign_in_frequency", VDict frequency)]
  | None => tenant_finding tenant_id false false
              (if bool_decide (rows = []) then "no Conditional Access policy exists"
               else "none of " +:+ pretty (count rows) +:+ " Conditional Access policy/policies sets a sign-in frequency") [("policies_examined", VInt (count rows))]
  end.

(** The device conditions a policy grants on. *)
Definition device_controls (policy : row) : res (list string) :=
  let! v := nested "grantControls" "builtInControls" policy in
  let! controls := as_set v in Ok (members_of DEVICE_GRANT_CONTROLS controls).
Definition policy_name (p : row) : string := named (vget "displayName" p) (vget "id" p) "unnamed".
(** The loop: the first enforced policy and its conditions, or the policies not enforced. *)
Fixpoint device_policy (unenforced : list string) (rows : list row) : res ((row * list string) + list string) :=
  match rows with
  | [] => Ok (inr unenforced)
  | p :: rows' =>
      let! controls := device_controls p in
      if bool_decide (controls = []) then device_policy unenforced rows' else
      let state := py_str (py_or (vget "state" p) (VStr "")) in
      if bool_decide (state = "enabled") then Ok (inl (p, controls))
      else device_policy (unenforced ++ [policy_name p +:+ " (" +:+ str_or state "no state" +:+ ")"])%list rows'
  end.
Definition evaluate_device_compliance_required (rows : list row) (tenant_id : string) : res (list ResourceFinding) :=
  let! found := device_policy [] rows in
  let considered := VInt (count rows) in
  Ok (match found with
      | inl (p, controls) =>
          tenant_finding tenant_id true false (repr_str (policy_name p) +:+ " is enabled and grants only on " +:+ join ", " controls)
            [("policies", considered); ("policy", VStr (policy_name p))]
      | inr (_ :: _ as unenforced) =>
          tenant_finding tenant_id false false
            (pretty (count unenforced) +:+ " policy(ies) require a known device but none is enforced: " +:+ join ", " (take 4 unenforced))
            [("policies", considered); ("not_enforced", texts (take 20 unenforced))]
      | inr [] => tenant_finding tenant_id false false
                    (if bool_decide (rows = []) then "no Conditional Access policy exists for this tenant"
                     else "no enabled Conditional Access policy grants on device identity across " +:+ pretty (count rows) +:+ " policy(ies)")
                    [("policies", considered)]
      end).

(** ** Lockout, alerts, notification *)

(** The value of the first entry of that name in a list of name and value pairs: [None]
    when there is none, [Some VNone] when it is null. *)
Fixpoint named_value (key : string) (l : list pyval) : res (option pyval) :=
  match l with
  | [] => Ok None
  | v :: l' => let! n := obj_get "name" v in
               if py_eq n (VStr key) then let! raw := obj_get "value" v in Ok (Some raw) else named_value key l'
  end.
Fixpoint password_setting (key : string) (rows : list row) : res (option string) :=
  match rows with
  | [] => Ok None
  | r :: rows' =>
      if negb (py_eq (vget "displayName" r) (VStr PASSWORD_SETTINGS_NAME)) then password_setting key rows' else
      let! values := each (vget "values" r) in
      let! found := named_value key values in
      match found with
      | Some raw => Ok (if is_none raw then None else Some (py_str raw))
      | None => password_setting key rows'
      end
  end.
Definition evaluate_lockout_threshold (max_attempts : pyval) (rows : list row) (tenant_id : string) : res (list ResourceFinding) :=
  let! setting := password_setting LOCKOUT_THRESHOLD_KEY rows in
  let raw := or_empty setting in
  if negb (str_truthy (strip raw)) then
    Ok (tenant_finding tenant_id false true "the tenant did not report a password-rule lockout threshold, so its value could not be read"
          [("settings_examined", VInt (count rows))])
  else match py_int raw with
       | Err _ => Ok (tenant_finding tenant_id false true ("the reported lockout threshold " +:+ repr_str raw +:+ " is not a number") [("raw", VStr raw)])
       | Ok threshold =>
           let! duration := password_setting LOCKOUT_DURATION_KEY rows in
           if threshold <=? 0 then
             Ok (tenant_finding tenant_id false false "sign-in lockout is disabled (threshold 0)" [("threshold", VInt threshold); ("max_attempts", max_attempts)])
           else
           let! within := int_le threshold max_attempts in
           Ok (tenant_finding tenant_id within false
                 ("lockout after " +:+ pretty threshold +:+ " failed attempt(s)" +:+
                  (if str_truthy (or_empty duration) then ", for " +:+ or_empty duration +:+ "s" else "") +:+
                  (if within then "" else ", longer than the " +:+ py_str max_attempts +:+ " expected"))
                 [("threshold", VInt threshold); ("lockout_duration_seconds", match duration with Some s => VStr s | None => VNone end); ("max_attempts", max_attempts)])
       end.

Definition lowered (v : pyval) : string := lower (strip (py_str (py_or v (VStr "")))).
Definition is_open_alert (a : row) : bool :=
  mem (lowered (vget "status" a)) ALERT_OPEN_STATES && mem (lowered (vget "severity" a)) ALERT_ACTIONABLE_SEVERITIES.
Definition at_utc (us : Z) : DateTime := {| dt_local := us; dt_offset := Some 0 |}.
(** The loop body: the finding of a stale alert. One reading of the clock. *)
Definition stale_alert (threshold_days now : Z) (a : row) : res (option ResourceFinding) :=
  if negb (is_open_alert a) then Ok None else
  match parse_graph_datetime (vget "createdDateTime" a) with
  | None => Ok None
  | Some created =>
      let! recent := dt_gt created (at_utc (now - threshold_days * day_us)) in
      if recent then Ok None else
      let! elapsed := minus_dt now created in
      let status := lowered (vget "status" a) in
      let severity := lowered (vget "severity" a) in
      Ok (Some (finding (py_str (py_or (vget "id" a) (VStr "unknown"))) "m365_security_alert" "fail"
        (severity +:+ " alert " +:+ py_repr (py_or (vget "title" a) (vget "id" a)) +:+ " has been " +:+ status +:+ " for " +:+ pretty (td_days elapsed) +:+ " days")
        [("severity", VStr severity); ("status", VStr status); ("age_days", VInt (td_days elapsed)); ("threshold_days", VInt threshold_days)]))
  end.
Definition evaluate_security_alerts_triaged (threshold_days : Z) (rows : list row) (tenant_id : string) (now : Z) : res (list ResourceFinding) :=
  let! judged := res_map (stale_alert threshold_days now) rows in
  match omap id judged with
  | [] => Ok (tenant_finding tenant_id true false
                (if bool_decide (rows = []) then "the tenant reported no security alerts"
                 else "no high or critical alert has been open longer than " +:+ pretty threshold_days +:+ " days")
                [("alerts_examined", VInt (count rows)); ("threshold_days", VInt threshold_days)])
  | stale => Ok stale
  end.

Definition VIEWING_KEY : string := "isViewingBeforeAcceptanceRequired".
Definition agreement_name (r : row) : string := named (vget "displayName" r) (vget "id" r) "unnamed".
Definition not_shown (r : row) : bool := match vget VIEWING_KEY r with VBool b => negb b | _ => false end.
Definition unreadable_agreement (r : row) : bool := match vget VIEWING_KEY r with VBool _ => false | _ => true end.
Definition evaluate_system_use_notification (rows : list row) (tenant_id : string) : list ResourceFinding :=
  if bool_decide (rows = []) then tenant_finding tenant_id false false "no terms-of-use agreement is configured for this tenant" [("agreements", VInt 0)] else
  match List.find (fun r => is_true_val (vget VIEWING_KEY r)) rows with
  | Some r => tenant_finding tenant_id true false
                (repr_str (agreement_name r) +:+ " must be viewed before acceptance, so it is displayed before access is granted")
                [("agreement", VStr (agreement_name r)); ("agreements", VInt (count rows))]
  | None =>
      match map agreement_name (List.filter not_shown rows) with
      | [] =>
          let unreadable := map agreement_name (List.filter unreadable_agreement rows) in
          tenant_finding tenant_id false true
            (pretty (count unreadable) +:+ " agreement(s) did not report isViewingBeforeAcceptanceRequired, which Entra ID P1/P2 governs")
            [("agreements", VInt (count rows)); ("unreadable", texts (take 20 unreadable))]
      | hidden =>
          tenant_finding tenant_id false false
            (pretty (count hidden) +:+ " agreement(s) can be accepted without being shown (" +:+ join ", " (take 5 hidden) +:+ "), so none is a system use notification")
            [("agreements", VInt (count rows)); ("not_shown", texts (take 20 hidden))]
      end
  end.

(** ** The registry *)

Definition m365_evaluator : Type := row -> string -> Z -> list row -> res (list ResourceFinding).
Definition of_tenant (f : list row -> string -> res (list ResourceFinding)) : m365_evaluator := fun _ tenant_id _ rows => f rows tenant_id.
Definition of_rows (f : list row -> list ResourceFinding) : m365_evaluator := fun _ _ _ rows => Ok (f rows).
Definition at_now (f : list row -> string -> Z -> res (list ResourceFinding)) : m365_evaluator := fun _ tenant_id now rows => f rows tenant_id now.
Definition M365_EVALUATORS : list (string * m365_evaluator) :=
  [(pc_key MFA_REGISTERED, of_rows evaluate_mfa_registered);
   (pc_key LEGACY_AUTH_BLOCKED, of_tenant evaluate_legacy_auth_blocked);
   (pc_key STALE_ACCOUNTS, fun parameters _ now rows => let! days := int_param "threshold_days" STALE_ACCOUNT_DAYS parameters in evaluate_stale_accounts days now rows);
   (pc_key PHISHING_RESISTANT_MFA, of_tenant evaluate_phishing_resistant_mfa);
   (pc_key PHISHABLE_METHODS_DISABLED, of_tenant evaluate_phishable_methods_disabled);
   (pc_key GUEST_INVITES_RESTRICTED, of_tenant (fun rows t => Ok (evaluate_guest_invites_restricted rows t)));
   (pc_key DEFAULT_USER_PERMISSIONS_RESTRICTED, of_tenant (fun rows t => Ok (evaluate_default_user_permissions rows t)));
   (pc_key SIGNIN_AUDIT_CURRENT, at_now evaluate_signin_audit_current);
   (pc_key DIRECTORY_AUDIT_CURRENT, at_now evaluate_directory_audit_current);
   (pc_key DEVICE_COMPLIANCE, of_rows evaluate_device_compliance);
   (pc_key RISKY_USERS_RESOLVED, of_rows evaluate_risky_users_resolved);
   (pc_key SESSION_LOCK_ENFORCED, fun parameters tenant_id _ rows => let! m := int_param "max_minutes" SESSION_LOCK_MAX_MINUTES parameters in
                                                                    Ok (evaluate_session_lock_enforced m rows tenant_id));
   (pc_key STORAGE_ENCRYPTION_REQUIRED, of_tenant (fun rows t => Ok (evaluate_storage_encryption_required rows t)));
   (pc_key SESSION_REAUTHENTICATION_REQUIRED, of_tenant (fun rows t => Ok (evaluate_session_reauthentication_required rows t)));
   (pc_key LOCKOUT_THRESHOLD, fun parameters tenant_id _ rows =>
      evaluate_lockout_threshold (default (VInt LOCKOUT_MAX_ATTEMPTS) (dget "max_attempts" parameters)) rows tenant_id);
   (pc_key SECURITY_ALERTS_TRIAGED, fun parameters tenant_id now rows => let! days := int_param "threshold_days" ALERT_TRIAGE_DAYS parameters in
                                                                        evaluate_security_alerts_triaged days rows tenant_id now);
   (pc_key REMOVABLE_STORAGE_BLOCKED, of_tenant (fun rows t => Ok (evaluate_removable_storage_blocked rows t)));
   (pc_key SYSTEM_USE_NOTIFICATION, of_tenant (fun rows t => Ok (evaluate_system_use_notification rows t)));
   (pc_key DEVICE_COMPLIANCE_REQUIRED, of_tenant evaluate_device_compliance_required)].

(** ** What each check requires, stated on the rows *)

Definition can_complete_mfa (r : row) : Prop := truthy (vget "isMfaCapable" r) = true.
(** An enforced policy that covers a legacy client type and blocks. *)
Definition enforced_legacy_block (p : row) : Prop :=
  is_enabled p = true /\ exists types l s controls,
    nested "conditions" "clientAppTypes" p = Ok types /\ as_set types = Ok l /\ s ∈ LEGACY_CLIENT_APP_TYPES /\ py_in (VStr s) l = true /\
    nested "grantControls" "builtInControls" p = Ok controls /\ holds_text "block" (py_or controls (VList [])) = Ok true.
(** An enabled account with a readable last sign-in. *)
Definition last_seen (r : row) (t : DateTime) : Prop :=
  truthy (vget "accountEnabled" r) = true /\ exists v, nested "signInActivity" "lastSignInDateTime" r = Ok v /\ parse_graph_datetime v = Some t.
Definition accounts_are_live (days now : Z) (rows : list row) : Prop :=
  (exists r t, r ∈ rows /\ last_seen r t) /\ forall r t, r ∈ rows -> last_seen r t -> exists u, utc t = Some u /\ now - u <= days * day_us.
Definition method_is_enabled (rows : list row) (m : string) : Prop :=
  exists l v, each (vget "authenticationMethodConfigurations" (first_row rows)) = Ok l /\ v ∈ l /\ method_id v = Some m.
(** The answer has methods in it, and none of them can be intercepted. *)
Definition methods_were_reported (rows : list row) : Prop := truthy (vget "authenticationMethodConfigurations" (first_row rows)) = true.
Definition no_method_is_interceptable (rows : list row) : Prop := forall m, m ∈ PHISHABLE_METHODS -> ~ method_is_enabled rows m.
Definition invites_are_restricted (rows : list row) : Prop :=
  vget "allowInvitesFrom" (first_row rows) <> VNone /\ py_str (vget "allowInvitesFrom" (first_row rows)) ∉ UNRESTRICTED_INVITE_SETTINGS.
Definition users_are_unprivileged (rows : list row) : Prop :=
  exists d, vget "defaultUserRolePermissions" (first_row rows) = VDict d /\ forall p, p ∈ PRIVILEGED_DEFAULT_PERMISSIONS -> vget p d <> VBool true.
Definition a_record_is_recent (field : string) (now : Z) (rows : list row) : Prop :=
  exists r t u, r ∈ rows /\ parse_graph_datetime (vget field r) = Some t /\ utc t = Some u /\ td_days (now - u) <= AUDIT_RECENCY_DAYS.
Definition compliance_state (r : row) : string := py_str (py_or (vget "complianceState" r) (VStr "unknown")).
Definition devices_comply (rows : list row) : Prop :=
  (exists r, r ∈ rows /\ compliance_state r ∉ DEVICE_UNEVALUATED_STATES /\ compliance_state r ∉ DEVICE_NONCOMPLIANT_STATES) /\
  forall r, r ∈ rows -> compliance_state r ∉ DEVICE_UNEVALUATED_STATES -> compliance_state r ∉ DEVICE_NONCOMPLIANT_STATES.
Definition risk_is_resolved (r : row) : Prop := py_str (py_or (vget "riskState" r) (VStr "unknown")) ∉ RISK_UNRESOLVED_STATES.
Definition a_policy_locks (max_minutes : Z) (rows : list row) : Prop :=
  exists p n, p ∈ rows /\ vget LOCK_REQUIRED_KEY p = VBool true /\ vget LOCK_TIMEOUT_KEY p = VInt n /\ 0 < n <= max_minutes.
Definition some_row_sets (k : string) (rows : list row) : Prop := exists p, p ∈ rows /\ vget k p = VBool true.
Definition a_policy_bounds_sessions (rows : list row) : Prop :=
  exists p controls f, p ∈ rows /\ is_enabled p = true /\ vget "sessionControls" p = VDict controls /\ vget SIGNIN_FREQUENCY_KEY controls = VDict f /\
    vget "isEnabled" f = VBool true.
(** Zero, which Entra reads as never, is not a threshold. *)
Definition lockout_is_bounded (max_attempts : pyval) (rows : list row) : Prop :=
  exists raw n, password_setting LOCKOUT_THRESHOLD_KEY rows = Ok (Some raw) /\ py_int raw = Ok n /\ 0 < n /\ int_le n max_attempts = Ok true.
Definition left_open (days now : Z) (a : row) : Prop :=
  is_open_alert a = true /\ exists t u, parse_graph_datetime (vget "createdDateTime" a) = Some t /\ utc t = Some u /\ u <= now - days * day_us.
(** An open alert whose age can be told. *)
Definition is_dated (a : row) : Prop := is_open_alert a = true -> parse_graph_datetime (vget "createdDateTime" a) <> None.
(** A policy in force that names a device condition among its grant controls. *)
Definition names_a_device (p : row) : Prop :=
  py_str (py_or (vget "state" p) (VStr "")) = "enabled" /\ exists controls s, device_controls p = Ok controls /\ s ∈ controls.
Definition a_policy_needs_a_device (rows : list row) : Prop := exists p, p ∈ rows /\ names_a_device p.
(** Whether a policy grants without that condition too: Graph's [grantControls] demands all
    of its controls under the operator AND, and otherwise any one of its built-in controls,
    custom factors, terms of use and authentication strength. *)
Definition grant (k : string) (p : row) : pyval := match vget "grantControls" p with VDict d => vget k d | _ => VNone end.
Definition grants_another_way (p : row) : bool :=
  negb (py_eq (grant "operator" p) (VStr "AND")) &&
  (existsb (fun v => negb (existsb (fun s => py_eq v (VStr s)) DEVICE_GRANT_CONTROLS)) (match grant "builtInControls" p with VList l => l | _ => [] end) ||
   truthy (grant "customAuthenticationFactors" p) || truthy (grant "termsOfUse" p) || truthy (grant "authenticationStrength" p)).
Definition a_policy_grants_only_on_a_device (rows : list row) : Prop := exists p, p ∈ rows /\ names_a_device p /\ grants_another_way p = false.

Definition rows_meet (P : list row -> Prop) : row -> Z -> list row -> Prop := fun _ _ rows => P rows.
Definition M365_REQUIREMENTS : list (string * (row -> Z -> list row -> Prop)) :=
  [(pc_key MFA_REGISTERED, rows_meet (all_of_some can_complete_mfa));
   (pc_key LEGACY_AUTH_BLOCKED, rows_meet (fun rows => exists p, p ∈ rows /\ enforced_legacy_block p));
   (pc_key STALE_ACCOUNTS, fun parameters now rows => exists days, int_param "threshold_days" STALE_ACCOUNT_DAYS parameters = Ok days /\ accounts_are_live days now rows);
   (pc_key PHISHING_RESISTANT_MFA, rows_meet (fun rows => exists m, m ∈ PHISHING_RESISTANT_METHODS /\ method_is_enabled rows m));
   (pc_key PHISHABLE_METHODS_DISABLED, rows_meet (fun rows => methods_were_reported rows /\ no_method_is_interceptable rows));
   (pc_key GUEST_INVITES_RESTRICTED, rows_meet invites_are_restricted);
   (pc_key DEFAULT_USER_PERMISSIONS_RESTRICTED, rows_meet users_are_unprivileged);
   (pc_key SIGNIN_AUDIT_CURRENT, fun _ now rows => a_record_is_recent "createdDateTime" now rows);
   (pc_key DIRECTORY_AUDIT_CURRENT, fun _ now rows => a_record_is_recent "activityDateTime" now rows);
   (pc_key DEVICE_COMPLIANCE, rows_meet devices_comply);
   (pc_key RISKY_USERS_RESOLVED, rows_meet (all_of_some risk_is_resolved));
   (pc_key SESSION_LOCK_ENFORCED, fun parameters _ rows => exists m, int_param "max_minutes" SESSION_LOCK_MAX_MINUTES parameters = Ok m /\ a_policy_locks m rows);
   (pc_key STORAGE_ENCRYPTION_REQUIRED, rows_meet (some_row_sets "storageRequireEncryption"));
   (pc_key SESSION_REAUTHENTICATION_REQUIRED, rows_meet a_policy_bounds_sessions);
   (pc_key LOCKOUT_THRESHOLD, fun parameters _ rows => lockout_is_bounded (default (VInt LOCKOUT_MAX_ATTEMPTS) (dget "max_attempts" parameters)) rows);
   (pc_key SECURITY_ALERTS_TRIAGED, fun parameters now rows => exists days, int_param "threshold_days" ALERT_TRIAGE_DAYS parameters = Ok days /\
                                                                forall a, a ∈ rows -> ~ left_open days now a /\ is_dated a);
   (pc_key REMOVABLE_STORAGE_BLOCKED, rows_meet (some_row_sets REMOVABLE_STORAGE_KEY));
   (pc_key SYSTEM_USE_NOTIFICATION, rows_meet (some_row_sets VIEWING_KEY));
   (pc_key DEVICE_COMPLIANCE_REQUIRED, rows_meet a_policy_grants_only_on_a_device)].
(** Where an evaluator passes although its requirement is not met. *)
Definition M365_FALSE_PASSES : list (string * (row -> Z -> list row -> Prop)) :=
  [(pc_key PHISHABLE_METHODS_DISABLED, rows_meet (fun rows => ~ methods_were_reported rows));
   (pc_key SECURITY_ALERTS_TRIAGED, fun parameters now rows => exists days, int_param "threshold_days" ALERT_TRIAGE_DAYS parameters = Ok days /\
                                                                (forall a, a ∈ rows -> ~ left_open days now a) /\ exists a, a ∈ rows /\ ~ is_dated a);
   (pc_key DEVICE_COMPLIANCE_REQUIRED, rows_meet (fun rows => a_policy_needs_a_device rows /\
                                                                forall p, p ∈ rows -> names_a_device p -> grants_another_way p = true))].
Definition falsely_passed (key : string) (parameters : row) (now : Z) (rows : list row) : Prop :=
  exists defect, dget key M365_FALSE_PASSES = Some defect /\ defect parameters now rows.

(** ** Lemmas *)

Lemma tenant_credits t passed unassessable obs d (P : Prop) :
  (unassessable = false -> (passed = true <-> P)) -> (unassessable = true -> ~ P) -> credits (tenant_finding t passed unassessable obs d) P.
Proof.
  intros H1 H2. unfold tenant_finding, tenant_verdict. destruct unassessable.
  - apply nothing_credits; [vocabulary|done|by apply H2].
  - apply credits_one; [apply sound_pass_or_fail|]. cbn [finding verdict]. rewrite pass_or_fail_pass. by apply H1.
Qed.
Ltac tenant := apply tenant_credits; try discriminate; intros _.

(** Rows judged one by one, none out of the question. *)
Lemma rows_credit (f : row -> ResourceFinding) (b : row -> bool) (P : row -> Prop) rows :
  (forall r, verdict (f r) = pass_or_fail (b r)) -> (forall r, b r = true <-> P r) -> credits (map f rows) (all_of_some P rows).
Proof.
  intros Hv HP. apply (credits_all (fun r => Ok (f r)) P (fun _ => False)); [|by intros ? _ []|by apply res_map_Ok_in].
  intros r x [= <-]. by eapply judged_bool.
Qed.

Lemma legacy_block_spec p : blocks_legacy_auth p = Ok true <-> enforced_legacy_block p.
Proof.
  unfold blocks_legacy_auth, enforced_legacy_block. destruct (is_enabled p); cbn [negb]; [|split; [done|by intros [? _]]].
  assert (Hm : forall l, members_of LEGACY_CLIENT_APP_TYPES l <> [] <-> exists s, s ∈ LEGACY_CLIENT_APP_TYPES /\ py_in (VStr s) l = true).
  { intros l. unfold members_of. by rewrite sorted_strs_nil, some_filtered. }
  split.
  - intros (types & Et & E)%res_bind_Ok. apply res_bind_Ok in E as (l & El & E). case_bool_decide as Hb; [done|]. apply Hm in Hb as (s & Hs & Hin).
    apply res_bind_Ok in E as (controls & Ec & Eb). split; [done|]. by exists types, l, s, controls.
  - intros (_ & types & l & s & controls & Et & El & Hs & Hin & Ec & Eb). rewrite Et. cbn [res_bind]. rewrite El. cbn [res_bind].
    rewrite bool_decide_eq_false_2 by (apply Hm; by exists s). by rewrite Ec.
Qed.

Lemma first_such_spec {A} (f : A -> res bool) l o : first_such f l = Ok o -> (o <> None <-> exists x, x ∈ l /\ f x = Ok true).
Proof.
  revert o. induction l as [|x l IH]; intros o; cbn [first_such].
  - intros [= <-]. split; [done|by intros (x & ?%not_elem_of_nil & _)].
  - intros (b & Eb & E)%res_bind_Ok. destruct b.
    + injection E as <-. split; [|done]. intros _. exists x. split; [by left|done].
    + rewrite (IH _ E). split; intros (y & Hy & Ey); exists y; (split; [|done]).
      * by right.
      * apply elem_of_cons in Hy as [->|Hy]; [congruence|done].
Qed.

Lemma legacy_credits rows t fs : evaluate_legacy_auth_blocked rows t = Ok fs -> credits fs (exists p, p ∈ rows /\ enforced_legacy_block p).
Proof.
  unfold evaluate_legacy_auth_blocked. intros (o & Eo & [= <-])%res_bind_Ok. pose proof (first_such_spec _ _ _ Eo) as H. setoid_rewrite legacy_block_spec in H.
  destruct o as [p|]; tenant; split; try done; intros Hx; [by apply H|by apply H in Hx].
Qed.

Lemma stale_credits days now rows fs : evaluate_stale_accounts days now rows = Ok fs -> credits fs (accounts_are_live days now rows).
Proof.
  intros Hm. set (seen := fun r => exists t, last_seen r t). set (live := fun r => exists t u, last_seen r t /\ utc t = Some u /\ now - u <= days * day_us).
  eapply credits_iff; [apply (credits_fleet _ live (fun r => ~ seen r)) in Hm; [exact Hm|]|].
  - clear Hm. intros r x. unfold stale_finding, live, seen, last_seen. destruct (truthy (vget "accountEnabled" r)); cbn [negb].
    2:{ intros [= <-]. split; [vocabulary|]. split; [split; [done|by intros (? & ? & [? _] & _)]|]. split; [by intros _ (? & ? & _)|intros _; vocabulary]. }
    intros (v & Ev & E)%res_bind_Ok. destruct (parse_graph_datetime v) as [t|] eqn:Et.
    + apply res_bind_Ok in E as (e & Ee & [= <-]). unfold minus_dt in Ee. destruct (utc t) as [u|] eqn:Eu; [|done]. injection Ee as <-. cbn [finding verdict].
      split; [apply sound_pass_or_fail|]. rewrite pass_or_fail_pass, Z.leb_le. split.
      * split; [intros H; exists t, u; split; [split; [done|by exists v]|done]|]. intros (t' & u' & (_ & v' & Ev' & Et') & Eu' & H).
        rewrite Ev in Ev'. injection Ev' as <-. rewrite Et in Et'. injection Et' as <-. rewrite Eu in Eu'. by injection Eu' as <-.
      * split; [intros []%judged_not_excluded|]. intros []. exists t. split; [done|by exists v].
    + injection E as <-. assert (Hno : ~ exists t, true = true /\ exists v, nested "signInActivity" "lastSignInDateTime" r = Ok v /\ parse_graph_datetime v = Some t).
      { intros (t & _ & v' & Ev' & Et'). congruence. }
      split; [vocabulary|]. split; [split; [done|intros (t & u & H & _); destruct Hno; by exists t]|]. split; [done|intros _; vocabulary].
  - unfold accounts_are_live, live, seen. split.
    + intros [(r & Hr & t & u & Hs & Eu & Hd) Hall]. split; [by exists r, t|]. intros r' t' Hr' Hs'. destruct (Hall r' Hr') as [(t2 & u2 & [Ha (v2 & Ev2 & Et2)] & Eu2 & Hd2)|[]]; [|by exists t'].
      destruct Hs' as [_ (v3 & Ev3 & Et3)]. rewrite Ev2 in Ev3. injection Ev3 as <-. rewrite Et2 in Et3. injection Et3 as <-. by exists u2.
    + intros [(r & t & Hr & Hs) Hall]. split; [destruct (Hall r t Hr Hs) as (u & Eu & Hd); exists r; split; [done|]; by exists t, u|]. intros r' Hr'.
      assert (Hdec : (exists t, last_seen r' t) \/ ~ exists t, last_seen r' t).
      { unfold last_seen. destruct (truthy (vget "accountEnabled" r')); [|right; by intros (? & ? & _)]. destruct (nested _ _ r') as [v|]; [|right; intros (? & _ & ? & ? & _); done].
        destruct (parse_graph_datetime v) as [t'|] eqn:E; [left; exists t'; split; [done|by exists v]|right; intros (? & _ & ? & [= <-] & ?); congruence]. }
      destruct Hdec as [(t' & Hs')|Hn]; [left|by right]. destruct (Hall r' t' Hr' Hs') as (u & Eu & Hd). by exists t', u.
Qed.

(** *** The registered methods *)

Lemma enabled_methods_spec rows enabled m : enabled_methods rows = Ok enabled -> (mem m enabled = true <-> method_is_enabled rows m).
Proof.
  unfold enabled_methods, method_is_enabled. intros (l & El & [= <-])%res_bind_Ok. rewrite mem_true, elem_of_sorted_set, list_elem_of_omap.
  split; [intros (v & Hv & E); by exists l, v|]. intros (l' & v & El' & Hv & E). rewrite El in El'. injection El' as <-. by exists v.
Qed.
Lemma among_some rows enabled names : enabled_methods rows = Ok enabled -> (among names enabled <> [] <-> exists m, m ∈ names /\ method_is_enabled rows m).
Proof.
  intros E. unfold among. rewrite sorted_strs_nil, some_filtered. by setoid_rewrite (fun m => enabled_methods_spec rows enabled m E).
Qed.
Lemma phishing_resistant_credits rows t fs : evaluate_phishing_resistant_mfa rows t = Ok fs ->
  credits fs (exists m, m ∈ PHISHING_RESISTANT_METHODS /\ method_is_enabled rows m).
Proof.
  intros (enabled & Ee & [= <-])%res_bind_Ok. rewrite <-(among_some _ _ _ Ee). case_bool_decide; tenant; by split.
Qed.
Lemma phishable_credits rows t fs : evaluate_phishable_methods_disabled rows t = Ok fs ->
  credits fs (forall m, m ∈ PHISHABLE_METHODS -> ~ method_is_enabled rows m).
Proof.
  intros (enabled & Ee & [= <-])%res_bind_Ok. pose proof (among_some _ _ PHISHABLE_METHODS Ee) as H. case_bool_decide as Hn; tenant; split; try done.
  - intros _ m Hm He. apply (proj2 H); [by exists m|done].
  - intros Hall. apply H in Hn as (m & Hm & He). by destruct (Hall m Hm).
Qed.

Lemma guest_credits rows t : credits (evaluate_guest_invites_restricted rows t) (invites_are_restricted rows).
Proof.
  unfold evaluate_guest_invites_restricted, invites_are_restricted. destruct (is_none _) eqn:En.
  { apply nothing_credits; [vocabulary|done|]. intros [Hne _]. by destruct (vget "allowInvitesFrom" _). }
  assert (vget "allowInvitesFrom" (first_row rows) <> VNone) by (by intros E; rewrite E in En).
  destruct (mem _ _) eqn:Em; tenant; [apply mem_true in Em|apply mem_false in Em]; split; try done. by intros [_ []].
Qed.
Lemma default_users_credit rows t : credits (evaluate_default_user_permissions rows t) (users_are_unprivileged rows).
Proof.
  unfold evaluate_default_user_permissions, users_are_unprivileged. destruct (vget _ (first_row rows)) as [| | | | | |d];
    try (apply nothing_credits; [vocabulary|done|by intros (? & ? & _)]).
  assert (Hg : List.filter (fun name => is_true_val (vget name d)) PRIVILEGED_DEFAULT_PERMISSIONS <> [] <->
               exists p, p ∈ PRIVILEGED_DEFAULT_PERMISSIONS /\ vget p d = VBool true).
  { rewrite some_filtered. by setoid_rewrite is_true_val_true. }
  case_bool_decide as Hn; tenant; split; try done.
  - intros _. exists d. split; [done|]. intros p Hp E. apply (proj2 Hg); [by exists p|done].
  - intros (d' & [= <-] & Hall). destruct (proj1 Hg Hn) as (p & Hp & E). by destruct (Hall p Hp).
Qed.

(** *** Audit records, devices and policies *)

(** The newest record: every readable one is aware when it is, and no later. *)
Definition no_later (field : string) (t : DateTime) (r : row) : Prop :=
  forall t' u, parse_graph_datetime (vget field r) = Some t' -> utc t = Some u -> exists u', utc t' = Some u' /\ u' <= u.
Definition newest_of (field : string) (rows : list row) (n : option DateTime) : Prop :=
  match n with
  | None => Forall (fun r => parse_graph_datetime (vget field r) = None) rows
  | Some t => Exists (fun r => parse_graph_datetime (vget field r) = Some t) rows /\ Forall (no_later field t) rows
  end.
Lemma no_later_self field t r : parse_graph_datetime (vget field r) = Some t -> no_later field t r.
Proof. intros E t' u E' Eu. rewrite E in E'. injection E' as <-. by exists u. Qed.
Lemma unreadable_no_later field t r : parse_graph_datetime (vget field r) = None -> no_later field t r.
Proof. intros E t' u E' _. by rewrite E in E'. Qed.
Lemma newer_keeps field seen m r m' : newest_of field seen m -> newer_stamp field m r = Ok m' -> newest_of field (seen ++ [r])%list m'.
Proof.
  unfold newer_stamp. destruct (parse_graph_datetime (vget field r)) as [t|] eqn:Et, m as [n|]; cbn [newest_of].
  - intros [Hx Hall] (b & Eb & [= <-])%res_bind_Ok. cbn [newest_of]. rewrite Exists_app, Forall_app, Exists_cons, Forall_singleton. destruct b.
    + split; [by right; left|]. split; [|by apply no_later_self]. eapply Forall_impl; [exact Hall|]. intros x Hn t' u Et' Eu. unfold dt_gt in Eb.
      rewrite Eu in Eb. destruct (utc n) as [w|] eqn:Ew; [|done]. destruct (Hn t' w Et' Ew) as (u' & Eu' & Hle). exists u'. split; [done|].
      injection Eb as Hlt%Z.ltb_lt. lia.
    + split; [by left|]. split; [done|]. intros t' u Et' Eu. rewrite Et in Et'. injection Et' as <-. unfold dt_gt in Eb. rewrite Eu in Eb.
      destruct (utc t) as [w|]; [|done]. exists w. split; [done|]. by injection Eb as Hlt%Z.ltb_ge.
  - intros Hall [= <-]. cbn [newest_of]. rewrite Exists_app, Forall_app, Exists_cons, Forall_singleton. split; [by right; left|]. split; [|by apply no_later_self].
    eapply Forall_impl; [exact Hall|]. intros x. apply unreadable_no_later.
  - intros [Hx Hall] [= <-]. cbn [newest_of]. rewrite Exists_app, Forall_app, Forall_singleton. split; [by left|]. split; [done|]. by apply unreadable_no_later.
  - intros Hall [= <-]. cbn [newest_of]. by rewrite Forall_app, Forall_singleton.
Qed.
Lemma newest_spec field rows n : res_fold (newer_stamp field) None rows = Ok n -> newest_of field rows n.
Proof.
  assert (H : forall l seen m m', newest_of field seen m -> res_fold (newer_stamp field) m l = Ok m' -> newest_of field (seen ++ l)%list m').
  { induction l as [|r l IH]; intros seen m m' Hm E; cbn [res_fold] in E; [injection E as <-; by rewrite app_nil_r|].
    apply res_bind_Ok in E as (m2 & E2 & E). rewrite (cons_middle r seen l), app_assoc. eapply IH; [|exact E]. by eapply newer_keeps. }
  intros E. apply (H rows [] None n); [by apply Forall_nil|done].
Qed.

Lemma audit_credits field label rows t now fs : audit_recency field label rows t now = Ok fs -> credits fs (a_record_is_recent field now rows).
Proof.
  unfold audit_recency, a_record_is_recent. intros (n & Hn%newest_spec & E)%res_bind_Ok. destruct n as [d|]; cbn [newest_of] in Hn.
  - apply res_bind_Ok in E as (e & Ee & [= <-]). unfold minus_dt in Ee. destruct (utc d) as [u|] eqn:Eu; [|done]. injection Ee as <-.
    destruct Hn as [(r & Hr & Er)%Exists_exists Hall]. tenant. rewrite Z.leb_le. split.
    + intros H. by exists r, d, u.
    + intros (r' & t' & u' & Hr' & Et' & Eu' & H). etrans; [|exact H]. unfold td_days. apply Z.div_le_mono; [done|].
      destruct (proj1 (Forall_forall _ _) Hall r' Hr' t' u Et' Eu) as (w & Ew & Hle). rewrite Eu' in Ew. injection Ew as <-. lia.
  - injection E as <-. tenant. split; [done|]. intros (r & t' & u & Hr & Et & _). pose proof (proj1 (Forall_forall _ _) Hn r Hr) as E. cbn in E. by rewrite E in Et.
Qed.

Lemma devices_credit rows : credits (evaluate_device_compliance rows) (devices_comply rows).
Proof.
  set (away := fun r => compliance_state r ∈ DEVICE_UNEVALUATED_STATES). set (right := fun r => compliance_state r ∉ DEVICE_UNEVALUATED_STATES /\ compliance_state r ∉ DEVICE_NONCOMPLIANT_STATES).
  eapply credits_iff; [apply (credits_fleet (fun r => Ok (device_finding r)) right away)|]; [|by apply res_map_Ok_in|].
  - intros r x [= <-]. unfold device_finding, right, away, compliance_state, sound_finding. cbn [finding verdict].
    destruct (mem _ DEVICE_UNEVALUATED_STATES) eqn:E1; [apply mem_true in E1|apply mem_false in E1; destruct (mem _ DEVICE_NONCOMPLIANT_STATES) eqn:E2; [apply mem_true in E2|apply mem_false in E2]];
      cbn [fst]; (split; [vocabulary|]); rewrite excluded_cases; naive_solver.
  - unfold devices_comply, right, away. split.
    + intros [(r & Hr & H1 & H2) Hall]. split; [by exists r|]. intros r' Hr' Hn. by destruct (Hall r' Hr') as [[_ ?]|?].
    + intros [(r & Hr & H1 & H2) Hall]. split; [by exists r|]. intros r' Hr'. destruct (decide (compliance_state r' ∈ DEVICE_UNEVALUATED_STATES)); [by right|left; auto].
Qed.

Lemma risk_credits rows : credits (evaluate_risky_users_resolved rows) (all_of_some risk_is_resolved rows).
Proof.
  apply (rows_credit _ (fun r => negb (mem (py_str (py_or (vget "riskState" r) (VStr "unknown"))) RISK_UNRESOLVED_STATES))); [done|].
  intros r. unfold risk_is_resolved. by rewrite negb_true_iff, mem_false.
Qed.

(** A policy of the tenant that does it, found by filtering. *)
Lemma filter_credits (p : row -> bool) (P : row -> Prop) rows t fs : (forall r, p r = true <-> P r) ->
  (forall r l, List.filter p rows = r :: l -> exists obs d, fs = tenant_finding t true false obs d) ->
  (List.filter p rows = [] -> exists u obs d, fs = tenant_finding t false u obs d) -> credits fs (exists r, r ∈ rows /\ P r).
Proof.
  intros HP Hsome Hnone. assert (Hiff : List.filter p rows <> [] <-> exists r, r ∈ rows /\ P r) by (rewrite some_filtered; by setoid_rewrite HP).
  rewrite <-Hiff. destruct (List.filter p rows) as [|r l].
  - destruct (Hnone eq_refl) as ([] & obs & d & ->); tenant; [by intros []|by split; [|intros []]].
  - destruct (Hsome r l eq_refl) as (obs & d & ->). by tenant.
Qed.

Lemma locks_spec m p : locks_in_time m p = true <-> exists n, vget LOCK_REQUIRED_KEY p = VBool true /\ vget LOCK_TIMEOUT_KEY p = VInt n /\ 0 < n <= m.
Proof.
  unfold locks_in_time, lock_minutes. rewrite andb_true_iff, is_true_val_true. split.
  - intros [Hr H]. destruct (vget LOCK_TIMEOUT_KEY p) as [| |n| | | |]; try done. exists n. destruct (Z.leb_spec n 0); [done|]. apply Z.leb_le in H. by split_and!.
  - intros (n & Hr & E & H0 & Hm). rewrite E. destruct (Z.leb_spec n 0); [lia|]. split; [done|by apply Z.leb_le].
Qed.
Lemma lock_credits m rows t : credits (evaluate_session_lock_enforced m rows t) (a_policy_locks m rows).
Proof.
  eapply credits_iff; [apply (filter_credits _ _ rows t _ (locks_spec m))|].
  - intros r l E. unfold evaluate_session_lock_enforced. rewrite E. by do 2 eexists.
  - intros E. unfold evaluate_session_lock_enforced. rewrite E. by do 3 eexists.
  - unfold a_policy_locks. naive_solver.
Qed.

Lemma storage_credits rows t : credits (evaluate_storage_encryption_required rows t) (some_row_sets "storageRequireEncryption" rows).
Proof.
  apply (filter_credits requires_encryption (fun p => vget "storageRequireEncryption" p = VBool true) rows t); [intros r; apply is_true_val_true| |];
    unfold evaluate_storage_encryption_required; [intros r l ->|intros ->]; by repeat eexists.
Qed.

(** A key that is absent is not set. *)
Lemma filter_known rows : List.filter blocks_removable (List.filter (dhas REMOVABLE_STORAGE_KEY) rows) = List.filter blocks_removable rows.
Proof.
  induction rows as [|r rows IH]; [done|]. cbn [List.filter]. destruct (dhas REMOVABLE_STORAGE_KEY r) eqn:E; cbn [List.filter]; [by rewrite IH|].
  rewrite IH. replace (blocks_removable r) with false; [done|]. unfold blocks_removable, vget. by rewrite (proj2 (dget_None _ _)) by (by apply mem_false in E).
Qed.
Lemma removable_credits rows t : credits (evaluate_removable_storage_blocked rows t) (some_row_sets REMOVABLE_STORAGE_KEY rows).
Proof.
  apply (filter_credits blocks_removable (fun p => vget REMOVABLE_STORAGE_KEY p = VBool true) rows t); [intros r; apply is_true_val_true| |];
    unfold evaluate_removable_storage_blocked; rewrite filter_known; [intros r l ->; by repeat eexists|intros ->].
  case_bool_decide; by repeat eexists.
Qed.

Lemma frequency_spec p f : sets_signin_frequency p = Some f <->
  is_enabled p = true /\ exists controls, vget "sessionControls" p = VDict controls /\ vget SIGNIN_FREQUENCY_KEY controls = VDict f /\ vget "isEnabled" f = VBool true.
Proof.
  unfold sets_signin_frequency. destruct (is_enabled p); cbn [negb]; [|split; [done|by intros [? _]]]. split.
  - intros E. split; [done|]. destruct (vget "sessionControls" p) as [| | | | | |controls]; try done. exists controls. split; [done|].
    destruct (vget SIGNIN_FREQUENCY_KEY controls) as [| | | | | |f']; try done. destruct (is_true_val (vget "isEnabled" f')) eqn:Ei; [|done].
    injection E as ->. by apply is_true_val_true in Ei.
  - intros (_ & controls & -> & -> & E). by rewrite E.
Qed.
Lemma reauthentication_credits rows t : credits (evaluate_session_reauthentication_required rows t) (a_policy_bounds_sessions rows).
Proof.
  unfold evaluate_session_reauthentication_required, a_policy_bounds_sessions.
  destruct (head _) as [[p f]|] eqn:E; tenant; split; try done.
  - intros _. apply head_Some_elem_of, list_elem_of_omap in E as (p' & Hp & E). apply fmap_Some in E as (f' & Ef & [= <- <-]).
    apply frequency_spec in Ef as (He & controls & H1 & H2 & H3). by exists p, controls, f.
  - intros (p & controls & f & Hp & He & H1 & H2 & H3). apply head_None in E. assert (Hin : (p, f) ∈ omap (fun p => (fun f => (p, f)) <$> sets_signin_frequency p) rows).
    { apply list_elem_of_omap. exists p. split; [done|]. by rewrite (proj2 (frequency_spec p f)) by (split; [done|by exists controls]). }
    rewrite E in Hin. by apply not_elem_of_nil in Hin.
Qed.

(** *** Lockout, alerts, notification, devices *)

Lemma lockout_credits m rows t fs : evaluate_lockout_threshold m rows t = Ok fs -> credits fs (lockout_is_bounded m rows).
Proof.
  unfold evaluate_lockout_threshold, lockout_is_bounded. intros (setting & Es & E)%res_bind_Ok.
  destruct (str_truthy (strip (or_empty setting))) eqn:Ht; cbn [negb] in E.
  2:{ injection E as <-. tenant. intros (raw & n & Er & Ei & _). rewrite Es in Er. injection Er as ->. cbn [or_empty] in Ht.
    apply bool_decide_eq_false, dec_stable in Ht. change (strip raw = "") in Ht. unfold py_int in Ei. by rewrite Ht in Ei. }
  destruct setting as [raw|]; [|done]. change (or_empty (Some raw)) with raw in E, Ht. destruct (py_int raw) as [n|x] eqn:Ei.
  2:{ injection E as <-. tenant. intros (raw' & n & Er & Ei' & _). rewrite Es in Er. injection Er as <-. congruence. }
  apply res_bind_Ok in E as (duration & _ & E). destruct (Z.leb_spec n 0).
  { injection E as <-. tenant. split; [done|]. intros (raw' & n' & Er & Ei' & Hp & _). rewrite Es in Er. injection Er as <-. rewrite Ei in Ei'. injection Ei' as <-. lia. }
  apply res_bind_Ok in E as (within & Ew & [= <-]). tenant. split.
  - intros ->. by exists raw, n.
  - intros (raw' & n' & Er & Ei' & _ & Hw). rewrite Es in Er. injection Er as <-. rewrite Ei in Ei'. injection Ei' as <-. rewrite Ew in Hw. by injection Hw.
Qed.

Lemma alert_spec days now a o : stale_alert days now a = Ok o ->
  match o with Some f => verdict f = "fail" /\ left_open days now a | None => ~ left_open days now a end.
Proof.
  unfold stale_alert, left_open. destruct (is_open_alert a); cbn [negb]; [|by intros [= <-] [? _]].
  destruct (parse_graph_datetime (vget "createdDateTime" a)) as [t|]; [|intros [= <-]; by intros (_ & ? & ? & ? & _)].
  intros (recent & Er & E)%res_bind_Ok. unfold dt_gt in Er. change (utc (at_utc (now - days * day_us))) with (Some (now - days * day_us - 0)) in Er.
  destruct (utc t) as [u|] eqn:Eu; [|done]. rewrite Z.sub_0_r in Er. injection Er as <-. destruct (Z.ltb_spec (now - days * day_us) u).
  - injection E as <-. intros (_ & t' & u' & [= <-] & Eu' & Hle). rewrite Eu in Eu'. injection Eu' as <-. lia.
  - apply res_bind_Ok in E as (e & _ & [= <-]). split; [done|]. split; [done|]. by exists t, u.
Qed.
Lemma alerts_credit days rows t now fs : evaluate_security_alerts_triaged days rows t now = Ok fs -> credits fs (forall a, a ∈ rows -> ~ left_open days now a).
Proof.
  unfold evaluate_security_alerts_triaged. intros (judged & Hj%res_map_Forall2 & E)%res_bind_Ok. destruct (omap id judged) as [|f fs'] eqn:Eo.
  - injection E as <-. tenant. split; [|done]. intros _ a Ha. destruct (Forall2_elem_l _ _ _ Hj a Ha) as ([f|] & Hin & Ef); [|exact (alert_spec _ _ _ _ Ef)].
    assert (Hf : f ∈ omap id judged) by (apply list_elem_of_omap; by exists (Some f)). rewrite Eo in Hf. by apply not_elem_of_nil in Hf.
  - injection E as <-. assert (Hall : forall g, g ∈ f :: fs' -> verdict g = "fail" /\ exists a, a ∈ rows /\ left_open days now a).
    { intros g Hg. rewrite <-Eo in Hg. apply list_elem_of_omap in Hg as (o & Ho & E). cbn in E. subst o. destruct (Forall2_elem_r _ _ _ Hj _ Ho) as (a & Ha & Ea).
      apply alert_spec in Ea as [Hv Hl]. split; [done|]. by exists a. }
    split; [apply Forall_forall; intros g Hg; unfold sound_finding; rewrite (proj1 (Hall g Hg)); vocabulary|].
    intros v Hv. destruct (rollup_says _ _ Hv) as [-> _]. split.
    + intros [(g & Hg & Eg) _]. rewrite (proj1 (Hall g Hg)) in Eg. done.
    + intros Hno. destruct (Hall f) as (_ & a & Ha & Hl); [by left|]. by destruct (Hno a Ha).
Qed.

Lemma notification_credits rows t : credits (evaluate_system_use_notification rows t) (some_row_sets VIEWING_KEY rows).
Proof.
  unfold evaluate_system_use_notification, some_row_sets. case_bool_decide as Hr.
  { subst rows. tenant. split; [done|]. by intros (? & ?%not_elem_of_nil & _). }
  destruct (List.find _ rows) as [r|] eqn:Ef.
  { apply find_some in Ef as [Hin E]. tenant. split; [|done]. intros _. exists r. split; [by apply list_elem_of_In|by apply is_true_val_true]. }
  assert (Hno : ~ exists p, p ∈ rows /\ vget VIEWING_KEY p = VBool true).
  { intros (p & Hp%list_elem_of_In & E). apply (find_none _ _ Ef) in Hp. cbn in Hp. by rewrite E in Hp. }
  destruct (map agreement_name (List.filter not_shown rows)); tenant; [done|by split].
Qed.

Lemma device_policy_spec rows unenforced found : device_policy unenforced rows = Ok found ->
  match found with inl _ => a_policy_needs_a_device rows | inr _ => ~ a_policy_needs_a_device rows end.
Proof.
  revert unenforced. induction rows as [|p rows IH]; intros unenforced; cbn [device_policy].
  { intros [= <-]. by intros (? & ?%not_elem_of_nil & _). }
  intros (controls & Ec & E)%res_bind_Ok.
  assert (Hrest : ~ (py_str (py_or (vget "state" p) (VStr "")) = "enabled" /\ controls <> []) -> (a_policy_needs_a_device (p :: rows) <-> a_policy_needs_a_device rows)).
  { intros Hno. unfold a_policy_needs_a_device, names_a_device. split.
    - intros (q & [->|Hq]%elem_of_cons & He & cs & s & Ed & Hs); [|exists q; split; [exact Hq|]; split; [exact He|]; by exists cs, s]. rewrite Ec in Ed. injection Ed as <-. destruct Hno. split; [done|]. intros ->. by apply not_elem_of_nil in Hs.
    - intros (q & Hq & H). exists q. split; [by right|done]. }
  case_bool_decide as Hc; [apply IH in E; destruct found; rewrite Hrest; try done; by intros [_ ?]|].
  case_bool_decide as Hs; [|apply IH in E; destruct found; rewrite Hrest; try done; by intros [? _]].
  injection E as <-. destruct controls as [|s cs]; [done|]. exists p. split; [by left|]. split; [done|]. exists (s :: cs), s. split; [done|by left].
Qed.
Lemma device_required_credits rows t fs : evaluate_device_compliance_required rows t = Ok fs -> credits fs (a_policy_needs_a_device rows).
Proof.
  intros (found & Ef%device_policy_spec & [= <-])%res_bind_Ok. destruct found as [[p controls]|[|u us]]; tenant; by split.
Qed.

(** What the three evaluators with a false pass ask for, taken apart. *)
Lemma phishable_cases rows : no_method_is_interceptable rows <-> methods_were_reported rows /\ no_method_is_interceptable rows \/ ~ methods_were_reported rows.
Proof.
  unfold methods_were_reported. destruct (truthy (vget "authenticationMethodConfigurations" (first_row rows))) eqn:E; [split; [intros H; left; split; [reflexivity|exact H]|intros [[_ H]|H]; [exact H|by destruct H]]|].
  split; [by right|]. intros _ m _ (l & v & El & Hv & _). unfold each, py_or in El. rewrite E in El. injection El as <-. by apply not_elem_of_nil in Hv.
Qed.
Lemma alerts_cases days now (rows : list row) :
  (forall a, a ∈ rows -> ~ left_open days now a) <->
  (forall a, a ∈ rows -> ~ left_open days now a /\ is_dated a) \/ ((forall a, a ∈ rows -> ~ left_open days now a) /\ exists a, a ∈ rows /\ ~ is_dated a).
Proof.
  split; [|intros [H|[H _]] a Ha; by apply H]. intros H.
  assert (Hd : forall a, is_dated a \/ ~ is_dated a) by (intros a; unfold is_dated; destruct (is_open_alert a), (parse_graph_datetime _); naive_solver).
  assert (Hc : (forall a, a ∈ rows -> is_dated a) \/ exists a, a ∈ rows /\ ~ is_dated a); [|naive_solver]. clear H.
  induction rows as [|a rows IH]; [left; by intros ? ?%not_elem_of_nil|]. setoid_rewrite elem_of_cons. destruct (Hd a), IH; naive_solver.
Qed.
Lemma device_cases rows :
  a_policy_needs_a_device rows <-> a_policy_grants_only_on_a_device rows \/
    (a_policy_needs_a_device rows /\ forall p, p ∈ rows -> names_a_device p -> grants_another_way p = true).
Proof.
  unfold a_policy_grants_only_on_a_device, a_policy_needs_a_device. split; [|naive_solver]. intros H.
  assert (Hn : forall p, names_a_device p \/ ~ names_a_device p).
  { intros p. unfold names_a_device. destruct (decide (py_str (py_or (vget "state" p) (VStr "")) = "enabled")); [|right; naive_solver].
    destruct (device_controls p) as [[|s cs]|]; [right; intros (_ & ? & ? & [= <-] & ?%not_elem_of_nil); done| |right; naive_solver]. left. split; [done|]. exists (s :: cs), s. split; [done|by left]. }
  assert (Hc : (exists p, p ∈ rows /\ names_a_device p /\ grants_another_way p = false) \/ forall p, p ∈ rows -> names_a_device p -> grants_another_way p = true); [|naive_solver].
  clear H. induction rows as [|p rows IH]; [right; by intros ? ?%not_elem_of_nil|]. setoid_rewrite elem_of_cons.
  destruct (Hn p), (grants_another_way p) eqn:?, IH; naive_solver.
Qed.
Lemma no_false_pass key fs (P : Prop) parameters now rows : dget key M365_FALSE_PASSES = None -> credits fs P -> credits fs (P \/ falsely_passed key parameters now rows).
Proof. intros E H. eapply credits_iff; [exact H|]. split; [by left|]. intros [?|(d & Ed & _)]; [done|]. by rewrite E in Ed. Qed.
Lemma with_false_pass key fs (P Q R : Prop) (D : row -> Z -> list row -> Prop) parameters now rows : dget key M365_FALSE_PASSES = Some D -> (D parameters now rows <-> R) ->
  (P <-> Q \/ R) -> credits fs P -> credits fs (Q \/ falsely_passed key parameters now rows).
Proof.
  intros E HR HP H. eapply credits_iff; [exact H|]. rewrite HP. unfold falsely_passed. rewrite E. split; [intros [?|?]; [by left|right; exists D; tauto]|].
  intros [?|(d & [= <-] & ?)]; [by left|right; tauto].
Qed.

(** Each evaluator credits its check's requirement, and what its false pass adds. *)
Lemma m365_credits key : forall ev, dget key M365_EVALUATORS = Some ev -> exists need, dget key M365_REQUIREMENTS = Some need /\
  forall parameters tenant_id now rows fs, ev parameters tenant_id now rows = Ok fs -> credits fs (need parameters now rows \/ falsely_passed key parameters now rows).
Proof.
  intros ev. unfold M365_EVALUATORS, M365_REQUIREMENTS, of_tenant, of_rows, at_now, rows_meet. cbn [dget].
  repeat (case_decide; [subst key; intros [= <-]; eexists; split; [reflexivity|]; intros parameters tenant_id now rows fs E; cbv beta in E |- *; try (apply no_false_pass; [reflexivity|])|]); try done.
  - injection E as <-. apply (rows_credit mfa_finding (fun r => truthy (vget "isMfaCapable" r))); done.
  - by eapply legacy_credits.
  - apply res_bind_Ok in E as (days & Ed & E). rewrite Ed. eapply credits_iff; [by eapply stale_credits|]. split; [by exists days|]. by intros (? & [= <-] & ?).
  - by eapply phishing_resistant_credits.
  - eapply with_false_pass; [reflexivity|reflexivity|apply phishable_cases|by eapply phishable_credits].
  - injection E as <-. apply guest_credits.
  - injection E as <-. apply default_users_credit.
  - by eapply audit_credits.
  - by eapply audit_credits.
  - injection E as <-. apply devices_credit.
  - injection E as <-. apply risk_credits.
  - apply res_bind_Ok in E as (m & Em & [= <-]). rewrite Em. eapply credits_iff; [apply lock_credits|]. split; [by exists m|]. by intros (? & [= <-] & ?).
  - injection E as <-. apply storage_credits.
  - injection E as <-. apply reauthentication_credits.
  - by eapply lockout_credits.
  - apply res_bind_Ok in E as (days & Ed & E). rewrite Ed. 
    eapply (with_false_pass _ _ _ _ ((forall a, a ∈ rows -> ~ left_open days now a) /\ exists a, a ∈ rows /\ ~ is_dated a)); [reflexivity| | |by eapply alerts_credit].
    + cbv beta. rewrite Ed. split; [by intros (? & [= <-] & ?)|by exists days].
    + etransitivity; [apply alerts_cases|]. split; [intros [Ha|Ha]; [left; exists days; split; [reflexivity|exact Ha]|right; exact Ha]|]. intros [(d & [= <-] & Ha)|Ha]; [left; exact Ha|right; exact Ha].
  - injection E as <-. apply removable_credits.
  - injection E as <-. apply notification_credits.
  - eapply with_false_pass; [reflexivity|reflexivity|apply device_cases|by eapply device_required_credits].
Qed.

(** A false pass is one: the requirement is not met. *)
Lemma false_pass_is_false key need : dget key M365_REQUIREMENTS = Some need -> forall parameters now rows, need parameters now rows -> ~ falsely_passed key parameters now rows.
Proof.
  intros Hn parameters now rows H (d & Ed & Hd). unfold M365_FALSE_PASSES in Ed. cbn [dget] in Ed.
  repeat (case_decide; [subst key; injection Ed as <-; eassert (E : _ = Some _) by (etransitivity; [symmetry; exact Hn|reflexivity]); injection E as ->|]); try done; unfold rows_meet in *.
  - by destruct H.
  - destruct H as (d & Ed & H), Hd as (d' & Ed' & _ & a & Ha & Hna). by destruct (H a Ha).
  - destruct H as (p & Hp & Hd1 & E), Hd as [_ Hd]. rewrite (Hd p Hp Hd1) in E. done.
Qed.

(** ** Properties *)

(** C11: when a tenant is credited with a control. Every registered check has an evaluator,
    an endpoint and a requirement, and whenever an evaluator answers, its findings can be
    rolled up. The verdict is a pass exactly when the rows Graph returned meet the check's
    requirement, or, for three of the nineteen checks, in a case where that requirement is
    not met: an answer without any authentication method, an open alert whose time cannot be
    read, a policy that names a device condition among alternatives. Everywhere else a pass
    is observed: a report-only policy, a switch that is not the value true, a log whose
    newest record is stale and a lockout threshold of zero credit nothing. *)
Theorem m365_passes_are_observed :
  map fst M365_EVALUATORS = map fst M365_REQUIREMENTS /\
  map fst M365_FALSE_PASSES = [pc_key PHISHABLE_METHODS_DISABLED; pc_key SECURITY_ALERTS_TRIAGED; pc_key DEVICE_COMPLIANCE_REQUIRED] /\
  (forall c, c ∈ M365_CHECKS -> dhas (pc_key c) M365_EVALUATORS = true /\ dhas (pc_key c) M365_ENDPOINTS = true) /\
  forall key ev, dget key M365_EVALUATORS = Some ev -> exists need, dget key M365_REQUIREMENTS = Some need /\
    (forall parameters now rows, need parameters now rows -> ~ falsely_passed key parameters now rows) /\
    forall c parameters tenant_id now rows fs, ev parameters tenant_id now rows = Ok fs ->
    exists o, from_findings c fs = Ok o /\ co_findings o = fs /\ (co_verdict o = "pass" <-> need parameters now rows \/ falsely_passed key parameters now rows).
Proof.
  split; [reflexivity|]. split; [reflexivity|]. split.
  { intros c Hc. apply list_elem_of_In in Hc. cbn [M365_CHECKS In] in Hc. repeat (destruct Hc as [<-|Hc]; [by vm_compute|]). done. }
  intros key ev Hev. destruct (m365_credits key ev Hev) as (need & Hn & H). exists need. split; [done|]. split; [by apply false_pass_is_false|].
  intros c parameters tenant_id now rows fs E. destruct (H _ _ _ _ _ E) as [Hs Hv]. destruct (sound_rollup c fs Hs) as (v & Ev & Eo).
  eexists. split; [exact Eo|]. split; [done|]. by apply Hv.
Qed.

Definition policy_row (state : string) (types controls : list string) : row :=
  [("id", VStr "p1"); ("displayName", VStr "Baseline"); ("state", VStr state); ("conditions", VDict [("clientAppTypes", texts types)]);
   ("grantControls", VDict [("operator", VStr "OR"); ("builtInControls", texts controls)])].
Definition tenant_rollup (ev : m365_evaluator) (rows : list row) : res (option string) :=
  let! fs := ev [] "tenant" (1704067200 * 1000000) rows in let! v := roll_up_findings (map verdict fs) in Ok (Some v).

Lemma m365_passes_are_observed_witness : exists need, dget (pc_key LEGACY_AUTH_BLOCKED) M365_REQUIREMENTS = Some need /\
  exists o, from_findings LEGACY_AUTH_BLOCKED
      (tenant_finding "tenant" true false "blocked by Conditional Access policy 'Baseline'" [("policy_id", VStr "p1")]) = Ok o /\
    co_findings o = tenant_finding "tenant" true false "blocked by Conditional Access policy 'Baseline'" [("policy_id", VStr "p1")] /\
    (co_verdict o = "pass" <-> need [] 0 [policy_row "enabledForReportingButNotEnforced" ["other"] ["block"]; policy_row "enabled" ["other"] ["block"]] \/
       falsely_passed (pc_key LEGACY_AUTH_BLOCKED) [] 0 [policy_row "enabledForReportingButNotEnforced" ["other"] ["block"]; policy_row "enabled" ["other"] ["block"]]).
Proof.
  destruct (proj2 (proj2 (proj2 m365_passes_are_observed)) (pc_key LEGACY_AUTH_BLOCKED) (of_tenant evaluate_legacy_auth_blocked) ltac:(reflexivity)) as (need & Hn & _ & H).
  exists need. split; [exact Hn|]. apply (H LEGACY_AUTH_BLOCKED [] "tenant" 0). vm_compute. reflexivity.
Defined.

(** Report-only blocks nothing, and neither does a threshold of zero. *)
Example report_only_fails : tenant_rollup (of_tenant evaluate_legacy_auth_blocked) [policy_row "enabledForReportingButNotEnforced" ["other"] ["block"]] = Ok (Some "fail").
Proof. vm_compute. reflexivity. Qed.
(** A policy that grants on a second factor or a known device is read as one that grants
    on the device only. *)
Example alternative_grant_credited :
  tenant_rollup (of_tenant evaluate_device_compliance_required) [policy_row "enabled" [] ["mfa"; "compliantDevice"]] = Ok (Some "pass").
Proof. vm_compute. reflexivity. Qed.
(** An answer with no methods in it is read as no interceptable method. *)
Example empty_answer_credited : tenant_rollup (of_tenant evaluate_phishable_methods_disabled) [] = Ok (Some "pass").
Proof. vm_compute. reflexivity. Qed.
(** A sign-in time with no offset takes the whole check out. *)
Example naive_time_raises :
  tenant_rollup (fun _ _ now rows => evaluate_stale_accounts 90 now rows)
    [[("accountEnabled", VBool true); ("signInActivity", VDict [("lastSignInDateTime", VStr "2023-12-31T00:00:00")])]] =
  Err (TypeError "can't subtract offset-naive and offset-aware datetimes").
Proof. vm_compute. reflexivity. Qed.
(** A high alert with an unreadable time is not looked at. *)
Example undated_alert_credited :
  tenant_rollup (fun _ t now rows => evaluate_security_alerts_triaged 30 rows t now)
    [[("status", VStr "new"); ("severity", VStr "high"); ("createdDateTime", VStr "soon")]] = Ok (Some "pass").
Proof. vm_compute. reflexivity. Qed.
