(* ===== verification/CloudChecks.v ===== *)
(** Azure, Google Cloud and PuppetDB posture checks
    ([src/src/ccf/posture/providers/azure.py], [gcp.py], [puppetdb.py]): ten evaluators of
    the rows their APIs returned. *)

From S2P Require Export Observations.

Local Open Scope string_scope.
Local Open Scope Z_scope.

(** ** Azure *)

Definition MINIMUM_TLS : string := "TLS1_2".
Definition TLS_ORDER : list (string * Z) := [("TLS1_0", 0); ("TLS1_1", 1); ("TLS1_2", 2); ("TLS1_3", 3)].
(** The two providers' floors are the same number. *)
Definition LOG_RETENTION_MIN_DAYS : Z := 90.

Definition STORAGE_ENCRYPTION_AT_REST : PostureCheck :=
  check "azure.storage.encryption_at_rest" "Storage accounts encrypt blob and file data at rest" "azure_arm" "azure_storage_account"
    "every storage account encrypts both blob and file services at rest" ["SC-28"; "SC-28(1)"] ["Microsoft.Storage/storageAccounts/read"].
Definition STORAGE_HTTPS_ONLY : PostureCheck :=
  check "azure.storage.https_only" "Storage accounts require HTTPS at a current TLS version" "azure_arm" "azure_storage_account"
    ("every storage account requires HTTPS and a minimum TLS version of " +:+ MINIMUM_TLS +:+ " or higher") ["SC-8"; "SC-8(1)"; "SC-23"]
    ["Microsoft.Storage/storageAccounts/read"].
Definition AZURE_LOG_RETENTION : PostureCheck :=
  check "azure.monitor.log_retention" "Log Analytics workspaces retain audit records long enough" "azure_arm" "azure_log_analytics_workspace"
    ("every Log Analytics workspace retains audit records for at least " +:+ pretty LOG_RETENTION_MIN_DAYS +:+ " days") ["AU-11"; "AU-4"]
    ["Microsoft.OperationalInsights/workspaces/read"].
Definition POLICY_BASELINE_ENFORCED : PostureCheck :=
  check "azure.policy.baseline_enforced" "An Azure Policy baseline is enforced on the subscription" "azure_arm" "azure_subscription"
    "at least one Azure Policy assignment is enforcing, not audit-only" ["CM-2"; "CM-6"] ["Microsoft.Authorization/policyAssignments/read"].
Definition DEFENDER_WORKLOAD_PROTECTION : PostureCheck :=
  check "azure.defender.workload_protection" "Defender for Cloud runs workload protection" "azure_arm" "azure_subscription"
    "at least one Defender for Cloud plan is on the Standard tier" ["SI-3"; "SI-4"; "RA-5"] ["Microsoft.Security/pricings/read"].
Definition AZURE_CHECKS : list PostureCheck :=
  [STORAGE_ENCRYPTION_AT_REST; STORAGE_HTTPS_ONLY; AZURE_LOG_RETENTION; POLICY_BASELINE_ENFORCED; DEFENDER_WORKLOAD_PROTECTION].
Definition AZURE_ENDPOINTS : list (string * string) :=
  [(pc_key STORAGE_ENCRYPTION_AT_REST, "Microsoft.Storage/storageAccounts@2023-01-01");
   (pc_key STORAGE_HTTPS_ONLY, "Microsoft.Storage/storageAccounts@2023-01-01");
   (pc_key AZURE_LOG_RETENTION, "Microsoft.OperationalInsights/workspaces@2022-10-01");
   (pc_key POLICY_BASELINE_ENFORCED, "Microsoft.Authorization/policyAssignments@2022-06-01");
   (pc_key DEFENDER_WORKLOAD_PROTECTION, "Microsoft.Security/pricings@2023-01-01")].

Definition dict_or_empty (v : pyval) : row := default [] (is_dict v).
Definition props (r : row) : row := dict_or_empty (vget "properties" r).
Definition arm_ref (r : row) : string :=
  match vget "name" r with
  | VStr s => if str_truthy s then s else py_str (py_or (vget "id" r) (VStr "unknown"))
  | _ => py_str (py_or (vget "id" r) (VStr "unknown"))
  end.
Definition tls_at_least (v : pyval) : bool :=
  match v with
  | VStr s => match dget s TLS_ORDER with Some rank => default 0 (dget MINIMUM_TLS TLS_ORDER) <=? rank | None => false end
  | _ => false
  end.

Definition service_on (name : string) (r : row) : bool :=
  truthy (vget "enabled" (dict_or_empty (vget name (dict_or_empty (vget "services" (dict_or_empty (vget "encryption" (props r)))))))).
Definition storage_encryption_finding (r : row) : ResourceFinding :=
  let missing := List.filter (fun name => negb (service_on name r)) ["blob"; "file"] in
  finding (arm_ref r) "azure_storage_account" (pass_or_fail (bool_decide (missing = [])))
    (if bool_decide (missing = []) then "blob and file encryption enabled" else join " and " missing +:+ " encryption not enabled")
    [("blob_encrypted", VBool (service_on "blob" r)); ("file_encrypted", VBool (service_on "file" r));
     ("infrastructure_encryption", VBool (truthy (vget "requireInfrastructureEncryption" (dict_or_empty (vget "encryption" (props r))))))].
Definition evaluate_storage_encryption_at_rest (rows : list row) : list ResourceFinding := map storage_encryption_finding rows.

Definition https_finding (r : row) : ResourceFinding :=
  let https := truthy (vget "supportsHttpsTrafficOnly" (props r)) in
  let tls := vget "minimumTlsVersion" (props r) in
  let problems := ((if https then [] else ["HTTP traffic permitted"]) ++
                   (if tls_at_least tls then [] else ["minimum TLS " +:+ py_str (py_or tls (VStr "unset")) +:+ ", below " +:+ MINIMUM_TLS]))%list in
  finding (arm_ref r) "azure_storage_account" (pass_or_fail (bool_decide (problems = [])))
    (if bool_decide (problems = []) then "HTTPS required at minimum TLS " +:+ py_str tls else join "; " problems)
    [("https_only", VBool https); ("minimum_tls_version", tls)].
Definition evaluate_storage_https_only (rows : list row) : list ResourceFinding := map https_finding rows.

Definition workspace_finding (min_days : Z) (r : row) : ResourceFinding :=
  let days := vget "retentionInDays" (props r) in
  match is_int days with
  | Some n =>
      if n <=? 0 then finding (arm_ref r) "azure_log_analytics_workspace" "manual_review_required" "retentionInDays absent or not a positive integer"
                        [("retention_days", days)]
      else finding (arm_ref r) "azure_log_analytics_workspace" (pass_or_fail (min_days <=? n)) ("retains " +:+ pretty n +:+ " day(s)")
             [("retention_days", days); ("expected_min_days", VInt min_days)]
  | None => finding (arm_ref r) "azure_log_analytics_workspace" "manual_review_required" "retentionInDays absent or not a positive integer"
              [("retention_days", days)]
  end.
Definition evaluate_azure_log_retention (min_days : Z) (rows : list row) : list ResourceFinding := map (workspace_finding min_days) rows.

Definition is_enforcing (r : row) : bool :=
  negb (bool_decide (lower (py_str (py_or (vget "enforcementMode" (props r)) (VStr "Default"))) = "donotenforce")).
Definition enforcing (rows : list row) : list row := List.filter is_enforcing rows.
Definition assignment_name (r : row) : string := py_str (py_or (py_or (vget "displayName" (props r)) (vget "name" r)) (VStr "")).
Definition evaluate_policy_baseline_enforced (rows : list row) (subscription_id : string) : list ResourceFinding :=
  let on := enforcing rows in
  let audit_only := count rows - count on in
  let names := List.filter str_truthy (map assignment_name on) in
  let observed := match on with
                  | _ :: _ => pretty (count on) +:+ " enforcing assignment(s)" +:+
                              (if bool_decide (names = []) then "" else ": " +:+ join ", " (take 5 (sorted_strs names)))
                  | [] => if audit_only =? 0 then "no Azure Policy assignment on the subscription"
                          else "no enforcing assignment; " +:+ pretty audit_only +:+ " audit-only"
                  end in
  [finding subscription_id "azure_subscription" (pass_or_fail (negb (bool_decide (on = [])))) observed
     [("enforcing", VInt (count on)); ("audit_only", VInt audit_only)]].

Definition on_standard (r : row) : bool := bool_decide (lower (py_str (py_or (vget "pricingTier" (props r)) (VStr ""))) = "standard").
Definition evaluate_defender_workload_protection (rows : list row) (subscription_id : string) : list ResourceFinding :=
  let standard := map arm_ref (List.filter on_standard rows) in
  [finding subscription_id "azure_subscription" (pass_or_fail (negb (bool_decide (standard = []))))
     (if bool_decide (standard = []) then "no Defender plan on Standard (" +:+ pretty (count rows) +:+ " plan(s) examined)"
      else pretty (count standard) +:+ " plan(s) on Standard: " +:+ join ", " (take 6 (sorted_strs standard)))
     [("standard_plans", texts (sorted_strs standard)); ("plans_examined", VInt (count rows))]].

(** ** Google Cloud *)

Definition BUCKET_CMEK : PostureCheck :=
  check "gcp.storage.customer_managed_keys" "Storage buckets use customer-managed encryption keys" "gcp" "gcp_storage_bucket"
    "every Cloud Storage bucket sets a default customer-managed key (encryption.defaultKmsKeyName), not Google-managed keys"
    ["SC-28"; "SC-28(1)"; "SC-12"] ["storage.buckets.list"].
Definition GCP_LOG_RETENTION : PostureCheck :=
  check "gcp.logging.retention" "Cloud Logging buckets retain audit records long enough" "gcp" "gcp_log_bucket"
    ("every Cloud Logging bucket retains audit records for at least " +:+ pretty LOG_RETENTION_MIN_DAYS +:+ " days") ["AU-11"; "AU-4"] ["logging.buckets.list"].
Definition ORG_POLICY_ENFORCED : PostureCheck :=
  check "gcp.orgpolicy.constraints_enforced" "Organization Policy constraints are in effect on the project" "gcp" "gcp_project"
    "at least one Organization Policy constraint applies to the project" ["CM-2"; "CM-6"] ["orgpolicy.policies.list"].
Definition GCP_CHECKS : list PostureCheck := [BUCKET_CMEK; GCP_LOG_RETENTION; ORG_POLICY_ENFORCED].
Definition GCP_ENDPOINTS : list (string * string) :=
  [(pc_key BUCKET_CMEK, "https://storage.googleapis.com/storage/v1/b?project={project}#items");
   (pc_key GCP_LOG_RETENTION, "https://logging.googleapis.com/v2/projects/{project}/locations/global/buckets#buckets");
   (pc_key ORG_POLICY_ENFORCED, "https://orgpolicy.googleapis.com/v2/projects/{project}/policies#policies")].

(** [s.rsplit("/", 1)[-1]] *)
Definition last_segment (s : string) : string := List.last (split_on "/"%char s) "".
Fixpoint gcp_ref (r : row) (keys : list string) : string :=
  match keys with
  | [] => "unknown"
  | k :: keys' => match vget k r with VStr s => if str_truthy s then last_segment s else gcp_ref r keys' | _ => gcp_ref r keys' end
  end.

Definition default_key (r : row) : option string :=
  match vget "defaultKmsKeyName" (dict_or_empty (vget "encryption" r)) with VStr s => if str_truthy s then Some s else None | _ => None end.
Definition bucket_finding (r : row) : ResourceFinding :=
  finding (gcp_ref r ["name"; "id"]) "gcp_storage_bucket" (pass_or_fail (bool_decide (default_key r <> None)))
    (match default_key r with
     | Some k => "default customer-managed key " +:+ last_segment k
     | None => "no default customer-managed key; Google-managed keys in use"
     end) [("default_kms_key", vget "defaultKmsKeyName" (dict_or_empty (vget "encryption" r)))].
Definition evaluate_bucket_customer_managed_keys (rows : list row) : list ResourceFinding := map bucket_finding rows.

(** [int(raw)] of a number that is not a bool and above zero. *)
Definition positive_days (v : pyval) : option Z :=
  match v with
  | VInt n => if n <=? 0 then None else Some n
  | VFloat x => if fm x <=? 0 then None else Some (fl_trunc x)
  | _ => None
  end.
Definition log_bucket_finding (min_days : Z) (r : row) : ResourceFinding :=
  let raw := vget "retentionDays" r in
  match positive_days raw with
  | Some days => finding (gcp_ref r ["name"]) "gcp_log_bucket" (pass_or_fail (min_days <=? days)) ("retains " +:+ pretty days +:+ " day(s)")
                   [("retention_days", raw); ("expected_min_days", VInt min_days)]
  | None => finding (gcp_ref r ["name"]) "gcp_log_bucket" "manual_review_required" "retentionDays absent or not a positive number" [("retention_days", raw)]
  end.
Definition evaluate_gcp_log_retention (min_days : Z) (rows : list row) : list ResourceFinding := map (log_bucket_finding min_days) rows.

Definition has_text_name (r : row) : bool := match vget "name" r with VStr _ => true | _ => false end.
Definition evaluate_org_policy_enforced (rows : list row) (project_id : string) : list ResourceFinding :=
  let names := sorted_strs (map (fun r => gcp_ref r ["name"]) (List.filter has_text_name rows)) in
  [finding project_id "gcp_project" (pass_or_fail (negb (bool_decide (names = []))))
     (if bool_decide (names = []) then "no Organization Policy constraint applies to this project"
      else pretty (count names) +:+ " constraint(s): " +:+ join ", " (take 6 names))
     [("constraints", texts (take 20 names)); ("total", VInt (count names))]].

(** ** PuppetDB *)

Definition STALE_AFTER_HOURS : Z := 24.
Definition HEALTHY_RUN_STATUSES : list string := ["unchanged"; "changed"].
Definition FAILED_RUN_STATUSES : list string := ["failed"].
Definition NODE_REPORTING : PostureCheck :=
  check "puppetdb.node.reporting" "Every managed node is still reporting" "puppetdb" "puppet_node"
    ("every node has reported to PuppetDB within " +:+ pretty STALE_AFTER_HOURS +:+ " hours") ["CM-8"; "CM-2"] ["PuppetDB query: nodes"].
Definition NODE_LAST_RUN_OK : PostureCheck :=
  check "puppetdb.node.last_run_succeeded" "No node's most recent configuration run failed" "puppetdb" "puppet_node"
    "no node's most recent Puppet run ended in failure" ["CM-2"; "CM-6"] ["PuppetDB query: nodes"].
Definition PUPPETDB_CHECKS : list PostureCheck := [NODE_REPORTING; NODE_LAST_RUN_OK].
Definition PUPPETDB_ENDPOINTS : list (string * string) :=
  [(pc_key NODE_REPORTING, "/pdb/query/v4/nodes"); (pc_key NODE_LAST_RUN_OK, "/pdb/query/v4/nodes")].

Definition node_ref (node : row) : string := match vget "certname" node with VStr s => str_or s "unknown" | _ => "unknown" end.
(** The instant, of a timestamp that has an offset. *)
Definition parse_timestamp (v : pyval) : option Z :=
  match v with VStr s => if str_truthy s then fromisoformat (zulu s) ≫= utc else None | _ => None end.
(** [(now - reported).total_seconds() / 3600] *)
Definition hours_since (now reported : Z) : float := fl_div (truediv (now - reported) us_per_second) (fl_of_Z 3600).
(** [f"{x:.1f}"] *)
Definition fixed1 (x : float) : string :=
  let tenths := Z.abs (round1 x) in (if fm x <? 0 then "-" else "") +:+ pretty (tenths / 10) +:+ "." +:+ pretty (tenths mod 10).
Definition reporting_finding (now threshold_hours : Z) (node : row) : ResourceFinding :=
  let stamp := vget "report_timestamp" node in
  match parse_timestamp stamp with
  | None => finding (node_ref node) "puppet_node" "manual_review_required" "node has never reported to PuppetDB, or its timestamp is unreadable"
              [("report_timestamp", stamp)]
  | Some reported =>
      let hours := hours_since now reported in
      finding (node_ref node) "puppet_node" (pass_or_fail (fl_leb hours (fl_of_Z threshold_hours))) ("last reported " +:+ fixed1 hours +:+ " hour(s) ago")
        [("report_timestamp", stamp)]
  end.
Definition evaluate_node_reporting (now threshold_hours : Z) (nodes : list row) : list ResourceFinding := map (reporting_finding now threshold_hours) nodes.

Definition run_status (node : row) : option string := match vget "latest_report_status" node with VStr s => Some (lower s) | _ => None end.
Definition run_finding (node : row) : ResourceFinding :=
  let status := vget "latest_report_status" node in
  let is_in l := match run_status node with Some s => mem s l | None => false end in
  let vo := if is_in FAILED_RUN_STATUSES then ("fail", "most recent Puppet run failed; declared configuration is not being applied")
            else if is_in HEALTHY_RUN_STATUSES then ("pass", "most recent Puppet run: " +:+ or_empty (run_status node))
            else ("manual_review_required", "unrecognised run status: " +:+ py_repr status) in
  finding (node_ref node) "puppet_node" vo.1 vo.2 [("latest_report_status", status)].
Definition evaluate_last_run_ok (nodes : list row) : list ResourceFinding := map run_finding nodes.

(** ** Dispatch

    Each evaluator with the account it is asked of and the clock. *)

Definition cloud_evaluator : Type := string -> Z -> list row -> list ResourceFinding.
Definition fleet (f : list row -> list ResourceFinding) : cloud_evaluator := fun _ _ rows => f rows.
Definition account (f : list row -> string -> list ResourceFinding) : cloud_evaluator := fun subject _ rows => f rows subject.
Definition AZURE_EVALUATORS : list (string * cloud_evaluator) :=
  [(pc_key STORAGE_ENCRYPTION_AT_REST, fleet evaluate_storage_encryption_at_rest); (pc_key STORAGE_HTTPS_ONLY, fleet evaluate_storage_https_only);
   (pc_key AZURE_LOG_RETENTION, fleet (evaluate_azure_log_retention LOG_RETENTION_MIN_DAYS));
   (pc_key POLICY_BASELINE_ENFORCED, account evaluate_policy_baseline_enforced);
   (pc_key DEFENDER_WORKLOAD_PROTECTION, account evaluate_defender_workload_protection)].
Definition GCP_EVALUATORS : list (string * cloud_evaluator) :=
  [(pc_key BUCKET_CMEK, fleet evaluate_bucket_customer_managed_keys); (pc_key GCP_LOG_RETENTION, fleet (evaluate_gcp_log_retention LOG_RETENTION_MIN_DAYS));
   (pc_key ORG_POLICY_ENFORCED, account evaluate_org_policy_enforced)].
Definition PUPPETDB_EVALUATORS : list (string * cloud_evaluator) :=
  [(pc_key NODE_REPORTING, fun _ now rows => evaluate_node_reporting now STALE_AFTER_HOURS rows); (pc_key NODE_LAST_RUN_OK, fleet evaluate_last_run_ok)].

(** ** What each check requires *)

Definition encrypts_at_rest (r : row) : Prop := service_on "blob" r = true /\ service_on "file" r = true.
Definition tls_is_current (r : row) : Prop :=
  truthy (vget "supportsHttpsTrafficOnly" (props r)) = true /\
  exists s, vget "minimumTlsVersion" (props r) = VStr s /\ s ∈ ["TLS1_2"; "TLS1_3"].
Definition workspace_retains (r : row) : Prop := exists n, vget "retentionInDays" (props r) = VInt n /\ LOG_RETENTION_MIN_DAYS <= n.
Definition some_row (P : row -> Prop) (rows : list row) : Prop := exists r, r ∈ rows /\ P r.
Definition has_own_key (r : row) : Prop :=
  exists e s, vget "encryption" r = VDict e /\ vget "defaultKmsKeyName" e = VStr s /\ s <> "".
Definition bucket_retains (r : row) : Prop := exists n, positive_days (vget "retentionDays" r) = Some n /\ LOG_RETENTION_MIN_DAYS <= n.
Definition reported_lately (now : Z) (node : row) : Prop :=
  exists reported, parse_timestamp (vget "report_timestamp" node) = Some reported /\ fl_leb (hours_since now reported) (fl_of_Z STALE_AFTER_HOURS) = true.
Definition last_run_was_clean (node : row) : Prop := exists s, vget "latest_report_status" node = VStr s /\ lower s ∈ HEALTHY_RUN_STATUSES.

Definition CLOUD_EVALUATORS : list (string * cloud_evaluator) := (AZURE_EVALUATORS ++ GCP_EVALUATORS ++ PUPPETDB_EVALUATORS)%list.
Definition CLOUD_REQUIREMENTS : list (string * (Z -> list row -> Prop)) :=
  [(pc_key STORAGE_ENCRYPTION_AT_REST, fun _ => all_of_some encrypts_at_rest); (pc_key STORAGE_HTTPS_ONLY, fun _ => all_of_some tls_is_current);
   (pc_key AZURE_LOG_RETENTION, fun _ => all_of_some workspace_retains);
   (pc_key POLICY_BASELINE_ENFORCED, fun _ => some_row (fun r => is_enforcing r = true));
   (pc_key DEFENDER_WORKLOAD_PROTECTION, fun _ => some_row (fun r => on_standard r = true));
   (pc_key BUCKET_CMEK, fun _ => all_of_some has_own_key); (pc_key GCP_LOG_RETENTION, fun _ => all_of_some bucket_retains);
   (pc_key ORG_POLICY_ENFORCED, fun _ => some_row (fun r => exists s, vget "name" r = VStr s));
   (pc_key NODE_REPORTING, fun now => all_of_some (reported_lately now)); (pc_key NODE_LAST_RUN_OK, fun _ => all_of_some last_run_was_clean)].

(** ** Lemmas *)

Lemma all_rows_credit (f : row -> ResourceFinding) (P : row -> Prop) rows :
  (forall r, sound_finding (f r) /\ (verdict (f r) = "pass" <-> P r) /\ (verdict (f r) ∈ EXCLUDED_FROM_ROLLUP <-> False)) -> credits (map f rows) (all_of_some P rows).
Proof. intros H. apply (credits_all (fun r => Ok (f r)) P (fun _ => False)); [by intros r x [= <-]|by intros ? _ []|by apply res_map_Ok_in]. Qed.
Lemma one_pass_credits rid rt b obs d (P : Prop) : (b = true <-> P) -> credits [finding rid rt (pass_or_fail b) obs d] P.
Proof. intros H. apply credits_one; [apply sound_pass_or_fail|]. cbn [finding verdict]. by rewrite pass_or_fail_pass. Qed.
Lemma some_row_true {A} (l : list A) (P : Prop) : (l <> [] <-> P) -> (negb (bool_decide (l = [])) = true <-> P).
Proof. intros H. by rewrite negb_true_iff, bool_decide_eq_false. Qed.
Lemma map_nil {A B} (f : A -> B) l : map f l = [] <-> l = [].
Proof. split; [apply map_eq_nil|by intros ->]. Qed.

Lemma encrypts_judged r : verdict (storage_encryption_finding r) = pass_or_fail (service_on "blob" r && service_on "file" r).
Proof. unfold storage_encryption_finding. cbn [List.filter]. by destruct (service_on "blob" r), (service_on "file" r). Qed.
Lemma tls_spec v : tls_at_least v = true <-> exists s, v = VStr s /\ s ∈ ["TLS1_2"; "TLS1_3"].
Proof.
  split.
  - destruct v as [| | | |s| |]; try done. intros E. exists s. split; [done|]. unfold tls_at_least in E.
    change (default 0 (dget MINIMUM_TLS TLS_ORDER)) with 2 in E. unfold TLS_ORDER in E. cbn [dget] in E.
    repeat (case_decide; [subst s; (discriminate E || vocabulary)|]). done.
  - intros (s & -> & Hs). apply list_elem_of_In in Hs. destruct Hs as [<-|[<-|[]]]; vm_compute; done.
Qed.
Lemma https_judged r : verdict (https_finding r) = pass_or_fail (truthy (vget "supportsHttpsTrafficOnly" (props r)) && tls_at_least (vget "minimumTlsVersion" (props r))).
Proof. unfold https_finding. by destruct (truthy _), (tls_at_least _). Qed.
Lemma key_spec r : default_key r <> None <-> has_own_key r.
Proof.
  unfold default_key, has_own_key. destruct (vget "encryption" r) as [| | | | | |e];
    try (change (vget "defaultKmsKeyName" (dict_or_empty _)) with VNone; by split; [|intros (? & ? & ? & _)]).
  change (dict_or_empty (VDict e)) with e.
  destruct (vget "defaultKmsKeyName" e) as [| | | |s| |] eqn:E; try (split; [by intros []|intros (? & ? & [= <-] & E' & _); congruence]).
  destruct (str_truthy s) eqn:Es; (split; [intros H|intros (? & s' & [= <-] & E' & Hs)]); try done.
  - exists e, s. split_and!; [done|done|by apply truthy_ne].
  - rewrite E in E'. injection E' as <-. apply truthy_ne in Hs. congruence.
Qed.
Lemma workspace_judged r : let f := workspace_finding LOG_RETENTION_MIN_DAYS r in
  sound_finding f /\ (verdict f = "pass" <-> workspace_retains r) /\ (verdict f ∈ EXCLUDED_FROM_ROLLUP <-> False).
Proof.
  unfold workspace_finding, workspace_retains. destruct (vget "retentionInDays" (props r)) as [| |n| | | |]; cbn [is_int]; try (apply judged_open; [done|by intros (? & [=] & _)]).
  destruct (Z.leb_spec n 0).
  - apply judged_open; [done|]. intros (n' & [= <-] & Hn). unfold LOG_RETENTION_MIN_DAYS in Hn. lia.
  - apply (judged_bool _ (LOG_RETENTION_MIN_DAYS <=? n)); [done|]. rewrite Z.leb_le. split; [intros Hn; by exists n|by intros (? & [= <-] & ?)].
Qed.
Lemma log_bucket_judged r : let f := log_bucket_finding LOG_RETENTION_MIN_DAYS r in
  sound_finding f /\ (verdict f = "pass" <-> bucket_retains r) /\ (verdict f ∈ EXCLUDED_FROM_ROLLUP <-> False).
Proof.
  unfold log_bucket_finding, bucket_retains. destruct (positive_days _) as [n|]; [|apply judged_open; [done|by intros (? & [=] & _)]].
  apply (judged_bool _ (LOG_RETENTION_MIN_DAYS <=? n)); [done|]. rewrite Z.leb_le. split; [intros Hn; by exists n|by intros (? & [= <-] & ?)].
Qed.
Lemma reporting_judged now node : let f := reporting_finding now STALE_AFTER_HOURS node in
  sound_finding f /\ (verdict f = "pass" <-> reported_lately now node) /\ (verdict f ∈ EXCLUDED_FROM_ROLLUP <-> False).
Proof.
  unfold reporting_finding, reported_lately. destruct (parse_timestamp _) as [t|]; [|apply judged_open; [done|by intros (? & [=] & _)]].
  apply (judged_bool _ (fl_leb (hours_since now t) (fl_of_Z STALE_AFTER_HOURS))); [done|]. split; [intros H; by exists t|by intros (? & [= <-] & ?)].
Qed.
Lemma run_judged node : let f := run_finding node in sound_finding f /\ (verdict f = "pass" <-> last_run_was_clean node) /\ (verdict f ∈ EXCLUDED_FROM_ROLLUP <-> False).
Proof.
  unfold run_finding, last_run_was_clean, run_status. destruct (vget "latest_report_status" node) as [| | | |s| |]; try (apply judged_open; [done|by intros (? & [=] & _)]).
  destruct (mem (lower s) FAILED_RUN_STATUSES) eqn:Ef; [|destruct (mem (lower s) HEALTHY_RUN_STATUSES) eqn:Eh].
  - apply (judged_bool _ false); [done|]. split; [done|]. intros (s' & [= <-] & H). apply mem_true, list_elem_of_In in Ef. destruct Ef as [Ef|[]].
    rewrite <-Ef in H. by apply mem_true in H.
  - apply (judged_bool _ true); [done|]. apply mem_true in Eh. split; [intros _; by exists s|done].
  - apply judged_open; [done|]. intros (s' & [= <-] & H). apply mem_true in H. congruence.
Qed.

Lemma cloud_credits key : forall ev, dget key CLOUD_EVALUATORS = Some ev -> exists need, dget key CLOUD_REQUIREMENTS = Some need /\
  forall subject now rows, credits (ev subject now rows) (need now rows).
Proof.
  intros ev. unfold CLOUD_EVALUATORS, AZURE_EVALUATORS, GCP_EVALUATORS, PUPPETDB_EVALUATORS, CLOUD_REQUIREMENTS, fleet, account. cbn [app dget].
  repeat (case_decide; [intros [= <-]; eexists; split; [reflexivity|]; intros subject now rows|]); try done; cbv beta.
  - apply all_rows_credit. intros r. eapply judged_bool; [apply encrypts_judged|]. apply andb_true_iff.
  - apply all_rows_credit. intros r. eapply judged_bool; [apply https_judged|]. unfold tls_is_current. by rewrite andb_true_iff, tls_spec.
  - apply all_rows_credit, workspace_judged.
  - apply one_pass_credits, some_row_true, some_filtered.
  - apply one_pass_credits, some_row_true. rewrite map_nil. apply some_filtered.
  - apply all_rows_credit. intros r. apply (judged_bool _ (bool_decide (default_key r <> None))); [done|]. rewrite bool_decide_eq_true. apply key_spec.
  - apply all_rows_credit, log_bucket_judged.
  - apply one_pass_credits, some_row_true. rewrite sorted_strs_nil, map_nil, some_filtered. unfold some_row.
    split; intros (r & Hr & Hname); exists r; (split; [done|]); unfold has_text_name in *; [destruct (vget "name" r); try done; by eexists|by destruct Hname as (s & ->)].
  - apply all_rows_credit, reporting_judged.
  - apply all_rows_credit, run_judged.
Qed.

(** ** Properties *)

(** on Azure, Google Cloud and PuppetDB a control is credited exactly when what it
    requires was observed: every registered check has an endpoint, an evaluator and a
    requirement, its findings can always be rolled up, whatever the fields of the rows hold,
    and the verdict is a pass exactly under the requirement: encryption of both services, a
    known TLS version at the floor, a readable retention, an enforcing assignment, a key of
    the organization's own, a report with an offset within the day, a run known to be
    clean. *)
Theorem cloud_passes_are_observed :
  map fst CLOUD_EVALUATORS = map fst CLOUD_REQUIREMENTS /\
  (forall c, c ∈ (AZURE_CHECKS ++ GCP_CHECKS ++ PUPPETDB_CHECKS)%list ->
     dhas (pc_key c) CLOUD_EVALUATORS = true /\ dhas (pc_key c) (AZURE_ENDPOINTS ++ GCP_ENDPOINTS ++ PUPPETDB_ENDPOINTS)%list = true) /\
  forall key ev, dget key CLOUD_EVALUATORS = Some ev -> exists need, dget key CLOUD_REQUIREMENTS = Some need /\
    forall c subject now rows, exists o, from_findings c (ev subject now rows) = Ok o /\ co_findings o = ev subject now rows /\ (co_verdict o = "pass" <-> need now rows).
Proof.
  split; [reflexivity|]. split.
  { intros c Hc. apply list_elem_of_In in Hc. cbn [AZURE_CHECKS GCP_CHECKS PUPPETDB_CHECKS app In] in Hc. repeat (destruct Hc as [<-|Hc]; [by vm_compute|]). done. }
  intros key ev Hev. destruct (cloud_credits key ev Hev) as (need & Hn & H). exists need. split; [done|].
  intros c subject now rows. destruct (H subject now rows) as [Hs Hv]. destruct (sound_rollup c _ Hs) as (v & Ev & Eo).
  eexists. split; [exact Eo|]. split; [done|]. by apply Hv.
Qed.

Definition node_row (stamp : string) : row := [("certname", VStr "db1"); ("report_timestamp", VStr stamp); ("latest_report_status", VStr "changed")].
Lemma cloud_passes_are_observed_witness : exists need, dget (pc_key NODE_REPORTING) CLOUD_REQUIREMENTS = Some need /\
  exists o, from_findings NODE_REPORTING (evaluate_node_reporting 1704067200000000 STALE_AFTER_HOURS [node_row "2023-12-31T12:30:00Z"; node_row "2023-12-31T12:30:00"]) = Ok o /\
    co_findings o = evaluate_node_reporting 1704067200000000 STALE_AFTER_HOURS [node_row "2023-12-31T12:30:00Z"; node_row "2023-12-31T12:30:00"] /\
    (co_verdict o = "pass" <-> need 1704067200000000 [node_row "2023-12-31T12:30:00Z"; node_row "2023-12-31T12:30:00"]).
Proof.
  destruct (proj2 (proj2 cloud_passes_are_observed) (pc_key NODE_REPORTING) (fun _ now rows => evaluate_node_reporting now STALE_AFTER_HOURS rows) ltac:(reflexivity)) as (need & Hn & H).
  exists need. split; [exact Hn|]. apply (H NODE_REPORTING "pdb" 1704067200000000).
Defined.
(** A timestamp with no offset is not taken for a report. *)
Example naive_report_is_reviewed :
  map (fun f => (verdict f, observed f)) (evaluate_node_reporting 1704067200000000 STALE_AFTER_HOURS [node_row "2023-12-31T12:30:00Z"; node_row "2023-12-31T12:30:00"]) =
  [("pass", "last reported 11.5 hour(s) ago"); ("manual_review_required", "node has never reported to PuppetDB, or its timestamp is unreadable")].
Proof. vm_compute. reflexivity. Qed.
(** Google Cloud: half a day of retention is a reading, of no days. *)
Example short_retention : map verdict (evaluate_gcp_log_retention 90 [[("retentionDays", VFloat (fl_of_ratio 1 2))]; [("retentionDays", VBool true)]; [("retentionDays", VInt 400)]]) =
  ["fail"; "manual_review_required"; "pass"].
Proof. vm_compute. reflexivity. Qed.
