(* ===== verification/Ksi.v ===== *)
(** The FedRAMP 20x KSI validation engine
    ([src/src/ccf/fedramp20x/validation.py]) and the attribution of posture
    results to controls ([src/src/ccf/posture/evidence.py]): the rule evaluator,
    the context it reads and the run that records a verdict per KSI.

    A rule is the JSON value stored with the KSI; the recursion of [any_of] is
    structural in it. *)

From S2P Require Export Posture PyText.

Local Open Scope string_scope.
Local Open Scope Z_scope.

Definition ACCEPTABLE_DEFAULT : list string := ["implemented"; "inherited"].

Definition KSI_FREQUENCY_DAYS : list (string * Z) :=
  [("continuous", 1); ("daily", 1); ("weekly", 7); ("monthly", 30); ("quarterly", 90); ("annual", 365)].

(** ** Attribution of a test's status to controls *)

Definition evidenced_controls (control_id : option string) (control_ids : option (list string))
    : list string :=
  let primary := strip (or_empty control_id) in
  let out := if str_truthy primary then [primary] else [] in
  fold_left (fun out raw =>
    let candidate := strip raw in
    if str_truthy candidate && negb (mem candidate out) then (out ++ [candidate])%list else out)
    (default [] control_ids) out.

Definition non_passing_attribution := evidenced_controls.

Definition pass_attribution (control_id : option string) : list string :=
  let primary := strip (or_empty control_id) in if str_truthy primary then [primary] else [].

(** ** Control ids *)

(** [re.match(r"([A-Z]{2,3})-?0*([0-9]+)", base)]: the letters and the digits.
    Four or more leading letters never match, and leading zeros do not change
    the number read. *)
Definition control_match (base : string) : option (string * string) :=
  let letters := take_while is_upper_ascii base in
  let rest := drop_while is_upper_ascii base in
  let rest := match rest with
              | String c r => if decide (c = "-"%char) then r else rest
              | EmptyString => rest
              end in
  let digits := take_while is_digit rest in
  if mem (Z.of_nat (String.length letters)) [2; 3] && str_truthy digits
  then Some (letters, digits) else None.

Definition normalize_control (cid : string) : string :=
  let base := default "" (head (split_on "("%char (upper (strip cid)))) in
  match control_match base with
  | Some (letters, digits) => letters +:+ "-" +:+ pretty (digits_val digits)
  | None => base
  end.

Example normalize_control_examples :
  map normalize_control ["AC-06"; " ac-6(1)"; "IA2"; "AC-6 (10)"; "ABCD-1"; "AC-"; "PM-00"] =
  ["AC-6"; "AC-6"; "IA-2"; "AC-6"; "ABCD-1"; "AC-"; "PM-0"].
Proof. vm_compute. reflexivity. Qed.

(** ** Context and verdict *)

Record Dependency := { dep_name : string; dep_fedramp_status : option string }.

Record SystemContext := {
  impl_status : gmap string string;
  control_evidence : gmap string bool;
  evidence_refs : gmap string (list string);
  dependencies : list Dependency;
  profile : list (string * option string);
  captures : list string;
  control_tests : gmap string string }.

Record Verdict := {
  v_status : string;
  v_confidence : string;
  v_source : string;
  v_evidence_refs : list string;
  v_failure_reason : option string;
  v_remediation_hint : option string;
  v_assessor_review_required : bool }.

Definition mkV (st conf src : string) (refs : list string) (reason hint : option string) (review : bool)
    : Verdict :=
  {| v_status := st; v_confidence := conf; v_source := src; v_evidence_refs := refs;
     v_failure_reason := reason; v_remediation_hint := hint; v_assessor_review_required := review |}.

Definition manual_hint : string := "Requires assessor review — no deterministic signal available.".

Definition status_ok (status : option string) (states : list pyval) : bool :=
  match status with None => false | Some s => py_in (VStr s) states end.

Definition repr_strs (l : list string) : string := py_repr (VList (map VStr l)).

Definition tested_pass (ctx : SystemContext) (c : string) : bool :=
  bool_decide (control_tests ctx !! c = Some "pass").

Definition satisfied_by (ctx : SystemContext) (states : list pyval) (c : string) : bool :=
  status_ok (impl_status ctx !! c) states || tested_pass ctx c.

Definition control_refs (ctx : SystemContext) (controls : list string) : list string :=
  (omap (fun c => match impl_status ctx !! c with
                  | Some s => if str_truthy s then Some (c +:+ ":" +:+ s) else None
                  | None => None
                  end) (reverse (remove_dups (reverse controls))) ++
   map (fun c => c +:+ ":test:pass") (sorted_set (filter (fun c => tested_pass ctx c = true) controls)))%list.

(** The [control_state] and [control_any] kinds. *)
Definition control_verdict (kind : string) (ctx : SystemContext) (states : list pyval)
    (controls : list string) : Verdict :=
  let refs := control_refs ctx controls in
  let satisfied := filter (fun c => satisfied_by ctx states c = true) controls in
  let missing := filter (fun c => satisfied_by ctx states c = false) controls in
  let ok := if decide (kind = "control_state") then bool_decide (missing = [])
            else negb (bool_decide (satisfied = [])) in
  let hint := Some ("Implement or inherit " +:+ join ", " missing +:+ ".") in
  if ok then mkV "pass" "medium" kind refs None None false
  else if negb (bool_decide (satisfied = [])) then
    mkV "warn" "medium" kind refs
      (Some ("Not all supporting controls satisfied: missing " +:+ repr_strs missing +:+ ".")) hint false
  else mkV "fail" "medium" kind refs
      (Some ("Supporting controls not implemented: " +:+ repr_strs missing +:+ ".")) hint false.

Definition evidence_verdict (ctx : SystemContext) (controls : list string) : Verdict :=
  let have := existsb (fun c => default false (control_evidence ctx !! c)) controls in
  let refs := concat (map (fun c => default [] (evidence_refs ctx !! c)) controls) in
  if have then mkV "pass" "medium" "evidence_present" refs None None false
  else mkV "fail" "medium" "evidence_present" []
      (Some ("No current evidence for " +:+ repr_strs controls +:+ "."))
      (Some "Collect and attach evidence to a supporting control.") false.

Definition authorized (d : Dependency) : bool := bool_decide (dep_fedramp_status d = Some "authorized").

Definition dependency_verdict (ctx : SystemContext) : Verdict :=
  let deps := dependencies ctx in
  match deps with
  | [] => mkV "manual_review_required" "low" "dependency_authorized" []
            (Some "No dependency inventory recorded.")
            (Some "Record underlying IaaS/PaaS/SaaS dependencies.") true
  | _ =>
      let unauth := map dep_name (filter (fun d => authorized d = false) deps) in
      let refs := map (fun d => dep_name d +:+ ":" +:+ fmt_opt (dep_fedramp_status d)) deps in
      if bool_decide (unauth = []) then mkV "pass" "high" "dependency_authorized" refs None None false
      else mkV "fail" "high" "dependency_authorized" refs
        (Some ("Non-authorized dependencies: " +:+ repr_strs unauth +:+ "."))
        (Some "Replace with, or obtain authorization for, these services.") false
  end.

(** [ctx.profile.get(field_name)]: an unhashable key raises. *)
Definition profile_verdict (ctx : SystemContext) (field_name : pyval) : res Verdict :=
  if negb (hashable field_name) then Err (TypeError ("unhashable type: " +:+ repr_str (type_name field_name)))
  else
    let value := match field_name with VStr f => or_empty (default None (dget f (profile ctx))) | _ => "" end in
    let f := py_str field_name in
    Ok (if str_truthy value then mkV "pass" "medium" "profile_field" ["profile." +:+ f] None None false
        else mkV "fail" "medium" "profile_field" []
          (Some ("CSO profile field '" +:+ f +:+ "' is not set."))
          (Some ("Complete the '" +:+ f +:+ "' field on the 20x profile.")) false).

Fixpoint all_hashable (l : list pyval) : res unit :=
  match l with
  | [] => Ok tt
  | v :: l' => if hashable v then all_hashable l'
               else Err (TypeError ("unhashable type: " +:+ repr_str (type_name v)))
  end.

Definition strs_of (l : list pyval) : list string :=
  omap (fun v => match v with VStr s => Some s | _ => None end) l.

Definition capture_verdict (ctx : SystemContext) (needed : list pyval) : res Verdict :=
  let! _ := all_hashable needed in
  if negb (bool_decide (needed = [])) &&
     forallb (fun v => match v with VStr s => mem s (captures ctx) | _ => false end) needed
  then Ok (mkV "pass" "high" "connector_capture" (sorted_set (strs_of needed)) None None false)
  else Ok (mkV "manual_review_required" "low" "connector_capture" []
             (Some "No connector capture data available.")
             (Some "Configure a cloud connector or import capture data.") true).

(** [(rule or {}).get("kind", "manual")]. *)
Definition rule_kind (p : list (string * pyval)) : pyval := default (VStr "manual") (dget "kind" p).
Definition is_kind (k : pyval) (s : string) : bool := py_eq k (VStr s).

Definition normalize_value (v : pyval) : res string :=
  match v with
  | VStr s => Ok (normalize_control s)
  | _ => Err (AttributeError (type_name v) "strip")
  end.

Definition states_of (p : list (string * pyval)) : res (list pyval) :=
  let v := vget "states" p in
  if truthy v then iter_val v else Ok (map VStr ACCEPTABLE_DEFAULT).

Definition controls_of (p : list (string * pyval)) : res (list string) :=
  let! cs := iter_val (default (VList []) (dget "controls" p)) in res_map normalize_value cs.

(** [max(sub, key=...)] keeps the first of the best. *)
Definition best_verdict (subs : list Verdict) : Verdict :=
  match subs with
  | [] => mkV "manual_review_required" "low" "any_of" [] (Some "any_of rule has no sub-rules.") None true
  | v :: vs => max_by (fun v => verdict_rank (v_status v)) v vs
  end.

(** The kinds other than [any_of], in the order the code tests them. *)
Definition simple_verdict (p : list (string * pyval)) (ctx : SystemContext) (states : list pyval)
    (controls : list string) : res Verdict :=
  let kind := rule_kind p in
  if is_kind kind "control_state" then Ok (control_verdict "control_state" ctx states controls)
  else if is_kind kind "control_any" then Ok (control_verdict "control_any" ctx states controls)
  else if is_kind kind "evidence_present" then Ok (evidence_verdict ctx controls)
  else if is_kind kind "dependency_authorized" then Ok (dependency_verdict ctx)
  else if is_kind kind "profile_field" then
    profile_verdict ctx (default (VStr "") (dget "field" p))
  else if is_kind kind "connector_capture" then
    let! needed := iter_val (default (VList []) (dget "captures" p)) in
    capture_verdict ctx needed
  else Ok (mkV "manual_review_required" "low" "manual" []
             (Some ("Unknown rule kind '" +:+ py_str kind +:+ "'.")) None true).

Fixpoint evaluate_rule (rule : pyval) (ctx : SystemContext) : res Verdict :=
  match rule with
  | VDict p =>
      let kind := rule_kind p in
      let! states := states_of p in
      let! controls := controls_of p in
      if is_kind kind "manual" then
        Ok (mkV "manual_review_required" "low" "manual" [] (Some manual_hint) None true)
      else if is_kind kind "any_of" then
        let! subs := default (Ok []) (dget_with (fun rules =>
          match rules with
          | VList l => res_mapv (fun r => evaluate_rule r ctx) l
          | VStr "" | VDict [] => Ok []
          | VStr _ | VDict _ => Err (AttributeError "str" "get")
          | v => Err (not_iterable (type_name v))
          end) "rules" p) in
        Ok (best_verdict subs)
      else simple_verdict p ctx states controls
  | v => Err (AttributeError (type_name v) "get")
  end.

(** ** Building the context *)

Record KsiEvidence := { ke_id : Z; ke_title : string; ke_expires_on : option Z }.

(** A [control_implementations] row with its control's identifier and evidence. *)
Record ControlImplementation := {
  ci_identifier : option string;
  ci_status : string;
  ci_evidence : list KsiEvidence }.

(** The columns of [control_tests] the readiness query selects. *)
Record TestStatus := {
  ts_control_id : string;
  ts_control_ids : option (list string);
  ts_last_status : option string }.

Definition IMPL_RANK : list (string * Z) :=
  [("implemented", 5); ("inherited", 4); ("partial", 3); ("planned", 2); ("not_applicable", 1);
   ("not_implemented", 0)].
Definition impl_rank (s : string) : Z := default 0 (dget s IMPL_RANK).

Definition evidence_current (ev : KsiEvidence) (today : Z) : bool :=
  match ke_expires_on ev with None => true | Some e => today <=? e end.
Definition evidence_ref (ev : KsiEvidence) : string :=
  "evidence:" +:+ pretty (ke_id ev) +:+ ":" +:+ ke_title ev.

Definition impl_key (i : ControlImplementation) : option string :=
  match ci_identifier i with
  | Some s => if str_truthy s then Some (normalize_control s) else None
  | None => None
  end.

(** The loop over the implementations, one map at a time. *)
Definition add_impl_status (m : gmap string string) (i : ControlImplementation) : gmap string string :=
  match impl_key i with
  | None => m
  | Some key =>
      match m !! key with
      | None => <[key := ci_status i]> m
      | Some cur => if impl_rank cur <? impl_rank (ci_status i) then <[key := ci_status i]> m else m
      end
  end.

Definition current_refs (today : Z) (i : ControlImplementation) : list string :=
  map evidence_ref (filter (fun e => evidence_current e today = true) (ci_evidence i)).

Definition add_evidence (today : Z) (m : gmap string bool * gmap string (list string))
    (i : ControlImplementation) : gmap string bool * gmap string (list string) :=
  match impl_key i with
  | None => m
  | Some key =>
      match current_refs today i with
      | [] => m
      | refs => (<[key := true]> m.1, <[key := (default [] (m.2 !! key) ++ refs)%list]> m.2)
      end
  end.

Definition attributed_controls (t : TestStatus) (status : string) : list string :=
  if decide (status = "pass") then pass_attribution (Some (ts_control_id t))
  else non_passing_attribution (Some (ts_control_id t)) (ts_control_ids t).

(** [by_control.setdefault(key, set()).add(status)]; a set is its member list. *)
Definition add_status (status : string) (m : gmap string (list string)) (attributed_id : string)
    : gmap string (list string) :=
  let key := normalize_control attributed_id in
  let seen := default [] (m !! key) in
  <[key := if mem status seen then seen else status :: seen]> m.

Definition add_test (m : gmap string (list string)) (t : TestStatus) : gmap string (list string) :=
  match ts_last_status t with
  | None => m
  | Some status => fold_left (add_status status) (attributed_controls t status) m
  end.

Definition tested_controls (tests : list TestStatus) : gmap string string :=
  omap (fun statuses => if bool_decide (statuses = ["pass"]) then Some "pass" else None)
    (fold_left add_test tests ∅).

(** What the database holds about one system. *)
Record SystemData := {
  sd_impls : list ControlImplementation;
  sd_tests : list TestStatus;
  sd_deps : list Dependency;
  sd_profile : option (list (string * option string));
  sd_org : option Z;
  sd_captures : list (Z * string * option string) }.

Definition capture_keys (org : option Z) (caps : list (Z * string * option string)) : list string :=
  match org with
  | None => []
  | Some o =>
      concat (map (fun c => let '(_, odp, nist) := c in
                odp :: (if str_truthy (or_empty nist) then [or_empty nist] else []))
        (filter (fun c => c.1.1 = o) caps))
  end.

Definition build_context (d : SystemData) (today : Z) : SystemContext :=
  let ev := fold_left (add_evidence today) (sd_impls d) (∅, ∅) in
  {| impl_status := fold_left add_impl_status (sd_impls d) ∅;
     control_evidence := ev.1; evidence_refs := ev.2;
     dependencies := sd_deps d; profile := default [] (sd_profile d);
     captures := capture_keys (sd_org d) (sd_captures d);
     control_tests := tested_controls (sd_tests d) |}.

(** ** Validating a system *)

Record KSI := {
  ksi_id : Z;
  ksi_identifier : string;
  ksi_rule : option pyval;
  ksi_validation_frequency : option string }.

Record KSIState := {
  ks_ksi_id : Z;
  ks_status : string;
  ks_last_validated_at : Z;
  ks_next_validation_due : option Z }.

Record KSIValidationResult := {
  kvr_ksi_id : Z;
  kvr_verdict : Verdict;
  kvr_validated_at : Z }.

Definition next_due (frequency : option string) (now : Z) : option Z :=
  match dget (lower (or_empty frequency)) KSI_FREQUENCY_DAYS with
  | Some days => if days =? 0 then None else Some (dt_date (now + days * day_us))
  | None => None
  end.

(** [ksi.rule or {}] *)
Definition rule_or_empty (r : option pyval) : pyval :=
  match r with Some v => if truthy v then v else VDict [] | None => VDict [] end.

Definition validate_step (ctx : SystemContext) (now : Z)
    (acc : list KSIValidationResult * gmap Z KSIState) (k : KSI)
    : res (list KSIValidationResult * gmap Z KSIState) :=
  let! v := evaluate_rule (rule_or_empty (ksi_rule k)) ctx in
  Ok ((acc.1 ++ [{| kvr_ksi_id := ksi_id k; kvr_verdict := v; kvr_validated_at := now |}])%list,
      <[ksi_id k := {| ks_ksi_id := ksi_id k; ks_status := v_status v; ks_last_validated_at := now;
                       ks_next_validation_due := next_due (ksi_validation_frequency k) now |}]> acc.2).

Definition validate_system (d : SystemData) (ksis : list KSI) (now : Z)
    (states : gmap Z KSIState) : res (list KSIValidationResult * gmap Z KSIState) :=
  res_fold (validate_step (build_context d (dt_date now)) now) ([], states) ksis.

(** ** Lemmas on the evaluator *)

Lemma is_kind_true k s : is_kind k s = true <-> k = VStr s.
Proof.
  unfold is_kind. destruct k; simpl; try (split; [done|congruence]).
  rewrite bool_decide_eq_true. split; congruence.
Qed.

Lemma satisfied_split (P : string -> bool) (cs : list string) :
  (filter (fun c => P c = false) cs = [] <-> forall c, c ∈ cs -> P c = true) /\
  (filter (fun c => P c = true) cs = [] <-> forall c, c ∈ cs -> P c = false).
Proof.
  induction cs as [|c cs [IH1 IH2]]; [split; (split; [by intros _ c ?%not_elem_of_nil|done])|].
  destruct (P c) eqn:E.
  - rewrite filter_cons_False, filter_cons_True, IH1 by congruence.
    split; [|split; [done|intros H; rewrite H in E; [done|by left]]].
    split; [intros H c' [ ->|?]%elem_of_cons; auto|intros H c' ?; apply H; by right].
  - rewrite filter_cons_True, filter_cons_False, IH2 by congruence.
    split; [split; [done|intros H; rewrite H in E; [done|by left]]|].
    split; [intros H c' [ ->|?]%elem_of_cons; auto|intros H c' ?; apply H; by right].
Qed.

Lemma control_verdict_status kind ctx states cs :
  v_status (control_verdict kind ctx states cs) ∈ ["pass"; "warn"; "fail"] /\
  v_assessor_review_required (control_verdict kind ctx states cs) = false /\
  (v_status (control_verdict kind ctx states cs) = "pass" <->
     if decide (kind = "control_state") then forall c, c ∈ cs -> satisfied_by ctx states c = true
     else exists c, c ∈ cs /\ satisfied_by ctx states c = true) /\
  (v_status (control_verdict kind ctx states cs) = "warn" ->
     exists c c', c ∈ cs /\ c' ∈ cs /\ satisfied_by ctx states c = true /\
                  satisfied_by ctx states c' = false).
Proof.
  unfold control_verdict. destruct (satisfied_split (satisfied_by ctx states) cs) as [H1 H2].
  assert (Hex : forall b, filter (fun c => satisfied_by ctx states c = b) cs <> [] ->
    exists c, c ∈ cs /\ satisfied_by ctx states c = b).
  { intros b Hne.
    destruct (filter (fun c => satisfied_by ctx states c = b) cs) as [|c l] eqn:E; [done|]. exists c.
    assert (c ∈ filter (fun c => satisfied_by ctx states c = b) cs) as Hc by (rewrite E; by left).
    apply list_elem_of_filter in Hc. tauto. }
  destruct (decide (kind = "control_state")).
  - case_bool_decide as Hm.
    { split; [in_list|]. split; [done|]. split; [by rewrite <- H1|done]. }
    case_bool_decide as Hs; cbn.
    + split; [in_list|]. split; [done|]. split; [|done]. split; [done|]. rewrite <- H1. done.
    + split; [in_list|]. split; [done|]. split; [split; [done|by rewrite <- H1]|].
      intros _. destruct (Hex _ Hm) as (c' & ? & ?), (Hex _ Hs) as (c & ? & ?). by exists c, c'.
  - case_bool_decide as Hs; cbn.
    + split; [in_list|]. split; [done|]. split; [|done]. split; [done|]. intros (c & Hc & Hsc).
      rewrite (proj1 H2 Hs c Hc) in Hsc. done.
    + split; [in_list|]. split; [done|]. split; [|done]. split; [by intros _; apply Hex|done].
Qed.

Definition KSI_STATUSES : list string := ["pass"; "warn"; "fail"; "manual_review_required"].

Definition verdict_ok (v : Verdict) : Prop :=
  v_status v ∈ KSI_STATUSES /\
  (v_status v = "manual_review_required" <-> v_assessor_review_required v = true).

Lemma simple_verdict_ok p ctx states cs :
  match simple_verdict p ctx states cs with Ok v => verdict_ok v | Err _ => True end.
Proof.
  assert (forall kind, verdict_ok (control_verdict kind ctx states cs)) as Hc.
  { intros kind. destruct (control_verdict_status kind ctx states cs) as (Hs & Hr & _).
    unfold verdict_ok. rewrite Hr. elem_cases Hs; split; try in_list; done. }
  unfold simple_verdict. destruct (is_kind _ "control_state"); [apply Hc|].
  destruct (is_kind _ "control_any"); [apply Hc|].
  destruct (is_kind _ "evidence_present").
  { unfold evidence_verdict. case_match; split; try in_list; done. }
  destruct (is_kind _ "dependency_authorized").
  { unfold dependency_verdict. repeat case_match; split; try in_list; done. }
  destruct (is_kind _ "profile_field").
  { unfold profile_verdict. destruct (negb _); [done|]. destruct (str_truthy _); split; try in_list; done. }
  destruct (is_kind _ "connector_capture"); [|split; [in_list|done]].
  destruct (iter_val _) as [l|]; simpl; [|done]. unfold capture_verdict.
  destruct (all_hashable l); simpl; [|done]. destruct (negb _ && _); split; try in_list; done.
Qed.

Lemma best_verdict_ok subs :
  (forall v, v ∈ subs -> verdict_ok v) -> verdict_ok (best_verdict subs).
Proof.
  destruct subs as [|v vs]; [split; [in_list|done]|]. intros H. apply H. simpl.
  by destruct (max_by_spec (fun v => verdict_rank (v_status v)) v vs).
Qed.

Lemma rank_pass s : s ∈ KSI_STATUSES -> 4 <= verdict_rank s <-> s = "pass".
Proof.
  intros H. unfold KSI_STATUSES in H. elem_cases H; vm_compute; split; try done; intros H; by destruct H.
Qed.

Lemma best_verdict_pass subs :
  (forall v, v ∈ subs -> verdict_ok v) ->
  v_status (best_verdict subs) = "pass" <-> exists v, v ∈ subs /\ v_status v = "pass".
Proof.
  intros H. destruct subs as [|v vs]; [split; [done|intros (? & ?%not_elem_of_nil & _); done]|].
  simpl. destruct (max_by_spec (fun v => verdict_rank (v_status v)) v vs) as [Hin Hmax].
  set (b := max_by _ v vs) in *. clearbody b. split; [intros E; by exists b|].
  intros (w & Hw & E). apply rank_pass; [by apply H|]. specialize (Hmax w Hw).
  rewrite E in Hmax. exact Hmax.
Qed.

(** The sub-rules of an [any_of], evaluated. *)
Definition subrules (p : list (string * pyval)) : option (list pyval) :=
  match default (VList []) (dget "rules" p) with
  | VList l => Some l
  | VStr "" | VDict [] => Some []
  | _ => None
  end.

(** The defining equation of [evaluate_rule] on a dict. *)
Lemma evaluate_rule_dict p ctx :
  evaluate_rule (VDict p) ctx =
  (let! states := states_of p in
   let! cs := controls_of p in
   if is_kind (rule_kind p) "manual" then
     Ok (mkV "manual_review_required" "low" "manual" [] (Some manual_hint) None true)
   else if is_kind (rule_kind p) "any_of" then
     match subrules p with
     | Some l => let! subs := res_map (fun r => evaluate_rule r ctx) l in Ok (best_verdict subs)
     | None => Err (match default (VList []) (dget "rules" p) with
                    | VStr _ | VDict _ => AttributeError "str" "get"
                    | v => not_iterable (type_name v)
                    end)
     end
   else simple_verdict p ctx states cs).
Proof.
  cbn [evaluate_rule]. destruct (states_of p); [|done]. destruct (controls_of p); [|done].
  cbn [res_bind]. destruct (is_kind _ "manual"); [done|]. destruct (is_kind _ "any_of"); [|done].
  rewrite dget_with_spec. unfold subrules. destruct (dget "rules" p) as [v|]; [|done].
  simpl. destruct v as [| | | |[|c s]|l|[|d ds]]; try done. by rewrite res_mapv_eq.
Qed.

(** Induction over a rule and the rules nested in its lists. *)
Lemma rule_induction (P : pyval -> Prop) :
  (forall v, (forall d, v <> VDict d) -> P v) ->
  (forall d, (forall k l r, dget k d = Some (VList l) -> r ∈ l -> P r) -> P (VDict d)) ->
  forall v, P v.
Proof.
  intros H1 H2 v.
  cut (P v /\ match v with VList l => forall r, r ∈ l -> P r | _ => True end); [tauto|].
  induction v as [| | | | |l IH|d IH] using pyval_induction; try (split; [apply H1; congruence|done]).
  - split; [apply H1; congruence|]. intros r Hr. rewrite Forall_forall in IH. by apply IH.
  - split; [|done]. apply H2. intros k l r Hk Hr. apply dget_Some_elem in Hk.
    rewrite Forall_forall in IH. destruct (IH _ Hk) as [_ H]. by apply H.
Qed.

Lemma subrules_elem p l r : subrules p = Some l -> r ∈ l -> dget "rules" p = Some (VList l).
Proof.
  unfold subrules. intros H Hr. destruct (dget "rules" p) as [v|]; simpl in H.
  - destruct v as [| | | |[|c s]|l'|[|d ds]]; simplify_eq; try done; by apply not_elem_of_nil in Hr.
  - simplify_eq. by apply not_elem_of_nil in Hr.
Qed.

Lemma evaluate_rule_ok ctx rule :
  match evaluate_rule rule ctx with Ok v => verdict_ok v | Err _ => True end.
Proof.
  induction rule as [v Hv|p IH] using rule_induction; [destruct v; try done; by destruct (Hv d)|].
  rewrite evaluate_rule_dict. destruct (states_of p) as [sts|]; [|done].
  destruct (controls_of p) as [cs|]; [|done]. cbn [res_bind].
  destruct (is_kind _ "manual"); [split; [in_list|done]|].
  destruct (is_kind _ "any_of"); [|apply simple_verdict_ok].
  destruct (subrules p) as [l|] eqn:El; [|done].
  destruct (res_map _ l) as [subs|] eqn:E; [|done]. cbn [res_bind]. apply best_verdict_ok.
  intros v Hv. apply res_map_Forall2 in E. apply list_elem_of_lookup in Hv as [i Hi].
  destruct (Forall2_lookup_r _ _ _ _ _ E Hi) as (r & Hr & Hev).
  assert (r ∈ l) as Hin by (apply list_elem_of_lookup; eauto).
  specialize (IH "rules" l r (subrules_elem _ _ _ El Hin) Hin). by rewrite Hev in IH.
Qed.

(** ** What a rule asks for, kind by kind *)

Inductive Satisfies (ctx : SystemContext) : pyval -> Prop :=
| Sat_all p cs sts :
    rule_kind p = VStr "control_state" -> controls_of p = Ok cs -> states_of p = Ok sts ->
    (forall c, c ∈ cs -> satisfied_by ctx sts c = true) -> Satisfies ctx (VDict p)
| Sat_any p cs sts c :
    rule_kind p = VStr "control_any" -> controls_of p = Ok cs -> states_of p = Ok sts ->
    c ∈ cs -> satisfied_by ctx sts c = true -> Satisfies ctx (VDict p)
| Sat_evidence p cs c :
    rule_kind p = VStr "evidence_present" -> controls_of p = Ok cs ->
    c ∈ cs -> control_evidence ctx !! c = Some true -> Satisfies ctx (VDict p)
| Sat_dependencies p :
    rule_kind p = VStr "dependency_authorized" -> dependencies ctx <> [] ->
    (forall d, d ∈ dependencies ctx -> dep_fedramp_status d = Some "authorized") ->
    Satisfies ctx (VDict p)
| Sat_profile p f t :
    rule_kind p = VStr "profile_field" -> default (VStr "") (dget "field" p) = VStr f ->
    dget f (profile ctx) = Some (Some t) -> t <> "" -> Satisfies ctx (VDict p)
| Sat_capture p needed :
    rule_kind p = VStr "connector_capture" ->
    iter_val (default (VList []) (dget "captures" p)) = Ok needed -> needed <> [] ->
    (forall v, v ∈ needed -> exists s, v = VStr s /\ s ∈ captures ctx) -> Satisfies ctx (VDict p)
| Sat_any_of p l r :
    rule_kind p = VStr "any_of" -> subrules p = Some l -> r ∈ l -> Satisfies ctx r ->
    Satisfies ctx (VDict p).

Lemma bool_ite_pass (b : bool) v w :
  v_status v = "pass" -> v_status w <> "pass" -> v_status (if b then v else w) = "pass" <-> b = true.
Proof. by destruct b. Qed.

Lemma Satisfies_other ctx p :
  rule_kind p <> VStr "control_state" -> rule_kind p <> VStr "control_any" ->
  rule_kind p <> VStr "evidence_present" -> rule_kind p <> VStr "dependency_authorized" ->
  rule_kind p <> VStr "profile_field" -> rule_kind p <> VStr "connector_capture" ->
  rule_kind p <> VStr "any_of" -> ~ Satisfies ctx (VDict p).
Proof. intros ??????? H. inversion H; congruence. Qed.

(** One kind at a time: a passing verdict is exactly what the kind asks for. *)
Lemma evidence_verdict_pass ctx cs :
  v_status (evidence_verdict ctx cs) = "pass" <-> exists c, c ∈ cs /\ control_evidence ctx !! c = Some true.
Proof.
  unfold evidence_verdict. rewrite bool_ite_pass by done. rewrite existsb_exists. split.
  - intros (c & Hc & Hd). exists c. split; [by apply list_elem_of_In|].
    by destruct (control_evidence ctx !! c) as [[]|].
  - intros (c & Hc & Hd). exists c. split; [by apply list_elem_of_In|]. by rewrite Hd.
Qed.

Lemma dependency_verdict_pass ctx :
  v_status (dependency_verdict ctx) = "pass" <->
  dependencies ctx <> [] /\ forall d, d ∈ dependencies ctx -> dep_fedramp_status d = Some "authorized".
Proof.
  unfold dependency_verdict. destruct (dependencies ctx) as [|d0 ds]; [naive_solver|].
  set (l := d0 :: ds). rewrite bool_ite_pass by done. rewrite bool_decide_eq_true.
  assert (map dep_name (filter (fun d => authorized d = false) l) = [] <->
          filter (fun d => authorized d = false) l = []) as ->
    by (destruct (filter _ l); split; done).
  split.
  - intros Hf. split; [done|]. intros d Hd. destruct (authorized d) eqn:E; [by apply bool_decide_eq_true in E|].
    assert (d ∈ filter (fun d => authorized d = false) l) as Hx by (by apply list_elem_of_filter).
    rewrite Hf in Hx. by apply not_elem_of_nil in Hx.
  - intros [_ H]. destruct (filter _ l) as [|d k] eqn:E; [done|].
    assert (d ∈ filter (fun d => authorized d = false) l) as Hx by (rewrite E; by left).
    apply list_elem_of_filter in Hx as [Hx Hd]. apply bool_decide_eq_false in Hx. destruct Hx. auto.
Qed.

Lemma capture_verdict_pass ctx needed v :
  capture_verdict ctx needed = Ok v ->
  v_status v = "pass" <-> needed <> [] /\
    forall x, x ∈ needed -> exists s, x = VStr s /\ s ∈ captures ctx.
Proof.
  unfold capture_verdict. destruct (all_hashable needed); [|done]. cbn [res_bind].
  destruct (negb _ && _) eqn:E; intros [= <-]; cbn.
  - apply andb_true_iff in E as [E1 E2]. rewrite negb_true_iff, bool_decide_eq_false in E1.
    split; [|done]. intros _. split; [done|]. rewrite forallb_forall in E2.
    intros x Hx. apply list_elem_of_In, E2 in Hx. destruct x; try done. eexists. split; [done|].
    by apply mem_true.
  - split; [done|]. intros [H1 H2]. apply andb_false_iff in E as [E|E].
    + by rewrite negb_false_iff, bool_decide_eq_true in E.
    + assert (forallb (fun v => match v with VStr s => mem s (captures ctx) | _ => false end) needed = true);
        [|congruence].
      apply forallb_forall. intros x Hx. apply list_elem_of_In, H2 in Hx as (s & -> & Hs).
      by apply mem_true.
Qed.

Lemma profile_verdict_pass ctx fv v :
  profile_verdict ctx fv = Ok v ->
  v_status v = "pass" <-> exists f t, fv = VStr f /\ dget f (profile ctx) = Some (Some t) /\ t <> "".
Proof.
  unfold profile_verdict. destruct (negb (hashable fv)); [done|]. intros [= <-].
  rewrite bool_ite_pass by done. unfold str_truthy. rewrite bool_decide_eq_true. split.
  - intros H. destruct fv as [| | | |f| |]; try done. exists f.
    destruct (dget f (profile ctx)) as [[t|]|]; try done. by exists t.
  - intros (f & t & -> & -> & Ht). exact Ht.
Qed.

(** ** Lemmas on the context *)

Definition best_impl (impls : list ControlImplementation) (key : string) (s : option string) : Prop :=
  match s with
  | None => forall i, i ∈ impls -> impl_key i <> Some key
  | Some st => (exists i, i ∈ impls /\ impl_key i = Some key /\ ci_status i = st) /\
      forall i, i ∈ impls -> impl_key i = Some key -> impl_rank (ci_status i) <= impl_rank st
  end.

Lemma best_impl_skip impls i key s :
  impl_key i <> Some key -> best_impl impls key s -> best_impl (impls ++ [i]) key s.
Proof.
  intros Hne. destruct s as [st|]; simpl.
  - intros [(j & Hj & ?) Hle]. split; [exists j; split; [apply elem_of_app; by left|done]|].
    intros k [?| ->%list_elem_of_singleton]%elem_of_app Hk; [by apply Hle|done].
  - intros H k [?| ->%list_elem_of_singleton]%elem_of_app; auto.
Qed.

Lemma best_impl_keep impls i key st :
  impl_rank (ci_status i) <= impl_rank st -> best_impl impls key (Some st) ->
  best_impl (impls ++ [i]) key (Some st).
Proof.
  intros Hr [(j & Hj & ?) Hle]. split; [exists j; split; [apply elem_of_app; by left|done]|].
  intros k [?| ->%list_elem_of_singleton]%elem_of_app Hk; [by apply Hle|done].
Qed.

Lemma best_impl_take impls i key s :
  impl_key i = Some key -> (forall st, s = Some st -> impl_rank st < impl_rank (ci_status i)) ->
  best_impl impls key s -> best_impl (impls ++ [i]) key (Some (ci_status i)).
Proof.
  intros Hk Hlt H. split; [exists i; split; [apply elem_of_app; right; by left|done]|].
  intros k [Hin| ->%list_elem_of_singleton]%elem_of_app Hkk; [|done]. destruct s as [st|].
  - destruct H as [_ H]. specialize (H k Hin Hkk). specialize (Hlt st eq_refl). lia.
  - by destruct (H k Hin).
Qed.

Lemma impl_status_best impls key :
  best_impl impls key (fold_left add_impl_status impls ∅ !! key).
Proof.
  induction impls as [|i impls IH] using rev_ind.
  { simpl. rewrite lookup_empty. by intros i ?%not_elem_of_nil. }
  rewrite fold_left_app. simpl. set (m := fold_left _ impls ∅) in *. clearbody m. unfold add_impl_status.
  destruct (impl_key i) as [k|] eqn:Ek; [|apply best_impl_skip; [by rewrite Ek|done]].
  destruct (decide (k = key)) as [->|Hne].
  - destruct (m !! key) as [cur|] eqn:Em.
    + destruct (Z.ltb_spec (impl_rank cur) (impl_rank (ci_status i))).
      * rewrite lookup_insert_eq. eapply best_impl_take; [done| |exact IH]. by intros st [= <-].
      * rewrite Em. by apply best_impl_keep.
    + rewrite lookup_insert_eq. eapply best_impl_take; [done| |exact IH]. done.
  - assert (best_impl (impls ++ [i]) key (m !! key)) as H by (apply best_impl_skip; [congruence|done]).
    destruct (m !! k); [case_match|]; rewrite ?lookup_insert_ne by done; exact H.
Qed.

(** The statuses a control key has collected: a set without repetitions. *)
Definition collected (tests : list TestStatus) (key s : string) : Prop :=
  exists t, t ∈ tests /\ ts_last_status t = Some s /\
    key ∈ map normalize_control (attributed_controls t s).

Definition statuses_ok (P : string -> Prop) (l : list string) : Prop :=
  NoDup l /\ forall s, s ∈ l <-> P s.

Lemma add_status_spec s m ids key :
  (forall k, NoDup (default [] (m !! k))) ->
  let m' := fold_left (add_status s) ids m in
  (forall k, NoDup (default [] (m' !! k))) /\
  forall x, x ∈ default [] (m' !! key) <->
    x ∈ default [] (m !! key) \/ (x = s /\ key ∈ map normalize_control ids).
Proof.
  cbv zeta. revert m. induction ids as [|i ids IH]; intros m Hnd; simpl.
  - split; [done|]. intros x. rewrite elem_of_nil. tauto.
  - destruct (IH (add_status s m i)) as [H1 H2].
    { intros k. unfold add_status. destruct (decide (normalize_control i = k)) as [<-|?];
        [rewrite lookup_insert_eq; simpl|by rewrite lookup_insert_ne].
      destruct (mem_spec s (default [] (m !! normalize_control i))); [done|by constructor]. }
    split; [done|]. intros x. rewrite H2, elem_of_cons. unfold add_status.
    destruct (decide (normalize_control i = key)) as [<-|?].
    + rewrite lookup_insert_eq. simpl.
      destruct (mem_spec s (default [] (m !! normalize_control i))); [naive_solver|].
      rewrite elem_of_cons. naive_solver.
    + rewrite lookup_insert_ne by done. naive_solver.
Qed.

Lemma collected_spec tests key :
  let m := fold_left add_test tests ∅ in
  (forall k, NoDup (default [] (m !! k))) /\
  forall s, s ∈ default [] (m !! key) <-> collected tests key s.
Proof.
  cbv zeta. induction tests as [|t tests [IH1 IH2]] using rev_ind.
  { simpl. split; [intros k; rewrite lookup_empty; constructor|]. intros s. rewrite lookup_empty, elem_of_nil.
    split; [done|]. by intros (t & ?%not_elem_of_nil & _). }
  rewrite fold_left_app. simpl. set (m := fold_left _ tests ∅) in *. clearbody m.
  assert (Hsnoc : forall s, collected (tests ++ [t]) key s <-> collected tests key s \/
    (ts_last_status t = Some s /\ key ∈ map normalize_control (attributed_controls t s))).
  { intros s. unfold collected. setoid_rewrite elem_of_app. setoid_rewrite list_elem_of_singleton.
    naive_solver. }
  unfold add_test. destruct (ts_last_status t) as [st|] eqn:E.
  - destruct (add_status_spec st m (attributed_controls t st) key IH1) as [H1 H2].
    split; [done|]. intros s. rewrite H2, IH2, Hsnoc. naive_solver.
  - split; [done|]. intros s. rewrite IH2, Hsnoc. naive_solver.
Qed.

Lemma NoDup_singleton_iff (x : string) l : NoDup l -> l = [x] <-> x ∈ l /\ forall y, y ∈ l -> y = x.
Proof.
  intros Hnd. split; [intros ->; split; [by left|by intros y ->%list_elem_of_singleton]|].
  intros [Hx Hall]. destruct l as [|a [|b l]]; [by apply not_elem_of_nil in Hx| |].
  - f_equal. apply Hall. by left.
  - apply NoDup_cons in Hnd as [Hni _]. destruct Hni.
    rewrite (Hall a) by (by left). rewrite <- (Hall b) by (right; by left). by left.
Qed.

Lemma res_fold_snoc {A B} (f : A -> B -> res A) acc l x :
  res_fold f acc (l ++ [x]) = let! a := res_fold f acc l in f a x.
Proof.
  revert acc. induction l as [|y l IH]; intros acc; simpl; [by destruct (f acc x)|].
  destruct (f acc y); simpl; [apply IH|done].
Qed.

(** Two outcomes of one computation are the same. *)
Ltac same_ok :=
  repeat match goal with
         | H1 : ?x = Ok ?a, H2 : ?x = Ok ?b |- _ =>
             assert (b = a) by congruence; clear H2; first [subst b | subst a]
         end.

(** The sub-rules of an any_of, and every other kind, taken separately. *)
Lemma any_of_passes ctx p l subs :
  (forall r, r ∈ l -> match evaluate_rule r ctx with
                      | Ok v => v_status v = "pass" <-> Satisfies ctx r | Err _ => True end) ->
  rule_kind p = VStr "any_of" -> subrules p = Some l ->
  res_map (fun r => evaluate_rule r ctx) l = Ok subs ->
  v_status (best_verdict subs) = "pass" <-> Satisfies ctx (VDict p).
Proof.
  intros IH K El E. apply res_map_Forall2 in E. rewrite best_verdict_pass.
  2:{ intros w [i Hi]%list_elem_of_lookup. destruct (Forall2_lookup_r _ _ _ _ _ E Hi) as (r & _ & Hw).
      pose proof (evaluate_rule_ok ctx r) as Hr. by rewrite Hw in Hr. }
  split.
  - intros (w & [i Hi]%list_elem_of_lookup & Hp).
    destruct (Forall2_lookup_r _ _ _ _ _ E Hi) as (r & Hr & Hw).
    assert (r ∈ l) as Hin by (apply list_elem_of_lookup; eauto).
    specialize (IH r Hin). rewrite Hw in IH. eapply Sat_any_of; [done|exact El|exact Hin|]. by apply IH.
  - intros H. inversion H; subst; try congruence. simplify_eq.
    match goal with Hin : ?r ∈ l |- _ => pose proof Hin as [i Hi]%list_elem_of_lookup;
      destruct (Forall2_lookup_l _ _ _ _ _ E Hi) as (w & Hw & Hev); exists w;
      specialize (IH r Hin); rewrite Hev in IH end.
    split; [apply list_elem_of_lookup; eauto|by apply IH].
Qed.

Lemma simple_rule_passes ctx p sts cs v :
  is_kind (rule_kind p) "manual" = false -> is_kind (rule_kind p) "any_of" = false ->
  states_of p = Ok sts -> controls_of p = Ok cs -> simple_verdict p ctx sts cs = Ok v ->
  v_status v = "pass" <-> Satisfies ctx (VDict p).
Proof.
  intros K0 K1 Es Ec Ev.
  unfold simple_verdict in Ev.
  destruct (is_kind _ "control_state") eqn:K2.
  { apply is_kind_true in K2. injection Ev as <-.
    destruct (control_verdict_status "control_state" ctx sts cs) as (_ & _ & H & _). rewrite H.
    rewrite decide_True by done. split; [by econstructor|]. intros S. inversion S; subst; try congruence.
    same_ok. done. }
  destruct (is_kind _ "control_any") eqn:K3.
  { apply is_kind_true in K3. injection Ev as <-.
    destruct (control_verdict_status "control_any" ctx sts cs) as (_ & _ & H & _). rewrite H.
    rewrite decide_False by done. split; [intros (c & ? & ?); by eapply Sat_any|].
    intros S. inversion S; subst; try congruence. same_ok. by eexists. }
  destruct (is_kind _ "evidence_present") eqn:K4.
  { apply is_kind_true in K4. injection Ev as <-. rewrite evidence_verdict_pass.
    split; [intros (c & ? & ?); by eapply Sat_evidence|].
    intros S. inversion S; subst; try congruence. same_ok. by eexists. }
  destruct (is_kind _ "dependency_authorized") eqn:K5.
  { apply is_kind_true in K5. injection Ev as <-. rewrite dependency_verdict_pass.
    split; [intros [? ?]; by apply Sat_dependencies|]. intros S. inversion S; subst; try congruence. done. }
  destruct (is_kind _ "profile_field") eqn:K6.
  { apply is_kind_true in K6. rewrite (profile_verdict_pass _ _ _ Ev).
    split; [intros (f & t & ? & ? & ?); by eapply Sat_profile|].
    intros S. inversion S; subst; try congruence. by do 2 eexists. }
  destruct (is_kind _ "connector_capture") eqn:K7.
  { apply is_kind_true in K7. destruct (iter_val _) as [needed|] eqn:En; [|done].
    rewrite (capture_verdict_pass _ _ _ Ev). split; [intros [? ?]; by eapply Sat_capture|].
    intros S. inversion S; subst; try congruence. same_ok. done. }
  injection Ev as <-. split; [done|]. intros S. exfalso. revert S.
  apply Satisfies_other; intros E; rewrite E in *; by rewrite (proj2 (is_kind_true _ _) eq_refl) in *.
Qed.

(** ** Properties *)

(** C38: a KSI rule passes exactly when what it asks for holds of the system:
    all or some of its controls satisfied by an accepted status or by passing
    machine evidence, current evidence on one of them, every recorded
    dependency authorized, the profile field filled in, every capture present,
    or some sub-rule of an any_of satisfied. Every verdict is one of four
    statuses, and asks for an assessor exactly when it is manual. *)
Theorem rule_passes_iff_satisfied ctx rule :
  match evaluate_rule rule ctx with
  | Ok v =>
      (v_status v = "pass" <-> Satisfies ctx rule) /\
      v_status v ∈ KSI_STATUSES /\
      (v_status v = "manual_review_required" <-> v_assessor_review_required v = true)
  | Err _ => True
  end.
Proof.
  induction rule as [v Hv|p IH] using rule_induction; [destruct v; try done; by destruct (Hv d)|].
  pose proof (evaluate_rule_ok ctx (VDict p)) as Hok. destruct (evaluate_rule _ ctx) as [v|] eqn:Ev; [|done].
  split; [|exact Hok]. rewrite evaluate_rule_dict in Ev.
  destruct (states_of p) as [sts|] eqn:Es; [|done]. destruct (controls_of p) as [cs|] eqn:Ec; [|done].
  cbn [res_bind] in Ev.
  destruct (is_kind (rule_kind p) "manual") eqn:K0.
  { apply is_kind_true in K0. injection Ev as <-. split; [done|]. intros H.
    exfalso; revert H; apply Satisfies_other; rewrite K0; discriminate. }
  destruct (is_kind (rule_kind p) "any_of") eqn:K1.
  { apply is_kind_true in K1. destruct (subrules p) as [l|] eqn:El; [|done].
    destruct (res_map _ l) as [subs|] eqn:E; [|done]. injection Ev as <-.
    apply (any_of_passes ctx p l subs); try done. intros r Hin.
    specialize (IH "rules" l r (subrules_elem _ _ _ El Hin) Hin).
    destruct (evaluate_rule r ctx); [apply IH|done]. }
  by apply (simple_rule_passes ctx p sts cs v).
Qed.

(** the context credits a control with machine evidence exactly when some
    test passed on it and no test that reaches it says otherwise, whatever the
    order of the rows: a pass credits only the test's primary control, anything
    else reaches every control the check declares. *)
Theorem tested_controls_all_pass d today key :
  control_tests (build_context d today) !! key = Some "pass" <->
  collected (sd_tests d) key "pass" /\ forall s, collected (sd_tests d) key s -> s = "pass".
Proof.
  simpl. unfold tested_controls. rewrite lookup_omap.
  destruct (collected_spec (sd_tests d) key) as [H1 H2]. set (m := fold_left _ _ ∅) in *. clearbody m.
  specialize (H1 key). destruct (m !! key) as [l|]; simpl in *.
  - transitivity (l = ["pass"]); [by case_bool_decide|]. rewrite NoDup_singleton_iff by done.
    setoid_rewrite H2. done.
  - split; [done|]. intros [Hp _]. apply H2 in Hp. by apply not_elem_of_nil in Hp.
Qed.

(** the implementation status a rule sees for a control is the best one
    recorded under any spelling of the control's id, and a control without an
    implementation has none. *)
Theorem impl_status_is_best d today key :
  best_impl (sd_impls d) key (impl_status (build_context d today) !! key).
Proof. apply impl_status_best. Qed.

(** validating a system records one verdict per KSI, in order and with the
    verdict the rule has in the system's context, and leaves each of those KSIs
    in the state of its last verdict and every other state as it was; a rule
    that raises records nothing. *)
Theorem validate_system_records d ksis now states :
  match validate_system d ksis now states with
  | Ok (rs, states') =>
      Forall2 (fun k r => kvr_ksi_id r = ksi_id k /\ kvr_validated_at r = now /\
        evaluate_rule (rule_or_empty (ksi_rule k)) (build_context d (dt_date now)) = Ok (kvr_verdict r))
        ksis rs /\
      (forall i, i ∉ map ksi_id ksis -> states' !! i = states !! i) /\
      (forall i, i ∈ map ksi_id ksis -> exists st r, states' !! i = Some st /\ r ∈ rs /\
         kvr_ksi_id r = i /\ ks_status st = v_status (kvr_verdict r) /\ ks_last_validated_at st = now)
  | Err _ => exists k e, k ∈ ksis /\
      evaluate_rule (rule_or_empty (ksi_rule k)) (build_context d (dt_date now)) = Err e
  end.
Proof.
  unfold validate_system. set (ctx := build_context d (dt_date now)). clearbody ctx.
  induction ksis as [|k ksis IH] using rev_ind; [simpl; split; [done|split; [done|by intros i ?%not_elem_of_nil]]|].
  rewrite res_fold_snoc. destruct (res_fold _ _ ksis) as [[rs st]|e]; cbn [res_bind].
  2:{ destruct IH as (k' & e' & Hk & He). exists k', e'. split; [apply elem_of_app; by left|done]. }
  destruct IH as (HF & Hout & Hin). unfold validate_step.
  destruct (evaluate_rule (rule_or_empty (ksi_rule k)) ctx) as [v|e] eqn:Ev; cbn [res_bind].
  2:{ exists k, e. split; [apply elem_of_app; right; by left|done]. }
  cbn [fst snd]. split; [apply Forall2_app; [done|]; repeat constructor; simpl; by try rewrite Ev|].
  rewrite map_app. split.
  - intros i [Hi Hk]%not_elem_of_app. simpl in Hk. apply not_elem_of_cons in Hk as [Hk _].
    rewrite lookup_insert_ne by done. by apply Hout.
  - intros i Hi. destruct (decide (i = ksi_id k)) as [->|Hne].
    + rewrite lookup_insert_eq. do 2 eexists. split; [done|]. split; [apply elem_of_app; right; by left|].
      done.
    + rewrite lookup_insert_ne by done. apply elem_of_app in Hi as [Hi|Hi%list_elem_of_singleton]; [|done].
      destruct (Hin i Hi) as (s & r & ? & ? & ? & ? & ?). exists s, r. split; [done|].
      split; [apply elem_of_app; by left|done].
Qed.
