(* ===== verification/Readiness.v ===== *)
(** FedRAMP 20x readiness ([src/src/ccf/fedramp20x/readiness.py]): the blend of
    a system's KSI states, evidence, reviews, dependencies and freshness into a
    percentage and a lifecycle status, and the snapshot and profile update that
    record it.

    Weights are binary64 floats and [sum] over floats is the compensated
    summation of CPython 3.12. *)

From S2P Require Export Waivers.

Local Open Scope string_scope.
Local Open Scope Z_scope.

(** ** [sum] of floats *)

Definition fl_neg (x : float) : float := Fl (- fm x) (fe x).
Definition fl_sub (x y : float) : float := fl_add x (fl_neg y).
Definition fl_abs (x : float) : float := Fl (Z.abs (fm x)) (fe x).

(** One addition of the running sum and its compensation. *)
Definition sum_step (acc : float * float) (x : float) : float * float :=
  let '(s, c) := acc in
  let t := fl_add s x in
  let d := if fl_leb (fl_abs x) (fl_abs s) then fl_add (fl_sub s t) x else fl_add (fl_sub x t) s in
  (t, fl_add c d).

Definition py_fsum (l : list float) : float :=
  let '(s, c) := fold_left sum_step l (fl_zero, fl_zero) in
  if fl_is_zero c then s else fl_add s c.

(** Neumaier's correction at work: the tenths lost by naive addition come back. *)
Example py_fsum_tenths : fl_eqb (py_fsum (repeat (fl_of_ratio 1 10) 10)) (fl_of_Z 1) = true.
Proof. vm_compute. reflexivity. Qed.

(** ** The rows *)

Record KsiRow := { kr_id : Z; kr_automation_level : option string; kr_evidence_required : bool }.
Record KsiStateRow := { sr_ksi_id : Z; sr_status : string; sr_next_due : option Z }.
Record DependencyRow := { dr_fedramp_status : option string; dr_dependency_risk : option string }.
Record ReviewRow := { rv_ksi_id : Z; rv_status : string; rv_reviewed_at : Z }.

Record Readiness := {
  readiness_pct : Z;
  rd_status : string;
  ksi_total : Z;
  ksi_pass_rate : option Z;
  automation_coverage : option Z;
  evidence_completeness : option Z;
  conmon_coverage : option Z;
  assessor_completion : option Z;
  dependency_readiness : option Z;
  open_exceptions : Z;
  active_waivers : Z;
  high_risk_findings : Z;
  expired_validations : Z;
  manual_review_burden : Z }.

(** The weights, in the dict's order. *)
Definition WEIGHTS : list (string * float) :=
  [("ksi_pass_rate", fl_of_ratio 40 100); ("evidence_completeness", fl_of_ratio 20 100);
   ("assessor_completion", fl_of_ratio 20 100); ("dependency_readiness", fl_of_ratio 10 100);
   ("conmon_coverage", fl_of_ratio 10 100)].

Definition ASSESSOR_DONE : list string := ["accepted"; "closed"].
Definition SUBMITTED_STATUSES : list string := ["submitted"; "authorized"; "continuous_monitoring"].

Definition pct (numer denom : Z) : option Z :=
  if denom =? 0 then None else Some (round0 (truediv (100 * numer) denom)).

Definition or0 (o : option Z) : Z := default 0 o.

Definition derive_status (r : Readiness) (has_profile : bool) (submitted : option string) : string :=
  if mem (or_empty submitted) SUBMITTED_STATUSES then or_empty submitted
  else if (ksi_total r =? 0) || (bool_decide (ksi_pass_rate r = None) && negb has_profile)
  then "not_started"
  else if (90 <=? readiness_pct r) && (90 <=? or0 (assessor_completion r)) && (high_risk_findings r =? 0)
  then "ready_for_submission"
  else if 0 <? or0 (assessor_completion r) then "assessor_review"
  else if 50 <=? or0 (ksi_pass_rate r) then "validation_in_progress"
  else if (0 <? or0 (evidence_completeness r)) || (0 <? or0 (ksi_pass_rate r))
  then "evidence_collection"
  else "initial_build".

Definition state_is (st : string) (s : KsiStateRow) : bool := bool_decide (sr_status s = st).

(** [{s.ksi_id: s for s in states}]: the last row wins. *)
Definition state_by_ksi (states : list KsiStateRow) : gmap Z KsiStateRow :=
  fold_left (fun m s => <[sr_ksi_id s := s]> m) states ∅.

Definition latest_review (reviews : list ReviewRow) : gmap Z ReviewRow :=
  fold_left (fun m rv =>
    match m !! rv_ksi_id rv with
    | Some prev => if rv_reviewed_at prev <=? rv_reviewed_at rv then <[rv_ksi_id rv := rv]> m else m
    | None => <[rv_ksi_id rv := rv]> m
    end) reviews ∅.

Definition expired (today : Z) (s : KsiStateRow) : bool :=
  match sr_next_due s with Some d => d <? today | None => false end.
Definition fresh (today : Z) (s : KsiStateRow) : bool :=
  negb (state_is "not_tested" s) &&
  match sr_next_due s with Some d => today <=? d | None => true end.
Definition passing_ksi (states : list KsiStateRow) (k : KsiRow) : bool :=
  match state_by_ksi states !! kr_id k with Some s => state_is "pass" s | None => false end.
Definition review_done (rv : ReviewRow) : bool := mem (rv_status rv) ASSESSOR_DONE.

Definition parts_of (r : Readiness) : list (Z * float) :=
  omap (fun kv =>
    let value :=
      if decide (kv.1 = "ksi_pass_rate") then ksi_pass_rate r
      else if decide (kv.1 = "evidence_completeness") then evidence_completeness r
      else if decide (kv.1 = "assessor_completion") then assessor_completion r
      else if decide (kv.1 = "dependency_readiness") then dependency_readiness r
      else conmon_coverage r in
    (fun v => (v, kv.2)) <$> value) WEIGHTS.

(** [round(sum(parts[k] * _WEIGHTS[k]) / sum(_WEIGHTS[k]))] *)
Definition weighted (parts : list (Z * float)) : Z :=
  round0 (fl_div (py_fsum (map (fun p => fl_mul (fl_of_Z p.1) p.2) parts)) (py_fsum (map snd parts))).

Definition set_pct_status (r : Readiness) (p : Z) (st : string) : Readiness :=
  {| readiness_pct := p; rd_status := st; ksi_total := ksi_total r; ksi_pass_rate := ksi_pass_rate r;
     automation_coverage := automation_coverage r; evidence_completeness := evidence_completeness r;
     conmon_coverage := conmon_coverage r; assessor_completion := assessor_completion r;
     dependency_readiness := dependency_readiness r; open_exceptions := open_exceptions r;
     active_waivers := active_waivers r; high_risk_findings := high_risk_findings r;
     expired_validations := expired_validations r; manual_review_burden := manual_review_burden r |}.

Definition high_risk (d : DependencyRow) : bool :=
  mem (or_empty (dr_dependency_risk d)) ["high"; "critical"].
Definition dep_authorized (d : DependencyRow) : bool :=
  bool_decide (dr_fedramp_status d = Some "authorized").

Definition compute_readiness (ksis : list KsiRow) (states : list KsiStateRow)
    (deps : list DependencyRow) (reviews : list ReviewRow) (open_exc today : Z)
    (has_profile : bool) (submitted : option string) (waivers_active : Z) : Readiness :=
  let total := Z.of_nat (List.length ksis) in
  let ev_required := filter (fun k => kr_evidence_required k = true) ksis in
  let r0 :=
    {| readiness_pct := 0; rd_status := "not_started"; ksi_total := total;
       ksi_pass_rate := pct (lcount (state_is "pass") states) total;
       automation_coverage :=
         pct (lcount (fun k => bool_decide (or_empty (kr_automation_level k) = "automated")) ksis) total;
       evidence_completeness :=
         pct (lcount (passing_ksi states) ev_required) (Z.of_nat (List.length ev_required));
       conmon_coverage := pct (lcount (fresh today) states) total;
       assessor_completion :=
         pct (lcount review_done (map snd (map_to_list (latest_review reviews)))) total;
       dependency_readiness := pct (lcount dep_authorized deps) (Z.of_nat (List.length deps));
       open_exceptions := open_exc; active_waivers := waivers_active;
       high_risk_findings := lcount (state_is "fail") states + lcount high_risk deps;
       expired_validations := lcount (expired today) states;
       manual_review_burden := lcount (state_is "manual_review_required") states |} in
  let p := match parts_of r0 with [] => 0 | parts => weighted parts end in
  let r1 := set_pct_status r0 p "not_started" in
  set_pct_status r0 p (derive_status r1 has_profile submitted).

(** ** Recording *)

(** The 20x profile of a system: its lifecycle status, if it has a profile. *)
Record ReadinessDb := {
  rdb_ksis : list KsiRow;
  rdb_states : list KsiStateRow;
  rdb_deps : list DependencyRow;
  rdb_reviews : list ReviewRow;
  rdb_exceptions : list string;
  rdb_waivers : list Waiver;
  rdb_profile : option string;
  rdb_snapshots : list Readiness }.

Definition score_readiness (db : ReadinessDb) (today : Z) (persist : bool) : Readiness * ReadinessDb :=
  let r := compute_readiness (rdb_ksis db) (rdb_states db) (rdb_deps db) (rdb_reviews db)
             (lcount (fun e => bool_decide (e = "open")) (rdb_exceptions db)) today
             (bool_decide (is_Some (rdb_profile db))) (rdb_profile db)
             (lcount (fun w => is_active w today) (rdb_waivers db)) in
  if persist then
    (r, {| rdb_ksis := rdb_ksis db; rdb_states := rdb_states db; rdb_deps := rdb_deps db;
           rdb_reviews := rdb_reviews db; rdb_exceptions := rdb_exceptions db;
           rdb_waivers := rdb_waivers db;
           rdb_profile := match rdb_profile db with
                          | None => None
                          | Some st => Some (if mem st SUBMITTED_STATUSES then st else rd_status r)
                          end;
           rdb_snapshots := (rdb_snapshots db ++ [r])%list |})
  else (r, db).

(** ** Lemmas *)

Lemma pct_bounds n d v : 0 <= n <= d -> pct n d = Some v -> 0 <= v <= 100.
Proof.
  unfold pct. intros Hn. destruct (Z.eqb_spec d 0); [done|]. intros [= <-].
  unfold truediv, round0. rewrite Z.sgn_pos, Z.mul_1_r, Z.abs_eq by lia.
  pose proof (fl_of_ratio_le 100 (100 * n) d ltac:(lia) ltac:(lia) ltac:(lia)) as [H0 H1].
  pose proof (fl_den_pos (fl_of_ratio (100 * n) d)).
  split; [apply rhe_ge|apply rhe_le]; lia.
Qed.

(** A percentage above an integer comes from a ratio above it. *)
Lemma pct_above K n d v : 0 <= K < 2 ^ 53 -> 0 <= n -> 0 < d -> pct n d = Some v -> K < v -> K * d < 100 * n.
Proof.
  unfold pct. intros HK Hn Hd. destruct (Z.eqb_spec d 0); [lia|]. intros [= <-] Hv.
  destruct (Z.lt_ge_cases (K * d) (100 * n)) as [|Hge]; [done|exfalso].
  unfold truediv, round0 in Hv. rewrite Z.sgn_pos, Z.mul_1_r, Z.abs_eq in Hv by lia.
  pose proof (fl_of_ratio_le K (100 * n) d Hd HK ltac:(lia)) as [H0 H1].
  pose proof (fl_den_pos (fl_of_ratio (100 * n) d)).
  assert (rhe (fl_num (fl_of_ratio (100 * n) d)) (fl_den (fl_of_ratio (100 * n) d)) <= K)
    by (apply rhe_le; lia). lia.
Qed.

Definition READINESS_STATUSES : list string :=
  ["not_started"; "ready_for_submission"; "assessor_review"; "validation_in_progress";
   "evidence_collection"; "initial_build"].

(** The blend as a function of the five sub-scores. *)
Definition part (o : option Z) (w : float) : list (Z * float) :=
  match o with Some v => [(v, w)] | None => [] end.
Definition five_parts (pass ev asr dep mon : option Z) : list (Z * float) :=
  (part pass (fl_of_ratio 40 100) ++ part ev (fl_of_ratio 20 100) ++
   part asr (fl_of_ratio 20 100) ++ part dep (fl_of_ratio 10 100) ++
   part mon (fl_of_ratio 10 100))%list.
Definition blend (pass ev asr dep mon : option Z) : Z :=
  match five_parts pass ev asr dep mon with [] => 0 | parts => weighted parts end.

Lemma parts_of_eq r :
  parts_of r = five_parts (ksi_pass_rate r) (evidence_completeness r) (assessor_completion r)
                 (dependency_readiness r) (conmon_coverage r).
Proof. destruct r as [? ? ? [] ? [] [] [] [] ? ? ? ? ?]; vm_compute; reflexivity. Qed.

Lemma blend_uniform v a b c d e :
  v = 0 \/ v = 100 ->
  (forall o, o ∈ [a; b; c; d; e] -> o = None \/ o = Some v) ->
  blend a b c d e = if bool_decide (Forall (fun o => o = None) [a; b; c; d; e]) then 0 else v.
Proof.
  intros Hv H.
  destruct (H a ltac:(in_list)) as [->| ->], (H b ltac:(in_list)) as [->| ->],
    (H c ltac:(in_list)) as [->| ->], (H d ltac:(in_list)) as [->| ->],
    (H e ltac:(in_list)) as [->| ->]; clear H; destruct Hv as [->| ->]; vm_compute; reflexivity.
Qed.

Lemma derive_status_in r hp sub :
  mem (or_empty sub) SUBMITTED_STATUSES = false -> derive_status r hp sub ∈ READINESS_STATUSES.
Proof.
  intros H. unfold derive_status. rewrite H. unfold READINESS_STATUSES.
  repeat (match goal with |- context [if ?b then _ else _] => destruct b end); in_list.
Qed.

(** ** Properties *)

(** a lifecycle status parked by a human is reported as it is; otherwise
    the status is one of six, and "ready for submission" is only ever reported
    of a system that has KSIs, a readiness of at least 90, no failing KSI, no
    dependency of high or critical risk, and a done latest review on more than
    89 in a hundred of its KSIs. *)
Theorem readiness_status_is_justified ksis states deps reviews exc today hp sub wv :
  let r := compute_readiness ksis states deps reviews exc today hp sub wv in
  (or_empty sub ∈ SUBMITTED_STATUSES -> rd_status r = or_empty sub) /\
  (or_empty sub ∉ SUBMITTED_STATUSES -> rd_status r ∈ READINESS_STATUSES) /\
  (rd_status r = "ready_for_submission" ->
     ksis <> [] /\ 90 <= readiness_pct r /\
     (forall s, s ∈ states -> sr_status s <> "fail") /\
     (forall d, d ∈ deps -> or_empty (dr_dependency_risk d) ∉ ["high"; "critical"]) /\
     89 * Z.of_nat (List.length ksis) <
       100 * lcount review_done (map snd (map_to_list (latest_review reviews)))).
Proof.
  cbv zeta. unfold compute_readiness. cbv zeta.
  set (total := Z.of_nat (List.length ksis)). set (acc := lcount review_done _).
  set (r1 := set_pct_status _ _ "not_started"). cbn [rd_status readiness_pct set_pct_status].
  assert (Ht : ksi_total r1 = total) by done.
  assert (Ha : assessor_completion r1 = pct acc total) by done.
  assert (Hh : high_risk_findings r1 = lcount (state_is "fail") states + lcount high_risk deps) by done.
  change (match parts_of _ with [] => 0 | _ => _ end) with (readiness_pct r1).
  clearbody r1. split; [|split].
  - intros H. unfold derive_status. by rewrite (proj2 (mem_true _ _) H).
  - intros H. apply derive_status_in. by apply mem_false.
  - unfold derive_status. destruct (mem_spec (or_empty sub) SUBMITTED_STATUSES) as [Hs|Hs].
    { intros E. rewrite E in Hs. mem_absurd Hs. }
    destruct (_ || _) eqn:E0; [done|]. apply orb_false_iff in E0 as [E0 _]. apply Z.eqb_neq in E0.
    destruct (_ && (high_risk_findings r1 =? 0)) eqn:E1.
    2:{ repeat (match goal with |- context [if ?b then _ else _] => destruct b end); done. }
    intros _. apply andb_true_iff in E1 as [E1 E3%Z.eqb_eq].
    apply andb_true_iff in E1 as [E1%Z.leb_le E2%Z.leb_le].
    rewrite Ht in E0. rewrite Hh in E3. rewrite Ha in E2.
    pose proof (lcount_bounds (state_is "fail") states). pose proof (lcount_bounds high_risk deps).
    split; [intros ->; by apply E0|]. split; [done|]. split; [|split].
    + intros s Hin Hf. pose proof (lcount_zero (state_is "fail") states ltac:(lia) s Hin) as Hz.
      by apply bool_decide_eq_false in Hz.
    + intros d Hin. apply mem_false. by apply (lcount_zero high_risk deps); [lia|].
    + unfold or0 in E2. destruct (pct acc total) as [v|] eqn:Ep; simpl in E2; [|lia].
      apply (pct_above 89 acc total v); try done; try lia.
      unfold acc. pose proof (lcount_bounds review_done (map snd (map_to_list (latest_review reviews)))). lia.
Qed.

(** disclosures are reported and never blended in: the numbers of open
    exceptions and active waivers appear as given and move neither the
    percentage, nor the status, nor any sub-score. *)
Theorem disclosures_do_not_move_the_score ksis states deps reviews today hp sub exc wv exc' wv' :
  let r := compute_readiness ksis states deps reviews exc today hp sub wv in
  let r' := compute_readiness ksis states deps reviews exc' today hp sub wv' in
  readiness_pct r = readiness_pct r' /\ rd_status r = rd_status r' /\ parts_of r = parts_of r' /\
  high_risk_findings r = high_risk_findings r' /\ open_exceptions r = exc /\ active_waivers r = wv.
Proof. cbv zeta. repeat split. Qed.

(** automation, evidence and dependency readiness are percentages, and so
    are the pass rate and the freshness of a system with at most one state per
    KSI; when every sub-score that exists is 100 the readiness is exactly 100,
    when every one is 0 it is 0, and it is 0 when none exists. *)
Theorem readiness_blend_bounds ksis states deps reviews exc today hp sub wv :
  let r := compute_readiness ksis states deps reviews exc today hp sub wv in
  let subs := [ksi_pass_rate r; evidence_completeness r; assessor_completion r;
               dependency_readiness r; conmon_coverage r] in
  let in_range o := forall v, o = Some v -> 0 <= v <= 100 in
  in_range (automation_coverage r) /\ in_range (evidence_completeness r) /\
  in_range (dependency_readiness r) /\
  ((List.length states <= List.length ksis)%nat ->
     in_range (ksi_pass_rate r) /\ in_range (conmon_coverage r)) /\
  ((forall o, o ∈ subs -> o = None) -> readiness_pct r = 0) /\
  (forall v, v = 0 \/ v = 100 -> (forall o, o ∈ subs -> o = None \/ o = Some v) ->
     (exists o, o ∈ subs /\ o = Some v) -> readiness_pct r = v).
Proof.
  cbv zeta. set (r := compute_readiness _ _ _ _ _ _ _ _ _).
  assert (Hp : readiness_pct r = blend (ksi_pass_rate r) (evidence_completeness r)
    (assessor_completion r) (dependency_readiness r) (conmon_coverage r))
    by (unfold blend; rewrite <- parts_of_eq; reflexivity).
  split; [intros v; apply pct_bounds, lcount_bounds|].
  split; [intros v; apply pct_bounds, lcount_bounds|].
  split; [intros v; apply pct_bounds, lcount_bounds|].
  split.
  { intros Hle. pose proof (lcount_bounds (state_is "pass") states).
    pose proof (lcount_bounds (fresh today) states). split; intros v; apply pct_bounds; lia. }
  rewrite Hp. clear Hp. clearbody r. split.
  - intros H. rewrite (blend_uniform 0) by auto. by case_bool_decide.
  - intros v Hv H (o & Ho & ->). rewrite (blend_uniform v) by done.
    rewrite bool_decide_eq_false_2; [done|]. intros HF. rewrite Forall_forall in HF.
    by specialize (HF _ Ho).
Qed.

(** the review that counts for a KSI is its latest, and of equally late
    ones the last recorded; a KSI nobody reviewed counts as not accepted. *)
Theorem latest_review_counts reviews k :
  match latest_review reviews !! k with
  | Some rv => rv ∈ reviews /\ rv_ksi_id rv = k /\
      forall rv', rv' ∈ reviews -> rv_ksi_id rv' = k -> rv_reviewed_at rv' <= rv_reviewed_at rv
  | None => forall rv, rv ∈ reviews -> rv_ksi_id rv <> k
  end.
Proof.
  induction reviews as [|r rs IH] using rev_ind.
  { unfold latest_review. simpl. rewrite lookup_empty. by intros rv ?%not_elem_of_nil. }
  unfold latest_review in *. rewrite fold_left_app. simpl.
  set (m := fold_left _ rs ∅) in *. clearbody m.
  assert (Hkeep : forall m' : gmap Z ReviewRow, m' !! k = m !! k ->
    (rv_ksi_id r = k -> exists rv, m !! k = Some rv /\ rv_reviewed_at r <= rv_reviewed_at rv) ->
    match m' !! k with
    | Some rv => rv ∈ (rs ++ [r])%list /\ rv_ksi_id rv = k /\
        forall rv', rv' ∈ (rs ++ [r])%list -> rv_ksi_id rv' = k -> rv_reviewed_at rv' <= rv_reviewed_at rv
    | None => forall rv, rv ∈ (rs ++ [r])%list -> rv_ksi_id rv <> k
    end).
  { intros m' -> Hr. destruct (m !! k) as [rv|].
    - destruct IH as (H1 & H2 & H3). split; [apply elem_of_app; by left|]. split; [done|].
      intros rv' [?| ->%list_elem_of_singleton]%elem_of_app Hk; [by apply H3|].
      destruct (Hr Hk) as (? & [= <-] & ?). done.
    - intros rv [?| ->%list_elem_of_singleton]%elem_of_app Hk; [by apply (IH rv)|].
      destruct (Hr Hk) as (? & [=] & _). }
  assert (Htake : rv_ksi_id r = k ->
    (forall rv, m !! k = Some rv -> rv_reviewed_at rv <= rv_reviewed_at r) ->
    r ∈ (rs ++ [r])%list /\ rv_ksi_id r = k /\
    forall rv', rv' ∈ (rs ++ [r])%list -> rv_ksi_id rv' = k -> rv_reviewed_at rv' <= rv_reviewed_at r).
  { intros Hk Hle. split; [apply elem_of_app; right; by left|]. split; [done|].
    intros rv' [Hin| ->%list_elem_of_singleton]%elem_of_app Hk'; [|done].
    destruct (m !! k) as [rv|]; [|by destruct (IH rv' Hin)].
    destruct IH as (_ & _ & H3). specialize (H3 rv' Hin Hk'). specialize (Hle rv eq_refl). lia. }
  destruct (m !! rv_ksi_id r) as [prev|] eqn:Em.
  - destruct (Z.leb_spec (rv_reviewed_at prev) (rv_reviewed_at r)).
    + destruct (decide (rv_ksi_id r = k)) as [Hk|Hk].
      * rewrite Hk, lookup_insert_eq. apply Htake; [done|]. intros rv. rewrite <- Hk, Em. by intros [= <-].
      * apply Hkeep; [by apply lookup_insert_ne|done].
    + apply Hkeep; [done|]. intros Hk. exists prev. rewrite <- Hk. split; [done|lia].
  - destruct (decide (rv_ksi_id r = k)) as [Hk|Hk].
    + rewrite Hk, lookup_insert_eq. apply Htake; [done|]. rewrite <- Hk, Em. done.
    + apply Hkeep; [by apply lookup_insert_ne|done].
Qed.

(** scoring records at most one snapshot, the one it returns, and moves the
    profile's lifecycle status to the derived one, except that a status parked
    at submission or beyond is never moved; without persisting nothing changes. *)
Theorem score_readiness_records db today :
  let '(r, db') := score_readiness db today true in
  rdb_snapshots db' = (rdb_snapshots db ++ [r])%list /\
  (forall st, rdb_profile db = Some st ->
     rdb_profile db' = Some (rd_status r) /\ (st ∈ SUBMITTED_STATUSES -> rd_status r = st)) /\
  (rdb_profile db = None -> rdb_profile db' = None) /\
  rdb_states db' = rdb_states db /\
  score_readiness db today false = (r, db).
Proof.
  unfold score_readiness. set (r := compute_readiness _ _ _ _ _ _ _ _ _).
  cbn [rdb_snapshots rdb_profile rdb_states]. split; [done|]. split; [|split; [by intros ->|done]].
  intros st Hst. rewrite Hst.
  assert (st ∈ SUBMITTED_STATUSES -> rd_status r = st) as Hp.
  { intros H. unfold r, compute_readiness. cbv zeta. cbn [rd_status set_pct_status].
    unfold derive_status. rewrite Hst. simpl. by rewrite (proj2 (mem_true _ _) H). }
  split; [|done]. destruct (mem_spec st SUBMITTED_STATUSES); [|done]. by rewrite Hp.
Qed.
