(* ===== verification/Approvals.v ===== *)
(** The approval workflow ([src/src/ccf/governance/approvals.py]): submission
    and decision of a governed entity as a state machine with separation of
    duties, over the event bus of [ControlTests].

    An exception leaves the caller to roll its transaction back, so a refused
    operation is no step of the machine. *)

From S2P Require Export ControlTests.

Local Open Scope string_scope.
Local Open Scope Z_scope.

Definition ENTITY_TYPES : list string := ["ssp_project"; "poam"; "risk"; "assessment"].
Definition APPROVER_ROLES : list string := ["admin"; "authorizing_official"].

Definition WorkflowError (m : string) : exn := Exn "WorkflowError" m.

Record Approval := {
  ap_organization_id : option Z;
  ap_entity_type : string;
  ap_entity_id : string;
  ap_state : string;
  ap_submitted_by : option string;
  ap_submitted_at : option Z;
  ap_reviewed_by : option string;
  ap_reviewed_at : option Z;
  ap_decision_note : option string }.

(** The tables of the workflow: approvals, the SSP projects' statuses, and the
    bus's own. *)
Record WDb := {
  w_approvals : list Approval;
  w_projects : list (Z * string);
  w_bus : Db }.

Definition is_entity (et eid : string) (a : Approval) : bool :=
  bool_decide (ap_entity_type a = et) && bool_decide (ap_entity_id a = eid).

Definition fresh_approval (et eid : string) (org : option Z) : Approval :=
  {| ap_organization_id := org; ap_entity_type := et; ap_entity_id := eid; ap_state := "draft";
     ap_submitted_by := None; ap_submitted_at := None; ap_reviewed_by := None;
     ap_reviewed_at := None; ap_decision_note := None |}.

(** The row of the entity, and the table that holds it. *)
Definition get_or_create (et eid : string) (org : option Z) (rows : list Approval)
    : res (Approval * list Approval) :=
  let! row := scalar_one_or_none (filter (fun a => is_entity et eid a = true) rows) in
  match row with
  | Some a => Ok (a, rows)
  | None => let a := fresh_approval et eid org in Ok (a, (rows ++ [a])%list)
  end.

Definition entity_state (et eid : string) (rows : list Approval) : res string :=
  let! row := scalar_one_or_none (filter (fun a => is_entity et eid a = true) rows) in
  Ok (match row with Some a => ap_state a | None => "draft" end).

(** [{r.entity_id: r.state for r in rows}] then [{i: found.get(i, "draft")}]. *)
Definition entity_states (et : string) (ids : list string) (rows : list Approval) : gmap string string :=
  let found := fold_left (fun m r => <[ap_entity_id r := ap_state r]> m)
    (filter (fun a => ap_entity_type a = et /\ ap_entity_id a ∈ ids) rows) (∅ : gmap string string) in
  fold_left (fun m i => <[i := default "draft" (found !! i)]> m) ids ∅.

Definition submitted_row (actor : option string) (now : Z) (a : Approval) : Approval :=
  {| ap_organization_id := ap_organization_id a; ap_entity_type := ap_entity_type a;
     ap_entity_id := ap_entity_id a; ap_state := "submitted"; ap_submitted_by := actor;
     ap_submitted_at := Some now; ap_reviewed_by := None; ap_reviewed_at := None;
     ap_decision_note := ap_decision_note a |}.

Definition decided_row (approve : bool) (actor note : option string) (now : Z) (a : Approval)
    : Approval :=
  {| ap_organization_id := ap_organization_id a; ap_entity_type := ap_entity_type a;
     ap_entity_id := ap_entity_id a; ap_state := if approve then "approved" else "rejected";
     ap_submitted_by := ap_submitted_by a; ap_submitted_at := ap_submitted_at a;
     ap_reviewed_by := actor; ap_reviewed_at := Some now; ap_decision_note := note |}.

Definition submit (et eid : string) (actor : option string) (org : option Z) (now : Z) (s : WDb)
    : res WDb :=
  if negb (mem et ENTITY_TYPES) then Err (WorkflowError ("unsupported entity type: " +:+ et)) else
  let! r := get_or_create et eid org (w_approvals s) in
  let '(a, rows) := r in
  if decide (ap_state a = "approved") then Err (WorkflowError "already approved") else
  let rows := update_where (is_entity et eid) (submitted_row actor now) rows in
  let bus := emit "submitted" et
    (et +:+ " " +:+ eid +:+ " submitted for review by " +:+ fmt_opt actor) org actor (Some eid) (w_bus s) in
  let! bus := notify "approval" ("Review requested: " +:+ et +:+ " " +:+ eid) org "info"
    (Some ("Submitted by " +:+ fmt_opt actor +:+ ".")) et eid
    (Some ("review-req:" +:+ et +:+ ":" +:+ eid)) bus in
  Ok {| w_approvals := rows; w_projects := w_projects s; w_bus := bus |}.

Definition both_named_same (actor submitter : option string) : bool :=
  str_truthy (or_empty actor) && str_truthy (or_empty submitter) && bool_decide (actor = submitter).

Definition decide_ (auth_on : bool) (et eid : string) (approve : bool) (actor role note : option string)
    (org : option Z) (now : Z) (s : WDb) : res WDb :=
  if negb (mem et ENTITY_TYPES) then Err (WorkflowError ("unsupported entity type: " +:+ et)) else
  let! r := get_or_create et eid org (w_approvals s) in
  let '(a, rows) := r in
  if bool_decide (ap_state a <> "submitted") then
    Err (WorkflowError ("cannot decide from state '" +:+ ap_state a +:+ "' (must be submitted)"))
  else if auth_on && negb (match role with Some x => mem x APPROVER_ROLES | None => false end) then
    Err (WorkflowError "approver must hold an authorizing role")
  else if auth_on && both_named_same actor (ap_submitted_by a) then
    Err (WorkflowError "separation of duties: approver must differ from submitter")
  else
    let rows := update_where (is_entity et eid) (decided_row approve actor note now) rows in
    let st := if approve then "approved" else "rejected" in
    let! projects :=
      if approve && bool_decide (et = "ssp_project") then
        let! i := py_int eid in
        let! proj := scalar_one_or_none (filter (fun p => p.1 = i) (w_projects s)) in
        Ok (match proj with
            | Some _ => update_where (fun p => bool_decide (p.1 = i)) (fun p => (p.1, "approved")) (w_projects s)
            | None => w_projects s
            end)
      else Ok (w_projects s) in
    let bus := emit st et (et +:+ " " +:+ eid +:+ " " +:+ st +:+ " by " +:+ fmt_opt actor) org actor
                 (Some eid) (w_bus s) in
    let! bus := notify "approval" (et +:+ " " +:+ eid +:+ " " +:+ st) org
      (if approve then "info" else "warning") (Some (or_empty note)) et eid
      (Some ("decision:" +:+ et +:+ ":" +:+ eid +:+ ":" +:+ st)) bus in
    Ok {| w_approvals := rows; w_projects := projects; w_bus := bus |}.

(** ** The workflow as a state machine *)

Inductive step (auth_on : bool) : WDb -> WDb -> Prop :=
| step_submit et eid actor org now s s' :
    submit et eid actor org now s = Ok s' -> step auth_on s s'
| step_decide et eid approve actor role note org now s s' :
    decide_ auth_on et eid approve actor role note org now s = Ok s' -> step auth_on s s'.

Inductive reachable (auth_on : bool) (s0 : WDb) : WDb -> Prop :=
| reach_init : reachable auth_on s0 s0
| reach_step s s' : reachable auth_on s0 s -> step auth_on s s' -> reachable auth_on s0 s'.

(** A row as the workflow leaves it. *)
Record approval_ok (auth_on : bool) (a : Approval) : Prop := {
  ok_type : ap_entity_type a ∈ ENTITY_TYPES;
  ok_state : ap_state a ∈ ["draft"; "submitted"; "approved"; "rejected"];
  ok_pending : ap_state a = "submitted" -> ap_reviewed_by a = None /\ ap_reviewed_at a = None;
  ok_decided : ap_state a = "approved" \/ ap_state a = "rejected" ->
    is_Some (ap_submitted_at a) /\ is_Some (ap_reviewed_at a);
  ok_duties : auth_on = true -> ap_state a = "approved" \/ ap_state a = "rejected" ->
    both_named_same (ap_reviewed_by a) (ap_submitted_by a) = false }.

Record workflow_ok (auth_on : bool) (s : WDb) : Prop := {
  ok_rows : forall a, a ∈ w_approvals s -> approval_ok auth_on a;
  ok_unique : forall et eid, at_most_one (is_entity et eid) (w_approvals s);
  ok_submitted : forall a, a ∈ w_approvals s -> ap_state a = "submitted" -> is_Some (ap_submitted_at a) }.

(** ** Lemmas *)

Lemma is_entity_true et eid a :
  is_entity et eid a = true <-> ap_entity_type a = et /\ ap_entity_id a = eid.
Proof. unfold is_entity. by rewrite andb_true_iff, !bool_decide_eq_true. Qed.

Lemma get_or_create_spec et eid org rows :
  match get_or_create et eid org rows with
  | Ok (a, rows') =>
      is_entity et eid a = true /\ a ∈ rows' /\
      ((rows' = rows) \/ (rows' = (rows ++ [fresh_approval et eid org])%list /\
         a = fresh_approval et eid org)) /\
      ((forall et' eid', at_most_one (is_entity et' eid') rows) ->
         (forall et' eid', at_most_one (is_entity et' eid') rows') /\
         forall b, b ∈ rows' -> is_entity et eid b = true -> b = a)
  | Err _ => ~ at_most_one (is_entity et eid) rows
  end.
Proof.
  unfold get_or_create.
  destruct (scalar_one_or_none (filter (fun a => is_entity et eid a = true) rows)) as [[a|]|e] eqn:E;
    cbn [res_bind].
  - apply scalar_Some in E. pose proof (existing_elem _ _ _ E) as [Hin He].
    split; [done|]. split; [done|]. split; [by left|]. intros H. split; [done|].
    intros b Hb Hbe. assert (b ∈ filter (fun a => is_entity et eid a = true) rows) as Hf
      by (by apply list_elem_of_filter).
    rewrite E in Hf. by apply list_elem_of_singleton in Hf.
  - apply scalar_None in E. set (a := fresh_approval et eid org).
    assert (is_entity et eid a = true) as Ha by (by apply is_entity_true).
    split; [done|]. split; [apply elem_of_app; right; by left|]. split; [by right|]. intros H.
    split.
    + intros et' eid'. apply (at_most_one_add _ (is_entity et eid)); [done| |done].
      intros Ha'. apply is_entity_true in Ha' as [<- <-]. done.
    + intros b [Hb| ->%list_elem_of_singleton]%elem_of_app Hbe; [|done].
      assert (b ∈ filter (fun a => is_entity et eid a = true) rows) as Hf
        by (by apply list_elem_of_filter).
      rewrite E in Hf. by apply not_elem_of_nil in Hf.
  - intros H. destruct (scalar_at_most_one _ _ H) as (o & Ho & _). congruence.
Qed.

Lemma elem_of_update {A} (p : A -> bool) f rows x :
  x ∈ update_where p f rows -> exists y, y ∈ rows /\ x = (if p y then f y else y).
Proof. unfold update_where. intros (y & -> & Hy)%list_elem_of_fmap. by exists y. Qed.

Lemma fresh_ok auth_on et eid org : et ∈ ENTITY_TYPES -> approval_ok auth_on (fresh_approval et eid org).
Proof. intros H. split; simpl; try done; try in_list; by intros ? [|] || intros [|]. Qed.

Lemma submit_inv et eid actor org now s s' :
  submit et eid actor org now s = Ok s' ->
  et ∈ ENTITY_TYPES /\ w_projects s' = w_projects s /\
  exists a mid, get_or_create et eid org (w_approvals s) = Ok (a, mid) /\ ap_state a <> "approved" /\
    w_approvals s' = update_where (is_entity et eid) (submitted_row actor now) mid.
Proof.
  unfold submit. destruct (mem_spec et ENTITY_TYPES) as [Het|]; [|done]. cbn [negb].
  destruct (get_or_create _ _ _ _) as [[a mid]|]; [|done]. cbn [res_bind].
  destruct (decide (ap_state a = "approved")); [done|].
  intros (bus & _ & [= <-])%res_bind_Ok. split; [done|]. split; [done|]. by exists a, mid.
Qed.

Lemma decide_inv auth_on et eid approve actor role note org now s s' :
  decide_ auth_on et eid approve actor role note org now s = Ok s' ->
  et ∈ ENTITY_TYPES /\
  exists a mid, get_or_create et eid org (w_approvals s) = Ok (a, mid) /\ ap_state a = "submitted" /\
    (auth_on = true -> (exists x, role = Some x /\ x ∈ APPROVER_ROLES) /\
                       both_named_same actor (ap_submitted_by a) = false) /\
    w_approvals s' = update_where (is_entity et eid) (decided_row approve actor note now) mid.
Proof.
  unfold decide_. destruct (mem_spec et ENTITY_TYPES) as [Het|]; [|done]. cbn [negb].
  destruct (get_or_create _ _ _ _) as [[a mid]|]; [|done]. cbn [res_bind].
  case_bool_decide as Hst; [done|].
  destruct (auth_on && negb _) eqn:Hr; [done|]. destruct (auth_on && both_named_same _ _) eqn:Hd; [done|].
  intros (pr & _ & (bus & _ & [= <-])%res_bind_Ok)%res_bind_Ok. split; [done|].
  exists a, mid. split; [done|]. split; [done|]. split; [|done]. intros ->. simpl in *.
  split; [|done]. destruct role as [x|]; [|done]. apply negb_false_iff, mem_true in Hr. by exists x.
Qed.

(** The rows after an operation on one entity: its row, existing or new, goes
    through [f]; every other row is one that was there. *)
Lemma row_after et eid f a org rows mid b :
  (forall et' eid', at_most_one (is_entity et' eid') rows) ->
  get_or_create et eid org rows = Ok (a, mid) ->
  b ∈ update_where (is_entity et eid) f mid ->
  b = f a \/ (b ∈ rows /\ is_entity et eid b = false).
Proof.
  intros Hu Hg. pose proof (get_or_create_spec et eid org rows) as H. rewrite Hg in H.
  destruct H as (Ha & _ & Hmid & H). destruct (H Hu) as [_ Honly].
  intros (c & Hc & ->)%elem_of_update. destruct (is_entity et eid c) eqn:E.
  - left. f_equal. by apply Honly.
  - right. destruct Hmid as [->|[-> ->]]; [done|].
    apply elem_of_app in Hc as [Hc| ->%list_elem_of_singleton]; [done|congruence].
Qed.

Lemma rows_after_unique et eid f a org rows mid :
  (forall et' eid', at_most_one (is_entity et' eid') rows) ->
  (forall et' eid' x, is_entity et' eid' (f x) = is_entity et' eid' x) ->
  get_or_create et eid org rows = Ok (a, mid) ->
  forall et' eid', at_most_one (is_entity et' eid') (update_where (is_entity et eid) f mid).
Proof.
  intros Hu Hf Hg et' eid'. pose proof (get_or_create_spec et eid org rows) as H. rewrite Hg in H.
  destruct H as (_ & _ & _ & H). apply at_most_one_update; [apply Hf|]. by apply H.
Qed.

Lemma created_ok auth_on et eid org rows a mid :
  et ∈ ENTITY_TYPES -> (forall b, b ∈ rows -> approval_ok auth_on b) ->
  get_or_create et eid org rows = Ok (a, mid) -> approval_ok auth_on a.
Proof.
  intros Het Hok Hg. pose proof (get_or_create_spec et eid org rows) as H. rewrite Hg in H.
  destruct H as (_ & Hin & [->|[_ ->]] & _); [by apply Hok|by apply fresh_ok].
Qed.

Lemma step_ok auth_on s s' : workflow_ok auth_on s -> step auth_on s s' -> workflow_ok auth_on s'.
Proof.
  intros [Hrows Hu Hsub] Hstep. destruct Hstep as [et eid actor org now s s' H|et eid approve actor role note org now s s' H].
  - apply submit_inv in H as (Het & _ & a & mid & Hg & Hne & E).
    pose proof (created_ok auth_on _ _ _ _ _ _ Het Hrows Hg) as Ha. split; rewrite E.
    + intros b Hb. destruct (row_after _ _ _ _ _ _ _ _ Hu Hg Hb) as [->|[? _]]; [|auto].
      split; simpl; [apply Ha|in_list|done|by intros [|]|by intros _ [|]].
    + by eapply rows_after_unique.
    + intros b Hb. destruct (row_after _ _ _ _ _ _ _ _ Hu Hg Hb) as [->|[? _]]; [by eexists|auto].
  - apply decide_inv in H as (Het & a & mid & Hg & Hst & Hduty & E).
    pose proof (created_ok auth_on _ _ _ _ _ _ Het Hrows Hg) as Ha.
    assert (a ∈ w_approvals s) as Hin.
    { pose proof (get_or_create_spec et eid org (w_approvals s)) as H. rewrite Hg in H.
      destruct H as (_ & H & [->|[_ ->]] & _); [done|]. by simpl in Hst. }
    split; rewrite E.
    + intros b Hb. destruct (row_after _ _ _ _ _ _ _ _ Hu Hg Hb) as [->|[? _]]; [|auto].
      split; simpl.
      * apply Ha.
      * destruct approve; in_list.
      * by destruct approve.
      * intros _. split; [by apply (Hsub a)|by eexists].
      * intros Hau _. by apply Hduty.
    + by eapply rows_after_unique.
    + intros b Hb. destruct (row_after _ _ _ _ _ _ _ _ Hu Hg Hb) as [->|[? _]]; [|auto].
      intros _. by apply (Hsub a).
Qed.

(** ** Properties *)

(** C39: from tables that respect it, every sequence of submissions and
    decisions keeps the workflow sound: one row per entity, known types and
    states only, a pending row has no reviewer, a decided row was submitted and
    reviewed, and with authentication on its named reviewer is never its named
    submitter. *)
Theorem workflow_invariant auth_on s0 s :
  workflow_ok auth_on s0 -> reachable auth_on s0 s -> workflow_ok auth_on s.
Proof. intros H. induction 1 as [|s s' _ IH Hs]; [done|]. by eapply step_ok. Qed.

Definition empty_workflow : WDb :=
  {| w_approvals := []; w_projects := [(1, "draft")]; w_bus := empty_db |}.

Example workflow_witness :
  exists s, reachable true empty_workflow s /\ workflow_ok true s /\
    map ap_state (w_approvals s) = ["approved"] /\ w_projects s = [(1, "approved")].
Proof.
  assert (workflow_ok true empty_workflow) as H0.
  { split; [by intros a ?%not_elem_of_nil|intros; unfold at_most_one; simpl; lia|
            by intros a ?%not_elem_of_nil]. }
  destruct (submit "ssp_project" "1" (Some "ann") (Some 1) 0 empty_workflow) as [s1|] eqn:E1;
    [|vm_compute in E1; discriminate E1].
  destruct (decide_ true "ssp_project" "1" true (Some "bob") (Some "admin") None (Some 1) 5 s1)
    as [s2|] eqn:E2; [|vm_compute in E1; injection E1 as <-; vm_compute in E2; discriminate E2].
  assert (reachable true empty_workflow s2) as Hr.
  { eapply reach_step; [eapply reach_step; [apply reach_init|]|]; [eapply step_submit|eapply step_decide];
      eassumption. }
  exists s2. split; [exact Hr|]. split; [exact (workflow_invariant true empty_workflow s2 H0 Hr)|].
  vm_compute in E1. injection E1 as <-. vm_compute in E2. injection E2 as <-. split; reflexivity.
Defined.

(** a decision on one entity, and a submission of it, leave the rows of all
    other entities as they are, and an approved row is final: no operation
    changes it. *)
Theorem approved_rows_are_final auth_on s s' :
  workflow_ok auth_on s -> step auth_on s s' ->
  forall a, a ∈ w_approvals s -> ap_state a = "approved" -> a ∈ w_approvals s'.
Proof.
  intros [Hrows Hu Hsub] Hstep a Ha Hst.
  assert (forall et eid org b mid f, get_or_create et eid org (w_approvals s) = Ok (b, mid) ->
    ap_state b <> "approved" -> a ∈ update_where (is_entity et eid) f mid) as Hkeep.
  { intros et eid org b mid f Hg Hb. pose proof (get_or_create_spec et eid org (w_approvals s)) as H.
    rewrite Hg in H. destruct H as (_ & _ & Hmid & H). destruct (H Hu) as [_ Honly].
    assert (a ∈ mid) as Hin by (destruct Hmid as [->|[-> _]]; [done|apply elem_of_app; by left]).
    apply list_elem_of_fmap. exists a. split; [|done]. destruct (is_entity et eid a) eqn:E; [|done].
    destruct Hb. rewrite <- (Honly a Hin E). done. }
  destruct Hstep as [et eid actor org now s s' H|et eid approve actor role note org now s s' H].
  - apply submit_inv in H as (_ & _ & b & mid & Hg & Hne & ->). by eapply Hkeep.
  - apply decide_inv in H as (_ & b & mid & Hg & Hb & _ & ->). eapply Hkeep; [exact Hg|]. by rewrite Hb.
Qed.

Example approved_rows_witness :
  exists s s' a, workflow_ok true s /\ step true s s' /\ ap_state a = "approved" /\ a ∈ w_approvals s'.
Proof.
  pose (a := {| ap_organization_id := None; ap_entity_type := "risk"; ap_entity_id := "9";
                ap_state := "approved"; ap_submitted_by := Some "ann"; ap_submitted_at := Some 0;
                ap_reviewed_by := Some "bob"; ap_reviewed_at := Some 1; ap_decision_note := None |}).
  pose (s := {| w_approvals := [a]; w_projects := []; w_bus := empty_db |}).
  assert (workflow_ok true s) as Hok.
  { split.
    - intros b ->%list_elem_of_singleton. split; simpl; try done; try in_list; by intros _; split; eexists.
    - intros et eid. unfold at_most_one, s. simpl. rewrite filter_cons. case_decide; simpl; lia.
    - by intros b ->%list_elem_of_singleton. }
  destruct (submit "poam" "3" (Some "ann") None 0 s) as [s'|] eqn:E; [|vm_compute in E; discriminate E].
  assert (step true s s') as Hs by (eapply step_submit; exact E).
  exists s, s', a. split; [exact Hok|]. split; [exact Hs|]. split; [reflexivity|].
  apply (approved_rows_are_final true s s' Hok Hs a); [by left|reflexivity].
Defined.
