(* ===== verification/Hash.v ===== *)
(** Byte-level primitives of the standard library the program calls:
    [hashlib] (SHA-1, SHA-256), [hmac], [base64.b32decode] and UTF-8 encoding.

    A byte is a [Z] below 256 and a 32-bit word a [Z] below 2^32 with its
    wrap-around written out. *)

From S2P Require Export Prelude.

Local Open Scope Z_scope.

Definition w32 (x : Z) : Z := Z.land x 4294967295.
Definition add32 (x y : Z) : Z := w32 (x + y).
Definition rotl (n x : Z) : Z := Z.lor (w32 (Z.shiftl x n)) (Z.shiftr x (32 - n)).
Definition rotr (n x : Z) : Z := rotl (32 - n) x.
Definition not32 (x : Z) : Z := 4294967295 - x.

Definition be_word (a b c d : Z) : Z := ((a * 256 + b) * 256 + c) * 256 + d.
Fixpoint words_of (l : list Z) : list Z :=
  match l with a :: b :: c :: d :: l' => be_word a b c d :: words_of l' | _ => [] end.

(** The [n] low bytes of [x], most significant first. *)
Fixpoint be_bytes (n : nat) (x : Z) : list Z :=
  match n with
  | O => []
  | S n' => Z.land (Z.shiftr x (8 * Z.of_nat n')) 255 :: be_bytes n' x
  end.

Definition pad_block (msg : list Z) : list Z :=
  let len := Z.of_nat (List.length msg) in
  (msg ++ [128] ++ repeat 0 (Z.to_nat ((55 - len) mod 64)) ++ be_bytes 8 (8 * len))%list.

Fixpoint chunks (fuel n : nat) (l : list Z) : list (list Z) :=
  match fuel, l with
  | S f, _ :: _ => firstn n l :: chunks f n (skipn n l)
  | _, _ => []
  end.

Definition nth0 (n : nat) (l : list Z) : Z := nth n l 0.

(** The message schedule, newest word first. *)
Fixpoint schedule (next : list Z -> Z) (n : nat) (ws : list Z) : list Z :=
  match n with O => ws | S n' => schedule next n' (next ws :: ws) end.

Definition block_words (next : list Z -> Z) (n : nat) (block : list Z) : list Z :=
  rev (schedule next n (rev (words_of block))).

(** ** SHA-1 *)

Definition sha1_next (ws : list Z) : Z :=
  rotl 1 (Z.lxor (Z.lxor (nth0 2 ws) (nth0 7 ws)) (Z.lxor (nth0 13 ws) (nth0 15 ws))).

Definition sha1_f (t : nat) (b c d : Z) : Z :=
  if (t <? 20)%nat then Z.lor (Z.land b c) (Z.land (not32 b) d)
  else if (t <? 40)%nat then Z.lxor b (Z.lxor c d)
  else if (t <? 60)%nat then Z.lor (Z.land b c) (Z.lor (Z.land b d) (Z.land c d))
  else Z.lxor b (Z.lxor c d).
Definition sha1_k (t : nat) : Z :=
  if (t <? 20)%nat then 1518500249 else if (t <? 40)%nat then 1859775393
  else if (t <? 60)%nat then 2400959708 else 3395469782.

Definition sha1_round (s : nat * (Z * Z * Z * Z * Z)) (w : Z) : nat * (Z * Z * Z * Z * Z) :=
  let '(t, (a, b, c, d, e)) := s in
  (S t, (w32 (rotl 5 a + sha1_f t b c d + e + sha1_k t + w), a, rotl 30 b, c, d)).

Definition sha1_block (h : Z * Z * Z * Z * Z) (block : list Z) : Z * Z * Z * Z * Z :=
  let '(h0, h1, h2, h3, h4) := h in
  let '(_, (a, b, c, d, e)) := fold_left sha1_round (block_words sha1_next 64 block) (O, h) in
  (add32 h0 a, add32 h1 b, add32 h2 c, add32 h3 d, add32 h4 e).

Definition sha1 (msg : list Z) : list Z :=
  let p := pad_block msg in
  let '(a, b, c, d, e) :=
    fold_left sha1_block (chunks (List.length p) 64 p)
      (1732584193, 4023233417, 2562383102, 271733878, 3285377520) in
  concat (map (be_bytes 4) [a; b; c; d; e]).

(** ** SHA-256 *)

Definition sha256_K : list Z :=
  [1116352408; 1899447441; 3049323471; 3921009573; 961987163; 1508970993;
   2453635748; 2870763221; 3624381080; 310598401; 607225278; 1426881987;
   1925078388; 2162078206; 2614888103; 3248222580; 3835390401; 4022224774;
   264347078; 604807628; 770255983; 1249150122; 1555081692; 1996064986;
   2554220882; 2821834349; 2952996808; 3210313671; 3336571891; 3584528711;
   113926993; 338241895; 666307205; 773529912; 1294757372; 1396182291;
   1695183700; 1986661051; 2177026350; 2456956037; 2730485921; 2820302411;
   3259730800; 3345764771; 3516065817; 3600352804; 4094571909; 275423344;
   430227734; 506948616; 659060556; 883997877; 958139571; 1322822218;
   1537002063; 1747873779; 1955562222; 2024104815; 2227730452; 2361852424;
   2428436474; 2756734187; 3204031479; 3329325298].

Definition sha256_H : list Z :=
  [1779033703; 3144134277; 1013904242; 2773480762; 1359893119; 2600822924;
   528734635; 1541459225].

Definition sha256_next (ws : list Z) : Z :=
  let s0 x := Z.lxor (Z.lxor (rotr 7 x) (rotr 18 x)) (Z.shiftr x 3) in
  let s1 x := Z.lxor (Z.lxor (rotr 17 x) (rotr 19 x)) (Z.shiftr x 10) in
  w32 (s1 (nth0 1 ws) + nth0 6 ws + s0 (nth0 14 ws) + nth0 15 ws).

Definition sha256_round (s : list Z) (kw : Z * Z) : list Z :=
  match s with
  | [a; b; c; d; e; f; g; h] =>
      let S1 := Z.lxor (Z.lxor (rotr 6 e) (rotr 11 e)) (rotr 25 e) in
      let ch := Z.lxor (Z.land e f) (Z.land (not32 e) g) in
      let t1 := w32 (h + S1 + ch + kw.1 + kw.2) in
      let S0 := Z.lxor (Z.lxor (rotr 2 a) (rotr 13 a)) (rotr 22 a) in
      let maj := Z.lxor (Z.lxor (Z.land a b) (Z.land a c)) (Z.land b c) in
      [add32 t1 (add32 S0 maj); a; b; c; add32 d t1; e; f; g]
  | _ => s
  end.

Definition sha256_block (h : list Z) (block : list Z) : list Z :=
  map (fun xy => add32 xy.1 xy.2)
    (combine h (fold_left sha256_round (combine sha256_K (block_words sha256_next 48 block)) h)).

Definition sha256 (msg : list Z) : list Z :=
  let p := pad_block msg in
  concat (map (be_bytes 4) (fold_left sha256_block (chunks (List.length p) 64 p) sha256_H)).

(** The digest of any message is 32 bytes. *)
Lemma sha256_round_length s kw : List.length (sha256_round s kw) = List.length s.
Proof. unfold sha256_round. by do 9 (destruct s as [|? s]; [done|]). Qed.

Lemma sha256_block_length h block : List.length (sha256_block h block) = List.length h.
Proof.
  unfold sha256_block. rewrite length_map, length_combine.
  assert (forall l s, List.length (fold_left sha256_round l s) = List.length s) as ->; [|lia].
  induction l as [|kw l IH]; intros s; [done|]. simpl. by rewrite IH, sha256_round_length.
Qed.

Lemma be_bytes_length n x : List.length (be_bytes n x) = n.
Proof. revert x. induction n as [|n IH]; intros x; simpl; [done|]. rewrite ?length_app, IH. simpl. lia. Qed.

Lemma sha256_length msg : List.length (sha256 msg) = 32%nat.
Proof.
  unfold sha256. cbv zeta.
  assert (forall l h, List.length (fold_left sha256_block l h) = List.length h) as Hf.
  { induction l as [|b l IH]; intros h; [done|]. simpl. by rewrite IH, sha256_block_length. }
  assert (forall l, List.length (concat (map (be_bytes 4) l)) = (4 * List.length l)%nat) as ->.
  { induction l as [|b l IH]; [done|]. cbn [map concat]. rewrite length_app, IH, be_bytes_length. simpl. lia. }
  by rewrite Hf.
Qed.

(** ** HMAC with a 64-byte block *)

Definition hmac (hash : list Z -> list Z) (key msg : list Z) : list Z :=
  let k := if (64 <? Z.of_nat (List.length key)) then hash key else key in
  let k := (k ++ repeat 0 (64 - List.length k))%list in
  hash (map (Z.lxor 92) k ++ hash (map (Z.lxor 54) k ++ msg))%list.

(** ** Text and bytes *)

(** [s.encode("utf-8")] for code points below 256. *)
Fixpoint utf8 (s : string) : list Z :=
  match s with
  | EmptyString => []
  | String c s' =>
      let n := Z.of_N (cp c) in
      ((if n <? 128 then [n] else [192 + n / 64; 128 + n mod 64]) ++ utf8 s')%list
  end.

Definition hex_char (n : Z) : ascii := ascii_of_N (Z.to_N (if n <? 10 then 48 + n else 87 + n)).
Fixpoint hexdigest (l : list Z) : string :=
  match l with
  | [] => ""
  | b :: l' => String (hex_char (b / 16)) (String (hex_char (b mod 16)) (hexdigest l'))
  end.

Lemma hexdigest_length l : String.length (hexdigest l) = (2 * List.length l)%nat.
Proof. induction l as [|b l IH]; [done|]. cbn [hexdigest String.length List.length]. rewrite IH. lia. Qed.

Definition is_byte (b : Z) : Prop := 0 <= b < 256.

Lemma hex_char_inj a b : 0 <= a < 16 -> 0 <= b < 16 -> hex_char a = hex_char b -> a = b.
Proof.
  intros Ha Hb. assert (Hc : forall n, 0 <= n < 16 -> N_of_ascii (hex_char n) = Z.to_N (if n <? 10 then 48 + n else 87 + n)).
  { intros n Hn. unfold hex_char. rewrite N_ascii_embedding; [done|]. destruct (Z.ltb_spec n 10); lia. }
  intros E. apply (f_equal N_of_ascii) in E. rewrite !Hc in E by done.
  destruct (Z.ltb_spec a 10), (Z.ltb_spec b 10); lia.
Qed.

Lemma hexdigest_inj l k : Forall is_byte l -> Forall is_byte k -> hexdigest l = hexdigest k -> l = k.
Proof.
  revert k. induction l as [|a l IH]; intros [|b k] Hl Hk; try done.
  apply Forall_cons in Hl as [Ha Hl], Hk as [Hb Hk]. unfold is_byte in *. cbn [hexdigest]. intros E.
  injection E as E1 E2 E3.
  apply hex_char_inj in E1; [|split; [apply Z.div_pos; lia|apply Z.div_lt_upper_bound; lia]..].
  apply hex_char_inj in E2; [|by apply Z.mod_pos_bound..].
  f_equal; [|by apply IH]. rewrite (Z.div_mod a 16), (Z.div_mod b 16) by lia. lia.
Qed.

Lemma be_bytes_bytes n x : Forall is_byte (be_bytes n x).
Proof.
  revert x. induction n as [|n IH]; intros x; cbn [be_bytes]; [constructor|]. constructor; [|apply IH].
  unfold is_byte. change 255 with (Z.ones 8). rewrite Z.land_ones by lia. by apply Z.mod_pos_bound.
Qed.

Lemma sha256_bytes msg : Forall is_byte (sha256 msg).
Proof.
  unfold sha256. cbv zeta. generalize (fold_left sha256_block (chunks (List.length (pad_block msg)) 64 (pad_block msg)) sha256_H).
  intros l. induction l as [|x l IH]; cbn [map concat]; [constructor|]. apply Forall_app. split; [apply be_bytes_bytes|done].
Qed.

Lemma utf8_inj s t : utf8 s = utf8 t -> s = t.
Proof.
  assert (Hr : forall c, 0 <= Z.of_N (cp c) < 256).
  { intros c. pose proof (N_ascii_bounded c). unfold cp. lia. }
  revert t. induction s as [|c s IH]; intros [|d t]; cbn [utf8].
  - done.
  - by destruct (Z.of_N (cp d) <? 128).
  - by destruct (Z.of_N (cp c) <? 128).
  - pose proof (Hr c) as Hc. pose proof (Hr d) as Hd.
    destruct (Z.ltb_spec (Z.of_N (cp c)) 128), (Z.ltb_spec (Z.of_N (cp d)) 128); cbn [app]; intros E; injection E.
    + intros E1%IH E2. f_equal; [|done]. apply cp_inj. lia.
    + intros _ E2. assert (0 <= Z.of_N (cp d) / 64) by (apply Z.div_pos; lia). lia.
    + intros _ E2. assert (0 <= Z.of_N (cp c) / 64) by (apply Z.div_pos; lia). lia.
    + intros E1%IH E2 E3. f_equal; [|done]. apply cp_inj, N2Z.inj.
      rewrite (Z.div_mod (Z.of_N (cp c)) 64), (Z.div_mod (Z.of_N (cp d)) 64) by lia. lia.
Qed.

Example sha1_abc : hexdigest (sha1 (utf8 "abc")) = "a9993e364706816aba3e25717850c26c9cd0d89d"%string.
Proof. vm_compute. reflexivity. Qed.
Example sha256_abc : hexdigest (sha256 (utf8 "abc")) =
  "ba7816bf8f01cfea414140de5dae2223b00361a396177a9cb410ff61f20015ad"%string.
Proof. vm_compute. reflexivity. Qed.
Example sha256_two_blocks :
  hexdigest (sha256 (utf8 "abcdbcdecdefdefgefghfghighijhijkijkljklmklmnlmnomnopnopq")) =
  "248d6a61d20638b8e5c026930c3e6039a33ce45964ff2167f6ecedd419db06c1"%string.
Proof. vm_compute. reflexivity. Qed.
Example hmac_sha1_rfc2202 : hexdigest (hmac sha1 (utf8 "Jefe") (utf8 "what do ya want for nothing?")) =
  "effcdf6ae5eb2fa2d27416d5f184df9c259a7c79"%string.
Proof. vm_compute. reflexivity. Qed.

(** ** Base 32 *)

(** A character of the alphabet A-Z2-7. *)
Definition b32_val (c : ascii) : option Z :=
  let n := Z.of_N (cp c) in
  if (65 <=? n) && (n <=? 90) then Some (n - 65)
  else if (50 <=? n) && (n <=? 55) then Some (n - 24) else None.

Fixpoint b32_digits (s : string) : option (list Z) :=
  match s with
  | EmptyString => Some []
  | String c s' => match b32_val c, b32_digits s' with Some v, Some l => Some (v :: l) | _, _ => None end
  end.

(** The bytes of groups of eight digits, the last one short: 2, 4, 5 or 7
    digits hold 1, 2, 3 or 4 bytes and the spare low bits are dropped. *)
Definition b32_group (ds : list Z) : list Z :=
  let full := (ds ++ repeat 0 (8 - List.length ds))%list in
  let v := fold_left (fun acc d => acc * 32 + d) full 0 in
  let n := match List.length ds with 2%nat => 1%nat | 4%nat => 2%nat | 5%nat => 3%nat | 7%nat => 4%nat | _ => 5%nat end in
  firstn n (be_bytes 5 v).

(** The number of digits in a final group that the padding rules allow. *)
Definition b32_tail_ok (n : nat) : bool :=
  match (n mod 8)%nat with 0%nat | 2%nat | 4%nat | 5%nat | 7%nat => true | _ => false end.

(** [base64.b32decode] of [s] padded to a multiple of eight with ['=']. *)
Definition b32decode_padded (s : string) : option (list Z) :=
  match b32_digits s with
  | Some ds => if b32_tail_ok (List.length ds)
               then Some (concat (map b32_group (chunks (List.length ds) 8 ds))) else None
  | None => None
  end.

Example b32_rfc : b32decode_padded "GEZDGNBVGY3TQOJQ" = Some (utf8 "1234567890").
Proof. vm_compute. reflexivity. Qed.
