(* ===== verification/AuditChain.v ===== *)
(** The tamper-evident audit chain ([src/src/ccf/api/audit.py] and the verifier
    of [src/src/ccf/api/routes/audit.py]).

    A row's hash covers its content and the previous row's hash. The chain is
    one global list in id order; appending reads the head and inserts, so
    appends are serialized by a lock a transaction holds until it ends. The
    statements of concurrent transactions are the operations of [audit_step];
    [spec_step] is the same history without hashes, ids or lock.

    The hash is taken of the event as the program has it; the verifier hashes
    what the table gives back, and the [diff] column is JSONB. What PostgreSQL
    makes of a document is the parameter [jsonb] ([None]: it refuses it); a row
    holds what the insert was given, [read_row] is what a SELECT returns, and an
    insert the columns refuse is an event lost. Savepoints are left out: an
    event recorded in one that is rolled back is a transaction of its own. *)

From S2P Require Export Json Hash.

Local Open Scope string_scope.
Local Open Scope Z_scope.

(** ** Content *)

Definition MUTATING : list string := ["POST"; "PUT"; "PATCH"; "DELETE"].
Definition ACTION : list (string * string) :=
  [("POST", "create"); ("PUT", "update"); ("PATCH", "update"); ("DELETE", "delete")].
Definition SKIP_PREFIXES : list string :=
  ["/metrics"; "/healthz"; "/readyz"; "/livez"; "/static"; "/api/audit"].
Definition REDACT : list string :=
  ["password"; "token"; "secret"; "api_token"; "key"; "credential"; "private"].
Definition GENESIS : string := zeros 64.
Definition MAX_BODY : Z := 8192.

Definition is_sensitive (k : string) : bool := existsb (fun s => str_contains s (lower k)) REDACT.

Fixpoint redact (v : pyval) : pyval :=
  match v with
  | VDict d => VDict (map (fun kv => (kv.1, if is_sensitive kv.1 then VStr "***" else redact kv.2)) d)
  | VList l => VList (map redact l)
  | _ => v
  end.

(** ["/".strip] on both ends. *)
Definition strip_char (c : ascii) (s : string) : string :=
  drop_end (fun d => bool_decide (d = c)) (drop_while (fun d => bool_decide (d = c)) s).

Definition is_id (p : string) : bool := str_truthy p && str_forallb is_digit p.

Definition entity (path : string) : string * option string :=
  let parts := filter (fun p => str_truthy p = true) (split_on "/"%char (strip_char "/"%char path)) in
  let parts := match parts with "api" :: rest => rest | _ => parts end in
  (match parts with p :: _ => p | [] => "root" end, List.find is_id (tail parts)).

Definition newline : string := String (ascii_of_nat 10) "".

Definition row_hash (prev_hash : string) (payload : pyval) : string :=
  hexdigest (sha256 (utf8 (prev_hash +:+ newline +:+ json_dumps payload))).

(** ** Rows *)

Record Content := {
  ct_actor : option string;
  ct_action : string;
  ct_entity_type : string;
  ct_entity_id : option string;
  ct_diff : pyval }.

Record AuditLog := {
  al_id : Z;
  al_organization_id : option Z;
  al_content : Content;
  al_prev_hash : option string;
  al_row_hash : option string }.

Definition opt_val (o : option string) : pyval := match o with Some s => VStr s | None => VNone end.

(** The dict that is hashed. *)
Definition payload_of (c : Content) : pyval :=
  VDict [("actor", opt_val (ct_actor c)); ("action", VStr (ct_action c));
         ("entity_type", VStr (ct_entity_type c)); ("entity_id", opt_val (ct_entity_id c));
         ("diff", ct_diff c)].

(** [(select(row_hash).order_by(id.desc()).limit(1)).scalar_one_or_none() or _GENESIS] *)
Definition chain_head (rows : list AuditLog) : string :=
  match latest_of (fun a b => al_id b <? al_id a) rows with
  | Some r => str_or (or_empty (al_row_hash r)) GENESIS
  | None => GENESIS
  end.

(** The row inserted after the rows the transaction sees, holding what the insert is
    given; what a SELECT then returns for it is [read_row]. *)
Definition next_row (id : Z) (organization_id : option Z) (c : Content) (visible : list AuditLog) : AuditLog :=
  let prev := chain_head visible in
  {| al_id := id; al_organization_id := organization_id; al_content := c;
     al_prev_hash := Some prev; al_row_hash := Some (row_hash prev (payload_of c)) |}.

(** ** Verification *)

Record VerifyReport := { vr_ok : bool; vr_broken_at_id : option Z; vr_checked : Z; vr_total : Z }.

Fixpoint verify_loop (total : Z) (prev : string) (checked : Z) (rows : list AuditLog) : VerifyReport :=
  match rows with
  | [] => {| vr_ok := true; vr_broken_at_id := None; vr_checked := checked; vr_total := total |}
  | r :: rest =>
      match al_row_hash r with
      | None => verify_loop total prev checked rest
      | Some h =>
          let expected := row_hash (str_or (or_empty (al_prev_hash r)) GENESIS) (payload_of (al_content r)) in
          if bool_decide (al_prev_hash r <> Some prev) || bool_decide (h <> expected)
          then {| vr_ok := false; vr_broken_at_id := Some (al_id r); vr_checked := checked; vr_total := total |}
          else verify_loop total h (checked + 1) rest
      end
  end.

Definition id_le (a b : AuditLog) : Prop := al_id a <= al_id b.
#[export] Instance id_le_dec a b : Decision (id_le a b).
Proof. unfold id_le. apply _. Defined.
#[export] Instance id_le_total : Total id_le.
Proof. intros a b. unfold id_le. lia. Qed.
#[export] Instance id_le_trans : Transitive id_le.
Proof. intros a b c. unfold id_le. lia. Qed.

Definition verify_chain (rows : list AuditLog) : VerifyReport :=
  verify_loop (Z.of_nat (List.length rows)) GENESIS 0 (merge_sort id_le rows).

(** ** Storing *)

(** The columns of [AuditLog]: [String(n)] refuses a longer text, and no text
    column takes a NUL. *)
Definition fits (width : nat) (s : string) : bool :=
  (String.length s <=? width)%nat && str_forallb (fun c => negb (bool_decide (c = ascii_of_nat 0))) s.

Definition fits_opt (width : nat) (o : option string) : bool :=
  match o with Some s => fits width s | None => true end.

Section Storing.
Variable jsonb : pyval -> option pyval.

Definition insertable (c : Content) : bool :=
  fits_opt 255 (ct_actor c) && fits 64 (ct_action c) && fits 64 (ct_entity_type c) &&
  fits_opt 64 (ct_entity_id c) && match jsonb (ct_diff c) with Some _ => true | None => false end.

(** The content a SELECT returns. *)
Definition read_content (c : Content) : Content :=
  {| ct_actor := ct_actor c; ct_action := ct_action c; ct_entity_type := ct_entity_type c;
     ct_entity_id := ct_entity_id c; ct_diff := default (ct_diff c) (jsonb (ct_diff c)) |}.

Definition read_row (r : AuditLog) : AuditLog :=
  {| al_id := al_id r; al_organization_id := al_organization_id r; al_content := read_content (al_content r);
     al_prev_hash := al_prev_hash r; al_row_hash := al_row_hash r |}.

(** It comes back as the text that was hashed. *)
Definition faithful (c : Content) : Prop :=
  json_dumps (payload_of (read_content c)) = json_dumps (payload_of c).
#[export] Instance faithful_dec c : Decision (faithful c).
Proof. unfold faithful. apply _. Defined.
End Storing.

(** ** Appending *)

(** [record_event]: what it is given, and the row content it makes of it. *)
Record Event := {
  ev_organization_id : option Z;
  ev_actor : string; ev_action : string; ev_entity_type : string;
  ev_entity_id : option string; ev_diff : pyval }.

Definition event_content (e : Event) : Content :=
  {| ct_actor := Some (ev_actor e); ct_action := ev_action e; ct_entity_type := ev_entity_type e;
     ct_entity_id := ev_entity_id e; ct_diff := redact (ev_diff e) |}.

(** The committed table, the id sequence, the holder of the chain lock, and the
    rows transactions have inserted and not committed. *)
Record AuditState := {
  au_rows : list AuditLog;
  au_next_id : Z;
  au_lock : option Z;
  au_pending : list (Z * AuditLog) }.

Definition empty_audit : AuditState :=
  {| au_rows := []; au_next_id := 1; au_lock := None; au_pending := [] |}.

Definition own_rows (tx : Z) (pending : list (Z * AuditLog)) : list AuditLog :=
  map snd (filter (fun p => p.1 = tx) pending).

(** The rows a transaction sees: the committed ones and its own. *)
Definition visible (tx : Z) (st : AuditState) : list AuditLog := (au_rows st ++ own_rows tx (au_pending st))%list.

(** [_lock_chain]: waits, here is not enabled, while another transaction holds it. *)
Definition may_lock (tx : Z) (st : AuditState) : bool :=
  match au_lock st with None => true | Some t => t =? tx end.

Definition append (tx : Z) (organization_id : option Z) (c : Content) (st : AuditState) : AuditState :=
  {| au_rows := au_rows st; au_next_id := au_next_id st + 1; au_lock := Some tx;
     au_pending := (au_pending st ++ [(tx, next_row (au_next_id st) organization_id c (visible tx st))])%list |}.

(** The lock is released when its holder's transaction ends. *)
Definition release (tx : Z) (lock : option Z) : option Z :=
  match lock with Some t => if t =? tx then None else Some t | None => None end.

Definition commit (tx : Z) (st : AuditState) : AuditState :=
  {| au_rows := (au_rows st ++ own_rows tx (au_pending st))%list; au_next_id := au_next_id st;
     au_lock := release tx (au_lock st);
     au_pending := filter (fun p => p.1 <> tx) (au_pending st) |}.

Definition rollback (tx : Z) (st : AuditState) : AuditState :=
  {| au_rows := au_rows st; au_next_id := au_next_id st; au_lock := release tx (au_lock st);
     au_pending := filter (fun p => p.1 <> tx) (au_pending st) |}.

Section Appending.
Variable jsonb : pyval -> option pyval.

(** A flush the database refuses rolls the session's transaction back. *)
Definition record_event (tx : Z) (e : Event) (st : AuditState) : option AuditState :=
  if may_lock tx st then
    Some (if insertable jsonb (event_content e)
          then append tx (ev_organization_id e) (event_content e) st else rollback tx st)
  else None.
End Appending.

(** ** The middleware *)

Record Principal := { pr_email : string; pr_user_id : option Z; pr_org_id : option Z }.

(** [rq_json] is the parsed body, absent when there is none or it does not parse. *)
Record Request := {
  rq_method : string;
  rq_path : string;
  rq_content_type : string;
  rq_body_length : Z;
  rq_json : option pyval;
  rq_x_actor : option string;
  rq_principal : option Principal;
  rq_audit_recorded : bool }.

Definition capture_body (rq : Request) (method : string) : option pyval :=
  if negb (mem method MUTATING) then None
  else if negb (startswith "application/json" (rq_content_type rq)) then None
  else if (rq_body_length rq =? 0) || (MAX_BODY <? rq_body_length rq) then None
  else redact <$> rq_json rq.

Definition skipped (path : string) : bool := existsb (fun p => startswith p path) SKIP_PREFIXES.

Definition signed_in (rq : Request) : option Principal :=
  match rq_principal rq with
  | Some p => match pr_user_id p with Some _ => Some p | None => None end
  | None => None
  end.

(** The event a request leaves behind, if any, given the response's status. *)
Definition request_content (default_actor : string) (rq : Request) (status : Z) : option (option Z * Content) :=
  let method := upper (rq_method rq) in
  let path := rq_path rq in
  let body := if mem method MUTATING && negb (skipped path) then capture_body rq method else None in
  if negb (mem method MUTATING && (200 <=? status) && (status <? 400) && negb (skipped path)) then None
  else if rq_audit_recorded rq then None
  else
    let actor := str_or (or_empty (pr_email <$> signed_in rq)) (str_or (or_empty (rq_x_actor rq)) default_actor) in
    let '(entity_type, entity_id) := entity path in
    let diff := ([("method", VStr method); ("path", VStr path); ("status", VInt status)] ++
                 match body with Some VNone | None => [] | Some v => [("body", v)] end)%list in
    Some (match signed_in rq with Some p => pr_org_id p | None => None end,
          {| ct_actor := Some actor; ct_action := default (lower method) (dget method ACTION);
             ct_entity_type := entity_type; ct_entity_id := entity_id; ct_diff := VDict diff |}).

Section Middleware.
Variable jsonb : pyval -> option pyval.

(** It appends in a transaction of its own; the request is marked before. Any
    exception on the way, a refused insert or a database that does not answer
    ([up] false), is logged and swallowed: the event is lost. *)
Definition audit_middleware (default_actor : string) (tx : Z) (rq : Request) (status : Z) (up : bool) (st : AuditState)
    : option AuditState :=
  match request_content default_actor rq status with
  | None => Some st
  | Some (org, c) =>
      if may_lock tx st then
        Some (if up && insertable jsonb c then commit tx (append tx org c st) else rollback tx st)
      else None
  end.

(** ** Transactions side by side *)

(** [SkipNumber]: an insert that failed may have used a number of the sequence. *)
Inductive AuditOp :=
| RecordEvent (tx : Z) (e : Event)
| HandleRequest (tx : Z) (default_actor : string) (rq : Request) (status : Z) (up : bool)
| Commit (tx : Z)
| Rollback (tx : Z)
| SkipNumber.

Definition audit_step (st : AuditState) (op : AuditOp) : option AuditState :=
  match op with
  | RecordEvent tx e => record_event jsonb tx e st
  | HandleRequest tx d rq s up => audit_middleware d tx rq s up st
  | Commit tx => Some (commit tx st)
  | Rollback tx => Some (rollback tx st)
  | SkipNumber =>
      Some {| au_rows := au_rows st; au_next_id := au_next_id st + 1; au_lock := au_lock st;
              au_pending := au_pending st |}
  end.

(** The states after a sequence of operations; an operation that has to wait
    is not taken. *)
Definition audit_run (st : AuditState) (ops : list AuditOp) : option AuditState :=
  foldl (fun acc op => acc ≫= fun st => audit_step st op) (Some st) ops.

(** What [GET /api/audit/verify] answers in a state. *)
Definition verify_state (st : AuditState) : VerifyReport := verify_chain (map (read_row jsonb) (au_rows st)).
End Middleware.







(** ** Linked rows *)

Definition row_message (r : AuditLog) (prev : string) : string :=
  prev +:+ newline +:+ json_dumps (payload_of (al_content r)).
Definition hash_of (r : AuditLog) (prev : string) : string := row_hash prev (payload_of (al_content r)).

Fixpoint linked (prev : string) (rows : list AuditLog) : Prop :=
  match rows with
  | [] => True
  | r :: rest => al_prev_hash r = Some prev /\ al_row_hash r = Some (hash_of r prev) /\ linked (hash_of r prev) rest
  end.

(** The hash the row after [rows] is linked to. *)
Definition last_hash (prev : string) (rows : list AuditLog) : string :=
  foldl (fun h r => default h (al_row_hash r)) prev rows.

Lemma row_hash_nonempty p v : row_hash p v <> "".
Proof.
  intros H. apply (f_equal String.length) in H. unfold row_hash in H.
  by rewrite hexdigest_length, sha256_length in H.
Qed.

Lemma str_or_left a b : a <> "" -> str_or a b = a.
Proof. intros H. unfold str_or, str_truthy. by rewrite bool_decide_eq_true_2. Qed.

Lemma linked_app prev l k : linked prev (l ++ k) <-> linked prev l /\ linked (last_hash prev l) k.
Proof.
  revert prev. induction l as [|r l IH]; intros prev; [by split; [|intros [_ ?]]|]. cbn [app linked].
  rewrite IH. unfold last_hash. cbn [foldl]. split.
  - intros (H1 & H2 & H3 & H4). rewrite H2. auto.
  - intros [(H1 & H2 & H3) H4]. rewrite H2 in H4. auto.
Qed.

Lemma last_hash_snoc prev l r : last_hash prev (l ++ [r]) = default (last_hash prev l) (al_row_hash r).
Proof. unfold last_hash. by rewrite foldl_app. Qed.

Lemma linked_hashed prev l : linked prev l -> forall r, r ∈ l -> al_row_hash r <> None.
Proof.
  revert prev. induction l as [|r l IH]; intros prev; [by intros _ ? ?%not_elem_of_nil|].
  intros (_ & H2 & H3) x [ ->|Hx]%elem_of_cons; [congruence|]. by eapply IH.
Qed.

Lemma last_hash_nonempty prev l : prev <> "" -> linked prev l -> last_hash prev l <> "".
Proof.
  intros Hp. induction l as [|r l _] using rev_ind; [done|]. rewrite linked_app, last_hash_snoc.
  intros (_ & _ & -> & _). apply row_hash_nonempty.
Qed.

Definition has_hash (r : AuditLog) : Prop := al_row_hash r <> None.
#[export] Instance has_hash_dec r : Decision (has_hash r).
Proof. unfold has_hash. apply _. Defined.


(** The verifier accepts exactly the tables whose hashed rows are linked. *)
Lemma verify_loop_spec total prev n rows :
  prev <> "" ->
  vr_ok (verify_loop total prev n rows) = true <-> linked prev (filter has_hash rows).
Proof.
  revert prev n. induction rows as [|r rows IH]; intros prev n Hp; [done|]. cbn [verify_loop].
  destruct (al_row_hash r) as [h|] eqn:E.
  - rewrite filter_cons_True by (unfold has_hash; congruence). cbn [linked]. fold (hash_of r).
    destruct (decide (al_prev_hash r = Some prev)) as [Ep|Ep].
    + rewrite (bool_decide_eq_false_2 (al_prev_hash r <> Some prev)) by tauto. rewrite Ep. cbn [or_empty default from_option id].
      rewrite str_or_left by done. fold (hash_of r prev).
      destruct (decide (h = hash_of r prev)) as [ ->|Eh].
      * rewrite bool_decide_eq_false_2 by tauto. cbn [orb]. rewrite IH by apply row_hash_nonempty. rewrite E. tauto.
      * rewrite bool_decide_eq_true_2 by done. cbn. split; [done|]. intros (_ & [= ?] & _). congruence.
    + rewrite bool_decide_eq_true_2 by done. cbn. split; [done|]. by intros (? & _).
  - rewrite filter_cons_False by (unfold has_hash; tauto). by apply IH.
Qed.


(** A report names the first row that does not fit what precedes it. *)
Lemma verify_loop_broken total prev n l r k :
  prev <> "" -> linked prev l -> al_prev_hash r = Some (last_hash prev l) ->
  al_row_hash r <> None -> al_row_hash r <> Some (hash_of r (last_hash prev l)) ->
  verify_loop total prev n (l ++ r :: k) =
    {| vr_ok := false; vr_broken_at_id := Some (al_id r); vr_checked := n + Z.of_nat (List.length l); vr_total := total |}.
Proof.
  revert prev n. induction l as [|x l IH]; intros prev n Hp Hl Hr Hs Hh; cbn [app verify_loop].
  - cbn in Hr, Hh. destruct (al_row_hash r) as [h|]; [|done]. rewrite Hr. cbn [or_empty default from_option id].
    rewrite str_or_left by done. fold (hash_of r prev).
    rewrite (bool_decide_eq_true_2 (h <> _)), orb_true_r by congruence. f_equal. cbn. lia.
  - destruct Hl as (E1 & E2 & H). unfold last_hash in Hr, Hh. cbn [foldl] in Hr, Hh. rewrite E2 in *. rewrite E1.
    cbn [or_empty default from_option id] in *. rewrite str_or_left by done.
    rewrite !bool_decide_eq_false_2 by tauto. cbn [orb]. rewrite IH; try done; [|apply row_hash_nonempty].
    f_equal. cbn [List.length]. lia.
Qed.

(** ** The invariant of concurrent transactions *)











Section Runs.
Context (jsonb : pyval -> option pyval).


(** ** The chain implements the history *)







End Runs.


(** ** Two tables the verifier accepts *)

Lemma app_newline_inj p q c d :
  str_forallb printable c = true -> str_forallb printable d = true ->
  p +:+ newline +:+ c = q +:+ newline +:+ d -> p = q /\ c = d.
Proof.
  assert (Hn : forall e a b, str_forallb printable e = true -> e <> a +:+ String (ascii_of_nat 10) b).
  { intros e a b He ->. rewrite str_forallb_app in He. apply andb_true_iff in He as [_ He]. done. }
  intros Hc Hd. unfold newline. revert q. induction p as [|a p IH]; intros [|b q]; str_simp; intros E.
  - by injection E.
  - injection E as _ E. by apply Hn in E.
  - injection E as _ E. symmetry in E. by apply Hn in E.
  - injection E as -> E. destruct (IH q) as [-> ->]; [by str_simp|done].
Qed.

(** The same event: the same fields, the diffs equal up to the order of keys. *)
Definition same_content (c d : Content) : Prop :=
  ct_actor c = ct_actor d /\ ct_action c = ct_action d /\ ct_entity_type c = ct_entity_type d /\
  ct_entity_id c = ct_entity_id d /\ sort_keys (ct_diff c) = sort_keys (ct_diff d).

Definition plain (r : AuditLog) : Prop := float_free (ct_diff (al_content r)) = true.

Lemma sort_payload c : sort_keys (payload_of c) =
  VDict [("action", VStr (ct_action c)); ("actor", opt_val (ct_actor c)); ("diff", sort_keys (ct_diff c));
         ("entity_id", opt_val (ct_entity_id c)); ("entity_type", VStr (ct_entity_type c))].
Proof.
  unfold payload_of. cbn [sort_keys map fst snd].
  assert (forall o, sort_keys (opt_val o) = opt_val o) as Ho by (by intros []). rewrite !Ho.
  generalize (sort_keys (ct_diff c)), (opt_val (ct_actor c)), (opt_val (ct_entity_id c)), (ct_action c), (ct_entity_type c).
  intros. reflexivity.
Qed.

Lemma payload_float_free c : float_free (payload_of c) = float_free (ct_diff c).
Proof.
  unfold payload_of. cbn [float_free forallb snd]. destruct (ct_actor c), (ct_entity_id c); cbn; by rewrite andb_true_r.
Qed.

Lemma opt_val_inj a b : opt_val a = opt_val b -> a = b.
Proof. destruct a, b; cbn; congruence. Qed.

Lemma message_inj r p r' p' :
  plain r -> plain r' -> row_message r p = row_message r' p' -> p = p' /\ same_content (al_content r) (al_content r').
Proof.
  unfold plain, row_message. intros Hr Hr' E.
  apply app_newline_inj in E as [-> E]; [|apply json_dumps_printable; by rewrite payload_float_free..].
  split; [done|]. apply json_dumps_inj in E; [|by rewrite payload_float_free..].
  rewrite !sort_payload in E. injection E as E1 E2 E3 E4 E5.
  split; [by apply opt_val_inj|]. split; [done|]. split; [done|]. split; [by apply opt_val_inj|done].
Qed.

(** Two messages with one digest. *)
Definition collision (m m' : string) : Prop := m <> m' /\ sha256 (utf8 m) = sha256 (utf8 m').

Lemma hash_eq r p r' p' : hash_of r p = hash_of r' p' ->
  row_message r p = row_message r' p' \/ collision (row_message r p) (row_message r' p').
Proof.
  intros E%hexdigest_inj; [|apply sha256_bytes..].
  destruct (decide (row_message r p = row_message r' p')) as [Em|Em]; [by left|right]. split; [done|exact E].
Qed.

(** The message of each row of a linked table. *)
Fixpoint messages (prev : string) (rows : list AuditLog) : list string :=
  match rows with [] => [] | r :: rest => row_message r prev :: messages (hash_of r prev) rest end.

Lemma messages_app prev l k : linked prev l -> messages prev (l ++ k) = (messages prev l ++ messages (last_hash prev l) k)%list.
Proof.
  revert prev. induction l as [|r l IH]; intros prev; [done|]. intros (_ & E & H). cbn [app messages].
  rewrite IH by done. unfold last_hash. cbn [foldl]. by rewrite E.
Qed.

Lemma messages_length prev l : List.length (messages prev l) = List.length l.
Proof. revert prev. induction l as [|r l IH]; intros prev; cbn; [done|]. by rewrite IH. Qed.

(** At some position the two tables hold different messages of one digest. *)
Definition collide (l l' : list AuditLog) : Prop :=
  exists i m m', messages GENESIS l !! i = Some m /\ messages GENESIS l' !! i = Some m' /\ collision m m'.

Lemma linked_agree l l' :
  linked GENESIS l -> linked GENESIS l' -> List.length l = List.length l' ->
  Forall plain l -> Forall plain l' -> last_hash GENESIS l = last_hash GENESIS l' ->
  Forall2 (fun r r' => same_content (al_content r) (al_content r')) l l' \/ collide l l'.
Proof.
  revert l'. induction l as [|r l IH] using rev_ind; intros l'.
  - destruct l'; [|done]. left. constructor.
  - destruct l' as [|r' l' _] using rev_ind; [rewrite length_app; cbn; lia|].
    rewrite !length_app, !linked_app, !Forall_app, !last_hash_snoc. cbn [linked].
    intros (Hl & _ & E & _) (Hl' & _ & E' & _) Hlen (Pl & Pr) (Pl' & Pr') Hh.
    rewrite E, E' in Hh. cbn [default from_option id] in Hh. cbn [List.length] in Hlen.
    apply Forall_cons in Pr as [Pr _], Pr' as [Pr' _].
    destruct (hash_eq _ _ _ _ Hh) as [Em|Hc].
    + destruct (message_inj _ _ _ _ Pr Pr' Em) as [Ep Hs].
      destruct (IH l' Hl Hl' ltac:(lia) Pl Pl' Ep) as [HF|(i & m & m' & H1 & H2 & H3)].
      * left. apply Forall2_app; [done|by constructor].
      * right. exists i, m, m'. rewrite !messages_app by done. split; [|split; [|done]]; by apply lookup_app_l_Some.
    + right. exists (List.length l), (row_message r (last_hash GENESIS l)), (row_message r' (last_hash GENESIS l')).
      rewrite !messages_app by done. split; [|split; [|done]]; cbn [messages].
      * apply list_lookup_middle. by rewrite messages_length.
      * apply list_lookup_middle. rewrite messages_length. lia.
Qed.

(** The rows the verifier reads, in its order. *)
Definition chained (rows : list AuditLog) : list AuditLog := filter has_hash (merge_sort id_le rows).

Lemma verify_chain_linked rows : vr_ok (verify_chain rows) = true <-> linked GENESIS (chained rows).
Proof. unfold verify_chain, chained. by apply verify_loop_spec. Qed.

Lemma verify_loop_checked total prev n rows :
  vr_ok (verify_loop total prev n rows) = true ->
  vr_checked (verify_loop total prev n rows) = n + Z.of_nat (List.length (filter has_hash rows)).
Proof.
  revert prev n. induction rows as [|r rows IH]; intros prev n; cbn [verify_loop]; [cbn; lia|].
  destruct (al_row_hash r) as [h|] eqn:E.
  - rewrite filter_cons_True by (unfold has_hash; congruence). case_match; [done|].
    intros Hok. rewrite IH by done. cbn [List.length]. lia.
  - rewrite filter_cons_False by (unfold has_hash; tauto). apply IH.
Qed.

(** ** Redaction *)







(** ** Verifying what the table gives back *)

Section Reading.
Context (jsonb : pyval -> option pyval).
Notation read := (map (read_row jsonb)).









End Reading.

(** ** Properties *)


(** PostgreSQL's reading of a document, key order apart: a NUL is refused; a
    number is a numeric, so a float printed with a positive exponent comes back
    as the integer its digits say, and minus zero as zero. *)
Fixpoint demo_jsonb (v : pyval) : option pyval :=
  match v with
  | VStr s => if str_forallb (fun c => negb (bool_decide (c = ascii_of_nat 0))) s then Some v else None
  | VFloat x =>
      let '(m, e) := shortest_dec (Z.abs (fl_num x)) (fl_den x) 17 1 in
      if 10 ^ 16 * fl_den x <=? Z.abs (fl_num x) then Some (VInt (Z.sgn (fl_num x) * m * 10 ^ e)) else Some v
  | VList l => VList <$> mapM demo_jsonb l
  | VDict d => VDict <$> mapM (fun kv => pair kv.1 <$> demo_jsonb kv.2) d
  | _ => Some v
  end.


Definition demo_event (actor entity : string) (org : Z) : Event :=
  {| ev_organization_id := Some org; ev_actor := actor; ev_action := "update"; ev_entity_type := "user";
     ev_entity_id := Some entity; ev_diff := VDict [("api_token", VStr "s3cret"); ("role", VStr "admin")] |}.

(** A request body with one number. *)
Definition demo_request (entity : string) (x : float) : Request :=
  {| rq_method := "post"; rq_path := "/api/" +:+ entity; rq_content_type := "application/json"; rq_body_length := 12;
     rq_json := Some (VDict [("n", VFloat x)]); rq_x_actor := None; rq_principal := None; rq_audit_recorded := false |}.



(** A body that says [1e16] was hashed as [1e+16] and reads back as
    [10000000000000000]: the untouched chain is reported as broken there. *)
Example large_number_breaks_the_chain :
  let ops := [RecordEvent 2 (demo_event "bob" "9" 2); Commit 2;
              HandleRequest 3 "system" (demo_request "risks" (fl_of_Z (10 ^ 16))) 201 true] in
  (verify_state demo_jsonb <$> audit_run demo_jsonb empty_audit ops) =
    Some {| vr_ok := false; vr_broken_at_id := Some 2; vr_checked := 1; vr_total := 2 |}.
Proof. vm_compute. reflexivity. Qed.

(** tampering is found. Two tables the verifier accepts with the same count
    and the same last hash hold the same events, unless two of their messages at
    one position are a collision of SHA-256; a row edited in place is reported
    by its id, with the rows before it counted, unless the edit is a collision;
    but the newest rows can be deleted and the rest still verifies. *)
Theorem tampering_is_found :
  (forall rows rows',
     Forall plain rows -> Forall plain rows' ->
     vr_ok (verify_chain rows) = true -> vr_ok (verify_chain rows') = true ->
     vr_checked (verify_chain rows) = vr_checked (verify_chain rows') ->
     last_hash GENESIS (chained rows) = last_hash GENESIS (chained rows') ->
     Forall2 (fun r r' => same_content (al_content r) (al_content r')) (chained rows) (chained rows') \/
     collide (chained rows) (chained rows')) /\
  (forall a r b r',
     increasing al_id (a ++ r :: b) -> Forall has_hash (a ++ r :: b) -> plain r -> plain r' ->
     vr_ok (verify_chain (a ++ r :: b)) = true ->
     al_id r' = al_id r -> al_prev_hash r' = al_prev_hash r -> al_row_hash r' = al_row_hash r ->
     ~ same_content (al_content r) (al_content r') ->
     verify_chain (a ++ r' :: b) =
       {| vr_ok := false; vr_broken_at_id := Some (al_id r); vr_checked := Z.of_nat (List.length a);
          vr_total := Z.of_nat (List.length (a ++ r :: b)) |} \/
     collision (row_message r (last_hash GENESIS a)) (row_message r' (last_hash GENESIS a))) /\
  (forall a b, increasing al_id (a ++ b) -> vr_ok (verify_chain (a ++ b)) = true -> vr_ok (verify_chain a) = true).
Proof.
  split; [|split].
  - intros rows rows' P P' V V' Hn Hh. pose proof V as L. pose proof V' as L'.
    rewrite verify_chain_linked in L, L'. apply linked_agree; try done.
    + unfold verify_chain in Hn. rewrite !verify_loop_checked in Hn by done. unfold chained. lia.
    + unfold chained. apply Forall_filter. by rewrite merge_sort_Permutation.
    + unfold chained. apply Forall_filter. by rewrite merge_sort_Permutation.
  - intros a r b r' Hi Hh P P' V Eid Ep Er Hns.
    assert (Hs : forall x, al_id x = al_id r -> merge_sort id_le (a ++ x :: b) = (a ++ x :: b)%list).
    { intros x Ex. apply (sorted_by_unique al_id); [|apply (StronglySorted_merge_sort id_le)|apply merge_sort_Permutation].
      apply increasing_app in Hi as (H1 & H2 & H3). apply increasing_app. split; [done|].
      apply StronglySorted_inv in H2 as [H2 H4]. split.
      - constructor; [done|]. by rewrite Ex.
      - intros y z Hy [ ->|Hz]%elem_of_cons; [rewrite Ex; apply H3; set_solver|apply H3; set_solver]. }
    rewrite verify_chain_linked in V. unfold chained in V. rewrite Hs in V by done.
    rewrite filter_all in V by (by apply Forall_forall).
    apply linked_app in V as [La (E1 & E2 & Lb)].
    destruct (decide (hash_of r (last_hash GENESIS a) = hash_of r' (last_hash GENESIS a))) as [Eh|Eh].
    + right. destruct (hash_eq _ _ _ _ Eh) as [Em|Hc]; [|done]. by destruct (message_inj _ _ _ _ P P' Em).
    + left. unfold verify_chain. rewrite Hs by done. rewrite (verify_loop_broken _ GENESIS 0 a r' b); try done.
      * rewrite Eid, !length_app. done.
      * by rewrite Ep, E1.
      * by rewrite Er, E2.
      * rewrite Er, E2. congruence.
  - intros a b Hi V. rewrite verify_chain_linked in *. unfold chained in *. revert V.
    pose proof Hi as Ha. apply increasing_app in Ha as [Ha _].
    rewrite (sorted_by_unique al_id (a ++ b) (merge_sort id_le (a ++ b))), (sorted_by_unique al_id a (merge_sort id_le a));
      try done; try apply (StronglySorted_merge_sort id_le); try apply merge_sort_Permutation.
    rewrite filter_app. by intros [H _]%linked_app.
Qed.

(** Without the lock, two transactions that read the head before either commits
    fork the chain. *)
Example unlocked_fork :
  let r1 := next_row 1 None (event_content (demo_event "ann" "7" 1)) [] in
  let r2 := next_row 2 None (event_content (demo_event "bob" "9" 2)) [] in
  vr_broken_at_id (verify_chain [r1; r2]) = Some 2.
Proof. vm_compute. reflexivity. Qed.
