(* ===== verification/Mfa.v ===== *)
(** The second factor ([src/src/ccf/mfa.py], [src/src/ccf/identity/mfa_service.py]):
    HOTP and TOTP on the byte primitives of [Hash], recovery codes, and one
    user's enrolment, verification and recovery as a state machine.

    [now] is the clock's float; the envelope cipher's [decrypt] is a parameter
    (its AES-GCM comes from a third-party library), and freshly drawn secrets
    and codes are arguments. *)

From S2P Require Export Hash PyText Tally.

Local Open Scope string_scope.
Local Open Scope Z_scope.

Definition DIGITS : nat := 6.
Definition PERIOD_SECONDS : Z := 30.
Definition DRIFT_STEPS : Z := 1.

Definition is_char (c : ascii) (d : ascii) : bool := bool_decide (d = c).

(** [base64.b32decode(cleaned + "=" * (-len(cleaned) % 8))]: the total number of
    padding characters must be one the encoding produces. *)
Definition decode_secret (secret : string) : res (list Z) :=
  let cleaned := upper (remove_char " "%char (strip secret)) in
  let len := Z.of_nat (String.length cleaned) in
  let body := drop_end (is_char "="%char) cleaned in
  let padchars := (len + (- len) mod 8) - Z.of_nat (String.length body) in
  if negb (str_forallb (fun c => (cp c <? 128)%N) cleaned) then
    Err (ValueError "string argument should contain only ASCII characters")
  else match b32_digits body with
       | None => Err (Exn "binascii.Error" "Non-base32 digit found")
       | Some ds =>
           if negb (mem padchars [0; 1; 3; 4; 6]) then Err (Exn "binascii.Error" "Incorrect padding")
           else Ok (concat (map b32_group (chunks (List.length ds) 8 ds)))
       end.

Definition timestep (now : float) : Z := fl_trunc now / PERIOD_SECONDS.

(** [struct.pack(">Q", counter)] refuses what does not fit in 64 bits. *)
Definition pack_u64 (counter : Z) : res (list Z) :=
  if (0 <=? counter) && (counter <? 2 ^ 64) then Ok (be_bytes 8 counter)
  else Err (Exn "struct.error" "int too large to convert").

Definition truncate_mac (mac : list Z) : Z :=
  let offset := Z.to_nat (Z.land (default 0 (last mac)) 15) in
  match firstn 4 (skipn offset mac) with
  | [a; b; c; d] => Z.land (be_word a b c d) 2147483647
  | _ => 0
  end.

Definition hotp (secret : string) (counter : Z) : res string :=
  let! key := decode_secret secret in
  let! msg := pack_u64 counter in
  let code := truncate_mac (hmac sha1 key msg) in
  Ok (zfill DIGITS (code mod 10 ^ Z.of_nat DIGITS)).

(** [str.isdigit] below U+0100: the decimal digits and the superscripts. *)
Definition is_digit_char (c : ascii) : bool :=
  is_digit c || mem (cp c) [178%N; 179%N; 185%N].
Definition str_isdigit (s : string) : bool := str_truthy s && str_forallb is_digit_char s.

Definition str_isascii (s : string) : bool := str_forallb (fun c => (cp c <? 128)%N) s.

(** [hmac.compare_digest] on two strings. *)
Definition compare_digest (a b : string) : res bool :=
  if str_isascii a && str_isascii b then Ok (bool_decide (a = b))
  else Err (TypeError "comparing strings with non-ASCII characters is not supported").

Definition clean_code (code : string) : string := remove_char " "%char (strip code).

(** The steps tried, oldest first, without the spent ones. *)
Definition unspent (last_used : option Z) (s : Z) : bool :=
  match last_used with Some l => l <? s | None => true end.

Definition candidate_steps (current drift : Z) (last_used : option Z) : list Z :=
  filter (fun s => unspent last_used s = true)
    (map (fun i => current - drift + Z.of_nat i) (seq 0 (Z.to_nat (2 * drift + 1)))).

Fixpoint first_match (secret cleaned : string) (steps : list Z) : res (option Z) :=
  match steps with
  | [] => Ok None
  | step :: rest =>
      let! h := hotp secret step in
      let! eq := compare_digest h cleaned in
      if eq : bool then Ok (Some step) else first_match secret cleaned rest
  end.

Definition verify (secret code : string) (now : float) (last_used : option Z) : res (option Z) :=
  let cleaned := clean_code code in
  if negb (str_isdigit cleaned) || negb (String.length cleaned =? DIGITS)%nat then Ok None
  else first_match secret cleaned (candidate_steps (timestep now) DRIFT_STEPS last_used).

(** RFC 4226, appendix D: the codes of the ASCII key 12345678901234567890. *)
Example hotp_rfc4226 :
  map (hotp "GEZDGNBVGY3TQOJQGEZDGNBVGY3TQOJQ") [0; 1; 2; 3; 9] =
  map Ok ["755224"; "287082"; "359152"; "969429"; "520489"].
Proof. vm_compute. reflexivity. Qed.

(** ** Recovery codes and text *)

Definition normalize_recovery_code (code : string) : string :=
  upper (remove_char "-"%char (remove_char " "%char (strip code))).
Definition hash_recovery_code (code : string) : string :=
  hexdigest (sha256 (utf8 (normalize_recovery_code code))).

Fixpoint groups_of (fuel n : nat) (s : string) : list string :=
  match fuel, s with
  | S f, String _ _ => str_take n s :: groups_of f n (str_drop n s)
  | _, _ => []
  end.
Definition format_for_manual_entry (secret : string) : string :=
  join " " (groups_of (String.length secret) 4 secret).

(** ** One user's second factor *)

Record MfaCredential := {
  mc_secret_encrypted : string;
  mc_activated_at : option Z;
  mc_last_used_step : option Z }.

Record RecoveryCode := {
  rcv_code_hash : string;
  rcv_used_at : option Z;
  rcv_revoked_at : option Z }.

Record MfaUser := {
  mu_credential : option MfaCredential;
  mu_codes : list RecoveryCode }.

Section service.
Context (encrypt : string -> string) (decrypt : string -> res string).

Definition is_challenged (u : MfaUser) : bool :=
  match mu_credential u with
  | Some c => match mc_activated_at c with Some _ => true | None => false end
  | None => false
  end.

Definition begin_enrolment (secret : string) (u : MfaUser) : res MfaUser :=
  if is_challenged u then Err (ValueError "this account already has an active authenticator")
  else Ok {| mu_credential := Some {| mc_secret_encrypted := encrypt secret;
                                      mc_activated_at := None; mc_last_used_step := None |};
             mu_codes := mu_codes u |}.

Definition live (r : RecoveryCode) : bool :=
  bool_decide (rcv_used_at r = None) && bool_decide (rcv_revoked_at r = None).

Definition revoke (at_ : Z) (r : RecoveryCode) : RecoveryCode :=
  if live r then {| rcv_code_hash := rcv_code_hash r; rcv_used_at := rcv_used_at r;
                    rcv_revoked_at := Some at_ |} else r.

Definition revoke_recovery_codes (at_ : Z) (u : MfaUser) : Z * MfaUser :=
  (lcount live (mu_codes u), {| mu_credential := mu_credential u; mu_codes := map (revoke at_) (mu_codes u) |}).

Definition spend (step at_ : Z) (activate_ : bool) (c : MfaCredential) : MfaCredential :=
  {| mc_secret_encrypted := mc_secret_encrypted c;
     mc_activated_at := if activate_ then Some at_ else mc_activated_at c;
     mc_last_used_step := Some step |}.

Definition new_code (code : string) : RecoveryCode :=
  {| rcv_code_hash := hash_recovery_code code; rcv_used_at := None; rcv_revoked_at := None |}.

(** [fresh_codes] are the codes [generate_recovery_codes] draws. *)
Definition activate (code : string) (now : float) (at_ : Z) (fresh_codes : list string) (u : MfaUser)
    : res (option (list string) * MfaUser) :=
  match mu_credential u with
  | None => Ok (None, u)
  | Some c =>
      if is_challenged u then Ok (None, u) else
      let! secret := decrypt (mc_secret_encrypted c) in
      let! step := verify secret code now (mc_last_used_step c) in
      match step with
      | None => Ok (None, u)
      | Some s =>
          let u := {| mu_credential := Some (spend s at_ true c); mu_codes := mu_codes u |} in
          let '(_, u) := revoke_recovery_codes at_ u in
          Ok (Some fresh_codes, {| mu_credential := mu_credential u;
                                   mu_codes := (mu_codes u ++ map new_code fresh_codes)%list |})
      end
  end.

Definition verify_code (code : string) (now : float) (u : MfaUser) : res (bool * MfaUser) :=
  match mu_credential u with
  | None => Ok (false, u)
  | Some c =>
      if negb (is_challenged u) then Ok (false, u) else
      let! secret := decrypt (mc_secret_encrypted c) in
      let! step := verify secret code now (mc_last_used_step c) in
      match step with
      | None => Ok (false, u)
      | Some s => Ok (true, {| mu_credential := Some (spend s 0 false c); mu_codes := mu_codes u |})
      end
  end.

Definition matches_code (digest : string) (r : RecoveryCode) : bool :=
  bool_decide (rcv_code_hash r = digest) && live r.

Definition use_code (at_ : Z) (r : RecoveryCode) : RecoveryCode :=
  {| rcv_code_hash := rcv_code_hash r; rcv_used_at := Some at_; rcv_revoked_at := rcv_revoked_at r |}.

Definition consume_recovery_code (code : string) (at_ : Z) (u : MfaUser) : res (bool * MfaUser) :=
  if negb (is_challenged u) then Ok (false, u) else
  let digest := hash_recovery_code code in
  match filter (fun r => matches_code digest r = true) (mu_codes u) with
  | [] => Ok (false, u)
  | [_] => Ok (true, {| mu_credential := mu_credential u;
                        mu_codes := map (fun r => if matches_code digest r then use_code at_ r else r)
                                      (mu_codes u) |})
  | _ => Err (Exn "MultipleResultsFound" "Multiple rows were found when one or none was required")
  end.

Definition unused_recovery_code_count (u : MfaUser) : Z := lcount live (mu_codes u).

(** ** The factor's life as steps

    [Some (step)] labels a login that spent a time step, [None] anything else. *)
Inductive mfa_step : MfaUser -> option Z -> MfaUser -> Prop :=
| mfa_begin secret u u' : begin_enrolment secret u = Ok u' -> mfa_step u None u'
| mfa_activate code now at_ fresh cs u u' :
    activate code now at_ fresh u = Ok (cs, u') -> mfa_step u None u'
| mfa_login code now u u' c s :
    verify_code code now u = Ok (true, u') -> mu_credential u' = Some c ->
    mc_last_used_step c = Some s -> mfa_step u (Some s) u'
| mfa_login_fails code now u u' : verify_code code now u = Ok (false, u') -> mfa_step u None u'
| mfa_recover code at_ b u u' : consume_recovery_code code at_ u = Ok (b, u') -> mfa_step u None u'
| mfa_revoke at_ u : mfa_step u None (revoke_recovery_codes at_ u).2.

(** The time steps spent by a run of logins, in order. *)
Inductive mfa_run : MfaUser -> list Z -> MfaUser -> Prop :=
| run_nil u : mfa_run u [] u
| run_quiet u v w ss : mfa_run u ss v -> mfa_step v None w -> mfa_run u ss w
| run_spend u v w ss s : mfa_run u ss v -> mfa_step v (Some s) w -> mfa_run u (ss ++ [s]) w.
End service.

(** ** Lemmas *)

Lemma candidate_steps_spec current drift last_used s :
  0 <= drift ->
  s ∈ candidate_steps current drift last_used <->
  current - drift <= s <= current + drift /\ forall l, last_used = Some l -> l < s.
Proof.
  intros Hd. unfold candidate_steps. rewrite list_elem_of_filter, list_elem_of_fmap. split.
  - intros [Hl (i & -> & Hi)]. apply list_elem_of_In, in_seq in Hi. split; [lia|].
    intros l ->. by apply Z.ltb_lt.
  - intros [Hs Hl]. split; [destruct last_used; [by apply Z.ltb_lt, Hl|done]|]. exists (Z.to_nat (s - (current - drift))).
    split; [lia|]. apply list_elem_of_In, in_seq. lia.
Qed.

Lemma candidate_steps_sorted current drift last_used :
  StronglySorted Z.lt (candidate_steps current drift last_used).
Proof.
  unfold candidate_steps.
  assert (forall n k, StronglySorted Z.lt (map (fun i => current - drift + Z.of_nat i) (seq k n))) as H.
  { induction n as [|n IH]; intros k; simpl; constructor; [apply IH|].
    apply Forall_forall. intros x (i & -> & Hi)%list_elem_of_fmap.
    apply list_elem_of_In, in_seq in Hi. lia. }
  specialize (H (Z.to_nat (2 * drift + 1)) 0%nat). revert H. generalize (map (fun i => current - drift + Z.of_nat i) (seq 0 (Z.to_nat (2 * drift + 1)))).
  intros l H. eapply StronglySorted_sublist; [apply sublist_filter|exact H].
Qed.

Lemma first_match_spec secret cleaned steps :
  StronglySorted Z.lt steps ->
  match first_match secret cleaned steps with
  | Ok (Some s) => s ∈ steps /\ hotp secret s = Ok cleaned /\
      forall s', s' ∈ steps -> s' < s -> hotp secret s' <> Ok cleaned
  | Ok None => forall s', s' ∈ steps -> hotp secret s' <> Ok cleaned
  | Err e => (exists s', s' ∈ steps /\ hotp secret s' = Err e) \/ str_isascii cleaned = false \/
             exists s' h, s' ∈ steps /\ hotp secret s' = Ok h /\ str_isascii h = false
  end.
Proof.
  induction steps as [|s rest IH]; intros Hs; cbn [first_match].
  { by intros s' ?%not_elem_of_nil. }
  apply StronglySorted_inv in Hs as [Hs Hlt]. rewrite Forall_forall in Hlt. specialize (IH Hs).
  destruct (hotp secret s) as [h|e] eqn:Eh; cbn [res_bind].
  2:{ left. exists s. split; [by left|done]. }
  unfold compare_digest. destruct (str_isascii h && str_isascii cleaned) eqn:Ea; cbn [res_bind].
  2:{ right. apply andb_false_iff in Ea as [Ea|Ea]; [right|by left]. exists s, h. split; [by left|done]. }
  case_bool_decide as Heq.
  - subst h. split; [by left|]. split; [done|]. intros s' [ ->|Hin]%elem_of_cons Hl; [lia|].
    specialize (Hlt s' Hin). lia.
  - destruct (first_match secret cleaned rest) as [[s1|]|e].
    + destruct IH as (H1 & H2 & H3). split; [by right|]. split; [done|].
      intros s' [ ->|Hin]%elem_of_cons Hl; [congruence|auto].
    + intros s' [ ->|Hin]%elem_of_cons; [congruence|auto].
    + destruct IH as [(s' & ? & ?)|[?|(s' & h' & ? & ? & ?)]]; [left; exists s'|by right; left|
        right; right; exists s', h']; split; try done; by right.
Qed.

(** An accepted step is later than every one spent before. *)
Lemma verify_later secret code now last s :
  verify secret code now last = Ok (Some s) -> forall l, last = Some l -> l < s.
Proof.
  unfold verify. destruct (_ || _); [done|]. intros H.
  pose proof (first_match_spec secret (clean_code code) _ (candidate_steps_sorted (timestep now) DRIFT_STEPS last)) as Hf.
  rewrite H in Hf. destruct Hf as [Hin _]. apply candidate_steps_spec in Hin as [_ Hl]; [done|done].
Qed.

Section service_lemmas.
Context (encrypt : string -> string) (decrypt : string -> res string).

(** Once active, a credential stays, keeps its secret and only moves forward. *)
Definition forward (u u' : MfaUser) : Prop :=
  forall c, mu_credential u = Some c -> is_Some (mc_activated_at c) ->
  exists c', mu_credential u' = Some c' /\ is_Some (mc_activated_at c') /\
    mc_secret_encrypted c' = mc_secret_encrypted c /\
    forall l, mc_last_used_step c = Some l -> exists l', mc_last_used_step c' = Some l' /\ l <= l'.

Lemma forward_same u u' : mu_credential u' = mu_credential u -> forward u u'.
Proof.
  intros E c Hc Ha. exists c. rewrite E. repeat split; try done. intros l Hl. exists l. split; [done|lia].
Qed.

Lemma challenged_active u c : mu_credential u = Some c -> is_Some (mc_activated_at c) -> is_challenged u = true.
Proof. unfold is_challenged. intros -> [x ->]. done. Qed.

Lemma login_inv code now u u' :
  verify_code decrypt code now u = Ok (true, u') ->
  exists c s, mu_credential u = Some c /\ is_Some (mc_activated_at c) /\
    mu_credential u' = Some (spend s 0 false c) /\
    (forall l, mc_last_used_step c = Some l -> l < s) /\
    exists secret, decrypt (mc_secret_encrypted c) = Ok secret /\
      verify secret code now (mc_last_used_step c) = Ok (Some s).
Proof.
  unfold verify_code, is_challenged. destruct (mu_credential u) as [c|]; [|done].
  destruct (mc_activated_at c) as [a|] eqn:Ea; cbn [negb]; [|done].
  destruct (decrypt (mc_secret_encrypted c)) as [secret|] eqn:Ed; [|done]. cbn [res_bind].
  destruct (verify secret code now (mc_last_used_step c)) as [[s|]|] eqn:Ev; cbn [res_bind]; try done.
  intros [= <-]. exists c, s. split; [done|]. split; [by eexists|]. split; [done|].
  split; [by eapply verify_later|by exists secret].
Qed.

Lemma step_forward u o u' : mfa_step encrypt decrypt u o u' -> forward u u'.
Proof.
  intros H. destruct H as [secret u u' H|code now at_ fresh cs u u' H|code now u u' c s H Hc Hs|
    code now u u' H|code at_ b u u' H|at_ u].
  - unfold begin_enrolment in H. intros c Hc Ha. by rewrite (challenged_active _ _ Hc Ha) in H.
  - unfold activate in H. intros c Hc Ha. rewrite Hc, (challenged_active _ _ Hc Ha) in H.
    injection H as <- <-. by apply (forward_same u u).
  - apply login_inv in H as (c0 & s0 & Hc0 & Ha0 & Hu' & Hlt & _). intros c1 Hc1 Ha1.
    rewrite Hc0 in Hc1. injection Hc1 as <-. exists (spend s0 0 false c0). split; [done|].
    split; [done|]. split; [done|]. intros l Hl. exists s0. split; [done|]. specialize (Hlt l Hl). lia.
  - apply forward_same. unfold verify_code in H. f_equal.
    destruct (mu_credential u); [|by injection H as <-].
    destruct (negb (is_challenged u)); [by injection H as <-|].
    destruct (decrypt _); [|done]. cbn [res_bind] in H.
    destruct (verify _ _ _ _) as [[]|]; cbn [res_bind] in H; try done. by injection H as <-.
  - apply forward_same. unfold consume_recovery_code in H.
    destruct (negb (is_challenged u)); [by injection H as _ <-|].
    destruct (filter _ _) as [|? [|]]; try done; by injection H as _ <-.
  - by apply forward_same.
Qed.

(** After a run, the last spent step is recorded on an active credential. *)
Lemma run_last u ss u' :
  mfa_run encrypt decrypt u ss u' ->
  StronglySorted Z.lt ss /\
  (ss <> [] -> exists c l, mu_credential u' = Some c /\ is_Some (mc_activated_at c) /\
     mc_last_used_step c = Some l /\ forall s, s ∈ ss -> s <= l).
Proof.
  induction 1 as [u|u v w ss _ [IH1 IH2] Hs|u v w ss s _ [IH1 IH2] Hs]; [split; [constructor|done]| |].
  - split; [done|]. intros Hne. destruct (IH2 Hne) as (c & l & Hc & Ha & Hl & Hle).
    destruct (step_forward _ _ _ Hs c Hc Ha) as (c' & Hc' & Ha' & _ & Hf).
    destruct (Hf l Hl) as (l' & Hl' & Hll). exists c', l'. repeat split; try done.
    intros s Hin. specialize (Hle s Hin). lia.
  - inversion Hs as [| |code now u1 u2 c s1 Hv Hc Hl| | |]; subst.
    apply login_inv in Hv as (c0 & s0 & Hc0 & Ha0 & Hu' & Hlt & _).
    rewrite Hu' in Hc. injection Hc as <-. simpl in Hl. injection Hl as ->.
    assert (Hall : forall x, x ∈ ss -> x < s).
    { intros x Hx. destruct IH2 as (c1 & l & Hc1 & _ & Hl1 & Hle); [by intros ->; apply not_elem_of_nil in Hx|].
      rewrite Hc0 in Hc1. injection Hc1 as <-. specialize (Hlt l Hl1). specialize (Hle x Hx). lia. }
    split.
    + clear -IH1 Hall. induction ss as [|x ss IH]; simpl; [repeat constructor|].
      apply StronglySorted_inv in IH1 as [H1 H2]. constructor.
      * apply IH; [done|]. intros y Hy. apply Hall. by right.
      * rewrite Forall_forall in H2 |- *. intros y [Hy| ->%list_elem_of_singleton]%elem_of_app; [by apply H2|].
        apply Hall. by left.
    + intros _. exists (spend s 0 false c0), s. split; [done|]. split; [done|]. split; [done|].
      intros x [Hx| ->%list_elem_of_singleton]%elem_of_app; [|lia]. specialize (Hall x Hx). lia.
Qed.
End service_lemmas.

(** *** Recovery codes *)

Lemma matches_code_live digest r : matches_code digest r = true -> live r = true.
Proof. unfold matches_code. by intros [_ H]%andb_true_iff. Qed.

Lemma use_code_dead at_ r : live (use_code at_ r) = false.
Proof. done. Qed.

Lemma filter_use_code digest d' at_ rows :
  filter (fun r => matches_code d' r = true)
    (map (fun r => if matches_code digest r then use_code at_ r else r) rows) =
  filter (fun r => matches_code d' r = true /\ matches_code digest r = false) rows.
Proof.
  induction rows as [|r rows IH]; [done|]. cbn [map].
  rewrite !filter_cons, IH. destruct (matches_code digest r) eqn:E.
  - rewrite decide_False, decide_False; [done|by intros [_ ?]|].
    unfold matches_code. by rewrite use_code_dead, andb_false_r.
  - destruct (decide (matches_code d' r = true)) as [H|H].
    + by rewrite decide_True.
    + by rewrite decide_False; [|intros [? _]].
Qed.

Lemma count_use_code digest at_ rows :
  lcount live (map (fun r => if matches_code digest r then use_code at_ r else r) rows) =
  lcount live rows - Z.of_nat (List.length (filter (fun r => matches_code digest r = true) rows)).
Proof.
  unfold lcount. induction rows as [|r rows IH]; [done|]. cbn [map lsum foldr].
  unfold lsum in IH. rewrite IH, filter_cons. destruct (matches_code digest r) eqn:E.
  - rewrite decide_True by done. rewrite use_code_dead, (matches_code_live _ _ E).
    cbn [List.length]. lia.
  - rewrite decide_False by done. lia.
Qed.

Lemma revoke_dead at_ r : live (revoke at_ r) = false.
Proof.
  unfold revoke. destruct (live r) eqn:E; [|done]. unfold live. simpl. apply andb_false_r.
Qed.

Lemma filter_revoked at_ d rows :
  filter (fun r => matches_code d r = true) (map (revoke at_) rows) = [].
Proof.
  induction rows as [|r rows IH]; [done|]. cbn [map]. rewrite filter_cons, decide_False; [done|].
  unfold matches_code. by rewrite revoke_dead, andb_false_r.
Qed.

(** ** Properties *)

(** a verified code is the HOTP of the step returned, which lies within one
    step of the clock, has not been spent, and is the oldest such step; a code
    that is not six digits, or matches no unspent step of the window, is
    refused; an exception means the secret or the counter cannot be used, or
    that the six digits are not ASCII: a superscript digit passes the digit
    test and then raises instead of being refused. *)
Theorem verify_spec :
  (forall secret code now last_used,
     let cur := timestep now in
     let ok s := cur - 1 <= s <= cur + 1 /\ (forall l, last_used = Some l -> l < s) /\
                 hotp secret s = Ok (clean_code code) in
     match verify secret code now last_used with
     | Ok (Some s) => ok s /\ forall s', ok s' -> s <= s'
     | Ok None => str_isdigit (clean_code code) = false \/
                  String.length (clean_code code) <> 6%nat \/ forall s', ~ ok s'
     | Err e => str_isascii (clean_code code) = false \/
                (exists s', cur - 1 <= s' <= cur + 1 /\
                   (hotp secret s' = Err e \/ exists h, hotp secret s' = Ok h /\ str_isascii h = false))
     end) /\
  verify "GEZDGNBVGY3TQOJQ" ("12345" +:+ String (ascii_of_N 178) "") (fl_of_Z 59) None =
    Err (TypeError "comparing strings with non-ASCII characters is not supported").
Proof.
  split; [|vm_compute; reflexivity]. intros secret code now last. cbv zeta. unfold verify.
  destruct (str_isdigit (clean_code code)) eqn:Ed; cbn [negb orb]; [|by left].
  destruct (Nat.eqb_spec (String.length (clean_code code)) DIGITS) as [El|El]; cbn [negb]; [|by right; left].
  pose proof (first_match_spec secret (clean_code code) _
    (candidate_steps_sorted (timestep now) DRIFT_STEPS last)) as Hf.
  assert (Hc : forall s, s ∈ candidate_steps (timestep now) DRIFT_STEPS last <->
    timestep now - 1 <= s <= timestep now + 1 /\ forall l, last = Some l -> l < s)
    by (intros s; by apply candidate_steps_spec).
  destruct (first_match _ _ _) as [[s|]|e].
  - destruct Hf as (H1 & H2 & H3). apply Hc in H1. split; [by destruct H1|]. intros s' (? & ? & ?).
    destruct (Z.le_gt_cases s s'); [done|]. destruct (H3 s'); [by apply Hc|lia|done].
  - right. right. intros s' (? & ? & ?). apply (Hf s'); [by apply Hc|done].
  - destruct Hf as [(s' & Hs & ?)|[?|(s' & h & Hs & ? & ?)]]; [right|by left|right];
      exists s'; apply Hc in Hs as [? _]; eauto.
Qed.

(** no code opens two sessions: along any run of enrolments, activations,
    logins, failures, recoveries and revocations the time steps spent by logins
    strictly increase, and an active authenticator is never replaced nor its
    secret changed. *)
Theorem spent_steps_never_repeat encrypt decrypt u ss u' :
  mfa_run encrypt decrypt u ss u' ->
  StronglySorted Z.lt ss /\ NoDup ss /\
  (forall c, mu_credential u = Some c -> is_Some (mc_activated_at c) ->
     exists c', mu_credential u' = Some c' /\ is_Some (mc_activated_at c') /\
       mc_secret_encrypted c' = mc_secret_encrypted c).
Proof.
  intros H. destruct (run_last encrypt decrypt u ss u' H) as [Hs _]. split; [done|]. split.
  - clear -Hs. induction ss as [|x ss IH]; [constructor|]. apply StronglySorted_inv in Hs as [H1 H2].
    constructor; [|auto]. intros Hx. rewrite Forall_forall in H2. specialize (H2 x Hx). lia.
  - induction H as [u|u v w ss _ IH Hst|u v w ss s _ IH Hst].
    + intros c Hc Ha. by exists c.
    + intros c Hc Ha. destruct IH with c as (c1 & Hc1 & Ha1 & E1); [|done..|].
      { clear -Hs. exact Hs. }
      destruct (step_forward _ _ _ _ _ Hst c1 Hc1 Ha1) as (c2 & ? & ? & E2 & _). exists c2.
      split; [done|]. split; [done|]. congruence.
    + intros c Hc Ha. destruct IH with c as (c1 & Hc1 & Ha1 & E1); [|done..|].
      { eapply StronglySorted_sublist; [|exact Hs]. by apply sublist_inserts_r. }
      destruct (step_forward _ _ _ _ _ Hst c1 Hc1 Ha1) as (c2 & ? & ? & E2 & _). exists c2.
      split; [done|]. split; [done|]. congruence.
Qed.

(** An enrolment, its activation, and two logins one step apart. *)
Lemma spent_steps_witness :
  exists u', mfa_run (fun s => s) Ok {| mu_credential := None; mu_codes := [] |} [2; 3] u' /\
    StronglySorted Z.lt [2; 3].
Proof.
  pose (key := "GEZDGNBVGY3TQOJQGEZDGNBVGY3TQOJQ").
  pose (cred a l := {| mc_secret_encrypted := key; mc_activated_at := a; mc_last_used_step := l |}).
  pose (user a l cs := {| mu_credential := Some (cred a l); mu_codes := cs |}).
  pose (cs := [new_code "AAAA-BBBB"]).
  assert (mfa_run (fun s => s) Ok {| mu_credential := None; mu_codes := [] |} [2; 3]
    (user (Some 7) (Some 3) cs)) as H.
  { refine (run_spend _ _ _ (user (Some 7) (Some 2) cs) _ [2] 3 _ _).
    2:{ apply (mfa_login _ _ "969429" (fl_of_Z 95) _ _ (cred (Some 7) (Some 3))); vm_compute; reflexivity. }
    refine (run_spend _ _ _ (user (Some 7) (Some 1) cs) _ [] 2 _ _).
    2:{ apply (mfa_login _ _ "359152" (fl_of_Z 65) _ _ (cred (Some 7) (Some 2))); vm_compute; reflexivity. }
    refine (run_quiet _ _ _ (user None None []) _ _ _ _).
    2:{ apply (mfa_activate _ _ "287082" (fl_of_Z 59) 7 ["AAAA-BBBB"] (Some ["AAAA-BBBB"])). vm_compute. reflexivity. }
    refine (run_quiet _ _ _ _ _ _ (run_nil _ _ _) _).
    apply (mfa_begin _ _ key). reflexivity. }
  eexists. split; [exact H|]. exact (proj1 (spent_steps_never_repeat _ _ _ _ _ H)).
Defined.

(** a recovery code signs in at most once. Consuming one requires an active
    authenticator and a single live row with its digest; it leaves the
    authenticator as it was, lowers the count of unused codes by one and makes
    every spelling of the code refused from then on, while a code with another
    digest answers as before; a refusal changes nothing; once the codes are
    revoked none is accepted and none is left to count. *)
Theorem recovery_codes_are_single_use code at_ u :
  match consume_recovery_code code at_ u with
  | Ok (true, u') =>
      is_challenged u = true /\ mu_credential u' = mu_credential u /\
      unused_recovery_code_count u' = unused_recovery_code_count u - 1 /\
      (forall code' at', normalize_recovery_code code' = normalize_recovery_code code ->
         consume_recovery_code code' at' u' = Ok (false, u')) /\
      (forall d, d <> hash_recovery_code code ->
         filter (fun r => matches_code d r = true) (mu_codes u') =
         filter (fun r => matches_code d r = true) (mu_codes u))
  | Ok (false, u') =>
      u' = u /\ (is_challenged u = false \/
                 forall r, r ∈ mu_codes u -> rcv_code_hash r = hash_recovery_code code -> live r = false)
  | Err _ => exists r1 r2, [r1; r2] `sublist_of` mu_codes u /\
               rcv_code_hash r1 = rcv_code_hash r2 /\ live r1 = true /\ live r2 = true
  end /\
  let '(n, u') := revoke_recovery_codes at_ u in
  n = unused_recovery_code_count u /\ unused_recovery_code_count u' = 0 /\
  consume_recovery_code code at_ u' = Ok (false, u').
Proof.
  split.
  - unfold consume_recovery_code. destruct (is_challenged u) eqn:Ec; cbn [negb]; [|by auto].
    destruct (filter _ (mu_codes u)) as [|r [|r' rest]] eqn:Ef.
    + split; [done|]. right. intros r Hr Hh. destruct (live r) eqn:El; [|done]. exfalso.
      apply (not_elem_of_nil r). rewrite <-Ef. apply list_elem_of_filter. split; [|done].
      unfold matches_code. by rewrite bool_decide_eq_true_2.
    + split; [done|]. split; [done|]. split.
      { unfold unused_recovery_code_count. cbn [mu_codes]. by rewrite count_use_code, Ef. }
      split.
      * intros code' at' Hn. unfold consume_recovery_code.
        replace (is_challenged _) with true by (by rewrite <-Ec). cbn [negb mu_codes].
        assert (hash_recovery_code code' = hash_recovery_code code) as -> by (unfold hash_recovery_code; by rewrite Hn).
        by rewrite filter_use_code, filter_none by (intros x _ [? ?]; congruence).
      * intros d Hd. cbn [mu_codes]. rewrite filter_use_code. apply list_filter_iff.
        intros x. unfold matches_code. split; [by intros [? _]|]. intros H. split; [done|].
        apply andb_true_iff in H as [H%bool_decide_eq_true_1 _].
        by rewrite bool_decide_eq_false_2 by congruence.
    + exists r, r'. pose proof (sublist_filter (fun r => matches_code (hash_recovery_code code) r = true) (mu_codes u)) as Hsub.
      assert (forall x, x ∈ r :: r' :: rest -> rcv_code_hash x = hash_recovery_code code /\ live x = true) as Hx.
      { intros x. rewrite <-Ef. intros [[H%bool_decide_eq_true_1 ?]%andb_true_iff _]%list_elem_of_filter. done. }
      destruct (Hx r ltac:(by left)), (Hx r' ltac:(by right; left)).
      split; [|repeat split; congruence]. etrans; [|exact Hsub]. rewrite Ef.
      do 2 apply sublist_skip. apply sublist_nil_l.
  - unfold revoke_recovery_codes, unused_recovery_code_count. split; [done|]. split.
    + cbn [mu_codes]. unfold lcount. rewrite lsum_map, (lsum_ext _ (fun _ => 0)), lsum_const; [done|].
      intros r _. by rewrite revoke_dead.
    + unfold consume_recovery_code. destruct (is_challenged _); [|done]. cbn [negb mu_codes].
      by rewrite filter_revoked.
Qed.
