(* ===== verification/Scanners.v ===== *)
(** Vulnerability-scan ingestion ([src/src/ccf/ingest/scanners.py]): severity
    normalisation, the three parsers on decoded documents, and the
    reconciliation of findings into the POA&M table of [ControlTests].

    A parser starts from what the reader of its format returns: an element tree
    (defusedxml), a JSON value, the rows of [csv.reader]; [parse_scan] takes the
    three readers as arguments. *)

From S2P Require Export Hash Sla Tally ControlTests.

Local Open Scope string_scope.
Local Open Scope Z_scope.

Definition SEVERITY_SLA_DAYS : list (string * Z) :=
  [("critical", 15); ("high", 30); ("moderate", 90); ("low", 180)].
Definition CSV_SCANNERS : list string := ["csv"; "qualys"].

Record ScanFinding := {
  sf_scanner : string;
  sf_native_id : string;
  sf_title : string;
  sf_severity : string;
  sf_asset : string;
  sf_description : string;
  sf_solution : string;
  sf_refs : list pyval }.

Definition fingerprint (f : ScanFinding) : string :=
  str_take 32 (hexdigest (sha256 (utf8
    (sf_scanner f +:+ "|" +:+ sf_native_id f +:+ "|" +:+ sf_asset f)))).

(** ** Severity *)

Definition SEVERITY_WORDS : list (string * string) :=
  [("critical", "critical"); ("crit", "critical"); ("high", "high"); ("important", "high");
   ("medium", "moderate"); ("moderate", "moderate"); ("med", "moderate"); ("low", "low");
   ("minor", "low")].
Definition NESSUS_NUM (n : Z) : string :=
  nth (Z.to_nat n) ["info"; "low"; "moderate"; "high"; "critical"] "".

Definition sev_from_number (n : xfloat) : res (option string) :=
  match n with
  | XInf _ => Err (Exn "OverflowError" "cannot convert float infinity to integer")
  | XNaN => Err (ValueError "cannot convert float NaN to integer")
  | XFin x =>
      if fl_eqb x (fl_of_Z (fl_trunc x)) && fl_leb fl_zero x && fl_leb x (fl_of_Z 4) then
        let sev := NESSUS_NUM (fl_trunc x) in
        Ok (if decide (sev = "info") then None else Some sev)
      else if fl_leb (fl_of_Z 9) x then Ok (Some "critical")
      else if fl_leb (fl_of_Z 7) x then Ok (Some "high")
      else if fl_leb (fl_of_Z 4) x then Ok (Some "moderate")
      else if fl_ltb fl_zero x then Ok (Some "low")
      else Ok None
  end.

(** The [try] around the number of a text: only a [ValueError] is caught. *)
Definition none_on_value_error (r : res (option string)) : res (option string) :=
  match r with
  | Err e => if decide (exn_class e = "ValueError") then Ok None else Err e
  | _ => r
  end.

Definition normalize_severity (raw : pyval) : res (option string) :=
  match raw with
  | VNone | VBool _ => Ok None
  | VInt z => let! x := float_of_int z in sev_from_number x
  | VFloat x => sev_from_number (XFin x)
  | _ =>
      let text := lower (strip (py_str raw)) in
      if negb (str_truthy text) || mem text ["none"; "info"; "informational"; "0"] then Ok None
      else match dget text SEVERITY_WORDS with
           | Some s => Ok (Some s)
           | None => match py_float text with
                     | None => Ok None
                     | Some x => none_on_value_error (sev_from_number x)
                     end
           end
  end.

Example normalize_severity_examples :
  map normalize_severity [VStr " High "; VInt 4; VStr "4.0"; VStr "4.5"; VStr "9.8"; VStr "nan"; VBool true] =
  map Ok [Some "high"; Some "critical"; Some "critical"; Some "moderate"; Some "critical"; None; None].
Proof. vm_compute. reflexivity. Qed.

(** ** Nessus XML *)

Inductive xelem := XElem (tag : string) (attrs : list (string * string)) (text : option string)
                         (children : list xelem).
Definition x_tag (e : xelem) : string := let 'XElem t _ _ _ := e in t.
Definition x_attrs (e : xelem) : list (string * string) := let 'XElem _ a _ _ := e in a.
Definition x_text (e : xelem) : option string := let 'XElem _ _ t _ := e in t.
Definition x_children (e : xelem) : list xelem := let 'XElem _ _ _ c := e in c.

(** [root.iter(tag)]: the element and its descendants in document order. *)
Fixpoint x_iter (tag : string) (e : xelem) : list xelem :=
  let 'XElem t _ _ cs := e in
  ((if decide (t = tag) then [e] else []) ++ flat_map (x_iter tag) cs)%list.
Definition x_findall (tag : string) (e : xelem) : list xelem :=
  filter (fun c => x_tag c = tag) (x_children e).

Fixpoint first_text (item : xelem) (tags : list string) : string :=
  match tags with
  | [] => ""
  | tag :: rest =>
      match head (x_findall tag item) ≫= x_text with
      | Some t => if str_truthy t then strip t else first_text item rest
      | None => first_text item rest
      end
  end.

Definition cves_of (item : xelem) : list string :=
  omap (fun c => match x_text c with
                 | Some t => if str_truthy t then Some (strip t) else None
                 | None => None
                 end) (x_findall "cve" item).

Definition nessus_item (scanner asset : string) (item : xelem) : res (list ScanFinding) :=
  let! sev := normalize_severity (default VNone (VStr <$> dget "severity" (x_attrs item))) in
  match sev with
  | None => Ok []
  | Some sev =>
      let plugin_id := or_empty (dget "pluginID" (x_attrs item)) in
      let title := str_or (or_empty (dget "pluginName" (x_attrs item))) ("Plugin " +:+ plugin_id) in
      let cves := cves_of item in
      Ok [{| sf_scanner := scanner;
             sf_native_id := str_or plugin_id (default title (head cves));
             sf_title := title; sf_severity := sev; sf_asset := asset;
             sf_description := first_text item ["synopsis"; "description"];
             sf_solution := first_text item ["solution"];
             sf_refs := map VStr cves |}]
  end.

Definition parse_nessus (scanner : string) (root : xelem) : res (list ScanFinding) :=
  let! found := res_map (fun hi => nessus_item scanner hi.1 hi.2)
    (flat_map (fun host => map (fun item => (or_empty (dget "name" (x_attrs host)), item))
                             (x_findall "ReportItem" host)) (x_iter "ReportHost" root)) in
  Ok (concat found).

(** ** AWS Inspector JSON *)

(** [(v or {})] followed by an attribute access. *)
Definition or_dict (v : pyval) : res (list (string * pyval)) :=
  if truthy v then match v with VDict d => Ok d | _ => Err (AttributeError (type_name v) "get") end
  else Ok [].

(** [v[0]] on a true value. *)
Definition first_item (v : pyval) : res pyval :=
  match v with
  | VList (x :: _) => Ok x
  | VStr (String c _) => Ok (VStr (String c ""))
  | VDict _ => Err (KeyError "0")
  | _ => Err (TypeError ("'" +:+ type_name v +:+ "' object is not subscriptable"))
  end.

Definition asset_of (resources : pyval) : res string :=
  if negb (truthy resources) then Ok "" else
  let! r := first_item resources in
  match r with
  | VDict d => Ok (py_str (default (VStr "") (dget "id" d)))
  | _ => Ok ""
  end.

Definition val_or (a b : pyval) : pyval := if truthy a then a else b.
Definition get_or (k : string) (dflt : pyval) (d : list (string * pyval)) : pyval := default dflt (dget k d).

Definition inspector_item (f : pyval) : res (list ScanFinding) :=
  match f with
  | VDict d =>
      let! sev := normalize_severity (vget "severity" d) in
      match sev with
      | None => Ok []
      | Some sev =>
          let! details := or_dict (vget "packageVulnerabilityDetails" d) in
          let vuln := vget "vulnerabilityId" details in
          let! asset := asset_of (val_or (vget "resources" d) (VList [])) in
          let! rem := or_dict (vget "remediation" d) in
          let! recommendation := or_dict (vget "recommendation" rem) in
          let remediation := get_or "text" (VStr "") recommendation in
          let title := get_or "title" (VStr "") d in
          Ok [{| sf_scanner := "inspector";
                 sf_native_id := py_str (val_or vuln (val_or (vget "findingArn" d) title));
                 sf_title := str_or (py_str title) "Inspector finding";
                 sf_severity := sev; sf_asset := asset;
                 sf_description := py_str (get_or "description" (VStr "") d);
                 sf_solution := py_str remediation;
                 sf_refs := if truthy vuln then [vuln] else [] |}]
      end
  | _ => Ok []
  end.

Definition parse_inspector (doc : pyval) : res (list ScanFinding) :=
  let findings := match doc with VDict d => get_or "findings" doc d | _ => doc end in
  match findings with
  | VList l => let! found := res_map inspector_item l in Ok (concat found)
  | _ => Err (ValueError "Inspector JSON: expected a 'findings' list")
  end.

(** ** CSV *)

Definition CSV_ALIASES : list (string * list string) :=
  [("title", ["title"; "name"; "plugin_name"; "pluginname"; "synopsis"; "vulnerability"]);
   ("severity", ["severity"; "risk"; "risk_factor"; "criticality"; "cvss"; "cvss3"; "cvss_base"]);
   ("description", ["description"; "details"; "synopsis"; "threat"]);
   ("asset", ["asset"; "host"; "hostname"; "ip"; "ip_address"; "resource"; "dns"]);
   ("native_id", ["plugin_id"; "pluginid"; "qid"; "cve"; "finding_id"; "id"]);
   ("solution", ["solution"; "remediation"; "fix"; "recommendation"])].

(** [csv.DictReader]: one row zipped with the header, missing cells [None]. *)
Definition dict_row (fieldnames row : list string) : list (string * option string) :=
  foldl (fun d k => dset k None d)
    (foldl (fun d kv => dset kv.1 (Some kv.2) d) [] (zip fieldnames row))
    (drop (List.length row) fieldnames).

Definition lower_headers (fieldnames : list string) : list (string * string) :=
  foldl (fun d h => dset (lower (strip h)) h d) [] fieldnames.

Fixpoint first_alias (headers : list (string * string)) (aliases : list string) : option string :=
  match aliases with
  | [] => None
  | a :: rest => match dget a headers with Some h => Some h | None => first_alias headers rest end
  end.

Definition colmap (fieldnames : list string) : list (string * string) :=
  omap (fun fa => (fun h => (fa.1, h)) <$> first_alias (lower_headers fieldnames) fa.2) CSV_ALIASES.

Definition cell (cols : list (string * string)) (row : list (string * option string)) (field : string) : string :=
  match dget field cols with
  | Some col => if str_truthy col then strip (or_empty (default None (dget col row))) else ""
  | None => ""
  end.

Definition csv_item (scanner : string) (cols : list (string * string))
    (ir : Z * list (string * option string)) : res (list ScanFinding) :=
  let '(i, row) := ir in
  let! sev := normalize_severity (VStr (cell cols row "severity")) in
  match sev with
  | None => Ok []
  | Some sev =>
      let title := str_or (cell cols row "title") "Unnamed finding" in
      let native := str_or (cell cols row "native_id") ("row-" +:+ pretty i) in
      Ok [{| sf_scanner := scanner; sf_native_id := native; sf_title := title;
             sf_severity := sev; sf_asset := cell cols row "asset";
             sf_description := cell cols row "description";
             sf_solution := cell cols row "solution";
             sf_refs := if startswith "CVE-" (upper native) then [VStr native] else [] |}]
  end.

(** The rows [csv.reader] yields, header first; blank rows are skipped. *)
Definition parse_csv (scanner : string) (rows : list (list string)) : res (list ScanFinding) :=
  match rows with
  | [] | [] :: _ => Ok []
  | fieldnames :: rest =>
      let dicts := map (dict_row fieldnames) (filter (fun r => r <> []) rest) in
      let! found := res_map (csv_item scanner (colmap fieldnames))
        (imap (fun i d => (Z.of_nat i, d)) dicts) in
      Ok (concat found)
  end.

(** ** Format detection and dispatch *)

Definition is_byte_space (c : ascii) : bool :=
  let n := cp c in (((9 <=? n) && (n <=? 13)) || (n =? 32))%N.

Definition endswith (suf s : string) : bool :=
  (String.length suf <=? String.length s)%nat &&
  bool_decide (str_drop (String.length s - String.length suf) s = suf).

Definition detect_format (filename : option string) (data : string) : string :=
  let head := drop_while is_byte_space (str_take 4096 data) in
  let name := lower (or_empty filename) in
  if mem (str_take 1 head) ["{"; "["] || endswith ".json" name then "inspector"
  else if str_contains "NessusClientData" (str_take 8192 data) || endswith ".nessus" name then "nessus"
  else if bool_decide (str_take 5 head = "<?xml") || bool_decide (str_take 1 head = "<") then "nessus"
  else "csv".

Section parse.
Context (read_xml : string -> res xelem) (read_json : string -> res pyval)
        (read_csv : string -> list (list string)).

Definition parse_scan (scanner data : string) (filename : option string)
    : res (string * list ScanFinding) :=
  let resolved := lower (strip scanner) in
  let resolved := if mem resolved ["auto"; ""] then detect_format filename data else resolved in
  if mem resolved ["nessus"; "tenable"] then
    let! root := read_xml data in let! fs := parse_nessus resolved root in Ok (resolved, fs)
  else if decide (resolved = "inspector") then
    let! doc := read_json data in let! fs := parse_inspector doc in Ok (resolved, fs)
  else if mem resolved CSV_SCANNERS then
    let! fs := parse_csv resolved (read_csv data) in Ok (resolved, fs)
  else Err (ValueError ("unsupported scanner format: " +:+ repr_str scanner)).
End parse.

Example parse_csv_example :
  parse_csv "qualys" [["QID"; " Title "; "Severity"; "IP"]; ["105"; "Old TLS"; "7.4"; "10.0.0.1"];
                      []; ["9"; "Banner"; "0"; "10.0.0.1"]; ["CVE-2026-1"; ""; "med"]] =
  Ok [{| sf_scanner := "qualys"; sf_native_id := "105"; sf_title := "Old TLS"; sf_severity := "high";
         sf_asset := "10.0.0.1"; sf_description := ""; sf_solution := ""; sf_refs := [] |};
      {| sf_scanner := "qualys"; sf_native_id := "CVE-2026-1"; sf_title := "Unnamed finding";
         sf_severity := "moderate"; sf_asset := ""; sf_description := ""; sf_solution := "";
         sf_refs := [VStr "CVE-2026-1"] |}].
Proof. vm_compute. reflexivity. Qed.

(** ** Reconciliation *)

Record ReconcileResult := {
  rr_findings_total : Z;
  rr_created : Z;
  rr_updated : Z;
  rr_reopened : Z;
  rr_closed : Z;
  rr_unchanged : Z }.

Definition OPEN_STATES : list string := POAM_ACTIVE_STATUSES.
Definition POAM_STATUSES : list string :=
  ["open"; "in_progress"; "completed"; "risk_accepted"; "closed"].
Definition RESOLVED_STATES : list string := (POAM_CLOSED_STATUSES ++ ["risk_accepted"])%list.

Definition poam_leaves_risk_accepted (old_status new_status : string) : bool :=
  bool_decide (old_status = "risk_accepted") && bool_decide (new_status <> "risk_accepted").

(** [", ".join(refs)]: every item must be a string. *)
Fixpoint ref_strings (i : Z) (refs : list pyval) : res (list string) :=
  match refs with
  | [] => Ok []
  | VStr s :: rest => let! ss := ref_strings (i + 1) rest in Ok (s :: ss)
  | v :: _ => Err (TypeError ("sequence item " +:+ pretty i +:+ ": expected str instance, " +:+
                              type_name v +:+ " found"))
  end.

Definition newline : string := String (ascii_of_nat 10) "".

Definition weakness_of (f : ScanFinding) : res string :=
  let! refs := ref_strings 0 (sf_refs f) in
  let parts :=
    ([strip (sf_description f)] ++
     (if bool_decide (sf_refs f = []) then [] else ["Refs: " +:+ join ", " refs]) ++
     (if str_truthy (sf_asset f) then ["Asset: " +:+ sf_asset f] else []) ++
     (if str_truthy (sf_solution f) then ["Remediation: " +:+ sf_solution f] else []))%list in
  Ok (str_or (join newline (filter (fun p => str_truthy p = true) parts)) (sf_title f)).

Definition due_for (f : ScanFinding) (today : Z) : Z :=
  today + default 90 (dget (sf_severity f) SEVERITY_SLA_DAYS).

(** The rows of the query, and [by_uid] over them. *)
Definition in_scope (system_id : Z) (scanner : string) (p : POAM) : bool :=
  bool_decide (pm_system_id p = system_id) && bool_decide (pm_scanner p = Some scanner) &&
  bool_decide (pm_finding_uid p <> None).
Definition index_uid (d : list (string * Z)) (p : POAM) : list (string * Z) :=
  match pm_finding_uid p with
  | Some u => if str_truthy u then dset u (pm_id p) d else d
  | None => d
  end.
Definition by_uid (system_id : Z) (scanner : string) (db : Db) : list (string * Z) :=
  foldl index_uid [] (filter (fun p => in_scope system_id scanner p = true) (db_poams db)).

(** Assignments to the object of the row [i]. *)
Definition assign (i : Z) (f : POAM -> POAM) (db : Db) : Db :=
  set_poams (update_where (fun p => pm_id p =? i) f (db_poams db)) db.
Definition poam_by_id (i : Z) (db : Db) : option POAM := List.find (fun p => pm_id p =? i) (db_poams db).

Definition new_poam (i system_id : Z) (scanner : string) (today : Z) (f : ScanFinding) (weakness : string) : POAM :=
  {| pm_id := i; pm_system_id := system_id; pm_control_id := None;
     pm_title := str_take512 (sf_title f); pm_weakness := Some weakness;
     pm_severity := sf_severity f; pm_status := "open"; pm_source := Some "scan";
     pm_remediation_plan := None; pm_plan_source := "analyst"; pm_identified_on := Some today;
     pm_due_on := Some (due_for f today); pm_original_due_on := Some (due_for f today);
     pm_source_ref := None; pm_scanner := Some scanner; pm_finding_uid := Some (fingerprint f);
     pm_closed_on := None; pm_acceptance_rationale := None; pm_milestones := []; pm_details := no_details |}.

(** The [elif] branch: a resolved row comes back. *)
Definition reopen (today : Z) (f : ScanFinding) (weakness : string) (p : POAM) : POAM :=
  {| pm_id := pm_id p; pm_system_id := pm_system_id p; pm_control_id := pm_control_id p;
     pm_title := pm_title p; pm_weakness := Some weakness; pm_severity := sf_severity f;
     pm_status := "open"; pm_source := pm_source p; pm_remediation_plan := pm_remediation_plan p;
     pm_plan_source := pm_plan_source p; pm_identified_on := pm_identified_on p;
     pm_due_on := Some (due_for f today); pm_original_due_on := pm_original_due_on p;
     pm_source_ref := pm_source_ref p; pm_scanner := pm_scanner p;
     pm_finding_uid := pm_finding_uid p; pm_closed_on := None;
     pm_acceptance_rationale := if poam_leaves_risk_accepted (pm_status p) "open" then None
                                else pm_acceptance_rationale p;
     pm_milestones := pm_milestones p; pm_details := pm_details p |}.

(** The [else] branch: a live row is brought up to date. *)
Definition refresh (f : ScanFinding) (weakness : string) (p : POAM) : POAM :=
  {| pm_id := pm_id p; pm_system_id := pm_system_id p; pm_control_id := pm_control_id p;
     pm_title := str_take512 (sf_title f); pm_weakness := Some weakness;
     pm_severity := sf_severity f; pm_status := pm_status p; pm_source := pm_source p;
     pm_remediation_plan := pm_remediation_plan p; pm_plan_source := pm_plan_source p;
     pm_identified_on := pm_identified_on p; pm_due_on := pm_due_on p;
     pm_original_due_on := pm_original_due_on p; pm_source_ref := pm_source_ref p;
     pm_scanner := pm_scanner p; pm_finding_uid := pm_finding_uid p;
     pm_closed_on := pm_closed_on p; pm_acceptance_rationale := pm_acceptance_rationale p;
     pm_milestones := pm_milestones p; pm_details := pm_details p |}.

Definition poam_changed (f : ScanFinding) (weakness : string) (p : POAM) : bool :=
  bool_decide (pm_severity p <> sf_severity f) || bool_decide (pm_weakness p <> Some weakness) ||
  bool_decide (pm_title p <> str_take512 (sf_title f)).

Definition is_resolved (p : POAM) : bool := mem (pm_status p) RESOLVED_STATES.

Definition revisit (today : Z) (f : ScanFinding) (weakness : string) (p : POAM) : POAM :=
  if is_resolved p then reopen today f weakness p else refresh f weakness p.

Definition auto_close (scanner : string) (today : Z) (p : POAM) : POAM :=
  let note := "Auto-closed: not present in latest " +:+ scanner +:+ " scan (" +:+ date_iso today +:+ ")." in
  {| pm_id := pm_id p; pm_system_id := pm_system_id p; pm_control_id := pm_control_id p;
     pm_title := pm_title p; pm_weakness := pm_weakness p; pm_severity := pm_severity p;
     pm_status := "closed"; pm_source := pm_source p;
     pm_remediation_plan :=
       Some (if str_truthy (or_empty (pm_remediation_plan p))
             then or_empty (pm_remediation_plan p) +:+ newline +:+ note else note);
     pm_plan_source := pm_plan_source p; pm_identified_on := pm_identified_on p;
     pm_due_on := pm_due_on p; pm_original_due_on := pm_original_due_on p;
     pm_source_ref := pm_source_ref p; pm_scanner := pm_scanner p;
     pm_finding_uid := pm_finding_uid p; pm_closed_on := Some today;
     pm_acceptance_rationale := pm_acceptance_rationale p; pm_milestones := pm_milestones p; pm_details := pm_details p |}.

Definition count_created (r : ReconcileResult) : ReconcileResult :=
  {| rr_findings_total := rr_findings_total r; rr_created := rr_created r + 1;
     rr_updated := rr_updated r; rr_reopened := rr_reopened r; rr_closed := rr_closed r;
     rr_unchanged := rr_unchanged r |}.
Definition count_revisited (resolved changed : bool) (r : ReconcileResult) : ReconcileResult :=
  {| rr_findings_total := rr_findings_total r; rr_created := rr_created r;
     rr_updated := rr_updated r + (if negb resolved && changed then 1 else 0);
     rr_reopened := rr_reopened r + (if resolved then 1 else 0); rr_closed := rr_closed r;
     rr_unchanged := rr_unchanged r + (if negb resolved && negb changed then 1 else 0) |}.
Definition count_closed (r : ReconcileResult) : ReconcileResult :=
  {| rr_findings_total := rr_findings_total r; rr_created := rr_created r;
     rr_updated := rr_updated r; rr_reopened := rr_reopened r; rr_closed := rr_closed r + 1;
     rr_unchanged := rr_unchanged r |}.

(** One finding whose fingerprint was not seen before. *)
Definition reconcile_one (system_id : Z) (scanner : string) (today : Z) (index : list (string * Z))
    (f : ScanFinding) (st : Db * ReconcileResult) : res (Db * ReconcileResult) :=
  let '(db, r) := st in
  let! weakness := weakness_of f in
  match dget (fingerprint f) index ≫= (fun i => poam_by_id i db) with
  | None =>
      let '(i, db) := next_id db in
      Ok (set_poams (db_poams db ++ [new_poam i system_id scanner today f weakness])%list db,
          count_created r)
  | Some p =>
      Ok (assign (pm_id p) (revisit today f weakness) db,
          count_revisited (is_resolved p) (poam_changed f weakness p) r)
  end.

(** The loop over the findings; a repeated fingerprint is skipped. *)
Fixpoint reconcile_loop (system_id : Z) (scanner : string) (today : Z) (index : list (string * Z))
    (findings : list ScanFinding) (seen : list string) (st : Db * ReconcileResult)
    : res (list string * (Db * ReconcileResult)) :=
  match findings with
  | [] => Ok (seen, st)
  | f :: rest =>
      let uid := fingerprint f in
      if mem uid seen then reconcile_loop system_id scanner today index rest seen st
      else let! st := reconcile_one system_id scanner today index f st in
           reconcile_loop system_id scanner today index rest (uid :: seen) st
  end.

(** The loop over [by_uid]. *)
Definition close_one (scanner : string) (today : Z) (seen : list string)
    (st : Db * ReconcileResult) (ui : string * Z) : Db * ReconcileResult :=
  let '(db, r) := st in
  match poam_by_id ui.2 db with
  | Some p => if mem ui.1 seen || negb (mem (pm_status p) OPEN_STATES) then st
              else (assign (pm_id p) (auto_close scanner today) db, count_closed r)
  | None => st
  end.

Definition reconcile_findings (system_id : Z) (scanner : string) (findings : list ScanFinding)
    (today : Z) (db : Db) : res (Db * ReconcileResult) :=
  let r := {| rr_findings_total := Z.of_nat (List.length findings); rr_created := 0;
              rr_updated := 0; rr_reopened := 0; rr_closed := 0; rr_unchanged := 0 |} in
  let index := by_uid system_id scanner db in
  let! out := reconcile_loop system_id scanner today index findings [] (db, r) in
  let '(seen, st) := out in
  Ok (foldl (close_one scanner today seen) st index).

(** ** What reconciliation promises, row by row *)

Definition wk (f : ScanFinding) : string :=
  match weakness_of f with Ok w => w | Err _ => "" end.
Definition refs_ok (f : ScanFinding) : Prop := weakness_of f = Ok (wk f).

(** The finding that speaks for a fingerprint is the first one that has it. *)
Definition first_with (u : string) (fs : list ScanFinding) : option ScanFinding :=
  List.find (fun f => bool_decide (fingerprint f = u)) fs.
Fixpoint distinct (seen : list string) (fs : list ScanFinding) : list ScanFinding :=
  match fs with
  | [] => []
  | f :: rest => if mem (fingerprint f) seen then distinct seen rest
                 else f :: distinct (fingerprint f :: seen) rest
  end.

(** The finding that reports a row, when the row is one the scanner tracks. *)
Definition tracked (system_id : Z) (scanner : string) (p : POAM) : bool :=
  in_scope system_id scanner p && str_truthy (or_empty (pm_finding_uid p)).
Definition reported_by (fs : list ScanFinding) (p : POAM) : option ScanFinding :=
  first_with (or_empty (pm_finding_uid p)) fs.

Definition row_fate (system_id : Z) (scanner : string) (fs : list ScanFinding) (today : Z) (p : POAM) : POAM :=
  if tracked system_id scanner p then
    match reported_by fs p with
    | Some f => revisit today f (wk f) p
    | None => if mem (pm_status p) OPEN_STATES then auto_close scanner today p else p
    end
  else p.

(** The findings that no row of the table tracks, once each. *)
Definition unknown (system_id : Z) (scanner : string) (rows : list POAM) (f : ScanFinding) : bool :=
  negb (existsb (fun p => tracked system_id scanner p &&
                          bool_decide (pm_finding_uid p = Some (fingerprint f))) rows).
Fixpoint new_rows (i system_id : Z) (scanner : string) (today : Z) (fs : list ScanFinding) : list POAM :=
  match fs with
  | [] => []
  | f :: rest => new_poam i system_id scanner today f (wk f) :: new_rows (i + 1) system_id scanner today rest
  end.

Definition reopens (f : ScanFinding) (p : POAM) : bool := is_resolved p.
Definition updates (f : ScanFinding) (p : POAM) : bool := negb (is_resolved p) && poam_changed f (wk f) p.
Definition leaves (f : ScanFinding) (p : POAM) : bool := negb (is_resolved p) && negb (poam_changed f (wk f) p).

(** The rows a scan reports that satisfy [q], and the live ones it leaves out. *)
Definition reported_count (system_id : Z) (scanner : string) (fs : list ScanFinding)
    (q : ScanFinding -> POAM -> bool) (rows : list POAM) : Z :=
  lcount (fun p => match (if tracked system_id scanner p then reported_by fs p else None) with
                   | Some f => q f p | None => false end) rows.
Definition left_out (system_id : Z) (scanner : string) (fs : list ScanFinding) (p : POAM) : bool :=
  tracked system_id scanner p && bool_decide (reported_by fs p = None) && mem (pm_status p) OPEN_STATES.

Record scan_wf (system_id : Z) (scanner : string) (db : Db) : Prop := {
  sw_ids : NoDup (map pm_id (db_poams db));
  sw_seq : forall p, p ∈ db_poams db -> pm_id p < db_seq db;
  sw_statuses : forall p, p ∈ db_poams db -> pm_status p ∈ POAM_STATUSES;
  sw_uids : forall p q, p ∈ db_poams db -> q ∈ db_poams db ->
    tracked system_id scanner p = true -> tracked system_id scanner q = true ->
    pm_finding_uid p = pm_finding_uid q -> pm_id p = pm_id q }.

(** ** Rows by id *)

Lemma poam_by_id_Some i db p : poam_by_id i db = Some p -> p ∈ db_poams db /\ pm_id p = i.
Proof.
  intros [Hin Hi]%List.find_some. split; [by apply list_elem_of_In|]. by apply Z.eqb_eq.
Qed.

Lemma poam_by_id_elem db p :
  NoDup (map pm_id (db_poams db)) -> p ∈ db_poams db -> poam_by_id (pm_id p) db = Some p.
Proof.
  intros Hnd Hp. unfold poam_by_id. destruct (List.find _ _) as [q|] eqn:E.
  - apply poam_by_id_Some in E as [Hq Hid]. f_equal. by eapply (key_inj pm_id).
  - apply list_elem_of_In in Hp. apply (List.find_none _ _ E) in Hp. simpl in Hp.
    by rewrite Z.eqb_refl in Hp.
Qed.

Lemma revisit_id today f w p : pm_id (revisit today f w p) = pm_id p.
Proof. unfold revisit. by destruct (is_resolved p). Qed.

(** ** The index by fingerprint *)

Lemma by_uid_keys rows d :
  NoDup (dkeys d) -> NoDup (dkeys (foldl index_uid d rows)).
Proof.
  revert d. induction rows as [|p rows IH]; intros d Hd; [done|]. simpl. apply IH.
  unfold index_uid. destruct (pm_finding_uid p) as [u|]; [|done].
  destruct (str_truthy u); [by apply dset_NoDup|done].
Qed.

Lemma tracked_uid sys sc p :
  tracked sys sc p = true <->
  in_scope sys sc p = true /\ exists u, pm_finding_uid p = Some u /\ str_truthy u = true.
Proof.
  unfold tracked. rewrite andb_true_iff. destruct (pm_finding_uid p) as [u|] eqn:E; simpl.
  - split; intros [? H]; (split; [done|]); [by exists u|]. destruct H as (u' & [= ->] & ?). done.
  - split; [by intros [_ ?]|]. by intros [_ (? & ? & _)].
Qed.

(** Row [p] is indexed under [u]. *)
Definition bears (u : string) (p : POAM) : Prop := pm_finding_uid p = Some u /\ str_truthy u = true.
#[export] Instance bears_dec u p : Decision (bears u p).
Proof. unfold bears. apply _. Defined.

Lemma index_uid_lookup d p u :
  dget u (index_uid d p) = if decide (bears u p) then Some (pm_id p) else dget u d.
Proof.
  unfold index_uid. destruct (decide (bears u p)) as [[ -> ->]|Hn]; [apply dget_dset_eq|].
  destruct (pm_finding_uid p) as [v|] eqn:E; [|done]. destruct (str_truthy v) eqn:Ev; [|done].
  apply dget_dset_ne. intros ->. apply Hn. by split.
Qed.

(** Looking a fingerprint up: the row that bears it, when rows bear distinct ones. *)
Lemma index_uid_spec rows d u i :
  (forall p q, p ∈ rows -> q ∈ rows -> bears u p -> bears u q -> pm_id p = pm_id q) ->
  dget u (foldl index_uid d rows) = Some i <->
  (exists p, p ∈ rows /\ bears u p /\ pm_id p = i) \/
  (dget u d = Some i /\ forall p, p ∈ rows -> ~ bears u p).
Proof.
  revert d. induction rows as [|r rows IH]; intros d Hu; cbn [foldl].
  { split; [intros H; right; split; [done|]; by intros p ?%not_elem_of_nil|].
    intros [(p & ?%not_elem_of_nil & _)|[? _]]; done. }
  rewrite IH by (intros p q Hp Hq; apply Hu; by right). rewrite index_uid_lookup.
  setoid_rewrite elem_of_cons. destruct (decide (bears u r)) as [Hr|Hr].
  - destruct (decide (Exists (bears u) rows)) as [Hex|Hex]; rewrite Exists_exists in Hex.
    + destruct Hex as (q & Hq & Hqu). split.
      * intros [(p & ? & ?)|[_ Hn]]; [left; exists p; auto|]. by destruct (Hn q).
      * intros [(p & Hin & Hp & <-)|[_ Hn]]; [|by destruct (Hn q); auto]. left. exists q.
        split; [done|]. split; [done|]. apply Hu; [by right|by apply elem_of_cons|done|done].
    + split.
      * intros [(p & ? & ? & _)|[[= <-] _]]; [destruct Hex; by exists p|left; exists r; auto].
      * intros [(p & [ ->|Hin] & Hp & <-)|[_ Hn]]; [right|destruct Hex; by exists p|by destruct (Hn r); auto].
        split; [done|]. intros q Hq Hb. apply Hex. by exists q.
  - split.
    + intros [(p & ? & ?)|[? Hn]]; [left; exists p; auto|right]. split; [done|].
      intros p [ ->|Hp]; auto.
    + intros [(p & [ ->|Hp] & ? & ?)|[? Hn]]; [done|left; by exists p|right]. split; [done|]. auto.
Qed.

Lemma by_uid_spec sys sc db u i :
  scan_wf sys sc db ->
  dget u (by_uid sys sc db) = Some i <->
  exists p, p ∈ db_poams db /\ tracked sys sc p = true /\ pm_finding_uid p = Some u /\ pm_id p = i.
Proof.
  intros [Hids Hseq _ Huids]. unfold by_uid.
  assert (forall p, bears u p -> in_scope sys sc p = true -> tracked sys sc p = true) as Ht.
  { intros p [Hu Hb] Hs. apply tracked_uid. split; [done|]. by exists u. }
  rewrite index_uid_spec.
  - split.
    + intros [(p & [Hs Hp]%list_elem_of_filter & Hb & Hi)|[? _]]; [|done].
      exists p. split; [done|]. split; [by apply Ht|]. split; [apply Hb|done].
    + intros (p & Hp & (Hs & u' & Hu' & Hb)%tracked_uid & Hu & Hi). left. exists p.
      rewrite Hu in Hu'. injection Hu' as <-. by rewrite list_elem_of_filter.
  - intros p q [Hp Hp']%list_elem_of_filter [Hq Hq']%list_elem_of_filter Hb Hb'.
    apply Huids; auto. by rewrite (proj1 Hb), (proj1 Hb').
Qed.

(** ** The loop over the findings *)

Section loop.
Context (sys : Z) (sc : string) (today : Z) (index : list (string * Z)).

Fixpoint apply_all (fs : list ScanFinding) (st : Db * ReconcileResult) : res (Db * ReconcileResult) :=
  match fs with
  | [] => Ok st
  | f :: rest => let! st := reconcile_one sys sc today index f st in apply_all rest st
  end.

(** Skipping repeats is processing each fingerprint's first finding. *)
Lemma reconcile_loop_distinct fs seen st :
  reconcile_loop sys sc today index fs seen st =
  (let! st' := apply_all (distinct seen fs) st in
   Ok (rev (map fingerprint (distinct seen fs)) ++ seen, st'))%list.
Proof.
  revert seen st. induction fs as [|f fs IH]; intros seen st; [done|].
  cbn [reconcile_loop distinct]. destruct (mem (fingerprint f) seen); [apply IH|].
  cbn [apply_all map rev]. destruct (reconcile_one sys sc today index f st) as [st'|e]; [|done].
  cbn [res_bind]. rewrite IH. destruct (apply_all _ st'); [|done]. cbn [res_bind].
  by rewrite <-app_assoc.
Qed.

Lemma distinct_fresh seen fs f : f ∈ distinct seen fs -> fingerprint f ∉ seen.
Proof.
  revert seen. induction fs as [|g fs IH]; intros seen; cbn [distinct]; [by intros ?%not_elem_of_nil|].
  destruct (mem_spec (fingerprint g) seen) as [Hm|Hm]; [apply IH|].
  intros [ ->|Hf]%elem_of_cons; [done|]. apply IH in Hf. intros Hs. apply Hf. by right.
Qed.

Lemma distinct_NoDup seen fs : NoDup (map fingerprint (distinct seen fs)).
Proof.
  revert seen. induction fs as [|g fs IH]; intros seen; cbn [distinct map]; [constructor|].
  destruct (mem (fingerprint g) seen); [apply IH|]. cbn [map]. constructor; [|apply IH].
  intros (f & E & Hf)%list_elem_of_fmap. apply distinct_fresh in Hf. apply Hf. rewrite <-E. by left.
Qed.

Lemma distinct_incl seen fs f : f ∈ distinct seen fs -> f ∈ fs.
Proof.
  revert seen. induction fs as [|g fs IH]; intros seen; cbn [distinct]; [done|].
  destruct (mem (fingerprint g) seen); [intros H; right; by apply (IH seen)|].
  intros [ ->|Hf]%elem_of_cons; [by left|]. right. by apply (IH (fingerprint g :: seen)).
Qed.

Lemma first_with_distinct u seen fs : u ∉ seen -> first_with u (distinct seen fs) = first_with u fs.
Proof.
  unfold first_with. revert seen. induction fs as [|g fs IH]; intros seen Hu; [done|].
  cbn [distinct List.find]. destruct (mem_spec (fingerprint g) seen) as [Hm|Hm].
  - rewrite bool_decide_eq_false_2 by (by intros <-). by apply IH.
  - cbn [List.find]. case_bool_decide as Hg; [done|]. apply IH. by intros [ ->|]%elem_of_cons.
Qed.

(** The finding, of those given, whose fingerprint indexes the row. *)
Definition finding_for (fs : list ScanFinding) (p : POAM) : option ScanFinding :=
  List.find (fun f => bool_decide (dget (fingerprint f) index = Some (pm_id p))) fs.
Definition touch (fs : list ScanFinding) (p : POAM) : POAM :=
  match finding_for fs p with Some f => revisit today f (wk f) p | None => p end.
Lemma touch_id fs p : pm_id (touch fs p) = pm_id p.
Proof. unfold touch. destruct (finding_for fs p); [apply revisit_id|done]. Qed.
Definition unindexed (f : ScanFinding) : bool := bool_decide (dget (fingerprint f) index = None).
Definition tally (q : ScanFinding -> POAM -> bool) (fs : list ScanFinding) (rows : list POAM) : Z :=
  lcount (fun p => match finding_for fs p with Some f => q f p | None => false end) rows.

Record tidy (db : Db) : Prop := {
  td_ids : NoDup (map pm_id (db_poams db));
  td_seq : forall p, p ∈ db_poams db -> pm_id p < db_seq db;
  td_rows : forall u i, dget u index = Some i -> exists p, p ∈ db_poams db /\ pm_id p = i;
  td_inj : forall u v i, dget u index = Some i -> dget v index = Some i -> u = v }.

Lemma assign_ids i g db :
  (forall p, pm_id (g p) = pm_id p) ->
  map pm_id (db_poams (assign i g db)) = map pm_id (db_poams db).
Proof.
  intros Hg. unfold assign, update_where. simpl. rewrite map_map. apply map_ext.
  intros p. by destruct (pm_id p =? i).
Qed.

Lemma in_ids db x : x ∈ map pm_id (db_poams db) <-> exists p, p ∈ db_poams db /\ pm_id p = x.
Proof. rewrite list_elem_of_fmap. naive_solver. Qed.

Lemma assign_tidy i g db : (forall p, pm_id (g p) = pm_id p) -> tidy db -> tidy (assign i g db).
Proof.
  intros Hg [H1 H2 H3 H4]. pose proof (assign_ids i g db Hg) as E. split; [by rewrite E| | |done].
  - intros p Hp. assert (pm_id p ∈ map pm_id (db_poams db)) as (q & Hq & <-)%in_ids.
    { rewrite <-E. by apply list_elem_of_fmap_2. }
    by apply H2.
  - intros u j Hj. apply in_ids. rewrite E. apply in_ids. by eapply H3.
Qed.

Lemma append_tidy p db :
  pm_id p = db_seq db -> tidy db ->
  tidy (set_poams (db_poams db ++ [p])%list (set_seq (db_seq db + 1) db)).
Proof.
  intros Hp [H1 H2 H3 H4]. split; simpl.
  - rewrite map_app. apply NoDup_app. split; [done|]. split; [|repeat constructor; by intros ?%not_elem_of_nil].
    intros x Hx ->%list_elem_of_singleton. apply in_ids in Hx as (q & Hq & E). specialize (H2 q Hq). lia.
  - intros q [Hq| ->%list_elem_of_singleton]%elem_of_app; [specialize (H2 q Hq)|]; lia.
  - intros u i (q & ? & ?)%H3. exists q. split; [|done]. apply elem_of_app. by left.
  - done.
Qed.

Definition strangers (fs : list ScanFinding) : list ScanFinding := filter (fun f => unindexed f = true) fs.

Definition after (fs : list ScanFinding) (db : Db) : Db :=
  set_poams (map (touch fs) (db_poams db) ++ new_rows (db_seq db) sys sc today (strangers fs))%list
    (set_seq (db_seq db + Z.of_nat (List.length (strangers fs))) db).

Definition tallied (fs : list ScanFinding) (rows : list POAM) (r : ReconcileResult) : ReconcileResult :=
  {| rr_findings_total := rr_findings_total r;
     rr_created := rr_created r + Z.of_nat (List.length (strangers fs));
     rr_updated := rr_updated r + tally updates fs rows;
     rr_reopened := rr_reopened r + tally reopens fs rows;
     rr_closed := rr_closed r;
     rr_unchanged := rr_unchanged r + tally leaves fs rows |}.

(** A finding indexed by a row speaks for that row alone. *)
Lemma finding_for_cons f fs p :
  finding_for (f :: fs) p =
  if bool_decide (dget (fingerprint f) index = Some (pm_id p)) then Some f else finding_for fs p.
Proof. done. Qed.

Lemma finding_for_other db f fs p :
  tidy db -> fingerprint f ∉ map fingerprint fs ->
  dget (fingerprint f) index = Some (pm_id p) -> finding_for fs p = None.
Proof.
  intros Ht Hf Hi. unfold finding_for. destruct (List.find _ fs) as [g|] eqn:E; [|done].
  apply List.find_some in E as [Hg%list_elem_of_In Hg'%bool_decide_eq_true_1]. destruct Hf.
  rewrite (td_inj _ Ht _ _ _ Hi Hg'). by apply list_elem_of_fmap_2.
Qed.

Lemma finding_for_same_id fs p q : pm_id p = pm_id q -> finding_for fs p = finding_for fs q.
Proof. unfold finding_for. by intros ->. Qed.

Lemma finding_for_new db fs p : tidy db -> db_seq db <= pm_id p -> finding_for fs p = None.
Proof.
  intros Ht Hp. unfold finding_for. destruct (List.find _ fs) as [g|] eqn:E; [|done].
  apply List.find_some in E as [_ Hg%bool_decide_eq_true_1].
  destruct (td_rows _ Ht _ _ Hg) as (q & Hq & Hi). pose proof (td_seq _ Ht q Hq). lia.
Qed.

(** Processing an indexed finding changes its own row. *)
Lemma touch_assign db f fs p q :
  tidy db -> fingerprint f ∉ map fingerprint fs ->
  dget (fingerprint f) index = Some (pm_id p) ->
  touch fs (if pm_id q =? pm_id p then revisit today f (wk f) q else q) = touch (f :: fs) q.
Proof.
  intros Ht Hf Hi. unfold touch at 2. rewrite finding_for_cons, Hi.
  destruct (Z.eqb_spec (pm_id q) (pm_id p)) as [E|E].
  - rewrite bool_decide_eq_true_2 by congruence. unfold touch.
    rewrite (finding_for_same_id fs _ p) by (by rewrite revisit_id).
    by rewrite (finding_for_other db f fs p).
  - by rewrite bool_decide_eq_false_2 by congruence.
Qed.

Lemma tally_assign db q f fs p :
  tidy db -> fingerprint f ∉ map fingerprint fs -> p ∈ db_poams db ->
  dget (fingerprint f) index = Some (pm_id p) ->
  tally q (f :: fs) (db_poams db) =
  (if q f p then 1 else 0) +
  tally q fs (db_poams (assign (pm_id p) (revisit today f (wk f)) db)).
Proof.
  intros Ht Hf Hp Hi. unfold tally, lcount, assign, update_where. cbn [db_poams set_poams].
  rewrite lsum_map, <-(lsum_at_key pm_id (fun x => if q f x then 1 else 0) (db_poams db) p (td_ids _ Ht) Hp).
  rewrite <-lsum_plus. apply lsum_ext. intros x _. rewrite finding_for_cons, Hi.
  destruct (Z.eqb_spec (pm_id x) (pm_id p)) as [E|E].
  - rewrite bool_decide_eq_true_2 by congruence.
    rewrite (finding_for_same_id fs _ p) by (by rewrite revisit_id).
    rewrite (finding_for_other db f fs p) by done. lia.
  - rewrite bool_decide_eq_false_2 by congruence. lia.
Qed.

Lemma tally_append db q f fs p :
  tidy db -> db_seq db <= pm_id p -> unindexed f = true ->
  tally q (f :: fs) (db_poams db) = tally q fs (db_poams db ++ [p])%list.
Proof.
  intros Ht Hp Hf%bool_decide_eq_true_1. unfold tally. rewrite lcount_snoc.
  rewrite (finding_for_new db fs p) by done. rewrite Z.add_0_r.
  apply lsum_ext. intros x _. by rewrite finding_for_cons, Hf.
Qed.

Lemma reconcile_one_known db r f p :
  tidy db -> refs_ok f -> p ∈ db_poams db -> dget (fingerprint f) index = Some (pm_id p) ->
  reconcile_one sys sc today index f (db, r) =
  Ok (assign (pm_id p) (revisit today f (wk f)) db,
      count_revisited (is_resolved p) (poam_changed f (wk f) p) r).
Proof.
  intros Ht Hw Hp Hi. unfold reconcile_one. rewrite Hw. cbn [res_bind]. rewrite Hi. cbn [mbind option_bind].
  by rewrite (poam_by_id_elem _ _ (td_ids _ Ht) Hp).
Qed.

Lemma reconcile_one_new db r f :
  refs_ok f -> unindexed f = true ->
  reconcile_one sys sc today index f (db, r) =
  Ok (set_poams (db_poams db ++ [new_poam (db_seq db) sys sc today f (wk f)])%list (set_seq (db_seq db + 1) db),
      count_created r).
Proof.
  intros Hw Hi%bool_decide_eq_true_1. unfold reconcile_one. rewrite Hw. cbn [res_bind]. by rewrite Hi.
Qed.

Lemma unindexed_or db f :
  tidy db -> unindexed f = true \/
  unindexed f = false /\ exists p, p ∈ db_poams db /\ dget (fingerprint f) index = Some (pm_id p).
Proof.
  intros Ht. unfold unindexed. destruct (dget (fingerprint f) index) as [i|] eqn:E; [right|by left].
  split; [done|]. destruct (td_rows _ Ht _ _ E) as (p & ? & <-). by exists p.
Qed.

Lemma strangers_cons f fs :
  strangers (f :: fs) = if unindexed f then f :: strangers fs else strangers fs.
Proof.
  unfold strangers. rewrite filter_cons. destruct (unindexed f) eqn:E;
    [by rewrite decide_True|by rewrite decide_False].
Qed.

Lemma after_known db f fs p :
  tidy db -> fingerprint f ∉ map fingerprint fs -> unindexed f = false ->
  dget (fingerprint f) index = Some (pm_id p) ->
  after fs (assign (pm_id p) (revisit today f (wk f)) db) = after (f :: fs) db.
Proof.
  intros Ht Hf Hu Hi. unfold after. rewrite strangers_cons, Hu.
  replace (map (touch (f :: fs)) (db_poams db))
    with (map (touch fs) (db_poams (assign (pm_id p) (revisit today f (wk f)) db))); [by destruct db|].
  unfold assign, update_where. cbn [db_poams set_poams]. rewrite map_map. apply map_ext.
  intros q. by apply (touch_assign db).
Qed.

Lemma after_new db f fs :
  tidy db -> unindexed f = true ->
  after fs (set_poams (db_poams db ++ [new_poam (db_seq db) sys sc today f (wk f)])%list
    (set_seq (db_seq db + 1) db)) = after (f :: fs) db.
Proof.
  intros Ht Hu. unfold after. rewrite strangers_cons, Hu. cbn [db_poams set_poams db_seq set_seq].
  cbn [new_rows List.length]. rewrite map_app. cbn [map].
  rewrite <-app_assoc. cbn [app].
  replace (touch fs (new_poam (db_seq db) sys sc today f (wk f)))
    with (new_poam (db_seq db) sys sc today f (wk f)).
  2:{ unfold touch. by rewrite (finding_for_new db) by (try done; simpl; lia). }
  replace (map (touch (f :: fs)) (db_poams db)) with (map (touch fs) (db_poams db)).
  2:{ apply map_ext. intros q. unfold touch. rewrite finding_for_cons.
      apply bool_decide_eq_true_1 in Hu. by rewrite Hu. }
  replace (db_seq db + 1 + Z.of_nat (List.length (strangers fs)))
    with (db_seq db + Z.of_nat (S (List.length (strangers fs)))) by lia.
  by destruct db.
Qed.

Lemma apply_all_spec fs db r :
  tidy db -> NoDup (map fingerprint fs) -> Forall refs_ok fs ->
  apply_all fs (db, r) = Ok (after fs db, tallied fs (db_poams db) r).
Proof.
  revert db r. induction fs as [|f fs IH]; intros db r Ht Hnd Hw; cbn [apply_all].
  - f_equal. f_equal.
    + unfold after. cbn [strangers new_rows filter List.length list_filter].
      rewrite app_nil_r, Z.add_0_r. replace (map (touch []) (db_poams db)) with (db_poams db); [by destruct db|].
      symmetry. apply list_fmap_id.
    + unfold tallied, tally, lcount. cbn [finding_for List.find].
      rewrite lsum_const. destruct r. cbn. f_equal; lia.
  - cbn [map] in Hnd. apply NoDup_cons in Hnd as [Hf Hnd]. apply Forall_cons in Hw as [Hw Hws].
    destruct (unindexed_or db f Ht) as [Hu|(Hu & p & Hp & Hi)].
    + rewrite reconcile_one_new by done. cbn [res_bind].
      rewrite IH; [|by apply append_tidy|done..]. rewrite after_new by done. f_equal. f_equal.
      unfold tallied, count_created. rewrite strangers_cons, Hu. cbn [List.length].
      cbn [db_poams set_poams rr_findings_total rr_created rr_updated rr_reopened rr_closed rr_unchanged].
      rewrite !(tally_append db _ f fs (new_poam (db_seq db) sys sc today f (wk f))) by (try done; simpl; lia).
      f_equal. lia.
    + rewrite (reconcile_one_known db r f p) by done. cbn [res_bind].
      rewrite IH; [|apply assign_tidy; [intros; apply revisit_id|done]|done..].
      rewrite after_known by done. f_equal. f_equal.
      unfold tallied, count_revisited. rewrite strangers_cons, Hu.
      cbn [rr_findings_total rr_created rr_updated rr_reopened rr_closed rr_unchanged].
      rewrite !(tally_assign db _ f fs p) by done. unfold updates, reopens, leaves.
      f_equal; lia.
Qed.

Definition processed (r : ReconcileResult) : Z :=
  rr_created r + rr_updated r + rr_reopened r + rr_unchanged r.

(** Every finding keeps the table tidy and counts once. *)
Lemma apply_all_keeps fs db r db' r' :
  tidy db -> Forall refs_ok fs -> apply_all fs (db, r) = Ok (db', r') ->
  tidy db' /\ processed r' = processed r + Z.of_nat (List.length fs).
Proof.
  revert db r. induction fs as [|f fs IH]; intros db r Ht Hw; cbn [apply_all List.length].
  { intros [= <- <-]. split; [done|lia]. }
  apply Forall_cons in Hw as [Hw Hws]. destruct (unindexed_or db f Ht) as [Hu|(Hu & p & Hp & Hi)].
  - rewrite reconcile_one_new by done. cbn [res_bind].
    intros [? ->]%IH; [|by apply append_tidy|done]. split; [done|]. unfold processed, count_created. simpl. lia.
  - rewrite (reconcile_one_known db r f p) by done. cbn [res_bind].
    intros [? ->]%IH; [|apply assign_tidy; [intros; apply revisit_id|done]|done]. split; [done|].
    unfold processed, count_revisited. simpl. destruct (is_resolved p), (poam_changed f (wk f) p); simpl; lia.
Qed.
End loop.

(** ** The closing loop *)

Definition gone (seen : list string) (l : list (string * Z)) (p : POAM) : bool :=
  existsb (fun ui => (ui.2 =? pm_id p) && negb (mem ui.1 seen)) l && mem (pm_status p) OPEN_STATES.

Lemma gone_absent seen l q : pm_id q ∉ map snd l -> gone seen l q = false.
Proof.
  intros Hi. unfold gone. apply andb_false_iff. left. apply not_true_iff_false. intros Hex.
  apply existsb_exists in Hex as ([v j] & Hin%list_elem_of_In & [Hj%Z.eqb_eq _]%andb_true_iff).
  simpl in Hj. apply Hi. rewrite <-Hj. by apply (list_elem_of_fmap_2 snd l (v, j)).
Qed.

Lemma gone_other seen u i l q : pm_id q <> i -> gone seen ((u, i) :: l) q = gone seen l q.
Proof.
  intros Hq. unfold gone. cbn [existsb snd]. by rewrite (proj2 (Z.eqb_neq i (pm_id q))) by congruence.
Qed.

Lemma gone_self seen u i l q :
  pm_id q = i -> gone seen l q = false ->
  gone seen ((u, i) :: l) q = negb (mem u seen) && mem (pm_status q) OPEN_STATES.
Proof.
  unfold gone. intros Hq Hno. cbn [existsb snd fst]. rewrite (proj2 (Z.eqb_eq i (pm_id q))) by done.
  by destruct (mem u seen).
Qed.

Lemma close_all sc today seen l db r :
  NoDup (map pm_id (db_poams db)) -> NoDup (map snd l) ->
  (forall ui, ui ∈ l -> exists p, p ∈ db_poams db /\ pm_id p = ui.2) ->
  foldl (close_one sc today seen) (db, r) l =
  (set_poams (map (fun p => if gone seen l p then auto_close sc today p else p) (db_poams db)) db,
   {| rr_findings_total := rr_findings_total r; rr_created := rr_created r;
      rr_updated := rr_updated r; rr_reopened := rr_reopened r;
      rr_closed := rr_closed r + lcount (gone seen l) (db_poams db);
      rr_unchanged := rr_unchanged r |}).
Proof.
  revert db r. induction l as [|[u i] l IH]; intros db r Hids Hnd Hl; cbn [foldl].
  { f_equal; [|unfold lcount, gone; cbn [existsb andb]; rewrite lsum_const; destruct r; cbn; f_equal; lia].
    replace (map _ (db_poams db)) with (db_poams db); [by destruct db|]. symmetry. apply list_fmap_id. }
  cbn [map snd] in Hnd. apply NoDup_cons in Hnd as [Hi Hnd].
  destruct (Hl (u, i) ltac:(by left)) as (p & Hp & E). simpl in E.
  assert (Hone : forall q, q ∈ db_poams db -> pm_id q = i -> q = p)
    by (intros q Hq Hqi; eapply (key_inj pm_id); [exact Hids| | |]; congruence).
  assert (Hno : forall q, pm_id q = i -> gone seen l q = false) by (intros q <-; by apply gone_absent).
  assert (Hother : forall q, pm_id q <> i -> gone seen ((u, i) :: l) q = gone seen l q)
    by (intros q; apply gone_other).
  assert (Hself : forall q, pm_id q = i ->
    gone seen ((u, i) :: l) q = negb (mem u seen) && mem (pm_status q) OPEN_STATES)
    by (intros q Hq; apply gone_self; [done|by apply Hno]).
  assert (Hp' : poam_by_id i db = Some p) by (rewrite <-E; by apply poam_by_id_elem).
  unfold close_one at 2. cbn [fst snd]. rewrite Hp'.
  destruct (mem u seen || negb (mem (pm_status p) OPEN_STATES)) eqn:Ec.
  - assert (Hsame : forall q, q ∈ db_poams db -> gone seen ((u, i) :: l) q = gone seen l q).
    { intros q Hq. destruct (Z.eq_dec (pm_id q) i) as [Hqi|Hqi]; [|by apply Hother].
      rewrite Hself, Hno by done. rewrite (Hone q) by done.
      by destruct (mem u seen), (mem (pm_status p) OPEN_STATES). }
    rewrite IH; [|done|done|intros ui Hui; apply Hl; by right]. f_equal.
    + f_equal. apply map_ext_in. intros q Hq%list_elem_of_In. by rewrite Hsame.
    + f_equal. f_equal. apply lsum_ext. intros q Hq. by rewrite Hsame.
  - apply orb_false_iff in Ec as [Eu Es%negb_false_iff].
    rewrite IH; [|by rewrite assign_ids|done|].
    2:{ intros ui Hui. destruct (Hl ui) as (q & Hq & Hqi); [by right|].
        apply in_ids. rewrite assign_ids by done. apply in_ids. by exists q. }
    unfold assign, update_where. cbn [db_poams set_poams]. f_equal.
    + rewrite map_map. replace (map _ (db_poams db)) with
        (map (fun q => if gone seen ((u, i) :: l) q then auto_close sc today q else q) (db_poams db));
        [by destruct db|].
      apply map_ext_in. intros q Hq%list_elem_of_In. rewrite E. destruct (Z.eqb_spec (pm_id q) i) as [Hqi|Hqi].
      * rewrite Hself, (Hone q), Eu, Es by done. cbn [negb andb]. by rewrite Hno.
      * by rewrite Hother.
    + unfold count_closed. cbn [rr_findings_total rr_created rr_updated rr_reopened rr_closed rr_unchanged].
      f_equal. unfold lcount. rewrite lsum_map.
      rewrite <-Z.add_assoc. f_equal.
      rewrite <-(lsum_at_key pm_id (fun _ => 1) (db_poams db) p Hids Hp) at 1. rewrite <-lsum_plus.
      apply lsum_ext. intros q Hq. rewrite E. destruct (Z.eqb_spec (pm_id q) i) as [Hqi|Hqi].
      * rewrite Hself, (Hone q), Eu, Es by done. cbn [negb andb]. by rewrite Hno.
      * rewrite Hother by done. lia.
Qed.

(** ** Rows, index and findings together *)

Section together.
Context (sys : Z) (sc : string) (today : Z) (fs : list ScanFinding) (db : Db).
Hypothesis wf : scan_wf sys sc db.
Notation index := (by_uid sys sc db).

Lemma index_tidy : tidy index db.
Proof.
  split; [apply wf..| |].
  - intros u i (p & Hp & _ & _ & Hi)%(by_uid_spec sys sc db u i wf). by exists p.
  - intros u v i (p & Hp & _ & Hu & Hi)%(by_uid_spec sys sc db u i wf)
      (q & Hq & _ & Hv & Hj)%(by_uid_spec sys sc db v i wf).
    assert (p = q) as -> by (eapply (key_inj pm_id); [apply wf|done|done|congruence]). congruence.
Qed.

Lemma index_ids : NoDup (map snd index).
Proof.
  assert (forall ui, ui ∈ index -> dget ui.1 index = Some ui.2) as Hget.
  { intros [u i] H. apply dget_elem; [|done]. apply by_uid_keys. constructor. }
  assert (NoDup (dkeys index)) as Hk by (apply by_uid_keys; constructor).
  pose proof (td_inj _ _ index_tidy) as Hinj. revert Hget Hk. generalize index at 1 3 4.
  intros l. induction l as [|[u i] l IH]; intros Hget Hk; [constructor|]. cbn [map snd].
  cbn [dkeys map fst] in Hk. apply NoDup_cons in Hk as [Hu Hk]. constructor.
  - intros ([v j] & E & Hin)%list_elem_of_fmap. simpl in E. subst j. apply Hu.
    assert (u = v) as ->; [|by apply (list_elem_of_fmap_2 fst l (v, i))].
    apply (Hinj u v i); [apply (Hget (u, i)); by left|apply (Hget (v, i)); by right].
  - apply IH; [|done]. intros ui Hui. apply Hget. by right.
Qed.

(** The index sends a row's own fingerprint, and no other, to the row. *)
Lemma index_row p u :
  p ∈ db_poams db ->
  dget u index = Some (pm_id p) <-> tracked sys sc p = true /\ pm_finding_uid p = Some u.
Proof.
  intros Hp. rewrite (by_uid_spec sys sc db u _ wf). split; [|by intros [? ?]; exists p].
  intros (q & Hq & Ht & Hu & Hi). by assert (q = p) as <- by (eapply (key_inj pm_id); [apply wf|done..]).
Qed.

Lemma find_ext {A} (f g : A -> bool) l : (forall x, f x = g x) -> List.find f l = List.find g l.
Proof. intros H. induction l as [|x l IH]; [done|]. simpl. by rewrite H, IH. Qed.

Lemma find_none_all {A} (f : A -> bool) l : (forall x, f x = false) -> List.find f l = None.
Proof. intros H. induction l as [|x l IH]; [done|]. simpl. by rewrite H. Qed.

Lemma finding_for_row p :
  p ∈ db_poams db ->
  finding_for index (distinct [] fs) p = if tracked sys sc p then reported_by fs p else None.
Proof.
  intros Hp. unfold finding_for, reported_by. destruct (tracked sys sc p) eqn:Ht.
  - assert (Ht' := Ht). apply tracked_uid in Ht' as (_ & u & Hu & _). rewrite Hu. change (or_empty (Some u)) with u.
    rewrite <-(first_with_distinct u [] fs) by apply not_elem_of_nil.
    apply find_ext. intros f. apply bool_decide_ext. rewrite index_row, Hu, Ht by done. naive_solver.
  - apply find_none_all. intros f. apply bool_decide_eq_false_2. rewrite index_row by done. by intros [? _]; congruence.
Qed.

Lemma touch_row p :
  p ∈ db_poams db ->
  touch today index (distinct [] fs) p =
  match (if tracked sys sc p then reported_by fs p else None) with
  | Some f => revisit today f (wk f) p | None => p end.
Proof. intros Hp. unfold touch. by rewrite finding_for_row. Qed.

Lemma seen_iff u :
  u ∈ (rev (map fingerprint (distinct [] fs)) ++ [])%list <-> first_with u fs <> None.
Proof.
  rewrite app_nil_r, list_elem_of_In, <-in_rev, <-list_elem_of_In, list_elem_of_fmap.
  rewrite <-(first_with_distinct u [] fs) by apply not_elem_of_nil. unfold first_with. split.
  - intros (f & -> & Hf) Hn. apply list_elem_of_In in Hf. apply (List.find_none _ _ Hn) in Hf.
    simpl in Hf. by rewrite bool_decide_eq_true_2 in Hf.
  - destruct (List.find _ _) as [f|] eqn:E; [|done]. intros _.
    apply List.find_some in E as [Hf%list_elem_of_In Hu%bool_decide_eq_true_1]. by exists f.
Qed.

Lemma gone_row p q :
  p ∈ db_poams db -> pm_id q = pm_id p ->
  gone (rev (map fingerprint (distinct [] fs)) ++ [])%list index q =
  tracked sys sc p && bool_decide (reported_by fs p = None) && mem (pm_status q) OPEN_STATES.
Proof.
  intros Hp Hid. unfold gone. f_equal. apply eq_true_iff_eq. rewrite existsb_exists, andb_true_iff.
  rewrite bool_decide_eq_true. split.
  - intros ([u i] & Hin%list_elem_of_In & [Hi%Z.eqb_eq Hs%negb_true_iff]%andb_true_iff). simpl in Hi, Hs.
    assert (dget u index = Some (pm_id p)) as Hd.
    { rewrite <-Hid, <-Hi. apply dget_elem; [|done]. apply by_uid_keys. constructor. }
    apply index_row in Hd as [Ht Hu]; [|done]. split; [done|]. unfold reported_by. rewrite Hu. simpl.
    apply mem_false in Hs. rewrite seen_iff in Hs. by destruct (first_with u fs); [destruct Hs|].
  - intros [Ht Hr]. assert (Ht' := Ht). apply tracked_uid in Ht' as (_ & u & Hu & _).
    exists (u, pm_id p). split.
    { apply list_elem_of_In, dget_Some_elem, index_row; done. }
    simpl. rewrite Hid, Z.eqb_refl. simpl. apply negb_true_iff, mem_false. rewrite seen_iff.
    unfold reported_by in Hr. rewrite Hu in Hr. simpl in Hr. by intros [].
Qed.

Lemma unindexed_unknown f : unindexed index f = unknown sys sc (db_poams db) f.
Proof.
  unfold unindexed, unknown. apply eq_true_iff_eq. rewrite bool_decide_eq_true, negb_true_iff.
  rewrite <-not_true_iff_false, existsb_exists. split.
  - intros Hn (p & Hp%list_elem_of_In & [Ht Hu%bool_decide_eq_true_1]%andb_true_iff).
    by rewrite (proj2 (index_row p (fingerprint f) Hp) (conj Ht Hu)) in Hn.
  - intros Hn. destruct (dget (fingerprint f) index) as [i|] eqn:E; [|done]. destruct Hn.
    apply (by_uid_spec sys sc db _ _ wf) in E as (p & Hp & Ht & Hu & _). exists p.
    split; [by apply list_elem_of_In|]. by rewrite Ht, bool_decide_eq_true_2.
Qed.

Definition fresh : list ScanFinding :=
  filter (fun f => unknown sys sc (db_poams db) f = true) (distinct [] fs).

Lemma strangers_fresh : strangers index (distinct [] fs) = fresh.
Proof. apply list_filter_iff. intros f. by rewrite unindexed_unknown. Qed.

Lemma tally_reported q :
  tally index q (distinct [] fs) (db_poams db) = reported_count sys sc fs q (db_poams db).
Proof. apply lsum_ext. intros p Hp. by rewrite finding_for_row. Qed.

Lemma new_rows_elem i l p :
  p ∈ new_rows i sys sc today l ->
  exists k f, l !! k = Some f /\ p = new_poam (i + Z.of_nat k) sys sc today f (wk f).
Proof.
  revert i. induction l as [|f l IH]; intros i; cbn [new_rows]; [by intros ?%not_elem_of_nil|].
  intros [ ->|Hp]%elem_of_cons; [exists 0%nat, f; split; [done|f_equal; lia]|].
  destruct (IH _ Hp) as (k & g & Hk & ->). exists (S k), g. split; [done|f_equal; lia].
Qed.

Lemma fate_of_touched p :
  p ∈ db_poams db ->
  let q := touch today index (distinct [] fs) p in
  (if gone (rev (map fingerprint (distinct [] fs)) ++ [])%list index q
   then auto_close sc today q else q) = row_fate sys sc fs today p.
Proof.
  intros Hp q. rewrite (gone_row p q) by (done || apply touch_id). unfold row_fate, q. rewrite touch_row by done.
  destruct (tracked sys sc p); [|done]. destruct (reported_by fs p) as [f|]; [done|].
  rewrite bool_decide_eq_true_2 by done. done.
Qed.

Definition exact_result : ReconcileResult :=
  {| rr_findings_total := Z.of_nat (List.length fs);
     rr_created := Z.of_nat (List.length fresh);
     rr_updated := reported_count sys sc fs updates (db_poams db);
     rr_reopened := reported_count sys sc fs reopens (db_poams db);
     rr_closed := lcount (left_out sys sc fs) (db_poams db);
     rr_unchanged := reported_count sys sc fs leaves (db_poams db) |}.

Definition exact_db : Db :=
  set_poams (map (row_fate sys sc fs today) (db_poams db) ++
             new_rows (db_seq db) sys sc today fresh)%list
    (set_seq (db_seq db + Z.of_nat (List.length fresh)) db).

Lemma new_not_gone p :
  p ∈ new_rows (db_seq db) sys sc today fresh ->
  gone (rev (map fingerprint (distinct [] fs)) ++ [])%list index p = false.
Proof.
  intros (k & f & _ & ->)%new_rows_elem. unfold gone. apply andb_false_iff. left.
  apply not_true_iff_false. intros Hex. apply existsb_exists in Hex as ([u i] & Hin%list_elem_of_In & [Hi%Z.eqb_eq _]%andb_true_iff).
  simpl in Hi. apply dget_elem in Hin; [|apply by_uid_keys; constructor].
  destruct (td_rows _ _ index_tidy _ _ Hin) as (q & Hq & Hqi).
  pose proof (sw_seq _ _ _ wf q Hq). lia.
Qed.

Hypothesis all_refs_ok : Forall refs_ok fs.

Lemma distinct_refs_ok : Forall refs_ok (distinct [] fs).
Proof. rewrite Forall_forall in all_refs_ok |- *. intros f Hf. by eapply all_refs_ok, distinct_incl. Qed.

(** The code's dictionary, seen-set and in-place assignments amount to giving
    each row its fate and adding the unknown findings. *)
Lemma reconcile_exact : reconcile_findings sys sc fs today db = Ok (exact_db, exact_result).
Proof.
  unfold reconcile_findings. rewrite reconcile_loop_distinct.
  set (r0 := {| rr_findings_total := _ |}).
  pose proof (apply_all_spec sys sc today index (distinct [] fs) db r0 index_tidy
    (distinct_NoDup [] fs) distinct_refs_ok) as E.
  pose proof (apply_all_keeps sys sc today index _ _ _ _ _ index_tidy distinct_refs_ok E) as [Ht _].
  rewrite E. cbn [res_bind]. f_equal. rewrite close_all; [|apply Ht|apply index_ids|].
  2:{ intros [u i] Hin. apply (td_rows _ _ Ht u). apply dget_elem; [|done]. apply by_uid_keys. constructor. }
  unfold after. rewrite strangers_fresh. cbn [db_poams set_poams]. f_equal.
  - unfold exact_db. rewrite map_app, map_map.
    rewrite (map_ext_in _ (row_fate sys sc fs today) (db_poams db))
      by (intros p Hp%list_elem_of_In; by apply fate_of_touched).
    rewrite (map_ext_in _ id (new_rows _ _ _ _ _)), map_id; [by destruct db|].
    intros p Hp%list_elem_of_In. by rewrite new_not_gone.
  - unfold tallied, exact_result, r0. rewrite strangers_fresh, !tally_reported. cbn.
    f_equal. unfold lcount. rewrite lsum_app, lsum_map, Z.add_0_l.
    rewrite (lsum_ext _ (fun _ => 0) (new_rows _ _ _ _ _)), lsum_const, Z.mul_0_l, Z.add_0_r
      by (intros p Hp; by rewrite new_not_gone).
    apply lsum_ext. intros p Hp.
    rewrite (gone_row p) by (done || apply touch_id). unfold left_out. rewrite touch_row by done.
    destruct (tracked sys sc p); [|done]. destruct (reported_by fs p); [|done].
    by rewrite bool_decide_eq_false_2.
Qed.

Lemma exact_processed : processed exact_result = Z.of_nat (List.length (distinct [] fs)).
Proof.
  pose proof (apply_all_spec sys sc today index (distinct [] fs) db exact_result index_tidy
    (distinct_NoDup [] fs) distinct_refs_ok) as E.
  pose proof (apply_all_keeps sys sc today index _ _ _ _ _ index_tidy distinct_refs_ok E) as [_ Hp].
  revert Hp. unfold processed, tallied. cbn [rr_created rr_updated rr_reopened rr_unchanged].
  rewrite strangers_fresh, !tally_reported. cbn. lia.
Qed.

(** ** The table stays well formed *)

Lemma row_fate_keeps p :
  let q := row_fate sys sc fs today p in
  pm_id q = pm_id p /\ pm_finding_uid q = pm_finding_uid p /\ tracked sys sc q = tracked sys sc p.
Proof.
  unfold row_fate. destruct (tracked sys sc p) eqn:Ht; [|done].
  destruct (reported_by fs p) as [f|].
  - unfold revisit. by destruct (is_resolved p).
  - by destruct (mem (pm_status p) OPEN_STATES).
Qed.

Lemma row_fate_status p : pm_status p ∈ POAM_STATUSES -> pm_status (row_fate sys sc fs today p) ∈ POAM_STATUSES.
Proof.
  intros Hp. unfold row_fate. destruct (tracked sys sc p); [|done].
  destruct (reported_by fs p) as [f|].
  - unfold revisit. destruct (is_resolved p); [by left|done].
  - destruct (mem (pm_status p) OPEN_STATES); [simpl; in_list|done].
Qed.

Lemma new_row_uid f : str_truthy (fingerprint f) = true.
Proof.
  unfold fingerprint. pose proof (sha256_length (utf8 (sf_scanner f +:+ "|" +:+ sf_native_id f +:+ "|" +:+ sf_asset f))) as H.
  destruct (sha256 _) as [|b l]; [done|]. done.
Qed.

Lemma new_poam_tracked i f w : tracked sys sc (new_poam i sys sc today f w) = true.
Proof.
  apply tracked_uid. split; [|exists (fingerprint f); split; [done|apply new_row_uid]].
  unfold in_scope. simpl. by rewrite !bool_decide_eq_true_2.
Qed.

Lemma fresh_unknown f p :
  f ∈ fresh -> p ∈ db_poams db -> tracked sys sc p = true -> pm_finding_uid p <> Some (fingerprint f).
Proof.
  intros [Hu _]%list_elem_of_filter Hp Ht E. unfold unknown in Hu.
  apply negb_true_iff, not_true_iff_false in Hu. apply Hu, existsb_exists. exists p.
  split; [by apply list_elem_of_In|]. by rewrite Ht, bool_decide_eq_true_2.
Qed.

Lemma fresh_NoDup : NoDup (map fingerprint fresh).
Proof.
  eapply sublist_NoDup; [apply (distinct_NoDup [] fs)|].
  apply (fmap_sublist fingerprint), sublist_filter.
Qed.

Lemma new_rows_ids i l : map pm_id (new_rows i sys sc today l) = seqZ i (Z.of_nat (List.length l)).
Proof.
  revert i. induction l as [|f l IH]; intros i; [done|].
  cbn [new_rows map List.length]. rewrite IH, (seqZ_cons i (Z.of_nat (S _))) by lia.
  by rewrite Nat2Z.inj_succ, Z.pred_succ.
Qed.

Lemma exact_rows p :
  p ∈ db_poams exact_db <->
  (exists q, q ∈ db_poams db /\ p = row_fate sys sc fs today q) \/
  p ∈ new_rows (db_seq db) sys sc today fresh.
Proof.
  unfold exact_db. cbn [db_poams set_poams]. rewrite elem_of_app, list_elem_of_fmap. naive_solver.
Qed.

Lemma exact_wf : scan_wf sys sc exact_db.
Proof.
  assert (Hids : map pm_id (map (row_fate sys sc fs today) (db_poams db)) = map pm_id (db_poams db)).
  { rewrite map_map. apply map_ext. intros p. apply row_fate_keeps. }
  split.
  - unfold exact_db. cbn [db_poams set_poams]. rewrite map_app, Hids, new_rows_ids. apply NoDup_app.
    split; [apply wf|]. split; [|apply NoDup_seqZ].
    intros x (p & -> & Hp)%list_elem_of_fmap Hx%elem_of_seqZ. pose proof (sw_seq _ _ _ wf p Hp). lia.
  - intros p. rewrite exact_rows. unfold exact_db. cbn [db_seq set_poams set_seq].
    intros [(q & Hq & ->)|(k & f & Hk & ->)%new_rows_elem].
    + destruct (row_fate_keeps q) as [-> _]. pose proof (sw_seq _ _ _ wf q Hq). lia.
    + apply lookup_lt_Some in Hk. simpl. lia.
  - intros p [(q & Hq & ->)|(k & f & Hk & ->)%new_rows_elem]%exact_rows; [|by left].
    by apply row_fate_status, wf.
  - assert (Hmix : forall p f i w, p ∈ db_poams db -> f ∈ fresh -> tracked sys sc p = true ->
      pm_finding_uid p = pm_finding_uid (new_poam i sys sc today f w) -> False)
      by (intros p f i w Hp Hf Ht E; by apply (fresh_unknown f p)).
    intros p q [(p0 & Hp & ->)|(k & f & Hk & ->)%new_rows_elem]%exact_rows
      [(q0 & Hq & ->)|(l & g & Hl & ->)%new_rows_elem]%exact_rows.
    + destruct (row_fate_keeps p0) as (-> & -> & ->), (row_fate_keeps q0) as (-> & -> & ->).
      by apply wf.
    + destruct (row_fate_keeps p0) as (_ & -> & ->). intros Ht _ E. exfalso.
      eapply (Hmix p0 g); eauto. by eapply list_elem_of_lookup_2.
    + destruct (row_fate_keeps q0) as (_ & -> & ->). intros _ Ht E. exfalso.
      eapply (Hmix q0 f); eauto. by eapply list_elem_of_lookup_2.
    + intros _ _ [= E]. simpl. do 2 f_equal. eapply NoDup_lookup; [apply fresh_NoDup| |].
      * by rewrite list_lookup_fmap, Hk.
      * rewrite list_lookup_fmap, Hl. simpl. by rewrite E.
Qed.
End together.

(** ** The same scan again *)

(** A row the scan has already been applied to; [complete] when also the title
    is the finding's. *)
Definition settled (sys : Z) (sc : string) (fs : list ScanFinding) (p : POAM) : Prop :=
  tracked sys sc p = true ->
  match reported_by fs p with
  | Some f => is_resolved p = false /\ pm_severity p = sf_severity f /\ pm_weakness p = Some (wk f)
  | None => mem (pm_status p) OPEN_STATES = false
  end.
Definition complete (sys : Z) (sc : string) (fs : list ScanFinding) (p : POAM) : Prop :=
  settled sys sc fs p /\
  (tracked sys sc p = true -> forall f, reported_by fs p = Some f -> pm_title p = str_take512 (sf_title f)).

Lemma settled_fate sys sc fs today p :
  settled sys sc fs (row_fate sys sc fs today p).
Proof.
  intros Ht. destruct (row_fate_keeps sys sc today fs p) as (_ & Eu & Et). rewrite Et in Ht.
  unfold reported_by. rewrite Eu. fold (reported_by fs p). unfold row_fate. rewrite Ht.
  destruct (reported_by fs p) as [f|].
  - unfold revisit. by destruct (is_resolved p) eqn:E.
  - destruct (mem (pm_status p) OPEN_STATES) eqn:E; done.
Qed.

Lemma complete_new sys sc fs today i f :
  first_with (fingerprint f) fs = Some f -> complete sys sc fs (new_poam i sys sc today f (wk f)).
Proof.
  intros Hf. assert (E : reported_by fs (new_poam i sys sc today f (wk f)) = Some f) by exact Hf.
  split; intros _; rewrite E; [done|]. by intros g [= <-].
Qed.

(** A settled row that is reported is only refreshed; a complete row stays. *)
Lemma fate_settled sys sc fs today p :
  settled sys sc fs p -> complete sys sc fs (row_fate sys sc fs today p).
Proof.
  intros Hs. split; [apply settled_fate|]. destruct (row_fate_keeps sys sc today fs p) as (_ & Eu & Et).
  rewrite Et. intros Ht f. unfold reported_by. rewrite Eu. fold (reported_by fs p). intros Hf.
  specialize (Hs Ht). rewrite Hf in Hs. destruct Hs as (Hr & _).
  unfold row_fate. rewrite Ht, Hf. unfold revisit. by rewrite Hr.
Qed.

Lemma fate_complete sys sc fs today p : complete sys sc fs p -> row_fate sys sc fs today p = p.
Proof.
  intros [Hs Hc]. unfold row_fate. destruct (tracked sys sc p) eqn:Ht; [|done]. specialize (Hs Ht).
  destruct (reported_by fs p) as [f|] eqn:Hf; [|by rewrite Hs].
  destruct Hs as (Hr & Hsev & Hw). specialize (Hc eq_refl f eq_refl). unfold revisit. rewrite Hr.
  unfold refresh. rewrite <-Hsev, <-Hw, <-Hc. by destruct p.
Qed.

Lemma settled_counts sys sc fs rows :
  Forall (settled sys sc fs) rows ->
  reported_count sys sc fs reopens rows = 0 /\ lcount (left_out sys sc fs) rows = 0.
Proof.
  rewrite Forall_forall. intros H. split; apply lcount_none; intros p Hp; specialize (H p Hp).
  - destruct (tracked sys sc p) eqn:Ht; [|done]. specialize (H Ht).
    destruct (reported_by fs p) as [f|]; [|done]. apply H.
  - unfold left_out. destruct (tracked sys sc p) eqn:Ht; [|done]. specialize (H Ht).
    destruct (reported_by fs p) as [f|]; [by rewrite bool_decide_eq_false_2|]. rewrite H. apply andb_false_r.
Qed.

Lemma complete_counts sys sc fs rows :
  Forall (complete sys sc fs) rows -> reported_count sys sc fs updates rows = 0.
Proof.
  rewrite Forall_forall. intros H. apply lcount_none. intros p Hp. destruct (H p Hp) as [Hs Hc].
  destruct (tracked sys sc p) eqn:Ht; [|done]. specialize (Hs Ht).
  destruct (reported_by fs p) as [f|] eqn:Hf; [|done]. destruct Hs as (_ & Hsev & Hw).
  specialize (Hc eq_refl f eq_refl). unfold updates, poam_changed. rewrite Hsev, Hw, Hc.
  rewrite !bool_decide_eq_false_2 by (intros []; done). apply andb_false_r.
Qed.

Lemma new_rows_has i sys sc today l f :
  f ∈ l -> exists j, new_poam j sys sc today f (wk f) ∈ new_rows i sys sc today l.
Proof.
  revert i. induction l as [|g l IH]; intros i; [by intros ?%not_elem_of_nil|]. cbn [new_rows].
  intros [ ->|Hf]%elem_of_cons; [exists i; by left|]. destruct (IH (i + 1) Hf) as [j Hj].
  exists j. by right.
Qed.

Lemma known_false sys sc rows f p :
  p ∈ rows -> tracked sys sc p = true -> pm_finding_uid p = Some (fingerprint f) ->
  unknown sys sc rows f = false.
Proof.
  intros Hp Ht Hu. unfold unknown. apply negb_false_iff, existsb_exists. exists p.
  split; [by apply list_elem_of_In|]. by rewrite Ht, bool_decide_eq_true_2.
Qed.

(** After a scan, no finding of it is unknown. *)
Lemma fresh_after sys sc fs today db :
  fresh sys sc fs (exact_db sys sc today fs db) = [].
Proof.
  apply filter_none. intros f Hf Hu.
  destruct (unknown sys sc (db_poams db) f) eqn:E.
  - destruct (new_rows_has (db_seq db) sys sc today (fresh sys sc fs db) f) as [j Hj].
    { by apply list_elem_of_filter. }
    rewrite (known_false _ _ _ f (new_poam j sys sc today f (wk f))) in Hu; [done| | |done].
    + apply exact_rows. by right.
    + apply new_poam_tracked.
  - unfold unknown in E. apply negb_false_iff, existsb_exists in E as
      (p & Hp%list_elem_of_In & [Ht Hpu%bool_decide_eq_true_1]%andb_true_iff).
    destruct (row_fate_keeps sys sc today fs p) as (_ & Eu & Et).
    rewrite (known_false _ _ _ f (row_fate sys sc fs today p)) in Hu; [done| |congruence|congruence].
    apply exact_rows. left. by exists p.
Qed.

(** A distinct finding is the first with its fingerprint. *)
Lemma first_with_self seen fs f : f ∈ distinct seen fs -> first_with (fingerprint f) fs = Some f.
Proof.
  intros Hf. pose proof (distinct_fresh _ _ _ Hf) as Hn.
  rewrite <-(first_with_distinct _ seen) by done. pose proof (distinct_NoDup seen fs) as Hnd.
  revert Hf Hnd. generalize (distinct seen fs). intros l. unfold first_with.
  induction l as [|g l IH]; [by intros ?%not_elem_of_nil|]. cbn [map List.find].
  intros [ ->|Hf]%elem_of_cons [Hg Hnd]%NoDup_cons; [by rewrite bool_decide_eq_true_2|].
  case_bool_decide as E; [|auto]. destruct Hg. rewrite E. by apply list_elem_of_fmap_2.
Qed.

Lemma exact_settled sys sc fs today db :
  Forall (settled sys sc fs) (db_poams (exact_db sys sc today fs db)).
Proof.
  apply Forall_forall. intros p [(q & _ & ->)|(k & f & Hk & ->)%new_rows_elem]%exact_rows;
    [apply settled_fate|].
  apply complete_new. apply list_elem_of_lookup_2 in Hk. apply list_elem_of_filter in Hk as [_ Hf].
  by apply (first_with_self []).
Qed.

(** A run on a table the scan was already applied to. *)
Lemma rescan_settled sys sc fs today db :
  scan_wf sys sc db -> Forall refs_ok fs -> Forall (settled sys sc fs) (db_poams db) ->
  fresh sys sc fs db = [] ->
  reconcile_findings sys sc fs today db =
  Ok (set_poams (map (row_fate sys sc fs today) (db_poams db)) db,
      {| rr_findings_total := Z.of_nat (List.length fs); rr_created := 0;
         rr_updated := reported_count sys sc fs updates (db_poams db);
         rr_reopened := 0; rr_closed := 0;
         rr_unchanged := Z.of_nat (List.length (distinct [] fs)) -
                         reported_count sys sc fs updates (db_poams db) |}).
Proof.
  intros wf Hr Hs Hf. rewrite reconcile_exact by done. f_equal. f_equal.
  - unfold exact_db. rewrite Hf. cbn [new_rows List.length]. rewrite app_nil_r, Z.add_0_r. by destruct db.
  - pose proof (exact_processed sys sc today fs db wf Hr) as Hp.
    destruct (settled_counts _ _ _ _ Hs) as [H1 H2].
    revert Hp. unfold processed, exact_result. cbn. rewrite Hf, H1, H2. cbn. intros Hp. f_equal. lia.
Qed.

Lemma ok_fst {A B} (a a' : A) (b b' : B) : Ok (a, b) = Ok (a', b') -> a = a'.
Proof. by intros [= -> _]. Qed.
Lemma ok_snd {A B} (a a' : A) (b b' : B) : Ok (a, b) = Ok (a', b') -> b = b'.
Proof. by intros [= _ ->]. Qed.

Lemma fate_complete_db sys sc fs today db :
  Forall (complete sys sc fs) (db_poams db) ->
  set_poams (map (row_fate sys sc fs today) (db_poams db)) db = db.
Proof.
  rewrite Forall_forall. intros H. rewrite (map_ext_in _ id), map_id; [by destruct db|].
  intros p Hp%list_elem_of_In. by apply fate_complete, H.
Qed.

(** A run that reopens nothing leaves every row complete. *)
Lemma unreopened_complete sys sc fs today db :
  reported_count sys sc fs reopens (db_poams db) = 0 ->
  Forall (complete sys sc fs) (db_poams (exact_db sys sc today fs db)).
Proof.
  intros H0. apply Forall_forall. intros p [(q & Hq & ->)|(k & f & Hk & ->)%new_rows_elem]%exact_rows.
  - split; [apply settled_fate|]. destruct (row_fate_keeps sys sc today fs q) as (_ & Eu & Et).
    rewrite Et. intros Ht f. unfold reported_by. rewrite Eu. fold (reported_by fs q). intros Hf.
    apply (fun H => lcount_zero _ _ H q Hq) in H0. cbv beta in H0. rewrite Ht, Hf in H0. unfold reopens in H0.
    unfold row_fate. rewrite Ht, Hf. unfold revisit. by rewrite H0.
  - apply complete_new, (first_with_self []). apply list_elem_of_lookup_2 in Hk.
    by apply list_elem_of_filter in Hk as [_ Hf].
Qed.

(** ** Properties *)

(** C29: ingesting a scan is what its report says row by row: on a table whose
    tracked rows bear distinct fingerprints, and findings whose references are
    text, reconciliation returns; each row gets its fate (reopened, refreshed,
    auto-closed, or left alone when another system's or scanner's) and each
    fingerprint no row bears gets one new open row; the counters count exactly
    those events; the table stays well formed; and afterwards the rows the
    scanner tracks that are live are exactly the ones this scan reported. *)
Theorem reconcile_row_by_row sys sc today fs db :
  scan_wf sys sc db -> Forall refs_ok fs ->
  exists db' r, reconcile_findings sys sc fs today db = Ok (db', r) /\
    let news := filter (fun f => unknown sys sc (db_poams db) f = true) (distinct [] fs) in
    db_poams db' = (map (row_fate sys sc fs today) (db_poams db) ++
                    new_rows (db_seq db) sys sc today news)%list /\
    rr_findings_total r = Z.of_nat (List.length fs) /\
    rr_created r = Z.of_nat (List.length news) /\
    rr_reopened r = reported_count sys sc fs reopens (db_poams db) /\
    rr_updated r = reported_count sys sc fs updates (db_poams db) /\
    rr_closed r = lcount (left_out sys sc fs) (db_poams db) /\
    rr_created r + rr_updated r + rr_reopened r + rr_unchanged r =
      Z.of_nat (List.length (distinct [] fs)) /\
    scan_wf sys sc db' /\
    (forall p, p ∈ db_poams db' -> tracked sys sc p = true ->
       (pm_status p ∈ OPEN_STATES <-> reported_by fs p <> None)).
Proof.
  intros wf Hr. exists (exact_db sys sc today fs db), (exact_result sys sc fs db).
  split; [by apply reconcile_exact|]. cbv zeta. split; [done|]. do 5 (split; [done|]).
  split; [by apply (exact_processed sys sc today)|]. split; [by apply exact_wf|]. intros p Hp Ht.
  pose proof (exact_settled sys sc fs today db) as Hs. rewrite Forall_forall in Hs.
  specialize (Hs p Hp Ht). pose proof (sw_statuses _ _ _ (exact_wf sys sc today fs db wf) p Hp) as Hst.
  destruct (reported_by fs p) as [f|].
  - destruct Hs as (Hres & _ & _). split; [done|]. intros _. unfold is_resolved in Hres.
    revert Hst Hres. generalize (pm_status p). intros s Hst Hres. apply mem_true.
    unfold POAM_STATUSES in Hst. elem_cases Hst; vm_compute in Hres; vm_compute; done.
  - apply mem_false in Hs. split; [done|]. by intros [].
Qed.

Definition scan_finding_a : ScanFinding :=
  {| sf_scanner := "nessus"; sf_native_id := "105"; sf_title := "Old TLS"; sf_severity := "high";
     sf_asset := "10.0.0.1"; sf_description := ""; sf_solution := ""; sf_refs := [VStr "CVE-1"] |}.
Definition accepted_row : POAM :=
  set_plan (Some "accepted weakness") None "analyst"
    {| pm_id := 1; pm_system_id := 7; pm_control_id := None; pm_title := "TLS"; pm_weakness := None;
       pm_severity := "low"; pm_status := "risk_accepted"; pm_source := Some "scan";
       pm_remediation_plan := None; pm_plan_source := "analyst"; pm_identified_on := None;
       pm_due_on := None; pm_original_due_on := None; pm_source_ref := None;
       pm_scanner := Some "nessus"; pm_finding_uid := Some (fingerprint scan_finding_a);
       pm_closed_on := None; pm_acceptance_rationale := Some "compensated"; pm_milestones := []; pm_details := no_details |}.
Definition scan_db : Db :=
  {| db_seq := 2; db_waivers := []; db_connectors := []; db_captures := []; db_controls := [];
     db_webhooks := []; db_notify_url := ""; db_notify_min_severity := ""; db_results := [];
     db_resources := []; db_tasks := []; db_poams := [accepted_row]; db_notifications := [];
     db_events := []; db_outbox := [] |}.

Lemma scan_db_wf : scan_wf 7 "nessus" scan_db.
Proof.
  split.
  - apply NoDup_singleton.
  - intros p ->%list_elem_of_singleton. done.
  - intros p ->%list_elem_of_singleton. in_list.
  - by intros p q ->%list_elem_of_singleton ->%list_elem_of_singleton.
Qed.

Lemma reconcile_row_witness :
  scan_wf 7 "nessus" scan_db /\ refs_ok scan_finding_a /\
  exists db' r, reconcile_findings 7 "nessus" [scan_finding_a; scan_finding_a] 100 scan_db = Ok (db', r) /\
    rr_reopened r = 1.
Proof.
  split; [exact scan_db_wf|]. split; [vm_compute; reflexivity|].
  destruct (reconcile_row_by_row 7 "nessus" 100 [scan_finding_a; scan_finding_a] scan_db scan_db_wf)
    as (db' & r & E & H).
  - repeat (apply List.Forall_cons; [vm_compute; reflexivity|]). apply List.Forall_nil.
  - exists db', r. split; [exact E|]. destruct H as (_ & _ & _ & -> & _). vm_compute. reflexivity.
Defined.

(** ingesting the same scan again, on whatever days, settles: the second run
    creates, reopens and closes nothing; the third changes nothing at all and
    reports every finding unchanged; and the second already changes nothing when
    the first reopened no row. Two runs are needed in general: reopening a row
    does not take the finding's new title, the next run does. *)
Theorem rescan_settles :
  (forall sys sc d1 d2 d3 fs db, scan_wf sys sc db -> Forall refs_ok fs ->
  exists db1 r1 db2 r2,
    reconcile_findings sys sc fs d1 db = Ok (db1, r1) /\
    reconcile_findings sys sc fs d2 db1 = Ok (db2, r2) /\
    rr_created r2 = 0 /\ rr_reopened r2 = 0 /\ rr_closed r2 = 0 /\
    (rr_reopened r1 = 0 -> db2 = db1 /\ rr_updated r2 = 0) /\
    reconcile_findings sys sc fs d3 db2 =
      Ok (db2, {| rr_findings_total := Z.of_nat (List.length fs); rr_created := 0; rr_updated := 0;
                  rr_reopened := 0; rr_closed := 0;
                  rr_unchanged := Z.of_nat (List.length (distinct [] fs)) |})) /\
  match reconcile_findings 7 "nessus" [scan_finding_a] 100 scan_db with
  | Ok (db1, r1) => rr_reopened r1 = 1 /\ rr_updated r1 = 0 /\
      match reconcile_findings 7 "nessus" [scan_finding_a] 100 db1 with
      | Ok (db2, r2) => rr_updated r2 = 1 /\ map pm_title (db_poams db1) = ["TLS"] /\
                        map pm_title (db_poams db2) = ["Old TLS"]
      | Err _ => False
      end
  | Err _ => False
  end.
Proof.
  split; [|vm_compute; done]. intros sys sc d1 d2 d3 fs db wf Hr. set (db1 := exact_db sys sc d1 fs db).
  assert (wf1 : scan_wf sys sc db1) by (by apply exact_wf).
  assert (Hs1 : Forall (settled sys sc fs) (db_poams db1)) by apply exact_settled.
  pose proof (fresh_after sys sc fs d1 db) as Hf1. fold db1 in Hf1.
  pose proof (reconcile_exact sys sc d2 fs db1 wf1 Hr) as E2.
  pose proof (rescan_settled sys sc fs d2 db1 wf1 Hr Hs1 Hf1) as E2'.
  assert (wf2 : scan_wf sys sc (exact_db sys sc d2 fs db1)) by (by apply exact_wf).
  pose proof (exact_settled sys sc fs d2 db1) as Hs2. pose proof (fresh_after sys sc fs d2 db1) as Hf2.
  rewrite E2 in E2'.
  assert (Edb := ok_fst _ _ _ _ E2'). assert (Er := ok_snd _ _ _ _ E2'). clear E2'.
  assert (Hc2 : Forall (complete sys sc fs) (db_poams (exact_db sys sc d2 fs db1))).
  { rewrite Edb. cbn [db_poams set_poams]. apply Forall_fmap. eapply Forall_impl; [exact Hs1|].
    intros p. apply fate_settled. }
  exists db1, (exact_result sys sc fs db), (exact_db sys sc d2 fs db1), (exact_result sys sc fs db1).
  split; [by apply reconcile_exact|]. split; [done|]. rewrite Er. do 3 (split; [done|]). split.
  - intros H0. assert (Hc1 : Forall (complete sys sc fs) (db_poams db1)) by (by apply unreopened_complete).
    split; [|by apply complete_counts]. rewrite Edb. by apply fate_complete_db.
  - rewrite rescan_settled by done. rewrite (complete_counts _ _ _ _ Hc2), Z.sub_0_r.
    by rewrite fate_complete_db.
Qed.

(** A severity of "inf" in an export raises an exception the parsers' callers do
    not catch; "nan" is ignored. *)
Lemma infinite_severity_raises :
  normalize_severity (VStr "inf") = Err (Exn "OverflowError" "cannot convert float infinity to integer") /\
  normalize_severity (VStr "1e999") = Err (Exn "OverflowError" "cannot convert float infinity to integer") /\
  normalize_severity (VStr "nan") = Ok None /\
  parse_csv "csv" [["title"; "severity"]; ["Old TLS"; "1e999"]] =
    Err (Exn "OverflowError" "cannot convert float infinity to integer").
Proof. vm_compute. done. Qed.
