(* ===== verification/Queue.v ===== *)
(** The Postgres job queue ([src/src/ccf/queue.py]) and what a worker writes back
    to a job ([src/src/ccf/prep/jobs.py]): claiming with row locks, reaping, and
    the interleavings of several workers as a step relation.

    A claim is two steps, as in the code: the locking [SELECT] and the [UPDATE]
    that its commit publishes. Between them other transactions run; they see the
    committed rows, skip the locked ones, and a write to a locked row waits. *)

From S2P Require Export PyVal Tally.
From stdpp Require Import sorting.

Local Open Scope string_scope.
Local Open Scope Z_scope.

Definition MAX_LAST_ERROR_CHARS : nat := 4000.
Definition truncate_last_error (text : string) : string := str_take MAX_LAST_ERROR_CHARS text.
(** [DEAD_LETTER_REASON.format(cap=cap)] *)
Definition DEAD_LETTER_REASON (cap : Z) : string :=
  "exceeded max attempts (" +:+ pretty cap +:+ ") via repeated stale reclaim".

Record Job := {
  jb_id : Z;
  jb_organization_id : Z;
  jb_status : string;
  jb_attempts : Z;
  jb_claimed_at : option Z;
  jb_claimed_by : option string;
  jb_last_error : option string;
  jb_created_at : Z }.

(** The committed rows, and the open claims with the ids each has locked. *)
Record QState := {
  q_jobs : list Job;
  q_open : list (string * list Z) }.

Definition locked (st : QState) (i : Z) : bool := existsb (fun tx => mem i tx.2) (q_open st).

Definition created_le (a b : Job) : Prop := jb_created_at a <= jb_created_at b.
#[export] Instance created_le_dec : RelDecision created_le.
Proof. intros a b. unfold created_le. apply _. Defined.

(** [select(id).where(status == "pending").order_by(created_at).limit(limit)
    .with_for_update(skip_locked=True)] *)
Definition claim_select (limit : Z) (st : QState) : list Z :=
  map jb_id (take (Z.to_nat limit) (merge_sort created_le
    (filter (fun j => jb_status j = "pending" /\ locked st (jb_id j) = false) (q_jobs st)))).

Definition claim_row (worker : string) (now : Z) (j : Job) : Job :=
  {| jb_id := jb_id j; jb_organization_id := jb_organization_id j; jb_status := "claimed";
     jb_attempts := jb_attempts j + 1; jb_claimed_at := Some now; jb_claimed_by := Some worker;
     jb_last_error := jb_last_error j; jb_created_at := jb_created_at j |}.

Definition claim_update (worker : string) (candidates : list Z) (now : Z) (jobs : list Job) : list Job :=
  map (fun j => if mem (jb_id j) candidates then claim_row worker now j else j) jobs.
Definition claimed_rows (candidates : list Z) (jobs : list Job) : list Job :=
  filter (fun j => jb_id j ∈ candidates) jobs.

(** The whole call, with nothing in between: the rows returned and the table. *)
Definition claim_jobs (worker : string) (limit now : Z) (st : QState) : list Job * QState :=
  match claim_select limit st with
  | [] => ([], st)
  | candidates =>
      let jobs := claim_update worker candidates now (q_jobs st) in
      (claimed_rows candidates jobs, {| q_jobs := jobs; q_open := q_open st |})
  end.

(** ** Reaping *)

Definition minute_us : Z := 60 * 1000000.
Definition reap_threshold (older_than_minutes now : Z) : Z := now - Z.max 1 older_than_minutes * minute_us.

Definition stale (threshold : Z) (j : Job) : bool :=
  bool_decide (jb_status j = "claimed") &&
  match jb_claimed_at j with Some c => c <=? threshold | None => false end.

Definition requeue (j : Job) : Job :=
  {| jb_id := jb_id j; jb_organization_id := jb_organization_id j; jb_status := "pending";
     jb_attempts := jb_attempts j; jb_claimed_at := None; jb_claimed_by := None;
     jb_last_error := jb_last_error j; jb_created_at := jb_created_at j |}.
Definition dead_letter (cap : Z) (j : Job) : Job :=
  {| jb_id := jb_id j; jb_organization_id := jb_organization_id j; jb_status := "failed";
     jb_attempts := jb_attempts j; jb_claimed_at := None; jb_claimed_by := None;
     jb_last_error := Some (truncate_last_error (DEAD_LETTER_REASON cap));
     jb_created_at := jb_created_at j |}.

(** [UPDATE ... SET ... WHERE p]: the rows and [rowcount]. *)
Definition update_rows (p : Job -> bool) (f : Job -> Job) (jobs : list Job) : Z * list Job :=
  (Z.of_nat (List.length (filter (fun j => p j = true) jobs)), map (fun j => if p j then f j else j) jobs).

(** The counts of requeued and dead-lettered rows, and the table. *)
Definition reap_stale_jobs (older_than_minutes max_attempts now : Z) (jobs : list Job) : Z * Z * list Job :=
  let threshold := reap_threshold older_than_minutes now in
  let '(requeued, jobs) :=
    update_rows (fun j => stale threshold j && (jb_attempts j <? max_attempts)) requeue jobs in
  let '(dead, jobs) :=
    update_rows (fun j => stale threshold j && (max_attempts <=? jb_attempts j)) (dead_letter max_attempts) jobs in
  (requeued, dead, jobs).

(** ** What a worker writes back: [_drive_one] and the failure branch of [run_once] *)

Inductive outcome :=
| Done
| Failed (error : option string)
| Yield.

Definition settle_row (o : outcome) (j : Job) : Job :=
  match o with
  | Done =>
      {| jb_id := jb_id j; jb_organization_id := jb_organization_id j; jb_status := "done";
         jb_attempts := jb_attempts j; jb_claimed_at := jb_claimed_at j;
         jb_claimed_by := jb_claimed_by j; jb_last_error := jb_last_error j;
         jb_created_at := jb_created_at j |}
  | Failed e =>
      {| jb_id := jb_id j; jb_organization_id := jb_organization_id j; jb_status := "failed";
         jb_attempts := jb_attempts j; jb_claimed_at := jb_claimed_at j;
         jb_claimed_by := jb_claimed_by j; jb_last_error := e; jb_created_at := jb_created_at j |}
  | Yield => requeue j
  end.

Definition settle (o : outcome) (i : Z) (jobs : list Job) : list Job :=
  map (fun j => if jb_id j =? i then settle_row o j else j) jobs.

(** ** Interleavings *)

Inductive qlabel :=
| LSelect (worker : string)
| LCommit (worker : string) (claims : list (Z * Z))
| LRollback (worker : string)
| LReap (cap : Z)
| LSettle (o : outcome) (i : Z)
| LEnqueue (i : Z).

(** The claims a commit publishes: job and attempt number. *)
Definition claims_of (ids : list Z) (jobs : list Job) : list (Z * Z) :=
  map (fun j => (jb_id j, jb_attempts j)) (claimed_rows ids jobs).

Inductive qstep : QState -> qlabel -> QState -> Prop :=
| q_select w limit st :
    qstep st (LSelect w)
      {| q_jobs := q_jobs st; q_open := (w, claim_select limit st) :: q_open st |}
| q_commit w ids now jobs before_ after_ :
    qstep {| q_jobs := jobs; q_open := before_ ++ (w, ids) :: after_ |}
      (LCommit w (claims_of ids (claim_update w ids now jobs)))
      {| q_jobs := claim_update w ids now jobs; q_open := before_ ++ after_ |}
| q_rollback w ids jobs before_ after_ :
    qstep {| q_jobs := jobs; q_open := before_ ++ (w, ids) :: after_ |} (LRollback w)
      {| q_jobs := jobs; q_open := before_ ++ after_ |}
| q_reap older cap now st :
    qstep st (LReap cap)
      {| q_jobs := (reap_stale_jobs older cap now (q_jobs st)).2; q_open := q_open st |}
| q_settle o i st :
    locked st i = false ->
    qstep st (LSettle o i) {| q_jobs := settle o i (q_jobs st); q_open := q_open st |}
| q_enqueue i org now st :
    (forall j, j ∈ q_jobs st -> jb_id j < i) ->
    qstep st (LEnqueue i)
      {| q_jobs := q_jobs st ++ [{| jb_id := i; jb_organization_id := org; jb_status := "pending";
                                    jb_attempts := 0; jb_claimed_at := None; jb_claimed_by := None;
                                    jb_last_error := None; jb_created_at := now |}];
         q_open := q_open st |}.

Inductive qrun : QState -> list qlabel -> QState -> Prop :=
| qrun_nil st : qrun st [] st
| qrun_snoc st ls st1 l st2 : qrun st ls st1 -> qstep st1 l st2 -> qrun st (ls ++ [l]) st2.

(** All claims of a run, in order. *)
Definition claims (ls : list qlabel) : list (Z * Z) :=
  concat (map (fun l => match l with LCommit _ cs => cs | _ => [] end) ls).

(** ** Lemmas *)

(** The two statements of the reaper give each stale row one of two fates. *)
Definition reap_row (older cap now : Z) (j : Job) : Job :=
  if stale (reap_threshold older now) j then
    if jb_attempts j <? cap then requeue j else dead_letter cap j
  else j.

Lemma reap_jobs older cap now jobs :
  (reap_stale_jobs older cap now jobs).2 = map (reap_row older cap now) jobs.
Proof.
  unfold reap_stale_jobs, update_rows. cbn [snd]. rewrite map_map. apply map_ext. intros j.
  unfold reap_row. destruct (stale _ j) eqn:E; cbn [andb]; [|by rewrite E].
  destruct (Z.ltb_spec (jb_attempts j) cap) as [Hl|Hl].
  - by cbn [stale requeue jb_status].
  - rewrite E. cbn [andb]. by rewrite (proj2 (Z.leb_le _ _)).
Qed.

Lemma reap_row_keeps older cap now j :
  let j' := reap_row older cap now j in
  jb_id j' = jb_id j /\ jb_attempts j' = jb_attempts j /\ (jb_status j = "pending" -> j' = j).
Proof.
  unfold reap_row, stale. destruct (bool_decide (jb_status j = "claimed")) eqn:E; cbn [andb]; [|done].
  apply bool_decide_eq_true_1 in E. rewrite E.
  destruct (match jb_claimed_at j with Some c => c <=? reap_threshold older now | None => false end);
    [destruct (jb_attempts j <? cap)|]; done.
Qed.

Lemma map_ids (g : Job -> Job) jobs :
  (forall j, jb_id (g j) = jb_id j) -> map jb_id (map g jobs) = map jb_id jobs.
Proof. intros H. rewrite map_map. by apply map_ext. Qed.

(** The attempt numbers claimed for one job. *)
Definition attempts_of (i : Z) (cs : list (Z * Z)) : list Z := map snd (filter (fun c => c.1 = i) cs).

Lemma attempts_of_app i cs ds : attempts_of i (cs ++ ds) = (attempts_of i cs ++ attempts_of i ds)%list.
Proof. unfold attempts_of. by rewrite filter_app, map_app. Qed.

Lemma attempts_of_none i cs : (forall c, c ∈ cs -> c.1 <> i) -> attempts_of i cs = [].
Proof. intros H. unfold attempts_of. by rewrite filter_none. Qed.

Lemma attempts_of_elem i a cs : (i, a) ∈ cs -> a ∈ attempts_of i cs.
Proof. intros H. apply list_elem_of_fmap. exists (i, a). split; [done|]. by apply list_elem_of_filter. Qed.

(** Distinct attempts per job make distinct claims. *)
Lemma claims_NoDup cs : (forall i, NoDup (attempts_of i cs)) -> NoDup cs.
Proof.
  induction cs as [|[i a] cs IH]; intros H; constructor.
  - intros Hin%attempts_of_elem. specialize (H i). unfold attempts_of in H.
    rewrite filter_cons, decide_True in H by done. cbn [map snd] in H.
    by apply NoDup_cons in H as [? _].
  - apply IH. intros k. specialize (H k). unfold attempts_of in *. rewrite filter_cons in H.
    case_decide; [|done]. by apply NoDup_cons in H as [_ ?].
Qed.

(** A commit claims each of its rows once, at the row's next attempt. *)
Lemma attempts_of_commit w ids now jobs j :
  NoDup (map jb_id jobs) -> j ∈ jobs ->
  attempts_of (jb_id j) (claims_of ids (claim_update w ids now jobs)) =
  if mem (jb_id j) ids then [jb_attempts j + 1] else [].
Proof.
  intros Hnd Hj. unfold claims_of, claimed_rows, claim_update.
  induction jobs as [|k jobs IH]; [by apply not_elem_of_nil in Hj|].
  cbn [map] in Hnd |- *. apply NoDup_cons in Hnd as [Hk Hnd].
  assert (Hid : jb_id (if mem (jb_id k) ids then claim_row w now k else k) = jb_id k)
    by (by destruct (mem (jb_id k) ids)).
  rewrite filter_cons, Hid. apply elem_of_cons in Hj as [ <-|Hj].
  - assert (Hrest : attempts_of (jb_id j) (map (λ j0, (jb_id j0, jb_attempts j0))
      (filter (λ j0, jb_id j0 ∈ ids) (map (λ j0, if mem (jb_id j0) ids then claim_row w now j0 else j0) jobs))) = []).
    { apply attempts_of_none. intros c (x & -> & [_ Hx]%list_elem_of_filter)%list_elem_of_fmap.
      apply list_elem_of_fmap in Hx as (y & -> & Hy). simpl. intros E. apply Hk. rewrite <-E.
      destruct (mem (jb_id y) ids); by apply (list_elem_of_fmap_2 jb_id jobs y). }
    destruct (mem_spec (jb_id j) ids) as [Hm|Hm]; [rewrite decide_True by done|by rewrite decide_False].
    cbn [map]. unfold attempts_of. rewrite filter_cons, decide_True by done. cbn [map snd].
    unfold attempts_of in Hrest. by rewrite Hrest.
  - assert (jb_id k <> jb_id j) as Hne.
    { intros E. apply Hk. rewrite E. by apply list_elem_of_fmap_2. }
    rewrite <-(IH Hnd Hj). case_decide; [|done]. cbn [map]. unfold attempts_of.
    by rewrite filter_cons, decide_False by (cbn [fst]; by rewrite Hid).
Qed.

Lemma claims_of_ids w ids now jobs c :
  c ∈ claims_of ids (claim_update w ids now jobs) -> exists j, j ∈ jobs /\ jb_id j = c.1.
Proof.
  intros (x & -> & [_ (j & -> & Hj)%list_elem_of_fmap]%list_elem_of_filter)%list_elem_of_fmap.
  exists j. split; [done|]. by destruct (mem (jb_id j) ids).
Qed.

(** ** The invariant *)

Definition locked_ids (txs : list (string * list Z)) : list Z := concat (map snd txs).

Record qinv (st : QState) (cs : list (Z * Z)) : Prop := {
  qi_ids : NoDup (map jb_id (q_jobs st));
  qi_locks : NoDup (locked_ids (q_open st));
  qi_pending : forall i, i ∈ locked_ids (q_open st) ->
    exists j, j ∈ q_jobs st /\ jb_id j = i /\ jb_status j = "pending";
  qi_attempts : forall j, j ∈ q_jobs st ->
    0 <= jb_attempts j /\ attempts_of (jb_id j) cs = seqZ 1 (jb_attempts j);
  qi_known : forall c, c ∈ cs -> exists j, j ∈ q_jobs st /\ jb_id j = c.1 }.

Lemma locked_iff st i : locked st i = true <-> i ∈ locked_ids (q_open st).
Proof.
  unfold locked, locked_ids. rewrite existsb_exists. split.
  - intros (tx & Hin & Hm%mem_true). apply list_elem_of_In, in_concat. exists tx.2.
    split; [by apply in_map|by apply list_elem_of_In].
  - intros (l & Hl & Hi)%list_elem_of_In%in_concat. apply in_map_iff in Hl as (tx & <- & Htx).
    exists tx. split; [done|]. by apply mem_true, list_elem_of_In.
Qed.

Lemma claim_select_spec limit st i :
  i ∈ claim_select limit st ->
  i ∉ locked_ids (q_open st) /\ exists j, j ∈ q_jobs st /\ jb_id j = i /\ jb_status j = "pending".
Proof.
  intros (j & -> & Hj)%list_elem_of_fmap. eapply elem_of_submseteq in Hj; [|apply sublist_submseteq, sublist_take].
  rewrite merge_sort_Permutation in Hj. apply list_elem_of_filter in Hj as [[Hs Hl] Hj].
  split; [|by exists j]. rewrite <-locked_iff. by rewrite Hl.
Qed.

Lemma claim_select_NoDup limit st : NoDup (map jb_id (q_jobs st)) -> NoDup (claim_select limit st).
Proof.
  intros Hnd. unfold claim_select.
  eapply sublist_NoDup; [|apply (fmap_sublist jb_id), sublist_take].
  assert (map jb_id (merge_sort created_le (filter (fun j => jb_status j = "pending" /\ locked st (jb_id j) = false) (q_jobs st)))
    ≡ₚ map jb_id (filter (fun j => jb_status j = "pending" /\ locked st (jb_id j) = false) (q_jobs st))) as ->
    by (apply (fmap_Permutation jb_id), merge_sort_Permutation).
  eapply sublist_NoDup; [exact Hnd|]. apply (fmap_sublist jb_id), sublist_filter.
Qed.

(** A change of rows that keeps ids, attempts and the locked rows. *)
Lemma qinv_map g st cs :
  (forall j, jb_id (g j) = jb_id j /\ jb_attempts (g j) = jb_attempts j) ->
  (forall j, locked st (jb_id j) = true -> jb_status j = "pending" -> g j = j) ->
  qinv st cs -> qinv {| q_jobs := map g (q_jobs st); q_open := q_open st |} cs.
Proof.
  intros Hg Hl [H1 H2 H3 H4 H5]. split; cbn [q_jobs q_open].
  - rewrite map_ids; [done|]. intros j. apply Hg.
  - done.
  - intros i Hi. destruct (H3 i Hi) as (j & Hj & Hid & Hs). exists j. split; [|done].
    rewrite <-(Hl j); [by apply (list_elem_of_fmap_2 g)| |done]. rewrite Hid. by apply locked_iff.
  - intros j (k & -> & Hk)%list_elem_of_fmap. destruct (Hg k) as [-> ->]. by apply H4.
  - intros c Hc. destruct (H5 c Hc) as (j & Hj & Hid). exists (g j).
    split; [by apply list_elem_of_fmap_2|]. by rewrite (proj1 (Hg j)).
Qed.

Definition claims_in (l : qlabel) : list (Z * Z) := match l with LCommit _ cs => cs | _ => [] end.

Lemma locked_ids_mid b tx a : locked_ids (b ++ tx :: a) ≡ₚ (tx.2 ++ locked_ids (b ++ a))%list.
Proof.
  unfold locked_ids. rewrite !map_app, !concat_app. cbn [map concat].
  rewrite Permutation_app_swap_app. done.
Qed.

Lemma commit_inv w ids now jobs b a cs :
  qinv {| q_jobs := jobs; q_open := b ++ (w, ids) :: a |} cs ->
  qinv {| q_jobs := claim_update w ids now jobs; q_open := b ++ a |}
    (cs ++ claims_of ids (claim_update w ids now jobs)).
Proof.
  intros [H1 H2 H3 H4 H5]. cbn [q_jobs q_open] in *. rewrite locked_ids_mid in H2. cbn [snd] in H2.
  apply NoDup_app in H2 as (_ & Hdis & H2).
  assert (Hid : forall j, jb_id (if mem (jb_id j) ids then claim_row w now j else j) = jb_id j)
    by (intros j; by destruct (mem (jb_id j) ids)).
  split; cbn [q_jobs q_open].
  - unfold claim_update. by rewrite map_ids.
  - done.
  - intros i Hi. destruct (H3 i) as (j & Hj & Hji & Hs).
    { rewrite locked_ids_mid. apply elem_of_app. by right. }
    exists j. split; [|done]. unfold claim_update. apply list_elem_of_fmap. exists j. split; [|done].
    destruct (mem_spec (jb_id j) ids) as [Hm|]; [|done]. destruct (Hdis i); [congruence|done].
  - intros j (k & -> & Hk)%list_elem_of_fmap. destruct (H4 k Hk) as [Hpos Hat].
    rewrite Hid, attempts_of_app, Hat, attempts_of_commit by done.
    destruct (mem (jb_id k) ids); cbn [jb_attempts claim_row]; [|by rewrite app_nil_r].
    split; [lia|]. rewrite seqZ_app by lia. f_equal. by rewrite Z.add_comm.
  - intros c [Hc|Hc]%elem_of_app.
    + destruct (H5 c Hc) as (j & Hj & E). exists (if mem (jb_id j) ids then claim_row w now j else j).
      split; [|by rewrite Hid]. unfold claim_update.
      by apply (list_elem_of_fmap_2 (fun j => if mem (jb_id j) ids then claim_row w now j else j)).
    + destruct (claims_of_ids _ _ _ _ _ Hc) as (j & Hj & E).
      exists (if mem (jb_id j) ids then claim_row w now j else j). split; [|by rewrite Hid].
      by apply (list_elem_of_fmap_2 (fun j => if mem (jb_id j) ids then claim_row w now j else j)).
Qed.

Lemma enqueue_inv i org now st cs :
  (forall j, j ∈ q_jobs st -> jb_id j < i) -> qinv st cs ->
  qinv {| q_jobs := q_jobs st ++ [{| jb_id := i; jb_organization_id := org; jb_status := "pending";
                                     jb_attempts := 0; jb_claimed_at := None; jb_claimed_by := None;
                                     jb_last_error := None; jb_created_at := now |}];
          q_open := q_open st |} cs.
Proof.
  intros Hi [H1 H2 H3 H4 H5]. split; cbn [q_jobs q_open].
  - rewrite map_app. apply NoDup_app. split; [done|]. split; [|apply NoDup_singleton].
    intros x (j & -> & Hj)%list_elem_of_fmap E%list_elem_of_singleton. specialize (Hi j Hj).
    cbn [jb_id] in E. lia.
  - done.
  - intros k Hk. destruct (H3 k Hk) as (j & Hj & ?). exists j. split; [|done]. apply elem_of_app. by left.
  - intros j [Hj| ->%list_elem_of_singleton]%elem_of_app; [by apply H4|]. cbn [jb_id jb_attempts].
    split; [lia|]. apply attempts_of_none. intros c Hc E. destruct (H5 c Hc) as (j & Hj & Hji).
    specialize (Hi j Hj). lia.
  - intros c Hc. destruct (H5 c Hc) as (j & Hj & ?). exists j. split; [|done]. apply elem_of_app. by left.
Qed.

Lemma settle_row_keeps o j : jb_id (settle_row o j) = jb_id j /\ jb_attempts (settle_row o j) = jb_attempts j.
Proof. by destruct o. Qed.

Lemma qstep_inv st l st' cs : qstep st l st' -> qinv st cs -> qinv st' (cs ++ claims_in l).
Proof.
  intros H Hinv. destruct H as [w limit st|w ids now jobs b a|w ids jobs b a|older cap now st|o i st Hl|i org now st Hi];
    cbn [claims_in]; rewrite ?app_nil_r.
  - destruct Hinv as [H1 H2 H3 H4 H5]. split; cbn [q_jobs q_open]; try done.
    + unfold locked_ids. cbn [map concat snd]. apply NoDup_app.
      split; [by apply claim_select_NoDup|]. split; [|done]. intros i Hi. by apply claim_select_spec in Hi as [? _].
    + intros i [Hi|Hi]%elem_of_app; [by apply claim_select_spec in Hi as [_ ?]|by apply H3].
  - by apply commit_inv.
  - destruct Hinv as [H1 H2 H3 H4 H5]. cbn [q_jobs q_open] in *. rewrite locked_ids_mid in H2.
    apply NoDup_app in H2 as (_ & _ & H2). split; cbn [q_jobs q_open]; try done.
    intros k Hk. apply H3. rewrite locked_ids_mid. apply elem_of_app. by right.
  - rewrite reap_jobs. apply qinv_map; [| |done].
    + intros j. destruct (reap_row_keeps older cap now j) as (? & ? & _). done.
    + intros j _. apply reap_row_keeps.
  - apply qinv_map; [| |done].
    + intros j. destruct (jb_id j =? i); [apply settle_row_keeps|done].
    + intros j Hj _. destruct (Z.eqb_spec (jb_id j) i) as [E|]; [|done]. rewrite E in Hj. congruence.
  - by apply enqueue_inv.
Qed.

(** ** The retry cap *)

(** Steps of a queue whose reaper uses one cap and whose workers crash or finish
    but never put a job back themselves. *)
Definition capped (cap : Z) (l : qlabel) : Prop :=
  match l with
  | LReap c => c = cap
  | LSettle Yield _ => False
  | _ => True
  end.

Definition cap_inv (cap : Z) (st : QState) : Prop :=
  forall j, j ∈ q_jobs st ->
    jb_attempts j <= cap /\ (jb_status j = "pending" -> jb_attempts j < cap).

Lemma qstep_cap cap st l st' cs :
  1 <= cap -> capped cap l -> qstep st l st' -> qinv st cs -> cap_inv cap st -> cap_inv cap st'.
Proof.
  intros Hcap Hl H Hinv Hc. unfold cap_inv in *.
  destruct H as [w limit st|w ids now jobs b a|w ids jobs b a|older c now st|o i st Hlk|i org now st Hi];
    cbn [q_jobs q_open] in *; try done.
  - intros j (k & -> & Hk)%list_elem_of_fmap. destruct (mem_spec (jb_id k) ids) as [Hm|]; [|by apply Hc].
    destruct (qi_pending _ _ Hinv (jb_id k)) as (k' & Hk' & E & Hs).
    { cbn [q_open]. rewrite locked_ids_mid. apply elem_of_app. by left. }
    assert (k' = k) as -> by (eapply (key_inj jb_id); [apply (qi_ids _ _ Hinv)|done..]).
    destruct (Hc k Hk) as [_ Hlt]. specialize (Hlt Hs). cbn [jb_attempts jb_status claim_row]. split; [lia|done].
  - cbn [capped] in Hl. subst c. rewrite reap_jobs. intros j (k & -> & Hk)%list_elem_of_fmap.
    unfold reap_row. destruct (stale _ k); [|by apply Hc].
    destruct (Z.ltb_spec (jb_attempts k) cap); cbn [jb_attempts jb_status requeue dead_letter]; [lia|].
    split; [by apply Hc|done].
  - intros j (k & -> & Hk)%list_elem_of_fmap. destruct (jb_id k =? i); [|by apply Hc].
    destruct (Hc k Hk) as [? _]. destruct o; [done|done|]. by cbn in Hl.
  - intros j [Hj| ->%list_elem_of_singleton]%elem_of_app; [by apply Hc|]. cbn. lia.
Qed.

Definition empty_queue : QState := {| q_jobs := []; q_open := [] |}.

Lemma claims_snoc ls l : claims (ls ++ [l]) = (claims ls ++ claims_in l)%list.
Proof. unfold claims. rewrite map_app, concat_app. cbn [map concat]. by rewrite app_nil_r. Qed.

Lemma empty_inv : qinv empty_queue [].
Proof.
  split; [constructor|constructor|..]; intros x Hx; by apply not_elem_of_nil in Hx.
Qed.

Lemma qrun_inv ls st : qrun empty_queue ls st -> qinv st (claims ls).
Proof.
  remember empty_queue as st0 eqn:E0. induction 1 as [st0|st0 ls st1 l st2 _ IH Hs]; subst st0.
  - apply empty_inv.
  - rewrite claims_snoc. eapply qstep_inv; [exact Hs|]. by apply IH.
Qed.

Lemma qrun_cap cap ls st :
  1 <= cap -> Forall (capped cap) ls -> qrun empty_queue ls st -> cap_inv cap st.
Proof.
  intros Hcap Hls Hr. revert Hls. remember empty_queue as st0 eqn:E0.
  induction Hr as [st0|st0 ls st1 l st2 Hr IH Hs]; subst st0; intros Hls.
  - intros j Hj. cbn [q_jobs empty_queue] in Hj. by apply not_elem_of_nil in Hj.
  - apply Forall_app in Hls as [Hls Hl]. apply Forall_cons in Hl as [Hl _].
    eapply qstep_cap; [exact Hcap|exact Hl|exact Hs|by apply qrun_inv|by apply IH].
Qed.

(** ** Waiting

    What a pending job waits for: [elders] are the jobs created no later than it,
    [credit] is how often they can still be claimed under the retry cap, and
    [strangers] the rows already locked, when the wait begins, that are none of them. *)

#[local] Instance created_le_total : Total created_le.
Proof. intros a b. unfold created_le. lia. Qed.
#[local] Instance created_le_trans : Transitive created_le.
Proof. intros a b d. unfold created_le. lia. Qed.

Section turn.
Context (cap i c : Z) (elders : list Z).

Definition credit (st : QState) : Z := lsum (fun k => if mem (jb_id k) elders then cap - jb_attempts k else 0) (q_jobs st).
Definition strangers (st : QState) : Z := lcount (fun k => negb (mem k elders)) (locked_ids (q_open st)).

Definition waiting (st : QState) : Prop :=
  (exists j, j ∈ q_jobs st /\ jb_id j = i /\ jb_created_at j = c /\ jb_status j = "pending") /\ locked st i = false.
(** Whoever may be served first is an elder, and every elder is a row. *)
Definition elders_first (st : QState) : Prop :=
  (forall k, k ∈ q_jobs st -> jb_id k <> i -> jb_created_at k <= c -> jb_id k ∈ elders) /\
  (forall x, x ∈ elders -> exists k, k ∈ q_jobs st /\ jb_id k = x).

(** A run in which no open claim crashes and nobody writes back to the waiting job. *)
Definition patient (l : qlabel) : Prop :=
  match l with LRollback _ => False | LSettle _ k => k <> i | _ => True end.

Lemma select_elders limit st k :
  waiting st -> elders_first st -> k ∈ claim_select limit st -> i ∈ claim_select limit st \/ k ∈ elders.
Proof.
  intros [(j & Hj & Hi & Hc & Hp) Hlk] [Hel _] Hk. unfold claim_select in *.
  set (l := merge_sort _ _) in *. set (n := Z.to_nat limit) in *.
  assert (Hjl : j ∈ l). { unfold l. rewrite merge_sort_Permutation. apply list_elem_of_filter. by rewrite Hi. }
  apply list_elem_of_fmap in Hk as (x & -> & Hx). rewrite <-(take_drop n l), elem_of_app in Hjl.
  destruct Hjl as [Hjl|Hjl]; [left; rewrite <-Hi; by apply list_elem_of_fmap_2|].
  destruct (decide (jb_id x = i)) as [E|Hne]; [left; rewrite <-E; by apply list_elem_of_fmap_2|]. right.
  assert (Hso : StronglySorted created_le l).
  { apply (StronglySorted_merge_sort created_le). }
  assert (Hxj : created_le x j).
  { rewrite <-(take_drop n l) in Hso. eapply StronglySorted_app_1_elem_of; [exact Hso|exact Hx|exact Hjl]. }
  assert (Hxl : x ∈ l). { rewrite <-(take_drop n l), elem_of_app. by left. }
  unfold l in Hxl. rewrite merge_sort_Permutation in Hxl. apply list_elem_of_filter in Hxl as [_ Hxl].
  apply Hel; [done..|]. unfold created_le in Hxj. lia.
Qed.

(** What a commit claims is paid for by the elders' credit and the strangers. *)
Lemma commit_claims ids w now jobs :
  Z.of_nat (List.length (claims_of ids (claim_update w ids now jobs))) = lcount (fun k => mem (jb_id k) ids) jobs.
Proof.
  unfold claims_of, claimed_rows, claim_update. rewrite length_map.
  induction jobs as [|k jobs IH]; [done|]. cbn [map]. rewrite filter_cons, lcount_cons, <-IH.
  assert (jb_id (if mem (jb_id k) ids then claim_row w now k else k) = jb_id k) as -> by (by destruct (mem (jb_id k) ids)).
  destruct (mem_spec (jb_id k) ids) as [Hm|Hm]; [rewrite decide_True by done|rewrite decide_False by done]; cbn [List.length]; lia.
Qed.

Lemma commit_credit ids w now jobs o o' :
  credit {| q_jobs := claim_update w ids now jobs; q_open := o' |} =
  credit {| q_jobs := jobs; q_open := o |} - lcount (fun k => mem (jb_id k) ids && mem (jb_id k) elders) jobs.
Proof.
  unfold credit, claim_update. cbn [q_jobs]. induction jobs as [|k jobs IH]; [done|].
  cbn [map lsum foldr]. unfold lsum in IH. rewrite lcount_cons. rewrite IH.
  destruct (mem (jb_id k) ids); cbn [jb_id jb_attempts claim_row andb]; destruct (mem (jb_id k) elders); lia.
Qed.

Lemma commit_strangers ids jobs :
  NoDup (map jb_id jobs) -> lcount (fun k => mem (jb_id k) ids && negb (mem (jb_id k) elders)) jobs <= lcount (fun k => negb (mem k elders)) ids.
Proof.
  intros Hnd. rewrite <-!lcount_filter. apply inj_le. rewrite <-(length_map jb_id).
  apply NoDup_incl_length.
  - by apply NoDup_ListNoDup, nodup_filter.
  - intros x Hx. apply in_map_iff in Hx as (k & <- & Hk). apply filter_In in Hk as [_ [Hm He]%andb_true_iff].
    apply filter_In. split; [|done]. by apply list_elem_of_In, mem_true.
Qed.

Lemma locked_mid jobs b tx a k :
  locked {| q_jobs := jobs; q_open := b ++ tx :: a |} k = true <-> k ∈ tx.2 \/ locked {| q_jobs := jobs; q_open := b ++ a |} k = true.
Proof. rewrite !locked_iff. cbn [q_open]. by rewrite locked_ids_mid, elem_of_app. Qed.

Lemma commit_claims_locked ids w now jobs j : j ∈ jobs -> jb_id j ∈ ids -> exists a, (jb_id j, a) ∈ claims_of ids (claim_update w ids now jobs).
Proof.
  intros Hj Hi. exists (jb_attempts j + 1). unfold claims_of, claimed_rows, claim_update. apply list_elem_of_fmap.
  exists (claim_row w now j). split; [done|]. apply list_elem_of_filter. split; [done|]. apply list_elem_of_fmap. exists j.
  by rewrite (proj2 (mem_true _ _) Hi).
Qed.

(** Once locked, a job is claimed when its claim commits. *)
Lemma locked_step st l st' cs :
  qstep st l st' -> qinv st cs -> patient l -> locked st i = true -> (exists a, (i, a) ∈ claims_in l) \/ locked st' i = true.
Proof.
  intros H Hinv Hp Hl. destruct H as [w limit st|w ids now jobs b a|w ids jobs b a|older c' now st|o k st Hk|k org now st Hk]; try done.
  - right. unfold locked in *. cbn [q_open existsb]. by rewrite Hl, orb_true_r.
  - destruct (qi_pending _ _ Hinv i) as (j & Hj & Hi & _); [by apply locked_iff|]. apply locked_mid in Hl as [Hl|Hl]; [|by right].
    left. rewrite <-Hi. apply commit_claims_locked; [done|]. by rewrite Hi.
  - by right.
  - by right.
  - by right.
Qed.

(** One step of the wait: the job is claimed, or locked by an open claim, or the
    claims the step made were paid for. *)
Lemma wait_step st l st' cs :
  qstep st l st' -> qinv st cs -> patient l -> waiting st -> elders_first st -> elders_first st' ->
  (exists a, (i, a) ∈ claims_in l) \/ locked st' i = true \/
  (waiting st' /\ Z.of_nat (List.length (claims_in l)) + credit st' + strangers st' <= credit st + strangers st).
Proof.
  intros H Hinv Hp Hw He He'. pose proof Hw as [(j & Hj & Hi & Hc & Hs) Hlk].
  destruct H as [w limit st|w ids now jobs b a|w ids jobs b a|older c' now st|o k st Hk|k org now st Hk]; cbn [claims_in List.length]; try done.
  - destruct (locked {| q_jobs := q_jobs st; q_open := (w, claim_select limit st) :: q_open st |} i) eqn:Hl; [by auto|]. do 2 right. split; [split; [by exists j|exact Hl]|].
    assert (strangers {| q_jobs := q_jobs st; q_open := (w, claim_select limit st) :: q_open st |} = strangers st) as ->; [|apply Z.eq_le_incl; by rewrite Z.add_0_l].
    unfold strangers, locked_ids. cbn [q_open map concat snd]. unfold lcount at 1. rewrite lsum_app. fold (locked_ids (q_open st)).
    fold (lcount (fun k => negb (mem k elders)) (claim_select limit st)). rewrite lcount_none; [done|]. intros x Hx.
    destruct (select_elders limit st x Hw He Hx) as [Hsel|Hel]; [|by rewrite (proj2 (mem_true _ _) Hel)].
    assert (locked {| q_jobs := q_jobs st; q_open := (w, claim_select limit st) :: q_open st |} i = true) as E; [|by rewrite Hl in E].
    unfold locked. cbn [q_open existsb snd]. by rewrite (proj2 (mem_true _ _) Hsel).
  - cbn [q_jobs] in Hj. destruct (decide (i ∈ ids)) as [Hin|Hin].
    { left. rewrite <-Hi. apply commit_claims_locked; [done|]. by rewrite Hi. }
    do 2 right. assert (Hlk' : locked {| q_jobs := claim_update w ids now jobs; q_open := b ++ a |} i = false).
    { apply not_true_is_false. intros E. rewrite <-not_true_iff_false in Hlk. apply Hlk, locked_mid. by right. }
    split; [split; [|exact Hlk']|].
    + exists j. split; [|done]. apply list_elem_of_fmap. exists j. split; [|done]. destruct (mem_spec (jb_id j) ids); [congruence|done].
    + rewrite commit_claims, (commit_credit ids w now jobs (b ++ (w, ids) :: a) (b ++ a)). unfold strangers. cbn [q_open].
      pose proof (commit_strangers ids jobs (qi_ids _ _ Hinv)) as Hstr.
      assert (lcount (fun k => negb (mem k elders)) (locked_ids (b ++ (w, ids) :: a)) =
              lcount (fun k => negb (mem k elders)) ids + lcount (fun k => negb (mem k elders)) (locked_ids (b ++ a))) as ->.
      { unfold lcount. rewrite <-lsum_app. apply lsum_perm, locked_ids_mid. }
      assert (lcount (fun k => mem (jb_id k) ids) jobs = lcount (fun k => mem (jb_id k) ids && mem (jb_id k) elders) jobs +
              lcount (fun k => mem (jb_id k) ids && negb (mem (jb_id k) elders)) jobs) as ->; [|lia].
      unfold lcount. rewrite <-lsum_plus. apply lsum_ext. intros k _. destruct (mem (jb_id k) ids), (mem (jb_id k) elders); done.
  - do 2 right. rewrite reap_jobs. split; [split; [|done]|].
    + exists j. destruct (reap_row_keeps older c' now j) as (_ & _ & E). split; [|done]. rewrite <-(E Hs). by apply list_elem_of_fmap_2.
    + apply Z.eq_le_incl. unfold credit, strangers. cbn [q_jobs q_open]. rewrite lsum_map. f_equal. cbn [Z.of_nat]. rewrite Z.add_0_l. apply lsum_ext.
      intros k _. by destruct (reap_row_keeps older c' now k) as (-> & -> & _).
  - do 2 right. cbn [patient] in Hp. split; [split; [|done]|].
    + exists j. split; [|done]. apply list_elem_of_fmap. exists j. split; [|done]. by rewrite (proj2 (Z.eqb_neq _ _)) by congruence.
    + apply Z.eq_le_incl. unfold credit, strangers, settle. cbn [q_jobs q_open]. rewrite lsum_map. f_equal. cbn [Z.of_nat]. rewrite Z.add_0_l. apply lsum_ext.
      intros x _. destruct (jb_id x =? k); [|done]. by destruct (settle_row_keeps o x) as [-> ->].
  - do 2 right. split; [split; [|done]|].
    + exists j. split; [apply elem_of_app; by left|done].
    + apply Z.eq_le_incl. unfold credit, strangers. cbn [q_jobs q_open]. rewrite lsum_snoc. cbn [jb_id Z.of_nat].
      destruct (mem_spec k elders) as [Hm|_]; [|lia]. destruct (proj2 He k Hm) as (x & Hx & E). specialize (Hk x Hx). lia.
Qed.

Definition turns_before (st : QState) : Z := credit st + strangers st.
(** Whoever arrives during the wait is younger than the waiting job. *)
Definition newcomers_younger (st st' : QState) : Prop :=
  forall k, k ∈ q_jobs st' -> jb_created_at k <= c -> jb_id k ∈ map jb_id (q_jobs st).

End turn.

(** Rows are never deleted, and keep their id and their time of creation. *)
Lemma step_rows st l st' k : qstep st l st' -> k ∈ q_jobs st -> exists k', k' ∈ q_jobs st' /\ jb_id k' = jb_id k /\ jb_created_at k' = jb_created_at k.
Proof.
  intros H Hk. destruct H as [w limit st|w ids now jobs b a|w ids jobs b a|older c' now st|o i st Hl|i org now st Hi]; cbn [q_jobs] in *.
  - by exists k.
  - exists (if mem (jb_id k) ids then claim_row w now k else k). split; [|by destruct (mem _ _)].
    by apply (list_elem_of_fmap_2 (fun j => if mem (jb_id j) ids then claim_row w now j else j)).
  - by exists k.
  - rewrite reap_jobs. exists (reap_row older c' now k). split; [by apply list_elem_of_fmap_2|].
    unfold reap_row. destruct (stale _ k); [destruct (_ <? _)|]; done.
  - exists (if jb_id k =? i then settle_row o k else k). split; [|destruct (_ =? _); [by destruct o|done]].
    by apply (list_elem_of_fmap_2 (fun j => if jb_id j =? i then settle_row o j else j)).
  - exists k. split; [apply elem_of_app; by left|done].
Qed.

Lemma run_rows st ls st' k : qrun st ls st' -> k ∈ q_jobs st -> exists k', k' ∈ q_jobs st' /\ jb_id k' = jb_id k /\ jb_created_at k' = jb_created_at k.
Proof.
  induction 1 as [|st0 ls st1 l st2 _ IH Hs]; intros Hk; [by exists k|]. destruct (IH Hk) as (k1 & Hk1 & E1 & F1).
  destruct (step_rows _ _ _ _ Hs Hk1) as (k2 & Hk2 & E2 & F2). exists k2. by rewrite E2, F2.
Qed.

Lemma qrun_app a ls b ks d : qrun a ls b -> qrun b ks d -> qrun a (ls ++ ks) d.
Proof. intros Ha. induction 1 as [|b ks st1 l st2 _ IH Hs]; [by rewrite app_nil_r|]. rewrite app_assoc. by econstructor; [apply IH|]. Qed.

(** The ids of the jobs created no later than [j]. *)
Definition elders_of (j : Job) (st : QState) : list Z :=
  map jb_id (filter (fun k => jb_created_at k <= jb_created_at j /\ jb_id k <> jb_id j) (q_jobs st)).

Lemma elders_stay st ls st' j :
  NoDup (map jb_id (q_jobs st')) -> qrun st ls st' -> newcomers_younger (jb_created_at j) st st' ->
  elders_first (jb_id j) (jb_created_at j) (elders_of j st) st'.
Proof.
  intros Hnd Hr Hnew. split.
  - intros k Hk Hne Hc. destruct (proj1 (list_elem_of_fmap _ _ _) (Hnew k Hk Hc)) as (k0 & E & Hk0).
    destruct (run_rows _ _ _ _ Hr Hk0) as (k1 & Hk1 & E1 & F1).
    assert (k1 = k) as -> by (eapply (key_inj jb_id); [exact Hnd|done|done|congruence]).
    apply list_elem_of_fmap. exists k0. split; [done|]. apply list_elem_of_filter. split; [split; [lia|congruence]|done].
  - intros x (k0 & -> & [_ Hk0]%list_elem_of_filter)%list_elem_of_fmap. destruct (run_rows _ _ _ _ Hr Hk0) as (k1 & Hk1 & E1 & _). by exists k1.
Qed.

Lemma wait_run cap st later st' j ls0 :
  qrun empty_queue ls0 st -> j ∈ q_jobs st -> jb_status j = "pending" -> locked st (jb_id j) = false ->
  qrun st later st' -> Forall (patient (jb_id j)) later -> newcomers_younger (jb_created_at j) st st' ->
  (exists a, (jb_id j, a) ∈ claims later) \/ locked st' (jb_id j) = true \/
  (waiting (jb_id j) (jb_created_at j) st' /\
   Z.of_nat (List.length (claims later)) + turns_before cap (elders_of j st) st' <= turns_before cap (elders_of j st) st).
Proof.
  intros H0 Hj Hs Hl Hr. revert Hj Hl.
  induction Hr as [st|st later st1 l st2 Hr IH Hstep]; intros Hj Hl Hp Hnew.
  { do 2 right. split; [split; [by exists j|done]|]. cbn [claims List.length map concat]. lia. }
  apply Forall_app in Hp as [Hp Hpl]. apply Forall_cons in Hpl as [Hpl _].
  pose proof (qrun_inv _ _ (qrun_app _ _ _ _ _ H0 Hr)) as Hinv.
  pose proof (qrun_inv _ _ (qrun_app _ _ _ _ _ H0 (qrun_snoc _ _ _ _ _ Hr Hstep))) as Hinv2.
  assert (Hnew1 : newcomers_younger (jb_created_at j) st st1).
  { intros k Hk Hc. destruct (step_rows _ _ _ _ Hstep Hk) as (k2 & Hk2 & E & F). rewrite <-E. apply Hnew; [done|]. by rewrite F. }
  rewrite claims_snoc, length_app. specialize (IH H0 Hj Hl Hp Hnew1).
  destruct IH as [(a & Ha)|[Hlk|[Hw Hle]]].
  - left. exists a. apply elem_of_app. by left.
  - destruct (locked_step _ _ _ _ _ Hstep Hinv Hpl Hlk) as [(a & Ha)|?]; [left; exists a; apply elem_of_app; by right|by auto].
  - pose proof (elders_stay _ _ _ j (qi_ids _ _ Hinv) Hr Hnew1) as He1.
    pose proof (elders_stay _ _ _ j (qi_ids _ _ Hinv2) (qrun_snoc _ _ _ _ _ Hr Hstep) Hnew) as He2.
    destruct (wait_step cap _ _ _ _ _ _ _ Hstep Hinv Hpl Hw He1 He2) as [(a & Ha)|[Hlk|[Hw2 Hle2]]]; [left; exists a; apply elem_of_app; by right|by auto|].
    do 2 right. split; [done|]. unfold turns_before in *. rewrite Nat2Z.inj_add. lia.
Qed.

Lemma turns_nonneg cap elders st : cap_inv cap st -> 0 <= turns_before cap elders st.
Proof.
  intros Hc. unfold turns_before, credit, strangers. pose proof (lcount_bounds (fun k => negb (mem k elders)) (locked_ids (q_open st))).
  enough (0 <= lsum (fun k => if mem (jb_id k) elders then cap - jb_attempts k else 0) (q_jobs st)) by lia.
  apply lsum_nonneg. intros k Hk. destruct (mem _ _); [|lia]. destruct (Hc k Hk). lia.
Qed.

(** ** Properties *)

(** C31: exactly-once claiming. Along any interleaving of selects, commits,
    rollbacks, reaps, workers' write-backs and new jobs, no attempt of a job is
    ever claimed twice, by one worker or by two; a job's [attempts] is the number
    of times it was claimed and those claims carry 1, 2, ... in order; a row
    locked by an open claim stays pending and belongs to no other open claim; and
    where every reap uses the same positive cap and no worker puts a job back
    itself, no job is ever claimed more than that many times. *)
Theorem claims_are_exactly_once ls st :
  qrun empty_queue ls st ->
  NoDup (claims ls) /\
  (forall j, j ∈ q_jobs st -> attempts_of (jb_id j) (claims ls) = seqZ 1 (jb_attempts j)) /\
  NoDup (locked_ids (q_open st)) /\
  (forall i, i ∈ locked_ids (q_open st) ->
     exists j, j ∈ q_jobs st /\ jb_id j = i /\ jb_status j = "pending") /\
  (forall cap, 1 <= cap -> Forall (capped cap) ls ->
     forall j, j ∈ q_jobs st -> jb_attempts j <= cap).
Proof.
  intros H. destruct (qrun_inv ls st H) as [H1 H2 H3 H4 H5]. split.
  { apply claims_NoDup. intros i.
    destruct (decide (Exists (fun j => jb_id j = i) (q_jobs st))) as [Hex|Hex]; rewrite Exists_exists in Hex.
    - destruct Hex as (j & Hj & <-). destruct (H4 j Hj) as [_ ->]. apply NoDup_seqZ.
    - rewrite attempts_of_none; [constructor|]. intros c Hc E.
      destruct (H5 c Hc) as (j & Hj & Hi). apply Hex. exists j. split; [done|congruence]. }
  split; [intros j Hj; by apply H4|]. do 2 (split; [done|]).
  intros cap Hcap Hls j Hj. by apply (qrun_cap cap ls st Hcap Hls H).
Qed.

(** Two workers select at once: the second skips the first one's row. *)
Lemma claims_are_exactly_once_witness :
  exists ls st, qrun empty_queue ls st /\ claims ls = [(2, 1); (1, 1)] /\ NoDup (claims ls).
Proof.
  pose (job i s a c w := {| jb_id := i; jb_organization_id := 5; jb_status := s; jb_attempts := a;
    jb_claimed_at := c; jb_claimed_by := w; jb_last_error := None; jb_created_at := i |}).
  pose (j i := job i "pending" 0 None None).
  pose (ls := [LEnqueue 1; LEnqueue 2; LSelect "a"; LSelect "b"; LCommit "b" [(2, 1)]; LCommit "a" [(1, 1)]]).
  assert (qrun empty_queue ls
    {| q_jobs := [job 1 "claimed" 1 (Some 9) (Some "a"); job 2 "claimed" 1 (Some 8) (Some "b")]; q_open := [] |}) as H.
  { refine (qrun_snoc _ [_; _; _; _; _] _ _ _ _ (q_commit "a" [1] 9 [j 1; job 2 "claimed" 1 (Some 8) (Some "b")] [] [])).
    refine (qrun_snoc _ [_; _; _; _] _ _ _ _ (q_commit "b" [2] 8 [j 1; j 2] [] [("a", [1])])).
    refine (qrun_snoc _ [_; _; _] _ _ _ _ (q_select "b" 1 {| q_jobs := [j 1; j 2]; q_open := [("a", [1])] |})).
    refine (qrun_snoc _ [_; _] _ _ _ _ (q_select "a" 1 {| q_jobs := [j 1; j 2]; q_open := [] |})).
    refine (qrun_snoc _ [_] _ _ _ _ (q_enqueue 2 5 2 {| q_jobs := [j 1]; q_open := [] |} _)).
    - refine (qrun_snoc _ [] _ _ _ (qrun_nil _) (q_enqueue 1 5 1 empty_queue _)).
      intros x Hx. by apply not_elem_of_nil in Hx.
    - by intros x ->%list_elem_of_singleton. }
  exists ls. eexists. split; [exact H|]. split; [reflexivity|].
  exact (proj1 (claims_are_exactly_once _ _ H)).
Defined.

(** C30: no job waits forever. In a reachable queue whose reapers share a retry cap, a
    pending job that no open claim holds makes any worker that looks for work find some;
    and if it is not claimed itself, the workers can only claim its elders, each as often
    as the cap still lets it, and what was already locked. So in every continuation in
    which no open claim crashes, nobody writes back to a job still waiting and new jobs
    are younger, as soon as there have been more claims than that the job has been
    claimed, or is held by an open claim, whose commit claims it. *)
Theorem pending_jobs_get_their_turn cap ls st j :
  1 <= cap -> Forall (capped cap) ls -> qrun empty_queue ls st ->
  j ∈ q_jobs st -> jb_status j = "pending" -> locked st (jb_id j) = false ->
  (forall limit, 1 <= limit -> claim_select limit st <> []) /\
  (forall later st', Forall (capped cap) later -> Forall (patient (jb_id j)) later -> qrun st later st' ->
     newcomers_younger (jb_created_at j) st st' ->
     turns_before cap (elders_of j st) st < Z.of_nat (List.length (claims later)) ->
     (exists a, (jb_id j, a) ∈ claims later) \/ locked st' (jb_id j) = true).
Proof.
  intros Hcap Hls Hr Hj Hs Hl. split.
  - intros limit Hlim E. unfold claim_select in E. apply map_eq_nil in E.
    assert (Hin : j ∈ merge_sort created_le (filter (fun j => jb_status j = "pending" /\ locked st (jb_id j) = false) (q_jobs st))).
    { rewrite merge_sort_Permutation. by apply list_elem_of_filter. }
    destruct (merge_sort _ _) as [|x l]; [by apply not_elem_of_nil in Hin|].
    destruct (Z.to_nat limit) eqn:En; [lia|done].
  - intros later st' Hcl Hp Hr' Hnew Hlt.
    destruct (wait_run cap st later st' j ls Hr Hj Hs Hl Hr' Hp Hnew) as [?|[?|[_ Hle]]]; [by left|by right|].
    assert (cap_inv cap st') as Hc'%(turns_nonneg cap (elders_of j st)); [|lia].
    apply (qrun_cap cap (ls ++ later)); [done|by apply Forall_app|by eapply qrun_app].
Qed.

(** A job behind one elder that can be claimed once: two claims, and it has its turn. *)
Lemma pending_jobs_get_their_turn_witness :
  exists later, List.length (claims later) = 2%nat /\ exists a, (2, a) ∈ claims later.
Proof.
  pose (job i s a c w := {| jb_id := i; jb_organization_id := 5; jb_status := s; jb_attempts := a;
    jb_claimed_at := c; jb_claimed_by := w; jb_last_error := None; jb_created_at := i |}).
  pose (j i := job i "pending" 0 None None). pose (done_ i := job i "claimed" 1 (Some 9) (Some "a")).
  pose (st := {| q_jobs := [j 1; j 2]; q_open := [] |}).
  pose (later := [LSelect "a"; LCommit "a" [(1, 1)]; LSelect "a"; LCommit "a" [(2, 1)]]).
  assert (qrun empty_queue [LEnqueue 1; LEnqueue 2] st) as Hr.
  { refine (qrun_snoc _ [_] _ _ _ _ (q_enqueue 2 5 2 {| q_jobs := [j 1]; q_open := [] |} _)).
    - refine (qrun_snoc _ [] _ _ _ (qrun_nil _) (q_enqueue 1 5 1 empty_queue _)). intros x Hx. by apply not_elem_of_nil in Hx.
    - by intros x ->%list_elem_of_singleton. }
  assert (qrun st later {| q_jobs := [done_ 1; done_ 2]; q_open := [] |}) as Hl.
  { refine (qrun_snoc _ [_; _; _] _ _ _ _ (q_commit "a" [2] 9 [done_ 1; j 2] [] [])).
    refine (qrun_snoc _ [_; _] _ _ _ _ (q_select "a" 1 {| q_jobs := [done_ 1; j 2]; q_open := [] |})).
    refine (qrun_snoc _ [_] _ _ _ _ (q_commit "a" [1] 9 [j 1; j 2] [] [])).
    exact (qrun_snoc _ [] _ _ _ (qrun_nil _) (q_select "a" 1 st)). }
  exists later. split; [reflexivity|].
  destruct (proj2 (pending_jobs_get_their_turn 1 [LEnqueue 1; LEnqueue 2] st (j 2) ltac:(lia) ltac:(by repeat constructor) Hr ltac:(by right; left) eq_refl eq_refl)
    later _ ltac:(by repeat constructor) ltac:(by repeat constructor) Hl) as [Hc|Hc].
  - intros k Hk _. apply elem_of_cons in Hk as [ ->|Hk]; [left|]. apply list_elem_of_singleton in Hk as ->. right. left.
  - vm_compute. reflexivity.
  - exact Hc.
  - discriminate Hc.
Defined.
