(* ===== verification/Capability.v ===== *)
(** Capabilities and the control status derived from them
    ([src/src/ccf/capability/rollup.py], [derive.py], [divergence.py],
    [service.py]), with the canonical control ids of
    [src/src/ccf/catalog/canonical.py] every comparison goes through.

    The tables are the fields of [CapDb]; a query's rows come in table order,
    and [derived_from] is the JSON value the column holds. *)

From S2P Require Export Posture PyText Tally.

Local Open Scope string_scope.
Local Open Scope Z_scope.

(** ** Canonical control ids *)

Record CanonicalId := {
  cid_value : string;
  cid_family : string;
  cid_number : Z;
  cid_enhancements : list Z }.

#[export] Instance canonical_id_eq_dec : EqDecision CanonicalId.
Proof. solve_decision. Defined.

(** [0*(\d{1,3})]: leading zeros, then at most three digits, the last of which
    may itself be a zero. What is read, and the rest. *)
Definition read_number (s : string) : option (Z * string) :=
  let ds := take_while is_digit s in
  if str_truthy ds && (digits_val ds <? 1000) then Some (digits_val ds, drop_while is_digit s) else None.

(** [(?:\s*\(\s*0*\d{1,3}\s*\))*\s*$] *)
Fixpoint read_enhancements (fuel : nat) (s : string) : option (list Z) :=
  match fuel with
  | O => None
  | S fuel' =>
      match lstrip s with
      | EmptyString => Some []
      | String c s' =>
          if decide (c = "("%char) then
            match read_number (lstrip s') with
            | Some (n, r) =>
                match lstrip r with
                | String d r' => if decide (d = ")"%char) then cons n <$> read_enhancements fuel' r' else None
                | EmptyString => None
                end
            | None => None
            end
          else None
      end
  end.

Definition canonical_value (fam : string) (num : Z) (enh : list Z) : string :=
  fam +:+ "-" +:+ pretty num +:+ join "" (map (fun e => "(" +:+ pretty e +:+ ")") enh).

Definition canonicalize (raw : option string) : option CanonicalId :=
  match raw with
  | None => None
  | Some s =>
      if negb (str_truthy (strip s)) then None else
      match lstrip s with
      | String a (String b (String d rest)) =>
          if is_alpha_ascii a && is_alpha_ascii b && bool_decide (d = "-"%char) then
            match read_number rest with
            | Some (num, r) =>
                match read_enhancements (S (String.length r)) r with
                | Some enh =>
                    let fam := upper (String a (String b "")) in
                    Some {| cid_value := canonical_value fam num enh; cid_family := fam;
                            cid_number := num; cid_enhancements := enh |}
                | None => None
                end
            | None => None
            end
          else None
      | _ => None
      end
  end.

Example canonicalize_examples :
  map (fun s => cid_value <$> canonicalize (Some s))
    ["AC-02"; " ac-2 (01) ( 3 )"; "AC.L2-3.1.1"; "AC-1234"; "AC-000"; ""; "AC-2(1"] =
  [Some "AC-2"; Some "AC-2(1)(3)"; None; None; Some "AC-0"; None; None].
Proof. vm_compute. reflexivity. Qed.

(** ** The rollup *)

Definition SATISFIED : list string := ["implemented"; "inherited"].
Definition RANK : list string := ["not_implemented"; "planned"; "partial"; "implemented"; "inherited"].
Definition EXCLUDED : list string := ["not_applicable"].

Fixpoint considered_statuses (statuses : list string) : res (list string) :=
  match statuses with
  | [] => Ok []
  | s :: rest =>
      if mem s EXCLUDED then considered_statuses rest
      else if negb (mem s RANK) then Err (ValueError ("unknown capability status: " +:+ repr_str s))
      else let! l := considered_statuses rest in Ok (s :: l)
  end.

Definition rank (s : string) : Z := match index_of s RANK with Ok i => i | Err _ => 0 end.

Definition roll_up (statuses : list string) : res (option string) :=
  let! considered := considered_statuses statuses in
  match considered with
  | [] => Ok None
  | s :: ss =>
      let worst := min_by rank s ss in
      if negb (mem worst SATISFIED) && existsb (fun x => mem x SATISFIED) considered
      then Ok (Some "partial") else Ok (Some worst)
  end.

(** ** Tables *)

Record CapabilityRow := {
  cp_id : Z;
  cp_organization_id : option Z;
  cp_key : string;
  cp_title : string;
  cp_statement : option string;
  cp_status : string }.

Record ControlImplementation := {
  ci_id : Z;
  ci_system_id : Z;
  ci_control_id : Z;
  ci_status : string;
  ci_derived_status : option string;
  ci_derived_at : option Z;
  ci_derived_from : pyval }.

Record SystemRow := { sy_id : Z; sy_organization_id : Z; sy_name : string; sy_deleted_at : option Z }.

Record CapDb := {
  cd_capabilities : list CapabilityRow;
  cd_cap_controls : list (Z * string);      (* capability id, control id *)
  cd_cap_components : list (Z * Z);         (* capability id, component id *)
  cd_components : list (Z * Z);             (* component id, system id *)
  cd_systems : list SystemRow;
  cd_controls : list (Z * string);          (* control id, identifier *)
  cd_impls : list ControlImplementation }.

Definition set_impls (rows : list ControlImplementation) (db : CapDb) : CapDb :=
  {| cd_capabilities := cd_capabilities db; cd_cap_controls := cd_cap_controls db;
     cd_cap_components := cd_cap_components db; cd_components := cd_components db;
     cd_systems := cd_systems db; cd_controls := cd_controls db; cd_impls := rows |}.

(** [select(...).join(...)...where(...)]: one row per combination of edges. *)
Definition capabilities_for_system (db : CapDb) (system_id : Z) : list (CapabilityRow * string) :=
  flat_map (fun cap =>
    flat_map (fun cc =>
      flat_map (fun comp =>
        flat_map (fun sys =>
          flat_map (fun ctl =>
            if bool_decide (cc.1 = cp_id cap) && bool_decide (comp.1 = cc.2) &&
               bool_decide (sy_id sys = comp.2) && bool_decide (ctl.1 = cp_id cap) &&
               bool_decide (comp.2 = system_id) &&
               bool_decide (cp_organization_id cap = Some (sy_organization_id sys))
            then [(cap, ctl.2)] else [])
          (cd_cap_controls db))
        (cd_systems db))
      (cd_components db))
    (cd_cap_components db))
  (cd_capabilities db).

(** [grouped.setdefault(key, []).append(x)] *)
Definition group_add {A} (k : string) (x : A) (d : list (string * list A)) : list (string * list A) :=
  dset k (default [] (dget k d) ++ [x])%list d.

Definition group_pair (d : list (string * list CapabilityRow)) (pair : CapabilityRow * string) :=
  match canonicalize (Some pair.2) with
  | None => d
  | Some c => group_add (cid_value c) pair.1 d
  end.
Definition grouped (pairs : list (CapabilityRow * string)) : list (string * list CapabilityRow) :=
  foldl group_pair [] pairs.

Definition control_rows_by_canonical (db : CapDb) (ids : list string) : list (string * Z) :=
  match ids with
  | [] => []
  | _ => foldl (fun out c => match canonicalize (Some c.2) with
                             | Some k => if mem (cid_value k) ids then dset (cid_value k) c.1 out else out
                             | None => out
                             end) [] (cd_controls db)
  end.

(** ** Derivation *)

Definition contributors_of (caps : list CapabilityRow) : pyval :=
  VDict [("capabilities", VList (map VStr (sorted_strs (map cp_key caps))));
         ("detail", VList (map VStr (sorted_strs (map (fun c => cp_key c +:+ "=" +:+ cp_status c) caps))))].

Definition clear_row (r : ControlImplementation) : ControlImplementation :=
  {| ci_id := ci_id r; ci_system_id := ci_system_id r; ci_control_id := ci_control_id r;
     ci_status := ci_status r; ci_derived_status := None; ci_derived_at := None;
     ci_derived_from := VDict [] |}.

Definition annotate_row (now : Z) (derived : string) (contributors : pyval) (r : ControlImplementation)
    : ControlImplementation :=
  {| ci_id := ci_id r; ci_system_id := ci_system_id r; ci_control_id := ci_control_id r;
     ci_status := ci_status r; ci_derived_status := Some derived; ci_derived_at := Some now;
     ci_derived_from := contributors |}.

Definition up_to_date (derived : string) (contributors : pyval) (r : ControlImplementation) : bool :=
  bool_decide (ci_derived_status r = Some derived) && py_eq (ci_derived_from r) contributors.

Definition assign_impl (i : Z) (f : ControlImplementation -> ControlImplementation)
    (rows : list ControlImplementation) : list ControlImplementation :=
  map (fun r => if ci_id r =? i then f r else r) rows.

(** The comprehension of [covered_ctl_ids]. *)
Fixpoint covered_ids (control_ids : list (string * Z)) (groups : list (string * list CapabilityRow))
    : res (list Z) :=
  match groups with
  | [] => Ok []
  | (k, caps) :: rest =>
      match dget k control_ids with
      | None => covered_ids control_ids rest
      | Some i =>
          let! d := roll_up (map cp_status caps) in
          let! l := covered_ids control_ids rest in
          Ok (match d with Some _ => i :: l | None => l end)
      end
  end.

Definition is_stale (system_id : Z) (covered : list Z) (r : ControlImplementation) : bool :=
  bool_decide (ci_system_id r = system_id) && bool_decide (ci_derived_status r <> None) &&
  negb (mem (ci_control_id r) covered).

(** One group of the loop: the rows and the count of touched ones. *)
Definition derive_group (system_id now : Z) (control_ids : list (string * Z))
    (group : string * list CapabilityRow) (st : Z * list ControlImplementation)
    : res (Z * list ControlImplementation) :=
  let '(touched, rows) := st in
  match dget group.1 control_ids with
  | None => Ok st
  | Some ctl =>
      let! d := roll_up (map cp_status group.2) in
      match d with
      | None => Ok st
      | Some derived =>
          match List.find (fun r => (ci_system_id r =? system_id) && (ci_control_id r =? ctl)) rows with
          | None => Ok st
          | Some impl =>
              if up_to_date derived (contributors_of group.2) impl then Ok st
              else Ok (touched + 1,
                       assign_impl (ci_id impl) (annotate_row now derived (contributors_of group.2)) rows)
          end
      end
  end.

Fixpoint derive_groups (system_id now : Z) (control_ids : list (string * Z))
    (groups : list (string * list CapabilityRow)) (st : Z * list ControlImplementation)
    : res (Z * list ControlImplementation) :=
  match groups with
  | [] => Ok st
  | g :: rest => let! st := derive_group system_id now control_ids g st in
                 derive_groups system_id now control_ids rest st
  end.

Definition derive_for_system (system_id now : Z) (db : CapDb) : res (Z * CapDb) :=
  let groups := grouped (capabilities_for_system db system_id) in
  let control_ids := control_rows_by_canonical db (dkeys groups) in
  let! covered := covered_ids control_ids groups in
  let touched := Z.of_nat (List.length (filter (fun r => is_stale system_id covered r = true) (cd_impls db))) in
  let rows := map (fun r => if is_stale system_id covered r then clear_row r else r) (cd_impls db) in
  let! out := derive_groups system_id now control_ids groups (touched, rows) in
  Ok (out.1, set_impls out.2 db).

(** The live systems of an organization, by id. *)
Definition live_systems (db : CapDb) (organization_id : Z) : list Z :=
  merge_sort Z.le (map sy_id (filter (fun s => sy_organization_id s = organization_id /\ sy_deleted_at s = None)
                                (cd_systems db))).

Fixpoint derive_systems (now : Z) (ids : list Z) (rows : Z) (db : CapDb) : res (Z * CapDb) :=
  match ids with
  | [] => Ok (rows, db)
  | i :: rest => let! out := derive_for_system i now db in derive_systems now rest (rows + out.1) out.2
  end.

(** The counts of systems and annotated rows, and the tables. *)
Definition derive_for_org (organization_id now : Z) (db : CapDb) : res (Z * Z * CapDb) :=
  let ids := live_systems db organization_id in
  let! out := derive_systems now ids 0 db in
  Ok (Z.of_nat (List.length ids), out.1, out.2).

(** ** Reading the derivation back *)

Definition NO_COVERAGE : string := "no_capability_coverage".

Record Contributor := { ct_key : string; ct_status : option string; ct_title : option string }.
Definition label (c : Contributor) : string := str_or (or_empty (ct_title c)) (ct_key c).

Record Derivation := {
  dv_system_id : Z;
  dv_system_name : string;
  dv_authored_status : string;
  dv_derived_status : option string;
  dv_derived_at : option Z;
  dv_contributors : list Contributor }.

Definition covered (d : Derivation) : bool := bool_decide (dv_derived_status d <> None).
Definition divergent (d : Derivation) : bool :=
  covered d && bool_decide (dv_derived_status d <> Some (dv_authored_status d)).
Definition state (d : Derivation) : string :=
  if negb (covered d) then NO_COVERAGE else if divergent d then "diverges" else "agrees".

(** The scope of a query: everything, or one organization's rows. *)
Definition in_org (org_id row_org : option Z) : bool :=
  match org_id with Some o => bool_decide (row_org = Some o) | None => true end.

Definition org_systems (org_id : option Z) (db : CapDb) : list Z :=
  map sy_id (filter (fun s => in_org org_id (Some (sy_organization_id s)) = true) (cd_systems db)).

(** [derived_status != status] is UNKNOWN on a null. *)
Definition divergence_count (org_id : option Z) (db : CapDb) : Z :=
  Z.of_nat (List.length (filter (fun r =>
    ci_system_id r ∈ org_systems org_id db /\ ci_derived_status r <> None /\
    ci_derived_status r <> Some (ci_status r)) (cd_impls db))).

(** [(d.get(k) or [])], iterated. *)
Definition entries (k : string) (d : list (string * pyval)) : res (list pyval) :=
  let v := vget k d in if truthy v then iter_val v else Ok [].

(** [k, _, v = entry.partition("=")] *)
Fixpoint partition_eq (s : string) : string * string :=
  match s with
  | EmptyString => ("", "")
  | String c s' => if decide (c = "="%char) then ("", s')
                   else let '(k, v) := partition_eq s' in (String c k, v)
  end.

Definition status_entry (d : list (string * string)) (entry : pyval) : list (string * string) :=
  match entry with
  | VStr s => if str_has "="%char s then dset (partition_eq s).1 (partition_eq s).2 d else d
  | _ => d
  end.

Definition strings_of (l : list pyval) : list string :=
  omap (fun v => match v with VStr s => Some s | _ => None end) l.

Definition contributors (derived_from : pyval) : res (list Contributor) :=
  if negb (truthy derived_from) then Ok [] else
  match derived_from with
  | VDict d =>
      let! caps := entries "capabilities" d in
      let! detail := entries "detail" d in
      let statuses := foldl status_entry [] detail in
      Ok (map (fun k => {| ct_key := k; ct_status := dget k statuses; ct_title := None |}) (strings_of caps))
  | v => Err (AttributeError (type_name v) "get")
  end.

(** The titles of the tenant's own capabilities; a later row wins. *)
Definition resolve_titles (org_id : option Z) (db : CapDb) (cs : list Contributor) : list Contributor :=
  match org_id with
  | None => cs
  | Some o =>
      let keys := map ct_key cs in
      let titles := foldl (fun d c => dset (cp_key c) (cp_title c) d) []
        (filter (fun c => cp_organization_id c = Some o /\ cp_key c ∈ keys) (cd_capabilities db)) in
      map (fun c => {| ct_key := ct_key c; ct_status := ct_status c; ct_title := dget (ct_key c) titles |}) cs
  end.

Definition derivation_of (org_id : option Z) (db : CapDb) (impl : ControlImplementation) (system_name : string)
    : res Derivation :=
  let! cs := contributors (ci_derived_from impl) in
  Ok {| dv_system_id := ci_system_id impl; dv_system_name := system_name;
        dv_authored_status := ci_status impl; dv_derived_status := ci_derived_status impl;
        dv_derived_at := ci_derived_at impl; dv_contributors := resolve_titles org_id db cs |}.

(** ** Queries by control *)

(** [select(Capability, control_id).join(...)] *)
Definition edges (db : CapDb) : list (CapabilityRow * string) :=
  flat_map (fun cap => omap (fun e => if decide (e.1 = cp_id cap) then Some (cap, e.2) else None)
                         (cd_cap_controls db)) (cd_capabilities db).

Definition claims_control (target : string) (e : CapabilityRow * string) : bool :=
  match canonicalize (Some e.2) with Some c => bool_decide (cid_value c = target) | None => false end.

Definition capabilities_for_control (control_id : string) (db : CapDb) : list CapabilityRow :=
  match canonicalize (Some control_id) with
  | None => []
  | Some t => map fst (filter (fun e => claims_control (cid_value t) e = true) (edges db))
  end.

Definition canonical_ids (control_ids : list string) : list string :=
  omap (fun s => cid_value <$> canonicalize (Some s)) control_ids.

Definition capabilities_for_controls (control_ids : list string) (org_id : option Z) (db : CapDb)
    : list (string * list CapabilityRow) :=
  let targets := canonical_ids control_ids in
  match targets with
  | [] => []
  | _ =>
      let rows := filter (fun e => in_org org_id (cp_organization_id e.1) = true) (edges db) in
      foldl (fun out e => match canonicalize (Some e.2) with
                          | Some c => if mem (cid_value c) targets then group_add (cid_value c) e.1 out else out
                          | None => out
                          end) [] rows
  end.

(** [capability_statements_by_control]: the rows of the query, then the loop;
    the set [seen[k]] of the source holds the keys listed under [k] in [out]. *)
Definition statement_rows (system_id : Z) (db : CapDb) : list (CapabilityRow * string) :=
  flat_map (fun ctl =>
    flat_map (fun cap =>
      flat_map (fun cc =>
        flat_map (fun comp =>
          if bool_decide (cp_id cap = ctl.1) && bool_decide (cc.1 = cp_id cap) &&
             bool_decide (comp.1 = cc.2) && bool_decide (comp.2 = system_id) &&
             mem (cp_status cap) ["implemented"; "inherited"; "partial"]
          then [(cap, ctl.2)] else [])
        (cd_components db))
      (cd_cap_components db))
    (cd_capabilities db))
  (cd_cap_controls db).

Definition add_statement (out : list (string * list (string * string * string)))
    (e : CapabilityRow * string) : list (string * list (string * string * string)) :=
  let '(cap, raw) := e in
  let statement := strip (or_empty (cp_statement cap)) in
  if negb (str_truthy (or_empty (cp_statement cap))) || negb (str_truthy statement) then out else
  match canonicalize (Some raw) with
  | None => out
  | Some c =>
      if mem (cp_key cap) (map (fun x => x.1.1) (default [] (dget (cid_value c) out))) then out
      else group_add (cid_value c) (cp_key cap, statement, cp_status cap) out
  end.

Definition capability_statements_by_control (system_id : Z) (db : CapDb)
    : list (string * list (string * string * string)) :=
  foldl add_statement [] (statement_rows system_id db).

(** ** Canonical ids: lemmas *)

Definition starts_with_digit (s : string) : bool :=
  match s with String c _ => is_digit c | EmptyString => false end.

Lemma take_digits ds r :
  str_forallb is_digit ds = true -> starts_with_digit r = false ->
  take_while is_digit (ds +:+ r) = ds /\ drop_while is_digit (ds +:+ r) = r.
Proof.
  induction ds as [|c ds IH]; cbn [str_forallb].
  - intros _ Hr. rewrite app_nil_str. destruct r as [|d r]; [done|]. simpl in *. by rewrite Hr.
  - intros [Hc Hds]%andb_true_iff Hr. rewrite app_cons_str. cbn [take_while drop_while]. rewrite Hc.
    destruct (IH Hds Hr) as [-> ->]. done.
Qed.

(** The numbers an id can hold print as digits that read back. *)
Lemma pretty_small n :
  0 <= n < 1000 ->
  str_forallb is_digit (pretty n) = true /\ str_truthy (pretty n) = true /\ digits_val (pretty n) = n.
Proof.
  intros Hn.
  assert (forallb (fun i => let z := Z.of_nat i in
    str_forallb is_digit (pretty z) && str_truthy (pretty z) && (digits_val (pretty z) =? z)) (seq 0 1000) = true)
    as H by (vm_compute; reflexivity).
  rewrite forallb_forall in H. specialize (H (Z.to_nat n)).
  rewrite Z2Nat.id in H by lia. cbv zeta in H.
  assert (In (Z.to_nat n) (seq 0 1000)) as Hin by (apply in_seq; lia).
  specialize (H Hin). apply andb_true_iff in H as [[H1 H2]%andb_true_iff H3%Z.eqb_eq]. done.
Qed.

Lemma read_number_pretty n r :
  0 <= n < 1000 -> starts_with_digit r = false -> read_number (pretty n +:+ r) = Some (n, r).
Proof.
  intros Hn Hr. destruct (pretty_small n Hn) as (H1 & H2 & H3). unfold read_number.
  destruct (take_digits (pretty n) r H1 Hr) as [-> ->]. rewrite H2, H3.
  by rewrite (proj2 (Z.ltb_lt n 1000)) by lia.
Qed.

Lemma digits_val_nonneg s : 0 <= digits_val s.
Proof.
  unfold digits_val.
  assert (forall a, 0 <= a -> 0 <= (fix go (acc : Z) (s : string) : Z :=
     match s with
     | EmptyString => acc
     | String c s' => go (10 * acc + Z.of_N (cp c - 48)%N) s'
     end) a s) as H; [|by apply H].
  induction s as [|c s IH]; intros a Ha; [done|]. apply IH. lia.
Qed.

Lemma read_number_range s n r : read_number s = Some (n, r) -> 0 <= n < 1000.
Proof.
  unfold read_number. destruct (str_truthy _ && _) eqn:E; [|done]. intros [= <- _].
  apply andb_true_iff in E as [_ E%Z.ltb_lt]. pose proof (digits_val_nonneg (take_while is_digit s)). lia.
Qed.

Definition enh_text (enh : list Z) : string := join "" (map (fun e => "(" +:+ pretty e +:+ ")") enh).

Lemma enh_text_cons e enh : enh_text (e :: enh) = "(" +:+ pretty e +:+ ")" +:+ enh_text enh.
Proof.
  unfold enh_text. cbn [map]. destruct enh as [|e' enh]; cbn [map join].
  - by rewrite app_nil_r_str.
  - by rewrite app_nil_str, !app_assoc_str.
Qed.

Lemma lstrip_keeps c s : is_space c = false -> lstrip (String c s) = String c s.
Proof. intros H. unfold lstrip. cbn [drop_while]. by rewrite H. Qed.

Lemma digit_facts c : is_digit c = true -> is_space c = false /\ c <> "("%char /\ c <> ")"%char.
Proof. destruct c as [[] [] [] [] [] [] [] []]; by vm_compute. Qed.

Lemma lstrip_pretty n r : 0 <= n < 1000 -> lstrip (pretty n +:+ r) = pretty n +:+ r.
Proof.
  intros Hn. destruct (pretty_small n Hn) as (H1 & H2 & _).
  destruct (pretty n) as [|c s]; [by vm_compute in H2|]. rewrite app_cons_str. apply lstrip_keeps.
  cbn [str_forallb] in H1. apply andb_true_iff in H1 as [H1 _]. by apply digit_facts.
Qed.

Lemma read_enhancements_text fuel enh :
  (List.length enh < fuel)%nat -> Forall (fun e => 0 <= e < 1000) enh ->
  read_enhancements fuel (enh_text enh) = Some enh.
Proof.
  revert fuel. induction enh as [|e enh IH]; intros [|fuel] Hf He; try (cbn in Hf; lia); [done|].
  apply Forall_cons in He as [He Hes]. rewrite enh_text_cons. cbn [read_enhancements].
  rewrite (app_cons_str "("), app_nil_str, lstrip_keeps by done.
  rewrite decide_True by done. rewrite lstrip_pretty, read_number_pretty by done.
  rewrite (app_cons_str ")"), app_nil_str, lstrip_keeps by done. rewrite decide_True by done.
  by rewrite IH by (done || cbn in Hf; lia).
Qed.

Lemma read_enhancements_range fuel s enh :
  read_enhancements fuel s = Some enh -> Forall (fun e => 0 <= e < 1000) enh.
Proof.
  revert s enh. induction fuel as [|fuel IH]; intros s enh; cbn [read_enhancements]; [done|].
  destruct (lstrip s) as [|c s']; [by intros [= <-]|]. case_decide; [|done].
  destruct (read_number (lstrip s')) as [[n r]|] eqn:En; [|done]. apply read_number_range in En.
  destruct (lstrip r) as [|d r']; [done|]. case_decide; [|done].
  destruct (read_enhancements fuel r') as [es|] eqn:Er; [|done]. intros [= <-].
  constructor; [done|]. by eapply IH.
Qed.

(** An upper-cased letter is a letter that upper-cases to itself. *)
Lemma upper_alpha a :
  is_alpha_ascii a = true ->
  exists b, upper_char a = String b "" /\ is_alpha_ascii b = true /\ upper_char b = String b "" /\ is_space b = false.
Proof.
  intros H. exists (match upper_char a with String b _ => b | EmptyString => a end). revert H.
  destruct a as [[] [] [] [] [] [] [] []]; vm_compute; (discriminate || done).
Qed.

Lemma strip_nonblank c s : is_space c = false -> str_truthy (strip (String c s)) = true.
Proof.
  intros H. unfold strip. rewrite lstrip_keeps by done. unfold rstrip. cbn [drop_end]. rewrite H.
  by destruct (drop_end is_space s).
Qed.

Lemma enh_text_length enh : (List.length enh <= String.length (enh_text enh))%nat.
Proof.
  induction enh as [|e enh IH]; [done|]. rewrite enh_text_cons. cbn [List.length].
  rewrite (app_cons_str "("), app_nil_str. cbn [String.length].
  assert (forall s t, String.length (s +:+ t) = (String.length s + String.length t)%nat) as Hl.
  { induction s as [|c s IHs]; intros t; [done|]. rewrite app_cons_str. cbn [String.length]. by rewrite IHs. }
  rewrite !Hl. lia.
Qed.

Lemma starts_enh enh : starts_with_digit (enh_text enh) = false.
Proof. destruct enh as [|e enh]; [done|]. by rewrite enh_text_cons. Qed.

(** What [canonicalize] accepts, and that its value denotes itself. *)
Lemma canonicalize_value a b num enh :
  is_alpha_ascii a = true -> is_alpha_ascii b = true -> 0 <= num < 1000 ->
  Forall (fun e => 0 <= e < 1000) enh ->
  let c := {| cid_value := canonical_value (upper (String a (String b ""))) num enh;
              cid_family := upper (String a (String b "")); cid_number := num; cid_enhancements := enh |} in
  canonicalize (Some (cid_value c)) = Some c.
Proof.
  intros Ha Hb Hn He. cbv zeta. cbn [cid_value]. unfold canonical_value. fold (enh_text enh).
  destruct (upper_alpha a Ha) as (a' & Ea & Ha' & Ea' & Hsa).
  destruct (upper_alpha b Hb) as (b' & Eb & Hb' & Eb' & _).
  assert (Eu : upper (String a (String b "")) = String a' (String b' "")).
  { change (upper (String a (String b ""))) with (upper_char a +:+ upper_char b +:+ "").
    by rewrite Ea, Eb. }
  assert (Eu' : upper (String a' (String b' "")) = String a' (String b' "")).
  { change (upper (String a' (String b' ""))) with (upper_char a' +:+ upper_char b' +:+ "").
    by rewrite Ea', Eb'. }
  rewrite Eu, !app_cons_str, !app_nil_str. unfold canonicalize.
  rewrite strip_nonblank, lstrip_keeps by done. cbn [negb]. rewrite Ha', Hb'. cbn [andb].
  rewrite bool_decide_eq_true_2 by done.
  rewrite read_number_pretty by (done || apply starts_enh).
  rewrite read_enhancements_text; [|pose proof (enh_text_length enh); lia|done].
  by rewrite Eu'.
Qed.

Lemma canonicalize_inv s c :
  canonicalize s = Some c ->
  exists a b num enh, is_alpha_ascii a = true /\ is_alpha_ascii b = true /\ 0 <= num < 1000 /\
    Forall (fun e => 0 <= e < 1000) enh /\
    c = {| cid_value := canonical_value (upper (String a (String b ""))) num enh;
           cid_family := upper (String a (String b "")); cid_number := num; cid_enhancements := enh |}.
Proof.
  unfold canonicalize. destruct s as [s|]; [|done]. destruct (negb _); [done|].
  destruct (lstrip s) as [|a [|b [|d rest]]]; try done.
  destruct (is_alpha_ascii a && is_alpha_ascii b && bool_decide (d = "-"%char)) eqn:E; [|done].
  apply andb_true_iff in E as [[Ha Hb]%andb_true_iff _].
  destruct (read_number rest) as [[num r]|] eqn:En; [|done]. apply read_number_range in En.
  destruct (read_enhancements _ r) as [enh|] eqn:Ee; [|done]. apply read_enhancements_range in Ee.
  intros [= <-]. by exists a, b, num, enh.
Qed.

(** ** The rollup: lemmas *)

Lemma considered_statuses_spec statuses :
  match considered_statuses statuses with
  | Ok l => l = filter (fun s => s ∉ EXCLUDED) statuses /\ forall s, s ∈ l -> s ∈ RANK
  | Err _ => exists s, s ∈ statuses /\ s ∉ EXCLUDED /\ s ∉ RANK
  end.
Proof.
  induction statuses as [|s rest IH]; cbn [considered_statuses]; [split; [done|]; by intros s ?%not_elem_of_nil|].
  destruct (mem_spec s EXCLUDED) as [He|He].
  - rewrite filter_cons_False by tauto. destruct (considered_statuses rest); [done|].
    destruct IH as (x & ? & ?). exists x. split; [by right|done].
  - destruct (mem_spec s RANK) as [Hr|Hr]; cbn [negb]; [|exists s; split; [by left|done]].
    destruct (considered_statuses rest); cbn [res_bind].
    + destruct IH as [-> IH]. rewrite filter_cons_True by done. split; [done|].
      intros x [ ->|Hx]%elem_of_cons; auto.
    + destruct IH as (x & ? & ?). exists x. split; [by right|done].
Qed.

Lemma rank_cases s :
  s ∈ RANK -> (rank s, s) = (0, "not_implemented") \/ (rank s, s) = (1, "planned") \/
    (rank s, s) = (2, "partial") \/ (rank s, s) = (3, "implemented") \/ (rank s, s) = (4, "inherited").
Proof.
  intros H. unfold RANK in H. elem_cases H; vm_compute; tauto.
Qed.

Lemma satisfied_rank s : s ∈ RANK -> mem s SATISFIED = (3 <=? rank s).
Proof. intros H%rank_cases. destruct H as [[= -> ->]|[[= -> ->]|[[= -> ->]|[[= -> ->]|[= -> ->]]]]]; done. Qed.

Lemma rank_inj s t : s ∈ RANK -> t ∈ RANK -> rank s = rank t -> s = t.
Proof.
  intros Hs%rank_cases Ht%rank_cases.
  destruct Hs as [[= -> ->]|[[= -> ->]|[[= -> ->]|[[= -> ->]|[= -> ->]]]]],
    Ht as [[= -> ->]|[[= -> ->]|[[= -> ->]|[[= -> ->]|[= -> ->]]]]]; done.
Qed.

(** ** What derivation promises, row by row *)

(** The capabilities of the pairs that claim a canonical id, one per edge. *)
Definition claim_caps (k : string) (pairs : list (CapabilityRow * string)) : list CapabilityRow :=
  map fst (filter (fun e => claims_control k e = true) pairs).

(** The control of the catalog that stands for a canonical id. *)
Definition speaks_for (db : CapDb) (k : string) : option Z :=
  last (omap (fun c => match canonicalize (Some c.2) with
                       | Some i => if decide (cid_value i = k) then Some c.1 else None
                       | None => None end) (cd_controls db)).

(** The capabilities behind one control in one system. *)
Definition claimants (db : CapDb) (system_id ctl : Z) : list CapabilityRow :=
  match List.find (fun c => c.1 =? ctl) (cd_controls db) with
  | Some c => match canonicalize (Some c.2) with
              | Some i => if decide (speaks_for db (cid_value i) = Some ctl)
                          then claim_caps (cid_value i) (capabilities_for_system db system_id) else []
              | None => []
              end
  | None => []
  end.

Definition backing (db : CapDb) (system_id ctl : Z) : option string :=
  match roll_up (map cp_status (claimants db system_id ctl)) with Ok d => d | Err _ => None end.

(** A row that derivation has to write. *)
Definition out_of_date (db : CapDb) (system_id : Z) (r : ControlImplementation) : bool :=
  bool_decide (ci_system_id r = system_id) &&
  match backing db system_id (ci_control_id r) with
  | Some d => negb (up_to_date d (contributors_of (claimants db system_id (ci_control_id r))) r)
  | None => bool_decide (ci_derived_status r <> None)
  end.
Definition derived_row (db : CapDb) (system_id now : Z) (r : ControlImplementation) : ControlImplementation :=
  if out_of_date db system_id r then
    match backing db system_id (ci_control_id r) with
    | Some d => annotate_row now d (contributors_of (claimants db system_id (ci_control_id r))) r
    | None => clear_row r
    end
  else r.

Record cap_wf (db : CapDb) : Prop := {
  cw_impls : NoDup (map ci_id (cd_impls db));
  cw_unique : NoDup (map (fun r => (ci_system_id r, ci_control_id r)) (cd_impls db));
  cw_controls : NoDup (map fst (cd_controls db));
  cw_statuses : forall c, c ∈ cd_capabilities db -> cp_status c ∈ RANK \/ cp_status c ∈ EXCLUDED }.

(** ** Groups *)

Lemma group_add_lookup {A} k k' (x : A) d :
  dget k' (group_add k x d) = if decide (k' = k) then Some (default [] (dget k d) ++ [x])%list else dget k' d.
Proof. unfold group_add. case_decide as E; [subst; apply dget_dset_eq|by apply dget_dset_ne]. Qed.

Lemma group_pair_lookup d e k :
  dget k (group_pair d e) =
  if claims_control k e then Some (default [] (dget k d) ++ [e.1])%list else dget k d.
Proof.
  unfold group_pair, claims_control. destruct (canonicalize (Some e.2)) as [c|]; [|done].
  rewrite group_add_lookup. case_bool_decide as E; [subst; by rewrite decide_True|].
  by rewrite decide_False by congruence.
Qed.

Lemma grouped_lookup k pairs :
  dget k (grouped pairs) = match claim_caps k pairs with [] => None | l => Some l end.
Proof.
  assert (forall d, dget k (foldl group_pair d pairs) =
    match claim_caps k pairs with [] => dget k d | l => Some (default [] (dget k d) ++ l)%list end) as H.
  { unfold claim_caps. induction pairs as [|e pairs IH]; intros d; [done|]. cbn [foldl].
    rewrite IH, group_pair_lookup, filter_cons. destruct (claims_control k e) eqn:E.
    - rewrite decide_True by done. cbn [map]. destruct (map fst (filter _ pairs)) eqn:Em; [done|].
      cbn [default from_option id]. by rewrite <-app_assoc.
    - by rewrite decide_False. }
  unfold grouped. rewrite H. by destruct (claim_caps k pairs).
Qed.

Lemma grouped_NoDup pairs : NoDup (dkeys (grouped pairs)).
Proof.
  unfold grouped. assert (forall d : list (string * list CapabilityRow), NoDup (dkeys d) -> NoDup (dkeys (foldl group_pair d pairs))) as H.
  { induction pairs as [|e pairs IH]; intros d Hd; [done|]. cbn [foldl]. apply IH. unfold group_pair.
    destruct (canonicalize _); [by apply dset_NoDup|done]. }
  apply H. constructor.
Qed.

Lemma grouped_elem k caps pairs :
  (k, caps) ∈ grouped pairs <-> claim_caps k pairs = caps /\ caps <> [].
Proof.
  split.
  - intros H. apply (dget_elem k caps) in H; [|apply grouped_NoDup]. rewrite grouped_lookup in H.
    by destruct (claim_caps k pairs); [|injection H as <-].
  - intros [<- Hne]. apply dget_Some_elem. rewrite grouped_lookup. by destruct (claim_caps k pairs).
Qed.

(** ** The control rows *)

Definition control_step (ids : list string) (out : list (string * Z)) (c : Z * string) : list (string * Z) :=
  match canonicalize (Some c.2) with
  | Some k => if mem (cid_value k) ids then dset (cid_value k) c.1 out else out
  | None => out
  end.

Lemma last_app_or {A} (l : list A) (x : A) : last (l ++ [x])%list = Some x.
Proof. by rewrite last_snoc. Qed.

Lemma control_rows_lookup db ids k :
  dget k (control_rows_by_canonical db ids) = if mem k ids then speaks_for db k else None.
Proof.
  unfold control_rows_by_canonical, speaks_for.
  assert (dget k (foldl (control_step ids) [] (cd_controls db)) =
    if mem k ids then last (omap (fun c => match canonicalize (Some c.2) with
                       | Some i => if decide (cid_value i = k) then Some c.1 else None
                       | None => None end) (cd_controls db)) else None) as H.
  { induction (cd_controls db) as [|c l IH] using rev_ind; [by destruct (mem k ids)|].
    rewrite foldl_app, omap_app. cbn [foldl]. unfold control_step at 1. cbn [omap list_omap].
    destruct (canonicalize (Some c.2)) as [i|]; [|by rewrite app_nil_r].
    destruct (decide (cid_value i = k)) as [ <-|Hne].
    - rewrite last_snoc. destruct (mem (cid_value i) ids) eqn:Em; [apply dget_dset_eq|]. exact IH.
    - rewrite app_nil_r. destruct (mem (cid_value i) ids); [by rewrite dget_dset_ne|done]. }
  destruct ids as [|i0 ids]; [done|exact H].
Qed.

Lemma speaks_for_elem db k ctl :
  speaks_for db k = Some ctl ->
  exists c i, c ∈ cd_controls db /\ c.1 = ctl /\ canonicalize (Some c.2) = Some i /\ cid_value i = k.
Proof.
  intros H. apply last_Some_elem_of in H. apply list_elem_of_omap in H as (c & Hc & H).
  destruct (canonicalize (Some c.2)) as [i|] eqn:E; [|done]. case_decide; [|done]. injection H as <-.
  by exists c, i.
Qed.

Lemma control_find db c :
  NoDup (map fst (cd_controls db)) -> c ∈ cd_controls db ->
  List.find (fun x => x.1 =? c.1) (cd_controls db) = Some c.
Proof.
  induction (cd_controls db) as [|x l IH]; [by intros _ ?%not_elem_of_nil|]. cbn [map List.find].
  intros [Hx Hnd]%NoDup_cons [ ->|Hc]%elem_of_cons; [by rewrite Z.eqb_refl|].
  destruct (Z.eqb_spec x.1 c.1) as [E|]; [|by apply IH]. destruct Hx. rewrite E. by apply list_elem_of_fmap_2.
Qed.

Section derive.
Context (db : CapDb) (sid now : Z).
Hypothesis wf : cap_wf db.
Notation pairs := (capabilities_for_system db sid).
Notation groups := (grouped pairs).
Notation ctl_ids := (control_rows_by_canonical db (dkeys groups)).
Notation group := (prod string (list CapabilityRow)).

Lemma groups_key k : k ∈ dkeys groups <-> claim_caps k pairs <> [].
Proof.
  split.
  - intros ([k' caps] & -> & [<- ?]%grouped_elem)%list_elem_of_fmap. done.
  - intros H. apply list_elem_of_fmap. exists (k, claim_caps k pairs). split; [done|]. by apply grouped_elem.
Qed.

Lemma ctl_ids_lookup k : dget k ctl_ids = if decide (claim_caps k pairs = []) then None else speaks_for db k.
Proof.
  rewrite control_rows_lookup. case_decide as E.
  - destruct (mem_spec k (dkeys groups)) as [H%groups_key|]; [congruence|done].
  - destruct (mem_spec k (dkeys groups)) as [|H]; [done|]. by rewrite groups_key in H.
Qed.

(** A control stands for one canonical id. *)
Lemma ctl_ids_inj k k' ctl : dget k ctl_ids = Some ctl -> dget k' ctl_ids = Some ctl -> k = k'.
Proof.
  rewrite !ctl_ids_lookup. case_decide; [done|]. case_decide; [done|].
  intros (c & i & Hc & Hi & Ec & <-)%speaks_for_elem (c' & i' & Hc' & Hi' & Ec' & <-)%speaks_for_elem.
  assert (c = c') as <- by (eapply (key_inj fst); [apply wf|done|done|congruence]). congruence.
Qed.

Definition group_for (gs : list group) (ctl : Z) : option group :=
  List.find (fun g => bool_decide (dget g.1 ctl_ids = Some ctl)) gs.

Lemma group_claimants ctl :
  match group_for groups ctl with
  | Some g => g ∈ groups /\ dget g.1 ctl_ids = Some ctl /\ g.2 = claimants db sid ctl
  | None => claimants db sid ctl = []
  end.
Proof.
  unfold group_for, claimants. destruct (List.find _ groups) as [[k caps]|] eqn:E.
  - apply List.find_some in E as [Hin%list_elem_of_In Hk%bool_decide_eq_true_1]. cbn [fst snd] in *.
    split; [done|]. split; [done|]. apply grouped_elem in Hin as [<- Hne].
    rewrite ctl_ids_lookup, decide_False in Hk by done. assert (Hs := Hk).
    apply speaks_for_elem in Hk as (c & i & Hc & <- & Ec & <-).
    rewrite control_find, Ec by (done || apply wf). by rewrite decide_True.
  - destruct (List.find _ (cd_controls db)) as [c|] eqn:Ec; [|done].
    apply List.find_some in Ec as [Hc%list_elem_of_In Hi%Z.eqb_eq].
    destruct (canonicalize (Some c.2)) as [i|] eqn:Ei; [|done]. case_decide as Hs; [|done].
    destruct (claim_caps (cid_value i) pairs) as [|x l] eqn:Ecl; [done|]. exfalso.
    assert (((cid_value i, x :: l) : group) ∈ groups) as Hin by (by apply grouped_elem).
    apply list_elem_of_In in Hin. apply (List.find_none _ _ E) in Hin. cbn [fst] in Hin.
    rewrite bool_decide_eq_true_2 in Hin; [done|]. by rewrite ctl_ids_lookup, decide_False by (by rewrite Ecl).
Qed.

(** Statuses come from the column's vocabulary, so the rollup always answers. *)
Lemma pairs_status e : e ∈ pairs -> cp_status e.1 ∈ RANK \/ cp_status e.1 ∈ EXCLUDED.
Proof.
  intros H. unfold capabilities_for_system in H.
  apply list_elem_of_In, in_flat_map in H as (cap & Hcap & H).
  apply in_flat_map in H as (cc & _ & H). apply in_flat_map in H as (comp & _ & H).
  apply in_flat_map in H as (sys & _ & H). apply in_flat_map in H as (ctl & _ & H).
  destruct (_ && _); [|done]. destruct H as [<-|[]]. apply (cw_statuses _ wf). by apply list_elem_of_In.
Qed.

Lemma roll_up_total l : (forall s, s ∈ l -> s ∈ RANK \/ s ∈ EXCLUDED) -> exists d, roll_up l = Ok d.
Proof.
  intros H. unfold roll_up. pose proof (considered_statuses_spec l) as Hc.
  destruct (considered_statuses l) as [[|s ss]|]; cbn [res_bind]; [by eexists| |].
  - destruct (negb _ && _); by eexists.
  - destruct Hc as (s & Hs & He & Hr). by destruct (H s Hs).
Qed.

Lemma claim_caps_roll_up k : exists d, roll_up (map cp_status (claim_caps k pairs)) = Ok d.
Proof.
  apply roll_up_total. intros s (c & -> & Hc)%list_elem_of_fmap.
  apply list_elem_of_fmap in Hc as (e & -> & [_ He]%list_elem_of_filter). by apply pairs_status.
Qed.

Definition group_roll (g : group) : option string :=
  match roll_up (map cp_status g.2) with Ok d => d | Err _ => None end.

Lemma group_roll_ok g : g ∈ groups -> roll_up (map cp_status g.2) = Ok (group_roll g).
Proof.
  destruct g as [k caps]. intros [<- _]%grouped_elem. unfold group_roll. cbn [snd].
  destruct (claim_caps_roll_up k) as [d Hd]. by rewrite Hd.
Qed.

Lemma backing_group ctl :
  backing db sid ctl = match group_for groups ctl with Some g => group_roll g | None => None end.
Proof.
  pose proof (group_claimants ctl) as H. unfold backing, group_roll.
  destruct (group_for groups ctl) as [g|]; [by destruct H as (_ & _ & ->)|by rewrite H].
Qed.

(** ** The covered controls *)

Lemma covered_ids_spec gs :
  (forall g, g ∈ gs -> g ∈ groups) ->
  exists l, covered_ids ctl_ids gs = Ok l /\
    forall ctl, ctl ∈ l <-> exists g, g ∈ gs /\ dget g.1 ctl_ids = Some ctl /\ group_roll g <> None.
Proof.
  induction gs as [|[k caps] gs IH]; intros Hin; cbn [covered_ids].
  { exists []. split; [done|]. intros ctl. split; [by intros ?%not_elem_of_nil|].
    by intros (g & ?%not_elem_of_nil & _). }
  destruct IH as (l & -> & Hl); [intros g Hg; apply Hin; by right|].
  pose proof (group_roll_ok (k, caps) (Hin _ ltac:(by left))) as Hr. cbn [snd] in Hr.
  destruct (dget k ctl_ids) as [i|] eqn:Ek.
  - rewrite Hr. cbn [res_bind]. exists (match group_roll (k, caps) with Some _ => i :: l | None => l end).
    split; [done|]. intros ctl. setoid_rewrite elem_of_cons. split.
    + intros H. assert (ctl ∈ l \/ ctl = i /\ group_roll (k, caps) <> None) as [H'|[-> ?]].
      { destruct (group_roll (k, caps)); [|by left]. apply elem_of_cons in H as [ ->|H]; [by right|by left]. }
      * apply Hl in H' as (g & ? & ?). exists g. auto.
      * exists (k, caps). auto.
    + intros (g & [ ->|Hg] & Hd & Hgr).
      * cbn [fst] in Hd. rewrite Ek in Hd. injection Hd as ->.
        destruct (group_roll (k, caps)); [by left|done].
      * assert (ctl ∈ l) by (apply Hl; by exists g). destruct (group_roll (k, caps)); [by right|done].
  - exists l. split; [done|]. intros ctl. rewrite Hl. setoid_rewrite elem_of_cons. split.
    + intros (g & ? & ?). exists g. auto.
    + intros (g & [ ->|Hg] & Hd & Hgr); [cbn [fst] in Hd; congruence|by exists g].
Qed.

Lemma covered_backing (l : list Z) ctl :
  (forall ctl, ctl ∈ l <-> exists g, g ∈ groups /\ dget g.1 ctl_ids = Some ctl /\ group_roll g <> None) ->
  ctl ∈ l <-> backing db sid ctl <> None.
Proof.
  intros ->. rewrite backing_group. pose proof (group_claimants ctl) as H. split.
  - intros (g & Hg & Hd & Hr). destruct (group_for groups ctl) as [g'|] eqn:E.
    + destruct H as (Hg' & Hd' & _). assert (g = g') as ->; [|done].
      eapply (key_inj fst); [apply grouped_NoDup|done|done|]. by eapply ctl_ids_inj.
    + unfold group_for in E. apply list_elem_of_In in Hg. apply (List.find_none _ _ E) in Hg.
      by rewrite bool_decide_eq_true_2 in Hg.
  - destruct (group_for groups ctl) as [g|]; [|done]. intros Hr. exists g. by destruct H as (? & ? & _).
Qed.

(** ** The loop over the groups *)

Definition has_key (r : ControlImplementation) : Z * Z := (ci_system_id r, ci_control_id r).

Record rows_wf (rows : list ControlImplementation) : Prop := {
  rw_ids : NoDup (map ci_id rows);
  rw_keys : NoDup (map has_key rows) }.

(** What the loop over [gs] writes to a row. *)
Definition write (gs : list group) (r : ControlImplementation) : option ControlImplementation :=
  if bool_decide (ci_system_id r = sid) then
    match group_for gs (ci_control_id r) with
    | Some g => match group_roll g with
                | Some d => if up_to_date d (contributors_of g.2) r then None
                            else Some (annotate_row now d (contributors_of g.2) r)
                | None => None
                end
    | None => None
    end
  else None.
Definition written (gs : list group) (r : ControlImplementation) : ControlImplementation := default r (write gs r).
Definition hit (gs : list group) (r : ControlImplementation) : bool := bool_decide (write gs r <> None).

Lemma written_key gs r : ci_id (written gs r) = ci_id r /\ has_key (written gs r) = has_key r.
Proof.
  unfold written, write. destruct (bool_decide _); [|done]. destruct (group_for gs _) as [g|]; [|done].
  destruct (group_roll g); [|done]. by destruct (up_to_date _ _ r).
Qed.

Lemma written_wf gs rows : rows_wf rows -> rows_wf (map (written gs) rows).
Proof.
  intros [H1 H2]. split.
  - rewrite map_map, (map_ext _ ci_id); [done|]. intros r. apply written_key.
  - rewrite map_map, (map_ext _ has_key); [done|]. intros r. apply written_key.
Qed.

Lemma lcount_at {A} (key : A -> Z) rows p :
  NoDup (map key rows) -> p ∈ rows -> lcount (fun q => key q =? key p) rows = 1.
Proof. intros. by apply (lsum_at_key key (fun _ => 1)). Qed.

Lemma write_one g r :
  write [g] r =
  if bool_decide (ci_system_id r = sid) && bool_decide (dget g.1 ctl_ids = Some (ci_control_id r)) then
    match group_roll g with
    | Some d => if up_to_date d (contributors_of g.2) r then None
                else Some (annotate_row now d (contributors_of g.2) r)
    | None => None
    end
  else None.
Proof.
  unfold write, group_for. cbn [List.find]. destruct (bool_decide (ci_system_id r = sid)); [|done].
  by destruct (bool_decide (dget g.1 ctl_ids = Some (ci_control_id r))).
Qed.

Lemma derive_group_one g touched rows :
  g ∈ groups -> rows_wf rows ->
  derive_group sid now ctl_ids g (touched, rows) =
  Ok (touched + lcount (hit [g]) rows, map (written [g]) rows).
Proof.
  intros Hg [Hids Hkeys].
  assert (Hnone : (forall r, r ∈ rows -> write [g] r = None) ->
    Ok (touched, rows) = Ok (touched + lcount (hit [g]) rows, map (written [g]) rows)).
  { intros H. rewrite lcount_none, Z.add_0_r, (map_ext_in _ id), map_id; [done| |].
    - intros r Hr%list_elem_of_In. unfold written. by rewrite H.
    - intros r Hr. unfold hit. by rewrite H. }
  unfold derive_group. destruct (dget g.1 ctl_ids) as [ctl|] eqn:Ed.
  2:{ apply Hnone. intros r _. by rewrite write_one, Ed, andb_false_r. }
  rewrite (group_roll_ok g Hg). cbn [res_bind]. destruct (group_roll g) as [d|] eqn:Er.
  2:{ apply Hnone. intros r _. rewrite write_one, Er. by destruct (_ && _). }
  destruct (List.find _ rows) as [impl|] eqn:Ef.
  2:{ apply Hnone. intros r Hr%list_elem_of_In. apply (List.find_none _ _ Ef) in Hr. rewrite write_one, Ed.
      apply andb_false_iff in Hr as [H%Z.eqb_neq|H%Z.eqb_neq].
      - by rewrite bool_decide_eq_false_2.
      - by rewrite (bool_decide_eq_false_2 (Some ctl = _)), andb_false_r by congruence. }
  apply List.find_some in Ef as [Hin%list_elem_of_In [Hs%Z.eqb_eq Hc%Z.eqb_eq]%andb_true_iff].
  assert (Hw : forall r, r ∈ rows -> write [g] r = if ci_id r =? ci_id impl then write [g] impl else None).
  { intros r Hr. destruct (Z.eqb_spec (ci_id r) (ci_id impl)) as [E|E];
      [by rewrite (key_inj ci_id rows r impl)|].
    rewrite write_one, Ed. case_bool_decide as E1; [|done]. case_bool_decide as E2; [|done].
    destruct E. f_equal. apply (key_inj has_key rows); try done. unfold has_key. congruence. }
  assert (Hi : write [g] impl = if up_to_date d (contributors_of g.2) impl then None
                                else Some (annotate_row now d (contributors_of g.2) impl)).
  { by rewrite write_one, Ed, Hs, Hc, Er, !bool_decide_eq_true_2. }
  destruct (up_to_date d (contributors_of g.2) impl).
  - apply Hnone. intros r Hr. rewrite Hw, Hi by done. by destruct (_ =? _).
  - f_equal. f_equal.
    + f_equal. rewrite <-(lcount_at ci_id rows impl) by done. apply lsum_ext. intros r Hr.
      unfold hit. rewrite Hw, Hi by done. by destruct (_ =? _).
    + unfold assign_impl. apply map_ext_in. intros r Hr%list_elem_of_In. unfold written.
      rewrite Hw, Hi by done. destruct (Z.eqb_spec (ci_id r) (ci_id impl)) as [E|]; [|done].
      by rewrite (key_inj ci_id rows r impl).
Qed.

Lemma group_for_cons g gs ctl :
  group_for (g :: gs) ctl = if bool_decide (dget g.1 ctl_ids = Some ctl) then Some g else group_for gs ctl.
Proof. done. Qed.

Lemma group_for_absent (g : group) (gs : list group) ctl :
  g.1 ∉ map fst gs -> dget g.1 ctl_ids = Some ctl -> group_for gs ctl = None.
Proof.
  intros Hg Hd. unfold group_for. destruct (List.find _ gs) as [g'|] eqn:E; [|done].
  apply List.find_some in E as [Hin%list_elem_of_In Hd'%bool_decide_eq_true_1]. destruct Hg.
  rewrite (ctl_ids_inj _ _ _ Hd Hd'). by apply list_elem_of_fmap_2.
Qed.

(** Groups write to disjoint rows. *)
Lemma write_cons (g : group) (gs : list group) r :
  g.1 ∉ map fst gs ->
  written (g :: gs) r = written gs (written [g] r) /\
  hit (g :: gs) r = hit [g] r || hit gs (written [g] r) /\
  (hit [g] r = true -> hit gs (written [g] r) = false).
Proof.
  intros Hg. destruct (written_key [g] r) as [_ Hk]. injection Hk as Hk1 Hk2.
  assert (Hcase : write [g] r = None \/ exists d, write [g] r = Some d) by (destruct (write [g] r); eauto).
  unfold hit at 2 4. destruct Hcase as [E|[d E]].
  - assert (written [g] r = r) as -> by (unfold written; by rewrite E).
    assert (write (g :: gs) r = write gs r) as Hw.
    { rewrite write_one in E. unfold write. destruct (bool_decide (ci_system_id r = sid)); [|done].
      rewrite group_for_cons. destruct (bool_decide (dget g.1 ctl_ids = Some (ci_control_id r))) eqn:Ed; [|done].
      apply bool_decide_eq_true_1 in Ed. rewrite (group_for_absent g gs _ Hg Ed). cbn [andb] in E. exact E. }
    unfold written, hit. rewrite Hw, E. split; [done|]. split; [done|]. by rewrite bool_decide_eq_false_2 by auto.
  - assert (Hd : dget g.1 ctl_ids = Some (ci_control_id r)).
    { rewrite write_one in E. destruct (bool_decide (ci_system_id r = sid)); [|done].
      destruct (decide (dget g.1 ctl_ids = Some (ci_control_id r))); [done|].
      by rewrite bool_decide_eq_false_2 in E. }
    assert (Hn : write gs (written [g] r) = None).
    { unfold write. rewrite Hk2, (group_for_absent g gs _ Hg Hd). by destruct (bool_decide _). }
    assert (Hw : write (g :: gs) r = write [g] r).
    { unfold write. by rewrite !group_for_cons, (bool_decide_eq_true_2 _ Hd). }
    split.
    + unfold written at 2. rewrite Hn. cbn. unfold written. by rewrite Hw.
    + unfold hit. rewrite Hw, Hn, E. done.
Qed.

Lemma derive_groups_all (gs : list group) touched rows :
  NoDup (map fst gs) -> (forall g, g ∈ gs -> g ∈ groups) -> rows_wf rows ->
  derive_groups sid now ctl_ids gs (touched, rows) =
  Ok (touched + lcount (hit gs) rows, map (written gs) rows).
Proof.
  revert touched rows. induction gs as [|g gs IH]; intros touched rows Hnd Hin Hrows; cbn [derive_groups].
  - assert (forall r, write [] r = None) as H by (intros r; unfold write; by destruct (bool_decide _)).
    rewrite lcount_none, Z.add_0_r by (intros r _; unfold hit; by rewrite H).
    rewrite (map_ext _ id), map_id; [done|]. intros r. unfold written. by rewrite H.
  - cbn [map] in Hnd. apply NoDup_cons in Hnd as [Hg Hnd].
    rewrite derive_group_one by (try done; apply Hin; by left). cbn [res_bind].
    rewrite IH; [|done|intros x Hx; apply Hin; by right|by apply written_wf].
    f_equal. f_equal.
    + rewrite <-Z.add_assoc. f_equal. unfold lcount. rewrite lsum_map, <-lsum_plus. apply lsum_ext.
      intros r _. destruct (write_cons g gs r Hg) as (_ & -> & Hx).
      destruct (hit [g] r); cbn [orb]; [rewrite Hx by done|]; lia.
    + rewrite map_map. apply map_ext. intros r. by destruct (write_cons g gs r Hg) as (-> & _).
Qed.

(** ** The whole derivation *)

Definition cleared (l : list Z) (r : ControlImplementation) : ControlImplementation :=
  if is_stale sid l r then clear_row r else r.

Lemma up_to_date_cleared d c r : up_to_date d c (clear_row r) = false.
Proof. done. Qed.

(** Clearing and then writing is the row's fate, and each changed row counts once. *)
Lemma cleared_written (l : list Z) r :
  (forall ctl, ctl ∈ l <-> backing db sid ctl <> None) ->
  written groups (cleared l r) = derived_row db sid now r /\
  (is_stale sid l r || hit groups (cleared l r)) = out_of_date db sid r /\
  (is_stale sid l r = true -> hit groups (cleared l r) = false).
Proof.
  intros Hl. pose proof (backing_group (ci_control_id r)) as Hb. pose proof (group_claimants (ci_control_id r)) as Hc.
  unfold derived_row, out_of_date, cleared, is_stale.
  destruct (decide (ci_system_id r = sid)) as [Es|Es].
  2:{ rewrite (bool_decide_eq_false_2 _ Es). cbn [andb orb]. unfold written, hit, write.
      by rewrite (bool_decide_eq_false_2 _ Es). }
  rewrite (bool_decide_eq_true_2 _ Es). cbn [andb].
  destruct (backing db sid (ci_control_id r)) as [d|] eqn:Eb.
  - rewrite (proj2 (mem_true _ _)) by (apply Hl; by rewrite Eb). rewrite andb_false_r. cbn [orb].
    destruct (group_for groups (ci_control_id r)) as [g|] eqn:Eg; [|done]. destruct Hc as (_ & _ & Hc).
    unfold written, hit, write. rewrite (bool_decide_eq_true_2 _ Es), Eg, <-Hb, Hc.
    by destruct (up_to_date d _ r).
  - rewrite (proj2 (mem_false _ _)) by (rewrite Hl, Eb; tauto). rewrite andb_true_r.
    assert (forall q, has_key q = has_key r -> write groups q = None) as Hn.
    { intros q [= Hq1 Hq2]. unfold write. rewrite Hq2. destruct (bool_decide _); [|done].
      destruct (group_for groups (ci_control_id r)); [by rewrite <-Hb|done]. }
    destruct (bool_decide (ci_derived_status r <> None)); unfold written, hit; by rewrite Hn.
Qed.

Lemma derive_exact :
  derive_for_system sid now db =
  Ok (lcount (out_of_date db sid) (cd_impls db), set_impls (map (derived_row db sid now) (cd_impls db)) db).
Proof.
  unfold derive_for_system. destruct (covered_ids_spec groups (fun g H => H)) as (l & -> & Hl).
  cbn [res_bind]. assert (Hb : forall ctl, ctl ∈ l <-> backing db sid ctl <> None)
    by (intros ctl; by apply covered_backing).
  fold (cleared l). change (fun r => if is_stale sid l r then clear_row r else r) with (cleared l).
  rewrite derive_groups_all; [|apply grouped_NoDup|done|].
  2:{ assert (forall r, ci_id (cleared l r) = ci_id r /\ has_key (cleared l r) = has_key r) as Hk
        by (intros r; unfold cleared; by destruct (is_stale sid l r)).
      split.
      - rewrite map_map, (map_ext _ ci_id); [apply wf|]. intros r. apply Hk.
      - rewrite map_map, (map_ext _ has_key); [apply wf|]. intros r. apply Hk. }
  cbn [res_bind fst snd]. f_equal. f_equal.
  - assert (forall rows, Z.of_nat (List.length (filter (fun r => is_stale sid l r = true) rows)) =
      lcount (is_stale sid l) rows) as ->.
    { unfold lcount. induction rows as [|r rows IH]; [done|]. cbn [lsum foldr]. unfold lsum in IH. rewrite <-IH.
      rewrite filter_cons. destruct (is_stale sid l r); [rewrite decide_True by done|by rewrite decide_False].
      cbn [List.length]. lia. }
    unfold lcount. rewrite lsum_map, <-lsum_plus. apply lsum_ext. intros r _.
    destruct (cleared_written l r Hb) as (_ & <- & Hx).
    destruct (is_stale sid l r); cbn [orb]; [rewrite Hx by done|]; lia.
  - f_equal. rewrite map_map. apply map_ext. intros r. by destruct (cleared_written l r Hb) as (-> & _).
Qed.
End derive.

(** ** After a derivation *)

Lemma derived_row_keeps db sid now r :
  let r' := derived_row db sid now r in
  ci_id r' = ci_id r /\ has_key r' = has_key r /\ ci_status r' = ci_status r.
Proof.
  unfold derived_row. destruct (out_of_date db sid r); [|done]. by destruct (backing db sid (ci_control_id r)).
Qed.

Lemma derived_row_status db sid now r :
  ci_system_id r = sid -> ci_derived_status (derived_row db sid now r) = backing db sid (ci_control_id r).
Proof.
  intros Hs. unfold derived_row, out_of_date. rewrite bool_decide_eq_true_2 by done. cbn [andb].
  destruct (backing db sid (ci_control_id r)) as [d|].
  - unfold up_to_date. destruct (bool_decide (ci_derived_status r = Some d)) eqn:E; cbn [andb negb]; [|done].
    apply bool_decide_eq_true_1 in E. by destruct (py_eq _ _).
  - case_bool_decide as E; [done|]. by destruct (ci_derived_status r); [destruct E|].
Qed.

Lemma set_impls_wf now sid db : cap_wf db -> cap_wf (set_impls (map (derived_row db sid now) (cd_impls db)) db).
Proof.
  intros [H1 H2 H3 H4]. split; cbn [cd_impls cd_controls cd_capabilities set_impls]; try done.
  - rewrite map_map, (map_ext _ ci_id); [done|]. intros r. apply derived_row_keeps.
  - rewrite map_map, (map_ext _ has_key); [done|]. intros r. apply derived_row_keeps.
Qed.

Lemma strs_wf l : wf_val (VList (map VStr l)).
Proof. induction l as [|s l IH]; [done|]. split; [done|exact IH]. Qed.

Lemma contributors_eq caps : py_eq (contributors_of caps) (contributors_of caps) = true.
Proof.
  apply py_eq_refl. unfold contributors_of. split.
  - cbn [dkeys map fst]. apply NoDup_cons. split; [by intros ?%list_elem_of_singleton|apply NoDup_singleton].
  - cbn [snd]. split; [apply strs_wf|]. split; [apply strs_wf|done].
Qed.

(** A derived row is up to date: only the implementations' column changed. *)
Lemma derived_row_fresh db sid now rows r :
  out_of_date (set_impls rows db) sid (derived_row db sid now r) = false.
Proof.
  destruct (derived_row_keeps db sid now r) as (_ & [= Hs Hc] & _).
  change (out_of_date (set_impls rows db) sid (derived_row db sid now r))
    with (out_of_date db sid (derived_row db sid now r)).
  destruct (out_of_date db sid r) eqn:E; [|by unfold derived_row; rewrite E].
  assert (Hsid : ci_system_id r = sid).
  { unfold out_of_date in E. apply andb_true_iff in E as [E _]. by apply bool_decide_eq_true_1 in E. }
  unfold out_of_date. rewrite Hs, Hc, bool_decide_eq_true_2 by done. cbn [andb].
  unfold derived_row. rewrite E. destruct (backing db sid (ci_control_id r)) as [d|]; [|done].
  unfold up_to_date. cbn [ci_derived_status ci_derived_from annotate_row].
  by rewrite bool_decide_eq_true_2, contributors_eq.
Qed.

(** ** Reading contributors back *)

Lemma partition_eq_app k v :
  str_has "="%char k = false -> partition_eq (k +:+ "=" +:+ v) = (k, v).
Proof.
  induction k as [|c k IH]; [done|]. cbn [str_has]. intros [Hc Hk]%orb_false_iff.
  rewrite app_cons_str. cbn [partition_eq]. apply bool_decide_eq_false_1 in Hc.
  rewrite decide_False by congruence. by rewrite IH.
Qed.

Lemma str_has_sep k v : str_has "="%char (k +:+ "=" +:+ v) = true.
Proof.
  induction k as [|c k IH]; [done|]. rewrite app_cons_str. cbn [str_has]. rewrite IH. apply orb_true_r.
Qed.

Lemma strings_of_strs l : strings_of (map VStr l) = l.
Proof. unfold strings_of. induction l as [|s l IH]; [done|]. cbn. by f_equal. Qed.

(** The statuses read from entries of capabilities whose keys hold no sign. *)
Lemma status_entries (caps : list CapabilityRow) detail d k :
  (forall c, c ∈ caps -> str_has "="%char (cp_key c) = false) ->
  (forall c c', c ∈ caps -> c' ∈ caps -> cp_key c = cp_key c' -> cp_status c = cp_status c') ->
  (forall t, t ∈ detail -> exists c, c ∈ caps /\ t = cp_key c +:+ "=" +:+ cp_status c) ->
  (forall c, c ∈ caps -> cp_key c = k -> dget k d = Some (cp_status c) \/ cp_key c +:+ "=" +:+ cp_status c ∈ detail) ->
  forall c, c ∈ caps -> cp_key c = k ->
  dget k (foldl status_entry d (map VStr detail)) = Some (cp_status c).
Proof.
  intros Hsep Hfun. revert d. induction detail as [|t detail IH]; intros d Hdet Hstart c Hc Hk; cbn [map foldl].
  - destruct (Hstart c Hc Hk) as [?|?%not_elem_of_nil]; done.
  - destruct (Hdet t ltac:(by left)) as (c' & Hc' & ->).
    apply IH; [intros t' Ht'; apply Hdet; by right| |done|done].
    intros c2 Hc2 Hk2. unfold status_entry. rewrite str_has_sep, partition_eq_app by auto. cbn [fst snd].
    destruct (decide (cp_key c' = k)) as [E|E].
    + left. rewrite E, dget_dset_eq. f_equal. apply Hfun; congruence.
    + destruct (Hstart c2 Hc2 Hk2) as [H|[H|H]%elem_of_cons]; [left|left|by right].
      * by rewrite dget_dset_ne by congruence.
      * assert (Hp := partition_eq_app (cp_key c2) (cp_status c2) (Hsep _ Hc2)). rewrite H in Hp.
        rewrite partition_eq_app in Hp by auto. injection Hp as ? ?. congruence.
Qed.

Lemma dget_lookup_map (caps : list CapabilityRow) k :
  k ∈ map cp_key caps -> exists c, c ∈ caps /\ cp_key c = k.
Proof. intros (c & -> & Hc)%list_elem_of_fmap. by exists c. Qed.

(** The decision at the end of the rollup, on the worst member of the list. *)
Lemma roll_up_cases (l : list string) w :
  (forall s, s ∈ l -> s ∈ RANK) -> l <> [] -> w ∈ l -> (forall s, s ∈ l -> rank w <= rank s) ->
  match (if negb (mem w SATISFIED) && existsb (fun x => mem x SATISFIED) l
         then Ok (Some "partial") else Ok (Some w)) with
  | Err _ => exists s, s ∈ l /\ s ∉ RANK
  | Ok None => l = []
  | Ok (Some d) =>
      l <> [] /\ (forall s, s ∈ l -> s ∈ RANK) /\ d ∈ RANK /\
      (d ∈ SATISFIED <-> forall s, s ∈ l -> s ∈ SATISFIED) /\
      (d = "inherited" <-> forall s, s ∈ l -> s = "inherited") /\
      ((exists s t, s ∈ l /\ t ∈ l /\ s ∈ SATISFIED /\ t ∉ SATISFIED) -> d = "partial") /\
      ((forall s, s ∈ l -> s ∉ SATISFIED) -> d ∈ l /\ forall s, s ∈ l -> rank d <= rank s)
  end.
Proof.
  intros Hr Hne Hin Hmin.
  assert (Hsat : forall s, s ∈ l -> s ∈ SATISFIED <-> 3 <= rank s)
    by (intros s Hs; rewrite <-mem_true, satisfied_rank, Z.leb_le by auto; done).
  destruct (negb (mem w SATISFIED) && existsb (fun x => mem x SATISFIED) l) eqn:E.
  - apply andb_true_iff in E as [Ew%negb_true_iff Ex]. apply mem_false in Ew.
    apply existsb_exists in Ex as (x & Hx%list_elem_of_In & Hxs%mem_true).
    do 2 (split; [done|]). split; [unfold RANK; in_list|]. split; [|split; [|split; [done|]]].
    + split; [intros H; exfalso; revert H; apply mem_false; vm_compute; reflexivity|].
      intros H. by destruct Ew; apply H.
    + split; [done|]. intros H. destruct Ew. rewrite (H w Hin). unfold SATISFIED. in_list.
    + intros H. by destruct (H x Hx).
  - do 2 (split; [done|]). split; [by apply Hr|]. split; [|split; [|split]].
    + split; [|auto]. intros Hw s Hs. apply Hsat; [done|]. apply Hsat in Hw; [|done]. specialize (Hmin s Hs). lia.
    + split; [|auto]. intros Hw s Hs. apply rank_inj; [by apply Hr|unfold RANK; in_list|].
      specialize (Hmin s Hs). rewrite Hw in Hmin. change (rank "inherited") with 4 in *.
      destruct (rank_cases s (Hr s Hs)) as [[= H _]|[[= H _]|[[= H _]|[[= H _]|[= H _]]]]]; lia.
    + intros (s & t & Hs & Ht & Hss & Hts). exfalso. apply andb_false_iff in E as [E|E].
      * apply negb_false_iff, mem_true in E. apply Hts, Hsat; [done|].
        apply Hsat in E; [|done]. specialize (Hmin t Ht). lia.
      * apply not_true_iff_false in E. apply E, existsb_exists. exists s.
        split; [by apply list_elem_of_In|by apply mem_true].
    + done.
Qed.

(** ** Properties *)

(** derivation annotates and never asserts. On tables with the schema's
    unique keys it always returns; the rows stay the same rows, in number, key and
    authored status; rows of other systems are untouched; every row of the system
    ends with exactly the rollup of the capabilities that claim its control there,
    or with nothing when none says anything; a row is rewritten only when its
    annotation was out of date, the count returned is the number of those, and
    it is zero exactly when nothing was written. *)
Theorem derivation_annotates_only sid now db :
  cap_wf db ->
  exists n rows, derive_for_system sid now db = Ok (n, set_impls rows db) /\
    Forall2 (fun r r' =>
      ci_id r' = ci_id r /\ has_key r' = has_key r /\ ci_status r' = ci_status r /\
      (ci_system_id r <> sid -> r' = r) /\
      (ci_system_id r = sid -> ci_derived_status r' = backing db sid (ci_control_id r)) /\
      (out_of_date db sid r = false -> r' = r)) (cd_impls db) rows /\
    n = lcount (out_of_date db sid) (cd_impls db) /\
    (n = 0 -> rows = cd_impls db).
Proof.
  intros wf. exists (lcount (out_of_date db sid) (cd_impls db)), (map (derived_row db sid now) (cd_impls db)).
  split; [by apply derive_exact|]. split; [|split; [done|]].
  - apply Forall2_fmap_r, Forall_Forall2_diag, Forall_forall. intros r _.
    destruct (derived_row_keeps db sid now r) as (H1 & H2 & H3). do 3 (split; [done|]). split; [|split].
    + intros Hne. unfold derived_row, out_of_date. by rewrite bool_decide_eq_false_2.
    + apply derived_row_status.
    + intros E. unfold derived_row. by rewrite E.
  - intros H0. rewrite (map_ext_in _ id), map_id; [done|]. intros r Hr%list_elem_of_In.
    unfold derived_row. by rewrite (lcount_zero _ _ H0).
Qed.

Definition cap_demo : CapDb :=
  {| cd_capabilities := [{| cp_id := 1; cp_organization_id := Some 5; cp_key := "mfa"; cp_title := "MFA";
                            cp_statement := None; cp_status := "implemented" |};
                         {| cp_id := 2; cp_organization_id := Some 5; cp_key := "vault"; cp_title := "Vault";
                            cp_statement := None; cp_status := "planned" |}];
     cd_cap_controls := [(1, "IA-2"); (2, "ia-02")]; cd_cap_components := [(1, 10); (2, 10)];
     cd_components := [(10, 7)];
     cd_systems := [{| sy_id := 7; sy_organization_id := 5; sy_name := "Prod"; sy_deleted_at := None |}];
     cd_controls := [(100, "IA-02"); (101, "AC-02")];
     cd_impls := [{| ci_id := 1; ci_system_id := 7; ci_control_id := 100; ci_status := "implemented";
                     ci_derived_status := None; ci_derived_at := None; ci_derived_from := VDict [] |};
                  {| ci_id := 2; ci_system_id := 7; ci_control_id := 101; ci_status := "planned";
                     ci_derived_status := Some "inherited"; ci_derived_at := Some 1;
                     ci_derived_from := VDict [] |}] |}.

Lemma cap_demo_wf : cap_wf cap_demo.
Proof.
  split.
  - apply (bool_decide_eq_true_1 (NoDup _)). vm_compute. reflexivity.
  - apply (bool_decide_eq_true_1 (NoDup _)). vm_compute. reflexivity.
  - apply (bool_decide_eq_true_1 (NoDup _)). vm_compute. reflexivity.
  - intros c H. unfold cap_demo in H. cbn [cd_capabilities] in H. elem_cases H; left; cbn; in_list.
Qed.

Lemma derivation_annotates_witness :
  exists rows, derive_for_system 7 50 cap_demo = Ok (2, set_impls rows cap_demo) /\
    map ci_derived_status rows = [Some "partial"; None].
Proof.
  destruct (derivation_annotates_only 7 50 cap_demo cap_demo_wf) as (n & rows & E & H & Hn & _).
  assert (n = 2) as -> by (rewrite Hn; vm_compute; reflexivity).
  exists rows. split; [exact E|]. vm_compute in E. injection E as <-. reflexivity.
Defined.

(** derivation is idempotent: repeated at any later time, it reports no row
    and leaves the tables, time stamps included, as they are. *)
Theorem derivation_is_idempotent sid now later db n db' :
  cap_wf db -> derive_for_system sid now db = Ok (n, db') ->
  cap_wf db' /\ derive_for_system sid later db' = Ok (0, db').
Proof.
  intros wf H. rewrite derive_exact in H by done. injection H as <- <-.
  pose proof (set_impls_wf now sid db wf) as wf'. split; [done|]. rewrite derive_exact by done.
  cbn [cd_impls set_impls]. f_equal. f_equal.
  - apply lcount_none. intros r' (r & -> & _)%list_elem_of_fmap. apply derived_row_fresh.
  - rewrite (map_ext_in _ id), map_id; [done|]. intros r' (r & -> & _)%list_elem_of_In%list_elem_of_fmap.
    unfold derived_row at 1. by rewrite derived_row_fresh.
Qed.

Lemma derivation_is_idempotent_witness :
  exists n db', derive_for_system 7 50 cap_demo = Ok (n, db') /\ derive_for_system 7 60 db' = Ok (0, db').
Proof.
  destruct (derive_for_system 7 50 cap_demo) as [[n db']|e] eqn:E; [|vm_compute in E; discriminate E].
  exists n, db'. split; [reflexivity|]. exact (proj2 (derivation_is_idempotent 7 50 60 cap_demo n db' cap_demo_wf E)).
Defined.

(** the rollup never over-claims. A control is derived as satisfied
    exactly when every capability that counts is, and as inherited exactly when
    every one is; a mix of satisfied and unsatisfied is partial; otherwise the
    worst status stands; capabilities marked not applicable never count, nothing
    is derived exactly when none is left, and an unknown status that counts is
    refused. *)
Theorem roll_up_never_overclaims statuses :
  let counted := filter (fun s => s ∉ EXCLUDED) statuses in
  match roll_up statuses with
  | Err _ => exists s, s ∈ counted /\ s ∉ RANK
  | Ok None => counted = []
  | Ok (Some d) =>
      counted <> [] /\ (forall s, s ∈ counted -> s ∈ RANK) /\ d ∈ RANK /\
      (d ∈ SATISFIED <-> forall s, s ∈ counted -> s ∈ SATISFIED) /\
      (d = "inherited" <-> forall s, s ∈ counted -> s = "inherited") /\
      ((exists s t, s ∈ counted /\ t ∈ counted /\ s ∈ SATISFIED /\ t ∉ SATISFIED) -> d = "partial") /\
      ((forall s, s ∈ counted -> s ∉ SATISFIED) ->
         d ∈ counted /\ forall s, s ∈ counted -> rank d <= rank s)
  end.
Proof.
  cbv zeta. unfold roll_up. pose proof (considered_statuses_spec statuses) as Hc.
  destruct (considered_statuses statuses) as [l|e]; cbn [res_bind].
  2:{ destruct Hc as (s & Hs & He & Hr). exists s. by rewrite list_elem_of_filter. }
  destruct Hc as [<- Hr]. destruct l as [|s ss]; [done|].
  destruct (min_by_spec rank s ss) as [Hin Hmin]. set (w := min_by rank s ss) in *. clearbody w.
  set (l := s :: ss) in *. assert (l <> []) as Hne by done. clearbody l. clear s ss.
  apply roll_up_cases; done.
Qed.

(** what derivation writes is read back: for capabilities whose keys hold no
    equals sign, with one status per key, the page names each contributing key
    once per edge, in order, with exactly the status it contributed. A key that
    holds the sign, which the API accepts, loses its status and can overwrite
    another capability's. *)
Theorem contributors_roundtrip :
  (forall caps,
     (forall c, c ∈ caps -> str_has "="%char (cp_key c) = false) ->
     (forall c c', c ∈ caps -> c' ∈ caps -> cp_key c = cp_key c' -> cp_status c = cp_status c') ->
     exists cs, contributors (contributors_of caps) = Ok cs /\
       map ct_key cs = sorted_strs (map cp_key caps) /\
       (forall x, x ∈ cs -> exists c, c ∈ caps /\ x =
          {| ct_key := cp_key c; ct_status := Some (cp_status c); ct_title := None |})) /\
  (let cap k st := {| cp_id := 1; cp_organization_id := None; cp_key := k; cp_title := k;
                      cp_statement := None; cp_status := st |} in
   (fun cs => map (fun x => (ct_key x, ct_status x)) cs) <$>
     (match contributors (contributors_of [cap "a" "implemented"; cap "a=z" "planned"]) with
      | Ok cs => Some cs | Err _ => None end) =
   Some [("a", Some "z=planned"); ("a=z", None)]).
Proof.
  split; [|vm_compute; reflexivity]. intros caps Hsep Hfun. unfold contributors, contributors_of.
  set (details := sorted_strs (map (fun c => cp_key c +:+ "=" +:+ cp_status c) caps)).
  set (keys := sorted_strs (map cp_key caps)).
  assert (He : forall l, (if truthy (VList (map VStr l)) then iter_val (VList (map VStr l)) else Ok []) = Ok (map VStr l))
    by (by intros [|x l]).
  cbn [negb truthy]. unfold entries, vget. cbn [dget]. rewrite decide_True by done.
  rewrite decide_False by done. rewrite decide_True by done. cbn [default from_option id].
  rewrite !He. cbn [res_bind]. rewrite strings_of_strs. eexists. split; [reflexivity|]. split.
  { rewrite map_map. apply map_id. }
  intros x (k & -> & Hk)%list_elem_of_fmap. unfold keys in Hk. rewrite elem_of_sorted_strs in Hk.
  destruct (dget_lookup_map _ _ Hk) as (c & Hc & <-). exists c. split; [done|]. f_equal.
  apply (status_entries caps details [] (cp_key c)); try done.
  - intros t Ht. unfold details in Ht. rewrite elem_of_sorted_strs in Ht.
    apply list_elem_of_fmap in Ht as (c' & -> & Hc'). by exists c'.
  - intros c' Hc' _. right. unfold details. rewrite elem_of_sorted_strs. by apply (list_elem_of_fmap_2 (fun c => cp_key c +:+ "=" +:+ cp_status c)).
Qed.

(** Two spellings of an id are the same control exactly when they print alike,
    and what is printed denotes itself. *)
Lemma canonicalize_idempotent s c :
  canonicalize s = Some c -> canonicalize (Some (cid_value c)) = Some c.
Proof.
  intros (a & b & num & enh & Ha & Hb & Hn & He & ->)%canonicalize_inv.
  by apply (canonicalize_value a b num enh).
Qed.

Lemma claim_caps_cons k e l :
  claim_caps k (e :: l) = (if claims_control k e then e.1 :: claim_caps k l else claim_caps k l).
Proof. unfold claim_caps. rewrite filter_cons. by destruct (claims_control k e). Qed.

Lemma claims_control_spec k e :
  claims_control k e = match canonicalize (Some e.2) with
                       | Some c => bool_decide (cid_value c = k)
                       | None => false
                       end.
Proof. done. Qed.

Lemma group_fold_lookup (targets : list string) l d k :
  dget k (foldl (fun out e => match canonicalize (Some e.2) with
                              | Some c => if mem (cid_value c) targets then group_add (cid_value c) e.1 out else out
                              | None => out
                              end) d l) =
  if mem k targets then match claim_caps k l with
                        | [] => dget k d
                        | caps => Some (default [] (dget k d) ++ caps)%list end
  else dget k d.
Proof.
  revert d. induction l as [|e l IH]; intros d; cbn [foldl]; [by destruct (mem k targets)|].
  rewrite IH, claim_caps_cons, claims_control_spec.
  destruct (canonicalize (Some e.2)) as [c|]; [|done].
  destruct (decide (cid_value c = k)) as [ <-|Hne].
  - rewrite bool_decide_eq_true_2 by done. destruct (mem (cid_value c) targets) eqn:Em; [|done].
    rewrite group_add_lookup, decide_True by done.
    destruct (claim_caps (cid_value c) l); [done|]. cbn [default from_option id]. by rewrite <-app_assoc.
  - rewrite (bool_decide_eq_false_2 (cid_value c = k)) by done.
    destruct (mem (cid_value c) targets); [|done]. by rewrite group_add_lookup, decide_False by congruence.
Qed.

Lemma claim_caps_filter k (p : CapabilityRow -> bool) l :
  claim_caps k (filter (fun e => p e.1 = true) l) = filter (fun c => p c = true) (claim_caps k l).
Proof.
  induction l as [|e l IH]; [done|]. rewrite claim_caps_cons, filter_cons.
  destruct (p e.1) eqn:Ep; cbn [decide bool_eq_dec]; destruct (claims_control k e) eqn:Ek.
  all: rewrite ?decide_True, ?claim_caps_cons, ?Ek, ?filter_cons, ?Ep, ?IH by done; done.
Qed.

(** Asking about many controls at once is asking about each: under the canonical
    id of any id asked about, the batch lists the capabilities that claim it in
    the organization's scope, and nothing under any other key. *)
Lemma batch_is_single control_ids org_id db k :
  dget k (capabilities_for_controls control_ids org_id db) =
  if mem k (canonical_ids control_ids) then
    match filter (fun c => in_org org_id (cp_organization_id c) = true) (capabilities_for_control k db) with
    | [] => None
    | caps => Some caps
    end
  else None.
Proof.
  assert (Hk : mem k (canonical_ids control_ids) = true ->
    exists c, canonicalize (Some k) = Some c /\ cid_value c = k).
  { intros Hm%mem_true. unfold canonical_ids in Hm. apply list_elem_of_omap in Hm as (s & _ & H).
    destruct (canonicalize (Some s)) as [c|] eqn:E; [|done]. injection H as H. subst k. exists c.
    split; [by apply (canonicalize_idempotent (Some s))|done]. }
  unfold capabilities_for_controls. destruct (canonical_ids control_ids) as [|t ts]; [done|].
  rewrite group_fold_lookup. destruct (mem k (t :: ts)); [|done]. destruct (Hk eq_refl) as (c & Ec & Ek).
  unfold capabilities_for_control. rewrite Ec, Ek. fold (claim_caps k (edges db)).
  rewrite (claim_caps_filter k (fun c => in_org org_id (cp_organization_id c))). done.
Qed.
