(* ===== verification/Resolve.v ===== *)
(** Which checks run for a tenant, and what a connector does with them
    ([src/src/ccf/posture/checks.py], [resolve.py], the [scan] of each connector under
    [src/src/ccf/connectors]).

    The platform's checks come from the registry; a pack's rules parameterize one of them
    (Form A) or carry a predicate of their own (Form B). What a connector reads is a
    parameter: [fetch] takes an endpoint to the rows, or raises. *)

From S2P Require Export AwsChecks M365Checks CloudChecks.
From S2P Require Import Declared Capability.

Local Open Scope string_scope.
Local Open Scope Z_scope.

(** ** The registry *)

Definition CHECK_REGISTRY : list (string * list PostureCheck) :=
  [("msgraph", M365_CHECKS); ("puppetdb", PUPPETDB_CHECKS); ("aws_govcloud", AWS_CHECKS); ("azure_arm", AZURE_CHECKS); ("gcp", GCP_CHECKS)].
Definition ENDPOINT_REGISTRY : list (string * list (string * string)) :=
  [("msgraph", M365_ENDPOINTS); ("puppetdb", PUPPETDB_ENDPOINTS); ("aws_govcloud", AWS_ENDPOINTS); ("azure_arm", AZURE_ENDPOINTS); ("gcp", GCP_ENDPOINTS)].
Definition endpoint_for (provider check_key : string) : option string := dget check_key (default [] (dget provider ENDPOINT_REGISTRY)).
Definition checks_for (provider : string) : list PostureCheck := default [] (dget provider CHECK_REGISTRY).
(** A set: in order. *)
Definition known_providers : list string := sorted_strs (map fst CHECK_REGISTRY).
Definition platform_check_keys : list string := flat_map (fun kv => map pc_key kv.2) CHECK_REGISTRY.

(** ** Declared rules *)

Definition ENDPOINT_PREFIXES : list string := ["/v1.0/"; "/beta/"].
Definition ENDPOINT_MAX_LEN : Z := 512.
Definition validate_endpoint (raw : pyval) : list string :=
  match raw with
  | VStr s =>
      if negb (str_truthy s) then ["'endpoint' must be a non-empty string"]
      else if ENDPOINT_MAX_LEN <? Z.of_nat (String.length s) then ["'endpoint' exceeds " +:+ pretty ENDPOINT_MAX_LEN +:+ " characters"]
      else if negb (existsb (fun p => startswith p s) ENDPOINT_PREFIXES) then ["'endpoint' must start with '/v1.0/' or '/beta/'"]
      else if str_contains "//" s || str_contains "@" s || str_contains "\" s || str_contains ".." s
           then ["'endpoint' must be a plain relative Graph path (no '//', '@', '\', or '..')"]
      else []
  | _ => ["'endpoint' must be a non-empty string"]
  end.

Definition tuple_of_str (raw : pyval) : list string :=
  match raw with VList l => omap (fun v => match v with VStr s => if str_truthy s then Some s else None | _ => None end) l | _ => [] end.
Definition canonical_control_ids (raw : pyval) : list string := omap (fun v => cid_value <$> canonicalize (Some v)) (tuple_of_str raw).

Definition ResolutionError (m : string) : exn := Exn "ResolutionError" m.
(** [except (ResolutionError, ValueError)]: both errors of a rule are ValueErrors. *)
Definition is_value_error (e : exn) : bool := mem (exn_class e) ["ValueError"; "ResolutionError"; "ParameterError"].

Record ResolvedCheck := {
  rc_check : PostureCheck;
  rc_endpoint : string;
  rc_source : string;
  rc_evaluator_key : option string;
  rc_parameters : option row;
  rc_spec : option DeclaredSpec }.

Definition platform_check (provider : string) (c : PostureCheck) : option ResolvedCheck :=
  match endpoint_for provider (pc_key c) with
  | Some endpoint =>
      if str_truthy endpoint then
        Some {| rc_check := c; rc_endpoint := endpoint; rc_source := "platform"; rc_evaluator_key := Some (pc_key c); rc_parameters := None; rc_spec := None |}
      else None
  | None => None
  end.
Definition platform (provider : string) : list ResolvedCheck := omap (platform_check provider) (checks_for provider).

(** [str(v)] of a field that is set. *)
Definition text_if_set (k : string) (definition : row) : option string :=
  let v := vget k definition in if truthy v then Some (py_str v) else None.
(** [str(definition.get(k) or alternative)] *)
Definition text_or (k alternative : string) (definition : row) : string := py_str (py_or (vget k definition) (VStr alternative)).

(** [replace(check, ...)] with what a rule restates. *)
Definition restated (rule_key : string) (definition : row) (c : PostureCheck) : PostureCheck :=
  let ids := canonical_control_ids (vget "control_ids" definition) in
  {| pc_key := rule_key; pc_title := default (pc_title c) (text_if_set "title" definition); pc_provider := pc_provider c;
     pc_resource_type := pc_resource_type c; pc_expected := pc_expected c;
     pc_control_ids := if bool_decide (ids = []) then pc_control_ids c else ids;
     pc_capability_key := match text_if_set "capability_key" definition with Some k => Some k | None => pc_capability_key c end;
     pc_required_permissions := pc_required_permissions c |}.
Definition build_form_a (rule_key : string) (definition : row) (provider : string) : res ResolvedCheck :=
  let evaluator_key := text_or "evaluator" "" definition in
  match List.find (fun c => bool_decide (pc_key c = evaluator_key)) (checks_for provider) with
  | None => Err (ResolutionError ("unknown evaluator " +:+ repr_str evaluator_key +:+ " for provider " +:+ repr_str provider))
  | Some c =>
      match endpoint_for provider evaluator_key with
      | None => Err (ResolutionError ("no endpoint registered for " +:+ repr_str evaluator_key))
      | Some endpoint =>
          if negb (str_truthy endpoint) then Err (ResolutionError ("no endpoint registered for " +:+ repr_str evaluator_key)) else
          match py_or (vget "parameters" definition) (VDict []) with
          | VDict parameters =>
              let! parameterized := parameterize c parameters in
              Ok {| rc_check := restated rule_key definition parameterized; rc_endpoint := endpoint; rc_source := "";
                    rc_evaluator_key := Some evaluator_key; rc_parameters := Some parameters; rc_spec := None |}
          | _ => Err (ResolutionError "'parameters' must be an object")
          end
      end
  end.

Definition build_form_b (rule_key : string) (definition : row) (provider : string) : res ResolvedCheck :=
  match validate_endpoint (vget "endpoint" definition) with
  | (_ :: _) as problems => Err (ResolutionError (join "; " problems))
  | [] =>
      let endpoint := py_str (vget "endpoint" definition) in
      let predicate := vget "predicate" definition in
      match validate_predicate predicate "predicate" with
      | (_ :: _) as problems => Err (ResolutionError (join "; " problems))
      | [] =>
          let ids := canonical_control_ids (vget "control_ids" definition) in
          if bool_decide (ids = []) then Err (ResolutionError "a declarative check requires 'control_ids'") else
          let resource_type := text_or "resource_type" "" definition in
          let expected := text_or "expected" "" definition in
          if negb (str_truthy resource_type) || negb (str_truthy expected)
          then Err (ResolutionError "a declarative check requires 'resource_type' and 'expected'") else
          Ok {| rc_check := {| pc_key := rule_key; pc_title := text_or "title" rule_key definition; pc_provider := provider;
                               pc_resource_type := resource_type; pc_expected := expected; pc_control_ids := ids;
                               pc_capability_key := text_if_set "capability_key" definition;
                               pc_required_permissions := tuple_of_str (vget "required_permissions" definition) |};
                rc_endpoint := endpoint; rc_source := ""; rc_evaluator_key := None; rc_parameters := None;
                rc_spec := Some {| ds_mode := text_or "mode" "per_resource" definition; ds_resource_type := resource_type;
                                   ds_predicate := match predicate with VDict _ => predicate | _ => VDict [] end; ds_expected := expected;
                                   ds_resource_id_field := text_if_set "resource_id_field" definition;
                                   ds_pass_observed := text_if_set "pass_observed" definition;
                                   ds_fail_observed := text_if_set "fail_observed" definition |} |}
      end
  end.

Definition targets (definition : row) (provider : string) : bool :=
  match vget "provider" definition with
  | VStr declared => if str_truthy declared then bool_decide (declared = provider) else
                     match vget "evaluator" definition with VStr e => existsb (fun c => bool_decide (pc_key c = e)) (checks_for provider) | _ => false end
  | _ => match vget "evaluator" definition with VStr e => existsb (fun c => bool_decide (pc_key c = e)) (checks_for provider) | _ => false end
  end.
Definition build (rule_key : string) (definition : row) (provider : string) : res ResolvedCheck :=
  let has_evaluator := dhas "evaluator" definition in
  if Bool.eqb has_evaluator (dhas "predicate" definition) then Err (ResolutionError "exactly one of 'evaluator' or 'predicate' is required")
  else if has_evaluator then build_form_a rule_key definition provider else build_form_b rule_key definition provider.

(** ** Resolution *)

Record CompliancePack := { cp_id : Z; cp_organization_id : option Z; cp_pack_key : string; cp_status : string }.
Record PackRule := { pr_pack_id : Z; pr_rule_key : string; pr_kind : option string; pr_definition : pyval }.

Definition unknown_provider (definition : row) : bool :=
  match vget "provider" definition with VStr s => str_truthy s && negb (mem s known_providers) | _ => false end.
(** The loop body: the check a rule declares for this provider, if it has one. *)
Definition declared_check (provider : string) (rule : PackRule * string) : res (option ResolvedCheck) :=
  match pr_definition rule.1 with
  | VDict definition =>
      if unknown_provider definition then Ok None else
      if negb (targets definition provider) then Ok None else
      match build (pr_rule_key rule.1) definition provider with
      | Ok r => Ok (Some {| rc_check := rc_check r; rc_endpoint := rc_endpoint r; rc_source := "pack:" +:+ rule.2;
                            rc_evaluator_key := rc_evaluator_key r; rc_parameters := rc_parameters r; rc_spec := rc_spec r |})
      | Err e => if is_value_error e then Ok None else Err e
      end
  | _ => Ok None
  end.

Section resolution.
(** [ORDER BY rule_key], under the database's collation. *)
Variable by_rule_key : list (PackRule * string) -> list (PackRule * string).

Definition posture_rules (packs : list CompliancePack) (rules : list PackRule) (org_id : option Z) : list (PackRule * string) :=
  by_rule_key (flat_map (fun r => omap (fun p =>
    if (cp_id p =? pr_pack_id r) && match cp_organization_id p, org_id with Some a, Some b => a =? b | None, None => true | _, _ => false end &&
       bool_decide (cp_status p = "installed") && bool_decide (pr_kind r = Some "posture") then Some (r, cp_pack_key p) else None) packs) rules).
Definition resolve_checks (packs : list CompliancePack) (rules : list PackRule) (provider : string) (org_id : option Z) : res (list ResolvedCheck) :=
  let! declared := res_map (declared_check provider) (posture_rules packs rules org_id) in
  Ok (platform provider ++ omap id declared)%list.
End resolution.

(** ** What a connector does with them *)

Section scan.
Context {Row : Type}.
(** What a fetch returns or raises; how a failure is described to an operator. *)
Variable fetch : ResolvedCheck -> res (list Row).
Variable describe : PostureCheck -> exn -> string.
Variable subject : string.

Definition unrunnable_finding (c : PostureCheck) (e : exn) : ResourceFinding :=
  finding subject (pc_resource_type c) "manual_review_required" (describe c e) [("error", VStr (str_take 300 (exn_msg e)))].
Definition unrunnable (c : PostureCheck) (e : exn) : res CheckOutcome := from_findings c [unrunnable_finding c e].

Variable evaluate : ResolvedCheck -> list Row -> res CheckOutcome.
(** The loop body: the fetch and the evaluation each with a [try] of its own. *)
Definition scan_one (rc : ResolvedCheck) : res CheckOutcome :=
  match fetch rc with
  | Err e => unrunnable (rc_check rc) e
  | Ok rows => match evaluate rc rows with Ok o => Ok o | Err e => unrunnable (rc_check rc) e end
  end.
Definition scan_each (resolved : list ResolvedCheck) : res (list CheckOutcome) := res_map scan_one resolved.

(** [MicrosoftGraphConnector.scan]: anything that escapes, and a token not obtained, is an
    empty answer. *)
Definition graph_scan (configured : bool) (token : res bool) (resolved : list ResolvedCheck) : list CheckOutcome :=
  if negb configured || bool_decide (length resolved = 0%nat) then [] else
  match token with
  | Ok true => match scan_each resolved with Ok os => os | Err _ => [] end
  | _ => []
  end.
(** [AzureArmConnector.scan] and [GcpConnector.scan]: one finding per check without a
    token; a token request that raises escapes. *)
Definition cloud_scan (no_token : exn) (configured : bool) (token : res bool) (resolved : list ResolvedCheck) : res (list CheckOutcome) :=
  if negb configured || bool_decide (length resolved = 0%nat) then Ok [] else
  let! obtained := token in
  if obtained then scan_each resolved else res_map (fun rc => unrunnable (rc_check rc) no_token) resolved.
End scan.

(** [PuppetDbConnector.scan]: one query serves every check. *)
Definition puppetdb_scan (nodes : res (list row)) (describe : PostureCheck -> exn -> string) (subject : string)
    (evaluate : ResolvedCheck -> list row -> res CheckOutcome) (configured : bool) (resolved : list ResolvedCheck) : res (list CheckOutcome) :=
  if negb configured || bool_decide (length resolved = 0%nat) then Ok [] else scan_each (fun _ => nodes) describe subject evaluate resolved.

(** [rc.evaluator_key or rc.check.key] *)
Definition dispatch_key (rc : ResolvedCheck) : string := str_or (or_empty (rc_evaluator_key rc)) (pc_key (rc_check rc)).
Definition given_parameters (rc : ResolvedCheck) : row := default [] (rc_parameters rc).
Definition evaluator_named {A} (key : string) (registry : list (string * A)) : res A :=
  match dget key registry with Some ev => Ok ev | None => Err (KeyError (repr_str key)) end.

(** The connectors' [_evaluate]. Only Microsoft Graph judges a rule's own predicate, and
    PuppetDB looks its evaluator up under the check's own key. *)
Definition graph_evaluate (tenant_id : string) (now : Z) (rc : ResolvedCheck) (rows : list row) : res CheckOutcome :=
  match rc_spec rc with
  | Some spec => let! fs := evaluate_declared spec rows (Some tenant_id) in from_findings (rc_check rc) fs
  | None => let! ev := evaluator_named (dispatch_key rc) M365_EVALUATORS in
            let! fs := ev (given_parameters rc) tenant_id now rows in from_findings (rc_check rc) fs
  end.
(** Resolution gives these two no parameters: their checks accept none. *)
Definition cloud_evaluate (registry : list (string * cloud_evaluator)) (subject : string) (now : Z) (rc : ResolvedCheck) (rows : list row) : res CheckOutcome :=
  let! ev := evaluator_named (dispatch_key rc) registry in from_findings (rc_check rc) (ev subject now rows).
Definition puppetdb_evaluate (now : Z) (rc : ResolvedCheck) (nodes : list row) : res CheckOutcome :=
  let! ev := evaluator_named (pc_key (rc_check rc)) PUPPETDB_EVALUATORS in from_findings (rc_check rc) (ev "" now nodes).

(** Whether a connector's [_evaluate] has something to run for a resolved check: the
    lookup that otherwise raises [KeyError] inside the loop's [try]. *)
Definition finds_evaluator (provider : string) (rc : ResolvedCheck) : bool :=
  if bool_decide (provider = "msgraph") then match rc_spec rc with Some _ => true | None => dhas (dispatch_key rc) M365_EVALUATORS end
  else if bool_decide (provider = "aws_govcloud") then dhas (dispatch_key rc) AWS_EVALUATORS
  else if bool_decide (provider = "azure_arm") then dhas (dispatch_key rc) AZURE_EVALUATORS
  else if bool_decide (provider = "gcp") then dhas (dispatch_key rc) GCP_EVALUATORS
  else if bool_decide (provider = "puppetdb") then dhas (pc_key (rc_check rc)) PUPPETDB_EVALUATORS
  else false.

(** ** Lemmas on resolution *)

(** Where a declared endpoint leads: a path of Graph's, on Graph's own host. *)
Definition relative_graph_path (e : string) : Prop :=
  (startswith "/v1.0/" e = true \/ startswith "/beta/" e = true) /\
  str_contains "//" e = false /\ str_contains "@" e = false /\ str_contains "\" e = false /\ str_contains ".." e = false.
(** A platform check, or one a rule parameterized: its source, logic and wording are the
    platform's, its thresholds validated and stated. *)
Definition runs_platform_logic (provider : string) (rc : ResolvedCheck) : Prop :=
  exists c ps, c ∈ checks_for provider /\ rc_evaluator_key rc = Some (pc_key c) /\ rc_spec rc = None /\
    endpoint_for provider (pc_key c) = Some (rc_endpoint rc) /\ given_parameters rc = ps /\
    (ps = [] \/ validate_parameters (pc_key c) (VDict ps) = []) /\
    (ps = [] -> pc_expected (rc_check rc) = pc_expected c) /\
    (forall t, ps <> [] -> dget (pc_key c) EXPECTED_TEMPLATES = Some t -> str_format t ps = Ok (pc_expected (rc_check rc))).
(** A rule with a predicate: a safe path, and a predicate the evaluator accepts. *)
Definition runs_a_predicate (rc : ResolvedCheck) : Prop :=
  rc_evaluator_key rc = None /\ relative_graph_path (rc_endpoint rc) /\
  exists spec, rc_spec rc = Some spec /\ validate_predicate (ds_predicate spec) "predicate" = [].
Definition has_logic (provider : string) (rc : ResolvedCheck) : Prop :=
  pc_control_ids (rc_check rc) <> [] /\ (runs_platform_logic provider rc \/ runs_a_predicate rc).

Lemma validate_endpoint_nil raw : validate_endpoint raw = [] -> exists s, raw = VStr s /\ relative_graph_path s.
Proof.
  destruct raw as [| | | |s| |]; try done. cbn [validate_endpoint]. destruct (str_truthy s); cbn [negb]; [|done].
  destruct (_ <? _); [done|]. destruct (existsb _ _) eqn:Ep; cbn [negb]; [|done]. destruct (_ || _ || _ || _) eqn:Eb; [done|]. intros _.
  exists s. split; [done|]. rewrite !orb_false_iff in Eb. cbn [ENDPOINT_PREFIXES existsb] in Ep. rewrite !orb_true_iff in Ep.
  unfold relative_graph_path. naive_solver.
Qed.

Lemma platform_registered : forall pc, pc ∈ CHECK_REGISTRY -> forall c, c ∈ pc.2 -> pc_control_ids c <> [] /\ dhas (pc_key c) (default [] (dget pc.1 ENDPOINT_REGISTRY)) = true.
Proof.
  assert (H : forallb (fun pc : string * list PostureCheck => forallb (fun c => negb (bool_decide (pc_control_ids c = [])) &&
                dhas (pc_key c) (default [] (dget pc.1 ENDPOINT_REGISTRY))) pc.2) CHECK_REGISTRY = true) by (vm_compute; reflexivity).
  intros pc Hpc c Hc. apply list_elem_of_In in Hpc, Hc. rewrite forallb_forall in H. specialize (H pc Hpc). rewrite forallb_forall in H. specialize (H c Hc).
  apply andb_true_iff in H as [H1 H2]. apply negb_true_iff, bool_decide_eq_false in H1. done.
Qed.
Lemma checks_for_elem provider c : c ∈ checks_for provider -> exists cs, (provider, cs) ∈ CHECK_REGISTRY /\ c ∈ cs.
Proof.
  unfold checks_for. destruct (dget provider CHECK_REGISTRY) as [cs|] eqn:E; cbn [default]; [|by intros ?%not_elem_of_nil].
  intros Hc. exists cs. split; [by apply dget_Some_elem|done].
Qed.
Lemma checks_have_controls provider c : c ∈ checks_for provider -> pc_control_ids c <> [].
Proof. intros (cs & Hcs & Hc)%checks_for_elem. exact (proj1 (platform_registered _ Hcs c Hc)). Qed.

Lemma platform_has_logic provider rc : rc ∈ platform provider -> has_logic provider rc /\ rc_source rc = "platform".
Proof.
  unfold platform, platform_check. intros (c & Hc & E)%list_elem_of_omap. destruct (endpoint_for provider (pc_key c)) as [e|] eqn:Ee; [|done].
  destruct (str_truthy e); [|done]. injection E as <-. split; [|done]. split; [by eapply checks_have_controls|]. left.
  exists c, []. cbn. split_and!; try done. by left.
Qed.

Lemma form_a_has_logic key d provider rc : build_form_a key d provider = Ok rc -> has_logic provider rc /\ pc_key (rc_check rc) = key.
Proof.
  unfold build_form_a. destruct (List.find _ _) as [c|] eqn:Ef; [|done]. apply find_some in Ef as [Hc%list_elem_of_In Ek%bool_decide_eq_true].
  rewrite <-Ek. destruct (endpoint_for provider (pc_key c)) as [e|] eqn:Ee; [|done]. destruct (str_truthy e); cbn [negb]; [|done].
  destruct (py_or _ _) as [| | | | | |ps]; try done. intros (c' & Hc' & [= <-])%res_bind_Ok. split; [|done].
  pose proof (parameterize_Ok _ _ _ Hc') as (Hw & Ht & Hps). split.
  - cbn [rc_check restated pc_control_ids]. case_bool_decide; [|done]. replace (pc_control_ids c') with (pc_control_ids c) by (by rewrite <-Hw).
    by eapply checks_have_controls.
  - left. exists c, ps. cbn. split_and!; try done. intros ->. by injection Hc' as <-.
Qed.
Lemma form_b_has_logic key d provider rc : build_form_b key d provider = Ok rc -> has_logic provider rc /\ pc_key (rc_check rc) = key.
Proof.
  unfold build_form_b. destruct (validate_endpoint _) as [|] eqn:Ev; [|done]. apply validate_endpoint_nil in Ev as (s & -> & Hs).
  destruct (validate_predicate _ _) as [|] eqn:Ep; [|done]. case_bool_decide as Hids; [done|]. destruct (_ || _); [done|]. intros [= <-].
  split; [|done]. split; [done|]. right. split; [done|]. split; [done|]. eexists. split; [reflexivity|]. cbn [ds_predicate].
  destruct (vget "predicate" d); try done.
Qed.
Lemma build_has_logic key d provider rc : build key d provider = Ok rc -> has_logic provider rc /\ pc_key (rc_check rc) = key.
Proof. unfold build. destruct (Bool.eqb _ _); [done|]. destruct (dhas "evaluator" d); [apply form_a_has_logic|apply form_b_has_logic]. Qed.

(** A rule that cannot be built raises an error the loop handles. *)
Lemma build_Err key d provider e : build key d provider = Err e -> is_value_error e = true.
Proof.
  unfold build. destruct (Bool.eqb _ _); [by intros [= <-]|]. destruct (dhas "evaluator" d).
  - unfold build_form_a. destruct (List.find _ _) as [c|]; [|by intros [= <-]]. destruct (endpoint_for _ _) as [ep|]; [|by intros [= <-]].
    destruct (negb _); [by intros [= <-]|]. destruct (py_or _ _) as [| | | | | |ps]; try (by intros [= <-]).
    destruct (parameterize c ps) eqn:Ep; cbn [res_bind]; [done|]. intros [= <-]. unfold is_value_error. by rewrite (parameterize_Err _ _ _ Ep).
  - unfold build_form_b. destruct (validate_endpoint _); [|by intros [= <-]]. destruct (validate_predicate _ _); [|by intros [= <-]].
    case_bool_decide; [by intros [= <-]|]. destruct (_ || _); [by intros [= <-]|done].
Qed.
Lemma declared_check_spec provider rule : exists o, declared_check provider rule = Ok o /\
  forall rc, o = Some rc -> has_logic provider rc /\ rc_source rc = "pack:" +:+ rule.2 /\ pc_key (rc_check rc) = pr_rule_key rule.1.
Proof.
  unfold declared_check. destruct (pr_definition rule.1) as [| | | | | |d]; try (exists None; by split).
  destruct (unknown_provider d); [exists None; by split|]. destruct (targets d provider); cbn [negb]; [|exists None; by split].
  destruct (build _ _ _) as [r|e] eqn:Eb.
  - eexists. split; [reflexivity|]. intros rc [= <-]. cbn [rc_source rc_check]. apply build_has_logic in Eb as [H1 H2]. split_and!; [|done|done].
    destruct H1 as [Hids H1]. split; [done|]. by destruct r.
  - rewrite (build_Err _ _ _ _ Eb). exists None. by split.
Qed.

Lemma org_matches (a b : option Z) : match a, b with Some x, Some y => x =? y | None, None => true | _, _ => false end = true <-> a = b.
Proof. destruct a, b; try done. rewrite Z.eqb_eq. split; [by intros ->|by intros [= ->]]. Qed.
(** The rules of a tenant's installed packs. *)
Definition in_force (packs : list CompliancePack) (rules : list PackRule) (org_id : option Z) (rule : PackRule) (pack : CompliancePack) : Prop :=
  rule ∈ rules /\ pack ∈ packs /\ cp_id pack = pr_pack_id rule /\ cp_organization_id pack = org_id /\ cp_status pack = "installed" /\ pr_kind rule = Some "posture".
Lemma posture_rules_spec by_rule_key packs rules org_id x : (forall l, by_rule_key l ≡ₚ l) ->
  x ∈ posture_rules by_rule_key packs rules org_id <-> exists pack, in_force packs rules org_id x.1 pack /\ x.2 = cp_pack_key pack.
Proof.
  intros Hs. unfold posture_rules, in_force. rewrite Hs, list_elem_of_In, in_flat_map. setoid_rewrite <-list_elem_of_In. setoid_rewrite list_elem_of_omap. split.
  - intros (r & Hr & p & Hp & E). destruct (_ && _ && _ && _) eqn:Eb; [|done]. injection E as <-. cbn [fst snd].
    rewrite !andb_true_iff, Z.eqb_eq, org_matches, !bool_decide_eq_true in Eb. destruct Eb as [[[? ?] ?] ?]. exists p. by split_and!.
  - intros (p & (Hr & Hp & Hid & Ho & Hst & Hk) & E). exists x.1. split; [done|]. exists p. split; [done|].
    rewrite (proj2 (Z.eqb_eq _ _) Hid), (proj2 (org_matches _ _) Ho), !bool_decide_eq_true_2 by done. cbn. by rewrite <-E, <-surjective_pairing.
Qed.

(** ** Lemmas on scans *)








(** The registries name an evaluator for each check of their provider, and for no other key. *)
Definition same_keys {A} (cs : list PostureCheck) (registry : list (string * A)) : bool :=
  forallb (fun c => str_truthy (pc_key c) && dhas (pc_key c) registry) cs && forallb (fun k => mem k (map pc_key cs)) (map fst registry).
Lemma same_keys_spec {A} cs (registry : list (string * A)) k : same_keys cs registry = true -> dhas k registry = true <-> k ∈ map pc_key cs.
Proof.
  unfold same_keys. rewrite andb_true_iff, !forallb_forall. intros [H1 H2]. split.
  - unfold dhas, dkeys. rewrite mem_true. intros Hk%list_elem_of_In. by apply mem_true, H2.
  - intros (c & -> & Hc)%list_elem_of_fmap. apply list_elem_of_In in Hc. specialize (H1 c Hc). by apply andb_true_iff in H1 as [_ ->].
Qed.
Lemma platform_key_truthy provider c : c ∈ checks_for provider -> str_truthy (pc_key c) = true.
Proof.
  intros (cs & Hcs & Hc)%checks_for_elem.
  assert (H : forallb (fun pc : string * list PostureCheck => forallb (fun c => str_truthy (pc_key c)) pc.2) CHECK_REGISTRY = true) by (vm_compute; reflexivity).
  rewrite forallb_forall in H. apply list_elem_of_In in Hcs. specialize (H _ Hcs). rewrite forallb_forall in H. by apply H, list_elem_of_In.
Qed.
(** What the connector finds for a check that came out of resolution. *)
Lemma finds_evaluator_spec provider rc : has_logic provider rc ->
  finds_evaluator provider rc = true <-> provider = "msgraph" \/ (rc_evaluator_key rc <> None /\ provider <> "puppetdb") \/ pc_key (rc_check rc) ∈ map pc_key (checks_for provider).
Proof.
  intros [_ H].
  assert (Hk : (exists c, c ∈ checks_for provider /\ rc_evaluator_key rc = Some (pc_key c) /\ rc_spec rc = None /\ dispatch_key rc = pc_key c) \/
               (rc_evaluator_key rc = None /\ dispatch_key rc = pc_key (rc_check rc) /\ exists spec, rc_spec rc = Some spec)).
  { unfold dispatch_key. destruct H as [(c & ps & Hc & E & Es & _)|(E & _ & spec & Es & _)]; rewrite E.
    - left. exists c. split_and!; try done. unfold or_empty, str_or; cbn [default from_option]. unfold id. by rewrite (platform_key_truthy _ _ Hc).
    - right. split; [done|]. split; [done|]. by exists spec. }
  clear H. unfold finds_evaluator. destruct (bool_decide_reflect (provider = "msgraph")) as [->|N1].
  { split; [by left|]. intros _. destruct (rc_spec rc) eqn:Es; [done|]. destruct Hk as [(c & Hc & _ & _ & ->)|(_ & _ & ? & ?)]; [|congruence].
    apply (same_keys_spec (checks_for "msgraph")); [vm_compute; reflexivity|]. by apply list_elem_of_fmap_2. }
  assert (Hreg : forall {A} (registry : list (string * A)), same_keys (checks_for provider) registry = true -> provider <> "puppetdb" ->
            dhas (dispatch_key rc) registry = true <-> provider = "msgraph" \/ (rc_evaluator_key rc <> None /\ provider <> "puppetdb") \/ pc_key (rc_check rc) ∈ map pc_key (checks_for provider)).
  { intros A registry Hs Np. rewrite (same_keys_spec _ _ _ Hs). destruct Hk as [(c & Hc & -> & _ & ->)|(-> & -> & _)].
    - split; [intros _; right; left; done|]. intros _. by apply list_elem_of_fmap_2.
    - split; [by right; right|]. by intros [?|[[? _]|?]]. }
  destruct (bool_decide_reflect (provider = "aws_govcloud")) as [->|N2]; [by apply Hreg; [vm_compute; reflexivity|]|].
  destruct (bool_decide_reflect (provider = "azure_arm")) as [->|N3]; [by apply Hreg; [vm_compute; reflexivity|]|].
  destruct (bool_decide_reflect (provider = "gcp")) as [->|N4]; [by apply Hreg; [vm_compute; reflexivity|]|].
  destruct (bool_decide_reflect (provider = "puppetdb")) as [->|N5].
  { rewrite (same_keys_spec (checks_for "puppetdb")) by (vm_compute; reflexivity). split; [by right; right|]. by intros [?|[[_ ?]|?]]. }
  assert (Hnone : checks_for provider = []).
  { unfold checks_for, CHECK_REGISTRY. cbn [dget]. by rewrite !decide_False by done. }
  rewrite Hnone in Hk |- *. split; [done|]. intros [?|[[Hek _]|Hin]]; [done| |by apply not_elem_of_nil in Hin].
  destruct Hk as [(c & Hc & _)|(? & _)]; [by apply not_elem_of_nil in Hc|done].
Qed.

Lemma platform_finds provider rc : rc ∈ platform provider -> finds_evaluator provider rc = true.
Proof.
  intros H. apply finds_evaluator_spec; [by apply platform_has_logic in H as [H _]|]. right; right. unfold platform, platform_check in H.
  apply list_elem_of_omap in H as (c & Hc & E). destruct (endpoint_for _ _) as [e|]; [|done]. destruct (str_truthy e); [|done]. injection E as <-.
  by apply list_elem_of_fmap_2.
Qed.

(** ** Properties *)

(** C12: resolution answers for every tenant. Whatever its packs hold, the platform's checks
    come first and unchanged; a rule adds a check exactly when it belongs to an installed
    pack of this very organization and can be built, and a rule that cannot be built costs
    no other its place. Every check that comes out is attributed, having a control, and asks
    for something safe: either a platform check's logic from that check's source, with
    parameters the validator accepts and an expectation that states them, or an accepted
    predicate over a relative Graph path, which cannot name another host. Resolving is not
    being run: a connector finds something to evaluate for every check of Microsoft Graph,
    elsewhere for a parameterized check unless the connector is PuppetDB's, and otherwise
    exactly when the check's own key is that of a platform check, which is so of the
    platform's checks. *)
Theorem resolution_is_additive_and_contained by_rule_key packs rules provider org_id : (forall l, by_rule_key l ≡ₚ l) ->
  exists declared, resolve_checks by_rule_key packs rules provider org_id = Ok (platform provider ++ declared)%list /\
    (forall rc, rc ∈ (platform provider ++ declared)%list -> has_logic provider rc) /\
    (forall rc, rc ∈ (platform provider ++ declared)%list ->
       finds_evaluator provider rc = true <-> provider = "msgraph" \/ (rc_evaluator_key rc <> None /\ provider <> "puppetdb") \/
                                             pc_key (rc_check rc) ∈ map pc_key (checks_for provider)) /\
    (forall rc, rc ∈ platform provider -> rc_source rc = "platform" /\ finds_evaluator provider rc = true) /\
    (forall rc, rc ∈ declared <-> exists rule pack, in_force packs rules org_id rule pack /\ declared_check provider (rule, cp_pack_key pack) = Ok (Some rc)) /\
    (forall rc, rc ∈ declared -> exists rule pack, in_force packs rules org_id rule pack /\ pc_key (rc_check rc) = pr_rule_key rule /\ rc_source rc = "pack:" +:+ cp_pack_key pack).
Proof.
  intros Hs. set (rows := posture_rules by_rule_key packs rules org_id).
  assert (Hm : exists os, res_map (declared_check provider) rows = Ok os /\ forall rc, Some rc ∈ os <-> exists x, x ∈ rows /\ declared_check provider x = Ok (Some rc)).
  { clear. induction rows as [|x l (os & E & H)].
    - exists []. split; [done|]. intros rc. split; [by intros ?%not_elem_of_nil|by intros (? & ?%not_elem_of_nil & _)].
    - destruct (declared_check_spec provider x) as (o & Eo & _). exists (o :: os). cbn [res_map]. rewrite Eo. cbn [res_bind]. rewrite E. split; [done|].
      intros rc. rewrite elem_of_cons, H. setoid_rewrite elem_of_cons. split; [intros [->|(y & ? & ?)]; eauto|]. intros (y & [->|Hy] & Ey); [left; congruence|eauto]. }
  destruct Hm as (os & Eos & Hos). exists (omap id os). unfold resolve_checks. fold rows. rewrite Eos. split; [done|].
  assert (Hd : forall rc, rc ∈ omap id os <-> exists rule pack, in_force packs rules org_id rule pack /\ declared_check provider (rule, cp_pack_key pack) = Ok (Some rc)).
  { intros rc. assert (rc ∈ omap id os <-> Some rc ∈ os) as ->.
    { rewrite list_elem_of_omap. split; [intros (o & Ho & E); cbn in E; by subst o|intros Ho; by exists (Some rc)]. }
    rewrite Hos. split.
    - intros ([rule key] & (pack & Hp & E)%posture_rules_spec & Ex); [|done]. cbn in E, Hp. subst key. by exists rule, pack.
    - intros (rule & pack & Hp & E). exists (rule, cp_pack_key pack). split; [|done]. apply posture_rules_spec; [done|]. by exists pack. }
  assert (Hall : forall rc, rc ∈ (platform provider ++ omap id os)%list -> has_logic provider rc).
  { intros rc [H|H]%elem_of_app; [by apply platform_has_logic in H as [H _]|]. apply Hd in H as (rule & pack & _ & E).
    destruct (declared_check_spec provider (rule, cp_pack_key pack)) as (o & Eo & H). rewrite E in Eo. injection Eo as <-. by apply H. }
  split_and!; [exact Hall|by intros rc H; apply finds_evaluator_spec, Hall| |exact Hd|].
  - intros rc H. split; [by apply platform_has_logic in H as [_ H]|]. apply platform_finds. done.
  - intros rc H. apply Hd in H as (rule & pack & Hp & E). exists rule, pack.
    destruct (declared_check_spec provider (rule, cp_pack_key pack)) as (o & Eo & H'). rewrite E in Eo. injection Eo as <-. by destruct (H' rc eq_refl) as (_ & ? & ?).
Qed.

Definition strict_pack : CompliancePack := {| cp_id := 1; cp_organization_id := Some 7; cp_pack_key := "strict"; cp_status := "installed" |}.
Definition strict_rules : list PackRule :=
  [{| pr_pack_id := 1; pr_rule_key := "strict.stale"; pr_kind := Some "posture";
      pr_definition := VDict [("evaluator", VStr "m365.identity.stale_accounts"); ("parameters", VDict [("threshold_days", VInt 30)])] |};
   {| pr_pack_id := 1; pr_rule_key := "strict.offhost"; pr_kind := Some "posture";
      pr_definition := VDict [("provider", VStr "msgraph"); ("predicate", VDict [("op", VStr "truthy"); ("path", VStr "id")]); ("endpoint", VStr "@attacker.example/x");
                              ("control_ids", VList [VStr "AC-2"]); ("resource_type", VStr "user"); ("expected", VStr "an id")] |}].
Lemma resolution_is_additive_and_contained_witness : exists declared,
  resolve_checks id [strict_pack] strict_rules "msgraph" (Some 7) = Ok (platform "msgraph" ++ declared)%list /\
  (forall rc, rc ∈ (platform "msgraph" ++ declared)%list -> has_logic "msgraph" rc).
Proof. destruct (resolution_is_additive_and_contained id [strict_pack] strict_rules "msgraph" (Some 7)) as (declared & H1 & H2 & _); [done|]. by exists declared. Defined.
(** A stricter threshold is stated; a path to another host is not resolved; another
    tenant's scan sees neither. *)
Example strict_resolution :
  map (fun org => match resolve_checks id [strict_pack] strict_rules "msgraph" org with
                  | Ok l => map (fun rc => (pc_key (rc_check rc), pc_expected (rc_check rc))) (drop 19 l)
                  | Err _ => [] end) [Some 7; Some 8] =
  [[("strict.stale", "no enabled account has been inactive longer than 30 days")]; []].
Proof. vm_compute. reflexivity. Qed.


(** Without a token, Azure's checks each say so, and Graph says nothing. *)
Example no_token_answers :
  (let! os := cloud_scan (fun _ => Ok []) (fun _ e => exn_msg e) "sub" (cloud_evaluate AZURE_EVALUATORS "sub" 0) (Exn "RuntimeError" "no token") true (Ok false) (platform "azure_arm") in
   Ok (map co_verdict os)) = Ok (replicate 5 "manual_review_required") /\
  graph_scan (fun _ => Ok []) (fun _ e => exn_msg e) "t" (graph_evaluate "t" 0) true (Ok false) (platform "msgraph") = [].
Proof. vm_compute. by split. Qed.
(** A token request that is refused takes Azure's whole scan out. *)
Example refused_token_escapes :
  cloud_scan (fun _ => Ok []) (fun _ e => exn_msg e) "sub" (cloud_evaluate AZURE_EVALUATORS "sub" 0) (Exn "RuntimeError" "no token") true
    (Err (Exn "HTTPStatusError" "401")) (platform "azure_arm") = Err (Exn "HTTPStatusError" "401").
Proof. reflexivity. Qed.
(** A pack's PuppetDB check resolves, and its evaluator is not found. *)
Definition puppet_rule : PackRule :=
  {| pr_pack_id := 1; pr_rule_key := "strict.nodes"; pr_kind := Some "posture"; pr_definition := VDict [("evaluator", VStr "puppetdb.node.reporting")] |}.
Example pack_puppetdb_check_never_runs :
  (let! resolved := resolve_checks id [strict_pack] [puppet_rule] "puppetdb" (Some 7) in
   let! os := puppetdb_scan (Ok []) (fun _ e => exn_class e) "pdb" (puppetdb_evaluate 0) true resolved in
   Ok (map (fun o => (co_check_key o, co_verdict o, map observed (co_findings o))) (drop 2 os))) =
  Ok [("strict.nodes", "manual_review_required", ["KeyError"])].
Proof. vm_compute. reflexivity. Qed.
(** A pack's predicate for AWS resolves, and no evaluator is found; named like a platform
    check, it runs that check's logic in the predicate's place. *)
Definition aws_predicate_rule (key : string) : PackRule :=
  {| pr_pack_id := 1; pr_rule_key := key; pr_kind := Some "posture";
     pr_definition := VDict [("provider", VStr "aws_govcloud"); ("predicate", VDict [("op", VStr "truthy"); ("path", VStr "id")]); ("endpoint", VStr "/v1.0/users");
                             ("control_ids", VList [VStr "AC-2"]); ("resource_type", VStr "user"); ("expected", VStr "an id")] |}.
Example predicates_run_on_graph_alone :
  map (fun key => match resolve_checks id [strict_pack] [aws_predicate_rule key] "aws_govcloud" (Some 7) with
                  | Ok l => map (finds_evaluator "aws_govcloud") (drop (length (platform "aws_govcloud")) l)
                  | Err _ => [] end) ["strict.ids"; "aws.iam.root_mfa_enabled"] = [[false]; [true]].
Proof. vm_compute. reflexivity. Qed.
