(* ===== verification/PostureScan.v ===== *)
(** A posture scan of one system ([src/src/ccf/posture/scan.py]): the generated control
    tests, what is recorded against them, and which verdict is believed.

    The rows of [control_tests] carry, beside what the governance code reads, the columns
    only a scan writes. Metrics are not modelled. *)

From S2P Require Export Resolve ControlTests.

Local Open Scope string_scope.
Local Open Scope Z_scope.

(** ** State *)

Record PostureTest := {
  pt_test : ControlTest;
  pt_control_ids : option (list string);
  pt_description : option string;
  pt_capability_id : option Z }.
Record TenantCapability := { tc_id : Z; tc_organization_id : option Z; tc_key : string }.
(** [sc_next]: the next id of [control_tests]. *)
Record Scans := { sc_tests : list PostureTest; sc_next : Z; sc_systems : list (Z * option Z); sc_capabilities : list TenantCapability; sc_db : Db }.
Definition set_tests (tests : list PostureTest) (s : Scans) : Scans :=
  {| sc_tests := tests; sc_next := sc_next s; sc_systems := sc_systems s; sc_capabilities := sc_capabilities s; sc_db := sc_db s |}.
Definition set_db (db : Db) (s : Scans) : Scans :=
  {| sc_tests := sc_tests s; sc_next := sc_next s; sc_systems := sc_systems s; sc_capabilities := sc_capabilities s; sc_db := db |}.

(** ** The generated test *)

Definition has_capability (organization_id : option Z) (capability_key : option string) (c : TenantCapability) : bool :=
  match tc_organization_id c, organization_id with Some a, Some b => a =? b | None, None => true | _, _ => false end && bool_decide (Some (tc_key c) = capability_key).
Definition capability_id_for (organization_id : option Z) (capability_key : option string) (s : Scans) : res (option Z) :=
  if negb (str_truthy (or_empty capability_key)) then Ok None else
  scalar_one_or_none (map tc_id (List.filter (has_capability organization_id capability_key) (sc_capabilities s))).

Definition is_generated_for (system_id : Z) (check_key : string) (t : PostureTest) : bool :=
  bool_decide (ct_system_id (pt_test t) = Some system_id) && bool_decide (ct_check_key (pt_test t) = Some check_key).
Definition same_row (t : PostureTest) (u : PostureTest) : bool := ct_id (pt_test u) =? ct_id (pt_test t).
(** The row is written back. *)
Definition store_test (t : PostureTest) (s : Scans) : Scans := set_tests (update_where (same_row t) (fun _ => t) (sc_tests s)) s.

(** What one check says of its test. *)
Record Generated := {
  gn_check_key : string;
  gn_check_source : string;
  gn_control_id : string;
  gn_control_ids : list string;
  gn_title : string;
  gn_expected : string;
  gn_capability_id : option Z;
  gn_connector_key : string }.
Definition generated_description (g : Generated) : string := "Generated from posture check " +:+ gn_check_key g +:+ ".".
(** The machine-owned fields, refreshed on every scan. *)
Definition refreshed (g : Generated) (t : PostureTest) : PostureTest :=
  let c := pt_test t in
  {| pt_test := {| ct_id := ct_id c; ct_organization_id := ct_organization_id c; ct_system_id := ct_system_id c; ct_control_id := gn_control_id g;
                   ct_name := ct_name c; ct_method := ct_method c; ct_connector_type := Some (gn_connector_key g); ct_frequency := ct_frequency c;
                   ct_expected := Some (gn_expected g); ct_assertion := ct_assertion c; ct_active := ct_active c; ct_source := ct_source c;
                   ct_check_key := ct_check_key c; ct_check_source := Some (gn_check_source g); ct_last_status := ct_last_status c;
                   ct_last_tested_at := ct_last_tested_at c |};
     pt_control_ids := Some (gn_control_ids g); pt_description := Some (generated_description g); pt_capability_id := gn_capability_id g |}.
Definition new_test (i : Z) (organization_id : option Z) (system_id : Z) (g : Generated) : PostureTest :=
  {| pt_test := {| ct_id := i; ct_organization_id := organization_id; ct_system_id := Some system_id; ct_control_id := gn_control_id g; ct_name := gn_title g;
                   ct_method := "connector"; ct_connector_type := Some (gn_connector_key g); ct_frequency := None; ct_expected := Some (gn_expected g);
                   ct_assertion := None; ct_active := true; ct_source := "generated"; ct_check_key := Some (gn_check_key g);
                   ct_check_source := Some (gn_check_source g); ct_last_status := None; ct_last_tested_at := None |};
     pt_control_ids := Some (gn_control_ids g); pt_description := Some (generated_description g); pt_capability_id := gn_capability_id g |}.
Definition upsert_generated_test (organization_id : option Z) (system_id : Z) (g : Generated) (s : Scans) : PostureTest * Scans :=
  match List.find (is_generated_for system_id (gn_check_key g)) (sc_tests s) with
  | None =>
      let t := new_test (sc_next s) organization_id system_id g in
      (t, {| sc_tests := (sc_tests s ++ [t])%list; sc_next := sc_next s + 1; sc_systems := sc_systems s; sc_capabilities := sc_capabilities s; sc_db := sc_db s |})
  | Some t => let t' := refreshed g t in (t', store_test t' s)
  end.

(** [record_result] on a generated test: the row keeps its other columns. *)
Definition record (t : PostureTest) (status : string) (dtl : option string) (evidence_ref : option string) (actor : string) (evaluated failing : Z)
    (expected : option string) (resources : list ResourceFinding) (open_remediation : bool) (now : Z) (s : Scans) : res Scans :=
  let! r := record_result (pt_test t) status dtl evidence_ref actor evaluated failing expected resources open_remediation now (sc_db s) in
  let t' := {| pt_test := r.1.2; pt_control_ids := pt_control_ids t; pt_description := pt_description t; pt_capability_id := pt_capability_id t |} in
  Ok (store_test t' (set_db r.2 s)).

(** ** Scanning a system *)

Record CheckResult := { kr_check_key : string; kr_verdict : string; kr_evaluated : Z; kr_failing : Z; kr_control_ids : list string }.
Record SkippedCheck := { sk_check_key : string; sk_source : string; sk_reason : string }.
Record ScanReport := {
  sr_checks_expected : Z;
  sr_results : list CheckResult;
  sr_skipped : list SkippedCheck;
  sr_unexpected : list (string * string);
  sr_reason : option string }.
Definition checks_run (r : ScanReport) : Z := count (sr_results r).

Record Progress := { pg_results : list CheckResult; pg_skipped : list SkippedCheck; pg_unexpected : list (string * string); pg_state : Scans }.
Definition skipped (rc : ResolvedCheck) (reason : string) : SkippedCheck :=
  {| sk_check_key := pc_key (rc_check rc); sk_source := rc_source rc; sk_reason := reason |}.
(** [{r.check.key: r for r in resolved}]: the last one wins. *)
Definition by_check_key (resolved : list ResolvedCheck) (k : string) : option ResolvedCheck :=
  List.find (fun rc => bool_decide (pc_key (rc_check rc) = k)) (rev resolved).
Definition first_control (c : PostureCheck) : res string :=
  match pc_control_ids c with k :: _ => Ok k | [] => Err (Exn "IndexError" "tuple index out of range") end.
Definition scan_detail (c : PostureCheck) (o : CheckOutcome) : string :=
  if considered o =? 0 then "no resources in scope"
  else pretty (failing o) +:+ " of " +:+ pretty (considered o) +:+ " " +:+ pc_resource_type c +:+ "(s) failing".

(** The loop body for one outcome. *)
Definition scan_outcome (organization_id : option Z) (system_id : Z) (connector_key actor : string) (now : Z) (resolved : list ResolvedCheck)
    (o : CheckOutcome) (p : Progress) : res Progress :=
  match by_check_key resolved (co_check_key o) with
  | None => Ok {| pg_results := pg_results p; pg_skipped := pg_skipped p; pg_unexpected := (pg_unexpected p ++ [(co_check_key o, co_verdict o)])%list;
                  pg_state := pg_state p |}
  | Some rc =>
      let c := rc_check rc in
      let! capability_id := capability_id_for organization_id (pc_capability_key c) (pg_state p) in
      let! control_id := first_control c in
      let '(t, s) := upsert_generated_test organization_id system_id
        {| gn_check_key := co_check_key o; gn_check_source := rc_source rc; gn_control_id := control_id; gn_control_ids := pc_control_ids c; gn_title := pc_title c;
           gn_expected := pc_expected c; gn_capability_id := capability_id; gn_connector_key := connector_key |} (pg_state p) in
      if negb (ct_active (pt_test t)) then
        Ok {| pg_results := pg_results p; pg_skipped := (pg_skipped p ++ [skipped rc "generated control test is inactive"])%list;
              pg_unexpected := pg_unexpected p; pg_state := s |}
      else
      let! s := record t (co_verdict o) (Some (scan_detail c o)) None actor (evaluated o) (failing o) (Some (co_expected o)) (co_findings o) true now s in
      Ok {| pg_results := (pg_results p ++ [{| kr_check_key := co_check_key o; kr_verdict := co_verdict o; kr_evaluated := evaluated o; kr_failing := failing o;
                                               kr_control_ids := pc_control_ids c |}])%list;
            pg_skipped := pg_skipped p; pg_unexpected := pg_unexpected p; pg_state := s |}
  end.
Fixpoint scan_outcomes (body : CheckOutcome -> Progress -> res Progress) (outcomes : list CheckOutcome) (p : Progress) : res Progress :=
  match outcomes with
  | [] => Ok p
  | o :: rest => let! p := body o p in scan_outcomes body rest p
  end.

Definition unknown_system (system_id : Z) : exn := ValueError ("unknown system: " +:+ pretty system_id).
Definition selected (check_keys : option (list string)) (resolved : list ResolvedCheck) : list ResolvedCheck :=
  match check_keys with None => resolved | Some ks => List.filter (fun rc => mem (pc_key (rc_check rc)) ks) resolved end.
(** [resolved] is what resolution gave for the system's organization; [scan] is the
    connector's, when it is configured. *)
Definition scan_for_system (resolved : res (list ResolvedCheck)) (scan : option (list ResolvedCheck -> res (list CheckOutcome)))
    (system_id : Z) (connector_key actor : string) (check_keys : option (list string)) (now : Z) (s : Scans) : res (ScanReport * Scans) :=
  match List.find (fun x => x.1 =? system_id) (sc_systems s) with
  | None => Err (unknown_system system_id)
  | Some (_, organization_id) =>
      let! resolved := resolved in
      let resolved := selected check_keys resolved in
      match scan with
      | None =>
          let reason := "connector not configured for this organization" in
          Ok ({| sr_checks_expected := count resolved; sr_results := []; sr_skipped := map (fun rc => skipped rc reason) resolved; sr_unexpected := [];
                 sr_reason := Some reason |}, s)
      | Some scan =>
          let! outcomes := scan resolved in
          let returned := map co_check_key outcomes in
          let! p := scan_outcomes (scan_outcome organization_id system_id connector_key actor now resolved) outcomes
                      {| pg_results := []; pg_skipped := []; pg_unexpected := []; pg_state := s |} in
          Ok ({| sr_checks_expected := count resolved; sr_results := pg_results p;
                 sr_skipped := (pg_skipped p ++ map (fun rc => skipped rc "connector returned no outcome for this check")
                   (List.filter (fun rc => negb (mem (pc_key (rc_check rc)) returned)) resolved))%list;
                 sr_unexpected := pg_unexpected p; sr_reason := None |}, pg_state p)
      end
  end.

(** ** A check that was not run *)

Record CheckDescriptor := { cd_check_key : string; cd_title : string; cd_expected : string; cd_control_ids : list string; cd_source : string }.
Definition record_manual_review_check (system_id : Z) (connector_key : string) (check : CheckDescriptor) (reason actor : string) (now : Z) (s : Scans)
    : res (string * Scans) :=
  match List.find (fun x => x.1 =? system_id) (sc_systems s) with
  | None => Err (unknown_system system_id)
  | Some (_, organization_id) =>
      match List.filter str_truthy (cd_control_ids check) with
      | [] => Err (ValueError "manual-review check requires at least one control id")
      | control_id :: _ as control_ids =>
          let '(t, s) := upsert_generated_test organization_id system_id
            {| gn_check_key := cd_check_key check; gn_check_source := str_or (cd_source check) "platform"; gn_control_id := control_id; gn_control_ids := control_ids;
               gn_title := str_or (cd_title check) (cd_check_key check); gn_expected := str_or (cd_expected check) "manual evidence is required";
               gn_capability_id := None; gn_connector_key := connector_key |} s in
          if negb (ct_active (pt_test t)) then Ok ("not_tested", s) else
          let! s := record t "manual_review_required" (Some reason) None actor 0 0 (ct_expected (pt_test t)) [] true now s in
          Ok ("manual_review_required", s)
      end
  end.

(** ** Which verdict is believed *)

Definition STALE_AFTER_DAYS : Z := 30.
Definition ATTESTED_CHECK_SOURCE : string := "attested:securityhub".
Definition CROSSWALK_CHECK_SOURCE : string := "crosswalk:securescore".
Definition TIER_PLATFORM : Z := 0.
Definition TIER_ATTESTED : Z := 1.
Definition TIER_CROSSWALK : Z := 2.
Definition TIER_PACK : Z := 3.
Definition TIER_REASONS : list (Z * string) :=
  [(TIER_ATTESTED, "no fresh platform-sourced result; provider-attested result used (the provider evaluated its own account)");
   (TIER_CROSSWALK, "no fresh platform-sourced or provider-attested result; Concord's Secure Score crosswalk used (Microsoft measured the score, Concord authored the control mapping)");
   (TIER_PACK, "no fresh platform-, provider-attested or crosswalk result; most recent pack-sourced result used")].
Definition trust_tier (t : ControlTest) : Z :=
  match ct_check_source t with
  | None =>
      if bool_decide (ct_source t = "generated") && match ct_check_key t with Some k => mem k platform_check_keys | None => false end
      then TIER_PLATFORM else TIER_PACK
  | Some source =>
      if bool_decide (source = "platform") then TIER_PLATFORM
      else if bool_decide (source = ATTESTED_CHECK_SOURCE) then TIER_ATTESTED
      else if bool_decide (source = CROSSWALK_CHECK_SOURCE) then TIER_CROSSWALK
      else TIER_PACK
  end.

(** A result with the time the database gave it, and its test. *)
Record Evidence := { evd_result : ControlTestResult; evd_run_at : Z; evd_test : ControlTest }.
Definition fresh_for (system_id : Z) (control_id : string) (now : Z) (e : Evidence) : bool :=
  bool_decide (ct_system_id (evd_test e) = Some system_id) && bool_decide (ct_control_id (evd_test e) = control_id) &&
  bool_decide (ct_source (evd_test e) = "generated") && (now - STALE_AFTER_DAYS * day_us <=? evd_run_at e).
Record Believed := { bl_verdict : option string; bl_run_at : option Z; bl_test_id : option Z; bl_reason : string }.

Section belief.
(** [ORDER BY run_at DESC]: ties in the order the database gives them. *)
Variable newest_first : list Evidence -> list Evidence.
Definition effective_verdict (system_id : Z) (control_id : string) (now : Z) (table : list Evidence) : Believed :=
  match newest_first (List.filter (fresh_for system_id control_id now) table) with
  | [] => {| bl_verdict := None; bl_run_at := None; bl_test_id := None; bl_reason := "no fresh deterministic result" |}
  | e :: rows =>
      let best := fold_left (fun m x => Z.min m (trust_tier (evd_test x))) rows (trust_tier (evd_test e)) in
      match List.find (fun x => trust_tier (evd_test x) =? best) (e :: rows) with
      | Some x => {| bl_verdict := Some (ctr_status (evd_result x)); bl_run_at := Some (evd_run_at x); bl_test_id := Some (ct_id (evd_test x));
                     bl_reason := "a deterministic check outranks a model verdict" +:+
                                  match List.find (fun tr => tr.1 =? best) TIER_REASONS with Some tr => " (" +:+ tr.2 +:+ ")" | None => "" end |}
      | None => {| bl_verdict := None; bl_run_at := None; bl_test_id := None; bl_reason := "" |}
      end
  end.
End belief.

(** ** Invariants *)

(** What a person owns of a test: a scan never changes it. *)
Record Authored := {
  au_id : Z;
  au_organization_id : option Z;
  au_system_id : option Z;
  au_name : string;
  au_method : string;
  au_frequency : option string;
  au_assertion : option row;
  au_active : bool;
  au_source : string;
  au_check_key : option string }.
Definition authored (t : PostureTest) : Authored :=
  let c := pt_test t in
  {| au_id := ct_id c; au_organization_id := ct_organization_id c; au_system_id := ct_system_id c; au_name := ct_name c; au_method := ct_method c;
     au_frequency := ct_frequency c; au_assertion := ct_assertion c; au_active := ct_active c; au_source := ct_source c; au_check_key := ct_check_key c |}.
Definition all_authored (s : Scans) : list Authored := map authored (sc_tests s).

(** The unique constraint on a system's check, and the primary key. *)
Record wf_tests (next : Z) (l : list Authored) : Prop := {
  wt_ids : NoDup (map au_id l);
  wt_new : forall a, a ∈ l -> au_id a < next;
  wt_keys : forall a b, a ∈ l -> b ∈ l -> au_system_id a = au_system_id b -> au_check_key a = au_check_key b -> au_check_key a <> None -> a = b }.
Record wf_scans (s : Scans) : Prop := {
  ws_tests : wf_tests (sc_next s) (all_authored s);
  ws_capabilities : forall org k, (length (List.filter (has_capability org k) (sc_capabilities s)) <= 1)%nat;
  ws_db : wf_db (sc_db s) }.

(** A test a scan makes, and what scans do to the table. *)
Definition generated_row (a : Authored) : Prop := au_source a = "generated" /\ au_method a = "connector" /\ au_active a = true.
Definition tests_grow (s s' : Scans) : Prop :=
  exists added, all_authored s' = (all_authored s ++ added)%list /\ Forall generated_row added.
(** Every result added is of an active test. *)
Definition results_grow (s s' : Scans) : Prop :=
  exists rows, db_results (sc_db s') = (db_results (sc_db s) ++ rows)%list /\
    Forall (fun r => exists a, a ∈ all_authored s' /\ au_id a = ctr_test_id r /\ au_active a = true) rows.
Definition same_tables (s s' : Scans) : Prop := sc_systems s' = sc_systems s /\ sc_capabilities s' = sc_capabilities s.
Record scanned (s s' : Scans) : Prop := { sn_wf : wf_scans s'; sn_tests : tests_grow s s'; sn_results : results_grow s s'; sn_same : same_tables s s' }.

Lemma tests_grow_refl s : tests_grow s s.
Proof. exists []. by rewrite app_nil_r. Qed.
Lemma scans_refl s : wf_scans s -> scanned s s.
Proof. intros H. split; [done|apply tests_grow_refl|exists []; by rewrite app_nil_r|done]. Qed.
Lemma scans_trans s s' s'' : scanned s s' -> scanned s' s'' -> scanned s s''.
Proof.
  intros [_ (a & Ea & Ha) (r & Er & Hr) [H1 H2]] [Hw (b & Eb & Hb) (q & Eq & Hq) [H3 H4]]. split; [done| | |split; congruence].
  - exists (a ++ b)%list. rewrite Eb, Ea, app_assoc. split; [done|by apply Forall_app].
  - exists (r ++ q)%list. rewrite Eq, Er, app_assoc. split; [done|]. apply Forall_app. split; [|done]. eapply Forall_impl; [exact Hr|].
    intros x (c & Hc & ? & ?). exists c. split; [|done]. rewrite Eb. apply elem_of_app. by left.
Qed.

(** Writing a row back where the person's part is unchanged. *)
Lemma store_authored s t : wf_scans s -> authored t ∈ all_authored s -> all_authored (store_test t s) = all_authored s.
Proof.
  intros [[Hids _ _] _ _] Hin. unfold all_authored, store_test, set_tests, update_where in *. cbn [sc_tests]. rewrite map_map. apply map_ext_in. intros u Hu.
  destruct (same_row t u) eqn:E; [|done]. apply Z.eqb_eq in E. rewrite <-list_elem_of_In in Hu.
  assert (H : forall l, NoDup (map au_id l) -> forall a b, a ∈ l -> b ∈ l -> au_id a = au_id b -> a = b).
  { clear. induction l as [|x l IH]; intros Hn a b Ha Hb E; [by apply not_elem_of_nil in Ha|]. apply NoDup_cons in Hn as [Hx Hn].
    apply elem_of_cons in Ha as [->|Ha], Hb as [->|Hb]; [done| | |by apply IH].
    - destruct Hx. rewrite E. by apply list_elem_of_fmap_2.
    - destruct Hx. rewrite <-E. by apply list_elem_of_fmap_2. }
  apply (H _ Hids); [done|by apply list_elem_of_fmap_2|done].
Qed.

Lemma NoDup_snoc {A} (l : list A) x : NoDup l -> x ∉ l -> NoDup (l ++ [x])%list.
Proof. intros Hl Hx. apply NoDup_app. split_and!; [done|by intros y Hy ->%list_elem_of_singleton|apply NoDup_singleton]. Qed.

(** A capability is looked up, or there is none. *)
Lemma capability_total org k s : wf_scans s -> exists o, capability_id_for org k s = Ok o.
Proof.
  intros [_ Hc _]. unfold capability_id_for. destruct (negb _); [by eexists|].
  specialize (Hc org k). destruct (List.filter _ _) as [|c [|]]; cbn in *; [by eexists|by eexists|lia].
Qed.

Lemma upsert_spec org sys g s : wf_scans s ->
  let '(t, s') := upsert_generated_test org sys g s in
  scanned s s' /\ authored t ∈ all_authored s' /\ sc_db s' = sc_db s /\ pt_control_ids t = Some (gn_control_ids g) /\
  ct_check_source (pt_test t) = Some (gn_check_source g) /\ ct_check_key (pt_test t) = Some (gn_check_key g) /\ ct_system_id (pt_test t) = Some sys.
Proof.
  intros Hw. unfold upsert_generated_test. destruct (List.find _ _) as [u|] eqn:Ef.
  - apply find_some in Ef as [Hin%list_elem_of_In Hk]. unfold is_generated_for in Hk. rewrite andb_true_iff, !bool_decide_eq_true in Hk. destruct Hk as [Hs Hk].
    assert (Ha : authored (refreshed g u) = authored u) by done. assert (Hu : authored u ∈ all_authored s) by (by apply list_elem_of_fmap_2).
    assert (Es : all_authored (store_test (refreshed g u) s) = all_authored s) by (apply store_authored; [done|by rewrite Ha]).
    split_and!; try done; [|by rewrite Es, Ha]. split; [|exists []; by rewrite app_nil_r|exists []; by rewrite app_nil_r|done].
    destruct Hw as [Ht Hc Hd]. split; [|done|done]. by rewrite Es.
  - set (t := new_test _ _ _ _). set (s' := {| sc_tests := _ |}).
    assert (Es : all_authored s' = (all_authored s ++ [authored t])%list) by (unfold all_authored, s'; cbn [sc_tests]; by rewrite map_app).
    assert (Hnone : forall u, u ∈ sc_tests s -> ct_system_id (pt_test u) = Some sys -> ct_check_key (pt_test u) = Some (gn_check_key g) -> False).
    { intros u Hu H1 H2. apply list_elem_of_In in Hu. pose proof (find_none _ _ Ef u Hu) as H. unfold is_generated_for in H. by rewrite !bool_decide_eq_true_2 in H. }
    split_and!; try done; [|rewrite Es; apply elem_of_app; right; by left].
    split; [|by exists [authored t]; rewrite Es; split; [|repeat constructor]|exists []; by rewrite app_nil_r|done].
    destruct Hw as [[H1 H2 H3] Hc Hd]. split; [|done|done]. rewrite Es. split.
    + rewrite map_app. apply NoDup_snoc; [done|]. intros (a & E & Ha)%list_elem_of_fmap. specialize (H2 a Ha). cbn in E. lia.
    + intros a [Ha| ->%list_elem_of_singleton]%elem_of_app; cbn; [specialize (H2 a Ha)|]; lia.
    + assert (Hx : forall a, a ∈ all_authored s -> au_system_id a = Some sys -> au_check_key a = Some (gn_check_key g) -> False).
      { intros a (u & -> & Hu)%list_elem_of_fmap. by apply Hnone. }
      intros a b [Ha| ->%list_elem_of_singleton]%elem_of_app [Hb| ->%list_elem_of_singleton]%elem_of_app E1 E2 E3; [by apply H3| | |done]; cbn in E1, E2.
      * by destruct (Hx a Ha).
      * by destruct (Hx b Hb).
Qed.

Lemma record_result_evidence t st dtl ref actor ev fl exp resources opn now db : wf_db db -> st ∈ VALIDATION_STATUSES ->
  exists r db', record_result t st dtl ref actor ev fl exp resources opn now db = Ok (r, set_last st now t, db') /\ wf_db db' /\
    db_results db' = (db_results db ++ [r])%list /\ ctr_test_id r = ct_id t /\ ctr_status r = st /\ ctr_evidence_ref r = ref /\
    (alerts st (coverage_of (set_last st now t) st resources now db) opn = false -> recovers st (ct_last_status t) = false -> same_work db' db).
Proof.
  intros Hwf Hst. pose proof (record_result_cases t st dtl ref actor ev fl exp resources opn now db Hst) as H. cbn [recorded] in H.
  destruct (record_result _ _ _ _ _ _ _ _ _ _ _ _) as [[[r t'] db']|e]; [|done]. destruct H as (-> & -> & db2 & Hc & (E1 & _) & Ew & _ & Hwf').
  match type of Hc with consequences ?a ?b ?c ?d ?e ?f ?g ?h ?i = _ => pose proof (consequences_spec a b c d e f g h i) as Hs; rewrite Hc in Hs; set (db1 := i) in * end.
  destruct Hs as ((E2 & _) & _ & Hw & Hq & _). eexists _, db'. split; [reflexivity|]. split; [apply Hwf', Hw; by apply (wf_db_ext _ db)|].
  split; [by rewrite E1, E2|]. split_and!; try done. intros Ha Hb. destruct (Hq Ha Hb) as [[Et Ep] _]. destruct Ew as [Et' Ep']. split; [by rewrite Et', Et|by rewrite Ep', Ep].
Qed.

(** Recording on a test of the table. *)
Lemma record_spec t st dtl ref actor ev fl exp resources opn now s : wf_scans s -> authored t ∈ all_authored s -> st ∈ VALIDATION_STATUSES ->
  exists s' r, record t st dtl ref actor ev fl exp resources opn now s = Ok s' /\ wf_scans s' /\ same_tables s s' /\ sc_next s' = sc_next s /\
    all_authored s' = all_authored s /\ db_results (sc_db s') = (db_results (sc_db s) ++ [r])%list /\ ctr_test_id r = ct_id (pt_test t) /\
    ctr_status r = st /\ ctr_evidence_ref r = ref /\
    (alerts st (coverage_of (set_last st now (pt_test t)) st resources now (sc_db s)) opn = false -> recovers st (ct_last_status (pt_test t)) = false ->
     same_work (sc_db s') (sc_db s)).
Proof.
  intros Hw Hin Hst. destruct (record_result_evidence (pt_test t) st dtl ref actor ev fl exp resources opn now _ (ws_db _ Hw) Hst)
    as (r & db' & E & Hd & Er & H1 & H2 & H3 & H4).
  unfold record. rewrite E. cbn [res_bind fst snd]. set (t' := {| pt_test := _ |}). assert (Ha : authored t' = authored t) by done.
  assert (Es : all_authored (store_test t' (set_db db' s)) = all_authored s) by (apply (store_authored (set_db db' s)); [by destruct Hw as [? ? _]; split|by rewrite Ha]).
  eexists _, r. split; [reflexivity|]. split_and!; try done. destruct Hw as [Ht Hc _]. split; [|done|done]. by rewrite Es.
Qed.
Lemma record_scanned t st dtl ref actor ev fl exp resources opn now s : wf_scans s -> authored t ∈ all_authored s -> st ∈ VALIDATION_STATUSES ->
  ct_active (pt_test t) = true -> exists s', record t st dtl ref actor ev fl exp resources opn now s = Ok s' /\ scanned s s'.
Proof.
  intros Hw Hin Hst Ha. destruct (record_spec t st dtl ref actor ev fl exp resources opn now s Hw Hin Hst) as (s' & r & E & Hw' & Hs & _ & Et & Er & H1 & _).
  exists s'. split; [done|]. split; [done|exists []; by rewrite Et, app_nil_r| |done]. exists [r]. split; [done|]. apply Forall_singleton.
  exists (authored t). rewrite Et. by split_and!.
Qed.

Definition attributable (resolved : list ResolvedCheck) : Prop := forall rc, rc ∈ resolved -> pc_control_ids (rc_check rc) <> [].
Lemma by_check_key_elem resolved k rc : by_check_key resolved k = Some rc -> rc ∈ resolved /\ pc_key (rc_check rc) = k.
Proof. intros [H E%bool_decide_eq_true]%find_some. split; [|done]. by apply list_elem_of_In, in_rev. Qed.
Lemma by_check_key_none resolved k : by_check_key resolved k = None <-> k ∉ map (fun rc => pc_key (rc_check rc)) resolved.
Proof.
  split.
  - intros E (rc & -> & Hin)%list_elem_of_fmap. apply list_elem_of_In in Hin. apply in_rev in Hin.
    pose proof (find_none _ _ E _ Hin) as H. cbn in H. by rewrite bool_decide_eq_true_2 in H.
  - intros Hk. destruct (by_check_key resolved k) as [rc|] eqn:E; [|done]. apply by_check_key_elem in E as [H <-]. destruct Hk. exact (list_elem_of_fmap_2 (fun rc => pc_key (rc_check rc)) _ _ H).
Qed.

(** What one outcome adds to the report. *)
Definition accounted (p p' : Progress) (n : nat) : Prop :=
  (length (pg_results p') + length (pg_skipped p') = length (pg_results p) + length (pg_skipped p) + n)%nat.
Lemma scan_outcome_spec org sys key actor now resolved o p : wf_scans (pg_state p) -> attributable resolved -> co_verdict o ∈ VALIDATION_STATUSES ->
  exists p', scan_outcome org sys key actor now resolved o p = Ok p' /\ scanned (pg_state p) (pg_state p') /\
    accounted p p' (if by_check_key resolved (co_check_key o) then 1 else 0)%nat.
Proof.
  intros Hw Hatt Hv. unfold scan_outcome, accounted. destruct (by_check_key resolved (co_check_key o)) as [rc|] eqn:Eb.
  2:{ eexists. split; [reflexivity|]. split; [by apply scans_refl|]. cbn. lia. }
  apply by_check_key_elem in Eb as [Hin _]. destruct (capability_total org (pc_capability_key (rc_check rc)) _ Hw) as (cap & ->). cbn [res_bind].
  specialize (Hatt rc Hin). unfold first_control. destruct (pc_control_ids (rc_check rc)) as [|k ks] eqn:Ek; [done|]. cbn [res_bind].
  match goal with |- context [upsert_generated_test org sys ?g ?s] => pose proof (upsert_spec org sys g s Hw) as H; destruct (upsert_generated_test org sys g s) as [t s1] end.
  destruct H as (Hs & Ht & Hd & _). destruct (ct_active (pt_test t)) eqn:Ea; cbn [negb].
  - destruct (record_scanned t (co_verdict o) (Some (scan_detail (rc_check rc) o)) None actor (evaluated o) (failing o) (Some (co_expected o)) (co_findings o) true now s1) as (s2 & E & Hs2);
      [by destruct Hs|done|done|done|]. rewrite E. cbn [res_bind]. eexists. split; [reflexivity|]. cbn. split; [by eapply scans_trans|]. rewrite length_app. cbn. lia.
  - eexists. split; [reflexivity|]. cbn. split; [done|]. rewrite length_app. cbn. lia.
Qed.
Lemma scan_outcomes_spec org sys key actor now resolved os : attributable resolved -> (forall o, o ∈ os -> co_verdict o ∈ VALIDATION_STATUSES) ->
  forall p, wf_scans (pg_state p) -> exists p', scan_outcomes (scan_outcome org sys key actor now resolved) os p = Ok p' /\ scanned (pg_state p) (pg_state p') /\
    accounted p p' (length (List.filter (fun o => if by_check_key resolved (co_check_key o) then true else false) os)).
Proof.
  intros Hatt. induction os as [|o os IH]; intros Hv p Hw; cbn [scan_outcomes List.filter].
  - exists p. split; [done|]. split; [by apply scans_refl|]. unfold accounted. cbn. lia.
  - destruct (scan_outcome_spec org sys key actor now resolved o p Hw Hatt) as (p1 & E & Hs & Ha); [apply Hv; by left|]. rewrite E. cbn [res_bind].
    destruct (IH (fun x Hx => Hv x (list_elem_of_further _ _ _ Hx)) p1) as (p2 & E2 & Hs2 & Ha2); [by destruct Hs|]. exists p2. split; [done|].
    split; [by eapply scans_trans|]. unfold accounted in *. destruct (by_check_key resolved (co_check_key o)); cbn; lia.
Qed.

(** Outcomes of expected checks and checks with an outcome correspond. *)
Lemma answered_count resolved os : NoDup (map (fun rc => pc_key (rc_check rc)) resolved) -> NoDup (map co_check_key os) ->
  length (List.filter (fun o => if by_check_key resolved (co_check_key o) then true else false) os) =
  length (List.filter (fun rc => mem (pc_key (rc_check rc)) (map co_check_key os)) resolved).
Proof.
  intros Hr Ho. set (f := fun o : CheckOutcome => _). set (g := fun rc : ResolvedCheck => _).
  rewrite <-(length_map co_check_key (List.filter f os)), <-(length_map (fun rc => pc_key (rc_check rc)) (List.filter g resolved)).
  assert (Hsub : forall {A} (h : A -> string) p l, NoDup (map h l) -> NoDup (map h (List.filter p l))).
  { intros A h q l Hn. eapply sublist_NoDup; [exact Hn|]. apply (fmap_sublist h), bool_filter_sublist. }
  apply Permutation_length, NoDup_Permutation; [by apply Hsub|by apply Hsub|]. intros k. rewrite !list_elem_of_fmap. split.
  - intros (o & -> & Hin). rewrite list_elem_of_In, filter_In, <-list_elem_of_In in Hin. destruct Hin as [Hin Hf]. unfold f in Hf.
    destruct (by_check_key resolved (co_check_key o)) as [rc|] eqn:E; [|done]. apply by_check_key_elem in E as [Hrc Ek]. exists rc. split; [done|].
    rewrite list_elem_of_In, filter_In, <-list_elem_of_In. split; [done|]. unfold g. apply mem_true. rewrite Ek. by apply list_elem_of_fmap_2.
  - intros (rc & -> & Hin). rewrite list_elem_of_In, filter_In, <-list_elem_of_In in Hin. destruct Hin as [Hin Hg]. unfold g in Hg.
    apply mem_true, list_elem_of_fmap in Hg as (o & Ek & Hin'). exists o. split; [done|]. rewrite list_elem_of_In, filter_In, <-list_elem_of_In. split; [done|].
    unfold f. rewrite <-Ek. destruct (by_check_key resolved _) eqn:E; [done|]. apply by_check_key_none in E. destruct E. exact (list_elem_of_fmap_2 (fun rc => pc_key (rc_check rc)) _ _ Hin).
Qed.

Lemma filter_partition {A} (p : A -> bool) l : (length (List.filter p l) + length (List.filter (fun x => negb (p x)) l))%nat = length l.
Proof. induction l as [|x l IH]; cbn; [done|]. destruct (p x); cbn; lia. Qed.

(** ** Properties *)

(** C13: a scan leaves a record that adds up and keeps what people decided. On sound tables,
    for a known system whose resolved checks all have a control, and a connector that
    answers with verdicts of the vocabulary, the scan succeeds; the tables stay sound, with
    one test per check and system; every existing test keeps its name, frequency,
    assertion, activity and provenance, and tests are added only for checks, as generated
    and active; every result recorded is of an active test, so a test a person switched off
    gets none. The checks expected are the checks run and the checks skipped whenever no
    check is resolved or reported twice, also when the connector is not configured; then
    nothing at all is written. *)
Theorem scan_adds_up_and_keeps_decisions resolved scan system_id connector_key actor check_keys now s os : wf_scans s ->
  (exists org, (system_id, org) ∈ sc_systems s) -> attributable resolved ->
  (forall f, scan = Some f -> f (selected check_keys resolved) = Ok os /\ forall o, o ∈ os -> co_verdict o ∈ VALIDATION_STATUSES) ->
  exists report s', scan_for_system (Ok resolved) scan system_id connector_key actor check_keys now s = Ok (report, s') /\
    wf_scans s' /\ tests_grow s s' /\ results_grow s s' /\ (scan = None -> s' = s) /\
    (NoDup (map (fun rc => pc_key (rc_check rc)) resolved) -> NoDup (map co_check_key os) ->
     sr_checks_expected report = checks_run report + count (sr_skipped report)).
Proof.
  intros Hw [org Hsys] Hatt Hscan. unfold scan_for_system. destruct (List.find _ _) as [[i org']|] eqn:Ef.
  2:{ apply list_elem_of_In in Hsys. pose proof (find_none _ _ Ef _ Hsys) as H. cbn in H. by rewrite Z.eqb_refl in H. }
  cbn [res_bind]. set (rs := selected check_keys resolved).
  assert (Hsub : rs `sublist_of` resolved) by (unfold rs, selected; destruct check_keys; [apply bool_filter_sublist|done]).
  assert (Hatt' : attributable rs) by (intros rc Hrc; apply Hatt; by eapply elem_of_sublist).
  destruct scan as [f|].
  - destruct (Hscan f eq_refl) as [Eos Hv]. fold rs in Eos. rewrite Eos. cbn [res_bind].
    destruct (scan_outcomes_spec org' system_id connector_key actor now rs os Hatt' Hv {| pg_results := []; pg_skipped := []; pg_unexpected := []; pg_state := s |} Hw)
      as (p & E & [Hw' Ht Hr _] & Ha).
    rewrite E. cbn [res_bind]. eexists _, _. split; [reflexivity|]. split_and!; try done. intros Hn Ho. unfold checks_run, count, accounted in *.
    cbn [sr_checks_expected sr_results sr_skipped pg_results pg_skipped length] in *. rewrite length_app, length_map.
    rewrite (answered_count rs os) in Ha; [|eapply sublist_NoDup; [exact Hn|by apply (fmap_sublist (fun rc => pc_key (rc_check rc)))]|done].
    pose proof (filter_partition (fun rc => mem (pc_key (rc_check rc)) (map co_check_key os)) rs). cbn beta in *. lia.
  - eexists _, _. split; [reflexivity|]. split_and!; try done; [apply tests_grow_refl|exists []; by rewrite app_nil_r|].
    intros _ _. unfold checks_run, count. cbn. by rewrite length_map.
Qed.

Definition mfa_rc : ResolvedCheck := match platform "msgraph" with rc :: _ => rc | [] => {| rc_check := MFA_REGISTERED; rc_endpoint := ""; rc_source := ""; rc_evaluator_key := None; rc_parameters := None; rc_spec := None |} end.
Definition legacy_rc : ResolvedCheck := {| rc_check := LEGACY_AUTH_BLOCKED; rc_endpoint := ""; rc_source := "platform"; rc_evaluator_key := None; rc_parameters := None; rc_spec := None |}.
Definition mfa_outcome (v : string) : CheckOutcome :=
  {| co_check_key := pc_key MFA_REGISTERED; co_verdict := v; co_expected := pc_expected MFA_REGISTERED;
     co_findings := [finding "u1" "entra_user" v "observed" []] |}.
Definition quiet_db : Db :=
  {| db_seq := 1; db_waivers := []; db_connectors := []; db_captures := []; db_controls := []; db_webhooks := []; db_notify_url := ""; db_notify_min_severity := "critical";
     db_results := []; db_resources := []; db_tasks := []; db_poams := []; db_notifications := []; db_events := []; db_outbox := [] |}.
Lemma quiet_db_wf : wf_db quiet_db.
Proof. split; intros; unfold at_most_one; simpl; lia. Qed.
(** A test a person renamed, and one they switched off. *)
Definition owned_test (i : Z) (c : PostureCheck) (active : bool) : PostureTest :=
  let t := new_test i (Some 7) 3 {| gn_check_key := pc_key c; gn_check_source := "platform"; gn_control_id := "IA-2"; gn_control_ids := ["IA-2"]; gn_title := "Ours";
                                    gn_expected := "old"; gn_capability_id := None; gn_connector_key := "msgraph" |} in
  let k := pt_test t in
  {| pt_test := {| ct_id := ct_id k; ct_organization_id := ct_organization_id k; ct_system_id := ct_system_id k; ct_control_id := ct_control_id k; ct_name := ct_name k;
                   ct_method := ct_method k; ct_connector_type := ct_connector_type k; ct_frequency := Some "weekly"; ct_expected := ct_expected k;
                   ct_assertion := ct_assertion k; ct_active := active; ct_source := ct_source k; ct_check_key := ct_check_key k; ct_check_source := ct_check_source k;
                   ct_last_status := ct_last_status k; ct_last_tested_at := ct_last_tested_at k |};
     pt_control_ids := pt_control_ids t; pt_description := pt_description t; pt_capability_id := pt_capability_id t |}.
Definition before_scan (active : bool) : Scans :=
  {| sc_tests := [owned_test 1 MFA_REGISTERED active]; sc_next := 2; sc_systems := [(3, Some 7)]; sc_capabilities := []; sc_db := quiet_db |}.
Lemma before_scan_wf active : wf_scans (before_scan active).
Proof.
  split; [split|intros; cbn; lia|apply quiet_db_wf].
  - apply NoDup_singleton.
  - intros a ->%list_elem_of_singleton. cbn. lia.
  - by intros a b ->%list_elem_of_singleton ->%list_elem_of_singleton.
Qed.
Lemma scan_adds_up_and_keeps_decisions_witness : exists report s',
  scan_for_system (Ok [mfa_rc; legacy_rc]) (Some (fun _ => Ok [mfa_outcome "fail"])) 3 "msgraph" "scan" None 0 (before_scan true) = Ok (report, s') /\
  wf_scans s' /\ sr_checks_expected report = checks_run report + count (sr_skipped report).
Proof.
  destruct (scan_adds_up_and_keeps_decisions [mfa_rc; legacy_rc] (Some (fun _ => Ok [mfa_outcome "fail"])) 3 "msgraph" "scan" None 0 (before_scan true) [mfa_outcome "fail"])
    as (report & s' & E & Hw & _ & _ & _ & Hs).
  - apply before_scan_wf.
  - exists (Some 7). by left.
  - intros rc Hrc. apply list_elem_of_In in Hrc. destruct Hrc as [<-|[<-|[]]]; by vm_compute.
  - intros f [= <-]. split; [done|]. intros o ->%list_elem_of_singleton. apply mem_true. reflexivity.
  - exists report, s'. split; [exact E|]. split; [exact Hw|]. apply Hs; apply (bool_decide_unpack _); vm_compute; exact I.
Defined.
(** What is written: a failure of the renamed test, or nothing of one switched off. *)
Example scans_compared :
  map (fun active => match scan_for_system (Ok [mfa_rc; legacy_rc]) (Some (fun _ => Ok [mfa_outcome "fail"])) 3 "msgraph" "scan" None 0 (before_scan active) with
                     | Ok (r, s) => Some (checks_run r, map sk_reason (sr_skipped r), map (fun t => (ct_name (pt_test t), ct_last_status (pt_test t))) (sc_tests s),
                                          map ctr_status (db_results (sc_db s)))
                     | Err _ => None end) [true; false] =
  [Some (1, ["connector returned no outcome for this check"], [("Ours", Some "fail")], ["fail"]);
   Some (0, ["generated control test is inactive"; "connector returned no outcome for this check"], [("Ours", None)], [])].
Proof. vm_compute. reflexivity. Qed.

(** *** Belief *)

Definition run_at_desc (a b : Evidence) : Prop := evd_run_at b <= evd_run_at a.
Lemma least_tier rows m : let best := fold_left (fun m x => Z.min m (trust_tier (evd_test x))) rows m in
  best <= m /\ (forall x, x ∈ rows -> best <= trust_tier (evd_test x)) /\ (best = m \/ exists x, x ∈ rows /\ trust_tier (evd_test x) = best).
Proof.
  revert m. induction rows as [|x rows IH]; intros m; cbn [fold_left].
  - split_and!; [lia|by intros ? ?%not_elem_of_nil|by left].
  - destruct (IH (Z.min m (trust_tier (evd_test x)))) as (H1 & H2 & H3). cbv zeta. set (best := fold_left _ rows _) in *. split_and!; [lia| |].
    + intros y [->|Hy]%elem_of_cons; [lia|by apply H2].
    + destruct H3 as [H3|(y & Hy & E)]; [|right; exists y; split; [by right|done]].
      destruct (Z.min_spec m (trust_tier (evd_test x))) as [[_ E]|[_ E]]; [left; lia|right; exists x; split; [by left|lia]].
Qed.
(** The first row a test selects in descending order is the newest it selects. *)
Lemma find_newest (p : Evidence -> bool) l x : StronglySorted run_at_desc l -> List.find p l = Some x ->
  x ∈ l /\ p x = true /\ forall y, y ∈ l -> p y = true -> evd_run_at y <= evd_run_at x.
Proof.
  induction 1 as [|a l Hl IH Ha]; cbn [List.find]; [done|]. rewrite Forall_forall in Ha. destruct (p a) eqn:Ep.
  - intros [= <-]. split_and!; [by left|done|]. intros y [->|Hy]%elem_of_cons _; [done|by apply Ha].
  - intros (H1 & H2 & H3)%IH. split_and!; [by right|done|]. intros y [->|Hy]%elem_of_cons Hp; [congruence|by apply H3].
Qed.

(** C14: the verdict believed for a control is the most recent of the most trusted. Over the
    fresh results of the system's generated tests for it, nothing is believed exactly when
    there are none; otherwise the verdict is that of a result whose test has the least tier,
    and no later one of that tier exists. So a fresh verdict of the platform's own check is
    never displaced by a provider's attestation, a crosswalk or a tenant's pack, however
    recent: a pack's source is in the last tier whatever its name. *)
Theorem most_trusted_then_most_recent newest_first system_id control_id now table :
  (forall l, newest_first l ≡ₚ l /\ StronglySorted run_at_desc (newest_first l)) ->
  let b := effective_verdict newest_first system_id control_id now table in
  let fresh e := e ∈ table /\ fresh_for system_id control_id now e = true in
  (bl_verdict b = None <-> forall e, ~ fresh e) /\
  (forall v, bl_verdict b = Some v -> exists e, fresh e /\ v = ctr_status (evd_result e) /\ bl_test_id b = Some (ct_id (evd_test e)) /\
     forall x, fresh x -> trust_tier (evd_test e) <= trust_tier (evd_test x) /\
       (trust_tier (evd_test x) = trust_tier (evd_test e) -> evd_run_at x <= evd_run_at e)) /\
  (forall t k, ct_check_source t = Some ("pack:" +:+ k) -> trust_tier t = TIER_PACK).
Proof.
  intros Hs. cbv zeta. split_and!.
  3:{ intros t k E. unfold trust_tier. rewrite E. by rewrite !bool_decide_eq_false_2 by done. }
  all: destruct (Hs (List.filter (fresh_for system_id control_id now) table)) as [Hp Hsort]; unfold effective_verdict;
    assert (Hin : forall e, e ∈ newest_first (List.filter (fresh_for system_id control_id now) table) <-> e ∈ table /\ fresh_for system_id control_id now e = true)
      by (intros e; rewrite Hp, !list_elem_of_In; apply filter_In);
    set (rows := newest_first _) in *; clearbody rows.
  all: destruct rows as [|e rows]; [|destruct (least_tier rows (trust_tier (evd_test e))) as (H1 & H2 & H3); cbv zeta in H1, H2, H3; set (best := fold_left _ rows _) in *;
    assert (Hb : forall x, x ∈ e :: rows -> best <= trust_tier (evd_test x)) by (intros x [->|Hx]%elem_of_cons; [lia|by apply H2]);
    assert (Hf : exists x, x ∈ e :: rows /\ (trust_tier (evd_test x) =? best) = true)
      by (destruct H3 as [H3|(x & Hx & Ex)]; [exists e|exists x]; (split; [set_solver|]); apply Z.eqb_eq; lia);
    destruct (List.find _ _) as [x|] eqn:Ef; [|exfalso; destruct Hf as (x & Hx & Ex); apply list_elem_of_In in Hx; pose proof (find_none _ _ Ef _ Hx) as Hn; cbn beta in Hn; congruence]].
  - cbn. split; [|done]. intros _ x Hx. apply Hin in Hx. by apply not_elem_of_nil in Hx.
  - cbn [bl_verdict]. split; [done|]. intros Hno. destruct (Hno e). apply Hin. by left.
  - done.
  - cbn [bl_verdict bl_test_id]. intros v [= <-]. destruct (find_newest _ _ _ Hsort Ef) as (Hx & Ht%Z.eqb_eq & Hnew). exists x.
    split; [by apply Hin|]. split_and!; [done|done|]. intros y Hy%Hin. split; [rewrite Ht; by apply Hb|]. intros E. apply Hnew; [done|]. apply Z.eqb_eq. lia.
Qed.

Definition evidence_of (source : option string) (run_at : Z) (status : string) : Evidence :=
  {| evd_result := {| ctr_id := run_at; ctr_test_id := 1; ctr_status := status; ctr_detail := None; ctr_evidence_ref := None; ctr_evaluated := 1; ctr_failing := 0; ctr_waived := 0;
                      ctr_expected := None |};
     evd_run_at := run_at;
     evd_test := {| ct_id := run_at; ct_organization_id := Some 7; ct_system_id := Some 3; ct_control_id := "AC-2"; ct_name := ""; ct_method := "connector"; ct_connector_type := None;
                    ct_frequency := None; ct_expected := None; ct_assertion := None; ct_active := true; ct_source := "generated"; ct_check_key := Some "k"; ct_check_source := source;
                    ct_last_status := None; ct_last_tested_at := None |} |}.
Definition two_sources : list Evidence := [evidence_of (Some "pack:lenient") 20 "pass"; evidence_of (Some "platform") 10 "fail"].
#[export] Instance run_at_desc_dec a b : Decision (run_at_desc a b).
Proof. unfold run_at_desc. apply _. Defined.
Definition desc_by_run (l : list Evidence) : list Evidence := merge_sort run_at_desc l.
Lemma desc_by_run_ok l : desc_by_run l ≡ₚ l /\ StronglySorted run_at_desc (desc_by_run l).
Proof.
  split; [apply merge_sort_Permutation|apply StronglySorted_merge_sort].
  - intros a b c. unfold run_at_desc. lia.
  - intros a b. unfold run_at_desc. lia.
Qed.
Lemma most_trusted_then_most_recent_witness : exists e, e ∈ two_sources /\ ctr_status (evd_result e) = "fail" /\
  bl_verdict (effective_verdict desc_by_run 3 "AC-2" 30 two_sources) = Some "fail" /\
  forall x, x ∈ two_sources -> fresh_for 3 "AC-2" 30 x = true -> trust_tier (evd_test e) <= trust_tier (evd_test x).
Proof.
  destruct (most_trusted_then_most_recent desc_by_run 3 "AC-2" 30 two_sources desc_by_run_ok) as (_ & H & _).
  destruct (H "fail" ltac:(vm_compute; reflexivity)) as (e & [He _] & Ev & _ & Hx). exists e. split; [exact He|]. split; [by rewrite Ev|]. split; [vm_compute; reflexivity|].
  intros x H1 H2. by apply Hx.
Defined.
