(* ===== verification/Cr26.v ===== *)
(** The store of FedRAMP CR26 documents ([src/src/ccf/cr26/store.py],
    [validation.py] and [models_cr26.py]) and the tests of authored values its
    clients share ([is_blank] and [has_content] of [src/src/ccf/cr26/ver.py]).

    [DocStore] is what the store promises the seeders: a write replaces the
    document of its system, kind and key and no other. They are proved against
    it, and [store_instance] shows that [put_document] keeps the promise.

    The JSON Schema library is a parameter: the errors it finds, in the order of
    their paths, or the exception it ends in. *)

From S2P Require Export AuditChain PyText.

Local Open Scope string_scope.
Local Open Scope Z_scope.

(** A JSON object. *)
Notation json_obj := (list (string * pyval)).

(** ** Authored values *)

Definition is_blank (v : pyval) : bool :=
  match v with VStr s => negb (str_truthy (strip s)) | _ => true end.

Definition has_content (v : pyval) : bool :=
  match v with VStr _ => negb (is_blank v) | VNone => false | _ => true end.

(** [str(value).strip()] of a value that is not blank. *)
Definition stripped (v : pyval) : string := match v with VStr s => strip s | _ => "" end.

(** ** Kinds and versions *)

Definition CR26_KINDS : list (string * (string * string)) :=
  [("common", ("fedramp-common-definitions-schema-2026-06-24.json", "-"));
   ("cpo", ("fedramp-certification-package-overview-schema-2026-06-24.json", "FRC-CSO-PKG"));
   ("sdr", ("fedramp-security-decision-record-schema-2026-06-24.json", "SDR-CSO-FRR"));
   ("ocr", ("fedramp-ongoing-certification-report-schema-2026-06-24.json", "CCM-OCR-AVL"));
   ("incident", ("fedramp-incident-report-schema-2026-06-24.json", "IEC-CSO-IIR"));
   ("scn", ("fedramp-significant-change-notifications-schema-2026-06-24.json", "SCN-CSO-INF"));
   ("vdr", ("fedramp-vulnerability-detail-report-schema-2026-06-24.json", "VER-RPT-VDT"));
   ("avi", ("fedramp-accepted-vulnerability-info-schema-2026-06-24.json", "VER-RPT-AVI"));
   ("ver_history", ("fedramp-historical-ver-activity-schema-2026-06-24.json", "-"));
   ("advisor", ("fedramp-advisor-information-schema-2026-06-24.json", "MKT-CAS-WEB"));
   ("assessor", ("fedramp-assessor-information-schema-2026-06-24.json", "MKT-IAS-WEB"))].

Definition DELIVERABLE_KINDS : list string :=
  filter (fun k => k <> "common") (dkeys CR26_KINDS).

(** [schemas/MANIFEST.json]: the ruleset and each file's version. *)
Definition RULESET_VERSION : string := "2026-06-24".
Definition MANIFEST_FILES : list (string * option string) :=
  [("fedramp-accepted-vulnerability-info-schema-2026-06-24.json", Some "0.1.1");
   ("fedramp-advisor-information-schema-2026-06-24.json", Some "1.0.1");
   ("fedramp-assessor-information-schema-2026-06-24.json", Some "1.0.1");
   ("fedramp-certification-package-overview-schema-2026-06-24.json", Some "0.1.4");
   ("fedramp-common-definitions-schema-2026-06-24.json", Some "0.3.0");
   ("fedramp-historical-ver-activity-schema-2026-06-24.json", Some "0.1.1");
   ("fedramp-incident-report-schema-2026-06-24.json", Some "0.2.0");
   ("fedramp-ongoing-certification-report-schema-2026-06-24.json", Some "0.2.0");
   ("fedramp-security-decision-record-schema-2026-06-24.json", Some "1.1.1");
   ("fedramp-significant-change-notifications-schema-2026-06-24.json", Some "0.1.2");
   ("fedramp-vulnerability-detail-report-schema-2026-06-24.json", Some "0.1.1")].

(** The vendored file of a kind, when it is on disk. *)
Definition schema_path (kind : string) : option string :=
  match dget kind CR26_KINDS with
  | None => None
  | Some (file, _) => if dhas file MANIFEST_FILES then Some file else None
  end.

Definition versions (kind : string) : res (string * option string) :=
  match dget kind CR26_KINDS with
  | None => Err (KeyError (repr_str kind))
  | Some (file, _) =>
      match dget file MANIFEST_FILES with
      | None => Err (KeyError (repr_str file))
      | Some v => Ok (RULESET_VERSION, v)
      end
  end.

Definition DOCUMENT_KEY_MAX_LENGTH : Z := 128.

(** ** Tables *)

Record CrSystem := {
  cs_id : Z; cs_organization_id : Z; cs_name : string; cs_description : option string; cs_deleted_at : option Z }.

Record Cr26Document := {
  dc_id : Z;
  dc_organization_id : option Z;
  dc_system_id : Z;
  dc_kind : string;
  dc_document_key : option string;
  dc_document : json_obj;
  dc_ruleset_version : string;
  dc_schema_version : option string;
  dc_is_valid : bool;
  dc_validation_errors : list string;
  dc_updated_by : option string }.

(** The tables, and the events handed to the audit trail, in order. *)
Record CrDb := {
  cr_systems : list CrSystem;
  cr_documents : list Cr26Document;
  cr_next_id : Z;
  cr_events : list Event }.

Definition system_at (db : CrDb) (system_id : Z) : option CrSystem :=
  List.find (fun s => cs_id s =? system_id) (cr_systems db).

Definition live_system (db : CrDb) (system_id : Z) : option CrSystem :=
  match system_at db system_id with
  | Some s => match cs_deleted_at s with None => Some s | Some _ => None end
  | None => None
  end.

(** [WHERE system_id = ... AND kind = ... AND document_key = ...], where an absent
    key matches an absent key. *)
Definition is_at (system_id : Z) (kind : string) (document_key : option string) (d : Cr26Document) : bool :=
  bool_decide (dc_system_id d = system_id) && bool_decide (dc_kind d = kind) &&
  bool_decide (dc_document_key d = document_key).

Definition row_at (db : CrDb) (system_id : Z) (kind : string) (document_key : option string) : option Cr26Document :=
  List.find (is_at system_id kind document_key) (cr_documents db).

Fixpoint update_first {A} (p : A -> bool) (f : A -> A) (l : list A) : list A :=
  match l with [] => [] | x :: l' => if p x then f x :: l' else x :: update_first p f l' end.

(** ** Validation *)

Record ValidationReport := { vp_kind : string; vp_mode : string; vp_ok : bool; vp_errors : list string }.

Section store.
Context (jsonschema_available : bool).
Context (schema_errors : string -> json_obj -> res (list (list string * string))).

Definition error_line (e : list string * string) : string := str_or (join "/" e.1) "<root>" +:+ ": " +:+ e.2.

Definition validate_document (doc : pyval) (kind : string) : ValidationReport :=
  let none errors := {| vp_kind := kind; vp_mode := "none"; vp_ok := false; vp_errors := errors |} in
  if negb (dhas kind CR26_KINDS) then none ["unknown CR26 document kind: " +:+ repr_str kind] else
  match doc with
  | VDict d =>
      match schema_path kind with
      | None => none ["vendored schema missing for kind " +:+ repr_str kind]
      | Some _ =>
          if negb jsonschema_available then none ["jsonschema is not installed"] else
          match schema_errors kind d with
          | Err e => none ["validation failed unexpectedly: " +:+ exn_msg e]
          | Ok es =>
              {| vp_kind := kind; vp_mode := "official";
                 vp_ok := match map error_line es with [] => true | _ => false end; vp_errors := map error_line es |}
          end
      end
  | _ => none ["document must be a JSON object"]
  end.

(** ** Writing *)

Definition write_row (organization_id : Z) (document : json_obj) (ver : string * option string)
    (report : ValidationReport) (updated_by : option string) (row : Cr26Document) : Cr26Document :=
  {| dc_id := dc_id row; dc_organization_id := Some organization_id; dc_system_id := dc_system_id row;
     dc_kind := dc_kind row; dc_document_key := dc_document_key row; dc_document := document;
     dc_ruleset_version := ver.1; dc_schema_version := ver.2; dc_is_valid := vp_ok report;
     dc_validation_errors := vp_errors report; dc_updated_by := updated_by |}.

Definition new_row (id system_id : Z) (kind : string) (document_key : option string) : Cr26Document :=
  {| dc_id := id; dc_organization_id := None; dc_system_id := system_id; dc_kind := kind;
     dc_document_key := document_key; dc_document := []; dc_ruleset_version := ""; dc_schema_version := None;
     dc_is_valid := false; dc_validation_errors := []; dc_updated_by := None |}.

Definition put_diff (system_id : Z) (kind : string) (ok : bool) (updated_by document_key : option string) : json_obj :=
  ([("system_id", VInt system_id); ("kind", VStr kind); ("is_valid", VBool ok); ("updated_by", opt_val updated_by)] ++
   match document_key with Some k => [("document_instance", VStr k)] | None => [] end)%list.

Definition put_document (system_id : Z) (kind : string) (document : json_obj) (document_key updated_by : option string)
    (db : CrDb) : res (Cr26Document * CrDb) :=
  if negb (mem kind DELIVERABLE_KINDS) then
    Err (ValueError (if dhas kind CR26_KINDS
      then "kind " +:+ repr_str kind +:+ " is not a filable CR26 deliverable -- it is the shared common-definitions schema that the other ten schemas $ref, not a document any system files"
      else "unknown CR26 document kind: " +:+ repr_str kind))
  else match schema_path kind with
  | None => Err (Exn "RuntimeError" ("CR26 schema packaging error: vendored schema missing for kind " +:+ repr_str kind))
  | Some _ =>
  match live_system db system_id with
  | None => Err (ValueError ("unknown system: " +:+ pretty system_id))
  | Some system =>
      let report := validate_document (VDict document) kind in
      let! ver := versions kind in
      let write := write_row (cs_organization_id system) document ver report updated_by in
      let found := row_at db system_id kind document_key in
      let row := write (default (new_row (cr_next_id db) system_id kind document_key) found) in
      let event :=
        {| ev_organization_id := Some (cs_organization_id system);
           ev_actor := str_or (or_empty updated_by) "system";
           ev_action := match found with None => "create" | Some _ => "update" end;
           ev_entity_type := "cr26_document"; ev_entity_id := Some (pretty (dc_id row));
           ev_diff := VDict (put_diff system_id kind (vp_ok report) updated_by document_key) |} in
      Ok (row,
          {| cr_systems := cr_systems db;
             cr_documents := match found with
                             | Some _ => update_first (is_at system_id kind document_key) write (cr_documents db)
                             | None => (cr_documents db ++ [row])%list
                             end;
             cr_next_id := match found with Some _ => cr_next_id db | None => cr_next_id db + 1 end;
             cr_events := (cr_events db ++ [event])%list |})
  end
  end.

(** The document stored at a key. *)
Definition document_at (db : CrDb) (system_id : Z) (kind : string) (document_key : option string) : option json_obj :=
  dc_document <$> row_at db system_id kind document_key.

(** A write goes through for a kind a system files and a live system. *)
Definition may_put (db : CrDb) (system_id : Z) (kind : string) : bool :=
  mem kind DELIVERABLE_KINDS && match live_system db system_id with Some _ => true | None => false end.
End store.

(** ** What the store promises *)

Class DocStore (St : Type) := {
  doc_at : St -> Z -> string -> option string -> option json_obj;
  writable : St -> Z -> string -> bool;
  put : Z -> string -> json_obj -> option string -> St -> res (Cr26Document * St);
  put_writes : forall sid kind d key st, writable st sid kind = true ->
    exists row st', put sid kind d key st = Ok (row, st') /\ dc_document row = d /\
      doc_at st' sid kind key = Some d /\
      (forall sid' kind' key', (sid', kind', key') <> (sid, kind, key) ->
         doc_at st' sid' kind' key' = doc_at st sid' kind' key') /\
      (forall sid' kind', writable st' sid' kind' = writable st sid' kind');
  put_refuses : forall sid kind d key st, writable st sid kind = false ->
    exists e, put sid kind d key st = Err e }.

(** ** Lemmas *)

Lemma drop_end_idem p s : drop_end p (drop_end p s) = drop_end p s.
Proof.
  induction s as [|c s IH]; [done|]. cbn [drop_end]. destruct (drop_end p s) as [|d t].
  - destruct (p c) eqn:E; [done|]. cbn [drop_end]. by rewrite E.
  - cbn [drop_end] in *. by rewrite IH.
Qed.

Lemma lstrip_rstrip s : lstrip s = s -> lstrip (rstrip s) = rstrip s.
Proof.
  unfold lstrip, rstrip. destruct s as [|c s]; [done|]. cbn [drop_while drop_end].
  destruct (is_space c) eqn:E; intros H.
  - exfalso. assert (forall q t, (String.length (drop_while q t) <= String.length t)%nat) as L.
    { intros q t. induction t as [|d t IH]; cbn; [done|]. destruct (q d); cbn; lia. }
    specialize (L is_space s). rewrite H in L. cbn in L. lia.
  - destruct (drop_end is_space s); cbn [drop_while]; by rewrite E.
Qed.

Lemma lstrip_idem s : lstrip (lstrip s) = lstrip s.
Proof. unfold lstrip. induction s as [|c s IH]; [done|]. cbn [drop_while]. destruct (is_space c) eqn:E; [done|]. cbn [drop_while]. by rewrite E. Qed.

Lemma strip_idem s : strip (strip s) = strip s.
Proof. unfold strip. rewrite (lstrip_rstrip (lstrip s)) by apply lstrip_idem. apply drop_end_idem. Qed.

Lemma stripped_spec v : is_blank v = false -> is_blank (VStr (stripped v)) = false /\ stripped (VStr (stripped v)) = stripped v.
Proof. destruct v; try done. cbn [is_blank stripped]. rewrite strip_idem. done. Qed.

Lemma deliverable_schema kind : mem kind DELIVERABLE_KINDS = true ->
  exists file v, schema_path kind = Some file /\ versions kind = Ok (RULESET_VERSION, v).
Proof.
  intros H%mem_true. unfold DELIVERABLE_KINDS in H. apply list_elem_of_filter in H as [_ H].
  unfold CR26_KINDS in H. cbn [dkeys map fst] in H.
  elem_cases H; (eexists _, _; split; [vm_compute; reflexivity|vm_compute; reflexivity]).
Qed.

Lemma find_update_first {A} (p q : A -> bool) f (l : list A) :
  (forall x, p x = true -> q (f x) = q x) -> (forall x, p x = true -> q x = false) ->
  List.find q (update_first p f l) = List.find q l.
Proof.
  intros Hf Hd. induction l as [|x l IH]; [done|]. cbn [update_first List.find].
  destruct (p x) eqn:E; cbn [List.find].
  - by rewrite Hf, Hd.
  - by rewrite IH.
Qed.

Lemma find_update_same {A} (p : A -> bool) f (l : list A) :
  (forall x, p x = true -> p (f x) = true) -> List.find p (update_first p f l) = f <$> List.find p l.
Proof.
  intros Hf. induction l as [|x l IH]; [done|]. cbn [update_first List.find].
  destruct (p x) eqn:E; cbn [List.find].
  - by rewrite Hf.
  - by rewrite E, IH.
Qed.

Lemma is_at_spec sid kind key d :
  is_at sid kind key d = true <-> dc_system_id d = sid /\ dc_kind d = kind /\ dc_document_key d = key.
Proof. unfold is_at. rewrite !andb_true_iff, !bool_decide_eq_true. tauto. Qed.

Section put.
Context (avail : bool) (errors : string -> json_obj -> res (list (list string * string))).
Notation put_document := (put_document avail errors).

(** Every branch of a write. *)
Lemma put_document_spec sid kind doc key by_ db :
  if may_put db sid kind then
    exists sys v row db',
      live_system db sid = Some sys /\ put_document sid kind doc key by_ db = Ok (row, db') /\
      row = write_row (cs_organization_id sys) doc (RULESET_VERSION, v) (validate_document avail errors (VDict doc) kind) by_
              (default (new_row (cr_next_id db) sid kind key) (row_at db sid kind key)) /\
      row_at db' sid kind key = Some row /\
      (forall sid' kind' key', (sid', kind', key') <> (sid, kind, key) ->
         row_at db' sid' kind' key' = row_at db sid' kind' key') /\
      cr_systems db' = cr_systems db
  else exists m, put_document sid kind doc key by_ db = Err (ValueError m).
Proof.
  unfold may_put. destruct (mem kind DELIVERABLE_KINDS) eqn:Ek; cbn [andb].
  2:{ unfold Cr26.put_document. rewrite Ek. cbn [negb]. by eexists. }
  destruct (deliverable_schema kind Ek) as (file & v & Es & Ev).
  destruct (live_system db sid) as [sys|] eqn:El.
  2:{ unfold Cr26.put_document. rewrite Ek. cbn [negb]. rewrite Es, El. by eexists. }
  exists sys, v. unfold Cr26.put_document. rewrite Ek. cbn [negb]. rewrite Es, El, Ev. cbn [res_bind].
  set (w := write_row _ _ _ _ _). eexists _, _. split; [done|]. split; [reflexivity|]. split; [done|].
  assert (Hw : forall x k s y, is_at s k y (w x) = is_at s k y x) by done.
  unfold row_at. cbn [cr_documents cr_systems]. destruct (List.find (is_at sid kind key) (cr_documents db)) as [r|] eqn:Ef;
    cbn [default from_option id].
  - split; [|split; [|done]].
    + rewrite find_update_same by (intros x; by rewrite Hw). by rewrite Ef.
    + intros sid' kind' key' Hne. apply find_update_first; intros x Hx; [apply Hw|].
      apply not_true_iff_false. rewrite is_at_spec in *. intros (<- & <- & <-). by destruct Hx as (<- & <- & <-).
  - assert (is_at sid kind key (w (new_row (cr_next_id db) sid kind key)) = true) as Hn.
    { rewrite Hw. unfold is_at, new_row. cbn. by rewrite !bool_decide_eq_true_2. }
    split; [|split; [|done]].
    + rewrite find_app_none by done. cbn [List.find]. by rewrite Hn.
    + intros sid' kind' key' Hne. apply find_app_not. apply not_true_iff_false.
      rewrite Hw, is_at_spec. cbn. intros (<- & <- & <-). done.
Qed.

(** The store keeps what [DocStore] promises. *)
#[export] Instance store_instance : DocStore CrDb.
Proof.
  refine {| doc_at := document_at; writable := may_put;
            put := fun sid kind d key db => put_document sid kind d key None db |}.
  - intros sid kind d key db Hm. pose proof (put_document_spec sid kind d key None db) as H. rewrite Hm in H.
    destruct H as (sys & v & row & db' & _ & E & Er & Hs & Ho & Es). exists row, db'. split; [done|].
    split; [by rewrite Er|]. unfold document_at, may_put, live_system, system_at. split; [by rewrite Hs, Er|].
    split; [|intros; by rewrite Es]. intros s k y Hne. by rewrite Ho.
  - intros sid kind d key db Hm. pose proof (put_document_spec sid kind d key None db) as H. rewrite Hm in H.
    destruct H as [m H]. by eexists.
Defined.
End put.

(** ** The table's invariant *)

Definition doc_key (d : Cr26Document) : Z * string * option string := (dc_system_id d, dc_kind d, dc_document_key d).

Section sound.
Context (avail : bool) (errors : string -> json_obj -> res (list (list string * string))).
Notation put_document := (put_document avail errors).
Notation validate_document := (validate_document avail errors).

(** One row per system, kind and key; every row is a filable document of a
    system, owned by that system's organization and carrying the verdict of the
    document it holds. *)
Definition row_sound (db : CrDb) (d : Cr26Document) : Prop :=
  let report := validate_document (VDict (dc_document d)) (dc_kind d) in
  dc_is_valid d = vp_ok report /\ dc_validation_errors d = vp_errors report /\
  dc_kind d ∈ DELIVERABLE_KINDS /\
  exists sys, system_at db (dc_system_id d) = Some sys /\ dc_organization_id d = Some (cs_organization_id sys).

Record store_sound (db : CrDb) : Prop := {
  so_keys : NoDup (map doc_key (cr_documents db));
  so_ids : increasing dc_id (cr_documents db);
  so_next : forall d, d ∈ cr_documents db -> dc_id d < cr_next_id db;
  so_rows : forall d, d ∈ cr_documents db -> row_sound db d }.

Lemma update_first_split {A} (p : A -> bool) f l x :
  List.find p l = Some x -> exists a b, l = (a ++ x :: b)%list /\ update_first p f l = (a ++ f x :: b)%list.
Proof.
  induction l as [|y l IH]; [done|]. cbn [List.find update_first]. destruct (p y).
  - intros [= ->]. by exists [], l.
  - intros (a & b & -> & ->)%IH. by exists (y :: a), b.
Qed.

Lemma row_at_sound db sid kind key r : row_at db sid kind key = Some r -> r ∈ cr_documents db /\ doc_key r = (sid, kind, key).
Proof.
  intros [Hin Hp]%find_some. split; [by apply list_elem_of_In|]. apply is_at_spec in Hp as (<- & <- & <-). done.
Qed.

Lemma row_at_none db sid kind key : row_at db sid kind key = None -> (sid, kind, key) ∉ map doc_key (cr_documents db).
Proof.
  intros Hf (d & E & Hd)%list_elem_of_fmap. apply list_elem_of_In in Hd.
  apply (find_none _ _ Hf) in Hd. injection E as -> -> ->. apply not_true_iff_false in Hd. apply Hd, is_at_spec. done.
Qed.

Lemma increasing_keys (l l' : list Cr26Document) : map dc_id l = map dc_id l' -> increasing dc_id l -> increasing dc_id l'.
Proof.
  revert l'. induction l as [|x l IH]; intros [|y l'] E; try done. injection E as E1 E2.
  intros [Hl Hx]%StronglySorted_inv. constructor; [by apply IH|]. rewrite <-E1.
  apply Forall_forall. intros z Hz%(list_elem_of_fmap_2 dc_id).
  change (dc_id <$> l') with (map dc_id l') in Hz. rewrite <-E2 in Hz.
  apply list_elem_of_fmap in Hz as (w & -> & Hw). rewrite Forall_forall in Hx. by apply Hx.
Qed.

(** The diff of an event has no key the audit trail masks. *)
Lemma put_diff_survives sid kind ok by_ key : redact (VDict (put_diff sid kind ok by_ key)) = VDict (put_diff sid kind ok by_ key).
Proof. destruct by_, key; reflexivity. Qed.

Lemma put_document_ok sid kind doc key by_ db sys :
  mem kind DELIVERABLE_KINDS = true -> live_system db sid = Some sys ->
  exists v, let report := validate_document (VDict doc) kind in
    let write := write_row (cs_organization_id sys) doc (RULESET_VERSION, v) report by_ in
    let found := row_at db sid kind key in
    let row := write (default (new_row (cr_next_id db) sid kind key) found) in
    put_document sid kind doc key by_ db = Ok (row,
      {| cr_systems := cr_systems db;
         cr_documents := match found with
                         | Some _ => update_first (is_at sid kind key) write (cr_documents db)
                         | None => (cr_documents db ++ [row])%list end;
         cr_next_id := match found with Some _ => cr_next_id db | None => cr_next_id db + 1 end;
         cr_events := (cr_events db ++
           [{| ev_organization_id := Some (cs_organization_id sys);
               ev_actor := str_or (or_empty by_) "system";
               ev_action := match found with None => "create" | Some _ => "update" end;
               ev_entity_type := "cr26_document"; ev_entity_id := Some (pretty (dc_id row));
               ev_diff := VDict (put_diff sid kind (vp_ok report) by_ key) |}])%list |}).
Proof.
  intros Ek El. destruct (deliverable_schema kind Ek) as (file & v & E1 & E2). exists v.
  unfold Cr26.put_document. by rewrite Ek, E1, El, E2.
Qed.

(** Writing a found row in place keeps ids and keys. *)
Lemma written_in_place org doc v report by_ (db : CrDb) sid kind key r :
  row_at db sid kind key = Some r ->
  let write := write_row org doc v report by_ in
  let docs := update_first (is_at sid kind key) write (cr_documents db) in
  map dc_id docs = map dc_id (cr_documents db) /\ map doc_key docs = map doc_key (cr_documents db) /\
  List.length docs = List.length (cr_documents db) /\
  (forall d, d ∈ docs -> d = write r \/ d ∈ cr_documents db) /\
  (forall d, doc_key d <> (sid, kind, key) -> d ∈ docs <-> d ∈ cr_documents db).
Proof.
  intros Hr. cbv zeta. pose proof (row_at_sound _ _ _ _ _ Hr) as [_ Hk].
  destruct (update_first_split (is_at sid kind key) (write_row org doc v report by_) _ _ Hr) as (a & b & E & ->).
  rewrite E, !map_app, !length_app. cbn [map List.length]. split; [done|]. split; [done|]. split; [done|].
  split; [set_solver|]. intros d Hd. rewrite !elem_of_app, !elem_of_cons. split; intros [?|[ ->|?]]; auto.
  - by destruct Hd.
  - by destruct Hd.
Qed.

(** no document is stored without its verdict. On sound tables a write goes
    through exactly for a filable kind and a live system; it leaves the tables
    sound, stores the given document, adds a row exactly when the key had none,
    leaves every other row as it was, and records one event of the system's
    tenant that says whether an earlier document was overwritten and keeps its
    fields through redaction. *)
Theorem put_document_keeps_the_store_sound sid kind doc key by_ db :
  store_sound db ->
  if may_put db sid kind then
    exists row db' e, put_document sid kind doc key by_ db = Ok (row, db') /\ store_sound db' /\
      row_at db' sid kind key = Some row /\ dc_document row = doc /\
      (forall d, doc_key d <> (sid, kind, key) -> d ∈ cr_documents db' <-> d ∈ cr_documents db) /\
      List.length (cr_documents db') =
        (List.length (cr_documents db) + if row_at db sid kind key then 0 else 1)%nat /\
      cr_events db' = (cr_events db ++ [e])%list /\ ev_organization_id e = dc_organization_id row /\
      ev_action e = (if row_at db sid kind key then "update" else "create") /\ redact (ev_diff e) = ev_diff e
  else is_ok (put_document sid kind doc key by_ db) = false.
Proof.
  intros Hs. pose proof (put_document_spec avail errors sid kind doc key by_ db) as H.
  destruct (may_put db sid kind) eqn:Em; [|by destruct H as [m ->]].
  destruct H as (_ & _ & row & db' & _ & Ep & _ & Hat & _). apply andb_true_iff in Em as [Ek El].
  destruct (live_system db sid) as [sys|] eqn:Elv; [clear El|done].
  destruct (put_document_ok sid kind doc key by_ db sys Ek Elv) as [v E]. cbv zeta in E. rewrite E in Ep.
  set (write := write_row _ _ _ _ _) in *.
  assert (Hsys : system_at db sid = Some sys).
  { unfold live_system in Elv. destruct (system_at db sid) as [s|]; [|done]. destruct (cs_deleted_at s); congruence. }
  assert (Hrow : forall db1 r, cr_systems db1 = cr_systems db -> dc_system_id r = sid -> dc_kind r = kind -> row_sound db1 (write r)).
  { intros db1 r E0 E1 E2. unfold row_sound. subst write. unfold write_row.
    cbn [dc_document dc_kind dc_is_valid dc_validation_errors dc_system_id dc_organization_id]. rewrite E1, E2. split; [done|]. split; [done|].
    split; [by apply mem_true|]. exists sys. split; [|done]. unfold system_at. by rewrite E0. }
  assert (Hold : forall db1 d, cr_systems db1 = cr_systems db -> row_sound db d -> row_sound db1 d)
    by (unfold row_sound, system_at; intros db1 d ->; done).
  destruct (row_at db sid kind key) as [r|] eqn:Er; cbn [default from_option id] in E, Ep;
    injection Ep as <- <-; eexists _, _, _; (split; [exact E|]); clear E Elv; cbn [cr_documents cr_events].
  - destruct (written_in_place (cs_organization_id sys) doc (RULESET_VERSION, v)
      (validate_document (VDict doc) kind) by_ db sid kind key r Er) as (I1 & I2 & I3 & I4 & I5).
    fold write in I1, I2, I3, I4, I5.
    apply row_at_sound in Er as [Hr Hk]. injection Hk as Hk1 Hk2 Hk3. split; [|split; [exact Hat|]].
    + split; cbn [cr_documents cr_next_id].
      * rewrite I2. apply Hs.
      * eapply increasing_keys; [symmetry; exact I1|apply Hs].
      * intros d [ ->|Hd]%I4; [|by apply Hs]. by apply (so_next db Hs r).
      * intros d [ ->|Hd]%I4; [by apply Hrow|by apply Hold, Hs].
    + do 2 (split; [done|]). split; [rewrite Nat.add_0_r; exact I3|].
      split; [reflexivity|]. do 2 (split; [done|]). apply put_diff_survives.
  - pose proof (row_at_none _ _ _ _ Er) as Hn. split; [|split; [exact Hat|]].
    + split; cbn [cr_documents cr_next_id].
      * rewrite map_app. apply NoDup_app. split; [apply Hs|]. split; [|apply NoDup_singleton].
        intros k Hk1 Hk2%list_elem_of_singleton. apply Hn. subst k. exact Hk1.
      * apply increasing_app. split; [apply Hs|]. split; [repeat constructor|].
        intros x y Hx ->%list_elem_of_singleton. by apply (so_next db Hs).
      * intros d [Hd| ->%list_elem_of_singleton]%elem_of_app; [pose proof (so_next db Hs d Hd); lia|cbn; lia].
      * intros d [Hd| ->%list_elem_of_singleton]%elem_of_app; [by apply Hold, Hs|]. by apply Hrow.
    + split; [done|]. split.
      * intros d Hd. rewrite elem_of_app, list_elem_of_singleton. split; [|by left]. by intros [?| ->].
      * split; [by rewrite length_app|]. split; [reflexivity|]. do 2 (split; [done|]). apply put_diff_survives.
Qed.
End sound.

Definition demo_systems : list CrSystem :=
  [{| cs_id := 1; cs_organization_id := 5; cs_name := "Prod"; cs_description := None; cs_deleted_at := None |}].
Definition demo_store : CrDb :=
  {| cr_systems := demo_systems; cr_documents := []; cr_next_id := 1; cr_events := [] |}.

(** A validator that asks for the package overview's URI. *)
Definition demo_schema (kind : string) (d : json_obj) : res (list (list string * string)) :=
  Ok (if dhas "certificationPackageOverviewUri" d then [] else [([], "a required property is missing")]).

Lemma demo_store_sound : store_sound true demo_schema demo_store.
Proof. split; [constructor|constructor|intros d Hd|intros d Hd]; by apply not_elem_of_nil in Hd. Qed.

Lemma put_document_witness :
  exists row db', put_document true demo_schema 1 "cpo" [] None None demo_store = Ok (row, db') /\
    dc_validation_errors row = ["<root>: a required property is missing"] /\ dc_is_valid row = false.
Proof.
  pose proof (put_document_keeps_the_store_sound true demo_schema 1 "cpo" [] None None demo_store demo_store_sound) as H.
  assert (may_put demo_store 1 "cpo" = true) as Em by (vm_compute; reflexivity). rewrite Em in H.
  destruct H as (row & db' & e & E & Hs & Hat & _). exists row, db'. split; [exact E|].
  apply row_at_sound in Hat as [Hd Hk]. destruct (so_rows _ _ _ Hs row Hd) as (Ev & Ee & _).
  vm_compute in E. injection E as <- _. split; reflexivity.
Defined.
