(* ===== verification/Cr26Seed.v ===== *)
(** The CR26 documents that are authored rather than derived: the certification
    package overview, the incident report and the significant change
    notification ([src/src/ccf/cr26/cpo.py], [incident.py], [scn.py]).

    A seeder reads what is stored, keeps what a person wrote, names what is
    still owed and writes one document; the store is any [DocStore]. *)

From S2P Require Export Cr26 Capability.
From S2P Require Import PyTime.

Local Open Scope string_scope.
Local Open Scope Z_scope.

(** [dict(document)] of the stored row, empty when there is none. *)
Definition stored_obj (o : option json_obj) : json_obj := default [] o.

(** [if not is_blank(uri): document[...] = str(uri).strip()] *)
Definition URI : string := "certificationPackageOverviewUri".
Definition carry_uri (document current : json_obj) : json_obj :=
  let uri := vget URI current in
  if is_blank uri then document else dset URI (VStr (stripped uri)) document.

(** [name in d and has_content(d[name])] *)
Definition authored (name : string) (d : json_obj) : option pyval :=
  match dget name d with Some v => if has_content v then Some v else None | None => None end.

(** ** Certification package overview *)

(** The keys of a dict built from pairs, as JSON stores them. *)
Definition json_key (v : pyval) : res string :=
  match v with
  | VStr s => Ok s
  | VInt z => Ok (pretty z)
  | VBool b => Ok (if b then "true" else "false")
  | VNone => Ok "null"
  | VFloat x => Ok (repr_float x)
  | VList _ | VDict _ => Err (TypeError ("unhashable type: '" +:+ type_name v +:+ "'"))
  end.

(** [dict(v)] *)
Definition to_dict (v : pyval) : res json_obj :=
  match v with
  | VDict d => Ok d
  | _ =>
      let! items := iter_val v in
      (fix go (i : Z) (l : list pyval) (d : json_obj) : res json_obj :=
         match l with
         | [] => Ok d
         | x :: l' =>
             match iter_val x with
             | Err _ => Err (TypeError ("cannot convert dictionary update sequence element #" +:+ pretty i +:+ " to a sequence"))
             | Ok [k; w] => let! k := json_key k in go (i + 1) l' (dset k w d)
             | Ok ys => Err (ValueError ("dictionary update sequence element #" +:+ pretty i +:+ " has length " +:+
                             pretty (Z.of_nat (List.length ys)) +:+ "; 2 is required"))
             end
         end) 0 items []
  end.

Definition SEEDED_FIELDS : list string := ["providerName"; "serviceName"; "serviceDescription"].

(** The organization's name, when its row exists. *)
Definition seed_values (system : CrSystem) (org : option string) : list (string * string) :=
  (match org with Some n => [("providerName", n)] | None => [] end ++
   [("serviceName", cs_name system)] ++
   match cs_description system with Some t => [("serviceDescription", t)] | None => [] end)%list.

(** [d.setdefault(k, v)] *)
Definition setdefault (k : string) (v : pyval) (d : json_obj) : json_obj := if dhas k d then d else dset k v d.

Definition fill_defaults (values : list (string * string)) (d : json_obj) : json_obj :=
  foldl (fun d kv => setdefault kv.1 (VStr kv.2) d) d values.

(** ** Incident report *)

Definition LIFECYCLE : list string := ["Initial"; "Ongoing"; "Final"].

Definition CARRY_FIELDS : list string :=
  ["federalIncidentCoordinator"; "incidentDescription"; "timeline"; "potentialImpact"; "functionalImpact";
   "recoveryPlan"; "affectedAgencies"; "observedActivity"; "indicatorsOfCompromise"; "relatedCveIds"; "rootCause";
   "responseAndRecoveryActivities"].

Definition validate_tracking_id (provider_tracking_id report_type : string) : res string :=
  let s := strip provider_tracking_id in
  if negb (str_truthy s) then Err (ValueError "providerTrackingId must not be blank")
  else if str_has "/"%char s then
    Err (ValueError "providerTrackingId must not contain '/': document_key is '{providerTrackingId}/{reportType}', and a '/' inside the tracking id would make that key ambiguous")
  else
    let key_length := Z.of_nat (String.length s) + 1 + Z.of_nat (String.length report_type) in
    if DOCUMENT_KEY_MAX_LENGTH <? key_length then
      Err (ValueError ("providerTrackingId is too long: the resulting document_key '" +:+ s +:+ "/" +:+ report_type +:+
        "' would be " +:+ pretty key_length +:+ " characters, and document_key is limited to " +:+ pretty DOCUMENT_KEY_MAX_LENGTH))
    else Ok s.

Definition incident_key (tracking_id report_type : string) : string := tracking_id +:+ "/" +:+ report_type.

(** The minutes of an offset are bounded only through the total. *)
Definition offset_ok (s : string) : bool :=
  match s with
  | "Z" => true
  | String c s' =>
      bool_decide (c = "+"%char \/ c = "-"%char) &&
      match (h ← take_num 2 s'; t ← expect ":" h.2; m ← take_num 2 t; Some (h.1, m.1, m.2)) with
      | Some (h, m, "") => h * 60 + m <? 1440
      | _ => false
      end
  | EmptyString => false
  end.

(** [_INSTANT_RE], then [datetime.fromisoformat]: the fields of
    [YYYY-MM-DDTHH:MM:SS], an optional fraction, and [Z] or an offset. *)
Definition parses_as_instant (s : string) : bool :=
  match (y ← take_num 4 s; a ← expect "-" y.2; mo ← take_num 2 a; b ← expect "-" mo.2; d ← take_num 2 b;
         c ← expect "T" d.2; h ← take_num 2 c; e ← expect ":" h.2; mi ← take_num 2 e; f ← expect ":" mi.2;
         sc ← take_num 2 f; Some (y.1, mo.1, d.1, (h.1, mi.1, sc.1), sc.2)) with
  | Some (y, mo, d, (h, mi, sc), r) =>
      let r := match r with
               | String "." r' => if str_truthy (take_while is_digit r') then drop_while is_digit r' else r
               | _ => r
               end in
      offset_ok r && (1 <=? y) && (1 <=? mo) && (mo <=? 12) && (1 <=? d) && (d <=? days_in_month y mo) &&
      (h <? 24) && (mi <? 60) && (sc <? 60)
  | None => false
  end.

Definition parses_as_iso8601_instant (v : pyval) : bool :=
  match v with VStr s => parses_as_instant s | _ => false end.

Definition resolved_at_problem (resolved_at : pyval) : option (string * string) :=
  if is_none resolved_at then
    Some ("resolvedAt", "no authored resolvedAt -- required for a Final report, and the seeder never invents or carries one forward")
  else if negb (parses_as_iso8601_instant resolved_at) then
    Some ("resolvedAt", "authored resolvedAt " +:+ py_repr resolved_at +:+ " does not parse as an ISO-8601 instant -- the schema's date-time format is not enforced here, so this document would validate while asserting a resolution time that is not one")
  else None.

Record IncidentSeedResult := {
  ir_document : Cr26Document;
  ir_document_key : string;
  ir_carried_from : option string;
  ir_carried_fields : list string;
  ir_missing_required : list (string * string);
  ir_missing_advisory : list string }.

(** The loop over the fields: the document, what was carried, what is missing. *)
Definition carry_field (current prior : json_obj) (st : json_obj * list string * list string) (name : string)
    : json_obj * list string * list string :=
  let '(document, carried, missing) := st in
  match authored name current with
  | Some v => (dset name v document, carried, missing)
  | None =>
      match authored name prior with
      | Some v => (dset name v document, carried ++ [name], missing)%list
      | None => (document, carried, missing ++ [name])%list
      end
  end.

Definition carry_incident_uri (document current prior : json_obj) : json_obj * list string :=
  if negb (is_blank (vget URI current)) then (dset URI (VStr (stripped (vget URI current))) document, [])
  else if negb (is_blank (vget URI prior)) then (dset URI (VStr (stripped (vget URI prior))) document, [URI])
  else (document, []).

Definition keep_resolved_at (document current : json_obj) : json_obj :=
  match dget "resolvedAt" current with Some v => dset "resolvedAt" v document | None => document end.

(** The document an incident seed writes, what it carried and what is missing. *)
Definition incident_document (tracking_id report_type : string) (current prior : json_obj)
    : json_obj * list string * list string :=
  let document := [("reportType", VStr report_type); ("providerTrackingId", VStr tracking_id)] in
  let '(document, carried) := carry_incident_uri document current prior in
  foldl (carry_field current prior) (keep_resolved_at document current, carried, []) CARRY_FIELDS.

Definition incident_missing (report_type : string) (document : json_obj) : list (string * string) :=
  ((if dhas URI document then []
    else [(URI, "no authored certificationPackageOverviewUri on this report or the most recent prior report -- never invented")]) ++
   (if bool_decide (report_type = "Final") then
      match resolved_at_problem (vget "resolvedAt" document) with Some p => [p] | None => [] end else []))%list.

(** ** Significant change notification *)

Definition SCN_AUTHORED_FIELDS : list string :=
  ["assessorName"; "relatedVulnerability"; "changeTypeExplanation"; "reason"; "customerImpact"; "planAndTimeline";
   "impactedControls"; "impactAnalysis"].

Definition validate_change_ref (change_ref : string) : res string :=
  let s := strip change_ref in
  let len := Z.of_nat (String.length s) in
  if negb (str_truthy s) then Err (ValueError "change_ref must not be blank")
  else if DOCUMENT_KEY_MAX_LENGTH <? len then
    Err (ValueError ("change_ref is too long: " +:+ pretty len +:+ " characters, and document_key is limited to " +:+ pretty DOCUMENT_KEY_MAX_LENGTH))
  else Ok s.

(** The control and indicator catalogs: the identifiers. *)
Record ScnCatalog := { sc_controls : list string; sc_ksis : list string }.

Definition resolve_entry (cat : ScnCatalog) (index : Z) (entry : pyval) : res (option (string * string)) :=
  match entry with
  | VStr s =>
      if is_blank entry then Ok (Some (s, "identifies nothing")) else
      match canonicalize (Some s) with
      | Some c =>
          let! found := scalar_one_or_none (filter (fun i => i = cid_value c) (sc_controls cat)) in
          Ok (match found with None => Some (s, "not a known control") | Some _ => None end)
      | None =>
          let! found := scalar_one_or_none (filter (fun i => lower i = lower (strip s)) (sc_ksis cat)) in
          Ok (match found with None => Some (s, "not a known control or KSI") | Some _ => None end)
      end
  | _ => Ok (Some ("impactedControls[" +:+ pretty index +:+ "]", "not a string -- see validation_errors"))
  end.

Fixpoint resolve_entries (cat : ScnCatalog) (index : Z) (entries : list pyval) : res (list (string * string)) :=
  match entries with
  | [] => Ok []
  | e :: rest =>
      let! p := resolve_entry cat index e in
      let! ps := resolve_entries cat (index + 1) rest in
      Ok (match p with Some x => x :: ps | None => ps end)
  end.

Definition resolve_impacted_controls (cat : ScnCatalog) (entries : pyval) : res (list (string * string)) :=
  match entries with VList l => resolve_entries cat 0 l | _ => Ok [] end.

Record ScnSeedResult := {
  sr_document : Cr26Document;
  sr_document_key : string;
  sr_missing_required : list (string * string);
  sr_missing_advisory : list string;
  sr_unrecognised_controls : list (string * string) }.

(** What the seed keeps of a stored field. *)
Definition scn_kept (change_type : string) (current : json_obj) (name : string) : option pyval :=
  if bool_decide (name = "changeTypeExplanation") then
    if py_eq (vget "changeType" current) (VStr change_type) && has_content (vget name current)
    then Some (vget name current) else None
  else authored name current.

Definition scn_field (change_type : string) (current : json_obj) (st : json_obj * list string) (name : string)
    : json_obj * list string :=
  let '(document, missing) := st in
  match scn_kept change_type current name with
  | Some v => (dset name v document, missing)
  | None => (document, missing ++ [name])%list
  end.

Definition scn_document (change_type : string) (current : json_obj) : json_obj * list string :=
  let document := carry_uri [("changeType", VStr change_type)] current in
  let document := if is_blank (vget "changeDescription" current) then document
                  else dset "changeDescription" (vget "changeDescription" current) document in
  foldl (scn_field change_type current) (document, []) SCN_AUTHORED_FIELDS.

Definition scn_missing (document : json_obj) : list (string * string) :=
  ((if dhas URI document then [] else [(URI, "no authored certificationPackageOverviewUri on this document -- never invented")]) ++
   (if dhas "changeDescription" document then []
    else [("changeDescription", "no authored changeDescription -- required, and the seeder never invents or writes one")]))%list.

(** ** What a field of a seeded document is *)

(** The fields [names] with the values [src] has for them, in order. *)
Definition fields (src : string -> option pyval) (names : list string) : json_obj :=
  omap (fun n => pair n <$> src n) names.

(** A document's own value of a field. *)
Definition own (d : json_obj) (name : string) : option pyval :=
  if bool_decide (name = URI) then (if is_blank (vget URI d) then None else Some (VStr (stripped (vget URI d))))
  else authored name d.

Definition own_or_prior (current prior : json_obj) (name : string) : option pyval :=
  match own current name with Some v => Some v | None => own prior name end.

(** Taken from the prior report, and owed by both. *)
Definition from_prior (current prior : json_obj) (name : string) : bool :=
  match own current name, own prior name with None, Some _ => true | _, _ => false end.
Definition owed (current prior : json_obj) (name : string) : bool :=
  match own_or_prior current prior name with None => true | Some _ => false end.

Definition incident_value (tracking_id report_type : string) (current prior : json_obj) (name : string) : option pyval :=
  if bool_decide (name = "reportType") then Some (VStr report_type)
  else if bool_decide (name = "providerTrackingId") then Some (VStr tracking_id)
  else if bool_decide (name = "resolvedAt") then dget "resolvedAt" current
  else if mem name (URI :: CARRY_FIELDS) then own_or_prior current prior name
  else None.

Definition is_none_o {A} (o : option A) : bool := match o with None => true | Some _ => false end.

Definition scn_value (change_type : string) (current : json_obj) (name : string) : option pyval :=
  if bool_decide (name = "changeType") then Some (VStr change_type)
  else if bool_decide (name = "changeDescription") then
    (if is_blank (vget name current) then None else Some (vget name current))
  else if bool_decide (name = URI) then own current name
  else if mem name SCN_AUTHORED_FIELDS then scn_kept change_type current name
  else None.

(** What is wrong with an entry of [impactedControls]. *)
Definition entry_problem (cat : ScnCatalog) (index : Z) (entry : pyval) : option (string * string) :=
  match entry with
  | VStr s =>
      if is_blank entry then Some (s, "identifies nothing") else
      match canonicalize (Some s) with
      | Some c => if mem (cid_value c) (sc_controls cat) then None else Some (s, "not a known control")
      | None => if mem (lower (strip s)) (map lower (sc_ksis cat)) then None else Some (s, "not a known control or KSI")
      end
  | _ => Some ("impactedControls[" +:+ pretty index +:+ "]", "not a string -- see validation_errors")
  end.

Definition entry_problems (cat : ScnCatalog) (entries : pyval) : list (string * string) :=
  match entries with VList l => omap id (imap (fun i e => entry_problem cat (Z.of_nat i) e) l) | _ => [] end.

(** ** The seeders *)

Section seed.
Context {St : Type} `{DocStore St}.

Definition seed_cpo (systems : St -> Z -> option CrSystem) (organizations : Z -> option string) (system_id : Z) (st : St)
    : res (Cr26Document * St) :=
  match systems st system_id with
  | None => Err (ValueError ("unknown system: " +:+ pretty system_id))
  | Some system =>
      let seeded := seed_values system (organizations (cs_organization_id system)) in
      let document := stored_obj (doc_at st system_id "cpo" None) in
      let identification := vget "serviceIdentification" document in
      let! identification := if truthy identification then to_dict identification else Ok [] in
      put system_id "cpo" (dset "serviceIdentification" (VDict (fill_defaults seeded identification)) document) None st
  end.

(** The closest report filed, from the nearest stage back. *)
Fixpoint walk_back (st : St) (system_id : Z) (tracking_id : string) (candidates : list string) : option string * json_obj :=
  match candidates with
  | [] => (None, [])
  | c :: rest =>
      match doc_at st system_id "incident" (Some (incident_key tracking_id c)) with
      | Some d => (Some (incident_key tracking_id c), d)
      | None => walk_back st system_id tracking_id rest
      end
  end.

Definition prior_report (st : St) (system_id : Z) (tracking_id report_type : string) : option string * json_obj :=
  match index_of report_type LIFECYCLE with
  | Err _ => (None, [])
  | Ok idx => walk_back st system_id tracking_id (rev (take (Z.to_nat idx) LIFECYCLE))
  end.

Definition seed_incident (system_id : Z) (provider_tracking_id report_type : string) (st : St)
    : res (IncidentSeedResult * St) :=
  let! tracking_id := validate_tracking_id provider_tracking_id report_type in
  let key := incident_key tracking_id report_type in
  let current := stored_obj (doc_at st system_id "incident" (Some key)) in
  let prior := prior_report st system_id tracking_id report_type in
  let out := incident_document tracking_id report_type current prior.2 in
  let! written := put system_id "incident" out.1.1 (Some key) st in
  Ok ({| ir_document := written.1; ir_document_key := key;
         ir_carried_from := match out.1.2 with [] => None | _ => prior.1 end;
         ir_carried_fields := out.1.2; ir_missing_required := incident_missing report_type out.1.1;
         ir_missing_advisory := out.2 |}, written.2).

Definition seed_scn (cat : ScnCatalog) (system_id : Z) (change_ref change_type : string) (st : St)
    : res (ScnSeedResult * St) :=
  let! key := validate_change_ref change_ref in
  let current := stored_obj (doc_at st system_id "scn" (Some key)) in
  let out := scn_document change_type current in
  let! unrecognised := resolve_impacted_controls cat (vget "impactedControls" out.1) in
  let! written := put system_id "scn" out.1 (Some key) st in
  Ok ({| sr_document := written.1; sr_document_key := key; sr_missing_required := scn_missing out.1;
         sr_missing_advisory := out.2; sr_unrecognised_controls := unrecognised |}, written.2).
End seed.

(** ** Lemmas *)

Lemma dset_fresh {A} k (v : A) d : k ∉ dkeys d -> dset k v d = (d ++ [(k, v)])%list.
Proof.
  induction d as [|[k' v'] d IH]; [done|]. cbn [dkeys map fst dset app]. intros [Hk Hd]%not_elem_of_cons.
  rewrite decide_False by done. by rewrite IH.
Qed.

Lemma dget_app {A} k (d e : list (string * A)) :
  dget k (d ++ e) = match dget k d with Some v => Some v | None => dget k e end.
Proof. induction d as [|[k' v'] d IH]; [done|]. cbn [app dget]. by case_decide. Qed.

Section fields.
Context (src : string -> option pyval).

Lemma fields_app l k : fields src (l ++ k) = (fields src l ++ fields src k)%list.
Proof. apply omap_app. Qed.

Lemma fields_cons n l : fields src (n :: l) = ((match src n with Some v => [(n, v)] | None => [] end) ++ fields src l)%list.
Proof. unfold fields. cbn [omap list_omap]. by destruct (src n). Qed.

Lemma dkeys_fields k l : k ∈ dkeys (fields src l) <-> k ∈ l /\ is_Some (src k).
Proof.
  unfold dkeys. rewrite list_elem_of_fmap. unfold fields. setoid_rewrite list_elem_of_omap. split.
  - intros ([k' v] & -> & n & Hn & E). destruct (src n) eqn:En; [|done]. injection E as <- <-. cbn [fst]. eauto.
  - intros [Hk [v Hv]]. exists (k, v). split; [done|]. exists k. by rewrite Hv.
Qed.

Lemma dget_fields k l : dget k (fields src l) = if mem k l then src k else None.
Proof.
  induction l as [|n l IH]; [done|]. rewrite fields_cons, dget_app, IH, mem_cons. case_bool_decide as E.
  - subst n. cbn [orb]. destruct (src k) eqn:Es; cbn [dget]; [by rewrite decide_True|]. by destruct (mem k l).
  - cbn [orb]. destruct (src n); cbn [dget]; [by rewrite decide_False|done].
Qed.

(** A loop that sets the fields its source knows appends them. *)
Lemma set_fields names d : NoDup names -> (forall n, n ∈ names -> n ∉ dkeys d) ->
  foldl (fun d n => match src n with Some v => dset n v d | None => d end) d names = (d ++ fields src names)%list.
Proof.
  revert d. induction names as [|n names IH]; intros d; [by rewrite app_nil_r|].
  intros [Hn Hnd]%NoDup_cons Hd. cbn [foldl]. rewrite fields_cons. destruct (src n) as [v|] eqn:E.
  - rewrite dset_fresh by (apply Hd; left). rewrite IH; [by rewrite <-app_assoc|done|].
    intros m Hm. unfold dkeys. rewrite map_app. cbn [map fst]. rewrite elem_of_app, list_elem_of_singleton.
    intros [?| ->]; [by apply (Hd m); [right|]|done].
  - apply IH; [done|]. intros m Hm. apply Hd. by right.
Qed.
End fields.

Lemma fields_ext f g l : (forall n, n ∈ l -> f n = g n) -> fields f l = fields g l.
Proof.
  intros H. induction l as [|n l IH]; [done|]. rewrite !fields_cons, H by left. f_equal. apply IH.
  intros m Hm. apply H. by right.
Qed.

(** Closed facts on names. *)
Ltac names := first [ apply mem_false; vm_compute; reflexivity | apply mem_true; vm_compute; reflexivity
                    | apply bool_decide_eq_true_1; vm_compute; reflexivity | vm_compute; reflexivity ].

Lemma own_authored d n : n <> URI -> own d n = authored n d.
Proof. intros H. unfold own. by rewrite bool_decide_false. Qed.

Lemma own_uri d : own d URI = if is_blank (vget URI d) then None else Some (VStr (stripped (vget URI d))).
Proof. reflexivity. Qed.

(** ** Incident reports: lemmas *)

Lemma carry_nodup : NoDup CARRY_FIELDS.
Proof. apply (bool_decide_unpack (NoDup CARRY_FIELDS)). vm_compute. exact I. Qed.

Section incident_document.
Context (tracking_id report_type : string) (current prior : json_obj).

Lemma carry_fold names d c m : (forall n, n ∈ names -> n <> URI) ->
  foldl (carry_field current prior) (d, c, m) names =
  (foldl (fun d n => match own_or_prior current prior n with Some v => dset n v d | None => d end) d names,
   c ++ List.filter (from_prior current prior) names, m ++ List.filter (owed current prior) names)%list.
Proof.
  revert d c m. induction names as [|n names IH]; intros d c m Hu; [by rewrite !app_nil_r|].
  assert (n <> URI) as Hn by (apply Hu; left).
  assert (forall k, k ∈ names -> k <> URI) as Hu' by (intros; apply Hu; by right).
  assert (carry_field current prior (d, c, m) n =
    (match own_or_prior current prior n with Some v => dset n v d | None => d end,
     c ++ (if from_prior current prior n then [n] else []), m ++ (if owed current prior n then [n] else []))%list) as E.
  { unfold carry_field, from_prior, owed, own_or_prior. rewrite !own_authored by done.
    by destruct (authored n current), (authored n prior); rewrite ?app_nil_r. }
  cbn [foldl List.filter]. rewrite E, IH by done.
  destruct (from_prior current prior n), (owed current prior n); by rewrite <-?app_assoc.
Qed.

Notation value := (incident_value tracking_id report_type current prior).

Lemma incident_document_eq :
  incident_document tracking_id report_type current prior =
  (fields value (["reportType"; "providerTrackingId"; URI; "resolvedAt"] ++ CARRY_FIELDS),
   List.filter (from_prior current prior) (URI :: CARRY_FIELDS),
   List.filter (owed current prior) CARRY_FIELDS)%list.
Proof.
  assert (forall n, n ∈ CARRY_FIELDS -> value n = own_or_prior current prior n) as Hc.
  { intros n Hn. unfold incident_value. rewrite (proj2 (mem_true n _)) by (by right).
    unfold CARRY_FIELDS in Hn. elem_cases Hn; reflexivity. }
  assert (forall (d : json_obj) c, (forall n, n ∈ CARRY_FIELDS -> n ∉ dkeys d) ->
    foldl (carry_field current prior) (d, c, []) CARRY_FIELDS =
    (d ++ fields value CARRY_FIELDS, c ++ List.filter (from_prior current prior) CARRY_FIELDS,
     List.filter (owed current prior) CARRY_FIELDS))%list as Hf.
  { intros d c Hd. rewrite carry_fold by (intros n Hn ->; mem_absurd Hn).
    rewrite set_fields by first [done|apply carry_nodup].
    by rewrite (fields_ext value (own_or_prior current prior)) by done. }
  assert (incident_value tracking_id report_type current prior URI = own_or_prior current prior URI) as Hu by reflexivity.
  assert (value "resolvedAt" = dget "resolvedAt" current) as Hr by reflexivity.
  assert (Hi : keep_resolved_at (carry_incident_uri [("reportType", VStr report_type); ("providerTrackingId", VStr tracking_id)] current prior).1 current =
    fields value ["reportType"; "providerTrackingId"; URI; "resolvedAt"] /\
    (carry_incident_uri [("reportType", VStr report_type); ("providerTrackingId", VStr tracking_id)] current prior).2 =
    List.filter (from_prior current prior) [URI]).
  { rewrite !fields_cons, Hu, Hr. unfold carry_incident_uri, keep_resolved_at, own_or_prior.
    cbn [List.filter]. unfold from_prior. rewrite !own_uri.
    destruct (is_blank (vget URI current)), (is_blank (vget URI prior)), (dget "resolvedAt" current); split; reflexivity. }
  unfold incident_document. destruct (carry_incident_uri _ current prior) as [d0 c0]. cbn [fst snd] in Hi.
  destruct Hi as [-> ->]. rewrite Hf.
  - rewrite fields_app. rewrite <-List.filter_app. reflexivity.
  - intros n Hn [Hk _]%dkeys_fields. unfold CARRY_FIELDS in Hn. elem_cases Hn; mem_absurd Hk.
Qed.

Lemma incident_document_get n : dget n (incident_document tracking_id report_type current prior).1.1 = value n.
Proof.
  rewrite incident_document_eq. cbn [fst]. rewrite dget_fields. destruct (mem_spec n (["reportType"; "providerTrackingId"; URI; "resolvedAt"] ++ CARRY_FIELDS)%list) as [|Hn]; [done|].
  unfold incident_value. rewrite !bool_decide_false by (intros ->; apply Hn; in_list).
  rewrite (proj2 (mem_false n _)); [done|]. intros [ ->|H]%elem_of_cons; apply Hn; [in_list|]. set_solver.
Qed.
End incident_document.

Lemma bool_filter_none {A} (f : A -> bool) l : (forall x, x ∈ l -> f x = false) -> List.filter f l = [].
Proof.
  induction l as [|x l IH]; [done|]. intros H. cbn [List.filter]. rewrite H by left. apply IH. intros y Hy. apply H. by right.
Qed.

(** A value of its own stays one when it is stored and read again. *)
Lemma own_stable d w n : own d n = Some w -> forall d', dget n d' = Some w -> own d' n = Some w.
Proof.
  unfold own, authored, vget. case_bool_decide as E; [subst n|]; intros H d' Hd; rewrite Hd; cbn [default from_option id].
  - destruct (is_blank _) eqn:Eb in H; [done|]. injection H as <-. destruct (stripped_spec _ Eb) as [-> ->]. done.
  - destruct (dget n d) as [v|]; [|done]. destruct (has_content v) eqn:Ec; [|done]. injection H as ->. by rewrite Ec.
Qed.

Lemma own_none d' n : dget n d' = None -> own d' n = None.
Proof. intros Hn. unfold own, authored, vget. case_bool_decide; [subst n|]; by rewrite Hn. Qed.

Section reseed.
Context (tracking_id report_type : string) (current prior again : json_obj).
Notation value := (incident_value tracking_id report_type).
Hypothesis stored : forall n, dget n again = value current prior n.

Lemma reseed_own n : n ∈ URI :: CARRY_FIELDS -> own again n = own_or_prior current prior n.
Proof.
  intros Hn. assert (dget n again = own_or_prior current prior n) as E.
  { rewrite stored. unfold incident_value. rewrite (proj2 (mem_true n _)) by done.
    unfold CARRY_FIELDS in Hn. elem_cases Hn; reflexivity. }
  destruct (own_or_prior current prior n) as [w|] eqn:Ew; [|by apply own_none].
  unfold own_or_prior in Ew. destruct (own current n) eqn:Ec; [injection Ew as ->|]; eapply own_stable; eauto.
Qed.

Lemma reseed_keeps n : n ∈ URI :: CARRY_FIELDS ->
  own_or_prior again prior n = own_or_prior current prior n /\ from_prior again prior n = false.
Proof.
  intros Hn. unfold from_prior, own_or_prior at 1. rewrite reseed_own by done. unfold own_or_prior.
  destruct (own current n); [done|]. by destruct (own prior n).
Qed.

Lemma reseed_document :
  incident_document tracking_id report_type again prior =
  ((incident_document tracking_id report_type current prior).1.1, [], (incident_document tracking_id report_type current prior).2).
Proof.
  rewrite !incident_document_eq. cbn [fst snd]. f_equal; [f_equal|].
  - apply fields_ext. intros n _. unfold incident_value. repeat (case_bool_decide; [try done|]).
    destruct (mem_spec n (URI :: CARRY_FIELDS)); [|done]. by apply reseed_keeps.
  - apply bool_filter_none. intros n Hn. apply (reseed_keeps n Hn).
  - apply List.filter_ext_in. intros n Hn%list_elem_of_In. unfold owed.
    by rewrite (proj1 (reseed_keeps n ltac:(by right))).
Qed.
End reseed.

Lemma length_app_str (s t : string) : String.length (s +:+ t) = (String.length s + String.length t)%nat.
Proof. induction s as [|c s IH]; [done|]. rewrite app_cons_str. cbn [String.length]. by rewrite IH. Qed.

Lemma str_has_app c s t : str_has c (s +:+ t) = str_has c s || str_has c t.
Proof. induction s as [|d s IH]; [done|]. rewrite app_cons_str. cbn [str_has]. by rewrite IH, orb_assoc. Qed.

(** Reports of two incidents, or two reports of one, never share a key. *)
Lemma incident_key_inj t1 r1 t2 r2 : str_has "/" t1 = false -> str_has "/" t2 = false ->
  incident_key t1 r1 = incident_key t2 r2 -> t1 = t2 /\ r1 = r2.
Proof.
  unfold incident_key. revert t2. induction t1 as [|c t1 IH]; intros [|d t2] H1 H2; str_simp.
  - intros [= ->]. done.
  - intros [= <- _]. done.
  - intros [= -> _]. done.
  - cbn [str_has] in H1, H2. apply orb_false_iff in H1 as [_ H1], H2 as [_ H2]. intros [= <- E].
    destruct (IH t2 H1 H2 E) as [-> ->]. done.
Qed.

Lemma validate_tracking_id_ok ptid rt tid : validate_tracking_id ptid rt = Ok tid ->
  tid = strip ptid /\ str_truthy tid = true /\ str_has "/" tid = false /\
  Z.of_nat (String.length (incident_key tid rt)) <= DOCUMENT_KEY_MAX_LENGTH.
Proof.
  unfold validate_tracking_id. destruct (str_truthy (strip ptid)) eqn:E1; [|done]. cbn [negb].
  destruct (str_has "/" (strip ptid)) eqn:E2; [done|]. destruct (Z.ltb_spec DOCUMENT_KEY_MAX_LENGTH (Z.of_nat (String.length (strip ptid)) + 1 + Z.of_nat (String.length rt))); [done|].
  intros [= <-]. split; [done|]. split; [done|]. split; [done|]. unfold incident_key.
  rewrite !length_app_str. cbn [String.length]. lia.
Qed.

Lemma index_of_before x l i : index_of x l = Ok i -> 0 <= i /\ x ∉ take (Z.to_nat i) l.
Proof.
  revert i. induction l as [|y l IH]; intros i; [done|]. cbn [index_of]. case_decide as E.
  - intros [= <-]. split; [done|]. apply not_elem_of_nil.
  - destruct (index_of x l) as [n|]; [|done]. intros [= <-]. destruct (IH n eq_refl) as [H0 Hn].
    split; [lia|]. rewrite Z2Nat.inj_add by lia. rewrite Nat.add_comm. cbn [Nat.add take Z.to_nat Pos.to_nat].
    apply not_elem_of_cons. done.
Qed.

Section seeded.
Context {St : Type} `{!DocStore St}.
Implicit Types st : St.

(** The earlier reports of an incident lie under other keys. *)
Lemma prior_report_ext st st' sid tid rt :
  (forall c, c <> rt -> doc_at st' sid "incident" (Some (incident_key tid c)) = doc_at st sid "incident" (Some (incident_key tid c))) ->
  prior_report st' sid tid rt = prior_report st sid tid rt.
Proof.
  intros E. unfold prior_report. destruct (index_of rt LIFECYCLE) as [idx|] eqn:Ei; [|done].
  assert (rt ∉ rev (take (Z.to_nat idx) LIFECYCLE)) as Hn.
  { rewrite list_elem_of_In, <-in_rev, <-list_elem_of_In. by apply index_of_before. }
  induction (rev _) as [|c l IH]; [done|]. apply not_elem_of_cons in Hn as [Hc Hl]. cbn [walk_back].
  rewrite E by done. destruct (doc_at st _ _ _); [done|]. by apply IH.
Qed.

(** incident reports keep what was authored and say what was carried. An id
    that cannot make a key of its own is refused. Otherwise, on a store that takes
    the report, exactly the document at [id/type] is written; each of its fields
    is the caller's, or this report's own value, or else that of the closest
    earlier report filed for the same incident - except the time of resolution,
    which is never taken from another report; the fields carried over and the
    fields still owed are named exactly, a bad time of resolution among them for a
    final report; and seeding the same report again writes the same document and
    carries nothing. *)
Theorem incident_continuity sid ptid rt st :
  match validate_tracking_id ptid rt with
  | Err e => seed_incident sid ptid rt st = Err e
  | Ok tid =>
      let key := incident_key tid rt in
      let current := stored_obj (doc_at st sid "incident" (Some key)) in
      let prior := (prior_report st sid tid rt).2 in
      (forall ptid' rt' tid', validate_tracking_id ptid' rt' = Ok tid' ->
         incident_key tid' rt' = key -> tid' = tid /\ rt' = rt) /\
      if writable st sid "incident" then
        exists r st', seed_incident sid ptid rt st = Ok (r, st') /\ ir_document_key r = key /\
          doc_at st' sid "incident" (Some key) = Some (dc_document (ir_document r)) /\
          (forall sid' kind' key', (sid', kind', key') <> (sid, "incident", Some key) ->
             doc_at st' sid' kind' key' = doc_at st sid' kind' key') /\
          (forall n, dget n (dc_document (ir_document r)) = incident_value tid rt current prior n) /\
          ir_carried_fields r = List.filter (from_prior current prior) (URI :: CARRY_FIELDS) /\
          ir_missing_advisory r = List.filter (owed current prior) CARRY_FIELDS /\
          ((exists why, ("resolvedAt", why) ∈ ir_missing_required r) <->
             rt = "Final" /\ parses_as_iso8601_instant (vget "resolvedAt" current) = false) /\
          exists r2 st2, seed_incident sid ptid rt st' = Ok (r2, st2) /\
            dc_document (ir_document r2) = dc_document (ir_document r) /\ ir_carried_fields r2 = [] /\
            ir_carried_from r2 = None /\ ir_missing_required r2 = ir_missing_required r /\
            ir_missing_advisory r2 = ir_missing_advisory r
      else is_ok (seed_incident sid ptid rt st) = false
  end.
Proof.
  destruct (validate_tracking_id ptid rt) as [tid|e] eqn:Ev; [|unfold seed_incident; by rewrite Ev].
  cbv zeta. destruct (validate_tracking_id_ok _ _ _ Ev) as (_ & _ & Hs & _). split.
  { intros ptid' rt' tid' Ev' E. destruct (validate_tracking_id_ok _ _ _ Ev') as (_ & _ & Hs' & _).
    by apply incident_key_inj. }
  set (cur := stored_obj _). set (pr := (prior_report st sid tid rt).2).
  destruct (writable st sid "incident") eqn:Ew.
  2:{ unfold seed_incident. rewrite Ev. cbn [res_bind]. fold cur pr.
      edestruct put_refuses as [e ->]; [exact Ew|done]. }
  set (out := incident_document tid rt cur pr).
  destruct (put_writes sid "incident" out.1.1 (Some (incident_key tid rt)) st Ew) as (row & st' & Ep & Er & Hat & Ho & Hw).
  eexists _, st'. split; [unfold seed_incident; rewrite Ev; cbn [res_bind]; fold cur pr out; rewrite Ep; reflexivity|].
  cbn [ir_document_key ir_document ir_carried_fields ir_missing_advisory ir_missing_required fst snd]. rewrite Er.
  split; [done|]. split; [exact Hat|]. split; [exact Ho|].
  split; [intros n; apply incident_document_get|].
  split; [unfold out; by rewrite incident_document_eq|]. split; [unfold out; by rewrite incident_document_eq|].
  split.
  { assert (vget "resolvedAt" out.1.1 = vget "resolvedAt" cur) as E
      by (unfold vget, out; rewrite incident_document_get; reflexivity).
    unfold incident_missing. rewrite E. setoid_rewrite elem_of_app.
    assert (forall why, ("resolvedAt", why) ∉ (if dhas URI out.1.1 then [] else
      [(URI, "no authored certificationPackageOverviewUri on this report or the most recent prior report -- never invented")])) as Hu.
    { intros why. destruct (dhas URI out.1.1); [apply not_elem_of_nil|]. by intros [= ?]%list_elem_of_singleton. }
    unfold resolved_at_problem. case_bool_decide as Ef; [|by split; [intros [? [?%Hu|?%not_elem_of_nil]]|intros [? _]]].
    destruct (vget "resolvedAt" cur) eqn:Er'; cbn [is_none];
      try (split; [done|intros _; eexists; right; left]).
    cbn [parses_as_iso8601_instant]. destruct (parses_as_instant s) eqn:Ei; cbn [negb].
    - split; [intros [? [?%Hu|?%not_elem_of_nil]]; done|intros [_ ?]; done].
    - split; [done|]. intros _. eexists. right. left. }
  destruct (put_writes sid "incident" out.1.1 (Some (incident_key tid rt)) st' ltac:(by rewrite Hw)) as (row2 & st2 & Ep2 & Er2 & _).
  assert (incident_document tid rt (stored_obj (doc_at st' sid "incident" (Some (incident_key tid rt))))
    (prior_report st' sid tid rt).2 = (out.1.1, [], out.2)) as E2.
  { rewrite (prior_report_ext st st' sid tid rt) by (intros c Hc; apply Ho; intros [= E]; apply incident_key_inj in E as [_ ?]; done).
    rewrite Hat. apply reseed_document. intros n. apply incident_document_get. }
  eexists _, st2. split.
  { unfold seed_incident. rewrite Ev. cbn [res_bind]. rewrite E2. cbn [fst snd]. rewrite Ep2. reflexivity. }
  cbn [ir_document ir_carried_fields ir_carried_from ir_missing_required ir_missing_advisory fst snd]. by rewrite Er2.
Qed.
End seeded.

(** ** Significant changes: lemmas *)

(** A query by a unique key never finds two rows. *)
Lemma one_by_key {A} (f : A -> string) k (l : list A) : NoDup (map f l) ->
  exists o, scalar_one_or_none (filter (fun x => f x = k) l) = Ok o /\ (o = None <-> k ∉ map f l).
Proof.
  induction l as [|x l IH]; cbn [map].
  - intros _. exists None. split; [done|]. split; [intros _; apply not_elem_of_nil|done].
  - intros [Hx Hl]%NoDup_cons. destruct (decide (f x = k)) as [E|E].
    + rewrite filter_cons_True by done.
      rewrite filter_none; [|intros y Hy Ey; apply Hx; rewrite E, <-Ey; by apply (list_elem_of_fmap_2 f)].
      exists (Some x). split; [done|]. split; [done|]. intros Hn. destruct Hn. rewrite E. left.
    + rewrite filter_cons_False by done. destruct (IH Hl) as (o & -> & Ho). exists o. split; [done|].
      rewrite Ho, not_elem_of_cons. split; [intros ?; split; [by intros ->|done]|tauto].
Qed.

Section catalog.
Context (cat : ScnCatalog) (Hc : NoDup (sc_controls cat)) (Hk : NoDup (map lower (sc_ksis cat))).

Lemma one_by_key_mem {A B} (f : A -> string) k (l : list A) (p : B) : NoDup (map f l) ->
  (let! found := scalar_one_or_none (filter (fun x => f x = k) l) in
   Ok (match found with None => Some p | Some _ => None end)) = Ok (if mem k (map f l) then None else Some p).
Proof.
  intros Hn. destruct (one_by_key f k l Hn) as (o & -> & Ho). cbn [res_bind]. f_equal.
  destruct (mem_spec k (map f l)) as [Hm|Hm], o as [o|]; try done.
  - by destruct (proj1 Ho eq_refl).
  - by specialize (proj2 Ho Hm).
Qed.

Lemma resolve_entry_spec i e : resolve_entry cat i e = Ok (entry_problem cat i e).
Proof.
  unfold resolve_entry, entry_problem. destruct e as [| | | |s| |]; try done.
  destruct (is_blank (VStr s)); [done|]. destruct (canonicalize (Some s)) as [c|].
  - etransitivity; [apply (one_by_key_mem id); by rewrite map_id|]. by rewrite map_id.
  - by apply one_by_key_mem.
Qed.

Lemma resolve_impacted_spec v : resolve_impacted_controls cat v = Ok (entry_problems cat v).
Proof.
  destruct v as [| | | | |l|]; try done. unfold resolve_impacted_controls, entry_problems.
  assert (forall i, resolve_entries cat (Z.of_nat i) l =
    Ok (omap id (imap (fun j e => entry_problem cat (Z.of_nat (i + j)) e) l))) as H; [|exact (H 0%nat)].
  induction l as [|e l IH]; intros i; [done|]. cbn [resolve_entries imap]. rewrite resolve_entry_spec. cbn [res_bind].
  replace (Z.of_nat i + 1) with (Z.of_nat (S i)) by lia. rewrite IH. cbn [res_bind omap list_omap]. rewrite Nat.add_0_r.
  unfold id at 3. f_equal.
  assert (imap (fun j e => entry_problem cat (Z.of_nat (S i + j)) e) l =
          imap ((fun j e => entry_problem cat (Z.of_nat (i + j)) e) ∘ S) l) as ->
    by (apply imap_ext; intros; cbn; f_equal; lia).
  by destruct (entry_problem cat (Z.of_nat i) e).
Qed.
End catalog.

Definition scn_names : list string := ["changeType"; URI; "changeDescription"] ++ SCN_AUTHORED_FIELDS.

Lemma scn_nodup : NoDup SCN_AUTHORED_FIELDS.
Proof. apply (bool_decide_unpack (NoDup SCN_AUTHORED_FIELDS)). vm_compute. exact I. Qed.

Section scn_document.
Context (change_type : string) (current : json_obj).
Notation value := (scn_value change_type current).

Lemma scn_fold names d m :
  foldl (scn_field change_type current) (d, m) names =
  (foldl (fun d n => match scn_kept change_type current n with Some v => dset n v d | None => d end) d names,
   m ++ List.filter (fun n => is_none_o (scn_kept change_type current n)) names)%list.
Proof.
  revert d m. induction names as [|n names IH]; intros d m; [by rewrite app_nil_r|]. cbn [foldl List.filter].
  unfold scn_field at 2. destruct (scn_kept change_type current n); cbn [is_none_o]; rewrite IH; [done|]. by rewrite <-app_assoc.
Qed.

Lemma scn_value_authored n : n ∈ SCN_AUTHORED_FIELDS -> value n = scn_kept change_type current n.
Proof.
  intros Hn. unfold scn_value. rewrite (proj2 (mem_true n _)) by done. unfold SCN_AUTHORED_FIELDS in Hn. elem_cases Hn; reflexivity.
Qed.

Lemma scn_document_eq :
  scn_document change_type current =
  (fields value scn_names, List.filter (fun n => is_none_o (scn_kept change_type current n)) SCN_AUTHORED_FIELDS).
Proof.
  assert (value URI = own current URI) as Hu by reflexivity.
  assert (value "changeDescription" = if is_blank (vget "changeDescription" current) then None else Some (vget "changeDescription" current)) as Hd
    by reflexivity.
  unfold scn_document. cbv zeta. set (d0 := if is_blank (vget "changeDescription" current) then _ else _).
  assert (d0 = fields value ["changeType"; URI; "changeDescription"]) as ->.
  { rewrite !fields_cons, Hu, Hd, own_uri. unfold d0, carry_uri.
    destruct (is_blank (vget URI current)), (is_blank (vget "changeDescription" current)); reflexivity. }
  rewrite scn_fold, set_fields by first [exact scn_nodup|intros n Hn [Hk _]%dkeys_fields;
    unfold SCN_AUTHORED_FIELDS in Hn; elem_cases Hn; mem_absurd Hk].
  unfold scn_names. rewrite fields_app. rewrite (fields_ext value (scn_kept change_type current) SCN_AUTHORED_FIELDS); [done|]. apply scn_value_authored.
Qed.

Lemma scn_document_get n : dget n (scn_document change_type current).1 = value n.
Proof.
  rewrite scn_document_eq. cbn [fst]. rewrite dget_fields. destruct (mem_spec n scn_names) as [|Hn]; [done|].
  unfold scn_value. rewrite !bool_decide_false by (intros ->; apply Hn; in_list).
  rewrite (proj2 (mem_false n _)); [done|]. intros H. apply Hn. unfold scn_names. set_solver.
Qed.
End scn_document.

Lemma authored_stable d n w d' : authored n d = Some w -> dget n d' = Some w -> authored n d' = Some w.
Proof.
  unfold authored. intros Hd ->. destruct (dget n d) as [v|]; [|done].
  destruct (has_content v) eqn:E; [|done]. injection Hd as ->. by rewrite E.
Qed.

(** An amended notice: the fields of the notice stored before, under the new
    category; its justification only under the same category. *)
Lemma scn_amended ct ct' current again n : (forall n, dget n again = scn_value ct current n) ->
  scn_value ct' again n =
    if bool_decide (n = "changeType") then Some (VStr ct')
    else if bool_decide (n = "changeTypeExplanation") && negb (bool_decide (ct' = ct)) then None
    else scn_value ct current n.
Proof.
  intros Hs. assert (Hv : forall k, vget k again = default VNone (scn_value ct current k)) by (intros k; unfold vget; by rewrite Hs).
  unfold scn_value at 1. case_bool_decide as E1; [done|]. case_bool_decide as E2.
  { subst n. rewrite Hv. change (scn_value ct current "changeDescription") with
      (if is_blank (vget "changeDescription" current) then None else Some (vget "changeDescription" current)).
    rewrite bool_decide_false by done. destruct (is_blank (vget "changeDescription" current)) eqn:E; [done|].
    cbn [default from_option id andb]. by rewrite E. }
  case_bool_decide as E3.
  { subst n. rewrite own_uri, Hv. change (scn_value ct current URI) with (own current URI). rewrite own_uri.
    rewrite (bool_decide_false (URI = _)) by done. destruct (is_blank (vget URI current)) eqn:E; [done|]. cbn [default from_option id andb]. destruct (stripped_spec _ E) as [-> ->]. done. }
  destruct (mem_spec n SCN_AUTHORED_FIELDS) as [Hn|Hn].
  2:{ rewrite bool_decide_false by (intros ->; apply Hn; in_list). cbn [andb]. unfold scn_value.
      rewrite !bool_decide_false by done. by rewrite (proj2 (mem_false n _)). }
  rewrite scn_value_authored by done. unfold scn_kept. case_bool_decide as E4; cbn [andb].
  - subst n. rewrite !Hv. change (scn_value ct current "changeType") with (Some (VStr ct)). cbn [default from_option id py_eq].
    rewrite scn_value_authored by done. unfold scn_kept. rewrite (bool_decide_true ("changeTypeExplanation" = _)) by done.
    case_bool_decide as E5; [subst ct'; rewrite bool_decide_true by done|by rewrite bool_decide_false by congruence].
    cbn [andb negb]. destruct (py_eq _ _ && has_content _) eqn:E6; cbn [default from_option id]; [|done].
    apply andb_true_iff in E6 as [_ ->]. done.
  - assert (dget n again = authored n current) as Ea.
    { rewrite Hs, scn_value_authored by done. unfold scn_kept. by rewrite bool_decide_false. }
    destruct (authored n current) as [w|] eqn:Ew; [by eapply authored_stable|]. unfold authored. by rewrite Ea.
Qed.

Section scn.
Context {St : Type} `{!DocStore St} (cat : ScnCatalog).
Implicit Types st : St.

Lemma seed_scn_ok sid ref ct st key unknown :
  validate_change_ref ref = Ok key -> writable st sid "scn" = true ->
  let current := stored_obj (doc_at st sid "scn" (Some key)) in
  resolve_impacted_controls cat (default VNone (scn_value ct current "impactedControls")) = Ok unknown ->
  exists r st', seed_scn cat sid ref ct st = Ok (r, st') /\ sr_document_key r = key /\
    doc_at st' sid "scn" (Some key) = Some (dc_document (sr_document r)) /\
    (forall sid' kind' key', (sid', kind', key') <> (sid, "scn", Some key) ->
       doc_at st' sid' kind' key' = doc_at st sid' kind' key') /\
    (forall sid' kind', writable st' sid' kind' = writable st sid' kind') /\
    (forall n, dget n (dc_document (sr_document r)) = scn_value ct current n) /\
    sr_missing_advisory r = List.filter (fun n => is_none_o (scn_kept ct current n)) SCN_AUTHORED_FIELDS /\
    sr_unrecognised_controls r = unknown.
Proof.
  intros Ev Ew. cbv zeta. set (cur := stored_obj _). intros Eu. set (out := scn_document ct cur).
  destruct (put_writes sid "scn" out.1 (Some key) st Ew) as (row & st' & Ep & Er & Hat & Ho & Hw).
  eexists _, st'. split.
  { unfold seed_scn. rewrite Ev. cbn [res_bind]. fold cur out. unfold vget, out. rewrite scn_document_get. rewrite Eu.
    cbn [res_bind]. fold out. rewrite Ep. reflexivity. }
  cbn [sr_document_key sr_document sr_missing_advisory sr_unrecognised_controls fst snd]. rewrite Er.
  do 4 (split; [done|]). split; [intros n; apply scn_document_get|]. split; [|done].
  unfold out. by rewrite scn_document_eq.
Qed.

(** a change notice keeps what was authored under its category. A blank or
    overlong reference is refused. Otherwise only the document at that reference
    is written: the given category, every authored field word for word (the URI
    stripped), and the justification of the category only if it was written for
    that category; what is owed is named exactly, and with unique catalog
    identifiers the entries of impactedControls that are not in the catalog. An
    amendment under a category [ct'] keeps every field of the notice, except that
    another category drops the justification. *)
Theorem scn_amendment_keeps_authored sid ref ct st :
  match validate_change_ref ref with
  | Err e => seed_scn cat sid ref ct st = Err e
  | Ok key =>
      let current := stored_obj (doc_at st sid "scn" (Some key)) in
      let entries := default VNone (scn_value ct current "impactedControls") in
      (NoDup (sc_controls cat) -> NoDup (map lower (sc_ksis cat)) ->
         resolve_impacted_controls cat entries = Ok (entry_problems cat entries)) /\
      match resolve_impacted_controls cat entries, writable st sid "scn" with
      | Ok unknown, true =>
          exists r st', seed_scn cat sid ref ct st = Ok (r, st') /\ sr_document_key r = key /\
            doc_at st' sid "scn" (Some key) = Some (dc_document (sr_document r)) /\
            (forall sid' kind' key', (sid', kind', key') <> (sid, "scn", Some key) ->
               doc_at st' sid' kind' key' = doc_at st sid' kind' key') /\
            (forall n, dget n (dc_document (sr_document r)) = scn_value ct current n) /\
            sr_missing_advisory r = List.filter (fun n => is_none_o (scn_kept ct current n)) SCN_AUTHORED_FIELDS /\
            sr_unrecognised_controls r = unknown /\
            (forall ct', exists r2 st2, seed_scn cat sid ref ct' st' = Ok (r2, st2) /\
               sr_unrecognised_controls r2 = unknown /\
               forall n, dget n (dc_document (sr_document r2)) =
                 if bool_decide (n = "changeType") then Some (VStr ct')
                 else if bool_decide (n = "changeTypeExplanation") && negb (bool_decide (ct' = ct)) then None
                 else dget n (dc_document (sr_document r)))
      | _, _ => is_ok (seed_scn cat sid ref ct st) = false
      end
  end.
Proof.
  destruct (validate_change_ref ref) as [key|e] eqn:Ev; [|unfold seed_scn; by rewrite Ev]. cbv zeta.
  set (cur := stored_obj _). split; [intros; by apply resolve_impacted_spec|].
  destruct (resolve_impacted_controls cat _) as [unknown|e] eqn:Eu.
  2:{ unfold seed_scn. rewrite Ev. cbn [res_bind]. fold cur. unfold vget. rewrite scn_document_get. by rewrite Eu. }
  destruct (writable st sid "scn") eqn:Ew.
  2:{ unfold seed_scn. rewrite Ev. cbn [res_bind]. fold cur. unfold vget. rewrite scn_document_get, Eu. cbn [res_bind].
      by edestruct put_refuses as [e ->]; [exact Ew|]. }
  destruct (seed_scn_ok sid ref ct st key unknown Ev Ew Eu) as (r & st' & E & Hk & Hat & Ho & Hw & Hd & Hm & Hr).
  fold cur in Hd, Hm. exists r, st'. do 7 (split; [done|]). intros ct'.
  assert (forall n, scn_value ct' (dc_document (sr_document r)) n = _) as Ha by (intros n; apply (scn_amended ct ct' cur); exact Hd).
  destruct (seed_scn_ok sid ref ct' st' key unknown Ev) as (r2 & st2 & E2 & _ & _ & _ & _ & Hd2 & _ & Hr2).
  { by rewrite Hw. }
  { rewrite Hat. cbn [stored_obj default from_option id]. rewrite Ha. exact Eu. }
  exists r2, st2. split; [done|]. split; [done|]. intros n. rewrite Hd2, Hat. cbn [stored_obj default from_option id].
  by rewrite Ha, Hd.
Qed.
End scn.

(** A catalog that spells its identifiers with leading zeros, as the workbook the
    catalog is imported from does, recognises none of its own controls. *)
Example padded_catalog :
  entry_problems {| sc_controls := ["AC-02"]; sc_ksis := [] |} (VList [VStr "AC-02"; VStr "AC-2"]) =
  [("AC-02", "not a known control"); ("AC-2", "not a known control")].
Proof. vm_compute. reflexivity. Qed.

(** ** Package overviews *)

Lemma dget_setdefault k k' v d :
  dget k (setdefault k' v d) = match dget k d with Some w => Some w | None => if bool_decide (k = k') then Some v else None end.
Proof.
  unfold setdefault, dhas. destruct (mem_spec k' (dkeys d)) as [Hk|Hk].
  - destruct (dget k d) eqn:E; [done|]. case_bool_decide; [|done]. subst k. by apply dget_None in E.
  - case_bool_decide as E.
    + subst k'. rewrite dget_dset_eq. apply dget_None in Hk. by rewrite Hk.
    + rewrite dget_dset_ne by done. by destruct (dget k d).
Qed.

Lemma dget_fill_defaults k values d :
  dget k (fill_defaults values d) = match dget k d with Some w => Some w | None => VStr <$> dget k values end.
Proof.
  unfold fill_defaults. revert d. induction values as [|[k' v] values IH]; intros d; cbn [foldl]; [by destruct (dget k d)|].
  rewrite IH, dget_setdefault. cbn [dget fst snd]. destruct (dget k d); [done|].
  destruct (decide (k = k')); [by rewrite bool_decide_true|by rewrite bool_decide_false].
Qed.

(** seeding the package overview only fills gaps. For a live system whose
    stored identification is an object, or empty, every field of the document and
    every field of the identification a person wrote is kept; only the provider's
    name, the service's name and its description are added where they are absent
    and known. Any other stored identification that is not a list of pairs makes
    the seed fail. *)
Theorem cpo_seed_fills_gaps {St : Type} `{!DocStore St} systems organizations sid (st : St) sys :
  systems st sid = Some sys -> writable st sid "cpo" = true ->
  let current := stored_obj (doc_at st sid "cpo" None) in
  let stored := vget "serviceIdentification" current in
  match (if truthy stored then to_dict stored else Ok []) with
  | Err e => seed_cpo systems organizations sid st = Err e
  | Ok identification =>
      (forall d, stored = VDict d -> identification = d) /\
      exists row st' filled, seed_cpo systems organizations sid st = Ok (row, st') /\
        doc_at st' sid "cpo" None = Some (dc_document row) /\
        dget "serviceIdentification" (dc_document row) = Some (VDict filled) /\
        (forall n, n <> "serviceIdentification" -> dget n (dc_document row) = dget n current) /\
        (forall k, dget k filled = match dget k identification with
                                   | Some v => Some v
                                   | None => VStr <$> dget k (seed_values sys (organizations (cs_organization_id sys))) end) /\
        (forall k, k ∈ dkeys filled -> k ∈ dkeys identification \/ k ∈ SEEDED_FIELDS)
  end.
Proof.
  intros Es Ew. cbv zeta. set (cur := stored_obj _). set (stored := vget _ cur).
  destruct (if truthy stored then _ else _) as [idn|e] eqn:Ei.
  2:{ unfold seed_cpo. rewrite Es. fold cur stored. by rewrite Ei. }
  split. { intros d E. rewrite E in Ei. destruct d; cbn in Ei; congruence. }
  set (values := seed_values sys _). set (doc := dset "serviceIdentification" (VDict (fill_defaults values idn)) cur).
  destruct (put_writes sid "cpo" doc None st Ew) as (row & st' & Ep & Er & Hat & _).
  exists row, st', (fill_defaults values idn). split; [unfold seed_cpo; rewrite Es; fold cur stored; rewrite Ei; exact Ep|].
  rewrite Er. split; [exact Hat|]. split; [apply dget_dset_eq|]. split; [intros n Hn; by apply dget_dset_ne|].
  split; [intros k; exact (dget_fill_defaults k values idn)|]. intros k Hk. destruct (decide (k ∈ dkeys idn)) as [|Hn]; [by left|]. right.
  apply dget_None in Hn. assert (dget k (fill_defaults values idn) <> None) as Hs by (by rewrite dget_None; intros ?).
  rewrite dget_fill_defaults, Hn in Hs. destruct (dget k values) as [v|] eqn:Ev; [|done]. apply dget_Some_elem in Ev.
  unfold values, seed_values in Ev. destruct (organizations _), (cs_description sys); cbn [app] in Ev; unfold SEEDED_FIELDS; set_solver.
Qed.

Lemma cpo_seed_witness :
  exists row st', seed_cpo (St := CrDb) (H := store_instance true demo_schema) live_system (fun _ => Some "Acme") 1 demo_store = Ok (row, st') /\
    dget "serviceIdentification" (dc_document row) = Some (VDict [("providerName", VStr "Acme"); ("serviceName", VStr "Prod")]).
Proof.
  pose proof (@cpo_seed_fills_gaps CrDb (store_instance true demo_schema) live_system (fun _ => Some "Acme") 1 demo_store
    {| cs_id := 1; cs_organization_id := 5; cs_name := "Prod"; cs_description := None; cs_deleted_at := None |} eq_refl eq_refl) as H.
  destruct H as [_ (row & st' & filled & E & _)]. exists row, st'. split; [exact E|].
  vm_compute in E. injection E as <- _. vm_compute. reflexivity.
Defined.
