(* ===== verification/Cr26Ver.v ===== *)
(** The CR26 vulnerability reports ([src/src/ccf/cr26/ver.py]): the vulnerability
    detail report, the accepted vulnerability information and the historical
    activity, rendered from a system's POA&Ms and filed in any [DocStore].

    [walk_row] and [render_all] place every row once; [merge_accepted] joins the
    accepted half with the stored document and with the column that keeps each
    acceptance rationale; [seed_ver] files the document and writes promoted
    rationales back. *)

From S2P Require Export Cr26Seed Json Sla ControlTests.

Local Open Scope string_scope.
Local Open Scope Z_scope.

(** ** Row ids and their order *)

Inductive RowId := RInt (z : Z) | RStr (s : string).

#[export] Instance RowId_eq_dec : EqDecision RowId.
Proof. solve_decision. Defined.

Notation OmittedRow := (RowId * string)%type.

(** [_as_row_id]: [int(tid)] where it parses. *)
Definition as_row_id (tid : string) : RowId := match py_int tid with Ok z => RInt z | Err _ => RStr tid end.

(** [_id_sort_key]: numbers first, then text. *)
Definition id_le (a b : RowId) : bool :=
  match a, b with
  | RInt x, RInt y => x <=? y
  | RInt _, RStr _ => true
  | RStr _, RInt _ => false
  | RStr s, RStr t => str_leb s t
  end.
Definition by_row_id {A} (x y : RowId * A) : bool := id_le x.1 y.1.

(** ** One row *)

(** The columns [ccf.patching.sla] reads. *)
Definition sla_view (p : POAM) : Poam :=
  {| poam_id := pm_id p; poam_source := pm_source p; poam_severity := Some (pm_severity p);
     poam_status := pm_status p; identified_on := pm_identified_on p; closed_on := pm_closed_on p |}.

Fixpoint first_written (values : list pyval) : option string :=
  match values with
  | [] => None
  | v :: rest => if is_blank v then first_written rest else Some (stripped v)
  end.

Definition detected_at (p : POAM) : option string :=
  (fun d => date_iso d +:+ "T00:00:00Z") <$> pm_identified_on p.

Definition OVERDUE_BY_BUCKET : list (string * bool) := [("breached", true); ("within_sla", false)].

Definition overdue_status (p : POAM) (today : Z) (w : RemediationWindow) : option json_obj :=
  let bucket := Sla.classify (sla_view p) (days_for w (Some (pm_severity p))) today in
  (fun b => [("isOverdue", VBool b)]) <$> dget bucket OVERDUE_BY_BUCKET.

Definition render_vulnerability (p : POAM) (today : Z) (w : RemediationWindow) : option json_obj * list string :=
  let at_ := detected_at p in
  let source := first_written [opt_val (pm_scanner p); opt_val (pm_source p)] in
  let description := first_written [opt_val (pm_weakness p); VStr (pm_title p)] in
  match at_, source, description with
  | Some at_, Some source, Some description =>
      (Some ([("providerTrackingId", VStr (pretty (pm_id p)));
              ("detection", VDict [("detectedAt", VStr at_); ("detectionSource", VStr source)]);
              ("vulnerabilityDescription", VStr description)] ++
             match overdue_status p today w with Some o => [("overdueStatus", VDict o)] | None => [] end)%list, [])
  | _, _, _ =>
      (None, (match at_ with None => ["no identification date"] | _ => [] end ++
              match source with None => ["no detection source"] | _ => [] end ++
              match description with None => ["no description"] | _ => [] end)%list)
  end.

(** ** The walk *)

Record WalkCounts := { wc_not_a_flaw : Z; wc_outside_period : Z; wc_rendered : Z; wc_omitted : Z }.

Record VerRendering := {
  vr_active : list json_obj;
  vr_accepted : list json_obj;
  vr_omitted : list OmittedRow;
  vr_counts : WalkCounts;
  vr_unplaced : list (string * list string);
  vr_excluded : gset string;
  vr_column_rationale : list (string * string) }.

Definition empty_rendering : VerRendering :=
  {| vr_active := []; vr_accepted := []; vr_omitted := [];
     vr_counts := {| wc_not_a_flaw := 0; wc_outside_period := 0; wc_rendered := 0; wc_omitted := 0 |};
     vr_unplaced := []; vr_excluded := ∅; vr_column_rationale := [] |}.

(** A datetime: its local reading in microseconds, its offset from UTC in
    microseconds unless it is naive, and its [repr]. *)
Record Datetime := { dt_local : Z; dt_utcoffset : option Z; dt_repr : string }.

(** [_instant] *)
Definition instant (v : Datetime) : res string :=
  match dt_utcoffset v with
  | None => Err (ValueError ("a naive datetime has no instant: supply a timezone-aware value (got " +:+ dt_repr v +:+ ")"))
  | Some offset =>
      let us := dt_local v - offset in
      let s := (us mod day_us) / 1000000 in
      Ok (date_iso (dt_date us) +:+ "T" +:+ zfill 2 (s / 3600) +:+ ":" +:+ zfill 2 (s / 60 mod 60) +:+ ":" +:+ zfill 2 (s mod 60) +:+ "Z")
  end.

Definition outside (bounds : option (string * string)) (at_ : option string) : bool :=
  match bounds, at_ with
  | Some (lo, hi), Some a => negb (str_leb lo a && str_leb a hi)
  | _, _ => false
  end.

Definition note_rationale (p : POAM) (columns : list (string * string)) : list (string * string) :=
  let rationale := opt_val (pm_acceptance_rationale p) in
  if is_blank rationale then columns else dset (pretty (pm_id p)) (stripped rationale) columns.

Definition walk_row (today : Z) (w : RemediationWindow) (bounds : option (string * string)) (out : VerRendering) (p : POAM)
    : VerRendering :=
  let columns := note_rationale p (vr_column_rationale out) in
  let c := vr_counts out in
  let put active accepted omitted counts unplaced excluded :=
    {| vr_active := active; vr_accepted := accepted; vr_omitted := omitted; vr_counts := counts;
       vr_unplaced := unplaced; vr_excluded := excluded; vr_column_rationale := columns |} in
  let exclude counts :=
    put (vr_active out) (vr_accepted out) (vr_omitted out) counts (vr_unplaced out) ({[pretty (pm_id p)]} ∪ vr_excluded out) in
  if negb (mem (or_empty (pm_source p)) FLAW_SOURCES) then
    exclude {| wc_not_a_flaw := wc_not_a_flaw c + 1; wc_outside_period := wc_outside_period c;
               wc_rendered := wc_rendered c; wc_omitted := wc_omitted c |}
  else if outside bounds (detected_at p) then
    exclude {| wc_not_a_flaw := wc_not_a_flaw c; wc_outside_period := wc_outside_period c + 1;
               wc_rendered := wc_rendered c; wc_omitted := wc_omitted c |}
  else
    let state := accepted_weakness_state (sla_view p) today in
    let unknown := if bool_decide (state = "unknown") then ["not measurable as accepted or not"] else [] in
    let '(detail, render_reasons) := render_vulnerability p today w in
    let reasons := (unknown ++ render_reasons)%list in
    match reasons, detail with
    | [], Some d =>
        let accepted := bool_decide (state = "accepted") in
        put (if accepted then vr_active out else vr_active out ++ [d])%list
            (if accepted then vr_accepted out ++ [d] else vr_accepted out)%list
            (vr_omitted out)
            {| wc_not_a_flaw := wc_not_a_flaw c; wc_outside_period := wc_outside_period c;
               wc_rendered := wc_rendered c + 1; wc_omitted := wc_omitted c |}
            (vr_unplaced out) (vr_excluded out)
    | _, _ =>
        put (vr_active out) (vr_accepted out) (vr_omitted out ++ map (pair (RInt (pm_id p))) reasons)%list
            {| wc_not_a_flaw := wc_not_a_flaw c; wc_outside_period := wc_outside_period c;
               wc_rendered := wc_rendered c; wc_omitted := wc_omitted c + 1 |}
            (dset (pretty (pm_id p)) reasons (vr_unplaced out)) (vr_excluded out)
    end.

Definition period_bounds (period : option (Datetime * Datetime)) : res (option (string * string)) :=
  match period with
  | None => Ok None
  | Some (from, to) => let! lo := instant from in let! hi := instant to in Ok (Some (lo, hi))
  end.

Definition render_all (poams : list POAM) (today : Z) (w : RemediationWindow) (period : option (Datetime * Datetime)) : res VerRendering :=
  let! bounds := period_bounds period in
  Ok (foldl (walk_row today w bounds) empty_rendering poams).

(** ** The accepted half *)

Definition tracking_id (entry : pyval) : option string :=
  match entry with
  | VDict e =>
      match vget "vulnerabilityDetail" e with
      | VDict d => let v := vget "providerTrackingId" d in if is_blank v then None else Some (stripped v)
      | _ => None
      end
  | _ => None
  end.

Record AcceptedMerge := {
  am_entries : list json_obj;
  am_omitted : list OmittedRow;
  am_rendered_rows : Z;
  am_omitted_rows : Z;
  am_dropped_entries : Z;
  am_promoted : list (Z * string) }.

(** The rationale of an id, and whether the document supplied it. *)
Definition resolve_rationale (tid : string) (authored_entry : option json_obj) (columns : list (string * string))
    : option string * bool :=
  let column_value := opt_val (dget tid columns) in
  if negb (is_blank column_value) then (Some (stripped column_value), false)
  else
    let authored_value := vget "acceptanceRationale" (default [] authored_entry) in
    if is_blank authored_value then (None, false) else (Some (stripped authored_value), true).

(** The first loop: the authored entries by id, the last of each winning. *)
Definition index_entry (st : list (string * json_obj) * list OmittedRow * Z) (ie : Z * pyval)
    : list (string * json_obj) * list OmittedRow * Z :=
  let '(by_id, omitted, dropped) := st in
  match tracking_id ie.2, ie.2 with
  | Some tid, VDict e =>
      if dhas tid by_id
      then (dset tid e by_id, omitted ++ [(as_row_id tid, "duplicate authored entry discarded")], dropped + 1)%list
      else (dset tid e by_id, omitted, dropped)
  | _, _ =>
      (by_id, omitted ++ [(RStr ("acceptedVulnerabilities[" +:+ pretty ie.1 +:+ "]"), "authored entry has no providerTrackingId")],
       dropped + 1)%list
  end.

Definition index_authored (authored : list pyval) : list (string * json_obj) * list OmittedRow * Z :=
  foldl index_entry ([], [], 0) (imap (fun i e => (Z.of_nat i, e)) authored).

Record MergeState := {
  mg_seen : list string;
  mg_merged : list (RowId * json_obj);
  mg_omitted : list OmittedRow;
  mg_rendered : Z;
  mg_omitted_rows : Z;
  mg_dropped : Z;
  mg_promoted : list (Z * string) }.

(** [if from_document and isinstance(row_id, int): promoted.append(...)] *)
Definition promotion (row_id : RowId) (rationale : string) (from_document : bool) : list (Z * string) :=
  match row_id with RInt z => if from_document then [(z, rationale)] else [] | RStr _ => [] end.

(** The second loop: the freshly rendered details. *)
Definition merge_derived (by_id : list (string * json_obj)) (columns : list (string * string)) (st : MergeState) (detail : json_obj)
    : MergeState :=
  let v := vget "providerTrackingId" detail in
  if is_blank v then st else
  let tid := stripped v in
  let row_id := as_row_id tid in
  match resolve_rationale tid (dget tid by_id) columns with
  | (None, _) =>
      {| mg_seen := tid :: mg_seen st; mg_merged := mg_merged st;
         mg_omitted := mg_omitted st ++ [(row_id, "no acceptance rationale")];
         mg_rendered := mg_rendered st; mg_omitted_rows := mg_omitted_rows st + 1; mg_dropped := mg_dropped st;
         mg_promoted := mg_promoted st |}%list
  | (Some rationale, from_document) =>
      {| mg_seen := tid :: mg_seen st;
         mg_merged := mg_merged st ++ [(row_id, [("vulnerabilityDetail", VDict detail); ("acceptanceRationale", VStr rationale)])];
         mg_omitted := mg_omitted st; mg_rendered := mg_rendered st + 1; mg_omitted_rows := mg_omitted_rows st;
         mg_dropped := mg_dropped st; mg_promoted := mg_promoted st ++ promotion row_id rationale from_document |}%list
  end.

(** The third loop: authored entries nothing was rendered for. *)
Definition merge_authored (unplaced : list (string * list string)) (excluded : gset string) (columns : list (string * string))
    (st : MergeState) (te : string * json_obj) : MergeState :=
  let '(tid, entry) := te in
  let row_id := as_row_id tid in
  let '(rationale, from_document) := resolve_rationale tid (Some entry) columns in
  let drop omitted :=
    {| mg_seen := mg_seen st; mg_merged := mg_merged st; mg_omitted := (mg_omitted st ++ [(row_id, omitted)])%list;
       mg_rendered := mg_rendered st; mg_omitted_rows := mg_omitted_rows st; mg_dropped := mg_dropped st + 1;
       mg_promoted := mg_promoted st |} in
  if mem tid (mg_seen st) then st
  else if bool_decide (tid ∈ excluded) then
    {| mg_seen := mg_seen st; mg_merged := mg_merged st; mg_omitted := mg_omitted st; mg_rendered := mg_rendered st;
       mg_omitted_rows := mg_omitted_rows st; mg_dropped := mg_dropped st;
       mg_promoted := (mg_promoted st ++ match rationale with Some r => promotion row_id r from_document | None => [] end)%list |}
  else
    match default [] (dget tid unplaced), rationale with
    | [], _ => drop "no longer an accepted vulnerability"
    | _, None => drop "no acceptance rationale"
    | reasons, Some r =>
        {| mg_seen := mg_seen st;
           mg_merged := mg_merged st ++ [(row_id, dset "acceptanceRationale" (VStr r) entry)];
           mg_omitted := mg_omitted st ++ map (fun reason => (row_id, "detail not refreshed: " +:+ reason)) reasons;
           mg_rendered := mg_rendered st; mg_omitted_rows := mg_omitted_rows st; mg_dropped := mg_dropped st;
           mg_promoted := mg_promoted st ++ promotion row_id r from_document |}%list
    end.

Definition merge_accepted (authored : list pyval) (derived : list json_obj) (unplaced : list (string * list string))
    (excluded : gset string) (columns : list (string * string)) : AcceptedMerge :=
  let '(by_id, omitted, dropped) := index_authored authored in
  let st := {| mg_seen := []; mg_merged := []; mg_omitted := omitted; mg_rendered := 0; mg_omitted_rows := 0;
               mg_dropped := dropped; mg_promoted := [] |} in
  let st := foldl (merge_derived by_id columns) st derived in
  let st := foldl (merge_authored unplaced excluded columns) st by_id in
  {| am_entries := map snd (stable_sort by_row_id (mg_merged st)); am_omitted := stable_sort by_row_id (mg_omitted st);
     am_rendered_rows := mg_rendered st; am_omitted_rows := mg_omitted_rows st; am_dropped_entries := mg_dropped st;
     am_promoted := mg_promoted st |}.

(** ** Seeding *)

Record Built := {
  bt_document : json_obj;
  bt_omitted : list OmittedRow;
  bt_rendered : Z;
  bt_merge_omitted : Z;
  bt_dropped_authored : Z;
  bt_promoted : list (Z * string) }.

Record SeedCounts := {
  sc_not_a_flaw : Z; sc_outside_period : Z; sc_other_half : Z; sc_rendered : Z; sc_omitted : Z; sc_dropped_authored : Z }.

Record VerSeedResult := { vs_document : Cr26Document; vs_omitted_poam_ids : list OmittedRow; vs_counts : SeedCounts }.

Definition seed_counts (rendering : VerRendering) (built : Built) : SeedCounts :=
  let walk := vr_counts rendering in
  {| sc_not_a_flaw := wc_not_a_flaw walk; sc_outside_period := wc_outside_period walk;
     sc_other_half := wc_rendered walk - bt_rendered built - bt_merge_omitted built;
     sc_rendered := bt_rendered built; sc_omitted := wc_omitted walk + bt_merge_omitted built;
     sc_dropped_authored := bt_dropped_authored built |}.

Definition set_pm_rationale (r : option string) (p : POAM) : POAM :=
  {| pm_id := pm_id p; pm_system_id := pm_system_id p; pm_control_id := pm_control_id p; pm_title := pm_title p;
     pm_weakness := pm_weakness p; pm_severity := pm_severity p; pm_status := pm_status p; pm_source := pm_source p;
     pm_remediation_plan := pm_remediation_plan p; pm_plan_source := pm_plan_source p;
     pm_identified_on := pm_identified_on p; pm_due_on := pm_due_on p; pm_original_due_on := pm_original_due_on p;
     pm_source_ref := pm_source_ref p; pm_scanner := pm_scanner p; pm_finding_uid := pm_finding_uid p;
     pm_closed_on := pm_closed_on p; pm_acceptance_rationale := r; pm_milestones := pm_milestones p; pm_details := pm_details p |}.

(** [_promote_rationales] on the rows of one system. *)
Definition promote (sid : Z) (poams : list POAM) (pr : Z * string) : list POAM :=
  map (fun p => if (pm_system_id p =? sid) && (pm_id p =? pr.1) && is_blank (opt_val (pm_acceptance_rationale p))
                then set_pm_rationale (Some pr.2) p else p) poams.
Definition promote_rationales (sid : Z) (promoted : list (Z * string)) (poams : list POAM) : list POAM :=
  foldl (promote sid) poams promoted.

(** [_poam_rows] *)
Definition poam_rows (sid : Z) (poams : list POAM) : list POAM := filter (fun p => pm_system_id p = sid) poams.

Definition instants (period : Datetime * Datetime) : res pyval :=
  let! lo := instant period.1 in let! hi := instant period.2 in Ok (VDict [("from", VStr lo); ("to", VStr hi)]).

Definition build_vdr (period : Datetime * Datetime) (r : VerRendering) (authored : list pyval) : res Built :=
  let! report := instants period in
  Ok {| bt_document := [("reportPeriod", report); ("vulnerabilities", VList (map VDict (vr_active r)))];
        bt_omitted := []; bt_rendered := Z.of_nat (List.length (vr_active r)); bt_merge_omitted := 0;
        bt_dropped_authored := 0; bt_promoted := [] |}.

Definition merge_of (r : VerRendering) (authored : list pyval) : AcceptedMerge :=
  merge_accepted authored (vr_accepted r) (vr_unplaced r) (vr_excluded r) (vr_column_rationale r).

(** A document with the accepted half, and the merge's figures. *)
Definition built_of (document : json_obj) (rendered : Z) (m : AcceptedMerge) : Built :=
  {| bt_document := document; bt_omitted := am_omitted m; bt_rendered := rendered; bt_merge_omitted := am_omitted_rows m;
     bt_dropped_authored := am_dropped_entries m; bt_promoted := am_promoted m |}.

Definition build_avi (period : Datetime * Datetime) (r : VerRendering) (authored : list pyval) : res Built :=
  let m := merge_of r authored in
  let! report := instants period in
  Ok (built_of [("reportPeriod", report); ("acceptedVulnerabilities", VList (map VDict (am_entries m)))] (am_rendered_rows m) m).

(** [now] is the clock, an aware time. *)
Definition build_ver_history (now : Datetime) (r : VerRendering) (authored : list pyval) : res Built :=
  let m := merge_of r authored in
  let! generated := instant now in
  Ok (built_of [("generatedAt", VStr generated); ("activeVulnerabilities", VList (map VDict (vr_active r)));
                ("acceptedVulnerabilities", VList (map VDict (am_entries m)))]
        (Z.of_nat (List.length (vr_active r)) + am_rendered_rows m) m).

Section ver_seed.
Context {St : Type} `{!DocStore St}.

(** The entries of the document the rationales are authored in. *)
Definition authored_in (st : St) (sid : Z) (kind : option string) : list pyval :=
  match kind with
  | None => []
  | Some k => match vget "acceptedVulnerabilities" (stored_obj (doc_at st sid k None)) with VList l => l | _ => [] end
  end.

Definition seed_ver (sid : Z) (kind : string) (build : VerRendering -> list pyval -> res Built) (today : Z)
    (period : option (Datetime * Datetime)) (authored_kind : option string) (s : list POAM * St)
    : res (VerSeedResult * (list POAM * St)) :=
  let '(poams, st) := s in
  let! rendering := render_all (poam_rows sid poams) today FEDRAMP_TIMEFRAMES period in
  let current := stored_obj (doc_at st sid kind None) in
  let! built := build rendering (authored_in st sid authored_kind) in
  let poams := promote_rationales sid (bt_promoted built) poams in
  let! stored := put sid kind (carry_uri (bt_document built) current) None st in
  Ok ({| vs_document := stored.1;
         vs_omitted_poam_ids := stable_sort by_row_id (vr_omitted rendering ++ bt_omitted built)%list;
         vs_counts := seed_counts rendering built |}, (poams, stored.2)).

Definition seed_vdr (sid : Z) (period : Datetime * Datetime) (today : Z) (s : list POAM * St)
    : res (VerSeedResult * (list POAM * St)) :=
  seed_ver sid "vdr" (build_vdr period) today (Some period) None s.

Definition seed_avi (sid : Z) (period : Datetime * Datetime) (today : Z) (s : list POAM * St)
    : res (VerSeedResult * (list POAM * St)) :=
  seed_ver sid "avi" (build_avi period) today (Some period) (Some "avi") s.

Definition seed_ver_history (sid : Z) (now : Datetime) (today : Z) (s : list POAM * St)
    : res (VerSeedResult * (list POAM * St)) :=
  seed_ver sid "ver_history" (build_ver_history now) today None (Some "avi") s.
End ver_seed.

(** ** Where a row goes

    The fate of one row, and the rendering as the rows' fates put together. *)

Inductive Fate :=
| NotAFlaw
| OutsidePeriod
| Unplaced (reasons : list string)
| Active (detail : json_obj)
| Accepted (detail : json_obj).

Section fate.
Context (today : Z) (w : RemediationWindow) (bounds : option (string * string)).

Definition fate (p : POAM) : Fate :=
  if negb (mem (or_empty (pm_source p)) FLAW_SOURCES) then NotAFlaw
  else if outside bounds (detected_at p) then OutsidePeriod
  else
    let state := accepted_weakness_state (sla_view p) today in
    let reasons := ((if bool_decide (state = "unknown") then ["not measurable as accepted or not"] else []) ++
                    (render_vulnerability p today w).2)%list in
    match reasons, (render_vulnerability p today w).1 with
    | [], Some d => if bool_decide (state = "accepted") then Accepted d else Active d
    | _, _ => Unplaced reasons
    end.

Definition tid_of (p : POAM) : string := pretty (pm_id p).
Definition rationale_of (p : POAM) : option string :=
  let v := opt_val (pm_acceptance_rationale p) in if is_blank v then None else Some (stripped v).

Definition active_part (p : POAM) : option json_obj := match fate p with Active d => Some d | _ => None end.
Definition accepted_part (p : POAM) : option json_obj := match fate p with Accepted d => Some d | _ => None end.
Definition unplaced_part (p : POAM) : option (string * list string) :=
  match fate p with Unplaced rs => Some (tid_of p, rs) | _ => None end.
Definition omitted_part (p : POAM) : list OmittedRow :=
  match fate p with Unplaced rs => map (pair (RInt (pm_id p))) rs | _ => [] end.
Definition excluded_part (p : POAM) : option string :=
  match fate p with NotAFlaw | OutsidePeriod => Some (tid_of p) | _ => None end.

Definition count_fate (f : Fate -> bool) (ps : list POAM) : Z := lcount (fun p => f (fate p)) ps.
Definition is_not_a_flaw (f : Fate) : bool := match f with NotAFlaw => true | _ => false end.
Definition is_outside (f : Fate) : bool := match f with OutsidePeriod => true | _ => false end.
Definition is_rendered (f : Fate) : bool := match f with Active _ | Accepted _ => true | _ => false end.
Definition is_unplaced (f : Fate) : bool := match f with Unplaced _ => true | _ => false end.

Definition rendering_of (ps : list POAM) : VerRendering :=
  {| vr_active := omap active_part ps; vr_accepted := omap accepted_part ps;
     vr_omitted := concat (map omitted_part ps);
     vr_counts := {| wc_not_a_flaw := count_fate is_not_a_flaw ps; wc_outside_period := count_fate is_outside ps;
                     wc_rendered := count_fate is_rendered ps; wc_omitted := count_fate is_unplaced ps |};
     vr_unplaced := omap unplaced_part ps;
     vr_excluded := list_to_set (omap excluded_part ps);
     vr_column_rationale := omap (fun p => pair (tid_of p) <$> rationale_of p) ps |}.
End fate.

(** Ids as the table gives them out, in the query's order. *)
Record rows_wf (ps : list POAM) : Prop := {
  rw_ids : increasing pm_id ps;
  rw_range : forall p, p ∈ ps -> 0 <= pm_id p < 2 ^ 63 }.

(** ** Lemmas: the walk *)

Local Open Scope list_scope.

Lemma pretty_Z_inj' (x y : Z) : pretty x = pretty y -> x = y.
Proof. apply (inj pretty). Qed.

Lemma rows_nodup ps : rows_wf ps -> NoDup (map pm_id ps).
Proof.
  intros [H _]. induction ps as [|x ps IH]; [constructor|]. apply StronglySorted_inv in H as [H Hx]. constructor; [|by apply IH].
  intros (y & E & Hy)%list_elem_of_fmap. rewrite Forall_forall in Hx. specialize (Hx y Hy). lia.
Qed.

Lemma tids_nodup ps : rows_wf ps -> NoDup (map tid_of ps).
Proof.
  intros Hn%rows_nodup. induction ps as [|p l IH]; [constructor|]. cbn [map] in *. apply NoDup_cons in Hn as [Hp Hl].
  constructor; [|by apply IH]. intros (q & E%pretty_Z_inj' & Hq)%list_elem_of_fmap. apply Hp. rewrite E.
  by apply (list_elem_of_fmap_2 pm_id).
Qed.

Lemma tid_inj ps p q : rows_wf ps -> p ∈ ps -> q ∈ ps -> tid_of p = tid_of q -> p = q.
Proof. intros Hn%rows_nodup Hp Hq E%pretty_Z_inj'. by eapply nodup_key_inj. Qed.

Lemma keyed_fresh {A} (f : POAM -> option (string * A)) ps p :
  (forall q kv, f q = Some kv -> kv.1 = tid_of q) -> pm_id p ∉ map pm_id ps -> tid_of p ∉ dkeys (omap f ps).
Proof.
  intros Hf Hp ([k v] & E & Hin)%list_elem_of_fmap. apply list_elem_of_omap in Hin as (q & Hq & Eq). apply Hf in Eq.
  cbn [fst] in E, Eq. subst k. apply pretty_Z_inj' in Eq. apply Hp. rewrite Eq. by apply (list_elem_of_fmap_2 pm_id).
Qed.

(** A dict whose entries come from distinct rows. *)
Lemma keyed_get {A} (f : POAM -> option (string * A)) ps k v : rows_wf ps ->
  (forall q kv, f q = Some kv -> kv.1 = tid_of q) ->
  dget k (omap f ps) = Some v <-> exists p, p ∈ ps /\ k = tid_of p /\ f p = Some (k, v).
Proof.
  intros Hw Hf. split.
  - intros (p & Hp & E)%dget_Some_elem%list_elem_of_omap. pose proof (Hf p _ E). by exists p.
  - intros (p & Hp & -> & E). apply dget_elem; [|by apply list_elem_of_omap; exists p].
    pose proof (rows_nodup ps Hw) as Hn. clear Hw Hp E. induction ps as [|x ps IH]; [constructor|]. cbn [map] in Hn.
    apply NoDup_cons in Hn as [Hx Hn]. cbn [omap list_omap]. destruct (f x) as [[k' v']|] eqn:Ex; [|by apply IH].
    apply Hf in Ex. cbn [fst] in Ex. subst k'. constructor; [|by apply IH]. by apply keyed_fresh.
Qed.

Section walk.
Context (today : Z) (w : RemediationWindow) (bounds : option (string * string)).
Notation rendering_of := (rendering_of today w bounds).
Notation walk_row := (walk_row today w bounds).

Lemma note_rationale_fresh p ps : pm_id p ∉ map pm_id ps ->
  note_rationale p (omap (fun p => pair (tid_of p) <$> rationale_of p) ps) =
  omap (fun p => pair (tid_of p) <$> rationale_of p) (ps ++ [p])%list.
Proof.
  intros Hp. rewrite omap_app. cbn [omap list_omap].
  assert (forall cols, note_rationale p cols = match rationale_of p with Some r => dset (tid_of p) r cols | None => cols end) as ->
    by (intros cols; unfold note_rationale, rationale_of; by destruct (is_blank _)).
  destruct (rationale_of p) as [r|]; cbn [fmap option_fmap option_map]; [|by rewrite app_nil_r].
  apply dset_fresh. apply keyed_fresh; [|done]. intros q kv E. destruct (rationale_of q); [|done]. by injection E as <-.
Qed.

(** One step of the walk, by the row's fate. *)
Lemma walk_row_fate out p :
  let f := fate today w bounds p in
  let one (b : bool) := if b then 1 else 0 in
  walk_row out p =
  {| vr_active := vr_active out ++ option_list (active_part today w bounds p);
     vr_accepted := vr_accepted out ++ option_list (accepted_part today w bounds p);
     vr_omitted := vr_omitted out ++ omitted_part today w bounds p;
     vr_counts := {| wc_not_a_flaw := wc_not_a_flaw (vr_counts out) + one (is_not_a_flaw f);
                     wc_outside_period := wc_outside_period (vr_counts out) + one (is_outside f);
                     wc_rendered := wc_rendered (vr_counts out) + one (is_rendered f);
                     wc_omitted := wc_omitted (vr_counts out) + one (is_unplaced f) |};
     vr_unplaced := match unplaced_part today w bounds p with Some (k, rs) => dset k rs (vr_unplaced out) | None => vr_unplaced out end;
     vr_excluded := match excluded_part today w bounds p with Some k => {[k]} ∪ vr_excluded out | None => vr_excluded out end;
     vr_column_rationale := note_rationale p (vr_column_rationale out) |}%list.
Proof.
  cbv zeta. unfold Cr26Ver.walk_row, active_part, accepted_part, omitted_part, unplaced_part, excluded_part, fate.
  destruct out as [a b c d e f g], d as [n1 n2 n3 n4].
  cbn [vr_active vr_accepted vr_omitted vr_counts vr_unplaced vr_excluded vr_column_rationale
       wc_not_a_flaw wc_outside_period wc_rendered wc_omitted].
  destruct (negb (mem _ FLAW_SOURCES)); [cbn; by rewrite ?app_nil_r, ?Z.add_0_r|].
  destruct (outside bounds (detected_at p)); [cbn; by rewrite ?app_nil_r, ?Z.add_0_r|].
  destruct (render_vulnerability p today w) as [detail rs]. cbn [fst snd].
  destruct ((if bool_decide (accepted_weakness_state (sla_view p) today = "unknown") then _ else _) ++ rs)%list as [|r reasons];
    [|cbn -[map]; by rewrite ?app_nil_r, ?Z.add_0_r].
  destruct detail as [d|]; [|cbn; by rewrite ?app_nil_r, ?Z.add_0_r].
  destruct (bool_decide (accepted_weakness_state (sla_view p) today = "accepted")); cbn; by rewrite ?app_nil_r, ?Z.add_0_r.
Qed.


(** The walk places every row by its fate. *)
Lemma walk_fates (ps : list POAM) : NoDup (map pm_id ps) -> foldl walk_row empty_rendering ps = rendering_of ps.
Proof.
  induction ps as [|p ps IH] using rev_ind; [done|]. rewrite map_app, foldl_app. cbn [map foldl].
  rewrite NoDup_app. intros (Hn & Hp & _). rewrite IH by done.
  assert (pm_id p ∉ map pm_id ps) as Hf by (intros H; apply (Hp _ H); left).
  rewrite walk_row_fate. unfold Cr26Ver.rendering_of, count_fate.
  cbn [vr_active vr_accepted vr_omitted vr_counts vr_unplaced vr_excluded vr_column_rationale
       wc_not_a_flaw wc_outside_period wc_rendered wc_omitted].
  rewrite !lcount_snoc, note_rationale_fresh, map_app, concat_app by done. cbn [map concat]. rewrite app_nil_r.
  rewrite (omap_snoc (active_part today w bounds)), (omap_snoc (accepted_part today w bounds)),
    (omap_snoc (unplaced_part today w bounds)), (omap_snoc (excluded_part today w bounds)).
  f_equal.
  - destruct (unplaced_part today w bounds p) as [[k rs]|] eqn:E; cbn [option_list]; [|by rewrite app_nil_r].
    apply dset_fresh. unfold unplaced_part in E. destruct (fate today w bounds p); try done. injection E as <- <-.
    apply keyed_fresh; [|done]. intros q kv. unfold unplaced_part. destruct (fate today w bounds q); try done. by intros [= <-].
  - destruct (excluded_part today w bounds p) as [k|]; cbn [option_list]; [|by rewrite app_nil_r].
    rewrite list_to_set_app_L. set_solver.
Qed.
End walk.

(** ** Lemmas: the merge *)

Definition detail_tid (d : json_obj) : string := stripped (vget "providerTrackingId" d).
Definition accepted_entry (d : json_obj) (r : string) : json_obj :=
  [("vulnerabilityDetail", VDict d); ("acceptanceRationale", VStr r)].

Section merge.
Context (by_id : list (string * json_obj)) (unplaced : list (string * list string)) (excluded : gset string)
  (columns : list (string * string)).

(** What one rendered detail adds to the merge. *)
Definition derived_rationale (d : json_obj) : option string * bool :=
  resolve_rationale (detail_tid d) (dget (detail_tid d) by_id) columns.
Definition derived_kept (d : json_obj) : option (RowId * json_obj) :=
  (fun r => (as_row_id (detail_tid d), accepted_entry d r)) <$> (derived_rationale d).1.
Definition derived_omitted (d : json_obj) : option OmittedRow :=
  match (derived_rationale d).1 with None => Some (as_row_id (detail_tid d), "no acceptance rationale") | Some _ => None end.
Definition derived_promoted (d : json_obj) : list (Z * string) :=
  match derived_rationale d with
  | (Some r, from_document) => promotion (as_row_id (detail_tid d)) r from_document
  | (None, _) => []
  end.

Lemma merge_derived_fold ds st : (forall d, d ∈ ds -> is_blank (vget "providerTrackingId" d) = false) ->
  foldl (merge_derived by_id columns) st ds =
  {| mg_seen := rev (map detail_tid ds) ++ mg_seen st; mg_merged := mg_merged st ++ omap derived_kept ds;
     mg_omitted := mg_omitted st ++ omap derived_omitted ds;
     mg_rendered := mg_rendered st + Z.of_nat (List.length (omap derived_kept ds));
     mg_omitted_rows := mg_omitted_rows st + Z.of_nat (List.length (omap derived_omitted ds));
     mg_dropped := mg_dropped st; mg_promoted := mg_promoted st ++ concat (map derived_promoted ds) |}.
Proof.
  revert st. induction ds as [|d ds IH]; intros st Hb.
  - destruct st. cbn. by rewrite !app_nil_r, !Z.add_0_r.
  - cbn [foldl]. rewrite IH by (intros; apply Hb; by right).
    assert (merge_derived by_id columns st d =
      {| mg_seen := detail_tid d :: mg_seen st; mg_merged := mg_merged st ++ option_list (derived_kept d);
         mg_omitted := mg_omitted st ++ option_list (derived_omitted d);
         mg_rendered := mg_rendered st + Z.of_nat (List.length (option_list (derived_kept d)));
         mg_omitted_rows := mg_omitted_rows st + Z.of_nat (List.length (option_list (derived_omitted d)));
         mg_dropped := mg_dropped st; mg_promoted := mg_promoted st ++ derived_promoted d |}) as ->.
    { unfold merge_derived. rewrite Hb by left. cbv zeta. unfold derived_kept, derived_omitted, derived_promoted, derived_rationale.
      fold (detail_tid d). destruct st as [a1 a2 a3 a4 a5 a6 a7].
      cbn [mg_seen mg_merged mg_omitted mg_rendered mg_omitted_rows mg_dropped mg_promoted].
      destruct (resolve_rationale (detail_tid d) (dget (detail_tid d) by_id) columns) as [[r|] b]; cbn;
        by rewrite ?app_nil_r, ?Z.add_0_r. }
    cbn [mg_seen mg_merged mg_omitted mg_rendered mg_omitted_rows mg_dropped mg_promoted omap list_omap map concat rev].
    f_equal; rewrite <-?app_assoc; try done; destruct (derived_kept d), (derived_omitted d); cbn [option_list option_rect List.length app]; try done; lia.
Qed.

(** What one authored entry adds. *)
Section authored.
Context (seen : list string).
Inductive AuthoredFate := AtSeen | AtExcluded | AtKept (reasons : list string) (r : string) | AtDropped (why : string).

Definition authored_fate (te : string * json_obj) : AuthoredFate :=
  if mem te.1 seen then AtSeen
  else if bool_decide (te.1 ∈ excluded) then AtExcluded
  else match default [] (dget te.1 unplaced), (resolve_rationale te.1 (Some te.2) columns).1 with
       | [], _ => AtDropped "no longer an accepted vulnerability"
       | _, None => AtDropped "no acceptance rationale"
       | reasons, Some r => AtKept reasons r
       end.

Definition authored_kept (te : string * json_obj) : option (RowId * json_obj) :=
  match authored_fate te with
  | AtKept _ r => Some (as_row_id te.1, dset "acceptanceRationale" (VStr r) te.2)
  | _ => None
  end.
Definition authored_omitted (te : string * json_obj) : list OmittedRow :=
  match authored_fate te with
  | AtKept reasons _ => map (fun reason => (as_row_id te.1, "detail not refreshed: " +:+ reason)) reasons
  | AtDropped why => [(as_row_id te.1, why)]
  | _ => []
  end.
Definition authored_promoted (te : string * json_obj) : list (Z * string) :=
  match authored_fate te, resolve_rationale te.1 (Some te.2) columns with
  | AtExcluded, (Some r, from_document) | AtKept _ _, (Some r, from_document) => promotion (as_row_id te.1) r from_document
  | _, _ => []
  end.
Definition is_dropped (te : string * json_obj) : bool := match authored_fate te with AtDropped _ => true | _ => false end.
End authored.

Lemma merge_authored_fold l st :
  foldl (merge_authored unplaced excluded columns) st l =
  {| mg_seen := mg_seen st; mg_merged := mg_merged st ++ omap (authored_kept (mg_seen st)) l;
     mg_omitted := mg_omitted st ++ concat (map (authored_omitted (mg_seen st)) l);
     mg_rendered := mg_rendered st; mg_omitted_rows := mg_omitted_rows st;
     mg_dropped := mg_dropped st + lcount (is_dropped (mg_seen st)) l;
     mg_promoted := mg_promoted st ++ concat (map (authored_promoted (mg_seen st)) l) |}.
Proof.
  revert st. induction l as [|[tid e] l IH]; intros st.
  - destruct st. cbn. by rewrite !app_nil_r, !Z.add_0_r.
  - cbn [foldl]. rewrite IH.
    assert (merge_authored unplaced excluded columns st (tid, e) =
      {| mg_seen := mg_seen st; mg_merged := mg_merged st ++ option_list (authored_kept (mg_seen st) (tid, e));
         mg_omitted := mg_omitted st ++ authored_omitted (mg_seen st) (tid, e);
         mg_rendered := mg_rendered st; mg_omitted_rows := mg_omitted_rows st;
         mg_dropped := mg_dropped st + (if is_dropped (mg_seen st) (tid, e) then 1 else 0);
         mg_promoted := mg_promoted st ++ authored_promoted (mg_seen st) (tid, e) |}) as ->.
    { unfold merge_authored, authored_kept, authored_omitted, authored_promoted, is_dropped, authored_fate. cbn [fst snd].
      destruct (resolve_rationale tid (Some e) columns) as [r b]. cbn [fst]. destruct st as [a1 a2 a3 a4 a5 a6 a7].
      cbn [mg_seen mg_merged mg_omitted mg_rendered mg_omitted_rows mg_dropped mg_promoted].
      destruct (mem tid a1); [cbn; by rewrite ?app_nil_r, ?Z.add_0_r|].
      destruct (bool_decide (tid ∈ excluded)); [destruct r; cbn; by rewrite ?app_nil_r, ?Z.add_0_r|].
      destruct (default [] (dget tid unplaced)) as [|x xs]; [destruct r; cbn; by rewrite ?app_nil_r|].
      destruct r; cbn -[map]; by rewrite ?app_nil_r, ?Z.add_0_r. }
    cbn [mg_seen mg_merged mg_omitted mg_rendered mg_omitted_rows mg_dropped mg_promoted omap list_omap map concat].
    change (lcount (is_dropped (mg_seen st)) ((tid, e) :: l)) with
      ((if is_dropped (mg_seen st) (tid, e) then 1 else 0) + lcount (is_dropped (mg_seen st)) l).
    f_equal; rewrite <-?app_assoc; try done; [|lia]. by destruct (authored_kept (mg_seen st) (tid, e)).
Qed.
End merge.

(** The stored entry of an id, the last where there are several; its rationale. *)
Definition authored_entry (authored : list pyval) (tid : string) : option json_obj :=
  last (omap (fun e => match e with
                       | VDict o => if bool_decide (tracking_id e = Some tid) then Some o else None
                       | _ => None end) authored).
Definition authored_rationale (e : option json_obj) : option string :=
  let v := vget "acceptanceRationale" (default [] e) in if is_blank v then None else Some (stripped v).

(** The rationale of a row: its own, or else the stored entry's. *)
Definition effective_rationale (authored : list pyval) (p : POAM) : option string :=
  match rationale_of p with Some r => Some r | None => authored_rationale (authored_entry authored (tid_of p)) end.

Lemma index_authored_spec authored :
  let by_id := (index_authored authored).1.1 in
  NoDup (dkeys by_id) /\ forall tid, dget tid by_id = authored_entry authored tid.
Proof.
  cbv zeta. unfold index_authored, authored_entry. induction authored as [|e l [Hn Hg]] using rev_ind; [split; [constructor|done]|].
  rewrite imap_app, foldl_app. cbn [imap foldl].
  assert (Hs : forall st i, (index_entry st (i, e)).1.1 =
    match tracking_id e, e with Some tid, VDict o => dset tid o st.1.1 | _, _ => st.1.1 end).
  { intros [[by_id om] dr] i. unfold index_entry. cbn [fst snd]. destruct (tracking_id e) as [t|]; [|by destruct e].
    destruct e; try done. by destruct (dhas t by_id). }
  rewrite Hs. generalize dependent (foldl index_entry ([], [], 0) (imap (fun i e => (Z.of_nat i, e)) l)).1.1. intros by_id Hn Hg.
  setoid_rewrite omap_app. split.
  - destruct (tracking_id e); [|done]. destruct e; try done. by apply dset_NoDup.
  - intros tid. cbn [omap list_omap]. destruct e as [| | | | | |o]; try (rewrite ?app_nil_r; destruct (tracking_id _); apply Hg).
    destruct (tracking_id (VDict o)) as [t|]; [|rewrite bool_decide_false by done; rewrite app_nil_r; apply Hg].
    case_bool_decide as E.
    + injection E as ->. by rewrite dget_dset_eq, last_snoc.
    + rewrite dget_dset_ne by congruence. rewrite app_nil_r. apply Hg.
Qed.


(** Keys that can be read off the elements they come from are distinct. *)
Lemma nodup_omap_keys {A B K K'} (f : A -> option (K * B)) (key : A -> K') (text : K -> K') (l : list A) : NoDup (map key l) ->
  (forall x kv, x ∈ l -> f x = Some kv -> text kv.1 = key x) -> NoDup (map fst (omap f l)).
Proof.
  induction l as [|x l IH]; [intros; constructor|]. cbn [map]. intros [Hx Hl]%NoDup_cons Hk. cbn [omap list_omap].
  assert (NoDup (map fst (omap f l))) as Hn by (apply IH; [done|]; intros y kv Hy; apply Hk; by right).
  destruct (f x) as [[k v]|] eqn:E; [|done]. cbn [map fst]. constructor; [|done].
  intros ([k' v'] & E' & (y & Hy & Ef)%list_elem_of_omap)%list_elem_of_fmap. cbn [fst] in E'. subst k'.
  apply Hk in Ef; [|by right]. apply Hk in E; [|left]. apply Hx. cbn [fst] in E, Ef. rewrite <-E, Ef. by apply (list_elem_of_fmap_2 key).
Qed.

Lemma elem_of_concat_map {A B} (f : A -> list B) (l : list A) x : x ∈ concat (map f l) <-> exists y, y ∈ l /\ x ∈ f y.
Proof.
  rewrite list_elem_of_In, in_concat. setoid_rewrite in_map_iff. split.
  - intros (k & (y & <- & Hy) & Hx). exists y. by rewrite !list_elem_of_In.
  - intros (y & Hy%list_elem_of_In & Hx%list_elem_of_In). eauto.
Qed.

Section accepted_half.
Context (today : Z) (w : RemediationWindow) (bounds : option (string * string)) (ps : list POAM) (Hw : rows_wf ps)
  (authored : list pyval).
Notation fate := (fate today w bounds).
Notation rendering := (rendering_of today w bounds ps).
Notation by_id := (index_authored authored).1.1.
Notation derived := (omap (accepted_part today w bounds) ps).
Notation columns := (vr_column_rationale rendering).
Notation unplaced := (vr_unplaced rendering).
Notation excluded := (vr_excluded rendering).
Notation seen := (rev (map detail_tid derived) ++ []).

Lemma tid_spec p : p ∈ ps -> is_blank (VStr (tid_of p)) = false /\ strip (tid_of p) = tid_of p /\ as_row_id (tid_of p) = RInt (pm_id p).
Proof.
  intros Hp. pose proof (rw_range ps Hw p Hp) as Hr. destruct (py_int_pretty _ Hr) as [Hi Hs]. unfold tid_of.
  destruct (pretty_digits (pm_id p) ltac:(lia)) as [_ Hne]. cbn [is_blank]. rewrite Hs.
  split; [unfold str_truthy; by rewrite bool_decide_true|]. split; [done|]. unfold as_row_id. by rewrite Hi.
Qed.

Lemma rendered_tid p d : p ∈ ps -> fate p = Accepted d \/ fate p = Active d ->
  is_blank (vget "providerTrackingId" d) = false /\ detail_tid d = tid_of p /\ vget "providerTrackingId" d = VStr (tid_of p).
Proof.
  intros Hp Hf. assert (exists rest, d = ("providerTrackingId", VStr (tid_of p)) :: rest) as [rest ->].
  { revert Hf. unfold Cr26Ver.fate. destruct (negb _); [naive_solver|]. destruct (outside _ _); [naive_solver|].
    unfold render_vulnerability, tid_of. destruct (detected_at p), (first_written _), (first_written _); cbn [fst snd];
      repeat case_bool_decide; cbn [app]; intros [Hf|Hf]; try done; injection Hf as <-; by eexists. }
  unfold detail_tid, vget. cbn [dget default]. rewrite decide_True by done. cbn [default from_option id stripped].
  destruct (tid_spec p Hp) as (Hb & Hs & _). by rewrite Hs.
Qed.

Lemma unplaced_reasons p rs : fate p = Unplaced rs -> rs <> [].
Proof.
  unfold Cr26Ver.fate. destruct (negb _); [done|]. destruct (outside _ _); [done|].
  unfold render_vulnerability. destruct (detected_at p), (first_written _), (first_written _); cbn [fst snd];
    repeat case_bool_decide; cbn [app]; intros E; try done; by injection E as <-.
Qed.

Lemma derived_elem d : d ∈ derived <-> exists p, p ∈ ps /\ fate p = Accepted d.
Proof.
  rewrite list_elem_of_omap. unfold accepted_part. split; intros (p & Hp & E); exists p; split; try done.
  - destruct (fate p); try done. by injection E as ->.
  - by rewrite E.
Qed.

Lemma seen_spec p : p ∈ ps -> tid_of p ∈ seen <-> exists d, fate p = Accepted d.
Proof.
  intros Hp. rewrite app_nil_r, list_elem_of_In, <-in_rev, <-list_elem_of_In. split.
  - intros (d & E & (q & Hq & Hf)%derived_elem)%list_elem_of_fmap. exists d.
    destruct (rendered_tid q d Hq (or_introl Hf)) as (_ & Et & _). rewrite Et in E. by rewrite (tid_inj ps p q Hw Hp Hq E).
  - intros [d Hf]. destruct (rendered_tid p d Hp (or_introl Hf)) as (_ & <- & _). apply (list_elem_of_fmap_2 detail_tid).
    apply derived_elem. by exists p.
Qed.

Lemma excluded_spec tid : tid ∈ excluded <-> exists p, p ∈ ps /\ tid = tid_of p /\ (fate p = NotAFlaw \/ fate p = OutsidePeriod).
Proof.
  cbn [vr_excluded rendering_of]. rewrite elem_of_list_to_set, list_elem_of_omap. unfold excluded_part.
  split; intros (p & Hp & H); exists p; split; try done.
  - destruct (fate p); try done; injection H as <-; auto.
  - by destruct H as [-> [-> | ->]].
Qed.

Lemma unplaced_spec tid rs : dget tid unplaced = Some rs <-> exists p, p ∈ ps /\ tid = tid_of p /\ fate p = Unplaced rs.
Proof.
  cbn [vr_unplaced rendering_of]. rewrite keyed_get by (try exact Hw; intros q kv; unfold unplaced_part; destruct (fate q); try done; by intros [= <-]).
  split; intros (p & Hp & -> & H); exists p; split; try done; split; try done.
  - unfold unplaced_part in H. destruct (fate p); try done. by injection H as ->.
  - unfold unplaced_part. by rewrite H.
Qed.

Lemma column_spec p : p ∈ ps -> dget (tid_of p) columns = rationale_of p.
Proof.
  intros Hp. assert (forall r, dget (tid_of p) columns = Some r <-> rationale_of p = Some r) as H.
  { intros r. cbn [vr_column_rationale rendering_of].
    rewrite keyed_get by (try exact Hw; intros q kv; destruct (rationale_of q); try done; by intros [= <-]). split.
    - intros (q & Hq & E & Hr). rewrite (tid_inj ps p q Hw Hp Hq E). destruct (rationale_of q); [|done]. by injection Hr as _ ->.
    - intros Hr. exists p. by rewrite Hr. }
  destruct (rationale_of p) as [r|]; [by apply H|]. destruct (dget (tid_of p) columns) as [r|]; [|done]. symmetry. by apply H.
Qed.

Lemma resolve_row p e : p ∈ ps ->
  resolve_rationale (tid_of p) e columns =
    match rationale_of p with
    | Some r => (Some r, false)
    | None => match authored_rationale e with Some r => (Some r, true) | None => (None, false) end
    end.
Proof.
  intros Hp. unfold resolve_rationale. rewrite column_spec by done. unfold authored_rationale.
  assert (forall r, rationale_of p = Some r -> is_blank (VStr r) = false /\ stripped (VStr r) = r) as Hr.
  { intros r. unfold rationale_of. destruct (is_blank _) eqn:E; [done|]. intros [= <-]. by apply stripped_spec. }
  destruct (rationale_of p) as [r|]; cbn [opt_val].
  - destruct (Hr r eq_refl) as [-> ->]. done.
  - cbn [is_blank negb]. by destruct (is_blank _).
Qed.
Lemma by_id_get tid : dget tid by_id = authored_entry authored tid.
Proof. apply index_authored_spec. Qed.

Lemma by_id_elem tid e : (tid, e) ∈ by_id <-> authored_entry authored tid = Some e.
Proof.
  rewrite <-by_id_get. split; [|apply dget_Some_elem]. apply dget_elem. apply index_authored_spec.
Qed.

(** What the merge keeps, row by row. *)
Definition row_entry (p : POAM) : option json_obj :=
  match fate p, effective_rationale authored p with
  | Accepted d, Some r => Some (accepted_entry d r)
  | Unplaced _, Some r => dset "acceptanceRationale" (VStr r) <$> authored_entry authored (tid_of p)
  | _, _ => None
  end.
(** What it writes back: a rationale only the document has. *)
Definition row_promoted (p : POAM) : option string :=
  match fate p, rationale_of p with
  | Active _, _ | _, Some _ => None
  | _, None => authored_rationale (authored_entry authored (tid_of p))
  end.

Lemma derived_kept_elem k e : (k, e) ∈ omap (derived_kept by_id columns) derived <->
  exists p d r, p ∈ ps /\ fate p = Accepted d /\ effective_rationale authored p = Some r /\ k = RInt (pm_id p) /\ e = accepted_entry d r.
Proof.
  rewrite list_elem_of_omap. unfold derived_kept, derived_rationale. setoid_rewrite derived_elem. split.
  - intros (d & (p & Hp & Hf) & E). destruct (rendered_tid p d Hp (or_introl Hf)) as (_ & Et & _).
    rewrite Et, resolve_row, by_id_get in E by done. exists p, d. unfold effective_rationale.
    destruct (tid_spec p Hp) as (_ & _ & Ei). rewrite Ei in E.
    destruct (rationale_of p) as [r|]; [|destruct (authored_rationale _) as [r|]]; cbn in E; try done; injection E as <- <-; eauto 7.
  - intros (p & d & r & Hp & Hf & Hr & -> & ->). exists d. split; [by exists p|].
    destruct (rendered_tid p d Hp (or_introl Hf)) as (_ & Et & _). destruct (tid_spec p Hp) as (_ & _ & Ei).
    rewrite Et, Ei, resolve_row, by_id_get by done. unfold effective_rationale in Hr.
    destruct (rationale_of p); [|destruct (authored_rationale _)]; cbn; congruence.
Qed.

Lemma authored_fate_row p e : p ∈ ps ->
  authored_fate unplaced excluded columns seen (tid_of p, e) =
    match fate p with
    | Accepted _ => AtSeen
    | NotAFlaw | OutsidePeriod => AtExcluded
    | Active _ => AtDropped "no longer an accepted vulnerability"
    | Unplaced rs => match rationale_of p, authored_rationale (Some e) with
                     | Some r, _ | None, Some r => AtKept rs r
                     | None, None => AtDropped "no acceptance rationale" end
    end.
Proof.
  intros Hp. unfold authored_fate. cbn [fst snd]. rewrite resolve_row by done.
  assert (Hs : mem (tid_of p) seen = match fate p with Accepted _ => true | _ => false end).
  { destruct (mem_spec (tid_of p) seen) as [H|H]; rewrite seen_spec in H by done; [by destruct H as [d ->]|].
    destruct (fate p); try done. destruct H. by eexists. }
  assert (Hx : bool_decide (tid_of p ∈ excluded) = match fate p with NotAFlaw | OutsidePeriod => true | _ => false end).
  { case_bool_decide as H; rewrite excluded_spec in H.
    - destruct H as (q & Hq & E & Hf). rewrite (tid_inj ps p q Hw Hp Hq E). by destruct Hf as [-> | ->].
    - destruct (fate p) eqn:Ef; try done; destruct H; exists p; auto. }
  assert (Hu : default [] (dget (tid_of p) unplaced) = match fate p with Unplaced rs => rs | _ => [] end).
  { destruct (dget (tid_of p) unplaced) as [rs|] eqn:E.
    - apply unplaced_spec in E as (q & Hq & Et & Hf). by rewrite (tid_inj ps p q Hw Hp Hq Et), Hf.
    - destruct (fate p) eqn:Ef; try done. assert (dget (tid_of p) unplaced = Some reasons) by (apply unplaced_spec; eauto). congruence. }
  rewrite Hs, Hx, Hu. destruct (fate p) eqn:Ef; try done. pose proof (unplaced_reasons p _ Ef) as Hne.
  destruct reasons; [done|]. by destruct (rationale_of p), (authored_rationale (Some e)).
Qed.

(** An entry of no row of the table is dropped. *)
Lemma authored_fate_stray tid e : (forall p, p ∈ ps -> tid <> tid_of p) ->
  authored_fate unplaced excluded columns seen (tid, e) = AtDropped "no longer an accepted vulnerability".
Proof.
  intros Hn. unfold authored_fate. cbn [fst snd].
  assert (tid ∉ seen) as Hs.
  { rewrite app_nil_r, list_elem_of_In, <-in_rev, <-list_elem_of_In. intros (d & -> & (p & Hp & Hf)%derived_elem)%list_elem_of_fmap.
    apply (Hn p Hp). apply (rendered_tid p d Hp (or_introl Hf)). }
  rewrite (proj2 (mem_false _ _) Hs), bool_decide_false by (rewrite excluded_spec; intros (p & Hp & E & _); by apply (Hn p)).
  destruct (dget tid unplaced) as [rs|] eqn:E; [|done]. apply unplaced_spec in E as (p & Hp & E & _). by destruct (Hn p).
Qed.
Lemma row_or_stray tid : (exists p, p ∈ ps /\ tid = tid_of p) \/ (forall p, p ∈ ps -> tid <> tid_of p).
Proof.
  destruct (decide (tid ∈ map tid_of ps)) as [(p & -> & Hp)%list_elem_of_fmap|Hn]; [left; eauto|right].
  intros p Hp ->. apply Hn. by apply (list_elem_of_fmap_2 tid_of).
Qed.

Lemma authored_kept_elem k e : (k, e) ∈ omap (authored_kept unplaced excluded columns seen) by_id <->
  exists p rs r e0, p ∈ ps /\ fate p = Unplaced rs /\ authored_entry authored (tid_of p) = Some e0 /\
    effective_rationale authored p = Some r /\ k = RInt (pm_id p) /\ e = dset "acceptanceRationale" (VStr r) e0.
Proof.
  rewrite list_elem_of_omap. unfold authored_kept. split.
  - intros ([tid e0] & Hin%by_id_elem & E). destruct (row_or_stray tid) as [(p & Hp & ->)|Hn].
    2:{ by rewrite authored_fate_stray in E. }
    rewrite authored_fate_row in E by done. cbn [fst snd] in E. destruct (tid_spec p Hp) as (_ & _ & Ei). rewrite Ei in E.
    destruct (fate p) eqn:Ef; try done. exists p, reasons. unfold effective_rationale. rewrite Hin.
    destruct (rationale_of p) as [r|]; [|destruct (authored_rationale (Some e0)) as [r|]]; try done; injection E as <- <-; eauto 8.
  - intros (p & rs & r & e0 & Hp & Hf & He & Hr & -> & ->). exists (tid_of p, e0). split; [by apply by_id_elem|].
    rewrite authored_fate_row by done. cbn [fst snd]. destruct (tid_spec p Hp) as (_ & _ & ->). rewrite Hf.
    unfold effective_rationale in Hr. rewrite He in Hr. destruct (rationale_of p); [congruence|].
    destruct (authored_rationale (Some e0)); [congruence|done].
Qed.

(** The entries of the document, before they are put in order. *)
Definition merged : list (RowId * json_obj) :=
  omap (derived_kept by_id columns) derived ++ omap (authored_kept unplaced excluded columns seen) by_id.

Lemma merged_elem k e : (k, e) ∈ merged <-> exists p, p ∈ ps /\ k = RInt (pm_id p) /\ row_entry p = Some e.
Proof.
  unfold merged. rewrite elem_of_app, derived_kept_elem, authored_kept_elem. unfold row_entry. split.
  - intros [(p & d & r & Hp & Hf & Hr & -> & ->)|(p & rs & r & e0 & Hp & Hf & He & Hr & -> & ->)]; exists p; by rewrite Hf, Hr, ?He.
  - intros (p & Hp & -> & E). destruct (fate p) eqn:Ef, (effective_rationale authored p) eqn:Er; try done.
    + right. destruct (authored_entry authored (tid_of p)) eqn:He; [|done]. injection E as <-. exists p. do 3 eexists. eauto 10.
    + left. injection E as <-. exists p. do 2 eexists. eauto 10.
Qed.

Definition id_text (k : RowId) : string := match k with RInt z => pretty z | RStr s => s end.

Lemma merged_keys : NoDup (map fst merged).
Proof.
  unfold merged. rewrite map_app. apply NoDup_app. split; [|split].
  - rewrite omap_omap. apply (nodup_omap_keys _ tid_of id_text); [|].
    + by apply tids_nodup.
    + intros p [k e] Hp E. unfold accepted_part in E. destruct (fate p) eqn:Ef; try done.
      change (derived_kept by_id columns detail = Some (k, e)) in E. unfold derived_kept in E.
      destruct (rendered_tid p detail Hp (or_introl Ef)) as (_ & Et & _). rewrite Et in E.
      destruct (tid_spec p Hp) as (_ & _ & Ei). rewrite Ei in E. destruct (derived_rationale by_id columns detail).1; [|done].
      by injection E as <- _.
  - intros k ([k1 e1] & -> & H1)%list_elem_of_fmap ([k2 e2] & E & H2)%list_elem_of_fmap. cbn [fst] in E. subst k2.
    apply derived_kept_elem in H1 as (p & d & r & Hp & Hf & _ & -> & _).
    apply authored_kept_elem in H2 as (q & rs & r' & e0 & Hq & Hf' & _ & _ & E & _). injection E as E.
    assert (p = q) as -> by (apply (tid_inj ps p q Hw Hp Hq); unfold tid_of; by rewrite E). congruence.
  - apply (nodup_omap_keys _ fst id_text); [apply index_authored_spec|]. intros [tid e] [k e'] _ E. unfold authored_kept in E.
    destruct (row_or_stray tid) as [(p & Hp & ->)|Hs]; [|by rewrite authored_fate_stray in E].
    destruct (authored_fate _ _ _ _ _); try done. injection E as <- _. cbn [fst]. destruct (tid_spec p Hp) as (_ & _ & ->). done.
Qed.

Lemma promoted_elem z r :
  (z, r) ∈ concat (map (derived_promoted by_id columns) derived) ++
           concat (map (authored_promoted unplaced excluded columns seen) by_id) <->
  exists p, p ∈ ps /\ z = pm_id p /\ row_promoted p = Some r.
Proof.
  rewrite elem_of_app, !list_elem_of_In, !in_concat. split.
  - intros [(l & (d & <- & Hd)%in_map_iff & Hin)|(l & ([tid e] & <- & Ht)%in_map_iff & Hin)].
    + apply list_elem_of_In, derived_elem in Hd as (p & Hp & Hf). destruct (rendered_tid p d Hp (or_introl Hf)) as (_ & Et & _).
      unfold derived_promoted, derived_rationale in Hin. destruct (tid_spec p Hp) as (_ & _ & Ei). rewrite Et, Ei, resolve_row, by_id_get in Hin by done.
      exists p. unfold row_promoted. rewrite Hf. destruct (rationale_of p); [done|].
      destruct (authored_rationale _); [|done]. cbn in Hin. destruct Hin as [[= <- <-]|[]]. done.
    + apply list_elem_of_In, by_id_elem in Ht. unfold authored_promoted in Hin. cbn [fst snd] in Hin.
      destruct (row_or_stray tid) as [(p & Hp & ->)|Hs]; [|by rewrite authored_fate_stray in Hin].
      rewrite authored_fate_row, resolve_row in Hin by done. destruct (tid_spec p Hp) as (_ & _ & Ei). rewrite Ei in Hin.
      exists p. unfold row_promoted. rewrite Ht.
      destruct (fate p), (rationale_of p), (authored_rationale (Some e)); cbn in Hin; try done; destruct Hin as [[= <- <-]|[]]; done.
  - intros (p & Hp & -> & E). unfold row_promoted in E. destruct (tid_spec p Hp) as (_ & _ & Ei).
    destruct (rationale_of p) eqn:Er; [by destruct (fate p)|].
    destruct (fate p) eqn:Ef; try done.
    4:{ left. exists (derived_promoted by_id columns detail). split; [apply in_map_iff; exists detail; split; [done|];
          apply list_elem_of_In, derived_elem; eauto|].
        destruct (rendered_tid p detail Hp (or_introl Ef)) as (_ & Et & _). unfold derived_promoted, derived_rationale.
        rewrite Et, Ei, resolve_row, by_id_get, Er, E by done. by left. }
    all: right; destruct (authored_entry authored (tid_of p)) as [e|] eqn:He; [|done];
      exists (authored_promoted unplaced excluded columns seen (tid_of p, e)); (split; [apply in_map_iff; exists (tid_of p, e);
        split; [done|by apply list_elem_of_In, by_id_elem]|]);
      unfold authored_promoted; rewrite authored_fate_row by done; cbn [fst snd];
      rewrite resolve_row, Ef, Er, E, Ei by done; by left.
Qed.

Lemma id_le_total x y : id_le x y = true \/ id_le y x = true.
Proof. destruct x, y; cbn; auto; [|by destruct (total str_le s s0); auto]. rewrite !Z.leb_le. lia. Qed.

Lemma by_row_id_sorted {A} (l : list (RowId * A)) : StronglySorted (fun x y => by_row_id x y = true) (stable_sort by_row_id l).
Proof.
  apply stable_sort_sorted; [intros; apply id_le_total|]. unfold by_row_id. intros [x a] [y b] [z c]. cbn [fst].
  destruct x, y, z; cbn; try done; rewrite ?Z.leb_le; [lia|]. intros H1 H2. by apply (transitivity (R := str_le) H1).
Qed.

(** The document lists the rows' entries in the rows' order. *)
Lemma merged_sorted : map snd (stable_sort by_row_id merged) = omap row_entry ps.
Proof.
  set (f := fun p => pair (RInt (pm_id p)) <$> row_entry p).
  assert (stable_sort by_row_id merged = omap f ps) as ->.
  - apply (StronglySorted_unique_strong (fun x y => by_row_id x y = true)).
    + intros [k1 e1] [k2 e2] H1 H2 L1 L2. rewrite stable_sort_perm in H1. apply merged_elem in H1 as (p & Hp & -> & Ep).
      apply list_elem_of_omap in H2 as (q & Hq & Eq). unfold f in Eq. destruct (row_entry q) eqn:E; [|done].
      injection Eq as <- <-. unfold by_row_id in L1, L2. cbn in L1, L2. rewrite Z.leb_le in L1, L2.
      assert (p = q) as -> by (apply (tid_inj ps p q Hw Hp Hq); unfold tid_of; f_equal; lia). congruence.
    + apply by_row_id_sorted.
    + destruct Hw as [Hi _]. clear -Hi. induction ps as [|p l IH]; [constructor|]. apply StronglySorted_inv in Hi as [Hl Hp].
      cbn [omap list_omap]. unfold f at 1. destruct (row_entry p); cbn [fmap option_fmap option_map]; [|by apply IH].
      constructor; [by apply IH|]. apply Forall_forall. intros [k e] (q & Hq & E)%list_elem_of_omap. unfold f in E.
      destruct (row_entry q); [|done]. injection E as <- _. rewrite Forall_forall in Hp. specialize (Hp q Hq).
      unfold by_row_id. cbn. apply Z.leb_le. lia.
    + rewrite stable_sort_perm. apply NoDup_Permutation; [apply (NoDup_fmap_1 fst), merged_keys| |].
      * apply (NoDup_fmap_1 fst). apply (nodup_omap_keys _ tid_of id_text); [by apply tids_nodup|].
        intros p [k e] _ E. unfold f in E. destruct (row_entry p); [|done]. by injection E as <- _.
      * intros [k e]. rewrite merged_elem, list_elem_of_omap. unfold f. split.
        -- intros (p & Hp & -> & E). exists p. by rewrite E.
        -- intros (p & Hp & E). exists p. split; [done|]. destruct (row_entry p); [|done]. by injection E as <- <-.
  - clear. subst f. induction ps as [|p l IH]; [done|]. cbn [omap list_omap]. destruct (row_entry p); cbn; by rewrite IH.
Qed.
(** The merge of a system's rows with the stored entries. *)
Lemma merge_of_eq :
  let m := merge_of rendering authored in
  am_entries m = omap row_entry ps /\
  (forall z r, (z, r) ∈ am_promoted m <-> exists p, p ∈ ps /\ z = pm_id p /\ row_promoted p = Some r) /\
  am_rendered_rows m + am_omitted_rows m = Z.of_nat (List.length derived) /\
  am_omitted_rows m = Z.of_nat (List.length (omap (derived_omitted by_id columns) derived)) /\
  (forall x, x ∈ am_omitted m <-> x ∈ (index_authored authored).1.2 \/ x ∈ omap (derived_omitted by_id columns) derived \/
     exists te, te ∈ by_id /\ x ∈ authored_omitted unplaced excluded columns seen te).
Proof.
  assert (Hbl : forall d, d ∈ derived -> is_blank (vget "providerTrackingId" d) = false)
    by (intros d (p & Hp & Hf)%derived_elem; apply (rendered_tid p d Hp (or_introl Hf))).
  cbv zeta. rewrite <-merged_sorted. unfold merge_of, merge_accepted.
  change (vr_accepted rendering) with derived. destruct (index_authored authored) as [[bi om] dr] eqn:Ei.
  rewrite merge_derived_fold by done. rewrite merge_authored_fold.
  cbn [am_entries am_promoted am_rendered_rows am_omitted_rows am_omitted mg_seen mg_merged mg_omitted mg_rendered mg_omitted_rows mg_dropped mg_promoted].
  unfold merged. rewrite Ei. cbn [fst snd app]. split; [done|]. split; [|split; [|split; [lia|]]].
  - intros z r. pose proof (promoted_elem z r) as Hp. rewrite Ei in Hp. exact Hp.
  - clear. induction derived as [|d l IH]; [done|]. cbn [omap list_omap]. unfold derived_kept at 1, derived_omitted at 1.
    destruct (derived_rationale _ _ d).1; cbn [fmap option_fmap option_map List.length]; lia.
  - intros x. rewrite stable_sort_perm, !elem_of_app, elem_of_concat_map. tauto.
Qed.
(** An accepted row without a rationale is named. *)
Lemma merge_names_row p d : p ∈ ps -> fate p = Accepted d -> effective_rationale authored p = None ->
  (RInt (pm_id p), "no acceptance rationale") ∈ am_omitted (merge_of rendering authored).
Proof.
  intros Hp Hf Hr. apply merge_of_eq. right. left. apply list_elem_of_omap. exists d.
  split; [apply derived_elem; eauto|]. unfold derived_omitted, derived_rationale.
  destruct (rendered_tid p d Hp (or_introl Hf)) as (_ & -> & _). destruct (tid_spec p Hp) as (_ & _ & ->).
  rewrite resolve_row, by_id_get by done. unfold effective_rationale in Hr. destruct (rationale_of p); [done|]. by rewrite Hr.
Qed.
End accepted_half.

(** ** Lemmas: rows and documents after a seed *)

Lemma stored_rationale p r : rationale_of p = Some r -> is_blank (VStr r) = false /\ strip r = r.
Proof. unfold rationale_of. destruct (is_blank _) eqn:E; [done|]. intros [= <-]. by apply stripped_spec. Qed.

Lemma authored_rationale_text e r : authored_rationale e = Some r -> is_blank (VStr r) = false /\ strip r = r.
Proof. unfold authored_rationale. destruct (is_blank _) eqn:E; [done|]. intros [= <-]. by apply stripped_spec. Qed.

Lemma rationale_of_set p r : is_blank (VStr r) = false -> strip r = r -> rationale_of (set_pm_rationale (Some r) p) = Some r.
Proof. intros Hb Hs. unfold rationale_of. cbn [pm_acceptance_rationale set_pm_rationale opt_val]. rewrite Hb. cbn [stripped]. by rewrite Hs. Qed.

(** Writing rationales back touches the rows of the system that had none. *)
Definition promoted_row (sid : Z) (new : POAM -> option string) (p : POAM) : POAM :=
  if pm_system_id p =? sid then match new p with Some r => set_pm_rationale (Some r) p | None => p end else p.

Lemma promote_spec sid prs poams (new : POAM -> option string) :
  (forall z r, (z, r) ∈ prs -> is_blank (VStr r) = false) ->
  (forall p, p ∈ poams -> pm_system_id p = sid -> forall r, (pm_id p, r) ∈ prs /\ rationale_of p = None <-> new p = Some r) ->
  promote_rationales sid prs poams = map (promoted_row sid new) poams.
Proof.
  intros Hb Hn. unfold promote_rationales.
  set (one := fun p (pr : Z * string) => if (pm_system_id p =? sid) && (pm_id p =? pr.1) && is_blank (opt_val (pm_acceptance_rationale p))
                         then set_pm_rationale (Some pr.2) p else p).
  assert (foldl (promote sid) poams prs = map (fun p => foldl one p prs) poams) as ->.
  { clear. revert poams. induction prs as [|pr prs IH]; intros poams; cbn [foldl]; [by rewrite map_id|].
    rewrite IH. unfold promote. by rewrite map_map. }
  apply map_ext_in. intros p Hp%list_elem_of_In. specialize (Hn p Hp). clear Hp. unfold promoted_row.
  destruct (Z.eqb_spec (pm_system_id p) sid) as [E|E].
  2:{ clear Hn Hb. induction prs as [|pr prs IH]; [done|]. cbn [foldl]. unfold one at 2. by rewrite (proj2 (Z.eqb_neq _ _) E). }
  specialize (Hn E). destruct (rationale_of p) as [r0|] eqn:Er.
  { assert (foldl one p prs = p) as ->.
    { clear Hn Hb. induction prs as [|pr prs IH]; [done|]. cbn [foldl]. unfold one at 2. unfold rationale_of in Er.
      destruct (is_blank (opt_val (pm_acceptance_rationale p))); [done|]. by rewrite andb_false_r. }
    destruct (new p) as [r|]; [|done]. by destruct (proj2 (Hn r) eq_refl). }
  assert (Hset : forall p r l, is_blank (VStr r) = false -> foldl one (set_pm_rationale (Some r) p) l = set_pm_rationale (Some r) p).
  { intros q r l Hr. induction l as [|pr l IH]; [done|]. cbn [foldl]. unfold one at 2.
    cbn [pm_acceptance_rationale set_pm_rationale opt_val]. by rewrite Hr, andb_false_r. }
  assert (Hbl : is_blank (opt_val (pm_acceptance_rationale p)) = true) by (unfold rationale_of in Er; by destruct (is_blank _)).
  assert (foldl one p prs = match List.find (fun pr => pm_id p =? pr.1) prs with Some pr => set_pm_rationale (Some pr.2) p | None => p end) as ->.
  { clear Hn. induction prs as [|[z r] prs IH]; [done|]. cbn [foldl List.find fst snd]. unfold one at 2.
    rewrite (proj2 (Z.eqb_eq _ _) E), Hbl, andb_true_r. cbn [andb fst snd]. destruct (pm_id p =? z).
    - apply Hset. apply (Hb z r). left.
    - apply IH. intros z' r' Hin. apply (Hb z'). by right. }
  destruct (List.find _ prs) as [[z r]|] eqn:Ef.
  - apply find_some in Ef as [Hin Hz%Z.eqb_eq]. cbn [fst] in Hz. subst z. apply list_elem_of_In in Hin.
    by rewrite (proj1 (Hn r) (conj Hin eq_refl)).
  - destruct (new p) as [r|] eqn:En; [|done]. destruct (proj2 (Hn r) eq_refl) as [Hin _]. apply list_elem_of_In in Hin.
    apply (find_none _ _ Ef) in Hin. cbn in Hin. by rewrite Z.eqb_refl in Hin.
Qed.





Section refiled.
Context (today : Z) (w : RemediationWindow) (bounds : option (string * string)) (ps : list POAM) (Hw : rows_wf ps)
  (authored : list pyval).
Notation fate := (fate today w bounds).
Notation row_entry := (row_entry today w bounds authored).
Notation filed := (map VDict (omap row_entry ps)).

Lemma row_entry_tid p e : p ∈ ps -> row_entry p = Some e -> tracking_id (VDict e) = Some (tid_of p).
Proof.
  intros Hp. unfold Cr26Ver.row_entry. destruct (fate p) eqn:Ef; try done.
  - destruct (effective_rationale authored p) as [r|]; [|done]. destruct (authored_entry authored (tid_of p)) as [e0|] eqn:E; [|done].
    intros [= <-]. unfold tracking_id, vget. rewrite dget_dset_ne by done. change (tracking_id (VDict e0) = Some (tid_of p)).
    unfold authored_entry in E. apply last_Some_elem_of in E. apply list_elem_of_omap in E as (v & _ & E).
    destruct v as [| | | | | |o]; try done. case_bool_decide; [|done]. by injection E as <-.
  - destruct (effective_rationale authored p) as [r|]; [|done]. intros [= <-].
    destruct (rendered_tid today w bounds ps Hw p detail Hp (or_introl Ef)) as (Hb & Ht & Hv).
    unfold tracking_id, accepted_entry, vget at 1. cbn [dget]. rewrite decide_True by done. cbn [default from_option id].
    rewrite Hb. unfold detail_tid in Ht. by rewrite Ht.
Qed.

(** What a filed document says about a row when it is read again. *)
Lemma authored_entry_filed p : p ∈ ps -> authored_entry filed (tid_of p) = row_entry p.
Proof.
  intros Hp. unfold authored_entry.
  assert (omap (fun e => match e with VDict o => if bool_decide (tracking_id e = Some (tid_of p)) then Some o else None | _ => None end) filed =
    omap (fun q => row_entry q ≫= fun o => if bool_decide (tracking_id (VDict o) = Some (tid_of p)) then Some o else None) ps) as ->.
  { rewrite <-omap_omap. induction (omap row_entry ps) as [|e l IH]; [done|]. cbn [map omap list_omap]. by rewrite IH. }
  rewrite (omap_only _ ps p).
  - destruct (row_entry p) as [e|] eqn:E; [|done]. cbn [mbind option_bind]. rewrite bool_decide_true by (by apply row_entry_tid). done.
  - apply (NoDup_fmap_1 pm_id). by apply rows_nodup.
  - done.
  - intros q Hq Hne. destruct (row_entry q) as [e|] eqn:E; [|done]. cbn [mbind option_bind]. rewrite (row_entry_tid q) by done.
    rewrite bool_decide_false; [done|]. intros [= Et]. apply Hne. by apply (tid_inj ps).
Qed.

(** The row with what a seed has written back to it. *)
Definition kept_row (p : POAM) : POAM :=
  match row_promoted today w bounds authored p with Some r => set_pm_rationale (Some r) p | None => p end.

Lemma kept_row_fields p : pm_id (kept_row p) = pm_id p /\ pm_system_id (kept_row p) = pm_system_id p /\
  (forall b, Cr26Ver.fate today w b (kept_row p) = Cr26Ver.fate today w b p).
Proof. unfold kept_row. by destruct (row_promoted _ _ _ _ p). Qed.

(** Unless the row is now reported as active, its rationale is in its column. *)
Lemma kept_rationale p : (forall d, fate p <> Active d) -> rationale_of (kept_row p) = effective_rationale authored p.
Proof.
  intros Ha. unfold kept_row, row_promoted, effective_rationale. destruct (rationale_of p) as [r|] eqn:Er.
  - by destruct (fate p).
  - destruct (fate p) eqn:Ef; try (by destruct (Ha detail)); (destruct (authored_rationale _) as [r|] eqn:E; [|done]);
      apply authored_rationale_text in E as [??]; by apply rationale_of_set.
Qed.

Lemma entry_rationale p e r : row_entry p = Some e -> effective_rationale authored p = Some r -> authored_rationale (Some e) = Some r.
Proof.
  unfold Cr26Ver.row_entry. intros He Hr. rewrite Hr in He.
  assert (is_blank (VStr r) = false /\ strip r = r) as [Hb Hs].
  { unfold effective_rationale in Hr. destruct (rationale_of p) eqn:E; [injection Hr as <-; by apply stored_rationale in E|].
    by apply authored_rationale_text in Hr. }
  assert (vget "acceptanceRationale" e = VStr r) as Hv.
  { destruct (fate p); try done.
    - destruct (authored_entry authored (tid_of p)); [|done]. injection He as <-. unfold vget. by rewrite dget_dset_eq.
    - injection He as <-. unfold vget, accepted_entry. cbn [dget]. by rewrite decide_False, decide_True by done. }
  unfold authored_rationale. cbn [default from_option id]. rewrite Hv, Hb. cbn [stripped]. by rewrite Hs.
Qed.

(** Read again with the stored document, every row gives the same entry. *)
Lemma row_entry_again p : p ∈ ps -> Cr26Ver.row_entry today w bounds filed (kept_row p) = row_entry p.
Proof.
  intros Hp. pose proof (kept_row_fields p) as (Hid & _ & Hf). pose proof (authored_entry_filed p Hp) as Hfiled.
  set (stored := filed) in *. assert (tid_of (kept_row p) = tid_of p) as Ht by (unfold tid_of; by rewrite Hid).
  assert (Hk : (forall d, fate p <> Active d) -> effective_rationale stored (kept_row p) = effective_rationale authored p).
  { intros Ha. unfold effective_rationale at 1. rewrite kept_rationale by done. destruct (effective_rationale authored p) as [r|] eqn:Er; [done|].
    rewrite Ht, Hfiled. unfold Cr26Ver.row_entry. rewrite Er. by destruct (fate p). }
  unfold Cr26Ver.row_entry at 1. rewrite Hf, Ht, Hfiled. clear Hfiled. clearbody stored. unfold Cr26Ver.row_entry. destruct (fate p) eqn:Ef; try done.
  - rewrite Hk by done. destruct (effective_rationale authored p) as [r|] eqn:Er; [|done].
    destruct (authored_entry authored (tid_of p)); [|done]. cbn [fmap option_fmap option_map]. by rewrite dset_dset.
  - by rewrite Hk by done.
Qed.
End refiled.

(** ** Lemmas: the seeds *)

#[local] Notation W := FEDRAMP_TIMEFRAMES.

(** The table after a seed of the accepted half. *)
Definition rows_after (today : Z) (bounds : option (string * string)) (authored : list pyval) (sid : Z) (poams : list POAM) : list POAM :=
  map (fun p => if pm_system_id p =? sid then kept_row today W bounds authored p else p) poams.

Lemma poam_rows_elem sid poams p : p ∈ poam_rows sid poams <-> pm_system_id p = sid /\ p ∈ poams.
Proof. unfold poam_rows. by rewrite list_elem_of_filter. Qed.

Lemma poam_rows_after today bounds authored sid poams :
  poam_rows sid (rows_after today bounds authored sid poams) = map (kept_row today W bounds authored) (poam_rows sid poams).
Proof.
  unfold poam_rows, rows_after. induction poams as [|p l IH]; [done|]. cbn [map].
  destruct (Z.eqb_spec (pm_system_id p) sid) as [E|E].
  - rewrite !filter_cons_True by (try done; destruct (kept_row_fields today W bounds authored p) as (_ & -> & _); done). cbn [map]. by rewrite IH.
  - by rewrite !filter_cons_False by done.
Qed.

Lemma rows_wf_after today bounds authored ps : rows_wf ps -> rows_wf (map (kept_row today W bounds authored) ps).
Proof.
  intros [Hi Hr]. assert (forall p, pm_id (kept_row today W bounds authored p) = pm_id p) as Hid by (intros; apply kept_row_fields). split.
  - clear Hr. induction ps as [|p l IH]; [constructor|]. apply StronglySorted_inv in Hi as [Hl Hp]. cbn [map]. constructor; [by apply IH|].
    apply Forall_forall. intros q (q0 & -> & Hq)%list_elem_of_fmap. rewrite Forall_forall in Hp. rewrite !Hid. by apply Hp.
  - intros p (q & -> & Hq)%list_elem_of_fmap. rewrite Hid. by apply Hr.
Qed.

Lemma promotes_rows today bounds sid poams authored : rows_wf (poam_rows sid poams) ->
  promote_rationales sid (am_promoted (merge_of (rendering_of today W bounds (poam_rows sid poams)) authored)) poams =
  rows_after today bounds authored sid poams.
Proof.
  intros Hw. destruct (merge_of_eq today W bounds _ Hw authored) as (_ & Hp & _).
  rewrite (promote_spec sid _ _ (row_promoted today W bounds authored)).
  - unfold rows_after, promoted_row, kept_row. done.
  - intros z r (p & _ & _ & E)%Hp. unfold row_promoted in E. destruct (fate _ _ _ p), (rationale_of p); try done; by apply authored_rationale_text in E as [? _].
  - intros p Hin Hs r. rewrite Hp. split.
    + intros [(q & Hq & E & Hr) Hn]. assert (p = q) as -> by (apply (tid_inj (poam_rows sid poams)); [done|by apply poam_rows_elem|done|unfold tid_of; by rewrite E]). done.
    + intros Hr. split; [exists p; split; [by apply poam_rows_elem|done]|]. unfold row_promoted in Hr. by destruct (fate _ _ _ p), (rationale_of p).
Qed.

Lemma rendered_halves today w bounds ps :
  count_fate today w bounds is_rendered ps =
  Z.of_nat (List.length (omap (active_part today w bounds) ps)) + Z.of_nat (List.length (omap (accepted_part today w bounds) ps)).
Proof.
  unfold count_fate, lcount. induction ps as [|p l IH]; [done|]. cbn [lsum foldr omap list_omap]. unfold lsum in IH. rewrite IH.
  unfold active_part at 2, accepted_part at 2. destruct (fate today w bounds p); cbn [is_rendered List.length]; lia.
Qed.

Lemma fates_total today w bounds ps :
  count_fate today w bounds is_not_a_flaw ps + count_fate today w bounds is_outside ps +
  count_fate today w bounds is_rendered ps + count_fate today w bounds is_unplaced ps = Z.of_nat (List.length ps).
Proof.
  unfold count_fate, lcount. induction ps as [|p l IH]; [done|]. cbn [lsum foldr List.length]. unfold lsum in IH.
  destruct (fate today w bounds p); cbn [is_not_a_flaw is_outside is_rendered is_unplaced]; lia.
Qed.

Lemma vget_carry_uri k d current : k <> URI -> vget k (carry_uri d current) = vget k d.
Proof. intros H. unfold carry_uri. destruct (is_blank _); [done|]. unfold vget. by rewrite dget_dset_ne. Qed.

Lemma carry_uri_again d current : dget URI d = None -> carry_uri d (carry_uri d current) = carry_uri d current.
Proof.
  intros Hd. unfold carry_uri. destruct (is_blank (vget URI current)) eqn:E.
  - unfold vget. by rewrite Hd.
  - assert (vget URI (dset URI (VStr (stripped (vget URI current))) d) = VStr (stripped (vget URI current))) as ->
      by (unfold vget at 1; by rewrite dget_dset_eq).
    destruct (stripped_spec _ E) as [-> ->]. done.
Qed.

Section seeds.
Context {St : Type} `{!DocStore St}.
Implicit Types (st : St).

Lemma seed_ver_ok sid kind build today period ak poams st bounds built :
  rows_wf (poam_rows sid poams) -> period_bounds period = Ok bounds ->
  build (rendering_of today W bounds (poam_rows sid poams)) (authored_in st sid ak) = Ok built ->
  writable st sid kind = true ->
  let doc := carry_uri (bt_document built) (stored_obj (doc_at st sid kind None)) in
  exists r st', seed_ver sid kind build today period ak (poams, st) = Ok (r, (promote_rationales sid (bt_promoted built) poams, st')) /\
    dc_document (vs_document r) = doc /\ doc_at st' sid kind None = Some doc /\
    vs_omitted_poam_ids r = stable_sort by_row_id (concat (map (omitted_part today W bounds) (poam_rows sid poams)) ++ bt_omitted built) /\
    vs_counts r = seed_counts (rendering_of today W bounds (poam_rows sid poams)) built /\
    (forall sid' kind' key', (sid', kind', key') <> (sid, kind, None) -> doc_at st' sid' kind' key' = doc_at st sid' kind' key') /\
    (forall sid' kind', writable st' sid' kind' = writable st sid' kind').
Proof.
  intros Hw Hb Hd Hwr. cbv zeta.
  destruct (put_writes sid kind (carry_uri (bt_document built) (stored_obj (doc_at st sid kind None))) None st Hwr) as (row & st' & Ep & Er & Hat & Ho & Hws).
  eexists _, st'. split.
  { unfold seed_ver, render_all. rewrite Hb. cbn [res_bind]. rewrite walk_fates by (by apply rows_nodup). rewrite Hd. cbn [res_bind].
    rewrite Ep. reflexivity. }
  cbn [vs_document vs_omitted_poam_ids vs_counts fst snd]. rewrite Er. done.
Qed.

Lemma instants_bounds period bounds : period_bounds (Some period) = Ok bounds ->
  exists lo hi, bounds = Some (lo, hi) /\ instants period = Ok (VDict [("from", VStr lo); ("to", VStr hi)]).
Proof.
  unfold period_bounds, instants. destruct period as [from to]. cbn [fst snd].
  destruct (instant from) as [lo|]; [|done]. destruct (instant to) as [hi|]; [|done]. cbn [res_bind]. intros [= <-]. eauto.
Qed.

(** A filed accepted vulnerability report. *)
Definition avi_body (today : Z) (bounds : option (string * string)) (report : pyval) (authored : list pyval) (ps : list POAM) : json_obj :=
  [("reportPeriod", report); ("acceptedVulnerabilities", VList (map VDict (omap (row_entry today W bounds authored) ps)))].

Lemma seed_avi_ok sid period today poams st bounds :
  rows_wf (poam_rows sid poams) -> period_bounds (Some period) = Ok bounds -> writable st sid "avi" = true ->
  let rows := poam_rows sid poams in
  let authored := authored_in st sid (Some "avi") in
  let m := merge_of (rendering_of today W bounds rows) authored in
  exists r st' report, instants period = Ok report /\
    seed_avi sid period today (poams, st) = Ok (r, (rows_after today bounds authored sid poams, st')) /\
    dc_document (vs_document r) = carry_uri (avi_body today bounds report authored rows) (stored_obj (doc_at st sid "avi" None)) /\
    doc_at st' sid "avi" None = Some (dc_document (vs_document r)) /\
    vs_omitted_poam_ids r = stable_sort by_row_id (concat (map (omitted_part today W bounds) rows) ++ am_omitted m) /\
    vs_counts r = seed_counts (rendering_of today W bounds rows)
      (built_of (avi_body today bounds report authored rows) (am_rendered_rows m) m) /\
    (forall sid' kind', writable st' sid' kind' = writable st sid' kind').
Proof.
  intros Hw Hb Hwr. cbv zeta. destruct (instants_bounds period bounds Hb) as (lo & hi & _ & Ei).
  destruct (merge_of_eq today W bounds _ Hw (authored_in st sid (Some "avi"))) as (He & _). set (m := merge_of _ _) in *.
  destruct (seed_ver_ok sid "avi" (build_avi period) today (Some period) (Some "avi") poams st bounds
    (built_of (avi_body today bounds (VDict [("from", VStr lo); ("to", VStr hi)]) (authored_in st sid (Some "avi")) (poam_rows sid poams)) (am_rendered_rows m) m) Hw Hb) as (r & st' & E & Ed & Hat & Hom & Hc & _ & Hws).
  { unfold build_avi. fold m. rewrite Ei, He. reflexivity. }
  { done. }
  cbn [built_of bt_document bt_omitted bt_promoted] in *. subst m. rewrite promotes_rows in E by done.
  exists r, st', (VDict [("from", VStr lo); ("to", VStr hi)]). rewrite Ed. auto 10.
Qed.

Lemma seed_history_ok sid now today poams st generated :
  rows_wf (poam_rows sid poams) -> instant now = Ok generated -> writable st sid "ver_history" = true ->
  let rows := poam_rows sid poams in
  let authored := authored_in st sid (Some "avi") in
  let m := merge_of (rendering_of today W None rows) authored in
  let body := [("generatedAt", VStr generated); ("activeVulnerabilities", VList (map VDict (omap (active_part today W None) rows)));
               ("acceptedVulnerabilities", VList (map VDict (omap (row_entry today W None authored) rows)))] in
  exists r st', seed_ver_history sid now today (poams, st) = Ok (r, (rows_after today None authored sid poams, st')) /\
    dc_document (vs_document r) = carry_uri body (stored_obj (doc_at st sid "ver_history" None)) /\
    vs_omitted_poam_ids r = stable_sort by_row_id (concat (map (omitted_part today W None) rows) ++ am_omitted m) /\
    vs_counts r = seed_counts (rendering_of today W None rows)
      (built_of body (Z.of_nat (List.length (omap (active_part today W None) rows)) + am_rendered_rows m) m).
Proof.
  intros Hw Hg Hwr. cbv zeta. destruct (merge_of_eq today W None _ Hw (authored_in st sid (Some "avi"))) as (He & _). set (m := merge_of _ _) in *.
  destruct (seed_ver_ok sid "ver_history" (build_ver_history now) today None (Some "avi") poams st None
    (built_of [("generatedAt", VStr generated); ("activeVulnerabilities", VList (map VDict (omap (active_part today W None) (poam_rows sid poams))));
          ("acceptedVulnerabilities", VList (map VDict (omap (row_entry today W None (authored_in st sid (Some "avi"))) (poam_rows sid poams))))]
       (Z.of_nat (List.length (omap (active_part today W None) (poam_rows sid poams))) + am_rendered_rows m) m) Hw eq_refl) as (r & st' & E & Ed & _ & Hom & Hc & _ & _).
  { unfold build_ver_history. fold m. rewrite Hg, He. reflexivity. }
  { done. }
  cbn [built_of bt_document bt_omitted bt_promoted] in *. subst m. rewrite promotes_rows in E by done. exists r, st'. auto.
Qed.
End seeds.

Lemma kept_row_again today bounds ps authored p : rows_wf ps -> p ∈ ps ->
  kept_row today W bounds (map VDict (omap (row_entry today W bounds authored) ps)) (kept_row today W bounds authored p) =
  kept_row today W bounds authored p.
Proof.
  intros Hw Hp. set (filed := map VDict _). set (q := kept_row today W bounds authored p). unfold kept_row.
  assert (row_promoted today W bounds filed q = None) as ->; [|done].
  destruct (kept_row_fields today W bounds authored p) as (Hid & _ & Hf). fold q in Hid, Hf. unfold row_promoted. rewrite Hf.
  destruct (rationale_of q) as [r|] eqn:Er; [by destruct (fate today W bounds p)|].
  assert (tid_of q = tid_of p) as -> by (unfold tid_of; by rewrite Hid). unfold filed. rewrite authored_entry_filed by done.
  destruct (fate today W bounds p) eqn:Ef; try done; unfold q in Er; rewrite kept_rationale in Er by (intros d; by rewrite Ef);
    unfold row_entry; by rewrite Er, Ef.
Qed.

(** What an accepted entry of one report is in a report without a period. *)
Lemma row_entry_history today bounds ps authored p e : rows_wf ps -> p ∈ ps ->
  row_entry today W bounds authored p = Some e ->
  row_entry today W None (map VDict (omap (row_entry today W bounds authored) ps)) (kept_row today W bounds authored p) = Some e.
Proof.
  intros Hw Hp He. rewrite <-He, <-(row_entry_again today W bounds ps Hw authored p Hp).
  set (filed := map VDict _). set (q := kept_row today W bounds authored p).
  assert (fate today W None q = fate today W bounds q) as E; [|unfold row_entry; by rewrite E].
  unfold q. destruct (kept_row_fields today W bounds authored p) as (_ & _ & Hf). rewrite !Hf. unfold row_entry in He.
  assert (outside bounds (detected_at p) = false \/ fate today W bounds p = NotAFlaw \/ fate today W bounds p = OutsidePeriod) as Ho.
  { unfold fate. destruct (negb _); [auto|]. destruct (outside _ _); auto. }
  destruct Ho as [Ho|[Ho|Ho]]; [|by rewrite Ho in He..]. unfold fate. by rewrite Ho.
Qed.

Section reports.
Context {St : Type} `{!DocStore St}.
Implicit Types (st : St).

Definition accepted_of (r : VerSeedResult) : pyval := vget "acceptedVulnerabilities" (dc_document (vs_document r)).

Definition seed_total (c : SeedCounts) : Z :=
  sc_not_a_flaw c + sc_outside_period c + sc_other_half c + sc_rendered c + sc_omitted c.

(** Every row is counted once, and a row that has no place is named with every reason. *)
Definition placed (today : Z) (bounds : option (string * string)) (rows : list POAM) (r : VerSeedResult) : Prop :=
  seed_total (vs_counts r) = Z.of_nat (List.length rows) /\
  sc_not_a_flaw (vs_counts r) = count_fate today W bounds is_not_a_flaw rows /\
  sc_outside_period (vs_counts r) = count_fate today W bounds is_outside rows /\
  forall p rs reason, p ∈ rows -> fate today W bounds p = Unplaced rs -> reason ∈ rs ->
    (RInt (pm_id p), reason) ∈ vs_omitted_poam_ids r.

Definition named_without_rationale (today : Z) (bounds : option (string * string)) (authored : list pyval) (rows : list POAM)
    (r : VerSeedResult) : Prop :=
  forall p d, p ∈ rows -> fate today W bounds p = Accepted d -> effective_rationale authored p = None ->
    (RInt (pm_id p), "no acceptance rationale") ∈ vs_omitted_poam_ids r.

Lemma placed_intro today bounds rows r built om :
  vs_counts r = seed_counts (rendering_of today W bounds rows) built ->
  vs_omitted_poam_ids r = stable_sort by_row_id (concat (map (omitted_part today W bounds) rows) ++ om) ->
  placed today bounds rows r.
Proof.
  intros Hc Ho. unfold placed. rewrite Hc, Ho. split; [|split; [done|split; [done|]]].
  - unfold seed_total, seed_counts. cbn. rewrite <-(fates_total today W bounds rows). lia.
  - intros p rs reason Hp Hf Hr. rewrite stable_sort_perm, elem_of_app, elem_of_concat_map. left. exists p. split; [done|].
    unfold omitted_part. rewrite Hf. by apply (list_elem_of_fmap_2 (pair (RInt (pm_id p)))).
Qed.

Lemma named_intro today bounds authored rows r : rows_wf rows ->
  vs_omitted_poam_ids r = stable_sort by_row_id (concat (map (omitted_part today W bounds) rows) ++
    am_omitted (merge_of (rendering_of today W bounds rows) authored)) ->
  named_without_rationale today bounds authored rows r.
Proof.
  intros Hw Ho p d Hp Hf Hr. rewrite Ho, stable_sort_perm, elem_of_app. right. by eapply merge_names_row.
Qed.

(** no POA&M disappears from the vulnerability reports. For a writable system
    and a period of aware times, all three reports are filed. Each counts every
    row of the system exactly once - not a flaw, outside the period, in the other
    half, rendered, or omitted - and names every row it could not place with every
    reason, and every accepted row without a rationale. The detail report lists
    exactly the active rows, the history exactly the active and, like the accepted
    report, the accepted ones that have a rationale. *)
Theorem reports_place_every_poam sid period now today poams st bounds generated :
  rows_wf (poam_rows sid poams) -> period_bounds (Some period) = Ok bounds -> instant now = Ok generated ->
  Forall (fun k => writable st sid k = true) ["vdr"; "avi"; "ver_history"] ->
  let rows := poam_rows sid poams in
  let authored := authored_in st sid (Some "avi") in
  let actives b := omap (active_part today W b) rows in
  let accepted b := omap (accepted_part today W b) rows in
  (exists r s', seed_vdr sid period today (poams, st) = Ok (r, s') /\ s'.1 = poams /\ placed today bounds rows r /\
     vget "vulnerabilities" (dc_document (vs_document r)) = VList (map VDict (actives bounds)) /\
     sc_rendered (vs_counts r) = Z.of_nat (List.length (actives bounds)) /\
     sc_other_half (vs_counts r) = Z.of_nat (List.length (accepted bounds))) /\
  (exists r s', seed_avi sid period today (poams, st) = Ok (r, s') /\ placed today bounds rows r /\
     named_without_rationale today bounds authored rows r /\
     accepted_of r = VList (map VDict (omap (row_entry today W bounds authored) rows)) /\
     sc_other_half (vs_counts r) = Z.of_nat (List.length (actives bounds))) /\
  (exists r s', seed_ver_history sid now today (poams, st) = Ok (r, s') /\ placed today None rows r /\
     named_without_rationale today None authored rows r /\
     accepted_of r = VList (map VDict (omap (row_entry today W None authored) rows)) /\
     vget "activeVulnerabilities" (dc_document (vs_document r)) = VList (map VDict (actives None)) /\
     sc_other_half (vs_counts r) = 0).
Proof.
  intros Hw Hb Hg Hwr. cbv zeta. rewrite !Forall_cons in Hwr. destruct Hwr as (W1 & W2 & W3 & _). split; [|split].
  - destruct (instants_bounds period bounds Hb) as (lo & hi & _ & Ei).
    destruct (seed_ver_ok sid "vdr" (build_vdr period) today (Some period) None poams st bounds
      {| bt_document := [("reportPeriod", VDict [("from", VStr lo); ("to", VStr hi)]); ("vulnerabilities", VList (map VDict (omap (active_part today W bounds) (poam_rows sid poams))))];
         bt_omitted := []; bt_rendered := Z.of_nat (List.length (omap (active_part today W bounds) (poam_rows sid poams))); bt_merge_omitted := 0;
         bt_dropped_authored := 0; bt_promoted := [] |} Hw Hb) as (r & st' & E & Ed & _ & Hom & Hc & _); [unfold build_vdr; by rewrite Ei|done|].
    eexists r, _. split; [exact E|]. split; [done|]. split; [by eapply placed_intro|]. rewrite Ed, Hc. split; [by rewrite vget_carry_uri|].
    cbn [seed_counts sc_rendered sc_other_half bt_rendered bt_merge_omitted vr_counts rendering_of wc_rendered]. split; [done|].
    rewrite rendered_halves. lia.
  - destruct (seed_avi_ok sid period today poams st bounds Hw Hb W2) as (r & st' & report & _ & E & Ed & _ & Hom & Hc & _).
    eexists r, _. split; [exact E|]. split; [by eapply placed_intro|]. split; [by apply named_intro|]. unfold accepted_of. rewrite Ed, Hc.
    split; [by rewrite vget_carry_uri|]. cbn [seed_counts sc_other_half bt_rendered bt_merge_omitted built_of vr_counts rendering_of wc_rendered].
    destruct (merge_of_eq today W bounds _ Hw (authored_in st sid (Some "avi"))) as (_ & _ & Hs & _). rewrite rendered_halves. lia.
  - destruct (seed_history_ok sid now today poams st generated Hw Hg W3) as (r & st' & E & Ed & Hom & Hc).
    eexists r, _. split; [exact E|]. split; [by eapply placed_intro|]. split; [by apply named_intro|]. unfold accepted_of. rewrite Ed, Hc.
    split; [by rewrite vget_carry_uri|]. split; [by rewrite vget_carry_uri|].
    cbn [seed_counts sc_other_half bt_rendered bt_merge_omitted built_of vr_counts rendering_of wc_rendered].
    destruct (merge_of_eq today W None _ Hw (authored_in st sid (Some "avi"))) as (_ & _ & Hs & _). rewrite rendered_halves. lia.
Qed.

(** filing the accepted vulnerabilities loses no rationale. Rows of other
    systems and rationales already in their column are left alone. The rationale a
    row has - in its column, or else in the stored document - is afterwards in its
    column, whatever the document becomes, unless the row is now reported as
    active, that is, not accepted. *)
Theorem no_rationale_is_lost sid period today poams st bounds :
  rows_wf (poam_rows sid poams) -> period_bounds (Some period) = Ok bounds -> writable st sid "avi" = true ->
  let authored := authored_in st sid (Some "avi") in
  exists r poams' st', seed_avi sid period today (poams, st) = Ok (r, (poams', st')) /\
    Forall2 (fun p p' =>
      (pm_system_id p <> sid \/ is_Some (rationale_of p) -> p' = p) /\
      (p' = p \/ exists text, p' = set_pm_rationale (Some text) p) /\
      (pm_system_id p = sid -> (forall d, fate today W bounds p <> Active d) ->
       forall text, effective_rationale authored p = Some text -> forall document, effective_rationale document p' = Some text))
      poams poams'.
Proof.
  intros Hw Hb Hwr. cbv zeta. destruct (seed_avi_ok sid period today poams st bounds Hw Hb Hwr) as (r & st' & report & _ & E & _).
  eexists r, _, st'. split; [exact E|]. apply Forall2_fmap_r, Forall_Forall2_diag, Forall_forall. intros p Hp.
  unfold compose. destruct (Z.eqb_spec (pm_system_id p) sid) as [Es|Es]; [|split; [done|split; [by left|done]]].
  split; [|split].
  - intros [?|[t Ht]]; [done|]. unfold kept_row, row_promoted. rewrite Ht. by destruct (fate today W bounds p).
  - unfold kept_row. destruct (row_promoted _ _ _ _ p); eauto.
  - intros _ Ha text Ht document. unfold effective_rationale at 1. by rewrite kept_rationale, Ht by done.
Qed.

(** filing the accepted vulnerabilities again changes nothing. Filed twice for
    the same period and day, the second document is the first, entry by entry in
    the same order, and no column is written a second time. *)
Theorem refiling_is_stable sid period today poams st bounds :
  rows_wf (poam_rows sid poams) -> period_bounds (Some period) = Ok bounds -> writable st sid "avi" = true ->
  exists r1 poams1 st1 r2 st2,
    seed_avi sid period today (poams, st) = Ok (r1, (poams1, st1)) /\
    seed_avi sid period today (poams1, st1) = Ok (r2, (poams1, st2)) /\
    dc_document (vs_document r2) = dc_document (vs_document r1).
Proof.
  intros Hw Hb Hwr. destruct (seed_avi_ok sid period today poams st bounds Hw Hb Hwr) as (r1 & st1 & report & Ei & E1 & D1 & At1 & _ & _ & Ws).
  set (authored := authored_in st sid (Some "avi")) in *. set (rows := poam_rows sid poams) in *.
  set (poams1 := rows_after today bounds authored sid poams) in *.
  assert (poam_rows sid poams1 = map (kept_row today W bounds authored) rows) as Er by apply poam_rows_after.
  assert (rows_wf (poam_rows sid poams1)) as Hw1 by (rewrite Er; by apply rows_wf_after).
  destruct (seed_avi_ok sid period today poams1 st1 bounds Hw1 Hb ltac:(by rewrite Ws)) as (r2 & st2 & report2 & Ei2 & E2 & D2 & _).
  assert (authored_in st1 sid (Some "avi") = map VDict (omap (row_entry today W bounds authored) rows)) as Ea.
  { unfold authored_in. rewrite At1, D1. cbn [stored_obj default from_option id]. by rewrite vget_carry_uri. }
  rewrite Ea in E2, D2.
  assert (rows_after today bounds (map VDict (omap (row_entry today W bounds authored) rows)) sid poams1 = poams1) as Hp.
  { unfold poams1; unfold rows_after. rewrite map_map. apply map_ext_in. intros p Hp%list_elem_of_In.
    destruct (Z.eqb_spec (pm_system_id p) sid) as [Es|Es].
    - destruct (kept_row_fields today W bounds authored p) as (_ & -> & _). rewrite (proj2 (Z.eqb_eq _ _) Es).
      apply kept_row_again; [done|by apply poam_rows_elem].
    - by rewrite (proj2 (Z.eqb_neq _ _) Es). }
  rewrite Hp in E2. exists r1, poams1, st1, r2, st2. split; [done|]. split; [done|]. rewrite D2, D1.
  rewrite Ei in Ei2. injection Ei2 as <-.
  assert (avi_body today bounds report (map VDict (omap (row_entry today W bounds authored) rows)) (poam_rows sid poams1) =
          avi_body today bounds report authored rows) as ->.
  { unfold avi_body. rewrite Er, omap_map_eq. erewrite (omap_ext_in (fun x => row_entry _ _ _ _ _)); [done|].
    intros p Hin. by apply row_entry_again. }
  rewrite At1, D1. cbn [stored_obj default from_option id]. by apply carry_uri_again.
Qed.

(** the accepted report and the history agree. Filed after the accepted report,
    on the same day, the history lists every accepted vulnerability of that
    report, with the same detail and the same rationale. *)
Theorem history_agrees_with_accepted sid period now today poams st bounds generated :
  rows_wf (poam_rows sid poams) -> period_bounds (Some period) = Ok bounds -> instant now = Ok generated ->
  writable st sid "avi" = true -> writable st sid "ver_history" = true ->
  exists r1 s1 r2 s2 accepted history,
    seed_avi sid period today (poams, st) = Ok (r1, s1) /\ seed_ver_history sid now today s1 = Ok (r2, s2) /\
    accepted_of r1 = VList accepted /\ accepted_of r2 = VList history /\ forall e, e ∈ accepted -> e ∈ history.
Proof.
  intros Hw Hb Hg Hwr Hwh. destruct (seed_avi_ok sid period today poams st bounds Hw Hb Hwr) as (r1 & st1 & report & Ei & E1 & D1 & At1 & _ & _ & Ws).
  set (authored := authored_in st sid (Some "avi")) in *. set (rows := poam_rows sid poams) in *.
  set (poams1 := rows_after today bounds authored sid poams) in *.
  assert (poam_rows sid poams1 = map (kept_row today W bounds authored) rows) as Er by apply poam_rows_after.
  assert (rows_wf (poam_rows sid poams1)) as Hw1 by (rewrite Er; by apply rows_wf_after).
  destruct (seed_history_ok sid now today poams1 st1 generated Hw1 Hg ltac:(by rewrite Ws)) as (r2 & st2 & E2 & D2 & _).
  assert (authored_in st1 sid (Some "avi") = map VDict (omap (row_entry today W bounds authored) rows)) as Ea.
  { unfold authored_in. rewrite At1, D1. cbn [stored_obj default from_option id]. by rewrite vget_carry_uri. }
  rewrite Ea in D2. eexists r1, _, r2, _, _, _. split; [exact E1|]. split; [exact E2|]. unfold accepted_of. rewrite D1, D2, !vget_carry_uri by done.
  split; [reflexivity|]. split; [reflexivity|]. intros v (e & -> & (p & Hp & He)%list_elem_of_omap)%list_elem_of_fmap.
  apply (list_elem_of_fmap_2 VDict). rewrite Er, omap_map_eq. apply list_elem_of_omap. exists p. split; [done|].
  by apply row_entry_history.
Qed.
End reports.

(** ** A worked example *)

Definition demo_poam (id : Z) (status : string) (title : string) (identified : Z) (rationale : option string) : POAM :=
  {| pm_id := id; pm_system_id := 1; pm_control_id := None; pm_title := title; pm_weakness := None; pm_severity := "high";
     pm_status := status; pm_source := Some "scan"; pm_remediation_plan := None; pm_plan_source := ""; pm_identified_on := Some identified;
     pm_due_on := None; pm_original_due_on := None; pm_source_ref := None; pm_scanner := Some "Nessus"; pm_finding_uid := None;
     pm_closed_on := None; pm_acceptance_rationale := rationale; pm_milestones := []; pm_details := no_details |}.

(** An accepted row, an active one, and an accepted one whose title was cleared. *)
Definition demo_poams : list POAM :=
  [demo_poam 3 "risk_accepted" "Weak cipher" 20590 (Some "compensating control"); demo_poam 4 "open" "Old kernel" 20590 None;
   demo_poam 12 "risk_accepted" " " 20591 None].

Definition demo_time (us : Z) : Datetime := {| dt_local := us; dt_utcoffset := Some 0; dt_repr := "" |}.
Definition demo_period : Datetime * Datetime := (demo_time (20580 * day_us), demo_time (20600 * day_us)).

(** The stored accepted report holds the rationale of row 12. *)
Definition demo_avi : json_obj :=
  [("acceptedVulnerabilities", VList [VDict [("vulnerabilityDetail", VDict [("providerTrackingId", VStr "12")]); ("acceptanceRationale", VStr "vendor end of life")]])].
Definition demo_docs : CrDb :=
  {| cr_systems := demo_systems;
     cr_documents := [{| dc_id := 1; dc_organization_id := Some 5; dc_system_id := 1; dc_kind := "avi"; dc_document_key := None;
                         dc_document := demo_avi; dc_ruleset_version := RULESET_VERSION; dc_schema_version := None; dc_is_valid := false;
                         dc_validation_errors := []; dc_updated_by := None |}];
     cr_next_id := 2; cr_events := [] |}.
#[local] Instance demo_files : DocStore CrDb := store_instance true demo_schema.

Lemma demo_rows_wf : rows_wf (poam_rows 1 demo_poams).
Proof.
  split; [repeat constructor|]. intros p Hp. unfold poam_rows, demo_poams in Hp. apply list_elem_of_filter in Hp as [_ Hp].
  elem_cases Hp; cbn; lia.
Qed.

Lemma reports_place_every_poam_witness :
  exists r s', seed_avi 1 demo_period 20600 (demo_poams, demo_docs) = Ok (r, s') /\
    vs_omitted_poam_ids r = [(RInt 12, "no description"); (RInt 12, "detail not refreshed: no description")] /\
    seed_total (vs_counts r) = 3.
Proof.
  destruct (reports_place_every_poam 1 demo_period (demo_time 0) 20600 demo_poams demo_docs
    (Some ("2026-05-07T00:00:00Z", "2026-05-27T00:00:00Z")) "1970-01-01T00:00:00Z" demo_rows_wf) as (_ & (r & s' & E & Hp & _) & _).
  - vm_compute. reflexivity.
  - vm_compute. reflexivity.
  - repeat constructor.
  - exists r, s'. split; [exact E|]. split; [|apply Hp]. vm_compute in E. injection E as <- _. reflexivity.
Defined.

Lemma no_rationale_is_lost_witness :
  exists r poams' st', seed_avi 1 demo_period 20600 (demo_poams, demo_docs) = Ok (r, (poams', st')) /\
    map pm_acceptance_rationale poams' = [Some "compensating control"; None; Some "vendor end of life"].
Proof.
  destruct (no_rationale_is_lost 1 demo_period 20600 demo_poams demo_docs
    (Some ("2026-05-07T00:00:00Z", "2026-05-27T00:00:00Z")) demo_rows_wf) as (r & poams' & st' & E & _).
  - vm_compute. reflexivity.
  - reflexivity.
  - exists r, poams', st'. split; [exact E|]. vm_compute in E. injection E as _ <- _. reflexivity.
Defined.

Lemma refiling_is_stable_witness :
  exists r1 poams1 st1 r2 st2, seed_avi 1 demo_period 20600 (demo_poams, demo_docs) = Ok (r1, (poams1, st1)) /\
    seed_avi 1 demo_period 20600 (poams1, st1) = Ok (r2, (poams1, st2)) /\ dc_document (vs_document r2) = dc_document (vs_document r1).
Proof.
  apply (refiling_is_stable 1 demo_period 20600 demo_poams demo_docs (Some ("2026-05-07T00:00:00Z", "2026-05-27T00:00:00Z")) demo_rows_wf).
  - vm_compute. reflexivity.
  - reflexivity.
Defined.

Lemma history_agrees_witness :
  exists r1 s1 r2 s2 accepted history,
    seed_avi 1 demo_period 20600 (demo_poams, demo_docs) = Ok (r1, s1) /\ seed_ver_history 1 (demo_time 0) 20600 s1 = Ok (r2, s2) /\
    accepted_of r1 = VList accepted /\ accepted_of r2 = VList history /\ forall e, e ∈ accepted -> e ∈ history.
Proof.
  apply (history_agrees_with_accepted 1 demo_period (demo_time 0) 20600 demo_poams demo_docs
    (Some ("2026-05-07T00:00:00Z", "2026-05-27T00:00:00Z")) "1970-01-01T00:00:00Z" demo_rows_wf).
  - vm_compute. reflexivity.
  - vm_compute. reflexivity.
  - reflexivity.
  - reflexivity.
Defined.
