(* ===== verification/Cr26Ocr.v ===== *)
(** The CR26 ongoing certification report ([src/src/ccf/cr26/ocr.py]): eight
    authored statements, kept only when a person made them, and one derived
    count, with the account of what the accepted vulnerability report cannot say
    about the rows it counts. *)

From S2P Require Export Cr26Ver.

Local Open Scope string_scope.
Local Open Scope Z_scope.

(** ** Authored fields *)

(** The value of a field, when a person supplied a usable one, or why not. *)
Notation extracted := (option pyval * string)%type.

Definition array_extractor (key absent_reason : string) (current : json_obj) : extracted :=
  match dget key current with
  | None => (None, absent_reason)
  | Some (VList l) => (Some (VList l), "")
  | Some v => (None, "an authored " +:+ key +:+ " was present but not usable: expected a list of strings, got " +:+ type_name v)
  end.

Definition extract_planned_changes (current : json_obj) : extracted :=
  match dget "plannedCertificationDataChanges" current with
  | None => (None, "no authored forward-looking commitment: plannedCertificationDataChanges needs both planningHorizonThrough and changes, and a half-filled one is invalid rather than incomplete")
  | Some (VDict value) =>
      if is_blank (vget "planningHorizonThrough" value) then
        (None, "an authored plannedCertificationDataChanges was present but planningHorizonThrough was missing or blank")
      else match vget "changes" value with
           | VList _ => (Some (VDict value), "")
           | _ => (None, "an authored plannedCertificationDataChanges was present but changes was not a list")
           end
  | Some _ => (None, "an authored plannedCertificationDataChanges was present but not usable: expected an object with planningHorizonThrough and changes")
  end.

Definition extract_reportable_incidents (current : json_obj) : extracted :=
  match dget "reportableIncidents" current with
  | None => (None, "no authored incident attestation -- an empty `incidents` array is a positive statement that none occurred, and the seeder must never manufacture that statement on a human's behalf")
  | Some (VDict value) =>
      match vget "incidents" value with
      | VList _ => (Some (VDict value), "")
      | _ => (None, "an authored reportableIncidents was present but `incidents` was not a list")
      end
  | Some _ => (None, "an authored reportableIncidents was present but not usable: expected an object with an `incidents` list")
  end.

Definition OCR_AUTHORED_FIELDS : list (string * (json_obj -> extracted)) :=
  [("certificationDataChanges", array_extractor "certificationDataChanges"
      "no authored summary of changes to FedRAMP Certification Data since the previous report");
   ("plannedCertificationDataChanges", extract_planned_changes);
   ("transformativeChanges", array_extractor "transformativeChanges"
      "no authored judgment on which changes during this period were transformative");
   ("updatedRecommendations", array_extractor "updatedRecommendations"
      "no authored recommendations or best practices for customers");
   ("activeAgencies", array_extractor "activeAgencies"
      "no authored list of agencies using the product -- commercial knowledge the platform does not hold");
   ("reportableIncidents", extract_reportable_incidents)].

(** One step of the loop: the document and the fields still owed. *)
Definition ocr_field (current : json_obj) (st : json_obj * list (string * string)) (f : string * (json_obj -> extracted))
    : json_obj * list (string * string) :=
  match f.2 current with
  | (Some v, _) => (dset f.1 v st.1, st.2)
  | (None, reason) => (st.1, st.2 ++ [(f.1, reason)])%list
  end.

(** ** The derived count *)

Definition accepted_rows (poams : list POAM) (period_from period_to today : Z) : list POAM :=
  List.filter (fun p =>
    mem (or_empty (pm_source p)) FLAW_SOURCES &&
    match pm_identified_on p with Some d => (period_from <=? d) && (d <=? period_to) | None => false end &&
    bool_decide (accepted_weakness_state (sla_view p) today = "accepted")) poams.

Definition accepted_summary (count : Z) : string :=
  pretty count +:+ " accepted " +:+ (if count =? 1 then "vulnerability" else "vulnerabilities") +:+
  " for this reporting period. Full records are reported per VER-RPT-AVI.".

(** [int(entry.get("vulnerabilityDetail", {}).get("providerTrackingId"))] *)
Definition reportable_id (entry : json_obj) : res (option Z) :=
  match default (VDict []) (dget "vulnerabilityDetail" entry) with
  | VDict d =>
      Ok (match vget "providerTrackingId" d with
          | VStr s => match py_int s with Ok z => Some z | Err _ => None end
          | VInt z => Some z
          | VBool b => Some (if b then 1 else 0)
          | VFloat x => Some (Z.quot (fl_num x) (fl_den x))
          | VNone | VList _ | VDict _ => None
          end)
  | v => Err (AttributeError (type_name v) "get")
  end.

(** The reasons collected for an id, in order. *)
Definition reasons_for (omitted : list OmittedRow) (id : Z) : list string :=
  omap (fun o => if bool_decide (o.1 = RInt id) then Some o.2 else None) omitted.

Definition gap_of (omitted : list OmittedRow) (id : Z) : list OmittedRow :=
  match reasons_for omitted id with
  | [] => [(RInt id, "not reflected in the AVI for an unrecognised reason")]
  | reasons => map (pair (RInt id)) reasons
  end.

Record OcrSeedResult := {
  or_document : Cr26Document;
  or_missing_fields : list (string * string);
  or_accepted_count : Z;
  or_avi_gap : list OmittedRow }.

Section ocr_seed.
Context {St : Type} `{!DocStore St}.

Definition avi_gap (sid : Z) (poams : list POAM) (accepted_ids : list Z) (today : Z) (st : St) : res (list OmittedRow) :=
  if bool_decide (accepted_ids = []) then Ok [] else
  let! rendering := render_all poams today FEDRAMP_TIMEFRAMES None in
  let merge := merge_of rendering (authored_in st sid (Some "avi")) in
  let! ids := res_map reportable_id (am_entries merge) in
  let reportable := omap id ids in
  let gap_ids := stable_sort Z.leb (List.filter (fun i => negb (mem i reportable)) accepted_ids) in
  Ok (concat (map (gap_of (vr_omitted rendering ++ am_omitted merge)%list) gap_ids)).

Definition seed_ocr (sid : Z) (period_from period_to today : Z) (s : list POAM * St) : res (OcrSeedResult * St) :=
  let '(poams, st) := s in
  let rows := poam_rows sid poams in
  let current := stored_obj (doc_at st sid "ocr" None) in
  let accepted := accepted_rows rows period_from period_to today in
  let count := Z.of_nat (List.length accepted) in
  let! gap := avi_gap sid rows (remove_dups (map pm_id accepted)) today st in
  let document := [("reportPeriod", VDict [("from", VStr (date_iso period_from)); ("to", VStr (date_iso period_to))]);
                   ("acceptedVulnerabilities", VStr (accepted_summary count))] in
  let out := foldl (ocr_field current) (carry_uri document current, []) OCR_AUTHORED_FIELDS in
  let! stored := put sid "ocr" out.1 None st in
  Ok ({| or_document := stored.1; or_missing_fields := out.2; or_accepted_count := count; or_avi_gap := gap |}, stored.2).
End ocr_seed.

(** ** Lemmas: authored fields *)

Local Open Scope list_scope.

(** What a field's extractor takes from the stored document. *)
Definition extract (name : string) (current : json_obj) : option pyval :=
  match dget name OCR_AUTHORED_FIELDS with Some ex => (ex current).1 | None => None end.
Definition why_missing (name : string) (current : json_obj) : option string :=
  match dget name OCR_AUTHORED_FIELDS with
  | Some ex => match (ex current).1 with None => Some (ex current).2 | Some _ => None end
  | None => None
  end.
Definition OCR_FIELDS : list string := dkeys OCR_AUTHORED_FIELDS.

(** An extractor hands over the stored value or nothing, by the value alone. *)
Definition verbatim (f : string * (json_obj -> extracted)) : Prop :=
  exists usable : pyval -> bool, forall current,
    (f.2 current).1 = match dget f.1 current with Some v => if usable v then Some v else None | None => None end.

Lemma extractors_verbatim f : f ∈ OCR_AUTHORED_FIELDS -> verbatim f.
Proof.
  assert (Ha : forall k why, verbatim (k, array_extractor k why)).
  { intros k why. exists (fun v => match v with VList _ => true | _ => false end). intros current. cbn [fst snd]. unfold array_extractor.
    destruct (dget k current) as [[]|]; done. }
  intros Hf. unfold OCR_AUTHORED_FIELDS in Hf. elem_cases Hf; try apply Ha.
  - exists (fun v => match v with
                     | VDict d => negb (is_blank (vget "planningHorizonThrough" d)) && match vget "changes" d with VList _ => true | _ => false end
                     | _ => false end).
    intros current. cbn [fst snd]. unfold extract_planned_changes. destruct (dget _ current) as [[| | | | | |d]|]; try done.
    destruct (is_blank _); [done|]. by destruct (vget "changes" d).
  - exists (fun v => match v with VDict d => match vget "incidents" d with VList _ => true | _ => false end | _ => false end).
    intros current. cbn [fst snd]. unfold extract_reportable_incidents. destruct (dget _ current) as [[| | | | | |d]|]; try done.
    by destruct (vget "incidents" d).
Qed.

Lemma ocr_names_nodup : NoDup (dkeys OCR_AUTHORED_FIELDS).
Proof. apply (bool_decide_unpack (NoDup (dkeys OCR_AUTHORED_FIELDS))). vm_compute. exact I. Qed.

Lemma ocr_field_get f : f ∈ OCR_AUTHORED_FIELDS -> dget f.1 OCR_AUTHORED_FIELDS = Some f.2.
Proof. intros Hf. apply dget_elem; [exact ocr_names_nodup|by destruct f]. Qed.

(** Presence of a usable value is all that matters. *)
Lemma extract_spec name : name ∈ OCR_FIELDS ->
  exists usable : pyval -> bool, forall current,
    extract name current = match dget name current with Some v => if usable v then Some v else None | None => None end.
Proof.
  intros (f & -> & Hf)%list_elem_of_fmap. destruct (extractors_verbatim f Hf) as [u Hu]. exists u. intros current.
  unfold extract. rewrite ocr_field_get by done. apply Hu.
Qed.

Lemma ocr_fields_fold current d :
  (forall n, n ∈ OCR_FIELDS -> n ∉ dkeys d) ->
  foldl (ocr_field current) (d, []) OCR_AUTHORED_FIELDS =
  (d ++ fields (fun n => extract n current) OCR_FIELDS,
   omap (fun n => pair n <$> why_missing n current) OCR_FIELDS).
Proof.
  intros Hd. rewrite <-set_fields; [|exact ocr_names_nodup|done].
  assert (Hg : forall l d m, (forall f, f ∈ l -> dget f.1 OCR_AUTHORED_FIELDS = Some f.2) ->
    foldl (ocr_field current) (d, m) l =
    (foldl (fun d n => match extract n current with Some v => dset n v d | None => d end) d (dkeys l),
     m ++ omap (fun n => pair n <$> why_missing n current) (dkeys l))).
  { induction l as [|[n ex] l IH]; intros d0 m Hl; [by rewrite app_nil_r|]. cbn [foldl dkeys map fst omap list_omap].
    unfold ocr_field at 2. unfold extract at 2, why_missing at 1. pose proof (Hl (n, ex) ltac:(left)) as E. cbn [fst snd] in E. rewrite E. cbn [fst snd].
    destruct (ex current) as [[v|] why]; cbn [fst snd fmap option_fmap option_map];
      rewrite IH by (intros; apply Hl; by right); [done|]. by rewrite <-app_assoc. }
  apply (Hg OCR_AUTHORED_FIELDS). exact ocr_field_get.
Qed.

Section ocr.
Context {St : Type} `{!DocStore St}.
Implicit Types (st : St).

(** The document a seed files. *)
Definition ocr_document (period_from period_to count : Z) (current : json_obj) : json_obj :=
  carry_uri [("reportPeriod", VDict [("from", VStr (date_iso period_from)); ("to", VStr (date_iso period_to))]);
             ("acceptedVulnerabilities", VStr (accepted_summary count))] current ++
  fields (fun n => extract n current) OCR_FIELDS.

Lemma seed_ocr_ok sid period_from period_to today poams st gap :
  let rows := poam_rows sid poams in
  let accepted := accepted_rows rows period_from period_to today in
  let count := Z.of_nat (List.length accepted) in
  let current := stored_obj (doc_at st sid "ocr" None) in
  avi_gap sid rows (remove_dups (map pm_id accepted)) today st = Ok gap -> writable st sid "ocr" = true ->
  exists r st', seed_ocr sid period_from period_to today (poams, st) = Ok (r, st') /\
    dc_document (or_document r) = ocr_document period_from period_to count current /\
    doc_at st' sid "ocr" None = Some (dc_document (or_document r)) /\
    or_missing_fields r = omap (fun n => pair n <$> why_missing n current) OCR_FIELDS /\
    or_accepted_count r = count /\ or_avi_gap r = gap /\
    (forall sid' kind' key', (sid', kind', key') <> (sid, "ocr", None) -> doc_at st' sid' kind' key' = doc_at st sid' kind' key') /\
    (forall sid' kind', writable st' sid' kind' = writable st sid' kind').
Proof.
  cbv zeta. intros Hg Hw. set (current := stored_obj _). set (count := Z.of_nat _).
  destruct (put_writes sid "ocr" (ocr_document period_from period_to count current) None st Hw) as (row & st' & Ep & Er & Hat & Ho & Hws).
  eexists _, st'. split.
  { unfold seed_ocr. rewrite Hg. cbn [res_bind]. fold current count. rewrite ocr_fields_fold; [cbn [fst snd]; fold (ocr_document period_from period_to count current); rewrite Ep; reflexivity|].
    intros n Hn Hk. unfold OCR_FIELDS, OCR_AUTHORED_FIELDS in Hn. cbn [dkeys map fst] in Hn. unfold carry_uri in Hk.
    destruct (is_blank _); elem_cases Hn; mem_absurd Hk. }
  cbn [or_document or_missing_fields or_accepted_count or_avi_gap fst snd]. rewrite Er. done.
Qed.

Lemma ocr_document_get name pf pt count current : name ∈ OCR_FIELDS ->
  dget name (ocr_document pf pt count current) = extract name current.
Proof.
  intros Hn. unfold ocr_document. rewrite dget_app, dget_fields, (proj2 (mem_true _ _) Hn).
  assert (dget name (carry_uri [("reportPeriod", VDict [("from", VStr (date_iso pf)); ("to", VStr (date_iso pt))]);
             ("acceptedVulnerabilities", VStr (accepted_summary count))] current) = None) as ->; [|done].
  apply dget_None. intros Hk. unfold OCR_FIELDS, OCR_AUTHORED_FIELDS in Hn. cbn [dkeys map fst] in Hn. unfold carry_uri in Hk.
  destruct (is_blank _); elem_cases Hn; mem_absurd Hk.
Qed.
End ocr.

(** ** Lemmas: the gap *)

#[local] Notation W := FEDRAMP_TIMEFRAMES.

Lemma reasons_elem omitted id reason : reason ∈ reasons_for omitted id <-> (RInt id, reason) ∈ omitted.
Proof.
  unfold reasons_for. rewrite list_elem_of_omap. split.
  - intros ([k r] & Hin & E). cbn [fst snd] in E. case_bool_decide; [|done]. injection E as ->. by subst k.
  - intros Hin. exists (RInt id, reason). split; [done|]. cbn [fst snd]. by rewrite bool_decide_true.
Qed.

(** A row that is accounted for by name has exactly its reasons in the gap. *)
Lemma gap_elem omitted ids : (forall id, id ∈ ids -> reasons_for omitted id <> []) ->
  forall k reason, (k, reason) ∈ concat (map (gap_of omitted) ids) <-> exists id, id ∈ ids /\ k = RInt id /\ (RInt id, reason) ∈ omitted.
Proof.
  intros Hne k reason. rewrite elem_of_concat_map. split.
  - intros (id & Hid & Hin). exists id. split; [done|]. unfold gap_of in Hin. destruct (reasons_for omitted id) as [|r rs] eqn:E; [by destruct (Hne id)|].
    apply list_elem_of_fmap in Hin as (x & [= -> ->] & Hx). split; [done|]. apply reasons_elem. by rewrite E.
  - intros (id & Hid & -> & Hin%reasons_elem). exists id. split; [done|]. unfold gap_of.
    destruct (reasons_for omitted id) as [|r rs] eqn:E; [by apply not_elem_of_nil in Hin|]. by apply (list_elem_of_fmap_2 (pair (RInt id))).
Qed.

Section gap.
Context (today : Z) (ps : list POAM) (Hw : rows_wf ps) (authored : list pyval).
Notation rendering := (rendering_of today W None ps).
Notation merge := (merge_of rendering authored).
Notation omitted := (vr_omitted rendering ++ am_omitted merge).

Lemma row_entry_id bounds p e : p ∈ ps -> row_entry today W bounds authored p = Some e -> reportable_id e = Ok (Some (pm_id p)).
Proof.
  intros Hp He. apply (row_entry_tid today W bounds ps Hw authored p e Hp) in He. unfold tracking_id, vget at 1 in He. unfold reportable_id.
  destruct (dget "vulnerabilityDetail" e) as [v|]; [|done]. cbn [default from_option id] in *. destruct v as [| | | | | |d]; try done.
  destruct (vget "providerTrackingId" d) as [| | | |s| |]; try done. cbn [is_blank stripped] in He.
  destruct (negb (str_truthy (strip s))); [done|]. injection He as He.
  assert (py_int s = Ok (pm_id p)) as ->; [|done]. destruct (py_int_pretty (pm_id p) (rw_range ps Hw p Hp)) as [Hi _].
  fold (tid_of p) in Hi. rewrite <-He in Hi. unfold py_int in *. rewrite strip_idem in Hi.
  destruct (strip_underscores _ (strip s)) as [t|]; [|done]. destruct (sign_of t) as [n u].
  destruct (negb (all_digits u)); [done|]. by destruct (4300 <? _).
Qed.

(** The ids of the accepted report's entries. *)
Lemma reportable_rows : exists ids, res_map reportable_id (am_entries merge) = Ok ids /\
  forall z, z ∈ omap id ids <-> exists p, p ∈ ps /\ z = pm_id p /\ row_entry today W None authored p <> None.
Proof.
  destruct (merge_of_eq today W None ps Hw authored) as (-> & _).
  exists (omap (fun p => match row_entry today W None authored p with Some _ => Some (Some (pm_id p)) | None => None end) ps). split.
  - assert (Hsub : forall l, (forall p, p ∈ l -> p ∈ ps) -> res_map reportable_id (omap (row_entry today W None authored) l) =
      Ok (omap (fun p => match row_entry today W None authored p with Some _ => Some (Some (pm_id p)) | None => None end) l)); [|by apply Hsub].
    induction l as [|p l IH]; intros Hl; [done|]. cbn [omap list_omap]. destruct (row_entry today W None authored p) as [e|] eqn:E.
    + cbn [res_map]. rewrite (row_entry_id None p e) by (done || apply Hl; left). cbn [res_bind].
      rewrite IH by (intros; apply Hl; by right). done.
    + apply IH. intros; apply Hl; by right.
  - intros z. rewrite omap_omap, list_elem_of_omap. split.
    + intros (p & Hp & E). exists p. split; [done|]. destruct (row_entry today W None authored p); [|done]. cbn in E. by injection E as <-.
    + intros (p & Hp & -> & Hne). exists p. split; [done|]. by destruct (row_entry today W None authored p).
Qed.

Lemma accepted_rows_elem pf pt p : p ∈ accepted_rows ps pf pt today ->
  p ∈ ps /\ ((exists d, fate today W None p = Accepted d) \/ exists rs, fate today W None p = Unplaced rs).
Proof.
  unfold accepted_rows. rewrite list_elem_of_In, filter_In, <-list_elem_of_In. intros [Hp H]. split; [done|].
  rewrite !andb_true_iff, bool_decide_eq_true in H. destruct H as [[Hs _] Ha]. unfold fate. rewrite Hs, Ha. cbn [negb outside].
  destruct (_ ++ _); [destruct (render_vulnerability p today W).1|]; eauto.
Qed.

(** An accepted row the report has no entry for is named among the omitted. *)
Lemma gap_has_reason p : p ∈ ps -> row_entry today W None authored p = None ->
  (forall rs reason, fate today W None p = Unplaced rs -> reason ∈ rs -> (RInt (pm_id p), reason) ∈ omitted) /\
  (forall d, fate today W None p = Accepted d -> (RInt (pm_id p), "no acceptance rationale") ∈ omitted).
Proof.
  intros Hp He. split.
  - intros rs reason Hf Hr. apply elem_of_app. left. cbn [vr_omitted rendering_of]. apply elem_of_concat_map. exists p. split; [done|].
    unfold omitted_part. rewrite Hf. by apply (list_elem_of_fmap_2 (pair (RInt (pm_id p)))).
  - intros d Hf. apply elem_of_app. right.
    assert (effective_rationale authored p = None) as Hr.
    { unfold row_entry in He. rewrite Hf in He. by destruct (effective_rationale authored p). }
    by eapply merge_names_row.
Qed.
End gap.

Section ocr_reports.
Context {St : Type} `{!DocStore St}.
Implicit Types (st : St).

Lemma avi_gap_ok sid rows accepted today st : rows_wf rows -> (forall p, p ∈ accepted -> p ∈ rows /\
    ((exists d, fate today W None p = Accepted d) \/ exists rs, fate today W None p = Unplaced rs)) ->
  let authored := authored_in st sid (Some "avi") in
  let rendering := rendering_of today W None rows in
  exists gap, avi_gap sid rows (remove_dups (map pm_id accepted)) today st = Ok gap /\
    forall k reason, (k, reason) ∈ gap <-> exists p, p ∈ accepted /\ row_entry today W None authored p = None /\ k = RInt (pm_id p) /\
      (k, reason) ∈ vr_omitted rendering ++ am_omitted (merge_of rendering authored).
Proof.
  intros Hw Ha. cbv zeta. set (authored := authored_in st sid (Some "avi")). unfold avi_gap. case_bool_decide as Hn.
  { exists []. split; [done|]. intros k reason. split; [intros H; by apply not_elem_of_nil in H|].
    intros (p & Hp & _). apply (list_elem_of_fmap_2 pm_id) in Hp. change (pm_id <$> accepted) with (map pm_id accepted) in Hp.
    rewrite <-elem_of_remove_dups, Hn in Hp. by apply not_elem_of_nil in Hp. }
  unfold render_all. cbn [period_bounds res_bind]. rewrite walk_fates by (by apply rows_nodup). fold authored.
  destruct (reportable_rows today rows Hw authored) as (ids & -> & Hids). cbn [res_bind]. eexists. split; [reflexivity|].
  assert (Hin : forall i, i ∈ stable_sort Z.leb (List.filter (fun j => negb (mem j (omap id ids))) (remove_dups (map pm_id accepted))) <->
    exists p, p ∈ accepted /\ i = pm_id p /\ row_entry today W None authored p = None).
  { intros z. rewrite stable_sort_perm, list_elem_of_In, filter_In, <-list_elem_of_In, elem_of_remove_dups, negb_true_iff, mem_false, Hids. split.
    - intros [(p & -> & Hp)%list_elem_of_fmap Hno]. exists p. split; [done|]. split; [done|].
      destruct (row_entry today W None authored p) eqn:E; [|done]. destruct Hno. exists p. split; [by apply Ha|]. by rewrite E.
    - intros (p & Hp & -> & E). split; [by apply (list_elem_of_fmap_2 pm_id)|]. intros (q & Hq & Eq & Hne).
      apply Hne. rewrite <-E. f_equal. symmetry. apply (tid_inj rows); [done|by apply Ha|done|unfold tid_of; by rewrite Eq]. }
  intros k reason. rewrite gap_elem.
  - split.
    + intros (i & (p & Hp & -> & E)%Hin & -> & Hom). exists p. done.
    + intros (p & Hp & E & -> & Hom). exists (pm_id p). split; [apply Hin; by exists p|]. done.
  - intros i (p & Hp & -> & E)%Hin Hr. destruct (Ha p Hp) as [Hps Hf].
    destruct (gap_has_reason today rows Hw authored p Hps E) as [Hu Hacc].
    destruct Hf as [[d Hf]|[rs Hf]].
    + apply Hacc, reasons_elem in Hf. rewrite Hr in Hf. by apply not_elem_of_nil in Hf.
    + pose proof (unplaced_reasons today W None p rs Hf) as Hne. destruct rs as [|r rs]; [done|].
      apply (Hu (r :: rs) r) in Hf; [|left]. apply reasons_elem in Hf. rewrite Hr in Hf. by apply not_elem_of_nil in Hf.
Qed.

(** an ongoing report states only what a person wrote. On a writable system
    the report is filed; each of the six authored fields is in it exactly when the
    stored report held a usable value for it, word for word, and is otherwise
    named with a reason - never invented, an empty list being kept as the
    attestation it is. The derived sentence counts the accepted flaws dated in the
    period. Seeding again files the same document. *)
Theorem ocr_states_only_what_was_authored sid period_from period_to today poams st :
  rows_wf (poam_rows sid poams) -> writable st sid "ocr" = true ->
  let current := stored_obj (doc_at st sid "ocr" None) in
  let count := Z.of_nat (List.length (accepted_rows (poam_rows sid poams) period_from period_to today)) in
  exists r st', seed_ocr sid period_from period_to today (poams, st) = Ok (r, st') /\
    or_accepted_count r = count /\
    dget "acceptedVulnerabilities" (dc_document (or_document r)) = Some (VStr (accepted_summary count)) /\
    (forall name, name ∈ OCR_FIELDS ->
       dget name (dc_document (or_document r)) = extract name current /\
       (forall v, extract name current = Some v -> dget name current = Some v) /\
       ((exists why, (name, why) ∈ or_missing_fields r) <-> extract name current = None)) /\
    (forall name l, name ∈ ["certificationDataChanges"; "transformativeChanges"; "updatedRecommendations"; "activeAgencies"] ->
       dget name current = Some (VList l) -> extract name current = Some (VList l)) /\
    exists r2 st2, seed_ocr sid period_from period_to today (poams, st') = Ok (r2, st2) /\
      dc_document (or_document r2) = dc_document (or_document r).
Proof.
  intros Hw Hwr. cbv zeta. set (current := stored_obj _). set (rows := poam_rows sid poams) in *.
  set (accepted := accepted_rows rows period_from period_to today). set (count := Z.of_nat _).
  assert (Hgap : forall st, exists gap, avi_gap sid rows (remove_dups (map pm_id accepted)) today st = Ok gap).
  { intros s. destruct (avi_gap_ok sid rows accepted today s Hw) as (gap & E & _); [|by exists gap].
    intros p Hp. by eapply accepted_rows_elem. }
  destruct (Hgap st) as [gap Eg].
  destruct (seed_ocr_ok sid period_from period_to today poams st gap Eg Hwr) as (r & st' & E & Ed & Hat & Hm & Hc & _ & _ & Hws).
  fold rows accepted count current in Ed, Hm, Hc. exists r, st'. split; [exact E|]. split; [exact Hc|]. rewrite Ed, Hm.
  split; [|split; [|split]].
  - unfold ocr_document. rewrite dget_app. unfold carry_uri. destruct (is_blank (vget URI current)); reflexivity.
  - intros name Hn. split; [by apply ocr_document_get|]. destruct (extract_spec name Hn) as [u Hu]. split.
    + intros v. rewrite Hu. destruct (dget name current) as [x|]; [|done]. by destruct (u x).
    + apply list_elem_of_fmap in Hn as (f & -> & Hf). unfold extract. rewrite ocr_field_get by done. split.
      * intros (why & (n & Hn & En)%list_elem_of_omap). destruct (why_missing n current) eqn:Ew; [|done]. injection En as -> _.
        unfold why_missing in Ew. rewrite ocr_field_get in Ew by done. by destruct (f.2 current).1.
      * intros Hnone. exists (f.2 current).2. apply list_elem_of_omap. exists f.1. split; [by apply (list_elem_of_fmap_2 fst)|].
        unfold why_missing. rewrite ocr_field_get by done. by rewrite Hnone.
  - intros name l Hn Hl.
    assert (exists why, (name, array_extractor name why) ∈ OCR_AUTHORED_FIELDS) as [why Hf]
      by (unfold OCR_AUTHORED_FIELDS; elem_cases Hn; eexists; in_list).
    unfold extract. pose proof (ocr_field_get _ Hf) as E1. cbn [fst snd] in E1. rewrite E1. unfold array_extractor. by rewrite Hl.
  - destruct (Hgap st') as [gap2 Eg2].
    destruct (seed_ocr_ok sid period_from period_to today poams st' gap2 Eg2 ltac:(by rewrite Hws)) as (r2 & st2 & E2 & Ed2 & _).
    exists r2, st2. split; [exact E2|]. rewrite Ed2, Hat, Ed. cbn [stored_obj default from_option id]. fold rows accepted count.
    set (doc := ocr_document period_from period_to count current). unfold ocr_document at 1. set (base := [_; _]).
    transitivity (carry_uri base current ++ fields (fun n => extract n current) OCR_FIELDS); [f_equal|reflexivity].
    + assert (carry_uri base doc = carry_uri base (carry_uri base current)) as ->; [|by apply carry_uri_again].
      assert (vget URI doc = vget URI (carry_uri base current)) as Eu; [|unfold carry_uri at 1 2; by rewrite Eu].
      unfold doc, ocr_document, vget. fold base. rewrite dget_app, dget_fields. rewrite (proj2 (mem_false URI OCR_FIELDS)) by names.
      by destruct (dget URI (carry_uri base current)).
    + apply fields_ext. intros n Hn. destruct (extract_spec n Hn) as [u Hu]. rewrite !Hu. unfold doc. rewrite ocr_document_get, Hu by done.
      destruct (dget n current) as [v|]; [|done]. destruct (u v) eqn:Ev; [by rewrite Ev|done].
Qed.

(** the ongoing report accounts for its distance from the accepted report. Each
    row it counts either has an entry in the accepted report - filed now, for any
    period the row lies in - and is not in the gap, or is in the gap, with exactly
    the reasons the accepted report omits it for, at least one of them. Nothing
    else is in the gap. *)
Theorem ocr_gap_is_exact sid period_from period_to today poams st :
  rows_wf (poam_rows sid poams) -> writable st sid "ocr" = true ->
  let rows := poam_rows sid poams in
  let authored := authored_in st sid (Some "avi") in
  let rendering := rendering_of today W None rows in
  let omitted := vr_omitted rendering ++ am_omitted (merge_of rendering authored) in
  exists r st', seed_ocr sid period_from period_to today (poams, st) = Ok (r, st') /\
    (forall p, p ∈ accepted_rows rows period_from period_to today ->
       (forall bounds, outside bounds (detected_at p) = false -> row_entry today W bounds authored p = row_entry today W None authored p) /\
       match row_entry today W None authored p with
       | Some _ => forall reason, (RInt (pm_id p), reason) ∉ or_avi_gap r
       | None => (exists reason, (RInt (pm_id p), reason) ∈ or_avi_gap r) /\
                 forall reason, (RInt (pm_id p), reason) ∈ or_avi_gap r <-> (RInt (pm_id p), reason) ∈ omitted
       end) /\
    (forall k reason, (k, reason) ∈ or_avi_gap r ->
       exists p, p ∈ accepted_rows rows period_from period_to today /\ k = RInt (pm_id p)).
Proof.
  intros Hw Hwr. cbv zeta. set (rows := poam_rows sid poams) in *. set (accepted := accepted_rows rows period_from period_to today).
  set (authored := authored_in st sid (Some "avi")).
  assert (Ha : forall p, p ∈ accepted -> p ∈ rows /\
    ((exists d, fate today W None p = Accepted d) \/ exists rs, fate today W None p = Unplaced rs)) by (intros; by eapply accepted_rows_elem).
  destruct (avi_gap_ok sid rows accepted today st Hw Ha) as (gap & Eg & Hg). fold authored in Hg.
  destruct (seed_ocr_ok sid period_from period_to today poams st gap Eg Hwr) as (r & st' & E & _ & _ & _ & _ & Er & _).
  exists r, st'. split; [exact E|]. rewrite Er. split; [|intros k reason (p & Hp & _ & -> & _)%Hg; by exists p].
  intros p Hp. split.
  { intros bounds Ho. unfold row_entry, fate. rewrite Ho. done. }
  assert (Hsame : forall q, q ∈ accepted -> RInt (pm_id q) = RInt (pm_id p) -> q = p).
  { intros q Hq [= Eq]. apply (tid_inj rows); [done|by apply Ha|by apply Ha|unfold tid_of; by rewrite Eq]. }
  destruct (row_entry today W None authored p) as [e|] eqn:Ee.
  - intros reason (q & Hq & En & Eq & _)%Hg. apply eq_sym, Hsame in Eq; [|done]. congruence.
  - assert (forall reason, (RInt (pm_id p), reason) ∈ gap <-> (RInt (pm_id p), reason) ∈ vr_omitted (rendering_of today W None rows) ++
       am_omitted (merge_of (rendering_of today W None rows) authored)) as Hiff.
    { intros reason. rewrite Hg. split; [by intros (q & _ & _ & _ & Hin)|]. intros Hin. by exists p. }
    split; [|exact Hiff]. destruct (gap_has_reason today rows Hw authored p (proj1 (Ha p Hp)) Ee) as [Hu Hacc].
    destruct (proj2 (Ha p Hp)) as [[d Hf]|[rs Hf]]; [eexists; apply Hiff; by eapply Hacc|].
    pose proof (unplaced_reasons today W None p rs Hf) as Hne. destruct rs as [|x rs]; [done|]. exists x. apply Hiff. apply (Hu _ x Hf). left.
Qed.
End ocr_reports.

(** ** A worked example *)

#[local] Existing Instance demo_files.

Lemma ocr_witness :
  exists r st', seed_ocr 1 20580 20600 20600 (demo_poams, demo_docs) = Ok (r, st') /\ or_accepted_count r = 2 /\
    map fst (or_missing_fields r) = OCR_FIELDS.
Proof.
  destruct (ocr_states_only_what_was_authored 1 20580 20600 20600 demo_poams demo_docs demo_rows_wf) as (r & st' & E & Hc & _); [reflexivity|].
  exists r, st'. split; [exact E|]. split; [exact Hc|]. vm_compute in E. injection E as <- _. reflexivity.
Defined.

Lemma ocr_gap_witness :
  exists r st', seed_ocr 1 20580 20600 20600 (tl demo_poams ++ [demo_poam 15 "risk_accepted" "Old TLS" 20592 None], demo_docs) = Ok (r, st') /\
    or_avi_gap r = [(RInt 15, "no acceptance rationale")].
Proof.
  destruct (ocr_gap_is_exact 1 20580 20600 20600 (tl demo_poams ++ [demo_poam 15 "risk_accepted" "Old TLS" 20592 None]) demo_docs) as (r & st' & E & _).
  - split; [repeat constructor|]. intros p Hp. unfold poam_rows, demo_poams in Hp. apply list_elem_of_filter in Hp as [_ Hp].
    cbn [tl app] in Hp. elem_cases Hp; cbn; lia.
  - reflexivity.
  - exists r, st'. split; [exact E|]. vm_compute in E. injection E as <- _. reflexivity.
Defined.
