(* ===== verification/Cr26Sdr.v ===== *)
(** The CR26 security decision record ([src/src/ccf/cr26/sdr.py]): the controls of
    the system's security plan, the key security indicators and the FedRAMP
    requirements, with the lists of what could not be said.

    The controls are rendered afresh on every seed. An indicator keeps the narrative
    a person wrote and takes its other fields from the validation runs and reviews;
    a requirement is authored throughout, kept or repaired, and every requirement the
    seeder drops or repairs is named; an indicator is named when its id has no narrative. The vendored schema's status enumerations are
    data of the repository; text is ordered by code point. *)

From S2P Require Export Cr26Seed.

Local Open Scope string_scope.
Local Open Scope Z_scope.

(** ** The vocabulary of the schema *)

(** The three enumerations of the vendored schema, by field. *)
Definition SCHEMA_STATUS_ENUMS : list (string * list string) :=
  [("controlImplementationStatus", ["Implemented"; "Not Implemented"; "Partially Implemented"]);
   ("ksiImplementationStatus", ["Implemented"; "Not Implemented"; "Partially Implemented"]);
   ("frrImplementationStatus", ["Implemented"; "Not Implemented"; "Partially Implemented"])].

(** The members shared by the enumerations, or a failure when they disagree. *)
Definition implementation_status_enum (found : list (string * list string)) : res (gset string) :=
  let sets := map (fun e => list_to_set e.2) found : list (gset string) in
  match sets with
  | s :: rest =>
      if forallb (fun t => bool_decide (t = s)) rest then Ok s
      else Err (Exn "RuntimeError" "CR26 schema drift: the SDR's implementation-status enums no longer agree")
  | [] => Err (Exn "RuntimeError" "CR26 schema drift: the SDR's implementation-status enums no longer agree")
  end.

Definition STATUS_ENUM : gset string := {["Implemented"; "Not Implemented"; "Partially Implemented"]}.

(** [isinstance(status, str) and status in enum] *)
Definition is_enum_status (v : pyval) : bool :=
  match v with VStr s => bool_decide (s ∈ STATUS_ENUM) | _ => false end.

(** ** Controls *)

(** The columns of [ssp_control_entries] read here. *)
Record SSPControlEntry := {
  en_project_id : Z;
  en_control_id : string;
  en_implementation_status : list pyval;
  en_part_narratives : list pyval;
  en_odp_values : json_obj;
  en_sort_order : Z }.

Definition parameter_values (odp_values : json_obj) : list pyval :=
  omap (fun kv => if is_none kv.2 then None
                  else Some (VDict [("parameterId", VStr kv.1); ("parameterValue", VStr (py_str kv.2))])) odp_values.

Definition control_implementation_status (statuses : list pyval) : res (option string) :=
  match statuses with
  | [v] =>
      if hashable v then
        Ok (match v with VStr s => if bool_decide (s ∈ STATUS_ENUM) then Some s else None | _ => None end)
      else Err (TypeError ("unhashable type: '" +:+ type_name v +:+ "'"))
  | _ => Ok None
  end.

(** [DRAFT_PREFIX.rstrip()] and the placeholder tokens of [ssp/completeness.py]. *)
Definition DRAFT_TOKEN : string := "[DRAFT]".
Definition ODP_PLACEHOLDER_TOKENS : list string := ["[Assignment:"; "[Selection"; "[ORGANIZATION-DEFINED:"].
Definition is_draft_or_placeholder (text : string) : bool :=
  str_contains DRAFT_TOKEN text || existsb (fun tok => str_contains tok text) ODP_PLACEHOLDER_TOKENS.

(** One part of a narrative: its text when it is rendered, and whether content was
    dropped. *)
Definition narrative_part (part : pyval) : option string * bool :=
  match part with
  | VDict p =>
      match vget "text" p with
      | VStr value =>
          if negb (str_truthy (strip value)) then (None, false)
          else if truthy (vget "draft" p) || is_draft_or_placeholder value then (None, true)
          else (Some (strip value), false)
      | VNone => (None, false)
      | _ => (None, true)
      end
  | v => (None, negb (is_blank v))
  end.

Definition implementation_description (part_narratives : list pyval) : option string * bool :=
  let parts := map narrative_part part_narratives in
  let written := omap fst parts in
  let dropped := existsb snd parts in
  let description := join " " written in
  if negb (str_truthy description) then (None, dropped)
  else if is_draft_or_placeholder description then (None, true)
  else (Some description, dropped).

Record Rendered := { rd_controls : list pyval; rd_missing : list string; rd_dropped_parts : list string }.

(** One entry: the control, and the gap lists it belongs to. *)
Definition render_control (entry : SSPControlEntry) : res (json_obj * bool * bool) :=
  let '(description, dropped) := implementation_description (en_part_narratives entry) in
  let! status := control_implementation_status (en_implementation_status entry) in
  Ok (([("controlId", VStr (en_control_id entry)); ("parameterValues", VList (parameter_values (en_odp_values entry)))] ++
       match description with Some d => [("controlImplementationDescription", VStr d)] | None => [] end ++
       match status with Some s => [("controlImplementationStatus", VStr s)] | None => [] end)%list,
      match description with None => true | Some _ => false end, dropped).

Definition rendered_controls (entries : list SSPControlEntry) : res Rendered :=
  let! cs := res_map (fun e => let! r := render_control e in Ok (en_control_id e, r)) entries in
  Ok {| rd_controls := map (fun c : string * (json_obj * bool * bool) => VDict c.2.1.1) cs;
        rd_missing := omap (fun c : string * (json_obj * bool * bool) => if c.2.1.2 then Some c.1 else None) cs;
        rd_dropped_parts := omap (fun c : string * (json_obj * bool * bool) => if c.2.2 then Some c.1 else None) cs |}.

(** The columns of [ssp_projects] read here. *)
Record SSPProject := { pj_id : Z; pj_system_id : option Z; pj_updated_at : Z }.

(** [updated_at desc, id desc], first. *)
Definition later_project (a b : SSPProject) : bool :=
  (pj_updated_at b <? pj_updated_at a) || ((pj_updated_at b =? pj_updated_at a) && (pj_id b <? pj_id a)).
Definition latest_project_id (projects : list SSPProject) (sid : Z) : option Z :=
  pj_id <$> latest_of later_project (filter (fun p => pj_system_id p = Some sid) projects).

(** [sort_order, control_id] *)
Definition entry_le (a b : SSPControlEntry) : bool :=
  (en_sort_order a <? en_sort_order b) ||
  ((en_sort_order a =? en_sort_order b) && str_leb (en_control_id a) (en_control_id b)).
Definition project_entries (entries : list SSPControlEntry) (project_id : option Z) : list SSPControlEntry :=
  match project_id with
  | Some i => stable_sort entry_le (filter (fun e => en_project_id e = i) entries)
  | None => []
  end.

(** ** Indicators: merging *)

Definition DERIVED_INDICATOR_FIELDS : list string :=
  ["ksiImplementationStatus"; "ksiValidation"; "ksiAssessment"; "ksiTests"; "ksiEvidence"].
Definition REQUIRED_ARRAY_FIELDS : list string :=
  List.filter (fun f => negb (bool_decide (f = "ksiImplementationStatus"))) DERIVED_INDICATOR_FIELDS.

(** A string that says something. *)
Definition says (v : pyval) : bool := match v with VStr s => str_truthy (strip s) | _ => false end.
Definition has_narrative (v : pyval) : bool := match v with VList l => existsb says l | _ => false end.

(** [d.pop(k, None)] *)
Definition dpop (k : string) (d : json_obj) : json_obj := List.filter (fun kv => negb (bool_decide (kv.1 = k))) d.

(** One step of the first loop: the authored entry kept for each id. *)
Definition keep_entry (by_id : list (string * json_obj)) (entry : json_obj) : list (string * json_obj) :=
  match vget "ksiId" entry with
  | VStr ksi_id =>
      if negb (str_truthy ksi_id) then by_id
      else match dget ksi_id by_id with
           | Some prior =>
               if has_narrative (vget "ksiImplementation" prior) && negb (has_narrative (vget "ksiImplementation" entry))
               then by_id else dset ksi_id entry by_id
           | None => dset ksi_id entry by_id
           end
  | _ => by_id
  end.

(** The derived fields over an authored entry. *)
Definition refresh_field (ksi_id : string) (facts : json_obj) (out : json_obj) (field : string) : res json_obj :=
  match dget field facts with
  | None => Err (KeyError ("derived facts for " +:+ repr_str ksi_id +:+ " are missing required field " +:+ repr_str field))
  | Some VNone => Err (KeyError ("derived facts for " +:+ repr_str ksi_id +:+ " has a None value for required field " +:+ repr_str field))
  | Some v => Ok (dset field v out)
  end.

Fixpoint refresh_fields (ksi_id : string) (facts : json_obj) (out : json_obj) (fields : list string) : res json_obj :=
  match fields with
  | [] => Ok out
  | f :: rest => let! out := refresh_field ksi_id facts out f in refresh_fields ksi_id facts out rest
  end.

Definition refresh_derived (ksi_id : string) (facts out : json_obj) : res json_obj :=
  let! out := refresh_fields ksi_id facts out REQUIRED_ARRAY_FIELDS in
  match vget "ksiImplementationStatus" facts with
  | VNone => Ok (dpop "ksiImplementationStatus" out)
  | v => Ok (dset "ksiImplementationStatus" v out)
  end.

(** The fields of an entry whose id the catalog does not know. *)
Definition carry_array (out : json_obj) (field : string) : json_obj :=
  dset field (match vget field out with VList l => VList l | _ => VList [] end) out.
Definition carry_derived (out : json_obj) : json_obj :=
  let out := foldl carry_array out REQUIRED_ARRAY_FIELDS in
  if is_enum_status (vget "ksiImplementationStatus" out) then out else dpop "ksiImplementationStatus" out.

(** One step of the second loop. *)
Definition merge_indicator (by_id : list (string * json_obj)) (derived : list (string * json_obj)) (ksi_id : string)
    : res (option json_obj) :=
  let entry := default [] (dget ksi_id by_id) in
  let narrative := vget "ksiImplementation" entry in
  if negb (has_narrative narrative) then Ok None else
  let out := dset "ksiImplementation" narrative (dset "ksiId" (VStr ksi_id) entry) in
  let! out := match dget ksi_id derived with
              | Some facts => refresh_derived ksi_id facts out
              | None => Ok (carry_derived out)
              end in
  Ok (Some out).

Definition merge_indicators (authored : list json_obj) (derived : list (string * json_obj))
    : res (list json_obj * list string) :=
  let by_id := foldl keep_entry [] authored in
  let ids := sorted_set (dkeys by_id ++ dkeys derived)%list in
  let! outs := res_map (fun i => let! o := merge_indicator by_id derived i in Ok (i, o)) ids in
  Ok (omap snd outs, omap (fun io => match io.2 with None => Some io.1 | Some _ => None end) outs).

(** ** Indicators: derived facts *)

(** The columns read here of [ksis], [ksi_states], [ksi_validation_results] and
    [ksi_assessor_reviews]. *)
Record SdrKsi := { sk_id : Z; sk_identifier : string; sk_validation_method : option string; sk_rule : json_obj }.
Record SdrState := { ss_system_id : Z; ss_ksi_id : Z; ss_status : string }.
Record SdrRun := {
  sr_id : Z; sr_system_id : Z; sr_ksi_id : Z; sr_status : string; sr_source : option string;
  sr_evidence_refs : list pyval; sr_validated_at : Z }.
Record SdrReview := {
  sv_id : Z; sv_system_id : Z; sv_ksi_id : Z; sv_status : string; sv_assessor : option string;
  sv_finding : option string; sv_reviewed_at : Z }.

Definition IMPLEMENTATION_STATUS_BY_VERDICT : list (string * string) := [("pass", "Implemented"); ("fail", "Not Implemented")].

Definition implementation_status (verdict : option string) : res (option string) :=
  match dget (or_empty verdict) IMPLEMENTATION_STATUS_BY_VERDICT with
  | Some claimed =>
      if bool_decide (claimed ∈ STATUS_ENUM) then Ok (Some claimed)
      else Err (Exn "RuntimeError" ("CR26 schema drift: validation verdict " +:+ repr_str (or_empty verdict) +:+ " maps to " +:+
                 repr_str claimed +:+ ", which the vendored schema's implementation-status enum no longer accepts"))
  | None => Ok None
  end.

Definition validation_statements (result : option SdrRun) : list pyval :=
  match result with
  | None => []
  | Some r =>
      let statement := sr_status r +:+ " at " +:+ dt_iso (sr_validated_at r) in
      [VStr (if str_truthy (or_empty (sr_source r)) then statement +:+ " (source: " +:+ or_empty (sr_source r) +:+ ")"
             else statement)]
  end.

Definition assessment_statements (review : option SdrReview) : list pyval :=
  match review with
  | None => []
  | Some r =>
      let statement := sv_status r in
      let statement := if str_truthy (or_empty (sv_assessor r)) then statement +:+ " by " +:+ or_empty (sv_assessor r) else statement in
      [VStr (if str_truthy (or_empty (sv_finding r)) then statement +:+ ": " +:+ or_empty (sv_finding r) else statement)]
  end.

Definition tests_of (k : SdrKsi) : list pyval :=
  let method := strip (or_empty (sk_validation_method k)) in
  let kind := strip (let v := vget "kind" (sk_rule k) in if truthy v then py_str v else "") in
  match str_truthy method, str_truthy kind with
  | true, true => [VStr (method +:+ " validation (rule kind: " +:+ kind +:+ ")")]
  | true, false => [VStr (method +:+ " validation")]
  | false, true => [VStr ("rule kind: " +:+ kind)]
  | false, false => []
  end.

Definition evidence_of (result : option SdrRun) : list pyval :=
  match result with
  | None => []
  | Some r =>
      map (fun ref => VDict [("evidenceDescription", VStr (py_str ref)); ("lastUpdated", VStr (date_iso (dt_date (sr_validated_at r))))])
          (sr_evidence_refs r)
  end.

(** The tables the seeder reads. *)
Record SdrTables := {
  sd_projects : list SSPProject;
  sd_entries : list SSPControlEntry;
  sd_ksis : list SdrKsi;
  sd_states : list SdrState;
  sd_runs : list SdrRun;
  sd_reviews : list SdrReview }.

(** [{row.ksi_id: row for row in rows}] after an ascending [ORDER BY]: the last row
    of each indicator stays. *)
Section last_row.
Context {A : Type} (ksi_of at_of id_of : A -> Z).
Definition row_le (a b : A) : bool := (at_of a <? at_of b) || ((at_of a =? at_of b) && (id_of a <=? id_of b)).
Definition last_rows (rows : list A) : gmap Z A := foldl (fun m r => <[ksi_of r := r]> m) ∅ (stable_sort row_le rows).
End last_row.

Definition derived_facts (state : option SdrState) (result : option SdrRun) (review : option SdrReview) (k : SdrKsi) : res json_obj :=
  let! status := implementation_status (ss_status <$> state) in
  Ok ([("ksiValidation", VList (validation_statements result)); ("ksiAssessment", VList (assessment_statements review));
       ("ksiTests", VList (tests_of k)); ("ksiEvidence", VList (evidence_of result))] ++
      match status with Some s => [("ksiImplementationStatus", VStr s)] | None => [] end)%list.

Fixpoint derive_all (states : gmap Z SdrState) (results : gmap Z SdrRun) (reviews : gmap Z SdrReview) (ksis : list SdrKsi)
    (derived : list (string * json_obj)) : res (list (string * json_obj)) :=
  match ksis with
  | [] => Ok derived
  | k :: rest =>
      let! facts := derived_facts (states !! sk_id k) (results !! sk_id k) (reviews !! sk_id k) k in
      derive_all states results reviews rest (dset (sk_identifier k) facts derived)
  end.

Definition derived_indicators (t : SdrTables) (sid : Z) : res (list (string * json_obj)) :=
  let states := foldl (fun m s => <[ss_ksi_id s := s]> m) ∅ (filter (fun s => ss_system_id s = sid) (sd_states t)) in
  let results := last_rows sr_ksi_id sr_validated_at sr_id (filter (fun r => sr_system_id r = sid) (sd_runs t)) in
  let reviews := last_rows sv_ksi_id sv_reviewed_at sv_id (filter (fun r => sv_system_id r = sid) (sd_reviews t)) in
  derive_all states results reviews (sd_ksis t) [].

(** ** Requirements *)

Notation note := (string * string)%type.

Definition DROPPED_STATEMENT : string := "frrImplementation entry dropped: not a string".

(** [frrImplementationStatus]: the entry and the notes so far. *)
Definition repair_status (frr_id : string) (st : json_obj * list note) : json_obj * list note :=
  match dget "frrImplementationStatus" st.1 with
  | Some v => if is_enum_status v then st
              else (dpop "frrImplementationStatus" st.1,
                    st.2 ++ [(frr_id, "implementation status dropped: not a schema enum member")])%list
  | None => st
  end.

(** [frrValidation] and [frrAssessment] *)
Definition repair_array (frr_id : string) (st : json_obj * list note) (field : string) : json_obj * list note :=
  match dget field st.1 with
  | None => st
  | Some (VList value) =>
      let cleaned := List.filter says value in
      if py_eq (VList cleaned) (VList value) then st
      else (dset field (VList cleaned) st.1,
            if existsb (fun v => negb (is_str v)) value
            then st.2 ++ [(frr_id, field +:+ " entry dropped: not a string")] else st.2)%list
  | Some _ => (dpop field st.1, st.2 ++ [(frr_id, field +:+ " dropped: not a list")])%list
  end.

(** What becomes of one entry: rendered or not, with its notes. *)
Definition repair_requirement (index : Z) (raw_entry : pyval) : option (string * json_obj) * list note :=
  let locator := "fedRampRequirements[" +:+ pretty index +:+ "]" in
  match raw_entry with
  | VDict entry =>
      match vget "frrID" entry with
      | VStr raw_id =>
          if negb (str_truthy (strip raw_id)) then (None, [(locator, "no frrID")]) else
          let frr_id := strip raw_id in
          match vget "frrImplementation" entry with
          | VList implementation =>
              let dropped := if existsb (fun v => negb (is_str v)) implementation then [(frr_id, DROPPED_STATEMENT)] else [] in
              match List.filter says implementation with
              | [] => (None, (frr_id, "no implementation statement") :: dropped)
              | statements =>
                  let entry := dset "frrImplementation" (VList statements) (dset "frrID" (VStr frr_id) entry) in
                  let out := foldl (repair_array frr_id) (repair_status frr_id (entry, dropped)) ["frrValidation"; "frrAssessment"] in
                  (Some (frr_id, out.1), out.2)
              end
          | _ => (None, [(frr_id, "frrImplementation is not a list")])
          end
      | _ => (None, [(locator, "no frrID")])
      end
  | _ => (None, [(locator, "not an object")])
  end.

(** One step of the loop: rendered entries with their ids, notes, ids seen. *)
Definition merge_requirement (st : list (string * json_obj) * list note * list string) (ie : Z * pyval)
    : list (string * json_obj) * list note * list string :=
  let '(rendered, notes, seen) := st in
  match repair_requirement ie.1 ie.2 with
  | (None, more) => (rendered, notes ++ more, seen)%list
  | (Some (frr_id, entry), more) =>
      (rendered ++ [(frr_id, entry)],
       notes ++ more ++ (if mem frr_id seen then [(frr_id, "duplicate authored entry kept")] else []), frr_id :: seen)%list
  end.

Definition merge_requirements (authored : list pyval) : list json_obj * list note :=
  let '(rendered, notes, _) := foldl merge_requirement ([], [], []) (imap (fun i v => (Z.of_nat i, v)) authored) in
  (map snd (stable_sort (fun a b => str_leb a.1 b.1) rendered), notes).

(** ** The seeder *)

Record SdrSeedResult := {
  sdr_document : Cr26Document;
  omitted_ksi_ids : list string;
  ssp_project_id : option Z;
  controls_missing_description : list string;
  controls_with_dropped_parts : list string;
  rendered_control_count : Z;
  omitted_requirements : list note }.

(** A stored array, or nothing. *)
Definition stored_list (name : string) (d : json_obj) : list pyval :=
  match vget name d with VList l => l | _ => [] end.
Definition dicts_of (l : list pyval) : list json_obj := omap (fun v => match v with VDict d => Some d | _ => None end) l.

Section sdr_seed.
Context {St : Type} `{!DocStore St}.

Definition seed_sdr (systems : St -> Z -> option CrSystem) (t : SdrTables) (sid : Z) (st : St) : res (SdrSeedResult * St) :=
  match systems st sid with
  | None => Err (ValueError ("unknown system: " +:+ pretty sid))
  | Some _ =>
      let document := stored_obj (doc_at st sid "sdr" None) in
      let project_id := latest_project_id (sd_projects t) sid in
      let! controls := rendered_controls (project_entries (sd_entries t) project_id) in
      let document := dset "securityControls" (VList (rd_controls controls)) document in
      let! derived := derived_indicators t sid in
      let! merged := merge_indicators (dicts_of (stored_list "keySecurityIndicators" document)) derived in
      let document := dset "keySecurityIndicators" (VList (map VDict merged.1)) document in
      let requirements := merge_requirements (stored_list "fedRampRequirements" document) in
      let document := dset "fedRampRequirements" (VList (map VDict requirements.1)) document in
      let! stored := put sid "sdr" document None st in
      Ok ({| sdr_document := stored.1; omitted_ksi_ids := merged.2; ssp_project_id := project_id;
             controls_missing_description := rd_missing controls; controls_with_dropped_parts := rd_dropped_parts controls;
             rendered_control_count := Z.of_nat (List.length (rd_controls controls));
             omitted_requirements := requirements.2 |}, stored.2)
  end.
End sdr_seed.

(** ** Lemmas: the controls *)

Local Open Scope list_scope.

Definition PLACEHOLDER_TOKENS : list string := DRAFT_TOKEN :: ODP_PLACEHOLDER_TOKENS.

Lemma draft_spec text : is_draft_or_placeholder text = true <-> exists tok, tok ∈ PLACEHOLDER_TOKENS /\ str_contains tok text = true.
Proof.
  change (is_draft_or_placeholder text) with (existsb (fun tok => str_contains tok text) PLACEHOLDER_TOKENS).
  rewrite existsb_exists. by setoid_rewrite list_elem_of_In.
Qed.

(** No token has a space in it, so a join by spaces cannot create one. *)
Lemma tokens_have_no_space tok : tok ∈ PLACEHOLDER_TOKENS -> str_mem " " tok = false /\ tok <> "".
Proof. intros H. unfold PLACEHOLDER_TOKENS, ODP_PLACEHOLDER_TOKENS in H. elem_cases H; done. Qed.

Lemma draft_strip value : is_draft_or_placeholder value = false -> is_draft_or_placeholder (strip value) = false.
Proof.
  rewrite <-!not_true_iff_false, !draft_spec. intros Hn (tok & Ht & H%str_contains_strip). apply Hn. by exists tok.
Qed.

Lemma draft_join l : Forall (fun s => is_draft_or_placeholder s = false) l -> is_draft_or_placeholder (join " " l) = false.
Proof.
  rewrite Forall_forall, <-not_true_iff_false, draft_spec. intros Hl (tok & Ht & H).
  destruct (tokens_have_no_space tok Ht) as [Hs Hne]. apply str_contains_join in H as (s & Hin & H); [|done..].
  specialize (Hl s Hin). rewrite <-not_true_iff_false, draft_spec in Hl. apply Hl. by exists tok.
Qed.

(** The texts of a narrative that are rendered, and whether a part is dropped. *)
Definition written_parts (parts : list pyval) : list string := omap (fun p => (narrative_part p).1) parts.
Definition loses_parts (parts : list pyval) : bool := existsb (fun p => (narrative_part p).2) parts.

Lemma narrative_part_written p t : (narrative_part p).1 = Some t ->
  (narrative_part p).2 = false /\ says (VStr t) = true /\ is_draft_or_placeholder t = false /\
  exists d value, p = VDict d /\ vget "text" d = VStr value /\ t = strip value /\ truthy (vget "draft" d) = false.
Proof.
  destruct p as [| | | | | |d]; try done. unfold narrative_part. destruct (vget "text" d) as [| | | |value| |] eqn:Et; try done.
  destruct (str_truthy (strip value)) eqn:Es; [|done]. destruct (truthy _) eqn:Ed; [done|].
  destruct (is_draft_or_placeholder value) eqn:Ep; [done|]. cbn. intros [= <-]. rewrite strip_idem. split; [done|]. split; [done|].
  split; [by apply draft_strip|]. exists d, value. done.
Qed.

Lemma written_parts_say parts : Forall (fun t => says (VStr t) = true /\ is_draft_or_placeholder t = false) (written_parts parts).
Proof.
  apply Forall_forall. intros t (p & _ & Ht)%list_elem_of_omap. by apply narrative_part_written in Ht as (_ & ? & ? & _).
Qed.

Lemma says_spec s : says (VStr s) = true <-> str_forallb is_space s = false.
Proof. cbn [says]. unfold str_truthy. rewrite bool_decide_eq_true, strip_nil. by destruct (str_forallb is_space s). Qed.

Lemma join_says w ws : says (VStr w) = true -> says (VStr (join " " (w :: ws))) = true.
Proof.
  rewrite !says_spec. intros H. destruct ws as [|u ws]; [done|].
  change (join " " (w :: u :: ws)) with (w +:+ String " " (join " " (u :: ws))). by rewrite str_forallb_app, H.
Qed.
Lemma says_nonempty s : says (VStr s) = true -> str_truthy s = true.
Proof. by destruct s. Qed.

(** The check on the joined description is never reached. *)
Lemma implementation_description_spec parts :
  implementation_description parts =
  (match written_parts parts with [] => None | ws => Some (join " " ws) end, loses_parts parts).
Proof.
  unfold implementation_description. rewrite omap_map_eq. change (omap _ parts) with (written_parts parts).
  replace (existsb snd (map narrative_part parts)) with (loses_parts parts)
    by (unfold loses_parts; induction parts as [|p parts IH]; cbn; [done|]; by rewrite IH).
  pose proof (written_parts_say parts) as Hw. destruct (written_parts parts) as [|w ws]; [done|].
  pose proof Hw as [[Hs _] _]%Forall_cons. rewrite (says_nonempty _ (join_says w ws Hs)).
  rewrite draft_join; [done|]. eapply Forall_impl; [exact Hw|]. by intros t [_ ?].
Qed.

(** The status a control states. *)
Definition stated_status (statuses : list pyval) : option string :=
  match statuses with [VStr s] => if bool_decide (s ∈ STATUS_ENUM) then Some s else None | _ => None end.

(** Statuses are scalars, as every writer of the column stores them. *)
Definition entry_wf (e : SSPControlEntry) : Prop := forallb hashable (en_implementation_status e) = true.

Lemma control_implementation_status_spec statuses : forallb hashable statuses = true ->
  control_implementation_status statuses = Ok (stated_status statuses).
Proof.
  intros H. destruct statuses as [|v [|? ?]]; try done. cbn in H. rewrite andb_true_r in H.
  unfold control_implementation_status. rewrite H. by destruct v.
  all: by destruct v.
Qed.

(** The description and the status as items of the control. *)
Definition description_of (parts : list pyval) : option string :=
  match written_parts parts with [] => None | ws => Some (join " " ws) end.
Definition item (k : string) (v : option string) : json_obj := match v with Some s => [(k, VStr s)] | None => [] end.
Definition control_of (e : SSPControlEntry) : json_obj :=
  [("controlId", VStr (en_control_id e)); ("parameterValues", VList (parameter_values (en_odp_values e)))] ++
  item "controlImplementationDescription" (description_of (en_part_narratives e)) ++
  item "controlImplementationStatus" (stated_status (en_implementation_status e)).

Lemma dget_item k v n : dget n (item k v) = if decide (n = k) then VStr <$> v else None.
Proof. destruct v; cbn; by case_decide. Qed.
Lemma control_of_get e :
  dget "controlImplementationDescription" (control_of e) = VStr <$> description_of (en_part_narratives e) /\
  dget "controlImplementationStatus" (control_of e) = VStr <$> stated_status (en_implementation_status e).
Proof. unfold control_of. rewrite !dget_app, !dget_item. cbn. split; [by destruct (description_of _)|done]. Qed.

Definition is_empty {A} (l : list A) : bool := match l with [] => true | _ => false end.

Lemma rendered_controls_spec entries : Forall entry_wf entries ->
  rendered_controls entries =
  Ok {| rd_controls := map (fun e => VDict (control_of e)) entries;
        rd_missing := omap (fun e => if is_empty (written_parts (en_part_narratives e)) then Some (en_control_id e) else None) entries;
        rd_dropped_parts := omap (fun e => if loses_parts (en_part_narratives e) then Some (en_control_id e) else None) entries |}.
Proof.
  intros Hw. unfold rendered_controls.
  rewrite (res_map_Ok_in _ (fun e => (en_control_id e,
    (control_of e, is_empty (written_parts (en_part_narratives e)), loses_parts (en_part_narratives e))))).
  - cbn [res_bind]. f_equal. rewrite map_map, !omap_map_eq. done.
  - rewrite Forall_forall in Hw. intros e He. unfold render_control. rewrite implementation_description_spec.
    rewrite control_implementation_status_spec by exact (Hw e He). cbn [res_bind]. unfold control_of, description_of.
    by destruct (written_parts (en_part_narratives e)).
Qed.

(** ** Lemmas: the derived facts *)

Section last_row_facts.
Context {A : Type} (ksi_of at_of id_of : A -> Z).
Notation le := (row_le at_of id_of).

Lemma row_le_total x y : le x y = true \/ le y x = true.
Proof. unfold row_le. lia. Qed.
Lemma row_le_trans x y z : le x y = true -> le y z = true -> le x z = true.
Proof. unfold row_le. lia. Qed.
Lemma row_le_antisym x y : le x y = true -> le y x = true -> id_of x = id_of y.
Proof. unfold row_le. lia. Qed.

Lemma fold_last rows (m : gmap Z A) k :
  foldl (fun m r => <[ksi_of r := r]> m) m rows !! k =
  match last (filter (fun r => ksi_of r = k) rows) with Some r => Some r | None => m !! k end.
Proof.
  induction rows as [|r rows IH] using rev_ind; [done|]. rewrite foldl_app, filter_app, filter_cons, filter_nil. cbn [foldl].
  case_decide as E; [by rewrite last_snoc, <-E, lookup_insert_eq|]. by rewrite app_nil_r, lookup_insert_ne, IH.
Qed.

(** The row kept for an indicator is its latest one. *)
Lemma last_rows_spec rows k r : NoDup (map id_of rows) ->
  last_rows ksi_of at_of id_of rows !! k = Some r <->
  r ∈ rows /\ ksi_of r = k /\ forall r', r' ∈ rows -> ksi_of r' = k -> le r' r = true.
Proof.
  intros Hn. unfold last_rows. rewrite fold_last, lookup_empty. set (sorted := stable_sort le rows).
  assert (forall x, x ∈ sorted <-> x ∈ rows) as Hp by (intros; unfold sorted; by rewrite stable_sort_perm).
  assert (Hlast : forall x, last (filter (fun r => ksi_of r = k) sorted) = Some x ->
    x ∈ rows /\ ksi_of x = k /\ forall r', r' ∈ rows -> ksi_of r' = k -> le r' x = true).
  { intros x [l El]%last_Some. assert (x ∈ filter (fun r => ksi_of r = k) sorted) as [Hk Hx]%list_elem_of_filter by (rewrite El; set_solver).
    split; [by apply Hp|]. split; [done|]. intros y Hy%Hp Hyk.
    assert (StronglySorted (fun x y => le x y = true) (l ++ [x])) as Hs.
    { rewrite <-El. eapply StronglySorted_sublist; [apply sublist_filter|]. apply stable_sort_sorted; [apply row_le_total|apply row_le_trans]. }
    assert (y ∈ l ++ [x]) as [Hl|Hl]%elem_of_app by (rewrite <-El; by apply list_elem_of_filter).
    - apply StronglySorted_app in Hs as (Hs & _). by apply Hs; [done|left].
    - apply list_elem_of_singleton in Hl as ->. destruct (row_le_total x x); done. }
  destruct (last _) as [x|] eqn:El.
  - destruct (Hlast x eq_refl) as (Hx & Hk & Hm). split; [by intros [= <-]|]. intros (Hr & Hrk & Hrm). f_equal.
    eapply (nodup_key_inj id_of); [exact Hn|done..|]. apply row_le_antisym; auto.
  - split; [done|]. intros (Hr & Hrk & _). apply last_None in El. assert (r ∈ []) as ?%not_elem_of_nil; [|done].
    rewrite <-El. apply list_elem_of_filter. split; [done|by apply Hp].
Qed.
End last_row_facts.

Lemma implementation_status_spec verdict :
  implementation_status verdict = Ok (dget (or_empty verdict) IMPLEMENTATION_STATUS_BY_VERDICT).
Proof.
  unfold implementation_status, IMPLEMENTATION_STATUS_BY_VERDICT. cbn [dget]. repeat (case_decide; [by vm_compute|]). done.
Qed.

(** The rows of a system and what they say of an indicator. *)
Definition state_of (t : SdrTables) (sid ksi : Z) : option SdrState :=
  last (filter (fun s => ss_ksi_id s = ksi) (filter (fun s => ss_system_id s = sid) (sd_states t))).
Definition latest_run (t : SdrTables) (sid ksi : Z) : option SdrRun :=
  last_rows sr_ksi_id sr_validated_at sr_id (filter (fun r => sr_system_id r = sid) (sd_runs t)) !! ksi.
Definition review_of (t : SdrTables) (sid ksi : Z) : option SdrReview :=
  last_rows sv_ksi_id sv_reviewed_at sv_id (filter (fun r => sv_system_id r = sid) (sd_reviews t)) !! ksi.

Definition facts_of (t : SdrTables) (sid : Z) (k : SdrKsi) : json_obj :=
  [("ksiValidation", VList (validation_statements (latest_run t sid (sk_id k))));
   ("ksiAssessment", VList (assessment_statements (review_of t sid (sk_id k))));
   ("ksiTests", VList (tests_of k)); ("ksiEvidence", VList (evidence_of (latest_run t sid (sk_id k))))] ++
  match dget (or_empty (ss_status <$> state_of t sid (sk_id k))) IMPLEMENTATION_STATUS_BY_VERDICT with
  | Some s => [("ksiImplementationStatus", VStr s)] | None => [] end.

Definition set_facts (t : SdrTables) (sid : Z) (derived : list (string * json_obj)) (k : SdrKsi) : list (string * json_obj) :=
  dset (sk_identifier k) (facts_of t sid k) derived.
Definition derived_of (t : SdrTables) (sid : Z) : list (string * json_obj) := foldl (set_facts t sid) [] (sd_ksis t).

Lemma derived_indicators_spec t sid : derived_indicators t sid = Ok (derived_of t sid).
Proof.
  unfold derived_indicators, derived_of. generalize ([] : list (string * json_obj)). induction (sd_ksis t) as [|k ksis IH]; intros d; [done|].
  cbn [derive_all foldl]. unfold derived_facts at 1. rewrite implementation_status_spec. cbn [res_bind].
  rewrite <-IH. do 2 f_equal. unfold set_facts, facts_of, state_of. rewrite fold_last, lookup_empty. by destruct (last _).
Qed.

Lemma derived_keys t sid i : i ∈ dkeys (derived_of t sid) <-> i ∈ map sk_identifier (sd_ksis t).
Proof.
  unfold derived_of. induction (sd_ksis t) as [|k ksis IH] using rev_ind; [done|].
  rewrite foldl_app, map_app, elem_of_app. cbn [foldl map]. unfold set_facts at 1. rewrite elem_of_dkeys_dset, IH, list_elem_of_singleton. tauto.
Qed.

Lemma derived_get t sid i f : dget i (derived_of t sid) = Some f ->
  exists k, k ∈ sd_ksis t /\ sk_identifier k = i /\ f = facts_of t sid k.
Proof.
  unfold derived_of. induction (sd_ksis t) as [|k ksis IH] using rev_ind; [done|]. rewrite foldl_app. cbn [foldl]. unfold set_facts at 1.
  destruct (decide (i = sk_identifier k)) as [ ->|E].
  - rewrite dget_dset_eq. intros [= <-]. exists k. set_solver.
  - rewrite dget_dset_ne by done. intros (k' & Hk & Ei & Ef)%IH. exists k'. set_solver.
Qed.

Lemma derived_fact t sid k : NoDup (map sk_identifier (sd_ksis t)) -> k ∈ sd_ksis t ->
  dget (sk_identifier k) (derived_of t sid) = Some (facts_of t sid k).
Proof.
  intros Hn Hk. destruct (dget _ (derived_of t sid)) as [f|] eqn:E.
  - apply derived_get in E as (k' & Hk' & Ei & ->). by rewrite (nodup_key_inj sk_identifier (sd_ksis t) k' k).
  - apply dget_None in E. destruct E. apply derived_keys. by apply list_elem_of_fmap_2.
Qed.

(** The shape of derived facts: four arrays and perhaps a status of the schema. *)
Record facts_ok (facts : json_obj) : Prop := {
  fo_arrays : forall f, f ∈ REQUIRED_ARRAY_FIELDS -> exists l, dget f facts = Some (VList l);
  fo_status : vget "ksiImplementationStatus" facts = VNone \/ is_enum_status (vget "ksiImplementationStatus" facts) = true }.

Lemma facts_of_ok t sid k : facts_ok (facts_of t sid k).
Proof.
  unfold facts_of. split.
  - intros f Hf. assert (f ∈ ["ksiValidation"; "ksiAssessment"; "ksiTests"; "ksiEvidence"]) as H by exact Hf. elem_cases H; by eexists.
  - unfold IMPLEMENTATION_STATUS_BY_VERDICT. cbn [dget]. repeat (case_decide; [by right|]). by left.
Qed.

(** ** Lemmas: merging the indicators *)

Definition has_id (i : string) (e : json_obj) : bool :=
  match vget "ksiId" e with VStr s => bool_decide (s = i) | _ => false end.
Definition narrated (e : json_obj) : bool := has_narrative (vget "ksiImplementation" e).
Definition entries_of (i : string) (authored : list json_obj) : list json_obj := List.filter (has_id i) authored.

(** The entry kept for an id: the last one with a narrative, or else the last. *)
Definition kept_entry (authored : list json_obj) (i : string) : option json_obj :=
  if str_truthy i then
    match last (List.filter narrated (entries_of i authored)) with
    | Some e => Some e | None => last (entries_of i authored) end
  else None.

Lemma entries_of_snoc i l e : entries_of i (l ++ [e]) = entries_of i l ++ (if has_id i e then [e] else []).
Proof. unfold entries_of. rewrite List.filter_app. cbn. by destruct (has_id i e). Qed.

Lemma kept_entry_snoc l e i : has_id i e = true -> str_truthy i = true ->
  kept_entry (l ++ [e]) i =
  match kept_entry l i with
  | Some prior => if narrated prior && negb (narrated e) then Some prior else Some e
  | None => Some e
  end.
Proof.
  intros Hi Ht. unfold kept_entry. rewrite Ht, entries_of_snoc, Hi, List.filter_app, last_snoc. cbn [List.filter].
  destruct (last (List.filter narrated (entries_of i l))) as [p|] eqn:El.
  - assert (narrated p = true) as Hp.
    { apply last_Some_elem_of in El. apply list_elem_of_In, filter_In in El. tauto. }
    rewrite Hp. destruct (narrated e); [by rewrite last_snoc|]. by rewrite app_nil_r, El.
  - apply last_None in El. rewrite El. destruct (last (entries_of i l)) as [p|] eqn:Ep.
    + assert (narrated p = false) as Hp.
      { destruct (narrated p) eqn:E; [|done]. assert (p ∈ ([] : list json_obj)) as ?%not_elem_of_nil; [|done].
        rewrite <-El. apply list_elem_of_In, filter_In. split; [|done]. apply list_elem_of_In. by apply last_Some_elem_of. }
      rewrite Hp. by destruct (narrated e).
    + by destruct (narrated e).
Qed.

Lemma keep_entries_get authored i : dget i (foldl keep_entry [] authored) = kept_entry authored i.
Proof.
  induction authored as [|e l IH] using rev_ind; [unfold kept_entry; by destruct (str_truthy i)|].
  rewrite foldl_app. cbn [foldl]. set (by_id := foldl keep_entry [] l) in *. destruct (has_id i e && str_truthy i) eqn:E.
  - apply andb_prop in E as [Hi Ht]. rewrite kept_entry_snoc, <-IH by done. unfold keep_entry, narrated. unfold has_id in Hi.
    destruct (vget "ksiId" e) as [| | | |s| |]; try done. apply bool_decide_eq_true in Hi as ->. rewrite Ht. cbn [negb].
    destruct (dget i by_id) as [prior|] eqn:Eg; [|by rewrite dget_dset_eq]. case_match; [by rewrite Eg|by rewrite dget_dset_eq].
  - transitivity (dget i by_id).
    + unfold keep_entry. unfold has_id in E. destruct (vget "ksiId" e) as [| | | |s| |]; try done.
      destruct (str_truthy s) eqn:Es; [|done]. cbn [negb]. assert (i <> s) as Hne.
      { intros ->. rewrite bool_decide_eq_true_2 in E by done. cbn in E. congruence. }
      destruct (dget s by_id); [case_match; [done|]|]; by apply dget_dset_ne.
    + rewrite IH. unfold kept_entry. destruct (str_truthy i) eqn:Ei; [|done]. rewrite andb_true_r in E.
      by rewrite entries_of_snoc, E, app_nil_r.
Qed.

Lemma dget_dpop k n d : dget n (dpop k d) = if decide (n = k) then None else dget n d.
Proof.
  induction d as [|[k' v] d IH]; cbn [dpop List.filter dget]; [by case_decide|]. cbn [fst].
  change (List.filter (fun kv => negb (bool_decide (kv.1 = k))) d) with (dpop k d).
  destruct (decide (k' = k)) as [ ->|E].
  - rewrite bool_decide_eq_true_2 by done. cbn [negb]. rewrite IH. repeat case_decide; done.
  - rewrite bool_decide_eq_false_2 by done. cbn [negb dget]. rewrite IH. repeat case_decide; congruence.
Qed.
Lemma dpop_none k d : dget k d = None -> dpop k d = d.
Proof.
  induction d as [|[k' v] d IH]; [done|]. cbn [dget dpop List.filter fst]. case_decide as E; [done|]. intros H.
  rewrite bool_decide_eq_false_2 by congruence. cbn [negb]. f_equal. by apply IH.
Qed.
Lemma dget_dset k n (v : pyval) d : dget n (dset k v d) = if decide (n = k) then Some v else dget n d.
Proof. case_decide as E; [subst; by rewrite dget_dset_eq|by apply dget_dset_ne]. Qed.

(** Both halves of the merge set the four arrays and then the status. *)
Definition set_arrays (v : string -> json_obj -> pyval) (o : json_obj) (l : list string) : json_obj :=
  foldl (fun o f => dset f (v f o) o) o l.
Definition set_status (v : pyval) (o : json_obj) : json_obj :=
  match v with VNone => dpop "ksiImplementationStatus" o | v => dset "ksiImplementationStatus" v o end.

Lemma set_arrays_get v o l n : NoDup l -> (forall f o o', vget f o = vget f o' -> v f o = v f o') ->
  dget n (set_arrays v o l) = if mem n l then Some (v n o) else dget n o.
Proof.
  intros Hn Hv. revert o. induction Hn as [|f l Hf Hn IH]; intros o; [done|]. unfold set_arrays. cbn [foldl].
  change (foldl _ (dset f (v f o) o) l) with (set_arrays v (dset f (v f o) o) l). rewrite IH, mem_cons, dget_dset.
  destruct (decide (n = f)) as [ ->|E].
  - rewrite (proj2 (mem_false f l)) by done. by rewrite bool_decide_eq_true_2.
  - rewrite bool_decide_eq_false_2 by done. cbn [orb]. destruct (mem n l); [|done]. f_equal. apply Hv. unfold vget. by rewrite dget_dset_ne.
Qed.

Definition stated (v : pyval) : option pyval := if is_none v then None else Some v.

Lemma set_status_get v o n : dget n (set_status v o) = if decide (n = "ksiImplementationStatus") then stated v else dget n o.
Proof. unfold set_status. destruct v; rewrite ?dget_dpop, ?dget_dset; by case_decide. Qed.

Lemma set_arrays_same v o l : NoDup l -> (forall f, f ∈ l -> dget f o = Some (v f o)) -> set_arrays v o l = o.
Proof.
  intros Hn Hv. induction Hn as [|f l Hf Hn IH]; [done|]. unfold set_arrays. cbn [foldl]. rewrite dset_same by (apply Hv; left).
  apply IH. intros g Hg. apply Hv. by right.
Qed.
Lemma set_status_same v o : vget "ksiImplementationStatus" o = v -> (v = VNone -> dget "ksiImplementationStatus" o = None) -> set_status v o = o.
Proof.
  intros E Hn. unfold set_status. destruct v; [apply dpop_none; by apply Hn|..];
    apply dset_same; unfold vget in E; destruct (dget _ o) as [w|]; cbn in E; by subst.
Qed.

(** The arrays and the status an entry of id [i] gets. *)
Definition array_value (facts : option json_obj) (f : string) (o : json_obj) : pyval :=
  match facts with
  | Some d => vget f d
  | None => match vget f o with VList l => VList l | _ => VList [] end
  end.
Definition status_value (facts : option json_obj) (o : json_obj) : pyval :=
  match facts with
  | Some d => vget "ksiImplementationStatus" d
  | None => let v := vget "ksiImplementationStatus" o in if is_enum_status v then v else VNone
  end.
Definition renew (facts : option json_obj) (o : json_obj) : json_obj :=
  set_status (status_value facts o) (set_arrays (array_value facts) o REQUIRED_ARRAY_FIELDS).

Lemma required_fields : REQUIRED_ARRAY_FIELDS = ["ksiValidation"; "ksiAssessment"; "ksiTests"; "ksiEvidence"].
Proof. vm_compute. reflexivity. Qed.

Lemma required_nodup : NoDup REQUIRED_ARRAY_FIELDS.
Proof. apply (bool_decide_unpack (NoDup REQUIRED_ARRAY_FIELDS)). vm_compute. exact I. Qed.

Lemma array_value_ext facts f o o' : vget f o = vget f o' -> array_value facts f o = array_value facts f o'.
Proof. destruct facts; cbn; [done|by intros ->]. Qed.

Lemma renew_get facts o n : dget n (renew facts o) =
  if decide (n = "ksiImplementationStatus") then stated (status_value facts o)
  else if mem n REQUIRED_ARRAY_FIELDS then Some (array_value facts n o) else dget n o.
Proof. unfold renew. rewrite set_status_get, set_arrays_get; [done|apply required_nodup|intros; by apply array_value_ext]. Qed.

Lemma vget_of (k : string) (d : json_obj) v : dget k d = Some v -> vget k d = v.
Proof. unfold vget. by intros ->. Qed.

Lemma refresh_fields_spec i facts o l : (forall f, f ∈ l -> exists k, dget f facts = Some (VList k)) ->
  refresh_fields i facts o l = Ok (set_arrays (array_value (Some facts)) o l).
Proof.
  revert o. induction l as [|f l IH]; intros o H; [done|]. cbn [refresh_fields]. unfold refresh_field.
  destruct (H f) as [k Ek]; [left|]. rewrite Ek. cbn [res_bind]. rewrite IH by (intros; apply H; by right).
  unfold set_arrays at 2. cbn [foldl]. unfold array_value at 3. by rewrite (vget_of f facts _ Ek).
Qed.

Lemma refresh_derived_spec i facts o : facts_ok facts -> refresh_derived i facts o = Ok (renew (Some facts) o).
Proof.
  intros [Ha _]. unfold refresh_derived. rewrite refresh_fields_spec by done. cbn [res_bind]. unfold renew, set_status, status_value.
  by destruct (vget "ksiImplementationStatus" facts).
Qed.

Lemma carry_derived_spec o : carry_derived o = renew None o.
Proof.
  unfold carry_derived. change (foldl carry_array o REQUIRED_ARRAY_FIELDS) with (set_arrays (array_value None) o REQUIRED_ARRAY_FIELDS).
  unfold renew. set (a := set_arrays _ _ _).
  assert (dget "ksiImplementationStatus" a = dget "ksiImplementationStatus" o) as E.
  { unfold a. by rewrite set_arrays_get; [|apply required_nodup|intros; by apply array_value_ext]. }
  unfold status_value. cbv zeta. assert (vget "ksiImplementationStatus" a = vget "ksiImplementationStatus" o) as -> by (unfold vget; by rewrite E).
  destruct (is_enum_status (vget _ o)) eqn:Ee; [|done].
  destruct (vget "ksiImplementationStatus" o) as [| | | |s| |] eqn:Ev; try done. symmetry. apply dset_same. rewrite E.
  unfold vget in Ev. destruct (dget _ o); cbn in Ev; congruence.
Qed.

Lemma renew_idem facts o : (forall d, facts = Some d -> facts_ok d) -> renew facts (renew facts o) = renew facts o.
Proof.
  intros Hf. set (r := renew facts o). unfold renew at 1.
  assert (Hg : forall n, n ∈ REQUIRED_ARRAY_FIELDS -> dget n r = Some (array_value facts n r)).
  { intros n Hn. assert (n <> "ksiImplementationStatus") as Hne by (rewrite required_fields in Hn; elem_cases Hn; done).
    assert (dget n r = Some (array_value facts n o)) as E.
    { unfold r. rewrite renew_get, decide_False by done. by rewrite (proj2 (mem_true n _)). }
    rewrite E. f_equal. unfold array_value. destruct facts as [d|]; [done|]. rewrite (vget_of _ _ _ E). cbn. by destruct (vget n o). }
  rewrite set_arrays_same by (apply required_nodup || exact Hg).
  assert (status_value facts r = status_value facts o /\ vget "ksiImplementationStatus" r = status_value facts o /\
          (status_value facts o = VNone -> dget "ksiImplementationStatus" r = None)) as (E1 & E2 & E3).
  { assert (vget "ksiImplementationStatus" r = status_value facts o) as E.
    { unfold vget, r. rewrite renew_get, decide_True by done. by destruct (status_value facts o). }
    split; [|split; [exact E|]].
    - unfold status_value. destruct facts; [done|]. cbv zeta. rewrite E. unfold status_value. cbv zeta.
      destruct (is_enum_status (vget _ o)) eqn:Ee; [by rewrite Ee|done].
    - unfold r. rewrite renew_get, decide_True by done. by intros ->. }
  rewrite E1. apply set_status_same; [exact E2|exact E3].
Qed.

(** The merge, id by id. *)
Definition entry_of (authored : list json_obj) (i : string) : json_obj := default [] (kept_entry authored i).
Definition narrated_id (authored : list json_obj) (i : string) : bool := narrated (entry_of authored i).
Definition indicator_of (authored : list json_obj) (derived : list (string * json_obj)) (i : string) : json_obj :=
  let e := entry_of authored i in
  renew (dget i derived) (dset "ksiImplementation" (vget "ksiImplementation" e) (dset "ksiId" (VStr i) e)).
Definition all_ids (authored : list json_obj) (derived : list (string * json_obj)) : list string :=
  sorted_set (dkeys (foldl keep_entry [] authored) ++ dkeys derived).
Definition narrated_ids (authored : list json_obj) (derived : list (string * json_obj)) : list string :=
  List.filter (narrated_id authored) (all_ids authored derived).

Lemma narrated_id_kept authored i : narrated_id authored i = true ->
  exists e, kept_entry authored i = Some e /\ entry_of authored i = e /\ narrated e = true /\ str_truthy i = true.
Proof.
  unfold narrated_id, entry_of. destruct (kept_entry authored i) as [e|] eqn:E; [|done]. cbn [default from_option id]. intros H.
  exists e. split; [done|]. split; [done|]. split; [done|]. unfold kept_entry in E. by destruct (str_truthy i).
Qed.

Lemma all_ids_elem authored derived i : i ∈ all_ids authored derived <-> is_Some (kept_entry authored i) \/ i ∈ dkeys derived.
Proof.
  unfold all_ids. rewrite elem_of_sorted_set, elem_of_app, <-keep_entries_get.
  destruct (dget i (foldl keep_entry [] authored)) eqn:E.
  - split; [by left; eexists|]. intros _. left. apply dget_Some_elem in E. by apply (list_elem_of_fmap_2 fst) in E.
  - apply dget_None in E. split; [tauto|]. intros [[? ?]|?]; [done|by right].
Qed.

Lemma narrated_ids_elem authored derived i : i ∈ narrated_ids authored derived <-> narrated_id authored i = true.
Proof.
  unfold narrated_ids. rewrite list_elem_of_In, filter_In, <-list_elem_of_In, all_ids_elem. split; [tauto|]. intros H.
  split; [|done]. apply narrated_id_kept in H as (e & -> & _). left. by eexists.
Qed.

Lemma split_outs {A} (p : string -> bool) (f : string -> A) l :
  omap snd (map (fun i => (i, if p i then Some (f i) else None)) l) = map f (List.filter p l) /\
  omap (fun io : string * option A => match io.2 with None => Some io.1 | Some _ => None end)
       (map (fun i => (i, if p i then Some (f i) else None)) l) = List.filter (fun i => negb (p i)) l.
Proof.
  induction l as [|x l [IH1 IH2]]; [done|]. cbn [map List.filter]. unfold omap in *. cbn [list_omap fst snd].
  rewrite IH1, IH2. by destruct (p x).
Qed.

Lemma merge_indicators_spec authored derived : (forall i d, dget i derived = Some d -> facts_ok d) ->
  merge_indicators authored derived =
  Ok (map (indicator_of authored derived) (narrated_ids authored derived),
      List.filter (fun i => negb (narrated_id authored i)) (all_ids authored derived)).
Proof.
  intros Hd. unfold merge_indicators. fold (all_ids authored derived).
  rewrite (res_map_Ok_in _ (fun i => (i, if narrated_id authored i then Some (indicator_of authored derived i) else None))).
  - cbn [res_bind]. destruct (split_outs (narrated_id authored) (indicator_of authored derived) (all_ids authored derived)) as [-> ->]. done.
  - intros i _. unfold merge_indicator. rewrite keep_entries_get. fold (entry_of authored i). cbv zeta.
    change (has_narrative (vget "ksiImplementation" (entry_of authored i))) with (narrated_id authored i).
    destruct (narrated_id authored i); [|done]. cbn [negb]. unfold indicator_of. destruct (dget i derived) as [d|] eqn:E.
    + rewrite refresh_derived_spec by (by eapply Hd). done.
    + cbn [res_bind]. by rewrite carry_derived_spec.
Qed.

Lemma indicator_get authored derived i n : dget n (indicator_of authored derived i) =
  let e := entry_of authored i in
  if decide (n = "ksiImplementationStatus") then stated (status_value (dget i derived) e)
  else if mem n REQUIRED_ARRAY_FIELDS then Some (array_value (dget i derived) n e)
  else if decide (n = "ksiImplementation") then Some (vget "ksiImplementation" e)
  else if decide (n = "ksiId") then Some (VStr i) else dget n e.
Proof.
  unfold indicator_of. cbv zeta. set (e := entry_of authored i). set (o := dset "ksiImplementation" _ _). rewrite renew_get.
  assert (forall m, m <> "ksiImplementation" -> m <> "ksiId" -> vget m o = vget m e) as Ho
    by (intros m H1 H2; unfold vget, o; by rewrite !dget_dset_ne).
  case_decide as E1; [|destruct (mem n REQUIRED_ARRAY_FIELDS) eqn:E2].
  - unfold status_value. cbv zeta. by rewrite Ho.
  - f_equal. apply array_value_ext, Ho; intros ->; vm_compute in E2; discriminate E2.
  - unfold o. rewrite !dget_dset. repeat case_decide; done.
Qed.


(** Merging what a merge produced changes nothing. *)
Section merge_again.
Context (authored : list json_obj) (derived : list (string * json_obj)) (Hd : forall i d, dget i derived = Some d -> facts_ok d).
Notation ids := (narrated_ids authored derived).
Notation indicator := (indicator_of authored derived).
Definition merged_again : list json_obj := map indicator ids.

Lemma indicator_id i : vget "ksiId" (indicator i) = VStr i.
Proof. apply vget_of. by rewrite indicator_get. Qed.
Lemma indicator_narrative i : vget "ksiImplementation" (indicator i) = vget "ksiImplementation" (entry_of authored i).
Proof. apply vget_of. by rewrite indicator_get. Qed.

Lemma entries_of_map (f : string -> json_obj) l i : NoDup l -> (forall j, vget "ksiId" (f j) = VStr j) ->
  entries_of i (map f l) = if mem i l then [f i] else [].
Proof.
  intros Hn Hf. induction Hn as [|j l Hj Hn IH]; [done|]. unfold entries_of in *. cbn [map List.filter]. unfold has_id at 1. rewrite Hf, mem_cons, IH.
  destruct (decide (j = i)) as [ ->|E].
  - rewrite !bool_decide_eq_true_2 by done. by rewrite (proj2 (mem_false i l)).
  - rewrite !bool_decide_eq_false_2 by congruence. done.
Qed.

Lemma kept_again i : kept_entry merged_again i = if narrated_id authored i then Some (indicator i) else None.
Proof.
  unfold kept_entry, merged_again. rewrite entries_of_map; [|eapply sublist_NoDup; [apply sorted_set_NoDup|apply bool_filter_sublist]|apply indicator_id].
  destruct (narrated_id authored i) eqn:E.
  - rewrite (proj2 (mem_true i ids)) by by apply narrated_ids_elem. apply narrated_id_kept in E as (e & _ & _ & _ & ->). cbn [List.filter].
    by destruct (narrated (indicator i)).
  - rewrite (proj2 (mem_false i ids)); [by destruct (str_truthy i)|]. by rewrite narrated_ids_elem, E.
Qed.

Lemma narrated_again i : narrated_id merged_again i = narrated_id authored i.
Proof.
  unfold narrated_id at 1, entry_of. rewrite kept_again. destruct (narrated_id authored i) eqn:E; [|done]. cbn [default from_option id].
  unfold narrated. rewrite indicator_narrative. exact E.
Qed.

Lemma indicator_again i : narrated_id authored i = true -> indicator_of merged_again derived i = indicator i.
Proof.
  intros Hi. unfold indicator_of at 1, entry_of at 1 2. rewrite kept_again, Hi. cbn [default from_option id]. cbv zeta.
  rewrite (dset_same "ksiId") by by rewrite indicator_get. rewrite dset_same by (rewrite indicator_get, indicator_narrative; done).
  unfold indicator_of. apply renew_idem. intros d. apply Hd.
Qed.

Lemma merge_again : map (indicator_of merged_again derived) (narrated_ids merged_again derived) = map indicator ids.
Proof.
  assert (narrated_ids merged_again derived = ids) as ->.
  - unfold narrated_ids at 1. rewrite (filter_ext _ _ narrated_again). unfold narrated_ids, all_ids. rewrite !filter_sorted_set.
    apply sorted_set_ext. intros i. rewrite !list_elem_of_In, !filter_In, <-!list_elem_of_In.
    enough (narrated_id authored i = true -> i ∈ dkeys (foldl keep_entry [] merged_again) /\ i ∈ dkeys (foldl keep_entry [] authored)) by set_solver.
    intros Hi. split; apply dec_stable; rewrite <-dget_None, keep_entries_get.
    + by rewrite kept_again, Hi.
    + by apply narrated_id_kept in Hi as (e & -> & _).
  - apply map_ext_in. intros i Hi%list_elem_of_In%narrated_ids_elem. by apply indicator_again.
Qed.
End merge_again.

(** ** Lemmas: the requirements *)

Lemma py_eq_list_length l k : py_eq (VList l) (VList k) = true -> List.length l = List.length k.
Proof.
  cbn [py_eq]. revert k. induction l as [|x l IH]; intros [|y k]; try done. intros [_ H]%andb_prop. cbn. f_equal. by apply IH.
Qed.

Lemma filter_length_eq {A} (f : A -> bool) l : List.length (List.filter f l) = List.length l -> forallb f l = true.
Proof.
  induction l as [|x l IH]; [done|]. cbn [List.filter forallb]. destruct (f x) eqn:E; cbn; [intros [= H]; by apply IH|].
  pose proof (filter_length_le f l). lia.
Qed.

Lemma forallb_filter_id {A} (f : A -> bool) l : forallb f l = true -> List.filter f l = l.
Proof. induction l as [|x l IH]; [done|]. cbn. intros [-> H]%andb_prop. f_equal. by apply IH. Qed.
Lemma forallb_filter {A} (f : A -> bool) l : forallb f (List.filter f l) = true.
Proof. induction l as [|x l IH]; [done|]. cbn. destruct (f x) eqn:E; [|done]. cbn. by rewrite E. Qed.

(** The comparison [cleaned == value] asks whether every element says something. *)
Lemma cleaned_same value : py_eq (VList (List.filter says value)) (VList value) = forallb says value.
Proof.
  destruct (forallb says value) eqn:E.
  - rewrite forallb_filter_id by done. apply py_eq_refl. induction value as [|v value IH]; [done|]. cbn in E. apply andb_prop in E as [Ev E].
    split; [by destruct v|]. by apply IH.
  - destruct (py_eq _ _) eqn:Ep; [|done]. apply py_eq_list_length, filter_length_eq in Ep. congruence.
Qed.

Lemma says_strings l : forallb says l = true -> existsb (fun v => negb (is_str v)) l = false.
Proof. induction l as [|v l IH]; [done|]. cbn. intros [Hv H]%andb_prop. rewrite IH by done. by destruct v. Qed.

(** What a field becomes, and what is noted. *)
Definition cleaned_value (v : option pyval) : option pyval :=
  match v with Some (VList l) => Some (VList (List.filter says l)) | _ => None end.
Definition kept_status (v : option pyval) : option pyval :=
  match v with Some v => if is_enum_status v then Some v else None | None => None end.
Definition status_note (frr_id : string) (v : option pyval) : list note :=
  match v with
  | Some v => if is_enum_status v then [] else [(frr_id, "implementation status dropped: not a schema enum member")]
  | None => []
  end.
Definition array_note (frr_id field : string) (v : option pyval) : list note :=
  match v with
  | None => []
  | Some (VList l) => if existsb (fun v => negb (is_str v)) l then [(frr_id, (field +:+ " entry dropped: not a string")%string)] else []
  | Some _ => [(frr_id, (field +:+ " dropped: not a list")%string)]
  end.
Definition statement_note (frr_id : string) (implementation : list pyval) : list note :=
  if existsb (fun v => negb (is_str v)) implementation then [(frr_id, DROPPED_STATEMENT)] else [].

Lemma repair_status_spec i st : (repair_status i st).2 = st.2 ++ status_note i (dget "frrImplementationStatus" st.1) /\
  forall n, dget n (repair_status i st).1 =
    if decide (n = "frrImplementationStatus") then kept_status (dget n st.1) else dget n st.1.
Proof.
  unfold repair_status. destruct (dget "frrImplementationStatus" st.1) as [v|] eqn:E; cbn [status_note].
  - destruct (is_enum_status v) eqn:Ev; rewrite ?app_nil_r; (split; [done|]); intros n; cbn [fst]; rewrite ?dget_dpop;
      case_decide as En; subst; rewrite ?E; cbn [kept_status]; by rewrite ?Ev.
  - rewrite app_nil_r. split; [done|]. intros n. case_decide as En; subst; by rewrite ?E.
Qed.

Lemma repair_array_spec i st f : (repair_array i st f).2 = st.2 ++ array_note i f (dget f st.1) /\
  forall n, dget n (repair_array i st f).1 = if decide (n = f) then cleaned_value (dget n st.1) else dget n st.1.
Proof.
  unfold repair_array. destruct (dget f st.1) as [v|] eqn:E; cbn [array_note].
  - destruct v as [| | | | |l|];
      try (split; [done|]; intros n; cbn [fst]; rewrite dget_dpop; case_decide as En; subst; by rewrite ?E).
    rewrite cleaned_same. destruct (forallb says l) eqn:El.
    + rewrite says_strings, app_nil_r by done. split; [done|]. intros n. case_decide as En; subst; [|done]. rewrite E. cbn [cleaned_value].
      by rewrite forallb_filter_id.
    + cbn [fst snd]. split; [by destruct (existsb _ l); rewrite ?app_nil_r|]. intros n. rewrite dget_dset. case_decide as En; subst; by rewrite ?E.
  - rewrite app_nil_r. split; [done|]. intros n. case_decide as En; subst; by rewrite ?E.
Qed.

Definition REPAIRED_ARRAYS : list string := ["frrValidation"; "frrAssessment"].
(** An entry that is rendered: its id and its statements. *)
Definition renderable (v : pyval) : option (string * json_obj * list pyval) :=
  match v with
  | VDict e =>
      match vget "frrID" e, vget "frrImplementation" e with
      | VStr raw, VList l => if str_truthy (strip raw) && negb (is_empty (List.filter says l)) then Some (strip raw, e, l) else None
      | _, _ => None
      end
  | _ => None
  end.
Definition requirement_value (frr_id : string) (e : json_obj) (implementation : list pyval) (n : string) : option pyval :=
  if mem n REPAIRED_ARRAYS then cleaned_value (dget n e)
  else if decide (n = "frrImplementationStatus") then kept_status (dget n e)
  else if decide (n = "frrImplementation") then Some (VList (List.filter says implementation))
  else if decide (n = "frrID") then Some (VStr frr_id) else dget n e.
Definition requirement_notes (frr_id : string) (e : json_obj) (implementation : list pyval) : list note :=
  statement_note frr_id implementation ++ status_note frr_id (dget "frrImplementationStatus" e) ++
  concat (map (fun f => array_note frr_id f (dget f e)) REPAIRED_ARRAYS).

Lemma repair_rendered index v i e l : renderable v = Some (i, e, l) ->
  exists out, repair_requirement index v = (Some (i, out), requirement_notes i e l) /\
    forall n, dget n out = requirement_value i e l n.
Proof.
  unfold renderable. destruct v as [| | | | | |e']; try done. destruct (vget "frrID" e') as [| | | |raw| |] eqn:Ei; try done.
  destruct (vget "frrImplementation" e') as [| | | | |l'|] eqn:El; try done.
  destruct (str_truthy (strip raw)) eqn:Es; [|done]. destruct (List.filter says l') as [|s ss] eqn:Ef; [done|]. cbn [is_empty negb andb].
  intros [= <- <- <-]. set (i := strip raw). unfold repair_requirement. rewrite Ei, El. cbv zeta. fold i. change (str_truthy i = true) in Es.
  rewrite Es. cbn [negb]. rewrite Ef. set (e1 := dset "frrImplementation" (VList (s :: ss)) (dset "frrID" (VStr i) e')).
  assert (He1 : forall n, n <> "frrImplementation" -> n <> "frrID" -> dget n e1 = dget n e') by (intros n H1 H2; unfold e1; by rewrite !dget_dset_ne).
  cbn [foldl]. set (st0 := repair_status i _). destruct (repair_status_spec i (e1, statement_note i l')) as [Hn0 Hv0]. 
  change (repair_status i (e1, statement_note i l')) with st0 in *. cbn [fst snd] in Hn0, Hv0.
  set (st1 := repair_array i st0 _). destruct (repair_array_spec i st0 "frrValidation") as [Hn1 Hv1]. fold st1 in Hn1, Hv1.
  set (st2 := repair_array i st1 _). destruct (repair_array_spec i st1 "frrAssessment") as [Hn2 Hv2]. fold st2 in Hn2, Hv2.
  exists st2.1. split; [f_equal|].
  - rewrite Hn2, Hn1, Hn0, Hv1, Hv0. unfold requirement_notes. cbn [map concat REPAIRED_ARRAYS].
    rewrite !decide_False, Hv0 by done. rewrite !decide_False by done. rewrite !He1 by done. by rewrite app_nil_r, <-!app_assoc.
  - intros n. rewrite Hv2, Hv1, Hv0. unfold requirement_value, REPAIRED_ARRAYS. rewrite !mem_cons, mem_nil, orb_false_r.
    destruct (decide (n = "frrAssessment")) as [ ->|E1]; [rewrite !decide_False by done; by rewrite He1|].
    destruct (decide (n = "frrValidation")) as [ ->|E2]; [rewrite !decide_False by done; by rewrite He1|].
    rewrite !bool_decide_eq_false_2 by done. cbn [orb]. destruct (decide (n = "frrImplementationStatus")) as [ ->|E3]; [by rewrite He1|].
    unfold e1. rewrite !dget_dset. repeat case_decide; try done. by rewrite Ef.
Qed.

(** The shape of a rendered entry. *)
Record requirement_ok (i : string) (out : json_obj) : Prop := {
  ro_id : dget "frrID" out = Some (VStr i) /\ strip i = i /\ str_truthy i = true;
  ro_statements : exists l, dget "frrImplementation" out = Some (VList l) /\ l <> [] /\ forallb says l = true;
  ro_status : dget "frrImplementationStatus" out = None \/
              exists v, dget "frrImplementationStatus" out = Some v /\ is_enum_status v = true;
  ro_arrays : forall f, f ∈ REPAIRED_ARRAYS ->
    dget f out = None \/ exists l, dget f out = Some (VList l) /\ forallb says l = true }.

Lemma renderable_spec v i e l : renderable v = Some (i, e, l) ->
  v = VDict e /\ vget "frrID" e <> VNone /\ strip i = i /\ str_truthy i = true /\ List.filter says l <> [] /\
  (exists raw, vget "frrID" e = VStr raw /\ i = strip raw) /\ vget "frrImplementation" e = VList l.
Proof.
  unfold renderable. destruct v as [| | | | | |e']; try done. destruct (vget "frrID" e') as [| | | |raw| |] eqn:Ei; try done.
  destruct (vget "frrImplementation" e') as [| | | | |l'|] eqn:El; try done. destruct (str_truthy (strip raw)) eqn:Es; [|done].
  destruct (List.filter says l') eqn:Ef; [done|]. intros [= <- <- <-]. rewrite Ei, Ef, strip_idem. repeat split; try done. by exists raw.
Qed.

Lemma rendered_ok v i e l out : renderable v = Some (i, e, l) -> (forall n, dget n out = requirement_value i e l n) -> requirement_ok i out.
Proof.
  intros Hr Hv. apply renderable_spec in Hr as (_ & _ & Hs & Ht & Hne & _). split.
  - split; [by rewrite Hv|done].
  - exists (List.filter says l). split; [by rewrite Hv|]. split; [done|apply forallb_filter].
  - rewrite Hv. change (requirement_value i e l "frrImplementationStatus") with (kept_status (dget "frrImplementationStatus" e)).
    destruct (dget "frrImplementationStatus" e) as [v'|]; [|by left]. cbn [kept_status]. destruct (is_enum_status v') eqn:E; [right; by eexists|by left].
  - intros f Hf. rewrite Hv. unfold requirement_value. rewrite (proj2 (mem_true f _)) by done.
    destruct (dget f e) as [[| | | | |k|]|]; try by left. right. eexists. split; [done|]. apply forallb_filter.
Qed.

Lemma ok_fixed index i out : requirement_ok i out -> repair_requirement index (VDict out) = (Some (i, out), []).
Proof.
  intros [(Hi & Hs & Ht) (l & Hl & Hne & Hsay) Hst Har]. unfold repair_requirement.
  rewrite (vget_of _ _ _ Hi), (vget_of _ _ _ Hl). cbv zeta. rewrite Hs, Ht, (forallb_filter_id _ l Hsay), (says_strings l Hsay). cbn [negb].
  rewrite (dset_same "frrID") by done.
  assert (repair_status i (out, []) = (out, [])) as E0.
  { unfold repair_status. cbn [fst]. destruct Hst as [->|(v & -> & Ev)]; [done|by rewrite Ev]. }
  assert (forall f, f ∈ REPAIRED_ARRAYS -> repair_array i (out, []) f = (out, [])) as E1.
  { intros f Hf. unfold repair_array. cbn [fst]. destruct (Har f Hf) as [->|(k & -> & Ek)]; [done|]. by rewrite cleaned_same, Ek. }
  destruct l as [|s ss]; [done|]. rewrite (dset_same "frrImplementation") by done. rewrite E0. cbn [foldl]. rewrite !E1 by (unfold REPAIRED_ARRAYS; in_list). done.
Qed.

Definition OMISSIONS : list string := ["not an object"; "no frrID"; "frrImplementation is not a list"; "no implementation statement"].

Lemma repair_omitted index v : renderable v = None ->
  (repair_requirement index v).1 = None /\
  exists who why, (who, why) ∈ (repair_requirement index v).2 /\ why ∈ OMISSIONS /\
    (who = ("fedRampRequirements[" +:+ pretty index +:+ "]")%string \/ exists e raw, v = VDict e /\ vget "frrID" e = VStr raw /\ who = strip raw).
Proof.
  unfold renderable, repair_requirement. destruct v as [| | | | | |e];
    try (intros _; split; [done|]; eexists _, _; split; [by left|]; split; [unfold OMISSIONS; in_list|by left]).
  destruct (vget "frrID" e) as [| | | |raw| |] eqn:Ei;
    try (intros _; split; [done|]; eexists _, _; split; [by left|]; split; [unfold OMISSIONS; in_list|by left]).
  cbv zeta. destruct (str_truthy (strip raw)) eqn:Es; cbn [negb].
  2:{ intros _. split; [done|]. eexists _, _. split; [by left|]. split; [unfold OMISSIONS; in_list|by left]. }
  destruct (vget "frrImplementation" e) as [| | | | |l|] eqn:El;
    try (intros _; split; [done|]; eexists _, _; split; [by left|]; split; [unfold OMISSIONS; in_list|right; by exists e, raw]).
  destruct (List.filter says l) as [|s ss] eqn:Ef; [|done]. intros _. split; [done|]. eexists _, _. split; [by left|].
  split; [unfold OMISSIONS; in_list|right; by exists e, raw].
Qed.

Definition indexed (authored : list pyval) : list (Z * pyval) := imap (fun i v => (Z.of_nat i, v)) authored.
Definition kept_requirement (ie : Z * pyval) : option (string * json_obj) := (repair_requirement ie.1 ie.2).1.
Definition DUPLICATE : string := "duplicate authored entry kept".

Lemma merge_requirements_fold l :
  let st := foldl merge_requirement ([], [], []) l in
  let kept := omap kept_requirement l in
  st.1.1 = kept /\ (forall i, i ∈ st.2 <-> i ∈ map fst kept) /\
  (forall x, x ∈ st.1.2 <-> (exists ie, ie ∈ l /\ x ∈ (repair_requirement ie.1 ie.2).2) \/
     exists i k1 k2, x = (i, DUPLICATE) /\ map fst kept = k1 ++ i :: k2 /\ i ∈ k1).
Proof.
  cbv zeta. induction l as [|ie l (IH1 & IH2 & IH3)] using rev_ind.
  - split; [done|]. split; [done|]. intros x. split; [by intros ?%not_elem_of_nil|].
    intros [(ie & H%not_elem_of_nil & _)|(i & k1 & k2 & _ & H & _)]; [done|]. by destruct k1.
  - rewrite foldl_app, omap_snoc. cbn [foldl]. destruct (foldl _ _ l) as [[r n] s]. unfold merge_requirement. cbn [fst snd] in IH1, IH2, IH3.
    destruct (repair_requirement ie.1 ie.2) as [[[i e]|] more] eqn:E;
      (assert (kept_requirement ie = (repair_requirement ie.1 ie.2).1) as -> by done); rewrite E; cbn [fst snd option_list option_rect].
    + rewrite IH1. split; [done|]. split. { intros j. rewrite map_app, elem_of_cons, elem_of_app, IH2. cbn. set_solver. }
      intros x. rewrite !elem_of_app, IH3, map_app. cbn [map fst]. split.
      * intros [[(ie' & H1 & H2)|(j & k1 & k2 & -> & Ek & Hj)]|[H|H]].
        -- left. exists ie'. set_solver.
        -- right. exists j, k1, (k2 ++ [i]). rewrite Ek, <-app_assoc. done.
        -- left. exists ie. rewrite E. set_solver.
        -- destruct (mem_spec i s) as [Hm|Hm]; [|by apply not_elem_of_nil in H]. apply list_elem_of_singleton in H as ->. apply IH2 in Hm. right.
           by exists i, (map fst (omap kept_requirement l)), [].
      * intros [(ie' & [H1|H1%list_elem_of_singleton]%elem_of_app & H2)|(j & k1 & k2 & -> & Ek & Hj)].
        -- left. left. by exists ie'.
        -- subst ie'. rewrite E in H2. by right; left.
        -- destruct k2 as [|y k2 _] using rev_ind.
           ++ apply app_inj_tail in Ek as [Ek ->]. right. right. rewrite <-Ek, <-IH2 in Hj. rewrite (proj2 (mem_true j s)) by done. by left.
           ++ rewrite app_comm_cons, app_assoc in Ek. apply app_inj_tail in Ek as [Ek _]. left. right. by exists j, k1, k2.
    + rewrite app_nil_r. split; [done|]. split; [done|]. intros x. rewrite elem_of_app, IH3. split.
      * intros [[(ie' & H1 & H2)|H]|H]; [left; exists ie'; set_solver|by right|]. left. exists ie. rewrite E. set_solver.
      * intros [(ie' & [H1|H1%list_elem_of_singleton]%elem_of_app & H2)|H]; [left; left; by exists ie'| |by left; right].
        subst ie'. rewrite E in H2. by right.
Qed.

(** ** Lemmas: the seed *)

Record tables_wf (t : SdrTables) : Prop := {
  tw_entries : Forall entry_wf (sd_entries t);
  tw_ksis : NoDup (map sk_identifier (sd_ksis t));
  tw_runs : NoDup (map sr_id (sd_runs t));
  tw_reviews : NoDup (map sv_id (sd_reviews t)) }.

Lemma dicts_of_map l : dicts_of (map VDict l) = l.
Proof. unfold dicts_of. rewrite omap_map_eq. induction l as [|d l IH]; [done|]. unfold omap in *. cbn [list_omap]. by rewrite IH. Qed.

Lemma project_entries_elem entries p e : e ∈ project_entries entries p -> e ∈ entries.
Proof. destruct p as [i|]; [|by intros ?%not_elem_of_nil]. unfold project_entries. rewrite stable_sort_perm. by intros [_ ?]%list_elem_of_filter. Qed.

(** What a seed writes over the stored document. *)
Section seeded.
Context (t : SdrTables) (sid : Z) (current : json_obj).
Definition seeded_entries : list SSPControlEntry := project_entries (sd_entries t) (latest_project_id (sd_projects t) sid).
Definition seeded_authored : list json_obj := dicts_of (stored_list "keySecurityIndicators" current).
Definition seeded_ids : list string := narrated_ids seeded_authored (derived_of t sid).
Definition seeded_indicators : list json_obj := map (indicator_of seeded_authored (derived_of t sid)) seeded_ids.
Definition seeded_requirements : list json_obj := (merge_requirements (stored_list "fedRampRequirements" current)).1.
Definition seeded_document : json_obj :=
  dset "fedRampRequirements" (VList (map VDict seeded_requirements))
    (dset "keySecurityIndicators" (VList (map VDict seeded_indicators))
      (dset "securityControls" (VList (map (fun e => VDict (control_of e)) seeded_entries)) current)).
End seeded.

Lemma derived_ok t sid i d : dget i (derived_of t sid) = Some d -> facts_ok d.
Proof. intros (k & _ & _ & ->)%derived_get. apply facts_of_ok. Qed.

Section seeding.
Context {St : Type} `{!DocStore St} (systems : St -> Z -> option CrSystem) (t : SdrTables) (sid : Z).
Context (Hsys : forall st, writable st sid "sdr" = true -> is_Some (systems st sid)).

Lemma seed_sdr_ok st : tables_wf t -> writable st sid "sdr" = true ->
  let current := stored_obj (doc_at st sid "sdr" None) in
  let entries := seeded_entries t sid in
  exists r st', seed_sdr systems t sid st = Ok (r, st') /\ dc_document (sdr_document r) = seeded_document t sid current /\
    doc_at st' sid "sdr" None = Some (seeded_document t sid current) /\ writable st' sid "sdr" = true /\
    ssp_project_id r = latest_project_id (sd_projects t) sid /\
    rendered_control_count r = Z.of_nat (List.length entries) /\
    controls_missing_description r =
      omap (fun e => if is_empty (written_parts (en_part_narratives e)) then Some (en_control_id e) else None) entries /\
    controls_with_dropped_parts r = omap (fun e => if loses_parts (en_part_narratives e) then Some (en_control_id e) else None) entries /\
    omitted_ksi_ids r = List.filter (fun i => negb (narrated_id (seeded_authored current) i)) (all_ids (seeded_authored current) (derived_of t sid)) /\
    omitted_requirements r = (merge_requirements (stored_list "fedRampRequirements" current)).2.
Proof.
  intros Hw Hwr. cbv zeta. set (current := stored_obj _). destruct (Hsys st Hwr) as [sys Es]. unfold seed_sdr. rewrite Es. cbv zeta. fold current.
  fold (seeded_entries t sid). rewrite rendered_controls_spec.
  2:{ apply Forall_forall. intros e He. by eapply Forall_forall; [exact (tw_entries _ Hw)|eapply project_entries_elem]. }
  cbn [res_bind]. rewrite derived_indicators_spec. cbn [res_bind rd_controls]. set (c := dset "securityControls" _ current).
  assert (stored_list "keySecurityIndicators" c = stored_list "keySecurityIndicators" current) as ->
    by (unfold stored_list, vget, c; by rewrite dget_dset_ne).
  fold (seeded_authored current). rewrite merge_indicators_spec by apply derived_ok. cbn [res_bind fst snd].
  set (k := dset "keySecurityIndicators" _ c).
  assert (stored_list "fedRampRequirements" k = stored_list "fedRampRequirements" current) as ->
    by (unfold stored_list, vget, k, c; by rewrite !dget_dset_ne).
  change (dset "fedRampRequirements" _ k) with (seeded_document t sid current).
  destruct (put_writes sid "sdr" (seeded_document t sid current) None st Hwr) as (row & st' & Ep & Er & Hat & _ & Hws). rewrite Ep. cbn [res_bind fst snd].
  eexists _, st'. split; [reflexivity|]. cbn [sdr_document ssp_project_id rendered_control_count controls_missing_description
    controls_with_dropped_parts omitted_ksi_ids omitted_requirements rd_missing rd_dropped_parts]. rewrite length_map, Hws. done.
Qed.

Lemma seeded_get current :
  dget "securityControls" (seeded_document t sid current) = Some (VList (map VDict (map control_of (seeded_entries t sid)))) /\
  dget "keySecurityIndicators" (seeded_document t sid current) = Some (VList (map VDict (seeded_indicators t sid current))) /\
  dget "fedRampRequirements" (seeded_document t sid current) = Some (VList (map VDict (seeded_requirements current))).
Proof. unfold seeded_document. rewrite !dget_dset. cbn. by rewrite map_map. Qed.

Lemma merged_requirements_rows authored : exists rows,
  (merge_requirements authored).1 = map snd rows /\ rows ≡ₚ omap kept_requirement (indexed authored) /\
  StronglySorted (fun a b => str_leb a.1 b.1 = true) rows.
Proof.
  unfold merge_requirements. pose proof (merge_requirements_fold (indexed authored)) as (E & _). unfold indexed in E.
  destruct (foldl _ _ _) as [[kept notes] seen]. cbn in E. subst kept. eexists. split; [reflexivity|]. split; [apply stable_sort_perm|].
  apply stable_sort_sorted.
  - intros x y. apply (str_le_total x.1 y.1).
  - intros x y z. apply (str_le_trans x.1 y.1 z.1).
Qed.

Lemma kept_requirement_ok ie i out : kept_requirement ie = Some (i, out) -> requirement_ok i out.
Proof.
  unfold kept_requirement. destruct (renderable ie.2) as [[[i' e] l]|] eqn:E.
  - destruct (repair_rendered ie.1 _ _ _ _ E) as (out' & -> & Hv). intros [= <- <-]. by eapply rendered_ok.
  - by destruct (repair_omitted ie.1 _ E) as [-> _].
Qed.

Lemma rows_ok authored rows : rows ≡ₚ omap kept_requirement (indexed authored) -> Forall (fun r => requirement_ok r.1 r.2) rows.
Proof.
  intros ->. apply Forall_forall. intros [i out] (ie & _ & H)%list_elem_of_omap. by eapply kept_requirement_ok.
Qed.

Lemma requirements_again authored : (merge_requirements (map VDict (merge_requirements authored).1)).1 = (merge_requirements authored).1.
Proof.
  destruct (merged_requirements_rows authored) as (rows & E & Hp & Hs). rewrite E. apply rows_ok in Hp.
  unfold merge_requirements. pose proof (merge_requirements_fold (indexed (map VDict (map snd rows)))) as (Ek & _). fold (indexed (map VDict (map snd rows))).
  destruct (foldl _ _ _) as [[kept notes] seen]. cbn in Ek. subst kept. cbn [fst]. f_equal.
  assert (forall k, omap kept_requirement (imap (fun i v => (Z.of_nat (k + i), v)) (map VDict (map snd rows))) = rows) as Hk.
  { clear Hs E. induction Hp as [|[i out] rows Ho Hp IH]; intros k; [done|]. cbn [map snd imap]. unfold omap in *. cbn [list_omap].
    unfold kept_requirement at 1. cbn [fst snd]. rewrite (ok_fixed _ i) by exact Ho. cbn [fst]. f_equal. etransitivity; [|exact (IH (S k))].
    f_equal. apply imap_ext. intros j v _. cbn. do 2 f_equal. lia. }
  specialize (Hk 0%nat). change (omap kept_requirement (indexed (map VDict (map snd rows))) = rows) in Hk. rewrite Hk. by apply stable_sort_id.
Qed.
End seeding.

(** ** Properties *)

(** What the schema asks of a control and of an indicator; a rendered requirement
    is a [requirement_ok]. *)
Definition status_shape (field : string) (d : json_obj) : Prop :=
  dget field d = None \/ exists v, dget field d = Some v /\ is_enum_status v = true.
Record control_ok (c : json_obj) : Prop := {
  co_id : exists s, dget "controlId" c = Some (VStr s);
  co_parameters : exists l, dget "parameterValues" c = Some (VList l) /\
    Forall (fun v => exists a b, v = VDict [("parameterId", VStr a); ("parameterValue", VStr b)]) l;
  co_description : dget "controlImplementationDescription" c = None \/
    exists s, dget "controlImplementationDescription" c = Some (VStr s) /\ says (VStr s) = true /\ is_draft_or_placeholder s = false;
  co_status : status_shape "controlImplementationStatus" c }.
Record indicator_ok (o : json_obj) : Prop := {
  io_id : exists i, dget "ksiId" o = Some (VStr i) /\ str_truthy i = true;
  io_narrative : narrated o = true;
  io_arrays : forall f, f ∈ REQUIRED_ARRAY_FIELDS -> exists l, dget f o = Some (VList l);
  io_status : status_shape "ksiImplementationStatus" o }.
(** What the schema asks of the items of an indicator's arrays: texts, and evidence
    objects whose known fields are texts, the type one of seven. *)
Definition texts_in (f : string) (o : json_obj) : bool := match vget f o with VList l => forallb is_str l | _ => false end.
Definition EVIDENCE_TYPES : list string := ["Log"; "Report"; "Screenshot"; "Configuration"; "Policy"; "Procedure"; "Audit Record"].
Definition EVIDENCE_TEXTS : list string := ["evidenceDescription"; "evidenceLocation"; "evidenceText"; "lastUpdated"].
Definition is_evidence (v : pyval) : bool :=
  match v with
  | VDict d => forallb (fun f => match dget f d with Some x => is_str x | None => true end) EVIDENCE_TEXTS &&
               match dget "evidenceType" d with Some (VStr s) => mem s EVIDENCE_TYPES | Some _ => false | None => true end
  | _ => false
  end.
Definition derived_items_ok (o : json_obj) : bool :=
  texts_in "ksiValidation" o && texts_in "ksiAssessment" o && texts_in "ksiTests" o &&
  match vget "ksiEvidence" o with VList l => forallb is_evidence l | _ => false end.
Definition items_ok (o : json_obj) : bool := texts_in "ksiImplementation" o && derived_items_ok o.
(** The arrays a stored entry has, an absent or mistyped one read as empty. *)
Definition carried_arrays (e : json_obj) : json_obj := map (fun f => (f, match vget f e with VList l => VList l | _ => VList [] end)) REQUIRED_ARRAY_FIELDS.

Lemma control_of_ok e : control_ok (control_of e).
Proof.
  pose proof (written_parts_say (en_part_narratives e)) as Hw. split.
  - by eexists.
  - eexists. split; [done|]. apply Forall_forall. intros v (kv & _ & H)%list_elem_of_omap. destruct (is_none kv.2); [done|].
    injection H as <-. by eexists _, _.
  - destruct (control_of_get e) as [-> _]. unfold description_of. destruct (written_parts _) as [|w ws]; [by left|].
    right. exists (join " " (w :: ws)). split; [done|]. pose proof Hw as [[? _] _]%Forall_cons. split; [by apply join_says|].
    apply draft_join. eapply Forall_impl; [exact Hw|]. by intros s [_ ?].
  - unfold status_shape. destruct (control_of_get e) as [_ ->]. unfold stated_status.
    destruct (en_implementation_status e) as [|[| | | |s| |] [|? ?]]; try by left.
    destruct (bool_decide (s ∈ STATUS_ENUM)) eqn:E; [|by left]. right. exists (VStr s). done.
Qed.

Lemma indicator_of_ok authored t sid i : narrated_id authored i = true -> indicator_ok (indicator_of authored (derived_of t sid) i).
Proof.
  intros Hi. pose proof Hi as (e & _ & Ee & Hn & Ht)%narrated_id_kept. split.
  - exists i. split; [by rewrite indicator_get|done].
  - unfold narrated. by rewrite indicator_narrative, Ee.
  - intros f Hf. rewrite indicator_get. cbv zeta. rewrite decide_False by (rewrite required_fields in Hf; elem_cases Hf; done).
    rewrite (proj2 (mem_true f _)) by done. unfold array_value. destruct (dget i (derived_of t sid)) as [d|] eqn:Ed.
    + apply derived_ok in Ed as [Ha _]. destruct (Ha f Hf) as [l El]. rewrite (vget_of _ _ _ El). by eexists.
    + destruct (vget f _); by eexists.
  - unfold status_shape. rewrite indicator_get. cbv zeta. rewrite decide_True by done. unfold status_value.
    destruct (dget i (derived_of t sid)) as [d|] eqn:Ed.
    + apply derived_ok in Ed as [_ [->|Hs]]; [by left|]. right. exists (vget "ksiImplementationStatus" d). split; [|done].
      by destruct (vget "ksiImplementationStatus" d).
    + cbv zeta. destruct (is_enum_status (vget _ _)) eqn:E; [|by left]. right. exists (vget "ksiImplementationStatus" (entry_of authored i)).
      split; [|done]. by destruct (vget "ksiImplementationStatus" (entry_of authored i)).
Qed.

Lemma entries_of_elem i e authored : e ∈ entries_of i authored <-> e ∈ authored /\ has_id i e = true.
Proof. unfold entries_of. by rewrite list_elem_of_In, filter_In, <-list_elem_of_In. Qed.

Lemma kept_entry_some authored i : is_Some (kept_entry authored i) <-> i <> "" /\ exists e, e ∈ authored /\ has_id i e = true.
Proof.
  unfold kept_entry, str_truthy. case_bool_decide as Hi; [|split; [by intros [? ?]|by intros [? _]]]. setoid_rewrite <-entries_of_elem. split.
  - intros [e He]. split; [done|]. destruct (last (List.filter _ _)) as [x|] eqn:El.
    + exists x. apply last_Some_elem_of in El. apply list_elem_of_In, filter_In in El as [El _]. by apply list_elem_of_In.
    + exists e. by apply last_Some_elem_of.
  - intros (_ & e & He). destruct (last (List.filter _ _)); [by eexists|]. destruct (last (entries_of i authored)) eqn:El; [by eexists|].
    apply last_None in El. rewrite El in He. by apply not_elem_of_nil in He.
Qed.

Lemma narrated_id_last authored i : narrated_id authored i = true ->
  last (List.filter narrated (entries_of i authored)) = Some (entry_of authored i).
Proof.
  intros (e & Hk & -> & Hn & Ht)%narrated_id_kept. unfold kept_entry in Hk. rewrite Ht in Hk.
  destruct (last (List.filter _ _)) as [x|] eqn:El; [done|]. apply last_None in El. apply last_Some_elem_of in Hk.
  assert (e ∈ List.filter narrated (entries_of i authored)) as H by (apply list_elem_of_In, filter_In; split; [by apply list_elem_of_In|done]).
  rewrite El in H. by apply not_elem_of_nil in H.
Qed.

Lemma narrated_id_intro authored e i : e ∈ authored -> has_id i e = true -> i <> "" -> narrated e = true -> narrated_id authored i = true.
Proof.
  intros He Hi Hne Hn. unfold narrated_id, entry_of, kept_entry, str_truthy. rewrite bool_decide_eq_true_2 by done.
  assert (e ∈ List.filter narrated (entries_of i authored)) as H
    by (apply list_elem_of_In, filter_In; split; [by apply list_elem_of_In, entries_of_elem|done]).
  destruct (last (List.filter narrated (entries_of i authored))) as [x|] eqn:El.
  - apply last_Some_elem_of, list_elem_of_In, filter_In in El as [_ ?]. done.
  - apply last_None in El. rewrite El in H. by apply not_elem_of_nil in H.
Qed.

Lemma latest_run_of t sid k run : NoDup (map sr_id (sd_runs t)) -> run ∈ sd_runs t -> sr_system_id run = sid -> sr_ksi_id run = k ->
  (forall run', run' ∈ sd_runs t -> sr_system_id run' = sid -> sr_ksi_id run' = k -> row_le sr_validated_at sr_id run' run = true) ->
  latest_run t sid k = Some run.
Proof.
  intros Hn Hr Hs Hk Hmax. unfold latest_run. apply last_rows_spec.
  - eapply sublist_NoDup; [exact Hn|]. apply (fmap_sublist sr_id), sublist_filter.
  - rewrite list_elem_of_filter. split; [done|]. split; [done|]. intros r' [Hs' Hr']%list_elem_of_filter Hk'. auto.
Qed.

(** An indicator, field by field. *)
Lemma indicator_spec t sid authored i : tables_wf t -> narrated_id authored i = true ->
  let o := indicator_of authored (derived_of t sid) i in
  exists e, e ∈ authored /\ has_id i e = true /\ last (List.filter narrated (entries_of i authored)) = Some e /\
    vget "ksiImplementation" o = vget "ksiImplementation" e /\
    (forall n, n ∉ "ksiId" :: "ksiImplementation" :: DERIVED_INDICATOR_FIELDS -> dget n o = dget n e) /\
    (forall k, k ∈ sd_ksis t -> sk_identifier k = i ->
       (forall n, n ∈ DERIVED_INDICATOR_FIELDS -> dget n o = dget n (facts_of t sid k)) /\
       forall run, run ∈ sd_runs t -> sr_system_id run = sid -> sr_ksi_id run = sk_id k ->
         (forall run', run' ∈ sd_runs t -> sr_system_id run' = sid -> sr_ksi_id run' = sk_id k -> row_le sr_validated_at sr_id run' run = true) ->
         dget "ksiValidation" o = Some (VList (validation_statements (Some run)))) /\
    (i ∉ map sk_identifier (sd_ksis t) ->
       (forall n, n ∈ REQUIRED_ARRAY_FIELDS -> dget n o = Some (match vget n e with VList l => VList l | _ => VList [] end)) /\
       dget "ksiImplementationStatus" o = kept_status (dget "ksiImplementationStatus" e)).
Proof.
  intros Hw Hi. cbv zeta. pose proof (narrated_id_last _ _ Hi) as Hl. exists (entry_of authored i). pose proof Hl as Hin.
  apply last_Some_elem_of, list_elem_of_In, filter_In in Hin as [Hin%list_elem_of_In%entries_of_elem _]. destruct Hin as [Hin Hid].
  split; [done|]. split; [done|]. split; [done|]. split; [apply indicator_narrative|]. split; [|split].
  - intros n Hn. rewrite indicator_get. cbv zeta. rewrite required_fields. unfold DERIVED_INDICATOR_FIELDS in Hn. rewrite !not_elem_of_cons in Hn.
    rewrite !decide_False by tauto. rewrite (proj2 (mem_false n _)); [done|]. rewrite !not_elem_of_cons. pose proof (not_elem_of_nil n). tauto.
  - intros k Hk Ek. assert (forall n, n ∈ DERIVED_INDICATOR_FIELDS -> dget n (indicator_of authored (derived_of t sid) i) = dget n (facts_of t sid k)) as Hf.
    { intros n Hn. rewrite indicator_get. cbv zeta. rewrite <-Ek, derived_fact by (done || apply Hw). cbn [array_value status_value].
      destruct (facts_of_ok t sid k) as [Ha _]. unfold DERIVED_INDICATOR_FIELDS in Hn. apply elem_of_cons in Hn as [ ->|Hn].
      - rewrite decide_True by done. unfold vget. destruct (dget "ksiImplementationStatus" (facts_of t sid k)) as [v|] eqn:Ev; [|done].
        cbn [default from_option id]. unfold facts_of in Ev. destruct (dget _ IMPLEMENTATION_STATUS_BY_VERDICT); cbn in Ev; [|done]. by injection Ev as <-.
      - rewrite <-required_fields in Hn. rewrite decide_False by (rewrite required_fields in Hn; elem_cases Hn; done).
        rewrite (proj2 (mem_true n _)) by done. destruct (Ha n Hn) as [l El]. by rewrite (vget_of _ _ _ El), El. }
    split; [exact Hf|]. intros run Hr Hs Hrk Hmax. rewrite Hf by (unfold DERIVED_INDICATOR_FIELDS; in_list).
    unfold facts_of. cbn [app dget]. rewrite decide_True by done.
    by rewrite (latest_run_of t sid (sk_id k) run) by (done || apply Hw).
  - intros Hc. assert (dget i (derived_of t sid) = None) as En by (apply dget_None; by rewrite derived_keys).
    split; [intros n Hn|]; rewrite indicator_get, En; cbv zeta.
    + rewrite decide_False by (rewrite required_fields in Hn; elem_cases Hn; done). by rewrite (proj2 (mem_true n _)).
    + rewrite decide_True by done. unfold status_value, vget. cbv zeta. destruct (dget "ksiImplementationStatus" (entry_of authored i)) as [v|]; [|done].
      cbn [default from_option id kept_status]. destruct (is_enum_status v) eqn:Ev; [|done]. by destruct v.
Qed.

Lemma derived_items_ext o o' : (forall n, n ∈ REQUIRED_ARRAY_FIELDS -> dget n o = dget n o') -> derived_items_ok o = derived_items_ok o'.
Proof. intros H. unfold derived_items_ok, texts_in, vget. rewrite !H by (rewrite required_fields; in_list). done. Qed.
Lemma facts_items t sid k : derived_items_ok (facts_of t sid k) = true.
Proof.
  unfold derived_items_ok, texts_in, facts_of, vget. cbn -[validation_statements assessment_statements tests_of evidence_of].
  rewrite !andb_true_iff. split_and!.
  - by destruct (latest_run t sid (sk_id k)).
  - by destruct (review_of t sid (sk_id k)).
  - unfold tests_of. by destruct (str_truthy _), (str_truthy _).
  - destruct (latest_run t sid (sk_id k)) as [r|]; [|done]. cbn [evidence_of]. apply forallb_forall. intros v (ref & <- & _)%in_map_iff. reflexivity.
Qed.
(** When the items of a rendered indicator are what the schema asks for. *)
Lemma indicator_items t sid authored i : tables_wf t -> narrated_id authored i = true ->
  exists e, e ∈ authored /\ has_id i e = true /\ last (List.filter narrated (entries_of i authored)) = Some e /\
    (items_ok (indicator_of authored (derived_of t sid) i) = true <->
       texts_in "ksiImplementation" e = true /\ (i ∈ map sk_identifier (sd_ksis t) \/ derived_items_ok (carried_arrays e) = true)).
Proof.
  intros Hw Hi. destruct (indicator_spec t sid authored i Hw Hi) as (e & He & Hid & Hl & En & _ & Hk & Hc). exists e. split; [done|]. split; [done|]. split; [done|].
  unfold items_ok, texts_in at 1. rewrite En, andb_true_iff. destruct (decide (i ∈ map sk_identifier (sd_ksis t))) as [Hin|Hout].
  - pose proof Hin as (k & -> & Hks)%list_elem_of_fmap. destruct (Hk k Hks eq_refl) as [Hf _].
    rewrite (derived_items_ext _ (facts_of t sid k)), facts_items by (intros n Hn; apply Hf; rewrite required_fields in Hn; unfold DERIVED_INDICATOR_FIELDS; by right). tauto.
  - destruct (Hc Hout) as [Ha _]. rewrite (derived_items_ext _ (carried_arrays e)); [tauto|]. intros n Hn. rewrite Ha by done.
    rewrite required_fields in Hn. unfold carried_arrays. rewrite required_fields. by elem_cases Hn.
Qed.

Lemma indexed_elem authored k v : authored !! k = Some v -> (Z.of_nat k, v) ∈ indexed authored.
Proof. intros H. unfold indexed. apply list_elem_of_lookup. exists k. by rewrite list_lookup_imap, H. Qed.

Lemma kept_length authored : List.length (omap kept_requirement (indexed authored)) = List.length (omap renderable authored).
Proof.
  unfold indexed. assert (forall (f : nat -> Z) l, List.length (omap kept_requirement (imap (fun i v => (f i, v)) l)) = List.length (omap renderable l)) as H.
  { intros f l. revert f. induction l as [|v l IH]; intros f; [done|]. cbn [imap]. unfold omap in *. cbn [list_omap].
    unfold kept_requirement at 1. cbn [fst snd]. specialize (IH (f ∘ S)). destruct (renderable v) as [[[i e] k]|] eqn:Er.
    - destruct (repair_rendered (f 0%nat) v i e k Er) as (out & -> & _). cbn [fst length]. f_equal. exact IH.
    - destruct (repair_omitted (f 0%nat) v Er) as [-> _]. exact IH. }
  apply H.
Qed.

Lemma requirement_notes_spec authored :
  (forall ie, ie ∈ indexed authored -> forall x, x ∈ (repair_requirement ie.1 ie.2).2 -> x ∈ (merge_requirements authored).2) /\
  (forall i k1 k2, map fst (omap kept_requirement (indexed authored)) = k1 ++ i :: k2 -> i ∈ k1 -> (i, DUPLICATE) ∈ (merge_requirements authored).2).
Proof.
  unfold merge_requirements. pose proof (merge_requirements_fold (indexed authored)) as (_ & _ & Hn). fold (indexed authored).
  destruct (foldl _ _ _) as [[kept notes] seen]. cbn in Hn. cbn [snd]. setoid_rewrite Hn. split.
  - intros ie Hie x Hx. left. by exists ie.
  - intros i k1 k2 E Hi. right. by exists i, k1, k2.
Qed.

Lemma again_notes authored x : x ∈ (merge_requirements (map VDict (merge_requirements authored).1)).2 -> x.2 = DUPLICATE.
Proof.
  destruct (merged_requirements_rows authored) as (rows & -> & Hp & _). apply rows_ok in Hp.
  unfold merge_requirements. pose proof (merge_requirements_fold (indexed (map VDict (map snd rows)))) as (_ & _ & Hn).
  fold (indexed (map VDict (map snd rows))). destruct (foldl _ _ _) as [[kept notes] seen]. cbn in Hn. cbn [snd]. rewrite Hn.
  intros [(ie & Hie & Hx)|(i & _ & _ & -> & _)]; [|done]. exfalso. unfold indexed in Hie. apply list_elem_of_lookup in Hie as [k Hk].
  rewrite list_lookup_imap, fmap_Some in Hk. destruct Hk as (v & Hv & ->). apply list_elem_of_lookup_2 in Hv.
  apply list_elem_of_fmap in Hv as (out & -> & (r & -> & Hr)%list_elem_of_fmap). rewrite Forall_forall in Hp. cbn [fst snd] in Hx.
  rewrite (ok_fixed _ r.1) in Hx by by apply Hp. by apply not_elem_of_nil in Hx.
Qed.

Lemma nodup_by_split {A} (l : list A) : (forall x k1 k2, l = k1 ++ x :: k2 -> x ∈ k1 -> False) -> NoDup l.
Proof.
  induction l as [|x l IH] using rev_ind; [constructor|]. intros H. apply NoDup_app. split; [|split].
  - apply IH. intros y k1 k2 -> Hy. apply (H y k1 (k2 ++ [x])); [by rewrite <-app_assoc|done].
  - intros y Hy ->%list_elem_of_singleton. by apply (H x l []).
  - apply NoDup_singleton.
Qed.

Lemma no_note_strings l : existsb (fun v => negb (is_str v)) l = false -> forall x, x ∈ l -> is_blank x = false -> x ∈ List.filter says l.
Proof.
  intros H x Hx Hb. apply list_elem_of_In, filter_In. split; [by apply list_elem_of_In|].
  destruct x; try (exfalso; rewrite (proj2 (existsb_exists _ _)) in H; [done|]; eexists; split; [by apply list_elem_of_In|done]).
  cbn in Hb |- *. by destruct (str_truthy (strip s)).
Qed.

(** A repair without a note loses nothing. *)
Lemma silent_repair v i e l out : renderable v = Some (i, e, l) -> (forall n, dget n out = requirement_value i e l n) ->
  (requirement_notes i e l = [] -> forall f xs x, f ∈ "frrImplementation" :: REPAIRED_ARRAYS ->
     dget f e = Some (VList xs) -> x ∈ xs -> is_blank x = false -> exists ys, dget f out = Some (VList ys) /\ x ∈ ys) /\
  (requirement_notes i e l = [] -> dget "frrImplementationStatus" out = dget "frrImplementationStatus" e).
Proof.
  intros Hr Hv. apply renderable_spec in Hr as (_ & _ & _ & _ & _ & _ & El). split; intros Hn; unfold requirement_notes in Hn;
    apply app_eq_nil in Hn as [H1 Hn]; apply app_eq_nil in Hn as [H2 H3].
  - intros f xs x Hf Hd Hx Hb. apply elem_of_cons in Hf as [ ->|Hf].
    + exists (List.filter says l). split; [by rewrite Hv|]. rewrite (vget_of _ _ _ Hd) in El. injection El as ->.
      apply no_note_strings; [|done..]. unfold statement_note in H1. by destruct (existsb _ _).
    + exists (List.filter says xs). split; [rewrite Hv; unfold requirement_value; rewrite (proj2 (mem_true f _)) by done; by rewrite Hd|].
      apply no_note_strings; [|done..]. assert (array_note i f (dget f e) = []) as Ha.
      { cbn [map concat REPAIRED_ARRAYS] in H3. rewrite app_nil_r in H3. apply app_eq_nil in H3 as [? ?]. unfold REPAIRED_ARRAYS in Hf. by elem_cases Hf. }
      rewrite Hd in Ha. cbn [array_note] in Ha. by destruct (existsb _ _).
  - rewrite Hv. change (requirement_value i e l "frrImplementationStatus") with (kept_status (dget "frrImplementationStatus" e)).
    destruct (dget "frrImplementationStatus" e) as [w|]; [|done]. cbn [status_note kept_status] in *. by destruct (is_enum_status w).
Qed.

Lemma vocabulary_agrees : implementation_status_enum SCHEMA_STATUS_ENUMS = Ok STATUS_ENUM.
Proof. apply (bool_decide_unpack (_ = _)). vm_compute. exact I. Qed.

Section decision_record.
Context {St : Type} `{!DocStore St} (systems : St -> Z -> option CrSystem).

(** C37: the shape of a seeded decision record, against the schema. Whatever was stored
    before, every control has an id, text parameters, no description that is blank or
    scaffolding and no status outside the schema's; every indicator has an id, a narrative,
    its four arrays and no other status; every requirement an id, statements that say
    something and only lists of such statements. What stands inside an indicator's arrays is
    checked by nobody: its items are the texts and evidence objects the schema asks for
    exactly when its stored narrative holds texts only and, for an indicator the catalog
    does not know, the arrays stored with it hold such items; what the platform derives
    always does. *)
Theorem sdr_is_well_shaped t sid st :
  (forall st, writable st sid "sdr" = true -> is_Some (systems st sid)) -> tables_wf t -> writable st sid "sdr" = true ->
  let authored := dicts_of (stored_list "keySecurityIndicators" (stored_obj (doc_at st sid "sdr" None))) in
  exists r st' controls ids indicators requirements,
    seed_sdr systems t sid st = Ok (r, st') /\
    dget "securityControls" (dc_document (sdr_document r)) = Some (VList (map VDict controls)) /\ Forall control_ok controls /\
    dget "keySecurityIndicators" (dc_document (sdr_document r)) = Some (VList (map VDict indicators)) /\
    Forall2 (fun i o => indicator_ok o /\ dget "ksiId" o = Some (VStr i) /\
      exists e, e ∈ authored /\ has_id i e = true /\ last (List.filter narrated (entries_of i authored)) = Some e /\
        (items_ok o = true <-> texts_in "ksiImplementation" e = true /\ (i ∈ map sk_identifier (sd_ksis t) \/ derived_items_ok (carried_arrays e) = true)))
      ids indicators /\
    dget "fedRampRequirements" (dc_document (sdr_document r)) = Some (VList (map VDict requirements)) /\
    Forall (fun e => exists i, requirement_ok i e) requirements.
Proof.
  intros Hsys Hw Hwr. cbv zeta. destruct (seed_sdr_ok systems t sid Hsys st Hw Hwr) as (r & st' & E & Ed & _). cbv zeta in Ed.
  set (current := stored_obj _) in *. fold (seeded_authored current). exists r, st'. rewrite Ed. destruct (seeded_get t sid current) as (E1 & E2 & E3).
  eexists _, (seeded_ids t sid current), _, _. split; [exact E|]. split; [exact E1|]. split; [|split; [exact E2|]; split; [|split; [exact E3|]]].
  - apply Forall_forall. intros c (e & -> & _)%list_elem_of_fmap. apply control_of_ok.
  - unfold seeded_indicators. apply Forall2_fmap_r, Forall_Forall2_diag, Forall_forall. intros i Hi. unfold compose, seeded_ids in *. apply narrated_ids_elem in Hi.
    split; [by apply indicator_of_ok|]. split; [by rewrite indicator_get|]. by apply indicator_items.
  - unfold seeded_requirements. destruct (merged_requirements_rows (stored_list "fedRampRequirements" current)) as (rows & -> & Hr & _).
    apply rows_ok in Hr. apply Forall_forall. intros e (ie & -> & Hie)%list_elem_of_fmap. rewrite Forall_forall in Hr. by eexists; apply Hr.
Qed.

(** the controls are the plan's. They come, in order, from the plan of the
    system worked on last; each states its written parts, joined, leaves out every
    part that is scaffolding or unreadable, and states its status only when it has
    one single status of the schema's. A control is named as undescribed exactly
    when nothing of it is written, as truncated exactly when a part was left out. *)
Theorem sdr_controls_are_what_was_written t sid st :
  (forall st, writable st sid "sdr" = true -> is_Some (systems st sid)) -> tables_wf t -> writable st sid "sdr" = true ->
  exists r st' controls, let entries := project_entries (sd_entries t) (ssp_project_id r) in
    seed_sdr systems t sid st = Ok (r, st') /\
    match ssp_project_id r with
    | Some i => exists p, p ∈ sd_projects t /\ pj_id p = i /\ pj_system_id p = Some sid /\
        forall q, q ∈ sd_projects t -> pj_system_id q = Some sid -> later_project q p = false
    | None => forall p, p ∈ sd_projects t -> pj_system_id p <> Some sid
    end /\
    dget "securityControls" (dc_document (sdr_document r)) = Some (VList (map VDict controls)) /\
    rendered_control_count r = Z.of_nat (List.length controls) /\
    Forall2 (fun e c =>
      dget "controlId" c = Some (VStr (en_control_id e)) /\
      dget "controlImplementationDescription" c =
        match written_parts (en_part_narratives e) with [] => None | ws => Some (VStr (join " " ws)) end /\
      (forall s, dget "controlImplementationStatus" c = Some (VStr s) <-> en_implementation_status e = [VStr s] /\ s ∈ STATUS_ENUM))
      entries controls /\
    (forall i, i ∈ controls_missing_description r <->
       exists e, e ∈ entries /\ en_control_id e = i /\ forall p, p ∈ en_part_narratives e -> (narrative_part p).1 = None) /\
    (forall i, i ∈ controls_with_dropped_parts r <->
       exists e p, e ∈ entries /\ en_control_id e = i /\ p ∈ en_part_narratives e /\ (narrative_part p).2 = true).
Proof.
  intros Hsys Hw Hwr. destruct (seed_sdr_ok systems t sid Hsys st Hw Hwr) as (r & st' & E & Ed & _ & _ & Ep & Ec & Em & Es & _). cbv zeta in *.
  set (current := stored_obj _) in *. destruct (seeded_get t sid current) as (E1 & _). exists r, st', (map control_of (seeded_entries t sid)).
  cbv zeta. rewrite Ep, Ed. fold (seeded_entries t sid). split; [exact E|]. split; [|split; [exact E1|split; [by rewrite Ec, length_map|split]]].
  - unfold latest_project_id. set (mine := filter _ _). assert (Hm : forall p, p ∈ mine <-> pj_system_id p = Some sid /\ p ∈ sd_projects t)
      by (intros p; unfold mine; by rewrite list_elem_of_filter).
    pose proof (latest_of_spec later_project ltac:(unfold later_project; lia) ltac:(unfold later_project; lia) mine) as Hl.
    destruct (latest_of later_project mine) as [p|]; cbn [fmap option_fmap option_map].
    + destruct Hl as [[Hs Hp]%Hm Hmax]. exists p. split; [done|]. split; [done|]. split; [done|]. intros q Hq Hqs. apply Hmax, Hm. done.
    + intros p Hp Hs. assert (p ∈ mine) as H by by apply Hm. rewrite Hl in H. by apply not_elem_of_nil in H.
  - apply Forall2_fmap_r, Forall_Forall2_diag, Forall_forall. intros e _. unfold compose. split; [done|].
    destruct (control_of_get e) as [-> ->]. split; [unfold description_of; by destruct (written_parts _)|]. intros s. unfold stated_status.
    destruct (en_implementation_status e) as [|[| | | |u| |] [|? ?]]; try (split; [done|by intros [? _]]).
    case_bool_decide as Hu; (split; [|by intros [[= ->] ?]]); [by intros [= <-]|done].
  - rewrite Em, Es. split; intros i; rewrite list_elem_of_omap.
    + split.
      * intros (e & He & H). exists e. unfold is_empty in H. destruct (written_parts _) eqn:Ew; [|done]. injection H as <-. split; [done|]. split; [done|].
        intros p Hp. destruct (narrative_part p).1 as [s|] eqn:En; [|done].
        assert (s ∈ written_parts (en_part_narratives e)) as Hs by (apply list_elem_of_omap; by exists p). rewrite Ew in Hs. by apply not_elem_of_nil in Hs.
      * intros (e & He & <- & Hn). exists e. split; [done|]. destruct (written_parts _) as [|s ws] eqn:Ew; [done|].
        assert (s ∈ written_parts (en_part_narratives e)) as (p & Hp & H)%list_elem_of_omap by (rewrite Ew; left). by rewrite Hn in H.
    + split.
      * intros (e & He & H). exists e. destruct (loses_parts _) eqn:El; [|done]. injection H as <-.
        apply existsb_exists in El as (p & Hp%list_elem_of_In & H). by exists p.
      * intros (e & p & He & <- & Hp & H). exists e. split; [done|]. unfold loses_parts.
        rewrite (proj2 (existsb_exists _ _)); [done|]. exists p. split; [by apply list_elem_of_In|done].
Qed.

(** seeding the decision record again changes nothing. From any stored record,
    and with the same tables, the second seed files exactly the document of the
    first, and names no indicator the first did not. *)
Theorem sdr_reseeding_is_stable t sid st :
  (forall st, writable st sid "sdr" = true -> is_Some (systems st sid)) -> tables_wf t -> writable st sid "sdr" = true ->
  exists r1 st1 r2 st2, seed_sdr systems t sid st = Ok (r1, st1) /\ seed_sdr systems t sid st1 = Ok (r2, st2) /\
    dc_document (sdr_document r2) = dc_document (sdr_document r1) /\
    controls_missing_description r2 = controls_missing_description r1 /\ ssp_project_id r2 = ssp_project_id r1 /\
    forall i, i ∈ omitted_ksi_ids r2 -> i ∈ omitted_ksi_ids r1.
Proof.
  intros Hsys Hw Hwr. destruct (seed_sdr_ok systems t sid Hsys st Hw Hwr) as (r1 & st1 & E1 & D1 & At1 & Wr1 & P1 & _ & M1 & _ & O1 & _).
  destruct (seed_sdr_ok systems t sid Hsys st1 Hw Wr1) as (r2 & st2 & E2 & D2 & _ & _ & P2 & _ & M2 & _ & O2 & _). cbv zeta in *.
  set (current := stored_obj (doc_at st sid "sdr" None)) in *. rewrite At1 in *. cbn [stored_obj default from_option id] in *.
  set (doc := seeded_document t sid current) in *. destruct (seeded_get t sid current) as (G1 & G2 & G3). fold doc in G1, G2, G3.
  assert (seeded_authored doc = merged_again (seeded_authored current) (derived_of t sid)) as Ea.
  { unfold seeded_authored at 1, stored_list. rewrite (vget_of _ _ _ G2), dicts_of_map. done. }
  assert (seeded_indicators t sid doc = seeded_indicators t sid current) as Ei.
  { unfold seeded_indicators, seeded_ids. rewrite Ea. apply merge_again. intros i d. apply derived_ok. }
  exists r1, st1, r2, st2. split; [done|]. split; [done|]. rewrite D1, D2, M1, M2, P1, P2. split; [|split; [done|split; [done|]]].
  - unfold seeded_document at 1. rewrite Ei. unfold seeded_requirements at 1, stored_list. rewrite (vget_of _ _ _ G3).
    unfold seeded_requirements at 1. rewrite requirements_again. rewrite (dset_same "securityControls") by (rewrite G1, map_map; done).
    rewrite (dset_same "keySecurityIndicators") by done. by apply dset_same.
  - rewrite O1, O2, Ea. intros i. rewrite !list_elem_of_In, !filter_In, <-!list_elem_of_In, !all_ids_elem, narrated_again.
    intros [Hin Hn]. split; [|done]. destruct Hin as [[e He]|?]; [|by right]. rewrite kept_again in He. destruct (narrated_id _ i); [done|done].
Qed.

(** C36: the last narrative under each id is kept. The indicators come sorted, each id
    once; every usable id - a text that is not empty - with a stored narrative is there, with
    the last one written under it and every other field of that entry; every other usable
    id, stored or of the catalog, is named. Earlier narratives under the same id, and those
    of entries without a usable id, are neither kept nor named. An
    indicator of the catalog takes its five derived fields from the facts of today,
    its validation being that of the latest run; one the catalog does not know
    keeps the arrays and the status it had, where they are valid. *)
Theorem sdr_keeps_the_last_narrative t sid st :
  (forall st, writable st sid "sdr" = true -> is_Some (systems st sid)) -> tables_wf t -> writable st sid "sdr" = true ->
  let current := stored_obj (doc_at st sid "sdr" None) in
  let authored := dicts_of (stored_list "keySecurityIndicators" current) in
  let catalog := map sk_identifier (sd_ksis t) in
  exists r st' ids indicators, seed_sdr systems t sid st = Ok (r, st') /\
    dget "keySecurityIndicators" (dc_document (sdr_document r)) = Some (VList (map VDict indicators)) /\
    StronglySorted str_le ids /\ NoDup ids /\
    (forall e i, e ∈ authored -> has_id i e = true -> i <> "" -> narrated e = true -> i ∈ ids) /\
    (forall i, i ∈ omitted_ksi_ids r <-> i ∉ ids /\ (i ∈ catalog \/ i <> "" /\ exists e, e ∈ authored /\ has_id i e = true)) /\
    Forall2 (fun i o => vget "ksiId" o = VStr i /\
      exists e, e ∈ authored /\ has_id i e = true /\ last (List.filter narrated (entries_of i authored)) = Some e /\
        vget "ksiImplementation" o = vget "ksiImplementation" e /\
        (forall n, n ∉ "ksiId" :: "ksiImplementation" :: DERIVED_INDICATOR_FIELDS -> dget n o = dget n e) /\
        (forall k, k ∈ sd_ksis t -> sk_identifier k = i ->
           (forall n, n ∈ DERIVED_INDICATOR_FIELDS -> dget n o = dget n (facts_of t sid k)) /\
           forall run, run ∈ sd_runs t -> sr_system_id run = sid -> sr_ksi_id run = sk_id k ->
             (forall run', run' ∈ sd_runs t -> sr_system_id run' = sid -> sr_ksi_id run' = sk_id k -> row_le sr_validated_at sr_id run' run = true) ->
             dget "ksiValidation" o = Some (VList (validation_statements (Some run)))) /\
        (i ∉ catalog ->
           (forall n, n ∈ REQUIRED_ARRAY_FIELDS -> dget n o = Some (match vget n e with VList l => VList l | _ => VList [] end)) /\
           dget "ksiImplementationStatus" o = kept_status (dget "ksiImplementationStatus" e)))
      ids indicators.
Proof.
  intros Hsys Hw Hwr. cbv zeta. set (current := stored_obj _).
  destruct (seed_sdr_ok systems t sid Hsys st Hw Hwr) as (r & st' & E & Ed & _ & _ & _ & _ & _ & _ & Eo & _). cbv zeta in *. fold current in Ed, Eo.
  fold (seeded_authored current). set (authored := seeded_authored current) in *.
  exists r, st', (seeded_ids t sid current), (seeded_indicators t sid current). rewrite Ed.
  split; [exact E|]. split; [by apply seeded_get|]. unfold seeded_ids. fold authored.
  split; [eapply StronglySorted_sublist; [apply bool_filter_sublist|apply sorted_strs_sorted]|].
  split; [eapply sublist_NoDup; [apply sorted_set_NoDup|apply bool_filter_sublist]|].
  split; [|split].
  - intros e i He Hi Hne Hn. apply narrated_ids_elem. by eapply narrated_id_intro.
  - intros i. rewrite Eo, narrated_ids_elem, list_elem_of_In, filter_In, <-list_elem_of_In, all_ids_elem, derived_keys, negb_true_iff, not_true_iff_false.
    rewrite kept_entry_some. tauto.
  - unfold seeded_indicators, seeded_ids. fold authored. apply Forall2_fmap_r, Forall_Forall2_diag, Forall_forall. intros i Hi%narrated_ids_elem.
    unfold compose. split; [apply indicator_id|]. by apply indicator_spec.
Qed.

(** every stored requirement is kept or named. The entries come sorted by id. An
    entry with an id and a statement is rendered with its cleaned fields and every
    repair that loses content is noted - with no note, nothing was lost; any other
    entry is named by its id or its position. Distinct notes for a repeated id aside,
    merging what was merged changes nothing. *)
Theorem requirements_are_kept_or_named authored :
  let entries := (merge_requirements authored).1 in
  let notes := (merge_requirements authored).2 in
  exists rows, entries = map snd rows /\ StronglySorted (fun a b => str_leb a.1 b.1 = true) rows /\
    Forall (fun r => requirement_ok r.1 r.2) rows /\
    List.length rows = List.length (omap renderable authored) /\
    (forall k v, authored !! k = Some v ->
       match renderable v with
       | Some (i, e, l) =>
           (exists out, (i, out) ∈ rows /\ (forall n, dget n out = requirement_value i e l n) /\
              (requirement_notes i e l = [] -> forall f xs x, f ∈ "frrImplementation" :: REPAIRED_ARRAYS ->
                 dget f e = Some (VList xs) -> x ∈ xs -> is_blank x = false -> exists ys, dget f out = Some (VList ys) /\ x ∈ ys) /\
              (requirement_notes i e l = [] -> dget "frrImplementationStatus" out = dget "frrImplementationStatus" e)) /\
           forall x, x ∈ requirement_notes i e l -> x ∈ notes
       | None => exists who why, (who, why) ∈ notes /\ why ∈ OMISSIONS /\
           (who = ("fedRampRequirements[" +:+ pretty (Z.of_nat k) +:+ "]")%string \/
            exists e raw, v = VDict e /\ vget "frrID" e = VStr raw /\ who = strip raw)
       end) /\
    ((forall i, (i, DUPLICATE) ∉ notes) -> NoDup (map fst rows)) /\
    (merge_requirements (map VDict entries)).1 = entries /\
    (forall x, x ∈ (merge_requirements (map VDict entries)).2 -> x.2 = DUPLICATE).
Proof.
  cbv zeta. destruct (merged_requirements_rows authored) as (rows & E & Hp & Hs). exists rows.
  split; [exact E|]. split; [exact Hs|]. split; [by eapply rows_ok|]. split; [by rewrite Hp, kept_length|].
  split; [|split; [|split; [apply requirements_again|]]].
  - intros k v Hk. pose proof (requirement_notes_spec authored) as [Hnotes _].
    assert ((Z.of_nat k, v) ∈ indexed authored) as Hin by (by apply indexed_elem).
    destruct (renderable v) as [[[i e] l]|] eqn:Er.
    + destruct (repair_rendered (Z.of_nat k) v i e l Er) as (out & Eq & Hv). split.
      * exists out. split; [|split; [exact Hv|by eapply silent_repair]]. rewrite Hp. apply list_elem_of_omap. exists (Z.of_nat k, v).
        split; [done|]. unfold kept_requirement. cbn [fst snd]. by rewrite Eq.
      * intros x Hx. eapply Hnotes; [exact Hin|]. cbn [fst snd]. by rewrite Eq.
    + destruct (repair_omitted (Z.of_nat k) v Er) as (_ & who & why & Hx & Hwhy & Hwho). exists who, why. split; [|done]. by eapply Hnotes.
  - intros Hd. apply NoDup_Permutation_proper with (map fst (omap kept_requirement (indexed authored))); [by rewrite Hp|].
    pose proof (requirement_notes_spec authored) as [_ Hdup]. apply nodup_by_split. intros i k1 k2 Ek Hi. by eapply (Hd i), Hdup.
  - apply again_notes.
Qed.
End decision_record.

(** ** A worked example *)

Definition demo_sdr : json_obj :=
  [("keySecurityIndicators", VList [
      VDict [("ksiId", VStr "KSI-IAM-01"); ("ksiImplementation", VList [VStr "Phishing-resistant MFA everywhere."])];
      VDict [("ksiId", VStr "KSI-OLD-09"); ("ksiImplementation", VList [VStr "Retired indicator."]); ("ksiTests", VNone);
             ("ksiImplementationStatus", VStr "")];
      VDict [("ksiId", VStr "KSI-IAM-01"); ("ksiImplementation", VList [])]]);
   ("fedRampRequirements", VList [
      VDict [("frrID", VStr " FRR-2 "); ("frrImplementation", VList [VStr "Reviewed monthly."; VStr " "; VInt 42])];
      VStr "stray";
      VDict [("frrID", VStr "FRR-1"); ("frrImplementation", VList [VStr "Done."]); ("frrImplementationStatus", VStr "Yes")]])].

Definition demo_record : CrDb :=
  {| cr_systems := cr_systems demo_store;
     cr_documents := [{| dc_id := 1; dc_system_id := 1; dc_kind := "sdr"; dc_document_key := None; dc_organization_id := Some 5;
                         dc_document := demo_sdr; dc_ruleset_version := ""; dc_schema_version := None; dc_is_valid := false;
                         dc_validation_errors := []; dc_updated_by := None |}];
     cr_next_id := 2; cr_events := [] |}.

Definition demo_tables : SdrTables :=
  {| sd_projects := [{| pj_id := 3; pj_system_id := Some 1; pj_updated_at := 10 |}; {| pj_id := 4; pj_system_id := Some 1; pj_updated_at := 20 |}];
     sd_entries := [{| en_project_id := 4; en_control_id := "AC-2"; en_implementation_status := [VStr "Implemented"];
                       en_part_narratives := [VDict [("text", VStr "Accounts are reviewed. ")]; VDict [("text", VStr "[DRAFT] Describe the rest.")]];
                       en_odp_values := [("ac-2_prm_1", VInt 30); ("ac-2_prm_2", VNone)]; en_sort_order := 0 |};
                    {| en_project_id := 4; en_control_id := "AC-1"; en_implementation_status := [VStr "Planned"]; en_part_narratives := [];
                       en_odp_values := []; en_sort_order := 0 |}];
     sd_ksis := [{| sk_id := 7; sk_identifier := "KSI-IAM-01"; sk_validation_method := Some "automated"; sk_rule := [("kind", VStr "control_state")] |};
                 {| sk_id := 8; sk_identifier := "KSI-CMT-02"; sk_validation_method := None; sk_rule := [] |}];
     sd_states := [{| ss_system_id := 1; ss_ksi_id := 7; ss_status := "pass" |}];
     sd_runs := [{| sr_id := 1; sr_system_id := 1; sr_ksi_id := 7; sr_status := "fail"; sr_source := None; sr_evidence_refs := []; sr_validated_at := 5 |};
                 {| sr_id := 2; sr_system_id := 1; sr_ksi_id := 7; sr_status := "pass"; sr_source := Some "control_state";
                    sr_evidence_refs := [VStr "AC-2:implemented"]; sr_validated_at := 6 |}];
     sd_reviews := [] |}.

#[local] Instance demo_records : DocStore CrDb := store_instance true demo_schema.

Lemma demo_live st : writable st 1 "sdr" = true -> is_Some (live_system st 1).
Proof. cbn [writable demo_records store_instance]. unfold may_put. destruct (live_system st 1); [by eexists|]. by rewrite andb_false_r. Qed.
Lemma demo_tables_wf : tables_wf demo_tables.
Proof.
  split; [repeat constructor| | |]; apply (bool_decide_unpack (NoDup _)); vm_compute; exact I.
Qed.

Lemma sdr_is_well_shaped_witness :
  exists r st' controls ids indicators requirements, seed_sdr live_system demo_tables 1 demo_record = Ok (r, st') /\
    dget "securityControls" (dc_document (sdr_document r)) = Some (VList (map VDict controls)) /\ Forall control_ok controls /\
    dget "keySecurityIndicators" (dc_document (sdr_document r)) = Some (VList (map VDict indicators)) /\
    Forall2 (fun i o => indicator_ok o /\ dget "ksiId" o = Some (VStr i)) ids indicators /\
    dget "fedRampRequirements" (dc_document (sdr_document r)) = Some (VList (map VDict requirements)) /\
    Forall (fun e => exists i, requirement_ok i e) requirements.
Proof.
  destruct (sdr_is_well_shaped live_system demo_tables 1 demo_record demo_live demo_tables_wf) as (r & st' & controls & ids & indicators & requirements & E & E1 & H1 & E2 & H2 & E3 & H3).
  - reflexivity.
  - exists r, st', controls, ids, indicators, requirements. split; [exact E|]. split; [exact E1|]. split; [exact H1|]. split; [exact E2|].
    split; [|split; [exact E3|exact H3]]. eapply Forall2_impl; [exact H2|]. intros i o (Ho & Hi & _). split; [exact Ho|exact Hi].
Defined.

(** What becomes of stored indicators: a number among the texts of a narrative stays, of
    two narratives under one id the last stays, and one without an id is gone; none of the
    three is named. *)
Definition narratives_of (stored : list pyval) : res (list pyval * list string) :=
  let! kept := merge_indicators (dicts_of stored) [] in Ok (map (fun o => vget "ksiImplementation" o) kept.1, kept.2).
Definition authored_indicator (id : pyval) (narrative : list pyval) : pyval := VDict [("ksiId", id); ("ksiImplementation", VList narrative)].
Example number_in_a_narrative : narratives_of [authored_indicator (VStr "KSI-A") [VStr "text"; VInt 42]] = Ok ([VList [VStr "text"; VInt 42]], []).
Proof. vm_compute. reflexivity. Qed.
Example earlier_narrative_lost :
  narratives_of [authored_indicator (VStr "KSI-A") [VStr "first"]; authored_indicator (VStr "KSI-A") [VStr "second"]] = Ok ([VList [VStr "second"]], []).
Proof. vm_compute. reflexivity. Qed.
Example narrative_without_id_lost : narratives_of [authored_indicator VNone [VStr "written"]] = Ok ([], []).
Proof. vm_compute. reflexivity. Qed.

Lemma sdr_controls_witness :
  exists r st', seed_sdr live_system demo_tables 1 demo_record = Ok (r, st') /\ ssp_project_id r = Some 4 /\
    controls_missing_description r = ["AC-1"] /\ controls_with_dropped_parts r = ["AC-2"].
Proof.
  destruct (sdr_controls_are_what_was_written live_system demo_tables 1 demo_record demo_live demo_tables_wf) as (r & st' & _ & E & _).
  - reflexivity.
  - exists r, st'. split; [exact E|]. vm_compute in E. injection E as <- _. vm_compute. done.
Defined.

Lemma sdr_reseeding_witness :
  exists r1 st1 r2 st2, seed_sdr live_system demo_tables 1 demo_record = Ok (r1, st1) /\ seed_sdr live_system demo_tables 1 st1 = Ok (r2, st2) /\
    dc_document (sdr_document r2) = dc_document (sdr_document r1).
Proof.
  destruct (sdr_reseeding_is_stable live_system demo_tables 1 demo_record demo_live demo_tables_wf) as (r1 & st1 & r2 & st2 & E1 & E2 & Ed & _).
  - reflexivity.
  - exists r1, st1, r2, st2. split; [exact E1|split; [exact E2|exact Ed]].
Defined.

Lemma sdr_narratives_witness :
  exists r st', seed_sdr live_system demo_tables 1 demo_record = Ok (r, st') /\ omitted_ksi_ids r = ["KSI-CMT-02"] /\
    omitted_requirements r = [("FRR-2", DROPPED_STATEMENT); ("fedRampRequirements[1]", "not an object");
                              ("FRR-1", "implementation status dropped: not a schema enum member")].
Proof.
  destruct (sdr_keeps_the_last_narrative live_system demo_tables 1 demo_record demo_live demo_tables_wf) as (r & st' & ids & indicators & E & _).
  - reflexivity.
  - exists r, st'. split; [exact E|]. vm_compute in E. injection E as <- _. vm_compute. done.
Defined.
