(* ===== verification/Enforcement.v ===== *)
(** Closed-loop enforcement ([src/src/ccf/enforcement/]): the provider registry and
    the building of steps (types.py), and the plan lifecycle - plan, approve, apply,
    reverse - with every refusal (service.py).

    The environment a provider changes is a type [E]. A [Provider] is a record of
    operations on it; [lawful] states what the service relies on, through a view of
    the state of each resource: [locate] says which resource a reference names (an
    account can be named by its id or by its principal name), [view] the state it is
    in. EntraAccounts.v models the provider the program ships and proves it lawful.
    The credential cipher is a parameter.
    An operation is given the plan its request has loaded. [reselect] stands for
    the ORM: what the loaded object holds once its row has been selected again
    under a lock - the row, or still what was loaded. Writes set the assigned
    columns of the row. [wstep] is the service under concurrent requests, each
    working on an object its session loaded at any time before; [estep] is the
    service when every request works on the row as it is. An operation is one step
    of either; the steps of two applications are not interleaved. *)

From S2P Require Import ControlTests.
From S2P Require Export Cr26Seed.

Local Open Scope string_scope.
Local Open Scope Z_scope.

(** ** Steps and outcomes *)

Record RemediationStep := {
  rs_resource_id : string; rs_resource_type : string; rs_action : string; rs_description : string;
  rs_current_state : json_obj; rs_target_state : json_obj }.

Definition step_to_dict (s : RemediationStep) : pyval :=
  VDict [("resource_id", VStr (rs_resource_id s)); ("resource_type", VStr (rs_resource_type s));
         ("action", VStr (rs_action s)); ("description", VStr (rs_description s));
         ("current_state", VDict (rs_current_state s)); ("target_state", VDict (rs_target_state s))].

(** [raw.get(...)] on a value that must be an object. *)
Definition as_obj (v : pyval) : res json_obj :=
  match v with VDict d => Ok d | v => Err (AttributeError (type_name v) "get") end.

Definition step_from_dict (raw : pyval) : res RemediationStep :=
  let! d := as_obj raw in
  let text k := py_str (default (VStr "") (dget k d)) in
  let state k := let v := vget k d in to_dict (if truthy v then v else VDict []) in
  let! current := state "current_state" in
  let! target := state "target_state" in
  Ok {| rs_resource_id := text "resource_id"; rs_resource_type := text "resource_type"; rs_action := text "action";
        rs_description := text "description"; rs_current_state := current; rs_target_state := target |}.

Record StepOutcome := { so_resource_id : string; so_status : string; so_detail : string; so_at : option string }.

Definition outcome_to_dict (o : StepOutcome) : pyval :=
  VDict [("resource_id", VStr (so_resource_id o)); ("status", VStr (so_status o)); ("detail", VStr (so_detail o));
         ("at", match so_at o with Some t => VStr t | None => VNone end)].

Definition OUTCOME_STATUSES : list string := ["applied"; "failed"; "skipped"; "uncertain"].

(** [ProviderUnavailableError] *)
Definition ProviderUnavailable (m : string) : exn := Exn "ProviderUnavailableError" m.

(** ** Providers *)

Record Provider (E : Type) := {
  pv_key : string;
  pv_write_credential_type : string;
  pv_required_permissions : list string;
  pv_handled_checks : list string;
  pv_is_write_configured : option json_obj -> bool;
  pv_plan : option json_obj -> list ResourceFinding -> E -> res (list RemediationStep);
  pv_apply : option json_obj -> RemediationStep -> E -> res StepOutcome * E;
  pv_reverse : option json_obj -> RemediationStep -> E -> res StepOutcome * E }.
Arguments pv_key {E}.
Arguments pv_write_credential_type {E}.
Arguments pv_required_permissions {E}.
Arguments pv_handled_checks {E}.
Arguments pv_is_write_configured {E}.
Arguments pv_plan {E}.
Arguments pv_apply {E}.
Arguments pv_reverse {E}.

Section registry.
Context {E : Type}.
Implicit Types registry : list (Provider E).

(** Who claims a check: a later provider's entry overwrites an earlier one's. *)
Definition claimed_checks registry : list (string * string) :=
  foldl (fun d p => foldl (fun d c => dset c (pv_key p) d) d (pv_handled_checks p)) [] registry.

Definition register (provider : Provider E) registry : res (list (Provider E)) :=
  match List.find (fun c => dhas c (claimed_checks registry)) (pv_handled_checks provider) with
  | Some c => Err (ValueError ("check " +:+ repr_str c +:+ " is already handled by provider " +:+
                     repr_str (default "" (dget c (claimed_checks registry)))))
  | None => Ok (registry ++ [provider])%list
  end.

Definition provider_for registry (check_key : string) : option (Provider E) :=
  List.find (fun p => mem check_key (pv_handled_checks p)) registry.

Definition write_credential_keys registry : list string :=
  dkeys (foldl (fun d p => setdefault (pv_write_credential_type p) VNone d) [] registry).

(** ** Building the steps *)

Definition remediable_findings (findings : list ResourceFinding) (only : option (list string)) : list ResourceFinding :=
  let rem := List.filter (fun f => mem (verdict f) REQUIRES_COVER) findings in
  match only with Some wanted => List.filter (fun f => mem (resource_id f) wanted) rem | None => rem end.

Definition over_limit (n max_resources : Z) : string :=
  pretty n +:+ " resources exceeds the enforcement limit of " +:+ pretty max_resources.

Definition has_state (s : RemediationStep) : bool := match rs_current_state s with [] => false | _ => true end.

(** The steps, or the reason there is no plan; other exceptions propagate. *)
Definition build_steps (findings : list ResourceFinding) (plan : list ResourceFinding -> E -> res (list RemediationStep))
    (max_resources : Z) (only : option (list string)) (env : E) : res (list RemediationStep * option string) :=
  let remediable := remediable_findings findings only in
  let n := Z.of_nat (List.length remediable) in
  if max_resources <? n then Ok ([], Some (over_limit n max_resources)) else
  match plan remediable env with
  | Err e =>
      if bool_decide (exn_class e = "ProviderUnavailableError")
      then Ok ([], Some ("could not evaluate remediation candidates: " +:+ exn_msg e)) else Err e
  | Ok planned =>
      let steps := List.filter has_state planned in
      let k := Z.of_nat (List.length steps) in
      match steps with
      | [] => Ok ([], Some "no resources to remediate")
      | _ => if max_resources <? k then Ok ([], Some (over_limit k max_resources)) else Ok (steps, None)
      end
  end.
End registry.

(** ** The plans table *)

Definition PLAN_STATUSES : list string :=
  ["draft"; "pending_approval"; "approved"; "applied"; "failed"; "reversed"; "refused"; "rejected"].

Record RemediationPlan := {
  rp_id : Z; rp_organization_id : Z; rp_system_id : Z; rp_check_key : string; rp_provider_key : string;
  rp_status : string; rp_steps : list pyval; rp_outcomes : list pyval; rp_resource_count : Z;
  rp_refusal_reason : option string; rp_requested_by : option string; rp_approved_by : option string;
  rp_approved_at : option Z; rp_applied_at : option Z; rp_reversed_at : option Z; rp_result_id : option Z }.

(** A [connector_configs] row's bound credential; the rows are kept in id order. *)
Record BoundConnector := { bc_organization_id : option Z; bc_connector_type : string; bc_encrypted_credential : option string }.

(** The tables read and written, the events of the audit trail, the event bus. *)
Record EnfDb := {
  ed_systems : list CrSystem;
  ed_tests : list ControlTest;
  ed_results : list TestResult;
  ed_connectors : list BoundConnector;
  ed_plans : list RemediationPlan;
  ed_next_id : Z;
  ed_audit : list AuditChain.Event;
  ed_bus : ControlTests.Db }.

Definition with_plans (plans : list RemediationPlan) (next_id : Z) (db : EnfDb) : EnfDb :=
  {| ed_systems := ed_systems db; ed_tests := ed_tests db; ed_results := ed_results db; ed_connectors := ed_connectors db;
     ed_plans := plans; ed_next_id := next_id; ed_audit := ed_audit db; ed_bus := ed_bus db |}.
Definition with_events (audit : list AuditChain.Event) (bus : ControlTests.Db) (db : EnfDb) : EnfDb :=
  {| ed_systems := ed_systems db; ed_tests := ed_tests db; ed_results := ed_results db; ed_connectors := ed_connectors db;
     ed_plans := ed_plans db; ed_next_id := ed_next_id db; ed_audit := audit; ed_bus := bus |}.

Definition plan_at (db : EnfDb) (id : Z) : option RemediationPlan := List.find (fun p => rp_id p =? id) (ed_plans db).

(** An UPDATE of the row, and the event that records it. *)
Definition update_plan (id : Z) (f : RemediationPlan -> RemediationPlan) (db : EnfDb) : EnfDb :=
  with_plans (map (fun q => if rp_id q =? id then f q else q) (ed_plans db)) (ed_next_id db) db.
Definition audit (p : RemediationPlan) (actor action : string) (diff : json_obj) (db : EnfDb) : EnfDb :=
  with_events (ed_audit db ++ [{| AuditChain.ev_organization_id := Some (rp_organization_id p); AuditChain.ev_actor := actor;
                                 AuditChain.ev_action := action; AuditChain.ev_entity_type := "remediation_plan";
                                 AuditChain.ev_entity_id := Some (pretty (rp_id p)); AuditChain.ev_diff := VDict diff |}])%list (ed_bus db) db.

Definition new_plan (id org sid : Z) (check_key provider_key actor : string) : RemediationPlan :=
  {| rp_id := id; rp_organization_id := org; rp_system_id := sid; rp_check_key := check_key; rp_provider_key := provider_key;
     rp_status := "draft"; rp_steps := []; rp_outcomes := []; rp_resource_count := 0; rp_refusal_reason := None;
     rp_requested_by := Some actor; rp_approved_by := None; rp_approved_at := None; rp_applied_at := None;
     rp_reversed_at := None; rp_result_id := None |}.
Definition refused_plan (p : RemediationPlan) (reason : string) : RemediationPlan :=
  {| rp_id := rp_id p; rp_organization_id := rp_organization_id p; rp_system_id := rp_system_id p; rp_check_key := rp_check_key p;
     rp_provider_key := rp_provider_key p; rp_status := "refused"; rp_steps := rp_steps p; rp_outcomes := rp_outcomes p;
     rp_resource_count := rp_resource_count p; rp_refusal_reason := Some reason; rp_requested_by := rp_requested_by p;
     rp_approved_by := rp_approved_by p; rp_approved_at := rp_approved_at p; rp_applied_at := rp_applied_at p;
     rp_reversed_at := rp_reversed_at p; rp_result_id := rp_result_id p |}.
Definition set_result (p : RemediationPlan) (result_id : Z) : RemediationPlan :=
  {| rp_id := rp_id p; rp_organization_id := rp_organization_id p; rp_system_id := rp_system_id p; rp_check_key := rp_check_key p;
     rp_provider_key := rp_provider_key p; rp_status := rp_status p; rp_steps := rp_steps p; rp_outcomes := rp_outcomes p;
     rp_resource_count := rp_resource_count p; rp_refusal_reason := rp_refusal_reason p; rp_requested_by := rp_requested_by p;
     rp_approved_by := rp_approved_by p; rp_approved_at := rp_approved_at p; rp_applied_at := rp_applied_at p;
     rp_reversed_at := rp_reversed_at p; rp_result_id := Some result_id |}.
Definition pending_plan (p : RemediationPlan) (steps : list RemediationStep) : RemediationPlan :=
  {| rp_id := rp_id p; rp_organization_id := rp_organization_id p; rp_system_id := rp_system_id p; rp_check_key := rp_check_key p;
     rp_provider_key := rp_provider_key p; rp_status := "pending_approval"; rp_steps := map step_to_dict steps; rp_outcomes := rp_outcomes p;
     rp_resource_count := Z.of_nat (List.length steps); rp_refusal_reason := rp_refusal_reason p; rp_requested_by := rp_requested_by p;
     rp_approved_by := rp_approved_by p; rp_approved_at := rp_approved_at p; rp_applied_at := rp_applied_at p;
     rp_reversed_at := rp_reversed_at p; rp_result_id := rp_result_id p |}.
Definition approved_plan (approver : string) (now : Z) (p : RemediationPlan) : RemediationPlan :=
  {| rp_id := rp_id p; rp_organization_id := rp_organization_id p; rp_system_id := rp_system_id p; rp_check_key := rp_check_key p;
     rp_provider_key := rp_provider_key p; rp_status := "approved"; rp_steps := rp_steps p; rp_outcomes := rp_outcomes p;
     rp_resource_count := rp_resource_count p; rp_refusal_reason := rp_refusal_reason p; rp_requested_by := rp_requested_by p;
     rp_approved_by := Some approver; rp_approved_at := Some now; rp_applied_at := rp_applied_at p;
     rp_reversed_at := rp_reversed_at p; rp_result_id := rp_result_id p |}.
Definition applied_plan (status : string) (outcomes : list pyval) (now : Z) (p : RemediationPlan) : RemediationPlan :=
  {| rp_id := rp_id p; rp_organization_id := rp_organization_id p; rp_system_id := rp_system_id p; rp_check_key := rp_check_key p;
     rp_provider_key := rp_provider_key p; rp_status := status; rp_steps := rp_steps p; rp_outcomes := outcomes;
     rp_resource_count := rp_resource_count p; rp_refusal_reason := rp_refusal_reason p; rp_requested_by := rp_requested_by p;
     rp_approved_by := rp_approved_by p; rp_approved_at := rp_approved_at p; rp_applied_at := Some now;
     rp_reversed_at := rp_reversed_at p; rp_result_id := rp_result_id p |}.
Definition reversed_plan (outcomes : list pyval) (now : Z) (p : RemediationPlan) : RemediationPlan :=
  {| rp_id := rp_id p; rp_organization_id := rp_organization_id p; rp_system_id := rp_system_id p; rp_check_key := rp_check_key p;
     rp_provider_key := rp_provider_key p; rp_status := "reversed"; rp_steps := rp_steps p; rp_outcomes := outcomes;
     rp_resource_count := rp_resource_count p; rp_refusal_reason := rp_refusal_reason p; rp_requested_by := rp_requested_by p;
     rp_approved_by := rp_approved_by p; rp_approved_at := rp_approved_at p; rp_applied_at := rp_applied_at p;
     rp_reversed_at := Some now; rp_result_id := rp_result_id p |}.

(** ** Credentials and findings *)

Definition EnforcementError (m : string) : exn := Exn "EnforcementError" m.

Section service.
Context {E : Type} (registry : list (Provider E)).
(** The cipher and the JSON reader: what a stored bundle decrypts to. *)
Context (open_bundle : string -> res pyval).
(** The ORM: the object loaded, the row selected again, and what the object holds. *)
Context (reselect : RemediationPlan -> RemediationPlan -> RemediationPlan).
(** [enforcement_max_resources] and [enforcement_approval_max_age_hours] *)
Context (setting_max_resources setting_max_age_hours : Z).

Definition resolve_credential (db : EnfDb) (org : option Z) (connector_type : string) : res (option json_obj) :=
  match org with
  | None => Ok None
  | Some _ =>
      match List.find (fun c => bool_decide (bc_organization_id c = org) && bool_decide (bc_connector_type c = connector_type) &&
                                match bc_encrypted_credential c with Some _ => true | None => false end) (ed_connectors db) with
      | Some {| bc_encrypted_credential := Some bundle |} =>
          if negb (str_truthy bundle) then Ok None else
          let! data := open_bundle bundle in
          Ok (match data with VDict d => Some d | _ => None end)
      | _ => Ok None
      end
  end.

(** A provider and the credential it is bound to. *)
Notation Bound := (Provider E * option json_obj)%type.

Definition bind_provider (db : EnfDb) (check_key : string) (org : option Z) : res (option Bound) :=
  match provider_for registry check_key with
  | None => Ok None
  | Some p => let! c := resolve_credential db org (pv_write_credential_type p) in Ok (Some (p, c))
  end.

(** [provider or await _bind_provider(...)] *)
Definition choose (given : option Bound) (db : EnfDb) (check_key : string) (org : option Z) : res Bound :=
  let! chosen := match given with Some b => Ok (Some b) | None => bind_provider db check_key org end in
  match chosen with
  | Some b => Ok b
  | None => Err (EnforcementError ("no remediation provider handles check " +:+ repr_str check_key))
  end.

Definition limit (explicit : option Z) : Z := default setting_max_resources explicit.

Definition latest_findings (db : EnfDb) (system_id : Z) (check_key : string) : option (Z * list ResourceFinding) :=
  let tests := List.filter (fun t => bool_decide (ct_system_id t = Some system_id) && bool_decide (ct_check_key t = Some check_key)) (ed_tests db) in
  match latest_result_ids (map ct_id tests) (ed_results db) with
  | [] => None
  | (_, r) :: _ => Some (r, concat (map tres_findings (List.filter (fun x => tres_id x =? r) (ed_results db))))
  end.

Definition find_system (db : EnfDb) (system_id : Z) : option CrSystem :=
  match List.find (fun s => cs_id s =? system_id) (ed_systems db) with
  | Some s => match cs_deleted_at s with None => Some s | Some _ => None end
  | None => None
  end.

(** ** The lifecycle *)

(** Why a plan is refused once its row exists, or its steps, and the result read. *)
Definition plan_decision (db : EnfDb) (chosen : Bound) (system_id : Z) (check_key : string) (only : option (list string))
    (max_resources : option Z) (env : E) : res (option Z * (list RemediationStep * option string)) :=
  let '(p, cred) := chosen in
  if negb (pv_is_write_configured p cred) then
    Ok (None, ([], Some ("no write credential configured for " +:+ repr_str (pv_write_credential_type p) +:+ "; requires " +:+
                         str_or (join ", " (pv_required_permissions p)) "write scopes")))
  else match latest_findings db system_id check_key with
  | None => Ok (None, ([], Some ("no recorded result for " +:+ repr_str check_key +:+ " on this system; scan before remediating")))
  | Some (result_id, findings) =>
      let! out := build_steps findings (pv_plan p cred) (limit max_resources) only env in
      Ok (Some result_id, out)
  end.

Definition create_plan (system_id : Z) (check_key actor : string) (only : option (list string)) (max_resources : option Z)
    (given : option Bound) (env : E) (db : EnfDb) : res (RemediationPlan * EnfDb) :=
  match find_system db system_id with
  | None => Err (EnforcementError ("unknown system: " +:+ pretty system_id))
  | Some system =>
      let! chosen := choose given db check_key (Some (cs_organization_id system)) in
      let plan := new_plan (ed_next_id db) (cs_organization_id system) system_id check_key (pv_key chosen.1) actor in
      let! out := plan_decision db chosen system_id check_key only max_resources env in
      let plan := match out.1 with Some r => set_result plan r | None => plan end in
      let add p := with_plans (ed_plans db ++ [p])%list (ed_next_id db + 1) db in
      match out.2 with
      | (_, Some reason) =>
          let plan := refused_plan plan reason in
          Ok (plan, audit plan actor "create" [("event", VStr "refused"); ("check_key", VStr check_key); ("reason", VStr reason)] (add plan))
      | (steps, None) =>
          let plan := pending_plan plan steps in
          Ok (plan, audit plan actor "create"
            [("event", VStr "planned"); ("check_key", VStr check_key); ("provider", VStr (pv_key chosen.1));
             ("resources", VList (map (fun s => VStr (rs_resource_id s)) steps))] (add plan))
      end
  end.

(** [select(...).with_for_update()], on a plan the session has loaded. *)
Definition lock_plan (db : EnfDb) (loaded : RemediationPlan) : res RemediationPlan :=
  match plan_at db (rp_id loaded) with
  | Some row => Ok (reselect loaded row)
  | None => Err (Exn "NoResultFound" "No row was found when one was required")
  end.

Definition approve_plan (plan : RemediationPlan) (approver : string) (now : Z) (db : EnfDb) : res (RemediationPlan * EnfDb) :=
  if bool_decide (rp_status plan <> "pending_approval") then
    Err (EnforcementError ("plan is not awaiting approval (status=" +:+ rp_status plan +:+ ")"))
  else if negb (can_approve (rp_requested_by plan) (Some approver) false) then
    Err (EnforcementError "the requester may not approve their own remediation plan")
  else
    let write := approved_plan approver now in
    Ok (write plan, audit plan approver "update"
      [("event", VStr "approved"); ("approved_by", VStr approver); ("resources", VInt (rp_resource_count plan))]
      (update_plan (rp_id plan) write db)).

(** One operation over every step, in order, whatever each of them does. *)
Fixpoint run_steps (action : RemediationStep -> E -> res StepOutcome * E) (at_ : string) (steps : list RemediationStep) (env : E)
    : list StepOutcome * E :=
  match steps with
  | [] => ([], env)
  | s :: rest =>
      let '(r, env) := action s env in
      let o := match r with
               | Ok o => o
               | Err e => {| so_resource_id := rs_resource_id s; so_status := "failed"; so_detail := str_take 300 (exn_msg e); so_at := None |}
               end in
      let '(outcomes, env) := run_steps action at_ rest env in
      ({| so_resource_id := so_resource_id o; so_status := so_status o; so_detail := so_detail o; so_at := Some at_ |} :: outcomes, env)
  end.

Definition hour_us : Z := 3600 * 1000000.

(** The checks [apply_plan] and [reverse_plan] share. *)
Definition recheck (plan : RemediationPlan) (max_resources : option Z) (given : option Bound) (db : EnfDb) : res Bound :=
  let! chosen := choose given db (rp_check_key plan) (Some (rp_organization_id plan)) in
  if negb (pv_is_write_configured chosen.1 chosen.2) then
    Err (EnforcementError ("no write credential configured for " +:+ repr_str (pv_write_credential_type chosen.1)))
  else if limit max_resources <? rp_resource_count plan then
    Err (EnforcementError (over_limit (rp_resource_count plan) (limit max_resources)))
  else Ok chosen.

Definition approval_is_stale (plan : RemediationPlan) (now : Z) : bool :=
  match rp_approved_at plan with
  | Some at_ => negb (setting_max_age_hours =? 0) && (setting_max_age_hours * hour_us <? now - at_)
  | None => false
  end.

Definition applied_count (outcomes : list StepOutcome) : Z := lcount (fun o => bool_decide (so_status o = "applied")) outcomes.

Definition apply_plan (loaded : RemediationPlan) (actor : string) (max_resources : option Z) (given : option Bound) (now : Z) (s : EnfDb * E)
    : res (RemediationPlan * (EnfDb * E)) :=
  let '(db, env) := s in
  let! plan := lock_plan db loaded in
  if bool_decide (rp_status plan <> "approved") then
    Err (EnforcementError ("plan is not approved (status=" +:+ rp_status plan +:+ ")"))
  else if approval_is_stale plan now then
    Err (EnforcementError ("approval is more than " +:+ pretty setting_max_age_hours +:+
      "h old; the resource set it was reviewed against may be stale -- create and approve a new plan"))
  else
    let! chosen := recheck plan max_resources given db in
    let! steps := res_map step_from_dict (rp_steps plan) in
    let '(outcomes, env) := run_steps (pv_apply chosen.1 chosen.2) (dt_iso now) steps env in
    let write := applied_plan (if 0 <? applied_count outcomes then "applied" else "failed") (map outcome_to_dict outcomes) now in
    let plan := write plan in
    let db := audit plan actor "update"
      [("event", VStr "applied"); ("status", VStr (rp_status plan)); ("outcomes", VList (map outcome_to_dict outcomes))]
      (update_plan (rp_id plan) write db) in
    let summary := "Applied remediation for " +:+ rp_check_key plan +:+ " on system " +:+ pretty (rp_system_id plan) +:+ ": " +:+
      pretty (applied_count outcomes) +:+ " of " +:+ pretty (Z.of_nat (List.length outcomes)) +:+ " resources" in
    let bus := ControlTests.emit "enforced" "remediation_plan" summary (Some (rp_organization_id plan)) (Some actor)
      (Some (pretty (rp_id plan))) (ed_bus db) in
    Ok (plan, (with_events (ed_audit db) bus db, env)).

(** Was the step's outcome one that may have changed the resource? *)
Definition replayed (outcomes : list json_obj) : list pyval :=
  omap (fun o => if py_in (vget "status" o) [VStr "applied"; VStr "uncertain"] then Some (vget "resource_id" o) else None) outcomes.

Definition reverse_plan (loaded : RemediationPlan) (actor : string) (max_resources : option Z) (given : option Bound) (now : Z) (s : EnfDb * E)
    : res (RemediationPlan * (EnfDb * E)) :=
  let '(db, env) := s in
  let! plan := lock_plan db loaded in
  if bool_decide (rp_status plan <> "applied") then
    Err (EnforcementError ("plan is not applied (status=" +:+ rp_status plan +:+ ")"))
  else
    let! chosen := recheck plan max_resources given db in
    let! recorded := res_map as_obj (rp_outcomes plan) in
    let reversible := replayed recorded in
    let! raw := res_map as_obj (rp_steps plan) in
    let! steps := res_map (fun d => step_from_dict (VDict d)) (List.filter (fun d => py_in (vget "resource_id" d) reversible) raw) in
    let '(outcomes, env) := run_steps (pv_reverse chosen.1 chosen.2) (dt_iso now) steps env in
    let write := reversed_plan (rp_outcomes plan ++ map outcome_to_dict outcomes)%list now in
    Ok (write plan, (audit plan actor "update"
      [("event", VStr "reversed"); ("outcomes", VList (map outcome_to_dict outcomes))] (update_plan (rp_id plan) write db), env)).
End service.

(** ** What the code relies on in a provider

    [locate env rid] is the resource a reference names, [view env a] the state of
    one; [planned] says which steps a provider makes. A step's operation changes
    neither what the references name nor any other resource, and reports, as a
    result and never as an exception, what became of its own: applied, it has the
    target state; skipped, the state it had; otherwise one of the two. *)

Section laws.
Context {E R : Type} (locate : E -> string -> R) (view : E -> R -> option json_obj)
  (planned : Provider E -> RemediationStep -> Prop).

Definition resource_effect (target : json_obj) (rid : string) (env : E) (o : StepOutcome) (env' : E) : Prop :=
  let a := locate env rid in
  so_resource_id o = rid /\ so_status o ∈ OUTCOME_STATUSES /\
  (so_status o = "applied" -> view env' a = Some target) /\
  (so_status o = "skipped" -> view env' a = view env a) /\
  (so_status o = "failed" \/ so_status o = "uncertain" -> view env' a = Some target \/ view env' a = view env a).

Definition lawful_action (target : RemediationStep -> json_obj) (s : RemediationStep) (env : E) (out : res StepOutcome * E) : Prop :=
  (forall rid, locate out.2 rid = locate env rid) /\
  (forall a, a <> locate env (rs_resource_id s) -> view out.2 a = view env a) /\
  exists o, out.1 = Ok o /\ resource_effect (target s) (rs_resource_id s) env o out.2.

Record lawful (p : Provider E) : Prop := {
  lw_plan : forall cred findings env, (exists m, pv_plan p cred findings env = Err (ProviderUnavailable m)) \/
    exists steps, pv_plan p cred findings env = Ok steps /\
      Forall (fun s => planned p s /\ rs_resource_id s ∈ map resource_id findings /\
                       (has_state s = true -> view env (locate env (rs_resource_id s)) = Some (rs_current_state s))) steps;
  lw_apply : forall cred s env, planned p s -> lawful_action rs_target_state s env (pv_apply p cred s env);
  lw_reverse : forall cred s env, planned p s -> lawful_action rs_current_state s env (pv_reverse p cred s env) }.
End laws.

(** ** Lemmas *)

Local Open Scope list_scope.

Lemma step_roundtrip s : step_from_dict (step_to_dict s) = Ok s.
Proof. destruct s as [a b c d [|x l] [|y k]]; done. Qed.
Lemma steps_roundtrip ss : res_map step_from_dict (map step_to_dict ss) = Ok ss.
Proof. induction ss as [|s ss IH]; [done|]. cbn [map res_map]. rewrite step_roundtrip. cbn [res_bind]. by rewrite IH. Qed.

Section running.
Context {E R : Type} (locate : E -> string -> R) (view : E -> R -> option json_obj)
  (action : RemediationStep -> E -> res StepOutcome * E) (target : RemediationStep -> json_obj) (at_ : string).
Notation lawful_steps ss := (Forall (fun s => forall env, lawful_action locate view target s env (action s env)) ss).
Notation located env ss := (map (fun s => locate env (rs_resource_id s)) ss).

Lemma run_steps_elsewhere ss env : lawful_steps ss ->
  (forall rid, locate (run_steps action at_ ss env).2 rid = locate env rid) /\
  forall a, a ∉ located env ss -> view (run_steps action at_ ss env).2 a = view env a.
Proof.
  intros Hl. revert env. induction Hl as [|s ss Hs _ IH]; intros env; [done|]. cbn [run_steps map].
  destruct (Hs env) as (Hloc & Ho & _). destruct (action s env) as [r env1]. specialize (IH env1). destruct (run_steps action at_ ss env1) as [os env2].
  cbn [snd] in *. destruct IH as [IHl IHv]. split; [intros rid; by rewrite IHl|]. intros a [Ha Hr]%not_elem_of_cons.
  rewrite IHv; [by apply Ho|]. erewrite map_ext; [exact Hr|]. intros s'. apply Hloc.
Qed.

(** Every step's own resource, when no resource has two steps. *)
Lemma run_steps_effect ss env : lawful_steps ss -> NoDup (located env ss) ->
  Forall2 (fun s o => resource_effect locate view (target s) (rs_resource_id s) env o (run_steps action at_ ss env).2) ss (run_steps action at_ ss env).1.
Proof.
  intros Hl. revert env. induction Hl as [|s ss Hs Hss IH]; intros env Hn; [constructor|]. cbn [map run_steps] in *.
  apply NoDup_cons in Hn as [Hr Hn]. destruct (Hs env) as (Hloc & Ho & o & Eo & He). destruct (action s env) as [r env1]. cbn [fst snd] in *. subst r.
  assert (Em : located env1 ss = located env ss) by (apply map_ext; intros s'; apply Hloc).
  destruct (run_steps_elsewhere ss env1 Hss) as [_ Hkeep]. specialize (Hkeep (locate env (rs_resource_id s))). rewrite Em in Hkeep.
  specialize (IH env1). rewrite Em in IH. specialize (IH Hn). destruct (run_steps action at_ ss env1) as [os env2].
  cbn [fst snd] in *. constructor.
  - destruct He as (H1 & H2 & H3 & H4 & H5). unfold resource_effect. cbn. by rewrite Hkeep.
  - eapply Forall2_impl_in; [exact IH|]. intros s' o' Hin _ H. unfold resource_effect in *. cbv zeta in *. rewrite Hloc in H.
    rewrite (Ho (locate env (rs_resource_id s'))) in H; [done|]. intros E'. apply Hr. rewrite <-E'.
    by apply (list_elem_of_fmap_2 (fun s => locate env (rs_resource_id s))).
Qed.

Lemma run_steps_length ss env : List.length (run_steps action at_ ss env).1 = List.length ss.
Proof.
  revert env. induction ss as [|s ss IH]; intros env; [done|]. cbn [run_steps]. destruct (action s env) as [r env1]. specialize (IH env1).
  destruct (run_steps action at_ ss env1). cbn in *. by rewrite IH.
Qed.
End running.

Lemma applied_count_spec os : (0 <? applied_count os) = existsb (fun o => bool_decide (so_status o = "applied")) os.
Proof.
  unfold applied_count. destruct (existsb _ os) eqn:E.
  - apply Z.ltb_lt. destruct (Z.eq_dec (lcount (fun o => bool_decide (so_status o = "applied")) os) 0) as [Hz|Hz].
    + apply existsb_exists in E as (o & Ho%list_elem_of_In & Eo). pose proof (lcount_zero _ _ Hz o Ho) as H. cbv beta in H. congruence.
    + pose proof (lcount_bounds (fun o => bool_decide (so_status o = "applied")) os). lia.
  - rewrite lcount_none; [done|]. intros o Ho. destruct (bool_decide _) eqn:Eo; [|done]. rewrite <-E. symmetry. apply existsb_exists.
    exists o. split; [by apply list_elem_of_In|done].
Qed.

(** *** The registry *)

Section registry_facts.
Context {E : Type}.
Implicit Types (registry : list (Provider E)) (p q : Provider E).

Lemma claimed_by_one p d c : c ∈ dkeys (foldl (fun d c => dset c (pv_key p) d) d (pv_handled_checks p)) <->
  c ∈ dkeys d \/ c ∈ pv_handled_checks p.
Proof.
  revert d. induction (pv_handled_checks p) as [|x l IH]; intros d; cbn [foldl]; [set_solver|].
  rewrite IH, elem_of_dkeys_dset. set_solver.
Qed.
Lemma claimed_spec registry c : c ∈ dkeys (claimed_checks registry) <-> exists p, p ∈ registry /\ c ∈ pv_handled_checks p.
Proof.
  unfold claimed_checks. induction registry as [|p l IH] using rev_ind; [set_solver|]. rewrite foldl_app. cbn [foldl].
  rewrite claimed_by_one, IH. set_solver.
Qed.

(** No two positions of the registry handle the same check. *)
Definition disjoint registry : Prop :=
  forall i j p q c, registry !! i = Some p -> registry !! j = Some q -> c ∈ pv_handled_checks p -> c ∈ pv_handled_checks q -> i = j.

Inductive registered : list (Provider E) -> Prop :=
| registered_none : registered []
| registered_one p registry registry' : registered registry -> register p registry = Ok registry' -> registered registry'.

Lemma register_ok p registry registry' : register p registry = Ok registry' ->
  registry' = registry ++ [p] /\ forall c q, q ∈ registry -> c ∈ pv_handled_checks q -> c ∉ pv_handled_checks p.
Proof.
  unfold register. destruct (List.find _ _) as [c|] eqn:E1; [done|]. intros [= <-]. split; [done|]. intros c q Hq Hc Hp.
  pose proof (find_none _ _ E1 c) as Hn. cbv beta in Hn. apply list_elem_of_In in Hp. specialize (Hn Hp). unfold dhas in Hn.
  apply mem_false in Hn. apply Hn, claimed_spec. by exists q.
Qed.

Lemma registered_disjoint registry : registered registry -> disjoint registry.
Proof.
  induction 1 as [|p r r' Hr IH E1]; [by intros i j p q c ?|]. apply register_ok in E1 as [-> Hd].
  intros i j x y c Hx Hy Hcx Hcy. apply lookup_app_Some in Hx as [Hx|[Hx Hx']], Hy as [Hy|[Hy Hy']].
  - by eapply IH.
  - apply list_lookup_singleton_Some in Hy' as [Hj <-]. destruct (Hd c x); [by eapply list_elem_of_lookup_2|done..].
  - apply list_lookup_singleton_Some in Hx' as [Hi <-]. destruct (Hd c y); [by eapply list_elem_of_lookup_2|done..].
  - apply list_lookup_singleton_Some in Hx' as [Hi _], Hy' as [Hj _]. lia.
Qed.

(** which provider changes a tenant never depends on the order of registration.
    In a registry built by registering, at most one provider handles a check, the
    lookup finds it wherever it stands, and finds nothing exactly when nobody
    handles the check. A provider claiming a handled check is refused. *)
Theorem one_provider_per_check registry : registered registry ->
  (forall c p, p ∈ registry -> c ∈ pv_handled_checks p -> provider_for registry c = Some p) /\
  (forall c registry' p, registry' ≡ₚ registry -> provider_for registry c = Some p -> provider_for registry' c = Some p) /\
  (forall c, provider_for registry c = None <-> c ∉ dkeys (claimed_checks registry)) /\
  (forall p, is_ok (register p registry) = true <-> forall c, c ∈ pv_handled_checks p -> provider_for registry c = None).
Proof.
  intros Hr. pose proof (registered_disjoint _ Hr) as Hd.
  assert (Hfind : forall r c p, provider_for r c = Some p -> p ∈ r /\ c ∈ pv_handled_checks p).
  { intros r c p H. apply find_some in H as [H1%list_elem_of_In H2%mem_true]. done. }
  assert (Hnone : forall c, provider_for registry c = None <-> c ∉ dkeys (claimed_checks registry)).
  { intros c. rewrite claimed_spec. split.
    - intros H (p & Hp & Hc). pose proof (find_none _ _ H p) as Hn. cbv beta in Hn. apply list_elem_of_In in Hp. specialize (Hn Hp). by apply mem_false in Hn.
    - intros H. destruct (provider_for registry c) as [p|] eqn:E1; [|done]. destruct H. exists p. by apply Hfind. }
  assert (Huniq : forall c p, p ∈ registry -> c ∈ pv_handled_checks p -> forall q, q ∈ registry -> c ∈ pv_handled_checks q -> q = p).
  { intros c p Hp Hc q Hq Hcq. apply list_elem_of_lookup in Hp as [i Hi], Hq as [j Hj]. assert (i = j) as -> by by eapply Hd. congruence. }
  assert (Hlook : forall r, (forall x, x ∈ r <-> x ∈ registry) -> forall c p, p ∈ registry -> c ∈ pv_handled_checks p -> provider_for r c = Some p).
  { intros r Heq c p Hp Hc. destruct (provider_for r c) as [q|] eqn:E1.
    - apply Hfind in E1 as [Hq Hcq]. f_equal. eapply Huniq; [exact Hp|exact Hc|by apply Heq|done].
    - exfalso. pose proof (find_none _ _ E1 p) as Hn. cbv beta in Hn. apply Heq, list_elem_of_In in Hp. specialize (Hn Hp). by apply mem_false in Hn. }
  split; [by apply Hlook|]. split; [|split; [done|]].
  - intros c r' p Hp H. apply Hfind in H as [H1 H2]. apply Hlook; [intros x; by rewrite Hp|done..].
  - intros p. unfold register. split.
    + destruct (List.find _ _) as [c|] eqn:E1; [done|]. intros _ c Hc. apply Hnone, mem_false.
      pose proof (find_none _ _ E1 c) as Hn. apply Hn. by apply list_elem_of_In.
    + intros H. destruct (List.find _ _) as [c|] eqn:E1; [|done]. apply find_some in E1 as [H1%list_elem_of_In H2]. apply H, Hnone, mem_false in H1.
      unfold dhas in H2. congruence.
Qed.
End registry_facts.

(** *** The operations *)

(** The events of a plan in the audit trail, in order, and those its status stands for. *)
Definition plan_event (id : Z) (e : AuditChain.Event) : option string :=
  if bool_decide (AuditChain.ev_entity_type e = "remediation_plan" /\ AuditChain.ev_entity_id e = Some (pretty id)) then
    match AuditChain.ev_diff e with VDict d => match vget "event" d with VStr s => Some s | _ => None end | _ => None end
  else None.
Definition plan_events (id : Z) (trail : list AuditChain.Event) : list string := omap (plan_event id) trail.
Definition TRAILS : list (string * list string) :=
  [("refused", ["refused"]); ("pending_approval", ["planned"]); ("approved", ["planned"; "approved"]);
   ("applied", ["planned"; "approved"; "applied"]); ("failed", ["planned"; "approved"; "applied"]);
   ("reversed", ["planned"; "approved"; "applied"; "reversed"])].

Lemma audit_events id p actor action d db : vget "event" d <> VNone -> forall s, vget "event" d = VStr s ->
  plan_events id (ed_audit (audit p actor action d db)) = plan_events id (ed_audit db) ++ (if decide (rp_id p = id) then [s] else []).
Proof.
  intros _ s Hs. unfold plan_events, audit. cbn [ed_audit with_events]. rewrite omap_app. f_equal. cbn. unfold plan_event. cbn.
  destruct (decide (rp_id p = id)) as [->|Hne].
  - rewrite bool_decide_eq_true_2 by done. by rewrite Hs.
  - rewrite bool_decide_eq_false_2; [done|]. intros [_ [= H]]. by apply (inj pretty) in H.
Qed.

(** A row as the lifecycle leaves it. *)
Record plan_ok (p : RemediationPlan) : Prop := {
  po_status : rp_status p ∈ dkeys TRAILS;
  po_refused : rp_status p = "refused" -> rp_steps p = [] /\ is_Some (rp_refusal_reason p);
  po_steps : rp_status p <> "refused" -> exists ss, rp_steps p = map step_to_dict ss /\ ss <> [] /\
    Forall (fun s => has_state s = true) ss /\ rp_resource_count p = Z.of_nat (List.length ss);
  po_approved : rp_status p ∈ ["approved"; "applied"; "failed"; "reversed"] -> is_Some (rp_approved_at p) /\
    exists a, rp_approved_by p = Some a /\ a <> "" /\ rp_requested_by p <> Some a;
  po_idle : rp_status p ∈ ["refused"; "pending_approval"; "approved"] -> rp_outcomes p = [];
  po_outcomes : rp_status p ∈ ["applied"; "failed"] -> exists os, rp_outcomes p = map outcome_to_dict os /\
    List.length os = List.length (rp_steps p) /\ (rp_status p = "applied" <-> 0 < applied_count os) }.

Record db_ok (db : EnfDb) : Prop := {
  dk_plans : Forall plan_ok (ed_plans db);
  dk_ids : NoDup (map rp_id (ed_plans db));
  dk_next : forall p, p ∈ ed_plans db -> rp_id p < ed_next_id db;
  dk_trail : forall p, p ∈ ed_plans db -> dget (rp_status p) TRAILS = Some (plan_events (rp_id p) (ed_audit db));
  dk_fresh : forall id, ed_next_id db <= id -> plan_events id (ed_audit db) = [] }.

Lemma plan_at_elem db p : NoDup (map rp_id (ed_plans db)) -> p ∈ ed_plans db -> plan_at db (rp_id p) = Some p.
Proof.
  intros Hn Hp. unfold plan_at. destruct (List.find _ _) as [q|] eqn:E.
  - apply find_some in E as [Hq%list_elem_of_In H%Z.eqb_eq]. f_equal. by eapply nodup_key_inj.
  - pose proof (find_none _ _ E p) as H. apply list_elem_of_In in Hp. specialize (H Hp). cbn in H. lia.
Qed.

Lemma update_plan_elem id f db q : (forall p, rp_id (f p) = rp_id p) -> q ∈ ed_plans (update_plan id f db) ->
  exists p, p ∈ ed_plans db /\ rp_id p = rp_id q /\ q = (if rp_id p =? id then f p else p).
Proof.
  intros Hf. unfold update_plan. cbn [ed_plans with_plans]. intros (p & -> & Hp)%list_elem_of_fmap. exists p. split; [done|]. split; [|done].
  destruct (rp_id p =? id); [by rewrite Hf|done].
Qed.

Lemma update_plan_ids id f db : (forall p, rp_id (f p) = rp_id p) -> map rp_id (ed_plans (update_plan id f db)) = map rp_id (ed_plans db).
Proof.
  intros Hf. unfold update_plan. cbn [ed_plans with_plans]. rewrite map_map. apply map_ext. intros p. by destruct (rp_id p =? id); [rewrite Hf|].
Qed.

(** One row is rewritten and its event appended: the invariant moves with it. *)
Lemma db_ok_update db p f actor d s : db_ok db -> p ∈ ed_plans db -> (forall q, rp_id (f q) = rp_id q) -> plan_ok (f p) ->
  vget "event" d = VStr s -> dget (rp_status (f p)) TRAILS = Some (default [] (dget (rp_status p) TRAILS) ++ [s]) ->
  db_ok (audit (f p) actor "update" d (update_plan (rp_id p) f db)).
Proof.
  intros [H1 H2 H3 H4 H5] Hp Hf Hok Hs Ht. assert (Hrow : forall q, q ∈ ed_plans (update_plan (rp_id p) f db) ->
    q = f p \/ q ∈ ed_plans db /\ rp_id q <> rp_id p).
  { intros q (q0 & Hq0 & E & ->)%update_plan_elem; [|done]. destruct (Z.eqb_spec (rp_id q0) (rp_id p)) as [E'|E'].
    - left. f_equal. by eapply nodup_key_inj.
    - right. done. }
  split.
  - change (Forall plan_ok (ed_plans (update_plan (rp_id p) f db))). apply Forall_forall. intros q [->|[Hq _]]%Hrow; [done|].
    by eapply Forall_forall in Hq; [|exact H1].
  - change (NoDup (map rp_id (ed_plans (update_plan (rp_id p) f db)))). by rewrite update_plan_ids.
  - change (forall q, q ∈ ed_plans (update_plan (rp_id p) f db) -> rp_id q < ed_next_id db). intros q [->|[Hq _]]%Hrow; [rewrite Hf|]; by apply H3.
  - change (forall q, q ∈ ed_plans (update_plan (rp_id p) f db) -> dget (rp_status q) TRAILS = Some (plan_events (rp_id q)
      (ed_audit (audit (f p) actor "update" d (update_plan (rp_id p) f db))))). intros q Hq.
    rewrite (audit_events _ _ _ _ _ _ ltac:(by rewrite Hs) s Hs), Hf. cbn [ed_audit update_plan with_plans].
    apply Hrow in Hq as [->|[Hq Hne]].
    + rewrite Hf, decide_True, Ht by done. pose proof (H4 p Hp) as ->. done.
    + rewrite decide_False, app_nil_r by congruence. by apply H4.
  - intros id Hid. change (ed_next_id db <= id) in Hid. rewrite (audit_events _ _ _ _ _ _ ltac:(by rewrite Hs) s Hs), Hf.
    cbn [ed_audit update_plan with_plans]. specialize (H3 p Hp). rewrite decide_False, app_nil_r by lia. by apply H5.
Qed.

Lemma db_ok_add db p actor d s : db_ok db -> rp_id p = ed_next_id db -> plan_ok p ->
  vget "event" d = VStr s -> dget (rp_status p) TRAILS = Some [s] ->
  db_ok (audit p actor "create" d (with_plans (ed_plans db ++ [p]) (ed_next_id db + 1) db)).
Proof.
  intros [H1 H2 H3 H4 H5] Hid Hok Hs Ht. split.
  - change (Forall plan_ok (ed_plans db ++ [p])). apply Forall_app. split; [done|]. by constructor.
  - change (NoDup (map rp_id (ed_plans db ++ [p]))). rewrite map_app. apply NoDup_app. split; [done|]. split; [|apply NoDup_singleton].
    intros i (q & -> & Hq)%list_elem_of_fmap Hi%list_elem_of_singleton. specialize (H3 q Hq). lia.
  - change (forall q, q ∈ ed_plans db ++ [p] -> rp_id q < ed_next_id db + 1). intros q [Hq|Hq%list_elem_of_singleton]%elem_of_app.
    + specialize (H3 q Hq). lia.
    + subst. lia.
  - intros q Hq. change (q ∈ ed_plans db ++ [p]) in Hq. rewrite (audit_events _ _ _ _ _ _ ltac:(by rewrite Hs) s Hs). cbn [ed_audit with_plans].
    apply elem_of_app in Hq as [Hq|Hq%list_elem_of_singleton].
    + specialize (H3 q Hq). rewrite decide_False, app_nil_r by lia. by apply H4.
    + subst. rewrite decide_True, H5 by (done || lia). done.
  - intros id Hlt. change (ed_next_id db + 1 <= id) in Hlt. rewrite (audit_events _ _ _ _ _ _ ltac:(by rewrite Hs) s Hs).
    cbn [ed_audit with_plans]. rewrite decide_False, app_nil_r by lia. apply H5. lia.
Qed.

Section lifecycle.
Context {E : Type} (registry : list (Provider E)) (open_bundle : string -> res pyval).
Context (reselect : RemediationPlan -> RemediationPlan -> RemediationPlan) (max_resources max_age_hours : Z).
Notation create_plan := (create_plan registry open_bundle max_resources).
Notation apply_plan := (apply_plan registry open_bundle reselect max_resources max_age_hours).
Notation reverse_plan := (reverse_plan registry open_bundle reselect max_resources).
Notation recheck := (recheck registry open_bundle max_resources).

Lemma recheck_spec p m given db b : recheck p m given db = Ok b ->
  choose registry open_bundle given db (rp_check_key p) (Some (rp_organization_id p)) = Ok b /\
  pv_is_write_configured b.1 b.2 = true /\ rp_resource_count p <= limit max_resources m.
Proof.
  unfold Enforcement.recheck. destruct (choose _ _ _ _ _ _) as [c|]; [|done]. cbn [res_bind].
  destruct (pv_is_write_configured c.1 c.2) eqn:Ec; [|done]. cbn [negb]. destruct (limit max_resources m <? rp_resource_count p) eqn:El; [done|].
  intros [= <-]. split; [done|]. split; [done|]. lia.
Qed.

Lemma apply_plan_spec loaded actor m given now db env p db' env' :
  apply_plan loaded actor m given now (db, env) = Ok (p, (db', env')) ->
  exists row steps b, let plan := reselect loaded row in let out := run_steps (pv_apply b.1 b.2) (dt_iso now) steps env in
    let status := if 0 <? applied_count out.1 then "applied" else "failed" in
    plan_at db (rp_id loaded) = Some row /\ rp_status plan = "approved" /\ approval_is_stale max_age_hours plan now = false /\
    recheck plan m given db = Ok b /\ res_map step_from_dict (rp_steps plan) = Ok steps /\ env' = out.2 /\
    p = applied_plan status (map outcome_to_dict out.1) now plan /\ exists bus,
    let written := audit p actor "update" [("event", VStr "applied"); ("status", VStr status); ("outcomes", VList (map outcome_to_dict out.1))]
                     (update_plan (rp_id plan) (applied_plan status (map outcome_to_dict out.1) now) db) in
    db' = with_events (ed_audit written) bus written.
Proof.
  unfold Enforcement.apply_plan, lock_plan. destruct (plan_at db (rp_id loaded)) as [row|] eqn:Er; [|done]. cbn [res_bind].
  case_bool_decide as Hs; [done|]. destruct (approval_is_stale _ _ _) eqn:Ea; [done|]. destruct (recheck _ m given db) as [b|] eqn:Eb; [|done]. cbn [res_bind].
  destruct (res_map step_from_dict _) as [steps|] eqn:Es; [|done]. cbn [res_bind]. destruct (run_steps _ _ steps env) as [os env2] eqn:Eo.
  intros [= <- <- <-]. exists row, steps, b. cbv zeta. rewrite Eo. cbn [fst snd].
  repeat (split; [done|]). eexists. reflexivity.
Qed.

Lemma reverse_plan_spec loaded actor m given now db env p db' env' :
  reverse_plan loaded actor m given now (db, env) = Ok (p, (db', env')) ->
  exists row recorded raw steps b, let plan := reselect loaded row in let out := run_steps (pv_reverse b.1 b.2) (dt_iso now) steps env in
    plan_at db (rp_id loaded) = Some row /\ rp_status plan = "applied" /\ recheck plan m given db = Ok b /\
    res_map as_obj (rp_outcomes plan) = Ok recorded /\ res_map as_obj (rp_steps plan) = Ok raw /\
    res_map (fun d => step_from_dict (VDict d)) (List.filter (fun d => py_in (vget "resource_id" d) (replayed recorded)) raw) = Ok steps /\
    env' = out.2 /\ p = reversed_plan (rp_outcomes plan ++ map outcome_to_dict out.1) now plan /\
    db' = audit p actor "update" [("event", VStr "reversed"); ("outcomes", VList (map outcome_to_dict out.1))]
            (update_plan (rp_id plan) (reversed_plan (rp_outcomes plan ++ map outcome_to_dict out.1) now) db).
Proof.
  unfold Enforcement.reverse_plan, lock_plan. destruct (plan_at db (rp_id loaded)) as [row|] eqn:Er; [|done]. cbn [res_bind].
  case_bool_decide as Hs; [done|]. destruct (recheck _ m given db) as [b|] eqn:Eb; [|done]. cbn [res_bind].
  destruct (res_map as_obj (rp_outcomes _)) as [recorded|] eqn:Ero; [|done]. cbn [res_bind].
  destruct (res_map as_obj (rp_steps _)) as [raw|] eqn:Era; [|done]. cbn [res_bind].
  destruct (res_map _ (List.filter _ raw)) as [steps|] eqn:Es; [|done]. cbn [res_bind]. destruct (run_steps _ _ steps env) as [os env2] eqn:Eo.
  intros [= <- <- <-]. exists row, recorded, raw, steps, b. cbv zeta. rewrite Eo. cbn [fst snd]. done.
Qed.

(** The service, one request at a time: each loads the row it works on. Anything
    else may happen in between to the other tables and to the environment. *)
Inductive estep : EnfDb * E -> EnfDb * E -> Prop :=
| es_create sid check actor only m db env p db' :
    create_plan sid check actor only m None env db = Ok (p, db') -> estep (db, env) (db', env)
| es_approve loaded approver now db env p db' :
    loaded ∈ ed_plans db -> approve_plan loaded approver now db = Ok (p, db') -> estep (db, env) (db', env)
| es_apply loaded actor m now db env p db' env' :
    loaded ∈ ed_plans db -> apply_plan loaded actor m None now (db, env) = Ok (p, (db', env')) -> estep (db, env) (db', env')
| es_reverse loaded actor m now db env p db' env' :
    loaded ∈ ed_plans db -> reverse_plan loaded actor m None now (db, env) = Ok (p, (db', env')) -> estep (db, env) (db', env')
| es_other db env db' env' :
    ed_plans db' = ed_plans db -> ed_next_id db' = ed_next_id db -> ed_audit db' = ed_audit db -> estep (db, env) (db', env').

Inductive reachable : EnfDb * E -> Prop :=
| er_start db env : ed_plans db = [] -> ed_audit db = [] -> reachable (db, env)
| er_step s s' : reachable s -> estep s s' -> reachable s'.

Lemma build_steps_ok findings (plan : list ResourceFinding -> E -> res (list RemediationStep)) m only env steps : build_steps findings plan m only env = Ok (steps, None) ->
  steps <> [] /\ Forall (fun s => has_state s = true) steps /\ Z.of_nat (List.length (remediable_findings findings only)) <= m /\
  Z.of_nat (List.length steps) <= m /\ exists planned, plan (remediable_findings findings only) env = Ok planned /\ steps = List.filter has_state planned.
Proof.
  unfold build_steps. destruct (m <? _) eqn:E1; [done|]. destruct (plan _ env) as [planned|e]; [|by case_bool_decide].
  destruct (List.filter has_state planned) as [|s ss] eqn:Ef; [done|]. destruct (m <? Z.of_nat (List.length (s :: ss))) eqn:E2; [done|].
  intros [= <-]. split; [done|]. split; [|split; [lia|split; [lia|by exists planned]]]. rewrite <-Ef. apply Forall_forall.
  intros x Hx%list_elem_of_In. by apply filter_In in Hx as [_ ?].
Qed.

Lemma create_plan_spec sid check actor only m given env db p db' : create_plan sid check actor only m given env db = Ok (p, db') ->
  exists system b r, find_system db sid = Some system /\
    choose registry open_bundle given db check (Some (cs_organization_id system)) = Ok b /\
    plan_decision max_resources db b sid check only m env = Ok r /\
    let fresh := new_plan (ed_next_id db) (cs_organization_id system) sid check (pv_key b.1) actor in
    let fresh := match r.1 with Some x => set_result fresh x | None => fresh end in
    (exists reason steps d, r.2 = (steps, Some reason) /\ p = refused_plan fresh reason /\ vget "event" d = VStr "refused" /\
       db' = audit p actor "create" d (with_plans (ed_plans db ++ [p]) (ed_next_id db + 1) db)) \/
    (exists steps d, r.2 = (steps, None) /\ p = pending_plan fresh steps /\ vget "event" d = VStr "planned" /\
       db' = audit p actor "create" d (with_plans (ed_plans db ++ [p]) (ed_next_id db + 1) db)).
Proof.
  unfold Enforcement.create_plan. destruct (find_system db sid) as [system|]; [|done]. destruct (choose _ _ _ _ _ _) as [b|] eqn:Eb; [|done]. cbn [res_bind].
  destruct (plan_decision _ _ _ _ _ _ _ _) as [[o [steps [reason|]]]|] eqn:Ed; [| |done]; cbn [res_bind fst snd]; intros [= <- <-];
    exists system, b; eexists; (split; [done|split; [done|split; [exact Ed|]]]); [left|right].
  - exists reason, steps. eexists. do 2 (split; [reflexivity|]). split; [|reflexivity]. done.
  - exists steps. eexists. do 2 (split; [reflexivity|]). split; [|reflexivity]. done.
Qed.

Lemma plan_decision_steps db (b : Provider E * option json_obj) sid check only m env o steps : plan_decision max_resources db b sid check only m env = Ok (o, (steps, None)) ->
  pv_is_write_configured b.1 b.2 = true /\ exists r findings, o = Some r /\ latest_findings db sid check = Some (r, findings) /\
  build_steps findings (pv_plan b.1 b.2) (limit max_resources m) only env = Ok (steps, None).
Proof.
  unfold plan_decision. destruct b as [pv cred]. cbn [fst snd]. destruct (pv_is_write_configured pv cred); [|done]. cbn [negb].
  destruct (latest_findings db sid check) as [[r findings]|]; [|done]. destruct (build_steps _ _ _ _ _) as [out|] eqn:Eb; [|done]. cbn [res_bind].
  intros [= <- ->]. split; [done|]. by exists r, findings.
Qed.

Lemma create_keeps sid check actor only m given env db p db' : db_ok db ->
  create_plan sid check actor only m given env db = Ok (p, db') -> db_ok db'.
Proof.
  intros Hdb (system & b & r & _ & _ & Hr & [(reason & steps & d & _ & -> & Hd & ->)|(steps & d & Hs & -> & Hd & ->)])%create_plan_spec.
  - apply db_ok_add with "refused"; [done|by destruct r.1| |done|by destruct r.1]. destruct r.1; (split; cbn;
      [apply (bool_decide_unpack (_ ∈ _)); vm_compute; exact I|by eauto|done|intros Hin; mem_absurd Hin|done|intros Hin; mem_absurd Hin]).
  - destruct r as [o out]. cbn [fst snd] in *. subst out. apply plan_decision_steps in Hr as (_ & res & findings & -> & _ & Hb).
    apply build_steps_ok in Hb as (Hne & Hst & _). apply db_ok_add with "planned"; [done|done| |done|done]. split; cbn;
      [apply (bool_decide_unpack (_ ∈ _)); vm_compute; exact I|done|by exists steps|intros Hin; mem_absurd Hin|done|intros Hin; mem_absurd Hin].
Qed.

Lemma db_ok_events db bus : db_ok db -> db_ok (with_events (ed_audit db) bus db).
Proof. intros [? ? ? ? ?]. by split. Qed.

Lemma plan_ok_of db p : db_ok db -> p ∈ ed_plans db -> plan_ok p.
Proof. intros H Hp. by eapply Forall_forall in Hp; [|exact (dk_plans _ H)]. Qed.
Lemma loaded_row db p : db_ok db -> p ∈ ed_plans db -> plan_at db (rp_id p) = Some p.
Proof. intros H. apply plan_at_elem, H. Qed.

Ltac closed_mem := apply (bool_decide_unpack (_ ∈ _)); vm_compute; exact I.

Lemma approve_spec p approver now db p' db' : approve_plan p approver now db = Ok (p', db') ->
  rp_status p = "pending_approval" /\ approver <> "" /\ rp_requested_by p <> Some approver /\ p' = approved_plan approver now p /\
  db' = audit p' approver "update" [("event", VStr "approved"); ("approved_by", VStr approver); ("resources", VInt (rp_resource_count p))]
          (update_plan (rp_id p) (approved_plan approver now) db).
Proof.
  unfold approve_plan. case_bool_decide as Hs; [done|]. destruct (can_approve _ _ _) eqn:Ec; [|done]. cbn [negb]. intros [= <- <-].
  unfold can_approve in Ec. apply andb_prop in Ec as [Et En%bool_decide_eq_true]. split; [done|]. split; [by intros ->|]. done.
Qed.

Lemma approve_keeps p approver now db p' db' : db_ok db -> p ∈ ed_plans db -> approve_plan p approver now db = Ok (p', db') -> db_ok db'.
Proof.
  intros Hdb Hp (Hs & Hne & Hr & -> & ->)%approve_spec. destruct (plan_ok_of _ _ Hdb Hp) as [_ _ Hst _ Hi _]. rewrite Hs in Hst, Hi.
  apply db_ok_update with "approved"; try done.
  - split; cbn; [closed_mem|done|intros _; by apply Hst|intros _; split; [by eexists|by exists approver]|intros _; apply Hi; closed_mem|intros Hin; mem_absurd Hin].
  - rewrite Hs. reflexivity.
Qed.

Section serial.
(** A row nobody else has changed since it was loaded is the object loaded. *)
Context (reselect_fresh : forall p, reselect p p = p).

Lemma apply_keeps p actor m given now db env p' db' env' : db_ok db -> p ∈ ed_plans db ->
  apply_plan p actor m given now (db, env) = Ok (p', (db', env')) -> db_ok db'.
Proof.
  intros Hdb Hp (row & steps & b & Hrow & Hs & _ & _ & Hsteps & _ & -> & bus & ->)%apply_plan_spec. cbv zeta. apply db_ok_events.
  rewrite (loaded_row _ _ Hdb Hp) in Hrow. injection Hrow as <-. rewrite reselect_fresh in *.
  destruct (plan_ok_of _ _ Hdb Hp) as [_ _ Hst Ha _ _]. rewrite Hs in Hst, Ha. destruct Hst as (ss & Ess & Hne & Hhs & Hc); [done|].
  rewrite Ess, steps_roundtrip in Hsteps. injection Hsteps as <-. pose proof (run_steps_length (pv_apply b.1 b.2) (dt_iso now) ss env) as Hlen.
  set (os := (run_steps _ _ ss env).1) in *. apply db_ok_update with "applied"; try done.
  - destruct (0 <? applied_count os) eqn:Ec; (split; cbn; [closed_mem|done|intros _; by exists ss|intros _; apply Ha; closed_mem|intros Hin; mem_absurd Hin|]);
      intros _; exists os; (split; [done|]; split; [by rewrite Ess, length_map|]); split; intros; try done; lia.
  - rewrite Hs. by destruct (0 <? applied_count os).
Qed.

Lemma reverse_keeps p actor m given now db env p' db' env' : db_ok db -> p ∈ ed_plans db ->
  reverse_plan p actor m given now (db, env) = Ok (p', (db', env')) -> db_ok db'.
Proof.
  intros Hdb Hp (row & recorded & raw & steps & b & Hrow & Hs & _ & _ & _ & _ & _ & -> & ->)%reverse_plan_spec. cbv zeta.
  rewrite (loaded_row _ _ Hdb Hp) in Hrow. injection Hrow as <-. rewrite reselect_fresh in *.
  destruct (plan_ok_of _ _ Hdb Hp) as [_ _ Hst Ha _ _]. rewrite Hs in Hst, Ha. apply db_ok_update with "reversed"; try done.
  - split; cbn; [closed_mem|done|intros _; by apply Hst|intros _; apply Ha; closed_mem|intros Hin; mem_absurd Hin|intros Hin; mem_absurd Hin].
  - by rewrite Hs.
Qed.

Lemma reachable_ok s : reachable s -> db_ok s.1.
Proof.
  induction 1 as [db env E1 E2|s s' _ IH Hstep].
  - cbn. split; rewrite ?E1, ?E2; try constructor; by intros p ?%not_elem_of_nil.
  - destruct Hstep as [| | | |db env db' env' Ep En Ea]; cbn [fst] in *.
    + by eapply create_keeps.
    + by eapply approve_keeps.
    + by eapply apply_keeps.
    + by eapply reverse_keeps.
    + destruct IH as [K1 K2 K3 K4 K5]. split; rewrite ?Ep, ?En, ?Ea; done.
Qed.

(** a plan follows its lifecycle, and the audit trail tells it. When requests
    work on the row they loaded, in every state the service reaches, every plan has
    a status of the lifecycle; a refused one has a reason and no steps, any other
    the recorded steps, each with the state to go back to; an approved one was
    approved by somebody named other than the requester; outcomes are recorded once
    per step. The events of the plan in the audit trail are exactly those its
    status stands for, in order: no plan is applied or reversed twice. *)
Theorem plans_follow_their_lifecycle db env : reachable (db, env) ->
  NoDup (map rp_id (ed_plans db)) /\
  forall p, p ∈ ed_plans db -> plan_ok p /\ rp_status p ∈ PLAN_STATUSES /\
    dget (rp_status p) TRAILS = Some (plan_events (rp_id p) (ed_audit db)).
Proof.
  intros Hdb%reachable_ok. cbn [fst] in Hdb. split; [apply Hdb|]. intros p Hp. pose proof (plan_ok_of _ _ Hdb Hp) as Hok.
  split; [done|]. split; [|by apply Hdb]. pose proof (po_status _ Hok) as Hs. change (dkeys TRAILS) with
    ["refused"; "pending_approval"; "approved"; "applied"; "failed"; "reversed"] in Hs. unfold PLAN_STATUSES. set_solver.
Qed.
End serial.

Lemma choose_bound db check org (b : Provider E * option json_obj) : choose registry open_bundle None db check org = Ok b ->
  provider_for registry check = Some b.1 /\ resolve_credential open_bundle db org (pv_write_credential_type b.1) = Ok b.2.
Proof.
  unfold choose, bind_provider. cbn [res_bind]. destruct (provider_for registry check) as [pv|]; [|done].
  destruct (resolve_credential _ _ _ _) as [c|] eqn:E1; [|done]. by intros [= <-].
Qed.

Lemma step_dict_inj ss ss' : map step_to_dict ss = map step_to_dict ss' -> ss = ss'.
Proof. intros H%(f_equal (res_map step_from_dict)). rewrite !steps_roundtrip in H. by injection H. Qed.

(** The steps [reverse_plan] replays. *)
Definition may_have_changed (os : list StepOutcome) (s : RemediationStep) : bool :=
  existsb (fun o => bool_decide (so_resource_id o = rs_resource_id s) && mem (so_status o) ["applied"; "uncertain"]) os.

Definition step_obj (s : RemediationStep) : json_obj := match step_to_dict s with VDict d => d | _ => [] end.
Definition outcome_obj (o : StepOutcome) : json_obj := match outcome_to_dict o with VDict d => d | _ => [] end.

Lemma as_obj_map {A} (f : A -> json_obj) l : res_map as_obj (map (fun x => VDict (f x)) l) = Ok (map f l).
Proof. induction l as [|x l IH]; [done|]. cbn [map res_map as_obj res_bind]. by rewrite IH. Qed.

Lemma replayed_spec os : replayed (map outcome_obj os) =
  omap (fun o => if mem (so_status o) ["applied"; "uncertain"] then Some (VStr (so_resource_id o)) else None) os.
Proof.
  unfold replayed. rewrite omap_map_eq. apply omap_ext_in. intros o _. cbn [outcome_obj outcome_to_dict]. change (vget "status" _) with (VStr (so_status o)).
  rewrite !mem_cons, mem_nil. unfold py_in. cbn. done.
Qed.

Lemma py_in_strings s (l : list StepOutcome) : py_in (VStr s) (replayed (map outcome_obj l)) =
  existsb (fun o => bool_decide (so_resource_id o = s) && mem (so_status o) ["applied"; "uncertain"]) l.
Proof.
  rewrite replayed_spec. unfold py_in. induction l as [|o l IH]; [done|]. unfold omap in *. cbn [list_omap existsb].
  destruct (mem (so_status o) _); [|by rewrite andb_false_r]. cbn [existsb]. rewrite IH, andb_true_r. f_equal. cbn.
  by apply bool_decide_ext.
Qed.

Lemma reversible_steps ss os : 
  (let! recorded := res_map as_obj (map outcome_to_dict os) in
   let! raw := res_map as_obj (map step_to_dict ss) in
   res_map (fun d => step_from_dict (VDict d)) (List.filter (fun d => py_in (vget "resource_id" d) (replayed recorded)) raw)) =
  Ok (List.filter (may_have_changed os) ss).
Proof.
  change (map outcome_to_dict os) with (map (fun o => VDict (outcome_obj o)) os). rewrite as_obj_map. cbn [res_bind].
  change (map step_to_dict ss) with (map (fun s => VDict (step_obj s)) ss). rewrite as_obj_map. cbn [res_bind].
  induction ss as [|s ss IH]; [done|]. cbn [map List.filter]. change (vget "resource_id" (step_obj s)) with (VStr (rs_resource_id s)).
  rewrite py_in_strings. fold (may_have_changed os s). destruct (may_have_changed os s); [|exact IH]. cbn [res_map].
  change (VDict (step_obj s)) with (step_to_dict s). rewrite step_roundtrip. cbn [res_bind]. by rewrite IH.
Qed.

Lemma update_plan_at p f db : NoDup (map rp_id (ed_plans db)) -> p ∈ ed_plans db -> (forall q, rp_id (f q) = rp_id q) ->
  plan_at (update_plan (rp_id p) f db) (rp_id p) = Some (f p).
Proof.
  intros Hn Hp Hf. rewrite <-(Hf p) at 2. apply plan_at_elem; [by rewrite update_plan_ids|]. unfold update_plan. cbn [ed_plans with_plans].
  apply list_elem_of_fmap. exists p. by rewrite Z.eqb_refl.
Qed.

Section environment.
Context {R : Type} {R_eq_dec : EqDecision R} (locate : E -> string -> R) (view : E -> R -> option json_obj)
  (planned : Provider E -> RemediationStep -> Prop).
Context (laws : Forall (lawful locate view planned) registry).
Notation located env ss := (map (fun s => locate env (rs_resource_id s)) ss).

Lemma provider_lawful check pv : provider_for registry check = Some pv -> lawful locate view planned pv.
Proof. intros H%find_some. rewrite Forall_forall in laws. apply laws, list_elem_of_In, H. Qed.

Lemma lawful_steps (pv : Provider E) cred ss (op : Provider E -> option json_obj -> RemediationStep -> E -> res StepOutcome * E) target :
  (forall cred s env, planned pv s -> lawful_action locate view target s env (op pv cred s env)) ->
  Forall (planned pv) ss -> Forall (fun s => forall env, lawful_action locate view target s env (op pv cred s env)) ss.
Proof. intros Hop H. eapply Forall_impl; [exact H|]. intros s Hs env. by apply Hop. Qed.

(** *** Concurrent requests

    The plan objects the sessions have loaded, some of them long ago, and the
    tables and the environment. A request works on any of them. Anything else may
    happen in between: to the other tables, to plans that go with their system, and
    to the environment (a request rolled back after its writes is such a step). *)
Notation World := (list RemediationPlan * (EnfDb * E))%type.

Inductive wstep : World -> World -> Prop :=
| ws_load L db env p : p ∈ ed_plans db -> wstep (L, (db, env)) (p :: L, (db, env))
| ws_create L sid check actor only m db env p db' :
    create_plan sid check actor only m None env db = Ok (p, db') -> wstep (L, (db, env)) (p :: L, (db', env))
| ws_approve L loaded approver now db env p db' :
    loaded ∈ L -> approve_plan loaded approver now db = Ok (p, db') -> wstep (L, (db, env)) (p :: L, (db', env))
| ws_apply L loaded actor m now db env p db' env' :
    loaded ∈ L -> apply_plan loaded actor m None now (db, env) = Ok (p, (db', env')) -> wstep (L, (db, env)) (p :: L, (db', env'))
| ws_reverse L loaded actor m now db env p db' env' :
    loaded ∈ L -> reverse_plan loaded actor m None now (db, env) = Ok (p, (db', env')) -> wstep (L, (db, env)) (p :: L, (db', env'))
| ws_other L db env db' env' :
    ed_plans db' `sublist_of` ed_plans db -> ed_next_id db <= ed_next_id db' -> wstep (L, (db, env)) (L, (db', env')).

Inductive wreachable : World -> Prop :=
| wr_start db env : ed_plans db = [] -> wreachable ([], (db, env))
| wr_step w w' : wreachable w -> wstep w w' -> wreachable w'.

(** What no request changes of a stored plan. *)
Definition core (p : RemediationPlan) :=
  (rp_id p, rp_organization_id p, rp_check_key p, rp_steps p, rp_resource_count p, rp_requested_by p).

(** Somebody named other than the requester has approved it. *)
Definition granted (p : RemediationPlan) : Prop :=
  exists approver at_, rp_approved_by p = Some approver /\ rp_approved_at p = Some at_ /\ approver <> "" /\ rp_requested_by p <> Some approver.

(** A plan object, a row or one some session still holds. *)
Record object_ok (p : RemediationPlan) : Prop := {
  oo_granted : rp_status p ∈ ["approved"; "applied"] -> granted p;
  oo_steps : exists ss, rp_steps p = map step_to_dict ss /\ Forall (fun s => has_state s = true) ss /\
    rp_resource_count p = Z.of_nat (List.length ss) /\
    Forall (fun s => forall pv, provider_for registry (rp_check_key p) = Some pv -> planned pv s) ss;
  oo_outcomes : exists os, rp_outcomes p = map outcome_to_dict os }.

Record world_ok (w : World) : Prop := {
  wo_objects : Forall object_ok (w.1 ++ ed_plans w.2.1);
  wo_ids : NoDup (map rp_id (ed_plans w.2.1));
  wo_next : forall p, p ∈ w.1 ++ ed_plans w.2.1 -> rp_id p < ed_next_id w.2.1;
  wo_rows : forall p q, p ∈ w.1 ++ ed_plans w.2.1 -> q ∈ ed_plans w.2.1 -> rp_id p = rp_id q ->
    core p = core q /\ (granted p -> granted q) }.

(** A write to the row of a plan some session holds. *)
Lemma world_update L db env db' env' plan f :
  world_ok (L, (db, env)) -> plan ∈ L ++ ed_plans db ->
  ed_plans db' = map (fun q => if rp_id q =? rp_id plan then f q else q) (ed_plans db) -> ed_next_id db' = ed_next_id db ->
  (forall q, core (f q) = core q) ->
  (forall q, core q = core plan -> object_ok q -> (granted plan -> granted q) ->
     object_ok (f q) /\ (granted (f plan) \/ granted q -> granted (f q))) ->
  world_ok (f plan :: L, (db', env')).
Proof.
  intros [H1 H2 H3 H4] Hp Ep En Hc Hf. cbn [fst snd] in *.
  assert (Hid : forall q, rp_id (f q) = rp_id q) by (intros q; specialize (Hc q); unfold core in Hc; congruence).
  assert (Hrow : forall q, q ∈ ed_plans db' -> exists r, r ∈ ed_plans db /\ core q = core r /\ rp_id q = rp_id r /\
    ((rp_id r = rp_id plan /\ q = f r) \/ (rp_id r <> rp_id plan /\ q = r))).
  { intros q. rewrite Ep. intros (r & -> & Hr)%list_elem_of_fmap. exists r.
    destruct (Z.eqb_spec (rp_id r) (rp_id plan)); (split; [done|]); rewrite ?Hc, ?Hid; auto. }
  assert (Hnd : NoDup (map rp_id (ed_plans db'))).
  { rewrite Ep, map_map. erewrite map_ext; [exact H2|]. intros q. cbv beta. by destruct (rp_id q =? rp_id plan); [rewrite Hid|]. }
  assert (Hplan : object_ok plan) by (by eapply Forall_forall in Hp; [|exact H1]).
  split; cbn [fst snd].
  - cbn [app]. constructor; [by apply Hf|]. rewrite Forall_app in *. split; [apply H1|]. apply Forall_forall.
    intros q (r & Hr & _ & _ & [[E1 ->]|[_ ->]])%Hrow; destruct H1 as [_ H1]; rewrite Forall_forall in H1; [|by apply H1].
    destruct (H4 plan r Hp Hr ltac:(congruence)) as [E2 Hg]. apply Hf; [congruence|by apply H1|done].
  - done.
  - rewrite En. intros q Hq. cbn [app] in Hq. apply elem_of_cons in Hq as [->|[Hq|Hq]%elem_of_app].
    + rewrite Hid. by apply H3.
    + apply H3. set_solver.
    + apply Hrow in Hq as (r & Hr & _ & -> & _). apply H3. set_solver.
  - intros q r' Hq Hr' E1. cbn [app] in Hq.
    assert (q ∈ ed_plans db' -> q = r') as Hsame by (intros Hq'; by eapply nodup_key_inj).
    apply Hrow in Hr' as (r & Hr & Ec & Ei & Hcase).
    apply elem_of_cons in Hq as [->|[Hq|Hq]%elem_of_app].
    + rewrite Hid in E1. destruct (H4 plan r Hp Hr ltac:(congruence)) as [E2 Hg]. rewrite Hc, Ec. split; [done|].
      destruct Hcase as [[_ ->]|[E3 ->]]; [|congruence]. intros Hg'. apply Hf; [done| |done|by left].
      by eapply Forall_forall in H1; [|apply elem_of_app; right; exact Hr].
    + assert (q ∈ L ++ ed_plans db) as Hq' by set_solver. destruct (H4 q r Hq' Hr ltac:(congruence)) as [E2 Hg]. rewrite Ec. split; [done|].
      destruct Hcase as [[E3 ->]|[_ ->]]; [|done]. intros Hg'%Hg. destruct (H4 plan r Hp Hr ltac:(congruence)) as [E4 Hg4].
      apply Hf; [congruence| |done|by right]. by eapply Forall_forall in H1; [|apply elem_of_app; right; exact Hr].
    + by rewrite Hsame.
Qed.

Lemma world_create L db env p actor d : world_ok (L, (db, env)) -> rp_id p = ed_next_id db -> object_ok p ->
  world_ok (p :: L, (audit p actor "create" d (with_plans (ed_plans db ++ [p]) (ed_next_id db + 1) db), env)).
Proof.
  intros [H1 H2 H3 H4] Hid Hok. cbn [fst snd] in *. split; cbn [fst snd ed_plans ed_next_id audit with_events with_plans].
  - cbn [app]. constructor; [done|]. rewrite app_assoc, Forall_app. split; [done|by constructor].
  - rewrite map_app. apply NoDup_app. split; [done|]. split; [|apply NoDup_singleton].
    intros i (q & -> & Hq)%list_elem_of_fmap Hi%list_elem_of_singleton. assert (rp_id q < ed_next_id db) by (apply H3; set_solver). lia.
  - intros q Hq. assert (q = p \/ q ∈ L ++ ed_plans db) as [->|Hq'] by set_solver; [lia|]. apply H3 in Hq'. lia.
  - intros q r Hq Hr E1. assert (Hold : forall x, x ∈ L ++ ed_plans db -> rp_id x <> rp_id p) by (intros x Hx%H3; lia).
    assert (q = p \/ q ∈ L ++ ed_plans db) as [->|Hq'] by set_solver; apply elem_of_app in Hr as [Hr| ->%list_elem_of_singleton]; try done.
    + destruct (Hold r); [set_solver|done].
    + by apply H4.
    + by destruct (Hold q).
Qed.

Context (reselect_one : forall loaded row, reselect loaded row = loaded \/ reselect loaded row = row).
Lemma reselect_same p : reselect p p = p.
Proof. by destruct (reselect_one p p). Qed.

(** The plan an operation works on, and its row. *)
Lemma acted_on L db env loaded row : world_ok (L, (db, env)) -> loaded ∈ L -> plan_at db (rp_id loaded) = Some row ->
  let plan := reselect loaded row in
  (plan = loaded \/ plan = row) /\ plan ∈ L ++ ed_plans db /\ object_ok plan /\ core plan = core row.
Proof.
  intros [H1 H2 H3 H4] Hl Hrow. cbv zeta. cbn [fst snd] in *. apply find_some in Hrow as [Hrow%list_elem_of_In Eid%Z.eqb_eq].
  assert (Hl' : loaded ∈ L ++ ed_plans db) by set_solver. destruct (H4 loaded row Hl' Hrow ltac:(done)) as [Ec _].
  rewrite Forall_forall in H1. split; [apply reselect_one|].
  destruct (reselect_one loaded row) as [->| ->]; (split; [set_solver|split; [apply H1; set_solver|done]]).
Qed.

Lemma world_step w w' : world_ok w -> wstep w w' -> world_ok w'.
Proof.
  intros H. destruct 1 as [L db env p Hp|L sid check actor only m db env p db' Hst|L loaded approver now db env p db' Hl Hst|
    L loaded actor m now db env p db' env' Hl Hst|L loaded actor m now db env p db' env' Hl Hst|L db env db' env' Hs Hn].
  - destruct H as [H1 H2 H3 H4]. cbn [fst snd] in *. assert (Hin : forall q, q ∈ (p :: L) ++ ed_plans db -> q ∈ L ++ ed_plans db) by set_solver.
    split; cbn [fst snd]; [|done|by intros q Hq%Hin; apply H3|by intros q r Hq%Hin; apply H4].
    apply Forall_forall. intros q Hq%Hin. rewrite Forall_forall in H1. by apply H1.
  - apply create_plan_spec in Hst as (system & b & r & _ & Hb & Hr & [(reason & steps & d & _ & -> & _ & ->)|(steps & d & Hs & -> & _ & ->)]).
    + apply world_create; [done|by destruct r.1|]. destruct r.1; (split; cbn; [intros Hin; mem_absurd Hin|by exists []|by exists []]).
    + apply world_create; [done|by destruct r.1|]. destruct r as [o out]. cbn [fst snd] in *. subst out.
      apply plan_decision_steps in Hr as (_ & res & findings & -> & _ & Hbs). apply build_steps_ok in Hbs as (_ & Hhs & _ & _ & made & Em & Es).
      apply choose_bound in Hb as [Hpv _]. split; cbn; [intros Hin; mem_absurd Hin| |by exists []].
      exists steps. split; [done|]. split; [done|]. split; [done|]. apply Forall_forall. intros s Hin pv Hpv'. rewrite Hpv in Hpv'. injection Hpv' as <-.
      rewrite Es in Hin. apply list_elem_of_In, filter_In in Hin as [Hin%list_elem_of_In _].
      destruct (lw_plan _ _ _ _ (provider_lawful _ _ Hpv) b.2 (remediable_findings findings only) env) as [[e He]|(made' & He & Hall)]; [congruence|].
      rewrite Em in He. injection He as <-. rewrite Forall_forall in Hall. by apply Hall.
  - apply approve_spec in Hst as (Hs & Hne & Hr & -> & ->). apply (world_update L db env _ env loaded (approved_plan approver now) H); [set_solver|done..|].
    intros q Ec [_ Hst Hos] _. assert (rp_requested_by q = rp_requested_by loaded) as Eq by (unfold core in Ec; congruence).
    assert (granted (approved_plan approver now q)) as Hg by (exists approver, now; cbn; by rewrite Eq). split; [|done]. by split.
  - apply apply_plan_spec in Hst as (row & steps & b & Hrow & Hs & _ & _ & _ & -> & -> & bus & ->). cbv zeta in *.
    destruct (acted_on _ _ _ _ _ H Hl Hrow) as (_ & Hin & Hok & _). set (plan := reselect loaded row) in *. clearbody plan.
    set (os := (run_steps _ _ steps env).1) in *. set (status := if 0 <? applied_count os then _ else _).
    apply (world_update L db env _ _ plan (applied_plan status (map outcome_to_dict os) now) H Hin); [done..|].
    intros q Ec [_ Hst Hos] Hg. assert (granted plan) as Hgp by (apply Hok; rewrite Hs; closed_mem). specialize (Hg Hgp). split; [|by intros _].
    split; [by intros _|done|by exists os].
  - apply reverse_plan_spec in Hst as (row & recorded & raw & steps & b & Hrow & Hs & _ & _ & _ & _ & -> & -> & ->). cbv zeta in *.
    destruct (acted_on _ _ _ _ _ H Hl Hrow) as (_ & Hin & Hok & _). set (plan := reselect loaded row) in *. clearbody plan.
    set (os := (run_steps _ _ steps env).1) in *. destruct (oo_outcomes _ Hok) as [os0 E0].
    apply (world_update L db env _ _ plan (reversed_plan (rp_outcomes plan ++ map outcome_to_dict os) now) H Hin); [done..|].
    intros q Ec [_ Hst Hos] Hg. assert (granted plan) as Hgp by (apply Hok; rewrite Hs; closed_mem). specialize (Hg Hgp). split; [|by intros _].
    split; [by intros _|done|exists (os0 ++ os); cbn; by rewrite E0, map_app].
  - destruct H as [H1 H2 H3 H4]. cbn [fst snd] in *.
    assert (Hin : forall q, q ∈ ed_plans db' -> q ∈ ed_plans db) by (by intros q Hq; eapply elem_of_sublist).
    assert (Hin' : forall q, q ∈ L ++ ed_plans db' -> q ∈ L ++ ed_plans db) by (intros q; rewrite !elem_of_app; intuition).
    split; cbn [fst snd].
    + apply Forall_forall. intros q Hq%Hin'. rewrite Forall_forall in H1. by apply H1.
    + eapply sublist_NoDup; [exact H2|]. by apply (fmap_sublist rp_id).
    + intros q Hq%Hin'%H3. lia.
    + intros q r Hq%Hin' Hr%Hin. by apply H4.
Qed.

Lemma wreachable_ok w : wreachable w -> world_ok w.
Proof.
  induction 1 as [db env E1|w w' _ IH Hstep]; [|by eapply world_step].
  split; cbn; rewrite E1; [constructor|constructor|by intros ? ?%not_elem_of_nil|by intros ? ? ?%not_elem_of_nil].
Qed.

(** The steps that may have changed their resource are run back: what is not then
    as before was reported, by the replay or as a failure by the application. *)
Lemma replay_restores (pv : Provider E) cred at_ ss env env1 os :
  lawful locate view planned pv -> Forall (planned pv) ss -> NoDup (located env ss) ->
  Forall (fun s => view env (locate env (rs_resource_id s)) = Some (rs_current_state s)) ss ->
  (forall rid, locate env1 rid = locate env rid) -> (forall a, a ∉ located env ss -> view env1 a = view env a) ->
  Forall2 (fun s o => resource_effect locate view (rs_target_state s) (rs_resource_id s) env o env1) ss os ->
  let out := run_steps (pv_reverse pv cred) at_ (List.filter (may_have_changed os) ss) env1 in
  forall a, view out.2 a = view env a \/
    (exists o, o ∈ out.1 /\ locate env (so_resource_id o) = a /\ so_status o <> "applied") \/
    (exists o, o ∈ os /\ locate env (so_resource_id o) = a /\ so_status o = "failed").
Proof.
  intros Hlaw Hpl Hnd Hfresh Hloc Hels Heff. cbv zeta. set (back := List.filter (may_have_changed os) ss).
  assert (Hback : forall s, s ∈ back <-> s ∈ ss /\ may_have_changed os s = true) by (intros s; unfold back; by rewrite !list_elem_of_In, filter_In).
  assert (Em : located env1 back = located env back) by (apply map_ext; intros s; apply Hloc).
  assert (Hlb : Forall (fun s => forall env, lawful_action locate view rs_current_state s env (pv_reverse pv cred s env)) back).
  { apply lawful_steps; [apply Hlaw|]. apply Forall_forall. intros s [Hs _]%Hback. rewrite Forall_forall in Hpl. by apply Hpl. }
  assert (Hndb : NoDup (located env1 back)).
  { rewrite Em. eapply sublist_NoDup; [exact Hnd|]. apply (fmap_sublist (fun s => locate env (rs_resource_id s))), bool_filter_sublist. }
  pose proof (run_steps_effect locate view _ _ at_ back env1 Hlb Hndb) as Heff2.
  destruct (run_steps_elsewhere locate view _ _ at_ back env1 Hlb) as [_ Hels2]. rewrite Em in Hels2.
  set (out := run_steps (pv_reverse pv cred) at_ back env1) in *. intros a. rewrite Forall_forall in Hfresh.
  destruct (decide (a ∈ located env back)) as [Hr|Hr].
  - apply list_elem_of_fmap in Hr as (s & -> & Hsb). pose proof Hsb as [k Hk]%list_elem_of_lookup.
    destruct (Forall2_lookup_l _ _ _ _ _ Heff2 Hk) as (o & Ho & Hid & _ & Happ & _). apply list_elem_of_lookup_2 in Ho. cbv zeta in Happ. rewrite Hloc in Happ.
    destruct (decide (so_status o = "applied")) as [Ho'|Ho']; [left|right; left; exists o; by rewrite Hid].
    rewrite (Happ Ho'). symmetry. by apply Hfresh, Hback.
  - rewrite Hels2 by done. destruct (decide (a ∈ located env ss)) as [Hr'|Hr']; [|left; by apply Hels].
    apply list_elem_of_fmap in Hr' as (s & -> & Hsb). pose proof Hsb as [k Hk]%list_elem_of_lookup.
    destruct (Forall2_lookup_l _ _ _ _ _ Heff Hk) as (o & Ho & Hid & Hst & _ & Hskip & _). apply list_elem_of_lookup_2 in Ho.
    assert (Hm : ~ so_status o ∈ ["applied"; "uncertain"]).
    { intros Hin. apply Hr, (list_elem_of_fmap_2 (fun s => locate env (rs_resource_id s))), Hback. split; [done|]. apply existsb_exists.
      exists o. split; [by apply list_elem_of_In|]. rewrite bool_decide_eq_true_2 by done. by apply mem_true. }
    destruct (decide (so_status o = "failed")) as [Ef|Ef]; [right; right; exists o; by rewrite Hid|left]. apply Hskip.
    unfold OUTCOME_STATUSES in Hst. set_solver.
Qed.

(** C33: nothing is written without an authorisation that still holds. Requests run
    concurrently, each on a plan its session has loaded, maybe long before; the plan
    an operation acts on is that object or the row selected again. Applying goes
    ahead only if that plan is approved, by somebody named other than the requester
    and not too long ago, the check's provider has its own write credential now and
    the plan is within the limit; only the resources of the recorded steps change,
    every step having a state to go back to. Reversing goes ahead only for a plan
    applied, so approved, under the same credential and limit, and only changes
    resources whose step was recorded as one that may have changed them. *)
Theorem writes_are_authorised L db env loaded : wreachable (L, (db, env)) -> loaded ∈ L ->
  (forall actor m now p' db' env', apply_plan loaded actor m None now (db, env) = Ok (p', (db', env')) ->
     exists row plan approver at_ pv cred ss,
       plan_at db (rp_id loaded) = Some row /\ (plan = loaded \/ plan = row) /\ core plan = core row /\
       rp_status plan = "approved" /\ rp_approved_by plan = Some approver /\ rp_approved_at plan = Some at_ /\
       approver <> "" /\ rp_requested_by plan <> Some approver /\ (max_age_hours <> 0 -> now - at_ <= max_age_hours * hour_us) /\
       provider_for registry (rp_check_key plan) = Some pv /\
       resolve_credential open_bundle db (Some (rp_organization_id plan)) (pv_write_credential_type pv) = Ok cred /\
       pv_is_write_configured pv cred = true /\
       rp_steps row = map step_to_dict ss /\ Z.of_nat (List.length ss) <= limit max_resources m /\ Forall (fun s => has_state s = true) ss /\
       forall a, a ∉ located env ss -> view env' a = view env a) /\
  (forall actor m now p' db' env', reverse_plan loaded actor m None now (db, env) = Ok (p', (db', env')) ->
     exists row plan approver pv cred ss os,
       plan_at db (rp_id loaded) = Some row /\ (plan = loaded \/ plan = row) /\ core plan = core row /\
       rp_status plan = "applied" /\ rp_approved_by plan = Some approver /\ approver <> "" /\ rp_requested_by plan <> Some approver /\
       provider_for registry (rp_check_key plan) = Some pv /\
       resolve_credential open_bundle db (Some (rp_organization_id plan)) (pv_write_credential_type pv) = Ok cred /\
       pv_is_write_configured pv cred = true /\
       rp_steps row = map step_to_dict ss /\ Z.of_nat (List.length ss) <= limit max_resources m /\ rp_outcomes plan = map outcome_to_dict os /\
       forall a, view env' a <> view env a -> exists s o, s ∈ ss /\ locate env (rs_resource_id s) = a /\
         o ∈ os /\ so_resource_id o = rs_resource_id s /\ so_status o ∈ ["applied"; "uncertain"]).
Proof.
  intros Hw%wreachable_ok Hl. split; intros actor m now p' db' env' H.
  - apply apply_plan_spec in H as (row & steps & b & Hrow & Hs & Ha & (Hb & Hcfg & Hm)%recheck_spec & Hst & -> & _). cbv zeta in *.
    destruct (acted_on _ _ _ _ _ Hw Hl Hrow) as (Hone & _ & Hok & Ec). set (plan := reselect loaded row) in *. clearbody plan.
    destruct (oo_granted _ Hok) as (a & at_ & Eby & Eat & Hne & Hreq); [rewrite Hs; closed_mem|].
    destruct (oo_steps _ Hok) as (ss & Ess & Hhs & Hcount & Hpl). rewrite Ess, steps_roundtrip in Hst. injection Hst as <-.
    apply choose_bound in Hb as [Hpv Hcred]. exists row, plan, a, at_, b.1, b.2, ss. repeat (split; [done|]).
    split; [|repeat (split; [done|]); split; [unfold core in Ec; congruence|split; [lia|split; [done|]]]].
    + intros Hm0. unfold approval_is_stale in Ha. rewrite Eat in Ha. lia.
    + apply (run_steps_elsewhere locate view _ rs_target_state). apply lawful_steps; [apply (provider_lawful _ _ Hpv)|].
      eapply Forall_impl; [exact Hpl|]. intros s Hs'. by apply Hs'.
  - apply reverse_plan_spec in H as (row & recorded & raw & steps & b & Hrow & Hs & (Hb & Hcfg & Hm)%recheck_spec & Hrec & Hraw & Hst & -> & _).
    cbv zeta in *. destruct (acted_on _ _ _ _ _ Hw Hl Hrow) as (Hone & _ & Hok & Ec). set (plan := reselect loaded row) in *. clearbody plan.
    destruct (oo_granted _ Hok) as (a & at_ & Eby & Eat & Hne & Hreq); [rewrite Hs; closed_mem|].
    destruct (oo_steps _ Hok) as (ss & Ess & _ & Hcount & Hpl). destruct (oo_outcomes _ Hok) as [os Eos].
    pose proof (reversible_steps ss os) as H. rewrite <-Ess, <-Eos, Hrec, Hraw in H. cbn [res_bind] in H. rewrite Hst in H. injection H as ->.
    apply choose_bound in Hb as [Hpv Hcred]. exists row, plan, a, b.1, b.2, ss, os. repeat (split; [done|]).
    split; [unfold core in Ec; congruence|]. split; [lia|]. split; [done|]. intros x Hdiff.
    destruct (decide (x ∈ located env (List.filter (may_have_changed os) ss))) as [Hr|Hr].
    + apply list_elem_of_fmap in Hr as (s & -> & [Hs' Hmay]%list_elem_of_In%filter_In).
      apply existsb_exists in Hmay as (o & Ho & [Hid Hst']%andb_prop). exists s, o. split; [by apply list_elem_of_In|]. split; [done|].
      split; [by apply list_elem_of_In|]. split; [by apply bool_decide_eq_true in Hid|by apply mem_true].
    + destruct Hdiff. revert x Hr. apply (run_steps_elsewhere locate view _ rs_current_state).
      apply lawful_steps; [apply (provider_lawful _ _ Hpv)|]. apply Forall_forall. intros s [Hs' _]%list_elem_of_In%filter_In.
      rewrite Forall_forall in Hpl. by apply Hpl; [apply list_elem_of_In|].
Qed.

(** C34: reversing restores. Applied to the state its plan captured, with one step per
    resource, a plan as its row says records for each step what became of its
    resource, touches nothing else, and counts as applied exactly when some step
    was. Reversed at once, every resource is as it was before, except where the
    reversal itself recorded a step that was not applied or the application had
    recorded a failure (which may hide a change, and is not replayed). *)
Theorem apply_then_reverse_restores L db env p ss actor now p1 db1 env1 : wreachable (L, (db, env)) -> p ∈ ed_plans db ->
  rp_steps p = map step_to_dict ss -> NoDup (located env ss) ->
  Forall (fun s => view env (locate env (rs_resource_id s)) = Some (rs_current_state s)) ss ->
  apply_plan p actor None None now (db, env) = Ok (p1, (db1, env1)) ->
  exists os, rp_outcomes p1 = map outcome_to_dict os /\
    Forall2 (fun s o => resource_effect locate view (rs_target_state s) (rs_resource_id s) env o env1) ss os /\
    (forall a, a ∉ located env ss -> view env1 a = view env a) /\
    (rp_status p1 = "applied" <-> exists o, o ∈ os /\ so_status o = "applied") /\
    forall actor2 now2 p2 db2 env2, reverse_plan p1 actor2 None None now2 (db1, env1) = Ok (p2, (db2, env2)) ->
      exists os2, rp_outcomes p2 = map outcome_to_dict (os ++ os2) /\ rp_status p2 = "reversed" /\
        forall a, view env2 a = view env a \/
          (exists o, o ∈ os2 /\ locate env (so_resource_id o) = a /\ so_status o <> "applied") \/
          (exists o, o ∈ os /\ locate env (so_resource_id o) = a /\ so_status o = "failed").
Proof.
  intros Hw%wreachable_ok Hp Ess Hnd Hfresh Hap.
  assert (Hok : object_ok p) by (destruct Hw as [H1 _ _ _]; cbn in H1; rewrite Forall_forall in H1; apply H1; set_solver).
  apply apply_plan_spec in Hap as (row & steps & b & Hrow & Hs & _ & (Hb & _)%recheck_spec & Hst & E1 & E2 & bus & Edb). cbv zeta in *.
  rewrite (plan_at_elem db p (wo_ids _ Hw) Hp) in Hrow. injection Hrow as <-. rewrite reselect_same in *. rewrite Ess, steps_roundtrip in Hst. injection Hst as <-.
  apply choose_bound in Hb as [Hpv _]. pose proof (provider_lawful _ _ Hpv) as Hlaw.
  assert (Hplanned : Forall (planned b.1) ss).
  { destruct (oo_steps _ Hok) as (ss' & Ess' & _ & _ & Hpl). rewrite Ess in Ess'. apply step_dict_inj in Ess' as <-.
    eapply Forall_impl; [exact Hpl|]. intros s Hs'. by apply Hs'. }
  pose proof (lawful_steps b.1 b.2 ss (@pv_apply E) rs_target_state (lw_apply _ _ _ _ Hlaw) Hplanned) as Hla.
  pose proof (run_steps_effect locate view _ _ (dt_iso now) ss env Hla Hnd) as Heff.
  destruct (run_steps_elsewhere locate view _ _ (dt_iso now) ss env Hla) as [Hloc Hels].
  set (out := run_steps (pv_apply b.1 b.2) (dt_iso now) ss env) in *. exists out.1. rewrite E1. rewrite E2 at 1. split; [done|]. split; [exact Heff|].
  split; [exact Hels|]. split.
  - rewrite E2. cbn [rp_status applied_plan]. rewrite applied_count_spec. destruct (existsb _ out.1) eqn:Eo; (split; [|try done]).
    + intros _. apply existsb_exists in Eo as (o & Ho%list_elem_of_In & Ho'%bool_decide_eq_true). by exists o.
    + done.
    + intros (o & Ho & Ho'). exfalso. rewrite <-not_true_iff_false in Eo. apply Eo, existsb_exists. exists o.
      split; [by apply list_elem_of_In|by apply bool_decide_eq_true].
  - intros actor2 now2 p2 db2 env2 Hrev.
    assert (Hat : plan_at db1 (rp_id p1) = Some p1) by (rewrite Edb, E2; apply (update_plan_at p (applied_plan _ _ _) db); [exact (wo_ids _ Hw)|done|done]).
    apply reverse_plan_spec in Hrev as (row & recorded & raw & steps & b2 & Hrow & Hs2 & (Hb2 & _)%recheck_spec & Hrec & Hraw & Hst & Ee2 & Ep2 & _).
    cbv zeta in *. rewrite Hat in Hrow. injection Hrow as <-. rewrite reselect_same in *.
    assert (Ess1 : rp_steps p1 = map step_to_dict ss) by (rewrite E2; exact Ess).
    assert (Eos1 : rp_outcomes p1 = map outcome_to_dict out.1) by by rewrite E2.
    pose proof (reversible_steps ss out.1) as H. rewrite <-Ess1, <-Eos1, Hrec, Hraw in H. cbn [res_bind] in H. rewrite Hst in H. injection H as ->.
    apply choose_bound in Hb2 as [Hpv2 _]. assert (Eb : b2.1 = b.1) by (rewrite E2 in Hpv2; cbn [rp_check_key applied_plan] in Hpv2; congruence).
    exists (run_steps (pv_reverse b2.1 b2.2) (dt_iso now2) (List.filter (may_have_changed out.1) ss) out.2).1.
    rewrite Ep2. cbn [rp_outcomes rp_status reversed_plan]. rewrite Eos1, map_app. split; [done|]. split; [done|]. rewrite Ee2, Eb.
    by apply (replay_restores b.1 b2.2).
Qed.

(** every plan request for a live system is answered by a stored plan, and a
    change is proposed only when it may be. The plan awaits approval exactly when
    the check's provider has its write credential, a result is recorded, the
    findings to remediate are within the limit and some step can be undone; its
    steps then concern recorded findings that need remedying, among those asked for,
    and hold the state the resource is in. Otherwise it is refused: no steps, and
    the reason that applied first. *)
Theorem plans_are_built_or_refused db env sid check actor only m system pv cred :
  find_system db sid = Some system -> provider_for registry check = Some pv ->
  resolve_credential open_bundle db (Some (cs_organization_id system)) (pv_write_credential_type pv) = Ok cred ->
  exists p d, create_plan sid check actor only m None env db =
      Ok (p, audit p actor "create" d (with_plans (ed_plans db ++ [p]) (ed_next_id db + 1) db)) /\
    rp_id p = ed_next_id db /\ rp_system_id p = sid /\ rp_check_key p = check /\ rp_requested_by p = Some actor /\ rp_approved_by p = None /\
    ((rp_status p = "pending_approval" /\ pv_is_write_configured pv cred = true /\ exists r findings ss,
        latest_findings db sid check = Some (r, findings) /\ rp_result_id p = Some r /\
        Z.of_nat (List.length (remediable_findings findings only)) <= limit max_resources m /\
        rp_steps p = map step_to_dict ss /\ ss <> [] /\ rp_resource_count p = Z.of_nat (List.length ss) /\ rp_resource_count p <= limit max_resources m /\
        Forall (fun s => view env (locate env (rs_resource_id s)) = Some (rs_current_state s) /\ rs_current_state s <> [] /\
          exists f, f ∈ findings /\ resource_id f = rs_resource_id s /\ verdict f ∈ REQUIRES_COVER /\
                    forall wanted, only = Some wanted -> rs_resource_id s ∈ wanted) ss) \/
     (rp_status p = "refused" /\ rp_steps p = [] /\ exists reason, rp_refusal_reason p = Some reason /\
        (if negb (pv_is_write_configured pv cred) then rp_result_id p = None /\
           reason = "no write credential configured for " +:+ repr_str (pv_write_credential_type pv) +:+ "; requires " +:+
                    str_or (join ", " (pv_required_permissions pv)) "write scopes"
         else match latest_findings db sid check with
              | None => rp_result_id p = None /\ reason = "no recorded result for " +:+ repr_str check +:+ " on this system; scan before remediating"
              | Some (r, findings) => rp_result_id p = Some r /\
                  let n := Z.of_nat (List.length (remediable_findings findings only)) in
                  if limit max_resources m <? n then reason = over_limit n (limit max_resources m)
                  else match pv_plan pv cred (remediable_findings findings only) env with
                       | Err e => reason = "could not evaluate remediation candidates: " +:+ exn_msg e
                       | Ok made => let k := Z.of_nat (List.length (List.filter has_state made)) in
                           if k =? 0 then reason = "no resources to remediate" else reason = over_limit k (limit max_resources m)
                       end
              end))).
Proof.
  intros Hsys Hpv Hcred. pose proof (lw_plan _ _ _ _ (provider_lawful _ _ Hpv)) as Hplan. unfold Enforcement.create_plan, choose, bind_provider.
  rewrite Hsys, Hpv. cbn [res_bind]. rewrite Hcred. cbn [res_bind fst snd plan_decision].
  destruct (pv_is_write_configured pv cred); cbn [negb].
  2: { cbn [res_bind fst snd]. eexists _, _. split; [reflexivity|]. cbn. repeat (split; [done|]). right. split; [done|]. split; [done|]. by eexists. }
  destruct (latest_findings db sid check) as [[r findings]|].
  2: { cbn [res_bind fst snd]. eexists _, _. split; [reflexivity|]. cbn. repeat (split; [done|]). right. split; [done|]. split; [done|]. by eexists. }
  unfold build_steps. destruct (limit max_resources m <? _) eqn:El.
  { cbn [res_bind fst snd]. eexists _, _. split; [reflexivity|]. cbn. repeat (split; [done|]). right. split; [done|]. split; [done|]. by eexists. }
  destruct (Hplan cred (remediable_findings findings only) env) as [[e He]|(made & He & Hmade)]; rewrite He.
  { cbn [ProviderUnavailable exn_class exn_msg]. rewrite bool_decide_eq_true_2 by done. cbn [res_bind fst snd]. eexists _, _. split; [reflexivity|].
    cbn. repeat (split; [done|]). right. split; [done|]. split; [done|]. by eexists. }
  destruct (List.filter has_state made) as [|s ss] eqn:Ef.
  { cbn [res_bind fst snd]. eexists _, _. split; [reflexivity|]. cbn. repeat (split; [done|]). right. split; [done|]. split; [done|]. by eexists. }
  destruct (limit max_resources m <? Z.of_nat (List.length (s :: ss))) eqn:Ek; cbn [res_bind fst snd]; eexists _, _; (split; [reflexivity|]).
  { cbn [refused_plan new_plan set_result rp_id rp_system_id rp_check_key rp_requested_by rp_approved_by rp_status rp_steps rp_refusal_reason rp_result_id].
    repeat (split; [done|]). right. split; [done|]. split; [done|]. eexists. split; [reflexivity|]. split; [done|].
    destruct (Z.of_nat (List.length (s :: ss)) =? 0) eqn:Ez; [apply Z.eqb_eq in Ez; cbn [List.length] in Ez; lia|done]. }
  cbn [pending_plan new_plan set_result rp_id rp_system_id rp_check_key rp_requested_by rp_approved_by rp_status rp_steps rp_resource_count rp_result_id].
  repeat (split; [done|]). left. split; [done|]. split; [done|]. exists r, findings, (s :: ss). split; [done|]. split; [done|]. split; [lia|].
  split; [done|]. split; [done|]. split; [done|]. split; [lia|]. rewrite <-Ef. apply Forall_forall. intros x [Hx Hst]%list_elem_of_In%filter_In.
  rewrite Forall_forall in Hmade. destruct (Hmade x) as (_ & Hrid & Hview); [by apply list_elem_of_In|]. split; [by apply Hview|].
  split; [intros E1; unfold has_state in Hst; by rewrite E1 in Hst|].
  apply list_elem_of_fmap in Hrid as (f & Ef' & Hf). unfold remediable_findings in Hf. exists f. rewrite Ef'.
  destruct only as [wanted|]; apply list_elem_of_In in Hf; rewrite ?filter_In in Hf.
  - destruct Hf as [[Hf%list_elem_of_In Hv%mem_true] Hw%mem_true]. repeat (split; [done|]). by intros ? [= <-].
  - destruct Hf as [Hf%list_elem_of_In Hv%mem_true]. done.
Qed.
End environment.

Lemma choose_connectors given db db' check org : ed_connectors db' = ed_connectors db ->
  choose registry open_bundle given db' check org = choose registry open_bundle given db check org.
Proof. intros E1. unfold choose, bind_provider, resolve_credential. by rewrite E1. Qed.

Section second_application.
Context (reselect_fresh : forall p, reselect p p = p).

Lemma apply_fresh_spec p actor m now db env p' db' env' ss : db_ok db -> p ∈ ed_plans db -> rp_steps p = map step_to_dict ss ->
  apply_plan p actor m None now (db, env) = Ok (p', (db', env')) ->
  exists b, let out := run_steps (pv_apply b.1 b.2) (dt_iso now) ss env in
    rp_status p = "approved" /\ approval_is_stale max_age_hours p now = false /\ recheck p m None db = Ok b /\ env' = out.2 /\
    p' = applied_plan (if 0 <? applied_count out.1 then "applied" else "failed") (map outcome_to_dict out.1) now p /\
    p' ∈ ed_plans db'.
Proof.
  intros Hdb Hp Ess (row & steps & b & Hrow & Hs & Ha & Hre & Hst & -> & -> & bus & ->)%apply_plan_spec. cbv zeta in *.
  rewrite (loaded_row _ _ Hdb Hp) in Hrow. injection Hrow as <-. rewrite reselect_fresh in *. rewrite Ess, steps_roundtrip in Hst. injection Hst as <-.
  exists b. repeat (split; [done|]). change (applied_plan (if 0 <? applied_count (run_steps (pv_apply b.1 b.2) (dt_iso now) ss env).1 then "applied" else "failed")
    (map outcome_to_dict (run_steps (pv_apply b.1 b.2) (dt_iso now) ss env).1) now p ∈
    map (fun q => if rp_id q =? rp_id p then applied_plan (if 0 <? applied_count (run_steps (pv_apply b.1 b.2) (dt_iso now) ss env).1 then "applied" else "failed")
    (map outcome_to_dict (run_steps (pv_apply b.1 b.2) (dt_iso now) ss env).1) now q else q) (ed_plans db)).
  apply list_elem_of_fmap. exists p. by rewrite Z.eqb_refl.
Qed.

(** what the row lock of an application is worth. After a plan has been applied, a
    second request that had loaded it before, approved, waits for the lock and selects
    the row again. If the loaded object takes the row's values the request is refused;
    if it keeps what it had loaded, every step is run a second time, the recorded
    outcomes are replaced and the audit trail holds two applications. An approval
    takes no lock at all: one that had loaded the plan while it was pending sets the
    applied plan back to approved. *)
Theorem lock_needs_a_fresh_row db env p ss actor now p1 db1 env1 : reachable (db, env) -> p ∈ ed_plans db ->
  rp_steps p = map step_to_dict ss -> apply_plan p actor None None now (db, env) = Ok (p1, (db1, env1)) ->
  plan_at db1 (rp_id p) = Some p1 /\ rp_status p1 <> "approved" /\
  (reselect p p1 = p1 -> forall actor2 m given now2 s, is_ok (apply_plan p actor2 m given now2 (db1, s)) = false) /\
  (reselect p p1 = p -> forall actor2 now2, approval_is_stale max_age_hours p now2 = false -> exists b p2 db2,
     let out := run_steps (pv_apply b.1 b.2) (dt_iso now2) ss env1 in
     choose registry open_bundle None db (rp_check_key p) (Some (rp_organization_id p)) = Ok b /\
     env1 = (run_steps (pv_apply b.1 b.2) (dt_iso now) ss env).2 /\
     apply_plan p actor2 None None now2 (db1, env1) = Ok (p2, (db2, out.2)) /\ rp_outcomes p2 = map outcome_to_dict out.1 /\
     plan_events (rp_id p) (ed_audit db2) = ["planned"; "approved"; "applied"; "applied"]) /\
  (forall q approver now2, rp_id q = rp_id p -> rp_status q = "pending_approval" -> can_approve (rp_requested_by q) (Some approver) false = true ->
     exists p2 db2, approve_plan q approver now2 db1 = Ok (p2, db2) /\ plan_at db2 (rp_id p) = Some (approved_plan approver now2 p1)).
Proof.
  intros Hreach Hp Ess Hap. pose proof (reachable_ok reselect_fresh _ Hreach) as Hdb. cbn [fst] in Hdb. assert (Hdb1 : db_ok db1) by by eapply apply_keeps.
  pose proof Hap as (row & steps & b & Hrow & Hs & _ & Hre & Hst & He1 & Hp1 & bus & Hdb1')%apply_plan_spec. cbv zeta in *.
  rewrite (loaded_row _ _ Hdb Hp) in Hrow. injection Hrow as <-. rewrite reselect_fresh in *.
  rewrite Ess, steps_roundtrip in Hst. injection Hst as <-.
  assert (Hid : rp_id p1 = rp_id p) by by rewrite Hp1.
  assert (Hat : plan_at db1 (rp_id p) = Some p1).
  { rewrite <-Hid. apply loaded_row; [done|]. by destruct (apply_fresh_spec _ _ _ _ _ _ _ _ _ ss Hdb Hp Ess Hap) as (? & _ & _ & _ & _ & _ & Hin). }
  assert (Hne : rp_status p1 <> "approved") by (rewrite Hp1; cbn; by case_match).
  assert (Hcon : ed_connectors db1 = ed_connectors db) by by rewrite Hdb1'.
  assert (Htr : plan_events (rp_id p) (ed_audit db1) = ["planned"; "approved"; "applied"]).
  { pose proof (dk_trail _ Hdb1 p1) as Ht. rewrite Hid in Ht. assert (p1 ∈ ed_plans db1) as Hin.
    { apply list_elem_of_In. by apply find_some in Hat as [? _]. } specialize (Ht Hin). rewrite Hp1 in Ht. cbn [rp_status applied_plan] in Ht.
    destruct (0 <? _); cbn in Ht; by injection Ht as <-. }
  split; [done|]. split; [done|]. split; [|split].
  - intros Hfresh actor2 m given now2 s. unfold Enforcement.apply_plan, lock_plan. rewrite Hat. cbn [res_bind]. rewrite Hfresh.
    by rewrite bool_decide_eq_true_2.
  - intros Hkept actor2 now2 Hage. pose proof Hre as (Hb & Hcfg & Hl)%recheck_spec.
    assert (Hre2 : recheck p None None db1 = Ok b).
    { unfold Enforcement.recheck. rewrite (choose_connectors _ _ _ _ _ Hcon). unfold Enforcement.recheck in Hre. done. }
    destruct (apply_plan p actor2 None None now2 (db1, env1)) as [[p2 [db2 env2]]|e] eqn:Hap2.
    2: { exfalso. unfold Enforcement.apply_plan, lock_plan in Hap2. rewrite Hat in Hap2. cbn [res_bind] in Hap2. rewrite Hkept in Hap2.
         rewrite bool_decide_eq_false_2 in Hap2 by congruence. rewrite Hage, Hre2 in Hap2. cbn [res_bind] in Hap2.
         rewrite Ess, steps_roundtrip in Hap2. cbn [res_bind] in Hap2. by destruct (run_steps _ _ ss env1). }
    pose proof Hap2 as (row2 & steps2 & b2 & Hrow2 & _ & _ & Hre3 & Hst2 & -> & -> & bus2 & ->)%apply_plan_spec. cbv zeta in *.
    rewrite Hat in Hrow2. injection Hrow2 as <-. rewrite Hkept in *. rewrite Hre2 in Hre3. injection Hre3 as <-.
    rewrite Ess, steps_roundtrip in Hst2. injection Hst2 as <-. exists b. eexists _, _. split; [done|]. split; [done|]. split; [reflexivity|]. split; [done|].
    cbn [ed_audit with_events]. erewrite audit_events; [|by cbn|reflexivity]. cbn [ed_audit update_plan with_plans rp_id applied_plan].
    rewrite Htr, decide_True by done. done.
  - intros q approver now2 Hq Hqs Hcan. unfold approve_plan. rewrite bool_decide_eq_false_2 by (intros H; by apply H). rewrite Hcan. cbn [negb].
    eexists _, _. split; [reflexivity|]. unfold plan_at. cbn [ed_plans audit with_events]. rewrite Hq, <-Hid.
    apply (update_plan_at p1 (approved_plan approver now2)); [apply Hdb1| |done]. apply list_elem_of_In. by apply find_some in Hat as [? _].
Qed.
End second_application.
End lifecycle.
