(* ===== verification/EntraAccounts.v ===== *)
(** The Entra ID account provider ([src/src/ccf/enforcement/providers/m365.py]): it
    disables an account, one PATCH of one boolean field, and restores what it
    captured. Microsoft Graph is a parameter: the token request, the read of a user
    and the patch of one, on an environment [E]. An account is addressed by its id
    or by its principal name, so which account a reference names is a parameter
    too. [graph_laws] are what is relied on: a read returns the field, a patch
    touches the account it names and no other and renames none, answered it has set
    the field, refused (a status under 500) it has changed nothing, and when its
    answer is lost or a server error it has done the one or the other. The provider
    is proved lawful from them, so the theorems of Enforcement.v hold of it; the
    last section runs the whole lifecycle on a small tenant. *)

From S2P Require Import ControlTests.
From S2P Require Import Enforcement.

Local Open Scope string_scope.
Local Open Scope Z_scope.

(** ** The provider *)

Definition FIELD : string := "accountEnabled".
Definition stale_accounts_key : string := "m365.identity.stale_accounts".
Definition required_permissions : list string := ["User.ReadWrite.All"].

(** A patch is answered, answered with an error status, or its answer is lost. *)
Inductive GraphAnswer := Answered | ErrorStatus (code : Z) | Lost (e : exn).

Section provider.
Context {E : Type}.
(** The body of the token answer, of the read of a user, and the patch of a user. *)
Context (g_token : json_obj -> E -> res pyval) (g_user : string -> string -> E -> res pyval)
  (g_patch : string -> string -> json_obj -> E -> GraphAnswer * E).

Definition is_write_configured (credential : option json_obj) : bool :=
  match credential with
  | Some c => truthy (vget "tenant_id" c) && truthy (vget "client_id" c) && truthy (vget "client_secret" c)
  | None => false
  end.

Definition token (credential : option json_obj) (env : E) : res (option string) :=
  let! body := g_token (default [] credential) env in
  let! d := as_obj body in
  Ok (match vget "access_token" d with VStr t => Some t | _ => None end).

Definition read_state (token rid : string) (env : E) : option bool :=
  match (let! body := g_user token rid env in let! d := as_obj body in Ok (vget FIELD d)) with
  | Ok (VBool b) => Some b
  | _ => None
  end.

Definition disable_step (f : ResourceFinding) (current : bool) : RemediationStep :=
  {| rs_resource_id := resource_id f; rs_resource_type := "entra_user"; rs_action := "disable_account";
     rs_description := "Disable " +:+ resource_id f +:+ " (" +:+ observed f +:+ ")";
     rs_current_state := [(FIELD, VBool current)]; rs_target_state := [(FIELD, VBool false)] |}.

Definition plan (credential : option json_obj) (findings : list ResourceFinding) (env : E) : res (list RemediationStep) :=
  match findings with
  | [] => Ok []
  | _ =>
      if negb (is_write_configured credential) then Ok [] else
      match token credential env with
      | Err e => Err (ProviderUnavailable (str_take 300 (exn_msg e)))
      | Ok t =>
          if negb (str_truthy (or_empty t)) then Err (ProviderUnavailable "Graph did not return an access token") else
          Ok (omap (fun f => disable_step f <$> read_state (or_empty t) (resource_id f) env) findings)
      end
  end.

Definition patch (credential : option json_obj) (s : RemediationStep) (body : json_obj) (verb : string) (env : E) : res StepOutcome * E :=
  let outcome status detail := Ok {| so_resource_id := rs_resource_id s; so_status := status; so_detail := detail; so_at := None |} in
  if negb (is_write_configured credential) then (outcome "skipped" "no write credential configured", env) else
  match token credential env with
  | Err e => (outcome "failed" ("could not obtain a Graph token: " +:+ str_take 250 (exn_msg e)), env)
  | Ok t =>
      if negb (str_truthy (or_empty t)) then (outcome "failed" "could not obtain a Graph token", env) else
      let '(answer, env) := g_patch (or_empty t) (rs_resource_id s) body env in
      match answer with
      | ErrorStatus code => (outcome "failed" (pretty code +:+ " from Graph; requires " +:+ join ", " required_permissions), env)
      | Lost e => (outcome "uncertain" (str_take 300 (exn_msg e)), env)
      | Answered => (outcome "applied" (FIELD +:+ " " +:+ verb), env)
      end
  end.

Definition apply (credential : option json_obj) (s : RemediationStep) (env : E) : res StepOutcome * E :=
  patch credential s [(FIELD, VBool false)] "disabled" env.

Definition reverse (credential : option json_obj) (s : RemediationStep) (env : E) : res StepOutcome * E :=
  let target := default (VBool true) (dget FIELD (rs_current_state s)) in
  patch credential s [(FIELD, VBool (truthy target))] "restored" env.

Definition M365AccountProvider : Provider E :=
  {| pv_key := "m365_account"; pv_write_credential_type := "msgraph_write"; pv_required_permissions := required_permissions;
     pv_handled_checks := [stale_accounts_key]; pv_is_write_configured := is_write_configured;
     pv_plan := plan; pv_apply := apply; pv_reverse := reverse |}.

(** ** What the provider relies on *)

Section contract.
Context {R : Type} (locate : E -> string -> R) (view : E -> R -> option json_obj).

Record graph_laws : Prop := {
  gl_read : forall t rid env d b, g_user t rid env = Ok (VDict d) -> dget FIELD d = Some (VBool b) ->
    view env (locate env rid) = Some [(FIELD, VBool b)];
  gl_names : forall t rid body env rid', locate (g_patch t rid body env).2 rid' = locate env rid';
  gl_elsewhere : forall t rid body env a, a <> locate env rid -> view (g_patch t rid body env).2 a = view env a;
  gl_answered : forall t rid b env, (g_patch t rid [(FIELD, VBool b)] env).1 = Answered ->
    view (g_patch t rid [(FIELD, VBool b)] env).2 (locate env rid) = Some [(FIELD, VBool b)];
  gl_refused : forall t rid body env code, (g_patch t rid body env).1 = ErrorStatus code -> code < 500 ->
    view (g_patch t rid body env).2 (locate env rid) = view env (locate env rid);
  gl_unknown : forall t rid b env, (g_patch t rid [(FIELD, VBool b)] env).1 <> Answered ->
    view (g_patch t rid [(FIELD, VBool b)] env).2 (locate env rid) = Some [(FIELD, VBool b)] \/
    view (g_patch t rid [(FIELD, VBool b)] env).2 (locate env rid) = view env (locate env rid) }.

(** The steps this provider makes. *)
Definition account_step (s : RemediationStep) : Prop :=
  (exists b, rs_current_state s = [(FIELD, VBool b)]) /\ rs_target_state s = [(FIELD, VBool false)].
Definition planned (p : Provider E) (s : RemediationStep) : Prop := account_step s.

(** Graph answers the patch of a step with a server error, with some token. *)
Definition server_error (body : json_obj) (s : RemediationStep) (env : E) : Prop :=
  exists t code, (g_patch t (rs_resource_id s) body env).1 = ErrorStatus code /\ 500 <= code.

(** A failure is one where nothing was changed, server errors apart. *)
Definition failure_is_known (body : json_obj) (s : RemediationStep) (env : E) (out : res StepOutcome * E) : Prop :=
  forall o, out.1 = Ok o -> so_status o = "failed" ->
    view out.2 (locate env (rs_resource_id s)) = view env (locate env (rs_resource_id s)) \/ server_error body s env.

Context (laws : graph_laws).

Lemma untouched_lawful (target : RemediationStep -> json_obj) body s env o : so_resource_id o = rs_resource_id s -> so_status o ∈ ["failed"; "skipped"] ->
  lawful_action locate view target s env (Ok o, env) /\ failure_is_known body s env (Ok o, env).
Proof.
  intros Hid Hs. split; [|by left]. split; [done|]. split; [done|]. exists o. split; [done|]. split; [done|]. unfold OUTCOME_STATUSES.
  split; [clear -Hs; set_solver|]. split; [intros E1; rewrite E1 in Hs; by mem_absurd Hs|]. split; [done|]. by right.
Qed.

Lemma patch_lawful credential s b verb env (target : RemediationStep -> json_obj) : target s = [(FIELD, VBool b)] ->
  let out := patch credential s [(FIELD, VBool b)] verb env in
  lawful_action locate view target s env out /\ failure_is_known [(FIELD, VBool b)] s env out.
Proof.
  intros Ht. cbv zeta. unfold patch.
  destruct (is_write_configured credential); cbn [negb]; [|apply untouched_lawful; [done|set_solver]].
  destruct (token credential env) as [t|]; [|apply untouched_lawful; [done|set_solver]].
  destruct (str_truthy (or_empty t)); cbn [negb]; [|apply untouched_lawful; [done|set_solver]].
  pose proof (gl_names laws (or_empty t) (rs_resource_id s) [(FIELD, VBool b)] env) as Hnames.
  pose proof (gl_elsewhere laws (or_empty t) (rs_resource_id s) [(FIELD, VBool b)] env) as Hels.
  pose proof (gl_answered laws (or_empty t) (rs_resource_id s) b env) as Hans.
  pose proof (gl_refused laws (or_empty t) (rs_resource_id s) [(FIELD, VBool b)] env) as Href.
  pose proof (gl_unknown laws (or_empty t) (rs_resource_id s) b env) as Hunk.
  unfold lawful_action, failure_is_known, server_error, resource_effect, OUTCOME_STATUSES. rewrite Ht.
  destruct (g_patch (or_empty t) (rs_resource_id s) _ env) as [answer env'] eqn:Eg. cbn [fst snd] in *.
  destruct answer as [|code|e]; (split; [split; [done|split; [done|]]; eexists; split; [reflexivity|]; cbn [so_resource_id so_status];
    split; [done|]; split; [set_solver|]|intros o [= <-]; cbn [so_status]; try done]).
  - split; [by intros _; apply Hans|]. split; [done|]. by intros [|].
  - split; [done|]. split; [done|]. intros _. by apply Hunk.
  - intros _. destruct (decide (code < 500)) as [Hc|Hc]; [left; by eapply Href|right]. exists (or_empty t), code. rewrite Eg. split; [done|lia].
  - split; [done|]. split; [done|]. intros _. by apply Hunk.
Qed.

Lemma account_plan_lawful credential findings env : (exists m, plan credential findings env = Err (ProviderUnavailable m)) \/
  exists steps, plan credential findings env = Ok steps /\
    Forall (fun s => account_step s /\ rs_resource_id s ∈ map resource_id findings /\
                     (has_state s = true -> view env (locate env (rs_resource_id s)) = Some (rs_current_state s))) steps.
Proof.
  unfold plan. destruct findings as [|f fs]; [right; exists []; by split|]. set (all := f :: fs).
  destruct (is_write_configured credential); cbn [negb]; [|right; exists []; by split].
  destruct (token credential env) as [t|e]; [|left; by eexists]. destruct (str_truthy (or_empty t)); cbn [negb]; [|left; by eexists].
  right. eexists. split; [reflexivity|]. apply Forall_forall. intros s (g & Hg & Hs)%list_elem_of_omap.
  destruct (read_state (or_empty t) (resource_id g) env) as [b|] eqn:Er; [|done]. injection Hs as <-.
  split; [split; [by exists b|done]|]. split; [by apply (list_elem_of_fmap_2 resource_id)|]. intros _. cbn [disable_step rs_resource_id rs_current_state].
  unfold read_state in Er. destruct (g_user _ _ env) as [[| | | | | |d]|] eqn:Eg; try done. cbn [res_bind as_obj] in Er.
  apply (gl_read laws _ _ _ _ _ Eg). unfold vget in Er. destruct (dget FIELD d) as [[]|]; try done. by injection Er as ->.
Qed.

(** What [reverse] writes back. *)
Definition restored (s : RemediationStep) : json_obj := [(FIELD, VBool (truthy (default (VBool true) (dget FIELD (rs_current_state s)))))].

Lemma account_apply_lawful credential s env : account_step s ->
  lawful_action locate view rs_target_state s env (apply credential s env) /\
  failure_is_known [(FIELD, VBool false)] s env (apply credential s env).
Proof. intros [_ Ht]. by apply patch_lawful. Qed.
Lemma account_reverse_lawful credential s env : account_step s ->
  lawful_action locate view rs_current_state s env (reverse credential s env) /\
  failure_is_known (restored s) s env (reverse credential s env).
Proof. intros [[b Hb] _]. unfold reverse, restored. rewrite Hb. by apply patch_lawful. Qed.
Lemma account_lawful : lawful locate view planned M365AccountProvider.
Proof. split; [apply account_plan_lawful|intros; by apply account_apply_lawful|intros; by apply account_reverse_lawful]. Qed.

(** C35: the account provider keeps the contract of the enforcement service, whatever
    the credential, the findings and the answers of Graph, however the accounts are
    named. Planning either says the provider is unavailable or makes steps for
    accounts of the findings only, each with the state Graph holds. Applying and
    reversing a step change at most the account it names, never raise, and the
    recorded outcome tells what became of it: applied means the account has the
    requested state, skipped that it was not touched, uncertain that it is one of
    the two; failed that it was not touched either, unless Graph answered with a
    server error (500 or more), after which it is one of the two again. *)
Theorem account_provider_is_lawful :
  lawful locate view planned M365AccountProvider /\
  forall credential s env, account_step s ->
    failure_is_known [(FIELD, VBool false)] s env (apply credential s env) /\
    failure_is_known (restored s) s env (reverse credential s env).
Proof.
  split; [exact account_lawful|]. intros credential s env Hs. split; [by apply account_apply_lawful|by apply account_reverse_lawful].
Qed.
End contract.
End provider.

(** ** A worked example

    Stale accounts, kept under their ids; one answers too late, one through a
    gateway that reports an error after the write. *)

Definition tenant := list (string * bool).
Definition tenant_names : list (string * string) :=
  [("ann@example.org", "a1"); ("bob@example.org", "b2"); ("carol@example.org", "c3"); ("slow@example.org", "s4"); ("gateway@example.org", "g5")].
Definition tenant_account (env : tenant) (rid : string) : string := default rid (dget rid tenant_names).
Definition tenant_view (env : tenant) (account : string) : option json_obj := (fun b => [(FIELD, VBool b)]) <$> dget account env.
Definition tenant_token (c : json_obj) (env : tenant) : res pyval := Ok (VDict [("access_token", VStr "bearer")]).
Definition tenant_user (token rid : string) (env : tenant) : res pyval :=
  match dget (tenant_account env rid) env with
  | Some b => Ok (VDict [("id", VStr (tenant_account env rid)); (FIELD, VBool b)])
  | None => Err (Exn "HTTPStatusError" "Client error '404 Not Found'")
  end.
Definition tenant_patch (token rid : string) (body : json_obj) (env : tenant) : GraphAnswer * tenant :=
  let account := tenant_account env rid in
  match dget account env, vget FIELD body with
  | Some _, VBool b =>
      (if bool_decide (account = "s4") then Lost (Exn "ReadTimeout" "timed out")
       else if bool_decide (account = "g5") then ErrorStatus 504 else Answered, dset account b env)
  | _, _ => (ErrorStatus 404, env)
  end.

Lemma tenant_laws : graph_laws tenant_user tenant_patch tenant_account tenant_view.
Proof.
  split; unfold tenant_user, tenant_patch, tenant_view.
  - intros t rid env d b. destruct (dget _ env) as [b'|]; [|done]. intros [= <-]. cbn. by intros [= <-].
  - done.
  - intros t rid body env a Hne. destruct (dget _ env), (vget FIELD body); try done. cbn [snd]. by rewrite dget_dset_ne.
  - intros t rid b env. change (vget FIELD [(FIELD, VBool b)]) with (VBool b). destruct (dget _ env); [|done]. cbn [fst snd].
    unfold tenant_account. by rewrite dget_dset_eq.
  - intros t rid body env code. destruct (dget (tenant_account env rid) env) eqn:Er, (vget FIELD body); cbn [fst snd]; rewrite ?Er; try done.
    case_bool_decide; [done|]. case_bool_decide; [|done]. intros [= <-]. lia.
  - intros t rid b env. change (vget FIELD [(FIELD, VBool b)]) with (VBool b).
    destruct (dget (tenant_account env rid) env) eqn:Er; cbn [fst snd]; [left|right; by rewrite Er].
    unfold tenant_account in *. by rewrite dget_dset_eq.
Qed.

Definition entra : Provider tenant := M365AccountProvider tenant_token tenant_user tenant_patch.
Lemma entra_lawful : Forall (lawful tenant_account tenant_view planned) [entra].
Proof. constructor; [|constructor]. apply account_lawful, tenant_laws. Qed.

Definition secret : json_obj := [("tenant_id", VStr "t"); ("client_id", VStr "c"); ("client_secret", VStr "s")].
Definition demo_open (bundle : string) : res pyval :=
  if bool_decide (bundle = "sealed") then Ok (VDict secret) else Err (ValueError "InvalidToken").
Definition demo_finding (rid verdict : string) : ResourceFinding :=
  {| resource_id := rid; resource_type := "entra_user"; verdict := verdict; observed := "inactive 120 days"; detail := [] |}.
Definition no_bus : ControlTests.Db :=
  {| db_seq := 1; db_waivers := []; db_connectors := []; db_captures := []; db_controls := []; db_webhooks := []; db_notify_url := "";
     db_notify_min_severity := ""; db_results := []; db_resources := []; db_tasks := []; db_poams := []; db_notifications := [];
     db_events := []; db_outbox := [] |}.
Definition demo_check : ControlTest :=
  {| ct_id := 3; ct_organization_id := Some 5; ct_system_id := Some 1; ct_control_id := "AC-2"; ct_name := "Stale accounts";
     ct_method := "automated"; ct_connector_type := Some "msgraph"; ct_frequency := None; ct_expected := None; ct_assertion := None;
     ct_active := true; ct_source := "posture"; ct_check_key := Some stale_accounts_key; ct_check_source := None;
     ct_last_status := None; ct_last_tested_at := None |}.
Definition demo_db : EnfDb :=
  {| ed_systems := [{| cs_id := 1; cs_organization_id := 5; cs_name := "Portal"; cs_description := None; cs_deleted_at := None |}];
     ed_tests := [demo_check];
     ed_results := [{| tres_id := 9; tres_test_id := 3; tres_run_at := 10; tres_evaluated := 4; tres_evidence_ref := None;
                       tres_findings := [demo_finding "ann@example.org" "fail"; demo_finding "bob@example.org" "fail";
                                         demo_finding "carol@example.org" "pass"; demo_finding "slow@example.org" "fail";
                                         demo_finding "gone@example.org" "fail"] |}];
     ed_connectors := [{| bc_organization_id := Some 5; bc_connector_type := "msgraph_write"; bc_encrypted_credential := Some "sealed" |}];
     ed_plans := []; ed_next_id := 1; ed_audit := []; ed_bus := no_bus |}.
Definition demo_tenant : tenant :=
  [("a1", true); ("b2", false); ("c3", true); ("s4", true); ("g5", true)].

(** The four requests, ten at most, an approval good for 24 hours. *)
Definition hour : Z := 3600 * 1000000.
Definition outcome_of {A} (d : A) (r : res A) : A := match r with Ok a => a | Err _ => d end.
Definition no_outcome : StepOutcome := {| so_resource_id := ""; so_status := ""; so_detail := ""; so_at := None |}.
Definition no_plan : RemediationPlan := new_plan 0 0 0 "" "" "".
Definition fresh_row (loaded row : RemediationPlan) : RemediationPlan := row.
Definition kept_object (loaded row : RemediationPlan) : RemediationPlan := if rp_id loaded =? rp_id row then loaded else row.

Definition demo_planned : RemediationPlan * EnfDb :=
  Eval vm_compute in
  outcome_of (no_plan, demo_db) (create_plan [entra] demo_open 10 1 stale_accounts_key "ops" None None None demo_tenant demo_db).
Definition demo_approved : RemediationPlan * EnfDb :=
  Eval vm_compute in outcome_of demo_planned (approve_plan demo_planned.1 "boss" hour demo_planned.2).
Definition demo_applied : RemediationPlan * (EnfDb * tenant) :=
  Eval vm_compute in
  outcome_of (no_plan, (demo_db, demo_tenant))
    (apply_plan [entra] demo_open fresh_row 10 24 demo_approved.1 "ops" None None (2 * hour) (demo_approved.2, demo_tenant)).
Definition demo_reversed : RemediationPlan * (EnfDb * tenant) :=
  Eval vm_compute in
  outcome_of (no_plan, (demo_db, demo_tenant))
    (reverse_plan [entra] demo_open fresh_row 10 demo_applied.1 "ops" None None (3 * hour) demo_applied.2).

Lemma fresh_one loaded row : fresh_row loaded row = loaded \/ fresh_row loaded row = row.
Proof. by right. Qed.
Lemma kept_one loaded row : kept_object loaded row = loaded \/ kept_object loaded row = row.
Proof. unfold kept_object. destruct (_ =? _); auto. Qed.

(** Requests that work on the row as it is. *)
Notation demo_state := (reachable [entra] demo_open fresh_row 10 24).
Lemma demo_planned_reachable : demo_state (demo_planned.2, demo_tenant).
Proof.
  eapply er_step; [by apply (er_start _ _ _ _ _ demo_db demo_tenant)|].
  apply (es_create _ _ _ _ _ 1 stale_accounts_key "ops" None None demo_db demo_tenant demo_planned.1). vm_compute. reflexivity.
Qed.
Lemma demo_plan_stored : demo_planned.1 ∈ ed_plans demo_planned.2.
Proof. apply list_elem_of_In. left. reflexivity. Qed.
Lemma demo_approved_reachable : demo_state (demo_approved.2, demo_tenant).
Proof.
  apply (er_step _ _ _ _ _ _ _ demo_planned_reachable).
  apply (es_approve _ _ _ _ _ demo_planned.1 "boss" hour _ _ demo_approved.1); [apply demo_plan_stored|]. vm_compute. reflexivity.
Qed.
Lemma demo_approved_stored : demo_approved.1 ∈ ed_plans demo_approved.2.
Proof. apply list_elem_of_In. left. reflexivity. Qed.

Lemma demo_fresh_world : wreachable [entra] demo_open fresh_row 10 24 ([demo_approved.1; demo_planned.1], (demo_approved.2, demo_tenant)).
Proof.
  eapply wr_step; [eapply wr_step; [by apply (wr_start _ _ _ _ _ demo_db demo_tenant)|]|].
  - apply (ws_create _ _ _ _ _ [] 1 stale_accounts_key "ops" None None demo_db demo_tenant demo_planned.1 demo_planned.2). vm_compute. reflexivity.
  - apply (ws_approve _ _ _ _ _ [demo_planned.1] demo_planned.1 "boss" hour demo_planned.2 demo_tenant demo_approved.1 demo_approved.2); [by left|].
    vm_compute. reflexivity.
Qed.

(** Sessions that hold what they have loaded: the plan as it was made, and as it
    was approved; another has applied it in the meantime. *)
Notation demo_world := (wreachable [entra] demo_open kept_object 10 24).
Lemma demo_approved_world : demo_world ([demo_approved.1; demo_planned.1], (demo_approved.2, demo_tenant)).
Proof.
  eapply wr_step; [eapply wr_step; [by apply (wr_start _ _ _ _ _ demo_db demo_tenant)|]|].
  - apply (ws_create _ _ _ _ _ [] 1 stale_accounts_key "ops" None None demo_db demo_tenant demo_planned.1 demo_planned.2). vm_compute. reflexivity.
  - apply (ws_approve _ _ _ _ _ [demo_planned.1] demo_planned.1 "boss" hour demo_planned.2 demo_tenant demo_approved.1 demo_approved.2); [by left|].
    vm_compute. reflexivity.
Qed.
Lemma demo_applied_world : demo_world (demo_applied.1 :: [demo_approved.1; demo_planned.1], demo_applied.2).
Proof.
  apply (wr_step _ _ _ _ _ _ _ demo_approved_world).
  apply (ws_apply _ _ _ _ _ [demo_approved.1; demo_planned.1] demo_approved.1 "ops" None (2 * hour) demo_approved.2 demo_tenant
    demo_applied.1 demo_applied.2.1 demo_applied.2.2); [by left|]. vm_compute. reflexivity.
Qed.

(** Through the gateway that answers 504: recorded as failed, and written. *)
Lemma account_provider_witness :
  lawful tenant_account tenant_view planned entra /\
  let s := disable_step (demo_finding "gateway@example.org" "fail") true in
  let out := apply tenant_token tenant_patch (Some secret) s demo_tenant in
  so_status (outcome_of no_outcome out.1) = "failed" /\ tenant_view out.2 "g5" <> tenant_view demo_tenant "g5" /\
  server_error tenant_patch [(FIELD, VBool false)] s demo_tenant.
Proof.
  destruct (account_provider_is_lawful tenant_token tenant_user tenant_patch tenant_account tenant_view tenant_laws) as [H1 H2].
  split; [exact H1|]. cbv zeta. set (s := disable_step _ true). destruct (H2 (Some secret) s demo_tenant) as [H _]; [split; [by exists true|reflexivity]|].
  set (out := apply tenant_token tenant_patch (Some secret) s demo_tenant) in *.
  assert (Hd : tenant_view out.2 "g5" <> tenant_view demo_tenant "g5") by (vm_compute; discriminate).
  split; [vm_compute; reflexivity|]. split; [exact Hd|].
  destruct (H (outcome_of no_outcome out.1)) as [Hu|Hs]; [vm_compute; reflexivity|vm_compute; reflexivity|destruct (Hd Hu)|exact Hs].
Defined.

Lemma one_provider_witness : provider_for [entra] stale_accounts_key = Some entra /\ is_ok (register entra [entra]) = false.
Proof.
  assert (registered [entra]) as Hr by (apply (registered_one entra [] [entra] registered_none); reflexivity).
  destruct (one_provider_per_check [entra] Hr) as (H & _). split; [apply H; left|reflexivity].
Defined.

Lemma plans_lifecycle_witness :
  rp_status demo_approved.1 = "approved" /\ plan_ok demo_approved.1.
Proof.
  destruct (plans_follow_their_lifecycle [entra] demo_open fresh_row 10 24 (fun _ => eq_refl) demo_approved.2 demo_tenant demo_approved_reachable) as [_ H].
  split; [reflexivity|]. apply H, demo_approved_stored.
Defined.

(** A session that still holds the plan as it was approved applies it a second time,
    after another has: the plan it acts on is its own, and is an approved one. *)
Lemma authorised_writes_witness : exists plan approver p2 s2,
  apply_plan [entra] demo_open kept_object 10 24 demo_approved.1 "eve" None None (3 * hour) demo_applied.2 = Ok (p2, s2) /\
  (plan = demo_approved.1 \/ plan = demo_applied.1) /\ rp_status plan = "approved" /\
  rp_approved_by plan = Some approver /\ rp_requested_by plan <> Some approver.
Proof.
  destruct (writes_are_authorised [entra] demo_open kept_object 10 24 tenant_account tenant_view planned entra_lawful kept_one _ _ _ demo_approved.1
    demo_applied_world) as [H _]; [right; left|].
  destruct (apply_plan [entra] demo_open kept_object 10 24 demo_approved.1 "eve" None None (3 * hour) (demo_applied.2.1, demo_applied.2.2)) as [[p2 [db2 env2]]|e] eqn:E;
    [|vm_compute in E; discriminate E].
  destruct (H _ _ _ _ _ _ E) as (row & plan & a & at_ & pv & cred & ss & Hrow & Hone & _ & Hs & Ha & _ & _ & Hr & _).
  exists plan, a, p2, (db2, env2). split; [exact E|]. split; [|split; [exact Hs|split; [exact Ha|exact Hr]]].
  destruct Hone as [Hone|Hone]; [left; exact Hone|right]. rewrite Hone. vm_compute in Hrow. injection Hrow as <-. vm_compute. reflexivity.
Defined.

Definition demo_steps : list RemediationStep :=
  [disable_step (demo_finding "ann@example.org" "fail") true; disable_step (demo_finding "bob@example.org" "fail") false;
   disable_step (demo_finding "slow@example.org" "fail") true].

(** The accounts are as they were, the one whose answers were lost included. *)
Lemma reversal_restores_witness : exists os, rp_outcomes demo_applied.1 = map outcome_to_dict os /\
  map so_status os = ["applied"; "applied"; "uncertain"] /\ rp_status demo_reversed.1 = "reversed" /\
  tenant_view demo_reversed.2.2 "a1" = tenant_view demo_tenant "a1".
Proof.
  destruct (apply_then_reverse_restores [entra] demo_open fresh_row 10 24 tenant_account tenant_view planned entra_lawful fresh_one _ demo_approved.2 demo_tenant
    demo_approved.1 demo_steps "ops" (2 * hour) demo_applied.1 demo_applied.2.1 demo_applied.2.2 demo_fresh_world demo_approved_stored)
    as (os & Hos & _ & _ & _ & H).
  - reflexivity.
  - apply (bool_decide_unpack (NoDup _)). vm_compute. exact I.
  - repeat constructor.
  - vm_compute. reflexivity.
  - exists os. split; [exact Hos|]. destruct (H "ops" (3 * hour) demo_reversed.1 demo_reversed.2.1 demo_reversed.2.2) as (os2 & _ & Hs & _).
    { vm_compute. reflexivity. }
    split; [|split; [exact Hs|reflexivity]].
    change (rp_outcomes demo_applied.1) with (map outcome_to_dict
      [{| so_resource_id := "ann@example.org"; so_status := "applied"; so_detail := "accountEnabled disabled"; so_at := Some "1970-01-01T02:00:00+00:00" |};
       {| so_resource_id := "bob@example.org"; so_status := "applied"; so_detail := "accountEnabled disabled"; so_at := Some "1970-01-01T02:00:00+00:00" |};
       {| so_resource_id := "slow@example.org"; so_status := "uncertain"; so_detail := "timed out"; so_at := Some "1970-01-01T02:00:00+00:00" |}]) in Hos.
    destruct os as [|[] [|[] [|[] []]]]; try discriminate Hos. injection Hos. intros. subst. reflexivity.
Defined.

(** A plan whose one step is uncertain is recorded as failed and cannot be reversed,
    though the account has been disabled. *)
Definition slow_plan : RemediationPlan * EnfDb :=
  outcome_of (no_plan, demo_db)
    (let! made := create_plan [entra] demo_open 10 1 stale_accounts_key "ops" (Some ["slow@example.org"]) None None demo_tenant demo_db in
     approve_plan made.1 "boss" hour made.2).
Example uncertain_only_is_stuck :
  let out := outcome_of (no_plan, (demo_db, demo_tenant))
    (apply_plan [entra] demo_open fresh_row 10 24 slow_plan.1 "ops" None None (2 * hour) (slow_plan.2, demo_tenant)) in
  rp_status out.1 = "failed" /\ tenant_view out.2.2 "s4" = Some [(FIELD, VBool false)] /\
  reverse_plan [entra] demo_open fresh_row 10 out.1 "ops" None None (3 * hour) out.2 =
    Err (EnforcementError "plan is not applied (status=failed)").
Proof. vm_compute. auto. Qed.

(** Two steps on one account, by its principal name and by its id, are two steps. *)
Example two_names_one_account : tenant_account demo_tenant "ann@example.org" = tenant_account demo_tenant "a1".
Proof. reflexivity. Qed.

Lemma plans_built_witness : exists p d,
  create_plan [entra] demo_open 2 1 stale_accounts_key "ops" None None None demo_tenant demo_db = Ok (p, d) /\
  rp_status p = "refused" /\ rp_refusal_reason p = Some (over_limit 4 2).
Proof.
  destruct (plans_are_built_or_refused [entra] demo_open 2 tenant_account tenant_view planned entra_lawful demo_db demo_tenant
    1 stale_accounts_key "ops" None None (hd {| cs_id := 0; cs_organization_id := 0; cs_name := ""; cs_description := None; cs_deleted_at := None |} (ed_systems demo_db)) entra (Some secret)) as (p & d & E & _).
  - reflexivity.
  - reflexivity.
  - reflexivity.
  - eexists _, _. split; [exact E|]. vm_compute in E. injection E as <- _. vm_compute. split; reflexivity.
Defined.

(** With an ORM that keeps the loaded object, the second application runs. *)
Lemma kept_object_same p : kept_object p p = p.
Proof. unfold kept_object. by rewrite Z.eqb_refl. Qed.
Notation kept_state := (reachable [entra] demo_open kept_object 10 24).
Lemma kept_approved_reachable : kept_state (demo_approved.2, demo_tenant).
Proof.
  eapply er_step; [eapply er_step; [by apply (er_start _ _ _ _ _ demo_db demo_tenant)|]|].
  - apply (es_create _ _ _ _ _ 1 stale_accounts_key "ops" None None demo_db demo_tenant demo_planned.1 demo_planned.2). vm_compute. reflexivity.
  - apply (es_approve _ _ _ _ _ demo_planned.1 "boss" hour _ _ demo_approved.1); [apply demo_plan_stored|]. vm_compute. reflexivity.
Qed.

Lemma lock_witness : exists p2 s2,
  apply_plan [entra] demo_open kept_object 10 24 demo_approved.1 "eve" None None (2 * hour) demo_applied.2 = Ok (p2, s2) /\
  plan_events 1 (ed_audit s2.1) = ["planned"; "approved"; "applied"; "applied"].
Proof.
  destruct (lock_needs_a_fresh_row [entra] demo_open kept_object 10 24 kept_object_same demo_approved.2 demo_tenant demo_approved.1 demo_steps "ops"
    (2 * hour) demo_applied.1 demo_applied.2.1 demo_applied.2.2 kept_approved_reachable demo_approved_stored) as (_ & _ & _ & H & _).
  - reflexivity.
  - vm_compute. reflexivity.
  - destruct (H eq_refl "eve" (2 * hour) eq_refl) as (b & p2 & db2 & _ & _ & E & _ & Ht). exists p2. eexists. split; [exact E|exact Ht].
Defined.
