(* ===== verification/Sessions.v ===== *)
(** The authentication primitives ([src/src/ccf/auth.py]) and the tokens derived from
    them ([api/login_service.py], [api/routes/portal.py]): password hashes
    (PBKDF2), token digests, and signed session tokens - a URL-safe base64 payload
    of JSON claims and its HMAC-SHA256.

    [loads] stands for [json.loads] on the decoded bytes; all the theorems use of
    it is [reads_claims], that the claims [sign_session] prints are read back.
    [now] is the clock in microseconds; freshly drawn salts are arguments. *)

From S2P Require Export Json.
From S2P Require Import Mfa.

Local Open Scope string_scope.
Local Open Scope Z_scope.

(** ** Base 64 *)

Definition b64_char (n : Z) : ascii :=
  ascii_of_N (Z.to_N (if n <? 26 then 65 + n else if n <? 52 then 71 + n else if n <? 62 then n - 4 else if n =? 62 then 45 else 95)).

(** The digits of both alphabets: [urlsafe_b64decode] translates one to the other. *)
Definition b64_val (c : ascii) : option Z :=
  let n := Z.of_N (cp c) in
  if (65 <=? n) && (n <=? 90) then Some (n - 65)
  else if (97 <=? n) && (n <=? 122) then Some (n - 71)
  else if (48 <=? n) && (n <=? 57) then Some (n + 4)
  else if (n =? 45) || (n =? 43) then Some 62
  else if (n =? 95) || (n =? 47) then Some 63 else None.

Fixpoint b64_digits (l : list Z) : list Z :=
  match l with
  | a :: b :: c :: r => a / 4 :: (a mod 4) * 16 + b / 16 :: (b mod 16) * 4 + c / 64 :: c mod 64 :: b64_digits r
  | [a; b] => [a / 4; (a mod 4) * 16 + b / 16; (b mod 16) * 4]
  | [a] => [a / 4; (a mod 4) * 16]
  | [] => []
  end.

Fixpoint of_chars (l : list ascii) : string :=
  match l with [] => "" | c :: l' => String c (of_chars l') end.

(** [base64.urlsafe_b64encode(raw).decode().rstrip("=")] *)
Definition b64encode (l : list Z) : string := of_chars (map b64_char (b64_digits l)).

(** [binascii.a2b_base64]: characters outside the alphabet are skipped, a completed
    padding ends the input, and a digit in between starts a new count of it. *)
Fixpoint a2b_base64 (quad left pads : Z) (s : string) : res (list Z) :=
  match s with
  | EmptyString => if quad =? 0 then Ok [] else Err (Exn "binascii.Error" "Incorrect padding")
  | String c s' =>
      if bool_decide (c = "="%char) then
        if (2 <=? quad) && (4 <=? quad + pads + 1) then Ok []
        else a2b_base64 quad left (if 2 <=? quad then pads + 1 else pads) s'
      else match b64_val c with
      | None => a2b_base64 quad left pads s'
      | Some d =>
          if quad =? 0 then a2b_base64 1 d 0 s'
          else if quad =? 1 then let! r := a2b_base64 2 (d mod 16) 0 s' in Ok (left * 4 + d / 16 :: r)
          else if quad =? 2 then let! r := a2b_base64 3 (d mod 4) 0 s' in Ok (left * 16 + d / 4 :: r)
          else let! r := a2b_base64 0 0 0 s' in Ok (left * 64 + d :: r)
      end
  end.

(** [base64.urlsafe_b64decode(payload + "=" * (-len(payload) % 4))] *)
Fixpoint chars (n : nat) (c : ascii) : string := match n with O => "" | S n' => String c (chars n' c) end.
Definition b64decode_padded (payload : string) : res (list Z) :=
  let padded := payload +:+ chars (Z.to_nat (- Z.of_nat (String.length payload) mod 4)) "="%char in
  if negb (str_isascii padded) then Err (ValueError "string argument should contain only ASCII characters")
  else a2b_base64 0 0 0 padded.

Example b64_rfc4648 :
  map (fun s => b64encode (utf8 s)) ["f"; "fo"; "foo"; "foob"; "fooba"; "foobar"] =
  ["Zg"; "Zm8"; "Zm9v"; "Zm9vYg"; "Zm9vYmE"; "Zm9vYmFy"] /\
  map b64decode_padded ["Zg"; "Zm8"; "Zm9v"; "Zm9vYg"; "Zm9vYmE"; "Zm9vYmFy"] =
  map (fun s => Ok (utf8 s)) ["f"; "fo"; "foo"; "foob"; "fooba"; "foobar"].
Proof. vm_compute. done. Qed.

(** ** Passwords *)

Definition PBKDF2_ROUNDS : Z := 210000.

(** [hashlib.pbkdf2_hmac("sha256", ...)]: one 32-byte block. *)
Definition pbkdf2_step (password : list Z) (s : list Z * list Z) : list Z * list Z :=
  let u := hmac sha256 password s.1 in (u, zip_with Z.lxor s.2 u).
Definition pbkdf2_hmac (password salt : list Z) (rounds : Z) : res (list Z) :=
  if rounds <? 1 then Err (ValueError "iteration value must be greater than 0")
  else if 2147483647 <? rounds then Err (Exn "OverflowError" "iteration value is too great.")
  else let u1 := hmac sha256 password (salt ++ [0; 0; 0; 1])%list in
       Ok (Z.iter (rounds - 1) (pbkdf2_step password) (u1, u1)).2.

Example pbkdf2_vectors :
  (res_bind (pbkdf2_hmac (utf8 "password") (utf8 "salt") 1) (fun d => Ok (hexdigest d)),
   res_bind (pbkdf2_hmac (utf8 "password") (utf8 "salt") 2) (fun d => Ok (hexdigest d))) =
  (Ok "120fb6cffcf8b32c43e7225256c4f837a86548c92ccc35480805987cb70be17b",
   Ok "ae4d0c95af6b46d32d0adff928f06dd02a303f8ef3c251dfd6e2d85a95474c43").
Proof. vm_compute. reflexivity. Qed.

(** [bytes.fromhex]: pairs of digits, with whitespace between them. *)
Definition hex_val (c : ascii) : option Z :=
  let n := Z.of_N (cp c) in
  if (48 <=? n) && (n <=? 57) then Some (n - 48)
  else if (97 <=? n) && (n <=? 102) then Some (n - 87)
  else if (65 <=? n) && (n <=? 70) then Some (n - 55) else None.
Definition is_ascii_space (c : ascii) : bool := let n := cp c in (((9 <=? n) && (n <=? 13)) || (n =? 32))%N.
Fixpoint fromhex (s : string) : res (list Z) :=
  let bad := ValueError "non-hexadecimal number found in fromhex() arg" in
  match s with
  | EmptyString => Ok []
  | String a s1 =>
      if is_ascii_space a then fromhex s1 else
      match s1 with
      | EmptyString => Err bad
      | String b s2 =>
          match hex_val a, hex_val b with
          | Some x, Some y => let! r := fromhex s2 in Ok (x * 16 + y :: r)
          | _, _ => Err bad
          end
      end
  end.

(** [salt or secrets.token_hex(16)] is an argument. *)
Definition hash_password (password salt : string) : res string :=
  let! bytes := fromhex salt in
  let! dk := pbkdf2_hmac (utf8 password) bytes PBKDF2_ROUNDS in
  Ok ("pbkdf2_sha256$" +:+ pretty PBKDF2_ROUNDS +:+ "$" +:+ salt +:+ "$" +:+ hexdigest dk).

(** The exceptions an [except (ValueError, TypeError)] of this module meets. *)
Definition caught (e : exn) : bool :=
  mem (exn_class e) ["ValueError"; "TypeError"; "binascii.Error"; "JSONDecodeError"; "UnicodeDecodeError"].

Definition verify_password (password : string) (stored : option string) : res bool :=
  if negb (str_truthy (or_empty stored)) then Ok false else
  match split_on "$"%char (or_empty stored) with
  | [_; rounds; salt; digest] =>
      match (let! bytes := fromhex salt in let! n := py_int rounds in pbkdf2_hmac (utf8 password) bytes n) with
      | Err e => if caught e then Ok false else Err e
      | Ok dk => compare_digest (hexdigest dk) digest
      end
  | _ => Ok false
  end.

Definition validate_password_policy (password : string) (min_length : Z) : res unit :=
  if Z.of_nat (String.length password) <? min_length
  then Err (ValueError ("password must be at least " +:+ pretty min_length +:+ " characters")) else Ok tt.

(** ** Tokens *)

Definition hash_token (token : string) : string := hexdigest (sha256 (utf8 token)).

Definition verify_token (token : string) (stored_hash : option string) : res bool :=
  if negb (str_truthy token) || negb (str_truthy (or_empty stored_hash)) then Ok false
  else compare_digest (hash_token token) (or_empty stored_hash).

Definition signature (secret payload : string) : string := hexdigest (hmac sha256 (utf8 secret) (utf8 payload)).

Definition second_us : Z := 1000000.

Definition claims (user_id exp session_version : Z) : list (string * pyval) :=
  [("uid", VInt user_id); ("exp", VInt exp)] ++ (if session_version =? 0 then [] else [("sv", VInt session_version)])%list.

Definition sign_session (user_id : Z) (secret : string) (ttl_hours session_version now : Z) : string :=
  let exp := now / second_us + ttl_hours * 3600 in
  let payload := b64encode (utf8 (emit (VDict (claims user_id exp session_version)))) in
  payload +:+ "." +:+ signature secret payload.

(** [token.split(".", 1)] into two parts. *)
Fixpoint split_dot (s : string) : option (string * string) :=
  match s with
  | EmptyString => None
  | String c s' => if bool_decide (c = "."%char) then Some ("", s') else
                   match split_dot s' with Some (a, b) => Some (String c a, b) | None => None end
  end.

(** [a < now], the right side a float of seconds. *)
Definition before (a : pyval) (now : Z) : res bool :=
  match as_num a with
  | Some (p, q) => Ok (p * second_us <? now * q)
  | None => Err (TypeError ("'<' not supported between instances of '" +:+ type_name a +:+ "' and 'float'"))
  end.
(** [isinstance(v, int)], and its value. *)
Definition as_int (v : pyval) : option Z := match v with VInt z => Some z | VBool b => Some (Z.b2z b) | _ => None end.

Section sessions.
Context (loads : list Z -> res pyval).

Definition read_session (token secret : string) (now : Z) : res (option (Z * Z)) :=
  match split_dot token with
  | None => Ok None
  | Some (payload, sig) =>
      let! same := compare_digest sig (signature secret payload) in
      if negb same then Ok None else
      match (let! raw := b64decode_padded payload in loads raw) with
      | Err e => if caught e then Ok None else Err e
      | Ok (VDict data) =>
          let! late := before (default (VInt 0) (dget "exp" data)) now in
          if late : bool then Ok None else
          match as_int (vget "uid" data), as_int (default (VInt 0) (dget "sv" data)) with
          | Some uid, Some sv => Ok (Some (uid, sv))
          | _, _ => Ok None
          end
      | Ok _ => Ok None
      end
  end.

Definition verify_session (token secret : string) (now : Z) : res (option Z) :=
  let! result := read_session token secret now in Ok (fst <$> result).

(** ** Derived keys *)

Definition derived_secret (label base_secret : string) : string := hexdigest (hmac sha256 (utf8 base_secret) (utf8 label)).
Definition mfa_pending_secret : string -> string := derived_secret "ccf-mfa-pending-v1".
Definition portal_secret : string -> string := derived_secret "ccf-portal-session-v1".

Definition MFA_PENDING_TTL_SECONDS : Z := 300.

Definition mint_mfa_pending (user_id session_version : Z) (auth_session_secret : string) (now : Z) : string :=
  let token := sign_session user_id (mfa_pending_secret auth_session_secret) 1 session_version now in
  pretty (now / second_us) +:+ "." +:+ token.

(** An int that a subtraction from a float cannot convert. *)
Definition float_overflows (n : Z) : bool := 2 ^ 1024 - 2 ^ 970 <=? Z.abs n.

Definition read_mfa_pending (token auth_session_secret : string) (now : Z) : res (option (Z * Z)) :=
  match split_dot token with
  | None => Ok None
  | Some (stamp_raw, inner) =>
      match py_int stamp_raw with
      | Err e => if caught e then Ok None else Err e
      | Ok stamp =>
          if float_overflows stamp then Err (Exn "OverflowError" "int too large to convert to float")
          else if (MFA_PENDING_TTL_SECONDS * second_us <? now - stamp * second_us) || (now + second_us <? stamp * second_us)
          then Ok None
          else read_session inner (mfa_pending_secret auth_session_secret) now
      end
  end.

Definition portal_cookie_ttl_hours (expires_at : option Z) (now : Z) : Z :=
  match expires_at with
  | None => 24
  | Some at_ => Z.min 24 (Z.max 1 ((at_ - now) / (3600 * second_us)))
  end.
End sessions.

(** ** Lemmas: base 64 *)

Lemma b64_char_val n : 0 <= n < 64 -> b64_val (b64_char n) = Some n /\ b64_char n <> "="%char /\ b64_char n <> "."%char /\ (cp (b64_char n) < 128)%N.
Proof.
  intros Hn. assert (forall k, (k < 64)%nat -> bool_decide (b64_val (b64_char (Z.of_nat k)) = Some (Z.of_nat k) /\ b64_char (Z.of_nat k) <> "="%char /\
    b64_char (Z.of_nat k) <> "."%char /\ (cp (b64_char (Z.of_nat k)) < 128)%N) = true) as H.
  { intros k Hk. do 64 (destruct k as [|k]; [vm_compute; reflexivity|]). lia. }
  specialize (H (Z.to_nat n) ltac:(lia)). apply bool_decide_eq_true in H. by rewrite Z2Nat.id in H by lia.
Qed.

Lemma list_ind3 {A} (P : list A -> Prop) : P [] -> (forall a, P [a]) -> (forall a b, P [a; b]) ->
  (forall a b c l, P l -> P (a :: b :: c :: l)) -> forall l, P l.
Proof.
  intros H0 H1 H2 H3 l. assert (P l /\ (forall a, P (a :: l)) /\ (forall a b, P (a :: b :: l))) as [? _]; [|done].
  induction l as [|x l (IH1 & IH2 & IH3)]; [done|]. auto.
Qed.
Ltac divmod := unfold is_byte in *; destruct_and?; Z.to_euclidean_division_equations; lia.

Lemma b64_digits_range l : Forall is_byte l -> Forall (fun d => 0 <= d < 64) (b64_digits l).
Proof.
  induction l as [|a|a b|a b c l IH] using list_ind3; cbn [b64_digits]; rewrite ?Forall_cons; intros H; [done|destruct H as [Ha _]|destruct H as (Ha & Hb & _)|].
  1,2: repeat (split; [divmod|]); done.
  destruct H as (Ha & Hb & Hc & Hl). specialize (IH Hl). repeat (split; [divmod|]). done.
Qed.

Lemma of_chars_app l k : of_chars (l ++ k)%list = of_chars l +:+ of_chars k.
Proof. induction l as [|c l IH]; [done|]. cbn [of_chars app]. rewrite IH. done. Qed.
Lemma of_chars_length l : String.length (of_chars l) = List.length l.
Proof. induction l as [|c l IH]; [done|]. cbn. by rewrite IH. Qed.

(** A digit of a complete alphabet character moves the decoder on. *)
Lemma a2b_step quad left pads d s : 0 <= d < 64 -> a2b_base64 quad left pads (String (b64_char d) s) =
  (if quad =? 0 then a2b_base64 1 d 0 s
   else if quad =? 1 then let! r := a2b_base64 2 (d mod 16) 0 s in Ok (left * 4 + d / 16 :: r)
   else if quad =? 2 then let! r := a2b_base64 3 (d mod 4) 0 s in Ok (left * 16 + d / 4 :: r)
   else let! r := a2b_base64 0 0 0 s in Ok (left * 64 + d :: r)).
Proof.
  intros Hd. destruct (b64_char_val d Hd) as (Hv & He & _). cbn [a2b_base64]. rewrite bool_decide_eq_false_2 by done. by rewrite Hv.
Qed.

Lemma b64_digits_length l : Z.of_nat (List.length (b64_digits l)) mod 4 = match (List.length l mod 3)%nat with 0%nat => 0 | 1%nat => 2 | _ => 3 end.
Proof.
  induction l as [|a|a b|a b c l IH] using list_ind3; try done. cbn [b64_digits List.length].
  replace (Z.of_nat (S (S (S (S (List.length (b64_digits l))))))) with (Z.of_nat (List.length (b64_digits l)) + 1 * 4) by lia.
  rewrite Z.mod_add, IH by lia. replace (S (S (S (List.length l)))) with (List.length l + 1 * 3)%nat by lia. by rewrite Nat.Div0.mod_add.
Qed.

Lemma a2b_pads left : a2b_base64 2 left 0 "==" = Ok [] /\ a2b_base64 3 left 0 "=" = Ok [].
Proof. done. Qed.

Lemma a2b_encoded l pad : Forall is_byte l ->
  pad = chars (match (List.length l mod 3)%nat with 0%nat => 0%nat | 1%nat => 2%nat | _ => 1%nat end) "="%char ->
  a2b_base64 0 0 0 (of_chars (map b64_char (b64_digits l)) +:+ pad) = Ok l.
Proof.
  induction l as [|a|a b|a b c l IH] using list_ind3; rewrite ?Forall_cons; intros H ->.
  - done.
  - destruct H as [Ha _]. cbn [b64_digits map of_chars]. rewrite !app_cons_str. do 2 (rewrite a2b_step by divmod; cbn [Z.eqb Pos.eqb]).
    change (chars _ _) with "==". rewrite app_nil_str, (proj1 (a2b_pads _)). cbn [res_bind]. do 2 f_equal. divmod.
  - destruct H as (Ha & Hb & _). cbn [b64_digits map of_chars]. rewrite !app_cons_str. do 3 (rewrite a2b_step by divmod; cbn [Z.eqb Pos.eqb]).
    change (chars _ _) with "=". rewrite app_nil_str, (proj2 (a2b_pads _)). cbn [res_bind]. do 2 f_equal; [divmod|f_equal; divmod].
  - destruct H as (Ha & Hb & Hc & Hl). cbn [b64_digits map of_chars]. rewrite !app_cons_str. do 4 (rewrite a2b_step by divmod; cbn [Z.eqb Pos.eqb]).
    rewrite IH; [|done|].
    + cbn [res_bind]. do 2 f_equal; [divmod|f_equal; [divmod|f_equal; divmod]].
    + cbn [List.length]. replace (S (S (S (List.length l)))) with (List.length l + 1 * 3)%nat by lia. by rewrite Nat.Div0.mod_add.
Qed.

Lemma chars_ascii n c : (cp c < 128)%N -> str_isascii (chars n c) = true.
Proof. intros Hc. unfold str_isascii. induction n as [|n IH]; [done|]. cbn [chars str_forallb]. rewrite IH. by rewrite (proj2 (N.ltb_lt _ _) Hc). Qed.

Lemma encoded_chars l : Forall is_byte l -> str_isascii (b64encode l) = true /\ split_dot (b64encode l) = None.
Proof.
  intros H%b64_digits_range. unfold b64encode, str_isascii. induction H as [|d ds Hd _ IH]; [done|]. cbn [map of_chars str_forallb split_dot].
  destruct (b64_char_val d Hd) as (_ & _ & Hdot & Hlt). destruct IH as [-> ->]. rewrite bool_decide_eq_false_2 by done.
  by rewrite (proj2 (N.ltb_lt _ _) Hlt).
Qed.

Lemma b64_roundtrip l : Forall is_byte l -> b64decode_padded (b64encode l) = Ok l.
Proof.
  intros H. unfold b64decode_padded. set (n := Z.to_nat _). destruct (encoded_chars l H) as [Ha _].
  assert (str_isascii (b64encode l +:+ chars n "="%char) = true) as ->.
  { pose proof (chars_ascii n "="%char eq_refl) as Hc. unfold str_isascii in *. by rewrite str_forallb_app, Ha, Hc. }
  cbn [negb]. apply a2b_encoded; [done|]. f_equal. subst n. unfold b64encode. rewrite of_chars_length, length_map.
  pose proof (b64_digits_length l) as Hl. set (k := Z.of_nat (List.length (b64_digits l))) in *.
  assert (- k mod 4 = (- (k mod 4)) mod 4) as -> by divmod.
  rewrite Hl. pose proof (Nat.mod_upper_bound (List.length l) 3). destruct (List.length l mod 3)%nat as [|[|[|m]]]; [done..|lia].
Qed.

(** ** Lemmas: tokens *)

Lemma utf8_bytes s : Forall is_byte (utf8 s).
Proof.
  induction s as [|c s IH]; cbn [utf8]; [done|]. assert (0 <= Z.of_N (cp c) < 256) by (pose proof (N_ascii_bounded c); unfold cp; lia).
  apply Forall_app. split; [|done]. destruct (Z.ltb_spec (Z.of_N (cp c)) 128); repeat (apply Forall_cons; split); try done; divmod.
Qed.

Lemma hmac_sha256_bytes k m : Forall is_byte (hmac sha256 k m).
Proof. apply sha256_bytes. Qed.

Lemma hex_char_ascii n : 0 <= n < 16 -> (cp (hex_char n) < 128)%N.
Proof.
  intros Hn. unfold hex_char, cp. rewrite N_ascii_embedding; [destruct (n <? 10) eqn:E; lia|]. destruct (n <? 10) eqn:E; lia.
Qed.
Lemma hexdigest_ascii l : Forall is_byte l -> str_isascii (hexdigest l) = true.
Proof.
  unfold str_isascii. induction 1 as [|b l Hb _ IH]; [done|]. cbn [hexdigest str_forallb]. rewrite IH, !andb_true_r.
  apply andb_true_intro. split; apply N.ltb_lt, hex_char_ascii; divmod.
Qed.

Lemma signature_ascii secret payload : str_isascii (signature secret payload) = true.
Proof. apply hexdigest_ascii, hmac_sha256_bytes. Qed.

Lemma compare_digest_ok a b : str_isascii a = true -> str_isascii b = true -> compare_digest a b = Ok (bool_decide (a = b)).
Proof. unfold compare_digest. by intros -> ->. Qed.
Lemma compare_digest_true a b : compare_digest a b = Ok true -> a = b.
Proof. unfold compare_digest. destruct (_ && _); [|done]. by intros [= H%bool_decide_eq_true]. Qed.

Lemma split_dot_spec a b : split_dot a = None -> split_dot (a +:+ String "." b) = Some (a, b).
Proof.
  induction a as [|c a IH]; [done|]. rewrite app_cons_str. cbn [split_dot]. case_bool_decide; [done|].
  destruct (split_dot a) as [[? ?]|]; [done|]. intros _. by rewrite IH.
Qed.
Lemma split_dot_inv t a b : split_dot t = Some (a, b) -> t = a +:+ String "." b /\ split_dot a = None.
Proof.
  revert a b. induction t as [|c t IH]; intros a b; [done|]. cbn [split_dot]. case_bool_decide as Hc.
  - intros [= <- <-]. by subst.
  - destruct (split_dot t) as [[x y]|]; [|done]. intros [= <- <-]. destruct (IH x y eq_refl) as [-> Hx]. split; [done|].
    cbn [split_dot]. by rewrite bool_decide_eq_false_2, Hx.
Qed.

Lemma no_dot s : str_forallb is_digit s = true -> split_dot s = None.
Proof.
  induction s as [|c s IH]; [done|]. cbn [str_forallb split_dot]. intros [Hc Hs]%andb_prop. rewrite IH by done.
  by rewrite bool_decide_eq_false_2 by (intros ->; done).
Qed.

Section session_facts.
Context (loads : list Z -> res pyval).
Definition reads_claims : Prop := forall uid exp sv, loads (utf8 (emit (VDict (claims uid exp sv)))) = Ok (VDict (claims uid exp sv)).

(** What an accepted token is: a payload under its own signature. *)
Lemma accepted_signed token secret now c : read_session loads token secret now = Ok (Some c) ->
  exists payload, token = payload +:+ "." +:+ signature secret payload /\ split_dot token = Some (payload, signature secret payload).
Proof.
  unfold read_session. destruct (split_dot token) as [[payload sig]|] eqn:Es; [|done].
  destruct (compare_digest sig (signature secret payload)) as [[|]|] eqn:Ec; cbn [res_bind negb]; [|done..]. intros _.
  apply compare_digest_true in Ec as ->. exists payload. split; [|done]. by apply split_dot_inv in Es as [-> _].
Qed.

Lemma before_int z now : before (VInt z) now = Ok (z * second_us <? now).
Proof. unfold before. cbn [as_num]. by rewrite Z.mul_1_r. Qed.
Lemma claims_get uid exp sv : default (VInt 0) (dget "exp" (claims uid exp sv)) = VInt exp /\ vget "uid" (claims uid exp sv) = VInt uid /\
  default (VInt 0) (dget "sv" (claims uid exp sv)) = VInt sv.
Proof. unfold claims. by destruct (Z.eqb_spec sv 0) as [->|]. Qed.

Lemma read_signed uid secret ttl sv now now' : reads_claims ->
  read_session loads (sign_session uid secret ttl sv now) secret now' =
  Ok (if (now / second_us + ttl * 3600) * second_us <? now' then None else Some (uid, sv)).
Proof.
  intros Hl. unfold read_session, sign_session. set (exp := now / second_us + ttl * 3600). set (payload := b64encode _).
  destruct (encoded_chars (utf8 (emit (VDict (claims uid exp sv)))) (utf8_bytes _)) as [_ Hd].
  change ("." +:+ signature secret payload) with (String "." (signature secret payload)). rewrite split_dot_spec by exact Hd.
  rewrite compare_digest_ok by apply signature_ascii. rewrite bool_decide_eq_true_2 by done. cbn [res_bind negb].
  unfold payload. rewrite b64_roundtrip by apply utf8_bytes. cbn [res_bind]. rewrite Hl. destruct (claims_get uid exp sv) as (-> & -> & ->). rewrite before_int. cbn [res_bind as_int].
  by destruct (_ <? now').
Qed.

(** a session token is honoured until the second it expires and says who signed
    in. Reading back what was signed, under the same key, gives exactly the user and
    the session version signed, up to and including the expiry, and nothing after
    it; the portal's reader gives the same subject. *)
Theorem sessions_expire_on_time uid secret ttl sv now now' : reads_claims ->
  let live := now' <= (now / second_us + ttl * 3600) * second_us in
  read_session loads (sign_session uid secret ttl sv now) secret now' = Ok (if decide live then Some (uid, sv) else None) /\
  verify_session loads (sign_session uid secret ttl sv now) secret now' = Ok (if decide live then Some uid else None).
Proof.
  intros Hl. cbv zeta. unfold verify_session. rewrite read_signed by done. destruct (Z.ltb_spec ((now / second_us + ttl * 3600) * second_us) now').
  - rewrite !decide_False by lia. done.
  - rewrite !decide_True by lia. done.
Qed.

(** a token cannot be made without the key. Whatever the reader of the claims
    does, an accepted token is a payload followed by its HMAC under the secret, so
    two accepted tokens with the same payload are the same; and a token accepted
    under two keys shows a message on which their HMACs agree. The keys of the
    pending second factor and of the portal are HMACs of the session key: that is
    all that keeps their tokens from being sessions. *)
Theorem sessions_need_the_key token secret now c : read_session loads token secret now = Ok (Some c) ->
  exists payload, token = payload +:+ "." +:+ hexdigest (hmac sha256 (utf8 secret) (utf8 payload)) /\
    (forall sig now2 c2, read_session loads (payload +:+ String "." sig) secret now2 = Ok (Some c2) -> payload +:+ String "." sig = token) /\
    (forall secret2 now2 c2, read_session loads token secret2 now2 = Ok (Some c2) ->
       hmac sha256 (utf8 secret2) (utf8 payload) = hmac sha256 (utf8 secret) (utf8 payload)).
Proof.
  intros (payload & -> & Hs)%accepted_signed. exists payload. split; [done|]. pose proof (split_dot_inv _ _ _ Hs) as [_ Hd]. split.
  - intros sig now2 c2 (p2 & Ht & Hs2)%accepted_signed. rewrite split_dot_spec in Hs2 by done. injection Hs2 as <- ->. done.
  - intros secret2 now2 c2 (p2 & Ht & Hs2)%accepted_signed. rewrite Hs in Hs2. injection Hs2 as <- Hsig. symmetry.
    apply hexdigest_inj; [apply hmac_sha256_bytes..|done].
Qed.

Lemma pretty_stamp z : 0 <= z < 2 ^ 63 -> split_dot (pretty z) = None /\ py_int (pretty z) = Ok z /\ float_overflows z = false.
Proof.
  intros Hz. split; [apply no_dot, pretty_digits; lia|]. split; [by apply py_int_pretty|]. unfold float_overflows.
  apply Z.leb_gt. change (2 ^ 63) with 9223372036854775808 in Hz. rewrite Z.abs_eq by lia.
  eapply Z.lt_trans; [apply Hz|]. vm_compute. reflexivity.
Qed.

Lemma read_stamped stamp inner base now' : 0 <= stamp < 2 ^ 63 ->
  read_mfa_pending loads (pretty stamp +:+ "." +:+ inner) base now' =
  if (300 * second_us <? now' - stamp * second_us) || (now' + second_us <? stamp * second_us) then Ok None
  else read_session loads inner (mfa_pending_secret base) now'.
Proof.
  intros Hs. destruct (pretty_stamp stamp Hs) as (Hd & Hi & Hf). unfold read_mfa_pending.
  change ("." +:+ inner) with (String "." inner). by rewrite split_dot_spec, Hi, Hf by done.
Qed.

(** the five-minute window of a pending second factor is not signed. A pending
    token is read back, as the user and session version it was minted for, from one
    second before its stamp to 300 seconds after it. But the stamp stands outside
    the signature: whoever holds the token can put the current time in its place,
    and the result is accepted until the signed expiry an hour later. *)
Theorem pending_window_is_not_signed uid sv base now : reads_claims -> 0 <= now / second_us < 2 ^ 62 ->
  let stamp := now / second_us in
  (forall now', read_mfa_pending loads (mint_mfa_pending uid sv base now) base now' =
     Ok (if decide (stamp * second_us - second_us <= now' <= stamp * second_us + 300 * second_us) then Some (uid, sv) else None)) /\
  exists inner, mint_mfa_pending uid sv base now = pretty stamp +:+ "." +:+ inner /\
    forall now', now <= now' <= (stamp + 3600) * second_us ->
      read_mfa_pending loads (pretty (now' / second_us) +:+ "." +:+ inner) base now' = Ok (Some (uid, sv)).
Proof.
  intros Hl Hn. cbv zeta. unfold mint_mfa_pending. set (stamp := now / second_us) in *.
  assert (Hpow : 2 ^ 63 = 2 * 2 ^ 62) by reflexivity. split; [intros now'|eexists; split; [reflexivity|intros now' Hn']].
  - rewrite read_stamped by lia. destruct (decide _) as [Hw|Hw].
    + rewrite (proj2 (Z.ltb_ge _ _)), (proj2 (Z.ltb_ge _ _)) by lia. cbn [orb]. rewrite read_signed by done. fold stamp.
      unfold second_us in *. by rewrite (proj2 (Z.ltb_ge _ _)) by lia.
    + destruct (Z.ltb_spec (300 * second_us) (now' - stamp * second_us)); [done|].
      destruct (Z.ltb_spec (now' + second_us) (stamp * second_us)); [done|]. lia.
  - assert (stamp <= now' / second_us <= stamp + 3600) as Hs.
    { subst stamp. split; [apply Z.div_le_mono; [done|lia]|]. apply Z.div_le_upper_bound; [done|lia]. }
    assert (0 <= now' mod second_us < second_us) as Hm by by apply Z.mod_pos_bound.
    pose proof (Z.div_mod now' second_us ltac:(done)) as Hdm.
    rewrite read_stamped by lia. rewrite (proj2 (Z.ltb_ge _ _)), (proj2 (Z.ltb_ge _ _)) by (unfold second_us in *; lia). cbn [orb].
    rewrite read_signed by done. fold stamp. by rewrite (proj2 (Z.ltb_ge _ _)) by (unfold second_us in *; lia).
Qed.
End session_facts.

(** ** Lemmas: passwords *)

Lemma lxor_byte a b : is_byte a -> is_byte b -> is_byte (Z.lxor a b).
Proof.
  unfold is_byte. intros Ha Hb. change 256 with (2 ^ 8) in *. split; [apply Z.lxor_nonneg; lia|].
  destruct (Z.eq_dec (Z.lxor a b) 0) as [->|Hne]; [lia|]. apply Z.log2_lt_pow2; [assert (0 <= Z.lxor a b) by (apply Z.lxor_nonneg; lia); lia|].
  eapply Z.le_lt_trans; [apply Z.log2_lxor; lia|]. apply Z.max_lub_lt.
  - destruct (Z.eq_dec a 0) as [->|]; [done|]. apply Z.log2_lt_pow2; lia.
  - destruct (Z.eq_dec b 0) as [->|]; [done|]. apply Z.log2_lt_pow2; lia.
Qed.
Lemma zip_xor_bytes l k : Forall is_byte l -> Forall is_byte k -> Forall is_byte (zip_with Z.lxor l k).
Proof.
  intros Hl. revert k. induction Hl as [|a l Ha _ IH]; intros k Hk; [constructor|]. destruct Hk as [|b k Hb Hk]; [constructor|].
  cbn [zip_with]. constructor; [by apply lxor_byte|by apply IH].
Qed.
Lemma pbkdf2_bytes pw salt rounds dk : pbkdf2_hmac pw salt rounds = Ok dk -> Forall is_byte dk.
Proof.
  unfold pbkdf2_hmac. destruct (rounds <? 1) eqn:E; [done|]. destruct (2147483647 <? rounds); [done|]. intros [= <-].
  assert (forall n s, Forall is_byte s.2 -> Forall is_byte (Z.iter n (pbkdf2_step pw) s).2) as H; [|apply H, hmac_sha256_bytes].
  intros n s Hs. destruct n as [|n|n]; [done| |done]. apply (Pos.iter_invariant n _ (pbkdf2_step pw) (fun s => Forall is_byte s.2)); [|done].
  intros x Hx. apply zip_xor_bytes; [done|apply hmac_sha256_bytes].
Qed.

Lemma hash_rounds pw salt : exists dk, pbkdf2_hmac pw salt PBKDF2_ROUNDS = Ok dk.
Proof. unfold pbkdf2_hmac, PBKDF2_ROUNDS. change (210000 <? 1) with false. change (2147483647 <? 210000) with false. by eexists. Qed.

Lemma hex_no_dollar s l : fromhex s = Ok l -> str_mem "$" s = false.
Proof.
  assert (forall n s l, (String.length s <= n)%nat -> fromhex s = Ok l -> str_mem "$" s = false) as H; [|by eapply H].
  induction n as [|n IH]; intros [|a s1] k Hn; try done; cbn [String.length] in Hn; [lia|]. cbn [fromhex str_mem].
  destruct (is_ascii_space a) eqn:Ea.
  - intros H. rewrite (IH s1 k) by (done || lia). rewrite bool_decide_eq_false_2; [done|]. by intros ->.
  - destruct s1 as [|b s2]; [done|]. destruct (hex_val a) eqn:Va; [|done]. destruct (hex_val b) eqn:Vb; [|done].
    destruct (fromhex s2) as [r|] eqn:Er; [|done]. intros _. cbn [String.length] in Hn. cbn [str_mem]. rewrite (IH s2 r) by (done || lia).
    rewrite !bool_decide_eq_false_2; [done|by intros ->..].
Qed.

Lemma split_on_cons c s t : str_mem c s = false -> split_on c (s +:+ String c t) = s :: split_on c t.
Proof.
  induction s as [|d s IH]; cbn [str_mem]; intros H; [rewrite app_nil_str; cbn [split_on]; by rewrite decide_True|].
  apply orb_false_elim in H as [Hd Hs]. apply bool_decide_eq_false in Hd. rewrite app_cons_str. cbn [split_on].
  rewrite decide_False by done. by rewrite IH.
Qed.
Lemma split_on_last c s : str_mem c s = false -> split_on c s = [s].
Proof.
  induction s as [|d s IH]; cbn [str_mem split_on]; intros H; [done|]. apply orb_false_elim in H as [Hd%bool_decide_eq_false Hs].
  rewrite decide_False by done. by rewrite IH.
Qed.

Lemma hexdigest_no_dollar l : Forall is_byte l -> str_mem "$" (hexdigest l) = false.
Proof.
  assert (Hh : forall n, 0 <= n < 16 -> bool_decide (hex_char n = "$"%char) = false).
  { intros n Hn. apply bool_decide_eq_false_2. intros E. apply (f_equal cp) in E. unfold hex_char, cp in E.
    rewrite N_ascii_embedding in E; [|destruct (n <? 10) eqn:X; lia]. cbn in E. destruct (n <? 10) eqn:X; lia. }
  induction 1 as [|b l Hb _ IH]; [done|]. cbn [hexdigest str_mem]. rewrite IH, !Hh by divmod. done.
Qed.

Lemma split_stored salt digest : str_mem "$" salt = false -> str_mem "$" digest = false ->
  split_on "$" ("pbkdf2_sha256$" +:+ pretty PBKDF2_ROUNDS +:+ "$" +:+ salt +:+ "$" +:+ digest) =
  ["pbkdf2_sha256"; pretty PBKDF2_ROUNDS; salt; digest].
Proof.
  intros Hs Hd. change ("pbkdf2_sha256$" +:+ pretty PBKDF2_ROUNDS +:+ "$" +:+ salt +:+ "$" +:+ digest) with
    ("pbkdf2_sha256" +:+ String "$" ("210000" +:+ String "$" (salt +:+ String "$" digest))).
  rewrite (split_on_cons "$" "pbkdf2_sha256") by reflexivity. rewrite (split_on_cons "$" "210000") by reflexivity.
  rewrite (split_on_cons "$" salt) by exact Hs. by rewrite (split_on_last "$" digest) by exact Hd.
Qed.
Lemma verify_malformed attempt s : List.length (split_on "$" s) <> 4%nat -> verify_password attempt (Some s) = Ok false.
Proof.
  intros Hl. unfold verify_password. destruct (negb _); [reflexivity|]. cbn [or_empty default from_option id].
  destruct (split_on "$" s) as [|a [|b [|c [|d [|? ?]]]]]; try reflexivity. by destruct Hl.
Qed.

(** a stored password is verified by the password it was made from and by no
    other with a different derived key; a missing or unreadable stored value
    verifies nothing and raises nothing. *)
Theorem passwords_verify password salt bytes : fromhex salt = Ok bytes ->
  exists stored dk, hash_password password salt = Ok stored /\ pbkdf2_hmac (utf8 password) bytes PBKDF2_ROUNDS = Ok dk /\
    (forall attempt, exists dk', pbkdf2_hmac (utf8 attempt) bytes PBKDF2_ROUNDS = Ok dk' /\
       verify_password attempt (Some stored) = Ok (bool_decide (dk' = dk))) /\
    (forall attempt, verify_password attempt None = Ok false) /\
    forall attempt s, List.length (split_on "$" s) <> 4%nat -> verify_password attempt (Some s) = Ok false.
Proof.
  intros Hs. destruct (hash_rounds (utf8 password) bytes) as [dk Hdk]. unfold hash_password. rewrite Hs. cbn [res_bind]. rewrite Hdk. cbn [res_bind].
  eexists _, dk. split; [reflexivity|]. split; [reflexivity|]. split; [|split; [reflexivity|]].
  - intros attempt. destruct (hash_rounds (utf8 attempt) bytes) as [dk' Hdk']. exists dk'. split; [exact Hdk'|].
    pose proof (pbkdf2_bytes _ _ _ _ Hdk) as Hb. pose proof (pbkdf2_bytes _ _ _ _ Hdk') as Hb'. unfold verify_password. cbn [or_empty default from_option id].
    rewrite split_stored; [|eapply hex_no_dollar; exact Hs|apply hexdigest_no_dollar; exact Hb].
    rewrite Hs. cbn [res_bind]. change (py_int (pretty PBKDF2_ROUNDS)) with (Ok PBKDF2_ROUNDS : res Z). cbn [res_bind]. rewrite Hdk'.
    rewrite compare_digest_ok by by apply hexdigest_ascii. destruct (str_truthy _) eqn:Et; [|done]. cbn [negb]. f_equal. apply bool_decide_ext.
    split; [|by intros ->]. by apply hexdigest_inj.
  - apply verify_malformed.
Qed.

(** ** A worked example *)

(** A reader of the claims [sign_session] prints. *)
Definition drop_prefix (pre s : string) : option string := if startswith pre s then Some (str_drop (String.length pre) s) else None.
Definition read_num (s : string) : Z * string :=
  let '(neg, u) := sign_of s in
  let n := digits_val (take_while is_digit u) in (if neg then - n else n, drop_while is_digit u).
Fixpoint from_bytes (l : list Z) : string :=
  match l with [] => "" | b :: l' => String (ascii_of_N (Z.to_N b)) (from_bytes l') end.
Definition demo_loads (raw : list Z) : res pyval :=
  let bad := Exn "JSONDecodeError" "Expecting value" in
  let quoted k := String quote2 (k +:+ String quote2 ":") in
  match drop_prefix ("{" +:+ quoted "uid") (from_bytes raw) with
  | None => Err bad
  | Some r =>
      let '(uid, r) := read_num r in
      match drop_prefix ("," +:+ quoted "exp") r with
      | None => Err bad
      | Some r =>
          let '(exp, r) := read_num r in
          match drop_prefix ("," +:+ quoted "sv") r with
          | None => Ok (VDict [("uid", VInt uid); ("exp", VInt exp)])
          | Some r => Ok (VDict [("uid", VInt uid); ("exp", VInt exp); ("sv", VInt (read_num r).1)])
          end
      end
  end.

Lemma from_bytes_utf8 s : str_isascii s = true -> from_bytes (utf8 s) = s.
Proof.
  unfold str_isascii. induction s as [|c s IH]; [done|]. cbn [str_forallb utf8]. intros [Hc%N.ltb_lt Hs]%andb_prop.
  rewrite (proj2 (Z.ltb_lt _ _)) by lia. cbn [app from_bytes]. rewrite IH by done. f_equal. rewrite N2Z.id. apply ascii_N_embedding.
Qed.

Lemma read_num_pretty z r : match r with EmptyString => True | String c _ => is_digit c = false end -> read_num (pretty z +:+ r) = (z, r).
Proof.
  intros Hr. assert (Hd : forall s, str_forallb is_digit s = true -> drop_while is_digit (s +:+ r) = r).
  { induction s as [|c s IH]; cbn [str_forallb]; intros H; [rewrite app_nil_str; destruct r as [|c r]; [done|]; cbn [drop_while]; by rewrite Hr|].
    apply andb_prop in H as [Hc Hs]. rewrite app_cons_str. cbn [drop_while]. rewrite Hc. by apply IH. }
  assert (Hp : forall n : N, str_forallb is_digit (pretty n) = true).
  { intros n. destruct (pretty_digits (Z.of_N n) ltac:(lia)) as [H _]. by destruct n. }
  assert (Hs : forall n : N, sign_of (pretty n +:+ r) = (false, pretty n +:+ r)).
  { intros n. pose proof (Hp n) as H. destruct (pretty_digits (Z.of_N n) ltac:(lia)) as [_ Hne]. assert (pretty n <> "") as Hne' by by destruct n.
    destruct (pretty n) as [|c s]; [done|]. cbn [str_forallb] in H. apply andb_prop in H as [Hc _]. rewrite app_cons_str. cbn [sign_of].
    rewrite !decide_False by (intros ->; done). done. }
  assert (Hv : forall n : N, digits_val (take_while is_digit (pretty n +:+ r)) = Z.of_N n).
  { intros n. rewrite take_while_app; [apply digits_val_pretty|apply Hp|done]. }
  unfold read_num. destruct z as [|p|p].
  - change (pretty 0) with (pretty 0%N). rewrite Hs, Hv, Hd by apply Hp. done.
  - change (pretty (Z.pos p)) with (pretty (N.pos p)). rewrite Hs, Hv, Hd by apply Hp. done.
  - change (pretty (Z.neg p)) with (String "-" (pretty (N.pos p))). rewrite app_cons_str. cbn [sign_of]. rewrite decide_True by done.
    rewrite Hv, Hd by apply Hp. done.
Qed.

Lemma drop_prefix_app p s : drop_prefix p (p +:+ s) = Some s.
Proof.
  unfold drop_prefix. assert (startswith p (p +:+ s) = true /\ str_drop (String.length p) (p +:+ s) = s) as [-> ->]; [|done].
  induction p as [|c p IH]; [done|]. rewrite app_cons_str. cbn [startswith str_drop String.length]. by rewrite decide_True.
Qed.

Lemma demo_reads : reads_claims demo_loads.
Proof.
  intros uid exp sv. unfold demo_loads. rewrite from_bytes_utf8.
  2: { assert (float_free (VDict (claims uid exp sv)) = true) as Hf%emit_printable by (unfold claims; by destruct (sv =? 0)).
       unfold str_isascii. revert Hf. generalize (emit (VDict (claims uid exp sv))). intros s. induction s as [|c s IH]; [done|].
       cbn [str_forallb]. intros [Hc Hs]%andb_prop. rewrite IH by done. rewrite andb_true_r. apply N.ltb_lt. apply andb_prop in Hc as [_ Hc%N.leb_le]. lia. }
  set (quoted := fun k => String quote2 (k +:+ String quote2 ":")). unfold claims.
  destruct (Z.eqb_spec sv 0) as [->|Hsv].
  - replace (emit _) with (("{" +:+ quoted "uid") +:+ pretty uid +:+ ("," +:+ quoted "exp") +:+ pretty exp +:+ "}") by (cbn [emit map join app fst snd]; str_simp; reflexivity).
    rewrite drop_prefix_app, read_num_pretty, drop_prefix_app, read_num_pretty by done. done.
  - replace (emit _) with (("{" +:+ quoted "uid") +:+ pretty uid +:+ ("," +:+ quoted "exp") +:+ pretty exp +:+ ("," +:+ quoted "sv") +:+ pretty sv +:+ "}")
      by (cbn [emit map join app fst snd]; str_simp; reflexivity).
    rewrite drop_prefix_app, read_num_pretty, drop_prefix_app, read_num_pretty, drop_prefix_app, read_num_pretty by done. done.
Qed.

Definition demo_now : Z := 1700000000 * second_us.
Definition demo_token : string := sign_session 7 "session key" 12 2 demo_now.

Lemma sessions_expire_witness :
  read_session demo_loads demo_token "session key" (demo_now + 3600 * second_us) = Ok (Some (7, 2)) /\
  read_session demo_loads demo_token "session key" (demo_now + 43201 * second_us) = Ok None.
Proof.
  destruct (sessions_expire_on_time demo_loads 7 "session key" 12 2 demo_now (demo_now + 3600 * second_us) demo_reads) as [H1 _].
  destruct (sessions_expire_on_time demo_loads 7 "session key" 12 2 demo_now (demo_now + 43201 * second_us) demo_reads) as [H2 _].
  split; [exact H1|exact H2].
Defined.

Lemma sessions_key_witness : exists payload,
  demo_token = payload +:+ "." +:+ hexdigest (hmac sha256 (utf8 "session key") (utf8 payload)).
Proof.
  destruct (sessions_need_the_key demo_loads demo_token "session key" demo_now (7, 2)) as (payload & H & _).
  - apply (read_signed demo_loads 7 "session key" 12 2 demo_now demo_now demo_reads).
  - exists payload. exact H.
Defined.

Lemma pending_window_witness : exists inner,
  mint_mfa_pending 7 2 "session key" demo_now = "1700000000." +:+ inner /\
  read_mfa_pending demo_loads (mint_mfa_pending 7 2 "session key" demo_now) "session key" (demo_now + 400 * second_us) = Ok None /\
  read_mfa_pending demo_loads ("1700000400." +:+ inner) "session key" (demo_now + 400 * second_us) = Ok (Some (7, 2)).
Proof.
  destruct (pending_window_is_not_signed demo_loads 7 2 "session key" demo_now demo_reads) as [H (inner & E & H2)].
  - vm_compute. split; [discriminate|reflexivity].
  - exists inner. split; [exact E|]. split; [exact (H (demo_now + 400 * second_us))|]. apply (H2 (demo_now + 400 * second_us)).
    vm_compute. split; discriminate.
Defined.

Lemma passwords_witness : exists stored, hash_password "correct horse" "00ff" = Ok stored /\
  verify_password "correct horse" (Some stored) = Ok true /\ verify_password "anything" (Some "plain text") = Ok false.
Proof.
  destruct (passwords_verify "correct horse" "00ff" [0; 255] eq_refl) as (stored & dk & H1 & H2 & H3 & _ & H5). exists stored. split; [exact H1|].
  destruct (H3 "correct horse") as (dk' & H4 & ->). rewrite H4 in H2. injection H2 as ->. split; [by rewrite bool_decide_eq_true_2|].
  apply H5. discriminate.
Defined.
