(* ===== verification/SignIn.v ===== *)
(** Signing in and being let in: the login service ([src/src/ccf/api/login_service.py]),
    its two surfaces ([api/routes/auth.py], and the login, second-factor and security
    handlers of [api/routes/ui.py]), the policies of [identity/mfa_service.py] with
    their caches, the gate and the dependencies of [api/auth_deps.py].

    A handler gives its answer (an exception that is no HTTP answer is a server
    error) and the tables as committed. [loads] stands for [json.loads], [decrypt]
    for the envelope cipher. [now] is the wall clock and [mono] the monotonic one,
    in microseconds. The counters are written as the changes of one loaded object,
    so that requests can be interleaved between reading and committing. *)

From S2P Require Import AuditChain.
From S2P Require Export Sessions Mfa.

Local Open Scope string_scope.
Local Open Scope Z_scope.

(** ** Data *)

Record Settings := {
  auth_enabled : bool;
  metrics_require_auth : bool;
  auth_session_secret : string;
  auth_session_ttl_hours : Z;
  auth_lockout_threshold : Z;
  auth_lockout_minutes : Z }.

(** [us_factor]: the user's credential and recovery codes. [us_full_name] is the value
    handed to the column. *)
Record User := {
  us_id : Z;
  us_organization_id : Z;
  us_email : string;
  us_full_name : pyval;
  us_role : string;
  us_active : bool;
  us_password_hash : option string;
  us_api_token_hash : option string;
  us_failed_login_attempts : Z;
  us_locked_until : option Z;
  us_session_version : Z;
  us_factor : MfaUser }.

Record System := { sy_id : Z; sy_organization_id : Z; sy_deleted_at : option Z }.

(** Users, the organizations' second-factor policies, systems, and the events
    handed to the audit chain. *)
Record Tables := {
  tb_users : list User;
  tb_policies : gmap Z string;
  tb_systems : list System;
  tb_events : list Event }.

Record Principal := { pr_user_id : option Z; pr_email : string; pr_org_id : option Z; pr_role : string }.
Definition is_global (p : Principal) : bool := bool_decide (pr_org_id p = None).
Definition SYSTEM_PRINCIPAL : Principal :=
  {| pr_user_id := None; pr_email := "system"; pr_org_id := None; pr_role := "admin" |}.

#[export] Instance mfa_credential_eq_dec : EqDecision MfaCredential.
Proof. solve_decision. Defined.
#[export] Instance recovery_code_eq_dec : EqDecision RecoveryCode.
Proof. solve_decision. Defined.
#[export] Instance mfa_user_eq_dec : EqDecision MfaUser.
Proof. solve_decision. Defined.
#[export] Instance principal_eq_dec : EqDecision Principal.
Proof. solve_decision. Defined.

(** An answer: its status, where it redirects, its body, and the session and
    pending cookies it sets. *)
Record Response := {
  rs_status : Z;
  rs_location : option string;
  rs_body : pyval;
  rs_session : option string;
  rs_pending : option string }.

Definition HTTPException (status : Z) (detail : string) : Response :=
  {| rs_status := status; rs_location := None; rs_body := VDict [("detail", VStr detail)]; rs_session := None; rs_pending := None |}.
Definition RedirectResponse (url : string) : Response :=
  {| rs_status := 303; rs_location := Some url; rs_body := VNone; rs_session := None; rs_pending := None |}.
Definition answer (status : Z) (body : pyval) : Response :=
  {| rs_status := status; rs_location := None; rs_body := body; rs_session := None; rs_pending := None |}.
Definition set_session (token : string) (r : Response) : Response :=
  {| rs_status := rs_status r; rs_location := rs_location r; rs_body := rs_body r; rs_session := Some token; rs_pending := rs_pending r |}.
Definition set_pending (token : string) (r : Response) : Response :=
  {| rs_status := rs_status r; rs_location := rs_location r; rs_body := rs_body r; rs_session := rs_session r; rs_pending := Some token |}.

Definition handled : Type := res Response * Tables.
(** An exception leaves the tables as last committed. *)
Definition attempt {A} (m : res A) (db : Tables) (k : A -> handled) : handled :=
  match m with Ok a => k a | Err e => (Err e, db) end.

(** ** Rows *)

Definition with_counters (attempts : Z) (until : option Z) (u : User) : User :=
  {| us_id := us_id u; us_organization_id := us_organization_id u; us_email := us_email u; us_full_name := us_full_name u; us_role := us_role u;
     us_active := us_active u; us_password_hash := us_password_hash u; us_api_token_hash := us_api_token_hash u;
     us_failed_login_attempts := attempts; us_locked_until := until; us_session_version := us_session_version u;
     us_factor := us_factor u |}.
Definition with_factor (f : MfaUser) (u : User) : User :=
  {| us_id := us_id u; us_organization_id := us_organization_id u; us_email := us_email u; us_full_name := us_full_name u; us_role := us_role u;
     us_active := us_active u; us_password_hash := us_password_hash u; us_api_token_hash := us_api_token_hash u;
     us_failed_login_attempts := us_failed_login_attempts u; us_locked_until := us_locked_until u;
     us_session_version := us_session_version u; us_factor := f |}.
Definition with_version (v : Z) (u : User) : User :=
  {| us_id := us_id u; us_organization_id := us_organization_id u; us_email := us_email u; us_full_name := us_full_name u; us_role := us_role u;
     us_active := us_active u; us_password_hash := us_password_hash u; us_api_token_hash := us_api_token_hash u;
     us_failed_login_attempts := us_failed_login_attempts u; us_locked_until := us_locked_until u;
     us_session_version := v; us_factor := us_factor u |}.

(** A commit writes to the row the columns that changed since it was loaded. *)
Definition changed {A} `{EqDecision A} (old new row : A) : A := if decide (new = old) then row else new.
Definition flush (old new row : User) : User :=
  with_factor (changed (us_factor old) (us_factor new) (us_factor row))
    (with_counters (changed (us_failed_login_attempts old) (us_failed_login_attempts new) (us_failed_login_attempts row))
       (changed (us_locked_until old) (us_locked_until new) (us_locked_until row)) row).
Definition set_users (us : list User) (db : Tables) : Tables :=
  {| tb_users := us; tb_policies := tb_policies db; tb_systems := tb_systems db; tb_events := tb_events db |}.
Definition add_event (e : Event) (db : Tables) : Tables :=
  {| tb_users := tb_users db; tb_policies := tb_policies db; tb_systems := tb_systems db; tb_events := (tb_events db ++ [e])%list |}.
Definition store (old new : User) (db : Tables) : Tables :=
  set_users (map (fun r => if us_id r =? us_id old then flush old new r else r) (tb_users db)) db.

(** [session.get(User, id)] *)
Definition get_user (id : Z) (db : Tables) : option User := List.find (fun u => us_id u =? id) (tb_users db).
Definition user_where (p : User -> bool) (db : Tables) : res (option User) :=
  scalar_one_or_none (List.filter p (tb_users db)).

(** ** The login service *)

Inductive LoginResult := OK | INVALID | LOCKED | MFA_REQUIRED.

Section service.
Context (settings : Settings) (loads : list Z -> res pyval).
Context (encrypt : string -> string) (decrypt : string -> res string).

Definition locked (now : Z) (u : User) : bool :=
  match us_locked_until u with Some t => now <? t | None => false end.

(** A failure counted on a loaded object, and whether it locks the account. *)
Definition count_failure (now : Z) (u : User) : bool * User :=
  let n := us_failed_login_attempts u + 1 in
  if auth_lockout_threshold settings <=? n
  then (true, with_counters 0 (Some (now + auth_lockout_minutes settings * 60 * second_us)) u)
  else (false, with_counters n (us_locked_until u) u).

Definition cleared_user (u : User) : User :=
  if negb (us_failed_login_attempts u =? 0) || bool_decide (is_Some (us_locked_until u)) then with_counters 0 None u else u.

(** What [authenticate] reads and decides: the object to commit, as it was loaded
    and as it is left, and the result. *)
Definition authenticate_read (email password : string) (now : Z) (db : Tables)
    : res (option (User * User) * LoginResult) :=
  let! user := user_where (fun u => bool_decide (us_email u = email) && us_active u) db in
  match user with
  | None => Ok (None, INVALID)
  | Some u =>
      if locked now u then Ok (None, LOCKED) else
      let! good := verify_password password (us_password_hash u) in
      if negb good then Ok (Some (u, (count_failure now u).2), INVALID)
      else if is_challenged (us_factor u) then Ok (Some (u, u), MFA_REQUIRED)
      else Ok (Some (u, cleared_user u), OK)
  end.

Definition commit_user (patch : option (User * User)) (db : Tables) : Tables :=
  match patch with Some (old, new) => store old new db | None => db end.

Definition authenticate (email password : string) (now : Z) (db : Tables)
    : res (option User * LoginResult * Tables) :=
  let! read := authenticate_read email password now db in
  let '(patch, result) := read in
  Ok (match result with OK | MFA_REQUIRED => snd <$> patch | _ => None end, result, commit_user patch db).

Definition session_token (u : User) (now : Z) : string :=
  sign_session (us_id u) (auth_session_secret settings) (auth_session_ttl_hours settings) (us_session_version u) now.
Definition pending_token (u : User) (now : Z) : string :=
  mint_mfa_pending (us_id u) (us_session_version u) (auth_session_secret settings) now.

Definition revoke_sessions (user_id : Z) (db : Tables) : Tables :=
  set_users (map (fun u => if us_id u =? user_id then with_version (us_session_version u + 1) u else u) (tb_users db)) db.

Definition revoke_sessions_for_request (cookie : option string) (now : Z) (db : Tables) : res Tables :=
  if negb (str_truthy (or_empty cookie)) then Ok db else
  let! claims := read_session loads (or_empty cookie) (auth_session_secret settings) now in
  match claims with None => Ok db | Some (uid, _) => Ok (revoke_sessions uid db) end.

(** ** The API *)

Definition user_body (u : User) (rest : list (string * pyval)) : pyval :=
  VDict ([("email", VStr (us_email u)); ("role", VStr (us_role u)); ("organization_id", VInt (us_organization_id u))] ++ rest)%list.

Definition login (email password : string) (now : Z) (db : Tables) : handled :=
  attempt (authenticate email password now db) db (fun '(user, result, db) =>
  match result, user with
  | LOCKED, _ => (Ok (HTTPException 429 "account temporarily locked"), db)
  | MFA_REQUIRED, Some u =>
      let token := pending_token u now in
      (Ok (set_pending token (answer 200 (VDict [("mfa_required", VBool true); ("mfa_token", VStr token)]))), db)
  | OK, Some u => (Ok (set_session (session_token u now) (answer 200 (user_body u []))), db)
  | _, _ => (Ok (HTTPException 401 "invalid credentials"), db)
  end).

Definition logout (cookie : option string) (now : Z) (db : Tables) : handled :=
  attempt (revoke_sessions_for_request cookie now db) db (fun db =>
  (Ok (answer 200 (VDict [("ok", VBool true)])), db)).

Definition mfa_event (u : User) (action : string) (diff : list (string * pyval)) : Event :=
  {| ev_organization_id := Some (us_organization_id u); ev_actor := us_email u; ev_action := action;
     ev_entity_type := "identity"; ev_entity_id := Some (pretty (us_id u));
     ev_diff := VDict (("event", VStr action) :: diff) |}.

(** [time.time()], as the float the second factor is checked against. *)
Definition time_time (now : Z) : float := fl_of_ratio now second_us.

(** A time-based code, else a recovery code; and the factor it leaves. *)
Definition check_factor (code : string) (now : Z) (f : MfaUser) : res (option string * MfaUser) :=
  let! totp := verify_code decrypt code (time_time now) f in
  if totp.1 : bool then Ok (Some "totp", totp.2) else
  let! recovery := consume_recovery_code code now totp.2 in
  if recovery.1 : bool then Ok (Some "recovery_code", recovery.2) else Ok (None, recovery.2).

(** The account a pending token speaks for, while it still does. *)
Definition pending_user (token : string) (now : Z) (db : Tables) : res (option User) :=
  let! claims := read_mfa_pending loads token (auth_session_secret settings) now in
  match claims with
  | None => Ok None
  | Some (user_id, session_version) =>
      match get_user user_id db with
      | None => Ok None
      | Some u => if negb (us_active u) || negb (us_session_version u =? session_version) then Ok None else Ok (Some u)
      end
  end.

Definition mfa_verify (mfa_token code : string) (now : Z) (db : Tables) : handled :=
  attempt (pending_user mfa_token now db) db (fun user =>
  match user with
  | None => (Ok (HTTPException 401 "invalid or expired login"), db)
  | Some u =>
      if locked now u then (Ok (HTTPException 429 "account temporarily locked"), db) else
      attempt (check_factor code now (us_factor u)) db (fun '(method, f) =>
      match method with
      | None =>
          let '(lock, u') := count_failure now (with_factor f u) in
          (Ok (if lock then HTTPException 429 "account temporarily locked" else HTTPException 401 "invalid code"), store u u' db)
      | Some m =>
          let u' := cleared_user (with_factor f u) in
          (Ok (set_session (session_token u' now) (answer 200 (user_body u' [("mfa_method", VStr m)]))),
           add_event (mfa_event u "mfa_verify" [("method", VStr m)]) (store u u' db))
      end)
  end).

(** ** The pages *)

Definition login_submit (email password : string) (now : Z) (db : Tables) : handled :=
  attempt (authenticate email password now db) db (fun '(user, result, db) =>
  match result, user with
  | LOCKED, _ => (Ok (RedirectResponse "/login?error=locked"), db)
  | MFA_REQUIRED, Some u => (Ok (set_pending (pending_token u now) (RedirectResponse "/login/mfa")), db)
  | OK, Some u => (Ok (set_session (session_token u now) (RedirectResponse "/")), db)
  | _, _ => (Ok (RedirectResponse "/login?error=1"), db)
  end).

Definition login_mfa_submit (cookie : option string) (code : string) (now : Z) (db : Tables) : handled :=
  attempt (pending_user (or_empty cookie) now db) db (fun user =>
  match user with
  | None => (Ok (RedirectResponse "/login?error=1"), db)
  | Some u =>
      if locked now u then (Ok (RedirectResponse "/login?error=locked"), db) else
      attempt (check_factor code now (us_factor u)) db (fun '(method, f) =>
      match method with
      | None =>
          let '(lock, u') := count_failure now (with_factor f u) in
          (Ok (RedirectResponse (if lock then "/login?error=locked" else "/login/mfa?error=1")), store u u' db)
      | Some m =>
          let u' := cleared_user (with_factor f u) in
          (Ok (set_session (session_token u' now) (RedirectResponse "/")),
           add_event (mfa_event u "mfa_verify" [("method", VStr m)]) (store u u' db))
      end)
  end).

Definition logout_ui (cookie : option string) (now : Z) (db : Tables) : handled :=
  attempt (revoke_sessions_for_request cookie now db) db (fun db => (Ok (RedirectResponse "/login"), db)).

(** ** Enrolment, over the API and on the page *)

Definition PRIVILEGED_ROLES : list string := ["admin"; "owner"].

Definition policy_requires_enrolment (u : User) (db : Tables) : bool :=
  let policy := default "optional" (tb_policies db !! us_organization_id u) in
  if bool_decide (policy = "all") then true
  else if bool_decide (policy = "admins") then mem (us_role u) PRIVILEGED_ROLES
  else false.

Definition principal_user (p : Principal) (db : Tables) : option User :=
  match pr_user_id p with Some id => get_user id db | None => None end.

(** [secret] is the one [generate_secret] draws; [url] what [provisioning_uri] makes of it. *)
Definition mfa_enroll (url : string -> string -> string) (p : Principal) (secret : string) (db : Tables) : handled :=
  match principal_user p db with
  | None => (Ok (HTTPException 401 "not signed in"), db)
  | Some u =>
      match begin_enrolment encrypt secret (us_factor u) with
      | Err e => (Ok (HTTPException 409 (exn_msg e)), db)
      | Ok f => (Ok (answer 200 (VDict [("secret", VStr secret); ("manual_entry", VStr (format_for_manual_entry secret));
                                         ("otpauth_uri", VStr (url secret (us_email u)))])),
                 store u (with_factor f u) db)
      end
  end.

Definition mfa_activate (p : Principal) (code : string) (now : Z) (fresh_codes : list string) (db : Tables) : handled :=
  match principal_user p db with
  | None => (Ok (HTTPException 401 "not signed in"), db)
  | Some u =>
      attempt (activate decrypt code (time_time now) now fresh_codes (us_factor u)) db (fun '(codes, f) =>
      match codes with
      | None => (Ok (HTTPException 400 "that code did not match; the authenticator is not active"), db)
      | Some cs => (Ok (answer 200 (VDict [("active", VBool true); ("recovery_codes", VList (map VStr cs))])),
                    add_event (mfa_event u "mfa_activate" []) (store u (with_factor f u) db))
      end)
  end.

(** The authenticator removed, with the codes that bypass it. *)
Definition dropped_factor (now : Z) (f : MfaUser) : Z * MfaUser :=
  revoke_recovery_codes now {| mu_credential := None; mu_codes := mu_codes f |}.

Definition drop_factor (u : User) (now : Z) (db : Tables) : Tables :=
  match mu_credential (us_factor u) with
  | None => db
  | Some _ =>
      let '(revoked, f) := dropped_factor now (us_factor u) in
      add_event (mfa_event u "mfa_disable" [("recovery_codes_revoked", VInt revoked)]) (store u (with_factor f u) db)
  end.

Definition mfa_disable (p : Principal) (now : Z) (db : Tables) : handled :=
  match principal_user p db with
  | None => (Ok (HTTPException 401 "not signed in"), db)
  | Some u =>
      if policy_requires_enrolment u db then (Ok (HTTPException 409 "your organization requires a second factor"), db)
      else (Ok (answer 204 VNone), drop_factor u now db)
  end.

Definition mfa_status (p : Principal) (db : Tables) : Response :=
  match pr_user_id p with
  | None => HTTPException 401 "not signed in"
  | Some id =>
      let user := get_user id db in
      let f := default {| mu_credential := None; mu_codes := [] |} (us_factor <$> user) in
      answer 200 (VDict [("enrolled", VBool (bool_decide (is_Some (mu_credential f)))); ("active", VBool (is_challenged f));
                 ("recovery_codes_remaining", VInt (unused_recovery_code_count f));
                 ("required_by_policy", VBool (match user with Some u => policy_requires_enrolment u db | None => false end))])
  end.

(** The page: the secret and the codes are rendered by the handler that made them. *)
Definition security_enroll (p : Principal) (secret : string) (db : Tables) : handled :=
  match principal_user p db with
  | None => (Ok (RedirectResponse "/login"), db)
  | Some u =>
      match begin_enrolment encrypt secret (us_factor u) with
      | Err _ => (Ok (RedirectResponse "/settings/security?error=active"), db)
      | Ok f => (Ok (answer 200 (VDict [("active_mfa", VBool false); ("pending_mfa", VBool true);
                                         ("required", VBool (policy_requires_enrolment u db)); ("secret", VStr secret)])),
                 store u (with_factor f u) db)
      end
  end.

Definition security_activate (p : Principal) (code : string) (now : Z) (fresh_codes : list string) (db : Tables) : handled :=
  match principal_user p db with
  | None => (Ok (RedirectResponse "/login"), db)
  | Some u =>
      attempt (activate decrypt code (time_time now) now fresh_codes (us_factor u)) db (fun '(codes, f) =>
      match codes with
      | None => (Ok (RedirectResponse "/settings/security?error=code"), db)
      | Some cs => (Ok (answer 200 (VDict [("active_mfa", VBool true); ("pending_mfa", VBool false);
                                            ("required", VBool (policy_requires_enrolment u db));
                                            ("recovery_remaining", VInt (Z.of_nat (List.length cs)));
                                            ("recovery_codes", VList (map VStr cs))])),
                    add_event (mfa_event u "mfa_activate" []) (store u (with_factor f u) db))
      end)
  end.

Definition security_disable (p : Principal) (now : Z) (db : Tables) : handled :=
  match principal_user p db with
  | None => (Ok (RedirectResponse "/login"), db)
  | Some u =>
      if policy_requires_enrolment u db then (Ok (RedirectResponse "/settings/security?error=required"), db)
      else (Ok (RedirectResponse "/settings/security"), drop_factor u now db)
  end.
End service.

(** ** Policies and their caches *)

Definition MFA_POLICIES : list string := ["optional"; "admins"; "all"].
Definition POLICY_TTL : Z := 30 * second_us.

(** The process's caches: a policy by organization, and whether there is any. *)
Record Caches := { ca_policy : gmap Z (Z * string); ca_any : option (Z * bool) }.

Definition forget_policy (organization_id : Z) (c : Caches) : Caches :=
  {| ca_policy := delete organization_id (ca_policy c); ca_any := None |}.

Definition fresh_hit {A} (mono : Z) (hit : option (Z * A)) : option A :=
  match hit with Some (t, v) => if mono - t <? POLICY_TTL then Some v else None | None => None end.

Definition some_policy (policies : gmap Z string) : bool :=
  existsb (fun p => negb (bool_decide (p.2 = "optional"))) (map_to_list policies).

Definition any_organization_requires_mfa (mono : Z) (policies : gmap Z string) (c : Caches) : bool * Caches :=
  match fresh_hit mono (ca_any c) with
  | Some v => (v, c)
  | None => let found := some_policy policies in (found, {| ca_policy := ca_policy c; ca_any := Some (mono, found) |})
  end.

Definition stored_policy (organization_id : Z) (policies : gmap Z string) : string :=
  match policies !! organization_id with Some p => str_or p "optional" | None => "optional" end.

Definition policy_for (mono organization_id : Z) (policies : gmap Z string) (c : Caches) : string * Caches :=
  match fresh_hit mono (ca_policy c !! organization_id) with
  | Some v => (v, c)
  | None => let policy := stored_policy organization_id policies in
            (policy, {| ca_policy := <[organization_id := (mono, policy)]> (ca_policy c); ca_any := ca_any c |})
  end.

(** Whether [user_id] passes [credential_for(...).activated_at]. *)
Definition challenged_user (user_id : Z) (db : Tables) : bool :=
  match get_user user_id db with Some u => is_challenged (us_factor u) | None => false end.

Definition enrolment_outstanding (user_id organization_id : option Z) (role : string) (mono : Z) (db : Tables) (c : Caches)
    : bool * Caches :=
  match user_id, organization_id with
  | Some uid, Some org =>
      let '(any, c) := any_organization_requires_mfa mono (tb_policies db) c in
      if negb any then (false, c) else
      let '(policy, c) := policy_for mono org (tb_policies db) c in
      if bool_decide (policy = "optional") then (false, c)
      else if bool_decide (policy = "admins") && negb (mem role PRIVILEGED_ROLES) then (false, c)
      else (negb (challenged_user uid db), c)
  | _, _ => (false, c)
  end.

(** [set_mfa_policy] in its two halves, for other requests run between them: the
    decision, with the caches cleared, and the commit. *)
Definition set_policy_check (p : Principal) (policy : string) (db : Tables) : Response + Z :=
  if negb (mem policy MFA_POLICIES) then inl (HTTPException 422 ("policy must be one of: " +:+ join ", " MFA_POLICIES))
  else match pr_org_id p with
       | None => inl (HTTPException 400 "a global principal has no organization to set a policy on")
       | Some org => match tb_policies db !! org with
                     | None => inl (HTTPException 404 "organization not found")
                     | Some _ => inr org
                     end
       end.

Definition set_policy_commit (p : Principal) (org : Z) (policy : string) (db : Tables) : Tables :=
  let before := default "optional" (tb_policies db !! org) in
  add_event {| ev_organization_id := Some org; ev_actor := str_or (pr_email p) "admin"; ev_action := "update";
               ev_entity_type := "identity"; ev_entity_id := Some (pretty org);
               ev_diff := VDict [("event", VStr "mfa_policy"); ("from", VStr before); ("to", VStr policy)] |}
    {| tb_users := tb_users db; tb_policies := <[org := policy]> (tb_policies db); tb_systems := tb_systems db; tb_events := tb_events db |}.

Definition set_mfa_policy (p : Principal) (policy : string) (db : Tables) (c : Caches) : Response * Tables * Caches :=
  match set_policy_check p policy db with
  | inl r => (r, db, c)
  | inr org => (answer 200 (VDict [("policy", VStr policy)]), set_policy_commit p org policy db, forget_policy org c)
  end.

(** ** Who is asking ([api/auth_deps.py]) *)

Definition PUBLIC_PREFIXES : list string :=
  ["/api/auth"; "/auth/login"; "/auth/callback"; "/auth/piv"; "/auth/logout"; "/api/scim"; "/api/portal"; "/portal"; "/login"; "/logout";
   "/healthz"; "/readyz"; "/livez"; "/static"; "/docs"; "/redoc"; "/openapi.json"; "/favicon"].
Definition PUBLIC_LITERAL_PREFIXES : list string := ["/favicon"].
Definition MFA_ENROLMENT_PATHS : list string := ["/settings/security"; "/api/auth/mfa"; "/logout"; "/api/auth/logout"].

(** The path is the entry or continues it with a slash. *)
Definition under (path entry : string) : bool := bool_decide (path = entry) || startswith (entry +:+ "/") path.

Record HttpRequest := {
  hr_path : string;
  hr_authorization : string;
  hr_session_cookie : option string;
  hr_principal : option Principal }.

Section gate.
Context (settings : Settings) (loads : list Z -> res pyval).

Definition is_public_path (path : string) : bool :=
  if bool_decide (path = "/") then true
  else if bool_decide (path = "/metrics") then negb (metrics_require_auth settings)
  else if existsb (under path) PUBLIC_PREFIXES then true
  else existsb (fun p => startswith p path) PUBLIC_LITERAL_PREFIXES.

Definition is_mfa_enrolment_path (path : string) : bool := existsb (under path) MFA_ENROLMENT_PATHS.

Definition principal_of (u : User) : Principal :=
  {| pr_user_id := Some (us_id u); pr_email := us_email u; pr_org_id := Some (us_organization_id u); pr_role := us_role u |}.

Definition bearer_user (authorization : string) (db : Tables) : res (option User) :=
  if startswith "bearer " (lower authorization) then
    let token := strip (str_drop 7 authorization) in
    if str_truthy token then user_where (fun u => bool_decide (us_api_token_hash u = Some (hash_token token)) && us_active u) db
    else Ok None
  else Ok None.

Definition cookie_user (cookie : option string) (now : Z) (db : Tables) : res (option User) :=
  if negb (str_truthy (or_empty cookie)) then Ok None else
  let! claims := read_session loads (or_empty cookie) (auth_session_secret settings) now in
  match claims with
  | None => Ok None
  | Some (uid, sv) => user_where (fun u => (us_id u =? uid) && us_active u && (us_session_version u =? sv)) db
  end.

Definition lookup_principal (req : HttpRequest) (now : Z) (db : Tables) : res (option Principal) :=
  let! bearer := bearer_user (hr_authorization req) db in
  let! user := match bearer with Some u => Ok (Some u) | None => cookie_user (hr_session_cookie req) now db end in
  Ok (principal_of <$> user).

Definition get_principal_optional (req : HttpRequest) (now : Z) (db : Tables) : res (option Principal) :=
  if negb (auth_enabled settings) then Ok (Some SYSTEM_PRINCIPAL)
  else match hr_principal req with Some p => Ok (Some p) | None => lookup_principal req now db end.

(** A dependency that refuses answers for the handler. *)
Definition get_principal (req : HttpRequest) (now : Z) (db : Tables) : res (Response + Principal) :=
  let! principal := get_principal_optional req now db in
  Ok (match principal with Some p => inr p | None => inl (HTTPException 401 "authentication required") end).

Definition resolve_caller_org (principal_org requested_org : option Z) : Response + option Z :=
  match principal_org with
  | None => inr requested_org
  | Some org =>
      match requested_org with
      | Some r => if negb (r =? org) then inl (HTTPException 403 "organization_id does not match the authenticated organization") else inr (Some org)
      | None => inr (Some org)
      end
  end.

Definition require_role (roles : list string) (p : Principal) : Response + Principal :=
  if is_global p || mem (pr_role p) roles then inr p else inl (HTTPException 403 ("requires role: " +:+ join ", " roles)).

Definition require_platform_admin (p : Principal) : Response + Principal :=
  if negb (is_global p) then inl (HTTPException 403 ("this operates on Concord's own assurance boundary and requires a " +:+
    "platform-wide (unscoped) administrator, not a tenant administrator")) else inr p.

Definition org_systems_subq (p : Principal) (db : Tables) : list Z :=
  map sy_id (List.filter (fun s => bool_decide (Some (sy_organization_id s) = pr_org_id p) && bool_decide (sy_deleted_at s = None)) (tb_systems db)).

Definition require_system_in_scope (system_id : Z) (p : Principal) (db : Tables) : res (Response + System) :=
  let! row := scalar_one_or_none (List.filter (fun s => (sy_id s =? system_id) && bool_decide (sy_deleted_at s = None)) (tb_systems db)) in
  Ok (match row with
      | None => inl (HTTPException 404 "system not found")
      | Some s => match pr_org_id p with
                  | Some org => if negb (sy_organization_id s =? org) then inl (HTTPException 404 "system not found") else inr s
                  | None => inr s
                  end
      end).

(** What the gate does with a request: answer it, or hand it on with the principal. *)
Inductive Gate := Answered (r : Response) | CallNext (principal : option Principal).

Definition enrolment_required_detail : string :=
  "your organization requires a second factor; enrol at /settings/security before using this API with a session cookie".

Definition auth_gate_middleware (req : HttpRequest) (now mono : Z) (db : Tables) (c : Caches) : res (Gate * Caches) :=
  if negb (auth_enabled settings) then Ok (CallNext (hr_principal req), c) else
  let path := hr_path req in
  if is_public_path path then Ok (CallNext (hr_principal req), c) else
  let! principal := lookup_principal req now db in
  match principal with
  | None => Ok (Answered (if startswith "/api" path then HTTPException 401 "authentication required" else RedirectResponse "/login"), c)
  | Some p =>
      if str_truthy (or_empty (hr_session_cookie req)) && negb (is_mfa_enrolment_path path) then
        let '(outstanding, c) := enrolment_outstanding (pr_user_id p) (pr_org_id p) (pr_role p) mono db c in
        Ok (if outstanding
            then Answered (if startswith "/api" path then HTTPException 403 enrolment_required_detail
                           else RedirectResponse "/settings/security?enrol=required")
            else CallNext (Some p), c)
      else Ok (CallNext (Some p), c)
  end.
End gate.

(** ** Lemmas: rows *)

(** Row ids, and the addresses of the active accounts, are unique. *)
Definition keyed (db : Tables) : Prop := NoDup (map us_id (tb_users db)).

Lemma changed_self {A} `{EqDecision A} (old new : A) : changed old new old = new.
Proof. unfold changed. by case_decide. Qed.
Lemma changed_same {A} `{EqDecision A} (old row : A) : changed old old row = row.
Proof. unfold changed. by rewrite decide_True. Qed.

Lemma flush_counters old new : flush old (with_factor (us_factor new) (with_counters (us_failed_login_attempts new) (us_locked_until new) old)) old =
  with_factor (us_factor new) (with_counters (us_failed_login_attempts new) (us_locked_until new) old).
Proof. unfold flush. cbn. by rewrite !changed_self. Qed.
Lemma flush_same old row : flush old old row = row.
Proof. unfold flush. rewrite !changed_same. by destruct row. Qed.

Lemma flush_keeps old new row : us_id (flush old new row) = us_id row /\ us_session_version (flush old new row) = us_session_version row /\
  us_email (flush old new row) = us_email row /\ us_active (flush old new row) = us_active row.
Proof. done. Qed.

Lemma list_filter_nil {A} (p : A -> bool) (l : list A) : (forall x, x ∈ l -> p x = false) -> List.filter p l = [].
Proof.
  intros H. induction l as [|x l IH]; [done|]. cbn. rewrite H by by left. apply IH. intros y Hy. apply H. by right.
Qed.

Lemma get_user_Some id db u : get_user id db = Some u -> us_id u = id /\ u ∈ tb_users db.
Proof. intros [Hin Hid]%find_some. split; [lia|by apply list_elem_of_In]. Qed.
Lemma get_user_elem db u : keyed db -> u ∈ tb_users db -> get_user (us_id u) db = Some u.
Proof.
  unfold get_user, keyed. intros Hk Hin. destruct (List.find _ _) as [v|] eqn:Ef.
  - apply find_some in Ef as [Hv Hid]. f_equal. eapply nodup_key_inj; [exact Hk|by apply list_elem_of_In|done|lia].
  - apply list_elem_of_In in Hin. pose proof (find_none _ _ Ef _ Hin) as H. cbn in H. lia.
Qed.

Lemma user_where_Some p db u : user_where p db = Ok (Some u) -> u ∈ tb_users db /\ p u = true.
Proof.
  unfold user_where. destruct (List.filter p (tb_users db)) as [|v [|w l]] eqn:E; try done. intros [= ->].
  rewrite list_elem_of_In. apply filter_In. rewrite E. by left.
Qed.

Lemma user_where_id db u : keyed db -> u ∈ tb_users db -> us_active u = true ->
  user_where (fun v => (us_id v =? us_id u) && us_active v && (us_session_version v =? us_session_version u)) db = Ok (Some u).
Proof.
  intros Hk Hin Ha. unfold user_where. enough (List.filter (fun v => (us_id v =? us_id u) && us_active v && (us_session_version v =? us_session_version u))
    (tb_users db) = [u]) as -> by done. unfold keyed in Hk.
  induction (tb_users db) as [|v l IH]; [by apply not_elem_of_nil in Hin|]. cbn in Hk. apply NoDup_cons in Hk as [Hn Hk]. apply elem_of_cons in Hin as [<-|Hin].
  - cbn. rewrite Ha, !Z.eqb_refl. cbn [andb]. f_equal. apply list_filter_nil. intros w Hw. rewrite (proj2 (Z.eqb_neq _ _)); [done|].
    intros E. apply Hn. rewrite <- E. by apply list_elem_of_fmap_2.
  - cbn. rewrite (proj2 (Z.eqb_neq (us_id v) (us_id u))); [cbn [andb]; by apply IH|]. intros E. apply Hn. rewrite E. by apply list_elem_of_fmap_2.
Qed.

Lemma find_map (f : User -> User) (l : list User) id : (forall u, us_id (f u) = us_id u) ->
  List.find (fun u => us_id u =? id) (map f l) = f <$> List.find (fun u => us_id u =? id) l.
Proof. intros Hf. induction l as [|u l IH]; [done|]. cbn. rewrite Hf. destruct (us_id u =? id); [done|exact IH]. Qed.

Lemma get_user_store id old new db : get_user id (store old new db) =
  (fun r => if us_id r =? us_id old then flush old new r else r) <$> get_user id db.
Proof. unfold get_user. cbn. apply find_map. intros u. by destruct (_ =? _). Qed.

Lemma get_user_add_event id e db : get_user id (add_event e db) = get_user id db.
Proof. done. Qed.

(** The row an object was loaded from takes the object's counters and factor. *)
Lemma get_user_stored old new db : get_user (us_id old) db = Some old ->
  get_user (us_id old) (store old new db) =
  Some (with_factor (us_factor new) (with_counters (us_failed_login_attempts new) (us_locked_until new) old)).
Proof.
  intros Hg. rewrite get_user_store, Hg. cbn. rewrite Z.eqb_refl. f_equal. unfold flush. by rewrite !changed_self.
Qed.
Lemma get_user_stored_ne id old new db : id <> us_id old -> get_user id (store old new db) = get_user id db.
Proof.
  intros Hne. rewrite get_user_store. destruct (get_user id db) as [r|] eqn:Hg; [|done]. cbn.
  apply get_user_Some in Hg as [Hid _]. by rewrite (proj2 (Z.eqb_neq _ _)) by congruence.
Qed.

(** Every operation rewrites rows in place: none is added or lost, none activated or
    deactivated, and no session version goes back. *)
Definition grows (db db' : Tables) : Prop :=
  exists f, tb_users db' = map f (tb_users db) /\ forall u, us_id (f u) = us_id u /\
    (us_active (f u) = us_active u /\ us_email (f u) = us_email u) /\ us_session_version u <= us_session_version (f u).

Lemma grows_refl db : grows db db.
Proof. exists id. split; [by rewrite map_id|]. intros u. cbn. split; [done|]. split; [done|lia]. Qed.
Lemma grows_trans a b c : grows a b -> grows b c -> grows a c.
Proof.
  intros (f & Hf & Hf2) (g & Hg & Hg2). exists (fun u => g (f u)). split; [by rewrite Hg, Hf, map_map|].
  intros u. destruct (Hf2 u) as (? & [? ?] & ?), (Hg2 (f u)) as (? & [? ?] & ?). split; [congruence|]. split; [split; congruence|lia].
Qed.
Lemma grows_store old new db : grows db (store old new db).
Proof. eexists. split; [reflexivity|]. intros u. cbn beta. destruct (us_id u =? us_id old); cbn; (split; [done|]; split; [done|lia]). Qed.
Lemma grows_event e db : grows db (add_event e db).
Proof. exact (grows_refl db). Qed.
Lemma grows_keyed db db' : grows db db' -> keyed db -> keyed db'.
Proof.
  intros (f & Hf & Hf2). unfold keyed. rewrite Hf, map_map. erewrite map_ext; [done|]. intros u. symmetry. apply Hf2.
Qed.
Lemma grows_version db db' uid v : grows db db' -> (forall u, u ∈ tb_users db -> us_id u = uid -> v < us_session_version u) ->
  forall u, u ∈ tb_users db' -> us_id u = uid -> v < us_session_version u.
Proof.
  intros (f & Hf & Hf2) H u. rewrite Hf, list_elem_of_fmap. intros (r & -> & Hr) Hid. destruct (Hf2 r) as (Hi & _ & Hv).
  specialize (H r Hr ltac:(congruence)). lia.
Qed.
#[export] Hint Resolve grows_refl grows_store grows_event : core.

(** ** Attempts to sign in *)

Inductive Surface := Api | Page.
(** A password, or a code with the pending token it completes. *)
Inductive Attempt := Password (email password : string) | Factor (token code : string).

Section attempts.
Context (settings : Settings) (loads : list Z -> res pyval).
Context (encrypt : string -> string) (decrypt : string -> res string).

Definition try_sign_in (s : Surface) (a : Attempt) (now : Z) (db : Tables) : handled :=
  match a, s with
  | Password email password, Api => login settings email password now db
  | Password email password, Page => login_submit settings email password now db
  | Factor token code, Api => mfa_verify settings loads decrypt token code now db
  | Factor token code, Page => login_mfa_submit settings loads decrypt (Some token) code now db
  end.

(** The account an attempt is made on, if any. *)
Definition aimed_at (a : Attempt) (now : Z) (db : Tables) : res (option User) :=
  match a with
  | Password email _ => user_where (fun u => bool_decide (us_email u = email) && us_active u) db
  | Factor token _ => pending_user settings loads token now db
  end.

Lemma aimed_active a now db u : aimed_at a now db = Ok (Some u) -> u ∈ tb_users db /\ us_active u = true.
Proof.
  destruct a as [email pw|token code]; cbn [aimed_at].
  - intros [Hin Hp]%user_where_Some. split; [done|]. by apply andb_prop in Hp as [_ ->].
  - unfold pending_user. destruct (read_mfa_pending _ _ _ _) as [[[uid sv]|]|]; [|done..]. cbn [res_bind].
    destruct (get_user uid db) as [v|] eqn:Eg; [|done]. destruct (us_active v) eqn:Ea; cbn [negb orb]; [|done].
    destruct (_ =? _); cbn [negb]; [|done]. intros [= ->]. by apply get_user_Some in Eg as [_ ?].
Qed.

(** What an attempt does: nothing, count a failure on the account it is made on, or
    complete it; the cookies it sets say which. *)
Inductive verdict : Attempt -> Z -> Tables -> res Response -> Tables -> Prop :=
| v_raised a now db e : verdict a now db (Err e) db
| v_refused a now db r : rs_session r = None -> rs_pending r = None ->
    (forall u, aimed_at a now db = Ok (Some u) -> locked now u = true) -> verdict a now db (Ok r) db
| v_guessed a now db r u : rs_session r = None -> rs_pending r = None ->
    aimed_at a now db = Ok (Some u) -> locked now u = false ->
    verdict a now db (Ok r) (store u (count_failure settings now u).2 db)
| v_half email pw now db r u : rs_session r = None -> rs_pending r = Some (pending_token settings u now) ->
    aimed_at (Password email pw) now db = Ok (Some u) -> locked now u = false -> verify_password pw (us_password_hash u) = Ok true ->
    is_challenged (us_factor u) = true -> verdict (Password email pw) now db (Ok r) (store u u db)
| v_password email pw now db r u : rs_session r = Some (session_token settings u now) -> rs_pending r = None ->
    aimed_at (Password email pw) now db = Ok (Some u) -> locked now u = false -> verify_password pw (us_password_hash u) = Ok true ->
    is_challenged (us_factor u) = false -> verdict (Password email pw) now db (Ok r) (store u (cleared_user u) db)
| v_factor token code now db r u m f : rs_session r = Some (session_token settings u now) -> rs_pending r = None ->
    aimed_at (Factor token code) now db = Ok (Some u) -> locked now u = false -> check_factor decrypt code now (us_factor u) = Ok (Some m, f) ->
    verdict (Factor token code) now db (Ok r) (add_event (mfa_event u "mfa_verify" [("method", VStr m)]) (store u (cleared_user (with_factor f u)) db)).

Lemma check_factor_none code now f f' : check_factor decrypt code now f = Ok (None, f') -> f' = f.
Proof.
  unfold check_factor. destruct (verify_code decrypt code (time_time now) f) as [[b f1]|] eqn:Ev; [|done]. cbn [res_bind fst snd].
  destruct b; [done|]. assert (f1 = f) as ->.
  { revert Ev. unfold verify_code. destruct (mu_credential f) as [c|]; [|by intros [= <-]]. destruct (is_challenged f); cbn [negb]; [|by intros [= <-]].
    destruct (decrypt _); [|done]. cbn [res_bind]. destruct (verify _ _ _ _) as [[?|]|]; cbn [res_bind]; [done|by intros [= <-]|done]. }
  destruct (consume_recovery_code code now f) as [[b f2]|] eqn:Ec; [|done]. cbn [res_bind fst snd]. destruct b; [done|]. intros [= <-].
  revert Ec. unfold consume_recovery_code. destruct (is_challenged f); cbn [negb]; [|by intros [= <-]].
  destruct (filter _ _) as [|r [|? ?]]; by intros [= <-].
Qed.

Lemma session_token_cleared f u now : session_token settings (cleared_user (with_factor f u)) now = session_token settings u now.
Proof. unfold cleared_user. by destruct (_ || _). Qed.
Lemma with_own_factor u : with_factor (us_factor u) u = u.
Proof. by destruct u. Qed.

Lemma try_verdict s a now db : verdict a now db (try_sign_in s a now db).1 (try_sign_in s a now db).2.
Proof.
  destruct a as [email pw|token code].
  - assert (Hr : authenticate_read settings email pw now db = _) by reflexivity.
    unfold authenticate_read in Hr at 2. destruct (user_where _ db) as [[u|]|e] eqn:Eu; cbn [res_bind] in Hr.
    + destruct (locked now u) eqn:El.
      { destruct s; cbn; unfold login, login_submit, authenticate; rewrite Hr; cbn; by (apply v_refused; [done..|]; cbn; rewrite Eu; intros ? [= <-]). }
      destruct (verify_password pw (us_password_hash u)) as [[|]|e] eqn:Ep; cbn [res_bind negb] in Hr.
      * destruct (is_challenged (us_factor u)) eqn:Ec; destruct s; cbn; unfold login, login_submit, authenticate; rewrite Hr; cbn;
          by first [eapply v_half|eapply v_password; try by unfold session_token, cleared_user; destruct (_ || _)].
      * destruct s; cbn; unfold login, login_submit, authenticate; rewrite Hr; cbn; by eapply v_guessed.
      * destruct s; cbn; unfold login, login_submit, authenticate; rewrite Hr; cbn; apply v_raised.
    + destruct s; cbn; unfold login, login_submit, authenticate; rewrite Hr; cbn; (apply v_refused; [done..|]; cbn; rewrite Eu; by intros ? [=]).
    + destruct s; cbn; unfold login, login_submit, authenticate; rewrite Hr; cbn; apply v_raised.
  - destruct s; cbn; unfold mfa_verify, login_mfa_submit; cbn [or_empty default from_option id];
      (destruct (pending_user settings loads token now db) as [[u|]|e] eqn:Eu; cbn [attempt];
       [|apply v_refused; [done..|]; cbn; rewrite Eu; by intros ? [=]|apply v_raised]);
      (destruct (locked now u) eqn:El; [by apply v_refused; [done..|]; cbn; rewrite Eu; intros ? [= <-]|]);
      (destruct (check_factor decrypt code now (us_factor u)) as [[[m|] f]|e] eqn:Ec; cbn [attempt]; [| |apply v_raised]).
    1,3: cbn [fst snd]; eapply v_factor; try done; cbn; by rewrite session_token_cleared.
    all: apply check_factor_none in Ec as ->; rewrite with_own_factor; destruct (count_failure settings now u) as [lock u'] eqn:Ef; cbn [fst snd];
      replace u' with (count_failure settings now u).2 by (by rewrite Ef); apply v_guessed; try done; by destruct lock.
Qed.
End attempts.

Lemma cleared_counters u : us_failed_login_attempts (cleared_user u) = 0 /\ us_locked_until (cleared_user u) = None /\ us_factor (cleared_user u) = us_factor u.
Proof.
  unfold cleared_user. destruct (Z.eqb_spec (us_failed_login_attempts u) 0) as [H|]; cbn [negb orb]; [|done].
  case_bool_decide as Hl; [done|]. split; [done|]. split; [|done]. destruct (us_locked_until u) eqn:E; [|done]. destruct Hl. by eexists.
Qed.

(** A code is right by the authenticator, whose step it spends, or by one unused
    recovery code, which it uses up. *)
Definition factor_proved (decrypt : string -> res string) (code : string) (now : Z) (method : string) (f f' : MfaUser) : Prop :=
  is_challenged f = true /\
  ((method = "totp" /\ exists c secret step, mu_credential f = Some c /\ decrypt (mc_secret_encrypted c) = Ok secret /\
      hotp secret step = Ok (clean_code code) /\ timestep (time_time now) - 1 <= step <= timestep (time_time now) + 1 /\
      (forall l, mc_last_used_step c = Some l -> l < step) /\ mu_credential f' = Some (spend step 0 false c)) \/
   (method = "recovery_code" /\ mu_credential f' = mu_credential f /\ (exists r, r ∈ mu_codes f /\ matches_code (hash_recovery_code code) r = true) /\
      forall r, r ∈ mu_codes f' -> matches_code (hash_recovery_code code) r = false)).

Lemma check_factor_proved decrypt code now m f f' : check_factor decrypt code now f = Ok (Some m, f') -> factor_proved decrypt code now m f f'.
Proof.
  unfold check_factor. destruct (verify_code decrypt code (time_time now) f) as [[b f1]|] eqn:Ev; [|done]. cbn [res_bind fst snd]. destruct b.
  - intros [= <- <-]. apply login_inv in Ev as (c & s & Hc & Ha & Hc' & Hl & secret & Hd & Hv). split; [by eapply challenged_active|]. left. split; [done|].
    exists c, secret, s. split; [done|]. split; [done|]. unfold verify in Hv. destruct (_ || _); [done|].
    pose proof (first_match_spec secret (clean_code code) _ (candidate_steps_sorted (timestep (time_time now)) DRIFT_STEPS (mc_last_used_step c))) as Hf.
    rewrite Hv in Hf. destruct Hf as (Hin & Hh & _). apply candidate_steps_spec in Hin as [Hr _]; [|done]. unfold DRIFT_STEPS in Hr. done.
  - assert (f1 = f) as ->.
    { revert Ev. unfold verify_code. destruct (mu_credential f) as [c|]; [|by intros [= <-]]. destruct (is_challenged f); cbn [negb]; [|by intros [= <-]].
      destruct (decrypt _); [|done]. cbn [res_bind]. destruct (verify _ _ _ _) as [[?|]|]; cbn [res_bind]; [done|by intros [= <-]|done]. }
    destruct (consume_recovery_code code now f) as [[b f2]|] eqn:Ec; [|done]. cbn [res_bind fst snd]. destruct b; [|done]. intros [= <- <-].
    revert Ec. unfold consume_recovery_code. destruct (is_challenged f) eqn:Eh; cbn [negb]; [|done].
    destruct (filter _ _) as [|r [|? ?]] eqn:Ef; [done| |done]. intros [= <-]. split; [done|]. right. split; [done|]. split; [done|]. split.
    + exists r. assert (r ∈ filter (fun r => matches_code (hash_recovery_code code) r = true) (mu_codes f)) as Hin by (rewrite Ef; by left).
      apply list_elem_of_filter in Hin as [? ?]. done.
    + cbn [mu_codes]. intros x (y & -> & _)%list_elem_of_fmap. destruct (matches_code _ y) eqn:Ey; [|done].
      unfold matches_code, live, use_code. cbn. apply andb_false_r.
Qed.

Section sign_in_theorems.
Context (settings : Settings) (loads : list Z -> res pyval) (decrypt : string -> res string).

Fixpoint sign_in_run (l : list (Z * Surface * Attempt)) (db : Tables) : Tables :=
  match l with [] => db | (now, s, a) :: l' => sign_in_run l' (try_sign_in settings loads decrypt s a now db).2 end.
Lemma try_grows s a now db : grows db (try_sign_in settings loads decrypt s a now db).2.
Proof.
  pose proof (try_verdict settings loads decrypt s a now db) as Hv. remember (try_sign_in _ _ _ _ _ _ _).2 as db' eqn:E.
  destruct Hv; auto. eapply grows_trans; [|apply grows_event]. auto.
Qed.
Lemma run_keyed l db : keyed db -> keyed (sign_in_run l db).
Proof. revert db. induction l as [|[[now s] a] l IH]; intros db Hk; [done|]. apply IH. eapply grows_keyed; [apply try_grows|done]. Qed.

(** A pending token went out, in a run of attempts, to an attempt made on this account at
    this session version. *)
Definition pending_issued (l : list (Z * Surface * Attempt)) (db : Tables) (uid sv : Z) : Prop :=
  exists earlier t s a later u r, l = (earlier ++ (t, s, a) :: later)%list /\
    aimed_at settings loads a t (sign_in_run earlier db) = Ok (Some u) /\ us_id u = uid /\ us_session_version u = sv /\
    (try_sign_in settings loads decrypt s a t (sign_in_run earlier db)).1 = Ok r /\ rs_pending r <> None.
(** The password of an active account that was not locked was given, in a run of attempts. *)
Definition password_given (l : list (Z * Surface * Attempt)) (db : Tables) (uid sv : Z) : Prop :=
  exists earlier t s email password later u, l = (earlier ++ (t, s, Password email password) :: later)%list /\
    get_user uid (sign_in_run earlier db) = Some u /\ us_session_version u = sv /\ us_email u = email /\ us_active u = true /\ locked t u = false /\
    verify_password password (us_password_hash u) = Ok true.

(** A pending token is the answer to a right password, and to nothing else. *)
Lemma pending_verdict s a now db r p : keyed db -> (try_sign_in settings loads decrypt s a now db).1 = Ok r -> rs_pending r = Some p ->
  exists email password u, a = Password email password /\ aimed_at settings loads a now db = Ok (Some u) /\ us_email u = email /\ us_active u = true /\
    locked now u = false /\ get_user (us_id u) db = Some u /\ verify_password password (us_password_hash u) = Ok true /\ is_challenged (us_factor u) = true /\
    p = pending_token settings u now /\ rs_session r = None /\ get_user (us_id u) (try_sign_in settings loads decrypt s a now db).2 = Some u.
Proof.
  intros Hk Hr Ht. pose proof (try_verdict settings loads decrypt s a now db) as Hv. rewrite Hr in Hv. remember (try_sign_in _ _ _ _ _ _ _).2 as db' eqn:E. clear E Hr.
  inversion Hv as [|? ? ? ? Hn Hn2|? ? ? ? ? Hn Hn2|? ? ? ? ? u Hs Hp Ha Hl Hpw Hc|? ? ? ? ? ? Hs Hp|? ? ? ? ? ? ? ? Hs Hp]; subst; try congruence.
  destruct (aimed_active _ _ _ _ _ _ Ha) as [Hin Hact]. pose proof (get_user_elem _ _ Hk Hin) as Hg. exists email, pw, u. split; [done|]. split; [done|].
  cbn [aimed_at] in Ha. apply user_where_Some in Ha as [_ Hq]. apply andb_prop in Hq as [Hq%bool_decide_eq_true _].
  do 6 (split; [done|]). split; [congruence|]. split; [done|]. rewrite get_user_stored by done. f_equal. by destruct u.
Qed.
Lemma issued_for_a_password l db uid sv : keyed db -> pending_issued l db uid sv -> password_given l db uid sv.
Proof.
  intros Hk (earlier & t & s & a & later & u & r & -> & Ha & <- & <- & Hr & Hp). destruct (rs_pending r) as [p|] eqn:Ep; [|done].
  destruct (pending_verdict s a t _ r p (run_keyed _ _ Hk) Hr Ep) as (email & password & v & -> & Ha' & He & Hact & Hl & Hg & Hv & _).
  rewrite Ha' in Ha. injection Ha as ->. exists earlier, t, s, email, password, later, u. done.
Qed.

(** C22: signing in with a password earns the session. On either surface, an attempt is
    answered with a session cookie only when it is made on an active account that is not
    locked: with its password if no second factor is active, and otherwise with a pending
    token of its current session version and a code its factor accepts - a time-based code
    later than any spent, whose step is then spent, or an unused recovery code, which is
    then used up. The cookie is that account's, and its failures are cleared. A pending
    token goes out only to the right password of an active account that is not locked and
    has a second factor, without a session and with the failures still counted; so, where
    pending tokens are not forged, every session with a second factor follows a request of
    the same run that gave that account's password. Sessions issued by single sign-on and
    by a smart card are not sign-ins with a password. *)
Theorem sessions_are_earned s a now db r : keyed db -> (try_sign_in settings loads decrypt s a now db).1 = Ok r ->
  (forall token, rs_session r = Some token ->
     exists u f', us_active u = true /\ locked now u = false /\ get_user (us_id u) db = Some u /\ token = session_token settings u now /\ rs_pending r = None /\
       match a with
       | Password email password => us_email u = email /\ verify_password password (us_password_hash u) = Ok true /\ is_challenged (us_factor u) = false /\ f' = us_factor u
       | Factor pending code => read_mfa_pending loads pending (auth_session_secret settings) now = Ok (Some (us_id u, us_session_version u)) /\
           (exists m, factor_proved decrypt code now m (us_factor u) f') /\
           forall l db0, keyed db0 -> db = sign_in_run l db0 ->
             (forall uid sv, read_mfa_pending loads pending (auth_session_secret settings) now = Ok (Some (uid, sv)) -> pending_issued l db0 uid sv) ->
             password_given l db0 (us_id u) (us_session_version u)
       end /\
       get_user (us_id u) (try_sign_in settings loads decrypt s a now db).2 = Some (with_factor f' (with_counters 0 None u))) /\
  (forall pending, rs_pending r = Some pending ->
     exists email password u, a = Password email password /\ us_email u = email /\ us_active u = true /\ locked now u = false /\
       get_user (us_id u) db = Some u /\ verify_password password (us_password_hash u) = Ok true /\ is_challenged (us_factor u) = true /\
       pending = pending_token settings u now /\ rs_session r = None /\ get_user (us_id u) (try_sign_in settings loads decrypt s a now db).2 = Some u).
Proof.
  intros Hk Hr. split.
  2:{ intros p Hp. destruct (pending_verdict s a now db r p Hk Hr Hp) as (email & password & u & H1 & _ & H). exists email, password, u. by split. }
  intros token Ht. pose proof (try_verdict settings loads decrypt s a now db) as Hv. rewrite Hr in Hv. remember (try_sign_in _ _ _ _ _ _ _).2 as db' eqn:E. clear E Hr.
  inversion Hv as [|? ? ? ? Hn|? ? ? ? ? Hn|? ? ? ? ? ? Hn|? ? ? ? ? u Hs Hp Ha Hl Hpw Hc|? ? ? ? ? u m f Hs Hp Ha Hl Hc]; subst; try congruence.
  - destruct (aimed_active _ _ _ _ _ _ Ha) as [Hin Hact]. pose proof (get_user_elem _ _ Hk Hin) as Hg. exists u, (us_factor u).
    do 3 (split; [done|]). split; [congruence|]. split; [done|]. split.
    + cbn [aimed_at] in Ha. apply user_where_Some in Ha as [_ Hq]. apply andb_prop in Hq as [Hq%bool_decide_eq_true _]. done.
    + rewrite get_user_stored by done. destruct (cleared_counters u) as (-> & -> & ->). done.
  - destruct (aimed_active _ _ _ _ _ _ Ha) as [Hin Hact]. pose proof (get_user_elem _ _ Hk Hin) as Hg. exists u, f.
    do 3 (split; [done|]). split; [congruence|]. split; [done|]. split.
    + assert (Hread : read_mfa_pending loads token0 (auth_session_secret settings) now = Ok (Some (us_id u, us_session_version u))).
      { cbn [aimed_at] in Ha. unfold pending_user in Ha. destruct (read_mfa_pending _ _ _ _) as [[[uid sv]|]|]; [|done..]. cbn [res_bind] in Ha.
        destruct (get_user uid db) as [v|] eqn:Eg; [|done]. destruct (negb (us_active v)); [done|]. destruct (Z.eqb_spec (us_session_version v) sv); [|done].
        cbn [negb orb] in Ha. injection Ha as ->. apply get_user_Some in Eg as [<- _]. by subst sv. }
      split; [done|]. split; [exists m; by apply check_factor_proved|]. intros l db0 Hk0 _ Hf. by apply issued_for_a_password, Hf.
    + rewrite get_user_add_event, get_user_stored by done. destruct (cleared_counters (with_factor f u)) as (-> & -> & ->). done.
Qed.

(** both surfaces are one. The page and the API decide alike: the same tables, the
    same session cookie, the same pending token, an error exactly when the other
    raises one, and the locked banner exactly for 429. *)
Theorem surfaces_agree a now db :
  (try_sign_in settings loads decrypt Page a now db).2 = (try_sign_in settings loads decrypt Api a now db).2 /\
  match (try_sign_in settings loads decrypt Page a now db).1, (try_sign_in settings loads decrypt Api a now db).1 with
  | Ok p, Ok r => rs_session p = rs_session r /\ rs_pending p = rs_pending r /\ (rs_location p = Some "/login?error=locked" <-> rs_status r = 429)
  | Err e, Err e' => e = e'
  | _, _ => False
  end.
Proof.
  destruct a as [email pw|token code]; cbn.
  - unfold login, login_submit. destruct (authenticate settings email pw now db) as [[[user result] db']|e]; cbn; [|done].
    destruct result, user; cbn; done.
  - unfold mfa_verify, login_mfa_submit. cbn [or_empty default from_option id]. destruct (pending_user settings loads token now db) as [[u|]|e]; cbn; [|done..].
    destruct (locked now u); [done|]. destruct (check_factor decrypt code now (us_factor u)) as [[[m|] f]|e]; cbn; [done| |done].
    unfold count_failure. by destruct (_ <=? _).
Qed.

(** ** The lockout *)

(** A judged attempt on the account that earned neither a session nor a pending token. *)
Definition is_guess (uid now : Z) (s : Surface) (a : Attempt) (db : Tables) : bool :=
  match aimed_at settings loads a now db, (try_sign_in settings loads decrypt s a now db).1 with
  | Ok (Some u), Ok r => (us_id u =? uid) && negb (locked now u) && bool_decide (rs_session r = None) && bool_decide (rs_pending r = None)
  | _, _ => false
  end.
Definition is_success (uid now : Z) (s : Surface) (a : Attempt) (db : Tables) : bool :=
  match aimed_at settings loads a now db, (try_sign_in settings loads decrypt s a now db).1 with
  | Ok (Some u), Ok r => (us_id u =? uid) && negb (bool_decide (rs_session r = None))
  | _, _ => false
  end.

Fixpoint guesses (uid : Z) (l : list (Z * Surface * Attempt)) (db : Tables) : Z :=
  match l with
  | [] => 0
  | (now, s, a) :: l' => (if is_guess uid now s a db then 1 else 0) + guesses uid l' (try_sign_in settings loads decrypt s a now db).2
  end.
Fixpoint succeeded (uid : Z) (l : list (Z * Surface * Attempt)) (db : Tables) : bool :=
  match l with
  | [] => false
  | (now, s, a) :: l' => is_success uid now s a db || succeeded uid l' (try_sign_in settings loads decrypt s a now db).2
  end.

(** What one attempt does to an account's counters. *)
Lemma try_counters uid u s a now db : keyed db -> get_user uid db = Some u -> is_success uid now s a db = false ->
  exists u', get_user uid (try_sign_in settings loads decrypt s a now db).2 = Some u' /\
    if is_guess uid now s a db
    then locked now u = false /\ us_failed_login_attempts u' = us_failed_login_attempts (count_failure settings now u).2 /\
         us_locked_until u' = us_locked_until (count_failure settings now u).2
    else us_failed_login_attempts u' = us_failed_login_attempts u /\ us_locked_until u' = us_locked_until u.
Proof.
  intros Hk Hg. unfold is_success, is_guess. pose proof (try_verdict settings loads decrypt s a now db) as Hv.
  destruct (try_sign_in settings loads decrypt s a now db) as [res db']. cbn [fst snd] in *.
  assert (Hone : forall v, aimed_at settings loads a now db = Ok (Some v) -> get_user (us_id v) db = Some v).
  { intros v [Hin _]%aimed_active. by apply get_user_elem. }
  assert (Hother : forall v v', aimed_at settings loads a now db = Ok (Some v) -> (us_id v =? uid) = false -> get_user uid (store v v' db) = Some u).
  { intros v v' _ Hne. rewrite get_user_stored_ne by lia. done. }
  destruct Hv as [a now db e|a now db r Hs Hp Hl|a now db r v Hs Hp Ha Hl|em pw now db r v Hs Hp Ha Hl Hpw Hc|em pw now db r v Hs Hp Ha Hl Hpw Hc|tk cd now db r v m f Hs Hp Ha Hl Hc].
  - intros _. exists u. split; [done|]. by destruct (aimed_at _ _ _ _ _) as [[?|]|].
  - intros _. exists u. split; [done|]. destruct (aimed_at settings loads a now db) as [[v|]|] eqn:Ea; [|done..].
    rewrite (Hl v eq_refl). by rewrite andb_false_r.
  - rewrite Ha, Hs, Hp, Hl. intros _. rewrite !bool_decide_eq_true_2, !andb_true_r by done.
    destruct (Z.eqb_spec (us_id v) uid) as [<-|Hne].
    + rewrite (Hone v Ha) in Hg. injection Hg as <-. eexists. split; [by apply get_user_stored, Hone|]. done.
    + exists u. split; [apply Hother; [done|lia]|done].
  - rewrite Ha, Hs, Hp. intros _. rewrite (bool_decide_eq_false_2 (Some _ = _)) by done. rewrite andb_false_r.
    destruct (Z.eqb_spec (us_id v) uid) as [<-|Hne].
    + rewrite (Hone v Ha) in Hg. injection Hg as <-. eexists. split; [by apply get_user_stored, Hone|]. done.
    + exists u. split; [apply Hother; [done|lia]|done].
  - rewrite Ha, Hs. rewrite (bool_decide_eq_false_2 (Some _ = _)) by done. rewrite andb_true_r. intros Hne. exists u. split; [by apply Hother|]. by rewrite Hne.
  - rewrite Ha, Hs. rewrite (bool_decide_eq_false_2 (Some _ = _)) by done. rewrite andb_true_r. intros Hne. exists u.
    split; [by rewrite get_user_add_event; apply Hother|]. by rewrite Hne.
Qed.

Definition lockout : Z := auth_lockout_minutes settings * 60 * second_us.
Definition attempts_ok (u : User) : Prop := 0 <= us_failed_login_attempts u < auth_lockout_threshold settings.

(** The [k]-th lock of a run that starts at [t0] starts [k - 1] lockouts later. *)
Definition kth_lock (t0 t1 k : Z) (u : User) : Prop :=
  k = 0 \/ 0 < k /\ exists t, us_locked_until u = Some (t + lockout) /\ t0 + (k - 1) * lockout <= t <= t1.

Lemma lockout_run t0 t1 uid l db u k : 0 < lockout -> keyed db -> get_user uid db = Some u -> attempts_ok u -> kth_lock t0 t1 k u ->
  Forall (fun x => t0 <= x.1.1 <= t1) l -> succeeded uid l db = false ->
  exists k' a, auth_lockout_threshold settings * k + us_failed_login_attempts u + guesses uid l db = auth_lockout_threshold settings * k' + a /\
    0 <= a < auth_lockout_threshold settings /\ (k' = 0 \/ 0 < k' /\ (k' - 1) * lockout <= t1 - t0).
Proof.
  intros HL. revert db u k. induction l as [|[[now s] a] l IH]; intros db u k Hk Hg Ha Hkl Hall Hns.
  - exists k, (us_failed_login_attempts u). cbn [guesses]. split; [lia|]. split; [exact Ha|]. destruct Hkl as [|(? & t & _ & ?)]; [by left|right; lia].
  - apply Forall_cons in Hall as [Ht Hall]. cbn [fst] in Ht. cbn [succeeded guesses] in *. apply orb_false_elim in Hns as [Hs Hns].
    destruct (try_counters uid u s a now db Hk Hg Hs) as (u' & Hg' & Hc). pose proof (grows_keyed _ _ (try_grows s a now db) Hk) as Hk'.
    destruct (is_guess uid now s a db).
    + destruct Hc as (Hl & Hf & Hu). unfold count_failure in Hf, Hu. destruct (Z.leb_spec (auth_lockout_threshold settings) (us_failed_login_attempts u + 1)) as [Hle|Hlt].
      * cbn in Hf, Hu. unfold attempts_ok in *. destruct (IH _ u' (k + 1) Hk' Hg') as (k' & a' & He & Ha' & Hk2); [unfold attempts_ok; lia| |done|done|].
        { right. destruct Hkl as [->|(Hpos & t & Ht' & Hr)]; split; try lia; exists now; (split; [exact Hu|]); [lia|].
          unfold locked in Hl. rewrite Ht' in Hl. lia. }
        exists k', a'. split; [lia|done].
      * cbn in Hf, Hu. destruct (IH _ u' k Hk' Hg') as (k' & a' & He & Ha' & Hk2); [unfold attempts_ok in *; lia| |done|done|].
        { unfold kth_lock. rewrite Hu. exact Hkl. }
        exists k', a'. split; [lia|done].
    + destruct Hc as [Hf Hu]. destruct (IH _ u' k Hk' Hg') as (k' & a' & He & Ha' & Hk2); [unfold attempts_ok in *; lia| |done|done|].
      { unfold kth_lock. rewrite Hu. exact Hkl. }
      exists k', a'. split; [lia|done].
Qed.

(** C23: guessing one attempt after the other is bounded. However attempts on both
    surfaces and for both factors are mixed, an account that nobody signs in to between two
    times - a success resets the count - and whose attempts are each handled before the next
    begins answers at most [threshold] wrong guesses per lockout begun in between, and less
    than a threshold more. A correct password with a factor outstanding is no wrong guess,
    and does not reset the count. Attempts handled at once are not bounded so: each writes
    the count it has computed from the row it read ([simultaneous_guesses_count_once]). *)
Theorem guesses_are_bounded t0 t1 uid l db u : 0 < auth_lockout_minutes settings -> keyed db -> get_user uid db = Some u -> attempts_ok u ->
  t0 <= t1 -> Forall (fun x => t0 <= x.1.1 <= t1) l -> succeeded uid l db = false ->
  guesses uid l db <= auth_lockout_threshold settings * ((t1 - t0) / lockout + 2) - 1.
Proof.
  intros HL Hk Hg Ha H01 Hall Hs. assert (0 < lockout) as Hpos by (unfold lockout, second_us; lia).
  destruct (lockout_run t0 t1 uid l db u 0 Hpos Hk Hg Ha (or_introl eq_refl) Hall Hs) as (k & a & He & Hr & Hk').
  unfold attempts_ok in Ha. assert (k <= (t1 - t0) / lockout + 1) as Hb.
  { destruct Hk' as [->|[_ Hle]]; [assert (0 <= (t1 - t0) / lockout) by (apply Z.div_pos; lia); lia|].
    enough (k - 1 <= (t1 - t0) / lockout) by lia. apply Z.div_le_lower_bound; lia. }
  nia.
Qed.

(** guesses made at once count as one. Each request writes the count it computed
    from the row it loaded, so wrong passwords checked against the same row before
    any of them commits, however many, leave the counter one higher, not one per
    guess, and lock nothing. *)
Theorem simultaneous_guesses_count_once email passwords now db u : keyed db ->
  user_where (fun u => bool_decide (us_email u = email) && us_active u) db = Ok (Some u) -> locked now u = false -> passwords <> [] ->
  (forall p, p ∈ passwords -> verify_password p (us_password_hash u) = Ok false) ->
  us_failed_login_attempts u + 1 < auth_lockout_threshold settings ->
  (forall p, p ∈ passwords -> authenticate_read settings email p now db = Ok (Some (u, (count_failure settings now u).2), INVALID)) /\
  forall reads, Forall2 (fun p rd => authenticate_read settings email p now db = Ok rd) passwords reads ->
    exists u', get_user (us_id u) (fold_left (fun db rd => commit_user rd.1 db) reads db) = Some u' /\
      us_failed_login_attempts u' = us_failed_login_attempts u + 1 /\ us_locked_until u' = us_locked_until u.
Proof.
  intros Hk Hw Hl Hne Hp Hlt. assert (Hread : forall p, p ∈ passwords -> authenticate_read settings email p now db = Ok (Some (u, (count_failure settings now u).2), INVALID)).
  { intros p Hin. unfold authenticate_read. rewrite Hw. cbn [res_bind]. rewrite Hl, Hp by done. done. }
  split; [exact Hread|]. intros reads Hr.
  assert (Hall : Forall (fun rd => rd = (Some (u, (count_failure settings now u).2), INVALID)) reads).
  { apply Forall_forall. intros rd Hin. apply list_elem_of_lookup in Hin as [i Hi]. destruct (Forall2_lookup_r _ _ _ _ _ Hr Hi) as (p & Hpi & Hrd).
    rewrite Hread in Hrd by by eapply list_elem_of_lookup_2. congruence. }
  assert (Hcf : (count_failure settings now u).2 = with_counters (us_failed_login_attempts u + 1) (us_locked_until u) u).
  { unfold count_failure. by rewrite (proj2 (Z.leb_gt _ _)). }
  rewrite Hcf in Hall. clear Hcf Hread Hp Hl.
  assert (Hgen : forall rds d v, Forall (fun rd => rd = (Some (u, with_counters (us_failed_login_attempts u + 1) (us_locked_until u) u), INVALID)) rds ->
    get_user (us_id u) d = Some v -> us_locked_until v = us_locked_until u -> (rds = [] -> us_failed_login_attempts v = us_failed_login_attempts u + 1) ->
    exists u', get_user (us_id u) (fold_left (fun db rd => commit_user rd.1 db) rds d) = Some u' /\
      us_failed_login_attempts u' = us_failed_login_attempts u + 1 /\ us_locked_until u' = us_locked_until u).
  { intros rds. induction rds as [|rd rds IH]; intros d v Hf Hg Hlk Hn; [exists v; by auto|]. apply Forall_cons in Hf as [-> Hf]. cbn [fold_left commit_user fst].
    eapply IH; [done| | |].
    - rewrite get_user_store, Hg. cbn [fmap option_fmap option_map]. apply get_user_Some in Hg as [-> _]. rewrite Z.eqb_refl. reflexivity.
    - unfold flush. cbn. by rewrite changed_same.
    - intros _. unfold flush, changed. cbn. rewrite decide_False by lia. done. }
  apply (Hgen reads db u Hall); [|done|].
  - apply get_user_elem; [done|]. by apply user_where_Some in Hw as [? _].
  - intros ->. apply Forall2_nil_inv_r in Hr. done.
Qed.
End sign_in_theorems.

(** ** Revocation *)

Section revocation.
Context (settings : Settings) (loads : list Z -> res pyval).
Context (encrypt : string -> string) (decrypt : string -> res string).

(** Everything these routes do to the tables. *)
Inductive Op :=
| OAttempt (s : Surface) (a : Attempt)
| OLogout (s : Surface) (cookie : option string)
| OEnroll (s : Surface) (p : Principal) (secret : string)
| OActivate (s : Surface) (p : Principal) (code : string) (fresh_codes : list string)
| ODisable (s : Surface) (p : Principal)
| OPolicy (p : Principal) (org : Z) (policy : string).

Definition op_step (now : Z) (op : Op) (db : Tables) : Tables :=
  match op with
  | OAttempt s a => (try_sign_in settings loads decrypt s a now db).2
  | OLogout Api c => (logout settings loads c now db).2
  | OLogout Page c => (logout_ui settings loads c now db).2
  | OEnroll Api p secret => (mfa_enroll encrypt (fun _ _ => "") p secret db).2
  | OEnroll Page p secret => (security_enroll encrypt p secret db).2
  | OActivate Api p code fresh_codes => (mfa_activate decrypt p code now fresh_codes db).2
  | OActivate Page p code fresh_codes => (security_activate decrypt p code now fresh_codes db).2
  | ODisable Api p => (mfa_disable p now db).2
  | ODisable Page p => (security_disable p now db).2
  | OPolicy p org policy => set_policy_commit p org policy db
  end.

Lemma grows_revoke uid db : grows db (revoke_sessions uid db).
Proof. eexists. split; [reflexivity|]. intros u. cbn beta. destruct (us_id u =? uid); cbn; (split; [done|]; split; [done|lia]). Qed.

Lemma grows_drop u now db : grows db (drop_factor u now db).
Proof.
  unfold drop_factor. destruct (mu_credential _); [|auto]. destruct (dropped_factor _ _). eapply grows_trans; [apply grows_store|apply grows_event].
Qed.

Lemma op_grows now op db : grows db (op_step now op db).
Proof.
  destruct op as [s a|s c|s p secret|s p code cs|s p|p org policy]; cbn [op_step]; [apply try_grows| | | | |exact (grows_refl db)].
  - assert (grows db (match revoke_sessions_for_request settings loads c now db with Ok d => d | Err _ => db end)) as H.
    { unfold revoke_sessions_for_request. destruct (negb _); [auto|]. destruct (read_session _ _ _ _) as [[[? ?]|]|]; cbn; auto using grows_revoke. }
    destruct s; unfold logout, logout_ui; by destruct (revoke_sessions_for_request _ _ _ _ _).
  - destruct s; unfold mfa_enroll, security_enroll; destruct (principal_user p db) as [u|]; [|auto|auto..]; destruct (begin_enrolment _ _ _); cbn; auto.
  - destruct s; unfold mfa_activate, security_activate; (destruct (principal_user p db) as [u|]; [|auto]); destruct (activate _ _ _ _ _ _) as [[[?|] ?]|]; cbn; auto;
      (eapply grows_trans; [apply grows_store|apply grows_event]).
  - destruct s; unfold mfa_disable, security_disable; (destruct (principal_user p db) as [u|]; [|auto]); destruct (policy_requires_enrolment _ _); cbn; auto using grows_drop.
Qed.

Lemma run_grows (ops : list (Z * Op)) db : grows db (fold_left (fun d x => op_step x.1 x.2 d) ops db).
Proof. revert db. induction ops as [|x ops IH]; intros db; [auto|]. eapply grows_trans; [apply op_grows|apply IH]. Qed.

(** a revoked session stays dead. Once an account's sessions are revoked, no
    cookie and no pending token of the version it had, whoever signed it and
    whenever, is honoured again, whatever sign-ins, enrolments and policy changes
    follow; and logging out with a cookie that was still honoured is that
    revocation. *)
Theorem revoked_sessions_stay_dead uid v ops db : keyed db -> (forall u, u ∈ tb_users db -> us_id u = uid -> v <= us_session_version u) ->
  let later := fold_left (fun d x => op_step x.1 x.2 d) ops (revoke_sessions uid db) in
  (forall cookie now, read_session loads cookie (auth_session_secret settings) now = Ok (Some (uid, v)) ->
     cookie_user settings loads (Some cookie) now later = Ok None) /\
  (forall token now, read_mfa_pending loads token (auth_session_secret settings) now = Ok (Some (uid, v)) ->
     pending_user settings loads token now later = Ok None) /\
  (forall s cookie now u, cookie_user settings loads (Some cookie) now db = Ok (Some u) ->
     op_step now (OLogout s (Some cookie)) db = revoke_sessions (us_id u) db).
Proof.
  intros Hk Hv later. assert (Hgt : forall u, u ∈ tb_users later -> us_id u = uid -> v < us_session_version u).
  { eapply grows_version; [apply run_grows|]. intros u. cbn. rewrite list_elem_of_fmap. intros (r & -> & Hr) Hid.
    destruct (Z.eqb_spec (us_id r) uid) as [E|E]; cbn in Hid; [|congruence]. specialize (Hv r Hr E). cbn. lia. }
  split; [|split].
  - intros cookie now Hr. unfold cookie_user. cbn [or_empty default from_option id]. destruct (str_truthy cookie); [cbn [negb]|done]. rewrite Hr. cbn [res_bind].
    unfold user_where. rewrite list_filter_nil; [done|]. intros u Hin.
    destruct (Z.eqb_spec (us_id u) uid) as [E|]; [|done]. specialize (Hgt u Hin E). rewrite (proj2 (Z.eqb_neq _ _)) by lia. by rewrite andb_false_r.
  - intros token now Hr. unfold pending_user. rewrite Hr. cbn [res_bind]. destruct (get_user uid later) as [u|] eqn:Eg; [|done].
    apply get_user_Some in Eg as [E Hin]. specialize (Hgt u Hin E). rewrite (proj2 (Z.eqb_neq (us_session_version u) v)) by lia. by rewrite orb_true_r.
  - intros s cookie now u. unfold cookie_user. cbn [or_empty default from_option id]. destruct (str_truthy cookie) eqn:Et; cbn [negb]; [|done].
    destruct (read_session _ _ _ _) as [[[who sv]|]|] eqn:Er; cbn [res_bind]; [|done..]. intros [_ Hp]%user_where_Some.
    destruct (Z.eqb_spec (us_id u) who) as [->|]; [|done].
    destruct s; cbn [op_step]; unfold logout, logout_ui, revoke_sessions_for_request; cbn [or_empty default from_option id]; rewrite Et, Er; cbn; reflexivity.
Qed.
End revocation.

(** ** The gate *)

Section gate_theorems.
Context (settings : Settings) (loads : list Z -> res pyval).

(** What a request proves its caller by. *)
Definition proved_by_bearer (req : HttpRequest) (u : User) : Prop :=
  exists token, startswith "bearer " (lower (hr_authorization req)) = true /\ token = strip (str_drop 7 (hr_authorization req)) /\ token <> "" /\
    us_api_token_hash u = Some (hash_token token).
Definition proved_by_cookie (req : HttpRequest) (now : Z) (u : User) : Prop :=
  exists payload, hr_session_cookie req = Some (payload +:+ "." +:+ signature (auth_session_secret settings) payload) /\
    read_session loads (payload +:+ "." +:+ signature (auth_session_secret settings) payload) (auth_session_secret settings) now =
      Ok (Some (us_id u, us_session_version u)).

Lemma lookup_proved req now db p : lookup_principal settings loads req now db = Ok (Some p) ->
  exists u, u ∈ tb_users db /\ us_active u = true /\ p = principal_of u /\ (proved_by_bearer req u \/ proved_by_cookie req now u).
Proof.
  unfold lookup_principal. destruct (bearer_user _ db) as [[u|]|] eqn:Eb; cbn [res_bind]; [| |done].
  - intros [= <-]. revert Eb. unfold bearer_user. destruct (startswith _ _) eqn:Es; [|done]. cbv zeta. destruct (str_truthy _) eqn:Et; [|done].
    intros [Hin [Hh%bool_decide_eq_true Ha]%andb_prop]%user_where_Some. exists u. do 3 (split; [done|]). left. eexists. split; [done|]. split; [done|].
    split; [|done]. by apply bool_decide_eq_true in Et.
  - destruct (cookie_user _ _ _ _ _) as [[u|]|] eqn:Ec; cbn [res_bind]; [|done..]. intros [= <-]. revert Ec. unfold cookie_user.
    destruct (str_truthy (or_empty (hr_session_cookie req))) eqn:Et; cbn [negb]; [|done]. destruct (hr_session_cookie req) as [cookie|] eqn:Ek; [|done].
    cbn [or_empty default from_option id]. destruct (read_session _ _ _ _) as [[[uid sv]|]|] eqn:Er; cbn [res_bind]; [|done..].
    intros [Hin Hp]%user_where_Some. apply andb_prop in Hp as [[Hid Ha]%andb_prop Hsv]. exists u. do 3 (split; [done|]). right.
    destruct (accepted_signed _ _ _ _ _ Er) as (payload & -> & _). exists payload. split; [done|]. rewrite Er. do 3 f_equal; lia.
Qed.

(** C24: the gate lets in who proved who they are. With authentication on, a request for
    a path that is not public is handed on only with the principal of an active user
    who presented the API token whose digest is stored, or a cookie under the server's
    signature whose claims are not expired and name the user's current session
    version; if a session cookie came along and the path is no enrolment path, no
    second factor is outstanding for that principal. Everyone else is answered
    without reaching a handler: 401 or 403 under /api, a redirect elsewhere. *)
Theorem gate_lets_in_the_proved req now mono db c g c' : auth_enabled settings = true -> is_public_path settings (hr_path req) = false ->
  auth_gate_middleware settings loads req now mono db c = Ok (g, c') ->
  match g with
  | CallNext p => exists u, p = Some (principal_of u) /\ u ∈ tb_users db /\ us_active u = true /\
      (proved_by_bearer req u \/ proved_by_cookie req now u) /\
      (str_truthy (or_empty (hr_session_cookie req)) = true -> is_mfa_enrolment_path (hr_path req) = false ->
       enrolment_outstanding (Some (us_id u)) (Some (us_organization_id u)) (us_role u) mono db c = (false, c'))
  | Answered r => rs_session r = None /\ rs_pending r = None /\
      (if startswith "/api" (hr_path req) then rs_status r = 401 \/ rs_status r = 403
       else rs_location r = Some "/login" \/ rs_location r = Some "/settings/security?enrol=required")
  end.
Proof.
  intros Ha Hp. unfold auth_gate_middleware. rewrite Ha, Hp. cbn [negb]. generalize (startswith "/api" (hr_path req)) as api. intros api.
  destruct (lookup_principal settings loads req now db) as [[p|]|] eqn:El; cbn [res_bind]; [| |done].
  - destruct (lookup_proved _ _ _ _ El) as (u & Hin & Hact & -> & Hby). cbn [principal_of pr_user_id pr_org_id pr_role].
    destruct (str_truthy _) eqn:Et, (is_mfa_enrolment_path _) eqn:Ee; cbn [andb negb].
    2:{ destruct (enrolment_outstanding _ _ _ _ _ _) as [[|] c2] eqn:Eo; intros [= <- <-].
        - destruct api; cbn; auto.
        - exists u. by auto 10. }
    all: intros [= <- <-]; exists u; do 4 (split; [done|]); done.
  - intros [= <- <-]. destruct api; cbn; auto.
Qed.

(** a user who signed in is let in until the session is revoked or expires. The
    cookie issued for an active user's row opens every path, under the user's own
    principal, up to its expiry, as long as the row keeps its session version and no
    second factor is outstanding. *)
Theorem issued_sessions_are_honoured req issued now mono db c u : reads_claims loads -> keyed db -> auth_enabled settings = true ->
  is_public_path settings (hr_path req) = false -> u ∈ tb_users db -> us_active u = true ->
  hr_authorization req = "" -> hr_session_cookie req = Some (session_token settings u issued) ->
  now <= (issued / second_us + auth_session_ttl_hours settings * 3600) * second_us ->
  (enrolment_outstanding (Some (us_id u)) (Some (us_organization_id u)) (us_role u) mono db c).1 = false ->
  exists c', auth_gate_middleware settings loads req now mono db c = Ok (CallNext (Some (principal_of u)), c').
Proof.
  intros Hl Hk He Hp Hin Ha Hau Hc Hexp Ho. unfold auth_gate_middleware. rewrite He, Hp. cbn [negb].
  assert (lookup_principal settings loads req now db = Ok (Some (principal_of u))) as ->.
  { unfold lookup_principal. assert (bearer_user (hr_authorization req) db = Ok None) as -> by (rewrite Hau; reflexivity).
    cbn [res_bind]. rewrite Hc. unfold cookie_user.
    cbn [or_empty default from_option id]. assert (str_truthy (session_token settings u issued) = true) as ->.
    { unfold session_token, sign_session. apply bool_decide_eq_true_2. intros E.
      assert (forall a b, a +:+ "." +:+ b <> "") as Hne by (intros [|? ?] b; done). by apply (Hne _ _ E). }
    cbn [negb]. unfold session_token. rewrite read_signed by done. rewrite (proj2 (Z.ltb_ge _ _)) by lia. cbn [res_bind].
    by rewrite user_where_id. }
  cbn [res_bind principal_of pr_user_id pr_org_id pr_role]. destruct (_ && _); [|by eexists].
  destruct (enrolment_outstanding _ _ _ _ _ _) as [b c']. cbn [fst] in Ho. subst b. by eexists.
Qed.
End gate_theorems.

(** ** The policy caches *)

(** [H mono] is the committed policies at an instant; every cache entry was read from
    them at its own. *)
Definition caches_from (H : Z -> gmap Z string) (mono : Z) (c : Caches) : Prop :=
  (forall org t p, ca_policy c !! org = Some (t, p) -> t <= mono /\ p = stored_policy org (H t)) /\
  (forall t b, ca_any c = Some (t, b) -> t <= mono /\ b = some_policy (H t)).

Lemma fresh_Some {A} mono (hit : option (Z * A)) v : fresh_hit mono hit = Some v -> exists t, hit = Some (t, v) /\ mono - POLICY_TTL < t.
Proof. destruct hit as [[t w]|]; [|done]. cbn. destruct (Z.ltb_spec (mono - t) POLICY_TTL); [|done]. intros [= <-]. exists t. split; [done|lia]. Qed.

Lemma some_policy_true policies : some_policy policies = true <-> exists org p, policies !! org = Some p /\ p <> "optional".
Proof.
  unfold some_policy. rewrite existsb_exists. split.
  - intros ([org p] & Hin & Hp). exists org, p. apply list_elem_of_In, elem_of_map_to_list in Hin. split; [done|].
    cbn in Hp. by destruct (bool_decide_reflect (p = "optional")).
  - intros (org & p & Hl & Hp). exists (org, p). split; [by apply list_elem_of_In, elem_of_map_to_list|]. cbn. by rewrite bool_decide_eq_false_2.
Qed.

(** What the policies require of a role. *)
Definition required (any : bool) (policy role : string) : bool :=
  any && negb (bool_decide (policy = "optional")) && (negb (bool_decide (policy = "admins")) || mem role PRIVILEGED_ROLES).

Lemma outstanding_decides H mono db c uid org role : caches_from H mono c -> tb_policies db = H mono ->
  exists t1 t2 c', mono - POLICY_TTL < t1 <= mono /\ mono - POLICY_TTL < t2 <= mono /\ caches_from H mono c' /\
    enrolment_outstanding (Some uid) (Some org) role mono db c =
      (required (some_policy (H t1)) (stored_policy org (H t2)) role && negb (challenged_user uid db), c').
Proof.
  intros Hc HH. assert (Hpos : 0 < POLICY_TTL) by done. unfold enrolment_outstanding.
  assert (exists t1 c1, any_organization_requires_mfa mono (tb_policies db) c = (some_policy (H t1), c1) /\ mono - POLICY_TTL < t1 <= mono /\ caches_from H mono c1) as (t1 & c1 & -> & Ht1 & Hc1).
  { unfold any_organization_requires_mfa. destruct (fresh_hit mono (ca_any c)) as [v|] eqn:Ef.
    - apply fresh_Some in Ef as (t & Ht & Hl). destruct Hc as [Hc1 Hc2]. destruct (Hc2 _ _ Ht) as [Hle ->]. exists t, c. by split; [|split; [lia|]].
    - exists mono. rewrite HH. eexists. split; [done|]. split; [lia|]. destruct Hc as [Hc1 Hc2]. split; [done|]. cbn. intros t b [= <- <-]. split; [lia|done]. }
  assert (exists t2 c2, policy_for mono org (tb_policies db) c1 = (stored_policy org (H t2), c2) /\ mono - POLICY_TTL < t2 <= mono /\ caches_from H mono c2) as (t2 & c2 & E2 & Ht2 & Hc2).
  { unfold policy_for. destruct (fresh_hit mono (ca_policy c1 !! org)) as [v|] eqn:Ef.
    - apply fresh_Some in Ef as (t & Ht & Hl). destruct Hc1 as [Ha Hb]. destruct (Ha _ _ _ Ht) as [Hle ->]. exists t, c1. by split; [|split; [lia|]].
    - exists mono. rewrite HH. eexists. split; [done|]. split; [lia|]. destruct Hc1 as [Ha Hb]. split; [|done]. cbn. intros o t p.
      rewrite lookup_insert_Some. intros [[<- [= <- <-]]|[_ Hl]]; [split; [lia|done]|by apply Ha]. }
  unfold required. destruct (some_policy (H t1)) eqn:E1; cbn [negb andb].
  - rewrite E2. exists t1, t2, c2. rewrite E1. do 3 (split; [done|]). generalize (stored_policy org (H t2)). intros pol.
    destruct (bool_decide (pol = "optional")); cbn [negb andb]; [done|].
    destruct (bool_decide (pol = "admins")); cbn [negb andb orb]; [|done]. by destruct (mem _ _).
  - exists t1, mono, c1. rewrite E1. split; [done|]. split; [lia|]. done.
Qed.

(** the gate asks for a second factor as the policy says, at most thirty seconds
    late. With caches filled from the committed policies, what is outstanding is
    decided by policies committed in the last thirty seconds; and when the caller's
    organization kept its policy for that long, it is exactly what
    [policy_requires_enrolment] says of a user without an active authenticator. *)
Theorem enrolment_lags_at_most_thirty_seconds H mono db c u : keyed db -> u ∈ tb_users db -> caches_from H mono c -> tb_policies db = H mono ->
  (exists t1 t2, mono - 30 * second_us < t1 <= mono /\ mono - 30 * second_us < t2 <= mono /\
    (enrolment_outstanding (Some (us_id u)) (Some (us_organization_id u)) (us_role u) mono db c).1 =
      required (some_policy (H t1)) (stored_policy (us_organization_id u) (H t2)) (us_role u) && negb (is_challenged (us_factor u))) /\
  caches_from H mono (enrolment_outstanding (Some (us_id u)) (Some (us_organization_id u)) (us_role u) mono db c).2 /\
  ((forall t, mono - 30 * second_us < t <= mono -> H t !! us_organization_id u = H mono !! us_organization_id u) ->
   (forall p, H mono !! us_organization_id u = Some p -> p ∈ MFA_POLICIES) ->
   (enrolment_outstanding (Some (us_id u)) (Some (us_organization_id u)) (us_role u) mono db c).1 =
     policy_requires_enrolment u db && negb (is_challenged (us_factor u))).
Proof.
  intros Hk Hin Hc HH. destruct (outstanding_decides H mono db c (us_id u) (us_organization_id u) (us_role u) Hc HH) as (t1 & t2 & c' & Ht1 & Ht2 & Hc' & ->).
  cbn [fst snd]. unfold challenged_user. rewrite get_user_elem by done. change (30 * second_us) with POLICY_TTL.
  split; [by exists t1, t2|]. split; [done|]. intros Hsame Hvalid. f_equal. unfold policy_requires_enrolment, required. rewrite HH.
  unfold stored_policy. rewrite (Hsame t2 Ht2). destruct (H mono !! us_organization_id u) as [p|] eqn:Ep; cbn [default from_option id].
  - specialize (Hvalid p eq_refl). apply elem_of_cons in Hvalid as [->|Hvalid]; [cbn; by rewrite andb_false_r|].
    assert (some_policy (H t1) = true) as ->.
    { apply some_policy_true. exists (us_organization_id u), p. rewrite Hsame by done. split; [done|]. set_solver. }
    apply elem_of_cons in Hvalid as [->|[->|[]%not_elem_of_nil]%elem_of_cons]; cbn; [done|reflexivity].
  - cbn. by rewrite andb_false_r.
Qed.

(** a policy change is not immediate in the process that makes it. The handler
    clears the caches before it commits: a request gated in between reads the old
    policy and caches it again, and then, for thirty seconds after that read, the
    gate of the same process lets a user pass whom the committed policy requires to
    enrol. *)
Theorem policy_change_can_be_hidden p u mono mono' db c : keyed db -> u ∈ tb_users db -> is_challenged (us_factor u) = false ->
  pr_org_id p = Some (us_organization_id u) -> tb_policies db !! us_organization_id u = Some "optional" ->
  some_policy (tb_policies db) = true ->
  mono <= mono' < mono + 30 * second_us ->
  set_policy_check p "all" db = inr (us_organization_id u) /\
  let cleared := forget_policy (us_organization_id u) c in
  let between := (enrolment_outstanding (Some (us_id u)) (Some (us_organization_id u)) (us_role u) mono db cleared).2 in
  let db' := set_policy_commit p (us_organization_id u) "all" db in
  policy_requires_enrolment u db' = true /\
  (enrolment_outstanding (Some (us_id u)) (Some (us_organization_id u)) (us_role u) mono' db' between).1 = false /\
  (enrolment_outstanding (Some (us_id u)) (Some (us_organization_id u)) (us_role u) mono' db' cleared).1 = true.
Proof.
  intros Hk Hin Hch Hp Hpol Hany Hm. split; [unfold set_policy_check; by rewrite Hp, Hpol|]. cbv zeta.
  assert (Hfresh : (mono' - mono <? POLICY_TTL) = true) by (apply Z.ltb_lt; unfold POLICY_TTL; lia).
  assert (Hnew : tb_policies (set_policy_commit p (us_organization_id u) "all" db) = <[us_organization_id u := "all"]> (tb_policies db)) by done.
  assert (Hu : challenged_user (us_id u) (set_policy_commit p (us_organization_id u) "all" db) = false).
  { unfold challenged_user. change (get_user (us_id u) (set_policy_commit p (us_organization_id u) "all" db)) with (get_user (us_id u) db). by rewrite get_user_elem. }
  split; [|split].
  - unfold policy_requires_enrolment. rewrite Hnew, lookup_insert_eq. done.
  - assert ((enrolment_outstanding (Some (us_id u)) (Some (us_organization_id u)) (us_role u) mono db (forget_policy (us_organization_id u) c)).2 =
      {| ca_policy := <[us_organization_id u := (mono, "optional")]> (delete (us_organization_id u) (ca_policy c)); ca_any := Some (mono, true) |}) as ->.
    { unfold enrolment_outstanding, any_organization_requires_mfa, forget_policy. cbn [ca_any fresh_hit]. rewrite Hany. cbn [negb].
      unfold policy_for. cbn [ca_policy ca_any]. rewrite lookup_delete_eq. cbn [fresh_hit]. unfold stored_policy. rewrite Hpol. done. }
    unfold enrolment_outstanding, any_organization_requires_mfa. cbn [ca_any fresh_hit]. rewrite Hfresh. cbn [negb]. unfold policy_for. cbn [ca_policy].
    rewrite lookup_insert_eq. cbn [fresh_hit]. by rewrite Hfresh.
  - unfold enrolment_outstanding, any_organization_requires_mfa, forget_policy. cbn [ca_any fresh_hit].
    assert (some_policy (tb_policies (set_policy_commit p (us_organization_id u) "all" db)) = true) as ->.
    { apply some_policy_true. exists (us_organization_id u), "all". by rewrite Hnew, lookup_insert_eq. }
    cbn [negb]. unfold policy_for. cbn [ca_policy]. rewrite lookup_delete_eq. cbn [fresh_hit]. unfold stored_policy. rewrite Hnew, lookup_insert_eq.
    rewrite Hu. done.
Qed.

(** ** Tenants *)

(** callers stay in their organization. A caller bound to an organization runs
    against that one or is refused, on nothing but the two numbers; a system is
    handed out only from it and only while not deleted, and a system of another
    organization is answered word for word as one that does not exist; only a caller
    bound to none passes as platform administrator. *)
Theorem callers_stay_in_their_org p org db : pr_org_id p = Some org -> NoDup (map sy_id (tb_systems db)) ->
  (forall requested, resolve_caller_org (Some org) requested =
     if bool_decide (requested = None \/ requested = Some org) then inr (Some org)
     else inl (HTTPException 403 "organization_id does not match the authenticated organization")) /\
  (forall id s, require_system_in_scope id p db = Ok (inr s) <->
     s ∈ tb_systems db /\ sy_id s = id /\ sy_deleted_at s = None /\ sy_organization_id s = org) /\
  (forall id, ~ (exists s, require_system_in_scope id p db = Ok (inr s)) ->
     require_system_in_scope id p db = Ok (inl (HTTPException 404 "system not found"))) /\
  (forall id, id ∈ org_systems_subq p db <-> exists s, require_system_in_scope id p db = Ok (inr s)) /\
  (exists r, require_platform_admin p = inl r /\ rs_status r = 403) /\
  (forall roles, require_role roles p = inr p <-> pr_role p ∈ roles).
Proof.
  intros Hp Hk. assert (Hone : forall id, exists row, scalar_one_or_none (List.filter (fun s => (sy_id s =? id) && bool_decide (sy_deleted_at s = None)) (tb_systems db)) = Ok row /\
    forall s, row = Some s <-> s ∈ tb_systems db /\ sy_id s = id /\ sy_deleted_at s = None).
  { intros id. assert (Hin : forall s, In s (List.filter (fun s => (sy_id s =? id) && bool_decide (sy_deleted_at s = None)) (tb_systems db)) <->
      s ∈ tb_systems db /\ sy_id s = id /\ sy_deleted_at s = None).
    { intros s. rewrite filter_In, andb_true_iff, bool_decide_eq_true, Z.eqb_eq, list_elem_of_In. done. }
    destruct (List.filter _ _) as [|s [|s' l]] eqn:Ef.
    - exists None. split; [done|]. intros s. rewrite <- Hin. by split.
    - exists (Some s). split; [done|]. intros s'. rewrite <- Hin. cbn. naive_solver.
    - exfalso. assert (Hs : NoDup (List.filter (fun s => (sy_id s =? id) && bool_decide (sy_deleted_at s = None)) (tb_systems db))).
      { eapply sublist_NoDup; [apply NoDup_fmap_1 with (f := sy_id); exact Hk|apply bool_filter_sublist]. }
      rewrite Ef in Hs. apply NoDup_cons in Hs as [Hs _]. apply Hs.
      destruct (proj1 (Hin s) ltac:(by left)) as (H1 & H2 & _), (proj1 (Hin s') ltac:(by right; left)) as (H3 & H4 & _).
      rewrite (nodup_key_inj sy_id (tb_systems db) s s' Hk H1 H3) by congruence. by left. }
  assert (Hscope : forall id s, require_system_in_scope id p db = Ok (inr s) <-> s ∈ tb_systems db /\ sy_id s = id /\ sy_deleted_at s = None /\ sy_organization_id s = org).
  { intros id s. unfold require_system_in_scope. destruct (Hone id) as (row & -> & Hrow). cbn [res_bind]. rewrite Hp. destruct row as [v|].
    - destruct (proj1 (Hrow v) eq_refl) as (H1 & H2 & H3). destruct (Z.eqb_spec (sy_organization_id v) org) as [E|E]; cbn [negb].
      + split; [by intros [= <-]; auto|]. intros (Hs & Hid & Hd & _). by pose proof (proj2 (Hrow s) (conj Hs (conj Hid Hd))) as [= ->].
      + split; [done|]. intros (Hs & Hid & Hd & Ho). pose proof (proj2 (Hrow s) (conj Hs (conj Hid Hd))) as [= ->]. by destruct E.
    - split; [done|]. intros (Hs & Hid & Hd & _). by pose proof (proj2 (Hrow s) (conj Hs (conj Hid Hd))). }
  split; [|split; [exact Hscope|split; [|split; [|split]]]].
  - intros [r|]; cbn; [|done]. destruct (Z.eqb_spec r org) as [->|Hne]; cbn [negb]; [by rewrite bool_decide_eq_true_2 by auto|].
    rewrite bool_decide_eq_false_2; [done|]. intros [|[= ?]]; done.
  - intros id Hno. unfold require_system_in_scope in *. destruct (Hone id) as (row & E & Hrow). rewrite E in *. cbn [res_bind] in *. rewrite Hp in *.
    destruct row as [v|]; [|done]. destruct (sy_organization_id v =? org); cbn [negb] in *; [|done]. destruct Hno. by eexists.
  - intros id. unfold org_systems_subq. rewrite list_elem_of_fmap. setoid_rewrite Hscope. rewrite Hp. setoid_rewrite list_elem_of_In at 1. setoid_rewrite filter_In.
    setoid_rewrite andb_true_iff. setoid_rewrite bool_decide_eq_true. setoid_rewrite <- list_elem_of_In. naive_solver.
  - unfold require_platform_admin, is_global. rewrite Hp, bool_decide_eq_false_2 by done. eexists. split; [reflexivity|done].
  - intros roles. unfold require_role, is_global. rewrite Hp, bool_decide_eq_false_2 by done. cbn [orb]. destruct (mem_spec (pr_role p) roles); by split.
Qed.

(** ** A worked example

    One organization with a policy, one without. Ada signs in with a password, Grace
    has an authenticator and one recovery code left. Stored hashes use one round. *)

Definition demo_stored (password : string) : string :=
  match pbkdf2_hmac (utf8 password) [0; 255] 1 with Ok dk => "pbkdf2_sha256$1$00ff$" +:+ hexdigest dk | Err _ => "" end.
Definition demo_settings : Settings :=
  {| auth_enabled := true; metrics_require_auth := true; auth_session_secret := "session key"; auth_session_ttl_hours := 12;
     auth_lockout_threshold := 3; auth_lockout_minutes := 15 |}.
Definition ada : User :=
  {| us_id := 7; us_organization_id := 1; us_email := "ada@example.org"; us_full_name := VStr "Ada"; us_role := "admin"; us_active := true;
     us_password_hash := Some (demo_stored "correct horse"); us_api_token_hash := None; us_failed_login_attempts := 1; us_locked_until := None;
     us_session_version := 2; us_factor := {| mu_credential := None; mu_codes := [] |} |}.
Definition grace : User :=
  {| us_id := 8; us_organization_id := 2; us_email := "grace@example.org"; us_full_name := VNone; us_role := "viewer"; us_active := true;
     us_password_hash := Some (demo_stored "battery staple"); us_api_token_hash := Some (hash_token "t0ken"); us_failed_login_attempts := 0; us_locked_until := None;
     us_session_version := 0;
     us_factor := {| mu_credential := Some {| mc_secret_encrypted := "GEZDGNBVGY3TQOJQGEZDGNBVGY3TQOJQ"; mc_activated_at := Some 0; mc_last_used_step := None |};
                     mu_codes := [new_code "ABCDE-12345"] |} |}.
Definition demo_db : Tables :=
  {| tb_users := [ada; grace]; tb_policies := {[1 := "optional"; 2 := "all"]};
     tb_systems := [{| sy_id := 1; sy_organization_id := 1; sy_deleted_at := None |}; {| sy_id := 2; sy_organization_id := 2; sy_deleted_at := None |}];
     tb_events := [] |}.
Definition demo_decrypt (s : string) : res string := Ok s.

Lemma demo_keyed : keyed demo_db.
Proof. apply (bool_decide_unpack (NoDup _)). vm_compute. exact I. Qed.

(** Grace gives her password, then one of her recovery codes. *)
Definition demo_first : list (Z * Surface * Attempt) := [(demo_now, Page, Password "grace@example.org" "battery staple")].
Lemma demo_issued : pending_issued demo_settings demo_loads demo_decrypt demo_first demo_db 8 0.
Proof.
  exists [], demo_now, Page, (Password "grace@example.org" "battery staple"), [], grace. eexists. do 4 (split; [reflexivity|]).
  split; [vm_compute; reflexivity|discriminate].
Qed.
Lemma sessions_earned_witness :
  let db := sign_in_run demo_settings demo_loads demo_decrypt demo_first demo_db in
  let second := try_sign_in demo_settings demo_loads demo_decrypt Api (Factor (pending_token demo_settings grace demo_now) "ABCDE-12345") (demo_now + second_us) db in
  exists r u, second.1 = Ok r /\ rs_session r = Some (session_token demo_settings grace (demo_now + second_us)) /\ get_user (us_id u) db = Some u /\
    password_given demo_settings demo_loads demo_decrypt demo_first demo_db (us_id u) (us_session_version u).
Proof.
  intros db second. assert (E : exists r, second.1 = Ok r /\ rs_session r = Some (session_token demo_settings grace (demo_now + second_us))).
  { eexists. split; vm_compute; reflexivity. }
  destruct E as (r & E & Es).
  destruct (proj1 (sessions_are_earned demo_settings demo_loads demo_decrypt Api (Factor (pending_token demo_settings grace demo_now) "ABCDE-12345")
    (demo_now + second_us) db r (run_keyed _ _ _ demo_first demo_db demo_keyed) E) _ Es) as (u & f' & _ & _ & Hg & _ & _ & (Hread & _ & Hrun) & _).
  exists r, u. split; [exact E|]. split; [exact Es|]. split; [exact Hg|]. apply (Hrun demo_first demo_db demo_keyed eq_refl).
  intros uid sv Hr. assert (Hf : read_mfa_pending demo_loads (pending_token demo_settings grace demo_now) (auth_session_secret demo_settings) (demo_now + second_us) = Ok (Some (8, 0))) by (vm_compute; reflexivity).
  rewrite Hf in Hr. injection Hr as <- <-. exact demo_issued.
Defined.

Definition demo_guesses : list (Z * Surface * Attempt) :=
  [(demo_now, Page, Password "grace@example.org" "wrong"); (demo_now + second_us, Api, Factor (pending_token demo_settings grace demo_now) "0");
   (demo_now + 2 * second_us, Api, Password "grace@example.org" "battery staple")].

Lemma guesses_witness : guesses demo_settings demo_loads demo_decrypt 8 demo_guesses demo_db = 2 /\
  guesses demo_settings demo_loads demo_decrypt 8 demo_guesses demo_db <= 3 * (3600 * second_us / (15 * 60 * second_us) + 2) - 1.
Proof.
  split; [vm_compute; reflexivity|].
  apply (guesses_are_bounded demo_settings demo_loads demo_decrypt demo_now (demo_now + 3600 * second_us) 8 demo_guesses demo_db grace).
  - reflexivity.
  - exact demo_keyed.
  - reflexivity.
  - vm_compute. split; [discriminate|reflexivity].
  - vm_compute. discriminate.
  - repeat (constructor; [vm_compute; split; discriminate|]). constructor.
  - vm_compute. reflexivity.
Defined.

Lemma simultaneous_witness : exists reads u',
  Forall2 (fun p rd => authenticate_read demo_settings "ada@example.org" p demo_now demo_db = Ok rd) ["1"; "2"] reads /\
  get_user 7 (fold_left (fun db rd => commit_user rd.1 db) reads demo_db) = Some u' /\ us_failed_login_attempts u' = 2 /\ us_locked_until u' = None.
Proof.
  destruct (simultaneous_guesses_count_once demo_settings "ada@example.org" ["1"; "2"] demo_now demo_db ada) as [Hr Hc].
  - exact demo_keyed.
  - vm_compute. reflexivity.
  - reflexivity.
  - discriminate.
  - intros p Hp. repeat (apply elem_of_cons in Hp as [->|Hp]; [vm_compute; reflexivity|]). apply not_elem_of_nil in Hp as [].
  - reflexivity.
  - pose (rd := (Some (ada, (count_failure demo_settings demo_now ada).2), INVALID)).
    assert (Forall2 (fun p rd => authenticate_read demo_settings "ada@example.org" p demo_now demo_db = Ok rd) ["1"; "2"] [rd; rd]) as Hf.
    { apply List.Forall2_cons; [exact (Hr "1" ltac:(by left))|]. apply List.Forall2_cons; [exact (Hr "2" ltac:(by right; left))|].
      apply List.Forall2_nil. }
    destruct (Hc _ Hf) as (u' & Hg & Hn & Hl). exists [rd; rd], u'. split; [exact Hf|]. split; [exact Hg|]. split; [exact Hn|exact Hl].
Defined.

Definition demo_ops : list (Z * Op) := [(demo_now, OAttempt Page (Password "ada@example.org" "correct horse")); (demo_now, ODisable Api (principal_of ada))].

Lemma revoked_witness : cookie_user demo_settings demo_loads (Some demo_token) demo_now
    (fold_left (fun d x => op_step demo_settings demo_loads (fun s => s) demo_decrypt x.1 x.2 d) demo_ops (revoke_sessions 7 demo_db)) = Ok None.
Proof.
  assert (Hv : forall u, u ∈ tb_users demo_db -> us_id u = 7 -> 2 <= us_session_version u).
  { intros u Hin. apply elem_of_cons in Hin as [->|Hin]; [vm_compute; discriminate|]. apply elem_of_cons in Hin as [->|Hin]; [vm_compute; discriminate|].
    apply not_elem_of_nil in Hin as []. }
  apply (proj1 (revoked_sessions_stay_dead demo_settings demo_loads (fun s => s) demo_decrypt 7 2 demo_ops demo_db demo_keyed Hv) demo_token demo_now).
  exact (read_signed demo_loads 7 "session key" 12 2 demo_now demo_now demo_reads).
Defined.

Definition demo_request : HttpRequest :=
  {| hr_path := "/systems"; hr_authorization := ""; hr_session_cookie := Some (session_token demo_settings ada demo_now); hr_principal := None |}.
Definition no_caches : Caches := {| ca_policy := ∅; ca_any := None |}.

Lemma honoured_witness : exists c', auth_gate_middleware demo_settings demo_loads demo_request (demo_now + 3600 * second_us) 5 demo_db no_caches =
  Ok (CallNext (Some (principal_of ada)), c').
Proof.
  apply (issued_sessions_are_honoured demo_settings demo_loads demo_request demo_now (demo_now + 3600 * second_us) 5 demo_db no_caches ada demo_reads demo_keyed).
  - reflexivity.
  - reflexivity.
  - by left.
  - reflexivity.
  - reflexivity.
  - reflexivity.
  - vm_compute. discriminate.
  - vm_compute. reflexivity.
Defined.

Lemma gate_witness : exists u, us_email u = "grace@example.org" /\ us_active u = true /\
  (proved_by_bearer {| hr_path := "/api/systems"; hr_authorization := "Bearer t0ken"; hr_session_cookie := None; hr_principal := None |} u \/
   proved_by_cookie demo_settings demo_loads {| hr_path := "/api/systems"; hr_authorization := "Bearer t0ken"; hr_session_cookie := None; hr_principal := None |} demo_now u).
Proof.
  pose proof (gate_lets_in_the_proved demo_settings demo_loads {| hr_path := "/api/systems"; hr_authorization := "Bearer t0ken"; hr_session_cookie := None; hr_principal := None |}
    demo_now 5 demo_db no_caches (CallNext (Some (principal_of grace))) no_caches) as H.
  destruct H as (u & Hp & _ & Ha & Hby & _).
  - reflexivity.
  - reflexivity.
  - vm_compute. reflexivity.
  - exists u. injection Hp as Hid Hem _ _. split; [by rewrite <- Hem|]. split; [exact Ha|exact Hby].
Defined.

Lemma enrolment_witness : (enrolment_outstanding (Some 7) (Some 1) "admin" 5 demo_db no_caches).1 =
  policy_requires_enrolment ada demo_db && negb (is_challenged (us_factor ada)).
Proof.
  apply (enrolment_lags_at_most_thirty_seconds (fun _ => tb_policies demo_db) 5 demo_db no_caches ada).
  - exact demo_keyed.
  - by left.
  - split; [intros org t p H; change ((∅ : gmap Z (Z * string)) !! org = Some (t, p)) in H; by rewrite lookup_empty in H|by intros t b [=]].
  - reflexivity.
  - reflexivity.
  - intros p H. vm_compute in H. injection H as <-. by left.
Defined.

Lemma hidden_policy_witness :
  let cleared := forget_policy 1 no_caches in
  (enrolment_outstanding (Some 7) (Some 1) "admin" (29 * second_us)
     (set_policy_commit (principal_of ada) 1 "all" demo_db) (enrolment_outstanding (Some 7) (Some 1) "admin" 0 demo_db cleared).2).1 = false.
Proof.
  apply (policy_change_can_be_hidden (principal_of ada) ada 0 (29 * second_us) demo_db no_caches demo_keyed).
  - by left.
  - reflexivity.
  - reflexivity.
  - vm_compute. reflexivity.
  - vm_compute. reflexivity.
  - vm_compute. split; [discriminate|reflexivity].
Defined.

Lemma callers_witness : require_system_in_scope 2 (principal_of ada) demo_db = Ok (inl (HTTPException 404 "system not found")) /\
  require_system_in_scope 3 (principal_of ada) demo_db = Ok (inl (HTTPException 404 "system not found")).
Proof.
  destruct (callers_stay_in_their_org (principal_of ada) 1 demo_db) as (_ & Hs & Hno & _); [reflexivity|apply (bool_decide_unpack (NoDup _)); vm_compute; exact I|].
  split; apply Hno; intros [s Hx]; vm_compute in Hx; discriminate.
Defined.

