(* ===== verification/Provisioning.v ===== *)
(** Accounts from elsewhere: just-in-time provisioning from OIDC claims, group to role
    mappings, SCIM, certificate links ([src/src/ccf/identity/provisioning.py],
    [identity/piv.py] and the routes of [api/routes/identity.py]), and the operator's
    [user_create] ([cli.py]).

    An exception rolls the request's transaction back, so an operation that fails
    leaves the directory as it was. The code exchange with the identity provider and
    the reading of a certificate are parameters; the text of a claim is what Python
    would print of it. *)

From S2P Require Import AuditChain.
From S2P Require Export SignIn.

Local Open Scope string_scope.
Local Open Scope Z_scope.

Definition VALID_ROLES : list string := ["admin"; "control_owner"; "assessor"; "viewer"].
Definition PIV_PROVIDER : string := "piv".
Definition DEFAULT_ROLE : string := "viewer".

Definition ProvisioningError (m : string) : exn := Exn "ProvisioningError" m.
Definition ProvisioningConflictError (m : string) : exn := Exn "ProvisioningConflictError" m.
Definition PivNotLinkedError (m : string) : exn := Exn "PivNotLinkedError" m.

Record ExternalIdentity := {
  ei_id : Z;
  ei_organization_id : option Z;
  ei_user_id : Z;
  ei_provider : string;
  ei_subject : string;
  ei_email : option string;
  ei_claims : pyval;
  ei_last_login_at : option Z }.

Record GroupRoleMapping := {
  gm_id : Z;
  gm_organization_id : option Z;
  gm_group : string;
  gm_role : string;
  gm_priority : Z }.

Record ScimProvisioningEvent := {
  se_organization_id : option Z;
  se_operation : string;
  se_external_id : pyval;
  se_email : string;
  se_user_id : Z;
  se_detail : pyval }.

(** The tables of sign-in, the organizations' ids in order, and those of provisioning,
    with the next ids of their sequences. *)
Record Directory := {
  dr_tables : Tables;
  dr_orgs : list Z;
  dr_identities : list ExternalIdentity;
  dr_mappings : list GroupRoleMapping;
  dr_scim_events : list ScimProvisioningEvent;
  dr_next_user : Z;
  dr_next_identity : Z;
  dr_next_mapping : Z;
  dr_next_org : Z }.

Definition set_tables (t : Tables) (d : Directory) : Directory :=
  {| dr_tables := t; dr_orgs := dr_orgs d; dr_identities := dr_identities d; dr_mappings := dr_mappings d;
     dr_scim_events := dr_scim_events d; dr_next_user := dr_next_user d; dr_next_identity := dr_next_identity d;
     dr_next_mapping := dr_next_mapping d; dr_next_org := dr_next_org d |}.
Definition set_identities (l : list ExternalIdentity) (next : Z) (d : Directory) : Directory :=
  {| dr_tables := dr_tables d; dr_orgs := dr_orgs d; dr_identities := l; dr_mappings := dr_mappings d;
     dr_scim_events := dr_scim_events d; dr_next_user := dr_next_user d; dr_next_identity := next;
     dr_next_mapping := dr_next_mapping d; dr_next_org := dr_next_org d |}.
Definition users (d : Directory) : list User := tb_users (dr_tables d).
Definition record (e : Event) (d : Directory) : Directory := set_tables (add_event e (dr_tables d)) d.
Definition record_scim (e : ScimProvisioningEvent) (d : Directory) : Directory :=
  {| dr_tables := dr_tables d; dr_orgs := dr_orgs d; dr_identities := dr_identities d; dr_mappings := dr_mappings d;
     dr_scim_events := (dr_scim_events d ++ [e])%list; dr_next_user := dr_next_user d; dr_next_identity := dr_next_identity d;
     dr_next_mapping := dr_next_mapping d; dr_next_org := dr_next_org d |}.

(** A new account, with the columns' defaults; and a changed one. *)
Definition new_user (id org_id : Z) (email : string) (full_name : pyval) (role : string) (active : bool) : User :=
  {| us_id := id; us_organization_id := org_id; us_email := email; us_full_name := full_name; us_role := role; us_active := active;
     us_password_hash := None; us_api_token_hash := None; us_failed_login_attempts := 0; us_locked_until := None; us_session_version := 0;
     us_factor := {| mu_credential := None; mu_codes := [] |} |}.
Definition with_profile (full_name : pyval) (role : string) (active : bool) (u : User) : User :=
  {| us_id := us_id u; us_organization_id := us_organization_id u; us_email := us_email u; us_full_name := full_name; us_role := role;
     us_active := active; us_password_hash := us_password_hash u; us_api_token_hash := us_api_token_hash u;
     us_failed_login_attempts := us_failed_login_attempts u; us_locked_until := us_locked_until u;
     us_session_version := us_session_version u; us_factor := us_factor u |}.

Definition add_user (u : User) (d : Directory) : Directory :=
  {| dr_tables := set_users (tb_users (dr_tables d) ++ [u])%list (dr_tables d); dr_orgs := dr_orgs d; dr_identities := dr_identities d;
     dr_mappings := dr_mappings d; dr_scim_events := dr_scim_events d; dr_next_user := dr_next_user d + 1;
     dr_next_identity := dr_next_identity d;
     dr_next_mapping := dr_next_mapping d; dr_next_org := dr_next_org d |}.
(** The loaded object [u], as left, over its row. *)
Definition put_user (u : User) (d : Directory) : Directory :=
  set_tables (set_users (map (fun r => if us_id r =? us_id u then u else r) (users d)) (dr_tables d)) d.

Definition user_by_email (email : string) (d : Directory) : res (option User) :=
  user_where (fun u => bool_decide (us_email u = email)) (dr_tables d).

(** ** Claims *)

Definition split_groups (s : string) : list string :=
  List.filter str_truthy (map strip (split_on ","%char s)).

Definition extract_groups (claims : list (string * pyval)) : list string :=
  concat (map (fun key => match vget key claims with
                          | VStr s => split_groups s
                          | VList l => map py_str l
                          | _ => []
                          end) ["groups"; "roles"; "wids"]).

Definition email_verification_ok (claims : list (string * pyval)) (require : bool) : bool :=
  match vget "email_verified" claims with
  | VNone => negb require
  | VStr s => bool_decide (lower (strip s) = "true")
  | v => truthy v
  end.

Definition is_at (c : ascii) : bool := bool_decide (c = "@"%char).

(** [email.rsplit("@", 1)[-1]] *)
Definition after_at (s : string) : string := List.last (split_on "@"%char s) "".

Definition domain_allowed (email : string) (allowed_domains : list string) : bool :=
  match allowed_domains with
  | [] => true
  | _ => let domain := lower (after_at email) in
         existsb (fun d => bool_decide (domain = drop_while is_at (lower (strip d)))) (List.filter str_truthy allowed_domains)
  end.

Definition mapping_le (a b : GroupRoleMapping) : bool :=
  (gm_priority a <? gm_priority b) || ((gm_priority a =? gm_priority b) && (gm_id a <=? gm_id b)).

Definition candidates (org_id : option Z) (groups : list string) (mappings : list GroupRoleMapping) : list GroupRoleMapping :=
  stable_sort mapping_le (List.filter (fun m => mem (gm_group m) groups &&
    match org_id with Some _ => bool_decide (gm_organization_id m = org_id) | None => true end) mappings).

Definition resolve_role (org_id : option Z) (groups : list string) (default_role : string) (d : Directory) : string :=
  match groups with
  | [] => default_role
  | _ => match candidates org_id groups (dr_mappings d) with
         | m :: _ => if mem (gm_role m) VALID_ROLES then gm_role m else default_role
         | [] => default_role
         end
  end.

Definition audit_event (actor action : string) (u : User) (diff : list (string * pyval)) : Event :=
  {| ev_organization_id := Some (us_organization_id u); ev_actor := actor; ev_action := action; ev_entity_type := "identity";
     ev_entity_id := Some (pretty (us_id u)); ev_diff := VDict diff |}.

(** ** Just in time *)

(** [(v or "").strip()] *)
Definition text_or_empty (v : pyval) : res string :=
  if truthy v then match v with VStr s => Ok (strip s) | _ => Err (AttributeError (type_name v) "strip") end else Ok "".

Definition identity_where (provider subject : string) (d : Directory) : res (option ExternalIdentity) :=
  scalar_one_or_none (List.filter (fun i => bool_decide (ei_provider i = provider) && bool_decide (ei_subject i = subject)) (dr_identities d)).

Definition seen_by (claims : pyval) (email : string) (now : Z) (i : ExternalIdentity) : ExternalIdentity :=
  {| ei_id := ei_id i; ei_organization_id := ei_organization_id i; ei_user_id := ei_user_id i; ei_provider := ei_provider i;
     ei_subject := ei_subject i; ei_email := Some email; ei_claims := claims; ei_last_login_at := Some now |}.

Definition link_identity (ident : option ExternalIdentity) (provider subject : string) (u : User) (claims : pyval) (email : string) (now : Z)
    (d : Directory) : Directory :=
  match ident with
  | Some i => set_identities (map (fun r => if ei_id r =? ei_id i then seen_by claims email now r else r) (dr_identities d)) (dr_next_identity d) d
  | None =>
      let i := {| ei_id := dr_next_identity d; ei_organization_id := Some (us_organization_id u); ei_user_id := us_id u;
                  ei_provider := provider; ei_subject := subject; ei_email := Some email; ei_claims := VDict []; ei_last_login_at := None |} in
      set_identities (dr_identities d ++ [seen_by claims email now i])%list (dr_next_identity d + 1) d
  end.

(** The account the claims speak for: the linked one, else the one with the address,
    else a new one. *)
Definition find_or_create (ident : option ExternalIdentity) (claims : list (string * pyval)) (email : string) (groups : list string)
    (org_id : Z) (default_role : string) (jit : bool) (d : Directory) : res (User * bool * Directory) :=
  let linked := match ident with Some i => get_user (ei_user_id i) (dr_tables d) | None => None end in
  let! found := match linked with Some u => Ok (Some u) | None => user_by_email email d end in
  match found with
  | Some u => Ok (u, false, d)
  | None =>
      if negb jit then Err (ProvisioningError "no matching account and JIT provisioning disabled") else
      let create_role := resolve_role (Some org_id) groups default_role d in
      let role := if mem create_role VALID_ROLES then create_role else DEFAULT_ROLE in
      let u := new_user (dr_next_user d) org_id email (vget "name" claims) role true in
      Ok (u, true, record (audit_event email "create" u
        [("event", VStr "jit_provision"); ("email", VStr email); ("role", VStr role); ("groups", VList (map VStr groups))]) (add_user u d))
  end.

Definition apply_role (email : string) (groups : list string) (default_role : string) (u : User) (d : Directory) : User * Directory :=
  let mapped_role := resolve_role (Some (us_organization_id u)) groups default_role d in
  if negb (bool_decide (groups = [])) && mem mapped_role VALID_ROLES && negb (bool_decide (us_role u = mapped_role)) then
    let u' := with_profile (us_full_name u) mapped_role (us_active u) u in
    (u', record (audit_event email "update" u
      [("event", VStr "role_change"); ("from", VStr (us_role u)); ("to", VStr mapped_role); ("groups", VList (map VStr groups))]) (put_user u' d))
  else (u, d).

Definition provision_from_oidc (claims : list (string * pyval)) (org_id : Z) (allowed_domains : list string) (default_role : string)
    (jit : bool) (provider : string) (require_email_verified : bool) (now : Z) (d : Directory) : res (User * bool * Directory) :=
  let! raw := text_or_empty (vget "email" claims) in
  let email := lower raw in
  let sub := vget "sub" claims in
  let subject := strip (if truthy sub then py_str sub else "") in
  if negb (str_truthy email) || negb (str_truthy subject) then Err (ProvisioningError "OIDC claims missing required 'email'/'sub'") else
  if negb (domain_allowed email allowed_domains) then Err (ProvisioningError ("email domain not allowed: " +:+ email)) else
  if negb (email_verification_ok claims require_email_verified) then
    Err (ProvisioningError ("the identity provider has not verified " +:+ email +:+ "; it cannot be used to create or sign in to an account")) else
  let groups := extract_groups claims in
  let! ident := identity_where provider subject d in
  let! found := find_or_create ident claims email groups org_id default_role jit d in
  let '(u, created, d) := found in
  if negb (us_active u) then Err (ProvisioningError "account is deactivated") else
  let '(u, d) := apply_role email groups default_role u d in
  Ok (u, created, link_identity ident provider subject u (VDict claims) email now d).

(** ** Certificates *)

(** [identity_subject]: the subject [identity_from_pem] reads off the certificate. *)
Definition user_for_certificate (identity_subject : string) (now : Z) (d : Directory) : res (User * Directory) :=
  let! ident := identity_where PIV_PROVIDER identity_subject d in
  match ident with
  | None => Err (PivNotLinkedError ("this certificate (" +:+ identity_subject +:+ ") is valid but is not linked to a Concord account; an administrator must link it"))
  | Some i =>
      match get_user (ei_user_id i) (dr_tables d) with
      | None => Err (PivNotLinkedError ("this certificate (" +:+ identity_subject +:+ ") is linked to an account that no longer exists"))
      | Some u =>
          if negb (us_active u) then Err (ProvisioningError "account is deactivated") else
          Ok (u, set_identities (map (fun r => if ei_id r =? ei_id i then
            {| ei_id := ei_id r; ei_organization_id := ei_organization_id r; ei_user_id := ei_user_id r; ei_provider := ei_provider r;
               ei_subject := ei_subject r; ei_email := ei_email r; ei_claims := ei_claims r; ei_last_login_at := Some now |} else r) (dr_identities d))
            (dr_next_identity d) d)
      end
  end.

(** ** SCIM *)

Definition scim_user_resource (u : User) : pyval :=
  VDict [("schemas", VList [VStr "urn:ietf:params:scim:schemas:core:2.0:User"]); ("id", VStr (pretty (us_id u))); ("userName", VStr (us_email u));
         ("name", VDict [("formatted", if truthy (us_full_name u) then us_full_name u else VStr (us_email u))]);
         ("emails", VList [VDict [("value", VStr (us_email u)); ("primary", VBool true)]]); ("active", VBool (us_active u));
         ("roles", VList [VDict [("value", VStr (us_role u))]]); ("meta", VDict [("resourceType", VStr "User")])].

(** [payload.get("emails") or []], indexed by 0. *)
Definition first_email (v : pyval) : res pyval :=
  if negb (truthy v) then Ok VNone else
  match v with
  | VList (x :: _) => Ok x
  | VStr (String c _) => Ok (VStr (String c ""))
  | VDict _ => Err (KeyError "0")
  | _ => Err (TypeError ("'" +:+ type_name v +:+ "' object is not subscriptable"))
  end.

Definition scim_email (payload : list (string * pyval)) : res (option string) :=
  if truthy (vget "userName" payload) then Ok (Some (lower (strip (py_str (vget "userName" payload)))))
  else let! first := first_email (vget "emails" payload) in
       match first with
       | VDict e => if truthy (vget "value" e) then Ok (Some (lower (strip (py_str (vget "value" e))))) else Ok None
       | _ => Ok None
       end.

(** [(payload.get("name") or {}).get("formatted") or payload.get("displayName")] *)
Definition scim_name (payload : list (string * pyval)) : res pyval :=
  let name := vget "name" payload in
  let! formatted := (if negb (truthy name) then Ok VNone else
                     match name with VDict n => Ok (vget "formatted" n) | _ => Err (AttributeError (type_name name) "get") end) in
  Ok (if truthy formatted then formatted else vget "displayName" payload).

Definition scim_create_or_update_user (org_id : Z) (payload : list (string * pyval)) (d : Directory) : res (User * bool * Directory) :=
  let! email := scim_email payload in
  match email with
  | None => Err (ProvisioningError "SCIM payload missing userName/emails")
  | Some email =>
      if negb (str_truthy email) then Err (ProvisioningError "SCIM payload missing userName/emails") else
      let! name := scim_name payload in
      let active := truthy (default (VBool true) (dget "active" payload)) in
      let! found := user_by_email email d in
      let! done := match found with
                   | Some u =>
                       if negb (us_organization_id u =? org_id) then
                         Err (ProvisioningConflictError (email +:+ " already belongs to another organization; SCIM will not " +:+
                           "modify a user outside the organization it provisions into"))
                       else let u' := with_profile (if truthy name then name else us_full_name u) (us_role u) active u in
                            Ok (u', false, put_user u' d)
                   | None => let u := new_user (dr_next_user d) org_id email name DEFAULT_ROLE active in Ok (u, true, add_user u d)
                   end in
      let '(u, created, d) := (done : User * bool * Directory) in
      let operation := if created : bool then "create" else "update" in
      let d := record_scim {| se_organization_id := Some org_id; se_operation := operation; se_external_id := vget "externalId" payload;
                              se_email := email; se_user_id := us_id u; se_detail := VDict [("active", VBool active)] |} d in
      Ok (u, created, record (audit_event "scim" operation u [("event", VStr "scim_provision"); ("email", VStr email); ("active", VBool active)]) d)
  end.

Definition scim_deactivate_user (org_id : Z) (u : User) (d : Directory) : User * Directory :=
  let u' := with_profile (us_full_name u) (us_role u) false u in
  let d := record_scim {| se_organization_id := Some org_id; se_operation := "deactivate"; se_external_id := VNone; se_email := us_email u;
                          se_user_id := us_id u; se_detail := VDict [] |} (put_user u' d) in
  (u', record (audit_event "scim" "update" u [("event", VStr "scim_deactivate"); ("email", VStr (us_email u))]) d).

(** ** Routes *)

Record IdentitySettings := {
  is_base : Settings;
  oidc_enabled : bool;
  oidc_allowed_domains : list string;
  oidc_require_email_verified : bool;
  oidc_organization_id : option Z;
  auth_jit_provisioning : bool;
  piv_enabled : bool;
  piv_trusted_proxies : list string;
  scim_enabled : bool;
  scim_bearer_token : option string;
  scim_organization_id : option Z }.

Definition answered : Type := res Response * Directory.

Definition new_org (d : Directory) : Z * Directory :=
  (dr_next_org d,
   {| dr_tables := dr_tables d; dr_orgs := (dr_orgs d ++ [dr_next_org d])%list; dr_identities := dr_identities d; dr_mappings := dr_mappings d;
      dr_scim_events := dr_scim_events d; dr_next_user := dr_next_user d; dr_next_identity := dr_next_identity d;
      dr_next_mapping := dr_next_mapping d; dr_next_org := dr_next_org d + 1 |}).

(** The one organization, a configured one, or a refusal. *)
Definition target_org (configured : option Z) (missing ambiguous : string) (d : Directory) : Response + (Z * Directory) :=
  match configured with
  | Some org => if mem org (dr_orgs d) then inr (org, d) else inl (HTTPException 500 missing)
  | None => match dr_orgs d with
            | [org] => inr (org, d)
            | [] => inr (new_org d)
            | _ => inl (HTTPException 500 ambiguous)
            end
  end.

Definition sso_provisioning_org (configured : option Z) : Directory -> Response + (Z * Directory) :=
  target_org configured ("CCF_OIDC_ORGANIZATION_ID=" +:+ fmt_opt (pretty <$> configured) +:+ " does not match any organization")
    ("this deployment has more than one organization and CCF_OIDC_ORGANIZATION_ID " +:+
     "is not set, so there is nothing to say which tenant a newly provisioned " +:+ "single-sign-on user belongs to").

Definition scim_target_org (configured : option Z) : Directory -> Response + (Z * Directory) :=
  target_org configured ("CCF_SCIM_ORGANIZATION_ID=" +:+ fmt_opt (pretty <$> configured) +:+ " does not match any organization")
    ("SCIM target organization is ambiguous: this deployment has more than one " +:+
     "organization and CCF_SCIM_ORGANIZATION_ID is not set, so nothing in the " +:+ "request says which one this token provisions into").

Section routes.
Context (settings : IdentitySettings).
(** [exchange_code] with the code and the verifier; the subject [identity_from_pem]
    finds in a presented certificate; [peer_is_trusted]. *)
Context (exchange_code : string -> string -> res (list (string * pyval))).
Context (certificate_subject : string -> res string) (peer_is_trusted : option string -> list string -> bool).

Definition signed_in_response (u : User) (now : Z) : Response :=
  set_session (session_token (is_base settings) u now) (RedirectResponse "/").

Definition sso_callback (code state : string) (state_cookie verifier_cookie : option string) (now : Z) (d : Directory) : answered :=
  if negb (oidc_enabled settings) then (Ok (RedirectResponse "/login"), d) else
  let verifier := or_empty verifier_cookie in
  if negb (str_truthy code) || negb (str_truthy verifier) || negb (bool_decide (Some state = state_cookie)) then
    (Ok (HTTPException 400 "invalid OIDC state or missing code"), d)
  else match exchange_code code verifier with
  | Err _ => (Ok (HTTPException 502 "OIDC token exchange failed"), d)
  | Ok claims =>
      match sso_provisioning_org (oidc_organization_id settings) d with
      | inl r => (Ok r, d)
      | inr (org_id, d1) =>
          match provision_from_oidc claims org_id (oidc_allowed_domains settings) DEFAULT_ROLE (auth_jit_provisioning settings) "oidc"
                  (oidc_require_email_verified settings) now d1 with
          | Err e => (if bool_decide (exn_class e = "ProvisioningError") then Ok (HTTPException 403 (exn_msg e)) else Err e, d)
          | Ok (u, _, d2) => (Ok (signed_in_response u now), d2)
          end
      end
  end.

Definition piv_login (peer : option string) (verify_header cert_header : option string) (now : Z) (d : Directory) : answered :=
  if negb (piv_enabled settings) then (Ok (RedirectResponse "/login"), d) else
  match piv_trusted_proxies settings with
  | [] => (Ok (HTTPException 500 ("PIV is enabled but CCF_PIV_TRUSTED_PROXIES is empty; Concord will not " +:+
                                  "read client-certificate headers from an unrestricted set of peers")), d)
  | proxies =>
      if negb (peer_is_trusted peer proxies) then (Ok (HTTPException 404 "not found"), d) else
      if negb (bool_decide (upper (strip (or_empty verify_header)) = "SUCCESS")) then
        (Ok (HTTPException 401 "the client certificate was not verified upstream"), d)
      else if negb (str_truthy (or_empty cert_header)) then (Ok (HTTPException 401 "no client certificate was presented"), d) else
      match certificate_subject (or_empty cert_header) with
      | Err e => (if bool_decide (exn_class e = "PivError") then Ok (HTTPException 401 (exn_msg e)) else Err e, d)
      | Ok subject =>
          match user_for_certificate subject now d with
          | Err e => (if mem (exn_class e) ["PivNotLinkedError"; "ProvisioningError"] then Ok (HTTPException 403 (exn_msg e)) else Err e, d)
          | Ok (u, d') => (Ok (signed_in_response u now), d')
          end
      end
  end.

(** A row another tenant's session cannot see under row-level security. *)
Definition visible_to (p : Principal) (organization_id : option Z) : bool :=
  match pr_org_id p with
  | None => true
  | Some _ => bool_decide (organization_id = pr_org_id p)
  end.

Definition piv_link_out (i : ExternalIdentity) : pyval :=
  VDict [("id", VInt (ei_id i)); ("user_id", VInt (ei_user_id i)); ("subject", VStr (ei_subject i));
         ("last_login_at", match ei_last_login_at i with Some t => VStr (dt_iso t) | None => VNone end)].

Definition piv_subject (certificate_pem subject : option string) : res (Response + string) :=
  if str_truthy (or_empty certificate_pem) then
    match certificate_subject (or_empty certificate_pem) with
    | Ok s => Ok (inr s)
    | Err e => if bool_decide (exn_class e = "PivError") then Ok (inl (HTTPException 422 (exn_msg e))) else Err e
    end
  else if str_truthy (or_empty subject) then Ok (inr (strip (or_empty subject)))
  else Ok (inl (HTTPException 422 "provide certificate_pem or subject")).

Definition create_piv_link (p : Principal) (user_id : Z) (certificate_pem subject : option string) (d : Directory) : answered :=
  match piv_subject certificate_pem subject with
  | Err e => (Err e, d)
  | Ok (inl r) => (Ok r, d)
  | Ok (inr subject) =>
      if negb (str_truthy subject) then (Ok (HTTPException 422 "the certificate carries an empty subject"), d) else
      match get_user user_id (dr_tables d) with
      | None => (Ok (HTTPException 404 "user not found"), d)
      | Some u =>
          if negb (is_global p) && negb (bool_decide (pr_org_id p = Some (us_organization_id u))) then (Ok (HTTPException 404 "user not found"), d) else
          match identity_where PIV_PROVIDER subject (set_identities (List.filter (fun i => visible_to p (ei_organization_id i)) (dr_identities d)) (dr_next_identity d) d) with
          | Err e => (Err e, d)
          | Ok (Some i) => if ei_user_id i =? user_id then (Ok (answer 201 (piv_link_out i)), d)
                           else (Ok (HTTPException 409 "that certificate is already linked to an account"), d)
          | Ok None =>
              (* the unique constraint on (provider, subject) sees every tenant *)
              if existsb (fun i => bool_decide (ei_provider i = PIV_PROVIDER) && bool_decide (ei_subject i = subject)) (dr_identities d)
              then (Ok (HTTPException 409 "that certificate is already linked to an account"), d)
              else
                let i := {| ei_id := dr_next_identity d; ei_organization_id := Some (us_organization_id u); ei_user_id := us_id u; ei_provider := PIV_PROVIDER;
                            ei_subject := subject; ei_email := None; ei_claims := VDict []; ei_last_login_at := None |} in
                (Ok (answer 201 (piv_link_out i)),
                 record (audit_event (str_or (pr_email p) "admin") "create" u [("event", VStr "piv_link"); ("subject", VStr subject)])
                   (set_identities (dr_identities d ++ [i])%list (dr_next_identity d + 1) d))
          end
      end
  end.

Definition list_piv_links (p : Principal) (d : Directory) : list pyval :=
  map piv_link_out (List.filter (fun i => bool_decide (ei_provider i = PIV_PROVIDER) &&
    (is_global p || bool_decide (ei_organization_id i = pr_org_id p))) (dr_identities d)).

Definition delete_piv_link (p : Principal) (link_id : Z) (d : Directory) : answered :=
  match List.find (fun i => ei_id i =? link_id) (dr_identities d) with
  | None => (Ok (HTTPException 404 "link not found"), d)
  | Some i =>
      if negb (bool_decide (ei_provider i = PIV_PROVIDER)) || (negb (is_global p) && negb (bool_decide (ei_organization_id i = pr_org_id p)))
      then (Ok (HTTPException 404 "link not found"), d)
      else (Ok (answer 204 VNone),
            record {| ev_organization_id := ei_organization_id i; ev_actor := str_or (pr_email p) "admin"; ev_action := "delete"; ev_entity_type := "identity";
                      ev_entity_id := Some (pretty (ei_user_id i)); ev_diff := VDict [("event", VStr "piv_unlink"); ("subject", VStr (ei_subject i))] |}
              (set_identities (List.filter (fun r => negb (ei_id r =? link_id)) (dr_identities d)) (dr_next_identity d) d))
  end.

(** ** Group mappings *)

Definition set_mappings (l : list GroupRoleMapping) (next : Z) (d : Directory) : Directory :=
  {| dr_tables := dr_tables d; dr_orgs := dr_orgs d; dr_identities := dr_identities d; dr_mappings := l; dr_scim_events := dr_scim_events d;
     dr_next_user := dr_next_user d; dr_next_identity := dr_next_identity d; dr_next_mapping := next; dr_next_org := dr_next_org d |}.

(** The group is unique in its organization. *)
Definition create_mapping (p : Principal) (group role : string) (priority : Z) (d : Directory) : answered :=
  if negb (mem role VALID_ROLES) then (Ok (HTTPException 422 "invalid role"), d) else
  if existsb (fun m => bool_decide (gm_organization_id m = pr_org_id p) && bool_decide (gm_group m = group) && negb (is_global p)) (dr_mappings d)
  then (Err (Exn "IntegrityError" "uq_group_role_mapping"), d) else
  let m := {| gm_id := dr_next_mapping d; gm_organization_id := pr_org_id p; gm_group := group; gm_role := role; gm_priority := priority |} in
  (Ok (answer 201 (VDict [("id", VInt (gm_id m)); ("group", VStr group); ("role", VStr role)])),
   set_mappings (dr_mappings d ++ [m])%list (dr_next_mapping d + 1) d).

Definition list_mappings (p : Principal) (d : Directory) : list pyval :=
  map (fun m => VDict [("id", VInt (gm_id m)); ("group", VStr (gm_group m)); ("role", VStr (gm_role m)); ("priority", VInt (gm_priority m))])
    (stable_sort mapping_le (List.filter (fun m => is_global p || bool_decide (gm_organization_id m = pr_org_id p)) (dr_mappings d))).

Definition delete_mapping (p : Principal) (mapping_id : Z) (d : Directory) : Directory :=
  match List.find (fun m => gm_id m =? mapping_id) (dr_mappings d) with
  | Some m => if is_global p || bool_decide (gm_organization_id m = pr_org_id p)
              then set_mappings (List.filter (fun r => negb (gm_id r =? mapping_id)) (dr_mappings d)) (dr_next_mapping d) d else d
  | None => d
  end.

(** ** SCIM routes *)

Definition scim_org (authorization : string) (d : Directory) : res (Response + (Z * Directory)) :=
  let bearer := or_empty (scim_bearer_token settings) in
  if negb (scim_enabled settings) || negb (str_truthy bearer) then Ok (inl (HTTPException 404 "SCIM is not enabled")) else
  let token := if startswith "bearer " (lower authorization) then strip (str_drop 7 authorization) else "" in
  let! same := compare_digest token bearer in
  if negb same then Ok (inl (HTTPException 401 "invalid SCIM token")) else Ok (scim_target_org (scim_organization_id settings) d).

(** A SCIM handler runs in the organization the token resolves to, or not at all; what
    it writes is kept when it answers and nothing is when it fails. *)
Definition in_scim_org (authorization : string) (d : Directory) (handler : Z -> Directory -> res (Response * Directory)) : answered :=
  match scim_org authorization d with
  | Err e => (Err e, d)
  | Ok (inl r) => (Ok r, d)
  | Ok (inr (org_id, d1)) => match handler org_id d1 with Ok (r, d2) => (Ok r, d2) | Err e => (Err e, d) end
  end.

Definition scim_user_in_org (user_id org_id : Z) (d : Directory) : option User :=
  match get_user user_id (dr_tables d) with
  | Some u => if us_organization_id u =? org_id then Some u else None
  | None => None
  end.

Fixpoint first_active_op (ops : list pyval) : option bool :=
  match ops with
  | [] => None
  | VDict op :: rest =>
      if bool_decide (lower (py_str (default (VStr "") (dget "path" op))) = "active") then
        match vget "value" op with
        | VBool b => Some b
        | VStr s => Some (bool_decide (lower (strip s) = "true"))
        | _ => first_active_op rest
        end
      else first_active_op rest
  | _ :: rest => first_active_op rest
  end.

Definition scim_active (payload : list (string * pyval)) : res (option bool) :=
  match dget "active" payload with
  | Some v => Ok (Some (truthy v))
  | None => let! ops := iter_val (default (VList []) (dget "Operations" payload)) in Ok (first_active_op ops)
  end.

Definition scim_create_user (authorization : string) (payload : list (string * pyval)) (d : Directory) : answered :=
  in_scim_org authorization d (fun org_id d1 =>
    match scim_create_or_update_user org_id payload d1 with
    | Ok (u, _, d2) => Ok (answer 201 (scim_user_resource u), d2)
    | Err e => if bool_decide (exn_class e = "ProvisioningConflictError") then Ok (HTTPException 409 (exn_msg e), d)
               else if bool_decide (exn_class e = "ProvisioningError") then Ok (HTTPException 400 (exn_msg e), d) else Err e
    end).

Definition scim_update_user (authorization : string) (user_id : Z) (payload : list (string * pyval)) (d : Directory) : answered :=
  in_scim_org authorization d (fun org_id d1 =>
    match scim_user_in_org user_id org_id d1 with
    | None => Ok (HTTPException 404 "user not found", d)
    | Some u =>
        let! active := scim_active payload in
        let! d2 := match active with
                   | Some false => Ok (scim_deactivate_user org_id u d1).2
                   | _ =>
                       let merged := dset "userName" (VStr (us_email u)) payload in
                       let merged := match active with Some true => dset "active" (VBool true) merged | _ => merged end in
                       let! updated := scim_create_or_update_user org_id merged d1 in Ok updated.2
                   end in
        Ok (answer 200 (scim_user_resource (default u (get_user user_id (dr_tables d2)))), d2)
    end).

Definition scim_delete_user (authorization : string) (user_id : Z) (d : Directory) : answered :=
  in_scim_org authorization d (fun org_id d1 =>
    match scim_user_in_org user_id org_id d1 with
    | None => Ok (HTTPException 404 "user not found", d)
    | Some u => Ok (answer 204 VNone, (scim_deactivate_user org_id u d1).2)
    end).

Definition scim_get_user (authorization : string) (user_id : Z) (d : Directory) : answered :=
  in_scim_org authorization d (fun org_id d1 =>
    match scim_user_in_org user_id org_id d1 with
    | None => Ok (HTTPException 404 "user not found", d)
    | Some u => Ok (answer 200 (scim_user_resource u), d)
    end).

Definition scim_list (resources : list pyval) : Response :=
  answer 200 (VDict [("schemas", VList [VStr "urn:ietf:params:scim:api:messages:2.0:ListResponse"]);
                     ("totalResults", VInt (Z.of_nat (List.length resources))); ("Resources", VList resources)]).

Definition user_le (a b : User) : bool := us_id a <=? us_id b.
Definition scim_list_users (authorization : string) (d : Directory) : answered :=
  in_scim_org authorization d (fun org_id d1 =>
    Ok (scim_list (map scim_user_resource (stable_sort user_le (List.filter (fun u => us_organization_id u =? org_id) (users d1)))), d)).

Definition scim_group_resource (g : GroupRoleMapping) : pyval :=
  VDict [("id", VStr (pretty (gm_id g))); ("displayName", VStr (gm_group g)); ("meta", VDict [("resourceType", VStr "Group")])].
Definition group_le (a b : GroupRoleMapping) : bool := str_leb (gm_group a) (gm_group b).
Definition scim_list_groups (authorization : string) (d : Directory) : answered :=
  in_scim_org authorization d (fun org_id d1 =>
    Ok (scim_list (map scim_group_resource
      (stable_sort group_le (List.filter (fun g => bool_decide (gm_organization_id g = Some org_id)) (dr_mappings d1)))), d)).
End routes.

(** ** The operator's command *)

(** [user-create] in a given organization, with the salt and the token it draws. *)
Definition user_create (min_length : Z) (email role password salt token : string) (org_id : Z) (d : Directory) : res Directory :=
  let! _ := validate_password_policy password min_length in
  let! found := user_by_email email d in
  let! hash := hash_password password salt in
  let '(u, d) := match found with
                 | Some u => (u, d)
                 | None => let u := new_user (dr_next_user d) org_id email VNone DEFAULT_ROLE true in (u, add_user u d)
                 end in
  Ok (put_user {| us_id := us_id u; us_organization_id := us_organization_id u; us_email := us_email u; us_full_name := us_full_name u; us_role := role;
                  us_active := true; us_password_hash := Some hash; us_api_token_hash := Some (hash_token token);
                  us_failed_login_attempts := us_failed_login_attempts u; us_locked_until := us_locked_until u;
                  us_session_version := us_session_version u + 1; us_factor := us_factor u |} d).

(** ** Lemmas *)

Record directory_wf (d : Directory) : Prop := {
  wf_ids : NoDup (map us_id (users d));
  wf_next : forall u, u ∈ users d -> us_id u < dr_next_user d;
  wf_emails : NoDup (map us_email (users d));
  wf_links : NoDup (map (fun i => (ei_provider i, ei_subject i)) (dr_identities d));
  wf_link_ids : NoDup (map ei_id (dr_identities d));
  wf_next_link : forall i, i ∈ dr_identities d -> ei_id i < dr_next_identity d }.

Lemma find_replaced (l : list User) u id : NoDup (map us_id l) -> us_id u ∈ map us_id l ->
  List.find (fun r => us_id r =? id) (map (fun r => if us_id r =? us_id u then u else r) l) =
  if us_id u =? id then Some u else List.find (fun r => us_id r =? id) l.
Proof.
  intros _. induction l as [|r l IH]; [intros []%not_elem_of_nil|]. cbn [map List.find]. intros Hin.
  destruct (Z.eqb_spec (us_id r) (us_id u)) as [E|E].
  - rewrite E. destruct (Z.eqb_spec (us_id u) id) as [|Hne]; [done|]. clear Hin IH. induction l as [|x l IH]; [done|]. cbn [map List.find].
    destruct (Z.eqb_spec (us_id x) (us_id u)) as [Ex|Ex].
    + rewrite Ex, (proj2 (Z.eqb_neq (us_id u) id)) by done. exact IH.
    + destruct (us_id x =? id); [done|exact IH].
  - apply elem_of_cons in Hin as [Hin|Hin]; [congruence|]. destruct (Z.eqb_spec (us_id r) id) as [Ei|]; [rewrite (proj2 (Z.eqb_neq (us_id u) id)) by congruence; done|]. by apply IH.
Qed.

Lemma get_user_put d u id : directory_wf d -> us_id u ∈ map us_id (users d) ->
  get_user id (dr_tables (put_user u d)) = if us_id u =? id then Some u else get_user id (dr_tables d).
Proof. intros Hw Hin. unfold get_user, put_user. cbn. apply find_replaced; [apply Hw|done]. Qed.

Lemma get_user_add d u id : directory_wf d -> us_id u = dr_next_user d ->
  get_user id (dr_tables (add_user u d)) = if us_id u =? id then Some u else get_user id (dr_tables d).
Proof.
  intros Hw Hu. unfold get_user, add_user. cbn. pose proof (wf_next d Hw) as Hn. unfold users in Hn.
  induction (tb_users (dr_tables d)) as [|r l IH]; cbn; [done|]. destruct (Z.eqb_spec (us_id r) id) as [<-|].
  - rewrite (proj2 (Z.eqb_neq _ _)); [done|]. specialize (Hn r ltac:(by left)). lia.
  - apply IH. intros v Hv. apply Hn. by right.
Qed.

Lemma get_user_row id d u : get_user id (dr_tables d) = Some u -> u ∈ users d /\ us_id u = id.
Proof. intros [? ?]%get_user_Some. done. Qed.
Lemma get_user_is d u : directory_wf d -> u ∈ users d -> get_user (us_id u) (dr_tables d) = Some u.
Proof. intros Hw. apply get_user_elem, Hw. Qed.

Lemma by_email_Some email d u : user_by_email email d = Ok (Some u) -> u ∈ users d /\ us_email u = email.
Proof. intros [Hin Hp%bool_decide_eq_true]%user_where_Some. done. Qed.
Lemma by_email_Ok email d : directory_wf d -> exists r, user_by_email email d = Ok r /\ (r = None -> forall u, u ∈ users d -> us_email u <> email).
Proof.
  intros Hw. unfold user_by_email, user_where. assert (Hin : forall u, In u (List.filter (fun u => bool_decide (us_email u = email)) (users d)) <-> u ∈ users d /\ us_email u = email).
  { intros u. by rewrite filter_In, bool_decide_eq_true, list_elem_of_In. }
  unfold users in *. destruct (List.filter _ _) as [|a [|b l]] eqn:Ef; [exists None|by exists (Some a)|exfalso].
  - split; [done|]. intros _ u Hu He. by apply (proj2 (Hin u)).
  - assert (NoDup (List.filter (fun u => bool_decide (us_email u = email)) (tb_users (dr_tables d)))) as Hn.
    { eapply sublist_NoDup; [apply NoDup_fmap_1 with (f := us_email); apply (wf_emails d Hw)|apply bool_filter_sublist]. }
    rewrite Ef in Hn. apply NoDup_cons in Hn as [Hn _]. apply Hn.
    destruct (proj1 (Hin a) ltac:(by left)) as [H1 H2], (proj1 (Hin b) ltac:(by right; left)) as [H3 H4].
    rewrite (nodup_key_inj us_email (tb_users (dr_tables d)) a b (wf_emails d Hw) H1 H3) by congruence. by left.
Qed.

Lemma identity_Some provider subject d i : identity_where provider subject d = Ok (Some i) ->
  i ∈ dr_identities d /\ ei_provider i = provider /\ ei_subject i = subject.
Proof.
  unfold identity_where. destruct (List.filter _ _) as [|a [|b l]] eqn:Ef; try done. intros [= ->].
  assert (In i (List.filter (fun i => bool_decide (ei_provider i = provider) && bool_decide (ei_subject i = subject)) (dr_identities d))) as Hin by (rewrite Ef; by left).
  apply filter_In in Hin as [Hin [H1%bool_decide_eq_true H2%bool_decide_eq_true]%andb_prop]. split; [by apply list_elem_of_In|done].
Qed.
Lemma identity_None provider subject d i : identity_where provider subject d = Ok None -> i ∈ dr_identities d -> ei_provider i = provider -> ei_subject i <> subject.
Proof.
  unfold identity_where. destruct (List.filter _ _) as [|a [|b l]] eqn:Ef; try done. intros _ Hin Hp Hs.
  assert (In i (List.filter (fun i => bool_decide (ei_provider i = provider) && bool_decide (ei_subject i = subject)) (dr_identities d))) as H.
  { apply filter_In. split; [by apply list_elem_of_In|]. by rewrite !bool_decide_eq_true_2. }
  by rewrite Ef in H.
Qed.
Lemma identity_is d i : directory_wf d -> i ∈ dr_identities d -> identity_where (ei_provider i) (ei_subject i) d = Ok (Some i).
Proof.
  intros Hw Hin. unfold identity_where. pose proof (wf_links d Hw) as Hn. enough (List.filter (fun j => bool_decide (ei_provider j = ei_provider i) && bool_decide (ei_subject j = ei_subject i))
    (dr_identities d) = [i]) as -> by done. clear Hw. induction (dr_identities d) as [|j l IH]; [by apply not_elem_of_nil in Hin|].
  cbn in Hn. apply NoDup_cons in Hn as [Hj Hn]. cbn [List.filter]. apply elem_of_cons in Hin as [<-|Hin].
  - rewrite !bool_decide_eq_true_2 by done. cbn [andb]. f_equal. apply list_filter_nil. intros k Hk.
    apply andb_false_iff. destruct (decide (ei_provider k = ei_provider i)); [right|left]; apply bool_decide_eq_false_2; [|done].
    intros E. apply Hj. apply list_elem_of_fmap. exists k. split; [congruence|done].
  - destruct (_ && _) eqn:E; [|by apply IH]. apply andb_prop in E as [E1%bool_decide_eq_true E2%bool_decide_eq_true]. destruct Hj.
    apply list_elem_of_fmap. exists i. split; [congruence|done].
Qed.

(** ** Which role *)

Lemma mapping_le_total a b : mapping_le a b = true \/ mapping_le b a = true.
Proof. unfold mapping_le. destruct (Z.lt_trichotomy (gm_priority a) (gm_priority b)) as [|[|]]; lia. Qed.
Lemma mapping_le_trans a b c : mapping_le a b = true -> mapping_le b c = true -> mapping_le a c = true.
Proof. unfold mapping_le. lia. Qed.

(** The role the mappings give: that of the first mapping, by priority then id, of the
    user's own organization for one of the groups; the default when there is none. *)
Definition role_given (org : Z) (groups : list string) (default_role : string) (d : Directory) (role : string) : Prop :=
  let applies m := m ∈ dr_mappings d /\ gm_organization_id m = Some org /\ gm_group m ∈ groups in
  ((forall m, ~ applies m) /\ role = default_role) \/
  exists m, applies m /\ (forall m', applies m' -> mapping_le m m' = true) /\ role = (if mem (gm_role m) VALID_ROLES then gm_role m else default_role).

Lemma resolve_role_spec org groups default_role d : role_given org groups default_role d (resolve_role (Some org) groups default_role d).
Proof.
  unfold role_given. assert (Hin : forall m, m ∈ candidates (Some org) groups (dr_mappings d) <-> m ∈ dr_mappings d /\ gm_organization_id m = Some org /\ gm_group m ∈ groups).
  { intros m. unfold candidates. rewrite stable_sort_perm, list_elem_of_In, filter_In, andb_true_iff, bool_decide_eq_true, mem_true, <- list_elem_of_In. naive_solver. }
  pose proof (stable_sort_sorted mapping_le mapping_le_total mapping_le_trans (List.filter (fun m => mem (gm_group m) groups &&
    bool_decide (gm_organization_id m = Some org)) (dr_mappings d))) as Hs. change (stable_sort mapping_le _) with (candidates (Some org) groups (dr_mappings d)) in Hs.
  unfold resolve_role. destruct groups as [|g groups]; [left; split; [by intros m (_ & _ & ?%not_elem_of_nil)|done]|].
  destruct (candidates _ _ _) as [|m l].
  - left. split; [|done]. intros m Hm. by apply Hin, not_elem_of_nil in Hm.
  - right. exists m. split; [apply Hin; by left|]. split; [|done]. intros m' Hm'%Hin. apply elem_of_cons in Hm' as [->|Hm'].
    + unfold mapping_le. lia.
    + apply StronglySorted_inv in Hs as [_ Hs]. rewrite Forall_forall in Hs. by apply Hs.
Qed.
Lemma resolve_role_valid org groups default_role d : mem default_role VALID_ROLES = true -> mem (resolve_role org groups default_role d) VALID_ROLES = true.
Proof.
  intros Hd. unfold resolve_role. destruct groups as [|g groups]; [done|]. destruct (candidates _ _ _) as [|m l]; [done|]. by destruct (mem (gm_role m) VALID_ROLES) eqn:E.
Qed.

(** ** Lemmas: well-formed directories *)

Lemma wf_record e d : directory_wf d -> directory_wf (record e d).
Proof. intros []. by constructor. Qed.
Lemma wf_record_scim e d : directory_wf d -> directory_wf (record_scim e d).
Proof. intros []. by constructor. Qed.
Lemma wf_add_user u d : directory_wf d -> us_id u = dr_next_user d -> (forall v, v ∈ users d -> us_email v <> us_email u) -> directory_wf (add_user u d).
Proof.
  intros [Hi Hn He Hl Hli Hnl] Hu Hem. constructor; try done; unfold users, add_user in *; cbn.
  - rewrite map_app. apply NoDup_app. split; [done|]. split; [|apply NoDup_singleton]. intros x (v & -> & Hv)%list_elem_of_fmap Hx.
    apply list_elem_of_singleton in Hx. specialize (Hn v Hv). lia.
  - intros v [Hv| ->%list_elem_of_singleton]%elem_of_app; [specialize (Hn v Hv)|]; lia.
  - rewrite map_app. apply NoDup_app. split; [done|]. split; [|apply NoDup_singleton]. intros x (v & -> & Hv)%list_elem_of_fmap Hx.
    apply list_elem_of_singleton in Hx. by apply (Hem v).
Qed.
Lemma map_put_key {B} (key : User -> B) u u0 (l : list User) : NoDup (map us_id l) -> u0 ∈ l -> us_id u0 = us_id u -> key u = key u0 ->
  map key (map (fun r => if us_id r =? us_id u then u else r) l) = map key l.
Proof.
  intros Hn Hu Hid Hk. rewrite map_map. apply map_ext_in. intros r Hr. destruct (Z.eqb_spec (us_id r) (us_id u)) as [E|]; [|done].
  rewrite Hk. f_equal. apply (nodup_key_inj us_id l u0 r Hn Hu); [by apply list_elem_of_In|congruence].
Qed.
Lemma wf_put_user u u0 d : directory_wf d -> get_user (us_id u) (dr_tables d) = Some u0 -> us_email u = us_email u0 -> directory_wf (put_user u d).
Proof.
  intros [Hi Hn He Hl Hli Hnl] [Hin Hid]%get_user_row Hem. constructor; try done; unfold users, put_user in *; cbn.
  - by rewrite (map_put_key us_id u u0).
  - intros v (r & -> & Hr)%list_elem_of_fmap. destruct (Z.eqb_spec (us_id r) (us_id u)) as [E|]; [rewrite <- E|]; by apply Hn.
  - by rewrite (map_put_key us_email u u0).
Qed.

Definition touch (i : ExternalIdentity) (f : ExternalIdentity -> ExternalIdentity) (l : list ExternalIdentity) : list ExternalIdentity :=
  map (fun r => if ei_id r =? ei_id i then f r else r) l.
Lemma wf_touch i f d : directory_wf d -> (forall r, ei_id (f r) = ei_id r /\ ei_provider (f r) = ei_provider r /\ ei_subject (f r) = ei_subject r) ->
  directory_wf (set_identities (touch i f (dr_identities d)) (dr_next_identity d) d).
Proof.
  intros [Hi Hn He Hl Hli Hnl] Hf. constructor; try done; cbn; unfold touch; rewrite ?map_map.
  - erewrite map_ext; [exact Hl|]. intros r. cbn. destruct (_ =? _); [|done]. by destruct (Hf r) as (_ & -> & ->).
  - erewrite map_ext; [exact Hli|]. intros r. cbn. destruct (_ =? _); [|done]. by destruct (Hf r) as (-> & _).
  - intros v (r & -> & Hr)%list_elem_of_fmap. destruct (_ =? _); [destruct (Hf r) as (-> & _)|]; by apply Hnl.
Qed.
Lemma wf_add_identity i d : directory_wf d -> ei_id i = dr_next_identity d -> identity_where (ei_provider i) (ei_subject i) d = Ok None ->
  directory_wf (set_identities (dr_identities d ++ [i])%list (dr_next_identity d + 1) d).
Proof.
  intros [Hi Hn He Hl Hli Hnl] Hid Hno. constructor; try done; cbn; rewrite ?map_app.
  - apply NoDup_app. split; [done|]. split; [|apply NoDup_singleton]. intros x (r & -> & Hr)%list_elem_of_fmap Hx.
    apply list_elem_of_singleton in Hx. injection Hx as Hp Hs. by apply (identity_None _ _ _ r Hno).
  - apply NoDup_app. split; [done|]. split; [|apply NoDup_singleton]. intros x (r & -> & Hr)%list_elem_of_fmap Hx.
    apply list_elem_of_singleton in Hx. specialize (Hnl r Hr). lia.
  - intros r [Hr| ->%list_elem_of_singleton]%elem_of_app; [specialize (Hnl r Hr)|]; lia.
Qed.

(** ** Just in time: lemmas *)

Section oidc.
Context (claims : list (string * pyval)) (email : string) (groups : list string) (org_id : Z) (default_role : string) (jit : bool) (d : Directory).
Hypothesis Hw : directory_wf d.
Hypothesis Hdefault : mem default_role VALID_ROLES = true.

(** One account is found or made; no other row moves. *)
Definition account_of (ident : option ExternalIdentity) (u : User) (created : bool) (d' : Directory) : Prop :=
  directory_wf d' /\ get_user (us_id u) (dr_tables d') = Some u /\ (forall id, id <> us_id u -> get_user id (dr_tables d') = get_user id (dr_tables d)) /\
  dr_mappings d' = dr_mappings d /\ dr_identities d' = dr_identities d /\ dr_next_identity d' = dr_next_identity d /\
  if created
  then jit = true /\ get_user (us_id u) (dr_tables d) = None /\ (forall v, v ∈ users d -> us_email v <> email) /\
       u = new_user (us_id u) org_id email (vget "name" claims) (us_role u) true
  else exists u0, get_user (us_id u) (dr_tables d) = Some u0 /\ u = with_profile (us_full_name u0) (us_role u) (us_active u0) u0 /\
       ((exists i, ident = Some i /\ ei_user_id i = us_id u) \/ us_email u0 = email).

Lemma find_or_create_spec ident u created d1 : find_or_create ident claims email groups org_id default_role jit d = Ok (u, created, d1) ->
  account_of ident u created d1 /\
  us_role u = (if created then resolve_role (Some org_id) groups default_role d else default "" (us_role <$> get_user (us_id u) (dr_tables d))).
Proof.
  unfold find_or_create. set (linked := match ident with Some i => get_user (ei_user_id i) (dr_tables d) | None => None end).
  destruct (match linked with Some u => Ok (Some u) | None => user_by_email email d end) as [[v|]|e] eqn:Ef; cbn [res_bind]; [| |done].
  - intros [= <- <- <-]. assert (v ∈ users d /\ ((exists i, ident = Some i /\ ei_user_id i = us_id v) \/ us_email v = email)) as [Hin Hby].
    { destruct linked as [w|] eqn:El; [injection Ef as ->|].
      - unfold linked in El. destruct ident as [i|]; [|done]. apply get_user_row in El as [? Hid]. split; [done|]. left. by exists i.
      - apply by_email_Some in Ef as [? ?]. auto. }
    pose proof (get_user_is d v Hw Hin) as Hg. split; [|by rewrite Hg]. unfold account_of. repeat (split; [done|]). exists v. split; [done|]. split; [by destruct v|done].
  - destruct jit eqn:Ej; cbn [negb]; [|done]. intros [= <- <- <-]. assert (Hno : forall v, v ∈ users d -> us_email v <> email).
    { destruct linked as [w|]; [done|]. destruct (by_email_Ok email d Hw) as (r & Hr & Hn). rewrite Hr in Ef. injection Ef as ->. by apply Hn. }
    rewrite resolve_role_valid by done. set (u := new_user _ _ _ _ _ _). assert (Hid : us_id u = dr_next_user d) by done.
    split; [|done]. unfold account_of. split; [by apply wf_record, wf_add_user|]. split; [cbn [record set_tables dr_tables]; rewrite get_user_add_event, (get_user_add d u) by done; by rewrite Z.eqb_refl|].
    split. { intros id Hne. cbn [record set_tables dr_tables]. rewrite get_user_add_event, (get_user_add d u) by done. by rewrite (proj2 (Z.eqb_neq _ _)). }
    repeat (split; [done|]). split; [|done]. destruct (get_user (us_id u) (dr_tables d)) as [w|] eqn:Eg; [|done].
    apply get_user_row in Eg as [Hin Hw2]. pose proof (wf_next d Hw w Hin). lia.
Qed.
End oidc.

Lemma apply_role_spec email groups default_role u d : directory_wf d -> mem default_role VALID_ROLES = true -> get_user (us_id u) (dr_tables d) = Some u ->
  let '(u', d') := apply_role email groups default_role u d in
  u' = with_profile (us_full_name u) (us_role u') (us_active u) u /\
  us_role u' = (if bool_decide (groups = []) then us_role u else resolve_role (Some (us_organization_id u)) groups default_role d) /\
  directory_wf d' /\ get_user (us_id u) (dr_tables d') = Some u' /\ (forall id, id <> us_id u -> get_user id (dr_tables d') = get_user id (dr_tables d)) /\
  dr_identities d' = dr_identities d /\ dr_next_identity d' = dr_next_identity d /\ dr_mappings d' = dr_mappings d.
Proof.
  intros Hw Hd Hg. unfold apply_role. rewrite resolve_role_valid by done. set (r := resolve_role _ _ _ _).
  assert (Hin : us_id u ∈ map us_id (users d)). { apply get_user_row in Hg as [Hin _]. by apply list_elem_of_fmap_2. }
  destruct (bool_decide_reflect (groups = [])) as [Eg|Eg]; cbn [negb andb]; [by destruct u|].
  destruct (bool_decide_reflect (us_role u = r)) as [Er|Er]; cbn [negb andb]; [by destruct u|].
  set (u' := with_profile _ _ _ _). split; [done|]. split; [done|]. assert (Hid : us_id u' = us_id u) by done.
  split; [apply wf_record; by eapply (wf_put_user u' u)|]. split; [cbn [record set_tables dr_tables]; rewrite get_user_add_event, (get_user_put d u') by done; by rewrite Hid, Z.eqb_refl|].
  split; [|done]. intros id Hne. cbn [record set_tables dr_tables]. rewrite get_user_add_event, (get_user_put d u') by done. by rewrite (proj2 (Z.eqb_neq _ _)) by congruence.
Qed.

Lemma link_identity_spec ident provider subject u claims email now d : directory_wf d -> identity_where provider subject d = Ok ident ->
  directory_wf (link_identity ident provider subject u claims email now d) /\
  dr_tables (link_identity ident provider subject u claims email now d) = dr_tables d /\
  exists i, identity_where provider subject (link_identity ident provider subject u claims email now d) = Ok (Some i) /\ ei_last_login_at i = Some now /\
    ei_user_id i = match ident with Some j => ei_user_id j | None => us_id u end.
Proof.
  intros Hw Hi. unfold link_identity. destruct ident as [j|].
  - pose proof (wf_touch j (seen_by claims email now) d Hw) as Hw'. specialize (Hw' ltac:(done)). split; [exact Hw'|]. split; [done|].
    apply identity_Some in Hi as (Hin & <- & <-). exists (seen_by claims email now j). split; [|done].
    apply (identity_is _ (seen_by claims email now j) Hw'). cbn. unfold touch. apply list_elem_of_fmap. exists j. by rewrite Z.eqb_refl.
  - set (i := seen_by _ _ _ _). pose proof (wf_add_identity i d Hw eq_refl Hi) as Hw'. split; [exact Hw'|]. split; [done|]. exists i. split; [|done].
    apply (identity_is _ i Hw'). cbn. apply elem_of_app. right. by left.
Qed.

Lemma oidc_account claims org_id allowed default_role jit provider require now d u created d' : directory_wf d -> mem default_role VALID_ROLES = true ->
  provision_from_oidc claims org_id allowed default_role jit provider require now d = Ok (u, created, d') ->
  exists raw i, text_or_empty (vget "email" claims) = Ok raw /\ lower raw <> "" /\ domain_allowed (lower raw) allowed = true /\ email_verification_ok claims require = true /\
    us_active u = true /\ directory_wf d' /\ get_user (us_id u) (dr_tables d') = Some u /\
    (forall id, id <> us_id u -> get_user id (dr_tables d') = get_user id (dr_tables d)) /\
    (if created
     then jit = true /\ get_user (us_id u) (dr_tables d) = None /\ us_organization_id u = org_id /\ us_email u = lower raw /\ us_password_hash u = None /\ us_api_token_hash u = None
     else exists u0, get_user (us_id u) (dr_tables d) = Some u0 /\ us_active u0 = true /\ u = with_profile (us_full_name u0) (us_role u) true u0) /\
    (match extract_groups claims with
     | [] => us_role u = if created then default_role else default "" (us_role <$> get_user (us_id u) (dr_tables d))
     | groups => role_given (us_organization_id u) groups default_role d (us_role u)
     end) /\
    let subject := strip (if truthy (vget "sub" claims) then py_str (vget "sub" claims) else "") in
    subject <> "" /\ identity_where provider subject d' = Ok (Some i) /\ ei_last_login_at i = Some now /\
    match identity_where provider subject d with
    | Ok (Some j) => ei_user_id i = ei_user_id j /\ (is_Some (get_user (ei_user_id j) (dr_tables d)) -> us_id u = ei_user_id j)
    | _ => ei_user_id i = us_id u
    end.
Proof.
  intros Hw Hd. unfold provision_from_oidc. destruct (text_or_empty (vget "email" claims)) as [raw|e] eqn:Eraw; cbn [res_bind]; [|done].
  set (subject := strip _). destruct (str_truthy (lower raw)) eqn:Et; cbn [negb orb]; [|done]. destruct (str_truthy subject) eqn:Es; cbn [negb orb]; [|done].
  destruct (domain_allowed (lower raw) allowed) eqn:Edom; cbn [negb]; [|done]. destruct (email_verification_ok claims require) eqn:Ev; cbn [negb]; [|done].
  destruct (identity_where provider subject d) as [ident|e] eqn:Ei; cbn [res_bind]; [|done].
  destruct (find_or_create ident claims (lower raw) (extract_groups claims) org_id default_role jit d) as [[[v c] d1]|e] eqn:Ef; cbn [res_bind]; [|done].
  destruct (find_or_create_spec _ _ _ _ _ _ _ Hw Hd _ _ _ _ Ef) as [(Hw1 & Hg1 & Hfr1 & Hm1 & Hid1 & Hn1 & Hacc) Hrole].
  destruct (us_active v) eqn:Ea; cbn [negb]; [|done]. pose proof (apply_role_spec (lower raw) (extract_groups claims) default_role v d1 Hw1 Hd Hg1) as Hap.
  destruct (apply_role _ _ _ v d1) as [v' d2]. destruct Hap as (Hv' & Hr & Hw2 & Hg2 & Hfr2 & Hid2 & Hn2 & Hm2). intros [= <- <- <-].
  assert (Hvid : us_id v' = us_id v) by by rewrite Hv'.
  assert (Hi2 : identity_where provider subject d2 = Ok ident) by (unfold identity_where in *; by rewrite Hid2, Hid1).
  destruct (link_identity_spec ident provider subject v' (VDict claims) (lower raw) now d2 Hw2 Hi2) as (Hw3 & Htab & i & Hi3 & Hlast & Hiu).
  assert (Hres : forall org, resolve_role org (extract_groups claims) default_role d1 = resolve_role org (extract_groups claims) default_role d).
  { intros org. unfold resolve_role. by rewrite Hm1. }
  rewrite Hres in Hr. exists raw, i. split; [done|]. split; [by apply bool_decide_eq_true in Et|]. split; [done|]. split; [done|].
  split; [by rewrite Hv'|]. split; [done|]. rewrite Htab, Hvid. split; [done|]. split; [intros id Hne; rewrite Hfr2, Hfr1 by done; done|].
  split; [|split; [|split; [by apply bool_decide_eq_true in Es|split; [done|split; [done|]]]]].
  - destruct c.
    + destruct Hacc as (-> & Hnone & _ & Hnew). rewrite Hv', Hnew. done.
    + destruct Hacc as (u0 & Hu0 & Hp & _). exists u0. split; [done|]. rewrite Hv', Hp in *. cbn in Ea. split; [done|]. by destruct u0; cbn in *; subst.
  - destruct (extract_groups claims) as [|g gs].
    + rewrite bool_decide_eq_true_2 in Hr by done. rewrite Hr, Hrole. by destruct c.
    + rewrite bool_decide_eq_false_2 in Hr by done. rewrite Hr. assert (us_organization_id v' = us_organization_id v) as -> by by rewrite Hv'. apply resolve_role_spec.
  - destruct ident as [j|]; [|congruence]. split; [done|]. intros [w Hjw]. unfold find_or_create in Ef. rewrite Hjw in Ef. cbn [res_bind] in Ef.
    injection Ef as <- <- <-. by apply get_user_row in Hjw as [_ ?].
Qed.



(** ** SCIM: lemmas *)

(** One account of the organization is written, or made; credentials stay. *)
Definition scim_wrote (org_id : Z) (u : User) (d d' : Directory) : Prop :=
  directory_wf d' /\ us_organization_id u = org_id /\ get_user (us_id u) (dr_tables d') = Some u /\
  (forall id, id <> us_id u -> get_user id (dr_tables d') = get_user id (dr_tables d)) /\
  match get_user (us_id u) (dr_tables d) with
  | Some u0 => u = with_profile (us_full_name u) (us_role u0) (us_active u) u0
  | None => exists email name, u = new_user (us_id u) org_id email name DEFAULT_ROLE (us_active u)
  end.

Lemma scim_write_spec org_id payload d u created d' : directory_wf d -> scim_create_or_update_user org_id payload d = Ok (u, created, d') ->
  scim_wrote org_id u d d' /\ us_active u = truthy (default (VBool true) (dget "active" payload)) /\
  exists email, scim_email payload = Ok (Some email) /\ us_email u = email /\
    (created = true <-> forall v, v ∈ users d -> us_email v <> email) /\
    (created = false -> exists u0, u0 ∈ users d /\ us_id u0 = us_id u /\ us_email u0 = email).
Proof.
  intros Hw. unfold scim_create_or_update_user. destruct (scim_email payload) as [[email|]|] eqn:Ee; cbn [res_bind]; [|done..].
  destruct (str_truthy email); cbn [negb]; [|done]. destruct (scim_name payload) as [name|]; cbn [res_bind]; [|done]. set (active := truthy (default (VBool true) (dget "active" payload))).
  destruct (user_by_email email d) as [[v|]|] eqn:Ef; cbn [res_bind]; [| |done].
  - destruct (Z.eqb_spec (us_organization_id v) org_id) as [Ho|]; cbn [negb res_bind]; [|done]. intros [= <- <- <-]. apply by_email_Some in Ef as [Hin Hem].
    pose proof (get_user_is d v Hw Hin) as Hg. set (v' := with_profile _ _ _ _).
    assert (Hv' : us_id v' ∈ map us_id (users d)) by (change (us_id v') with (us_id v); by apply list_elem_of_fmap_2).
    split; [|split; [done|exists email; split; [done|split; [done|split; [split; [done|intros Hno; by destruct (Hno v Hin)]|intros _; by exists v]]]]]. unfold scim_wrote.
    split; [by apply wf_record, wf_record_scim, (wf_put_user v' v)|]. split; [done|]. cbn [record record_scim set_tables dr_tables].
    split; [rewrite get_user_add_event, (get_user_put d v') by done; by rewrite Z.eqb_refl|]. split; [|change (us_id v') with (us_id v); by rewrite Hg].
    intros id Hne. rewrite get_user_add_event, (get_user_put d v') by done. by rewrite (proj2 (Z.eqb_neq _ _)) by congruence.
  - intros [= <- <- <-]. destruct (by_email_Ok email d Hw) as (r & Hr & Hno). rewrite Hr in Ef. injection Ef as ->. specialize (Hno eq_refl).
    set (u := new_user _ _ _ _ _ _). assert (Hid : us_id u = dr_next_user d) by done.
    split; [|split; [done|exists email; split; [done|split; [done|split; [by split|done]]]]]. unfold scim_wrote.
    split; [by apply wf_record, wf_record_scim, wf_add_user|]. split; [done|]. cbn [record record_scim set_tables dr_tables].
    split; [rewrite get_user_add_event, (get_user_add d u) by done; by rewrite Z.eqb_refl|].
    split. { intros id Hne. rewrite get_user_add_event, (get_user_add d u) by done. by rewrite (proj2 (Z.eqb_neq _ _)) by congruence. }
    destruct (get_user (us_id u) (dr_tables d)) as [w|] eqn:Eg; [|by exists email, name]. apply get_user_row in Eg as [Hin Hw2]. pose proof (wf_next d Hw w Hin). lia.
Qed.

Lemma scim_deactivate_spec org_id u d : directory_wf d -> get_user (us_id u) (dr_tables d) = Some u -> us_organization_id u = org_id ->
  scim_wrote org_id (scim_deactivate_user org_id u d).1 d (scim_deactivate_user org_id u d).2 /\ us_active (scim_deactivate_user org_id u d).1 = false /\
  us_id (scim_deactivate_user org_id u d).1 = us_id u.
Proof.
  intros Hw Hg Ho. split; [|done]. unfold scim_deactivate_user. cbn [fst snd]. set (u' := with_profile _ _ _ _). assert (Hid : us_id u' = us_id u) by done.
  assert (Hin : us_id u' ∈ map us_id (users d)). { rewrite Hid. apply get_user_row in Hg as [Hin _]. by apply list_elem_of_fmap_2. }
  split; [by apply wf_record, wf_record_scim, (wf_put_user u' u)|]. split; [done|]. cbn [record record_scim set_tables dr_tables].
  split; [rewrite get_user_add_event, (get_user_put d u') by done; by rewrite Z.eqb_refl|]. split; [|by rewrite Hid, Hg].
  intros id Hne. rewrite get_user_add_event, (get_user_put d u') by done. by rewrite (proj2 (Z.eqb_neq _ _)) by congruence.
Qed.

Lemma target_org_same configured a b d org d1 : target_org configured a b d = inr (org, d1) ->
  dr_tables d1 = dr_tables d /\ (directory_wf d -> directory_wf d1) /\ match configured with Some c => org = c | None => True end.
Proof.
  unfold target_org. destruct configured as [c|].
  - destruct (mem c (dr_orgs d)); [|done]. by intros [= <- <-].
  - destruct (dr_orgs d) as [|o [|? ?]]; [|by intros [= <- <-]|done]. intros [= <- <-]. split; [done|]. split; [|done]. intros []. by constructor.
Qed.

Section scim.
Context (settings : IdentitySettings).

Inductive ScimOp := SCreate (payload : list (string * pyval)) | SUpdate (id : Z) (payload : list (string * pyval)) | SDelete (id : Z) | SGet (id : Z) | SUsers | SGroups.
Definition scim_step (authorization : string) (op : ScimOp) (d : Directory) : answered :=
  match op with
  | SCreate payload => scim_create_user settings authorization payload d
  | SUpdate id payload => scim_update_user settings authorization id payload d
  | SDelete id => scim_delete_user settings authorization id d
  | SGet id => scim_get_user settings authorization id d
  | SUsers => scim_list_users settings authorization d
  | SGroups => scim_list_groups settings authorization d
  end.

(** What an answer that is not a refusal shows: accounts and groups of one organization. *)
Definition shows_only (org : Z) (op : ScimOp) (d d' : Directory) (resp : Response) : Prop :=
  match op with
  | SCreate _ => exists u, u ∈ users d' /\ us_organization_id u = org /\ resp = answer 201 (scim_user_resource u)
  | SUpdate id _ => exists u, get_user id (dr_tables d') = Some u /\ us_organization_id u = org /\ resp = answer 200 (scim_user_resource u)
  | SDelete id => (exists u, get_user id (dr_tables d) = Some u /\ us_organization_id u = org) /\ resp = answer 204 VNone
  | SGet id => exists u, get_user id (dr_tables d) = Some u /\ us_organization_id u = org /\ resp = answer 200 (scim_user_resource u)
  | SUsers => exists l, resp = scim_list (map scim_user_resource l) /\ forall u, u ∈ l <-> u ∈ users d /\ us_organization_id u = org
  | SGroups => exists l, resp = scim_list (map scim_group_resource l) /\ forall g, g ∈ l <-> g ∈ dr_mappings d /\ gm_organization_id g = Some org
  end.
(** A refusal: an error status and its text, which shows no account; that of a conflict says
    that the address the caller sent is in use. *)
Definition refuses (resp : Response) : Prop := exists status detail, resp = HTTPException status detail /\ 400 <= status.

Lemma in_scim_org_inv authorization d h r d' : in_scim_org settings authorization d h = (r, d') ->
  d' = d \/ exists org d1 resp, scim_org settings authorization d = Ok (inr (org, d1)) /\ h org d1 = Ok (resp, d') /\ r = Ok resp.
Proof.
  unfold in_scim_org. destruct (scim_org settings authorization d) as [[q|[org d1]]|e]; [by intros [= _ <-]; left| |by intros [= _ <-]; left].
  destruct (h org d1) as [[resp d2]|e] eqn:Eh; intros [= <- <-]; [right|by left]. by exists org, d1, resp.
Qed.

Lemma scim_org_inv authorization d org d1 : scim_org settings authorization d = Ok (inr (org, d1)) ->
  scim_enabled settings = true /\ (exists bearer, scim_bearer_token settings = Some bearer /\ bearer <> "" /\ startswith "bearer " (lower authorization) = true /\
    strip (str_drop 7 authorization) = bearer) /\ dr_tables d1 = dr_tables d /\ (directory_wf d -> directory_wf d1) /\
  match scim_organization_id settings with Some c => org = c | None => dr_orgs d = [org] \/ dr_orgs d = [] end.
Proof.
  unfold scim_org. destruct (scim_enabled settings); cbn [negb orb]; [|done]. destruct (scim_bearer_token settings) as [b|] eqn:Eb; cbn [or_empty default from_option id]; [|done].
  destruct (str_truthy b) eqn:Et; cbn [negb]; [|done]. apply bool_decide_eq_true in Et. destruct (compare_digest _ b) as [[|]|] eqn:Ec; cbn [res_bind negb]; [|done..].
  apply compare_digest_true in Ec. intros [= H]. unfold scim_target_org in H. destruct (target_org_same _ _ _ _ _ _ H) as (H1 & H2 & H3).
  split; [done|]. split; [exists b; destruct (startswith _ _); [by rewrite Ec|by rewrite <- Ec in Et]|]. split; [done|]. split; [done|].
  unfold target_org in H. destruct (scim_organization_id settings); [done|]. destruct (dr_orgs d) as [|o [|? ?]]; [by right| |done]. injection H as <- _. by left.
Qed.

Lemma scim_wrote_mono org u d d1 d' : dr_tables d1 = dr_tables d -> scim_wrote org u d1 d' -> scim_wrote org u d d'.
Proof. unfold scim_wrote. by intros ->. Qed.

Lemma scim_step_wrote authorization op d r d' : directory_wf d -> scim_step authorization op d = (r, d') ->
  d' = d \/ exists org d1 u, scim_org settings authorization d = Ok (inr (org, d1)) /\ scim_wrote org u d d'.
Proof.
  intros Hw H. destruct op as [payload|id payload|id|id| |]; cbn [scim_step] in H;
    unfold scim_create_user, scim_update_user, scim_delete_user, scim_get_user, scim_list_users, scim_list_groups in H;
    (apply in_scim_org_inv in H as [->|(org & d1 & resp & Ho & Hh & ->)]; [by left|]);
    destruct (scim_org_inv _ _ _ _ Ho) as (_ & _ & Ht & Hw1 & _); specialize (Hw1 Hw).
  - destruct (scim_create_or_update_user org payload d1) as [[[u c] d2]|e] eqn:Es.
    + injection Hh as <- <-. destruct (scim_write_spec _ _ _ _ _ _ Hw1 Es) as [Hwr _]. right. exists org, d1, u. split; [done|by eapply scim_wrote_mono].
    + destruct (bool_decide _); [by injection Hh as _ <-; left|]. destruct (bool_decide _); [by injection Hh as _ <-; left|done].
  - destruct (scim_user_in_org id org d1) as [u|] eqn:Eu; [|by injection Hh as _ <-; left].
    unfold scim_user_in_org in Eu. destruct (get_user id (dr_tables d1)) as [v|] eqn:Eg; [|done]. destruct (Z.eqb_spec (us_organization_id v) org) as [Hv|]; [|done]. injection Eu as ->.
    assert (Hu : get_user (us_id u) (dr_tables d1) = Some u) by by (apply get_user_row in Eg as [? ?]; apply get_user_is).
    destruct (scim_active payload) as [[[|]|]|]; cbn [res_bind] in Hh; [| | |done].
    2:{ injection Hh as _ <-. right. exists org, d1, (scim_deactivate_user org u d1).1. split; [done|]. eapply scim_wrote_mono; [done|]. by apply scim_deactivate_spec. }
    all: destruct (scim_create_or_update_user _ _ _) as [[[w c] d2]|e] eqn:Es;
      cbn [res_bind snd] in Hh; [|done]; injection Hh as _ <-; destruct (scim_write_spec _ _ _ _ _ _ Hw1 Es) as [Hwr _];
      right; exists org, d1, w; (split; [done|by eapply scim_wrote_mono]).
  - destruct (scim_user_in_org id org d1) as [u|] eqn:Eu; [|by injection Hh as _ <-; left].
    unfold scim_user_in_org in Eu. destruct (get_user id (dr_tables d1)) as [v|] eqn:Eg; [|done]. destruct (Z.eqb_spec (us_organization_id v) org) as [Hv|]; [|done]. injection Eu as ->.
    assert (Hu : get_user (us_id u) (dr_tables d1) = Some u) by by (apply get_user_row in Eg as [? ?]; apply get_user_is).
    injection Hh as _ <-. right. exists org, d1, (scim_deactivate_user org u d1).1. split; [done|]. eapply scim_wrote_mono; [done|]. by apply scim_deactivate_spec.
  - destruct (scim_user_in_org id org d1); by injection Hh as _ <-; left.
  - by injection Hh as _ <-; left.
  - by injection Hh as _ <-; left.
Qed.

Lemma scim_org_mappings authorization d org d1 : scim_org settings authorization d = Ok (inr (org, d1)) -> dr_mappings d1 = dr_mappings d.
Proof.
  unfold scim_org. destruct (_ || _); [done|]. destruct (compare_digest _ _) as [[|]|]; cbn [res_bind negb]; [|done..]. unfold scim_target_org, target_org.
  destruct (scim_organization_id settings); [destruct (mem _ _); [|done]|destruct (dr_orgs d) as [|? [|? ?]]; [| |done]]; by intros [= _ <-].
Qed.
Lemma scim_user_in_org_Some id org d u : scim_user_in_org id org d = Some u <-> get_user id (dr_tables d) = Some u /\ us_organization_id u = org.
Proof.
  unfold scim_user_in_org. destruct (get_user id (dr_tables d)) as [v|]; [|naive_solver]. destruct (Z.eqb_spec (us_organization_id v) org); naive_solver.
Qed.
(** The account an update names keeps its organization, whatever was written. *)
Lemma scim_wrote_keeps org u d d' id v : scim_wrote org u d d' -> get_user id (dr_tables d) = Some v -> us_organization_id v = org ->
  exists v', get_user id (dr_tables d') = Some v' /\ us_organization_id v' = org.
Proof.
  intros (_ & Ho & Hg & Hfr & _) Hv Hvo. destruct (Z.eq_dec id (us_id u)) as [->|E]; [by exists u|]. exists v. by rewrite Hfr.
Qed.

(** What a SCIM caller is shown. *)
Lemma scim_step_shows authorization op d resp d' : directory_wf d -> scim_step authorization op d = (Ok resp, d') ->
  d' = d /\ refuses resp \/ exists org d1, scim_org settings authorization d = Ok (inr (org, d1)) /\ shows_only org op d d' resp.
Proof.
  intros Hw H.
  assert (Hopen : exists h, in_scim_org settings authorization d h = (Ok resp, d') /\ forall org d1, scim_org settings authorization d = Ok (inr (org, d1)) ->
            h org d1 = Ok (resp, d') -> d' = d /\ refuses resp \/ shows_only org op d d' resp).
  { destruct op as [payload|id payload|id|id| |]; cbn [scim_step] in H; (eexists; split; [exact H|]); intros org d1 Ho Hh; clear H;
      destruct (scim_org_inv _ _ _ _ Ho) as (_ & _ & Ht & Hw1 & _); specialize (Hw1 Hw); cbv beta in Hh.
    - destruct (scim_create_or_update_user org payload d1) as [[[u c] d2]|e] eqn:Es.
      + injection Hh as <- <-. destruct (scim_write_spec _ _ _ _ _ _ Hw1 Es) as [(Hw2 & Hou & Hg & _) _]. right. exists u. split; [|done].
        by apply get_user_row in Hg as [? _].
      + left. destruct (bool_decide _); [injection Hh as <- <-|destruct (bool_decide _); [injection Hh as <- <-|done]]; (split; [done|do 2 eexists; split; [reflexivity|lia]]).
    - destruct (scim_user_in_org id org d1) as [u|] eqn:Eu; [|injection Hh as <- <-; left; split; [done|do 2 eexists; split; [reflexivity|lia]]].
      apply scim_user_in_org_Some in Eu as [Eg Hv]. right. cbn [shows_only].
      assert (Hu : get_user (us_id u) (dr_tables d1) = Some u) by by (apply get_user_row in Eg as [? ?]; apply get_user_is).
      apply res_bind_Ok in Hh as (a & _ & Hh). apply res_bind_Ok in Hh as (d2 & Ed & Hh). injection Hh as <- <-.
      assert (exists w, scim_wrote org w d1 d2) as [w Hwr].
      { destruct a as [[|]|]; [apply res_bind_Ok in Ed as ([[w c] d3] & Es & [= <-])| |apply res_bind_Ok in Ed as ([[w c] d3] & Es & [= <-])].
        1,3: exists w; by destruct (scim_write_spec _ _ _ _ _ _ Hw1 Es). injection Ed as <-. eexists. by apply scim_deactivate_spec. }
      destruct (scim_wrote_keeps _ _ _ _ _ _ Hwr Eg Hv) as (v' & Hv' & Ho'). exists v'. by rewrite Hv'.
    - destruct (scim_user_in_org id org d1) as [u|] eqn:Eu; [|injection Hh as <- <-; left; split; [done|do 2 eexists; split; [reflexivity|lia]]].
      apply scim_user_in_org_Some in Eu as [Eg Hv]. injection Hh as <- _. right. split; [|done]. exists u. by rewrite <- Ht.
    - destruct (scim_user_in_org id org d1) as [u|] eqn:Eu; [|injection Hh as <- <-; left; split; [done|do 2 eexists; split; [reflexivity|lia]]].
      apply scim_user_in_org_Some in Eu as [Eg Hv]. injection Hh as <- _. right. exists u. by rewrite <- Ht.
    - injection Hh as <- _. right. eexists. split; [reflexivity|]. intros u. rewrite stable_sort_perm, list_elem_of_In, filter_In, Z.eqb_eq, <- list_elem_of_In.
      unfold users. by rewrite Ht.
    - injection Hh as <- _. right. eexists. split; [reflexivity|]. intros g. rewrite stable_sort_perm, list_elem_of_In, filter_In, bool_decide_eq_true, <- list_elem_of_In.
      by rewrite (scim_org_mappings _ _ _ _ Ho). }
  destruct Hopen as (h & Hh & Hcase). unfold in_scim_org in Hh. destruct (scim_org settings authorization d) as [[q|[org d1]]|e] eqn:Eo; [| |done].
  - injection Hh as -> <-. left. split; [done|]. revert Eo. unfold scim_org, scim_target_org, target_org.
    destruct (_ || _); [intros [= <-]; do 2 eexists; split; [reflexivity|lia]|]. destruct (compare_digest _ _) as [[|]|]; cbn [res_bind negb]; [|intros [= <-]; do 2 eexists; split; [reflexivity|lia]|done].
    destruct (scim_organization_id settings); [destruct (mem _ _); [done|]|destruct (dr_orgs d) as [|? [|? ?]]; [done|done|]]; (intros [= <-]; do 2 eexists; split; [reflexivity|lia]).
  - destruct (h org d1) as [[q d2]|e] eqn:Eh; [|done]. injection Hh as -> ->. destruct (Hcase org d1 eq_refl Eh); [by left|]. right. by exists org, d1.
Qed.

(** C26: SCIM stays in its organization. An answer that is not a refusal shows accounts and
    groups of the organization the token stands for only, the lists all of them; an id of
    another organization's account is answered as one nobody has. A request that writes carried the configured
    token, and wrote one account of the organization that token stands for - the
    configured one, or the only one there is; with several and none configured it is
    refused. No account of another organization is touched, no organization changes
    hands, and no password, API token, role, second factor or session version of an
    existing account is changed. *)
Theorem scim_stays_in_its_org authorization op d r d' : directory_wf d -> scim_step authorization op d = (r, d') ->
  directory_wf d' /\
  (d' <> d -> exists org bearer, scim_bearer_token settings = Some bearer /\ strip (str_drop 7 authorization) = bearer /\ bearer <> "" /\
     (scim_organization_id settings = Some org \/ scim_organization_id settings = None /\ (dr_orgs d = [org] \/ dr_orgs d = [])) /\
     (forall v, v ∈ users d -> us_organization_id v <> org -> v ∈ users d') /\
     (forall v, v ∈ users d' -> get_user (us_id v) (dr_tables d) = None -> us_organization_id v = org)) /\
  (forall resp, r = Ok resp -> d' = d /\ refuses resp \/ exists org d1, scim_org settings authorization d = Ok (inr (org, d1)) /\ shows_only org op d d' resp) /\
  (forall org d1 id payload, scim_org settings authorization d = Ok (inr (org, d1)) -> op ∈ [SGet id; SUpdate id payload; SDelete id] ->
     (forall v, get_user id (dr_tables d) = Some v -> us_organization_id v <> org) -> r = Ok (HTTPException 404 "user not found") /\ d' = d) /\
  (forall v, v ∈ users d -> exists v', get_user (us_id v) (dr_tables d') = Some v' /\ v' = with_profile (us_full_name v') (us_role v) (us_active v') v) /\
  (scim_enabled settings = true -> (1 < List.length (dr_orgs d))%nat -> scim_organization_id settings = None -> d' = d /\
     forall resp, r = Ok resp -> rs_status resp = 404 \/ rs_status resp = 401 \/ rs_status resp = 500).
Proof.
  intros Hw H. pose proof (scim_step_wrote _ _ _ _ _ Hw H) as Hs.
  assert (Hsame : forall v, v ∈ users d -> d' = d -> exists v', get_user (us_id v) (dr_tables d') = Some v' /\ v' = with_profile (us_full_name v') (us_role v) (us_active v') v).
  { intros v Hv ->. exists v. split; [by apply get_user_is|by destruct v]. }
  split; [destruct Hs as [->|(org & d1 & u & _ & Hu)]; [done|apply Hu]|]. split; [|split; [|split; [|split]]].
  - intros Hne. destruct Hs as [|(org & d1 & u & Ho & Hw' & Hou & Hg & Hfr & Hcase)]; [done|].
    destruct (scim_org_inv _ _ _ _ Ho) as (_ & (b & Hb & Hbne & _ & Hbs) & _ & _ & Hc). exists org, b. split; [done|]. split; [done|]. split; [done|].
    split; [destruct (scim_organization_id settings); [left; congruence|right; auto]|]. split.
    + intros v Hv Hvo. destruct (Z.eq_dec (us_id v) (us_id u)) as [E|E].
      * rewrite <- E, (get_user_is d v Hw Hv) in Hcase. rewrite Hcase in Hou. by destruct Hvo.
      * apply (get_user_row (us_id v) d'). rewrite Hfr by done. by apply get_user_is.
    + intros v Hv Hn. destruct (Z.eq_dec (us_id v) (us_id u)) as [E|E].
      * pose proof (get_user_is d' v Hw' Hv) as Hv'. rewrite E, Hg in Hv'. by injection Hv' as ->.
      * rewrite <- (Hfr _ E), (get_user_is d' v Hw' Hv) in Hn. done.
  - intros resp ->. by apply (scim_step_shows authorization).
  - intros org d1 id payload Ho Hop Hno. destruct (scim_org_inv _ _ _ _ Ho) as (_ & _ & Ht & _).
    assert (Hn : scim_user_in_org id org d1 = None).
    { destruct (scim_user_in_org id org d1) as [u|] eqn:Eu; [|done]. apply scim_user_in_org_Some in Eu as [Eg Hv]. rewrite Ht in Eg. by destruct (Hno u Eg). }
    apply elem_of_cons in Hop as [->|Hop]; [|apply elem_of_cons in Hop as [->|Hop]; [|apply list_elem_of_singleton in Hop as ->]]; cbn [scim_step] in H;
      unfold scim_get_user, scim_update_user, scim_delete_user, in_scim_org in H; rewrite Ho, Hn in H; by injection H as <- <-.
  - intros v Hv. destruct Hs as [E|(org & d1 & u & Ho & Hw' & Hou & Hg & Hfr & Hcase)]; [by apply Hsame|].
    destruct (Z.eq_dec (us_id v) (us_id u)) as [E|E].
    + exists u. rewrite E. split; [done|]. rewrite <- E, (get_user_is d v Hw Hv) in Hcase. done.
    + exists v. rewrite Hfr by done. split; [by apply get_user_is|by destruct v].
  - intros Hen Hmany Hnone. assert (Hno : forall org d1, scim_org settings authorization d <> Ok (inr (org, d1))).
    { intros org d1 Ho. destruct (scim_org_inv _ _ _ _ Ho) as (_ & _ & _ & _ & Hc). rewrite Hnone in Hc. destruct Hc as [Hc|Hc]; rewrite Hc in Hmany; cbn in Hmany; lia. }
    split; [destruct Hs as [|(org & d1 & u & Ho & _)]; [done|by destruct (Hno org d1)]|]. intros resp ->.
    assert (exists h, in_scim_org settings authorization d h = (Ok resp, d')) as [h Hh] by (destruct op; by eexists).
    unfold in_scim_org in Hh. destruct (scim_org settings authorization d) as [[q|[org d1]]|e] eqn:Eo; [|by destruct (Hno org d1)|done]. injection Hh as -> _.
    revert Eo. unfold scim_org, scim_target_org, target_org. rewrite Hnone. destruct (negb (scim_enabled settings) || _); [intros [= <-]; by left|].
    destruct (compare_digest _ _) as [[|]|]; cbn [res_bind negb]; [|intros [= <-]; by right; left|done].
    destruct (dr_orgs d) as [|o [|o2 l]]; [done|done|]. intros [= <-]. by right; right.
Qed.
End scim.

(** ** Deactivated accounts *)

Section deactivated.
Context (settings : IdentitySettings) (loads : list Z -> res pyval) (encrypt : string -> string) (decrypt : string -> res string).
Context (exchange_code : string -> string -> res (list (string * pyval))).
Context (certificate_subject : string -> res string) (peer_is_trusted : option string -> list string -> bool).

(** What can happen to a directory short of SCIM or the operator writing an account
    back to active. *)
Inductive DirOp :=
| DSignIn (op : Op)
| DSso (code state : string) (state_cookie verifier_cookie : option string)
| DPiv (peer verify_header cert_header : option string)
| DLink (p : Principal) (user_id : Z) (certificate_pem subject : option string)
| DUnlink (p : Principal) (link_id : Z)
| DMap (p : Principal) (group role : string) (priority : Z)
| DUnmap (p : Principal) (mapping_id : Z)
| DDelete (authorization : string) (user_id : Z).

Definition dir_step (now : Z) (op : DirOp) (d : Directory) : Directory :=
  match op with
  | DSignIn op => set_tables (op_step (is_base settings) loads encrypt decrypt now op (dr_tables d)) d
  | DSso code state c1 c2 => (sso_callback settings exchange_code code state c1 c2 now d).2
  | DPiv peer vh ch => (piv_login settings certificate_subject peer_is_trusted peer vh ch now d).2
  | DLink p uid pem subject => (create_piv_link certificate_subject p uid pem subject d).2
  | DUnlink p id => (delete_piv_link p id d).2
  | DMap p group role priority => (create_mapping p group role priority d).2
  | DUnmap p id => delete_mapping p id d
  | DDelete authorization id => (scim_delete_user settings authorization id d).2
  end.

Definition inactive (uid : Z) (d : Directory) : Prop := exists u, get_user uid (dr_tables d) = Some u /\ us_active u = false.

Lemma wf_grown d t : directory_wf d -> grows (dr_tables d) t -> directory_wf (set_tables t d).
Proof.
  intros [Hi Hn He Hl Hli Hnl] (f & Hf & Hf2). constructor; try done; unfold users in *; cbn [set_tables dr_tables dr_next_user]; rewrite Hf, ?map_map.
  - erewrite map_ext; [exact Hi|]. intros u. apply Hf2.
  - intros u (v & -> & Hv)%list_elem_of_fmap. destruct (Hf2 v) as [-> _]. by apply Hn.
  - erewrite map_ext; [exact He|]. intros u. apply Hf2.
Qed.
Lemma inactive_grown uid d t : grows (dr_tables d) t -> inactive uid d -> inactive uid (set_tables t d).
Proof.
  intros (f & Hf & Hf2) (u & Hg & Ha). exists (f u). unfold get_user in *. cbn [set_tables dr_tables]. rewrite Hf, find_map by (intros v; apply Hf2). rewrite Hg.
  split; [done|]. destruct (Hf2 u) as (_ & [-> _] & _). done.
Qed.

Lemma wf_identities_sub d l : directory_wf d -> l `sublist_of` dr_identities d -> directory_wf (set_identities l (dr_next_identity d) d).
Proof.
  intros [Hi Hn He Hl Hli Hnl] Hs. constructor; try done; cbn.
  - eapply sublist_NoDup; [exact Hl|]. by apply fmap_sublist.
  - eapply sublist_NoDup; [exact Hli|]. by apply fmap_sublist.
  - intros i Hin. apply Hnl. by eapply elem_of_sublist.
Qed.

Lemma dir_step_inactive now op uid d : directory_wf d -> inactive uid d -> directory_wf (dir_step now op d) /\ inactive uid (dir_step now op d).
Proof.
  intros Hw Hi. destruct op as [op|code state c1 c2|peer vh ch|p who pem subject|p id|p group role priority|p id|authorization id]; cbn [dir_step].
  - pose proof (op_grows (is_base settings) loads encrypt decrypt now op (dr_tables d)) as Hg. split; [by apply wf_grown|by apply inactive_grown].
  - unfold sso_callback. destruct (negb (oidc_enabled settings)); [done|]. destruct (_ || _); [done|]. destruct (exchange_code _ _) as [claims|]; [|done].
    destruct (sso_provisioning_org _ d) as [r|[org d1]] eqn:Eo; [done|]. destruct (target_org_same _ _ _ _ _ _ Eo) as (Ht & Hw1 & _). specialize (Hw1 Hw).
    destruct (provision_from_oidc _ _ _ _ _ _ _ _ d1) as [[[u c] d2]|e] eqn:Ep; [|done]. cbn [snd].
    assert (Hdef : mem DEFAULT_ROLE VALID_ROLES = true) by done.
    destruct (oidc_account _ _ _ _ _ _ _ _ _ _ _ _ Hw1 Hdef Ep) as (raw & i & _ & _ & _ & _ & _ & Hw2 & Hg2 & Hfr & Hacc & _). split; [done|].
    destruct Hi as (v & Hv & Hva). rewrite <- Ht in Hv. exists v. split; [|done]. rewrite Hfr; [done|]. intros ->.
    destruct c; [destruct Hacc as (_ & Hn & _)|destruct Hacc as (u0 & Hu0 & Ha0 & _)]; congruence.
  - unfold piv_login. destruct (negb (piv_enabled settings)); [done|]. destruct (piv_trusted_proxies settings) as [|x l]; [done|].
    destruct (negb (peer_is_trusted _ _)); [done|]. destruct (negb _); [done|]. destruct (negb _); [done|]. destruct (certificate_subject _) as [subj|]; [|done].
    unfold user_for_certificate. destruct (identity_where PIV_PROVIDER subj d) as [[i|]|]; [|done..]. cbn [res_bind].
    destruct (get_user (ei_user_id i) (dr_tables d)) as [u|]; [|done]. destruct (negb (us_active u)); [done|]. cbn [snd].
    split; [by apply (wf_touch i)|exact Hi].
  - unfold create_piv_link. destruct (piv_subject _ _ _) as [[r|subj]|]; [done| |done]. destruct (negb (str_truthy subj)); [done|].
    destruct (get_user who (dr_tables d)) as [u|]; [|done]. destruct (_ && _); [done|]. destruct (identity_where PIV_PROVIDER subj _) as [[i|]|]; [|  |done].
    { by destruct (ei_user_id i =? who). }
    destruct (existsb _ _) eqn:Ex; [done|]. cbn [snd]. split; [|exact Hi]. apply wf_record.
    set (i := {| ei_id := _; ei_organization_id := _; ei_user_id := _; ei_provider := _; ei_subject := _; ei_email := _; ei_claims := _; ei_last_login_at := _ |}).
    apply (wf_add_identity i d Hw eq_refl). unfold identity_where. rewrite list_filter_nil; [done|]. intros j Hj. destruct (_ && _) eqn:E; [|done].
    rewrite <- Ex. symmetry. apply existsb_exists. exists j. split; [by apply list_elem_of_In|exact E].
  - unfold delete_piv_link. destruct (List.find _ _) as [i|]; [|done]. destruct (_ || _); [done|]. cbn [snd].
    split; [apply wf_record, wf_identities_sub; [done|apply bool_filter_sublist]|exact Hi].
  - unfold create_mapping. destruct (negb _); [done|]. destruct (existsb _ _); [done|]. cbn [snd]. split; [|exact Hi]. destruct Hw. by constructor.
  - unfold delete_mapping. destruct (List.find _ _) as [m|]; [|done]. destruct (_ || _); [|done]. split; [|exact Hi]. destruct Hw. by constructor.
  - destruct (scim_delete_user settings authorization id d) as [r d'] eqn:E. cbn [snd]. unfold scim_delete_user in E.
    apply in_scim_org_inv in E as [->|(org & d1 & resp & Ho & Hh & _)]; [done|]. destruct (scim_org_inv _ _ _ _ _ Ho) as (_ & _ & Ht & Hw1 & _). specialize (Hw1 Hw).
    unfold scim_user_in_org in Hh. destruct (get_user id (dr_tables d1)) as [u|] eqn:Eg; [|by injection Hh as _ <-].
    destruct (Z.eqb_spec (us_organization_id u) org) as [Hu|]; [|by injection Hh as _ <-]. injection Hh as _ <-.
    assert (Hgu : get_user (us_id u) (dr_tables d1) = Some u) by by (apply get_user_row in Eg as [? ?]; apply get_user_is).
    destruct (scim_deactivate_spec org u d1 Hw1 Hgu Hu) as ((Hw2 & _ & Hg2 & Hfr & _) & Ha & Hid). split; [done|]. destruct (Z.eq_dec uid (us_id u)) as [->|Hne].
    + rewrite <- Hid. by eexists.
    + destruct Hi as (v & Hv & Hva). exists v. rewrite <- Ht in Hv. by rewrite Hfr by by rewrite Hid.
Qed.

Lemma dir_run_inactive (ops : list (Z * DirOp)) uid d : directory_wf d -> inactive uid d ->
  directory_wf (fold_left (fun d x => dir_step x.1 x.2 d) ops d) /\ inactive uid (fold_left (fun d x => dir_step x.1 x.2 d) ops d).
Proof.
  revert d. induction ops as [|x ops IH]; intros d Hw Hi; [done|]. cbn [fold_left]. destruct (dir_step_inactive x.1 x.2 uid d Hw Hi). by apply IH.
Qed.

(** a deactivated account stays out. After SCIM deleted an account, whatever
    sign-ins, single sign-ons, certificates, links, mappings and other deletions
    follow, there is no way in as that user: no password and no second factor is
    judged for it, no cookie or API token resolves to it, and neither OIDC nor a
    certificate signs it in - even with cookies issued and links made before. *)
Theorem deactivated_accounts_stay_out authorization uid d d1 ops r : directory_wf d -> scim_delete_user settings authorization uid d = (Ok r, d1) -> rs_status r = 204 ->
  let later := fold_left (fun d x => dir_step x.1 x.2 d) ops d1 in
  (forall a now u, aimed_at (is_base settings) loads a now (dr_tables later) = Ok (Some u) -> us_id u <> uid) /\
  (forall req now p, lookup_principal (is_base settings) loads req now (dr_tables later) = Ok (Some p) -> pr_user_id p <> Some uid) /\
  (forall claims org domains role jit provider require now u created d2, mem role VALID_ROLES = true ->
     provision_from_oidc claims org domains role jit provider require now later = Ok (u, created, d2) -> us_id u <> uid) /\
  (forall subject now u d2, user_for_certificate subject now later = Ok (u, d2) -> us_id u <> uid).
Proof.
  intros Hw Hdel Hst later. assert (directory_wf d1 /\ inactive uid d1) as [Hw1 Hi1].
  { unfold scim_delete_user, in_scim_org in Hdel. destruct (scim_org settings authorization d) as [[q|[org d0]]|e] eqn:Eo; [| |done].
    { injection Hdel as -> _. revert Eo. unfold scim_org, scim_target_org, target_org. destruct (_ || _); [by intros [= <-]|]. destruct (compare_digest _ _) as [[|]|]; cbn [res_bind negb]; [|by intros [= <-]|done].
      destruct (scim_organization_id settings); [destruct (mem _ _); by intros [= <-]|]. destruct (dr_orgs d) as [|? [|? ?]]; [done|done|by intros [= <-]]. }
    destruct (scim_org_inv _ _ _ _ _ Eo) as (_ & _ & Ht & Hw0 & _). specialize (Hw0 Hw). unfold scim_user_in_org in Hdel.
    destruct (get_user uid (dr_tables d0)) as [u|] eqn:Eg; [|injection Hdel as <- _; done]. destruct (Z.eqb_spec (us_organization_id u) org) as [Hu|]; [|injection Hdel as <- _; done].
    injection Hdel as _ <-. pose proof Eg as [Hin Hid]%get_user_row. subst uid.
    destruct (scim_deactivate_spec org u d0 Hw0 Eg Hu) as ((Hw2 & _ & Hg2 & _) & Ha & Hid). split; [done|]. rewrite <- Hid. by eexists. }
  destruct (dir_run_inactive ops uid d1 Hw1 Hi1) as [Hwl (v & Hv & Hva)]. fold later in Hwl, Hv.
  assert (Hout : forall u, u ∈ users later -> us_active u = true -> us_id u <> uid).
  { intros u Hin Ha <-. rewrite (get_user_is later u Hwl Hin) in Hv. congruence. }
  split; [|split; [|split]].
  - intros a now u [Hin Ha]%aimed_active. by apply Hout.
  - intros req now p (u & Hin & Ha & -> & _)%lookup_proved. cbn. intros [= E]. by apply (Hout u).
  - intros claims org domains role jit provider require now u created d2 Hrole Hp.
    destruct (oidc_account _ _ _ _ _ _ _ _ _ _ _ _ Hwl Hrole Hp) as (raw & i & _ & _ & _ & _ & _ & _ & _ & _ & Hacc & _). intros <-.
    destruct created; [destruct Hacc as (_ & Hn & _)|destruct Hacc as (u0 & Hu0 & Ha0 & _)]; congruence.
  - intros subject now u d2. unfold user_for_certificate. destruct (identity_where PIV_PROVIDER subject later) as [[i|]|]; [|done..]. cbn [res_bind].
    destruct (get_user (ei_user_id i) (dr_tables later)) as [w|] eqn:Eg; [|done]. destruct (us_active w) eqn:Ea; cbn [negb]; [|done]. intros [= <- _].
    apply get_user_row in Eg as [Hin _]. by apply Hout.
Qed.
End deactivated.

(** ** Where provisioning surprises *)

Section surprises.
Context (settings : IdentitySettings) (exchange_code : string -> string -> res (list (string * pyval))).

(** a SCIM update that does not say [active] writes the account back to active. An
    attribute change, or a deactivation sent without a path, on a deactivated user
    answers 200 and leaves the user active; and when the stored address is not in
    lower case, the update misses the named account, which stays as it was, and
    makes a second one, active, under the lower-case address. *)
Theorem scim_updates_reactivate authorization uid payload d r d' org d1 u : directory_wf d -> scim_org settings authorization d = Ok (inr (org, d1)) ->
  get_user uid (dr_tables d) = Some u -> us_organization_id u = org -> us_email u <> "" -> scim_active payload = Ok None ->
  scim_update_user settings authorization uid payload d = (Ok r, d') ->
  scim_active [("Operations", VList [VDict [("op", VStr "replace"); ("value", VDict [("active", VBool false)])]])] = Ok None /\
  rs_status r = 200 /\
  let normal := lower (strip (us_email u)) in
  (us_email u = normal -> exists u', get_user uid (dr_tables d') = Some u' /\ us_active u' = true) /\
  (us_email u <> normal -> (forall v, v ∈ users d -> us_email v <> normal) ->
     get_user uid (dr_tables d') = Some u /\ exists v, v ∈ users d' /\ us_email v = normal /\ us_active v = true /\ get_user (us_id v) (dr_tables d) = None).
Proof.
  intros Hw Ho Hg Hu Hne Hact Hupd. split; [reflexivity|]. destruct (scim_org_inv _ _ _ _ _ Ho) as (_ & _ & Ht & Hw1 & _). specialize (Hw1 Hw).
  unfold scim_update_user, in_scim_org in Hupd. rewrite Ho in Hupd. unfold scim_user_in_org in Hupd. rewrite Ht, Hg, Hu, Z.eqb_refl, Hact in Hupd. cbn [res_bind] in Hupd.
  destruct (scim_create_or_update_user org (dset "userName" (VStr (us_email u)) payload) d1) as [[[w c] d2]|e] eqn:Es; cbn [res_bind snd] in Hupd; [|done].
  injection Hupd as <- <-. split; [done|]. destruct (scim_write_spec _ _ _ _ _ _ Hw1 Es) as [(Hw2 & Hwo & Hwg & Hfr & Hcase) (Hwa & email & He & Hem & Hc & Hc2)].
  assert (Hna : dget "active" payload = None). { unfold scim_active in Hact. by destruct (dget "active" payload). }
  rewrite dget_dset_ne, Hna in Hwa by done. cbn [default from_option truthy] in Hwa.
  unfold scim_email, vget in He. rewrite dget_dset_eq in He. cbn [default from_option] in He. assert (truthy (VStr (us_email u)) = true) as Htr.
  { cbn. by apply bool_decide_eq_true_2. }
  change (truthy (id (VStr (us_email u)))) with (truthy (VStr (us_email u))) in He. rewrite Htr in He. cbn [id py_str] in He. injection He as He. cbv zeta. rewrite He.
  assert (Hin1 : forall v, v ∈ users d1 <-> v ∈ users d) by (intros v; unfold users; by rewrite Ht).
  pose proof Hg as [Hin Hid]%get_user_row. split.
  - intros Heq. destruct c.
    + exfalso. destruct Hc as [Hc _]. specialize (Hc eq_refl u). rewrite Hin1 in Hc. by apply Hc.
    + destruct (Hc2 eq_refl) as (u0 & Hin0 & Hid0 & Hem0). rewrite Hin1 in Hin0. assert (u0 = u) as ->.
      { eapply (nodup_key_inj us_email); [apply (wf_emails d Hw)|done|done|congruence]. }
      exists w. rewrite <- Hid, Hid0. done.
  - intros Hneq Hnone. assert (c = true) as ->. { apply Hc. intros v Hv. rewrite Hin1 in Hv. by apply Hnone. }
    assert (Hwu : us_id w <> uid).
    { intros E. rewrite E, Ht, Hg in Hcase. apply Hneq. rewrite <- Hem, Hcase. done. }
    split; [rewrite Hfr by congruence; by rewrite Ht|]. exists w. split; [by apply get_user_row in Hwg as [? _]|]. split; [done|]. split; [done|].
    destruct (get_user (us_id w) (dr_tables d)) as [x|] eqn:Ex; [|done]. rewrite Ht, Ex in Hcase. pose proof Ex as [Hxin _]%get_user_row.
    destruct (Hnone x Hxin). rewrite <- Hem, Hcase. done.
Qed.

(** single sign-on needs its organization even for those who have an account. On a
    deployment with several organizations and none configured, the callback answers
    500 before it looks the user up, also when the claims speak for an existing
    account whatever the organization. *)
Theorem sso_refuses_known_users code state verifier claims now d u : oidc_enabled settings = true -> oidc_organization_id settings = None ->
  (1 < List.length (dr_orgs d))%nat -> code <> "" -> verifier <> "" -> exchange_code code verifier = Ok claims ->
  (forall org, exists d2, provision_from_oidc claims org (oidc_allowed_domains settings) DEFAULT_ROLE (auth_jit_provisioning settings) "oidc"
     (oidc_require_email_verified settings) now d = Ok (u, false, d2)) ->
  exists r, sso_callback settings exchange_code code state (Some state) (Some verifier) now d = (Ok r, d) /\ rs_status r = 500 /\ rs_session r = None.
Proof.
  intros He Ho Hl Hc Hv Hx _. unfold sso_callback. rewrite He. cbn [negb or_empty default from_option id]. unfold str_truthy.
  rewrite !bool_decide_eq_true_2 by done. cbn [negb orb]. rewrite Hx. unfold sso_provisioning_org, target_org. rewrite Ho.
  destruct (dr_orgs d) as [|a [|b l]]; [cbn in Hl; lia..|]. by eexists.
Qed.
End surprises.

(** ** A worked example *)

Definition person (id org : Z) (email role : string) : User := with_profile VNone role true (new_user id org email VNone role true).
Definition joan : User := person 7 1 "joan@example.org" "admin".
Definition mary : User := person 8 2 "mary@example.org" "viewer".
Definition demo_identity_settings : IdentitySettings :=
  {| is_base := demo_settings; oidc_enabled := true; oidc_allowed_domains := ["@Example.org"]; oidc_require_email_verified := true; oidc_organization_id := None;
     auth_jit_provisioning := true; piv_enabled := false; piv_trusted_proxies := []; scim_enabled := true; scim_bearer_token := Some "scim"; scim_organization_id := Some 2 |}.
Definition demo_directory : Directory :=
  {| dr_tables := {| tb_users := [joan; mary]; tb_policies := ∅; tb_systems := []; tb_events := [] |}; dr_orgs := [1; 2];
     dr_identities := [{| ei_id := 1; ei_organization_id := Some 2; ei_user_id := 8; ei_provider := "oidc"; ei_subject := "sub-8"; ei_email := None;
                          ei_claims := VDict []; ei_last_login_at := None |}];
     dr_mappings := [{| gm_id := 1; gm_organization_id := Some 2; gm_group := "ops"; gm_role := "control_owner"; gm_priority := 5 |};
                     {| gm_id := 2; gm_organization_id := Some 1; gm_group := "ops"; gm_role := "admin"; gm_priority := 1 |}];
     dr_scim_events := []; dr_next_user := 9; dr_next_identity := 2; dr_next_mapping := 3; dr_next_org := 3 |}.
Definition demo_claims : list (string * pyval) :=
  [("email", VStr " Mary@Example.org "); ("sub", VStr "sub-8"); ("email_verified", VBool true); ("groups", VStr "ops, all")].

Lemma demo_directory_wf : directory_wf demo_directory.
Proof.
  constructor.
  - apply (bool_decide_unpack (NoDup _)). vm_compute. exact I.
  - intros u Hin. apply elem_of_cons in Hin as [->|Hin]; [done|]. apply elem_of_cons in Hin as [->|Hin]; [done|]. by apply not_elem_of_nil in Hin.
  - apply (bool_decide_unpack (NoDup _)). vm_compute. exact I.
  - apply (bool_decide_unpack (NoDup _)). vm_compute. exact I.
  - apply (bool_decide_unpack (NoDup _)). vm_compute. exact I.
  - intros i Hin. apply list_elem_of_singleton in Hin as ->. done.
Qed.

Definition demo_signed_on : User := with_profile VNone "control_owner" true mary.


Lemma scim_scope_witness : exists d', scim_step demo_identity_settings "Bearer scim" (SDelete 8) demo_directory = (Ok (answer 204 VNone), d') /\ joan ∈ users d'.
Proof.
  destruct (scim_step demo_identity_settings "Bearer scim" (SDelete 8) demo_directory) as [r d'] eqn:E.
  assert (Hr : r = Ok (answer 204 VNone)) by (vm_compute in E; injection E as <- _; reflexivity). subst r.
  destruct (scim_stays_in_its_org demo_identity_settings "Bearer scim" (SDelete 8) demo_directory _ d' demo_directory_wf E) as (_ & Hout & _).
  destruct Hout as (org & bearer & _ & _ & _ & Ho & Hkeep & _).
  - intros ->. vm_compute in E. discriminate.
  - destruct Ho as [Ho|[Ho _]]; [|discriminate]. injection Ho as <-. exists d'. split; [reflexivity|]. apply Hkeep; [left|discriminate].
Defined.

Lemma deactivated_witness : exists d1, scim_delete_user demo_identity_settings "Bearer scim" 8 demo_directory = (Ok (answer 204 VNone), d1) /\
  forall u, aimed_at demo_settings demo_loads (Password "mary@example.org" "battery staple") 5 (dr_tables d1) = Ok (Some u) -> us_id u <> 8.
Proof.
  destruct (scim_delete_user demo_identity_settings "Bearer scim" 8 demo_directory) as [r d1] eqn:E.
  assert (Hr : r = Ok (answer 204 VNone)) by (vm_compute in E; injection E as <- _; reflexivity). subst r. exists d1. split; [reflexivity|].
  apply (deactivated_accounts_stay_out demo_identity_settings demo_loads (fun s => s) demo_decrypt (fun _ _ => Err (ValueError "")) (fun _ => Err (ValueError ""))
    (fun _ _ => false) "Bearer scim" 8 demo_directory d1 [] _ demo_directory_wf E eq_refl).
Defined.

Lemma reactivate_witness : exists r d', scim_update_user demo_identity_settings "Bearer scim" 8 [("displayName", VStr "Mary")] demo_directory = (Ok r, d') /\
  exists u', get_user 8 (dr_tables d') = Some u' /\ us_active u' = true.
Proof.
  destruct (scim_update_user demo_identity_settings "Bearer scim" 8 [("displayName", VStr "Mary")] demo_directory) as [r d'] eqn:E.
  destruct r as [r|e]; [|vm_compute in E; discriminate]. exists r, d'. split; [reflexivity|].
  destruct (scim_updates_reactivate demo_identity_settings "Bearer scim" 8 [("displayName", VStr "Mary")] demo_directory r d' 2 demo_directory mary) as (_ & _ & H & _).
  - exact demo_directory_wf.
  - vm_compute. reflexivity.
  - reflexivity.
  - reflexivity.
  - discriminate.
  - reflexivity.
  - exact E.
  - apply H. vm_compute. reflexivity.
Defined.

Lemma sso_witness : exists r, sso_callback demo_identity_settings (fun _ _ => Ok demo_claims) "code" "st" (Some "st") (Some "v") 5 demo_directory = (Ok r, demo_directory) /\
  rs_status r = 500 /\ rs_session r = None.
Proof.
  apply (sso_refuses_known_users demo_identity_settings (fun _ _ => Ok demo_claims) "code" "st" "v" demo_claims 5 demo_directory demo_signed_on).
  - reflexivity.
  - reflexivity.
  - cbn. lia.
  - discriminate.
  - discriminate.
  - reflexivity.
  - intros org. eexists. vm_compute. reflexivity.
Defined.
