(* ===== verification/Portal.v ===== *)
(** The external collaboration portal ([src/src/ccf/portal/service.py],
    [api/routes/portal.py]): external principals, assessment engagements, the grants
    that carry their authority, what a grant can see, comments, and the two
    credential channels, a link token and the cookie it is exchanged for.

    The link tokens [secrets] draws are arguments. A session clamped to a tenant sees
    the rows row-level security leaves it ([rls]). An exception rolls back. *)

From S2P Require Import AuditChain.
From S2P Require Export SignIn.

Local Open Scope string_scope.
Local Open Scope Z_scope.

Definition EXTERNAL_PRINCIPAL_KINDS : list string := ["customer"; "assessor"; "vendor"].

Record ExternalPrincipal := {
  ep_id : Z; ep_organization_id : option Z; ep_kind : string; ep_name : string; ep_email : option string; ep_organization_name : option string }.

Record AssessmentEngagement := {
  ae_id : Z; ae_organization_id : option Z; ae_system_id : Z; ae_assessor_principal_id : Z; ae_period_from : Z; ae_period_to : Z;
  ae_authorized_by : option string; ae_independence_note : option string; ae_revoked_at : option Z }.

Record ExternalAccessGrant := {
  ag_id : Z; ag_organization_id : option Z; ag_principal_id : option Z; ag_kind : string; ag_engagement_id : option Z; ag_token_hash : string;
  ag_label : option string; ag_expires_at : option Z; ag_revoked : bool; ag_scope : pyval }.

Record AuthorizationPackage := {
  pk_id : Z; pk_organization_id : option Z; pk_system_id : option Z; pk_view : list (string * pyval) }.
Record EvidenceObject := { eo_id : Z; eo_organization_id : option Z; eo_view : list (string * pyval) }.

Record ExternalComment := {
  ec_id : Z; ec_organization_id : option Z; ec_grant_id : Z; ec_target_type : string; ec_target_id : string; ec_author : option string;
  ec_author_kind : string; ec_body : string }.

Record ExternalPortalAuditEvent := {
  xe_organization_id : option Z; xe_grant_id : Z; xe_action : string; xe_target_type : option string; xe_target_id : option string; xe_detail : option string }.

(** The platform's tables, organization names, and the portal's tables with their
    sequences. Shares pair a grant with a package or an evidence object. *)
Record Portal := {
  po_tables : Tables;
  po_org_names : gmap Z string;
  po_principals : list ExternalPrincipal;
  po_engagements : list AssessmentEngagement;
  po_grants : list ExternalAccessGrant;
  po_package_shares : list (Z * Z);
  po_evidence_shares : list (Z * Z);
  po_packages : list AuthorizationPackage;
  po_evidence : list EvidenceObject;
  po_comments : list ExternalComment;
  po_events : list ExternalPortalAuditEvent;
  po_next_id : Z }.

(** ** Rows *)

Definition get_principal_row (id : Z) (p : Portal) : option ExternalPrincipal := List.find (fun r => ep_id r =? id) (po_principals p).
Definition get_engagement (id : Z) (p : Portal) : option AssessmentEngagement := List.find (fun r => ae_id r =? id) (po_engagements p).
Definition get_grant (id : Z) (p : Portal) : option ExternalAccessGrant := List.find (fun r => ag_id r =? id) (po_grants p).
Definition get_system (id : Z) (p : Portal) : option System := List.find (fun r => sy_id r =? id) (tb_systems (po_tables p)).

Definition with_audit (e : Event) (p : Portal) : Portal :=
  {| po_tables := add_event e (po_tables p); po_org_names := po_org_names p; po_principals := po_principals p; po_engagements := po_engagements p;
     po_grants := po_grants p; po_package_shares := po_package_shares p; po_evidence_shares := po_evidence_shares p; po_packages := po_packages p;
     po_evidence := po_evidence p; po_comments := po_comments p; po_events := po_events p; po_next_id := po_next_id p |}.
Definition with_event (e : ExternalPortalAuditEvent) (p : Portal) : Portal :=
  {| po_tables := po_tables p; po_org_names := po_org_names p; po_principals := po_principals p; po_engagements := po_engagements p;
     po_grants := po_grants p; po_package_shares := po_package_shares p; po_evidence_shares := po_evidence_shares p; po_packages := po_packages p;
     po_evidence := po_evidence p; po_comments := po_comments p; po_events := (po_events p ++ [e])%list; po_next_id := po_next_id p |}.
Definition with_grants (gs : list ExternalAccessGrant) (p : Portal) : Portal :=
  {| po_tables := po_tables p; po_org_names := po_org_names p; po_principals := po_principals p; po_engagements := po_engagements p;
     po_grants := gs; po_package_shares := po_package_shares p; po_evidence_shares := po_evidence_shares p; po_packages := po_packages p;
     po_evidence := po_evidence p; po_comments := po_comments p; po_events := po_events p; po_next_id := po_next_id p |}.
Definition with_engagements (es : list AssessmentEngagement) (p : Portal) : Portal :=
  {| po_tables := po_tables p; po_org_names := po_org_names p; po_principals := po_principals p; po_engagements := es;
     po_grants := po_grants p; po_package_shares := po_package_shares p; po_evidence_shares := po_evidence_shares p; po_packages := po_packages p;
     po_evidence := po_evidence p; po_comments := po_comments p; po_events := po_events p; po_next_id := po_next_id p |}.

(** New rows take the next id. *)
Definition add_principal (r : ExternalPrincipal) (p : Portal) : Portal :=
  {| po_tables := po_tables p; po_org_names := po_org_names p; po_principals := (po_principals p ++ [r])%list; po_engagements := po_engagements p;
     po_grants := po_grants p; po_package_shares := po_package_shares p; po_evidence_shares := po_evidence_shares p; po_packages := po_packages p;
     po_evidence := po_evidence p; po_comments := po_comments p; po_events := po_events p; po_next_id := po_next_id p + 1 |}.
Definition add_engagement (r : AssessmentEngagement) (p : Portal) : Portal :=
  {| po_tables := po_tables p; po_org_names := po_org_names p; po_principals := po_principals p; po_engagements := (po_engagements p ++ [r])%list;
     po_grants := po_grants p; po_package_shares := po_package_shares p; po_evidence_shares := po_evidence_shares p; po_packages := po_packages p;
     po_evidence := po_evidence p; po_comments := po_comments p; po_events := po_events p; po_next_id := po_next_id p + 1 |}.
Definition add_grant (r : ExternalAccessGrant) (packages evidence : list Z) (p : Portal) : Portal :=
  {| po_tables := po_tables p; po_org_names := po_org_names p; po_principals := po_principals p; po_engagements := po_engagements p;
     po_grants := (po_grants p ++ [r])%list; po_package_shares := (po_package_shares p ++ map (pair (ag_id r)) packages)%list;
     po_evidence_shares := (po_evidence_shares p ++ map (pair (ag_id r)) evidence)%list; po_packages := po_packages p;
     po_evidence := po_evidence p; po_comments := po_comments p; po_events := po_events p; po_next_id := po_next_id p + 1 |}.
Definition add_comment_row (r : ExternalComment) (p : Portal) : Portal :=
  {| po_tables := po_tables p; po_org_names := po_org_names p; po_principals := po_principals p; po_engagements := po_engagements p;
     po_grants := po_grants p; po_package_shares := po_package_shares p; po_evidence_shares := po_evidence_shares p; po_packages := po_packages p;
     po_evidence := po_evidence p; po_comments := (po_comments p ++ [r])%list; po_events := po_events p; po_next_id := po_next_id p + 1 |}.

Definition portal_audit (organization_id : option Z) (actor : option string) (action entity_type : string) (entity_id : Z) (diff : list (string * pyval)) : Event :=
  {| ev_organization_id := organization_id; ev_actor := str_or (or_empty actor) "system"; ev_action := action; ev_entity_type := entity_type;
     ev_entity_id := Some (pretty entity_id); ev_diff := VDict diff |}.

Definition record_access (g : ExternalAccessGrant) (action : string) (target_type target_id detail : option string) (p : Portal) : Portal :=
  with_event {| xe_organization_id := ag_organization_id g; xe_grant_id := ag_id g; xe_action := action; xe_target_type := target_type;
                xe_target_id := target_id; xe_detail := detail |} p.

(** ** Principals and engagements *)

Definition require_kind (kind : string) : res string :=
  if negb (mem kind EXTERNAL_PRINCIPAL_KINDS) then
    Err (ValueError ("unknown external principal kind " +:+ repr_str kind +:+ "; expected one of " +:+ join ", " EXTERNAL_PRINCIPAL_KINDS))
  else Ok kind.

Definition create_principal (org_id : Z) (name kind : string) (email organization_name : option string) (p : Portal) : res (ExternalPrincipal * Portal) :=
  let! kind := require_kind kind in
  let r := {| ep_id := po_next_id p; ep_organization_id := Some org_id; ep_kind := kind; ep_name := name; ep_email := email; ep_organization_name := organization_name |} in
  Ok (r, add_principal r p).

(** [email.rsplit("@", 1)[1].strip().lower() or None] *)
Definition domain (email : option string) : option string :=
  match email with
  | Some e => if negb (str_has "@"%char e) then None else
              let d := lower (strip (List.last (split_on "@"%char e) "")) in if str_truthy d then Some d else None
  | None => None
  end.

(** [str.casefold] below U+0100: lower case, and the sharp s as two letters. *)
Fixpoint casefold (s : string) : string :=
  match s with
  | EmptyString => ""
  | String c s' => if (cp c =? 223)%N then "ss" +:+ casefold s' else String (lower_char c) (casefold s')
  end.

Definition independence_note (org_id : Z) (principal : ExternalPrincipal) (p : Portal) : option string :=
  let tenant_domains := omap (fun u => domain (Some (us_email u))) (List.filter (fun u => us_organization_id u =? org_id) (tb_users (po_tables p))) in
  let by_domain := match domain (ep_email principal) with
                   | Some d => if mem d tenant_domains
                               then ["the assessor's email domain (" +:+ d +:+ ") also appears on user accounts in this organization"] else []
                   | None => []
                   end in
  let stated := strip (or_empty (ep_organization_name principal)) in
  let by_name := match po_org_names p !! org_id with
                 | Some name => if str_truthy stated && bool_decide (casefold stated = casefold (strip name))
                                then ["the assessor's stated organization name matches this organization's name (" +:+ name +:+ ")"] else []
                 | None => []
                 end in
  match (by_domain ++ by_name)%list with
  | [] => None
  | observations => Some ("Observed at engagement creation: " +:+ join "; " observations +:+
      ". Recorded as an observation only: Concord compares strings and does not determine independence.")
  end.

Definition create_engagement (org_id system_id assessor_principal_id period_from period_to : Z) (authorized_by actor : option string) (p : Portal)
    : res (AssessmentEngagement * Portal) :=
  match get_principal_row assessor_principal_id p with
  | None => Err (ValueError ("external principal " +:+ pretty assessor_principal_id +:+ " not found in organization " +:+ pretty org_id))
  | Some principal =>
      if negb (bool_decide (ep_organization_id principal = Some org_id)) then
        Err (ValueError ("external principal " +:+ pretty assessor_principal_id +:+ " not found in organization " +:+ pretty org_id))
      else if negb (bool_decide (ep_kind principal = "assessor")) then
        Err (ValueError ("external principal " +:+ pretty assessor_principal_id +:+ " is kind " +:+ repr_str (ep_kind principal) +:+
                         "; an assessment engagement requires kind 'assessor'"))
      else match get_system system_id p with
      | None => Err (ValueError ("system " +:+ pretty system_id +:+ " not found in organization " +:+ pretty org_id))
      | Some s =>
          if negb (sy_organization_id s =? org_id) then Err (ValueError ("system " +:+ pretty system_id +:+ " not found in organization " +:+ pretty org_id)) else
          let e := {| ae_id := po_next_id p; ae_organization_id := Some org_id; ae_system_id := system_id; ae_assessor_principal_id := assessor_principal_id;
                      ae_period_from := period_from; ae_period_to := period_to; ae_authorized_by := authorized_by;
                      ae_independence_note := independence_note org_id principal p; ae_revoked_at := None |} in
          Ok (e, with_audit (portal_audit (Some org_id) actor "create" "assessment_engagement" (ae_id e)
            [("org", VInt org_id); ("system", VInt system_id); ("principal", VInt assessor_principal_id);
             ("period_from", VStr (dt_iso period_from)); ("period_to", VStr (dt_iso period_to))]) (add_engagement e p))
      end
  end.

Definition engagement_ge (a b : AssessmentEngagement) : bool := ae_id b <=? ae_id a.
Definition list_engagements (org_id : Z) (p : Portal) : list AssessmentEngagement :=
  stable_sort engagement_ge (List.filter (fun e => bool_decide (ae_organization_id e = Some org_id)) (po_engagements p)).

(** ** Grants *)

Definition set_revoked (g : ExternalAccessGrant) : ExternalAccessGrant :=
  {| ag_id := ag_id g; ag_organization_id := ag_organization_id g; ag_principal_id := ag_principal_id g; ag_kind := ag_kind g;
     ag_engagement_id := ag_engagement_id g; ag_token_hash := ag_token_hash g; ag_label := ag_label g; ag_expires_at := ag_expires_at g;
     ag_revoked := true; ag_scope := ag_scope g |}.

Definition revoke_grant (grant_id : Z) (actor : option string) (p : Portal) : bool * Portal :=
  match get_grant grant_id p with
  | None => (false, p)
  | Some g =>
      let p := with_grants (map (fun r => if ag_id r =? grant_id then set_revoked r else r) (po_grants p)) p in
      let p := record_access g "revoked" None None None p in
      (true, with_audit (portal_audit (ag_organization_id g) actor "delete" "external_grant" (ag_id g) [("revoked", VBool true)]) p)
  end.

Definition end_engagement (now : Z) (e : AssessmentEngagement) : AssessmentEngagement :=
  {| ae_id := ae_id e; ae_organization_id := ae_organization_id e; ae_system_id := ae_system_id e; ae_assessor_principal_id := ae_assessor_principal_id e;
     ae_period_from := ae_period_from e; ae_period_to := ae_period_to e; ae_authorized_by := ae_authorized_by e;
     ae_independence_note := ae_independence_note e; ae_revoked_at := Some now |}.

Definition revoke_engagement (engagement_id : Z) (actor : option string) (now : Z) (p : Portal) : bool * Portal :=
  match get_engagement engagement_id p with
  | None => (false, p)
  | Some e =>
      let p := with_engagements (map (fun r => if ae_id r =? engagement_id then end_engagement now r else r) (po_engagements p)) p in
      let grant_ids := map ag_id (List.filter (fun g => bool_decide (ag_engagement_id g = Some engagement_id) && negb (ag_revoked g)) (po_grants p)) in
      let p := fold_left (fun p gid => (revoke_grant gid actor p).2) grant_ids p in
      (true, with_audit (portal_audit (ae_organization_id e) actor "delete" "assessment_engagement" engagement_id
        [("revoked_at", VStr (dt_iso now)); ("grants_revoked", VInt (Z.of_nat (List.length grant_ids)))]) p)
  end.

Definition DATETIME_MIN : Z := -62135596800000000.
Definition DATETIME_MAX : Z := 253402300799999999.

(** [now + timedelta(days=ttl_days)] when [ttl_days] is neither absent nor zero. *)
Definition expiry (ttl_days : option Z) (now : Z) : res (option Z) :=
  match ttl_days with
  | None => Ok None
  | Some d => if d =? 0 then Ok None else
              if 999999999 <? Z.abs d then Err (Exn "OverflowError" "days; must have magnitude <= 999999999") else
              let t := now + d * day_us in
              if (DATETIME_MIN <=? t) && (t <=? DATETIME_MAX) then Ok (Some t) else Err (Exn "OverflowError" "date value out of range")
  end.

Record GrantIn := {
  gi_principal_name : string; gi_kind : string; gi_email : option string; gi_organization_name : option string; gi_package_ids : list Z;
  gi_evidence_ids : list Z; gi_ttl_days : option Z; gi_label : option string; gi_engagement_id : option Z; gi_principal_id : option Z }.

(** The engagement a grant is issued under, by the rules of issuance. *)
Definition grant_engagement (org_id : Z) (b : GrantIn) (p : Portal) : res (option AssessmentEngagement) :=
  match gi_engagement_id b with
  | None => Ok None
  | Some id =>
      match get_engagement id p with
      | None => Err (ValueError ("assessment engagement " +:+ pretty id +:+ " not found in organization " +:+ pretty org_id))
      | Some e =>
          if negb (bool_decide (ae_organization_id e = Some org_id)) then
            Err (ValueError ("assessment engagement " +:+ pretty id +:+ " not found in organization " +:+ pretty org_id))
          else match gi_ttl_days b with
          | None => Err (ValueError ("an engagement-backed grant must be given a ttl_days: an assessment " +:+
              "credential that never expires outlives the engagement it belongs to, " +:+ "and Concord will not choose an expiry for one on your behalf"))
          | Some _ => match gi_package_ids b with
                      | _ :: _ => Err (ValueError ("an engagement-backed grant does not take package_ids: its packages " +:+
                          "resolve through the engagement's system_id, so a hand-picked list " +:+ "would be silently ignored"))
                      | [] => Ok (Some e)
                      end
          end
      end
  end.

Definition grant_principal (org_id : Z) (b : GrantIn) (p : Portal) : res (Z * Portal) :=
  match gi_principal_id b with
  | None =>
      if negb (str_truthy (gi_principal_name b)) then Err (ValueError "a grant needs either principal_id or principal_name") else
      let r := {| ep_id := po_next_id p; ep_organization_id := Some org_id; ep_kind := gi_kind b; ep_name := gi_principal_name b; ep_email := gi_email b;
                  ep_organization_name := gi_organization_name b |} in
      Ok (ep_id r, add_principal r p)
  | Some id =>
      match get_principal_row id p with
      | Some r => if bool_decide (ep_organization_id r = Some org_id) then Ok (id, p)
                  else Err (ValueError ("external principal " +:+ pretty id +:+ " not found in organization " +:+ pretty org_id))
      | None => Err (ValueError ("external principal " +:+ pretty id +:+ " not found in organization " +:+ pretty org_id))
      end
  end.

(** The foreign keys of the share rows. *)
Definition shares_exist (packages evidence : list Z) (p : Portal) : bool :=
  forallb (fun i => mem i (map pk_id (po_packages p))) packages && forallb (fun i => mem i (map eo_id (po_evidence p))) evidence.

Definition vint_opt (o : option Z) : pyval := match o with Some z => VInt z | None => VNone end.

(** The grant, whether its expiry was capped, and the tables; [token] is the one drawn. *)
Definition create_grant (org_id : Z) (b : GrantIn) (token : string) (actor : option string) (now : Z) (p : Portal)
    : res (ExternalAccessGrant * bool * Portal) :=
  let! kind := require_kind (gi_kind b) in
  let! engagement := grant_engagement org_id b p in
  let! holder := grant_principal org_id b p in
  let '(principal_id, p) := holder in
  let! asked := expiry (gi_ttl_days b) now in
  let '(expires_at, capped) :=
    match engagement, asked with
    | Some e, Some t => if ae_period_to e <? t then (Some (ae_period_to e), true) else (Some t, false)
    | _, _ => (asked, false)
    end in
  let ids l := VList (map VInt l) in
  let scope := ([("package_ids", ids (gi_package_ids b)); ("evidence_ids", ids (gi_evidence_ids b))] ++
                match engagement with Some e => [("system_id", VInt (ae_system_id e))] | None => [] end)%list in
  let g := {| ag_id := po_next_id p; ag_organization_id := Some org_id; ag_principal_id := Some principal_id; ag_kind := kind;
              ag_engagement_id := gi_engagement_id b; ag_token_hash := hash_token token; ag_label := gi_label b; ag_expires_at := expires_at;
              ag_revoked := false; ag_scope := VDict scope |} in
  if negb (shares_exist (gi_package_ids b) (gi_evidence_ids b) p) then Err (Exn "IntegrityError" "foreign key") else
  let p := add_grant g (gi_package_ids b) (gi_evidence_ids b) p in
  let detail := pretty (Z.of_nat (List.length (gi_package_ids b))) +:+ "pkg/" +:+ pretty (Z.of_nat (List.length (gi_evidence_ids b))) +:+ "ev" +:+
    (match expires_at with Some t => if capped : bool then " expiry capped at engagement period_to " +:+ dt_iso t else "" | None => "" end) in
  let p := record_access g "issued" None None (Some detail) p in
  Ok (g, capped, with_audit (portal_audit (Some org_id) actor "create" "external_grant" (ag_id g)
    [("org", VInt org_id); ("kind", VStr kind); ("packages", ids (gi_package_ids b)); ("evidence", ids (gi_evidence_ids b));
     ("engagement", vint_opt (gi_engagement_id b)); ("expiry_capped", VBool capped)]) p).

Definition grant_ge (a b : ExternalAccessGrant) : bool := ag_id b <=? ag_id a.
Definition list_grants (org_id : Z) (p : Portal) : list ExternalAccessGrant :=
  stable_sort grant_ge (List.filter (fun g => bool_decide (ag_organization_id g = Some org_id)) (po_grants p)).

(** ** Resolution *)

Definition grant_status (g : ExternalAccessGrant) (current : list Z) (now : Z) : string :=
  if ag_revoked g then "revoked"
  else if match ag_expires_at g with Some t => t <? now | None => false end then "expired"
  else if match ag_engagement_id g with Some e => negb (mem e current) | None => false end then "engagement ended"
  else "active".

Definition engagement_current (now : Z) (e : AssessmentEngagement) : bool := bool_decide (ae_revoked_at e = None) && (now <=? ae_period_to e).

Definition current_engagement_ids (ids : list (option Z)) (now : Z) (p : Portal) : list Z :=
  let wanted := omap id ids in
  map ae_id (List.filter (fun e => mem (ae_id e) wanted && engagement_current now e) (po_engagements p)).

Definition valid (g : option ExternalAccessGrant) (now : Z) (p : Portal) : option ExternalAccessGrant :=
  match g with
  | None => None
  | Some g =>
      let current := match ag_engagement_id g with Some e => current_engagement_ids [Some e] now p | None => [] end in
      if bool_decide (grant_status g current now = "active") then Some g else None
  end.

Definition resolve_grant (token : string) (now : Z) (p : Portal) : res (option ExternalAccessGrant) :=
  if negb (str_truthy token) then Ok None else
  let! g := scalar_one_or_none (List.filter (fun g => bool_decide (ag_token_hash g = hash_token token)) (po_grants p)) in
  Ok (valid g now p).

Definition resolve_grant_by_id (grant_id now : Z) (p : Portal) : option ExternalAccessGrant := valid (get_grant grant_id p) now p.

(** ** Contents *)

(** What row-level security leaves a session clamped to [tenant]. *)
Definition rls {A} (org_of : A -> option Z) (tenant : option Z) (rows : list A) : list A :=
  match tenant with None => rows | Some _ => List.filter (fun r => bool_decide (org_of r = tenant)) rows end.

Definition engagement_package_ids (g : ExternalAccessGrant) (engagement_id : Z) (p : Portal) : list Z :=
  match List.find (fun e => ae_id e =? engagement_id) (rls ae_organization_id (ag_organization_id g) (po_engagements p)) with
  | None => []
  | Some e => map pk_id (List.filter (fun k => bool_decide (pk_organization_id k = ag_organization_id g) && bool_decide (pk_system_id k = Some (ae_system_id e)))
                (rls pk_organization_id (ag_organization_id g) (po_packages p)))
  end.

Record Contents := {
  co_grant : Z * string * option string * option Z * option Z;
  co_packages : list AuthorizationPackage;
  co_evidence : list EvidenceObject;
  co_comments : list ExternalComment }.

Definition shared (g : ExternalAccessGrant) (shares : list (Z * Z)) : list Z := map snd (List.filter (fun s => s.1 =? ag_id g) shares).
Definition comment_le (a b : ExternalComment) : bool := ec_id a <=? ec_id b.

Definition grant_contents (g : ExternalAccessGrant) (p : Portal) : Contents :=
  let tenant := ag_organization_id g in
  let pkg_ids := match ag_engagement_id g with
                 | Some e => engagement_package_ids g e p
                 | None => shared g (po_package_shares p)
                 end in
  let ev_ids := shared g (po_evidence_shares p) in
  {| co_grant := (ag_id g, ag_kind g, ag_label g, ag_expires_at g, ag_engagement_id g);
     co_packages := List.filter (fun k => mem (pk_id k) pkg_ids) (rls pk_organization_id tenant (po_packages p));
     co_evidence := List.filter (fun o => mem (eo_id o) ev_ids) (rls eo_organization_id tenant (po_evidence p));
     co_comments := stable_sort comment_le (List.filter (fun c => ec_grant_id c =? ag_id g) (rls ec_organization_id tenant (po_comments p))) |}.

Definition add_comment (g : ExternalAccessGrant) (target_type target_id : string) (author : option string) (body author_kind : string) (p : Portal)
    : ExternalComment * Portal :=
  let c := {| ec_id := po_next_id p; ec_organization_id := ag_organization_id g; ec_grant_id := ag_id g; ec_target_type := target_type;
              ec_target_id := target_id; ec_author := author; ec_author_kind := author_kind; ec_body := body |} in
  (c, record_access g "comment" (Some target_type) (Some target_id) None (add_comment_row c p)).

(** ** Routes for the administrator *)

Definition served : Type := res Response * Portal.

(** [ValueError] is answered 422; any other exception is a server error. *)
Definition value_error {A} (m : res A) (p : Portal) (k : A -> served) : served :=
  match m with
  | Ok a => k a
  | Err e => (if bool_decide (exn_class e = "ValueError") then Ok (HTTPException 422 (exn_msg e)) else Err e, p)
  end.

(** [resolve_caller_org] on a required organization. *)
Definition in_org (caller : Principal) (organization_id : Z) (p : Portal) (k : Z -> served) : served :=
  match resolve_caller_org (pr_org_id caller) (Some organization_id) with
  | inl r => (Ok r, p)
  | inr org => k (default organization_id org)
  end.
Definition vopt (o : option string) : pyval := match o with Some s => VStr s | None => VNone end.
Definition vtime (o : option Z) : pyval := match o with Some t => VStr (dt_iso t) | None => VNone end.

Definition create_principal_endpoint (caller : Principal) (organization_id : Z) (name kind : string) (email organization_name : option string) (p : Portal) : served :=
  in_org caller organization_id p (fun org_id =>
  value_error (create_principal org_id name kind email organization_name p) p (fun '(row, p) =>
  (Ok (answer 200 (VDict [("id", VInt (ep_id row)); ("kind", VStr (ep_kind row)); ("name", VStr (ep_name row)); ("email", vopt (ep_email row));
                          ("organization_name", vopt (ep_organization_name row))])), p))).

Definition engagement_out (e : AssessmentEngagement) : pyval :=
  VDict [("id", VInt (ae_id e)); ("organization_id", vint_opt (ae_organization_id e)); ("system_id", VInt (ae_system_id e));
         ("assessor_principal_id", VInt (ae_assessor_principal_id e)); ("period_from", VStr (dt_iso (ae_period_from e)));
         ("period_to", VStr (dt_iso (ae_period_to e))); ("authorized_by", vopt (ae_authorized_by e)); ("independence_note", vopt (ae_independence_note e));
         ("revoked_at", vtime (ae_revoked_at e))].

Definition create_engagement_endpoint (caller : Principal) (organization_id system_id assessor_principal_id period_from period_to : Z)
    (authorized_by : option string) (p : Portal) : served :=
  in_org caller organization_id p (fun org_id =>
  match require_system_in_scope system_id caller (po_tables p) with
  | Err e => (Err e, p)
  | Ok (inl r) => (Ok r, p)
  | Ok (inr _) =>
      value_error (create_engagement org_id system_id assessor_principal_id period_from period_to
        (Some (str_or (or_empty authorized_by) (pr_email caller))) (Some (pr_email caller)) p) p (fun '(row, p) =>
      (Ok (answer 200 (engagement_out row)), p))
  end).

Definition list_engagements_endpoint (caller : Principal) (organization_id : Z) (p : Portal) : served :=
  in_org caller organization_id p (fun org_id => (Ok (answer 200 (VList (map engagement_out (list_engagements org_id p)))), p)).

Definition owned_by (caller : Principal) (organization_id : option (option Z)) : bool :=
  match pr_org_id caller with Some org => bool_decide (organization_id = Some (Some org)) | None => true end.

Definition revoke_engagement_endpoint (caller : Principal) (engagement_id now : Z) (p : Portal) : served :=
  if negb (owned_by caller (ae_organization_id <$> get_engagement engagement_id p)) then (Ok (HTTPException 404 "engagement not found"), p) else
  let '(ok, p) := revoke_engagement engagement_id (Some (pr_email caller)) now p in
  if negb ok then (Ok (HTTPException 404 "engagement not found"), p) else (Ok (answer 200 (VDict [("revoked", VBool true)])), p).

Definition create_grant_endpoint (caller : Principal) (organization_id : Z) (b : GrantIn) (token : string) (now : Z) (p : Portal) : served :=
  in_org caller organization_id p (fun org_id =>
  value_error (create_grant org_id b token (Some (pr_email caller)) now p) p (fun '(g, capped, p) =>
  (Ok (answer 200 (VDict [("id", VInt (ag_id g)); ("token", VStr token); ("kind", VStr (ag_kind g)); ("expires_at", vtime (ag_expires_at g));
                          ("engagement_id", vint_opt (ag_engagement_id g)); ("expiry_capped", VBool capped)])), p))).

Definition list_grants_endpoint (caller : Principal) (organization_id : Z) (p : Portal) : served :=
  in_org caller organization_id p (fun org_id =>
  (Ok (answer 200 (VList (map (fun g => VDict [("id", VInt (ag_id g)); ("kind", VStr (ag_kind g)); ("label", vopt (ag_label g));
     ("engagement_id", vint_opt (ag_engagement_id g)); ("revoked", VBool (ag_revoked g)); ("expires_at", vtime (ag_expires_at g))]) (list_grants org_id p)))), p)).

Definition revoke_grant_endpoint (caller : Principal) (grant_id : Z) (p : Portal) : served :=
  if negb (owned_by caller (ag_organization_id <$> get_grant grant_id p)) then (Ok (HTTPException 404 "grant not found"), p) else
  let '(ok, p) := revoke_grant grant_id (Some (pr_email caller)) p in
  if negb ok then (Ok (HTTPException 404 "grant not found"), p) else (Ok (answer 200 (VDict [("revoked", VBool true)])), p).

(** ** The portal itself *)

(** [px_query_token]: the [token] query parameter, empty when absent. *)
Record PortalRequest := { px_authorization : string; px_query_token : string; px_cookie : option string }.

Section portal.
Context (settings : Settings) (loads : list Z -> res pyval).

Definition request_token (rq : PortalRequest) : string :=
  if startswith "bearer " (lower (px_authorization rq)) then strip (str_drop 7 (px_authorization rq)) else px_query_token rq.

Definition grant_from_cookie (rq : PortalRequest) (now : Z) (p : Portal) : res (option ExternalAccessGrant) :=
  if negb (str_truthy (or_empty (px_cookie rq))) then Ok None else
  let! grant_id := verify_session loads (or_empty (px_cookie rq)) (portal_secret (auth_session_secret settings)) now in
  Ok (match grant_id with Some id => resolve_grant_by_id id now p | None => None end).

Definition require_grant (rq : PortalRequest) (now : Z) (p : Portal) : res (option ExternalAccessGrant) :=
  let! g := grant_from_cookie rq now p in
  match g with Some g => Ok (Some g) | None => resolve_grant (request_token rq) now p end.

(** Contents on the wire, or 401. *)
Definition portal_session (rq : PortalRequest) (now : Z) (p : Portal) : res (option Contents) * Portal :=
  match require_grant rq now p with
  | Err e => (Err e, p)
  | Ok None => (Ok None, p)
  | Ok (Some g) => (Ok (Some (grant_contents g p)), record_access g "view" None None None p)
  end.

Definition portal_comment (rq : PortalRequest) (target_type target_id : string) (author : option string) (body : string) (now : Z) (p : Portal) : served :=
  match require_grant rq now p with
  | Err e => (Err e, p)
  | Ok None => (Ok (HTTPException 401 "invalid or expired token"), p)
  | Ok (Some g) => let '(c, p) := add_comment g target_type target_id author body "external" p in (Ok (answer 200 (VDict [("id", VInt (ec_id c))])), p)
  end.

(** The page: a link token that does not resolve, one exchanged for a cookie, or what
    the cookie's grant can see. *)
Inductive PortalPage := PInvalid | PExchange (cookie : string) | PShow (contents : option Contents).

Definition portal_ui (rq : PortalRequest) (now : Z) (p : Portal) : res PortalPage * Portal :=
  if str_truthy (px_query_token rq) then
    match resolve_grant (px_query_token rq) now p with
    | Err e => (Err e, p)
    | Ok None => (Ok PInvalid, p)
    | Ok (Some g) => (Ok (PExchange (sign_session (ag_id g) (portal_secret (auth_session_secret settings)) (portal_cookie_ttl_hours (ag_expires_at g) now) 0 now)), p)
    end
  else match grant_from_cookie rq now p with
  | Err e => (Err e, p)
  | Ok None => (Ok (PShow None), p)
  | Ok (Some g) => (Ok (PShow (Some (grant_contents g p))), record_access g "view" None None None p)
  end.
End portal.

(** The status column of the administrator's page ([api/routes/ui_grc.py]). *)
Definition grant_rows (grants : list ExternalAccessGrant) (now : Z) (p : Portal) : list (ExternalAccessGrant * string) :=
  let current := current_engagement_ids (map ag_engagement_id grants) now p in
  map (fun g => (g, grant_status g current now)) grants.

(** ** Lemmas *)

Record portal_wf (p : Portal) : Prop := {
  pw_grants : NoDup (map ag_id (po_grants p));
  pw_hashes : NoDup (map ag_token_hash (po_grants p));
  pw_engagements : NoDup (map ae_id (po_engagements p));
  pw_next_grant : forall g, g ∈ po_grants p -> ag_id g < po_next_id p;
  pw_next_engagement : forall e, e ∈ po_engagements p -> ae_id e < po_next_id p }.

Lemma find_key {A} (key : A -> Z) (l : list A) id x : NoDup (map key l) -> (List.find (fun r => key r =? id) l = Some x <-> x ∈ l /\ key x = id).
Proof.
  intros Hn. split.
  - intros [Hin Hk]%find_some. split; [by apply list_elem_of_In|lia].
  - intros [Hin Hk]. destruct (List.find (fun r => key r =? id) l) as [y|] eqn:E.
    + apply find_some in E as [Hy Hky]. f_equal. eapply nodup_key_inj; [exact Hn|by apply list_elem_of_In|done|lia].
    + apply list_elem_of_In in Hin. pose proof (find_none _ _ E _ Hin) as H. cbn in H. lia.
Qed.

(** What makes a grant good, by the code's four conditions. *)
Definition alive (now : Z) (p : Portal) (g : ExternalAccessGrant) : Prop :=
  ag_revoked g = false /\ (forall t, ag_expires_at g = Some t -> now <= t) /\
  forall e, ag_engagement_id g = Some e -> exists row, row ∈ po_engagements p /\ ae_id row = e /\ ae_revoked_at row = None /\ now <= ae_period_to row.

Lemma current_spec ids now p e : e ∈ current_engagement_ids ids now p <->
  Some e ∈ ids /\ exists row, row ∈ po_engagements p /\ ae_id row = e /\ ae_revoked_at row = None /\ now <= ae_period_to row.
Proof.
  unfold current_engagement_ids. rewrite list_elem_of_fmap. setoid_rewrite list_elem_of_In. setoid_rewrite filter_In. setoid_rewrite andb_true_iff.
  setoid_rewrite mem_true. setoid_rewrite list_elem_of_omap. unfold engagement_current. setoid_rewrite andb_true_iff. setoid_rewrite bool_decide_eq_true. setoid_rewrite Z.leb_le.
  setoid_rewrite <- list_elem_of_In. split.
  - intros (row & -> & Hin & (o & Ho & Hoe) & Hr & Hp). cbn in Hoe. subst o. split; [done|]. by exists row.
  - intros [Hs (row & Hin & <- & Hr & Hp)]. exists row. split; [done|]. split; [done|]. split; [by exists (Some (ae_id row))|done].
Qed.

Lemma status_active g ids now p : (forall e, ag_engagement_id g = Some e -> Some e ∈ ids) ->
  (grant_status g (current_engagement_ids ids now p) now = "active" <-> alive now p g).
Proof.
  intros Hids. unfold grant_status, alive. destruct (ag_revoked g); [split; [done|by intros [? _]]|].
  destruct (ag_expires_at g) as [t|].
  - destruct (Z.ltb_spec t now) as [Hlt|Hge]; [split; [done|intros (_ & H & _); specialize (H t eq_refl); lia]|].
    destruct (ag_engagement_id g) as [e|].
    + destruct (mem_spec e (current_engagement_ids ids now p)) as [Hin|Hn]; cbn [negb].
      * apply current_spec in Hin as [_ Hrow]. split; [|done]. intros _. split; [done|]. split; [by intros ? [= <-]|]. by intros ? [= <-].
      * split; [done|]. intros (_ & _ & H). destruct Hn. apply current_spec. split; [by apply Hids|by apply H].
    + split; [|done]. intros _. split; [done|]. split; [by intros ? [= <-]|done].
  - destruct (ag_engagement_id g) as [e|].
    + destruct (mem_spec e (current_engagement_ids ids now p)) as [Hin|Hn]; cbn [negb].
      * apply current_spec in Hin as [_ Hrow]. split; [|done]. intros _. split; [done|]. split; [done|]. by intros ? [= <-].
      * split; [done|]. intros (_ & _ & H). destruct Hn. apply current_spec. split; [by apply Hids|by apply H].
    + split; [|done]. by intros _.
Qed.

Lemma valid_spec g now p g' : valid (Some g) now p = Some g' <-> g' = g /\ alive now p g.
Proof.
  unfold valid. set (ids := match ag_engagement_id g with Some e => [Some e] | None => [] end).
  assert (match ag_engagement_id g with Some e => current_engagement_ids [Some e] now p | None => [] end = current_engagement_ids ids now p) as ->.
  { unfold ids. destruct (ag_engagement_id g); [done|]. unfold current_engagement_ids. cbn [omap]. by rewrite list_filter_nil. }
  assert (Hs : grant_status g (current_engagement_ids ids now p) now = "active" <-> alive now p g).
  { apply status_active. unfold ids. intros e ->. by left. }
  destruct (bool_decide_reflect (grant_status g (current_engagement_ids ids now p) now = "active")) as [Ha|Ha]; rewrite Hs in Ha.
  - split; [by intros [= <-]|by intros [-> _]].
  - split; [done|by intros [_ ?]].
Qed.

Lemma resolve_by_id_spec id now p g : portal_wf p -> (resolve_grant_by_id id now p = Some g <-> g ∈ po_grants p /\ ag_id g = id /\ alive now p g).
Proof.
  intros Hw. unfold resolve_grant_by_id, get_grant. pose proof (fun x => find_key ag_id (po_grants p) id x (pw_grants p Hw)) as Hf.
  destruct (List.find _ _) as [h|].
  - rewrite valid_spec. destruct (proj1 (Hf h) eq_refl) as [Hin Hid]. split; [intros [-> ?]; done|]. intros (Hin' & Hid' & Ha).
    assert (Some h = Some g) as [= ->] by by apply Hf. done.
  - split; [done|]. intros (Hin & Hid & _). by pose proof (proj2 (Hf g) (conj Hin Hid)).
Qed.

Lemma resolve_spec token now p g : portal_wf p ->
  (resolve_grant token now p = Ok (Some g) <-> token <> "" /\ g ∈ po_grants p /\ ag_token_hash g = hash_token token /\ alive now p g).
Proof.
  intros Hw. unfold resolve_grant. destruct (bool_decide_reflect (token <> "")) as [Hne|He]; unfold str_truthy;
    [rewrite bool_decide_eq_true_2 by done|rewrite bool_decide_eq_false_2 by done; split; [done|by intros [? _]]]. cbn [negb].
  assert (Hin : forall h, In h (List.filter (fun g => bool_decide (ag_token_hash g = hash_token token)) (po_grants p)) <-> h ∈ po_grants p /\ ag_token_hash h = hash_token token).
  { intros h. by rewrite filter_In, bool_decide_eq_true, list_elem_of_In. }
  destruct (List.filter _ _) as [|h [|h2 l]] eqn:Ef; cbn [scalar_one_or_none res_bind].
  - split; [done|]. intros (_ & Hg & Hh & _). by destruct (proj2 (Hin g)).
  - destruct (proj1 (Hin h) ltac:(by left)) as [Hhin Hhh]. split.
    + intros [= Hv]. apply valid_spec in Hv as [-> Ha]. done.
    + intros (_ & Hg & Hh & Ha). destruct (proj2 (Hin g) (conj Hg Hh)) as [<-|[]]. f_equal. by apply valid_spec.
  - exfalso. assert (NoDup (List.filter (fun g => bool_decide (ag_token_hash g = hash_token token)) (po_grants p))) as Hn.
    { eapply sublist_NoDup; [apply NoDup_fmap_1 with (f := ag_id); apply (pw_grants p Hw)|apply bool_filter_sublist]. }
    rewrite Ef in Hn. apply NoDup_cons in Hn as [Hn _]. apply Hn.
    destruct (proj1 (Hin h) ltac:(by left)) as [H1 H2], (proj1 (Hin h2) ltac:(by right; left)) as [H3 H4].
    rewrite (nodup_key_inj ag_token_hash (po_grants p) h h2 (pw_hashes p Hw) H1 H3) by congruence. by left.
Qed.

(** a credential resolves exactly while its grant is good. A link token, and
    likewise the grant id a cookie carries, yields a grant if and only if the grant is
    the one with that token's digest (that id), is not revoked, not past its expiry,
    and, under an engagement, the engagement exists, is not revoked and its period is
    not over; and on the administrator's list, whatever other grants are on it, the
    label is active for exactly the grants that resolve. *)
Theorem credentials_resolve_while_good token id now p grants g : portal_wf p ->
  (resolve_grant token now p = Ok (Some g) <-> token <> "" /\ g ∈ po_grants p /\ ag_token_hash g = hash_token token /\ alive now p g) /\
  (resolve_grant_by_id id now p = Some g <-> g ∈ po_grants p /\ ag_id g = id /\ alive now p g) /\
  (forall s, (g, s) ∈ grant_rows grants now p -> (s = "active" <-> alive now p g)).
Proof.
  intros Hw. split; [by apply resolve_spec|]. split; [by apply resolve_by_id_spec|]. intros s. unfold grant_rows.
  intros (h & [= -> ->] & Hin)%list_elem_of_fmap. apply status_active. intros e He. apply list_elem_of_fmap. by exists h.
Qed.

(** ** What a grant shows *)

Lemma elem_of_rls {A} (org_of : A -> option Z) tenant rows x : x ∈ rls org_of tenant rows <-> x ∈ rows /\ (tenant = None \/ org_of x = tenant).
Proof.
  unfold rls. destruct tenant as [t|]; [|naive_solver]. rewrite list_elem_of_In, filter_In, bool_decide_eq_true, <- list_elem_of_In. naive_solver.
Qed.

(** contents stay in scope. Everything a grant of an organization is shown belongs
    to that organization; its packages are exactly those of the engagement's system
    where it has one - other systems' packages never, later ones too - and exactly
    those shared into it otherwise; evidence is exactly what was shared into it; and
    the comments are those of the grant itself, oldest first. *)
Theorem contents_stay_in_scope g p org : portal_wf p -> ag_organization_id g = Some org -> NoDup (map pk_id (po_packages p)) ->
  (forall k, k ∈ co_packages (grant_contents g p) <-> k ∈ po_packages p /\ pk_organization_id k = Some org /\
     match ag_engagement_id g with
     | Some e => exists row, row ∈ po_engagements p /\ ae_id row = e /\ ae_organization_id row = Some org /\ pk_system_id k = Some (ae_system_id row)
     | None => (ag_id g, pk_id k) ∈ po_package_shares p
     end) /\
  (forall o, o ∈ co_evidence (grant_contents g p) <-> o ∈ po_evidence p /\ eo_organization_id o = Some org /\ (ag_id g, eo_id o) ∈ po_evidence_shares p) /\
  (forall c, c ∈ co_comments (grant_contents g p) <-> c ∈ po_comments p /\ ec_organization_id c = Some org /\ ec_grant_id c = ag_id g) /\
  StronglySorted (fun a b => comment_le a b = true) (co_comments (grant_contents g p)).
Proof.
  intros Hw Hg Hk. assert (Hsh : forall shares i, i ∈ shared g shares <-> (ag_id g, i) ∈ shares).
  { intros shares i. unfold shared. rewrite list_elem_of_fmap. setoid_rewrite list_elem_of_In at 1. setoid_rewrite filter_In. setoid_rewrite <- list_elem_of_In. split.
    - intros ([a b] & -> & Hin & E). cbn in *. by replace (ag_id g) with a by lia.
    - intros Hin. exists (ag_id g, i). split; [done|]. split; [done|]. cbn. lia. }
  split; [|split; [|split]].
  - intros k. cbn [grant_contents co_packages]. rewrite list_elem_of_In, filter_In, <- list_elem_of_In, elem_of_rls, mem_true, Hg.
    destruct (ag_engagement_id g) as [e|]; [|rewrite Hsh; naive_solver]. unfold engagement_package_ids. rewrite Hg.
    assert (Hrow : forall row, List.find (fun r => ae_id r =? e) (rls ae_organization_id (Some org) (po_engagements p)) = Some row <->
      row ∈ po_engagements p /\ ae_organization_id row = Some org /\ ae_id row = e).
    { intros row. rewrite (find_key ae_id); [rewrite elem_of_rls; naive_solver|]. cbn [rls]. eapply sublist_NoDup; [apply (pw_engagements p Hw)|]. apply fmap_sublist, bool_filter_sublist. }
    destruct (List.find _ _) as [row|].
    + destruct (proj1 (Hrow row) eq_refl) as (Hin & Ho & He). rewrite list_elem_of_fmap. setoid_rewrite list_elem_of_In at 2. setoid_rewrite filter_In. setoid_rewrite andb_true_iff.
      setoid_rewrite bool_decide_eq_true. setoid_rewrite <- list_elem_of_In. setoid_rewrite elem_of_rls. split.
      * intros [[Hkin [|Hko]] (k' & Hid & [Hk' _] & Hk'o & Hsys)]; [done|]. rewrite (nodup_key_inj pk_id (po_packages p) k k' Hk Hkin Hk' Hid) in *. split; [done|]. split; [done|]. by exists row.
      * intros (Hkin & Hko & row' & Hr' & Hid' & Ho' & Hsys). split; [by auto|]. exists k. split; [done|]. split; [by auto|]. split; [done|].
        rewrite Hsys. f_equal. f_equal. apply (nodup_key_inj ae_id (po_engagements p) row' row (pw_engagements p Hw)); congruence.
    + split; [by intros [_ ?%not_elem_of_nil]|]. intros (_ & _ & row' & Hr' & Hid' & Ho' & _). by pose proof (proj2 (Hrow row') (conj Hr' (conj Ho' Hid'))).
  - intros o. cbn [grant_contents co_evidence]. rewrite list_elem_of_In, filter_In, <- list_elem_of_In, elem_of_rls, mem_true, Hsh, Hg. naive_solver.
  - intros c. cbn [grant_contents co_comments]. rewrite stable_sort_perm, list_elem_of_In, filter_In, <- list_elem_of_In, elem_of_rls, Z.eqb_eq, Hg. naive_solver.
  - apply stable_sort_sorted; unfold comment_le; lia.
Qed.

(** ** What happens to grants over time *)

(** One operation of the portal, at any time, or anything the rest of the platform
    does, which touches neither grants nor engagements. A link token is drawn fresh. *)
Inductive portal_step : Portal -> Portal -> Prop :=
| PsPrincipal org name kind email organization p r p' : create_principal org name kind email organization p = Ok (r, p') -> portal_step p p'
| PsEngagement org system assessor from to by_ actor p r p' : create_engagement org system assessor from to by_ actor p = Ok (r, p') -> portal_step p p'
| PsGrant org b token actor now p g capped p' : hash_token token ∉ map ag_token_hash (po_grants p) ->
    create_grant org b token actor now p = Ok (g, capped, p') -> portal_step p p'
| PsRevokeGrant id actor p : portal_step p (revoke_grant id actor p).2
| PsRevokeEngagement id actor now p : portal_step p (revoke_engagement id actor now p).2
| PsSession settings loads rq now p : portal_step p (portal_session settings loads rq now p).2
| PsComment settings loads rq target_type target_id author body now p : portal_step p (portal_comment settings loads rq target_type target_id author body now p).2
| PsUi settings loads rq now p : portal_step p (portal_ui settings loads rq now p).2
| PsElsewhere p p' : po_grants p' = po_grants p -> po_engagements p' = po_engagements p -> po_next_id p <= po_next_id p' -> portal_step p p'.

(** What stays of grants and engagements. *)
Record later (p q : Portal) : Prop := {
  lt_grants : forall g, g ∈ po_grants p -> exists h, h ∈ po_grants q /\ ag_id h = ag_id g /\ ag_token_hash h = ag_token_hash g /\
    ag_engagement_id h = ag_engagement_id g /\ (ag_revoked g = true -> ag_revoked h = true);
  lt_engagements : forall e, e ∈ po_engagements p -> exists f, f ∈ po_engagements q /\ ae_id f = ae_id e /\ (ae_revoked_at e <> None -> ae_revoked_at f <> None) }.

Lemma later_refl p : later p p.
Proof. split; eauto 10. Qed.
Lemma later_trans p q r : later p q -> later q r -> later p r.
Proof.
  intros H K. split.
  - intros g Hg. destruct (lt_grants _ _ H g Hg) as (h & Hh & E1 & E2 & E3 & E4). destruct (lt_grants _ _ K h Hh) as (i & Hi & F1 & F2 & F3 & F4).
    exists i. repeat split; [done|congruence..|auto].
  - intros e He. destruct (lt_engagements _ _ H e He) as (f & Hf & E1 & E2). destruct (lt_engagements _ _ K f Hf) as (i & Hi & F1 & F2).
    exists i. repeat split; [done|congruence|auto].
Qed.

(** Rewriting rows in place, and adding a row. *)
Lemma rewritten p q (f : ExternalAccessGrant -> ExternalAccessGrant) (h : AssessmentEngagement -> AssessmentEngagement) :
  po_grants q = map f (po_grants p) -> po_engagements q = map h (po_engagements p) -> po_next_id p <= po_next_id q ->
  (forall g, ag_id (f g) = ag_id g /\ ag_token_hash (f g) = ag_token_hash g /\ ag_engagement_id (f g) = ag_engagement_id g /\ (ag_revoked g = true -> ag_revoked (f g) = true)) ->
  (forall e, ae_id (h e) = ae_id e /\ (ae_revoked_at e <> None -> ae_revoked_at (h e) <> None)) ->
  portal_wf p -> portal_wf q /\ later p q.
Proof.
  intros Eg Ee En Hf Hh Hw.
  assert (Hid : map ag_id (po_grants q) = map ag_id (po_grants p)) by (rewrite Eg, map_map; apply map_ext; intros g; apply Hf).
  assert (Hhash : map ag_token_hash (po_grants q) = map ag_token_hash (po_grants p)) by (rewrite Eg, map_map; apply map_ext; intros g; apply Hf).
  assert (Hae : map ae_id (po_engagements q) = map ae_id (po_engagements p)) by (rewrite Ee, map_map; apply map_ext; intros e; apply Hh).
  split; split.
  - rewrite Hid. apply Hw.
  - rewrite Hhash. apply Hw.
  - rewrite Hae. apply Hw.
  - intros g. rewrite Eg. intros (g' & -> & Hg)%list_elem_of_fmap. rewrite (proj1 (Hf g')). pose proof (pw_next_grant p Hw g' Hg). lia.
  - intros r. rewrite Ee. intros (e' & -> & He)%list_elem_of_fmap. rewrite (proj1 (Hh e')). pose proof (pw_next_engagement p Hw e' He). lia.
  - intros g Hg. exists (f g). split; [rewrite Eg; by apply list_elem_of_fmap_2|]. apply Hf.
  - intros e He. exists (h e). split; [rewrite Ee; by apply list_elem_of_fmap_2|]. apply Hh.
Qed.

Lemma untouched p q : po_grants q = po_grants p -> po_engagements q = po_engagements p -> po_next_id p <= po_next_id q -> portal_wf p -> portal_wf q /\ later p q.
Proof. intros Eg Ee En. apply (rewritten p q id id); rewrite ?map_id; done. Qed.

Lemma appended p q gs es : po_grants q = (po_grants p ++ gs)%list -> po_engagements q = (po_engagements p ++ es)%list ->
  (forall g, g ∈ gs -> gs = [g] /\ po_next_id p <= ag_id g < po_next_id q /\ ag_token_hash g ∉ map ag_token_hash (po_grants p)) ->
  (forall e, e ∈ es -> es = [e] /\ po_next_id p <= ae_id e < po_next_id q) -> po_next_id p <= po_next_id q ->
  portal_wf p -> portal_wf q /\ later p q.
Proof.
  intros Eg Ee Hg He Hn Hw. assert (Hgs : NoDup (map ag_id gs) /\ NoDup (map ag_token_hash gs)).
  { destruct gs as [|g gs]; [by split; apply NoDup_nil|]. destruct (Hg g ltac:(by left)) as [E _]. rewrite E. split; apply NoDup_singleton. }
  assert (Hes : NoDup (map ae_id es)).
  { destruct es as [|e es]; [apply NoDup_nil_2|]. destruct (He e ltac:(by left)) as [E _]. rewrite E. apply NoDup_singleton. }
  split; split.
  - rewrite Eg, map_app. apply NoDup_app. split; [apply Hw|]. split; [|apply Hgs]. intros i (g & -> & Hi)%list_elem_of_fmap (h & E & Hh)%list_elem_of_fmap.
    pose proof (pw_next_grant p Hw g Hi). destruct (Hg h Hh) as (_ & ? & _). lia.
  - rewrite Eg, map_app. apply NoDup_app. split; [apply Hw|]. split; [|apply Hgs]. intros i Hi (h & -> & Hh)%list_elem_of_fmap. by destruct (Hg h Hh) as (_ & _ & []).
  - rewrite Ee, map_app. apply NoDup_app. split; [apply Hw|]. split; [|done]. intros i (e & -> & Hi)%list_elem_of_fmap (h & E & Hh)%list_elem_of_fmap.
    pose proof (pw_next_engagement p Hw e Hi). destruct (He h Hh) as (_ & ?). lia.
  - intros g. rewrite Eg. intros [H|H]%elem_of_app; [pose proof (pw_next_grant p Hw g H); lia|]. destruct (Hg g H) as (_ & ? & _). lia.
  - intros e. rewrite Ee. intros [H|H]%elem_of_app; [pose proof (pw_next_engagement p Hw e H); lia|]. destruct (He e H) as (_ & ?). lia.
  - intros g H. exists g. rewrite Eg. split; [apply elem_of_app; by left|done].
  - intros e H. exists e. rewrite Ee. split; [apply elem_of_app; by left|done].
Qed.

Definition revoke_where (P : Z -> bool) (g : ExternalAccessGrant) : ExternalAccessGrant := if P (ag_id g) then set_revoked g else g.

Lemma revoke_where_keeps P g : ag_id (revoke_where P g) = ag_id g /\ ag_token_hash (revoke_where P g) = ag_token_hash g /\
  ag_engagement_id (revoke_where P g) = ag_engagement_id g /\ (ag_revoked g = true -> ag_revoked (revoke_where P g) = true).
Proof. unfold revoke_where. by destruct (P (ag_id g)). Qed.

Lemma revoke_grant_effect id actor p : let q := (revoke_grant id actor p).2 in
  po_grants q = map (revoke_where (fun i => i =? id)) (po_grants p) /\ po_engagements q = po_engagements p /\ po_next_id q = po_next_id p.
Proof.
  unfold revoke_grant, get_grant. destruct (List.find _ _) as [g|] eqn:E; [done|]. split; [|done]. cbn [snd]. rewrite <- (map_id (po_grants p)) at 1.
  apply map_ext_in. intros g Hg. pose proof (find_none _ _ E g Hg) as H. cbn beta in H. unfold revoke_where. by rewrite H.
Qed.

Lemma revoke_grants_effect actor ids : forall p, let q := fold_left (fun p gid => (revoke_grant gid actor p).2) ids p in
  po_grants q = map (revoke_where (fun i => mem i ids)) (po_grants p) /\ po_engagements q = po_engagements p /\ po_next_id q = po_next_id p.
Proof.
  induction ids as [|i ids IH]; intros p; cbn [fold_left].
  - split; [|done]. symmetry. apply map_id.
  - destruct (IH (revoke_grant i actor p).2) as (-> & -> & ->). destruct (revoke_grant_effect i actor p) as (-> & -> & ->). split; [|done].
    rewrite map_map. apply map_ext. intros g. unfold revoke_where. replace (mem (ag_id g) (i :: ids)) with ((ag_id g =? i) || mem (ag_id g) ids).
    + destruct (Z.eqb_spec (ag_id g) i) as [E|E]; [|done]. cbn [set_revoked ag_id orb]. by destruct (mem (ag_id g) ids).
    + apply eq_true_iff_eq. rewrite orb_true_iff, Z.eqb_eq, !mem_true, elem_of_cons. done.
Qed.

Lemma end_where_keeps id now e : let f := if ae_id e =? id then end_engagement now e else e in
  ae_id f = ae_id e /\ (ae_revoked_at e <> None -> ae_revoked_at f <> None).
Proof. by destruct (ae_id e =? id). Qed.

Lemma revoke_engagement_effect id actor now p : let q := (revoke_engagement id actor now p).2 in
  po_grants q = map (revoke_where (fun i => mem i (map ag_id (List.filter (fun g => bool_decide (ag_engagement_id g = Some id) && negb (ag_revoked g)) (po_grants p)))
    && bool_decide (id ∈ map ae_id (po_engagements p)))) (po_grants p) /\
  po_engagements q = map (fun r => if ae_id r =? id then end_engagement now r else r) (po_engagements p) /\ po_next_id q = po_next_id p.
Proof.
  unfold revoke_engagement, get_engagement. destruct (List.find _ _) as [e|] eqn:E.
  - apply find_some in E as [Hin Hid]. cbn [snd]. rewrite bool_decide_eq_true_2.
    2: { apply list_elem_of_fmap. exists e. split; [lia|]. by apply list_elem_of_In. }
    set (ids := map ag_id _). destruct (revoke_grants_effect actor ids (with_engagements (map (fun r => if ae_id r =? id then end_engagement now r else r) (po_engagements p)) p)) as (Eg & Ee & En).
    cbn [with_audit po_grants po_engagements po_next_id]. rewrite Eg, Ee, En. split; [|done]. apply map_ext. intros g. unfold revoke_where. by rewrite andb_true_r.
  - cbn [snd]. pose proof (find_none _ _ E) as Hn. rewrite bool_decide_eq_false_2.
    + split; [|split; [|done]].
      * rewrite <- (map_id (po_grants p)) at 1. apply map_ext. intros g. unfold revoke_where. by rewrite andb_false_r.
      * rewrite <- (map_id (po_engagements p)) at 1. apply map_ext_in. intros r Hr. specialize (Hn r Hr). cbn beta in Hn. by rewrite Hn.
    + intros (r & -> & Hr)%list_elem_of_fmap. apply list_elem_of_In, Hn in Hr. cbn beta in Hr. lia.
Qed.

Lemma created_grant org b token actor now p g capped q : create_grant org b token actor now p = Ok (g, capped, q) ->
  po_grants q = (po_grants p ++ [g])%list /\ po_engagements q = po_engagements p /\ po_next_id p <= ag_id g /\ po_next_id q = ag_id g + 1 /\
  ag_token_hash g = hash_token token.
Proof.
  unfold create_grant. destruct (require_kind _); [|done]. cbn [res_bind]. destruct (grant_engagement _ _ _) as [oe|]; [|done]. cbn [res_bind].
  destruct (grant_principal org b p) as [[pid p1]|] eqn:Ep; [|done]. cbn [res_bind].
  assert (po_grants p1 = po_grants p /\ po_engagements p1 = po_engagements p /\ po_next_id p <= po_next_id p1) as (E1 & E2 & E3).
  { revert Ep. unfold grant_principal. destruct (gi_principal_id b).
    - destruct (get_principal_row _ p); [|done]. destruct (bool_decide _); [|done]. intros [= <- <-]. done.
    - destruct (negb _); [done|]. intros [= <- <-]. split; [done|]. split; [done|]. cbn. lia. }
  destruct (expiry _ now) as [asked|]; [|done]. cbn [res_bind]. destruct (match oe with Some e => _ | None => _ end) as [x c].
  destruct (negb _); [done|]. intros [= <- <- <-]. cbn. rewrite E1, E2. done.
Qed.

Lemma step_keeps p0 q : portal_step p0 q -> portal_wf p0 -> portal_wf q /\ later p0 q.
Proof.
  intros [org name kind email on p r p' E|org system assessor from to by_ actor p r p' E|org b token actor now p g capped p' Hfresh E
         |id actor p|id actor now p|settings loads rq now p|settings loads rq tt ti author body now p|settings loads rq now p|p p' E1 E2 E3] Hw.
  - revert E. unfold create_principal. destruct (require_kind kind); [|done]. intros [= <- <-]. apply untouched; cbn; [done..|lia|done].
  - revert E. unfold create_engagement. destruct (get_principal_row _ _); [|done]. destruct (negb _); [done|]. destruct (negb _); [done|].
    destruct (get_system _ _); [|done]. destruct (negb _); [done|]. intros [= <- <-].
    eapply (appended p _ [] [_]); [by cbn; rewrite app_nil_r|done|by intros ? ?%not_elem_of_nil| |cbn; lia|done].
    intros ? ->%list_elem_of_singleton. split; [done|]. cbn. lia.
  - destruct (created_grant _ _ _ _ _ _ _ _ _ E) as (E1 & E2 & E3 & E4 & E5).
    eapply (appended p p' [g] []); [done|by rewrite app_nil_r| |by intros ? ?%not_elem_of_nil|lia|done].
    intros h ->%list_elem_of_singleton. split; [done|]. rewrite E5. split; [lia|done].
  - destruct (revoke_grant_effect id actor p) as (E1 & E2 & E3). eapply rewritten; [exact E1|rewrite E2; symmetry; apply map_id|lia|apply revoke_where_keeps|done|done].
  - destruct (revoke_engagement_effect id actor now p) as (E1 & E2 & E3). eapply rewritten; [exact E1|exact E2|lia|apply revoke_where_keeps|apply end_where_keeps|done].
  - unfold portal_session. destruct (require_grant _ _ _ _ _) as [[g|]|]; apply untouched; done.
  - unfold portal_comment. destruct (require_grant _ _ _ _ _) as [[g|]|]; apply untouched; cbn; try done. lia.
  - unfold portal_ui. destruct (str_truthy _).
    + destruct (resolve_grant _ _ _) as [[g|]|]; by apply untouched.
    + destruct (grant_from_cookie _ _ _ _ _) as [[g|]|]; by apply untouched.
  - by apply untouched.
Qed.

Lemma run_keeps p q : rtc portal_step p q -> portal_wf p -> portal_wf q /\ later p q.
Proof.
  induction 1 as [p|p q r Hs _ IH]; intros Hw; [split; [done|apply later_refl]|]. destruct (step_keeps p q Hs Hw) as [Hq L]. destruct (IH Hq) as [Hr L'].
  split; [done|]. by eapply later_trans.
Qed.

Lemma revoked_stays p q g : portal_wf p -> rtc portal_step p q -> g ∈ po_grants p -> ag_revoked g = true ->
  forall h now, h ∈ po_grants q -> ag_id h = ag_id g \/ ag_token_hash h = ag_token_hash g -> ~ alive now q h.
Proof.
  intros Hw Hs Hg Hr h now Hh Heq (Hno & _). destruct (run_keeps p q Hs Hw) as [Hq L]. destruct (lt_grants _ _ L g Hg) as (k & Hk & E1 & E2 & _ & E4).
  assert (h = k) as -> by (destruct Heq; [apply (nodup_key_inj ag_id (po_grants q))|apply (nodup_key_inj ag_token_hash (po_grants q))]; try done; solve [apply Hq|congruence]).
  specialize (E4 Hr). congruence.
Qed.

(** C27: revocation is final. Once an engagement is revoked, then whatever the portal
    and the rest of the platform do afterwards and whenever one looks, no token and no
    cookie's grant id resolves to a grant under it, not even one issued later; every
    grant issued under it before carries the revoked mark for good; and grants under
    other engagements, or none, are exactly as they were. A grant revoked by itself
    likewise never resolves again, by its id or by its token. *)
Theorem revocation_is_final p id actor now : portal_wf p ->
  (forall p1, revoke_engagement id actor now p = (true, p1) ->
     (forall g, g ∈ po_grants p -> ag_engagement_id g <> Some id -> g ∈ po_grants p1) /\
     forall p2, rtc portal_step p1 p2 ->
       (forall g now', ag_engagement_id g = Some id -> (forall token, resolve_grant token now' p2 <> Ok (Some g)) /\ forall gid, resolve_grant_by_id gid now' p2 <> Some g) /\
       (forall g, g ∈ po_grants p -> ag_engagement_id g = Some id -> exists h, h ∈ po_grants p2 /\ ag_id h = ag_id g /\ ag_revoked h = true)) /\
  (forall p1, revoke_grant id actor p = (true, p1) -> forall p2, rtc portal_step p1 p2 -> forall now', resolve_grant_by_id id now' p2 = None /\
     forall token g, g ∈ po_grants p -> ag_id g = id -> ag_token_hash g = hash_token token -> forall h, resolve_grant token now' p2 <> Ok (Some h)).
Proof.
  intros Hw. split.
  - intros p1 E. assert (Hs : rtc portal_step p p1) by (apply rtc_once; replace p1 with (revoke_engagement id actor now p).2 by (by rewrite E); constructor).
    destruct (revoke_engagement_effect id actor now p) as (Eg & Ee & _). rewrite E in Eg, Ee. cbn [snd] in Eg, Ee.
    assert (Hex : id ∈ map ae_id (po_engagements p)).
    { revert E. unfold revoke_engagement, get_engagement. destruct (List.find _ _) as [e|] eqn:F; [|done]. intros _. apply find_some in F as [Hin Hid].
      apply list_elem_of_fmap. exists e. split; [lia|by apply list_elem_of_In]. }
    rewrite bool_decide_eq_true_2 in Eg by done. destruct (run_keeps p p1 Hs Hw) as [Hw1 L1]. split.
    { intros g Hg Hne. rewrite Eg. apply list_elem_of_fmap. exists g. split; [|done]. unfold revoke_where. destruct (mem_spec (ag_id g) (map ag_id (List.filter (fun g => bool_decide (ag_engagement_id g = Some id) && negb (ag_revoked g)) (po_grants p)))) as [Hin|]; [|done].
      apply list_elem_of_fmap in Hin as (h & Ei & Hh). apply list_elem_of_In, filter_In in Hh as [Hh [Hb _]%andb_prop]. apply bool_decide_eq_true in Hb.
      by rewrite (nodup_key_inj ag_id (po_grants p) g h (pw_grants p Hw) Hg (proj2 (list_elem_of_In _ _) Hh) Ei) in Hne. }
    intros p2 Hs2. destruct (run_keeps p1 p2 Hs2 Hw1) as [Hw2 L2]. split.
    + assert (Hdead : forall g now', ag_engagement_id g = Some id -> ~ alive now' p2 g).
      { intros g now' Hg (_ & _ & Ha). destruct (Ha id Hg) as (row & Hrow & Hid & Hno & _). apply list_elem_of_fmap in Hex as (e & Hide & He).
        destruct (lt_engagements _ _ L2 (end_engagement now e)) as (f & Hf & F1 & F2).
        - rewrite Ee. apply list_elem_of_fmap. exists e. split; [|done]. by rewrite (proj2 (Z.eqb_eq _ _)) by lia.
        - rewrite (nodup_key_inj ae_id (po_engagements p2) row f (pw_engagements p2 Hw2)) in Hno; [by apply F2|done..|cbn in *; congruence]. }
      intros g now' Hg. split; [intros token H%resolve_spec|intros gid H%resolve_by_id_spec]; [|done| |done]; by eapply Hdead, H.
    + intros g Hg Hge. assert (Hg1 : exists h, h ∈ po_grants p1 /\ ag_id h = ag_id g /\ ag_revoked h = true).
      { exists (revoke_where (fun i => mem i (map ag_id (List.filter (fun g => bool_decide (ag_engagement_id g = Some id) && negb (ag_revoked g)) (po_grants p))) && true) g).
        split; [rewrite Eg; by apply list_elem_of_fmap_2|]. split; [apply revoke_where_keeps|]. unfold revoke_where. destruct (ag_revoked g) eqn:Er; [by destruct (_ && _)|].
        replace (mem (ag_id g) _) with true; [done|]. symmetry. apply mem_true, list_elem_of_fmap_2, list_elem_of_In, filter_In.
        split; [by apply list_elem_of_In|]. by rewrite bool_decide_eq_true_2, Er. }
      destruct Hg1 as (h & Hh & Ei & Hr). destruct (lt_grants _ _ L2 h Hh) as (k & Hk & F1 & _ & _ & F4). exists k. split; [done|]. split; [congruence|auto].
  - intros p1 E p2 Hs2 now'. assert (Hs : rtc portal_step p p1) by (apply rtc_once; replace p1 with (revoke_grant id actor p).2 by (by rewrite E); constructor).
    destruct (revoke_grant_effect id actor p) as (Eg & _). rewrite E in Eg. cbn [snd] in Eg. destruct (run_keeps p p1 Hs Hw) as [Hw1 _]. destruct (run_keeps p1 p2 Hs2 Hw1) as [Hw2 _].
    assert (Hr : forall g, g ∈ po_grants p -> ag_id g = id -> set_revoked g ∈ po_grants p1).
    { intros g Hg Hi. rewrite Eg. apply list_elem_of_fmap. exists g. split; [|done]. unfold revoke_where. by rewrite (proj2 (Z.eqb_eq _ _)). }
    split.
    + destruct (resolve_grant_by_id id now' p2) as [h|] eqn:F; [|done]. exfalso. apply resolve_by_id_spec in F as (Hh & Hi & Ha); [|done].
      revert E. unfold revoke_grant, get_grant. destruct (List.find _ _) as [g|] eqn:G; [|done]. intros _. apply find_some in G as [Hg Hgi].
      apply list_elem_of_In in Hg. refine (revoked_stays p1 p2 (set_revoked g) Hw1 Hs2 (Hr g Hg _) eq_refl h now' Hh _ Ha); [lia|left; cbn; lia].
    + intros token g Hg Hi Hh h F. apply resolve_spec in F as (_ & Hin & Hhh & Ha); [|done].
      refine (revoked_stays p1 p2 (set_revoked g) Hw1 Hs2 (Hr g Hg Hi) eq_refl h now' Hin _ Ha). right. cbn. congruence.
Qed.

(** ** The exchanged cookie, and issuance *)

(** the cookie a link is exchanged for stands for the grant. Opening the page with
    a good link token only hands out a cookie, which lasts between one and twenty-four
    whole hours; until then a request that carries it - in whatever later state of the
    tables, and whatever link token it also carries - is served as that grant exactly
    while the grant itself is still good, and afterwards the cookie yields nothing. *)
Theorem exchanged_cookie_stands_for_the_grant settings loads rq now p g : reads_claims loads ->
  px_query_token rq <> "" -> resolve_grant (px_query_token rq) now p = Ok (Some g) ->
  exists cookie, portal_ui settings loads rq now p = (Ok (PExchange cookie), p) /\
  let hours := portal_cookie_ttl_hours (ag_expires_at g) now in
  1 <= hours <= 24 /\
  forall q rq' now', px_cookie rq' = Some cookie ->
    grant_from_cookie settings loads rq' now' q =
      Ok (if decide (now' <= (now / second_us + hours * 3600) * second_us) then resolve_grant_by_id (ag_id g) now' q else None) /\
    (portal_wf q -> now' <= (now / second_us + hours * 3600) * second_us -> forall h, h ∈ po_grants q -> ag_id h = ag_id g -> alive now' q h ->
       require_grant settings loads rq' now' q = Ok (Some h)).
Proof.
  intros Hl Hne Hr. set (hours := portal_cookie_ttl_hours (ag_expires_at g) now).
  set (cookie := sign_session (ag_id g) (portal_secret (auth_session_secret settings)) hours 0 now). exists cookie. split; [|split].
  - unfold portal_ui. unfold str_truthy. rewrite bool_decide_eq_true_2 by done. rewrite Hr. reflexivity.
  - unfold hours, portal_cookie_ttl_hours. destruct (ag_expires_at g); lia.
  - intros q rq' now' Hc. assert (Hg : grant_from_cookie settings loads rq' now' q =
      Ok (if decide (now' <= (now / second_us + hours * 3600) * second_us) then resolve_grant_by_id (ag_id g) now' q else None)).
    { unfold grant_from_cookie. rewrite Hc. assert (str_truthy (or_empty (Some cookie)) = true) as ->.
      { change (bool_decide (cookie <> "") = true). apply bool_decide_eq_true_2. unfold cookie, sign_session. generalize (b64encode (utf8 (emit (VDict (claims (ag_id g) (now / second_us + hours * 3600) 0))))). by intros [|c s]. }
      change (or_empty (Some cookie)) with cookie. cbn [negb]. unfold verify_session, cookie. rewrite read_signed by done. destruct (Z.ltb_spec ((now / second_us + hours * 3600) * second_us) now');
        [rewrite decide_False by lia|rewrite decide_True by lia]; reflexivity. }
    split; [exact Hg|]. intros Hw Hle h Hh Hi Ha. unfold require_grant. rewrite Hg, decide_True by done. cbn [res_bind].
    by rewrite (proj2 (resolve_by_id_spec (ag_id g) now' q h Hw) (conj Hh (conj Hi Ha))).
Qed.

(** issuance follows the rules, save for a lifetime of zero. A grant issued under an
    engagement names one of the same organization, was given a lifetime and no packages
    of its own; it expires at the earlier of the lifetime's end and the engagement's,
    and the caller is told exactly when the engagement's end won. But a lifetime of
    zero days, which is not absent, yields a grant with no expiry at all, under an
    engagement or not. *)
Theorem issuance_rules_except_zero org b token actor now p g capped q : create_grant org b token actor now p = Ok (g, capped, q) ->
  ag_organization_id g = Some org /\ ag_kind g = gi_kind b /\ mem (gi_kind b) EXTERNAL_PRINCIPAL_KINDS = true /\ ag_engagement_id g = gi_engagement_id b /\ ag_revoked g = false /\
  (gi_ttl_days b = Some 0 -> ag_expires_at g = None) /\
  match gi_engagement_id b with
  | Some id => exists e d, get_engagement id p = Some e /\ ae_organization_id e = Some org /\ gi_ttl_days b = Some d /\ gi_package_ids b = [] /\
      (d <> 0 -> ag_expires_at g = Some (Z.min (now + d * day_us) (ae_period_to e)) /\ (capped = true <-> ae_period_to e < now + d * day_us))
  | None => capped = false /\ forall d, gi_ttl_days b = Some d -> d <> 0 -> ag_expires_at g = Some (now + d * day_us)
  end.
Proof.
  assert (Hx : forall ttl asked, expiry ttl now = Ok asked -> asked = match ttl with Some d => if d =? 0 then None else Some (now + d * day_us) | None => None end).
  { intros [d|] asked; cbn [expiry]; [|by intros [= <-]]. destruct (d =? 0); [by intros [= <-]|]. destruct (_ <? _); [done|]. cbv zeta. destruct (_ && _); [|done]. by intros [= <-]. }
  unfold create_grant, require_kind. destruct (mem _ _) eqn:Ek; [|done]. cbn [negb res_bind].
  destruct (grant_engagement org b p) as [oe|] eqn:Ee; [|done]. cbn [res_bind]. destruct (grant_principal org b p) as [[pid p1]|]; [|done]. cbn [res_bind].
  destruct (expiry _ now) as [asked|] eqn:Ex; [|done]. apply Hx in Ex. cbn [res_bind]. revert Ee. unfold grant_engagement.
  destruct (gi_engagement_id b) as [id|] eqn:Eid.
  - destruct (get_engagement id p) as [e|]; [|done]. destruct (bool_decide_reflect (ae_organization_id e = Some org)) as [Ho|]; [|done]. cbn [negb].
    destruct (gi_ttl_days b) as [d|]; [|done]. destruct (gi_package_ids b); [|done]. intros [= <-]. subst asked. destruct (Z.eqb_spec d 0) as [->|Hd].
    + destruct (negb _); [done|]. intros [= <- <- <-]. cbn. do 6 (split; [done|]). by exists e, 0.
    + destruct (Z.ltb_spec (ae_period_to e) (now + d * day_us)); destruct (negb _); try done; intros [= <- <- <-]; cbn; do 5 (split; [done|]);
        (split; [by intros [= ->]|]); exists e, d; do 4 (split; [done|]); intros _; (split; [f_equal; lia|]); split; try done; lia.
  - intros [= <-]. destruct (negb _); [done|]. intros [= <- <- <-]. cbn. subst asked. destruct (gi_ttl_days b) as [d|]; do 5 (split; [done|]).
    + split; [by intros [= ->]|]. split; [done|]. intros d' [= <-] Hd. by rewrite (proj2 (Z.eqb_neq _ _)).
    + done.
Qed.

(** ** A small portal *)

Definition demo_share : ExternalAccessGrant :=
  {| ag_id := 3; ag_organization_id := Some 1; ag_principal_id := Some 1; ag_kind := "assessor"; ag_engagement_id := Some 2;
     ag_token_hash := hash_token "link"; ag_label := None; ag_expires_at := Some (90 * day_us); ag_revoked := false; ag_scope := VNone |}.
Definition demo_engagement : AssessmentEngagement :=
  {| ae_id := 2; ae_organization_id := Some 1; ae_system_id := 5; ae_assessor_principal_id := 1; ae_period_from := 0; ae_period_to := 100 * day_us;
     ae_authorized_by := None; ae_independence_note := None; ae_revoked_at := None |}.
Definition demo_package (id system : Z) : AuthorizationPackage :=
  {| pk_id := id; pk_organization_id := Some 1; pk_system_id := Some system; pk_view := [] |}.
Definition demo_portal : Portal :=
  {| po_tables := {| tb_users := []; tb_policies := ∅; tb_systems := []; tb_events := [] |}; po_org_names := ∅;
     po_principals := [{| ep_id := 1; ep_organization_id := Some 1; ep_kind := "assessor"; ep_name := "Ann"; ep_email := None; ep_organization_name := None |}];
     po_engagements := [demo_engagement]; po_grants := [demo_share]; po_package_shares := []; po_evidence_shares := [];
     po_packages := [demo_package 7 5; demo_package 8 6]; po_evidence := []; po_comments := []; po_events := []; po_next_id := 4 |}.
Definition demo_grant_in (ttl_days : Z) : GrantIn :=
  {| gi_principal_name := ""; gi_kind := "vendor"; gi_email := None; gi_organization_name := None; gi_package_ids := []; gi_evidence_ids := [];
     gi_ttl_days := Some ttl_days; gi_label := None; gi_engagement_id := Some 2; gi_principal_id := Some 1 |}.
Definition demo_request (token : string) (cookie : option string) : PortalRequest :=
  {| px_authorization := ""; px_query_token := token; px_cookie := cookie |}.

Lemma demo_portal_wf : portal_wf demo_portal.
Proof.
  split; cbn [po_grants po_engagements po_next_id demo_portal map]; [apply NoDup_singleton..| |]; by intros ? ->%list_elem_of_singleton.
Qed.
Lemma demo_alive now : 0 <= now <= 90 * day_us -> alive now demo_portal demo_share.
Proof.
  intros Hn. split; [reflexivity|]. split.
  - intros t [= <-]. lia.
  - intros e [= <-]. exists demo_engagement. split; [by left|]. split; [reflexivity|]. split; [reflexivity|]. change (now <= 100 * day_us). unfold day_us in *. lia.
Qed.
Lemma demo_resolves now : 0 <= now <= 90 * day_us -> resolve_grant "link" now demo_portal = Ok (Some demo_share).
Proof. intros Hn. apply resolve_spec; [apply demo_portal_wf|]. split; [discriminate|]. split; [by left|]. split; [reflexivity|by apply demo_alive]. Qed.

Lemma credentials_witness : resolve_grant "link" 5 demo_portal = Ok (Some demo_share) /\ resolve_grant_by_id 3 (91 * day_us) demo_portal <> Some demo_share.
Proof.
  destruct (credentials_resolve_while_good "link" 3 5 demo_portal [] demo_share demo_portal_wf) as [H _].
  destruct (credentials_resolve_while_good "link" 3 (91 * day_us) demo_portal [] demo_share demo_portal_wf) as (_ & K & _). split.
  - apply H. split; [discriminate|]. split; [by left|]. split; [reflexivity|]. apply demo_alive. unfold day_us. lia.
  - intros (_ & _ & _ & Hx & _)%K. specialize (Hx _ eq_refl). unfold day_us in Hx. lia.
Defined.

Lemma contents_witness : co_packages (grant_contents demo_share demo_portal) = [demo_package 7 5] /\
  demo_package 8 6 ∉ co_packages (grant_contents demo_share demo_portal).
Proof.
  split; [reflexivity|]. assert (NoDup (map pk_id (po_packages demo_portal))) as Hn by (apply NoDup_cons; split; [by intros ?%list_elem_of_singleton|apply NoDup_singleton]).
  destruct (contents_stay_in_scope demo_share demo_portal 1 demo_portal_wf eq_refl Hn) as [H _].
  intros (_ & _ & row & ->%list_elem_of_singleton & _ & _ & Hs)%H. discriminate Hs.
Defined.

Lemma revocation_witness : resolve_grant "link" 5 demo_portal = Ok (Some demo_share) /\
  (forall now, resolve_grant "link" now (revoke_engagement 2 None 6 demo_portal).2 <> Ok (Some demo_share)) /\
  resolve_grant_by_id 3 5 (revoke_grant 3 None demo_portal).2 = None.
Proof.
  split; [apply demo_resolves; unfold day_us; lia|]. destruct (revocation_is_final demo_portal 2 None 6 demo_portal_wf) as [H _].
  destruct (revocation_is_final demo_portal 3 None 6 demo_portal_wf) as [_ K]. split.
  - intros now. assert (E : revoke_engagement 2 None 6 demo_portal = (true, (revoke_engagement 2 None 6 demo_portal).2)) by (apply injective_projections; reflexivity).
    destruct (H _ E) as [_ H2]. destruct (H2 _ (rtc_refl _ _)) as [H3 _]. exact (proj1 (H3 demo_share now eq_refl) "link").
  - assert (E : revoke_grant 3 None demo_portal = (true, (revoke_grant 3 None demo_portal).2)) by (apply injective_projections; reflexivity).
    exact (proj1 (K _ E _ (rtc_refl _ _) 5)).
Defined.

Lemma exchanged_witness : exists cookie, portal_ui demo_settings demo_loads (demo_request "link" None) 5 demo_portal = (Ok (PExchange cookie), demo_portal) /\
  grant_from_cookie demo_settings demo_loads (demo_request "stale" (Some cookie)) (1000 * second_us) demo_portal = Ok (Some demo_share) /\
  grant_from_cookie demo_settings demo_loads (demo_request "stale" (Some cookie)) (2 * day_us) demo_portal = Ok None.
Proof.
  assert (Hne : px_query_token (demo_request "link" None) <> "") by discriminate.
  destruct (exchanged_cookie_stands_for_the_grant demo_settings demo_loads (demo_request "link" None) 5 demo_portal demo_share demo_reads Hne) as (cookie & Hc & Hh & Hl);
    [apply demo_resolves; unfold day_us; lia|].
  exists cookie. split; [exact Hc|]. revert Hh Hl. cbv zeta. set (hours := portal_cookie_ttl_hours _ _). intros Hh Hl. split.
  - destruct (Hl demo_portal (demo_request "stale" (Some cookie)) (1000 * second_us) eq_refl) as [H _]. rewrite H, decide_True by (change (5 / second_us) with 0; unfold second_us; lia).
    reflexivity.
  - destruct (Hl demo_portal (demo_request "stale" (Some cookie)) (2 * day_us) eq_refl) as [H _]. rewrite H, decide_False by (change (5 / second_us) with 0; unfold second_us, day_us; lia).
    reflexivity.
Defined.

(** A vendor's grant on the assessor's principal, with a lifetime of zero: no expiry,
    under an engagement that ends; a lifetime of a year is capped. *)
Lemma issuance_witness : exists g q, create_grant 1 (demo_grant_in 0) "new" None 5 demo_portal = Ok (g, false, q) /\ ag_expires_at g = None /\ ag_principal_id g = Some 1 /\ ag_kind g = "vendor" /\
  exists g' q', create_grant 1 (demo_grant_in 365) "new" None 5 demo_portal = Ok (g', true, q') /\ ag_expires_at g' = Some (100 * day_us).
Proof.
  assert (exists g q, create_grant 1 (demo_grant_in 0) "new" None 5 demo_portal = Ok (g, false, q) /\ ag_principal_id g = Some 1) as (g & q & E & Hp) by (do 2 eexists; split; reflexivity).
  assert (exists g q, create_grant 1 (demo_grant_in 365) "new" None 5 demo_portal = Ok (g, true, q)) as (g' & q' & E') by (do 2 eexists; reflexivity).
  destruct (issuance_rules_except_zero 1 (demo_grant_in 0) "new" None 5 demo_portal g false q E) as (_ & Hk & _ & _ & _ & Hz & _).
  destruct (issuance_rules_except_zero 1 (demo_grant_in 365) "new" None 5 demo_portal g' true q' E') as (_ & _ & _ & _ & _ & _ & e & d & He & _ & [= <-] & _ & Hx).
  exists g, q. split; [exact E|]. split; [exact (Hz eq_refl)|]. split; [exact Hp|]. split; [exact Hk|]. exists g', q'. split; [exact E'|].
  injection He as <-. destruct (Hx ltac:(lia)) as [-> _]. reflexivity.
Defined.
