(* ===== verification/Conmon.v ===== *)
(** Continuous monitoring ([src/src/ccf/governance/conmon.py]): the health of a
    control implementation from its evidence, its assessment date and the open
    POA&Ms, the scan that turns health into notifications, tasks and POA&Ms, and what
    becomes of them when a control recovers.

    Tasks, POA&Ms, notifications and events are the tables of [ControlTests.Db].
    Implementations are unique per system and control, so no row one of them writes
    is read for another. [today] is the date a scan is given, [now] the clock. *)

From S2P Require Import Tally.
From S2P Require Export ControlTests.

Local Open Scope string_scope.
Local Open Scope Z_scope.

Definition DUE_SOON_DAYS : Z := 30.
Definition HEALTH_RANK : list (string * Z) := [("healthy", 0); ("due_soon", 1); ("at_risk", 2); ("overdue", 3)].
Definition POAM_SEVERITY : list (string * string) := [("overdue", "high"); ("at_risk", "moderate")].
Definition health_rank (s : string) : Z := default 0 (dget s HEALTH_RANK).

Record Implementation := {
  mi_id : Z; mi_system_id : Z; mi_control_id : Z; mi_status : string; mi_next_assessment_due : option Z }.
(** Evidence hangs off an implementation or, since capabilities have their own, off none. *)
Record Evidence := { ev_implementation_id : option Z; ev_expires_on : option Z }.
Record MonitoringRun := {
  mr_id : Z; mr_organization_id : option Z; mr_controls_checked : Z; mr_findings : Z; mr_tasks_created : Z; mr_notifications_created : Z;
  mr_by_status : gmap string Z; mr_poams_created : Z; mr_tasks_resolved : Z; mr_poams_recovered : Z }.

(** The tables a scan reads, besides those it writes; a system's organization. *)
Record Monitored := {
  mo_implementations : list Implementation;
  mo_evidence : list Evidence;
  mo_systems : list (Z * Z) }.

Definition escalate (current candidate : string) : string := if health_rank current <? health_rank candidate then candidate else current.

Definition dated (evidences : list Evidence) : list Z := omap ev_expires_on evidences.
Definition is_crit (p : POAM) : bool := mem (pm_severity p) ["high"; "critical"].

(** A signal raises the status and leaves its reason; one signal after the other. *)
Definition raise_health (candidate reason : string) (r : string * list string) : string * list string := (escalate r.1 candidate, (r.2 ++ [reason])%list).
Definition evidence_signal (evidences : list Evidence) (today : Z) (r : string * list string) : string * list string :=
  if existsb (fun d => d <? today) (dated evidences) then raise_health "overdue" "evidence expired" r
  else if existsb (fun d => d <=? today + DUE_SOON_DAYS) (dated evidences) then raise_health "due_soon" "evidence expiring soon" r else r.
Definition missing_signal (impl : Implementation) (evidences : list Evidence) (r : string * list string) : string * list string :=
  if bool_decide (evidences = []) && mem (mi_status impl) ["implemented"; "inherited"] then raise_health "due_soon" "no evidence on record" r else r.
Definition assessment_signal (impl : Implementation) (today : Z) (r : string * list string) : string * list string :=
  match mi_next_assessment_due impl with
  | None => r
  | Some d => if d <? today then raise_health "overdue" "assessment overdue" r
              else if d <=? today + DUE_SOON_DAYS then raise_health "due_soon" "assessment due soon" r else r
  end.
Definition poam_signal (open_poams : list POAM) (r : string * list string) : string * list string :=
  match List.filter is_crit open_poams with
  | [] => r
  | crit => raise_health "at_risk" (pretty (Z.of_nat (List.length crit)) +:+ " open high/critical POA&M") r
  end.
Definition status_signal (impl : Implementation) (r : string * list string) : string * list string :=
  if mem (mi_status impl) ["not_implemented"; "planned"] then raise_health "at_risk" ("implementation status: " +:+ mi_status impl) r else r.

Definition assess_health (impl : Implementation) (evidences : list Evidence) (open_poams : list POAM) (today : Z) : string * list string :=
  status_signal impl (poam_signal open_poams (assessment_signal impl today (missing_signal impl evidences (evidence_signal evidences today ("healthy", []))))).

Definition kind_for (reasons : list string) : string :=
  let joined := join " " reasons in
  if str_contains "POA&M" joined then "remediation"
  else if str_contains "assessment" joined then "reassessment"
  else if str_contains "evidence" joined then "evidence_refresh"
  else "review".

(** ** Tasks and POA&Ms *)

Definition impl_key (impl_id : Z) : string := "conmon:impl:" +:+ pretty impl_id.
Definition has_key (key : string) (k : Task) : bool := bool_decide (tk_dedupe_key k = Some key).
Definition is_conmon_poam (system_id control_id : Z) (p : POAM) : bool :=
  (pm_system_id p =? system_id) && bool_decide (pm_control_id p = Some control_id) && bool_decide (pm_source p = Some "conmon") &&
  mem (pm_status p) POAM_ACTIVE_STATUSES.

Definition refresh_task (title description priority : string) (k : Task) : Task :=
  if mem (tk_status k) ["done"; "cancelled"] then k else
  {| tk_id := tk_id k; tk_organization_id := tk_organization_id k; tk_system_id := tk_system_id k; tk_title := title; tk_description := description;
     tk_kind := tk_kind k; tk_priority := priority; tk_status := tk_status k; tk_source := tk_source k; tk_entity_type := tk_entity_type k;
     tk_entity_id := tk_entity_id k; tk_dedupe_key := tk_dedupe_key k; tk_due_on := tk_due_on k; tk_closed_at := tk_closed_at k |}.

Definition upsert_task (org_id : option Z) (system_id impl_id : Z) (title description kind priority : string) (due_on : Z) (db : Db) : res (bool * Db) :=
  let key := impl_key impl_id in
  let! existing := scalar_one_or_none (filter (fun k => has_key key k = true) (db_tasks db)) in
  match existing with
  | Some _ => Ok (false, set_tasks (update_where (has_key key) (refresh_task title description priority) (db_tasks db)) db)
  | None =>
      let '(i, db) := next_id db in
      Ok (true, set_tasks (db_tasks db ++ [{| tk_id := i; tk_organization_id := org_id; tk_system_id := Some system_id; tk_title := title;
        tk_description := description; tk_kind := kind; tk_priority := priority; tk_status := "open"; tk_source := "auto";
        tk_entity_type := "control_implementation"; tk_entity_id := pretty impl_id; tk_dedupe_key := Some key; tk_due_on := Some due_on;
        tk_closed_at := None |}])%list db)
  end.

Definition set_severity (severity weakness : string) (p : POAM) : POAM :=
  {| pm_id := pm_id p; pm_system_id := pm_system_id p; pm_control_id := pm_control_id p; pm_title := pm_title p; pm_weakness := Some weakness;
     pm_severity := severity; pm_status := pm_status p; pm_source := pm_source p; pm_remediation_plan := pm_remediation_plan p;
     pm_plan_source := pm_plan_source p; pm_identified_on := pm_identified_on p; pm_due_on := pm_due_on p; pm_original_due_on := pm_original_due_on p;
     pm_source_ref := pm_source_ref p; pm_scanner := pm_scanner p; pm_finding_uid := pm_finding_uid p; pm_closed_on := pm_closed_on p;
     pm_acceptance_rationale := pm_acceptance_rationale p; pm_milestones := pm_milestones p; pm_details := pm_details p |}.

Definition upsert_poam (system_id control_id impl_id : Z) (title weakness severity : string) (today : Z) (db : Db) : res (bool * Db) :=
  let! existing := scalar_one_or_none (filter (fun p => is_conmon_poam system_id control_id p = true) (db_poams db)) in
  match existing with
  | Some _ => Ok (false, set_poams (update_where (is_conmon_poam system_id control_id) (set_severity severity weakness) (db_poams db)) db)
  | None =>
      let due := today + (if bool_decide (severity = "high") then 14 else 30) in
      let '(i, db) := next_id db in
      Ok (true, set_poams (db_poams db ++ [{| pm_id := i; pm_system_id := system_id; pm_control_id := Some control_id; pm_title := title;
        pm_weakness := Some weakness; pm_severity := severity; pm_status := "open"; pm_source := Some "conmon"; pm_remediation_plan := None;
        pm_plan_source := "analyst"; pm_identified_on := Some today; pm_due_on := Some due; pm_original_due_on := Some due;
        pm_source_ref := Some (impl_key impl_id); pm_scanner := None; pm_finding_uid := None; pm_closed_on := None; pm_acceptance_rationale := None;
        pm_milestones := [{| ms_id := i; ms_description := "Remediate: " +:+ title; ms_due_on := Some due; ms_completed_on := None; ms_status := "pending"; ms_sort_order := 0 |}];
        pm_details := no_details |}])%list db)
  end.

(** The POA&M [resolve_on_recovery] looks up, by the reference it was opened under. *)
Definition is_own_poam (system_id impl_id : Z) (p : POAM) : bool :=
  (pm_system_id p =? system_id) && bool_decide (pm_source p = Some "conmon") && bool_decide (pm_source_ref p = Some (impl_key impl_id)) &&
  mem (pm_status p) POAM_ACTIVE_STATUSES.

Definition recovery (org_id : option Z) (impl_id system_id now : Z) (db : Db) : res (bool * bool * Db) :=
  let key := impl_key impl_id in
  let! task := scalar_one_or_none (filter (fun k => has_key key k = true) (db_tasks db)) in
  let task_resolved := match task with Some k => bool_decide (tk_status k = "open") | None => false end in
  let db := if task_resolved then set_tasks (update_where (has_key key) (close_task now) (db_tasks db)) db else db in
  let! poam := scalar_one_or_none (filter (fun p => is_own_poam system_id impl_id p = true) (db_poams db)) in
  match poam with
  | None => Ok (task_resolved, false, db)
  | Some p =>
      let note := "Control implementation " +:+ pretty impl_id +:+ " returned to healthy as of " +:+ dt_iso now +:+ " -- review for closure." in
      let db := set_poams (update_where (is_own_poam system_id impl_id) (append_note note) (db_poams db)) db in
      let! db := notify "conmon" ("Control " +:+ pretty impl_id +:+ " recovered: POA&M ready for review") org_id "info" (Some note) "poam" (pretty (pm_id p))
                   (Some ("poam-recovery:" +:+ pretty (pm_id p))) db in
      Ok (task_resolved, true, db)
  end.

(** The savepoint: a failure undoes the block and reports nothing. *)
Definition resolve_recovered (org_id : option Z) (impl_id system_id now : Z) (db : Db) : bool * bool * Db :=
  match recovery org_id impl_id system_id now db with Ok r => r | Err _ => (false, false, db) end.

(** ** The scan *)

Record ScanTotals := {
  sc_checked : Z; sc_findings : Z; sc_tasks_created : Z; sc_notes_created : Z; sc_poams_created : Z; sc_tasks_resolved : Z; sc_poams_recovered : Z;
  sc_by_status : gmap string Z }.
Definition no_totals : ScanTotals :=
  {| sc_checked := 0; sc_findings := 0; sc_tasks_created := 0; sc_notes_created := 0; sc_poams_created := 0; sc_tasks_resolved := 0;
     sc_poams_recovered := 0; sc_by_status := zeros_for ["healthy"; "due_soon"; "at_risk"; "overdue"] |}.
Definition one (b : bool) : Z := if b then 1 else 0.
Definition count_scanned (status : string) (task_created poam_created task_resolved poam_recovered : bool) (t : ScanTotals) : ScanTotals :=
  let unhealthy := one (negb (bool_decide (status = "healthy"))) in
  {| sc_checked := sc_checked t + 1; sc_findings := sc_findings t + unhealthy; sc_tasks_created := sc_tasks_created t + one task_created;
     sc_notes_created := sc_notes_created t + unhealthy; sc_poams_created := sc_poams_created t + one poam_created;
     sc_tasks_resolved := sc_tasks_resolved t + one task_resolved; sc_poams_recovered := sc_poams_recovered t + one poam_recovered;
     sc_by_status := bump status 1 (sc_by_status t) |}.

Definition in_scope (org_id : option Z) (m : Monitored) (impl : Implementation) : bool :=
  match org_id with None => true | Some o => existsb (fun s => (s.1 =? mi_system_id impl) && (s.2 =? o)) (mo_systems m) end.
Definition evidence_of (m : Monitored) (impl : Implementation) : list Evidence :=
  List.filter (fun e => bool_decide (ev_implementation_id e = Some (mi_id impl))) (mo_evidence m).
Definition active_poams (db : Db) : list POAM := List.filter (fun p => mem (pm_status p) POAM_ACTIVE_STATUSES) (db_poams db).
Definition poams_of (impl : Implementation) (poams : list POAM) : list POAM :=
  List.filter (fun p => (pm_system_id p =? mi_system_id impl) && bool_decide (pm_control_id p = Some (mi_control_id impl))) poams.

Fixpoint spaced (s : string) : string :=
  match s with EmptyString => "" | String c s' => String (if bool_decide (c = "_"%char) then " "%char else c) (spaced s') end.
Definition note_severity (status : string) : string :=
  if bool_decide (status = "overdue") then "critical" else if bool_decide (status = "at_risk") then "warning" else "info".

(** One implementation whose health has been assessed. *)
Definition act_on (org_id : option Z) (today now : Z) (impl : Implementation) (status : string) (reasons : list string) (t : ScanTotals) (db : Db)
    : res (ScanTotals * Db) :=
  if bool_decide (status = "healthy") then
    let '(resolved, recovered, db) := resolve_recovered org_id (mi_id impl) (mi_system_id impl) now db in
    Ok (count_scanned status false false resolved recovered t, db)
  else
    let title := "Control " +:+ pretty (mi_control_id impl) +:+ " monitoring: " +:+ spaced status in
    let reason_text := join "; " reasons in
    let! db := notify "conmon" title org_id (note_severity status) (Some reason_text) "control_implementation" (pretty (mi_id impl))
                 (Some ("conmon:" +:+ pretty (mi_id impl))) db in
    if mem status ["at_risk"; "overdue"] then
      let! made := upsert_task org_id (mi_system_id impl) (mi_id impl) title reason_text (kind_for reasons)
                     (if bool_decide (status = "overdue") then "high" else "medium") (today + 14) db in
      let '(task_created, db) := made in
      let! made := upsert_poam (mi_system_id impl) (mi_control_id impl) (mi_id impl) title reason_text (default "" (dget status POAM_SEVERITY)) today db in
      let '(poam_created, db) := made in
      Ok (count_scanned status task_created poam_created false false t, db)
    else Ok (count_scanned status false false false false t, db).

Fixpoint scan_all (org_id : option Z) (m : Monitored) (poams : list POAM) (today now : Z) (impls : list Implementation) (t : ScanTotals) (db : Db)
    : res (ScanTotals * Db) :=
  match impls with
  | [] => Ok (t, db)
  | impl :: rest =>
      let '(status, reasons) := assess_health impl (evidence_of m impl) (poams_of impl poams) today in
      let! r := act_on org_id today now impl status reasons t db in
      scan_all org_id m poams today now rest r.1 r.2
  end.

Definition scan (m : Monitored) (today now : Z) (org_id : option Z) (db : Db) : res (MonitoringRun * Db) :=
  let '(run_id, db) := next_id db in
  let! r := scan_all org_id m (active_poams db) today now (List.filter (in_scope org_id m) (mo_implementations m)) no_totals db in
  let '(t, db) := r in
  let run := {| mr_id := run_id; mr_organization_id := org_id; mr_controls_checked := sc_checked t; mr_findings := sc_findings t;
                mr_tasks_created := sc_tasks_created t; mr_notifications_created := sc_notes_created t; mr_by_status := sc_by_status t;
                mr_poams_created := sc_poams_created t; mr_tasks_resolved := sc_tasks_resolved t; mr_poams_recovered := sc_poams_recovered t |} in
  Ok (run, emit "scanned" "monitoring_run" ("ConMon scan: " +:+ pretty (sc_findings t) +:+ " findings across " +:+ pretty (sc_checked t) +:+ " controls")
             org_id None (Some (pretty run_id)) db).

(** The read-only rollup: total, counts, tenths of a percent healthy, and the first
    hundred that need attention, worst first. *)
Record Attention := { at_implementation : Implementation; at_status : string; at_reasons : list string }.
Record HealthSummary := { hs_total : Z; hs_by_status : gmap string Z; hs_health_pct : option Z; hs_attention : list Attention }.
Definition attention_ge (a b : Attention) : bool := health_rank (at_status b) <=? health_rank (at_status a).

Definition health_summary (m : Monitored) (today : Z) (org_id : option Z) (db : Db) : HealthSummary :=
  let impls := List.filter (in_scope org_id m) (mo_implementations m) in
  let assessed := map (fun impl => let '(status, reasons) := assess_health impl (evidence_of m impl) (poams_of impl (active_poams db)) today in
                                   {| at_implementation := impl; at_status := status; at_reasons := reasons |}) impls in
  let by_status := fold_left (fun c a => bump (at_status a) 1 c) assessed (zeros_for ["healthy"; "due_soon"; "at_risk"; "overdue"]) in
  let total := Z.of_nat (List.length impls) in
  {| hs_total := total; hs_by_status := by_status;
     hs_health_pct := if total =? 0 then None else Some (pct1 (default 0 (by_status !! "healthy")) total);
     hs_attention := take 100 (stable_sort attention_ge (List.filter (fun a => negb (bool_decide (at_status a = "healthy"))) assessed)) |}.

(** ** Health *)

(** Overdue: something has lapsed. At risk: a serious POA&M is open or the control is
    not in place. Due soon: something lapses within the horizon, or there is nothing
    to show for a control said to be in place. *)
Definition lapsed (impl : Implementation) (evidences : list Evidence) (today : Z) : bool :=
  existsb (fun d => d <? today) (dated evidences) || match mi_next_assessment_due impl with Some d => d <? today | None => false end.
Definition hazardous (impl : Implementation) (open_poams : list POAM) : bool :=
  existsb is_crit open_poams || mem (mi_status impl) ["not_implemented"; "planned"].
Definition nearing (impl : Implementation) (evidences : list Evidence) (today : Z) : bool :=
  existsb (fun d => d <=? today + DUE_SOON_DAYS) (dated evidences) ||
  (bool_decide (evidences = []) && mem (mi_status impl) ["implemented"; "inherited"]) ||
  match mi_next_assessment_due impl with Some d => d <=? today + DUE_SOON_DAYS | None => false end.
Definition health (impl : Implementation) (evidences : list Evidence) (open_poams : list POAM) (today : Z) : string :=
  if lapsed impl evidences today then "overdue" else if hazardous impl open_poams then "at_risk"
  else if nearing impl evidences today then "due_soon" else "healthy".

Lemma existsb_filter {A} (p : A -> bool) l : existsb p l = match List.filter p l with [] => false | _ => true end.
Proof. induction l as [|x l IH]; [done|]. cbn. by destruct (p x). Qed.

(** A status is the worst of three marks; a signal sets one of them. *)
Definition worst_of (over risk soon : bool) : string := if over then "overdue" else if risk then "at_risk" else if soon then "due_soon" else "healthy".
Lemma raise_worst over risk soon l reason rs : l ∈ ["overdue"; "at_risk"; "due_soon"] ->
  raise_health l reason (worst_of over risk soon, rs) =
  (worst_of (bool_decide (l = "overdue") || over) (bool_decide (l = "at_risk") || risk) (bool_decide (l = "due_soon") || soon), (rs ++ [reason])%list).
Proof. rewrite !elem_of_cons. intros [->|[->|[->|[]%not_elem_of_nil]]]; by destruct over, risk, soon. Qed.

(** One step: what it may set, what it appends, and that it appends only with a mark. *)
Definition marks (step : string * list string -> string * list string) (over risk soon : bool) : Prop :=
  exists rs', (rs' = [] <-> over || risk || soon = false) /\
  forall o r s rs, step (worst_of o r s, rs) = (worst_of (over || o) (risk || r) (soon || s), (rs ++ rs')%list).

Lemma marks_none step : (forall r, step r = r) -> marks step false false false.
Proof. intros H. exists []. split; [done|]. intros. by rewrite H, app_nil_r. Qed.
Lemma marks_raise step l reason : (forall r, step r = raise_health l reason r) -> l ∈ ["overdue"; "at_risk"; "due_soon"] ->
  marks step (bool_decide (l = "overdue")) (bool_decide (l = "at_risk")) (bool_decide (l = "due_soon")).
Proof.
  intros H Hl. exists [reason]. split; [|intros; by rewrite H, raise_worst]. split; [done|]. revert Hl. rewrite !elem_of_cons.
  intros [->|[->|[->|[]%not_elem_of_nil]]]; done.
Qed.
Lemma marks_over step reason : (forall r, step r = raise_health "overdue" reason r) -> marks step true false false.
Proof. intros H. exact (marks_raise _ "overdue" reason H ltac:(by left)). Qed.
Lemma marks_risk step reason : (forall r, step r = raise_health "at_risk" reason r) -> marks step false true false.
Proof. intros H. exact (marks_raise _ "at_risk" reason H ltac:(right; by left)). Qed.
Lemma marks_soon step reason : (forall r, step r = raise_health "due_soon" reason r) -> marks step false false true.
Proof. intros H. exact (marks_raise _ "due_soon" reason H ltac:(right; right; by left)). Qed.
Lemma marks_then f g o r s o' r' s' : marks f o r s -> marks g o' r' s' -> marks (fun x => g (f x)) (o' || o) (r' || r) (s' || s).
Proof.
  intros (fs & F1 & F2) (gs & G1 & G2). exists (fs ++ gs)%list. split.
  - assert (E : (o' || o) || (r' || r) || (s' || s) = (o || r || s) || (o' || r' || s')) by (by destruct o, r, s, o', r', s').
    rewrite E, orb_false_iff, <- F1, <- G1. split; [intros ?%app_nil; done|intros [-> ->]; done].
  - intros. by rewrite F2, G2, !orb_assoc, app_assoc.
Qed.

Lemma evidence_marks evidences today : marks (evidence_signal evidences today) (existsb (fun d => d <? today) (dated evidences)) false
  (negb (existsb (fun d => d <? today) (dated evidences)) && existsb (fun d => d <=? today + DUE_SOON_DAYS) (dated evidences)).
Proof.
  unfold evidence_signal. destruct (existsb (fun d => d <? today) _); [by eapply marks_over|].
  destruct (existsb _ _); [by eapply marks_soon|by apply marks_none].
Qed.
Lemma missing_marks impl evidences : marks (missing_signal impl evidences) false false (bool_decide (evidences = []) && mem (mi_status impl) ["implemented"; "inherited"]).
Proof.
  unfold missing_signal. destruct (bool_decide (evidences = []) && _); [by eapply marks_soon|by apply marks_none].
Qed.
Lemma assessment_marks impl today : marks (assessment_signal impl today) (match mi_next_assessment_due impl with Some d => d <? today | None => false end) false
  (match mi_next_assessment_due impl with Some d => negb (d <? today) && (d <=? today + DUE_SOON_DAYS) | None => false end).
Proof.
  unfold assessment_signal. destruct (mi_next_assessment_due impl) as [d|]; [|by apply marks_none].
  destruct (d <? today); [by eapply marks_over|].
  destruct (d <=? _); [by eapply marks_soon|by apply marks_none].
Qed.
Lemma poam_marks open_poams : marks (poam_signal open_poams) false (existsb is_crit open_poams) false.
Proof.
  rewrite existsb_filter. unfold poam_signal. destruct (List.filter _ _); [by apply marks_none|]. by eapply marks_risk.
Qed.
Lemma status_marks impl : marks (status_signal impl) false (mem (mi_status impl) ["not_implemented"; "planned"]) false.
Proof.
  unfold status_signal. destruct (mem _ _); [|by apply marks_none]. by eapply marks_risk.
Qed.

Lemma assess_health_eq impl evidences open_poams today :
  (assess_health impl evidences open_poams today).1 = health impl evidences open_poams today /\
  ((assess_health impl evidences open_poams today).2 = [] <-> health impl evidences open_poams today = "healthy").
Proof.
  destruct (marks_then _ _ _ _ _ _ _ _ (marks_then _ _ _ _ _ _ _ _ (marks_then _ _ _ _ _ _ _ _ (marks_then _ _ _ _ _ _ _ _
    (evidence_marks evidences today) (missing_marks impl evidences)) (assessment_marks impl today)) (poam_marks open_poams)) (status_marks impl)) as (rs & Hrs & H).
  unfold assess_health. specialize (H false false false []). change (worst_of false false false) with "healthy" in H. rewrite H. cbn [fst snd app]. clear H.
  rewrite Hrs. clear Hrs. unfold health, lapsed, hazardous, nearing. set (c := bool_decide (evidences = []) && _).
  set (e1 := existsb (fun d => d <? today) _). set (e2 := existsb (fun d => d <=? today + DUE_SOON_DAYS) _). set (e3 := existsb is_crit _). set (e4 := mem _ _).
  destruct (mi_next_assessment_due impl) as [d|]; [destruct (d <? today), (d <=? today + DUE_SOON_DAYS)|]; by destruct c, e1, e2, e3, e4.
Qed.

(** health says the worst that holds. A control is overdue exactly when evidence or
    its assessment date has lapsed; at risk exactly when nothing has but a serious
    POA&M is open or the control is not in place; due soon exactly when neither but
    something lapses within thirty days or an in-place control has no evidence; and
    otherwise healthy, which is when no reason is given. *)
Theorem health_says_the_worst impl evidences open_poams today :
  (assess_health impl evidences open_poams today).1 =
    (if lapsed impl evidences today then "overdue" else if hazardous impl open_poams then "at_risk"
     else if nearing impl evidences today then "due_soon" else "healthy") /\
  ((assess_health impl evidences open_poams today).2 = [] <-> (assess_health impl evidences open_poams today).1 = "healthy") /\
  (forall d, (exists e, e ∈ evidences /\ ev_expires_on e = Some d) \/ mi_next_assessment_due impl = Some d -> d < today ->
     (assess_health impl evidences open_poams today).1 = "overdue").
Proof.
  destruct (assess_health_eq impl evidences open_poams today) as [E1 E2]. rewrite E1. split; [done|]. split; [done|]. intros d Hd Hlt. unfold health.
  assert (lapsed impl evidences today = true) as ->; [|done]. unfold lapsed. apply orb_true_iff. destruct Hd as [(e & He & Hx)|E].
  - left. apply existsb_exists. exists d. split; [|lia]. apply list_elem_of_In. unfold dated. apply list_elem_of_omap. by exists e.
  - right. rewrite E. lia.
Qed.

(** ** What a scan writes *)

Record conmon_wf (db : Db) : Prop := {
  cw_notes : forall k, at_most_one (has_dedupe k) (db_notifications db);
  cw_tasks : forall k, at_most_one (has_key k) (db_tasks db);
  cw_poams : forall s c, at_most_one (is_conmon_poam s c) (db_poams db) }.

Definition tasked (impl : Implementation) (db : Db) : bool := existsb (has_key (impl_key (mi_id impl))) (db_tasks db).
Definition planned (impl : Implementation) (db : Db) : bool := existsb (is_conmon_poam (mi_system_id impl) (mi_control_id impl)) (db_poams db).

Lemma existsb_update {A} (p q : A -> bool) f rows : (forall x, p (f x) = p x) -> existsb p (update_where q f rows) = existsb p rows.
Proof. intros H. unfold update_where. induction rows as [|x rows IH]; [done|]. cbn. rewrite IH. destruct (q x); by rewrite ?H. Qed.
Lemma existsb_one {A} (p : A -> bool) rows : existsb p rows = match filter (fun r => p r = true) rows with [] => false | _ => true end.
Proof.
  induction rows as [|x rows IH]; [done|]. cbn [existsb]. destruct (p x) eqn:E; [by rewrite filter_cons_True|by rewrite filter_cons_False by congruence].
Qed.

(** A POA&M row across a scan: the same row, never closed, its plan only added to; its
    severity and weakness may change only if [touched]. *)
Record poam_scanned (touched : POAM -> bool) (p p' : POAM) : Prop := {
  ps_id : pm_id p' = pm_id p; ps_system : pm_system_id p' = pm_system_id p; ps_control : pm_control_id p' = pm_control_id p;
  ps_title : pm_title p' = pm_title p; ps_status : pm_status p' = pm_status p; ps_source : pm_source p' = pm_source p;
  ps_ref : pm_source_ref p' = pm_source_ref p; ps_due : pm_due_on p' = pm_due_on p; ps_closed : pm_closed_on p' = pm_closed_on p;
  ps_milestones : pm_milestones p' = pm_milestones p;
  ps_details : pm_details p' = pm_details p;
  ps_quiet : touched p = false -> pm_severity p' = pm_severity p /\ pm_weakness p' = pm_weakness p;
  ps_plan : forall plan, pm_remediation_plan p = Some plan -> exists tail, pm_remediation_plan p' = Some (plan +:+ tail) }.

Lemma scanned_refl P p : poam_scanned P p p.
Proof. split; try done. intros plan ->. exists "". by rewrite str_app_empty. Qed.
Lemma scanned_trans P p q r : (forall a b, poam_scanned P a b -> P a = P b) -> poam_scanned P p q -> poam_scanned P q r -> poam_scanned P p r.
Proof.
  intros HP H K. pose proof (HP _ _ H) as E. destruct H, K. split; try congruence.
  - intros Hp. destruct (ps_quiet0 Hp), (ps_quiet1 ltac:(congruence)). split; congruence.
  - intros plan Hp. destruct (ps_plan0 plan Hp) as [t Ht]. destruct (ps_plan1 _ Ht) as [t' Ht']. exists (t +:+ t'). by rewrite Ht', app_assoc_str.
Qed.
Lemma scanned_weaken (P Q : POAM -> bool) p p' : (P p = true -> Q p = true) -> poam_scanned P p p' -> poam_scanned Q p p'.
Proof. intros Hi H. destruct H. split; try done. intros Hq. apply ps_quiet0. destruct (P p); [|done]. rewrite Hi in Hq by done. done. Qed.
Lemma scanned_conmon P s c p p' : poam_scanned P p p' -> is_conmon_poam s c p' = is_conmon_poam s c p.
Proof. intros H. unfold is_conmon_poam. by rewrite (ps_system _ _ _ H), (ps_control _ _ _ H), (ps_source _ _ _ H), (ps_status _ _ _ H). Qed.

(** The POA&Ms across a step that may touch [touched]: the rows, then new ones. *)
Definition poams_scanned (touched : POAM -> bool) (news : list POAM) (before after : list POAM) : Prop :=
  exists olds, after = (olds ++ news)%list /\ Forall2 (poam_scanned touched) before olds.

Lemma update_scanned (q : POAM -> bool) f P rows : (forall p, q p = true -> poam_scanned P p (f p)) -> Forall2 (poam_scanned P) rows (update_where q f rows).
Proof.
  intros H. unfold update_where. induction rows as [|p rows IH]; [constructor|]. cbn. constructor; [|done]. destruct (q p) eqn:E; [by apply H|apply scanned_refl].
Qed.
Lemma note_scanned P note p : poam_scanned P p (append_note note p).
Proof.
  split; try done. intros plan E. unfold append_note. cbn. rewrite E. cbn [or_empty]. unfold str_truthy. case_bool_decide as Hp.
  - exists (NL +:+ note). done.
  - exists note. destruct plan as [|x plan]; [done|]. discriminate Hp.
Qed.

Lemma notify_keeps category title org sev body et eid k db : conmon_wf db -> str_truthy k = true ->
  exists db', notify category title org sev body et eid (Some k) db = Ok db' /\ conmon_wf db' /\ db_tasks db' = db_tasks db /\ db_poams db' = db_poams db.
Proof.
  intros Hw Hk. unfold notify. change (or_empty (Some k)) with k. rewrite Hk. destruct (scalar_at_most_one (has_dedupe k) (db_notifications db) (cw_notes db Hw k)) as (o & -> & Ho).
  destruct Hw as [Hn Ht Hp]. cbn [res_bind]. destruct o as [n|].
  - eexists. split; [reflexivity|]. split; [|done]. split; try done. intros k'. by apply at_most_one_update.
  - cbv beta iota zeta delta [next_id]. eexists. split; [reflexivity|]. set (n := {| nt_id := db_seq db |}).
    change (db_notifications (set_seq (db_seq db + 1) db)) with (db_notifications db).
    destruct (deliver_frame n (set_notifications (db_notifications db ++ [n])%list (set_seq (db_seq db + 1) db))) as (_ & [E1 E2] & E3).
    split; [|done]. split; [|intros k'; rewrite E1; apply Ht|intros s c; rewrite E2; apply Hp]. intros k'. rewrite E3. apply (at_most_one_add _ (has_dedupe k)); [apply Hn| |done].
    unfold has_dedupe, n. cbn. rewrite bool_decide_eq_true. by intros [= <-].
Qed.

Lemma upsert_task_spec org sys impl title descr kind prio due db (has := existsb (has_key (impl_key impl)) (db_tasks db)) : conmon_wf db ->
  exists db', upsert_task org sys impl title descr kind prio due db = Ok (negb has, db') /\ conmon_wf db' /\ db_poams db' = db_poams db /\
    forall k, existsb (has_key k) (db_tasks db') = existsb (has_key k) (db_tasks db) || bool_decide (k = impl_key impl).
Proof.
  intros Hw. unfold upsert_task. destruct (scalar_at_most_one (has_key (impl_key impl)) (db_tasks db) (cw_tasks db Hw _)) as (o & -> & Ho).
  unfold has. rewrite existsb_one. cbn [res_bind]. destruct o as [t|]; rewrite Ho; cbn [negb].
  - eexists. split; [reflexivity|]. assert (Hk : forall k x, has_key k (refresh_task title descr prio x) = has_key k x) by (intros k x; unfold refresh_task; by destruct (mem _ _)).
    split; [|split; [done|]].
    + destruct Hw as [Hn Ht Hp]. split; [done| |done]. intros k. apply at_most_one_update; [apply Hk|apply Ht].
    + intros k. cbn. rewrite existsb_update by apply Hk. case_bool_decide as E; [|by rewrite orb_false_r]. subst k. by rewrite existsb_one, Ho.
  - eexists. split; [reflexivity|]. split; [|split; [done|]].
    + destruct Hw as [Hn Ht Hp]. split; [done| |done]. intros k. apply (at_most_one_add _ (has_key (impl_key impl))); [apply Ht| |done].
      unfold has_key. cbn. rewrite bool_decide_eq_true. by intros [= <-].
    + intros k. cbn. rewrite existsb_app. cbn. rewrite orb_false_r. f_equal. unfold has_key. cbn. apply bool_decide_ext. split; [by intros [= ->]|by intros ->].
Qed.

Lemma upsert_poam_spec sys ctl impl title weak sev today db (has := existsb (is_conmon_poam sys ctl) (db_poams db)) : conmon_wf db ->
  exists db' news, upsert_poam sys ctl impl title weak sev today db = Ok (negb has, db') /\ conmon_wf db' /\ db_tasks db' = db_tasks db /\
    poams_scanned (is_conmon_poam sys ctl) news (db_poams db) (db_poams db') /\
    (forall p, p ∈ news -> is_conmon_poam sys ctl p = true) /\ existsb (is_conmon_poam sys ctl) (db_poams db') = true /\
    forall p, p ∈ db_poams db' -> is_conmon_poam sys ctl p = true -> pm_severity p = sev.
Proof.
  intros Hw. unfold upsert_poam. destruct (scalar_at_most_one (is_conmon_poam sys ctl) (db_poams db) (cw_poams db Hw _ _)) as (o & -> & Ho).
  unfold has. rewrite existsb_one. cbn [res_bind]. destruct o as [t|]; rewrite Ho; cbn [negb]; eexists.
  - exists []. split; [reflexivity|]. destruct Hw as [Hn Ht Hp]. split; [split; [done|done|]|split; [done|split; [|split; [by intros p ?%not_elem_of_nil|split]]]].
    + intros s c. by apply at_most_one_update.
    + eexists. split; [by rewrite app_nil_r|]. apply update_scanned. intros p Hq. split; try done; [by rewrite Hq|]. intros plan E. exists "". by rewrite str_app_empty.
    + cbn. rewrite existsb_update by done. by rewrite existsb_one, Ho.
    + intros p (q & E & Hq)%list_elem_of_fmap. destruct (is_conmon_poam sys ctl q) eqn:F; subst p; [done|]. intros F'. congruence.
  - cbv beta iota zeta delta [next_id]. set (p := {| pm_id := db_seq db |}). exists [p]. split; [reflexivity|]. destruct Hw as [Hn Ht Hp].
    assert (Hpp : is_conmon_poam sys ctl p = true) by (unfold is_conmon_poam, p; cbn; by rewrite Z.eqb_refl, bool_decide_eq_true_2).
    split; [split; [done|done|]|split; [done|split; [|split; [by intros q ->%list_elem_of_singleton|split]]]].
    + intros s c. apply (at_most_one_add _ (is_conmon_poam sys ctl)); [apply Hp| |done]. unfold is_conmon_poam. cbn [p pm_system_id pm_control_id].
      rewrite !andb_true_iff, Z.eqb_eq, !bool_decide_eq_true. intros [[[<- [= <-]] _] _] r. done.
    + exists (db_poams db). split; [done|]. apply Forall2_same_length_lookup_2; [done|]. intros i x y Hx Hy. replace y with x by congruence. apply scanned_refl.
    + cbn. rewrite existsb_app. cbn [existsb]. fold p. by rewrite Hpp, orb_true_r.
    + intros q [Hq|Hq]%elem_of_app E; [|by apply list_elem_of_singleton in Hq as ->]. exfalso.
      assert (q ∈ filter (fun p => is_conmon_poam sys ctl p = true) (db_poams db)) as Hin by by apply list_elem_of_filter. rewrite Ho in Hin. by apply not_elem_of_nil in Hin.
Qed.

Lemma resolve_recovered_spec org impl sys now db : conmon_wf db ->
  let r := resolve_recovered org impl sys now db in
  conmon_wf r.2 /\ (forall k, existsb (has_key k) (db_tasks r.2) = existsb (has_key k) (db_tasks db)) /\
  poams_scanned (fun _ => false) [] (db_poams db) (db_poams r.2).
Proof.
  intros Hw. assert (Hid : poams_scanned (fun _ => false) [] (db_poams db) (db_poams db)).
  { exists (db_poams db). split; [by rewrite app_nil_r|]. apply Forall2_same_length_lookup_2; [done|]. intros i x y Hx Hy. replace y with x by congruence. apply scanned_refl. }
  unfold resolve_recovered, recovery. destruct (scalar_at_most_one (has_key (impl_key impl)) (db_tasks db) (cw_tasks db Hw _)) as (o & -> & Ho). cbn [res_bind].
  set (closed := match o with Some k => _ | None => _ end).
  set (db1 := if closed then _ else db). assert (Hc : forall k x, has_key k (close_task now x) = has_key k x) by (intros k x; unfold close_task; by destruct (decide _)).
  assert (H1 : conmon_wf db1 /\ (forall k, existsb (has_key k) (db_tasks db1) = existsb (has_key k) (db_tasks db)) /\ db_poams db1 = db_poams db).
  { unfold db1. destruct closed; [|done]. split; [|split; [|done]]; cbn.
    - destruct Hw as [Hn Ht Hp]. split; [done| |done]. intros k. cbn. apply at_most_one_update; [apply Hc|apply Ht].
    - intros k. apply existsb_update, Hc. }
  destruct H1 as (Hw1 & Hk1 & Ep). destruct (scalar_one_or_none (filter (fun p => is_own_poam sys impl p = true) (db_poams db1))) as [[p|]|e]; cbn [res_bind].
  - set (note := "Control implementation " +:+ _). set (db2 := set_poams _ db1).
    assert (Hw2 : conmon_wf db2) by (destruct Hw1 as [Hn Ht Hp]; split; [done|done|]; intros s c; by apply at_most_one_update).
    destruct (notify_keeps "conmon" ("Control " +:+ pretty impl +:+ " recovered: POA&M ready for review") org "info" (Some note) "poam" (pretty (pm_id p))
      ("poam-recovery:" +:+ pretty (pm_id p)) db2 Hw2 (recovery_key_truthy _)) as (db3 & -> & Hw3 & E1 & E2). cbn [res_bind snd].
    split; [done|]. rewrite E1, E2. split; [done|]. exists (db_poams db2). split; [by rewrite app_nil_r|]. change (db_poams db2) with (update_where (is_own_poam sys impl) (append_note note) (db_poams db1)). rewrite Ep. apply update_scanned. intros q _. apply note_scanned.
  - cbn [snd]. split; [done|]. split; [done|]. by rewrite Ep.
  - cbn [snd]. done.
Qed.

(** One implementation. *)
Definition risky (status : string) : bool := mem status ["at_risk"; "overdue"].
Definition own (impl : Implementation) : POAM -> bool := is_conmon_poam (mi_system_id impl) (mi_control_id impl).

Lemma act_on_spec org today now impl status reasons t db : conmon_wf db -> exists db' news resolved recovered,
  act_on org today now impl status reasons t db =
    Ok (count_scanned status (risky status && negb (tasked impl db)) (risky status && negb (planned impl db)) resolved recovered t, db') /\
  conmon_wf db' /\
  (forall k, existsb (has_key k) (db_tasks db') = existsb (has_key k) (db_tasks db) || (risky status && bool_decide (k = impl_key (mi_id impl)))) /\
  poams_scanned (fun p => risky status && own impl p) news (db_poams db) (db_poams db') /\
  (forall p, p ∈ news -> risky status = true /\ own impl p = true) /\
  (risky status = true -> planned impl db' = true /\ forall p, p ∈ db_poams db' -> own impl p = true -> pm_severity p = default "" (dget status POAM_SEVERITY)).
Proof.
  intros Hw. unfold act_on. case_bool_decide as Hh.
  - subst status. destruct (resolve_recovered_spec org (mi_id impl) (mi_system_id impl) now db Hw) as (Hw' & Hk & Hp).
    destruct (resolve_recovered org (mi_id impl) (mi_system_id impl) now db) as [[a b] db']. cbn [snd] in *. exists db', [], a, b.
    change (risky "healthy") with false. cbn [andb]. split; [done|]. split; [done|]. split; [intros k; by rewrite orb_false_r|]. split; [done|].
    split; [by intros ? ?%not_elem_of_nil|done].
  - destruct (notify_keeps "conmon" ("Control " +:+ pretty (mi_control_id impl) +:+ " monitoring: " +:+ spaced status) org (note_severity status) (Some (join "; " reasons))
      "control_implementation" (pretty (mi_id impl)) ("conmon:" +:+ pretty (mi_id impl)) db Hw eq_refl) as (db1 & -> & Hw1 & Et & Ep). cbn [res_bind].
    fold (risky status). destruct (risky status) eqn:Hr; cbn [andb].
    + edestruct (upsert_task_spec org (mi_system_id impl) (mi_id impl)) as (db2 & -> & Hw2 & Ep2 & Hk2); [exact Hw1|]. cbn [res_bind].
      edestruct (upsert_poam_spec (mi_system_id impl) (mi_control_id impl) (mi_id impl)) as (db3 & news & -> & Hw3 & Et3 & Hp3 & Hn3 & Hpl & Hsev); [exact Hw2|]. cbn [res_bind].
      exists db3, news, false, false. unfold tasked, planned. rewrite Ep2, Ep, Et in *. split; [done|]. split; [done|]. split; [intros k; by rewrite Et3, Hk2|].
      split; [done|]. split; [intros p Hin; split; [done|by apply Hn3]|]. intros _. done.
    + exists db1, [], false, false. split; [done|]. split; [done|]. split; [intros k; by rewrite Et, orb_false_r|]. split; [|split; [by intros ? ?%not_elem_of_nil|done]].
      rewrite Ep. exists (db_poams db). split; [by rewrite app_nil_r|]. apply Forall2_same_length_lookup_2; [done|]. intros i x y Hx Hy. replace y with x by congruence. apply scanned_refl.
Qed.

(** All of them, each with the health the tables had when the scan began. *)
Lemma impl_key_inj a b : impl_key a = impl_key b -> a = b.
Proof. unfold impl_key. intros E. apply (inj (String.append "conmon:impl:")) in E. by apply (inj pretty) in E. Qed.

Lemma scanned_all_refl P rows : Forall2 (poam_scanned P) rows rows.
Proof. apply Forall2_same_length_lookup_2; [done|]. intros i x y Hx Hy. replace y with x by congruence. apply scanned_refl. Qed.
Lemma scanned_existsb P s c before olds : Forall2 (poam_scanned P) before olds -> existsb (is_conmon_poam s c) olds = existsb (is_conmon_poam s c) before.
Proof. induction 1 as [|p q l k Hpq _ IH]; [done|]. cbn. by rewrite IH, (scanned_conmon P s c p q). Qed.

Lemma poams_scanned_then P Q n1 n2 a b c : poams_scanned P n1 a b -> poams_scanned Q n2 b c ->
  (forall x y, poam_scanned (fun p => P p || Q p) x y -> P x || Q x = P y || Q y) ->
  exists n1', poams_scanned (fun p => P p || Q p) (n1' ++ n2) a c /\ Forall2 (poam_scanned Q) n1 n1'.
Proof.
  intros (o1 & -> & H1) (o2 & -> & H2) HP. apply Forall2_app_inv_l in H2 as (o1' & n1' & H3 & H4 & ->). exists n1'. split; [|done]. exists o1'. split; [by rewrite app_assoc|].
  revert o1' H3. induction H1 as [|p q l k Hpq _ IH]; intros o1' H3; inversion H3 as [|? r ? ? Hqr Hrest]; subst; constructor; [|by apply IH].
  eapply (scanned_trans (fun p => P p || Q p)); [done| |]; [eapply (scanned_weaken P)|eapply (scanned_weaken Q)]; try done; intros ->; [done|apply orb_true_r].
Qed.

Section scanning.
Context (m : Monitored) (poams : list POAM) (today : Z).
Definition health_of (impl : Implementation) : string := (assess_health impl (evidence_of m impl) (poams_of impl poams) today).1.
Definition at_stake (impl : Implementation) : bool := risky (health_of impl).
Definition touched (impls : list Implementation) (p : POAM) : bool := existsb (fun i => at_stake i && own i p) impls.

Lemma touched_scanned P impls p q : poam_scanned P p q -> touched impls q = touched impls p.
Proof. intros H. unfold touched, own. induction impls as [|i l IH]; [done|]. cbn. by rewrite IH, (scanned_conmon P _ _ p q H). Qed.

(** What a run over [impls] adds to the totals, from the tables it started with. *)
Record scan_counts (impls : list Implementation) (db : Db) (t t' : ScanTotals) : Prop := {
  sn_checked : sc_checked t' = sc_checked t + Z.of_nat (List.length impls);
  sn_findings : sc_findings t' = sc_findings t + lcount (fun i => negb (bool_decide (health_of i = "healthy"))) impls;
  sn_notes : sc_notes_created t' = sc_notes_created t + lcount (fun i => negb (bool_decide (health_of i = "healthy"))) impls;
  sn_tasks : sc_tasks_created t' = sc_tasks_created t + lcount (fun i => at_stake i && negb (tasked i db)) impls;
  sn_poams : sc_poams_created t' = sc_poams_created t + lcount (fun i => at_stake i && negb (planned i db)) impls;
  sn_status : forall s, default 0 (sc_by_status t' !! s) = default 0 (sc_by_status t !! s) + lcount (fun i => bool_decide (health_of i = s)) impls }.

Definition impl_pair (i : Implementation) : Z * Z := (mi_system_id i, mi_control_id i).
Lemma own_pair i j p : own i p = true -> own j p = true -> impl_pair i = impl_pair j.
Proof.
  unfold own, is_conmon_poam, impl_pair. rewrite !andb_true_iff, !Z.eqb_eq, !bool_decide_eq_true.
  intros [[[<- E1] _] _] [[[<- E2] _] _]. congruence.
Qed.

Record scanned_well (impls : list Implementation) (db db' : Db) (news : list POAM) : Prop := {
  sw_wf : conmon_wf db';
  sw_tasks : forall k, existsb (has_key k) (db_tasks db') =
    existsb (has_key k) (db_tasks db) || existsb (fun i => at_stake i && bool_decide (k = impl_key (mi_id i))) impls;
  sw_poams : poams_scanned (touched impls) news (db_poams db) (db_poams db');
  sw_news : forall p, p ∈ news -> touched impls p = true;
  sw_after : forall i, i ∈ impls -> at_stake i = true -> planned i db' = true /\
    forall p, p ∈ db_poams db' -> own i p = true -> pm_severity p = default "" (dget (health_of i) POAM_SEVERITY) }.

Lemma planned_kept i P news before after : poams_scanned P news before after -> (forall p, p ∈ news -> own i p = false) ->
  existsb (own i) after = existsb (own i) before.
Proof.
  intros (olds & -> & H) Hn. rewrite existsb_app. unfold own at 1. rewrite (scanned_existsb P _ _ before) by done. fold (own i).
  assert (existsb (own i) news = false) as ->; [|apply orb_false_r]. apply not_true_iff_false. rewrite existsb_exists. intros (p & Hp & E).
  apply list_elem_of_In in Hp. rewrite Hn in E by done. done.
Qed.

Lemma scan_all_spec org now impls : NoDup (map mi_id impls) -> NoDup (map impl_pair impls) -> forall t db, conmon_wf db ->
  exists t' db' news, scan_all org m poams today now impls t db = Ok (t', db') /\ scan_counts impls db t t' /\ scanned_well impls db db' news.
Proof.
  induction impls as [|i impls IH]; intros Hids Hpairs t db Hw.
  - exists t, db, []. split; [done|]. split; [split; intros; cbn; lia|]. split; [done| |exists (db_poams db)| |].
    + intros k. by rewrite orb_false_r.
    + split; [by rewrite app_nil_r|apply scanned_all_refl].
    + by intros ? ?%not_elem_of_nil.
    + by intros ? ?%not_elem_of_nil.
  - cbn [map] in Hids, Hpairs. apply NoDup_cons in Hids as [Hi Hids], Hpairs as [Hp Hpairs].
    cbn [scan_all]. destruct (assess_health i (evidence_of m i) (poams_of i poams) today) as [status reasons] eqn:Ea.
    assert (Es : health_of i = status) by (unfold health_of; by rewrite Ea).
    destruct (act_on_spec org today now i status reasons t db Hw) as (db1 & n1 & a & b & -> & Hw1 & Hk1 & Hp1 & Hn1 & Ha1). cbn [res_bind fst snd].
    destruct (IH Hids Hpairs (count_scanned status (risky status && negb (tasked i db)) (risky status && negb (planned i db)) a b t) db1 Hw1)
      as (t' & db' & n2 & -> & Hc & [Sw St Sp Sn Sa]).
    assert (Hother : forall j p, j ∈ impls -> own j p = true -> own i p = false).
    { intros j p Hj Hjp. apply not_true_iff_false. intros Hip. apply Hp. rewrite (own_pair i j p Hip Hjp). by apply list_elem_of_fmap_2. }
    assert (Hrest : forall p, touched impls p = true -> own i p = false).
    { intros p (j & Hj & [_ Ho]%andb_prop)%existsb_exists. eapply Hother; [by apply list_elem_of_In|done]. }
    destruct (poams_scanned_then _ _ _ _ _ _ _ Hp1 Sp) as (n1' & Hp' & Hn1').
    { intros x y Hxy. rewrite <- (touched_scanned _ impls x y Hxy). unfold own. by rewrite (scanned_conmon _ _ _ x y Hxy). }
    exists t', db', (n1' ++ n2)%list. split; [done|]. rewrite <- Es in *. fold (at_stake i) in *. split; [|split].
    + destruct Hc as [C1 C2 C3 C4 C5 C6].
      assert (Ht : forall j, j ∈ impls -> tasked j db1 = tasked j db).
      { intros j Hj. unfold tasked. rewrite Hk1. rewrite bool_decide_eq_false_2; [by rewrite andb_false_r, orb_false_r|]. intros E%impl_key_inj. apply Hi.
        rewrite <- E. by apply list_elem_of_fmap_2. }
      assert (Hpl : forall j, j ∈ impls -> planned j db1 = planned j db).
      { intros j Hj. apply (planned_kept j _ _ _ _ Hp1). intros p [_ Ho]%Hn1. apply not_true_iff_false. intros Hjp. by rewrite (Hother j p Hj Hjp) in Ho. }
      split; cbn [List.length]; rewrite ?lcount_cons.
      * rewrite C1. cbn [count_scanned sc_checked]. lia.
      * rewrite C2. cbn [count_scanned sc_findings]. unfold one. lia.
      * rewrite C3. cbn [count_scanned sc_notes_created]. unfold one. lia.
      * rewrite C4. cbn [count_scanned sc_tasks_created]. rewrite (lcount_ext _ (fun j => at_stake j && negb (tasked j db)) impls); [unfold one, at_stake; lia|].
        intros j Hj. by rewrite Ht.
      * rewrite C5. cbn [count_scanned sc_poams_created]. rewrite (lcount_ext _ (fun j => at_stake j && negb (planned j db)) impls); [unfold one, at_stake; lia|].
        intros j Hj. by rewrite Hpl.
      * intros s. rewrite C6. cbn [count_scanned sc_by_status]. rewrite lookup_bump, lcount_cons. case_decide; case_bool_decide; try congruence; lia.
    + done.
    + intros k. rewrite St, Hk1. cbn [existsb]. unfold at_stake. by rewrite orb_assoc.
    + cbn [touched existsb]. exact Hp'.
    + intros p [Hin|Hin]%elem_of_app; unfold touched; cbn [existsb]; fold (touched impls p); [|by rewrite Sn, orb_true_r].
      apply list_elem_of_lookup in Hin as [ix Hx]. destruct (Forall2_lookup_r _ _ _ _ _ Hn1' Hx) as (q & Hq & Hqp).
      destruct (Hn1 q ltac:(by eapply list_elem_of_lookup_2)) as [Hr Ho]. unfold own in *. by rewrite Hr, (scanned_conmon _ _ _ _ _ Hqp), Ho.
    + intros j [->|Hj]%elem_of_cons Hr; [|by apply Sa]. destruct (Ha1 Hr) as [Hpl Hsev]. split.
      * unfold planned. rewrite <- Hpl. unfold planned. apply (planned_kept i _ _ _ _ Sp). intros p Hin. by apply Hrest, Sn.
      * intros p Hin Ho. destruct Sp as (olds & E & HF). rewrite E in Hin. apply elem_of_app in Hin as [Hin|Hin]; [|by rewrite (Hrest p (Sn p Hin)) in Ho].
        apply list_elem_of_lookup in Hin as [ix Hx]. destruct (Forall2_lookup_r _ _ _ _ _ HF Hx) as (q & Hq & Hqp).
        assert (Hoq : own i q = true) by (rewrite <- Ho; unfold own; by rewrite (scanned_conmon _ _ _ _ _ Hqp)).
        rewrite (proj1 (ps_quiet _ _ _ Hqp ltac:(apply not_true_iff_false; intros Hf; by rewrite (Hrest q Hf) in Hoq))).
        apply Hsev; [by eapply list_elem_of_lookup_2|done].
Qed.
End scanning.

Definition scoped (org_id : option Z) (m : Monitored) : list Implementation := List.filter (in_scope org_id m) (mo_implementations m).
Definition impls_wf (m : Monitored) : Prop := NoDup (map mi_id (mo_implementations m)) /\ NoDup (map impl_pair (mo_implementations m)).

(** A run record against the totals it was made from. *)
Definition run_of (t : ScanTotals) (run : MonitoringRun) : Prop :=
  mr_controls_checked run = sc_checked t /\ mr_findings run = sc_findings t /\ mr_tasks_created run = sc_tasks_created t /\
  mr_notifications_created run = sc_notes_created t /\ mr_poams_created run = sc_poams_created t /\ mr_by_status run = sc_by_status t.

Lemma scan_spec m today now org db : impls_wf m -> conmon_wf db -> exists run db' t news, scan m today now org db = Ok (run, db') /\ run_of t run /\
  scan_counts m (active_poams db) today (scoped org m) db no_totals t /\ scanned_well m (active_poams db) today (scoped org m) db db' news.
Proof.
  intros [Hi Hp] Hw. unfold scan. fold (scoped org m). cbv beta iota zeta delta [next_id]. change (active_poams (set_seq (db_seq db + 1) db)) with (active_poams db).
  destruct (scan_all_spec m (active_poams db) today org now (scoped org m) (nodup_filter _ _ _ Hi) (nodup_filter _ _ _ Hp) no_totals (set_seq (db_seq db + 1) db))
    as (t & db1 & news & -> & Hc & Hs); [by destruct Hw|]. cbn [res_bind fst snd].
  set (run := {| mr_id := db_seq db |}). eexists run, _, t, news. split; [reflexivity|]. split; [done|]. split; [by destruct Hc|].
  match goal with |- scanned_well _ _ _ _ _ (emit ?v ?e ?s ?o ?a ?i _) _ => destruct (emit_frame v e s o a i db1) as (_ & [Et Ep] & En & _) end.
  destruct Hs as [[Hn Ht Hpo] Sk Sp Snew Sa]. by split; rewrite ?Et, ?Ep.
Qed.

(** The health of an implementation on the tables as they are. *)
Definition current_health (m : Monitored) (db : Db) (today : Z) (impl : Implementation) : string := health_of m (active_poams db) today impl.
Definition stakes (m : Monitored) (db : Db) (today : Z) (impl : Implementation) : bool := at_stake m (active_poams db) today impl.

(** C21: a scan opens what is missing and closes nothing. On tables with at most one row
    per dedupe key it always completes. It checks every implementation in scope once,
    counts each under the health it had when the scan began, and for every one at risk
    or overdue leaves a task and exactly one open monitoring POA&M with the severity of
    that health, having opened just those that were missing. Every POA&M there was is
    still there with the status and dates it had and its plan at most added to, its
    severity unchanged unless it is the monitoring POA&M of such an implementation; and
    the run reports as many notifications created as findings, refreshed ones too. *)
Theorem scan_opens_what_is_missing m today now org db : impls_wf m -> conmon_wf db ->
  let impls := scoped org m in
  exists run db', scan m today now org db = Ok (run, db') /\ conmon_wf db' /\
  mr_controls_checked run = Z.of_nat (List.length impls) /\
  (forall s, default 0 (mr_by_status run !! s) = lcount (fun i => bool_decide (current_health m db today i = s)) impls) /\
  mr_findings run = lcount (fun i => negb (bool_decide (current_health m db today i = "healthy"))) impls /\
  mr_notifications_created run = mr_findings run /\
  mr_tasks_created run = lcount (fun i => stakes m db today i && negb (tasked i db)) impls /\
  mr_poams_created run = lcount (fun i => stakes m db today i && negb (planned i db)) impls /\
  (forall i, i ∈ impls -> stakes m db today i = true -> tasked i db' = true /\
     exists p, filter (fun p => own i p = true) (db_poams db') = [p] /\ pm_severity p = default "" (dget (current_health m db today i) POAM_SEVERITY)) /\
  exists olds news, db_poams db' = (olds ++ news)%list /\
    Forall2 (poam_scanned (touched m (active_poams db) today impls)) (db_poams db) olds /\
    forall p, p ∈ news -> touched m (active_poams db) today impls p = true.
Proof.
  intros Hm Hw. destruct (scan_spec m today now org db Hm Hw) as (run & db' & t & news & E & (R1 & R2 & R3 & R4 & R5 & R6) & [C1 C2 C3 C4 C5 C6] & [Sw Sk (olds & So & Sf) Sn Sa]).
  exists run, db'. split; [exact E|]. split; [exact Sw|]. rewrite R1, R2, R3, R4, R5, R6. cbn [no_totals sc_checked sc_findings sc_tasks_created sc_notes_created sc_poams_created] in *.
  split; [lia|]. split; [|split; [exact C2|split; [congruence|split; [exact C4|split; [exact C5|split]]]]].
  - intros s. rewrite C6. unfold no_totals, sc_by_status. rewrite default_zeros_for. reflexivity.
  - intros i Hi Hr. destruct (Sa i Hi Hr) as [Hp Hsev]. split.
    + unfold tasked. rewrite Sk. apply orb_true_iff. right. apply existsb_exists. exists i. split; [by apply list_elem_of_In|]. unfold stakes in Hr. by rewrite Hr, bool_decide_eq_true_2.
    + unfold planned in Hp. rewrite existsb_one in Hp. destruct (scalar_at_most_one (own i) (db_poams db') (cw_poams db' Sw _ _)) as (o & _ & Ho). unfold own in Ho.
      destruct o as [p|]; [|by rewrite Ho in Hp]. exists p. split; [exact Ho|]. apply existing_elem in Ho as [Hin Hown]. by apply Hsev.
  - exists olds, news. split; [exact So|]. split; [exact Sf|]. exact Sn.
Qed.

(** ** Scanning again *)

Lemma stakes_spec m db today i : stakes m db today i =
  lapsed i (evidence_of m i) today || hazardous i (poams_of i (active_poams db)).
Proof.
  unfold stakes, at_stake, health_of. rewrite (proj1 (assess_health_eq i _ _ today)). unfold health.
  destruct (lapsed _ _ _); [done|]. destruct (hazardous _ _); [done|]. by destruct (nearing _ _ _).
Qed.

Lemma crit_spec i db : existsb is_crit (poams_of i (active_poams db)) = true <->
  exists p, p ∈ db_poams db /\ mem (pm_status p) POAM_ACTIVE_STATUSES = true /\ pm_system_id p = mi_system_id i /\ pm_control_id p = Some (mi_control_id i) /\ is_crit p = true.
Proof.
  rewrite existsb_exists. unfold poams_of, active_poams. setoid_rewrite filter_In. setoid_rewrite filter_In. setoid_rewrite <- list_elem_of_In.
  setoid_rewrite andb_true_iff. setoid_rewrite Z.eqb_eq. setoid_rewrite bool_decide_eq_true. naive_solver.
Qed.

Lemma own_spec i p : own i p = true <->
  pm_system_id p = mi_system_id i /\ pm_control_id p = Some (mi_control_id i) /\ pm_source p = Some "conmon" /\ mem (pm_status p) POAM_ACTIVE_STATUSES = true.
Proof. unfold own, is_conmon_poam. rewrite !andb_true_iff, Z.eqb_eq, !bool_decide_eq_true. tauto. Qed.

(** A row of the new table is an old row, scanned, or one of the new ones. *)
Lemma scanned_row_after P before olds news after p : after = (olds ++ news)%list -> Forall2 (poam_scanned P) before olds -> p ∈ after ->
  (exists q, q ∈ before /\ poam_scanned P q p) \/ p ∈ news.
Proof.
  intros -> HF [Hin|Hin]%elem_of_app; [left|by right]. apply list_elem_of_lookup in Hin as [ix Hx]. destruct (Forall2_lookup_r _ _ _ _ _ HF Hx) as (q & Hq & Hqp).
  exists q. split; [by eapply list_elem_of_lookup_2|done].
Qed.

(** a second scan of the day opens nothing. Scanning again on the same date, at any
    time, creates no task and no POA&M. *)
Theorem rescan_opens_nothing m today now now' org db run db' : impls_wf m -> conmon_wf db -> scan m today now org db = Ok (run, db') ->
  exists run' db'', scan m today now' org db' = Ok (run', db'') /\ mr_tasks_created run' = 0 /\ mr_poams_created run' = 0 /\
    mr_controls_checked run' = mr_controls_checked run.
Proof.
  intros Hm Hw E. destruct (scan_spec m today now org db Hm Hw) as (run0 & db0 & t & news & E0 & (R1 & _) & [C1 _ _ _ _ _] & [Sw Sk (olds & So & Sf) Sn Sa]).
  rewrite E in E0. injection E0 as <- <-.
  destruct (scan_spec m today now' org db' Hm Sw) as (run' & db'' & t' & news' & E' & (R1' & R2' & R3' & R4' & R5' & _) & [C1' _ _ C4' C5' _] & _).
  exists run', db''. split; [exact E'|]. rewrite R3', R5', R1', R1, C1, C1', C4', C5'. cbn [no_totals sc_tasks_created sc_poams_created].
  assert (Hnone : forall f : Implementation -> bool, (forall i, i ∈ scoped org m -> stakes m db today i = true -> f i = true) ->
    lcount (fun i => stakes m db' today i && negb (f i)) (scoped org m) = 0).
  { intros f Hf. rewrite (lcount_ext _ (fun _ => false)); [unfold lcount; by rewrite lsum_const|]. intros i Hi. destruct (stakes m db' today i) eqn:Hs; [|done]. cbn [andb].
    rewrite Hf; [done|done|]. revert Hs. rewrite !stakes_spec, !orb_true_iff. intros [Hl|Hh]; [by left|]. unfold hazardous in *. apply orb_true_iff in Hh as [Hc|Hst];
      [|right; by rewrite Hst, orb_true_r]. destruct (stakes m db today i) eqn:Hs0; [by rewrite stakes_spec, orb_true_iff in Hs0|].
    right. apply orb_true_iff. left. apply crit_spec in Hc as (p & Hp & Hact & Hsys & Hctl & Hcrit). apply crit_spec.
    assert (Hnot : forall q, touched m (active_poams db) today (scoped org m) q = true -> pm_system_id q = mi_system_id i -> pm_control_id q = Some (mi_control_id i) -> False).
    { intros q (j & Hj & [Hr Ho]%andb_prop)%existsb_exists Q1 Q2. apply own_spec in Ho as (O1 & O2 & _). assert (j = i) as ->; [|unfold stakes in Hs0; congruence].
      apply (nodup_key_inj impl_pair (scoped org m)); [apply nodup_filter, Hm|by apply list_elem_of_In|done|]. unfold impl_pair. congruence. }
    destruct (scanned_row_after _ _ _ _ _ _ So Sf Hp) as [(q & Hq & Hqp)|Hin]; [|by destruct (Hnot p (Sn p Hin) Hsys Hctl)].
    exists q. split; [done|]. rewrite <- (ps_status _ _ _ Hqp), <- (ps_system _ _ _ Hqp), <- (ps_control _ _ _ Hqp). split; [done|]. split; [done|]. split; [done|].
    unfold is_crit in *. rewrite <- (proj1 (ps_quiet _ _ _ Hqp ltac:(apply not_true_iff_false; intros Ht; eapply Hnot;
      [exact Ht|by rewrite <- (ps_system _ _ _ Hqp)|by rewrite <- (ps_control _ _ _ Hqp)]))). done. }
  split; [|split; [|done]].
  - apply (Hnone (fun i => tasked i db')). intros i Hi Hs. unfold tasked. rewrite Sk. apply orb_true_iff. right. apply existsb_exists. exists i.
    split; [by apply list_elem_of_In|]. unfold stakes in Hs. by rewrite Hs, bool_decide_eq_true_2.
  - apply (Hnone (fun i => planned i db')). intros i Hi Hs. by apply Sa.
Qed.

(** what a lapse opened clears itself in two scans. Take an implementation nothing of
    which has lapsed any more, in place by its status, whose only serious open POA&Ms
    are the one monitoring opened for it. It is at risk, by that POA&M alone; the scan
    lowers the POA&M to moderate; and from then on the implementation is healthy (or
    due soon) although nobody closed the POA&M, which is still open. *)
Theorem own_poam_clears_itself m today now org db i : impls_wf m -> conmon_wf db -> i ∈ scoped org m ->
  lapsed i (evidence_of m i) today = false -> mem (mi_status i) ["not_implemented"; "planned"] = false ->
  (forall p, p ∈ poams_of i (active_poams db) -> is_crit p = true -> pm_source p = Some "conmon") ->
  existsb is_crit (poams_of i (active_poams db)) = true ->
  current_health m db today i = "at_risk" /\
  exists run db', scan m today now org db = Ok (run, db') /\ planned i db' = true /\
    current_health m db' today i = if nearing i (evidence_of m i) today then "due_soon" else "healthy".
Proof.
  intros Hm Hw Hi Hl Hst Hown Hc. assert (Hrisk : current_health m db today i = "at_risk").
  { unfold current_health, health_of. rewrite (proj1 (assess_health_eq i _ _ today)). unfold health, hazardous. by rewrite Hl, Hc. }
  split; [exact Hrisk|]. destruct (scan_spec m today now org db Hm Hw) as (run & db' & t & news & E & _ & _ & [Sw Sk (olds & So & Sf) Sn Sa]).
  exists run, db'. split; [exact E|]. destruct (Sa i Hi) as [Hp Hsev]; [unfold at_stake; unfold current_health in Hrisk; by rewrite Hrisk|]. split; [exact Hp|].
  unfold current_health, health_of. rewrite (proj1 (assess_health_eq i _ _ today)). unfold health, hazardous. rewrite Hl, Hst, orb_false_r.
  assert (existsb is_crit (poams_of i (active_poams db')) = false) as ->; [|done]. apply not_true_iff_false. intros (p & Hin & Hact & Hsys & Hctl & Hcrit)%crit_spec.
  assert (Ho : own i p = true -> False).
  { intros Ho. unfold is_crit in Hcrit. rewrite (Hsev p Hin Ho) in Hcrit. unfold current_health in Hrisk. by rewrite Hrisk in Hcrit. }
  destruct (scanned_row_after _ _ _ _ _ _ So Sf Hin) as [(q & Hq & Hqp)|Hnew].
  - destruct (touched m (active_poams db) today (scoped org m) q) eqn:Ht.
    + apply existsb_exists in Ht as (j & _ & [_ Hj]%andb_prop). apply Ho, own_spec. apply own_spec in Hj as (_ & _ & Hsrc & _).
      rewrite (ps_source _ _ _ Hqp). done.
    + apply Ho, own_spec. split; [done|]. split; [done|]. split; [|done]. rewrite (ps_source _ _ _ Hqp). apply Hown; [|unfold is_crit in *; by rewrite <- (proj1 (ps_quiet _ _ _ Hqp Ht))].
      apply list_elem_of_In, filter_In. split; [apply filter_In; split; [by apply list_elem_of_In|by rewrite <- (ps_status _ _ _ Hqp)]|].
      rewrite <- (ps_system _ _ _ Hqp), <- (ps_control _ _ _ Hqp). by rewrite Hsys, Hctl, Z.eqb_refl, bool_decide_eq_true_2.
  - destruct (proj1 (existsb_exists _ _) (Sn p Hnew)) as (j & _ & [_ Hj]%andb_prop). apply Ho, own_spec. apply own_spec in Hj as (_ & _ & Hsrc & Hs). done.
Qed.

(** ** A system scanned three times *)

(** One control whose assessment was due on day 50, in a system of organization 1. *)
Definition demo_control (due : Z) : Implementation :=
  {| mi_id := 4; mi_system_id := 2; mi_control_id := 9; mi_status := "implemented"; mi_next_assessment_due := Some due |}.
Definition demo_monitored (due : Z) : Monitored :=
  {| mo_implementations := [demo_control due]; mo_evidence := [{| ev_implementation_id := Some 4; ev_expires_on := None |}]; mo_systems := [(2, 1)] |}.

Lemma demo_impls_wf due : impls_wf (demo_monitored due).
Proof. split; cbn; apply NoDup_singleton. Qed.
Lemma empty_conmon_wf : conmon_wf empty_db.
Proof. split; intros; unfold at_most_one; cbn; lia. Qed.

Lemma scan_opens_witness : exists run db', scan (demo_monitored 50) 60 0 (Some 1) empty_db = Ok (run, db') /\
  mr_tasks_created run = 1 /\ mr_poams_created run = 1 /\ mr_notifications_created run = 1 /\ conmon_wf db' /\
  exists p, filter (fun p => own (demo_control 50) p = true) (db_poams db') = [p] /\ pm_severity p = "high".
Proof.
  destruct (scan_opens_what_is_missing (demo_monitored 50) 60 0 (Some 1) empty_db (demo_impls_wf 50) empty_conmon_wf)
    as (run & db' & E & Hw & _ & _ & Hf & Hn & Ht & Hp & Ha & _).
  exists run, db'. split; [exact E|]. split; [rewrite Ht; reflexivity|]. split; [rewrite Hp; reflexivity|]. split; [rewrite Hn, Hf; reflexivity|]. split; [exact Hw|].
  destruct (Ha (demo_control 50)) as (_ & p & Hp1 & Hp2); [by left|reflexivity|]. exists p. split; [exact Hp1|]. rewrite Hp2. reflexivity.
Defined.

Lemma rescan_witness : exists run db' run' db'', scan (demo_monitored 50) 60 0 (Some 1) empty_db = Ok (run, db') /\
  scan (demo_monitored 50) 60 1 (Some 1) db' = Ok (run', db'') /\ mr_tasks_created run' = 0 /\ mr_poams_created run' = 0.
Proof.
  destruct (scan (demo_monitored 50) 60 0 (Some 1) empty_db) as [[run db']|] eqn:E; [|vm_compute in E; discriminate E].
  destruct (rescan_opens_nothing (demo_monitored 50) 60 0 1 (Some 1) empty_db run db' (demo_impls_wf 50) empty_conmon_wf E) as (run' & db'' & E' & Ht & Hp & _).
  exists run, db', run', db''. split; [reflexivity|]. split; [exact E'|]. split; [exact Ht|exact Hp].
Defined.

(** Overdue on day 60, so a high POA&M; reassessed, the next scan finds the control at
    risk by that POA&M, the one after finds it healthy, the POA&M still open. *)
Lemma clears_itself_witness : exists run db1 run2 db2, scan (demo_monitored 50) 60 0 (Some 1) empty_db = Ok (run, db1) /\
  current_health (demo_monitored 400) db1 61 (demo_control 400) = "at_risk" /\
  scan (demo_monitored 400) 61 0 (Some 1) db1 = Ok (run2, db2) /\ planned (demo_control 400) db2 = true /\
  current_health (demo_monitored 400) db2 61 (demo_control 400) = "healthy".
Proof.
  destruct (scan_spec (demo_monitored 50) 60 0 (Some 1) empty_db (demo_impls_wf 50) empty_conmon_wf) as (run & db1 & t & news & E & _ & _ & [Hw _ _ _ _]).
  exists run, db1.
  assert (Hc : exists r d, scan (demo_monitored 50) 60 0 (Some 1) empty_db = Ok (r, d) /\ existsb is_crit (poams_of (demo_control 400) (active_poams d)) = true /\
    forall p, p ∈ poams_of (demo_control 400) (active_poams d) -> pm_source p = Some "conmon").
  { do 2 eexists. split; [vm_compute; reflexivity|]. split; [reflexivity|]. intros p. vm_compute (poams_of _ _). by intros ->%list_elem_of_singleton. }
  destruct Hc as (r & d & E' & Hcrit & Hown). rewrite E in E'. injection E' as <- <-.
  destruct (own_poam_clears_itself (demo_monitored 400) 61 0 (Some 1) db1 (demo_control 400) (demo_impls_wf 400) Hw ltac:(by left) eq_refl eq_refl
    (fun p Hp _ => Hown p Hp) Hcrit) as (Hrisk & run2 & db2 & E2 & Hpl & Hh).
  exists run2, db2. split; [exact E|]. split; [exact Hrisk|]. split; [exact E2|]. split; [exact Hpl|]. rewrite Hh. reflexivity.
Defined.

(** A control that stays healthy is noted as recovered by every scan while its POA&M is
    open, so the POA&M's plan grows by a line each time. *)
Example recovery_noted_again :
  match scan (demo_monitored 50) 60 0 (Some 1) empty_db with
  | Ok (_, d) =>
      match scan (demo_monitored 400) 61 0 (Some 1) d with
      | Ok (_, d) => match scan (demo_monitored 400) 62 0 (Some 1) d with
                     | Ok (r1, d) => match scan (demo_monitored 400) 63 0 (Some 1) d with
                                     | Ok (r2, _) => Some (mr_poams_recovered r1, mr_poams_recovered r2)
                                     | Err _ => None
                                     end
                     | Err _ => None
                     end
      | Err _ => None
      end
  | Err _ => None
  end = Some (1, 1).
Proof. vm_compute. reflexivity. Qed.
