(* ===== verification/Derivation.v ===== *)
(** Profile-driven derivation: the shared-responsibility templates
    ([src/src/ccf/ssp/responsibility.py] and the lookups of [ssp/constants.py]), the
    derivation of a system's practices from its intake profile and the vendor register
    ([governance/automation.py]), the scoring rows it shares with people
    ([scoring/service.py], the two routes that set a state), and the reaction that
    closes a gap's POA&M ([governance/reactions.py]).

    POA&Ms and events are the tables of [ControlTests.Db]; practices and their states
    are unique by id. Practice identifiers hold no wildcard of SQL's LIKE. *)

From S2P Require Import Scoring.
From S2P Require Export ControlTests.

Local Open Scope string_scope.
Local Open Scope Z_scope.

(** ** Responsibility templates *)

Definition NO_PLATFORM : string := "none".
Definition FRAMEWORK_CMMC : string := "cmmc-800-171".

Record ResponsibilityEntry := {
  re_platform : string; re_framework : string; re_responsibility : string; re_scope : string; re_domain : option string; re_source : string }.

Definition RESPONSIBILITY_TO_ORIGINATION : list (string * list string) :=
  [("provider", ["Inherited"]); ("inherited", ["Inherited"]); ("shared", ["Shared"]);
   ("customer", ["Configured by Customer / Business Owner"]); ("not_applicable", []); ("unknown", [])].
Definition HYPERSCALER_DOMAIN_RESPONSIBILITY : list (string * string) :=
  [("PE", "inherited"); ("MA", "shared"); ("SC", "shared"); ("AU", "shared"); ("CM", "shared"); ("SI", "shared")].
Definition M365_COVERAGE_TO_RESPONSIBILITY : list (string * string) :=
  [("Shared Coverage", "shared"); ("Customer Responsibility", "customer"); ("Microsoft Coverage", "inherited"); ("Not Applicable", "not_applicable")].
Definition M365_DOMAIN_RESPONSIBILITY : list (string * string) :=
  [("AC", "shared"); ("AT", "customer"); ("AU", "shared"); ("CA", "shared"); ("CM", "customer"); ("IA", "shared"); ("IR", "customer");
   ("MA", "shared"); ("MP", "shared"); ("PE", "inherited"); ("PS", "shared"); ("RA", "shared"); ("SC", "shared"); ("SI", "shared")].
Definition ALL_DOMAINS : list string := ["AC"; "AT"; "AU"; "CA"; "CM"; "IA"; "IR"; "MA"; "MP"; "PE"; "PS"; "RA"; "SC"; "SI"].
Definition HYPERSCALERS : list string := ["azure"; "aws_govcloud"; "gcp"].

Definition template_entry (platform framework source : string) (d : string * string) : ResponsibilityEntry :=
  {| re_platform := platform; re_framework := framework; re_responsibility := d.2; re_scope := "domain"; re_domain := Some d.1; re_source := source |}.

Definition template_entries (platform framework : string) : list ResponsibilityEntry :=
  if bool_decide (platform = NO_PLATFORM) then map (fun d => template_entry NO_PLATFORM framework "concord-default" (d, "customer")) ALL_DOMAINS
  else if negb (bool_decide (framework = FRAMEWORK_CMMC)) then []
  else if mem platform HYPERSCALERS then map (template_entry platform framework "concord-default") HYPERSCALER_DOMAIN_RESPONSIBILITY
  else if bool_decide (platform = "m365") then map (template_entry platform framework "m365-placemat-domain") M365_DOMAIN_RESPONSIBILITY
  else [].

Definition responsibility_for (platform : string) (dom : option string) (framework : string) (coverage_status : option string) : string :=
  let normalized_domain := upper (or_empty dom) in
  if bool_decide (platform = "m365") then
    if str_truthy (or_empty coverage_status) then default "unknown" (dget (or_empty coverage_status) M365_COVERAGE_TO_RESPONSIBILITY)
    else default "unknown" (dget normalized_domain M365_DOMAIN_RESPONSIBILITY)
  else if bool_decide (platform = NO_PLATFORM) then "customer"
  else match List.find (fun e => bool_decide (re_domain e = Some normalized_domain)) (template_entries platform framework) with
       | Some e => re_responsibility e
       | None => "unknown"
       end.

Definition responsibility_entry_for (platform : string) (dom : option string) (framework : string) (coverage_status : option string) : ResponsibilityEntry :=
  let '(source, scope) :=
    if bool_decide (platform = "m365") then
      if str_truthy (or_empty coverage_status) then ("m365-coverage-status", "control") else ("m365-placemat-domain", "domain")
    else ("concord-default", "domain") in
  let d := upper (or_empty dom) in
  {| re_platform := platform; re_framework := framework; re_responsibility := responsibility_for platform dom framework coverage_status;
     re_scope := scope; re_domain := if str_truthy d then Some d else None; re_source := source |}.

Definition origination_for (responsibility : string) : list string := default [] (dget responsibility RESPONSIBILITY_TO_ORIGINATION).

(** [SCAN_SCOPE_OVERRIDES], with why. *)
Definition SCAN_SCOPE_OVERRIDES : list (string * string * string) :=
  [("aws_govcloud", "AC", "S3 public access blocks are account-level settings only the customer can set");
   ("aws_govcloud", "IA", "IAM users, password policy and access keys are created and rotated by the customer");
   ("aws_govcloud", "RA", "Enabling Amazon Inspector is an account setting only the customer can turn on");
   ("puppetdb", "CM", "PuppetDB is infrastructure the customer runs; there is no provider to inherit from")].
Definition scan_scope_reason (platform : string) (dom : option string) : option string :=
  snd <$> List.find (fun o => bool_decide (o.1.1 = platform) && bool_decide (o.1.2 = upper (or_empty dom))) SCAN_SCOPE_OVERRIDES.

Definition scan_applicability (responsibility : string) : string :=
  if mem responsibility ["customer"; "shared"] then "scan"
  else if mem responsibility ["provider"; "inherited"] then "inherited_evidence"
  else if bool_decide (responsibility = "not_applicable") then "not_applicable"
  else "manual_scope_review".

Definition scan_scope_for (platform : string) (dom : option string) (framework : string) (coverage_status : option string) : string :=
  let applicability := scan_applicability (responsibility_for platform dom framework coverage_status) in
  if negb (bool_decide (applicability = "manual_scope_review")) then applicability
  else match scan_scope_reason platform dom with Some _ => "scan" | None => applicability end.

(** [s.split(c, 1)[0]] *)
Fixpoint before_char (c : ascii) (s : string) : string :=
  match s with EmptyString => "" | String x s' => if bool_decide (x = c) then "" else String x (before_char c s') end.
Definition control_domain (control_id : option string) : option string :=
  if negb (str_truthy (or_empty control_id)) then None else
  let head := upper (before_char "-" (before_char "." (or_empty control_id))) in
  if str_truthy head then Some head else None.

(** ** SSP origination *)

Definition COVERAGE_TO_ORIGINATION : list (string * list string) :=
  [("Shared Coverage", ["Shared"]); ("Customer Responsibility", ["Configured by Customer / Business Owner"]); ("Microsoft Coverage", ["Inherited"]);
   ("Not Applicable", ["Organization System Specific"])].
Definition PLATFORM_DOMAIN_RESPONSIBILITY : list (string * list (string * string)) :=
  map (fun platform => (platform, map (fun e => (or_empty (re_domain e), re_responsibility e))
    (List.filter (fun e => str_truthy (or_empty (re_domain e))) (template_entries platform FRAMEWORK_CMMC)))) HYPERSCALERS.
Definition platform_responsibility (platform : string) (dom : option string) : option string :=
  if bool_decide (platform = NO_PLATFORM) then Some "customer" else
  let resp := responsibility_for platform dom FRAMEWORK_CMMC None in
  if bool_decide (resp = "unknown") then None else Some resp.
Definition needs_manual_responsibility_assignment (platform : string) (dom : option string) : bool :=
  negb (bool_decide (platform = "m365")) && bool_decide (platform_responsibility platform dom = None).
Definition default_origination (coverage_status : option string) : list string := default [] (dget (or_empty coverage_status) COVERAGE_TO_ORIGINATION).
Definition platform_origination (platform : string) (coverage_status dom : option string) : list string :=
  if bool_decide (platform = "m365") then default_origination coverage_status
  else origination_for (or_empty (platform_responsibility platform dom)).

(** ** The tables of a derivation *)

Record ScoringControl := {
  pr_id : Z; pr_control_id : string; pr_nist_id : option string; pr_domain : string; pr_title : option string; pr_point_value : string;
  pr_m365_coverage_status : option string; pr_recommended_evidence : option string }.
Record ScoringStatus := {
  st_system_id : Z; st_scoring_control_id : Z; st_state : string; st_notes : option string; st_evidence_ref : option string; st_source : string;
  st_derived_from : option string }.
Record Vendor := { vn_organization_id : option Z; vn_name : string; vn_status : string; vn_linked_controls : list pyval }.

Record DerivedRow := {
  dr_state : string; dr_derived_state : string; dr_responsibility : string; dr_source : string; dr_assessed : bool; dr_domain : string;
  dr_point_value : string }.
Record SystemProfile := {
  sp_system_id : Z; sp_cloud_platform : option string; sp_connectivity : option string; sp_endpoint_scope : list string;
  sp_derivation : list (string * DerivedRow); sp_derived_at : option Z }.

(** Practices are in their sort order. *)
Record Scored := {
  sd_db : Db;
  sd_practices : list ScoringControl;
  sd_statuses : list ScoringStatus;
  sd_vendors : list Vendor }.
Definition set_db (db : Db) (s : Scored) : Scored := {| sd_db := db; sd_practices := sd_practices s; sd_statuses := sd_statuses s; sd_vendors := sd_vendors s |}.
Definition set_statuses (l : list ScoringStatus) (s : Scored) : Scored := {| sd_db := sd_db s; sd_practices := sd_practices s; sd_statuses := l; sd_vendors := sd_vendors s |}.

(** ** Scoring states *)

Definition is_status (system_id control_id : Z) (s : ScoringStatus) : bool := (st_system_id s =? system_id) && (st_scoring_control_id s =? control_id).

Definition record_assessed_state (state : string) (notes evidence_ref : option string) (s : ScoringStatus) : ScoringStatus :=
  {| st_system_id := st_system_id s; st_scoring_control_id := st_scoring_control_id s; st_state := state;
     st_notes := match notes with
                 | Some n => Some n
                 | None => if startswith "derived: " (or_empty (st_notes s)) then None else st_notes s
                 end;
     st_evidence_ref := match evidence_ref with Some r => Some r | None => st_evidence_ref s end;
     st_source := ASSESSED; st_derived_from := None |}.
Definition record_derived_state (state derived_from : string) (s : ScoringStatus) : ScoringStatus :=
  {| st_system_id := st_system_id s; st_scoring_control_id := st_scoring_control_id s; st_state := state; st_notes := Some ("derived: " +:+ derived_from);
     st_evidence_ref := st_evidence_ref s; st_source := DERIVED; st_derived_from := Some (str_take 64 derived_from) |}.
Definition new_status (system_id control_id : Z) : ScoringStatus :=
  {| st_system_id := system_id; st_scoring_control_id := control_id; st_state := "not_assessed"; st_notes := None; st_evidence_ref := None;
     st_source := ASSESSED; st_derived_from := None |}.

(** The recorded states by control id: rows of the system joined with their practice. *)
Definition recorded (system_id : Z) (s : Scored) : list (string * ScoringStatus) :=
  omap (fun r => if st_system_id r =? system_id
                 then (fun c => (pr_control_id c, r)) <$> List.find (fun c => pr_id c =? st_scoring_control_id r) (sd_practices s) else None) (sd_statuses s).
Definition dict_of {A} (l : list (string * A)) : gmap string A := fold_left (fun m kv => <[kv.1 := kv.2]> m) l ∅.
Definition practice_ref (c : ScoringControl) : list (string * pyval) :=
  [("control_id", VStr (pr_control_id c)); ("domain", VStr (pr_domain c)); ("point_value", VStr (pr_point_value c))].

Definition system_score_summary (system_id : Z) (s : Scored) : ScoreSummary :=
  let states := dict_of (map (fun kv => (kv.1, st_state kv.2)) (recorded system_id s)) in
  let sources := dict_of (map (fun kv => (kv.1, st_source kv.2)) (recorded system_id s)) in
  score_system states sources "not_assessed" (map practice_ref (sd_practices s)).

(** ** Derivation *)

Definition PLATFORM_TO_SSP : list (string * string) :=
  [("m365_gcc_high", "m365"); ("azure_gov", "azure"); ("aws_govcloud", "aws_govcloud"); ("gcp", "gcp"); ("none", NO_PLATFORM)].
Definition COVERAGE_TO_STATE : list (string * (string * string)) :=
  [("Microsoft Coverage", ("inherited", "inherited")); ("Shared Coverage", ("partial", "shared"));
   ("Customer Responsibility", ("not_implemented", "customer")); ("Not Applicable", ("not_applicable", "customer"))].
Definition RESP_TO_STATE : list (string * string) := [("inherited", "inherited"); ("shared", "partial")].
Definition PLATFORM_DOMAIN : list (string * list (string * (string * string))) :=
  omap (fun p => match dget p.2 PLATFORM_DOMAIN_RESPONSIBILITY with
                 | Some t => Some (p.1, map (fun d => (d.1, (default "" (dget d.2 RESP_TO_STATE), d.2))) t)
                 | None => None
                 end) PLATFORM_TO_SSP.
Definition MOBILE_CTRLS : list string := ["AC.L2-3.1.18"; "AC.L2-3.1.19"].
Definition WIRELESS_CTRLS : list string := ["AC.L2-3.1.16"; "AC.L2-3.1.17"].

Definition na_control_ids (p : SystemProfile) : list string :=
  ((if negb (mem "mobile" (sp_endpoint_scope p)) && negb (mem "byod" (sp_endpoint_scope p)) then MOBILE_CTRLS else []) ++
   (if negb (bool_decide (or_empty (sp_connectivity p) = "wireless")) then WIRELESS_CTRLS else []))%list.

Definition vendor_inheritance (org_id : option Z) (vendors : list Vendor) : gmap string string :=
  let mine v := match org_id with None => true | Some _ => bool_decide (vn_organization_id v = org_id) || bool_decide (vn_organization_id v = None) end in
  fold_left (fun m v => if bool_decide (vn_status v = "offboarded") then m else fold_left (fun m cid => <[py_str cid := vn_name v]> m) (vn_linked_controls v) m)
    (List.filter mine vendors) ∅.

Definition platform_state (platform : option string) (c : ScoringControl) : string * string * string :=
  if bool_decide (platform = Some "m365_gcc_high") then
    let '(state, resp) := default ("not_implemented", "customer") (dget (or_empty (pr_m365_coverage_status c)) COVERAGE_TO_STATE) in
    (state, resp, "platform:m365_gcc_high")
  else match platform with
  | Some p =>
      match dget p PLATFORM_DOMAIN with
      | Some dom => match dget (pr_domain c) dom with
                    | Some (state, resp) => (state, resp, "platform:" +:+ p)
                    | None => ("not_implemented", "unknown", "platform:" +:+ p)
                    end
      | None => ("not_implemented", "customer", "customer")
      end
  | None => ("not_implemented", "customer", "customer")
  end.

Definition SEV_FOR_PV : list (string * string) := [("5", "high"); ("3", "moderate"); ("1", "low"); ("3/5", "high"); ("Special", "moderate")].

(** What the rules say of a practice: not applicable, a vendor's, or the platform's. *)
Definition rule_for (p : SystemProfile) (na : list string) (vendors : gmap string string) (c : ScoringControl) : string * string * string :=
  if mem (pr_control_id c) na then ("not_applicable", "not_applicable", "profile:not_applicable")
  else match vendors !! pr_control_id c with
       | Some v => ("inherited", "inherited", "vendor:" +:+ v)
       | None => platform_state (sp_cloud_platform p) c
       end.

(** The scoring row of a practice after the derivation looked at it. *)
Definition derive_status (system_id : Z) (state source : string) (c : ScoringControl) (l : list ScoringStatus) : ScoringStatus * list ScoringStatus :=
  match List.find (is_status system_id (pr_id c)) l with
  | None => let r := record_derived_state state source (new_status system_id (pr_id c)) in (r, (l ++ [r])%list)
  | Some r => if bool_decide (st_state r = "not_assessed")
              then (record_derived_state state source r, update_where (is_status system_id (pr_id c)) (record_derived_state state source) l)
              else (r, l)
  end.

Record DeriveAcc := {
  da_statuses : list ScoringStatus; da_derivation : list (string * DerivedRow); da_score_states : gmap string string;
  da_score_sources : gmap string string; da_by_resp : gmap string Z; da_by_state : gmap string Z; da_gaps : list ScoringControl }.

Definition derive_one (system_id : Z) (p : SystemProfile) (na : list string) (vendors : gmap string string) (a : DeriveAcc) (c : ScoringControl) : DeriveAcc :=
  let '(state, resp, source) := rule_for p na vendors c in
  let '(st, statuses) := derive_status system_id state source c (da_statuses a) in
  let row := {| dr_state := st_state st; dr_derived_state := state; dr_responsibility := resp; dr_source := source;
                dr_assessed := negb (bool_decide (st_source st = DERIVED)); dr_domain := pr_domain c; dr_point_value := pr_point_value c |} in
  {| da_statuses := statuses; da_derivation := (da_derivation a ++ [(pr_control_id c, row)])%list;
     da_score_states := <[pr_control_id c := st_state st]> (da_score_states a); da_score_sources := <[pr_control_id c := st_source st]> (da_score_sources a);
     da_by_resp := bump resp 1 (da_by_resp a);
     da_by_state := bump (st_state st) 1 (da_by_state a);
     da_gaps := if mem (st_state st) ["not_implemented"; "planned"] && mem resp ["customer"; "shared"; "unknown"] then (da_gaps a ++ [c])%list else da_gaps a |}.

Definition gap_title (c : ScoringControl) : string := pr_control_id c +:+ " — " +:+ str_or (or_empty (pr_title c)) "gap".
Definition gap_poam (id system_id today : Z) (responsibility : string) (c : ScoringControl) : POAM :=
  {| pm_id := id; pm_system_id := system_id; pm_control_id := None; pm_title := gap_title c;
     pm_weakness := Some ("Practice " +:+ pr_control_id c +:+ " (" +:+ fmt_opt (pr_nist_id c) +:+ ") not yet implemented (responsibility: " +:+ responsibility +:+ ").");
     pm_severity := default "moderate" (dget (pr_point_value c) SEV_FOR_PV); pm_status := "open"; pm_source := Some "profile_gap";
     pm_remediation_plan := None; pm_plan_source := "analyst"; pm_identified_on := Some today; pm_due_on := None; pm_original_due_on := None;
     pm_source_ref := None; pm_scanner := None; pm_finding_uid := None; pm_closed_on := None; pm_acceptance_rationale := None; pm_milestones := []; pm_details := no_details |}.

Definition titles_of (system_id : Z) (db : Db) : list string := map pm_title (List.filter (fun p => pm_system_id p =? system_id) (db_poams db)).
Definition resp_of (derivation : list (string * DerivedRow)) (c : ScoringControl) : string :=
  default "" (dr_responsibility <$> dget (pr_control_id c) derivation).

(** The titles are those before the loop: two gaps of one title get a POA&M each. *)
Definition seed_gap_poams (system_id today : Z) (gaps : list ScoringControl) (derivation : list (string * DerivedRow)) (db : Db) : Z * Db :=
  let existing := titles_of system_id db in
  fold_left (fun '(n, db) c =>
    if mem (gap_title c) existing then (n, db) else
    let '(i, db) := next_id db in
    (n + 1, set_poams (db_poams db ++ [gap_poam i system_id today (resp_of derivation c) c])%list db)) gaps (0, db).

Record DeriveResult := {
  rs_controls_total : Z; rs_applicable : Z; rs_by_responsibility : gmap string Z; rs_by_state : gmap string Z; rs_summary : ScoreSummary;
  rs_gaps : Z; rs_poams_created : Z; rs_vendors_inherited : Z }.

Definition derive_system (system_id : Z) (org_id : option Z) (profile : SystemProfile) (create_poams : bool) (actor : option string) (today now : Z) (s : Scored)
    : DeriveResult * SystemProfile * Scored :=
  let practices := sd_practices s in
  let vendor_map := vendor_inheritance org_id (sd_vendors s) in
  let a := fold_left (derive_one system_id profile (na_control_ids profile) vendor_map) practices
             {| da_statuses := sd_statuses s; da_derivation := []; da_score_states := ∅; da_score_sources := ∅; da_by_resp := ∅; da_by_state := ∅; da_gaps := [] |} in
  let summary := score_system (da_score_states a) (da_score_sources a) "not_assessed" (map practice_ref practices) in
  let profile' := {| sp_system_id := sp_system_id profile; sp_cloud_platform := sp_cloud_platform profile; sp_connectivity := sp_connectivity profile;
                     sp_endpoint_scope := sp_endpoint_scope profile; sp_derivation := da_derivation a; sp_derived_at := Some now |} in
  let '(created, db) := if create_poams then seed_gap_poams system_id today (da_gaps a) (da_derivation a) (sd_db s) else (0, sd_db s) in
  let result := {| rs_controls_total := Z.of_nat (List.length practices);
                   rs_applicable := Z.of_nat (List.length practices) - default 0 (da_by_state a !! "not_applicable");
                   rs_by_responsibility := da_by_resp a; rs_by_state := da_by_state a; rs_summary := summary;
                   rs_gaps := Z.of_nat (List.length (da_gaps a)); rs_poams_created := created;
                   rs_vendors_inherited := Z.of_nat (size (list_to_set (map snd (map_to_list vendor_map)) : gset string)) |} in
  let db := emit "derived" "system" ("Profile derived: SPRS " +:+ pretty (score summary) +:+ "/110, " +:+ pretty (rs_gaps result) +:+ " gaps, " +:+
                                     pretty (default 0 (da_by_resp a !! "inherited")) +:+ " inherited") org_id actor (Some (pretty system_id)) db in
  (result, profile', set_statuses (da_statuses a) (set_db db s)).

(** ** What reads the snapshot *)

Definition RESP_TO_ORIGINATION : list (string * list string) :=
  [("inherited", ["Inherited"]); ("shared", ["Shared"]); ("customer", ["Configured by Customer / Business Owner"]); ("not_applicable", []); ("unknown", [])].
Definition STATE_TO_STATUS : list (string * list string) :=
  [("inherited", ["Implemented"]); ("implemented", ["Implemented"]); ("partial", ["Partially Implemented"]); ("not_implemented", ["Planned"]);
   ("planned", ["Planned"]); ("not_applicable", ["Not Applicable"])].

(** Origination and implementation status; [None] for a practice the snapshot lacks. *)
Definition ssp_overlay_for (control_id : string) (derivation : list (string * DerivedRow)) : option (list string * list string) :=
  match dget control_id derivation with
  | None => None
  | Some row => Some (default [] (dget (dr_responsibility row) RESP_TO_ORIGINATION), default ["Planned"] (dget (dr_state row) STATE_TO_STATUS))
  end.

Definition ssp_platform_for (p : SystemProfile) : string * option string :=
  let declared := or_empty (sp_cloud_platform p) in
  match dget declared PLATFORM_TO_SSP with
  | Some mapped => (mapped, None)
  | None =>
      (NO_PLATFORM, Some
        (if str_truthy declared then
           "Concord does not recognize the declared platform " +:+ repr_str declared +:+ ", so this project was created with no cloud platform and nothing platform-specific was drafted for it."
         else "This system has not declared a cloud platform, so this project was created with no cloud platform and nothing platform-specific was drafted for it."))
  end.

Record ControlImpact := {
  im_control_id : string; im_domain : string; im_point_value : string; im_state : string; im_current_deduction : Z; im_gain : Z }.

Definition state_of (system_id : Z) (statuses : list ScoringStatus) (c : ScoringControl) : string :=
  default "not_assessed" (st_state <$> last (List.filter (is_status system_id (pr_id c)) statuses)).
Definition impact_row (system_id : Z) (statuses : list ScoringStatus) (c : ScoringControl) : ControlImpact :=
  let state := state_of system_id statuses c in
  let current := deduction_for (Some (pr_point_value c)) (Some state) in
  let implemented := deduction_for (Some (pr_point_value c)) (Some "implemented") in
  {| im_control_id := pr_control_id c; im_domain := pr_domain c; im_point_value := pr_point_value c; im_state := state;
     im_current_deduction := current; im_gain := current - implemented |}.
Definition control_impact (system_id : Z) (s : Scored) : Z * Z * list ControlImpact :=
  let rows := stable_sort (fun a b => im_gain b <=? im_gain a) (map (impact_row system_id (sd_statuses s)) (sd_practices s)) in
  (lsum im_current_deduction rows, lsum im_gain rows, rows).

Record EvidenceItem := { ei_control_id : string; ei_responsibility : string; ei_required_evidence : string; ei_satisfied : bool }.
Definition item_before (a b : EvidenceItem) : bool := negb (ei_satisfied a) || ei_satisfied b.
Definition evidence_item (practices : list ScoringControl) (have : list string) (d : string * DerivedRow) : option EvidenceItem :=
  if bool_decide (dr_responsibility d.2 = "inherited") || bool_decide (dr_state d.2 = "not_applicable") then None else
  let rec_ := match last (List.filter (fun c => bool_decide (pr_control_id c = d.1)) practices) with
              | Some c => or_empty (pr_recommended_evidence c) | None => "" end in
  Some {| ei_control_id := d.1; ei_responsibility := dr_responsibility d.2; ei_required_evidence := str_or rec_ "Evidence of implementation";
          ei_satisfied := existsb (str_contains d.1) have |}.
(** [have] lists the titles of the evidence attached to the system's implementations. *)
Definition evidence_requirements (practices : list ScoringControl) (have : list string) (p : SystemProfile) : Z * Z * list EvidenceItem :=
  let items := stable_sort item_before (omap (evidence_item practices have) (sp_derivation p)) in
  (Z.of_nat (List.length items), lcount ei_satisfied items, items).

Record Coverage := {
  cv_total : Z; cv_by_responsibility : gmap string Z; cv_by_state : gmap string Z; cv_covered : Z; cv_coverage_pct : option Z;
  cv_manual_evidence_required : Z; cv_derived_at : option Z }.
Definition in_place (row : DerivedRow) : bool := mem (dr_state row) ["inherited"; "implemented"].
Definition platform_sourced (row : DerivedRow) : bool := startswith "platform:" (dr_source row).
(** One turn of the loop, on the tallies, [covered] and [manual_evidence_required]. *)
Definition cover_row (connector_backed : bool) (a : gmap string Z * gmap string Z * Z * Z) (row : DerivedRow) : gmap string Z * gmap string Z * Z * Z :=
  let '(by_resp, by_state, covered, manual) := a in
  let by_resp := bump (dr_responsibility row) 1 by_resp in
  let by_state := bump (dr_state row) 1 by_state in
  if negb (in_place row) then (by_resp, by_state, covered, manual)
  else if negb connector_backed && platform_sourced row then (by_resp, by_state, covered, manual + 1)
  else (by_resp, by_state, covered + 1, manual).
Definition coverage (p : SystemProfile) (connector_backed : bool) : Coverage :=
  let '(by_resp, by_state, covered, manual) := fold_left (cover_row connector_backed) (map snd (sp_derivation p)) (∅, ∅, 0, 0) in
  let total := Z.of_nat (List.length (sp_derivation p)) in
  {| cv_total := total; cv_by_responsibility := by_resp; cv_by_state := by_state; cv_covered := covered;
     cv_coverage_pct := if total =? 0 then None else Some (pct1 covered total);
     cv_manual_evidence_required := manual; cv_derived_at := sp_derived_at p |}.

(** ** One practice *)

(** The row of a system for a practice. *)
Definition status_at (system_id control_id : Z) (l : list ScoringStatus) : option ScoringStatus := List.find (is_status system_id control_id) l.
Definition status_key (r : ScoringStatus) : Z * Z := (st_system_id r, st_scoring_control_id r).

Lemma is_status_key s i r : is_status s i r = true <-> status_key r = (s, i).
Proof. unfold is_status, status_key. rewrite andb_true_iff, !Z.eqb_eq. split; [by intros [-> ->]|by intros [= -> ->]]. Qed.

Lemma status_at_elem s i l r : NoDup (map status_key l) -> (status_at s i l = Some r <-> r ∈ l /\ status_key r = (s, i)).
Proof. apply (find_key_elem status_key (fun k => is_status k.1 k.2) (fun k r => match k with (s, i) => is_status_key s i r end) (s, i)). Qed.
Lemma status_at_app s i l r : status_at s i (l ++ [r]) = match status_at s i l with Some x => Some x | None => if is_status s i r then Some r else None end.
Proof. apply (find_key_app (fun k => is_status k.1 k.2) (s, i)). Qed.
Lemma status_at_update s i s' i' f l : (forall r, status_key (f r) = status_key r) ->
  status_at s' i' (update_where (is_status s i) f l) = if decide ((s', i') = (s, i)) then f <$> status_at s i l else status_at s' i' l.
Proof. apply (find_key_update status_key (fun k => is_status k.1 k.2) (fun k r => match k with (s, i) => is_status_key s i r end) (s, i) (s', i')). Qed.

Section derivation.
Context (sys : Z) (p : SystemProfile) (na : list string) (vendors : gmap string string).

Definition rule_state (c : ScoringControl) : string := (rule_for p na vendors c).1.1.
Definition rule_resp (c : ScoringControl) : string := (rule_for p na vendors c).1.2.
Definition rule_source (c : ScoringControl) : string := (rule_for p na vendors c).2.

(** A derivation writes a row nobody assessed, and no other. *)
Definition settle (c : ScoringControl) (o : option ScoringStatus) : ScoringStatus :=
  match o with
  | None => record_derived_state (rule_state c) (rule_source c) (new_status sys (pr_id c))
  | Some r => if bool_decide (st_state r = "not_assessed") then record_derived_state (rule_state c) (rule_source c) r else r
  end.
Definition snapshot_row (c : ScoringControl) (r : ScoringStatus) : DerivedRow :=
  {| dr_state := st_state r; dr_derived_state := rule_state c; dr_responsibility := rule_resp c; dr_source := rule_source c;
     dr_assessed := negb (bool_decide (st_source r = DERIVED)); dr_domain := pr_domain c; dr_point_value := pr_point_value c |}.
Definition is_gap (c : ScoringControl) (r : ScoringStatus) : bool :=
  mem (st_state r) ["not_implemented"; "planned"] && mem (rule_resp c) ["customer"; "shared"; "unknown"].

Lemma settle_key c o : (forall r, o = Some r -> status_key r = (sys, pr_id c)) -> status_key (settle c o) = (sys, pr_id c).
Proof. destruct o as [r|]; [|done]. intros H. unfold settle. destruct (bool_decide _); by apply (H r eq_refl). Qed.

Lemma derive_status_eq c l : NoDup (map status_key l) ->
  let o := status_at sys (pr_id c) l in
  (derive_status sys (rule_state c) (rule_source c) c l).1 = settle c o /\
  let l' := (derive_status sys (rule_state c) (rule_source c) c l).2 in
  NoDup (map status_key l') /\ (forall r, r ∈ l -> st_state r <> "not_assessed" -> r ∈ l') /\
  forall s i, status_at s i l' = if decide ((s, i) = (sys, pr_id c)) then Some (settle c o) else status_at s i l.
Proof.
  intros Hn. cbv zeta. unfold derive_status. fold (status_at sys (pr_id c) l). destruct (status_at sys (pr_id c) l) as [r|] eqn:E.
  - cbn [settle]. case_bool_decide as Hs; cbn [fst snd].
    + split; [done|]. set (f := record_derived_state _ _). assert (Hf : forall x, status_key (f x) = status_key x) by done. split; [|split].
      * unfold update_where. rewrite map_map. erewrite map_ext; [exact Hn|]. intros x. cbn. destruct (is_status sys (pr_id c) x); [apply Hf|done].
      * intros x Hx Hxs. unfold update_where. apply list_elem_of_fmap. exists x. split; [|done]. destruct (is_status sys (pr_id c) x) eqn:Ex; [|done].
        apply is_status_key in Ex. assert (status_at sys (pr_id c) l = Some x) by by apply status_at_elem. congruence.
      * intros s i. rewrite status_at_update by done. rewrite E. done.
    + split; [done|]. split; [done|]. split; [done|]. intros s i. case_decide as Hd; [|done]. by injection Hd as -> ->.
  - cbn [settle fst snd]. split; [done|]. split; [|split].
    + rewrite map_app. apply NoDup_app. split; [done|]. split; [|apply NoDup_singleton]. intros k (x & -> & Hx)%list_elem_of_fmap Hk%list_elem_of_singleton.
      assert (status_at sys (pr_id c) l = Some x) by by apply status_at_elem. congruence.
    + intros x Hx _. by apply elem_of_app; left.
    + intros s i. rewrite status_at_app. case_decide as Hd.
      * injection Hd as -> ->. rewrite E. by rewrite (proj2 (is_status_key _ _ _)).
      * destruct (status_at s i l); [done|]. destruct (is_status s i _) eqn:Ei; [|done]. apply is_status_key in Ei. by destruct Hd.
Qed.

Lemma derive_one_eq a c (st := settle c (status_at sys (pr_id c) (da_statuses a))) : NoDup (map status_key (da_statuses a)) ->
  derive_one sys p na vendors a c =
  {| da_statuses := (derive_status sys (rule_state c) (rule_source c) c (da_statuses a)).2;
     da_derivation := (da_derivation a ++ [(pr_control_id c, snapshot_row c st)])%list;
     da_score_states := <[pr_control_id c := st_state st]> (da_score_states a); da_score_sources := <[pr_control_id c := st_source st]> (da_score_sources a);
     da_by_resp := bump (rule_resp c) 1 (da_by_resp a); da_by_state := bump (st_state st) 1 (da_by_state a);
     da_gaps := if is_gap c st then (da_gaps a ++ [c])%list else da_gaps a |}.
Proof.
  intros Hn. pose proof (proj1 (derive_status_eq c _ Hn)) as E. fold st in E. unfold derive_one. revert E.
  unfold is_gap, snapshot_row, rule_state, rule_source, rule_resp. destruct (rule_for p na vendors c) as [[state resp] source]. cbn [fst snd].
  destruct (derive_status sys state source c (da_statuses a)) as [r l]. cbn [fst snd]. by intros ->.
Qed.

(** What a derivation leaves, practice by practice, from what stood before it. *)
Record derived_from (l : list ScoringControl) (row : ScoringControl -> ScoringStatus) (a a' : DeriveAcc) : Prop := {
  df_keys : NoDup (map status_key (da_statuses a'));
  df_kept : forall r, r ∈ da_statuses a -> st_state r <> "not_assessed" -> r ∈ da_statuses a';
  df_rows : forall c, c ∈ l -> status_at sys (pr_id c) (da_statuses a') = Some (row c);
  df_rest : forall s i, (s <> sys \/ i ∉ map pr_id l) -> status_at s i (da_statuses a') = status_at s i (da_statuses a);
  df_snapshot : da_derivation a' = (da_derivation a ++ map (fun c => (pr_control_id c, snapshot_row c (row c))) l)%list;
  df_states : da_score_states a' = fold_left (fun m c => <[pr_control_id c := st_state (row c)]> m) l (da_score_states a);
  df_sources : da_score_sources a' = fold_left (fun m c => <[pr_control_id c := st_source (row c)]> m) l (da_score_sources a);
  df_gaps : da_gaps a' = (da_gaps a ++ List.filter (fun c => is_gap c (row c)) l)%list;
  df_resp : forall k, default 0 (da_by_resp a' !! k) = default 0 (da_by_resp a !! k) + lcount (fun c => bool_decide (rule_resp c = k)) l;
  df_state : forall k, default 0 (da_by_state a' !! k) = default 0 (da_by_state a !! k) + lcount (fun c => bool_decide (st_state (row c) = k)) l }.

Lemma derive_fold l row a : NoDup (map pr_id l) -> NoDup (map status_key (da_statuses a)) ->
  (forall c, c ∈ l -> row c = settle c (status_at sys (pr_id c) (da_statuses a))) ->
  derived_from l row a (fold_left (derive_one sys p na vendors) l a).
Proof.
  revert a. induction l as [|c l IH]; intros a Hl Hk Hrow.
  { split; cbn; intros; rewrite ?app_nil_r; try done; [by apply not_elem_of_nil in H|unfold lcount; cbn; lia..]. }
  cbn [map] in Hl. apply NoDup_cons in Hl as [Hc Hl]. cbn [fold_left]. rewrite (derive_one_eq a c Hk), <-(Hrow c) by by left.
  destruct (derive_status_eq c _ Hk) as (_ & Hk' & Hold & Hat). rewrite <-(Hrow c) in Hat by by left. set (l' := (derive_status _ _ _ _ _).2) in *.
  set (a' := {| da_statuses := l' |}). assert (Hne : forall d, d ∈ l -> (sys, pr_id d) <> (sys, pr_id c)).
  { intros d Hd [= E]. apply Hc. rewrite <-E. by apply (list_elem_of_fmap_2 pr_id). }
  destruct (IH a' Hl Hk') as [K1 K2 K3 K4 K5 K6 K7 K8 K9 K10].
  { intros d Hd. rewrite (Hrow d) by by right. cbn [da_statuses a']. rewrite Hat, decide_False by by apply Hne. done. }
  split; [done|auto| | |rewrite K5; cbn; by rewrite <-app_assoc|done|done| | |].
  - intros d [ ->|Hd]%elem_of_cons; [|by apply K3]. rewrite K4 by (right; exact Hc). cbn [da_statuses a']. by rewrite Hat, decide_True.
  - intros s i Hsi. rewrite K4 by (destruct Hsi as [|Hi]; [by left|right; intros ?; apply Hi; by right]). cbn [da_statuses a'].
    rewrite Hat, decide_False; [done|]. intros [= -> ->]. destruct Hsi as [|Hi]; [done|]. apply Hi. by left.
  - rewrite K8. cbn [da_gaps a' List.filter]. destruct (is_gap c (row c)); [by rewrite <-app_assoc|done].
  - intros k. rewrite K9. cbn [da_by_resp a']. rewrite lookup_bump, lcount_cons. repeat case_decide; case_bool_decide; try done; lia.
  - intros k. rewrite K10. cbn [da_by_state a']. rewrite lookup_bump, lcount_cons. repeat case_decide; case_bool_decide; try done; lia.
Qed.
End derivation.

(** ** The tables stay well formed *)

(** Practices by id and by identifier, and one row per system and practice. *)
Record scored_wf (s : Scored) : Prop := {
  sw_ids : NoDup (map pr_id (sd_practices s));
  sw_control_ids : NoDup (map pr_control_id (sd_practices s));
  sw_statuses : NoDup (map status_key (sd_statuses s)) }.

Lemma elem_table {A} k (v : A) l q : dget k l = Some v -> forallb (fun e => q e.2) l = true -> q v = true.
Proof.
  induction l as [|[k' v'] l IH]; [done|]. cbn [forallb dget snd]. intros Hk [Hq Hl]%andb_prop. case_decide; [by injection Hk as <-|by apply IH].
Qed.

(** The rules put every practice in one of four states. *)
Lemma rule_states p na vendors c : mem (rule_state p na vendors c) ["not_applicable"; "inherited"; "partial"; "not_implemented"] = true.
Proof.
  unfold rule_state, rule_for. destruct (mem _ na); [done|]. destruct (vendors !! _); [done|]. unfold platform_state. case_bool_decide.
  - destruct (dget _ COVERAGE_TO_STATE) as [[st resp]|] eqn:E; [|done]. cbn.
    apply (elem_table _ (st, resp) _ (fun e => mem e.1 ["not_applicable"; "inherited"; "partial"; "not_implemented"])) in E; [done|by vm_compute].
  - destruct (sp_cloud_platform p) as [pl|]; [|done]. destruct (dget pl PLATFORM_DOMAIN) as [t|] eqn:Et; [|done].
    destruct (dget (pr_domain c) t) as [[st resp]|] eqn:E; [|done]. cbn.
    apply (elem_table _ t _ (fun t => forallb (fun e => mem e.2.1 ["not_applicable"; "inherited"; "partial"; "not_implemented"]) t)) in Et; [|by vm_compute].
    by apply (elem_table _ (st, resp) _ (fun e => mem e.1 ["not_applicable"; "inherited"; "partial"; "not_implemented"])) in E.
Qed.
Lemma settle_assessed sys p na vendors c o : st_state (settle sys p na vendors c o) <> "not_assessed".
Proof.
  assert (H : rule_state p na vendors c <> "not_assessed").
  { intros E. pose proof (rule_states p na vendors c) as H. rewrite E in H. by vm_compute in H. }
  unfold settle. destruct o as [r|]; [|done]. case_bool_decide; done.
Qed.

(** A derivation, with its pieces named. *)
Section derived.
Context (sys : Z) (org : option Z) (p : SystemProfile) (s : Scored).

Definition the_vendors : gmap string string := vendor_inheritance org (sd_vendors s).
Definition settled (c : ScoringControl) : ScoringStatus := settle sys p (na_control_ids p) the_vendors c (status_at sys (pr_id c) (sd_statuses s)).
Definition derived_acc : DeriveAcc :=
  fold_left (derive_one sys p (na_control_ids p) the_vendors) (sd_practices s)
    {| da_statuses := sd_statuses s; da_derivation := []; da_score_states := ∅; da_score_sources := ∅; da_by_resp := ∅; da_by_state := ∅; da_gaps := [] |}.
Definition gaps : list ScoringControl := List.filter (fun c => is_gap p (na_control_ids p) the_vendors c (settled c)) (sd_practices s).

Lemma derived_acc_spec : scored_wf s -> derived_from sys p (na_control_ids p) the_vendors (sd_practices s) settled
  {| da_statuses := sd_statuses s; da_derivation := []; da_score_states := ∅; da_score_sources := ∅; da_by_resp := ∅; da_by_state := ∅; da_gaps := [] |} derived_acc.
Proof. intros [H1 _ H3]. by apply derive_fold. Qed.

Lemma derive_system_eq mk actor today now : exists db,
  let '(r, p', s') := derive_system sys org p mk actor today now s in
  s' = set_statuses (da_statuses derived_acc) (set_db db s) /\ sp_derivation p' = da_derivation derived_acc /\ sp_derived_at p' = Some now /\
  db_poams db = db_poams (if mk then seed_gap_poams sys today (da_gaps derived_acc) (da_derivation derived_acc) (sd_db s) else (0, sd_db s)).2 /\
  rs_poams_created r = (if mk then seed_gap_poams sys today (da_gaps derived_acc) (da_derivation derived_acc) (sd_db s) else (0, sd_db s)).1 /\
  rs_summary r = score_system (da_score_states derived_acc) (da_score_sources derived_acc) "not_assessed" (map practice_ref (sd_practices s)) /\
  rs_gaps r = Z.of_nat (List.length (da_gaps derived_acc)) /\ rs_by_state r = da_by_state derived_acc /\ rs_by_responsibility r = da_by_resp derived_acc /\
  rs_applicable r = Z.of_nat (List.length (sd_practices s)) - default 0 (da_by_state derived_acc !! "not_applicable").
Proof.
  unfold derive_system. fold the_vendors derived_acc.
  destruct (if mk then seed_gap_poams sys today (da_gaps derived_acc) (da_derivation derived_acc) (sd_db s) else (0, sd_db s)) as [n db].
  eexists. cbn [fst snd rs_summary rs_gaps rs_by_state rs_by_responsibility rs_applicable rs_poams_created sp_derivation sp_derived_at].
  split; [reflexivity|]. do 2 (split; [reflexivity|]). split; [apply emit_frame|]. repeat (split; [reflexivity|]). reflexivity.
Qed.
End derived.


Lemma settled_key sys org p s c : scored_wf s -> status_key (settled sys org p s c) = (sys, pr_id c).
Proof. intros H. apply settle_key. intros r Hr. by apply status_at_elem in Hr as [_ ?]; [|apply H]. Qed.

Lemma derived_wf sys org p s db : scored_wf s -> scored_wf (set_statuses (da_statuses (derived_acc sys org p s)) (set_db db s)).
Proof. intros Hw. destruct (derived_acc_spec sys org p s Hw) as [K1 _ _ _ _ _ _ _ _ _]. split; [apply Hw|apply Hw|exact K1]. Qed.


Lemma seed_gap_poams_seq sys today l d db : db_seq db <= db_seq (seed_gap_poams sys today l d db).2.
Proof.
  unfold seed_gap_poams. set (existing := titles_of sys db). set (step := fun '(n, db) c => _).
  assert (H : forall l n db', db_seq db' <= db_seq (fold_left step l (n, db')).2); [|apply (H l 0 db)].
  clear l. intros l. induction l as [|c l IH]; intros n db'; [cbn; lia|]. cbn [fold_left]. unfold step at 2.
  destruct (mem (gap_title c) existing); [apply IH|]. cbv beta iota zeta delta [next_id]. etrans; [|apply IH]. cbn. lia.
Qed.
Lemma derive_system_seq sys org p mk actor today now s :
  let '(_, p', s') := derive_system sys org p mk actor today now s in db_seq (sd_db s) <= db_seq (sd_db s') /\ sp_system_id p' = sp_system_id p.
Proof.
  unfold derive_system. fold (the_vendors org s) (derived_acc sys org p s). destruct mk.
  - pose proof (seed_gap_poams_seq sys today (da_gaps (derived_acc sys org p s)) (da_derivation (derived_acc sys org p s)) (sd_db s)) as H.
    destruct (seed_gap_poams _ _ _ _ _) as [n db]. cbn in *. split; [lia|done].
  - cbn. split; [lia|done].
Qed.

(** ** The two scores *)

Lemma fold_insert_lookup {A B} (key : A -> string) (g : A -> B) l (m : gmap string B) k :
  (forall x, x ∈ l -> key x <> k) -> fold_left (fun m x => <[key x := g x]> m) l m !! k = m !! k.
Proof.
  revert m. induction l as [|x l IH]; intros m H; [done|]. cbn [fold_left]. rewrite IH by (intros; apply H; by right). apply lookup_insert_ne. apply H. by left.
Qed.
Lemma fold_insert_found {A B} (key : A -> string) (g : A -> B) l (m : gmap string B) k v x :
  x ∈ l -> key x = k -> (forall y, y ∈ l -> key y = k -> g y = v) -> fold_left (fun m x => <[key x := g x]> m) l m !! k = Some v.
Proof.
  revert m x. induction l as [|y l IH]; intros m x Hx Hk Hv; [by apply not_elem_of_nil in Hx|]. cbn [fold_left].
  destruct (decide (k ∈ map key l)) as [(z & Ek & Hz)%list_elem_of_fmap|Hno]; [apply (IH _ z); [done|done|intros; apply Hv; [by right|done]]|].
  rewrite fold_insert_lookup by (intros z Hz <-; by apply Hno, (list_elem_of_fmap_2 key)).
  apply elem_of_cons in Hx as [ ->|Hx]; [|destruct Hno; rewrite <-Hk; by apply (list_elem_of_fmap_2 key)]. rewrite <-Hk, lookup_insert_eq. f_equal. apply Hv; [by left|done].
Qed.

(** The rows of a system joined with their practices. *)
Lemma recorded_lookup {B} (f : ScoringStatus -> B) sys s c : scored_wf s -> c ∈ sd_practices s ->
  dict_of (map (fun kv => (kv.1, f kv.2)) (recorded sys s)) !! pr_control_id c = f <$> status_at sys (pr_id c) (sd_statuses s).
Proof.
  intros [Hi Hc Hk] Hin. unfold dict_of.
  assert (Hrec : forall r, (pr_control_id c, r) ∈ recorded sys s <-> status_at sys (pr_id c) (sd_statuses s) = Some r).
  { intros r. unfold recorded. rewrite list_elem_of_omap, (status_at_elem _ _ _ _ Hk). split.
    - intros (x & Hx & E). destruct (Z.eqb_spec (st_system_id x) sys) as [Es|]; [|done]. destruct (List.find _ _) as [d|] eqn:Ef; [|done]. injection E as Ed <-.
      apply find_some in Ef as [Hd Eid%Z.eqb_eq]. apply list_elem_of_In in Hd. split; [done|]. unfold status_key. f_equal; [done|]. rewrite <-Eid. f_equal.
      by eapply (nodup_key_inj pr_control_id).
    - intros [Hr Ekey]. exists r. split; [done|]. injection Ekey as -> Eid. rewrite Z.eqb_refl. destruct (List.find _ _) as [d|] eqn:Ef.
      + apply find_some in Ef as [Hd Ed%Z.eqb_eq]. apply list_elem_of_In in Hd. cbn. replace d with c; [done|]. eapply (nodup_key_inj pr_id); [exact Hi|done|done|congruence].
      + eapply find_none in Ef; [|by apply list_elem_of_In]. cbn in Ef. apply Z.eqb_neq in Ef. congruence. }
  destruct (status_at sys (pr_id c) (sd_statuses s)) as [r|].
  - apply (fold_insert_found fst snd _ _ _ _ (pr_control_id c, f r)); [|done|].
    + apply list_elem_of_fmap. exists (pr_control_id c, r). split; [done|]. by apply Hrec.
    + intros y ([k' x] & -> & Hx)%list_elem_of_fmap. cbn. intros ->. apply Hrec in Hx. by injection Hx as ->.
  - cbn [fmap option_fmap option_map]. rewrite (fold_insert_lookup fst snd); [done|]. intros y ([k' x] & -> & Hx)%list_elem_of_fmap. cbn. intros ->. by apply Hrec in Hx.
Qed.
Lemma recorded_only {B} (f : ScoringStatus -> B) sys s k : k ∉ map pr_control_id (sd_practices s) ->
  dict_of (map (fun kv => (kv.1, f kv.2)) (recorded sys s)) !! k = None.
Proof.
  intros Hno. unfold dict_of. rewrite (fold_insert_lookup fst snd); [done|]. intros y ([k' x] & -> & Hx)%list_elem_of_fmap. cbn. intros ->. apply Hno. unfold recorded in Hx.
  apply list_elem_of_omap in Hx as (r & _ & E). destruct (st_system_id r =? sys); [|done]. destruct (List.find _ _) as [d|] eqn:Ef; [|done]. injection E as <- _.
  apply find_some in Ef as [Hd _]. by apply (list_elem_of_fmap_2 pr_control_id), list_elem_of_In.
Qed.

(** When each practice has its row, the dict built from the rows is the one built practice by practice. *)
Lemma recorded_dict {B} (f : ScoringStatus -> B) sys s row : scored_wf s -> (forall c, c ∈ sd_practices s -> status_at sys (pr_id c) (sd_statuses s) = Some (row c)) ->
  dict_of (map (fun kv => (kv.1, f kv.2)) (recorded sys s)) = fold_left (fun m c => <[pr_control_id c := f (row c)]> m) (sd_practices s) ∅.
Proof.
  intros Hw Hrow. apply map_eq. intros k. destruct (decide (k ∈ map pr_control_id (sd_practices s))) as [(c & -> & Hin)%list_elem_of_fmap|Hno].
  - rewrite recorded_lookup, (Hrow c Hin) by done. symmetry. apply (fold_insert_found pr_control_id (fun c => f (row c)) _ _ _ _ c Hin eq_refl).
    intros d Hd E. by rewrite (nodup_key_inj pr_control_id _ _ _ (sw_control_ids _ Hw) Hd Hin E).
  - rewrite recorded_only by done. rewrite (fold_insert_lookup pr_control_id (fun c => f (row c))); [done|]. intros d Hd <-. by apply Hno, (list_elem_of_fmap_2 pr_control_id).
Qed.

(** C20: the score a derivation reports is the score read back from the tables it leaves:
    the summary it returns is [system_score_summary] of the stored rows, whatever people
    had recorded before it ran. *)
Theorem derived_score_is_the_stored_score sys org p mk actor today now s : scored_wf s ->
  let '(r, _, s') := derive_system sys org p mk actor today now s in rs_summary r = system_score_summary sys s'.
Proof.
  intros Hw. destruct (derive_system_eq sys org p s mk actor today now) as (db & H). destruct (derive_system sys org p mk actor today now s) as [[r p'] s'].
  destruct H as (Es & _ & _ & _ & _ & -> & _). destruct (derived_acc_spec sys org p s Hw) as [_ _ K3 _ _ K6 K7 _ _ _].
  pose proof (derived_wf sys org p s db Hw) as Hw'. rewrite <-Es in Hw'. assert (Hp : sd_practices s' = sd_practices s) by by rewrite Es.
  unfold system_score_summary. rewrite K6, K7, Hp. cbn [da_score_states da_score_sources].
  rewrite !(recorded_dict _ sys s' (settled sys org p s) Hw'), Hp; [done|..]; rewrite Hp; intros c Hc; rewrite Es; by apply K3.
Qed.

(** ** Deriving again *)

Definition set_vendors (v : list Vendor) (s : Scored) : Scored :=
  {| sd_db := sd_db s; sd_practices := sd_practices s; sd_statuses := sd_statuses s; sd_vendors := v |}.

Lemma derive_fold_frozen sys p na vendors l a :
  (forall c, c ∈ l -> exists r, status_at sys (pr_id c) (da_statuses a) = Some r /\ st_state r <> "not_assessed") ->
  da_statuses (fold_left (derive_one sys p na vendors) l a) = da_statuses a.
Proof.
  revert a. induction l as [|c l IH]; intros a H; [done|]. cbn [fold_left].
  assert (E : da_statuses (derive_one sys p na vendors a c) = da_statuses a).
  { unfold derive_one. destruct (rule_for p na vendors c) as [[state resp] source]. unfold derive_status. destruct (H c) as (r & E & Hr); [by left|].
    unfold status_at in E. rewrite E, bool_decide_eq_false_2 by done. done. }
  rewrite IH by (rewrite E; intros d Hd; apply H; by right). exact E.
Qed.

(** The titles a derivation seeds, and how many POA&Ms. *)
Lemma seed_gap_poams_spec sys today l d db :
  let fresh := List.filter (fun c => negb (mem (gap_title c) (titles_of sys db))) l in
  (seed_gap_poams sys today l d db).1 = Z.of_nat (List.length fresh) /\
  exists rows, db_poams (seed_gap_poams sys today l d db).2 = (db_poams db ++ rows)%list /\
    Forall2 (fun c p => exists i, p = gap_poam i sys today (resp_of d c) c) fresh rows.
Proof.
  unfold seed_gap_poams. set (existing := titles_of sys db). set (step := fun '(n, db) c => _).
  assert (H : forall l n db', let fresh := List.filter (fun c => negb (mem (gap_title c) existing)) l in
    (fold_left step l (n, db')).1 = n + Z.of_nat (List.length fresh) /\
    exists rows, db_poams (fold_left step l (n, db')).2 = (db_poams db' ++ rows)%list /\ Forall2 (fun c p => exists i, p = gap_poam i sys today (resp_of d c) c) fresh rows).
  { clear l. intros l. induction l as [|c l IH]; intros n db'; [cbn; split; [lia|]; exists []; by rewrite app_nil_r|]. cbn [fold_left List.filter].
    unfold step at 2 4. destruct (mem (gap_title c) existing); cbn [negb]; [apply IH|]. cbv beta iota zeta delta [next_id].
    set (row := gap_poam _ _ _ _ _). destruct (IH (n + 1) (set_poams (db_poams (set_seq (db_seq db' + 1) db') ++ [row])%list (set_seq (db_seq db' + 1) db'))) as (-> & rows & -> & Hrows).
    cbn [List.length]. split; [lia|]. exists (row :: rows). cbn [db_poams set_poams set_seq]. rewrite <-app_assoc. split; [done|]. constructor; [by eexists|done]. }
  cbv zeta. destruct (H l 0 db) as (-> & Hr). split; [lia|exact Hr].
Qed.

Lemma settled_again sys org p s db org2 q vs c : scored_wf s -> c ∈ sd_practices s ->
  settled sys org2 q (set_vendors vs (set_statuses (da_statuses (derived_acc sys org p s)) (set_db db s))) c = settled sys org p s c.
Proof.
  intros Hw Hc. unfold settled at 1. destruct (derived_acc_spec sys org p s Hw) as [_ _ K3 _ _ _ _ _ _ _]. cbn [sd_statuses set_vendors set_statuses]. rewrite (K3 c Hc).
  cbn [settle]. rewrite bool_decide_eq_false_2; [done|]. apply settle_assessed.
Qed.

(** derived states are frozen. Once a derivation has run, no derivation of the
    system, with whatever profile, vendors or organization, changes a scoring row or the
    score: the rows the first one wrote are taken for assessments. *)
Theorem derived_states_are_frozen sys org p mk actor today now s : scored_wf s ->
  let '(r, _, s') := derive_system sys org p mk actor today now s in
  forall org2 q mk2 actor2 today2 now2 vs,
    let '(r2, _, s2) := derive_system sys org2 q mk2 actor2 today2 now2 (set_vendors vs s') in
    sd_statuses s2 = sd_statuses s' /\ rs_summary r2 = rs_summary r.
Proof.
  intros Hw. destruct (derive_system_eq sys org p s mk actor today now) as (db & H). destruct (derive_system sys org p mk actor today now s) as [[r p'] s'].
  destruct H as (Es & _ & _ & _ & _ & Er & _). intros org2 q mk2 actor2 today2 now2 vs. rewrite Es in *. set (t := set_vendors vs _).
  destruct (derive_system_eq sys org2 q t mk2 actor2 today2 now2) as (db2 & H2). destruct (derive_system sys org2 q mk2 actor2 today2 now2 t) as [[r2 q2] s2].
  destruct H2 as (-> & _ & _ & _ & _ & -> & _). cbn [sd_statuses set_statuses].
  assert (Hw2 : scored_wf t) by by destruct (derived_wf sys org p s db Hw).
  destruct (derived_acc_spec sys org p s Hw) as [_ _ K3 _ _ K6 K7 _ _ _]. destruct (derived_acc_spec sys org2 q t Hw2) as [_ _ _ _ _ J6 J7 _ _ _]. split.
  - unfold derived_acc at 1. rewrite derive_fold_frozen; [done|]. intros c Hc. exists (settled sys org p s c). split; [by apply K3|apply settle_assessed].
  - rewrite Er, K6, K7, J6, J7. cbn [da_score_states da_score_sources].
    assert (Ef : forall (f : ScoringStatus -> string) l (m : gmap string string), (forall c, c ∈ l -> c ∈ sd_practices s) ->
      fold_left (fun m c => <[pr_control_id c := f (settled sys org2 q t c)]> m) l m = fold_left (fun m c => <[pr_control_id c := f (settled sys org p s c)]> m) l m).
    { intros f l. induction l as [|c l IH]; intros m Hl; [done|]. cbn [fold_left]. unfold t at 2. rewrite settled_again by (done || (apply Hl; by left)).
      apply IH. intros d Hd. apply Hl. by right. }
    change (sd_practices t) with (sd_practices s). rewrite (Ef st_state _ ∅ (fun _ h => h)), (Ef st_source _ ∅ (fun _ h => h)). reflexivity.
Qed.

Lemma gaps_titled sys today l d db c : c ∈ l -> gap_title c ∈ titles_of sys (seed_gap_poams sys today l d db).2.
Proof.
  intros Hc. destruct (seed_gap_poams_spec sys today l d db) as (_ & rows & E & Hrows). unfold titles_of. rewrite E, List.filter_app, map_app. apply elem_of_app.
  destruct (mem (gap_title c) (titles_of sys db)) eqn:Em; [left; by apply mem_true in Em|right].
  assert (Hf : c ∈ List.filter (fun c => negb (mem (gap_title c) (titles_of sys db))) l).
  { apply list_elem_of_In, filter_In. split; [by apply list_elem_of_In|by rewrite Em]. }
  apply list_elem_of_lookup in Hf as (i & Hi). destruct (Forall2_lookup_l _ _ _ _ _ Hrows Hi) as (x & Hx & j & ->).
  apply list_elem_of_fmap. eexists. split; [|apply list_elem_of_In, filter_In; split; [apply list_elem_of_In, list_elem_of_lookup; by exists i|]]; [done|apply Z.eqb_refl].
Qed.

(** every gap has its POA&M, once. A derivation only adds POA&Ms; each it adds is open,
    of source [profile_gap], and carries the title of a gap (a practice not in place that
    is the customer's, shared or of unknown responsibility) that no POA&M of the system
    had; afterwards every gap is the title of one; and deriving again from the same
    answers adds none, whatever became of those POA&Ms' statuses. *)
Theorem gaps_are_tracked_once sys org p actor today now s : scored_wf s ->
  let '(r, _, s') := derive_system sys org p true actor today now s in
  (exists rows, db_poams (sd_db s') = (db_poams (sd_db s) ++ rows)%list /\ rs_poams_created r = Z.of_nat (List.length rows) /\
    forall x, x ∈ rows -> pm_status x = "open" /\ pm_source x = Some "profile_gap" /\ pm_system_id x = sys /\ pm_title x ∉ titles_of sys (sd_db s) /\
      exists c, c ∈ gaps sys org p s /\ pm_title x = gap_title c /\ pm_severity x = default "moderate" (dget (pr_point_value c) SEV_FOR_PV)) /\
  (forall c, c ∈ gaps sys org p s -> gap_title c ∈ titles_of sys (sd_db s')) /\ rs_gaps r = Z.of_nat (List.length (gaps sys org p s)) /\
  forall actor2 today2 now2 db2, titles_of sys db2 = titles_of sys (sd_db s') ->
    let '(r2, _, s2) := derive_system sys org p true actor2 today2 now2 (set_db db2 s') in rs_poams_created r2 = 0 /\ db_poams (sd_db s2) = db_poams db2.
Proof.
  intros Hw. destruct (derive_system_eq sys org p s true actor today now) as (db & H). destruct (derive_system sys org p true actor today now s) as [[r p'] s'].
  destruct H as (Es & _ & _ & Hdb & Hn & _ & Hg & _). destruct (derived_acc_spec sys org p s Hw) as [_ _ _ _ _ _ _ K8 _ _].
  cbn [da_gaps app] in K8. fold (gaps sys org p s) in K8. rewrite K8 in *. rewrite Es. cbn [sd_db set_statuses set_db].
  assert (Ht : forall c, c ∈ gaps sys org p s -> gap_title c ∈ titles_of sys db).
  { intros c Hc. unfold titles_of. rewrite Hdb. by apply gaps_titled. }
  split; [|split; [exact Ht|split; [exact Hg|]]].
  - destruct (seed_gap_poams_spec sys today (gaps sys org p s) (da_derivation (derived_acc sys org p s)) (sd_db s)) as (En & rows & Er & Hrows).
    exists rows. split; [by rewrite Hdb|]. split; [by rewrite Hn, En, (Forall2_length _ _ _ Hrows)|]. intros x Hx.
    apply list_elem_of_lookup in Hx as (i & Hi). destruct (Forall2_lookup_r _ _ _ _ _ Hrows Hi) as (c & Hc & j & ->).
    apply list_elem_of_lookup_2, list_elem_of_In, filter_In in Hc as [Hc Hm%negb_true_iff%mem_false]. apply list_elem_of_In in Hc.
    split; [done|]. split; [done|]. split; [done|]. split; [exact Hm|]. by exists c.
  - intros actor2 today2 now2 db2 Hdb2. subst s'. set (t := set_db db2 _). destruct (derive_system_eq sys org p t true actor2 today2 now2) as (db3 & H3).
    destruct (derive_system sys org p true actor2 today2 now2 t) as [[r2 q2] s2]. destruct H3 as (-> & _ & _ & E3 & -> & _). cbn [sd_db set_statuses set_db].
    assert (Hw2 : scored_wf t) by by destruct (derived_wf sys org p s db Hw). destruct (derived_acc_spec sys org p t Hw2) as [_ _ _ _ _ _ _ J8 _ _].
    cbn [da_gaps app] in J8. rewrite J8 in *. destruct (seed_gap_poams_spec sys today2 (List.filter (fun c => is_gap p (na_control_ids p) (the_vendors org t) c (settled sys org p t c)) (sd_practices t))
      (da_derivation (derived_acc sys org p t)) (sd_db t)) as (En & rows & Er & Hrows). rewrite E3, Er, En.
    assert (Ef : List.filter (fun c => negb (mem (gap_title c) (titles_of sys (sd_db t))))
      (List.filter (fun c => is_gap p (na_control_ids p) (the_vendors org t) c (settled sys org p t c)) (sd_practices t)) = []).
    { destruct (List.filter (fun c => negb _) _) as [|c l] eqn:E; [done|]. assert (Hc : In c (c :: l)) by by left. rewrite <-E in Hc.
      apply filter_In in Hc as [[Hc Hcg]%filter_In Hm%negb_true_iff%mem_false]. destruct Hm. change (sd_db t) with db2. rewrite Hdb2. apply Ht.
      unfold gaps. apply list_elem_of_In, filter_In. split; [exact Hc|]. rewrite <-Hcg. f_equal. symmetry.
      apply (settled_again sys org p s db org p (sd_vendors s) c Hw). by apply list_elem_of_In. }
    rewrite Ef in *. inversion Hrows. by rewrite app_nil_r.
Qed.

(** ** What reads the snapshot *)

(** the coverage a dashboard shows counts what is in place, splits it by whether
    anybody captured it, and credits a platform's default only when a connector backs
    it: with none, every platform-sourced practice is listed as needing manual evidence
    instead, and a vendor's or a person's is credited either way. *)
Theorem coverage_credits_what_is_backed p live :
  let rows := map snd (sp_derivation p) in let c := coverage p live in
  cv_covered c = lcount (fun r => in_place r && (live || negb (platform_sourced r))) rows /\
  cv_manual_evidence_required c = lcount (fun r => in_place r && negb live && platform_sourced r) rows /\
  cv_covered c + cv_manual_evidence_required c = lcount in_place rows /\ lcount in_place rows <= cv_total c /\
  (forall k, default 0 (cv_by_state c !! k) = lcount (fun r => bool_decide (dr_state r = k)) rows) /\
  (forall k, default 0 (cv_by_responsibility c !! k) = lcount (fun r => bool_decide (dr_responsibility r = k)) rows) /\
  match cv_coverage_pct c with Some pct => 0 <= pct <= 1000 | None => cv_total c = 0 end.
Proof.
  cbv zeta. unfold coverage. set (rows := map snd (sp_derivation p)).
  assert (H : forall l br bs cov man,
    let '(br', bs', cov', man') := fold_left (cover_row live) l (br, bs, cov, man) in
    cov' = cov + lcount (fun r => in_place r && (live || negb (platform_sourced r))) l /\
    man' = man + lcount (fun r => in_place r && negb live && platform_sourced r) l /\
    (forall k, default 0 (bs' !! k) = default 0 (bs !! k) + lcount (fun r => bool_decide (dr_state r = k)) l) /\
    (forall k, default 0 (br' !! k) = default 0 (br !! k) + lcount (fun r => bool_decide (dr_responsibility r = k)) l)).
  { induction l as [|r l IH]; intros br bs cov man; [cbn; unfold lcount; cbn; repeat split; intros; lia|]. cbn [fold_left].
    destruct (cover_row live (br, bs, cov, man) r) as [[[br1 bs1] cov1] man1] eqn:E.
    assert (bs1 = bump (dr_state r) 1 bs /\ br1 = bump (dr_responsibility r) 1 br) as [-> ->].
    { unfold cover_row in E. by repeat case_match; simplify_eq. }
    assert (cov1 = cov + (if in_place r && (live || negb (platform_sourced r)) then 1 else 0) /\ man1 = man + (if in_place r && negb live && platform_sourced r then 1 else 0)) as [-> ->].
    { unfold cover_row in E. destruct (in_place r), live, (platform_sourced r); cbn in E |- *; simplify_eq; lia. }
    specialize (IH (bump (dr_responsibility r) 1 br) (bump (dr_state r) 1 bs) (cov + (if in_place r && (live || negb (platform_sourced r)) then 1 else 0))
      (man + (if in_place r && negb live && platform_sourced r then 1 else 0))).
    destruct (fold_left (cover_row live) l _) as [[[br2 bs2] cov2] man2]. destruct IH as (-> & -> & Hs & Hr). rewrite !lcount_cons. repeat split; [lia|lia|..].
    - intros k. rewrite Hs, lookup_bump, lcount_cons. repeat case_decide; case_bool_decide; try done; lia.
    - intros k. rewrite Hr, lookup_bump, lcount_cons. repeat case_decide; case_bool_decide; try done; lia. }
  specialize (H rows ∅ ∅ 0 0). destruct (fold_left (cover_row live) rows (∅, ∅, 0, 0)) as [[[br bs] cov] man].
  destruct H as (-> & -> & Hs & Hr). cbn [cv_covered cv_manual_evidence_required cv_by_state cv_by_responsibility cv_coverage_pct cv_total Z.add].
  assert (Hlen : Z.of_nat (List.length (sp_derivation p)) = Z.of_nat (List.length rows)) by (unfold rows; by rewrite length_map). rewrite Hlen.
  pose proof (lcount_bounds in_place rows) as Hb. split; [done|]. split; [done|]. split; [|split; [lia|split; [exact Hs|split; [exact Hr|]]]].
  - rewrite !Z.add_0_l. unfold lcount. rewrite <-lsum_plus. apply lsum_ext. intros r _. destruct (in_place r), live, (platform_sourced r); done.
  - destruct (Z.eqb_spec (Z.of_nat (List.length rows)) 0); [done|]. apply pct1_bounds; [lia|].
    pose proof (lcount_bounds (fun r => in_place r && (live || negb (platform_sourced r))) rows). lia.
Qed.

(** ** What implementing a practice would be worth *)

Lemma state_of_status sys s c : scored_wf s -> state_of sys (sd_statuses s) c = default "not_assessed" (st_state <$> status_at sys (pr_id c) (sd_statuses s)).
Proof.
  intros [_ _ Hk]. unfold state_of, status_at. f_equal. f_equal. induction (sd_statuses s) as [|r l IH]; [done|]. cbn [List.filter List.find].
  cbn [map] in Hk. apply NoDup_cons in Hk as [Hr Hk]. destruct (is_status sys (pr_id c) r) eqn:E; [|by apply IH].
  apply is_status_key in E. assert (List.filter (is_status sys (pr_id c)) l = []) as ->; [|done].
  destruct (List.filter _ l) as [|x l'] eqn:Ef; [done|]. assert (Hx : In x (x :: l')) by by left. rewrite <-Ef in Hx. apply filter_In in Hx as [Hx Ex%is_status_key].
  destruct Hr. rewrite E, <-Ex. by apply (list_elem_of_fmap_2 status_key), list_elem_of_In.
Qed.

Lemma practice_scored states sources c : str_truthy (pr_control_id c) = true ->
  (forall st, states !! pr_control_id c = Some st -> mem st STATES = true) ->
  exists r, score_control states sources "not_assessed" (practice_ref c) = Some r /\
    cs_deduction r = deduction_for (Some (pr_point_value c)) (Some (default "not_assessed" (states !! pr_control_id c))).
Proof.
  intros Hc Hst. unfold score_control, practice_ref. cbn [dget]. rewrite !decide_True by done. cbn [default from_option id py_str]. rewrite Hc.
  eexists. split; [reflexivity|]. cbn [cs_deduction].
  assert (Hs : (if mem (default "not_assessed" (states !! pr_control_id c)) STATES then default "not_assessed" (states !! pr_control_id c) else "not_assessed") =
    default "not_assessed" (states !! pr_control_id c)).
  { destruct (states !! pr_control_id c) as [st|]; [|done]. cbn [default from_option id]. by rewrite (Hst st eq_refl). }
  rewrite Hs. rewrite decide_False, decide_False, decide_True by done. cbn [default from_option id]. unfold truthy.
  destruct (str_truthy (pr_point_value c)) eqn:E; unfold deduction_for; rewrite normalize_idemp; [done|].
  destruct (pr_point_value c) as [|x v]; [done|discriminate E].
Qed.

(** the score board and the impact list agree. The deductions of [control_impact] add up
    to those of the SPRS summary, so the score is 110 less that sum, floored; all of it is
    recoverable by implementing; and the list holds every practice once, the ones worth
    most first. *)
Theorem impact_is_the_score sys s : scored_wf s ->
  (forall c, c ∈ sd_practices s -> str_truthy (pr_control_id c) = true) ->
  (forall r, r ∈ sd_statuses s -> mem (st_state r) STATES = true) ->
  let '(total, recoverable, rows) := control_impact sys s in
  total = deductions_total (system_score_summary sys s) /\ recoverable = total /\ score (system_score_summary sys s) = Z.max SPRS_FLOOR (MAX_SPRS_SCORE - total) /\
  rows ≡ₚ map (impact_row sys (sd_statuses s)) (sd_practices s) /\ StronglySorted (fun a b => im_gain b <= im_gain a) rows /\
  (forall x, x ∈ rows -> 0 <= im_gain x <= 5).
Proof.
  intros Hw Hc Hst. unfold control_impact. set (rows := map _ _). set (sorted := stable_sort _ rows).
  assert (Hp : sorted ≡ₚ rows) by apply stable_sort_perm.
  assert (Hg : forall x, x ∈ sorted -> im_gain x = im_current_deduction x /\ 0 <= im_gain x <= 5).
  { intros x Hx. rewrite Hp in Hx. apply list_elem_of_fmap in Hx as (c & -> & _). cbn. change (deduction_for _ (Some "implemented")) with 0.
    split; [lia|]. set (st := state_of _ _ _). pose proof (deduction_bounds (Some (pr_point_value c)) (Some st)).
    destruct (normalize_cases (Some (pr_point_value c))) as (b & q & Hb & _ & _ & ?). rewrite Hb in *. cbn in *. lia. }
  assert (Hsum : forall (f : ControlImpact -> Z) l k, l ≡ₚ k -> lsum f l = lsum f k).
  { intros f l k H. induction H as [|? ? ? _ IH|? ? ?|? ? ? _ IH1 _ IH2]; unfold lsum in *; cbn [foldr]; [done|by rewrite IH|lia|congruence]. }
  assert (Ht : lsum im_current_deduction sorted = deductions_total (system_score_summary sys s)).
  { rewrite (Hsum _ _ _ Hp). unfold system_score_summary. rewrite score_system_deductions. unfold scored, rows.
    set (states := dict_of _). set (sources := dict_of _).
    assert (Hd : forall l, (forall c, c ∈ l -> c ∈ sd_practices s) -> lsum im_current_deduction (map (impact_row sys (sd_statuses s)) l) =
      lsum cs_deduction (omap (score_control states sources "not_assessed") (map practice_ref l))).
    { induction l as [|c l IH]; intros Hl; [done|]. cbn [map omap list_omap].
      destruct (practice_scored states sources c) as (r & Er & Ed); [apply Hc, Hl; by left| |].
      - intros st Est. unfold states in Est. rewrite recorded_lookup in Est; [|done|apply Hl; by left]. apply fmap_Some in Est as (x & Hx & ->).
        apply Hst. by apply status_at_elem in Hx as [? _]; [|apply Hw].
      - rewrite Er. cbn [lsum foldr]. unfold lsum in IH. rewrite IH by (intros; apply Hl; by right). f_equal. rewrite Ed. cbn.
        unfold states. rewrite recorded_lookup by (done || (apply Hl; by left)). by rewrite state_of_status. }
    by apply Hd. }
  split; [exact Ht|]. split; [apply lsum_ext; intros x Hx; by apply Hg|]. split; [rewrite Ht; reflexivity|]. split; [exact Hp|]. split.
  - assert (H : StronglySorted (fun a b => (im_gain b <=? im_gain a) = true) sorted).
    { apply stable_sort_sorted; intros; rewrite ?Z.leb_le in *; lia. }
    clear -H. induction H as [|a l _ IH Ha]; constructor; [done|]. eapply Forall_impl; [exact Ha|]. intros b. cbn. by rewrite Z.leb_le.
  - intros x Hx. by apply Hg.
Qed.

(** ** One responsibility, two documents *)

(** The origination an SSP entry takes from a derivation, and the one its seeding gives. *)
Definition overlay_origination (resp : string) : list string := default [] (dget resp RESP_TO_ORIGINATION).

Lemma hyperscaler_codes pl : mem pl ["azure_gov"; "aws_govcloud"; "gcp"] = true -> pl = "azure_gov" \/ pl = "aws_govcloud" \/ pl = "gcp".
Proof. rewrite mem_true, !elem_of_cons, elem_of_nil. tauto. Qed.
Lemma hyperscaler_agrees pl ssp c : mem pl ["azure_gov"; "aws_govcloud"; "gcp"] = true -> dget pl PLATFORM_TO_SSP = Some ssp -> upper (pr_domain c) = pr_domain c ->
  overlay_origination (platform_state (Some pl) c).1.2 = platform_origination ssp (pr_m365_coverage_status c) (Some (pr_domain c)).
Proof.
  intros Hpl Hssp Hu. assert (exists t, dget pl PLATFORM_DOMAIN = Some t /\ pl <> "m365_gcc_high" /\ mem ssp HYPERSCALERS = true /\
    t = map (fun d => (d.1, (default "" (dget d.2 RESP_TO_STATE), d.2))) HYPERSCALER_DOMAIN_RESPONSIBILITY) as (t & Et & Hne & Hs & ->).
  { apply hyperscaler_codes in Hpl as [ ->|[ ->| ->]];
      vm_compute in Hssp; injection Hssp as <-; eexists; (split; [vm_compute; reflexivity|]); done. }
  assert (Hssp' : ssp <> "m365" /\ ssp <> NO_PLATFORM).
  { split; intros ->; vm_compute in Hs; discriminate Hs. }
  unfold platform_state, platform_origination, platform_responsibility, responsibility_for, template_entries. cbn [or_empty default from_option id].
  rewrite Et, Hu. rewrite (bool_decide_eq_false_2 (Some pl = _)) by congruence. rewrite !(bool_decide_eq_false_2 (ssp = _)) by tauto.
  rewrite !(bool_decide_eq_true_2 (FRAMEWORK_CMMC = _)) by done. cbn [negb]. rewrite Hs.
  generalize (pr_domain c). intros dom. unfold HYPERSCALER_DOMAIN_RESPONSIBILITY. cbn [map dget List.find fst snd template_entry re_domain].
  repeat match goal with |- context [decide (dom = ?k)] =>
    destruct (decide (dom = k)) as [ ->|?]; [reflexivity|rewrite !(bool_decide_eq_false_2 (Some k = Some dom)) by congruence] end. reflexivity.
Qed.

(** the derivation and the SSP tell one story about who a practice falls to: for every
    declared platform except Microsoft 365, known or not or none at all, the origination a
    project inherits from the derivation is the one its seeding gives for the platform
    the project is filed under; for Microsoft 365 this holds exactly of the practices whose
    coverage is provided, shared or the customer's. *)
Theorem origination_agrees p c : upper (pr_domain c) = pr_domain c ->
  let derived := overlay_origination (platform_state (sp_cloud_platform p) c).1.2 in
  let seeded := platform_origination (ssp_platform_for p).1 (pr_m365_coverage_status c) (Some (pr_domain c)) in
  if bool_decide (sp_cloud_platform p = Some "m365_gcc_high")
  then derived = seeded <-> mem (or_empty (pr_m365_coverage_status c)) ["Shared Coverage"; "Customer Responsibility"; "Microsoft Coverage"] = true
  else derived = seeded.
Proof.
  intros Hu. cbv zeta. case_bool_decide as Hm.
  - unfold ssp_platform_for. rewrite Hm. unfold platform_state. rewrite bool_decide_eq_true_2 by done. cbn [or_empty default from_option id].
    unfold platform_origination. rewrite bool_decide_eq_true_2 by done. unfold default_origination. fold (or_empty (pr_m365_coverage_status c)).
    generalize (or_empty (pr_m365_coverage_status c)). intros cov. unfold COVERAGE_TO_STATE, COVERAGE_TO_ORIGINATION. cbn [dget].
    repeat (case_decide; [subst cov; vm_compute; split; congruence|]). vm_compute (overlay_origination _). split; [done|]. intros Hc%mem_true.
    by repeat (apply elem_of_cons in Hc as [ ->|Hc]; [done|]); apply not_elem_of_nil in Hc.
  - destruct (sp_cloud_platform p) as [pl|] eqn:E; [|unfold ssp_platform_for; rewrite E; reflexivity].
    unfold ssp_platform_for. rewrite E. cbn [or_empty default from_option id]. destruct (mem pl ["azure_gov"; "aws_govcloud"; "gcp"]) eqn:Eh.
    + destruct (dget pl PLATFORM_TO_SSP) as [ssp|] eqn:Es; [by apply hyperscaler_agrees|]. by apply hyperscaler_codes in Eh as [ ->|[ ->| ->]].
    + assert (Ed : dget pl PLATFORM_DOMAIN = None).
      { destruct (dget pl PLATFORM_DOMAIN) eqn:Ed; [|done]. apply mem_false in Eh. destruct Eh. revert Ed. change PLATFORM_DOMAIN with (ltac:(let t := eval vm_compute in PLATFORM_DOMAIN in exact t)).
        cbn [dget]. repeat (destruct (decide (pl = _)) as [ ->|?]; [intros _; apply mem_true; reflexivity|]). done. }
      unfold platform_state. rewrite (bool_decide_eq_false_2 (Some pl = _)) by done. rewrite Ed. cbn [fst snd].
      unfold PLATFORM_TO_SSP. cbn [dget]. repeat (destruct (decide (pl = _)) as [ ->|?]; [first [done|by vm_compute in Eh]|]). reflexivity.
Qed.

(** ** A system on Azure that moves on-premises *)

Definition demo_practice (id : Z) (cid dom pv : string) : ScoringControl :=
  {| pr_id := id; pr_control_id := cid; pr_nist_id := None; pr_domain := dom; pr_title := Some "Practice"; pr_point_value := pv;
     pr_m365_coverage_status := None; pr_recommended_evidence := None |}.
Definition demo_status (sys id : Z) (state : string) : ScoringStatus :=
  {| st_system_id := sys; st_scoring_control_id := id; st_state := state; st_notes := None; st_evidence_ref := None; st_source := ASSESSED; st_derived_from := None |}.
Definition demo_profile (platform : option string) : SystemProfile :=
  {| sp_system_id := 2; sp_cloud_platform := platform; sp_connectivity := Some "wireless"; sp_endpoint_scope := ["mobile"]; sp_derivation := []; sp_derived_at := None |}.

(** Physical access is the provider's, account management was assessed, incident response is nobody's yet. *)
Definition demo_scored : Scored :=
  {| sd_db := empty_db; sd_vendors := [];
     sd_practices := [demo_practice 1 "PE.L2-3.10.1" "PE" "5"; demo_practice 2 "AC.L2-3.1.1" "AC" "5"; demo_practice 3 "IR.L2-3.6.1" "IR" "5"];
     sd_statuses := [demo_status 2 2 "implemented"; demo_status 7 1 "planned"] |}.

Lemma demo_scored_wf : scored_wf demo_scored.
Proof. split; apply (bool_decide_eq_true_1 (NoDup _)); vm_compute; reflexivity. Qed.


Lemma stored_score_witness :
  let '(r, _, s') := derive_system 2 (Some 1) (demo_profile (Some "azure_gov")) false None 60 0 demo_scored in rs_summary r = system_score_summary 2 s' /\ score (rs_summary r) = 105.
Proof.
  pose proof (derived_score_is_the_stored_score 2 (Some 1) (demo_profile (Some "azure_gov")) false None 60 0 demo_scored demo_scored_wf) as H. revert H.
  set (d := derive_system _ _ _ _ _ _ _ _). assert (E : score (rs_summary d.1.1) = 105) by (vm_compute; reflexivity).
  destruct d as [[r p'] s']. intros H. split; [exact H|exact E].
Defined.

(** The inherited credit stays after the system leaves the platform. *)
Lemma frozen_witness :
  let '(r, _, s') := derive_system 2 (Some 1) (demo_profile (Some "azure_gov")) false None 60 0 demo_scored in
  let '(r2, _, s2) := derive_system 2 (Some 1) (demo_profile (Some "none")) false None 70 1 (set_vendors [] s') in
  sd_statuses s2 = sd_statuses s' /\ rs_summary r2 = rs_summary r /\ score (rs_summary r) = 105 /\
  rule_state (demo_profile (Some "none")) [] ∅ (demo_practice 1 "PE.L2-3.10.1" "PE" "5") = "not_implemented".
Proof.
  pose proof (derived_states_are_frozen 2 (Some 1) (demo_profile (Some "azure_gov")) false None 60 0 demo_scored demo_scored_wf) as H. revert H.
  set (d := derive_system _ _ _ _ _ _ _ _). assert (E : score (rs_summary d.1.1) = 105) by (vm_compute; reflexivity).
  destruct d as [[r p'] s']. intros H. specialize (H (Some 1) (demo_profile (Some "none")) false None 70 1 []).
  destruct (derive_system _ _ _ _ _ _ _ _) as [[r2 q2] s2]. destruct H as [H1 H2]. split; [exact H1|]. split; [exact H2|]. split; [exact E|reflexivity].
Defined.

Lemma gaps_tracked_witness :
  let '(r, _, s') := derive_system 2 (Some 1) (demo_profile (Some "azure_gov")) true None 60 0 demo_scored in
  rs_poams_created r = 1 /\ "IR.L2-3.6.1 — Practice" ∈ titles_of 2 (sd_db s') /\
  let '(r2, _, _) := derive_system 2 (Some 1) (demo_profile (Some "azure_gov")) true None 61 1 (set_db (sd_db s') s') in rs_poams_created r2 = 0.
Proof.
  pose proof (gaps_are_tracked_once 2 (Some 1) (demo_profile (Some "azure_gov")) None 60 0 demo_scored demo_scored_wf) as H. revert H.
  set (d := derive_system _ _ _ _ _ _ _ _). assert (E : rs_poams_created d.1.1 = 1) by (vm_compute; reflexivity).
  destruct d as [[r p'] s']. intros (_ & Ht & _ & Hagain). split; [exact E|]. split.
  - apply (Ht (demo_practice 3 "IR.L2-3.6.1" "IR" "5")).
    assert (gaps 2 (Some 1) (demo_profile (Some "azure_gov")) demo_scored = [demo_practice 3 "IR.L2-3.6.1" "IR" "5"]) as -> by (vm_compute; reflexivity). by left.
  - specialize (Hagain None 61 1 (sd_db s') eq_refl). destruct (derive_system _ _ _ _ _ _ _ _) as [[r2 q2] s2]. apply Hagain.
Defined.

Lemma impact_witness : control_impact 2 demo_scored =
    (10, 10, [impact_row 2 (sd_statuses demo_scored) (demo_practice 1 "PE.L2-3.10.1" "PE" "5"); impact_row 2 (sd_statuses demo_scored) (demo_practice 3 "IR.L2-3.6.1" "IR" "5");
              impact_row 2 (sd_statuses demo_scored) (demo_practice 2 "AC.L2-3.1.1" "AC" "5")]) /\ score (system_score_summary 2 demo_scored) = 100.
Proof.
  assert (E : control_impact 2 demo_scored =
    (10, 10, [impact_row 2 (sd_statuses demo_scored) (demo_practice 1 "PE.L2-3.10.1" "PE" "5"); impact_row 2 (sd_statuses demo_scored) (demo_practice 3 "IR.L2-3.6.1" "IR" "5");
              impact_row 2 (sd_statuses demo_scored) (demo_practice 2 "AC.L2-3.1.1" "AC" "5")])) by (vm_compute; reflexivity).
  split; [exact E|]. pose proof (impact_is_the_score 2 demo_scored demo_scored_wf) as H. rewrite E in H. destruct H as (_ & _ & -> & _); [..|reflexivity].
  - intros c Hc. assert (Hall : forallb (fun c => str_truthy (pr_control_id c)) (sd_practices demo_scored) = true) by reflexivity.
    rewrite forallb_forall in Hall. by apply Hall, list_elem_of_In.
  - intros r Hr. assert (Hall : forallb (fun r => mem (st_state r) STATES) (sd_statuses demo_scored) = true) by reflexivity.
    rewrite forallb_forall in Hall. by apply Hall, list_elem_of_In.
Defined.

Lemma origination_witness : platform_origination "azure" None (Some "PE") = ["Inherited"] /\
  overlay_origination (platform_state (Some "azure_gov") (demo_practice 1 "PE.L2-3.10.1" "PE" "5")).1.2 = ["Inherited"].
Proof. pose proof (origination_agrees (demo_profile (Some "azure_gov")) (demo_practice 1 "PE.L2-3.10.1" "PE" "5") eq_refl) as H. split; [reflexivity|]. exact H. Defined.
