(* ===== verification/Scope.v ===== *)
(** Which providers a system is measured against ([src/src/ccf/posture/scope.py]): the
    scope of each, and what becomes of the checks of a provider out of scope.

    [run_at] is the time the database gives a result. *)

From S2P Require Import Derivation.
From S2P Require Export PostureScan.

Local Open Scope string_scope.
Local Open Scope Z_scope.

Definition NEVER_ASSESSED : list string := ["manual_review_required"; "not_tested"].
Definition CONNECTOR_PLATFORM : list (string * string) :=
  [("msgraph", "m365"); ("aws_govcloud", "aws_govcloud"); ("azure_arm", "azure"); ("gcp", "gcp")].

(** ** Scope *)

Record ProviderScope := { ps_connector : string; ps_in_scope : bool; ps_reason : string }.
Definition platform_of (cloud_platform : option string) : option string :=
  match cloud_platform with
  | Some c => if str_truthy c then dget (strip c) PLATFORM_TO_SSP else None
  | None => None
  end.
Definition platform_for_system (cloud_platform : option string) : option string :=
  match platform_of cloud_platform with
  | Some p => if str_truthy p && mem p (map snd CONNECTOR_PLATFORM) then Some p else None
  | None => None
  end.
Definition configured_connectors (organization_id : option Z) (db : Db) : list string :=
  match organization_id with
  | Some o => List.filter str_truthy (map cc_connector_type (List.filter (fun c => org_is (Some o) (cc_organization_id c)) (db_connectors db)))
  | None => []
  end.
(** The answer for one registered provider. *)
Definition scope_of (declared : option string) (configured : list string) (connector : string) : ProviderScope :=
  let shown := match declared with Some d => repr_str d | None => "None" end in
  let is_configured := mem connector configured in
  match dget connector CONNECTOR_PLATFORM with
  | None => {| ps_connector := connector; ps_in_scope := is_configured;
               ps_reason := if is_configured then "this organization has configured the " +:+ connector +:+ " connector"
                            else connector +:+ " maps to no cloud platform, so it is assessed only when this organization configures it" |}
  | Some connector_platform =>
      if bool_decide (platform_of declared = Some NO_PLATFORM) then
        {| ps_connector := connector; ps_in_scope := false;
           ps_reason := "this system's environment is " +:+ shown +:+ " (no cloud), so no cloud connector is assessed; change the system's environment to measure " +:+
                        connector_platform |}
      else match platform_for_system declared with
      | Some platform =>
          let matches := bool_decide (connector_platform = platform) in
          {| ps_connector := connector; ps_in_scope := matches;
             ps_reason := if matches then "this system's environment is " +:+ shown +:+ ", which is the " +:+ connector_platform +:+ " platform this connector assesses"
                          else "this system's environment is " +:+ shown +:+ "; " +:+ connector +:+ " assesses " +:+ connector_platform +:+
                               ", so its checks do not apply. Change the system's environment to measure it instead" |}
      | None =>
          if is_configured then
            {| ps_connector := connector; ps_in_scope := true;
               ps_reason := "this organization has configured the " +:+ connector +:+
                 " connector and this system declares no environment; set the system's environment to choose what is measured" |}
          else {| ps_connector := connector; ps_in_scope := false;
                  ps_reason := "this system declares no environment, so Concord cannot tell whether it uses " +:+ connector_platform +:+
                    "; set the system's environment or configure the " +:+ connector +:+ " connector" |}
      end
  end.
(** What the system's profile declares, and the answer for every known provider. *)
Definition declared_platform (system_id : Z) (profiles : list SystemProfile) : option string :=
  match List.find (fun p => sp_system_id p =? system_id) profiles with Some p => sp_cloud_platform p | None => None end.
Definition provider_scope (system_id : Z) (organization_id : option Z) (profiles : list SystemProfile) (db : Db) : list (string * ProviderScope) :=
  map (fun connector => (connector, scope_of (declared_platform system_id profiles) (configured_connectors organization_id db) connector)) known_providers.

(** ** Checks of a provider out of scope *)

Record OldCheck := { oc_check_key : string; oc_control_id : string; oc_connector : string }.
Definition old_check (connector_key : string) (t : PostureTest) : OldCheck :=
  {| oc_check_key := or_empty (ct_check_key (pt_test t)); oc_control_id := ct_control_id (pt_test t); oc_connector := connector_key |}.
Definition provider_test (system_id : Z) (connector_key : string) (t : PostureTest) : bool :=
  bool_decide (ct_system_id (pt_test t) = Some system_id) && bool_decide (ct_connector_type (pt_test t) = Some connector_key) &&
  bool_decide (ct_source (pt_test t) = "generated").
Definition results_of (test_id : Z) (db : Db) : list ControlTestResult := List.filter (fun r => ctr_test_id r =? test_id) (db_results db).

(** Nothing it recorded was an assessment, and no waiver names its check. *)
Definition retirable (db : Db) (t : PostureTest) : bool :=
  forallb (fun r => mem (ctr_status r) NEVER_ASSESSED) (results_of (ct_id (pt_test t)) db) &&
  negb (existsb (fun w => bool_decide (wv_check_key w = ct_check_key (pt_test t))) (db_waivers db)).
(** [session.delete(test)]: the row, its results and their resource rows. *)
Definition delete_test (t : PostureTest) (s : Scans) : Scans :=
  let i := ct_id (pt_test t) in
  let gone := map ctr_id (results_of i (sc_db s)) in
  set_tests (List.filter (fun u => negb (ct_id (pt_test u) =? i)) (sc_tests s))
    (set_db (set_resources (List.filter (fun r => negb (existsb (Z.eqb (crr_result_id r)) gone)) (db_resources (sc_db s)))
              (set_results (List.filter (fun r => negb (ctr_test_id r =? i)) (db_results (sc_db s))) (sc_db s))) s).
Fixpoint retire_tests (connector_key : string) (tests : list PostureTest) (s : Scans) : list OldCheck * Scans :=
  match tests with
  | [] => ([], s)
  | t :: rest =>
      if retirable (sc_db s) t then let '(out, s) := retire_tests connector_key rest (delete_test t s) in (old_check connector_key t :: out, s)
      else retire_tests connector_key rest s
  end.
Definition retire_out_of_scope_checks (system_id : Z) (connector_key : string) (s : Scans) : list OldCheck * Scans :=
  retire_tests connector_key (List.filter (provider_test system_id connector_key) (sc_tests s)) s.

Section withdrawal.
Variable run_at : ControlTestResult -> Z.
(** [ORDER BY run_at DESC, id DESC] *)
Definition result_newer (a b : ControlTestResult) : bool := (run_at b <? run_at a) || ((run_at b =? run_at a) && (ctr_id b <? ctr_id a)).
Definition latest_ref (test_id : Z) (db : Db) : option string := latest_of result_newer (results_of test_id db) ≫= ctr_evidence_ref.

Fixpoint withdraw_tests (connector_key reason actor : string) (now : Z) (tests : list PostureTest) (s : Scans) : res (list OldCheck * Scans) :=
  match tests with
  | [] => Ok ([], s)
  | t :: rest =>
      if bool_decide (latest_ref (ct_id (pt_test t)) (sc_db s) = Some OUT_OF_SCOPE_EVIDENCE_REF) then withdraw_tests connector_key reason actor now rest s
      else
        let! s := record t "not_applicable" (Some ("Not assessed for this system: " +:+ reason)) (Some OUT_OF_SCOPE_EVIDENCE_REF) actor 0 0 None [] false now s in
        let! r := withdraw_tests connector_key reason actor now rest s in Ok (old_check connector_key t :: r.1, r.2)
  end.
Definition withdraw_out_of_scope_checks (system_id : Z) (connector_key reason actor : string) (now : Z) (s : Scans) : res (list OldCheck * Scans) :=
  withdraw_tests connector_key reason actor now (List.filter (provider_test system_id connector_key) (sc_tests s)) s.

Record Applied := { ap_out_of_scope : list (string * string); ap_retired : list OldCheck; ap_withdrawn : list OldCheck }.
Fixpoint apply_scopes (system_id : Z) (actor : string) (now : Z) (scopes : list (string * ProviderScope)) (a : Applied) (s : Scans) : res (Applied * Scans) :=
  match scopes with
  | [] => Ok (a, s)
  | (key, p) :: rest =>
      if ps_in_scope p then apply_scopes system_id actor now rest a s else
      let '(retired, s) := retire_out_of_scope_checks system_id key s in
      let! w := withdraw_out_of_scope_checks system_id key (ps_reason p) actor now s in
      apply_scopes system_id actor now rest
        {| ap_out_of_scope := (ap_out_of_scope a ++ [(key, ps_reason p)])%list; ap_retired := (ap_retired a ++ retired)%list;
           ap_withdrawn := (ap_withdrawn a ++ w.1)%list |} w.2
  end.
Definition apply_provider_scope (system_id : Z) (organization_id : option Z) (profiles : list SystemProfile) (actor : string) (now : Z) (s : Scans) : res (Applied * Scans) :=
  apply_scopes system_id actor now (provider_scope system_id organization_id profiles (sc_db s))
    {| ap_out_of_scope := []; ap_retired := []; ap_withdrawn := [] |} s.
End withdrawal.

(** ** Lemmas on the tables *)

(** What says whose check a test is. *)
Definition placed (t : PostureTest) : Authored * option string := (authored t, ct_connector_type (pt_test t)).
Lemma placed_test system_id key t u : placed t = placed u -> provider_test system_id key t = provider_test system_id key u.
Proof. destruct t as [t], u as [u]. unfold placed, authored, provider_test. cbn. intros [= ? ? E1 ? ? ? ? ? E2 ? E3]. by rewrite E1, E2, E3. Qed.
Lemma placed_id t u : placed t = placed u -> ct_id (pt_test t) = ct_id (pt_test u).
Proof. unfold placed, authored. by intros [= ? _]. Qed.

Record scope_ok (s : Scans) : Prop := {
  so_wf : wf_scans s;
  so_new : forall r, r ∈ db_results (sc_db s) -> ctr_id r < db_seq (sc_db s);
  so_ref : forall r, r ∈ db_results (sc_db s) -> ctr_evidence_ref r = Some OUT_OF_SCOPE_EVIDENCE_REF -> ctr_status r = "not_applicable" }.
(** What neither retirement nor withdrawal touches. *)
Definition same_queue (s s' : Scans) : Prop :=
  same_work (sc_db s') (sc_db s) /\ db_waivers (sc_db s') = db_waivers (sc_db s) /\ db_connectors (sc_db s') = db_connectors (sc_db s) /\ same_tables s s'.
Lemma same_queue_refl s : same_queue s s.
Proof. done. Qed.
Lemma same_queue_trans s s' s'' : same_queue s s' -> same_queue s' s'' -> same_queue s s''.
Proof. unfold same_queue, same_work, same_tables. intros ([? ?] & ? & ? & ? & ?) ([? ?] & ? & ? & ? & ?). repeat split; congruence. Qed.

Lemma ids_unique s t u : wf_scans s -> t ∈ sc_tests s -> u ∈ sc_tests s -> ct_id (pt_test t) = ct_id (pt_test u) -> t = u.
Proof.
  intros [[Hids _ _] _ _] Ht Hu E. unfold all_authored in Hids. rewrite map_map in Hids. cbn in Hids. revert Ht Hu Hids. generalize (sc_tests s). intros l.
  induction l as [|x l IH]; intros Ht Hu Hn; [by apply not_elem_of_nil in Ht|]. cbn in Hn. apply NoDup_cons in Hn as [Hx Hn].
  apply elem_of_cons in Ht as [->|Ht], Hu as [->|Hu]; [done| | |by apply IH].
  - destruct Hx. rewrite E. exact (list_elem_of_fmap_2 (fun t => ct_id (pt_test t)) _ _ Hu).
  - destruct Hx. rewrite <-E. exact (list_elem_of_fmap_2 (fun t => ct_id (pt_test t)) _ _ Ht).
Qed.
Lemma store_elem s t u : wf_scans s -> u ∈ sc_tests s -> ct_id (pt_test t) = ct_id (pt_test u) ->
  forall x, x ∈ sc_tests (store_test t s) <-> x = t \/ (x ∈ sc_tests s /\ x <> u).
Proof.
  intros Hw Hu E x. unfold store_test, update_where. cbn [set_tests sc_tests]. rewrite list_elem_of_fmap. unfold same_row. split.
  - intros (y & -> & Hy). destruct (Z.eqb_spec (ct_id (pt_test y)) (ct_id (pt_test t))) as [Ey|Ey]; [by left|]. right. split; [done|]. intros ->. congruence.
  - intros [->|[Hx Hne]].
    + exists u. rewrite (proj2 (Z.eqb_eq _ _)) by done. done.
    + exists x. split; [|done]. destruct (Z.eqb_spec (ct_id (pt_test x)) (ct_id (pt_test t))) as [Ex|]; [|done]. destruct Hne. apply (ids_unique s); congruence.
Qed.
Lemma results_of_elem i db r : r ∈ results_of i db <-> r ∈ db_results db /\ ctr_test_id r = i.
Proof. unfold results_of. by rewrite !list_elem_of_In, filter_In, Z.eqb_eq. Qed.

(** ** Retirement *)

Lemma filter_filter_disjoint (i j : Z) l : i <> j ->
  List.filter (fun r => ctr_test_id r =? i) (List.filter (fun r => negb (ctr_test_id r =? j)) l) = List.filter (fun r => ctr_test_id r =? i) l.
Proof.
  intros Hij. induction l as [|r l IH]; [done|]. cbn [List.filter]. destruct (Z.eqb_spec (ctr_test_id r) j) as [E|E]; cbn [negb].
  - rewrite IH. by rewrite (proj2 (Z.eqb_neq _ _)) by congruence.
  - cbn [List.filter]. by rewrite IH.
Qed.
Lemma delete_results t s i : i <> ct_id (pt_test t) -> results_of i (sc_db (delete_test t s)) = results_of i (sc_db s).
Proof. intros H. unfold results_of, delete_test. cbn. by apply filter_filter_disjoint. Qed.
Lemma delete_retirable t s u : ct_id (pt_test u) <> ct_id (pt_test t) -> retirable (sc_db (delete_test t s)) u = retirable (sc_db s) u.
Proof. intros H. unfold retirable. by rewrite delete_results. Qed.
Lemma delete_elem t s u : u ∈ sc_tests (delete_test t s) <-> u ∈ sc_tests s /\ ct_id (pt_test u) <> ct_id (pt_test t).
Proof. unfold delete_test. cbn [set_tests sc_tests]. by rewrite !list_elem_of_In, filter_In, negb_true_iff, Z.eqb_neq. Qed.
Lemma delete_ok t s : scope_ok s -> scope_ok (delete_test t s) /\ same_queue s (delete_test t s).
Proof.
  intros [[[H1 H2 H3] Hc Hd] Hn Hr]. assert (Hsub : forall a, a ∈ all_authored (delete_test t s) -> a ∈ all_authored s).
  { intros a (u & -> & [Hu _]%delete_elem)%list_elem_of_fmap. by apply list_elem_of_fmap_2. }
  assert (Hres : forall r, r ∈ db_results (sc_db (delete_test t s)) -> r ∈ db_results (sc_db s)).
  { intros r. unfold delete_test. cbn. rewrite !list_elem_of_In, filter_In. by intros [? _]. }
  split; [|done]. split; [split; [split|done|by apply (wf_db_ext _ (sc_db s))]| |].
  - eapply sublist_NoDup; [exact H1|]. unfold all_authored, delete_test. cbn. apply (fmap_sublist au_id), (fmap_sublist authored), bool_filter_sublist.
  - intros a Ha. cbn. by apply H2, Hsub.
  - intros a b Ha Hb. apply H3; by apply Hsub.
  - intros r Hin. cbn. by apply Hn, Hres.
  - intros r Hin. by apply Hr, Hres.
Qed.

(** A test goes exactly when it is asked about and never held a verdict. *)
Lemma retire_tests_spec key tests s : scope_ok s -> NoDup (map (fun t => ct_id (pt_test t)) tests) ->
  let '(out, s') := retire_tests key tests s in scope_ok s' /\ same_queue s s' /\
    (forall u, u ∈ sc_tests s' <-> u ∈ sc_tests s /\ ~ exists t, t ∈ tests /\ ct_id (pt_test t) = ct_id (pt_test u) /\ retirable (sc_db s) t = true) /\
    (forall u, u ∈ sc_tests s' -> results_of (ct_id (pt_test u)) (sc_db s') = results_of (ct_id (pt_test u)) (sc_db s)) /\
    ((forall t, t ∈ tests -> retirable (sc_db s) t = false) -> out = [] /\ s' = s).
Proof.
  revert s. induction tests as [|t tests IH]; intros s Hok Hn; cbn [retire_tests].
  { split_and!; try done. intros u. split; [|by intros [? _]]. intros Hu. split; [done|]. by intros (? & ?%not_elem_of_nil & _). }
  cbn in Hn. apply NoDup_cons in Hn as [Ht Hn].
  assert (Hne : forall x, x ∈ tests -> ct_id (pt_test x) <> ct_id (pt_test t)).
  { intros x Hx E. apply Ht. rewrite <-E. exact (list_elem_of_fmap_2 (fun t => ct_id (pt_test t)) _ _ Hx). }
  destruct (retirable (sc_db s) t) eqn:Er.
  - destruct (delete_ok t s Hok) as [Hok1 Hq1]. specialize (IH (delete_test t s) Hok1 Hn). destruct (retire_tests key tests (delete_test t s)) as [out s'].
    destruct IH as (H1 & H2 & H3 & H4 & _). split; [done|]. split; [by eapply same_queue_trans|]. split_and!.
    + intros u. rewrite H3, delete_elem. setoid_rewrite elem_of_cons. split.
      * intros [[Hu Hd] Hno]. split; [done|]. intros (x & [->|Hx] & E & Hx'); [congruence|]. apply Hno. exists x. by rewrite delete_retirable by auto.
      * intros [Hu Hno]. split; [split; [done|intros E; apply Hno; exists t; auto]|]. intros (x & Hx & E & Hx'). apply Hno. exists x. rewrite delete_retirable in Hx' by auto. auto.
    + intros u Hu. rewrite (H4 u Hu). apply delete_results. apply H3 in Hu as [[_ Hd]%delete_elem _]. done.
    + intros Hall. specialize (Hall t (list_elem_of_here _ _)). congruence.
  - specialize (IH s Hok Hn). destruct (retire_tests key tests s) as [out s']. destruct IH as (H1 & H2 & H3 & H4 & H5). split_and!; try done.
    + intros u. rewrite H3. setoid_rewrite elem_of_cons. split; intros [Hu Hno]; (split; [done|]); intros (x & Hx & E & Hx'); apply Hno; exists x; [destruct Hx as [->|]; [congruence|done]|auto].
    + intros Hall. apply H5. intros x Hx. apply Hall. by right.
Qed.

(** ** Withdrawal *)

Section withdrawing.
Context (run_at : ControlTestResult -> Z).
(** A later row is not given an earlier time. *)
Hypothesis run_at_mono : forall a b, ctr_id a < ctr_id b -> run_at a <= run_at b.

Definition settled (i : Z) (s : Scans) : Prop := latest_ref run_at i (sc_db s) = Some OUT_OF_SCOPE_EVIDENCE_REF.
Lemma result_newer_asym a b : result_newer run_at a b = true -> result_newer run_at b a = false.
Proof. unfold result_newer. rewrite orb_true_iff, orb_false_iff, andb_true_iff, andb_false_iff, !Z.ltb_lt, !Z.ltb_ge, !Z.eqb_eq, !Z.eqb_neq. lia. Qed.
Lemma not_result_newer_trans a b c : result_newer run_at a b = false -> result_newer run_at b c = false -> result_newer run_at a c = false.
Proof. unfold result_newer. rewrite !orb_false_iff, !andb_false_iff, !Z.ltb_ge, !Z.eqb_neq. lia. Qed.
Lemma latest_appended l r : (forall x, x ∈ l -> ctr_id x < ctr_id r) -> latest_of (result_newer run_at) (l ++ [r])%list = Some r.
Proof.
  intros Hl. pose proof (latest_of_spec _ result_newer_asym not_result_newer_trans (l ++ [r])%list) as H. destruct (latest_of _ _) as [b|]; [|by destruct l].
  destruct H as [Hin Hno]. apply elem_of_app in Hin as [Hb| ->%list_elem_of_singleton]; [|done]. exfalso.
  specialize (Hno r ltac:(apply elem_of_app; right; by left)). specialize (Hl b Hb). pose proof (run_at_mono b r Hl). unfold result_newer in Hno.
  rewrite orb_false_iff, andb_false_iff, !Z.ltb_ge, Z.eqb_neq in Hno. lia.
Qed.
Lemma settled_result i s : scope_ok s -> settled i s -> exists r, r ∈ results_of i (sc_db s) /\ ctr_status r = "not_applicable".
Proof.
  intros Hok Hs. unfold settled, latest_ref in Hs. pose proof (latest_of_spec _ result_newer_asym not_result_newer_trans (results_of i (sc_db s))) as H.
  destruct (latest_of _ _) as [r|]; [|done]. cbn in Hs. destruct H as [Hr _]. exists r. split; [done|]. apply results_of_elem in Hr as [Hr _]. by eapply so_ref.
Qed.
(** A withdrawn check is not retired afterwards. *)
Lemma settled_kept t s : scope_ok s -> settled (ct_id (pt_test t)) s -> retirable (sc_db s) t = false.
Proof.
  intros Hok (r & Hr & Es)%settled_result; [|done]. unfold retirable. apply andb_false_iff. left. apply not_true_iff_false. intros H.
  rewrite forallb_forall in H. apply list_elem_of_In in Hr. specialize (H r Hr). by rewrite Es in H.
Qed.

(** The row a withdrawal writes. *)
Definition withdrawn_result (t : ControlTest) (dtl : option string) (db : Db) : ControlTestResult :=
  {| ctr_id := db_seq db; ctr_test_id := ct_id t; ctr_status := "not_applicable"; ctr_detail := dtl; ctr_evidence_ref := Some OUT_OF_SCOPE_EVIDENCE_REF;
     ctr_evaluated := 0; ctr_failing := 0; ctr_waived := 0; ctr_expected := None |}.
Definition withdrawn_test (now : Z) (t : PostureTest) : PostureTest :=
  {| pt_test := set_last "not_applicable" now (pt_test t); pt_control_ids := pt_control_ids t; pt_description := pt_description t; pt_capability_id := pt_capability_id t |}.
Lemma withdrawal_record t dtl actor now s : exists db', record t "not_applicable" dtl (Some OUT_OF_SCOPE_EVIDENCE_REF) actor 0 0 None [] false now s =
    Ok (store_test (withdrawn_test now t) (set_db db' s)) /\
  db_results db' = (db_results (sc_db s) ++ [withdrawn_result (pt_test t) dtl (sc_db s)])%list /\ same_work db' (sc_db s) /\
  db_waivers db' = db_waivers (sc_db s) /\ db_connectors db' = db_connectors (sc_db s) /\ db_seq (sc_db s) < db_seq db' /\ (wf_db (sc_db s) -> wf_db db').
Proof.
  eexists. split; [reflexivity|]. unfold same_work. cbn. split_and!; try done; [lia|]. intros H. by apply (wf_db_ext _ (sc_db s)).
Qed.
Lemma withdrawal_spec t dtl actor now s : scope_ok s -> t ∈ sc_tests s ->
  exists s' r, record t "not_applicable" dtl (Some OUT_OF_SCOPE_EVIDENCE_REF) actor 0 0 None [] false now s = Ok s' /\ scope_ok s' /\ same_queue s s' /\
    (forall x, x ∈ sc_tests s' <-> x = withdrawn_test now t \/ (x ∈ sc_tests s /\ x <> t)) /\
    db_results (sc_db s') = (db_results (sc_db s) ++ [r])%list /\ ctr_test_id r = ct_id (pt_test t) /\ settled (ct_id (pt_test t)) s'.
Proof.
  intros [Hw Hn Hr] Ht. destruct (withdrawal_record t dtl actor now s) as (db' & E & Eres & Hq & Ewv & Ecn & Hseq & Hwf).
  set (r := withdrawn_result _ _ _) in *. set (s' := store_test _ _) in *. exists s', r. split; [done|].
  assert (Hw1 : wf_scans (set_db db' s)) by (destruct Hw as [? ? ?]; split; auto).
  assert (Ea : all_authored s' = all_authored s) by (apply (store_authored (set_db db' s)); [done|]; change (authored t ∈ all_authored s); by apply list_elem_of_fmap_2).
  assert (Hres : forall x, x ∈ db_results (sc_db s') -> x ∈ db_results (sc_db s) \/ x = r).
  { intros x. change (db_results (sc_db s')) with (db_results db'). rewrite Eres, elem_of_app, list_elem_of_singleton. done. }
  split_and!; try done.
  - split; [destruct Hw1 as [? ? ?]; split; try done; by rewrite Ea| |].
    + change (db_seq (sc_db s')) with (db_seq db'). intros x [Hx| ->]%Hres; [specialize (Hn x Hx); lia|]. done.
    + intros x [Hx| ->]%Hres; [by apply Hr|done].
  - apply (store_elem (set_db db' s)); [done|done|done].
  - unfold settled, latest_ref, results_of. change (db_results (sc_db s')) with (db_results db'). rewrite Eres, List.filter_app. cbn [List.filter].
    change (ctr_test_id r) with (ct_id (pt_test t)). rewrite Z.eqb_refl, latest_appended; [done|]. intros x Hx. apply results_of_elem in Hx as [Hx _]. by apply Hn.
Qed.
Lemma results_appended i s s' r : db_results (sc_db s') = (db_results (sc_db s) ++ [r])%list -> ctr_test_id r <> i -> results_of i (sc_db s') = results_of i (sc_db s).
Proof. intros E H. unfold results_of. rewrite E, List.filter_app. cbn [List.filter]. rewrite (proj2 (Z.eqb_neq _ _) H). apply app_nil_r. Qed.
Lemma settled_same i s s' : results_of i (sc_db s') = results_of i (sc_db s) -> settled i s -> settled i s'.
Proof. unfold settled, latest_ref. by intros ->. Qed.

(** Every check asked about ends withdrawn; no other row moves. *)
Lemma withdraw_tests_spec key reason actor now tests s : scope_ok s -> NoDup (map (fun t => ct_id (pt_test t)) tests) -> (forall t, t ∈ tests -> t ∈ sc_tests s) ->
  exists out s', withdraw_tests run_at key reason actor now tests s = Ok (out, s') /\ scope_ok s' /\ same_queue s s' /\
    (forall t, t ∈ tests -> settled (ct_id (pt_test t)) s') /\
    (forall x, x ∈ sc_tests s -> x ∉ tests -> x ∈ sc_tests s') /\
    (forall x, x ∈ sc_tests s' -> exists y, y ∈ sc_tests s /\ placed x = placed y) /\
    (forall y, y ∈ sc_tests s -> exists x, x ∈ sc_tests s' /\ placed x = placed y) /\
    (forall i, i ∉ map (fun t => ct_id (pt_test t)) tests -> results_of i (sc_db s') = results_of i (sc_db s)) /\
    ((forall t, t ∈ tests -> settled (ct_id (pt_test t)) s) -> out = [] /\ s' = s).
Proof.
  revert s. induction tests as [|t tests IH]; intros s Hok Hnd Hin; cbn [withdraw_tests].
  { exists [], s. split_and!; try done; [by intros ? ?%not_elem_of_nil|intros x Hx; by exists x|intros x Hx; by exists x]. }
  cbn [map] in Hnd. apply NoDup_cons in Hnd as [Ht Hnd]. case_bool_decide as Hset.
  - destruct (IH s Hok Hnd (fun x Hx => Hin x (list_elem_of_further _ _ _ Hx))) as (out & s' & E & H1 & H2 & H3 & H4 & H5 & H6 & H7 & H8). exists out, s'. split_and!; try done.
    + intros x [->|Hx]%elem_of_cons; [|by apply H3]. eapply settled_same; [by apply H7|exact Hset].
    + intros x Hx Hno. apply H4; [done|]. intros Hx'. apply Hno. by right.
    + intros i Hi. apply H7. intros Hi'. apply Hi. cbn. by right.
    + intros Hall. apply H8. intros x Hx. apply Hall. by right.
  - assert (Hts : t ∈ sc_tests s) by (apply Hin; by left).
    destruct (withdrawal_spec t (Some ("Not assessed for this system: " +:+ reason)) actor now s Hok Hts) as (s1 & r & E1 & Hok1 & Hq1 & Hel & Hres & Er & Hs1).
    rewrite E1. cbn [res_bind].
    assert (Hne : forall x, x ∈ tests -> x <> t).
    { intros x Hx ->. apply Ht. exact (list_elem_of_fmap_2 (fun t => ct_id (pt_test t)) _ _ Hx). }
    destruct (IH s1 Hok1 Hnd) as (out & s' & E & H1 & H2 & H3 & H4 & H5 & H6 & H7 & H8).
    { intros x Hx. apply Hel. right. split; [apply Hin; by right|by apply Hne]. }
    rewrite E. cbn [res_bind fst snd]. eexists _, s'. split; [reflexivity|]. split; [done|]. split; [by eapply same_queue_trans|]. split_and!.
    + intros x [->|Hx]%elem_of_cons; [|by apply H3]. eapply settled_same; [by apply H7|done].
    + intros x Hx Hno. apply H4; [apply Hel; right; split; [done|intros ->; apply Hno; by left]|]. intros Hx'. apply Hno. by right.
    + intros x Hx. destruct (H5 x Hx) as (y & Hy & Ey). apply Hel in Hy as [->|[Hy _]]; [exists t|exists y]; done.
    + intros y Hy. destruct (decide (ct_id (pt_test y) = ct_id (pt_test t))) as [Eid|Eid].
      * assert (y = t) as -> by (eapply ids_unique; [by destruct Hok|done|done|done]). destruct (H6 (withdrawn_test now t)) as (x & Hx & Ex); [apply Hel; by left|]. by exists x.
      * destruct (H6 y) as (x & Hx & Ex); [apply Hel; right; split; [done|congruence]|]. by exists x.
    + intros i Hi. cbn in Hi. rewrite H7; [|intros Hi'; apply Hi; by right]. eapply results_appended; [done|]. rewrite Er. intros <-. apply Hi. by left.
    + intros Hall. destruct Hset. by apply Hall, list_elem_of_here.
Qed.

(** ** One provider leaving scope *)

Record left_scope (system_id : Z) (key : string) (s s' : Scans) : Prop := {
  ls_ok : scope_ok s';
  ls_queue : same_queue s s';
  ls_kept : forall t, t ∈ sc_tests s -> provider_test system_id key t = false -> t ∈ sc_tests s' /\
            results_of (ct_id (pt_test t)) (sc_db s') = results_of (ct_id (pt_test t)) (sc_db s);
  ls_old : forall t', t' ∈ sc_tests s' -> exists t, t ∈ sc_tests s /\ placed t' = placed t;
  ls_gone : forall t, t ∈ sc_tests s -> retirable (sc_db s) t = false -> exists t', t' ∈ sc_tests s' /\ placed t' = placed t;
  ls_settled : forall t', t' ∈ sc_tests s' -> provider_test system_id key t' = true -> settled (ct_id (pt_test t')) s' }.

Lemma provider_tests_nodup system_id key s : scope_ok s -> NoDup (map (fun t => ct_id (pt_test t)) (List.filter (provider_test system_id key) (sc_tests s))).
Proof.
  intros [[[Hids _ _] _ _] _ _]. unfold all_authored in Hids. rewrite map_map in Hids. eapply sublist_NoDup; [exact Hids|].
  apply (fmap_sublist (fun t => ct_id (pt_test t))), bool_filter_sublist.
Qed.
Lemma provider_tests_elem system_id key s t : t ∈ List.filter (provider_test system_id key) (sc_tests s) <-> t ∈ sc_tests s /\ provider_test system_id key t = true.
Proof. by rewrite !list_elem_of_In, filter_In. Qed.

Lemma leave_scope system_id key reason actor now s : scope_ok s ->
  let '(retired, s1) := retire_out_of_scope_checks system_id key s in
  exists out s', withdraw_out_of_scope_checks run_at system_id key reason actor now s1 = Ok (out, s') /\ left_scope system_id key s s' /\
    ((forall t, t ∈ sc_tests s -> provider_test system_id key t = true -> settled (ct_id (pt_test t)) s) -> retired = [] /\ out = [] /\ s' = s).
Proof.
  intros Hok. unfold retire_out_of_scope_checks.
  pose proof (retire_tests_spec key (List.filter (provider_test system_id key) (sc_tests s)) s Hok (provider_tests_nodup _ _ _ Hok)) as H.
  destruct (retire_tests _ _ _) as [retired s1]. destruct H as (Hok1 & Hq1 & Hel & Hres & Hnop). unfold withdraw_out_of_scope_checks.
  destruct (withdraw_tests_spec key reason actor now (List.filter (provider_test system_id key) (sc_tests s1)) s1 Hok1 (provider_tests_nodup _ _ _ Hok1))
    as (out & s' & E & H1 & H2 & H3 & H4 & H5 & H6 & H7 & H8); [by intros t [? _]%provider_tests_elem|].
  exists out, s'. split; [done|]. split.
  - split; [done|by eapply same_queue_trans|..].
    + intros t Ht Hp. assert (Ht1 : t ∈ sc_tests s1).
      { apply Hel. split; [done|]. intros (x & [Hx Hpx]%provider_tests_elem & Eid & _). rewrite (ids_unique s x t) in Hpx; [congruence|by destruct Hok|done|done|done]. }
      split; [apply H4; [done|]; intros [_ ?]%provider_tests_elem; congruence|]. rewrite H7; [by apply Hres|].
      intros (x & Eid & [Hx Hpx]%provider_tests_elem)%list_elem_of_fmap. rewrite (ids_unique s1 x t) in Hpx; [congruence|by destruct Hok1|done|done|done].
    + intros t' (y & Hy & Ey)%H5. exists y. split; [|done]. by apply Hel in Hy as [Hy _].
    + intros t Ht Hr. destruct (H6 t) as (x & Hx & Ex); [|by exists x]. apply Hel. split; [done|].
      intros (x & [Hx _]%provider_tests_elem & Eid & Hrx). rewrite (ids_unique s x t) in Hrx; [congruence|by destruct Hok|done|done|done].
    + intros t' Ht' Hp. destruct (H5 t' Ht') as (y & Hy & Ey). rewrite (placed_id _ _ Ey). apply H3, provider_tests_elem. split; [done|]. by rewrite <-(placed_test _ _ _ _ Ey).
  - intros Hall. destruct Hnop as [-> ->]; [intros t [Ht Hp]%provider_tests_elem; apply settled_kept; [done|by apply Hall]|].
    destruct H8 as [-> ->]; [|done]. intros t [Ht Hp]%provider_tests_elem. by apply Hall.
Qed.

(** ** All of them *)

Lemma other_provider system_id key key' t : key <> key' -> provider_test system_id key t = true -> provider_test system_id key' t = false.
Proof.
  unfold provider_test. rewrite !andb_true_iff, !bool_decide_eq_true. intros Hk [[_ E] _]. rewrite E. rewrite (bool_decide_eq_false_2 (Some key = _)) by congruence. by rewrite andb_false_r.
Qed.
Definition out_of_scope (scopes : list (string * ProviderScope)) (key : string) : Prop := exists p, (key, p) ∈ scopes /\ ps_in_scope p = false.
Definition leaving (system_id : Z) (scopes : list (string * ProviderScope)) (t : PostureTest) : Prop :=
  exists key, out_of_scope scopes key /\ provider_test system_id key t = true.

Record scopes_applied (system_id : Z) (scopes : list (string * ProviderScope)) (s s' : Scans) : Prop := {
  sa_ok : scope_ok s';
  sa_queue : same_queue s s';
  sa_kept : forall t, t ∈ sc_tests s -> ~ leaving system_id scopes t -> t ∈ sc_tests s' /\
            results_of (ct_id (pt_test t)) (sc_db s') = results_of (ct_id (pt_test t)) (sc_db s);
  sa_old : forall t', t' ∈ sc_tests s' -> exists t, t ∈ sc_tests s /\ placed t' = placed t;
  sa_gone : forall t, t ∈ sc_tests s -> retirable (sc_db s) t = false -> exists t', t' ∈ sc_tests s' /\ placed t' = placed t;
  sa_settled : forall t', t' ∈ sc_tests s' -> leaving system_id scopes t' -> settled (ct_id (pt_test t')) s' }.

Lemma out_of_scope_cons scopes key p k : out_of_scope ((key, p) :: scopes) k <-> (k = key /\ ps_in_scope p = false) \/ out_of_scope scopes k.
Proof.
  unfold out_of_scope. setoid_rewrite elem_of_cons. split.
  - intros (q & [[= -> ->]|Hq] & Hs); [by left|right; by exists q].
  - intros [[-> Hs]|(q & Hq & Hs)]; [exists p; auto|exists q; auto].
Qed.
Lemma leaving_cons system_id scopes key p t : leaving system_id ((key, p) :: scopes) t <->
  (ps_in_scope p = false /\ provider_test system_id key t = true) \/ leaving system_id scopes t.
Proof.
  unfold leaving. setoid_rewrite out_of_scope_cons. split.
  - intros (k & [[-> Hs]|Ho] & Ht); [by left|right; by exists k].
  - intros [[Hs Ht]|(k & Ho & Ht)]; [exists key; auto|exists k; auto].
Qed.
Lemma leaving_placed system_id scopes t u : placed t = placed u -> leaving system_id scopes t -> leaving system_id scopes u.
Proof. intros E (k & Hk & Ht). exists k. split; [done|]. by rewrite <-(placed_test _ _ _ _ E). Qed.
Lemma retirable_same db db' t : results_of (ct_id (pt_test t)) db' = results_of (ct_id (pt_test t)) db -> db_waivers db' = db_waivers db -> retirable db' t = retirable db t.
Proof. intros E1 E2. unfold retirable. by rewrite E1, E2. Qed.

Lemma scopes_applied_in system_id key p scopes s s' : ps_in_scope p = true -> scopes_applied system_id scopes s s' -> scopes_applied system_id ((key, p) :: scopes) s s'.
Proof.
  intros Hp [H1 H2 H3 H4 H5 H6].
  assert (Hl : forall t, leaving system_id ((key, p) :: scopes) t <-> leaving system_id scopes t) by (intros t; rewrite leaving_cons; naive_solver congruence).
  split; try done; intros t Ht; rewrite Hl; auto.
Qed.
Lemma scopes_applied_out system_id key p scopes s s1 s' : ps_in_scope p = false -> key ∉ map fst scopes ->
  left_scope system_id key s s1 -> scopes_applied system_id scopes s1 s' -> scopes_applied system_id ((key, p) :: scopes) s s'.
Proof.
  intros Hp Hk [L1 L2 L3 L4 L5 L6] [A1 A2 A3 A4 A5 A6].
  assert (Hno : forall t, provider_test system_id key t = true -> ~ leaving system_id scopes t).
  { intros t Ht (k & (q & Hq & _) & Hkt). destruct (decide (key = k)) as [<-|Hne]; [by apply Hk, (list_elem_of_fmap_2 fst _ _ Hq)|].
    by rewrite (other_provider system_id key k t Hne Ht) in Hkt. }
  split; [done|by eapply same_queue_trans|..].
  - intros t Ht Hl. rewrite leaving_cons in Hl. assert (Hpt : provider_test system_id key t = false) by (apply not_true_iff_false; naive_solver).
    destruct (L3 t Ht Hpt) as [Ht1 Er1]. destruct (A3 t Ht1) as [Ht' Er']; [naive_solver|]. split; [done|congruence].
  - intros t' (t1 & Ht1 & E1)%A4. destruct (L4 t1 Ht1) as (t & Ht & E). exists t. split; [done|congruence].
  - intros t Ht Hr. destruct (provider_test system_id key t) eqn:Hpt.
    + destruct (L5 t Ht Hr) as (t1 & Ht1 & E1). destruct (A5 t1 Ht1) as (t' & Ht' & E'); [|exists t'; split; [done|congruence]].
      apply settled_kept; [done|]. apply L6; [done|]. by rewrite (placed_test _ _ _ _ E1).
    + destruct (L3 t Ht Hpt) as [Ht1 Er1]. apply A5; [done|]. rewrite (retirable_same _ _ _ Er1); [done|]. by destruct L2 as (_ & ? & _).
  - intros t' Ht' [[_ Hpt]|Hl]%leaving_cons; [|by apply A6]. destruct (A4 t' Ht') as (t1 & Ht1 & E1). rewrite (placed_test _ _ _ _ E1) in Hpt.
    destruct (A3 t1 Ht1 (Hno t1 Hpt)) as [Ht1' Er]. rewrite (placed_id _ _ E1). eapply settled_same; [exact Er|]. by apply L6.
Qed.
Lemma apply_scopes_spec system_id actor now scopes a s : NoDup (map fst scopes) -> scope_ok s ->
  exists a' s', apply_scopes run_at system_id actor now scopes a s = Ok (a', s') /\ scopes_applied system_id scopes s s' /\
    ((forall t, t ∈ sc_tests s -> leaving system_id scopes t -> settled (ct_id (pt_test t)) s) -> ap_retired a' = ap_retired a /\ ap_withdrawn a' = ap_withdrawn a /\ s' = s).
Proof.
  revert a s. induction scopes as [|[key p] scopes IH]; intros a s Hnd Hok; cbn [apply_scopes].
  { exists a, s. split; [done|]. split; [|done]. split; [done|apply same_queue_refl|done|intros t Ht; by exists t|intros t Ht _; by exists t|]. by intros t _ (k & (q & Hq & _) & _); apply not_elem_of_nil in Hq. }
  cbn [map fst] in Hnd. apply NoDup_cons in Hnd as [Hk Hnd]. destruct (ps_in_scope p) eqn:Hp.
  - destruct (IH a s Hnd Hok) as (a' & s' & E & Ha & Hno). exists a', s'. split; [done|]. split; [by apply scopes_applied_in|]. intros Hall. apply Hno. intros t Ht Hl. apply Hall; [done|].
    apply leaving_cons. by right.
  - pose proof (leave_scope system_id key (ps_reason p) actor now s Hok) as H. destruct (retire_out_of_scope_checks system_id key s) as [retired s1].
    destruct H as (out & s2 & E & HL & Hnop). rewrite E. cbn [res_bind fst snd].
    destruct (IH {| ap_out_of_scope := (ap_out_of_scope a ++ [(key, ps_reason p)])%list; ap_retired := (ap_retired a ++ retired)%list; ap_withdrawn := (ap_withdrawn a ++ out)%list |} s2 Hnd)
      as (a' & s' & E' & Ha & Hno); [by destruct HL|]. exists a', s'. split; [done|]. split; [by eapply scopes_applied_out|].
    intros Hall. destruct Hnop as (-> & -> & ->); [intros t Ht Hpt; apply Hall; [done|]; apply leaving_cons; by left|].
    destruct Hno as (Er & Ew & ->); [intros t Ht Hl; apply Hall; [done|]; apply leaving_cons; by right|]. cbn in Er, Ew. by rewrite !app_nil_r in *.
Qed.
End withdrawing.

Lemma provider_scope_keys system_id org profiles db : map fst (provider_scope system_id org profiles db) = known_providers.
Proof. unfold provider_scope. rewrite map_map. apply map_id. Qed.
Lemma known_providers_nodup : NoDup known_providers.
Proof. apply (bool_decide_unpack _). vm_compute. exact I. Qed.

(** ** Properties *)

(** the declared environment decides. There is an answer for every registered provider.
    An intake answer that names a cloud puts exactly the connector of that cloud in scope,
    and the answer no cloud none, whatever connectors the organization has bound; only with
    no answer, or one that is not recognised, do the configured connectors decide; and a
    connector of no cloud is in scope exactly when it is configured. *)
Theorem environment_decides system_id org profiles db :
  let scopes := provider_scope system_id org profiles db in
  let declared := declared_platform system_id profiles in
  let in_scope c := exists p, (c, p) ∈ scopes /\ ps_in_scope p = true in
  map fst scopes = known_providers /\
  (forall platform, platform_for_system declared = Some platform -> exists c, dget c CONNECTOR_PLATFORM = Some platform /\
     forall c', dhas c' CONNECTOR_PLATFORM = true -> (in_scope c' <-> c' = c)) /\
  (platform_of declared = Some NO_PLATFORM -> forall c, dhas c CONNECTOR_PLATFORM = true -> ~ in_scope c) /\
  (platform_of declared <> Some NO_PLATFORM -> platform_for_system declared = None -> forall c, c ∈ known_providers -> (in_scope c <-> c ∈ configured_connectors org db)) /\
  (forall c, c ∈ known_providers -> dhas c CONNECTOR_PLATFORM = false -> (in_scope c <-> c ∈ configured_connectors org db)).
Proof.
  cbv zeta. set (d := declared_platform system_id profiles). set (conf := configured_connectors org db).
  assert (Hin : forall c, (exists p, (c, p) ∈ provider_scope system_id org profiles db /\ ps_in_scope p = true) <-> c ∈ known_providers /\ ps_in_scope (scope_of d conf c) = true).
  { intros c. unfold provider_scope. setoid_rewrite list_elem_of_fmap. split; [intros (p & (x & [= -> ->] & Hx) & Hp); done|]. intros [Hc Hp]. eexists. split; [by exists c|done]. }
  setoid_rewrite Hin. split; [apply provider_scope_keys|].
  assert (Hcloud : forall c, dhas c CONNECTOR_PLATFORM = true -> c ∈ known_providers).
  { intros c Hc. apply mem_true, list_elem_of_In in Hc. cbn in Hc. destruct Hc as [<-|[<-|[<-|[<-|[]]]]]; vocabulary. }
  assert (Hone : forall c, dget c CONNECTOR_PLATFORM <> None -> dhas c CONNECTOR_PLATFORM = true).
  { intros c Hc. apply mem_true. destruct (decide (c ∈ dkeys CONNECTOR_PLATFORM)); [done|]. destruct Hc. by apply dget_None. }
  split_and!.
  - intros platform Ep. assert (Hno : platform_of d <> Some NO_PLATFORM) by (intros E; unfold platform_for_system in Ep; rewrite E in Ep; by vm_compute in Ep).
    assert (exists c, dget c CONNECTOR_PLATFORM = Some platform) as (c & Ec).
    { unfold platform_for_system in Ep. destruct (platform_of d) as [p|]; [|done]. destruct (str_truthy p && _) eqn:Eb; [|done]. injection Ep as ->.
      apply andb_true_iff in Eb as [_ Eb%mem_true%list_elem_of_In]. cbn in Eb. destruct Eb as [<-|[<-|[<-|[<-|[]]]]];
        [exists "msgraph"|exists "aws_govcloud"|exists "azure_arm"|exists "gcp"]; reflexivity. }
    exists c. split; [done|]. intros c' Hc'. unfold scope_of. rewrite (bool_decide_eq_false_2 _ Hno), Ep. destruct (dget c' CONNECTOR_PLATFORM) as [cp|] eqn:Ec'.
    + cbn [ps_in_scope]. rewrite bool_decide_eq_true. split; [|intros ->; split; [by apply Hcloud|congruence]]. intros [_ ->].
      apply dget_Some_elem, list_elem_of_In in Ec, Ec'. cbn in Ec, Ec'. naive_solver congruence.
    + apply dget_None in Ec'. by apply mem_true in Hc'.
  - intros E c Hc [_ H]. unfold scope_of in H. rewrite (bool_decide_eq_true_2 _ E) in H. destruct (dget c CONNECTOR_PLATFORM) eqn:Ec; [done|]. apply dget_None in Ec. by apply mem_true in Hc.
  - intros Hno Hp c Hc. unfold scope_of. rewrite (bool_decide_eq_false_2 _ Hno), Hp. destruct (dget c CONNECTOR_PLATFORM); [destruct (mem c conf) eqn:Em|]; cbn [ps_in_scope].
    + apply mem_true in Em. done.
    + apply mem_false in Em. naive_solver.
    + rewrite mem_true. naive_solver.
  - intros c Hc Hn. unfold scope_of. destruct (dget c CONNECTOR_PLATFORM) eqn:Ec; [|cbn [ps_in_scope]; rewrite mem_true; naive_solver]. rewrite Hone in Hn; [done|by rewrite Ec].
Qed.

(** C15: leaving scope withdraws what was credited and loses nothing. On sound tables,
    bringing a system's checks into line with its scope always succeeds. A check of a
    provider out of scope that ever held a verdict, or that a waiver names, keeps its row,
    and every such row left has the out-of-scope determination as its latest result; every
    other test keeps its row and its results exactly; tasks and POA&Ms are untouched, so a
    weakness that left scope is not closed; and doing it again changes nothing at all. *)
Theorem leaving_scope_settles run_at system_id org profiles actor now s : (forall a b, ctr_id a < ctr_id b -> run_at a <= run_at b) -> scope_ok s ->
  let leaves := leaving system_id (provider_scope system_id org profiles (sc_db s)) in
  exists a s', apply_provider_scope run_at system_id org profiles actor now s = Ok (a, s') /\ scope_ok s' /\ same_work (sc_db s') (sc_db s) /\
    (forall t, t ∈ sc_tests s -> ~ leaves t -> t ∈ sc_tests s' /\ results_of (ct_id (pt_test t)) (sc_db s') = results_of (ct_id (pt_test t)) (sc_db s)) /\
    (forall t, t ∈ sc_tests s -> retirable (sc_db s) t = false -> exists t', t' ∈ sc_tests s' /\ placed t' = placed t) /\
    (forall t', t' ∈ sc_tests s' -> (exists t, t ∈ sc_tests s /\ placed t' = placed t) /\
       (leaves t' -> latest_ref run_at (ct_id (pt_test t')) (sc_db s') = Some OUT_OF_SCOPE_EVIDENCE_REF)) /\
    exists a', apply_provider_scope run_at system_id org profiles actor now s' = Ok (a', s') /\ ap_retired a' = [] /\ ap_withdrawn a' = [].
Proof.
  intros Hmono Hok. cbv zeta. set (scopes := provider_scope system_id org profiles (sc_db s)).
  assert (Hnd : NoDup (map fst scopes)) by (unfold scopes; rewrite provider_scope_keys; apply known_providers_nodup).
  set (none := {| ap_out_of_scope := []; ap_retired := []; ap_withdrawn := [] |}).
  destruct (apply_scopes_spec run_at Hmono system_id actor now scopes none s Hnd Hok) as (a & s' & E & [H1 H2 H3 H4 H5 H6] & _).
  exists a, s'. split; [done|]. split; [done|]. split; [by destruct H2|]. split_and!; try done.
  - intros t' Ht'. split; [by apply H4|]. intros Hl. by apply H6.
  - unfold apply_provider_scope. assert (Es : provider_scope system_id org profiles (sc_db s') = scopes).
    { destruct H2 as (_ & _ & Hc & _). unfold scopes, provider_scope, configured_connectors. by rewrite Hc. }
    rewrite Es. destruct (apply_scopes_spec run_at Hmono system_id actor now scopes none s' Hnd H1) as (a' & s2 & E' & _ & Hno).
    destruct Hno as (Hr & Hw & ->); [exact H6|]. exists a'. by rewrite Hr, Hw.
Qed.

(** A system measured as AWS and then declared Microsoft 365. *)
Definition moved_profile : SystemProfile :=
  {| sp_system_id := 3; sp_cloud_platform := Some "m365_gcc_high"; sp_connectivity := None; sp_endpoint_scope := []; sp_derivation := []; sp_derived_at := None |}.
Definition aws_test (i : Z) (key : string) : PostureTest :=
  new_test i (Some 7) 3 {| gn_check_key := key; gn_check_source := "platform"; gn_control_id := "IA-2"; gn_control_ids := ["IA-2"]; gn_title := key;
                           gn_expected := ""; gn_capability_id := None; gn_connector_key := "aws_govcloud" |}.
Definition old_result (i t : Z) (status : string) : ControlTestResult :=
  {| ctr_id := i; ctr_test_id := t; ctr_status := status; ctr_detail := None; ctr_evidence_ref := None; ctr_evaluated := 1; ctr_failing := 0; ctr_waived := 0; ctr_expected := None |}.
Definition moved_db : Db := ControlTests.set_seq 10 (set_results [old_result 1 1 "pass"; old_result 2 2 "manual_review_required"] quiet_db).
Definition moved : Scans :=
  {| sc_tests := [aws_test 1 "aws.iam.root_mfa_enabled"; aws_test 2 "aws.inspector.enabled"]; sc_next := 3; sc_systems := [(3, Some 7)]; sc_capabilities := []; sc_db := moved_db |}.
Lemma moved_ok : scope_ok moved.
Proof.
  split; [split; [split|intros; cbn; lia|]| |].
  - apply (bool_decide_unpack _). vm_compute. exact I.
  - intros a Ha. apply list_elem_of_In in Ha. destruct Ha as [<-|[<-|[]]]; cbn; lia.
  - intros a b Ha Hb _ E _. apply list_elem_of_In in Ha, Hb. destruct Ha as [<-|[<-|[]]], Hb as [<-|[<-|[]]]; done.
  - apply (wf_db_ext _ quiet_db); try done. apply quiet_db_wf.
  - intros r Hr. apply list_elem_of_In in Hr. destruct Hr as [<-|[<-|[]]]; cbn; lia.
  - intros r Hr. apply list_elem_of_In in Hr. by destruct Hr as [<-|[<-|[]]].
Qed.
Lemma leaving_scope_settles_witness : exists a s', apply_provider_scope ctr_id 3 (Some 7) [moved_profile] "scan" 0 moved = Ok (a, s') /\ scope_ok s' /\
  same_work (sc_db s') (sc_db moved) /\ exists a', apply_provider_scope ctr_id 3 (Some 7) [moved_profile] "scan" 0 s' = Ok (a', s') /\ ap_withdrawn a' = [].
Proof.
  destruct (leaving_scope_settles ctr_id 3 (Some 7) [moved_profile] "scan" 0 moved) as (a & s' & E & Hok & Hq & _ & _ & _ & a' & E' & _ & Hw); [lia|apply moved_ok|].
  exists a, s'. split; [exact E|]. split; [exact Hok|]. split; [exact Hq|]. exists a'. by split.
Defined.
(** The row never assessed goes; the pass is withdrawn, above its history. *)
Example moved_scope :
  match apply_provider_scope ctr_id 3 (Some 7) [moved_profile] "scan" 0 moved with
  | Ok (a, s') => (map oc_check_key (ap_retired a), map oc_check_key (ap_withdrawn a), map (fun t => ct_last_status (pt_test t)) (sc_tests s'), map ctr_status (db_results (sc_db s')))
  | Err _ => ([], [], [], [])
  end = (["aws.inspector.enabled"], ["aws.iam.root_mfa_enabled"], [Some "not_applicable"], ["pass"; "not_applicable"]).
Proof. vm_compute. reflexivity. Qed.
(** A withdrawal is recorded on a test a person switched off, too. *)
Example inactive_withdrawn :
  let off := {| pt_test := {| ct_id := 1; ct_organization_id := Some 7; ct_system_id := Some 3; ct_control_id := "IA-2"; ct_name := ""; ct_method := "connector"; ct_connector_type := Some "aws_govcloud";
                 ct_frequency := None; ct_expected := None; ct_assertion := None; ct_active := false; ct_source := "generated"; ct_check_key := Some "aws.iam.root_mfa_enabled";
                 ct_check_source := Some "platform"; ct_last_status := Some "pass"; ct_last_tested_at := None |}; pt_control_ids := None; pt_description := None; pt_capability_id := None |} in
  match apply_provider_scope ctr_id 3 (Some 7) [moved_profile] "scan" 0
          {| sc_tests := [off]; sc_next := 3; sc_systems := [(3, Some 7)]; sc_capabilities := []; sc_db := moved_db |} with
  | Ok (a, s') => map (fun t => (ct_active (pt_test t), ct_last_status (pt_test t))) (sc_tests s')
  | Err _ => []
  end = [(false, Some "not_applicable")].
Proof. vm_compute. reflexivity. Qed.
Lemma environment_decides_witness : forall c', dhas c' CONNECTOR_PLATFORM = true ->
  ((exists p, (c', p) ∈ provider_scope 3 (Some 7) [moved_profile] moved_db /\ ps_in_scope p = true) <-> c' = "msgraph").
Proof.
  destruct (environment_decides 3 (Some 7) [moved_profile] moved_db) as (_ & H & _). destruct (H "m365" eq_refl) as (c & Ec & Hc).
  apply dget_Some_elem, list_elem_of_In in Ec. cbn in Ec. assert (c = "msgraph") as -> by naive_solver congruence. exact Hc.
Defined.
