(* ===== verification/BaselineDelta.v ===== *)
(** What moving a system to a higher baseline would require
    ([src/src/ccf/catalog/baseline_delta.py]): canonical membership of a baseline, and
    the difference of two.

    A set is a [gset]; [sorted(set)] its elements in string order. *)

From S2P Require Import Capability.
From S2P Require Export Prelude PyVal.

Local Open Scope string_scope.
Local Open Scope Z_scope.

Definition BASELINE_COLUMN_KEYS : list (string * string) := [("low", "FedRAMP Low"); ("moderate", "FedRAMP Moderate"); ("high", "FedRAMP High")].
Definition MEMBERSHIP_VALUE : string := "X".

Definition BaselineNotSetError (m : string) : exn := Exn "BaselineNotSetError" m.
Definition UnknownBaselineError (m : string) : exn := Exn "UnknownBaselineError" m.
Definition AssertionError (m : string) : exn := Exn "AssertionError" m.

Record Control := { cn_id : Z; cn_identifier : string; cn_sequence_control : option string; cn_fisma_low : bool; cn_fisma_mod : bool; cn_fisma_high : bool }.
Record FrameworkMapping := { fm_control_id : Z; fm_column_key : string; fm_value : string }.

(** A system's baseline, and the status of each control it implements. *)
Record BaselineSystem := { bs_id : Z; bs_baseline : option string }.
Record BaselineImpl := { bi_system_id : Z; bi_control_id : Z; bi_status : string }.

Record BaselineDelta := {
  bd_system_id : Z; bd_current : string; bd_target : string; bd_added : list string; bd_removed : list string;
  bd_already_satisfied : list string; bd_outstanding : list string; bd_unmapped : list string }.

Definition canonical_of (s : option string) : option string := cid_value <$> canonicalize s.

Definition membership (rows : list (string * option string)) : gset string * list string :=
  let members : gset string := list_to_set (omap (fun r => canonical_of (Some r.1)) rows) in
  let rest := List.filter (fun r => bool_decide (canonical_of (Some r.1) = None)) rows in
  let unmapped := List.filter (fun r => match canonical_of r.2 with None => true | Some parent => negb (bool_decide (parent ∈ members)) end) rest in
  (members, sorted_set (map fst unmapped)).

Definition column_key (level : string) : res string :=
  match dget level BASELINE_COLUMN_KEYS with
  | Some k => Ok k
  | None => Err (UnknownBaselineError ("unknown baseline " +:+ repr_str level +:+ " — expected one of: high, low, moderate"))
  end.

(** The rows of a join: a control once per mapping that marks it. *)
Definition baseline_rows (controls : list Control) (mappings : list FrameworkMapping) (level : string) : res (list (string * option string)) :=
  let! key := column_key level in
  Ok (mbind (fun m => omap (fun c => if cn_id c =? fm_control_id m then Some (cn_identifier c, cn_sequence_control c) else None) controls)
        (List.filter (fun m => bool_decide (fm_column_key m = key) && bool_decide (fm_value m = MEMBERSHIP_VALUE)) mappings)).
Definition baseline_members (controls : list Control) (mappings : list FrameworkMapping) (level : string) : res (gset string) :=
  let! rows := baseline_rows controls mappings level in Ok (membership rows).1.

Definition assemble (system_id : Z) (current target : string) (current_members target_members : gset string) (target_unmapped : list string)
    (satisfied : gset string) : res BaselineDelta :=
  let added := sorted_set (elements (target_members ∖ current_members)) in
  let removed := sorted_set (elements (current_members ∖ target_members)) in
  let already_satisfied := List.filter (fun c => bool_decide (c ∈ satisfied)) added in
  let outstanding := List.filter (fun c => negb (bool_decide (c ∈ satisfied))) added in
  if negb (bool_decide (sorted_strs (already_satisfied ++ outstanding)%list = added)) then
    Err (AssertionError ("baseline delta invariant violated: already_satisfied + outstanding != added (" +:+ pretty (Z.of_nat (List.length already_satisfied)) +:+ " + " +:+
                         pretty (Z.of_nat (List.length outstanding)) +:+ " vs " +:+ pretty (Z.of_nat (List.length added)) +:+ ")"))
  else Ok {| bd_system_id := system_id; bd_current := current; bd_target := target; bd_added := added; bd_removed := removed;
             bd_already_satisfied := already_satisfied; bd_outstanding := outstanding; bd_unmapped := target_unmapped |}.

Definition satisfied_controls (controls : list Control) (impls : list BaselineImpl) (system_id : Z) : gset string :=
  list_to_set (omap (fun i =>
    if negb ((bi_system_id i =? system_id) && mem (bi_status i) SATISFIED) then None
    else match List.find (fun c => cn_id c =? bi_control_id i) controls with Some c => canonical_of (Some (cn_identifier c)) | None => None end) impls).

Definition baseline_delta (controls : list Control) (mappings : list FrameworkMapping) (systems : list BaselineSystem) (impls : list BaselineImpl)
    (system_id : Z) (target : string) : res BaselineDelta :=
  let! row := scalar_one_or_none (List.filter (fun s => bs_id s =? system_id) systems) in
  match row with
  | None => Err (ValueError ("system " +:+ pretty system_id +:+ " not found"))
  | Some s =>
      let current := or_empty (bs_baseline s) in
      if negb (str_truthy current) then
        Err (BaselineNotSetError ("system " +:+ pretty system_id +:+ " has no baseline — a delta from an unknown current baseline is not computable, and defaulting to Low would report an uplift the system does not owe"))
      else
      let! _ := column_key target in
      let! current_rows := baseline_rows controls mappings current in
      let! target_rows := baseline_rows controls mappings target in
      let '(target_members, target_unmapped) := membership target_rows in
      assemble system_id current target (membership current_rows).1 target_members target_unmapped (satisfied_controls controls impls system_id)
  end.

(** ** What a baseline holds *)

Section baseline.
Context (controls : list Control) (mappings : list FrameworkMapping).

(** [c] is marked as belonging to the baseline. *)
Definition marked (level : string) (c : Control) : Prop :=
  c ∈ controls /\ exists m k, m ∈ mappings /\ fm_control_id m = cn_id c /\ dget level BASELINE_COLUMN_KEYS = Some k /\ fm_column_key m = k /\ fm_value m = MEMBERSHIP_VALUE.
Definition in_baseline (level x : string) : Prop := exists c, marked level c /\ canonical_of (Some (cn_identifier c)) = Some x.

Lemma baseline_rows_spec level rows : baseline_rows controls mappings level = Ok rows ->
  forall i s, (i, s) ∈ rows <-> exists c, marked level c /\ cn_identifier c = i /\ cn_sequence_control c = s.
Proof.
  unfold baseline_rows, column_key. destruct (dget level BASELINE_COLUMN_KEYS) as [k|] eqn:Ek; [|done]. intros [= <-] i s.
  rewrite list_elem_of_bind. split.
  - intros (m & Hr & Hm). apply list_elem_of_In, filter_In in Hm as [Hm [Hk Hv]%andb_prop]. apply bool_decide_eq_true in Hk, Hv. apply list_elem_of_In in Hm.
    apply list_elem_of_omap in Hr as (c & Hc & E). destruct (Z.eqb_spec (cn_id c) (fm_control_id m)); [|done]. injection E as <- <-.
    exists c. split; [|done]. split; [done|]. exists m, k. by rewrite Ek.
  - intros (c & (Hc & m & k' & Hm & Ei & Ek' & Hk & Hv) & <- & <-). simplify_eq. exists m. split.
    + apply list_elem_of_omap. exists c. split; [done|]. by rewrite Ei, Z.eqb_refl.
    + apply list_elem_of_In, filter_In. split; [by apply list_elem_of_In|]. by rewrite !bool_decide_eq_true_2.
Qed.

Lemma membership_spec level rows x : baseline_rows controls mappings level = Ok rows -> x ∈ (membership rows).1 <-> in_baseline level x.
Proof.
  intros E. unfold membership. cbn [fst]. rewrite elem_of_list_to_set, list_elem_of_omap. unfold in_baseline. split.
  - intros ([i s] & Hr & Ex). apply (baseline_rows_spec level rows E) in Hr as (c & Hc & <- & <-). by exists c.
  - intros (c & Hc & Ex). exists (cn_identifier c, cn_sequence_control c). split; [|done]. apply (baseline_rows_spec level rows E). by exists c.
Qed.

Lemma unmapped_spec level rows x : baseline_rows controls mappings level = Ok rows ->
  x ∈ (membership rows).2 <-> exists c, marked level c /\ cn_identifier c = x /\ canonical_of (Some x) = None /\
    match canonical_of (cn_sequence_control c) with None => True | Some parent => ~ in_baseline level parent end.
Proof.
  intros E. pose proof (fun y => membership_spec level rows y E) as Hm. unfold membership in *. cbn [fst snd] in *.
  set (members := list_to_set _) in *. rewrite elem_of_sorted_set, list_elem_of_fmap. split.
  - intros ([i s] & -> & Hf). apply list_elem_of_In, filter_In in Hf as [[Hr Hn%bool_decide_eq_true]%filter_In Hp]. apply list_elem_of_In in Hr. cbn [fst snd] in *.
    apply (baseline_rows_spec level rows E) in Hr as (c & Hmk & <- & <-). exists c. split; [done|]. split; [done|]. split; [done|].
    destruct (canonical_of (cn_sequence_control c)) as [parent|]; [|done]. apply negb_true_iff, bool_decide_eq_false in Hp. by rewrite <-Hm.
  - intros (c & Hmk & <- & Hn & Hp). exists (cn_identifier c, cn_sequence_control c). split; [done|]. apply list_elem_of_In, filter_In. split; [apply filter_In; split|].
    + apply list_elem_of_In, (baseline_rows_spec level rows E). by exists c.
    + by apply bool_decide_eq_true.
    + cbn [snd]. destruct (canonical_of (cn_sequence_control c)) as [parent|]; [|done]. apply negb_true_iff, bool_decide_eq_false. by rewrite Hm.
Qed.

Lemma satisfied_controls_spec impls sid x : x ∈ satisfied_controls controls impls sid <->
  exists i c, i ∈ impls /\ bi_system_id i = sid /\ mem (bi_status i) SATISFIED = true /\
    List.find (fun c => cn_id c =? bi_control_id i) controls = Some c /\ canonical_of (Some (cn_identifier c)) = Some x.
Proof.
  unfold satisfied_controls. rewrite elem_of_list_to_set, list_elem_of_omap. split.
  - intros (i & Hi & E). destruct ((bi_system_id i =? sid) && mem (bi_status i) SATISFIED) eqn:Ei; [|done]. apply andb_prop in Ei as [Es Em].
    apply Z.eqb_eq in Es. cbn [negb] in E. destruct (List.find _ controls) as [c|] eqn:Ef; [|done]. by exists i, c.
  - intros (i & c & Hi & <- & Hm & Hf & Hx). exists i. split; [done|]. by rewrite Z.eqb_refl, Hm, Hf.
Qed.

Lemma baseline_rows_known level k : dget level BASELINE_COLUMN_KEYS = Some k -> exists rows, baseline_rows controls mappings level = Ok rows.
Proof. intros E. unfold baseline_rows, column_key. rewrite E. cbn. by eexists. Qed.
End baseline.

(** The two halves of [added] make it up again, so the assertion never fires. *)
Lemma split_sorted (f : string -> bool) l : sorted_strs (List.filter f (sorted_set l) ++ List.filter (fun c => negb (f c)) (sorted_set l)) = sorted_set l.
Proof.
  apply (StronglySorted_unique str_le); try apply sorted_strs_sorted. rewrite sorted_strs_perm. generalize (sorted_set l). clear l. intros l.
  induction l as [|x l IH]; [done|]. cbn [List.filter]. destruct (f x); cbn [negb app]; [by rewrite IH|]. by rewrite <-Permutation_middle, IH.
Qed.

Lemma assemble_ok sid cur tgt cm tm um sat : assemble sid cur tgt cm tm um sat = Ok
  {| bd_system_id := sid; bd_current := cur; bd_target := tgt; bd_added := sorted_set (elements (tm ∖ cm)); bd_removed := sorted_set (elements (cm ∖ tm));
     bd_already_satisfied := List.filter (fun c => bool_decide (c ∈ sat)) (sorted_set (elements (tm ∖ cm)));
     bd_outstanding := List.filter (fun c => negb (bool_decide (c ∈ sat))) (sorted_set (elements (tm ∖ cm))); bd_unmapped := um |}.
Proof. unfold assemble. rewrite (split_sorted (fun c => bool_decide (c ∈ sat))), bool_decide_eq_true_2 by done. done. Qed.

(** ** Properties *)

(** the uplift adds up. Asked for a known target of a system with a known baseline, the
    delta is always answered (the invariant it asserts cannot fail): [added] lists, in
    order and once each, the canonical controls the target's rows mark and the current
    baseline's do not, [removed] the reverse; what is already satisfied and what is
    outstanding split [added], the first being what some implemented or inherited
    control of the system canonicalizes to; and a marked row is reported unmapped when
    neither its identifier nor a member's decomposition places it. *)
Theorem uplift_adds_up controls mappings systems impls sid target cur kc kt :
  List.filter (fun s => bs_id s =? sid) systems = [{| bs_id := sid; bs_baseline := Some cur |}] ->
  dget cur BASELINE_COLUMN_KEYS = Some kc -> dget target BASELINE_COLUMN_KEYS = Some kt ->
  exists d, baseline_delta controls mappings systems impls sid target = Ok d /\ bd_current d = cur /\ bd_target d = target /\
    (forall x, x ∈ bd_added d <-> in_baseline controls mappings target x /\ ~ in_baseline controls mappings cur x) /\
    (forall x, x ∈ bd_removed d <-> in_baseline controls mappings cur x /\ ~ in_baseline controls mappings target x) /\
    StronglySorted str_le (bd_added d) /\ NoDup (bd_added d) /\ StronglySorted str_le (bd_removed d) /\ NoDup (bd_removed d) /\
    bd_added d ≡ₚ (bd_already_satisfied d ++ bd_outstanding d)%list /\
    (forall x, x ∈ bd_already_satisfied d <-> x ∈ bd_added d /\ exists i c, i ∈ impls /\ bi_system_id i = sid /\ mem (bi_status i) SATISFIED = true /\
       List.find (fun c => cn_id c =? bi_control_id i) controls = Some c /\ canonical_of (Some (cn_identifier c)) = Some x) /\
    (forall x, x ∈ bd_unmapped d <-> exists c, marked controls mappings target c /\ cn_identifier c = x /\ canonical_of (Some x) = None /\
       match canonical_of (cn_sequence_control c) with None => True | Some parent => ~ in_baseline controls mappings target parent end).
Proof.
  intros Hs Hc Ht. destruct (baseline_rows_known controls mappings cur kc Hc) as (rc & Erc). destruct (baseline_rows_known controls mappings target kt Ht) as (rt & Ert).
  unfold baseline_delta. rewrite Hs. cbn [scalar_one_or_none res_bind bs_baseline or_empty default from_option id].
  assert (Hcur : str_truthy cur = true) by (destruct cur; [vm_compute in Hc; discriminate|done]). rewrite Hcur. cbn [negb].
  assert (column_key target = Ok kt) as -> by (unfold column_key; by rewrite Ht). cbn [res_bind]. rewrite Erc, Ert. cbn [res_bind].
  pose proof (fun x => membership_spec controls mappings cur rc x Erc) as Hmc. pose proof (fun x => membership_spec controls mappings target rt x Ert) as Hmt.
  destruct (membership rt) as [tm um] eqn:Em. cbn [fst] in Hmt. rewrite assemble_ok. eexists. split; [reflexivity|].
  cbn [bd_current bd_target bd_added bd_removed bd_already_satisfied bd_outstanding bd_unmapped]. set (cm := (membership rc).1) in *.
  split; [done|]. split; [done|].
  assert (Hd : forall (a b : gset string) x, x ∈ sorted_set (elements (a ∖ b)) <-> x ∈ a /\ x ∉ b) by (intros; by rewrite elem_of_sorted_set, elem_of_elements, elem_of_difference).
  split; [intros x; by rewrite Hd, Hmt, Hmc|]. split; [intros x; by rewrite Hd, Hmt, Hmc|].
  do 4 (split; [first [apply sorted_strs_sorted|apply sorted_set_NoDup]|]). split; [|split].
  - rewrite <-(split_sorted (fun c => bool_decide (c ∈ satisfied_controls controls impls sid))) at 1. apply sorted_strs_perm.
  - intros x. rewrite list_elem_of_In, filter_In, <-list_elem_of_In, bool_decide_eq_true. by rewrite satisfied_controls_spec.
  - intros x. replace um with (membership rt).2 by by rewrite Em. by apply unmapped_spec.
Qed.

(** the delta refuses what it cannot compute, with a reason for each case: an unknown
    system, a system that never set a baseline, a target or a current level outside the
    three; and nothing else makes it fail. *)
Theorem delta_refusals controls mappings systems impls sid target : (forall a b, a ∈ systems -> b ∈ systems -> bs_id a = bs_id b -> a = b) -> NoDup systems ->
  match baseline_delta controls mappings systems impls sid target with
  | Ok d => bd_system_id d = sid /\ exists s, s ∈ systems /\ bs_id s = sid /\ bs_baseline s = Some (bd_current d) /\ bd_target d = target /\
              dhas (bd_current d) BASELINE_COLUMN_KEYS = true /\ dhas target BASELINE_COLUMN_KEYS = true
  | Err e => (exn_class e = "ValueError" /\ forall s, s ∈ systems -> bs_id s <> sid) \/
             (exn_class e = "BaselineNotSetError" /\ exists s, s ∈ systems /\ bs_id s = sid /\ or_empty (bs_baseline s) = "") \/
             (exn_class e = "UnknownBaselineError" /\ exists s, s ∈ systems /\ bs_id s = sid /\
                (dhas (or_empty (bs_baseline s)) BASELINE_COLUMN_KEYS = false \/ dhas target BASELINE_COLUMN_KEYS = false))
  end.
Proof.
  intros Hu Hn. unfold baseline_delta.
  assert (Hf : List.filter (fun s => bs_id s =? sid) systems = [] /\ (forall s, s ∈ systems -> bs_id s <> sid) \/
    exists s, List.filter (fun s => bs_id s =? sid) systems = [s] /\ s ∈ systems /\ bs_id s = sid).
  { assert (Hin : forall s, s ∈ List.filter (fun s => bs_id s =? sid) systems <-> s ∈ systems /\ bs_id s = sid)
      by (intros; by rewrite list_elem_of_In, filter_In, <-list_elem_of_In, Z.eqb_eq).
    assert (Hnd : NoDup (List.filter (fun s => bs_id s =? sid) systems)) by (eapply sublist_NoDup; [exact Hn|apply bool_filter_sublist]).
    destruct (List.filter _ systems) as [|s [|s' l]]; [left|right|exfalso].
    - split; [done|]. intros s Hs E. by destruct (not_elem_of_nil s); apply Hin.
    - exists s. split; [done|]. apply Hin. by left.
    - apply NoDup_cons in Hnd as [Hno _]. apply Hno. destruct (proj1 (Hin s) ltac:(by left)) as [H1 H2]. destruct (proj1 (Hin s') ltac:(by right; left)) as [H3 H4].
      rewrite (Hu s s') by congruence. by left. }
  destruct Hf as [[-> Hno]|(s & -> & Hs & Hid)]; cbn [scalar_one_or_none res_bind]; [by left|].
  assert (Hdh : forall k, dhas k BASELINE_COLUMN_KEYS = match dget k BASELINE_COLUMN_KEYS with Some _ => true | None => false end).
  { intros k. unfold dhas, BASELINE_COLUMN_KEYS. cbn [dkeys map fst dget]. repeat (case_decide; [subst k; reflexivity|]). apply mem_false. set_solver. }
  destruct (str_truthy (or_empty (bs_baseline s))) eqn:Hc; cbn [negb].
  2:{ right. left. split; [done|]. exists s. split; [done|]. split; [done|]. by destruct (or_empty (bs_baseline s)). }
  unfold baseline_rows, column_key at 1. destruct (dget target BASELINE_COLUMN_KEYS) as [kt|] eqn:Et; cbn [res_bind].
  2:{ right. right. split; [done|]. exists s. rewrite !Hdh, Et. auto. }
  unfold column_key. rewrite Et. destruct (dget (or_empty (bs_baseline s)) BASELINE_COLUMN_KEYS) as [kc|] eqn:Ec; cbn [res_bind].
  2:{ right. right. split; [done|]. exists s. rewrite !Hdh, Ec. auto. }
  destruct (membership _) as [tm um]. rewrite assemble_ok. cbn [bd_system_id bd_current bd_target]. split; [done|]. exists s.
  rewrite !Hdh, Et, Ec. repeat split; try done. by destruct (bs_baseline s).
Qed.

(** ** An uplift from Moderate to High *)

Definition demo_control (id : Z) (identifier : string) (seq : option string) : Control :=
  {| cn_id := id; cn_identifier := identifier; cn_sequence_control := seq; cn_fisma_low := false; cn_fisma_mod := true; cn_fisma_high := true |}.
Definition mark (id : Z) (key : string) : FrameworkMapping := {| fm_control_id := id; fm_column_key := key; fm_value := "X" |}.

(** AC-2 is in both, CM-2(2) only in Moderate (one of its objectives is marked in High),
    SA-11 and AU-6(7) only in High, with a placeholder that decomposes a member. *)
Definition demo_catalog : list Control :=
  [demo_control 1 "AC-02" None; demo_control 2 "CM-02(02)" None; demo_control 3 "SA-11" None; demo_control 4 "AU-06(07)" None;
   demo_control 5 "SA-11_ODP[03]" (Some "SA-11"); demo_control 6 "CM-02(02)[01]" (Some "CM-02(02)")].
Definition demo_marks : list FrameworkMapping :=
  [mark 1 "FedRAMP Moderate"; mark 2 "FedRAMP Moderate"; mark 1 "FedRAMP High"; mark 3 "FedRAMP High"; mark 4 "FedRAMP High"; mark 5 "FedRAMP High"; mark 6 "FedRAMP High"].
Definition demo_impls : list BaselineImpl := [{| bi_system_id := 2; bi_control_id := 3; bi_status := "inherited" |}; {| bi_system_id := 9; bi_control_id := 4; bi_status := "implemented" |}].
Definition demo_systems : list BaselineSystem := [{| bs_id := 2; bs_baseline := Some "moderate" |}; {| bs_id := 3; bs_baseline := None |}].

Example demo_delta : baseline_delta demo_catalog demo_marks demo_systems demo_impls 2 "high" = Ok
  {| bd_system_id := 2; bd_current := "moderate"; bd_target := "high"; bd_added := ["AU-6(7)"; "SA-11"]; bd_removed := ["CM-2(2)"];
     bd_already_satisfied := ["SA-11"]; bd_outstanding := ["AU-6(7)"]; bd_unmapped := ["CM-02(02)[01]"] |}.
Proof. vm_compute. reflexivity. Qed.

Lemma uplift_witness : exists d, baseline_delta demo_catalog demo_marks demo_systems demo_impls 2 "high" = Ok d /\
  in_baseline demo_catalog demo_marks "high" "SA-11" /\ ~ in_baseline demo_catalog demo_marks "moderate" "SA-11" /\ bd_added d ≡ₚ (bd_already_satisfied d ++ bd_outstanding d)%list.
Proof.
  destruct (uplift_adds_up demo_catalog demo_marks demo_systems demo_impls 2 "high" "moderate" "FedRAMP Moderate" "FedRAMP High" eq_refl eq_refl eq_refl)
    as (d & E & _ & _ & Ha & _ & _ & _ & _ & _ & Hp & _). exists d. split; [exact E|]. rewrite demo_delta in E. injection E as <-.
  destruct (proj1 (Ha "SA-11") ltac:(cbn; right; left)) as [H1 H2]. split; [exact H1|]. split; [exact H2|exact Hp].
Defined.

Lemma refusals_witness : exists e, baseline_delta demo_catalog demo_marks demo_systems demo_impls 3 "high" = Err e /\ exn_class e = "BaselineNotSetError".
Proof.
  assert (Hu : forall a b, a ∈ demo_systems -> b ∈ demo_systems -> bs_id a = bs_id b -> a = b).
  { intros a b Ha Hb. apply list_elem_of_In in Ha, Hb. cbn in Ha, Hb. destruct Ha as [<-|[<-|[]]], Hb as [<-|[<-|[]]]; cbn; congruence. }
  assert (Hn : NoDup demo_systems).
  { apply NoDup_cons. split; [|apply NoDup_singleton]. intros E%list_elem_of_singleton. discriminate E. }
  pose proof (delta_refusals demo_catalog demo_marks demo_systems demo_impls 3 "high" Hu Hn) as H.
  destruct (baseline_delta _ _ _ _ _ _) as [d|e] eqn:E; [destruct H as (_ & s & _ & _ & _ & _ & Hk & _); vm_compute in E; discriminate E|].
  exists e. split; [reflexivity|]. vm_compute in E. injection E as <-. reflexivity.
Defined.
