(* ===== verification/Systems.v ===== *)
(** Systems, their implementations and their authorization
    ([src/src/ccf/api/routes/systems.py], [governance/reactions.py]), and the requests
    that drive scoring and derivation ([api/routes/scoring.py], [api/routes/automation.py],
    the score board of [api/routes/ui.py]).

    A request is answered by the error response or by its value; an exception is an
    [Err], and nothing it did is kept. The database refuses a status or responsibility
    outside its enumeration and a reference to a row that does not exist. Organizations
    are never soft-deleted here. *)

From S2P Require Import Scoring SignIn.
From S2P Require Export BaselineDelta Derivation.

Local Open Scope string_scope.
Local Open Scope Z_scope.

(** ** The tables *)

Record SystemRow := {
  sr_id : Z; sr_organization_id : Z; sr_name : string; sr_baseline : option string; sr_ato_status : option string; sr_ato_expires_on : option Z;
  sr_deleted_at : option Z }.
Record ImplRow := {
  ir_id : Z; ir_system_id : Z; ir_control_id : Z; ir_status : string; ir_responsibility : option string; ir_narrative : option string;
  ir_conmon_frequency : option string; ir_last_assessed_on : option Z; ir_next_assessment_due : option Z }.

(** Evidence: the implementation it hangs off, and its title. Assessments and risks: the
    system each belongs to. *)
Record Estate := {
  es_scored : Scored; es_systems : list SystemRow; es_controls : list Control; es_mappings : list FrameworkMapping; es_impls : list ImplRow;
  es_evidence : list (option Z * string); es_assessments : list Z; es_risks : list Z; es_profiles : list SystemProfile; es_organizations : list Z }.

Definition es_db (e : Estate) : Db := sd_db (es_scored e).
Definition put_scored (s : Scored) (e : Estate) : Estate :=
  {| es_scored := s; es_systems := es_systems e; es_controls := es_controls e; es_mappings := es_mappings e; es_impls := es_impls e;
     es_evidence := es_evidence e; es_assessments := es_assessments e; es_risks := es_risks e; es_profiles := es_profiles e; es_organizations := es_organizations e |}.
Definition put_db (db : Db) (e : Estate) : Estate := put_scored (set_db db (es_scored e)) e.
Definition put_systems (l : list SystemRow) (e : Estate) : Estate :=
  {| es_scored := es_scored e; es_systems := l; es_controls := es_controls e; es_mappings := es_mappings e; es_impls := es_impls e;
     es_evidence := es_evidence e; es_assessments := es_assessments e; es_risks := es_risks e; es_profiles := es_profiles e; es_organizations := es_organizations e |}.
Definition put_impls (l : list ImplRow) (e : Estate) : Estate :=
  {| es_scored := es_scored e; es_systems := es_systems e; es_controls := es_controls e; es_mappings := es_mappings e; es_impls := l;
     es_evidence := es_evidence e; es_assessments := es_assessments e; es_risks := es_risks e; es_profiles := es_profiles e; es_organizations := es_organizations e |}.
Definition put_profiles (l : list SystemProfile) (e : Estate) : Estate :=
  {| es_scored := es_scored e; es_systems := es_systems e; es_controls := es_controls e; es_mappings := es_mappings e; es_impls := es_impls e;
     es_evidence := es_evidence e; es_assessments := es_assessments e; es_risks := es_risks e; es_profiles := l; es_organizations := es_organizations e |}.
Definition put_organizations (l : list Z) (e : Estate) : Estate :=
  {| es_scored := es_scored e; es_systems := es_systems e; es_controls := es_controls e; es_mappings := es_mappings e; es_impls := es_impls e;
     es_evidence := es_evidence e; es_assessments := es_assessments e; es_risks := es_risks e; es_profiles := es_profiles e; es_organizations := l |}.
Definition new_id (e : Estate) : Z * Estate := let '(i, db) := next_id (es_db e) in (i, put_db db e).

Definition IMPL_STATUS : list string := ["not_implemented"; "planned"; "partial"; "implemented"; "inherited"; "not_applicable"].
Definition IMPL_RESPONSIBILITY : list string := ["customer"; "provider"; "shared"; "inherited"].
Definition DBAPIError : exn := Exn "DBAPIError" "invalid input value for enum".
Definition IntegrityError : exn := Exn "IntegrityError" "insert or update violates foreign key constraint".

(** What the database makes of an implementation row. *)
Definition store_impl (e : Estate) (r : ImplRow) : res unit :=
  if negb (mem (ir_status r) IMPL_STATUS && match ir_responsibility r with Some x => mem x IMPL_RESPONSIBILITY | None => true end) then Err DBAPIError
  else if negb (existsb (fun s => sr_id s =? ir_system_id r) (es_systems e) && existsb (fun c => cn_id c =? ir_control_id r) (es_controls e)) then Err IntegrityError
  else Ok tt.

Definition is_impl (system_id control_id : Z) (r : ImplRow) : bool := (ir_system_id r =? system_id) && (ir_control_id r =? control_id).
Definition new_impl (id system_id control_id : Z) : ImplRow :=
  {| ir_id := id; ir_system_id := system_id; ir_control_id := control_id; ir_status := "not_implemented"; ir_responsibility := None; ir_narrative := None;
     ir_conmon_frequency := None; ir_last_assessed_on := None; ir_next_assessment_due := None |}.
Definition set_status (status : string) (r : ImplRow) : ImplRow :=
  {| ir_id := ir_id r; ir_system_id := ir_system_id r; ir_control_id := ir_control_id r; ir_status := status; ir_responsibility := ir_responsibility r;
     ir_narrative := ir_narrative r; ir_conmon_frequency := ir_conmon_frequency r; ir_last_assessed_on := ir_last_assessed_on r;
     ir_next_assessment_due := ir_next_assessment_due r |}.

(** [bus.emit(..., dispatch=False)]: an event no webhook sees. *)
Definition emit_quietly (verb entity_type summary : string) (org_id : option Z) (actor : option string) (entity_id : option string) (db : Db) : Db :=
  let '(i, db) := next_id db in
  set_events (db_events db ++ [{| ev_id := i; ev_organization_id := org_id; ev_actor := actor; ev_verb := verb; ev_entity_type := entity_type;
                                  ev_entity_id := entity_id; ev_summary := str_take 512 summary |}])%list db.
Definition or_automation (actor : option string) : option string := Some (str_or (or_empty actor) "automation").

(** ** Reactions *)

Definition complete_poam (today : Z) (p : POAM) : POAM :=
  {| pm_id := pm_id p; pm_system_id := pm_system_id p; pm_control_id := pm_control_id p; pm_title := pm_title p; pm_weakness := pm_weakness p;
     pm_severity := pm_severity p; pm_status := "completed"; pm_source := pm_source p; pm_remediation_plan := pm_remediation_plan p;
     pm_plan_source := pm_plan_source p; pm_identified_on := pm_identified_on p; pm_due_on := pm_due_on p; pm_original_due_on := pm_original_due_on p;
     pm_source_ref := pm_source_ref p; pm_scanner := pm_scanner p; pm_finding_uid := pm_finding_uid p; pm_closed_on := Some today;
     pm_acceptance_rationale := pm_acceptance_rationale p; pm_milestones := pm_milestones p; pm_details := pm_details p |}.

(** The open gap POA&Ms of a practice: [title LIKE '<control> —%']. *)
Definition is_gap_poam (system_id : Z) (control_id : string) (p : POAM) : bool :=
  (pm_system_id p =? system_id) && mem (pm_status p) POAM_ACTIVE_STATUSES && startswith (control_id +:+ " —") (pm_title p).

Definition on_scoring_status_changed (system_id : Z) (control_id state : string) (org_id : option Z) (actor : option string) (today : Z) (db : Db) : Z * Db :=
  let rows := if mem state MET then List.filter (is_gap_poam system_id control_id) (db_poams db) else [] in
  let db := if mem state MET then set_poams (update_where (is_gap_poam system_id control_id) (complete_poam today) (db_poams db)) db else db in
  let db := fold_left (fun db p => emit_quietly "closed" "poam" ("POA&M auto-closed: " +:+ control_id +:+ " satisfied (" +:+ state +:+ ")") org_id
                                     (or_automation actor) (Some (pretty (pm_id p))) db) rows db in
  (Z.of_nat (List.length rows),
   emit_quietly "updated" "scoring_status" (control_id +:+ " → " +:+ state) org_id actor (Some (pretty system_id +:+ ":" +:+ control_id)) db).

Definition MAX_SHARE : Z := 12.
Definition MAX_PEERS : nat := 60.

(** The controls that share one mapping value, unless it is too short or too common. *)
Definition mapping_peers (mappings : list FrameworkMapping) (m : FrameworkMapping) : list Z :=
  if Z.of_nat (String.length (strip (fm_value m))) <? 3 then [] else
  let ids := map fm_control_id (List.filter (fun n => bool_decide (fm_column_key n = fm_column_key m) && bool_decide (fm_value n = fm_value m)) mappings) in
  if MAX_SHARE <? Z.of_nat (List.length ids) then [] else ids.
Definition all_peers (mappings : list FrameworkMapping) (control_id : Z) : gset Z :=
  list_to_set (mbind (mapping_peers mappings) (List.filter (fun m => fm_control_id m =? control_id) mappings)) ∖ {[control_id]}.
Definition crosswalk_peers (mappings : list FrameworkMapping) (control_id : Z) : list Z :=
  take MAX_PEERS (merge_sort Z.le (elements (all_peers mappings control_id))).

Definition propagated (id system_id control_id : Z) (status : string) : ImplRow :=
  {| ir_id := id; ir_system_id := system_id; ir_control_id := control_id; ir_status := status; ir_responsibility := Some "inherited";
     ir_narrative := Some "Propagated from a crosswalked control (map once, comply many)."; ir_conmon_frequency := None;
     ir_last_assessed_on := None; ir_next_assessment_due := None |}.

(** One peer: how many rows it updated (at most one), and the tables. *)
Definition propagate_one (system_id : Z) (status : string) (st : Z * Estate) (control_id : Z) : res (Z * Estate) :=
  let '(updated, e) := st in
  match List.find (is_impl system_id control_id) (es_impls e) with
  | None => let '(i, e) := new_id e in
            let row := propagated i system_id control_id status in
            let! _ := store_impl e row in
            Ok (updated + 1, put_impls (es_impls e ++ [row])%list e)
  | Some r => if bool_decide (ir_status r = status) then Ok (updated, e)
              else let! _ := store_impl e (set_status status r) in
                   Ok (updated + 1, put_impls (update_where (is_impl system_id control_id) (set_status status) (es_impls e)) e)
  end.
Fixpoint propagate_all (system_id : Z) (status : string) (peers : list Z) (st : Z * Estate) : res (Z * Estate) :=
  match peers with [] => Ok st | c :: rest => let! st := propagate_one system_id status st c in propagate_all system_id status rest st end.

Definition propagate_implementation (system_id control_id : Z) (status : string) (org_id : option Z) (actor : option string) (e : Estate) : res (Z * Z * Estate) :=
  let peers := crosswalk_peers (es_mappings e) control_id in
  if bool_decide (peers = []) then Ok (0, 0, e) else
  let! st := propagate_all system_id status peers (0, e) in
  let '(updated, e) := st in
  Ok (Z.of_nat (List.length peers), updated,
      put_db (emit_quietly "propagated" "control_implementation" ("Status '" +:+ status +:+ "' propagated to " +:+ pretty updated +:+ " crosswalked control(s)") org_id
                (or_automation actor) (Some (pretty control_id)) (es_db e)) e).

Definition resolve_control_id (identifier : string) (e : Estate) : res (option Z) :=
  scalar_one_or_none (omap (fun c => if bool_decide (cn_identifier c = identifier) then Some (cn_id c) else None) (es_controls e)).

(** ** Requests on systems *)

Definition served (A : Type) : Type := res (Response + A) * Estate.
Definition refuse {A} (status : Z) (detail : string) (e : Estate) : served A := (Ok (inl (HTTPException status detail)), e).
(** The commit at the end of a handler; an exception leaves the tables alone. *)
Definition commit {A} (m : res (A * Estate)) (e : Estate) : served A := match m with Ok (a, e') => (Ok (inr a), e') | Err x => (Err x, e) end.

Definition require_system (system_id : Z) (caller : Principal) (e : Estate) : res (Response + SystemRow) :=
  let! row := scalar_one_or_none (List.filter (fun s => (sr_id s =? system_id) && bool_decide (sr_deleted_at s = None)) (es_systems e)) in
  Ok (match row with
      | None => inl (HTTPException 404 "system not found")
      | Some s => if negb (bool_decide (pr_org_id caller = None)) && negb (bool_decide (pr_org_id caller = Some (sr_organization_id s)))
                  then inl (HTTPException 404 "system not found") else inr s
      end).
Definition with_system {A} (system_id : Z) (caller : Principal) (e : Estate) (k : SystemRow -> served A) : served A :=
  match require_system system_id caller e with Err x => (Err x, e) | Ok (inl r) => (Ok (inl r), e) | Ok (inr s) => k s end.

Definition list_systems (caller : Principal) (e : Estate) : list SystemRow :=
  stable_sort (fun a b => str_leb (sr_name a) (sr_name b))
    (List.filter (fun s => bool_decide (sr_deleted_at s = None) && (bool_decide (pr_org_id caller = None) || bool_decide (pr_org_id caller = Some (sr_organization_id s)))) (es_systems e)).

Definition new_system (id org : Z) (name : string) (baseline : option string) : SystemRow :=
  {| sr_id := id; sr_organization_id := org; sr_name := name; sr_baseline := baseline; sr_ato_status := Some "none"; sr_ato_expires_on := None; sr_deleted_at := None |}.
(** [store_system] is the insert: the organization must exist, a live name is unique in it,
    a baseline is one of three. *)
Definition store_system (s : SystemRow) (e : Estate) : res Estate :=
  if match sr_baseline s with Some b => negb (mem b ["low"; "moderate"; "high"]) | None => false end then Err DBAPIError
  else if negb (mem (sr_organization_id s) (es_organizations e)) ||
          existsb (fun t => (sr_organization_id t =? sr_organization_id s) && bool_decide (sr_name t = sr_name s) && bool_decide (sr_deleted_at t = None)) (es_systems e)
       then Err IntegrityError else Ok (put_systems (es_systems e ++ [s])%list e).
Definition create_system (caller : Principal) (organization_id : Z) (name : string) (baseline : option string) (e : Estate) : served SystemRow :=
  match resolve_caller_org (pr_org_id caller) (Some organization_id) with
  | inl r => (Ok (inl r), e)
  | inr org => commit (let '(i, e) := new_id e in let s := new_system i (default organization_id org) name baseline in
                       let! e := store_system s e in Ok (s, e)) e
  end.

Definition dependent_authorization_record_count (system_id : Z) (e : Estate) : Z :=
  let impls := List.filter (fun i => ir_system_id i =? system_id) (es_impls e) in
  lcount (fun p => pm_system_id p =? system_id) (db_poams (es_db e)) + lcount (Z.eqb system_id) (es_assessments e) + lcount (Z.eqb system_id) (es_risks e) +
  lcount (fun v => existsb (fun i => bool_decide (v.1 = Some (ir_id i))) impls) (es_evidence e) + Z.of_nat (List.length impls) +
  lcount (fun s => st_system_id s =? system_id) (sd_statuses (es_scored e)).

Definition soft_delete (now : Z) (s : SystemRow) : SystemRow :=
  {| sr_id := sr_id s; sr_organization_id := sr_organization_id s; sr_name := sr_name s; sr_baseline := sr_baseline s; sr_ato_status := sr_ato_status s;
     sr_ato_expires_on := sr_ato_expires_on s; sr_deleted_at := Some now |}.
(** What the foreign keys take with a system's row: its tasks, its waivers and its
    profile. (So they do its control tests and packages, which no table here holds.) *)
Definition of_system (system_id : Z) (o : option Z) : bool := bool_decide (o = Some system_id).
Definition cascade_db (system_id : Z) (db : Db) : Db :=
  {| db_seq := db_seq db; db_waivers := List.filter (fun w => negb (wv_system_id w =? system_id)) (db_waivers db);
     db_connectors := db_connectors db; db_captures := db_captures db; db_controls := db_controls db; db_webhooks := db_webhooks db;
     db_notify_url := db_notify_url db; db_notify_min_severity := db_notify_min_severity db; db_results := db_results db;
     db_resources := db_resources db; db_tasks := List.filter (fun t => negb (of_system system_id (tk_system_id t))) (db_tasks db);
     db_poams := db_poams db; db_notifications := db_notifications db; db_events := db_events db; db_outbox := db_outbox db |}.
Definition cascade (system_id : Z) (e : Estate) : Estate :=
  put_profiles (List.filter (fun p => negb (sp_system_id p =? system_id)) (es_profiles e)) (put_db (cascade_db system_id (es_db e)) e).

Definition delete_system (caller : Principal) (system_id : Z) (hard : bool) (now : Z) (e : Estate) : served unit :=
  with_system system_id caller e (fun sys =>
    if hard then
      if negb (dependent_authorization_record_count system_id e =? 0) then
        refuse 409 "cannot hard-delete: system has dependent authorization records (POA&Ms/assessments/evidence) — use the default soft delete instead" e
      else (Ok (inr tt), cascade system_id (put_systems (List.filter (fun s => negb (sr_id s =? system_id)) (es_systems e)) e))
    else (Ok (inr tt), put_systems (update_where (fun s => sr_id s =? system_id) (soft_delete now) (es_systems e)) e)).

Definition ATO_BLOCKING_SEVERITIES : list string := ["critical"; "high"].
Definition DEFAULT_ATO_PERIOD_DAYS : Z := 365.
Definition blocks_ato (system_id : Z) (p : POAM) : bool :=
  (pm_system_id p =? system_id) && mem (pm_severity p) ATO_BLOCKING_SEVERITIES && mem (pm_status p) POAM_ACTIVE_STATUSES.
Definition set_authorized (expires : Z) (s : SystemRow) : SystemRow :=
  {| sr_id := sr_id s; sr_organization_id := sr_organization_id s; sr_name := sr_name s; sr_baseline := sr_baseline s; sr_ato_status := Some "authorized";
     sr_ato_expires_on := Some expires; sr_deleted_at := sr_deleted_at s |}.
Definition authorize_system (caller : Principal) (system_id : Z) (expires_on : option Z) (today : Z) (e : Estate) : served SystemRow :=
  match require_role ["admin"] caller with inl r => (Ok (inl r), e) | inr _ =>
  with_system system_id caller e (fun sys =>
    if 0 <? lcount (blocks_ato system_id) (db_poams (es_db e)) then refuse 409 "cannot authorize: system has an open critical/high severity POA&M" e else
    let expires := default (today + DEFAULT_ATO_PERIOD_DAYS) expires_on in
    let e := put_systems (update_where (fun s => sr_id s =? system_id) (set_authorized expires) (es_systems e)) e in
    let summary := "System " +:+ sr_name sys +:+ " authorized (" +:+ str_or (or_empty (sr_ato_status sys)) "none" +:+ " → authorized), expires " +:+ date_iso expires in
    (Ok (inr (set_authorized expires sys)), put_db (emit "authorized" "system" summary (pr_org_id caller) (Some (pr_email caller)) (Some (pretty (sr_id sys))) (es_db e)) e))
  end.

Record ComplianceSummary := {
  cs_total_controls : Z; cs_status_counts : gmap string Z; cs_coverage_pct : Z; cs_open_poams : Z; cs_overdue_poams : Z }.
(** [round(x, 2)], in hundredths. *)
Definition round2 (x : float) : Z := rhe (100 * fl_num x) (fl_den x).
Definition in_level (baseline : option string) (c : Control) : bool :=
  if bool_decide (baseline = Some "low") then cn_fisma_low c else if bool_decide (baseline = Some "high") then cn_fisma_high c else cn_fisma_mod c.
Definition compliance_summary (caller : Principal) (system_id today : Z) (e : Estate) : served ComplianceSummary :=
  with_system system_id caller e (fun sys =>
    let total := lcount (in_level (sr_baseline sys)) (es_controls e) in
    let buckets := fold_left (fun m i => bump (ir_status i) 1 m) (List.filter (fun i => ir_system_id i =? system_id) (es_impls e)) (zeros_for IMPL_STATUS) in
    let count s := default 0 (buckets !! s) in
    let implemented := count "implemented" + count "inherited" in
    let applicable := total - count "not_applicable" in
    let open := List.filter (fun p => (pm_system_id p =? system_id) && mem (pm_status p) POAM_ACTIVE_STATUSES) (db_poams (es_db e)) in
    (Ok (inr {| cs_total_controls := total; cs_status_counts := buckets;
                cs_coverage_pct := if applicable =? 0 then 0 else round2 (fl_mul (truediv implemented applicable) (fl_of_Z 100));
                cs_open_poams := Z.of_nat (List.length open);
                cs_overdue_poams := lcount (fun p => match pm_due_on p with Some d => d <? today | None => false end) open |}), e)).

Record ImplementationUpdate := {
  iu_status : option string; iu_responsibility : option string; iu_narrative : option string; iu_conmon_frequency : option string;
  iu_last_assessed_on : option Z; iu_next_assessment_due : option Z }.
Definition or_else {A} (a b : option A) : option A := match a with Some _ => a | None => b end.
(** The fields the body sets. *)
Definition apply_update (u : ImplementationUpdate) (r : ImplRow) : ImplRow :=
  {| ir_id := ir_id r; ir_system_id := ir_system_id r; ir_control_id := ir_control_id r; ir_status := default (ir_status r) (iu_status u);
     ir_responsibility := or_else (iu_responsibility u) (ir_responsibility r); ir_narrative := or_else (iu_narrative u) (ir_narrative r);
     ir_conmon_frequency := or_else (iu_conmon_frequency u) (ir_conmon_frequency r); ir_last_assessed_on := or_else (iu_last_assessed_on u) (ir_last_assessed_on r);
     ir_next_assessment_due := or_else (iu_next_assessment_due u) (ir_next_assessment_due r) |}.
(** The row of a control, new or found, once [f] has been applied to it, and the tables. *)
Definition write_impl (system_id control_id : Z) (f : ImplRow -> ImplRow) (e : Estate) : res (ImplRow * Estate) :=
  let! row := scalar_one_or_none (List.filter (is_impl system_id control_id) (es_impls e)) in
  match row with
  | None => let '(i, e) := new_id e in
            let row := f (new_impl i system_id control_id) in
            let! _ := store_impl e row in Ok (row, put_impls (es_impls e ++ [row])%list e)
  | Some r => let! _ := store_impl e (f r) in Ok (f r, put_impls (update_where (is_impl system_id control_id) f (es_impls e)) e)
  end.

Definition upsert_implementation (caller : Principal) (system_id control_id : Z) (body : ImplementationUpdate) (e : Estate) : served (ImplRow * (Z * Z)) :=
  with_system system_id caller e (fun _ => commit (
    let! w := write_impl system_id control_id (apply_update body) e in
    let '(obj, e) := w in
    let e := put_db (emit "updated" "control_implementation" ("Control implementation " +:+ pretty control_id +:+ " → " +:+ ir_status obj) (pr_org_id caller)
                       (Some (pr_email caller)) (Some (pretty (ir_id obj))) (es_db e)) e in
    let! p := propagate_implementation system_id control_id (ir_status obj) (pr_org_id caller) (Some (pr_email caller)) e in
    let '(peers, updated, e) := p in Ok ((obj, (peers, updated)), e)) e).

Record BulkImplementationRow := { bk_identifier : string; bk_status : string; bk_narrative : option string }.
Definition apply_bulk (b : BulkImplementationRow) (r : ImplRow) : ImplRow :=
  apply_update {| iu_status := Some (bk_status b); iu_responsibility := None; iu_narrative := bk_narrative b; iu_conmon_frequency := None;
                  iu_last_assessed_on := None; iu_next_assessment_due := None |} r.
(** [ctrls.get(identifier)]: the last control of that identifier. *)
Definition control_named (identifier : string) (e : Estate) : option Z :=
  last (omap (fun c => if bool_decide (cn_identifier c = identifier) then Some (cn_id c) else None) (es_controls e)).
Fixpoint bulk_rows (system_id : Z) (rows : list BulkImplementationRow) (st : Z * Z * Estate) : res (Z * Z * Estate) :=
  match rows with
  | [] => Ok st
  | r :: rest =>
      let '(upserted, skipped, e) := st in
      match control_named (bk_identifier r) e with
      | Some cid => if cid =? 0 then bulk_rows system_id rest (upserted, skipped + 1, e) else
                    let! w := write_impl system_id cid (apply_bulk r) e in bulk_rows system_id rest (upserted + 1, skipped, w.2)
      | None => bulk_rows system_id rest (upserted, skipped + 1, e)
      end
  end.
Definition bulk_import_implementations (caller : Principal) (system_id : Z) (rows : list BulkImplementationRow) (e : Estate) : served (Z * Z * Z) :=
  with_system system_id caller e (fun _ => commit (
    let! st := bulk_rows system_id rows (0, 0, e) in
    let '(upserted, skipped, e) := st in Ok ((upserted, skipped, Z.of_nat (List.length rows)), e)) e).

Definition baseline_systems (e : Estate) : list BaselineSystem := map (fun s => {| bs_id := sr_id s; bs_baseline := sr_baseline s |}) (es_systems e).
Definition baseline_impls (e : Estate) : list BaselineImpl :=
  map (fun i => {| bi_system_id := ir_system_id i; bi_control_id := ir_control_id i; bi_status := ir_status i |}) (es_impls e).
Definition system_baseline_delta (caller : Principal) (system_id : Z) (target : string) (e : Estate) : served BaselineDelta :=
  with_system system_id caller e (fun sys =>
    match baseline_delta (es_controls e) (es_mappings e) (baseline_systems e) (baseline_impls e) (sr_id sys) target with
    | Ok d => (Ok (inr d), e)
    | Err x => if bool_decide (exn_class x = "UnknownBaselineError") then refuse 400 (exn_msg x) e
               else if bool_decide (exn_class x = "BaselineNotSetError") then refuse 422 (exn_msg x) e else (Err x, e)
    end).

(** [ORDER BY due_on]: rows without a date last. *)
Definition due_le (a b : POAM) : bool :=
  match pm_due_on a, pm_due_on b with Some x, Some y => x <=? y | Some _, None => true | None, Some _ => false | None, None => true end.
Definition list_poams (caller : Principal) (system_id : Z) (e : Estate) : served (list POAM) :=
  with_system system_id caller e (fun _ =>
    (Ok (inr (stable_sort due_le (List.filter (fun p => pm_system_id p =? system_id) (db_poams (es_db e))))), e)).

(** ** Requests on scoring and derivation *)

Definition put_statuses (l : list ScoringStatus) (e : Estate) : Estate := put_scored (set_statuses l (es_scored e)) e.
Definition practice_of (control_id : string) (e : Estate) : res (option ScoringControl) :=
  scalar_one_or_none (List.filter (fun c => bool_decide (pr_control_id c = control_id)) (sd_practices (es_scored e))).
Definition status_of (system_id control_id : Z) (e : Estate) : res (option ScoringStatus) :=
  scalar_one_or_none (List.filter (is_status system_id control_id) (sd_statuses (es_scored e))).
(** The scoring row of a practice, new or found, once a person's state is recorded in it. *)
Definition write_status (system_id control_id : Z) (state : string) (notes evidence_ref : option string) (e : Estate) : res (ScoringStatus * Estate) :=
  let! row := status_of system_id control_id e in
  let f := record_assessed_state state notes evidence_ref in
  match row with
  | None => if negb (existsb (fun s => sr_id s =? system_id) (es_systems e)) then Err IntegrityError else
            let r := f (new_status system_id control_id) in Ok (r, put_statuses (sd_statuses (es_scored e) ++ [r])%list e)
  | Some r => Ok (f r, put_statuses (update_where (is_status system_id control_id) f (sd_statuses (es_scored e))) e)
  end.

Definition set_control_state (caller : Principal) (system_id : Z) (control_id state : string) (notes evidence_ref : option string) (today : Z) (e : Estate)
    : served (string * Z * ScoreSummary) :=
  if negb (mem state STATES) then refuse 422 ("state must be one of " +:+ join ", " STATES) e else
  with_system system_id caller e (fun _ =>
    match practice_of control_id e with
    | Err x => (Err x, e)
    | Ok None => refuse 404 "scoring control not found" e
    | Ok (Some ctrl) => commit (
        let! w := write_status system_id (pr_id ctrl) state notes evidence_ref e in
        let '(status, e) := w in
        let '(closed, db) := on_scoring_status_changed system_id control_id (st_state status) (pr_org_id caller) (Some (pr_email caller)) today (es_db e) in
        let e := put_db db e in
        Ok ((st_state status, closed, system_score_summary system_id (es_scored e)), e)) e
    end).

(** The score board's form: the state is recorded, and nothing reacts to it. *)
Definition scoring_set_state (org : option Z) (system_id : Z) (control_id state : string) (e : Estate) : served ScoreSummary :=
  let record_state :=
    if negb (mem state STATES) then Ok e else
    let! ctrl := practice_of control_id e in
    match ctrl with
    | None => Ok e
    | Some c => let! w := write_status system_id (pr_id c) state None None e in Ok w.2
    end in
  match (match org with
         | None => Ok true
         | Some o => let! row := scalar_one_or_none (List.filter (fun s => sr_id s =? system_id) (es_systems e)) in
                     Ok (match row with Some s => sr_organization_id s =? o | None => false end)
         end) with
  | Err x => (Err x, e)
  | Ok false => refuse 404 "system not found" e
  | Ok true => commit (let! e := record_state in Ok (system_score_summary system_id (es_scored e), e)) e
  end.

Definition PLATFORMS : list string := ["m365"; "azure"; "aws_govcloud"; "gcp"; NO_PLATFORM].
Definition PLATFORM_CONNECTOR_KEYS : list (string * string) := [("m365", "msgraph"); ("aws_govcloud", "aws_govcloud"); ("gcp", "gcp"); ("azure", "azure_arm")].
Definition normalize_platform (platform : option string) : option string :=
  match platform with Some p => if mem p PLATFORMS then Some p else None | None => None end.
Definition connector_key_for_platform (platform : option string) : option string :=
  match normalize_platform platform with None => None | Some plat => dget plat PLATFORM_CONNECTOR_KEYS end.
Definition platform_capture_is_live (resolve_credential : Z -> string -> res (option (list (string * pyval)))) (organization_id : option Z) (platform : option string)
    (today stale_after_days : Z) (db : Db) : bool :=
  match connector_key_for_platform platform with
  | None => false
  | Some key => organization_capture_is_live resolve_credential organization_id (Some key) today stale_after_days db
  end.

Definition get_profile (system_id : Z) (e : Estate) : res (option SystemProfile) :=
  scalar_one_or_none (List.filter (fun p => sp_system_id p =? system_id) (es_profiles e)).
Definition put_profile (p : SystemProfile) (e : Estate) : Estate :=
  put_profiles (update_where (fun q => sp_system_id q =? sp_system_id p) (fun _ => p) (es_profiles e)) e.

Record ProfileIn := { pf_cloud_platform : option string; pf_connectivity : option string; pf_endpoint_scope : list string }.
Definition new_profile (system_id : Z) (body : ProfileIn) : SystemProfile :=
  {| sp_system_id := system_id; sp_cloud_platform := pf_cloud_platform body; sp_connectivity := pf_connectivity body; sp_endpoint_scope := pf_endpoint_scope body;
     sp_derivation := []; sp_derived_at := None |}.
Definition answer_profile (body : ProfileIn) (p : SystemProfile) : SystemProfile :=
  {| sp_system_id := sp_system_id p; sp_cloud_platform := pf_cloud_platform body; sp_connectivity := pf_connectivity body; sp_endpoint_scope := pf_endpoint_scope body;
     sp_derivation := sp_derivation p; sp_derived_at := sp_derived_at p |}.

Definition resolve_org (caller : Principal) (org_id : option Z) (e : Estate) : Response + (Z * Estate) :=
  match resolve_caller_org (pr_org_id caller) org_id with
  | inl r => inl r
  | inr (Some org) => inr (org, e)
  | inr None => match es_organizations e with
                | o :: rest => inr (fold_left Z.max rest o, e)
                | [] => let '(i, e) := new_id e in inr (i, put_organizations [i] e)
                end
  end.

(** Derive a system's profile and keep the snapshot. *)
Definition run_derivation (system_id : Z) (org_id : option Z) (profile : SystemProfile) (create_poams : bool) (actor : option string) (today now : Z) (e : Estate) : DeriveResult * Estate :=
  let '(result, profile, s) := derive_system system_id org_id profile create_poams actor today now (es_scored e) in
  (result, put_profile profile (put_scored s e)).

(** An intake with [generate_ssp] false; writing the SSP is not modelled. *)
Definition intake_system (caller : Principal) (system_name : string) (organization_id : option Z) (body : ProfileIn) (today now : Z) (e : Estate) : served (Z * DeriveResult) :=
  match resolve_org caller organization_id e with
  | inl r => (Ok (inl r), e)
  | inr (org_id, e1) => commit (
      let '(i, e1) := new_id e1 in
      let! e1 := store_system (new_system i org_id system_name None) e1 in
      let profile := new_profile i body in
      let e1 := put_profiles (es_profiles e1 ++ [profile])%list e1 in
      let '(result, e1) := run_derivation i (Some org_id) profile true (Some (pr_email caller)) today now e1 in
      Ok ((i, result), e1)) e
  end.

Definition upsert_profile (caller : Principal) (system_id : Z) (body : ProfileIn) (e : Estate) : served unit :=
  with_system system_id caller e (fun _ => commit (
    let! profile := get_profile system_id e in
    Ok (tt, match profile with
            | None => put_profiles (es_profiles e ++ [new_profile system_id body])%list e
            | Some p => put_profile (answer_profile body p) e
            end)) e).

Definition derive (caller : Principal) (system_id : Z) (create_poams : bool) (today now : Z) (e : Estate) : served DeriveResult :=
  with_system system_id caller e (fun sys =>
    match get_profile system_id e with
    | Err x => (Err x, e)
    | Ok None => refuse 400 "system has no profile; complete the questionnaire first" e
    | Ok (Some p) => let '(result, e) := run_derivation system_id (Some (sr_organization_id sys)) p create_poams (Some (pr_email caller)) today now e in (Ok (inr result), e)
    end).

Definition coverage_endpoint (resolve_credential : Z -> string -> res (option (list (string * pyval)))) (caller : Principal) (system_id today stale_after_days : Z) (e : Estate)
    : served Coverage :=
  with_system system_id caller e (fun sys =>
    match get_profile system_id e with
    | Err x => (Err x, e)
    | Ok None => refuse 404 "system has no profile" e
    | Ok (Some p) =>
        let live := platform_capture_is_live resolve_credential (Some (sr_organization_id sys))
                      (Some (default "" (dget (or_empty (sp_cloud_platform p)) PLATFORM_TO_SSP))) today stale_after_days (es_db e) in
        (Ok (inr (coverage p live)), e)
    end).

Definition impact (caller : Principal) (system_id : Z) (e : Estate) : served (Z * Z * list ControlImpact) :=
  with_system system_id caller e (fun _ => (Ok (inr (control_impact system_id (es_scored e))), e)).

Definition evidence_titles (system_id : Z) (e : Estate) : list string :=
  omap (fun v => if existsb (fun i => (ir_system_id i =? system_id) && bool_decide (v.1 = Some (ir_id i))) (es_impls e) then Some v.2 else None) (es_evidence e).
Definition evidence_requirements_endpoint (caller : Principal) (system_id : Z) (e : Estate) : served (Z * Z * list EvidenceItem) :=
  with_system system_id caller e (fun _ =>
    match get_profile system_id e with
    | Err x => (Err x, e)
    | Ok None => refuse 404 "system has no profile" e
    | Ok (Some p) => (Ok (inr (evidence_requirements (sd_practices (es_scored e)) (evidence_titles system_id e) p)), e)
    end).

(** Propagation on request looks up the control, and no system. *)
Definition propagate (caller : Principal) (system_id : Z) (control_identifier status : string) (e : Estate) : served (Z * Z) :=
  match resolve_control_id control_identifier e with
  | Err x => (Err x, e)
  | Ok None => refuse 404 "control not found" e
  | Ok (Some cid) => commit (
      let! p := propagate_implementation system_id cid status (pr_org_id caller) (Some (pr_email caller)) e in
      let '(peers, updated, e) := p in Ok ((peers, updated), e)) e
  end.

(** ** Implementation rows *)

Definition impl_key (r : ImplRow) : Z * Z := (ir_system_id r, ir_control_id r).
Definition impl_at (k : Z * Z) (l : list ImplRow) : option ImplRow := List.find (is_impl k.1 k.2) l.

Lemma is_impl_key k r : is_impl k.1 k.2 r = true <-> impl_key r = k.
Proof. destruct k as [s c]. unfold is_impl, impl_key. rewrite andb_true_iff, !Z.eqb_eq. split; [by intros [-> ->]|by intros [= -> ->]]. Qed.

Lemma impl_at_elem k l r : NoDup (map impl_key l) -> (impl_at k l = Some r <-> r ∈ l /\ impl_key r = k).
Proof. apply (find_key_elem impl_key (fun k => is_impl k.1 k.2) is_impl_key). Qed.

(** What every request leaves: one row per system id, and one per system and control, each
    row as the database takes it; mappings of controls that exist. *)
Record estate_wf (e : Estate) : Prop := {
  ew_systems : NoDup (map sr_id (es_systems e));
  ew_impls : NoDup (map impl_key (es_impls e));
  ew_profiles : NoDup (map sp_system_id (es_profiles e));
  ew_scored : scored_wf (es_scored e);
  ew_stored : forall r, r ∈ es_impls e -> store_impl e r = Ok tt;
  ew_identifiers : NoDup (map cn_identifier (es_controls e));
  ew_mappings : forall m, m ∈ es_mappings e -> existsb (fun c => cn_id c =? fm_control_id m) (es_controls e) = true;
  ew_seq : forall s, s ∈ es_systems e -> sr_id s < db_seq (es_db e);
  ew_profile_seq : forall p, p ∈ es_profiles e -> sp_system_id p < db_seq (es_db e) }.

(** Everything but implementations and the log stays. *)
Record impls_only (e e' : Estate) : Prop := {
  io_systems : es_systems e' = es_systems e; io_controls : es_controls e' = es_controls e; io_mappings : es_mappings e' = es_mappings e;
  io_profiles : es_profiles e' = es_profiles e; io_poams : db_poams (es_db e') = db_poams (es_db e); io_tasks : db_tasks (es_db e') = db_tasks (es_db e);
  io_practices : sd_practices (es_scored e') = sd_practices (es_scored e); io_statuses : sd_statuses (es_scored e') = sd_statuses (es_scored e);
  io_evidence : es_evidence e' = es_evidence e;
  io_seq : db_seq (es_db e) <= db_seq (es_db e') }.
#[export] Instance impls_only_preorder : PreOrder impls_only.
Proof. split; [by intros e|]. intros a b c [] []. split; congruence || lia. Qed.

Lemma impls_only_put l e : impls_only e (put_impls l e).
Proof. by split. Qed.
Lemma impls_only_new e : impls_only e (new_id e).2.
Proof. split; cbn; done || lia. Qed.
Lemma impls_only_quiet v t x o a i e : impls_only e (put_db (emit_quietly v t x o a i (es_db e)) e).
Proof. split; cbn; done || lia. Qed.
Lemma impls_only_emit v t x o a i e : impls_only e (put_db (emit v t x o a i (es_db e)) e).
Proof. split; cbn; done || lia. Qed.
Lemma store_impl_ext e e' r : es_systems e' = es_systems e -> es_controls e' = es_controls e -> store_impl e' r = store_impl e r.
Proof. intros E1 E2. unfold store_impl. by rewrite E1, E2. Qed.
Lemma impls_only_wf e e' : impls_only e e' -> estate_wf e -> NoDup (map impl_key (es_impls e')) -> (forall r, r ∈ es_impls e' -> store_impl e r = Ok tt) -> estate_wf e'.
Proof.
  intros [A B C D E F G H I J] [W1 W2 W3 [X1 X2 X3] W4 W8 W7 W5 W6] Hn Hst. split; rewrite ?A, ?B, ?C, ?D; try done.
  - split; by rewrite ?G, ?H.
  - intros r Hr. rewrite (store_impl_ext e) by done. by apply Hst.
  - intros s Hs. specialize (W5 s Hs). lia.
  - intros s Hs. specialize (W6 s Hs). lia.
Qed.

(** [e'] is [e] with the row [row] for its key. *)
Definition row_written (row : ImplRow) (e e' : Estate) : Prop :=
  impls_only e e' /\ NoDup (map impl_key (es_impls e')) /\
  forall k, impl_at k (es_impls e') = if decide (k = impl_key row) then Some row else impl_at k (es_impls e).

Lemma append_impl row e e1 : impls_only e e1 -> es_impls e1 = es_impls e -> NoDup (map impl_key (es_impls e)) -> impl_at (impl_key row) (es_impls e) = None ->
  row_written row e (put_impls (es_impls e1 ++ [row])%list e1).
Proof.
  intros Hio Ei Hn Hno. split; [etrans; [exact Hio|apply impls_only_put]|]. cbn [es_impls put_impls]. rewrite Ei. split.
  - by apply (nodup_key_app impl_key (fun k => is_impl k.1 k.2) is_impl_key (impl_key row)).
  - intros k. unfold impl_at. rewrite (find_key_app (fun k => is_impl k.1 k.2) k). fold (impl_at k (es_impls e)). case_decide as Hk.
    + subst k. rewrite Hno. by rewrite (proj2 (is_impl_key _ _)).
    + destruct (impl_at k (es_impls e)); [done|]. destruct (is_impl k.1 k.2 row) eqn:E; [|done]. apply is_impl_key in E. congruence.
Qed.
Lemma update_impl k f r e : (forall r, impl_key (f r) = impl_key r) -> NoDup (map impl_key (es_impls e)) -> impl_at k (es_impls e) = Some r ->
  row_written (f r) e (put_impls (update_where (is_impl k.1 k.2) f (es_impls e)) e).
Proof.
  intros Hf Hn Hr. split; [apply impls_only_put|]. cbn [es_impls put_impls]. split; [by apply (nodup_key_update impl_key (fun k => is_impl k.1 k.2) k)|].
  intros k'. unfold impl_at, update_where. rewrite (find_key_update impl_key (fun k => is_impl k.1 k.2) is_impl_key k k') by done.
  fold (impl_at k (es_impls e)). rewrite Hr. apply impl_at_elem in Hr as [_ Hk]; [|done]. rewrite Hf, Hk. done.
Qed.

Lemma write_impl_spec s c f e : (forall r, impl_key (f r) = impl_key r) -> NoDup (map impl_key (es_impls e)) ->
  match write_impl s c f e with
  | Ok (row, e') => row_written row e e' /\ impl_key row = (s, c) /\ store_impl e row = Ok tt /\
                    row = f (default (new_impl (db_seq (es_db e)) s c) (impl_at (s, c) (es_impls e)))
  | Err x => x = DBAPIError \/ x = IntegrityError
  end.
Proof.
  intros Hf Hn. unfold write_impl. rewrite (scalar_key impl_key (fun k => is_impl k.1 k.2) is_impl_key (s, c)) by done. cbn [res_bind].
  fold (impl_at (s, c) (es_impls e)).
  assert (Hst : forall e r, match store_impl e r with Ok _ => True | Err x => x = DBAPIError \/ x = IntegrityError end).
  { intros e0 r. unfold store_impl. destruct (negb _); [by left|]. destruct (negb _); [by right|done]. }
  destruct (impl_at (s, c) (es_impls e)) as [r|] eqn:E.
  - specialize (Hst e (f r)). destruct (store_impl e (f r)) as [[]|] eqn:Es; [|exact Hst]. cbn [res_bind]. pose proof E as E'. apply impl_at_elem in E' as [_ Hk]; [|done].
    split; [by apply (update_impl (s, c))|]. split; [by rewrite Hf|]. by split.
  - destruct (new_id e) as [i e1] eqn:En. injection En as <- <-. set (e1 := put_db _ e). specialize (Hst e1 (f (new_impl (db_seq (es_db e)) s c))).
    destruct (store_impl e1 _) as [[]|] eqn:Es; [|exact Hst]. cbn [res_bind]. split; [|split; [by rewrite Hf|split; [by rewrite <-(store_impl_ext e e1)|done]]].
    apply append_impl; [apply impls_only_new|done|done|]. rewrite Hf. exact E.
Qed.

Lemma row_written_wf row e e' : row_written row e e' -> store_impl e row = Ok tt -> estate_wf e -> estate_wf e'.
Proof.
  intros (Hio & Hn & Hat) Hs Hw. apply (impls_only_wf e); [done..|]. intros r Hr.
  assert (Hk : impl_at (impl_key r) (es_impls e') = Some r) by by apply impl_at_elem. rewrite Hat in Hk. case_decide; [by injection Hk as <-|].
  apply impl_at_elem in Hk as [Hin _]; [by apply Hw|apply Hw].
Qed.

(** ** Propagation *)

Definition holds (s : Z) (status : string) (e : Estate) (c : Z) : bool := bool_decide (ir_status <$> impl_at (s, c) (es_impls e) = Some status).

(** The row a control ends with: its own with the new status, or a new one. *)
Definition propagated_row (s : Z) (status : string) (old : option ImplRow) (c : Z) (row : ImplRow) : Prop :=
  match old with Some r => row = set_status status r | None => exists i, row = propagated i s c status end.

Lemma impl_status_same r : set_status (ir_status r) r = r.
Proof. by destruct r. Qed.

Lemma propagate_one_spec s status u e c : estate_wf e -> mem status IMPL_STATUS = true -> existsb (fun x => sr_id x =? s) (es_systems e) = true ->
  existsb (fun x => cn_id x =? c) (es_controls e) = true ->
  exists row e', propagate_one s status (u, e) c = Ok (u + (if holds s status e c then 0 else 1), e') /\ estate_wf e' /\ impls_only e e' /\
    impl_key row = (s, c) /\ ir_status row = status /\ propagated_row s status (impl_at (s, c) (es_impls e)) c row /\
    (holds s status e c = true -> e' = e) /\
    forall k, impl_at k (es_impls e') = if decide (k = (s, c)) then Some row else impl_at k (es_impls e).
Proof.
  intros Hw Hst Hs Hc. unfold propagate_one, holds. change (List.find (is_impl s c) (es_impls e)) with (impl_at (s, c) (es_impls e)). destruct (impl_at (s, c) (es_impls e)) as [r|] eqn:E.
  - cbn [fmap option_fmap option_map propagated_row]. pose proof E as E'. apply impl_at_elem in E' as [Hin Hk]; [|apply Hw]. case_bool_decide as Hsame.
    + rewrite bool_decide_eq_true_2 by congruence. exists r, e. split; [f_equal; f_equal; lia|]. split; [done|]. split; [done|]. split; [done|]. split; [done|].
      split; [rewrite <-Hsame; by rewrite impl_status_same|]. split; [done|]. intros k. case_decide as Hd; [by rewrite Hd|done].
    + rewrite bool_decide_eq_false_2 by congruence.
      assert (Hsto : store_impl e (set_status status r) = Ok tt).
      { pose proof (ew_stored e Hw r Hin) as H. unfold store_impl in *. cbn [ir_status ir_responsibility ir_system_id ir_control_id set_status]. rewrite Hst.
        destruct (mem (ir_status r) IMPL_STATUS); cbn [andb negb] in *; [exact H|discriminate H]. }
      rewrite Hsto. cbn [res_bind]. pose proof (update_impl (s, c) (set_status status) r e ltac:(done) (ew_impls e Hw) E) as Hrw.
      exists (set_status status r), (put_impls (update_where (is_impl s c) (set_status status) (es_impls e)) e). split; [done|]. split; [by eapply row_written_wf|].
      destruct Hrw as (Hio & _ & Hat). split; [exact Hio|]. split; [exact Hk|]. split; [done|]. split; [done|]. split; [done|]. intros k. rewrite Hat. cbn. unfold impl_key in *. cbn. by rewrite Hk.
  - cbn [fmap option_fmap option_map propagated_row]. destruct (new_id e) as [i e1] eqn:En. injection En as <- <-. set (e1 := put_db _ e). set (row := propagated (db_seq (es_db e)) s c status).
    assert (Hsto : store_impl e row = Ok tt) by (unfold store_impl; cbn; by rewrite Hst, Hs, Hc).
    rewrite (store_impl_ext e) by done. rewrite Hsto. cbn [res_bind].
    pose proof (append_impl row e e1 (impls_only_new e) eq_refl (ew_impls e Hw) E) as Hrw.
    exists row, (put_impls (es_impls e1 ++ [row])%list e1). split; [done|]. split; [by eapply row_written_wf|]. destruct Hrw as (Hio & _ & Hat).
    split; [exact Hio|]. split; [done|]. split; [done|]. split; [by eexists|]. split; [done|]. exact Hat.
Qed.

Lemma propagate_all_spec s status peers u e : estate_wf e -> mem status IMPL_STATUS = true -> existsb (fun x => sr_id x =? s) (es_systems e) = true ->
  (forall c, c ∈ peers -> existsb (fun x => cn_id x =? c) (es_controls e) = true) -> NoDup peers ->
  exists e', propagate_all s status peers (u, e) = Ok (u + lcount (fun c => negb (holds s status e c)) peers, e') /\ estate_wf e' /\ impls_only e e' /\
    (forall c, c ∈ peers -> exists row, impl_at (s, c) (es_impls e') = Some row /\ ir_status row = status /\ propagated_row s status (impl_at (s, c) (es_impls e)) c row) /\
    (forall k, (k.1 <> s \/ k.2 ∉ peers) -> impl_at k (es_impls e') = impl_at k (es_impls e)) /\
    ((forall c, c ∈ peers -> holds s status e c = true) -> e' = e).
Proof.
  intros Hw Hst. revert u e Hw. induction peers as [|c peers IH]; intros u e Hw Hs Hc Hn.
  { exists e. cbn. split; [f_equal; f_equal; unfold lcount; cbn; lia|]. do 2 (split; [done|]). split; [by intros c ?%not_elem_of_nil|done]. }
  apply NoDup_cons in Hn as [Hno Hn]. destruct (propagate_one_spec s status u e c Hw Hst Hs) as (row & e1 & E1 & Hw1 & Hio & Hk & Hr & Hp & Hsame & Hat); [apply Hc; by left|].
  cbn [propagate_all]. rewrite E1. cbn [res_bind].
  destruct (IH (u + (if holds s status e c then 0 else 1)) e1 Hw1) as (e2 & E2 & Hw2 & Hio2 & Hin & Hout & Hid); [by rewrite (io_systems _ _ Hio)|
    intros d Hd; rewrite (io_controls _ _ Hio); apply Hc; by right|done|].
  assert (Hh : forall d, d ∈ peers -> holds s status e1 d = holds s status e d).
  { intros d Hd. unfold holds. rewrite Hat, decide_False; [done|]. intros [= ->]. done. }
  exists e2. rewrite E2. split; [f_equal; f_equal; rewrite lcount_cons, (lcount_ext _ (fun c => negb (holds s status e c))) by (intros d Hd; by rewrite Hh);
    destruct (holds s status e c); cbn; lia|]. split; [done|]. split; [by etrans|]. split; [|split].
  - intros d Hd. destruct (decide (d = c)) as [->|Hne].
    + rewrite Hout by by right. rewrite Hat, decide_True by done. by exists row.
    + apply elem_of_cons in Hd as [->|Hd]; [done|]. destruct (Hin d Hd) as (row' & ? & ? & Hp'). exists row'. rewrite Hat, decide_False in Hp' by congruence. done.
  - intros k Hk'. rewrite Hout by (destruct Hk' as [|Hk']; [by left|right; intros ?; apply Hk'; by right]). rewrite Hat, decide_False; [done|].
    intros ->. destruct Hk' as [|Hk']; [done|]. apply Hk'. by left.
  - intros Hall. rewrite Hid; [apply Hsame, Hall; by left|]. intros d Hd. rewrite Hh by done. apply Hall. by right.
Qed.

(** Two controls are equivalent when they share a mapping value that is specific. *)
Definition shares (mappings : list FrameworkMapping) (c d : Z) : Prop :=
  exists m n, m ∈ mappings /\ n ∈ mappings /\ fm_control_id m = c /\ fm_control_id n = d /\ fm_column_key m = fm_column_key n /\ fm_value m = fm_value n /\
    3 <= Z.of_nat (String.length (strip (fm_value m))) /\
    Z.of_nat (List.length (List.filter (fun x => bool_decide (fm_column_key x = fm_column_key m) && bool_decide (fm_value x = fm_value m)) mappings)) <= MAX_SHARE.

Lemma all_peers_spec mappings c d : d ∈ all_peers mappings c <-> d <> c /\ shares mappings c d.
Proof.
  unfold all_peers. rewrite elem_of_difference, elem_of_list_to_set, list_elem_of_bind, elem_of_singleton. split.
  - intros [(m & Hd & Hm) Hne]. split; [done|]. apply list_elem_of_In, filter_In in Hm as [Hm%list_elem_of_In Hc%Z.eqb_eq]. unfold mapping_peers in Hd.
    destruct (Z.ltb_spec (Z.of_nat (String.length (strip (fm_value m)))) 3) as [|Hlen]; [by apply not_elem_of_nil in Hd|]. rewrite length_map in Hd.
    destruct (Z.ltb_spec MAX_SHARE (Z.of_nat (List.length (List.filter (fun x => bool_decide (fm_column_key x = fm_column_key m) && bool_decide (fm_value x = fm_value m)) mappings)))) as [|Hsh];
      [by apply not_elem_of_nil in Hd|]. apply list_elem_of_fmap in Hd as (n & -> & Hn).
    apply list_elem_of_In, filter_In in Hn as [Hn%list_elem_of_In [Hk%bool_decide_eq_true Hv%bool_decide_eq_true]%andb_prop]. by exists m, n.
  - intros [Hne (m & n & Hm & Hn & <- & <- & Hk & Hv & Hlen & Hsh)]. split; [|done]. exists m. split.
    + unfold mapping_peers. rewrite length_map. rewrite !(proj2 (Z.ltb_ge _ _)) by done. apply (list_elem_of_fmap_2 fm_control_id).
      apply list_elem_of_In, filter_In. split; [by apply list_elem_of_In|]. by rewrite Hk, Hv, !bool_decide_eq_true_2.
    + apply list_elem_of_In, filter_In. split; [by apply list_elem_of_In|apply Z.eqb_refl].
Qed.

Lemma crosswalk_peers_spec mappings c :
  NoDup (crosswalk_peers mappings c) /\ (List.length (crosswalk_peers mappings c) <= MAX_PEERS)%nat /\
  (forall d, d ∈ crosswalk_peers mappings c -> d ∈ all_peers mappings c) /\
  ((size (all_peers mappings c) <= MAX_PEERS)%nat -> forall d, d ∈ all_peers mappings c -> d ∈ crosswalk_peers mappings c).
Proof.
  unfold crosswalk_peers. set (l := merge_sort Z.le (elements (all_peers mappings c))). assert (Hp : l ≡ₚ elements (all_peers mappings c)) by apply merge_sort_Permutation.
  split; [eapply sublist_NoDup; [|apply sublist_take]; rewrite Hp; apply NoDup_elements|]. split; [rewrite length_take; lia|]. split.
  - intros d Hd. apply elem_of_elements. rewrite <-Hp. eapply elem_of_sublist; [exact Hd|apply sublist_take].
  - intros Hs d Hd. rewrite take_ge; [rewrite Hp; by apply elem_of_elements|]. rewrite Hp. exact Hs.
Qed.

(** C18: map once, comply many. Copying a control's status to its equivalents always goes
    through: every peer ends with that status, its own row otherwise as it was, or a new
    inherited row that says where it came from; no other implementation, and nothing
    but implementations and the log, changes; the count reported is that of the peers
    that did not hold the status yet, so copying it again updates none. Peers are at most
    sixty, never the control itself, share a specific mapping value with it, and are all
    of those when these are at most sixty; and the relation is mutual. *)
Theorem map_once_comply_many s cid status org actor e : estate_wf e -> mem status IMPL_STATUS = true -> existsb (fun x => sr_id x =? s) (es_systems e) = true ->
  let peers := crosswalk_peers (es_mappings e) cid in
  exists e', propagate_implementation s cid status org actor e = Ok (Z.of_nat (List.length peers), lcount (fun c => negb (holds s status e c)) peers, e') /\
    impls_only e e' /\ (List.length peers <= MAX_PEERS)%nat /\ cid ∉ peers /\ (forall d, d ∈ peers -> shares (es_mappings e) cid d) /\
    ((size (all_peers (es_mappings e) cid) <= MAX_PEERS)%nat -> forall d, d <> cid -> shares (es_mappings e) cid d -> d ∈ peers) /\
    (forall c d, shares (es_mappings e) c d -> shares (es_mappings e) d c) /\
    (forall c, c ∈ peers -> exists row, impl_at (s, c) (es_impls e') = Some row /\ ir_status row = status /\ propagated_row s status (impl_at (s, c) (es_impls e)) c row) /\
    (forall k, (k.1 <> s \/ k.2 ∉ peers) -> impl_at k (es_impls e') = impl_at k (es_impls e)) /\
    exists e'', propagate_implementation s cid status org actor e' = Ok (Z.of_nat (List.length peers), 0, e'') /\ es_impls e'' = es_impls e'.
Proof.
  intros Hw Hst Hs peers. destruct (crosswalk_peers_spec (es_mappings e) cid) as (Hn & Hlen & Hsub & Hall). fold peers in Hn, Hlen, Hsub, Hall.
  assert (Hex : forall c, c ∈ peers -> existsb (fun x => cn_id x =? c) (es_controls e) = true).
  { intros c Hc. apply Hsub, all_peers_spec in Hc as [_ (m & n & _ & Hn' & _ & <- & _)]. by apply Hw. }
  assert (Hgo : forall e1, estate_wf e1 -> impls_only e e1 -> exists e', propagate_implementation s cid status org actor e1 =
      Ok (Z.of_nat (List.length peers), lcount (fun c => negb (holds s status e1 c)) peers, e') /\ impls_only e1 e' /\ estate_wf e' /\
      (forall c, c ∈ peers -> exists row, impl_at (s, c) (es_impls e') = Some row /\ ir_status row = status /\ propagated_row s status (impl_at (s, c) (es_impls e1)) c row) /\
      (forall k, (k.1 <> s \/ k.2 ∉ peers) -> impl_at k (es_impls e') = impl_at k (es_impls e1)) /\
      ((forall c, c ∈ peers -> holds s status e1 c = true) -> es_impls e' = es_impls e1)).
  { intros e1 Hw1 Hio. unfold propagate_implementation. rewrite (io_mappings _ _ Hio). fold peers. case_bool_decide as Hnil.
    - rewrite Hnil. exists e1. cbn. do 3 (split; [done|]). split; [by intros c ?%not_elem_of_nil|done].
    - destruct (propagate_all_spec s status peers 0 e1 Hw1 Hst) as (e2 & -> & Hw2 & Hio2 & Hin & Hout & Hid);
        [by rewrite (io_systems _ _ Hio)|intros c Hc; rewrite (io_controls _ _ Hio); by apply Hex|done|]. cbn [res_bind].
      eexists. split; [done|]. split; [etrans; [exact Hio2|apply impls_only_quiet]|]. split; [apply (impls_only_wf e2); [apply impls_only_quiet|done|apply Hw2|apply Hw2]|].
      split; [exact Hin|]. split; [exact Hout|]. intros Hh. cbn. by rewrite (Hid Hh). }
  destruct (Hgo e Hw ltac:(done)) as (e' & E & Hio & Hw' & Hin & Hout & _). destruct (Hgo e' Hw' Hio) as (e'' & E' & _ & _ & _ & _ & Hid).
  assert (Hh : forall c, c ∈ peers -> holds s status e' c = true).
  { intros c Hc. destruct (Hin c Hc) as (row & Er & Hr & _). unfold holds. rewrite Er. cbn. by rewrite Hr, bool_decide_eq_true_2. }
  exists e'. split; [exact E|]. split; [done|]. split; [done|]. split; [by intros Hc; apply Hsub, all_peers_spec in Hc as []|].
  split; [intros d Hd; apply Hsub, all_peers_spec in Hd; tauto|]. split; [intros Hsz d H1 H2; apply Hall; [done|]; by apply all_peers_spec|].
  split; [intros c d (m & n & ? & ? & ? & ? & Ek & Ev & ? & ?); exists n, m; rewrite <-Ek, <-Ev; done|]. split; [exact Hin|]. split; [exact Hout|].
  exists e''. rewrite E', Hid by done. split; [|done]. f_equal. f_equal. f_equal. apply (lcount_none). intros c Hc. by rewrite Hh.
Qed.

(** ** Who reaches a system *)

Definition visible (caller : Principal) (s : SystemRow) : bool :=
  bool_decide (sr_deleted_at s = None) && (bool_decide (pr_org_id caller = None) || bool_decide (pr_org_id caller = Some (sr_organization_id s))).
Definition out_of_reach (system_id : Z) (caller : Principal) (e : Estate) : Prop :=
  forall s, s ∈ es_systems e -> sr_id s = system_id -> visible caller s = false.
Definition not_found : Response := HTTPException 404 "system not found".

Lemma require_system_spec system_id caller e : NoDup (map sr_id (es_systems e)) ->
  (out_of_reach system_id caller e /\ require_system system_id caller e = Ok (inl not_found)) \/
  exists s, s ∈ es_systems e /\ sr_id s = system_id /\ visible caller s = true /\ require_system system_id caller e = Ok (inr s).
Proof.
  intros Hn. unfold require_system.
  assert (Hf : scalar_one_or_none (List.filter (fun s => (sr_id s =? system_id) && bool_decide (sr_deleted_at s = None)) (es_systems e)) =
    Ok (List.find (fun s => (sr_id s =? system_id) && bool_decide (sr_deleted_at s = None)) (es_systems e)) ).
  { induction (es_systems e) as [|x l IH]; [done|]. cbn [map] in Hn. apply NoDup_cons in Hn as [Hx Hn]. cbn [List.filter List.find].
    destruct ((sr_id x =? system_id) && bool_decide (sr_deleted_at x = None)) eqn:E; [|by apply IH]. apply andb_prop in E as [E%Z.eqb_eq _].
    destruct (List.filter _ l) as [|y l'] eqn:Ef; [done|]. assert (Hy : In y (y :: l')) by by left. rewrite <-Ef in Hy.
    apply filter_In in Hy as [Hy [Ey%Z.eqb_eq _]%andb_prop]. destruct Hx. rewrite E, <-Ey. by apply (list_elem_of_fmap_2 sr_id), list_elem_of_In. }
  rewrite Hf. cbn [res_bind]. destruct (List.find _ (es_systems e)) as [s|] eqn:E.
  - apply find_some in E as [Hs%list_elem_of_In [Ei%Z.eqb_eq Ed]%andb_prop].
    destruct (bool_decide (pr_org_id caller = None) || bool_decide (pr_org_id caller = Some (sr_organization_id s))) eqn:Ev.
    + right. exists s. split; [done|]. split; [done|]. split; [unfold visible; by rewrite Ed, Ev|]. by destruct (bool_decide (pr_org_id caller = None)), (bool_decide (pr_org_id caller = Some _)).
    + left. apply orb_false_iff in Ev as [H1 H2]. split; [|by rewrite H1, H2]. intros t Ht Et.
      assert (t = s) as -> by (eapply (nodup_key_inj sr_id); [exact Hn|done|done|congruence]). unfold visible. by rewrite Ed, H1, H2.
  - left. split; [|done]. intros s Hs Ei. unfold visible. destruct (bool_decide (sr_deleted_at s = None)) eqn:Ed; [|done].
    eapply find_none in E; [|by apply list_elem_of_In]. cbn in E. rewrite Ed, andb_true_r in E. apply Z.eqb_neq in E. done.
Qed.

Lemma out_of_reach_404 {A} system_id caller e (k : SystemRow -> served A) : estate_wf e -> out_of_reach system_id caller e ->
  with_system system_id caller e k = (Ok (inl not_found), e).
Proof.
  intros Hw Ho. unfold with_system. destruct (require_system_spec system_id caller e (ew_systems e Hw)) as [[_ ->]|(s & Hs & Ei & Hv & _)]; [done|].
  rewrite (Ho s Hs Ei) in Hv. done.
Qed.
Lemma in_reach {A} system_id caller e (k : SystemRow -> served A) : estate_wf e ->
  with_system system_id caller e k = (Ok (inl not_found), e) /\ out_of_reach system_id caller e \/
  exists s, s ∈ es_systems e /\ sr_id s = system_id /\ visible caller s = true /\ with_system system_id caller e k = k s.
Proof.
  intros Hw. unfold with_system. destruct (require_system_spec system_id caller e (ew_systems e Hw)) as [[Ho ->]|(s & Hs & Ei & Hv & ->)]; [by left|right].
  by exists s.
Qed.

(** a request on a system outside the caller's organization, or on a deleted one, is
    answered 404 and changes nothing, whichever request it is: deletion, the compliance
    summary, implementations one by one or in bulk, the baseline delta, POA&Ms, a
    scoring state, the profile, derivation, coverage, impact and evidence requirements.
    Authorization refuses too (a caller without the role is told so first). *)
Theorem requests_stay_in_reach system_id caller e : estate_wf e -> out_of_reach system_id caller e ->
  (forall hard now, delete_system caller system_id hard now e = (Ok (inl not_found), e)) /\
  (forall today, compliance_summary caller system_id today e = (Ok (inl not_found), e)) /\
  (forall cid body, upsert_implementation caller system_id cid body e = (Ok (inl not_found), e)) /\
  (forall rows, bulk_import_implementations caller system_id rows e = (Ok (inl not_found), e)) /\
  (forall target, system_baseline_delta caller system_id target e = (Ok (inl not_found), e)) /\
  list_poams caller system_id e = (Ok (inl not_found), e) /\
  (forall cid state notes ref today, mem state STATES = true -> set_control_state caller system_id cid state notes ref today e = (Ok (inl not_found), e)) /\
  (forall body, upsert_profile caller system_id body e = (Ok (inl not_found), e)) /\
  (forall mk today now, derive caller system_id mk today now e = (Ok (inl not_found), e)) /\
  (forall rc today days, coverage_endpoint rc caller system_id today days e = (Ok (inl not_found), e)) /\
  impact caller system_id e = (Ok (inl not_found), e) /\ evidence_requirements_endpoint caller system_id e = (Ok (inl not_found), e) /\
  (forall expires today, exists r, authorize_system caller system_id expires today e = (Ok (inl r), e) /\ (rs_status r = 403 \/ r = not_found)).
Proof.
  intros Hw Ho. repeat (split; [intros; unfold delete_system, compliance_summary, upsert_implementation, bulk_import_implementations, system_baseline_delta,
    list_poams, upsert_profile, derive, coverage_endpoint, impact, evidence_requirements_endpoint; try by apply out_of_reach_404|]).
  - unfold set_control_state. rewrite H. by apply out_of_reach_404.
  - intros expires today. unfold authorize_system. destruct (require_role ["admin"] caller) as [r|p] eqn:E.
    + exists r. split; [done|]. left. unfold require_role in E. destruct (is_global caller || _); [done|]. by injection E as <-.
    + exists not_found. split; [by apply out_of_reach_404|by right].
Qed.

Lemma visible_spec caller s : visible caller s = true <-> sr_deleted_at s = None /\ (pr_org_id caller = None \/ pr_org_id caller = Some (sr_organization_id s)).
Proof. unfold visible. by rewrite andb_true_iff, orb_true_iff, !bool_decide_eq_true. Qed.

(** ** Authorization and deletion *)

(** a system is authorized exactly when an administrator (or a platform-wide caller) who
    reaches it asks while it has no open critical or high POA&M; then its status and its
    expiry (a year on unless one is named) are all that changes. Otherwise nothing does,
    and the answer says which condition failed. *)
Theorem authorization_needs_a_clean_slate caller id expires_on today e : estate_wf e ->
  match authorize_system caller id expires_on today e with
  | (Ok (inr s'), e') => exists s, s ∈ es_systems e /\ sr_id s = id /\ visible caller s = true /\ (is_global caller = true \/ pr_role caller = "admin") /\
      (forall p, p ∈ db_poams (es_db e) -> pm_system_id p = id -> mem (pm_severity p) ["critical"; "high"] = true -> mem (pm_status p) POAM_ACTIVE_STATUSES = false) /\
      s' = set_authorized (default (today + 365) expires_on) s /\ (forall t, t ∈ es_systems e' <-> t = s' \/ (t ∈ es_systems e /\ sr_id t <> id)) /\
      es_impls e' = es_impls e /\ db_poams (es_db e') = db_poams (es_db e) /\ sd_statuses (es_scored e') = sd_statuses (es_scored e) /\ es_profiles e' = es_profiles e
  | (Ok (inl r), e') => e' = e /\
      ((rs_status r = 403 /\ is_global caller = false /\ pr_role caller <> "admin") \/ (r = not_found /\ out_of_reach id caller e) \/
       (rs_status r = 409 /\ exists p, p ∈ db_poams (es_db e) /\ pm_system_id p = id /\ mem (pm_severity p) ["critical"; "high"] = true /\ mem (pm_status p) POAM_ACTIVE_STATUSES = true))
  | (Err _, _) => False
  end.
Proof.
  intros Hw. unfold authorize_system, require_role. destruct (is_global caller || mem (pr_role caller) ["admin"]) eqn:Er.
  2:{ split; [done|]. left. apply orb_false_iff in Er as [-> Hr%mem_false]. split; [done|]. split; [done|]. intros E. apply Hr. rewrite E. by left. }
  set (k := fun sys => _). destruct (in_reach id caller e k Hw) as [[-> Ho]|(s & Hs & Ei & Hv & ->)]; [by split; [done|right; left]|]. unfold k.
  assert (Hb : forall p, blocks_ato id p = true <-> pm_system_id p = id /\ mem (pm_severity p) ["critical"; "high"] = true /\ mem (pm_status p) POAM_ACTIVE_STATUSES = true).
  { intros p. unfold blocks_ato. rewrite !andb_true_iff, Z.eqb_eq. tauto. }
  destruct (0 <? lcount (blocks_ato id) (db_poams (es_db e))) eqn:Ep.
  - split; [done|]. right. right. split; [done|]. apply Z.ltb_lt in Ep. destruct (List.filter (blocks_ato id) (db_poams (es_db e))) as [|p l] eqn:Ef.
    + rewrite lcount_none in Ep; [lia|]. intros p Hp. destruct (blocks_ato id p) eqn:E; [|done]. assert (Hin : In p (List.filter (blocks_ato id) (db_poams (es_db e))))
        by (apply filter_In; split; [by apply list_elem_of_In|done]). by rewrite Ef in Hin.
    + assert (Hp : In p (p :: l)) by by left. rewrite <-Ef in Hp. apply filter_In in Hp as [Hp Hpb%Hb]. apply list_elem_of_In in Hp. by exists p.
  - exists s. split; [done|]. split; [done|]. split; [done|]. split; [apply orb_prop in Er as [|Hr%mem_true%list_elem_of_singleton]; [by left|by right]|]. split; [|split; [done|split; [|done]]].
    + apply Z.ltb_ge in Ep. assert (Ez : lcount (blocks_ato id) (db_poams (es_db e)) = 0) by (pose proof (lcount_bounds (blocks_ato id) (db_poams (es_db e))); lia).
      intros p Hp Hsys Hsev. pose proof (lcount_zero _ _ Ez p Hp) as Hno. apply not_true_iff_false in Hno. apply not_true_iff_false. intros Ha. by apply Hno, Hb.
    + intros t. cbn [es_systems put_db put_scored put_systems]. unfold update_where. rewrite list_elem_of_fmap. split.
      * intros (x & -> & Hx). destruct (Z.eqb_spec (sr_id x) id) as [Ex|Ex]; [left|by right]. f_equal. eapply (nodup_key_inj sr_id); [apply Hw|done|done|congruence].
      * intros [ ->|[Ht Hne]]; [exists s|exists t]; (split; [|done]); [by rewrite (proj2 (Z.eqb_eq _ _) Ei)|by rewrite (proj2 (Z.eqb_neq _ _) Hne)].
Qed.

(** What refers to a system. *)
Definition refers (id : Z) (e : Estate) : Prop :=
  (exists p, p ∈ db_poams (es_db e) /\ pm_system_id p = id) \/ id ∈ es_assessments e \/ id ∈ es_risks e \/ (exists i, i ∈ es_impls e /\ ir_system_id i = id) \/
  exists r, r ∈ sd_statuses (es_scored e) /\ st_system_id r = id.

Lemma dependents_refer id e : dependent_authorization_record_count id e <> 0 -> refers id e.
Proof.
  unfold dependent_authorization_record_count. set (impls := List.filter _ (es_impls e)). intros H.
  assert (Hi : forall i, i ∈ impls -> refers id e).
  { intros i [Hi Ei%Z.eqb_eq]%list_elem_of_In%filter_In. do 3 right. left. exists i. split; [by apply list_elem_of_In|done]. }
  destruct (decide (lcount (fun p => pm_system_id p =? id) (db_poams (es_db e)) = 0)) as [E1|(p & Hp & Ep%Z.eqb_eq)%lcount_some]; [|left; by exists p].
  destruct (decide (lcount (Z.eqb id) (es_assessments e) = 0)) as [E2|(x & Hx & <-%Z.eqb_eq)%lcount_some]; [|by right; left].
  destruct (decide (lcount (Z.eqb id) (es_risks e) = 0)) as [E3|(x & Hx & <-%Z.eqb_eq)%lcount_some]; [|by right; right; left].
  destruct (decide (lcount (fun s => st_system_id s =? id) (sd_statuses (es_scored e)) = 0)) as [E4|(x & Hx & Ex%Z.eqb_eq)%lcount_some]; [|do 4 right; by exists x].
  destruct (decide (lcount (fun v => existsb (fun i => bool_decide (v.1 = Some (ir_id i))) impls) (es_evidence e) = 0)) as [E5|(v & _ & (i & Hin & _)%existsb_exists)%lcount_some].
  - destruct impls as [|i l]; [cbn [List.length] in H; lia|]. apply (Hi i). by left.
  - apply (Hi i). by apply list_elem_of_In.
Qed.
Lemma no_dependents id e : dependent_authorization_record_count id e = 0 <-> ~ refers id e.
Proof.
  unfold dependent_authorization_record_count. set (impls := List.filter _ (es_impls e)).
  pose proof (lcount_bounds (fun p => pm_system_id p =? id) (db_poams (es_db e))) as B1. pose proof (lcount_bounds (Z.eqb id) (es_assessments e)) as B2.
  pose proof (lcount_bounds (Z.eqb id) (es_risks e)) as B3. pose proof (lcount_bounds (fun s => st_system_id s =? id) (sd_statuses (es_scored e))) as B4.
  pose proof (lcount_bounds (fun v => existsb (fun i => bool_decide (v.1 = Some (ir_id i))) impls) (es_evidence e)) as B5. split.
  - intros H [(p & Hp & Ep)|[Ha|[Hr|[(i & Hi & Ei)|(r & Hr & Er)]]]].
    + assert (Hz : lcount (fun p => pm_system_id p =? id) (db_poams (es_db e)) = 0) by lia. apply (lcount_zero _ _ Hz) in Hp. apply Z.eqb_neq in Hp. done.
    + assert (Hz : lcount (Z.eqb id) (es_assessments e) = 0) by lia. apply (lcount_zero _ _ Hz) in Ha. by rewrite Z.eqb_refl in Ha.
    + assert (Hz : lcount (Z.eqb id) (es_risks e) = 0) by lia. apply (lcount_zero _ _ Hz) in Hr. by rewrite Z.eqb_refl in Hr.
    + assert (Hin : i ∈ impls) by (apply list_elem_of_In, filter_In; split; [by apply list_elem_of_In|by apply Z.eqb_eq]). 
      assert (0 < Z.of_nat (List.length impls)); [destruct impls; [by apply not_elem_of_nil in Hin|cbn; lia]|lia].
    + assert (Hz : lcount (fun s => st_system_id s =? id) (sd_statuses (es_scored e)) = 0) by lia. apply (lcount_zero _ _ Hz) in Hr. apply Z.eqb_neq in Hr. done.
  - intros H. assert (impls = []) as ->.
    { destruct impls as [|i l] eqn:E; [done|]. destruct H. do 3 right. left. exists i. assert (Hi : In i (i :: l)) by by left. rewrite <-E in Hi.
      apply filter_In in Hi as [Hi Ei%Z.eqb_eq]. split; [by apply list_elem_of_In|done]. }
    cbn [List.length]. rewrite !lcount_none; [done|..].
    + intros r Hr. apply Z.eqb_neq. intros Er. apply H. do 4 right. by exists r.
    + done.
    + intros x Hx. apply Z.eqb_neq. intros <-. apply H. by right; right; left.
    + intros x Hx. apply Z.eqb_neq. intros <-. apply H. by right; left.
    + intros p Hp. apply Z.eqb_neq. intros Ep. apply H. left. by exists p.
Qed.

(** deleting a system keeps its records. A plain deletion only marks the row: every
    POA&M, implementation, score, assessment, risk and piece of evidence stays, and from
    then on no caller reaches the system. A hard one removes the row, with its profile
    and exactly the tasks and waivers of the system, and only of a system no POA&M,
    implementation, score, assessment, risk or evidence refers to: otherwise it is
    refused. *)
Theorem deletion_keeps_records caller id hard now e : estate_wf e ->
  match delete_system caller id hard now e with
  | (Ok (inr _), e') =>
      es_impls e' = es_impls e /\ sd_statuses (es_scored e') = sd_statuses (es_scored e) /\ db_poams (es_db e') = db_poams (es_db e) /\ es_assessments e' = es_assessments e /\ es_risks e' = es_risks e /\ es_evidence e' = es_evidence e /\
      (forall s, sr_id s <> id -> (s ∈ es_systems e' <-> s ∈ es_systems e)) /\ (forall caller2, out_of_reach id caller2 e') /\
      if hard then ~ refers id e /\ (forall s, s ∈ es_systems e' -> sr_id s <> id) /\
        (forall t, t ∈ db_tasks (es_db e') <-> t ∈ db_tasks (es_db e) /\ tk_system_id t <> Some id) /\
        (forall w, w ∈ db_waivers (es_db e') <-> w ∈ db_waivers (es_db e) /\ wv_system_id w <> id)
      else es_scored e' = es_scored e /\ map sr_id (es_systems e') = map sr_id (es_systems e) /\ es_profiles e' = es_profiles e
  | (Ok (inl r), e') => e' = e /\ ((r = not_found /\ out_of_reach id caller e) \/ (rs_status r = 409 /\ hard = true /\ refers id e))
  | (Err _, _) => False
  end.
Proof.
  intros Hw. unfold delete_system. set (k := fun sys => _). destruct (in_reach id caller e k Hw) as [[-> Ho]|(s & Hs & Ei & Hv & ->)]; [by split; [done|left]|]. unfold k.
  destruct hard.
  - destruct (Z.eqb_spec (dependent_authorization_record_count id e) 0) as [Ez|Ez]; cbn [negb].
    + assert (Hin : forall t, t ∈ List.filter (fun s => negb (sr_id s =? id)) (es_systems e) <-> t ∈ es_systems e /\ sr_id t <> id)
        by (intros t; by rewrite list_elem_of_In, filter_In, <-list_elem_of_In, negb_true_iff, Z.eqb_neq).
      do 6 (split; [done|]). cbn [es_systems cascade put_profiles put_db put_scored put_systems]. split; [intros t Ht; rewrite Hin; tauto|]. split; [intros c2 t Ht Et; by apply Hin in Ht as []|].
      split; [by apply no_dependents|]. split; [intros t Ht; by apply Hin in Ht as []|]. split; intros t; rewrite list_elem_of_In; cbn; rewrite filter_In, <-list_elem_of_In, negb_true_iff.
      * unfold of_system. by rewrite bool_decide_eq_false.
      * by rewrite Z.eqb_neq.
    + split; [done|]. right. split; [done|]. split; [done|]. by apply dependents_refer.
  - do 6 (split; [done|]). cbn [es_systems put_systems]. unfold update_where.
    assert (Hin : forall t, t ∈ map (fun s => if sr_id s =? id then soft_delete now s else s) (es_systems e) <->
      exists x, x ∈ es_systems e /\ t = if sr_id x =? id then soft_delete now x else x) by (intros t; rewrite list_elem_of_fmap; naive_solver).
    split; [|split; [|split; [done|split; [|done]]]].
    + intros t Ht. rewrite Hin. split.
      * intros (x & Hx & ->). destruct (Z.eqb_spec (sr_id x) id); [done|done].
      * intros Hx. exists t. by rewrite (proj2 (Z.eqb_neq _ _) Ht).
    + intros c2 t (x & Hx & ->)%Hin Et. destruct (Z.eqb_spec (sr_id x) id); [done|done].
    + rewrite map_map. apply map_ext. intros x. by destruct (sr_id x =? id).
Qed.

(** ** A practice changes state *)

Lemma startswith_prefix p s : startswith p (p +:+ s) = true.
Proof. induction p as [|a p IH]; [by destruct s|]. rewrite app_cons_str. cbn [startswith]. by rewrite decide_True. Qed.

Lemma quiet_fold {A} (f : A -> Db -> Db) rows db : (forall x d, db_poams (f x d) = db_poams d) -> (forall x d, db_seq d <= db_seq (f x d)) ->
  db_poams (fold_left (fun d x => f x d) rows db) = db_poams db /\ db_seq db <= db_seq (fold_left (fun d x => f x d) rows db).
Proof.
  intros H1 H2. revert db. induction rows as [|x rows IH]; intros db; [split; [done|cbn; lia]|]. cbn [fold_left]. destruct (IH (f x db)) as [-> H]. rewrite H1.
  split; [done|]. specialize (H2 x db). lia.
Qed.

Lemma quiet_poams v t x o a i db : db_poams (emit_quietly v t x o a i db) = db_poams db.
Proof. reflexivity. Qed.
Lemma quiet_seq v t x o a i db : db_seq (emit_quietly v t x o a i db) = db_seq db + 1.
Proof. reflexivity. Qed.

Lemma on_scoring_status_changed_spec id cid state org actor today db :
  let r := on_scoring_status_changed id cid state org actor today db in
  r.1 = (if mem state MET then lcount (is_gap_poam id cid) (db_poams db) else 0) /\
  db_poams r.2 = (if mem state MET then update_where (is_gap_poam id cid) (complete_poam today) (db_poams db) else db_poams db) /\ db_seq db <= db_seq r.2.
Proof.
  cbv zeta. unfold on_scoring_status_changed. set (rows := if mem state MET then _ else []). set (db1 := if mem state MET then set_poams _ db else db).
  set (msg := "POA&M auto-closed: " +:+ _).
  destruct (quiet_fold (fun p db => emit_quietly "closed" "poam" msg org (or_automation actor) (Some (pretty (pm_id p))) db) rows db1) as [Hp Hq]; [done|intros; cbn; lia|].
  cbn [fst snd]. split; [|split].
  - unfold rows. destruct (mem state MET); [apply lcount_filter|done].
  - rewrite quiet_poams. etrans; [exact Hp|]. unfold db1. by destruct (mem state MET).
  - rewrite quiet_seq. assert (Hs : db_seq db1 = db_seq db) by (unfold db1; by destruct (mem state MET)). rewrite <-Hs. etrans; [exact Hq|]. lia.
Qed.

Lemma practice_of_spec cid e c : scored_wf (es_scored e) -> c ∈ sd_practices (es_scored e) -> pr_control_id c = cid -> practice_of cid e = Ok (Some c).
Proof.
  intros Hw Hc <-. assert (Hk : forall k r, bool_decide (pr_control_id r = k) = true <-> pr_control_id r = k) by (intros; apply bool_decide_eq_true).
  unfold practice_of. etrans; [apply (scalar_key pr_control_id (fun k c => bool_decide (pr_control_id c = k)) Hk (pr_control_id c)), Hw|]. f_equal.
  by apply (find_key_elem pr_control_id (fun k c => bool_decide (pr_control_id c = k)) Hk); [apply Hw|].
Qed.

(** A person's state in a practice's row. *)
Lemma write_status_spec id c state notes ref e : scored_wf (es_scored e) -> existsb (fun s => sr_id s =? id) (es_systems e) = true ->
  exists row l, write_status id c state notes ref e = Ok (row, put_statuses l e) /\ NoDup (map status_key l) /\ st_state row = state /\ st_source row = ASSESSED /\
    st_derived_from row = None /\ forall s i, status_at s i l = if decide ((s, i) = (id, c)) then Some row else status_at s i (sd_statuses (es_scored e)).
Proof.
  intros Hw Hs. unfold write_status, status_of.
  assert (Hsc : scalar_one_or_none (List.filter (is_status id c) (sd_statuses (es_scored e))) = Ok (status_at id c (sd_statuses (es_scored e)))).
  { apply (scalar_key status_key (fun k => is_status k.1 k.2) (fun k r => match k with (s, i) => is_status_key s i r end) (id, c)), Hw. }
  rewrite Hsc. cbn [res_bind]. set (f := record_assessed_state state notes ref). assert (Hf : forall r, status_key (f r) = status_key r) by done.
  destruct (status_at id c (sd_statuses (es_scored e))) as [r|] eqn:E.
  - do 2 eexists. split; [reflexivity|]. split; [by apply (nodup_key_update status_key (fun k => is_status k.1 k.2) (id, c)); [done|apply Hw]|]. do 3 (split; [done|]).
    intros s i. rewrite status_at_update by done. by rewrite E.
  - rewrite Hs. cbn [negb]. do 2 eexists. split; [reflexivity|].
    split; [by apply (nodup_key_app status_key (fun k => is_status k.1 k.2) (fun k r => match k with (s, i) => is_status_key s i r end) (id, c)); [|done|apply Hw]|].
    do 3 (split; [done|]). intros s i. rewrite status_at_app. case_decide as Hd.
    + injection Hd as -> ->. rewrite E. by rewrite (proj2 (is_status_key _ _ _)).
    + destruct (status_at s i (sd_statuses (es_scored e))); [done|]. destruct (is_status s i _) eqn:Ei; [|done]. apply is_status_key in Ei. by destruct Hd.
Qed.

Lemma gap_poam_closed id cid today p : is_gap_poam id cid (complete_poam today p) = false.
Proof. unfold is_gap_poam. cbn. by rewrite andb_false_r. Qed.
Lemma gap_title_prefix c : startswith (pr_control_id c +:+ " —") (gap_title c) = true.
Proof. unfold gap_title. set (t := str_or _ _).
  replace (pr_control_id c +:+ " — " +:+ t) with ((pr_control_id c +:+ " —") +:+ (" " +:+ t)) by by rewrite app_assoc_str. apply startswith_prefix. Qed.

(** what a person sets is what is scored, and a satisfied practice closes its gap. The
    request stores the state as an assessment, whatever derived label the row had, and
    touches no other row; it answers with the score read back from the tables; and when
    the state satisfies the practice, every open POA&M titled for it (the ones derivation
    seeds among them) is completed today, no other POA&M changes, and none is left open.
    A state that does not satisfy it changes no POA&M. *)
Theorem satisfied_practice_closes_its_gap caller id cid state notes ref today e c s : estate_wf e ->
  s ∈ es_systems e -> sr_id s = id -> visible caller s = true -> c ∈ sd_practices (es_scored e) -> pr_control_id c = cid -> mem state STATES = true ->
  exists n e' row, set_control_state caller id cid state notes ref today e = (Ok (inr (state, n, system_score_summary id (es_scored e'))), e') /\
    status_at id (pr_id c) (sd_statuses (es_scored e')) = Some row /\ st_state row = state /\ st_source row = ASSESSED /\ st_derived_from row = None /\
    (forall i j, (i, j) <> (id, pr_id c) -> status_at i j (sd_statuses (es_scored e')) = status_at i j (sd_statuses (es_scored e))) /\
    (if mem state MET
     then n = lcount (is_gap_poam id cid) (db_poams (es_db e)) /\ (forall p, p ∈ db_poams (es_db e') -> is_gap_poam id cid p = false) /\
          db_poams (es_db e') = map (fun p => if is_gap_poam id cid p then complete_poam today p else p) (db_poams (es_db e)) /\
          (forall p, p ∈ db_poams (es_db e') -> pm_system_id p = id -> pm_title p = gap_title c -> mem (pm_status p) POAM_ACTIVE_STATUSES = false)
     else n = 0 /\ db_poams (es_db e') = db_poams (es_db e)).
Proof.
  intros Hw Hs Hid Hv Hc Hcid Hst. unfold set_control_state. rewrite Hst. cbn [negb]. match goal with |- context [with_system id caller e ?k] =>
    destruct (in_reach id caller e k Hw) as [[_ Ho]|(s' & _ & _ & _ & ->)]; [by rewrite (Ho s Hs Hid) in Hv|] end.
  rewrite (practice_of_spec cid e c (ew_scored e Hw) Hc Hcid).
  destruct (write_status_spec id (pr_id c) state notes ref e (ew_scored e Hw)) as (row & l & -> & Hn & Hr1 & Hr2 & Hr3 & Hat).
  { apply existsb_exists. exists s. split; [by apply list_elem_of_In|by apply Z.eqb_eq]. }
  cbn [res_bind]. rewrite Hr1. set (e1 := put_statuses l e).
  destruct (on_scoring_status_changed_spec id cid state (pr_org_id caller) (Some (pr_email caller)) today (es_db e1)) as (En & Ep & _).
  destruct (on_scoring_status_changed id cid state (pr_org_id caller) (Some (pr_email caller)) today (es_db e1)) as [n db]. cbn [fst snd] in En, Ep. cbn [commit].
  change (es_db e1) with (es_db e) in *. exists n, (put_db db e1), row. split; [done|]. cbn [es_scored put_db put_scored sd_statuses set_db e1 put_statuses set_statuses].
  split; [by rewrite Hat, decide_True|]. do 3 (split; [done|]). split; [intros i j Hij; by rewrite Hat, decide_False|]. cbn [es_db es_scored put_db put_scored sd_db set_db].
  destruct (mem state MET); [|by split].
  assert (Hno : forall p, p ∈ db_poams db -> is_gap_poam id cid p = false).
  { intros p Hp. rewrite Ep in Hp. unfold update_where in Hp. apply list_elem_of_fmap in Hp as (q & -> & _). destruct (is_gap_poam id cid q) eqn:E; [apply gap_poam_closed|exact E]. }
  split; [exact En|]. split; [exact Hno|]. split; [exact Ep|]. intros p Hp Hsys Ht. specialize (Hno p Hp). unfold is_gap_poam in Hno.
  rewrite Hsys, Z.eqb_refl, Ht, <-Hcid, gap_title_prefix, andb_true_r in Hno. exact Hno.
Qed.

(** the score board records, and does not react. For the same practice and state, the
    form of the score board and the API leave the same scoring rows and the same score,
    but the form closes no POA&M and records no event: a gap satisfied on the board stays
    open. *)
Theorem score_board_does_not_react caller id cid state today e c s : estate_wf e ->
  s ∈ es_systems e -> sr_id s = id -> visible caller s = true -> c ∈ sd_practices (es_scored e) -> pr_control_id c = cid -> mem state STATES = true ->
  exists n sum e1 e2, set_control_state caller id cid state None None today e = (Ok (inr (state, n, sum)), e1) /\
    scoring_set_state (pr_org_id caller) id cid state e = (Ok (inr sum), e2) /\
    sd_statuses (es_scored e2) = sd_statuses (es_scored e1) /\ es_db e2 = es_db e /\ (List.length (db_events (es_db e)) < List.length (db_events (es_db e1)))%nat.
Proof.
  intros Hw Hs Hid Hv Hc Hcid Hst. unfold set_control_state, scoring_set_state. rewrite Hst. cbn [negb]. match goal with |- context [with_system id caller e ?k] =>
    destruct (in_reach id caller e k Hw) as [[_ Ho]|(s' & _ & _ & _ & ->)]; [by rewrite (Ho s Hs Hid) in Hv|] end.
  rewrite (practice_of_spec cid e c (ew_scored e Hw) Hc Hcid).
  destruct (write_status_spec id (pr_id c) state None None e (ew_scored e Hw)) as (row & l & Ew & Hn & Hr1 & Hr2 & Hr3 & Hat).
  { apply existsb_exists. exists s. split; [by apply list_elem_of_In|by apply Z.eqb_eq]. }
  cbn [res_bind]. rewrite Ew. cbn [res_bind]. rewrite Hr1. set (e1 := put_statuses l e).
  assert (Hscope : match pr_org_id caller with None => Ok true | Some o => let! row := scalar_one_or_none (List.filter (fun s => sr_id s =? id) (es_systems e)) in
     Ok match row with Some s => sr_organization_id s =? o | None => false end end = Ok true).
  { apply visible_spec in Hv as [_ [Hv|Hv]]; rewrite Hv; [done|].
    assert (Hk : forall k r, (sr_id r =? k) = true <-> sr_id r = k) by (intros; apply Z.eqb_eq).
    assert (Hsc : scalar_one_or_none (List.filter (fun s => sr_id s =? id) (es_systems e)) = Ok (List.find (fun s => sr_id s =? id) (es_systems e)))
      by apply (scalar_key sr_id (fun k s => sr_id s =? k) Hk id), Hw.
    rewrite Hsc. cbn [res_bind]. replace (List.find _ _) with (Some s); [by rewrite Z.eqb_refl|]. symmetry.
    by apply (find_key_elem sr_id (fun k s => sr_id s =? k) Hk); [apply Hw|]. }
  rewrite Hscope. unfold on_scoring_status_changed. set (rows := if mem state MET then _ else []). set (db1 := if mem state MET then set_poams _ (es_db e1) else es_db e1).
  set (msg := "POA&M auto-closed: " +:+ _). cbn [commit res_bind snd]. do 4 eexists. split; [reflexivity|]. split; [reflexivity|].
  split; [done|]. split; [done|]. cbn [es_db es_scored put_db put_scored sd_db set_db db_events emit_quietly]. unfold emit_quietly at 1.
  cbv beta iota zeta delta [next_id]. cbn [db_events set_events set_seq]. rewrite length_app. cbn [List.length].
  assert (He : forall l d, (List.length (db_events d) <= List.length (db_events (fold_left (fun db p => emit_quietly "closed" "poam" msg (pr_org_id caller)
    (or_automation (Some (pr_email caller))) (Some (pretty (pm_id p))) db) l d)))%nat).
  { intros rs. induction rs as [|p rs IH]; intros d; [done|]. cbn [fold_left]. etrans; [|apply IH]. cbn. rewrite length_app. lia. }
  specialize (He rows db1). assert (db_events db1 = db_events (es_db e)) as E by (unfold db1; by destruct (mem state MET)). rewrite E in He. lia.
Qed.

(** ** Any sequence of requests *)

Definition db_refusal (x : exn) : Prop := x = DBAPIError \/ x = IntegrityError.

Lemma store_impl_err e r x : store_impl e r = Err x -> db_refusal x.
Proof. unfold store_impl. destruct (negb _); [intros [= <-]; by left|]. destruct (negb _); [intros [= <-]; by right|done]. Qed.

Lemma estate_wf_frame e e' : estate_wf e -> es_systems e' = es_systems e -> es_controls e' = es_controls e -> es_mappings e' = es_mappings e -> es_impls e' = es_impls e ->
  es_profiles e' = es_profiles e -> scored_wf (es_scored e') -> db_seq (es_db e) <= db_seq (es_db e') -> estate_wf e'.
Proof.
  intros [W1 W2 W3 W4 W5 W6 W7 W8 W9] E1 E2 E3 E4 E5 Hs Hq. split; rewrite ?E1, ?E2, ?E3, ?E4, ?E5; try done.
  - intros r Hr. rewrite (store_impl_ext e) by done. by apply W5.
  - intros s Hs'. specialize (W8 s Hs'). lia.
  - intros s Hs'. specialize (W9 s Hs'). lia.
Qed.

Lemma scored_wf_db db s : scored_wf s -> scored_wf (set_db db s).
Proof. by intros []. Qed.

Lemma write_impl_wf s c f e : (forall r, impl_key (f r) = impl_key r) -> estate_wf e ->
  match write_impl s c f e with Ok (_, e') => estate_wf e' | Err x => db_refusal x end.
Proof.
  intros Hf Hw. pose proof (write_impl_spec s c f e Hf (ew_impls e Hw)) as H. destruct (write_impl s c f e) as [[row e']|]; [|exact H].
  destruct H as (H & _ & Hst & _). by eapply row_written_wf.
Qed.

Lemma propagate_all_wf s status peers u e : estate_wf e -> match propagate_all s status peers (u, e) with Ok (_, e') => estate_wf e' | Err x => db_refusal x end.
Proof.
  revert u e. induction peers as [|c peers IH]; intros u e Hw; [exact Hw|]. cbn [propagate_all]. unfold propagate_one at 1.
  change (List.find (is_impl s c) (es_impls e)) with (impl_at (s, c) (es_impls e)). destruct (impl_at (s, c) (es_impls e)) as [r|] eqn:E.
  - case_bool_decide; [by apply IH|]. destruct (store_impl e (set_status status r)) as [[]|x] eqn:Es; [|by apply store_impl_err in Es]. cbn [res_bind].
    apply IH. eapply row_written_wf; [|exact Es|exact Hw]. by apply (update_impl (s, c)); [|apply Hw|].
  - destruct (new_id e) as [i e1] eqn:En. injection En as <- <-. set (e1 := put_db _ e). rewrite (store_impl_ext e) by done.
    destruct (store_impl e _) as [[]|x] eqn:Es; [|by apply store_impl_err in Es]. cbn [res_bind]. apply IH. eapply row_written_wf; [|exact Es|exact Hw].
    apply (append_impl _ e e1); [apply impls_only_new|done|apply Hw|exact E].
Qed.
Lemma propagate_implementation_wf s cid status org actor e : estate_wf e ->
  match propagate_implementation s cid status org actor e with Ok (_, e') => estate_wf e' | Err x => db_refusal x end.
Proof.
  intros Hw. unfold propagate_implementation. case_bool_decide; [exact Hw|].
  pose proof (propagate_all_wf s status (crosswalk_peers (es_mappings e) cid) 0 e Hw) as Hall. destruct (propagate_all _ _ _ _) as [[u e']|]; [|exact Hall]. cbn [res_bind].
  apply (estate_wf_frame e'); [exact Hall|done..|by apply scored_wf_db, Hall|]. cbn. lia.
Qed.

Lemma bulk_rows_wf s rows u k e : estate_wf e -> match bulk_rows s rows (u, k, e) with Ok (_, e') => estate_wf e' | Err x => db_refusal x end.
Proof.
  revert u k e. induction rows as [|r rows IH]; intros u k e Hw; [exact Hw|]. cbn [bulk_rows]. destruct (control_named _ e) as [cid|]; [|by apply IH].
  destruct (cid =? 0); [by apply IH|]. pose proof (write_impl_wf s cid (apply_bulk r) e ltac:(done) Hw) as Hrow. destruct (write_impl _ _ _ _) as [[row e']|]; [|exact Hrow]. by apply IH.
Qed.

Lemma new_id_wf e : estate_wf e -> estate_wf (new_id e).2.
Proof. intros Hw. apply (estate_wf_frame e); try done; [by apply scored_wf_db, Hw|cbn; lia]. Qed.

(** A new system takes the number the sequence just gave. *)
Lemma store_system_wf org name baseline e : estate_wf e -> let e1 := (new_id e).2 in
  match store_system (new_system (new_id e).1 org name baseline) e1 with Ok e' => estate_wf e' /\ db_seq (es_db e') = db_seq (es_db e) + 1 /\ es_profiles e' = es_profiles e | Err x => db_refusal x end.
Proof.
  intros Hw. cbv zeta. unfold store_system. destruct (match sr_baseline _ with Some b => negb _ | None => false end); [by left|]. destruct (_ || _); [by right|].
  pose proof (new_id_wf e Hw) as Hw1. change (new_id e).1 with (db_seq (es_db e)). split; [|split; done]. pose proof (eq_refl : db_seq (es_db (new_id e).2) = db_seq (es_db e) + 1) as Hseq.
  set (e1 := (new_id e).2) in *. destruct Hw1 as [W1 W2 W3 W4 W5 W6 W7 W8 W9].
  split; cbn [es_systems put_systems es_impls es_profiles es_scored es_controls es_mappings]; try done.
  - rewrite map_app. apply NoDup_app. split; [done|]. split; [|apply NoDup_singleton]. intros i (s & -> & Hs)%list_elem_of_fmap Hi%list_elem_of_singleton.
    pose proof (ew_seq e Hw s Hs) as Hlt. cbn in Hi. lia.
  - intros r Hr. specialize (W5 r Hr). unfold store_impl in *. cbn [es_systems put_systems es_controls]. rewrite existsb_app. destruct (negb (mem _ _ && _)); [done|].
    destruct (existsb (fun s => sr_id s =? ir_system_id r) (es_systems e1)); [exact W5|done].
  - intros s [Hs|Hs%list_elem_of_singleton]%elem_of_app; [by apply W8|]. subst s. cbn [sr_id new_system]. change (es_db (put_systems _ e1)) with (es_db e1). lia.
Qed.

Definition raised {A} (r : served A) : option exn := match r.1 with Err x => Some x | Ok _ => None end.

(** One request of the API or the score board: what it raised, and the tables after it. *)
Inductive request : Estate -> option exn -> Estate -> Prop :=
| rq_create caller org name baseline e (r := create_system caller org name baseline e) : request e (raised r) r.2
| rq_delete caller id hard now e (r := delete_system caller id hard now e) : request e (raised r) r.2
| rq_authorize caller id expires today e (r := authorize_system caller id expires today e) : request e (raised r) r.2
| rq_implementation caller id cid body e (r := upsert_implementation caller id cid body e) : request e (raised r) r.2
| rq_bulk caller id rows e (r := bulk_import_implementations caller id rows e) : request e (raised r) r.2
| rq_state caller id cid state notes ref today e (r := set_control_state caller id cid state notes ref today e) : request e (raised r) r.2
| rq_board org id cid state e (r := scoring_set_state org id cid state e) : request e (raised r) r.2
| rq_intake caller name org body today now e (r := intake_system caller name org body today now e) : request e (raised r) r.2
| rq_profile caller id body e (r := upsert_profile caller id body e) : request e (raised r) r.2
| rq_derive caller id mk today now e (r := derive caller id mk today now e) : request e (raised r) r.2
| rq_propagate caller id ident status e (r := propagate caller id ident status e) : request e (raised r) r.2.

Definition handled {A} (e : Estate) (r : served A) : Prop := estate_wf r.2 /\ forall x, raised r = Some x -> db_refusal x /\ r.2 = e.

Lemma handled_same {A} e (a : Response + A) : estate_wf e -> handled e (Ok a, e).
Proof. by split. Qed.
Lemma handled_commit {A} (m : res (A * Estate)) e : estate_wf e -> match m with Ok (_, e') => estate_wf e' | Err x => db_refusal x end -> handled e (commit m e).
Proof. intros Hw Hm. destruct m as [[a e']|x]; cbn; split; cbn; [done|done|done|]. intros y [= <-]. done. Qed.
Lemma handled_with {A} id caller e (k : SystemRow -> served A) : estate_wf e -> (forall s, s ∈ es_systems e -> sr_id s = id -> handled e (k s)) ->
  handled e (with_system id caller e k).
Proof. intros Hw Hk. destruct (in_reach id caller e k Hw) as [[-> _]|(s & Hs & Ei & _ & ->)]; [by split|by apply Hk]. Qed.

Lemma get_profile_eq id e : estate_wf e -> get_profile id e = Ok (List.find (fun p => sp_system_id p =? id) (es_profiles e)).
Proof. intros Hw. apply (scalar_key sp_system_id (fun k p => sp_system_id p =? k) (fun k r => Z.eqb_eq _ _) id), Hw. Qed.
Lemma put_profile_wf p e : estate_wf e -> estate_wf (put_profile p e).
Proof.
  intros [W1 W2 W3 W4 W5 W6 W7 W8 W9]. assert (E : map sp_system_id (es_profiles (put_profile p e)) = map sp_system_id (es_profiles e)).
  { cbn. unfold update_where. rewrite map_map. apply map_ext. intros q. destruct (Z.eqb_spec (sp_system_id q) (sp_system_id p)); done. }
  split; try done; [by rewrite E|]. intros q Hq. assert (Hi : sp_system_id q ∈ map sp_system_id (es_profiles e)) by (rewrite <-E; by apply (list_elem_of_fmap_2 sp_system_id)).
  apply list_elem_of_fmap in Hi as (q' & -> & Hq'). by apply W9.
Qed.
Lemma add_profile_wf p e : estate_wf e -> (forall q, q ∈ es_profiles e -> sp_system_id q <> sp_system_id p) -> sp_system_id p < db_seq (es_db e) ->
  estate_wf (put_profiles (es_profiles e ++ [p])%list e).
Proof.
  intros [W1 W2 W3 W4 W5 W6 W7 W8 W9] Hno Hlt. split; try done.
  - cbn. rewrite map_app. apply NoDup_app. split; [done|]. split; [|apply NoDup_singleton]. by intros i (q & -> & Hq)%list_elem_of_fmap Hi%list_elem_of_singleton; apply (Hno q).
  - intros q [Hq|Hq%list_elem_of_singleton]%elem_of_app; [by apply W9|by subst q].
Qed.

Lemma run_derivation_wf id org p mk actor today now e : estate_wf e -> estate_wf (run_derivation id org p mk actor today now e).2.
Proof.
  intros Hw. unfold run_derivation. destruct (derive_system_eq id org p (es_scored e) mk actor today now) as (db & H). pose proof (derive_system_seq id org p mk actor today now (es_scored e)) as Hq.
  destruct (derive_system id org p mk actor today now (es_scored e)) as [[r p'] s']. destruct H as (-> & _). destruct Hq as [Hq _]. apply put_profile_wf.
  apply (estate_wf_frame e); try done. apply (derived_wf id org p (es_scored e) db), Hw.
Qed.

Lemma write_status_wf id c state notes ref e : estate_wf e ->
  match write_status id c state notes ref e with Ok (_, e') => estate_wf e' | Err x => db_refusal x end.
Proof.
  intros Hw. destruct (existsb (fun s => sr_id s =? id) (es_systems e)) eqn:Hs.
  - destruct (write_status_spec id c state notes ref e (ew_scored e Hw) Hs) as (row & l & -> & Hn & _). apply (estate_wf_frame e); try done. destruct (ew_scored e Hw). by split.
  - unfold write_status, status_of.
    assert (Hsc : scalar_one_or_none (List.filter (is_status id c) (sd_statuses (es_scored e))) = Ok (status_at id c (sd_statuses (es_scored e)))).
    { apply (scalar_key status_key (fun k => is_status k.1 k.2) (fun k r => match k with (s, i) => is_status_key s i r end) (id, c)), (ew_scored e Hw). }
    rewrite Hsc, Hs. cbn [res_bind negb]. destruct (status_at _ _ _) as [r|] eqn:E; [|by right].
    apply (estate_wf_frame e); try done. destruct (ew_scored e Hw) as [K1 K2 K3]. split; [done|done|]. by apply (nodup_key_update status_key (fun k => is_status k.1 k.2) (id, c)).
Qed.
Lemma practice_of_total cid e : estate_wf e -> exists o, practice_of cid e = Ok o.
Proof.
  intros Hw. assert (Hk : forall k r, bool_decide (pr_control_id r = k) = true <-> pr_control_id r = k) by (intros; apply bool_decide_eq_true).
  eexists. apply (scalar_key pr_control_id (fun k c => bool_decide (pr_control_id c = k)) Hk cid), (ew_scored e Hw).
Qed.

Lemma systems_wf l e : estate_wf e -> NoDup (map sr_id l) -> (forall s, s ∈ l -> exists t, t ∈ es_systems e /\ sr_id t = sr_id s) ->
  (forall r, r ∈ es_impls e -> existsb (fun s => sr_id s =? ir_system_id r) l = true) -> estate_wf (put_systems l e).
Proof.
  intros [W1 W2 W3 W4 W5 W6 W7 W8 W9] Hn Hl Hi. split; try done.
  - intros r Hr. specialize (W5 r Hr). specialize (Hi r Hr). unfold store_impl in *. cbn [es_systems es_controls put_systems]. rewrite Hi.
    destruct (negb (mem _ _ && _)); [done|]. by destruct (existsb (fun s => sr_id s =? ir_system_id r) (es_systems e)).
  - intros s Hs. destruct (Hl s Hs) as (t & Ht & <-). by apply W8.
Qed.
Lemma update_systems_wf id f e : (forall s, sr_id (f s) = sr_id s) -> estate_wf e -> estate_wf (put_systems (update_where (fun s => sr_id s =? id) f (es_systems e)) e).
Proof.
  intros Hf Hw. assert (E : map sr_id (update_where (fun s => sr_id s =? id) f (es_systems e)) = map sr_id (es_systems e)).
  { unfold update_where. rewrite map_map. apply map_ext. intros s. by destruct (sr_id s =? id). }
  apply systems_wf; [done|by rewrite E; apply Hw| |].
  - intros s Hs. assert (Hi : sr_id s ∈ map sr_id (es_systems e)) by (rewrite <-E; by apply (list_elem_of_fmap_2 sr_id)). apply list_elem_of_fmap in Hi as (t & -> & Ht). by exists t.
  - intros r Hr. pose proof (ew_stored e Hw r Hr) as Hst. unfold store_impl in Hst. destruct (negb (mem _ _ && _)); [done|].
    destruct (existsb (fun s => sr_id s =? ir_system_id r) (es_systems e)) eqn:Ee; [|done]. apply existsb_exists in Ee as (s & Hs & Es%Z.eqb_eq). apply list_elem_of_In in Hs.
    assert (Hi : sr_id s ∈ map sr_id (update_where (fun s => sr_id s =? id) f (es_systems e))) by (rewrite E; by apply (list_elem_of_fmap_2 sr_id)).
    apply list_elem_of_fmap in Hi as (t & Et & Ht). apply existsb_exists. exists t. split; [by apply list_elem_of_In|]. apply Z.eqb_eq. congruence.
Qed.

Lemma create_handled caller org name baseline e : estate_wf e -> handled e (create_system caller org name baseline e).
Proof.
  intros Hw. unfold create_system. destruct (resolve_caller_org _ _) as [r|o]; [by apply handled_same|]. apply handled_commit; [done|].
  pose proof (store_system_wf (default org o) name baseline e Hw) as H. destruct (new_id e) as [i e1]. cbn [fst snd] in H.
  destruct (store_system _ e1); [apply H|exact H].
Qed.
Lemma delete_handled caller id hard now e : estate_wf e -> handled e (delete_system caller id hard now e).
Proof.
  intros Hw. apply handled_with; [done|]. intros s Hs Hid. destruct hard; [|split; [by apply update_systems_wf|done]].
  destruct (Z.eqb_spec (dependent_authorization_record_count id e) 0) as [Ez|]; cbn [negb]; [|by apply handled_same]. split; [|done]. cbn [snd].
  assert (Hsys : estate_wf (put_systems (List.filter (fun s => negb (sr_id s =? id)) (es_systems e)) e)).
  { apply systems_wf; [done|apply nodup_filter, Hw| |].
    - intros t Ht. apply list_elem_of_In, filter_In in Ht as [Ht _]. exists t. by split; [apply list_elem_of_In|].
    - intros r Hr. pose proof (ew_stored e Hw r Hr) as Hst. unfold store_impl in Hst. destruct (negb (mem _ _ && _)); [done|].
      destruct (existsb (fun s => sr_id s =? ir_system_id r) (es_systems e)) eqn:Ee; [|done]. apply existsb_exists in Ee as (t & Ht & Et%Z.eqb_eq).
      apply existsb_exists. exists t. split; [|by apply Z.eqb_eq]. apply filter_In. split; [done|]. apply negb_true_iff, Z.eqb_neq. intros E.
      apply no_dependents in Ez. apply Ez. do 3 right. left. exists r. split; [done|congruence]. }
  destruct Hsys as [W1 W2 W3 W4 W5 W6 W7 W8 W9]. split; try done.
  - by apply nodup_filter.
  - by apply scored_wf_db.
  - intros p Hp. apply list_elem_of_In, filter_In in Hp as [Hp _]. apply W9. by apply list_elem_of_In.
Qed.
Lemma authorize_handled caller id expires today e : estate_wf e -> handled e (authorize_system caller id expires today e).
Proof.
  intros Hw. unfold authorize_system. destruct (require_role _ _); [by apply handled_same|]. apply handled_with; [done|]. intros s Hs Hid.
  destruct (0 <? _); [by apply handled_same|]. split; [|done]. cbn [snd]. set (e1 := put_systems _ e).
  assert (Hw1 : estate_wf e1) by by apply update_systems_wf. apply (estate_wf_frame e1); try done; [by apply scored_wf_db, Hw1|cbn; lia].
Qed.
Lemma implementation_handled caller id cid body e : estate_wf e -> handled e (upsert_implementation caller id cid body e).
Proof.
  intros Hw. apply handled_with; [done|]. intros s Hs Hid. apply handled_commit; [done|].
  pose proof (write_impl_wf id cid (apply_update body) e ltac:(done) Hw) as H. destruct (write_impl _ _ _ _) as [[obj e1]|]; [|exact H]. cbn [res_bind].
  set (e2 := put_db _ e1). assert (Hw2 : estate_wf e2) by (apply (estate_wf_frame e1); try done; [by apply scored_wf_db, H|cbn; lia]).
  pose proof (propagate_implementation_wf id cid (ir_status obj) (pr_org_id caller) (Some (pr_email caller)) e2 Hw2) as Hp.
  destruct (propagate_implementation _ _ _ _ _ _) as [[[n u] e3]|]; exact Hp.
Qed.
Lemma state_handled caller id cid state notes ref today e : estate_wf e -> handled e (set_control_state caller id cid state notes ref today e).
Proof.
  intros Hw. unfold set_control_state. destruct (negb _); [by apply handled_same|]. apply handled_with; [done|]. intros s Hs Hid.
  destruct (practice_of_total cid e Hw) as ([c|] & ->); [|by apply handled_same]. apply handled_commit; [done|].
  pose proof (write_status_wf id (pr_id c) state notes ref e Hw) as H. destruct (write_status _ _ _ _ _ _) as [[row e1]|]; [|exact H]. cbn [res_bind].
  destruct (on_scoring_status_changed_spec id cid (st_state row) (pr_org_id caller) (Some (pr_email caller)) today (es_db e1)) as (_ & _ & Hq).
  destruct (on_scoring_status_changed _ _ _ _ _ _ _) as [n db]. cbn [snd] in Hq. apply (estate_wf_frame e1); try done. by apply scored_wf_db, H.
Qed.
Lemma board_handled org id cid state e : estate_wf e -> handled e (scoring_set_state org id cid state e).
Proof.
  intros Hw. unfold scoring_set_state.
  assert (Hsc : scalar_one_or_none (List.filter (fun s => sr_id s =? id) (es_systems e)) = Ok (List.find (fun s => sr_id s =? id) (es_systems e)))
    by apply (scalar_key sr_id (fun k s => sr_id s =? k) (fun k r => Z.eqb_eq _ _) id), Hw.
  rewrite Hsc. cbn [res_bind]. set (reach := match org with None => _ | Some o => _ end). assert (exists b, reach = Ok b) as (b & ->) by (unfold reach; destruct org; by eexists).
  destruct b; [|by apply handled_same]. apply handled_commit; [done|]. destruct (negb _); [exact Hw|]. destruct (practice_of_total cid e Hw) as ([c|] & ->); [|exact Hw]. cbn [res_bind].
  pose proof (write_status_wf id (pr_id c) state None None e Hw) as H. destruct (write_status _ _ _ _ _ _) as [[row e1]|]; exact H.
Qed.
Lemma intake_handled caller name org body today now e : estate_wf e -> handled e (intake_system caller name org body today now e).
Proof.
  intros Hw. unfold intake_system. destruct (resolve_org caller org e) as [r|[o e0]] eqn:Er; [by apply handled_same|]. apply handled_commit; [done|].
  assert (Hw0 : estate_wf e0).
  { unfold resolve_org in Er. destruct (resolve_caller_org _ _) as [|[o'|]]; [done|by injection Er as _ <-|]. destruct (es_organizations e); [|by injection Er as _ <-].
    pose proof (new_id_wf e Hw) as H. destruct (new_id e) as [i e1]. injection Er as _ <-. destruct H as [W1 W2 W3 W4 W5 W6 W7 W8 W9]. by split. }
  pose proof (store_system_wf o name None e0 Hw0) as H. pose proof (eq_refl : (new_id e0).1 = db_seq (es_db e0)) as Ei. destruct (new_id e0) as [i e1]. cbn [fst snd] in *.
  destruct (store_system _ e1) as [e2|]; [|exact H]. cbn [res_bind]. destruct H as (Hw2 & Hseq & Hprof).
  pose proof (run_derivation_wf i (Some o) (new_profile i body) true (Some (pr_email caller)) today now (put_profiles (es_profiles e2 ++ [new_profile i body])%list e2)) as Hr.
  destruct (run_derivation _ _ _ _ _ _ _ _) as [result e3]. apply Hr. apply add_profile_wf; [done| |cbn; lia].
  intros q Hq. rewrite Hprof in Hq. pose proof (ew_profile_seq e0 Hw0 q Hq). cbn. lia.
Qed.

(** C17: whatever requests are made, in whatever order (an intake asking for no SSP), the
    tables stay sound: system ids,
    one implementation per system and control as the database takes them, one scoring
    row per system and practice, one profile per system. And no lookup that expects one
    row ever finds two: the only thing a request can raise is the database's refusal of
    a value or a reference, and then nothing of it is kept. *)
Theorem requests_keep_tables_sound e e' : estate_wf e -> rtc (fun a b => exists o, request a o b) e e' ->
  estate_wf e' /\ forall o e'', request e' o e'' -> forall x, o = Some x -> (x = DBAPIError \/ x = IntegrityError) /\ e'' = e'.
Proof.
  assert (Hstep : forall a o b, estate_wf a -> request a o b -> estate_wf b /\ forall x, o = Some x -> db_refusal x /\ b = a).
  { intros a o b Hw H. destruct H; subst r.
    - by apply create_handled.
    - by apply delete_handled.
    - by apply authorize_handled.
    - by apply implementation_handled.
    - apply handled_with; [done|]. intros s Hs Hid. apply handled_commit; [done|].
      pose proof (bulk_rows_wf id rows 0 0 e0 Hw) as H. destruct (bulk_rows _ _ _) as [[[u k] e1]|]; exact H.
    - by apply state_handled.
    - by apply board_handled.
    - by apply intake_handled.
    - apply handled_with; [done|]. intros s Hs Hid. apply handled_commit; [done|]. rewrite get_profile_eq by done. cbn [res_bind].
      destruct (List.find _ _) as [p|] eqn:Ef; [by apply put_profile_wf|]. apply add_profile_wf; [done| |cbn; rewrite <-Hid; by apply Hw].
      intros q Hq E. eapply find_none in Ef; [|by apply list_elem_of_In]. cbn in Ef, E. apply Z.eqb_neq in Ef. done.
    - apply handled_with; [done|]. intros s Hs Hid. rewrite get_profile_eq by done. destruct (List.find _ _) as [p|]; [|by apply handled_same].
      pose proof (run_derivation_wf id (Some (sr_organization_id s)) p mk (Some (pr_email caller)) today now e0 Hw) as H. destruct (run_derivation _ _ _ _ _ _ _ _) as [r e1]. by split.
    - unfold propagate. assert (Hr : resolve_control_id ident e0 = Ok (cn_id <$> List.find (fun c => bool_decide (cn_identifier c = ident)) (es_controls e0))).
      { unfold resolve_control_id. destruct Hw as [_ _ _ _ _ Hn _ _ _]. induction (es_controls e0) as [|c l IH]; [done|]. cbn [map] in Hn. apply NoDup_cons in Hn as [Hc Hn].
        cbn [omap list_omap List.find]. case_bool_decide as Ec; [|by apply IH]. rewrite omap_none; [done|].
        intros d Hd. rewrite bool_decide_eq_false_2; [done|]. intros Ed. apply Hc. rewrite Ec, <-Ed. by apply (list_elem_of_fmap_2 cn_identifier). }
      rewrite Hr. destruct (List.find _ _) as [c|]; cbn [fmap option_fmap option_map]; [|by apply handled_same]. apply handled_commit; [done|].
      pose proof (propagate_implementation_wf id (cn_id c) status (pr_org_id caller) (Some (pr_email caller)) e0 Hw) as H.
      destruct (propagate_implementation _ _ _ _ _ _) as [[[n u] e1]|]; exact H. }
  intros Hw H. assert (Hw' : estate_wf e') by (induction H as [|a b c [o Hab] _ IH]; [done|]; apply IH; by apply (Hstep a o b)).
  split; [done|]. intros o e'' Hr. by apply (Hstep e' o e'').
Qed.

(** ** Two systems of an organization, one of them deleted *)

Definition admin : Principal := {| pr_user_id := Some 1; pr_email := "ada@example.gov"; pr_org_id := Some 1; pr_role := "admin" |}.
Definition stranger : Principal := {| pr_user_id := Some 2; pr_email := "eve@example.gov"; pr_org_id := Some 5; pr_role := "admin" |}.
Definition demo_crosswalk : list FrameworkMapping :=
  [{| fm_control_id := 1; fm_column_key := "CIS v8"; fm_value := "CIS 5.1" |}; {| fm_control_id := 2; fm_column_key := "CIS v8"; fm_value := "CIS 5.1" |};
   {| fm_control_id := 1; fm_column_key := "FedRAMP High"; fm_value := "X" |}; {| fm_control_id := 3; fm_column_key := "FedRAMP High"; fm_value := "X" |}].
Definition demo_system (id : Z) (deleted : option Z) : SystemRow :=
  {| sr_id := id; sr_organization_id := 1; sr_name := "Payroll"; sr_baseline := Some "moderate"; sr_ato_status := Some "none"; sr_ato_expires_on := None; sr_deleted_at := deleted |}.
Definition demo_impl : ImplRow :=
  {| ir_id := 30; ir_system_id := 2; ir_control_id := 2; ir_status := "planned"; ir_responsibility := Some "customer"; ir_narrative := Some "ours";
     ir_conmon_frequency := None; ir_last_assessed_on := None; ir_next_assessment_due := None |}.
Definition demo_estate : Estate :=
  {| es_scored := set_db (set_seq 100 empty_db) demo_scored; es_systems := [demo_system 2 None; demo_system 3 (Some 0)]; es_controls := demo_catalog;
     es_mappings := demo_crosswalk; es_impls := [demo_impl]; es_evidence := []; es_assessments := []; es_risks := []; es_profiles := [demo_profile (Some "azure_gov")];
     es_organizations := [1; 5] |}.

Lemma demo_estate_wf : estate_wf demo_estate.
Proof.
  assert (Hall : forall A (l : list A) (q : A -> bool), forallb q l = true -> forall x, x ∈ l -> q x = true) by (intros A l q H x Hx; rewrite forallb_forall in H; by apply H, list_elem_of_In).
  split; try (apply (bool_decide_eq_true_1 (NoDup _)); vm_compute; reflexivity).
  - apply scored_wf_db, demo_scored_wf.
  - by intros r ->%list_elem_of_singleton.
  - intros m Hm. revert m Hm. apply Hall. reflexivity.
  - intros s Hs. apply Z.ltb_lt. revert s Hs. apply (Hall _ _ (fun s => sr_id s <? 100)). reflexivity.
  - intros p Hp. apply Z.ltb_lt. revert p Hp. apply (Hall _ _ (fun p => sp_system_id p <? 100)). reflexivity.
Qed.

(** Account management is shared by two catalogs; membership of a baseline ([X]) is too
    short to make controls equivalent. *)
Lemma comply_many_witness : exists e', propagate_implementation 2 1 "implemented" (Some 1) None demo_estate = Ok (1, 1, e') /\
  exists row, impl_at (2, 2) (es_impls e') = Some row /\ row = set_status "implemented" demo_impl.
Proof.
  destruct (map_once_comply_many 2 1 "implemented" (Some 1) None demo_estate demo_estate_wf eq_refl eq_refl) as (e' & E & _ & _ & _ & _ & _ & _ & Hin & _).
  exists e'. split; [rewrite E; reflexivity|]. destruct (Hin 2) as (row & Hr & _ & Hp); [by left|]. exists row. split; [exact Hr|exact Hp].
Defined.

Lemma stay_in_reach_witness : delete_system stranger 2 false 0 demo_estate = (Ok (inl not_found), demo_estate) /\ derive admin 3 true 60 0 demo_estate = (Ok (inl not_found), demo_estate).
Proof.
  assert (H2 : out_of_reach 2 stranger demo_estate).
  { intros s Hs Ei. apply list_elem_of_In in Hs. destruct Hs as [<-|[<-|[]]]; [reflexivity|discriminate Ei]. }
  assert (H3 : out_of_reach 3 admin demo_estate).
  { intros s Hs Ei. apply list_elem_of_In in Hs. destruct Hs as [<-|[<-|[]]]; [discriminate Ei|reflexivity]. }
  destruct (requests_stay_in_reach 2 stranger demo_estate demo_estate_wf H2) as (Hd & _).
  destruct (requests_stay_in_reach 3 admin demo_estate demo_estate_wf H3) as (_ & _ & _ & _ & _ & _ & _ & _ & Hv & _). split; [apply Hd|apply Hv].
Defined.

(** Propagation on request reaches a deleted system all the same. *)
Example propagation_reaches_deleted_systems :
  match propagate admin 3 "AC-02" "implemented" demo_estate with (Ok (inr r), e') => Some (r, ir_status <$> impl_at (3, 2) (es_impls e')) | _ => None end =
  Some ((1, 1), Some "implemented").
Proof. vm_compute. reflexivity. Qed.

Lemma clean_slate_witness : exists s' e', authorize_system admin 2 None 60 demo_estate = (Ok (inr s'), e') /\ sr_ato_status s' = Some "authorized" /\ sr_ato_expires_on s' = Some 425.
Proof.
  pose proof (authorization_needs_a_clean_slate admin 2 None 60 demo_estate demo_estate_wf) as H.
  assert (E : match (authorize_system admin 2 None 60 demo_estate).1 with Ok (inr _) => true | _ => false end = true) by (vm_compute; reflexivity). revert H E.
  destruct (authorize_system admin 2 None 60 demo_estate) as [[[r|s']|x] e']; cbn [fst]; intros H E; [discriminate E| |discriminate E].
  exists s', e'. split; [reflexivity|]. destruct H as (s & _ & _ & _ & _ & _ & -> & _). split; reflexivity.
Defined.

Lemma deletion_witness : exists e', delete_system admin 2 false 7 demo_estate = (Ok (inr tt), e') /\ out_of_reach 2 admin e' /\ es_impls e' = [demo_impl].
Proof.
  pose proof (deletion_keeps_records admin 2 false 7 demo_estate demo_estate_wf) as H.
  assert (E : match (delete_system admin 2 false 7 demo_estate).1 with Ok (inr _) => true | _ => false end = true) by (vm_compute; reflexivity). revert H E.
  destruct (delete_system admin 2 false 7 demo_estate) as [[[r|[]]|x] e']; cbn [fst]; intros H E; [discriminate E| |discriminate E].
  exists e'. split; [reflexivity|]. destruct H as (Hi & _ & _ & _ & _ & _ & _ & Ho & _). split; [apply Ho|exact Hi].
Defined.

Lemma demo_derived_wf : estate_wf (run_derivation 2 (Some 1) (demo_profile (Some "azure_gov")) true None 60 0 demo_estate).2.
Proof. apply run_derivation_wf, demo_estate_wf. Qed.

(** Incident response was seeded as a gap; once somebody implements it, the POA&M is closed. *)
Lemma gap_closed_witness : let e := (run_derivation 2 (Some 1) (demo_profile (Some "azure_gov")) true None 60 0 demo_estate).2 in
  exists n e' sum, set_control_state admin 2 "IR.L2-3.6.1" "implemented" None None 70 e = (Ok (inr ("implemented", n, sum)), e') /\ n = 1 /\
    forall p, p ∈ db_poams (es_db e') -> is_gap_poam 2 "IR.L2-3.6.1" p = false.
Proof.
  set (e := (run_derivation _ _ _ _ _ _ _ _).2). intros e0.
  destruct (satisfied_practice_closes_its_gap admin 2 "IR.L2-3.6.1" "implemented" None None 70 e (demo_practice 3 "IR.L2-3.6.1" "IR" "5") (demo_system 2 None) demo_derived_wf)
    as (n & e' & row & E & _ & _ & _ & _ & _ & Hif); [by left|reflexivity|reflexivity|by right; right; left|reflexivity|reflexivity|].
  exists n, e'. eexists. split; [exact E|]. change (mem "implemented" MET) with true in Hif. destruct Hif as (Hn & Hno & _). split; [|exact Hno]. rewrite Hn. vm_compute. reflexivity.
Defined.

Lemma board_witness : let e := (run_derivation 2 (Some 1) (demo_profile (Some "azure_gov")) true None 60 0 demo_estate).2 in
  exists sum e2, scoring_set_state (Some 1) 2 "IR.L2-3.6.1" "implemented" e = (Ok (inr sum), e2) /\ es_db e2 = es_db e /\ lcount (is_gap_poam 2 "IR.L2-3.6.1") (db_poams (es_db e2)) = 1.
Proof.
  set (e := (run_derivation _ _ _ _ _ _ _ _).2). intros e0.
  destruct (score_board_does_not_react admin 2 "IR.L2-3.6.1" "implemented" 70 e (demo_practice 3 "IR.L2-3.6.1" "IR" "5") (demo_system 2 None) demo_derived_wf)
    as (n & sum & e1 & e2 & _ & E & _ & Hdb & _); [by left|reflexivity|reflexivity|by right; right; left|reflexivity|reflexivity|].
  exists sum, e2. split; [exact E|]. split; [exact Hdb|]. rewrite Hdb. vm_compute. reflexivity.
Defined.

Lemma tables_sound_witness : estate_wf (derive admin 2 true 60 0 demo_estate).2 /\
  forall x, raised (propagate admin 2 "AC-02" "done" (derive admin 2 true 60 0 demo_estate).2) = Some x -> x = DBAPIError \/ x = IntegrityError.
Proof.
  destruct (requests_keep_tables_sound demo_estate (derive admin 2 true 60 0 demo_estate).2 demo_estate_wf) as [Hw H].
  - apply rtc_once. eexists. apply rq_derive.
  - split; [exact Hw|]. intros x Hx. exact (proj1 (H _ _ (rq_propagate admin 2 "AC-02" "done" _) x Hx)).
Defined.

(** A gap that comes back is not tracked again: its POA&M is still there, closed. *)
Example regressed_gap_stays_closed :
  let e1 := (run_derivation 2 (Some 1) (demo_profile (Some "azure_gov")) true None 60 0 demo_estate).2 in
  let e2 := (set_control_state admin 2 "IR.L2-3.6.1" "implemented" None None 70 e1).2 in
  let e3 := (set_control_state admin 2 "IR.L2-3.6.1" "not_implemented" None None 80 e2).2 in
  let '(r, e4) := run_derivation 2 (Some 1) (demo_profile (Some "azure_gov")) true None 90 1 e3 in
  (rs_gaps r, rs_poams_created r, lcount (fun p => mem (pm_status p) POAM_ACTIVE_STATUSES) (db_poams (es_db e4))) = (1, 0, 0).
Proof. vm_compute. reflexivity. Qed.

(** Controls outside the baseline are counted as implemented but not as applicable. *)
Example coverage_beyond_everything :
  match compliance_summary admin 2 60 (put_impls [set_status "implemented" demo_impl; set_status "implemented" (new_impl 31 2 1)]
    {| es_scored := es_scored demo_estate; es_systems := es_systems demo_estate;
       es_controls := [{| cn_id := 1; cn_identifier := "AC-02"; cn_sequence_control := None; cn_fisma_low := false; cn_fisma_mod := true; cn_fisma_high := true |};
                       {| cn_id := 2; cn_identifier := "SA-11"; cn_sequence_control := None; cn_fisma_low := false; cn_fisma_mod := false; cn_fisma_high := true |}];
       es_mappings := []; es_impls := []; es_evidence := []; es_assessments := []; es_risks := []; es_profiles := []; es_organizations := [1] |}) with
  | (Ok (inr c), _) => Some (cs_total_controls c, cs_coverage_pct c)
  | _ => None
  end = Some (1, 20000).
Proof. vm_compute. reflexivity. Qed.
