(* ===== verification/Assessor.v ===== *)
(** The assessment engine ([src/src/ccf/assessment/engine/]): a control's objectives as the
    catalog states them, the evaluation of one objective against retrieved passages with
    its challenge, the roll-up of verdicts into a proposed finding, and the drift of the
    catalog under a stored proposal.

    Retrieval and the model are parameters: what [retrieve] finds for a query, and what
    [ask] answers to a prompt (a JSON object, or the exception of the call), with the
    provider and model that answered. [accepts] tells the AI runs the database takes.
    A savepoint that fails leaves the tables as they were. The model's confidence (an
    answer whose confidence is no number is an exception, like any other), the stored
    prompts and outputs and the configuration snapshot are columns nothing here
    reads. *)

From S2P Require Import Hash.
From S2P Require Export ControlTests.
From S2P Require Export Queue.

Local Open Scope string_scope.
Local Open Scope Z_scope.

(** ** Control identifiers ([prep/screen.py]) *)

Definition newline_char : ascii := ascii_of_nat 10.
(** [.*$]: no newline, save one at the very end. *)
Fixpoint one_line (s : string) : bool :=
  match s with EmptyString => true | String c r => if decide (c = newline_char) then negb (str_truthy r) else one_line r end.
(** [re.sub] of the enhancement suffix; a newline it leaves at the end is stripped next. *)
Fixpoint strip_enhancement (s : string) : string :=
  match s with EmptyString => "" | String c r => if bool_decide (c = "("%char) && one_line r then "" else String c (strip_enhancement r) end.

Definition is_zero (c : ascii) : bool := bool_decide (c = "0"%char).
Definition unpadded (ds : string) : string := str_or (drop_while is_zero ds) "0".
Definition normalize_control_identifier (identifier : string) : string :=
  let base := strip (strip_enhancement identifier) in
  match drop_while is_alpha_ascii base with
  | String c ds => if str_truthy (take_while is_alpha_ascii base) && bool_decide (c = "-"%char) && all_digits ds
                   then take_while is_alpha_ascii base +:+ "-" +:+ unpadded ds else base
  | EmptyString => base
  end.

(** ** Objectives of a control ([objectives.py]) *)

Record CatalogRow := {
  cr_id : Z; cr_identifier : string; cr_sequence_control : option string; cr_control_name : option string;
  cr_assessment_objective : option string; cr_ap_acronym : option string; cr_source_row : option Z }.
Record Objective := { ob_label : string; ob_text : string; ob_text_sha256 : string; ob_sort_order : Z }.

Definition ObjectiveExtractionError (m : string) : exn := Exn "ObjectiveExtractionError" m.
Definition IndexError (m : string) : exn := Exn "IndexError" m.

(** [#row\d+$] anywhere in the identifier. *)
Definition dedup_suffix (s : string) : bool :=
  startswith "#row" s && (let ds := drop_while is_digit (str_drop 4 s) in
                          str_truthy (take_while is_digit (str_drop 4 s)) && (negb (str_truthy ds) || bool_decide (ds = String newline_char ""))).
Fixpoint is_deduplicated_identifier (s : string) : bool :=
  dedup_suffix s || match s with EmptyString => false | String _ r => is_deduplicated_identifier r end.

Definition objective_sha256 (text : string) : string := hexdigest (sha256 (utf8 (strip text))).

Definition letter (n : Z) : string := String (ascii_of_N (Z.to_N (97 + n))) "".
Definition ordinal_label (sequence_control : string) (index : Z) : res string :=
  if index <? 26 then Ok (sequence_control +:+ letter index)
  else if index <? 26 * 27 then Ok (sequence_control +:+ letter (index / 26 - 1) +:+ letter (index mod 26))
  else Err (IndexError "string index out of range").

Definition source_le (a b : CatalogRow) : bool :=
  match cr_source_row a, cr_source_row b with
  | Some x, Some y => (x <? y) || ((x =? y) && (cr_id a <=? cr_id b))
  | Some _, None => true
  | None, Some _ => false
  | None, None => cr_id a <=? cr_id b
  end.
(** The sub-clause rows that carry an objective, in catalog order. *)
Definition sub_clauses (catalog : list CatalogRow) : list CatalogRow :=
  stable_sort source_le (List.filter (fun r => bool_decide (cr_control_name r = None) && negb (bool_decide (cr_assessment_objective r = None))) catalog).
Definition matching_rows (catalog : list CatalogRow) (canonical : string) : list CatalogRow :=
  List.filter (fun r => bool_decide (normalize_control_identifier (or_empty (cr_sequence_control r)) = canonical)) (sub_clauses catalog).

(** The label the row itself offers, before the labels already given are looked at. *)
Definition own_label (canonical : string) (index : Z) (r : CatalogRow) : res string :=
  let identifier := if is_deduplicated_identifier (cr_identifier r) then "" else cr_identifier r in
  if str_truthy identifier then Ok identifier
  else if str_truthy (or_empty (cr_ap_acronym r)) then Ok (or_empty (cr_ap_acronym r))
  else ordinal_label (str_or (or_empty (cr_sequence_control r)) canonical) index.
Definition label_for (canonical : string) (index : Z) (seen : list string) (r : CatalogRow) : res string :=
  let! label := own_label canonical index r in
  let! label := if mem label seen then ordinal_label (str_or (or_empty (cr_sequence_control r)) canonical) index else Ok label in
  Ok (if mem label seen then label +:+ "-dup" +:+ pretty index else label).
Definition objective_of (label : string) (index : Z) (text : string) : Objective :=
  {| ob_label := label; ob_text := text; ob_text_sha256 := objective_sha256 text; ob_sort_order := index |}.
(** The loop over [enumerate(matching)]. *)
Fixpoint objectives_loop (canonical : string) (index : Z) (seen : list string) (rows : list CatalogRow) : res (list Objective) :=
  match rows with
  | [] => Ok []
  | r :: rest =>
      let text := strip (or_empty (cr_assessment_objective r)) in
      if negb (str_truthy text) then objectives_loop canonical (index + 1) seen rest else
      let! label := label_for canonical index seen r in
      let! os := objectives_loop canonical (index + 1) (label :: seen) rest in
      Ok (objective_of label index text :: os)
  end.
Definition objectives_for (max_objectives : Z) (catalog : list CatalogRow) (control_identifier : string) : res (list Objective) :=
  let canonical := normalize_control_identifier control_identifier in
  let matching := matching_rows catalog canonical in
  if max_objectives <? Z.of_nat (List.length matching) then
    Err (ObjectiveExtractionError ("control " +:+ control_identifier +:+ " yielded " +:+ pretty (Z.of_nat (List.length matching)) +:+ " objectives"))
  else objectives_loop canonical 0 [] matching.

(** ** The roll-up ([rollup.py]) *)

Definition OBJECTIVE_VERDICTS : list string := ["satisfied"; "not_satisfied"; "not_applicable"; "insufficient_evidence"].
Record Rollup := { rl_finding : string; rl_rationale : string }.

Definition times (v : string) (verdicts : list string) : Z := lcount (fun w => bool_decide (w = v)) verdicts.
Definition verdict_breakdown (verdicts : list string) : string :=
  join ", " (map (fun v => pretty (times v verdicts) +:+ " " +:+ v) (List.filter (fun v => negb (times v verdicts =? 0)) OBJECTIVE_VERDICTS)).
Definition roll_up (verdicts : list string) (failed : Z) : res Rollup :=
  let unknown := List.filter (fun v => negb (mem v OBJECTIVE_VERDICTS)) verdicts in
  if negb (bool_decide (unknown = [])) then Err (ValueError ("unknown objective verdict(s): [" +:+ join ", " (map repr_str (sorted_set unknown)) +:+ "]"))
  else if failed <? 0 then Err (ValueError ("failed must be >= 0, got " +:+ pretty failed))
  else
  let evaluated := Z.of_nat (List.length verdicts) in
  let total := evaluated + failed in
  let breakdown := verdict_breakdown verdicts in
  if negb (failed =? 0) then
    let coverage := pretty evaluated +:+ " of " +:+ pretty total +:+ " objectives evaluated, " +:+ pretty failed +:+ " failed" in
    let detail := if str_truthy breakdown then " (" +:+ breakdown +:+ " among those evaluated)" else "" in
    Ok {| rl_finding := "insufficient_evidence";
          rl_rationale := coverage +:+ detail +:+ " -- an objective that could not be evaluated means this control cannot be proposed as satisfied or as other than satisfied." |}
  else
  let summary := if total =? 0 then "0 objectives" else pretty total +:+ " objective(s): " +:+ breakdown in
  Ok (if total =? 0 then {| rl_finding := "insufficient_evidence"; rl_rationale := summary +:+ " -- a control with no objectives cannot be proposed as satisfied." |}
      else if negb (times "not_satisfied" verdicts =? 0) then
        {| rl_finding := "other_than_satisfied"; rl_rationale := summary +:+ " -- 800-53A requires every objective to be satisfied." |}
      else if negb (times "insufficient_evidence" verdicts =? 0) then
        {| rl_finding := "insufficient_evidence"; rl_rationale := summary +:+ " -- evidence did not settle every objective." |}
      else if times "not_applicable" verdicts =? total then
        {| rl_finding := "not_applicable"; rl_rationale := summary +:+ " -- all objectives N/A." |}
      else {| rl_finding := "satisfied"; rl_rationale := summary +:+ " -- every applicable objective met." |}).

(** ** The tables of the engine *)

Record ControlProposal := {
  cp_id : Z; cp_organization_id : Z; cp_assessment_id : Z; cp_control_identifier : string; cp_source_poam_id : option Z;
  cp_state : string; cp_proposed_finding : option string; cp_rollup_rationale : option string;
  cp_objectives_total : Z; cp_objectives_evaluated : Z; cp_dissent_count : Z; cp_error : option string;
  cp_accepted_by : option string; cp_accepted_at : option Z;
  cp_corrected_finding : option string; cp_rejected_by : option string; cp_rejected_at : option Z; cp_rejection_note : option string }.
Record ObjectiveProposal := {
  op_control_proposal_id : Z; op_label : string; op_objective_text : string; op_objective_text_sha256 : string; op_sort_order : Z;
  op_state : string; op_verdict : option string; op_cited_unit_ids : list Z; op_retrieved_unit_ids : list Z;
  op_gaps : list string; op_contradictions : list string; op_rationale : option string; op_ai_action_run_id : option Z; op_error : option string;
  op_primary_verdict : option string; op_challenger_verdict : option string; op_challenger_rationale : option string;
  op_challenger_ai_action_run_id : option Z }.
(** A finding of record, as the reports read it. *)
Record ControlResult := {
  ar_id : Z; ar_assessment_id : Z; ar_control_id : string; ar_nist_id : option string; ar_finding : string; ar_objective_findings : list pyval;
  ar_assessor_note : option string; ar_reviewed : bool; ar_reviewer : option string }.
Record AiRun := {
  run_id : Z; run_organization_id : Z; run_action_key : string; run_entity_id : string; run_provider : string; run_model : option string;
  run_input_hash : string; run_citations : list (string * string); run_mutation_applied : bool;
  run_reviewer : option string; run_disposition : option string; run_decided_at : option Z }.

(** Systems with their organization, assessments with their system; a job with the
    proposal it evaluates. *)
Record Engine := {
  en_db : Db; en_systems : list (Z * Z); en_assessments : list (Z * Z); en_catalog : list CatalogRow; en_proposals : list ControlProposal;
  en_objectives : list ObjectiveProposal; en_results : list ControlResult; en_jobs : list Job; en_targets : list (Z * Z); en_runs : list AiRun }.

Definition put_en_db (db : Db) (e : Engine) : Engine :=
  {| en_db := db; en_systems := en_systems e; en_assessments := en_assessments e; en_catalog := en_catalog e; en_proposals := en_proposals e;
     en_objectives := en_objectives e; en_results := en_results e; en_jobs := en_jobs e; en_targets := en_targets e; en_runs := en_runs e |}.
Definition put_proposals (l : list ControlProposal) (e : Engine) : Engine :=
  {| en_db := en_db e; en_systems := en_systems e; en_assessments := en_assessments e; en_catalog := en_catalog e; en_proposals := l;
     en_objectives := en_objectives e; en_results := en_results e; en_jobs := en_jobs e; en_targets := en_targets e; en_runs := en_runs e |}.
Definition put_objectives (l : list ObjectiveProposal) (e : Engine) : Engine :=
  {| en_db := en_db e; en_systems := en_systems e; en_assessments := en_assessments e; en_catalog := en_catalog e; en_proposals := en_proposals e;
     en_objectives := l; en_results := en_results e; en_jobs := en_jobs e; en_targets := en_targets e; en_runs := en_runs e |}.
Definition put_results (l : list ControlResult) (e : Engine) : Engine :=
  {| en_db := en_db e; en_systems := en_systems e; en_assessments := en_assessments e; en_catalog := en_catalog e; en_proposals := en_proposals e;
     en_objectives := en_objectives e; en_results := l; en_jobs := en_jobs e; en_targets := en_targets e; en_runs := en_runs e |}.
Definition put_jobs (l : list Job) (t : list (Z * Z)) (e : Engine) : Engine :=
  {| en_db := en_db e; en_systems := en_systems e; en_assessments := en_assessments e; en_catalog := en_catalog e; en_proposals := en_proposals e;
     en_objectives := en_objectives e; en_results := en_results e; en_jobs := l; en_targets := t; en_runs := en_runs e |}.
Definition put_runs (l : list AiRun) (e : Engine) : Engine :=
  {| en_db := en_db e; en_systems := en_systems e; en_assessments := en_assessments e; en_catalog := en_catalog e; en_proposals := en_proposals e;
     en_objectives := en_objectives e; en_results := en_results e; en_jobs := en_jobs e; en_targets := en_targets e; en_runs := l |}.
Definition engine_id (e : Engine) : Z * Engine := let '(i, db) := next_id (en_db e) in (i, put_en_db db e).

(** ** One objective ([evaluate.py], [ai_actions/provenance.py]) *)

Definition ACTION_KEY : string := "evaluate_assessment_objective".
Definition DISSENT_CHALLENGE_ACTION_KEY : string := "challenge_assessment_objective".
Definition DISSENT_CHALLENGE_POLICY_VERSION : string := "v1".
Definition ROLLUP_POLICY_VERSION : string := "v1".

Record RetrievedUnit := { ru_unit_id : Z; ru_page_numbers : list Z; ru_section_path : option string; ru_content : string }.
Record Answer := { an_provider : string; an_model : string; an_data : list (string * pyval) }.
Record ObjectiveEvaluation := {
  oe_verdict : string; oe_rationale : string; oe_cited_unit_ids : list Z; oe_retrieved_unit_ids : list Z; oe_gaps : list string; oe_contradictions : list string;
  oe_model_name : option string; oe_ai_action_run_id : option Z; oe_primary_verdict : option string; oe_challenger_verdict : option string;
  oe_challenger_rationale : option string; oe_challenger_ai_action_run_id : option Z }.

Definition nl : string := String newline_char "".
Definition pages_of (u : RetrievedUnit) : string := join ", " (map pretty (ru_page_numbers u)).
Definition has_section (u : RetrievedUnit) : bool := str_truthy (or_empty (ru_section_path u)).
Definition passage (u : RetrievedUnit) : string :=
  "[" +:+ pretty (ru_unit_id u) +:+ "] (page " +:+ str_or (pages_of u) "n/a" +:+ (if has_section u then ", " +:+ or_empty (ru_section_path u) else "") +:+ ")" +:+
  nl +:+ ru_content u.
Definition passages (units : list RetrievedUnit) : string := join (nl +:+ nl) (map passage units).
Definition build_prompt (objective_text : string) (units : list RetrievedUnit) : string :=
  "Assessment objective:" +:+ nl +:+ objective_text +:+ nl +:+ nl +:+ "Evidence passages:" +:+ nl +:+ passages units +:+ nl +:+ nl +:+
  "Decide whether these passages demonstrate that the objective is met. Cite the passage ids that support your verdict. List any gap that keeps the objective from being fully demonstrated, and any passage that contradicts another. This is analysis for an assessor, not a finding.".
Definition build_challenge_prompt (objective_text : string) (units : list RetrievedUnit) : string :=
  "Assessment objective:" +:+ nl +:+ objective_text +:+ nl +:+ nl +:+ "Evidence passages (the same ones a first reviewer judged as satisfying this objective):" +:+ nl +:+
  passages units +:+ nl +:+ nl +:+
  "Argue the strongest case that these passages do NOT demonstrate the objective is met. Cite the passage ids that support your position. If you genuinely cannot construct a credible case against it, answer satisfied instead of manufacturing a disagreement.".
Definition citation_label (u : RetrievedUnit) : string :=
  let page_part := if str_truthy (pages_of u) then "p. " +:+ pages_of u else "p. n/a" in
  if has_section u then page_part +:+ " — " +:+ or_empty (ru_section_path u) else page_part.

(** [int(raw)], [None] where it raises one of the errors caught. *)
Definition citation_id (raw : pyval) : option Z :=
  match raw with
  | VInt z => Some z | VBool b => Some (if b then 1 else 0) | VFloat x => Some (fl_trunc x)
  | VStr s => match py_int s with Ok z => Some z | Err _ => None end
  | VNone | VList _ | VDict _ => None
  end.
(** The ids cited, first seen first, of those offered. *)
Fixpoint cite (offered seen : list Z) (raws : list pyval) : list Z :=
  match raws with
  | [] => []
  | raw :: rest => match citation_id raw with
                   | Some i => if mem i offered && negb (mem i seen) then i :: cite offered (i :: seen) rest else cite offered seen rest
                   | None => cite offered seen rest
                   end
  end.
Definition list_field (k : string) (data : list (string * pyval)) : res (list pyval) := match dget k data with Some v => iter_val v | None => Ok [] end.
Definition cited_by (offered : list Z) (data : list (string * pyval)) : res (list Z) := let! raws := list_field "cited_unit_ids" data in Ok (cite offered [] raws).
Definition verdict_in (data : list (string * pyval)) : res string :=
  match dget "verdict" data with Some v => Ok (py_str v) | None => Err (KeyError "'verdict'") end.
Definition rationale_in (data : list (string * pyval)) : string := match dget "rationale" data with Some v => py_str v | None => "" end.
Definition confidence_in (data : list (string * pyval)) : res xfloat := float_of_val (default (VFloat fl_zero) (dget "confidence" data)).
Definition texts_in (k : string) (data : list (string * pyval)) : res (list string) := let! l := list_field k data in Ok (map py_str l).

Definition citations_for (cited : list Z) (units : list RetrievedUnit) : list (string * string) :=
  omap (fun i => u ← list_find (fun u => ru_unit_id u = i) (reverse units); Some (pretty i, citation_label u.2)) cited.

Section evaluate.
Context (retrieve : Z -> string -> string -> option Z -> list RetrievedUnit) (ask : string -> string -> res Answer) (accepts : AiRun -> bool) (dissent_enabled : bool).

(** A run is recorded, or the database refuses it and there is none. *)
Definition record_ai_run (org : Z) (action_key entity_id provider : string) (model : option string) (prompt : string) (citations : list (string * string)) (e : Engine)
    : option Z * Engine :=
  let '(i, e') := engine_id e in
  let run := {| run_id := i; run_organization_id := org; run_action_key := action_key; run_entity_id := entity_id; run_provider := provider; run_model := model;
                run_input_hash := hexdigest (sha256 (utf8 prompt)); run_citations := citations; run_mutation_applied := false;
                run_reviewer := None; run_disposition := None; run_decided_at := None |} in
  if accepts run then (Some i, put_runs (en_runs e' ++ [run])%list e') else (None, e).

Definition no_evidence (run : option Z) : ObjectiveEvaluation :=
  {| oe_verdict := "insufficient_evidence"; oe_rationale := "No prepared evidence was retrieved for this objective."; oe_cited_unit_ids := []; oe_retrieved_unit_ids := [];
     oe_gaps := ["No evidence retrieved -- nothing in the prepared corpus matched."]; oe_contradictions := []; oe_model_name := None; oe_ai_action_run_id := run;
     oe_primary_verdict := None; oe_challenger_verdict := None; oe_challenger_rationale := None; oe_challenger_ai_action_run_id := None |}.

(** What a challenge says: its verdict, its argument, what it cites and its run. *)
Definition challenge (org : Z) (objective : Objective) (units : list RetrievedUnit) (e : Engine) : res (string * string * list Z * option Z * Engine) :=
  let prompt := build_challenge_prompt (ob_text objective) units in
  let! a := ask "assessment.challenge_objective" prompt in
  let! cited := cited_by (map ru_unit_id units) (an_data a) in
  let '(run, e) := record_ai_run org DISSENT_CHALLENGE_ACTION_KEY (ob_label objective) (an_provider a) (Some (an_model a)) prompt (citations_for cited units) e in
  let! v := verdict_in (an_data a) in
  Ok (v, rationale_in (an_data a), cited, run, e).

Definition evaluate_objective (org : Z) (control_identifier : string) (objective : Objective) (system_id : option Z) (e : Engine) : res (ObjectiveEvaluation * Engine) :=
  let units := retrieve org control_identifier (ob_text objective) system_id in
  let offered := map ru_unit_id units in
  if bool_decide (units = []) then
    let '(run, e) := record_ai_run org ACTION_KEY (ob_label objective) "none" None
                       ("No evidence retrieved for objective " +:+ ob_label objective +:+ ": " +:+ ob_text objective) [] e in
    Ok (no_evidence run, e)
  else
  let prompt := build_prompt (ob_text objective) units in
  let! a := ask "assessment.evaluate_objective" prompt in
  let data := an_data a in
  let! cited := cited_by offered data in
  let '(run, e) := record_ai_run org ACTION_KEY (ob_label objective) (an_provider a) (Some (an_model a)) prompt (citations_for cited units) e in
  let! verdict := verdict_in data in
  let '(final, primary, c_verdict, c_rationale, c_run, e) :=
    if dissent_enabled && bool_decide (verdict = "satisfied") then
      match challenge org objective units e with
      | Ok (v, why, c_cited, c_run, e') =>
          (if negb (bool_decide (v = "satisfied")) && negb (bool_decide (c_cited = [])) then "insufficient_evidence" else verdict,
           Some verdict, Some v, Some why, c_run, e')
      | Err _ => (verdict, None, None, None, None, e)
      end
    else (verdict, None, None, None, None, e) in
  let! _ := confidence_in data in
  let! gaps := texts_in "gaps" data in
  let! contradictions := texts_in "contradictions" data in
  Ok ({| oe_verdict := final; oe_rationale := rationale_in data; oe_cited_unit_ids := cited; oe_retrieved_unit_ids := offered; oe_gaps := gaps;
         oe_contradictions := contradictions; oe_model_name := Some (an_model a); oe_ai_action_run_id := run; oe_primary_verdict := primary;
         oe_challenger_verdict := c_verdict; oe_challenger_rationale := c_rationale; oe_challenger_ai_action_run_id := c_run |}, e).

(** ** One control ([service.py]) *)

Definition set_evaluating (p : ControlProposal) : ControlProposal :=
  {| cp_id := cp_id p; cp_organization_id := cp_organization_id p; cp_assessment_id := cp_assessment_id p; cp_control_identifier := cp_control_identifier p;
     cp_source_poam_id := cp_source_poam_id p; cp_state := "draft"; cp_proposed_finding := cp_proposed_finding p; cp_rollup_rationale := cp_rollup_rationale p;
     cp_objectives_total := cp_objectives_total p; cp_objectives_evaluated := cp_objectives_evaluated p; cp_dissent_count := 0; cp_error := cp_error p;
     cp_accepted_by := cp_accepted_by p; cp_accepted_at := cp_accepted_at p; cp_corrected_finding := cp_corrected_finding p; cp_rejected_by := cp_rejected_by p;
     cp_rejected_at := cp_rejected_at p; cp_rejection_note := cp_rejection_note p |}.
Definition set_evaluated (total evaluated dissent : Z) (r : Rollup) (p : ControlProposal) : ControlProposal :=
  {| cp_id := cp_id p; cp_organization_id := cp_organization_id p; cp_assessment_id := cp_assessment_id p; cp_control_identifier := cp_control_identifier p;
     cp_source_poam_id := cp_source_poam_id p; cp_state := "complete"; cp_proposed_finding := Some (rl_finding r); cp_rollup_rationale := Some (rl_rationale r);
     cp_objectives_total := total; cp_objectives_evaluated := evaluated; cp_dissent_count := dissent; cp_error := cp_error p;
     cp_accepted_by := cp_accepted_by p; cp_accepted_at := cp_accepted_at p; cp_corrected_finding := cp_corrected_finding p; cp_rejected_by := cp_rejected_by p;
     cp_rejected_at := cp_rejected_at p; cp_rejection_note := cp_rejection_note p |}.
Definition set_state (state : string) (p : ControlProposal) : ControlProposal :=
  {| cp_id := cp_id p; cp_organization_id := cp_organization_id p; cp_assessment_id := cp_assessment_id p; cp_control_identifier := cp_control_identifier p;
     cp_source_poam_id := cp_source_poam_id p; cp_state := state; cp_proposed_finding := cp_proposed_finding p; cp_rollup_rationale := cp_rollup_rationale p;
     cp_objectives_total := cp_objectives_total p; cp_objectives_evaluated := cp_objectives_evaluated p; cp_dissent_count := cp_dissent_count p; cp_error := cp_error p;
     cp_accepted_by := cp_accepted_by p; cp_accepted_at := cp_accepted_at p; cp_corrected_finding := cp_corrected_finding p; cp_rejected_by := cp_rejected_by p;
     cp_rejected_at := cp_rejected_at p; cp_rejection_note := cp_rejection_note p |}.

Definition assign_proposal (i : Z) (f : ControlProposal -> ControlProposal) (e : Engine) : Engine :=
  put_proposals (update_where (fun p => cp_id p =? i) f (en_proposals e)) e.
Definition find_proposal (i : Z) (e : Engine) : res (option ControlProposal) := scalar_one_or_none (List.filter (fun p => cp_id p =? i) (en_proposals e)).
Definition objectives_of (i : Z) (e : Engine) : list ObjectiveProposal := List.filter (fun o => op_control_proposal_id o =? i) (en_objectives e).

Definition evaluated_row (proposal : ControlProposal) (o : Objective) (v : ObjectiveEvaluation) : ObjectiveProposal :=
  {| op_control_proposal_id := cp_id proposal; op_label := ob_label o; op_objective_text := ob_text o; op_objective_text_sha256 := ob_text_sha256 o;
     op_sort_order := ob_sort_order o; op_state := "complete"; op_verdict := Some (oe_verdict v); op_cited_unit_ids := oe_cited_unit_ids v;
     op_retrieved_unit_ids := oe_retrieved_unit_ids v; op_gaps := oe_gaps v; op_contradictions := oe_contradictions v; op_rationale := Some (oe_rationale v);
     op_ai_action_run_id := oe_ai_action_run_id v; op_error := None; op_primary_verdict := oe_primary_verdict v; op_challenger_verdict := oe_challenger_verdict v;
     op_challenger_rationale := oe_challenger_rationale v; op_challenger_ai_action_run_id := oe_challenger_ai_action_run_id v |}.
Definition failed_row (proposal : ControlProposal) (o : Objective) (error : string) : ObjectiveProposal :=
  {| op_control_proposal_id := cp_id proposal; op_label := ob_label o; op_objective_text := ob_text o; op_objective_text_sha256 := ob_text_sha256 o;
     op_sort_order := ob_sort_order o; op_state := "failed"; op_verdict := None; op_cited_unit_ids := []; op_retrieved_unit_ids := []; op_gaps := []; op_contradictions := [];
     op_rationale := None; op_ai_action_run_id := None; op_error := Some error; op_primary_verdict := None; op_challenger_verdict := None; op_challenger_rationale := None;
     op_challenger_ai_action_run_id := None |}.

Definition IntegrityError : exn := Exn "IntegrityError" "duplicate key value violates unique constraint".
Definition DataError : exn := Exn "DBAPIError" "value too long for type character varying".
(** The insert: a label fits its column and is new to the proposal. *)
Definition insert_objective (o : ObjectiveProposal) (e : Engine) : res Engine :=
  if (64 <? Z.of_nat (String.length (op_label o))) then Err DataError
  else if existsb (fun x => (op_control_proposal_id x =? op_control_proposal_id o) && bool_decide (op_label x = op_label o)) (en_objectives e) then Err IntegrityError
  else Ok (put_objectives (en_objectives e ++ [o])%list e).

(** One turn of the loop: the verdicts so far, the failures, the dissents and the tables. *)
Record EvalAcc := { ea_verdicts : list string; ea_failed : Z; ea_dissent : Z; ea_engine : Engine }.
Definition dissents (v : ObjectiveEvaluation) : bool := negb (bool_decide (oe_challenger_verdict v = None)) && bool_decide (oe_verdict v = "insufficient_evidence").
Definition evaluate_one (proposal : ControlProposal) (system_id : option Z) (a : EvalAcc) (o : Objective) : EvalAcc :=
  match (let! ve := evaluate_objective (cp_organization_id proposal) (cp_control_identifier proposal) o system_id (ea_engine a) in
         let! e := insert_objective (evaluated_row proposal o ve.1) ve.2 in Ok (ve.1, e)) with
  | Ok (v, e) => {| ea_verdicts := (ea_verdicts a ++ [oe_verdict v])%list; ea_failed := ea_failed a;
                    ea_dissent := ea_dissent a + (if dissents v then 1 else 0); ea_engine := e |}
  | Err x => {| ea_verdicts := ea_verdicts a; ea_failed := ea_failed a + 1; ea_dissent := ea_dissent a;
                ea_engine := match insert_objective (failed_row proposal o (exn_msg x)) (ea_engine a) with Ok e => e | Err _ => ea_engine a end |}
  end.

Definition system_of (assessment_id : Z) (e : Engine) : option Z := snd <$> List.find (fun a => a.1 =? assessment_id) (en_assessments e).
Definition evaluate_control_proposal (max_objectives : Z) (proposal : ControlProposal) (e : Engine) : res Engine :=
  let e := assign_proposal (cp_id proposal) set_evaluating e in
  let e := put_objectives (List.filter (fun o => negb (op_control_proposal_id o =? cp_id proposal)) (en_objectives e)) e in
  let! objectives := objectives_for max_objectives (en_catalog e) (cp_control_identifier proposal) in
  let a := fold_left (evaluate_one proposal (system_of (cp_assessment_id proposal) e)) objectives
             {| ea_verdicts := []; ea_failed := 0; ea_dissent := 0; ea_engine := e |} in
  let! r := roll_up (ea_verdicts a) (ea_failed a) in
  Ok (assign_proposal (cp_id proposal) (set_evaluated (Z.of_nat (List.length objectives)) (Z.of_nat (List.length (ea_verdicts a))) (ea_dissent a) r) (ea_engine a)).

End evaluate.

(** Whether the catalog moved under the stored objectives. *)
Definition drifted (live : list Objective) (o : ObjectiveProposal) : bool :=
  match List.find (fun l => bool_decide (ob_label l = op_label o)) (reverse live) with
  | Some l => negb (bool_decide (ob_text_sha256 l = op_objective_text_sha256 o))
  | None => true
  end.
Definition check_staleness (max_objectives : Z) (proposal : ControlProposal) (e : Engine) : res (bool * Engine) :=
  let! live := objectives_for max_objectives (en_catalog e) (cp_control_identifier proposal) in
  let stale := existsb (drifted live) (objectives_of (cp_id proposal) e) in
  Ok (stale, if stale then assign_proposal (cp_id proposal) (set_state "stale") e else e).

(** ** Lemmas *)

Lemma times_zero v l : times v l = 0 <-> v ∉ l.
Proof.
  unfold times. split.
  - intros H Hin. pose proof (lcount_zero _ _ H v Hin) as E. cbv beta in E. by apply bool_decide_eq_false_1 in E.
  - intros H. apply lcount_none. intros x Hx. apply bool_decide_eq_false. by intros ->.
Qed.

Lemma times_all v l : times v l = Z.of_nat (List.length l) <-> (forall w, w ∈ l -> w = v).
Proof.
  unfold times. split.
  - intros H w Hw. destruct (decide (w = v)) as [|Hne]; [done|exfalso].
    assert (lcount (fun w => negb (bool_decide (w = v))) l = 0) as Hz.
    { assert (forall k, lcount (fun w => bool_decide (w = v)) k + lcount (fun w => negb (bool_decide (w = v))) k = Z.of_nat (List.length k)) as Hs.
      { intros k. induction k as [|x k IH]; [done|]. rewrite !lcount_cons. cbn [List.length]. destruct (bool_decide (x = v)); cbn [negb]; lia. }
      specialize (Hs l). lia. }
    pose proof (lcount_zero _ _ Hz w Hw) as E. cbv beta in E. rewrite bool_decide_eq_false_2 in E by done. done.
  - intros H. induction l as [|x l IH]; [done|]. rewrite lcount_cons. cbn [List.length].
    rewrite bool_decide_eq_true_2 by (apply H; by left). rewrite IH by (intros w Hw; apply H; by right). lia.
Qed.

Lemma known_none l : (forall v, v ∈ l -> v ∈ OBJECTIVE_VERDICTS) -> List.filter (fun v => negb (mem v OBJECTIVE_VERDICTS)) l = [].
Proof.
  induction l as [|x l IH]; intros H; [done|]. cbn [List.filter]. rewrite (proj2 (mem_true _ _)) by (apply H; by left). cbn [negb].
  apply IH. intros v Hv. apply H. by right.
Qed.

Lemma times_perm v l k : l ≡ₚ k -> times v l = times v k.
Proof. apply lsum_perm. Qed.

Lemma roll_up_perm l k failed : (forall v, v ∈ l -> v ∈ OBJECTIVE_VERDICTS) -> l ≡ₚ k -> roll_up l failed = roll_up k failed.
Proof.
  intros Hl Hp. unfold roll_up. rewrite !known_none; [|intros v Hv; apply Hl; by rewrite Hp|done].
  rewrite (Permutation_length Hp), !(times_perm _ _ _ Hp).
  assert (verdict_breakdown l = verdict_breakdown k) as ->; [|done]. unfold verdict_breakdown.
  rewrite (List.filter_ext (fun v => negb (times v l =? 0)) (fun v => negb (times v k =? 0))) by (intros v; by rewrite (times_perm v _ _ Hp)).
  f_equal. apply map_ext. intros v. by rewrite (times_perm v _ _ Hp).
Qed.

(** The four findings, by the first condition that applies. *)
Lemma roll_up_verdicts l failed : 0 <= failed -> (forall v, v ∈ l -> v ∈ OBJECTIVE_VERDICTS) ->
  exists r, roll_up l failed = Ok r /\
    rl_finding r = (if negb (failed =? 0) || bool_decide (l = []) then "insufficient_evidence"
                    else if mem "not_satisfied" l then "other_than_satisfied"
                    else if mem "insufficient_evidence" l then "insufficient_evidence"
                    else if forallb (fun v => bool_decide (v = "not_applicable")) l then "not_applicable" else "satisfied").
Proof.
  intros Hf Hl. unfold roll_up. rewrite known_none by done. rewrite bool_decide_eq_true_2 by done. cbn [negb].
  rewrite (proj2 (Z.ltb_ge _ _)) by done. destruct (Z.eqb_spec failed 0) as [->|Hne]; cbn [negb orb]; [|by eexists].
  eexists. split; [done|]. rewrite Z.add_0_r.
  destruct l as [|x l]; [done|]. rewrite bool_decide_eq_false_2 by done. set (k := x :: l) in *.
  rewrite (proj2 (Z.eqb_neq (Z.of_nat (List.length k)) 0)) by (unfold k; cbn [List.length]; lia).
  destruct (mem_spec "not_satisfied" k) as [Hm|Hm].
  { assert (times "not_satisfied" k <> 0) as Ht by (by rewrite times_zero; intros Hn). by rewrite (proj2 (Z.eqb_neq _ _) Ht). }
  rewrite (proj2 (Z.eqb_eq (times "not_satisfied" k) 0)) by by apply times_zero. cbn [negb].
  destruct (mem_spec "insufficient_evidence" k) as [Hi|Hi].
  { assert (times "insufficient_evidence" k <> 0) as Ht by (by rewrite times_zero; intros Hn). by rewrite (proj2 (Z.eqb_neq _ _) Ht). }
  rewrite (proj2 (Z.eqb_eq (times "insufficient_evidence" k) 0)) by by apply times_zero. cbn [negb].
  destruct (forallb _ k) eqn:E.
  - rewrite forallb_forall in E. assert (times "not_applicable" k = Z.of_nat (List.length k)) as ->; [|by rewrite Z.eqb_refl]. apply times_all. intros w Hw.
    apply list_elem_of_In, E in Hw. by apply bool_decide_eq_true_1 in Hw.
  - assert (times "not_applicable" k <> Z.of_nat (List.length k)) as Ht; [|by rewrite (proj2 (Z.eqb_neq _ _) Ht)]. intros Hall. rewrite times_all in Hall.
    assert (forallb (fun v => bool_decide (v = "not_applicable")) k = true) as E'; [|congruence].
    apply forallb_forall. intros w Hw. apply bool_decide_eq_true_2, Hall. by apply list_elem_of_In.
Qed.

(** the roll-up is strict, as NIST SP 800-53A asks. Of verdicts in the vocabulary it
    proposes satisfied exactly when every objective was evaluated, each is satisfied or not
    applicable and at least one is satisfied; other than satisfied exactly when every
    objective was evaluated and one is not satisfied; not applicable exactly when all are;
    and says it cannot tell otherwise. The order of the verdicts does not matter, and a
    verdict outside the vocabulary is refused. *)
Theorem roll_up_is_strict verdicts failed :
  0 <= failed ->
  ((forall v, v ∈ verdicts -> v ∈ OBJECTIVE_VERDICTS) ->
   exists r, roll_up verdicts failed = Ok r /\
     (rl_finding r = "satisfied" <->
        failed = 0 /\ "satisfied" ∈ verdicts /\ forall v, v ∈ verdicts -> v = "satisfied" \/ v = "not_applicable") /\
     (rl_finding r = "other_than_satisfied" <-> failed = 0 /\ "not_satisfied" ∈ verdicts) /\
     (rl_finding r = "not_applicable" <-> failed = 0 /\ verdicts <> [] /\ forall v, v ∈ verdicts -> v = "not_applicable") /\
     (rl_finding r = "insufficient_evidence" <->
        failed <> 0 \/ verdicts = [] \/ ("insufficient_evidence" ∈ verdicts /\ "not_satisfied" ∉ verdicts)) /\
     (forall others, verdicts ≡ₚ others -> roll_up others failed = Ok r)) /\
  ((exists v, v ∈ verdicts /\ v ∉ OBJECTIVE_VERDICTS) -> is_ok (roll_up verdicts failed) = false).
Proof.
  intros Hf. split.
  - intros Hl. destruct (roll_up_verdicts verdicts failed Hf Hl) as (r & Hr & Ef). exists r. split; [done|]. rewrite Ef.
    assert (Hperm : forall others, verdicts ≡ₚ others -> roll_up others failed = Ok r) by (intros o Ho; by rewrite <-(roll_up_perm _ _ _ Hl Ho)).
    destruct (Z.eqb_spec failed 0) as [->|Hne]; cbn [negb orb]; [|naive_solver lia].
    destruct verdicts as [|x l]; [rewrite bool_decide_eq_true_2 by done; set_solver|]. rewrite bool_decide_eq_false_2 by done. set (k := x :: l) in *.
    assert (Hne : k <> []) by done. clearbody k. clear x l.
    destruct (mem_spec "not_satisfied" k) as [Hm|Hm].
    { split_and!; [..|done].
      - split; [discriminate|]. intros (_ & _ & Hall). by destruct (Hall _ Hm).
      - done.
      - split; [discriminate|]. intros (_ & _ & Hall). by specialize (Hall _ Hm).
      - split; [discriminate|]. intros [?|[?|[_ ?]]]; done. }
    destruct (mem_spec "insufficient_evidence" k) as [Hi|Hi].
    { split_and!; [..|done].
      - split; [discriminate|]. intros (_ & _ & Hall). by destruct (Hall _ Hi).
      - split; [discriminate|]. by intros [_ ?].
      - split; [discriminate|]. intros (_ & _ & Hall). by specialize (Hall _ Hi).
      - split; [|done]. intros _. right. by right. }
    assert (Hk : forall v, v ∈ k -> v = "satisfied" \/ v = "not_applicable").
    { intros v Hv. specialize (Hl v Hv). unfold OBJECTIVE_VERDICTS in Hl. set_solver. }
    destruct (forallb _ k) eqn:E; [|apply not_true_iff_false in E]; rewrite forallb_forall in E.
    + assert (Hall : forall v, v ∈ k -> v = "not_applicable").
      { intros v Hv. apply list_elem_of_In, E in Hv. by apply bool_decide_eq_true_1 in Hv. }
      split_and!; [..|done].
      * split; [discriminate|]. intros (_ & Hs & _). by specialize (Hall _ Hs).
      * split; [discriminate|]. by intros [_ ?].
      * done.
      * split; [discriminate|]. intros [?|[?|[? _]]]; done.
    + assert (Hex : "satisfied" ∈ k).
      { destruct (mem_spec "satisfied" k) as [|Hs]; [done|]. exfalso. apply E. intros v Hv%list_elem_of_In. apply bool_decide_eq_true_2.
        destruct (Hk v Hv) as [ ->|]; done. }
      split_and!; [..|done].
      * done.
      * split; [discriminate|]. by intros [_ ?].
      * split; [discriminate|]. intros (_ & _ & Hall). by specialize (Hall _ Hex).
      * split; [discriminate|]. intros [?|[?|[? _]]]; done.
  - intros (v & Hv & Hn). unfold roll_up. rewrite bool_decide_eq_false_2; [done|]. intros E.
    assert (v ∈ List.filter (fun v => negb (mem v OBJECTIVE_VERDICTS)) verdicts) as Hin.
    { apply list_elem_of_In, filter_In. split; [by apply list_elem_of_In|]. destruct (mem_spec v OBJECTIVE_VERDICTS); done. }
    rewrite E in Hin. by apply not_elem_of_nil in Hin.
Qed.

Lemma roll_up_is_strict_witness :
  0 <= 0 /\ exists r, roll_up ["satisfied"; "not_applicable"; "satisfied"] 0 = Ok r /\
    rl_finding r = "satisfied" /\ rl_rationale r = "3 objective(s): 2 satisfied, 1 not_applicable -- every applicable objective met.".
Proof.
  split; [lia|]. destruct (proj1 (roll_up_is_strict ["satisfied"; "not_applicable"; "satisfied"] 0 ltac:(lia))) as (r & Hr & Hsat & _).
  - intros v Hv. unfold OBJECTIVE_VERDICTS. set_solver.
  - exists r. split; [done|]. split; [apply Hsat; set_solver|]. vm_compute in Hr. by injection Hr as <-.
Defined.

(** ** One objective *)

Lemma cite_spec offered seen raws :
  NoDup (cite offered seen raws) /\ forall i, i ∈ cite offered seen raws -> i ∈ offered /\ i ∉ seen.
Proof.
  revert seen. induction raws as [|raw raws IH]; intros seen; cbn [cite]; [split; [constructor|intros i Hi; by apply not_elem_of_nil in Hi]|].
  destruct (citation_id raw) as [i|]; [|apply IH]. destruct (mem_spec i offered) as [Ho|Ho]; cbn [andb]; [|apply IH].
  destruct (mem_spec i seen) as [Hs|Hs]; cbn [negb]; [apply IH|]. destruct (IH (i :: seen)) as [Hnd Hin]. split.
  - constructor; [|done]. intros Hi. destruct (Hin i Hi) as [_ Hns]. apply Hns. by left.
  - intros k [->|Hk]%elem_of_cons; [done|]. destruct (Hin k Hk) as [? Hns]. split; [done|]. intros Hks. apply Hns. by right.
Qed.

Lemma cited_by_spec offered data cited : cited_by offered data = Ok cited -> NoDup cited /\ forall i, i ∈ cited -> i ∈ offered.
Proof.
  unfold cited_by. destruct (list_field _ data) as [raws|]; [|done]. intros [= <-]. destruct (cite_spec offered [] raws) as [Hn Hi].
  split; [done|]. intros i H. by destruct (Hi i H).
Qed.

(** What an evaluation may change: the runs, and the next id. *)
Definition runs_only (e e' : Engine) : Prop :=
  exists seq runs, db_seq (en_db e) <= seq /\ e' = put_runs runs (put_en_db (ControlTests.set_seq seq (en_db e)) e).
#[export] Instance runs_only_preorder : PreOrder runs_only.
Proof.
  split.
  - intros e. exists (db_seq (en_db e)), (en_runs e). split; [lia|]. destruct e as [db]. by destruct db.
  - intros a b c (s & r & Hs & ->) (s' & r' & Hs' & ->). exists s', r'. split; [|done]. cbn in Hs'. lia.
Qed.

Section evaluation.
Context (retrieve : Z -> string -> string -> option Z -> list RetrievedUnit) (ask : string -> string -> res Answer) (accepts : AiRun -> bool) (dissent : bool).
Notation evaluate := (evaluate_objective retrieve ask accepts dissent).

Lemma record_runs_only org k i pr m pt cs e : runs_only e (record_ai_run accepts org k i pr m pt cs e).2.
Proof.
  unfold record_ai_run, engine_id, next_id. destruct (accepts _); [|reflexivity].
  exists (db_seq (en_db e) + 1), (en_runs e ++ [{| run_id := db_seq (en_db e); run_organization_id := org; run_action_key := k; run_entity_id := i; run_provider := pr;
    run_model := m; run_input_hash := hexdigest (sha256 (utf8 pt)); run_citations := cs; run_mutation_applied := false; run_reviewer := None; run_disposition := None; run_decided_at := None |}])%list.
  split; [lia|done].
Qed.

Lemma challenge_runs_only org o units e v why cs run e' : challenge ask accepts org o units e = Ok (v, why, cs, run, e') -> runs_only e e'.
Proof.
  unfold challenge. destruct (ask _ _) as [a|]; [|done]. cbn [res_bind]. destruct (cited_by _ _) as [cited|]; [|done]. cbn [res_bind].
  match goal with |- context [record_ai_run accepts ?a ?b ?c ?d ?m ?p ?x e] => pose proof (record_runs_only a b c d m p x e) as Hr; destruct (record_ai_run accepts a b c d m p x e) as [r er] end.
  destruct (verdict_in _) as [w|]; [|done]. intros [= -> <- <- <- <-]. exact Hr.
Qed.

(** What a challenge is worth: a credible one names another verdict and a passage shown. *)
Definition credible (offered : list Z) (c : Answer) : Prop :=
  exists v cited, verdict_in (an_data c) = Ok v /\ v <> "satisfied" /\ cited_by offered (an_data c) = Ok cited /\ cited <> [].

Lemma challenge_credible org o units e v why cs run e' : challenge ask accepts org o units e = Ok (v, why, cs, run, e') ->
  exists c, ask "assessment.challenge_objective" (build_challenge_prompt (ob_text o) units) = Ok c /\
    verdict_in (an_data c) = Ok v /\ cited_by (map ru_unit_id units) (an_data c) = Ok cs.
Proof.
  unfold challenge. destruct (ask _ _) as [a|]; [|done]. cbn [res_bind]. destruct (cited_by _ _) as [cited|] eqn:Ec; [|done]. cbn [res_bind].
  destruct (record_ai_run _ _ _ _ _ _ _ _ _) as [r er]. destruct (verdict_in _) as [w|] eqn:Ev; [|done]. intros [= <- <- <- <- <-]. by exists a.
Qed.

Lemma challenge_total org o units e c v cs :
  ask "assessment.challenge_objective" (build_challenge_prompt (ob_text o) units) = Ok c -> verdict_in (an_data c) = Ok v ->
  cited_by (map ru_unit_id units) (an_data c) = Ok cs -> exists run e', challenge ask accepts org o units e = Ok (v, rationale_in (an_data c), cs, run, e').
Proof.
  intros Ha Hv Hc. unfold challenge. rewrite Ha. cbn [res_bind]. rewrite Hc. cbn [res_bind].
  destruct (record_ai_run _ _ _ _ _ _ _ _ _) as [r er]. rewrite Hv. by exists r, er.
Qed.

Lemma evaluate_frame org cid o sys e v e' : evaluate org cid o sys e = Ok (v, e') -> runs_only e e'.
Proof.
  unfold evaluate_objective. case_bool_decide.
  - match goal with |- context [record_ai_run accepts ?a ?b ?c ?d ?m ?p ?x e] => pose proof (record_runs_only a b c d m p x e) as Hr; destruct (record_ai_run accepts a b c d m p x e) as [r er] end.
    intros [= <- <-]. exact Hr.
  - destruct (ask _ _) as [a|]; [|done]. cbn [res_bind]. destruct (cited_by _ _) as [cited|]; [|done]. cbn [res_bind].
    match goal with |- context [record_ai_run accepts ?a ?b ?c ?d ?m ?p ?x e] => pose proof (record_runs_only a b c d m p x e) as Hr; destruct (record_ai_run accepts a b c d m p x e) as [r er] end.
    cbn [snd] in Hr. destruct (verdict_in _) as [w|]; [|done]. cbn [res_bind].
    destruct (dissent && bool_decide (w = "satisfied")); [|destruct (confidence_in _) as [cf|]; [|done]; cbn [res_bind]; destruct (texts_in "gaps" _) as [g|]; [|done]; cbn [res_bind]; destruct (texts_in _ _) as [c|]; [|done]; intros [= _ <-]; exact Hr].
    destruct (challenge ask accepts org o _ er) as [[[[[cv why] cs] crun] ec]|] eqn:Ec.
    + destruct (confidence_in _) as [cf|]; [|done]; cbn [res_bind]; destruct (texts_in "gaps" _) as [g|]; [|done]; cbn [res_bind]; destruct (texts_in _ _) as [c|]; [|done]; intros [= _ <-].
      etrans; [exact Hr|]. by eapply challenge_runs_only.
    + destruct (confidence_in _) as [cf|]; [|done]; cbn [res_bind]; destruct (texts_in "gaps" _) as [g|]; [|done]; cbn [res_bind]; destruct (texts_in _ _) as [c|]; [|done]; intros [= _ <-]. exact Hr.
Qed.

(** C4: an evaluation rests on what was shown, and a credible challenge is not outvoted. The
    passages cited are distinct and among those retrieved for this objective. With none
    retrieved no model is asked and the objective is left open. Otherwise the verdict is
    the model's own, or "insufficient evidence" in exactly one case: challenges are on, the
    model said satisfied, and the challenger named another verdict and cited a passage it
    was shown. A challenge that ran is on record beside the verdict it was made against,
    and nothing but the AI runs changes. *)
Theorem evaluation_rests_on_what_was_shown org cid o sys e v e' :
  evaluate org cid o sys e = Ok (v, e') ->
  let units := retrieve org cid (ob_text o) sys in
  let offered := map ru_unit_id units in
  runs_only e e' /\ oe_retrieved_unit_ids v = offered /\ NoDup (oe_cited_unit_ids v) /\ (forall i, i ∈ oe_cited_unit_ids v -> i ∈ offered) /\
  (units = [] -> oe_verdict v = "insufficient_evidence" /\ oe_model_name v = None /\ oe_challenger_verdict v = None) /\
  (units <> [] ->
   exists a w, ask "assessment.evaluate_objective" (build_prompt (ob_text o) units) = Ok a /\ verdict_in (an_data a) = Ok w /\ oe_model_name v = Some (an_model a) /\
     let contested := dissent = true /\ w = "satisfied" /\
       exists c, ask "assessment.challenge_objective" (build_challenge_prompt (ob_text o) units) = Ok c /\ credible offered c in
     (contested -> oe_verdict v = "insufficient_evidence" /\ oe_primary_verdict v = Some "satisfied" /\ oe_challenger_verdict v <> None) /\
     (~ contested -> oe_verdict v = w) /\
     (oe_challenger_verdict v <> None -> oe_primary_verdict v = Some w)).
Proof.
  intros H. cbv zeta. split; [by eapply evaluate_frame|]. revert H. unfold evaluate_objective. set (units := retrieve org cid (ob_text o) sys).
  case_bool_decide as Hu.
  { destruct (record_ai_run _ _ _ _ _ _ _ _ _) as [r er]. intros [= <- <-]. rewrite Hu. split_and!; [done|constructor|intros i Hi; by apply not_elem_of_nil in Hi|done..]. }
  destruct (ask _ _) as [a|] eqn:Ea; [|done]. cbn [res_bind]. destruct (cited_by _ _) as [cited|] eqn:Ec; [|done]. cbn [res_bind].
  destruct (record_ai_run _ _ _ _ _ _ _ _ _) as [r er]. destruct (verdict_in _) as [w|] eqn:Ew; [|done]. cbn [res_bind].
  destruct (cited_by_spec _ _ _ Ec) as [Hnd Hin]. case_bool_decide as Hw; [subst w|]; [destruct dissent eqn:Ed|rewrite andb_false_r]; cbn [andb].
  2, 3: destruct (confidence_in _) as [cf|]; [|done]; cbn [res_bind]; destruct (texts_in "gaps" _) as [g|]; [|done]; cbn [res_bind]; destruct (texts_in _ _) as [c|]; [|done]; intros [= <- <-]; cbn;
    (split_and!; [done..|]); intros _; eexists _, _; (split_and!; [done|exact Ew|done|by intros (? & ? & _)|done|done]).
  destruct (challenge ask accepts org o units er) as [[[[[cv why] cs] crun] ec]|] eqn:Ech;
    (destruct (confidence_in _) as [cf|]; [|done]; cbn [res_bind]; destruct (texts_in "gaps" _) as [g|]; [|done]; cbn [res_bind]; destruct (texts_in _ _) as [c|]; [|done]; intros [= <- <-]; cbn;
     split_and!; [done..|]; intros _; eexists _, _; split_and!; [done|exact Ew|done|..]).
  - destruct (challenge_credible _ _ _ _ _ _ _ _ _ Ech) as (c0 & Hc0 & Hcv & Hcs). intros (_ & _ & c1 & Hc1 & v1 & cs1 & Hv1 & Hne & Hcs1 & Hcs1').
    rewrite Hc0 in Hc1. injection Hc1 as <-. rewrite Hcv in Hv1. injection Hv1 as <-. rewrite Hcs in Hcs1. injection Hcs1 as <-.
    by rewrite !bool_decide_eq_false_2.
  - destruct (challenge_credible _ _ _ _ _ _ _ _ _ Ech) as (c0 & Hc0 & Hcv & Hcs). intros Hno.
    case_bool_decide as H1; [done|]. case_bool_decide as H2; [done|]. destruct Hno. split_and!; [done..|]. exists c0. split; [done|]. by exists cv, cs.
  - done.
  - intros (_ & _ & c1 & Hc1 & v1 & cs1 & Hv1 & _ & Hcs1 & _). exfalso.
    destruct (challenge_total org o units er _ _ _ Hc1 Hv1 Hcs1) as (? & ? & E). by rewrite Ech in E.
  - done.
  - done.
Qed.

(** ** One control *)

Lemma insert_spec o e e' : insert_objective o e = Ok e' ->
  e' = put_objectives (en_objectives e ++ [o])%list e /\
  forall x, x ∈ en_objectives e -> op_control_proposal_id x = op_control_proposal_id o -> op_label x <> op_label o.
Proof.
  unfold insert_objective. destruct (64 <? _); [done|]. destruct (existsb _ _) eqn:E; [done|]. intros [= <-]. split; [done|].
  intros x Hx Hp Hl. assert (existsb (fun x => (op_control_proposal_id x =? op_control_proposal_id o) && bool_decide (op_label x = op_label o)) (en_objectives e) = true) as E'; [|congruence].
  apply existsb_exists. exists x. split; [by apply list_elem_of_In|]. by rewrite Hp, Z.eqb_refl, bool_decide_eq_true_2.
Qed.

Definition others (i : Z) (e : Engine) : list ObjectiveProposal := List.filter (fun o => negb (op_control_proposal_id o =? i)) (en_objectives e).
(** Evaluating a control changes its own objectives, the runs and the next id. *)
Definition objectives_only (i : Z) (e e' : Engine) : Prop :=
  others i e' = others i e /\ exists l, runs_only (put_objectives l e) e'.

Lemma runs_only_keeps e e' : runs_only e e' ->
  en_objectives e' = en_objectives e /\ en_proposals e' = en_proposals e /\ en_catalog e' = en_catalog e /\ en_results e' = en_results e /\
  en_jobs e' = en_jobs e /\ en_targets e' = en_targets e /\ db_poams (en_db e') = db_poams (en_db e) /\ db_seq (en_db e) <= db_seq (en_db e').
Proof. by intros (s & r & Hs & ->). Qed.

Lemma put_runs_only l e e' : runs_only e e' -> runs_only (put_objectives l e) (put_objectives l e').
Proof. intros (s & r & Hs & ->). by exists s, r. Qed.

Record loop_inv (proposal : ControlProposal) (seen : list Objective) (e0 : Engine) (a : EvalAcc) : Prop := {
  li_verdicts : ea_verdicts a = omap op_verdict (objectives_of (cp_id proposal) (ea_engine a));
  li_count : Z.of_nat (List.length seen) = Z.of_nat (List.length (ea_verdicts a)) + ea_failed a;
  li_failed : 0 <= ea_failed a;
  li_origin : forall r, r ∈ objectives_of (cp_id proposal) (ea_engine a) ->
    exists o, o ∈ seen /\ op_label r = ob_label o /\ op_objective_text r = ob_text o /\ op_objective_text_sha256 r = ob_text_sha256 o;
  li_labels : NoDup (map op_label (objectives_of (cp_id proposal) (ea_engine a)));
  li_all : ea_failed a = 0 -> forall o, o ∈ seen -> exists r v, r ∈ objectives_of (cp_id proposal) (ea_engine a) /\
    op_label r = ob_label o /\ op_objective_text_sha256 r = ob_text_sha256 o /\ op_verdict r = Some v;
  li_dissent : ea_dissent a = lcount (fun r => negb (bool_decide (op_challenger_verdict r = None)) && bool_decide (op_verdict r = Some "insufficient_evidence"))
                                (objectives_of (cp_id proposal) (ea_engine a));
  li_frame : objectives_only (cp_id proposal) e0 (ea_engine a) }.

Lemma objectives_only_insert i o e0 e e' : op_control_proposal_id o = i -> objectives_only i e0 e -> insert_objective o e = Ok e' -> objectives_only i e0 e'.
Proof.
  intros Hi [Ho (l & s & r & Hs & Hl)] [-> _]%insert_spec. split.
  - unfold others in *. cbn [en_objectives put_objectives]. rewrite List.filter_app. cbn [List.filter]. rewrite Hi, Z.eqb_refl. cbn [negb]. by rewrite app_nil_r.
  - exists (en_objectives e ++ [o])%list, s, r. split; [done|]. subst e. done.
Qed.

Lemma objectives_only_runs i e0 e e' : objectives_only i e0 e -> runs_only e e' -> objectives_only i e0 e'.
Proof.
  intros [Ho (l & Hl)] Hr. destruct (runs_only_keeps _ _ Hr) as (Eo & _). split; [unfold others in *; by rewrite Eo|]. exists l. by etrans.
Qed.

Lemma objectives_of_insert o e e' : insert_objective o e = Ok e' ->
  objectives_of (op_control_proposal_id o) e' = (objectives_of (op_control_proposal_id o) e ++ [o])%list /\
  op_label o ∉ map op_label (objectives_of (op_control_proposal_id o) e).
Proof.
  intros [-> Hnew]%insert_spec. split.
  - unfold objectives_of. cbn [en_objectives put_objectives]. rewrite List.filter_app. cbn [List.filter]. by rewrite Z.eqb_refl.
  - intros (x & E & Hx)%list_elem_of_fmap. unfold objectives_of in Hx. apply list_elem_of_In, filter_In in Hx as [Hx Hp%Z.eqb_eq].
    by apply (Hnew x); [by apply list_elem_of_In| |].
Qed.

Lemma objectives_of_runs i e e' : runs_only e e' -> objectives_of i e' = objectives_of i e.
Proof. intros Hr. unfold objectives_of. by destruct (runs_only_keeps _ _ Hr) as (-> & _). Qed.

Lemma evaluate_one_failed proposal seen e0 a o msg : loop_inv proposal seen e0 a ->
  loop_inv proposal (seen ++ [o]) e0
    {| ea_verdicts := ea_verdicts a; ea_failed := ea_failed a + 1; ea_dissent := ea_dissent a;
       ea_engine := match insert_objective (failed_row proposal o msg) (ea_engine a) with Ok e => e | Err _ => ea_engine a end |}.
Proof.
  intros [Hv Hc Hf Ho Hl Ha Hd Hfr].
  assert (Hcount : Z.of_nat (List.length (seen ++ [o])) = Z.of_nat (List.length (ea_verdicts a)) + (ea_failed a + 1)) by (rewrite length_app; cbn [List.length]; lia).
  destruct (insert_objective _ _) as [e2|x] eqn:Ei; split; cbn [ea_verdicts ea_failed ea_dissent ea_engine]; try done; try lia.
  1-5: destruct (objectives_of_insert _ _ _ Ei) as [E Hnew]; cbn [op_control_proposal_id failed_row op_label] in E, Hnew.
  - by rewrite E, omap_app, <-Hv, app_nil_r.
  - rewrite E. intros r [Hin| ->%list_elem_of_singleton]%elem_of_app.
    + destruct (Ho r Hin) as (o' & Hin' & ?). exists o'. split; [apply elem_of_app; by left|done].
    + exists o. split; [apply elem_of_app; right; by left|done].
  - rewrite E, map_app. apply NoDup_app. split; [done|]. split; [|apply NoDup_singleton]. intros y Hy ->%list_elem_of_singleton. done.
  - rewrite E, lcount_snoc, Hd. cbn. lia.
  - eapply objectives_only_insert; [|done|exact Ei]. done.
  - intros r Hin. destruct (Ho r Hin) as (o' & Hin' & ?). exists o'. split; [apply elem_of_app; by left|done].
Qed.

Lemma evaluate_one_inv proposal sys seen e0 a o : loop_inv proposal seen e0 a ->
  loop_inv proposal (seen ++ [o]) e0 (evaluate_one retrieve ask accepts dissent proposal sys a o).
Proof.
  intros [Hv Hc Hf Ho Hl Ha Hd Hfr]. unfold evaluate_one.
  destruct (evaluate _ _ _ _ _) as [[v e1]|x] eqn:Ee; cbn [res_bind fst snd].
  - pose proof (evaluate_frame _ _ _ _ _ _ _ Ee) as Hr. pose proof (objectives_of_runs (cp_id proposal) _ _ Hr) as Er.
    destruct (insert_objective (evaluated_row proposal o v) e1) as [e2|x] eqn:Ei; cbn [res_bind].
    + destruct (objectives_of_insert _ _ _ Ei) as [E Hnew]. cbn [op_control_proposal_id evaluated_row op_label] in E, Hnew. rewrite Er in E, Hnew.
      split; cbn [ea_verdicts ea_failed ea_dissent ea_engine].
      * by rewrite E, omap_app, <-Hv.
      * rewrite !length_app. cbn [List.length]. lia.
      * done.
      * rewrite E. intros r [Hin| ->%list_elem_of_singleton]%elem_of_app.
        -- destruct (Ho r Hin) as (o' & Hin' & ?). exists o'. split; [apply elem_of_app; by left|done].
        -- exists o. split; [apply elem_of_app; right; by left|done].
      * rewrite E, map_app. apply NoDup_app. split; [done|]. split; [|apply NoDup_singleton]. intros y Hy ->%list_elem_of_singleton. done.
      * intros Hz o' [Hin| ->%list_elem_of_singleton]%elem_of_app; rewrite E.
        -- destruct (Ha Hz o' Hin) as (r & w & Hr' & ?). exists r, w. split; [apply elem_of_app; by left|done].
        -- exists (evaluated_row proposal o v), (oe_verdict v). split; [apply elem_of_app; right; by left|done].
      * rewrite E, lcount_snoc, Hd. unfold dissents. cbn [op_challenger_verdict op_verdict evaluated_row].
        rewrite (bool_decide_ext (Some (oe_verdict v) = Some "insufficient_evidence") (oe_verdict v = "insufficient_evidence")) by (split; congruence). done.
      * eapply objectives_only_insert; [|by eapply objectives_only_runs|exact Ei]. done.
    + clear Er Hr Ee Ei. eapply evaluate_one_failed; done.
  - eapply evaluate_one_failed; done.
Qed.

Lemma evaluate_loop_inv proposal sys e0 os : forall seen a, loop_inv proposal seen e0 a ->
  loop_inv proposal (seen ++ os) e0 (fold_left (evaluate_one retrieve ask accepts dissent proposal sys) os a).
Proof.
  induction os as [|o os IH]; intros seen a H; cbn [fold_left]; [by rewrite app_nil_r|].
  rewrite (cons_middle o seen os), app_assoc. apply IH. by apply evaluate_one_inv.
Qed.

Lemma roll_up_known l f r : roll_up l f = Ok r -> 0 <= f /\ forall v, v ∈ l -> v ∈ OBJECTIVE_VERDICTS.
Proof.
  unfold roll_up. case_bool_decide as Hu; cbn [negb]; [|done]. destruct (Z.ltb_spec f 0); [done|]. intros _. split; [done|].
  intros v Hv. destruct (mem_spec v OBJECTIVE_VERDICTS) as [|Hn]; [done|]. exfalso.
  assert (v ∈ List.filter (fun v => negb (mem v OBJECTIVE_VERDICTS)) l) as Hin; [|rewrite Hu in Hin; by apply not_elem_of_nil in Hin].
  apply list_elem_of_In, filter_In. split; [by apply list_elem_of_In|]. by destruct (mem_spec v OBJECTIVE_VERDICTS).
Qed.

(** A control proposed satisfied has no verdict that says otherwise. *)
Lemma roll_up_satisfied l f r : roll_up l f = Ok r -> rl_finding r = "satisfied" -> f = 0 /\ forall v, v ∈ l -> v = "satisfied" \/ v = "not_applicable".
Proof.
  intros Hr Hs. destruct (roll_up_known _ _ _ Hr) as [Hf Hl]. destruct (roll_up_verdicts l f Hf Hl) as (r' & Hr' & Ef). rewrite Hr in Hr'. injection Hr' as <-.
  rewrite Hs in Ef. destruct (Z.eqb_spec f 0) as [->|]; cbn [negb orb] in Ef; [|done]. split; [done|]. intros v Hv. specialize (Hl v Hv).
  destruct (bool_decide (l = [])); [done|]. destruct (mem_spec "not_satisfied" l) as [|Hn]; [done|]. destruct (mem_spec "insufficient_evidence" l) as [|Hi]; [done|].
  apply elem_of_cons in Hl as [ ->|Hl]; [by left|]. apply elem_of_cons in Hl as [ ->|Hl]; [done|]. apply elem_of_cons in Hl as [ ->|Hl]; [by right|].
  by apply list_elem_of_singleton in Hl as ->.
Qed.

Lemma objectives_of_none i e : objectives_of i (put_objectives (others i e) e) = [].
Proof.
  unfold objectives_of, others. cbn [en_objectives put_objectives]. induction (en_objectives e) as [|o l IH]; [done|]. cbn [List.filter].
  destruct (op_control_proposal_id o =? i) eqn:E; cbn [negb]; [done|]. cbn [List.filter]. by rewrite E.
Qed.

Lemma evaluated_state max proposal e e' :
  evaluate_control_proposal retrieve ask accepts dissent max proposal e = Ok e' ->
  exists os r a, objectives_for max (en_catalog e) (cp_control_identifier proposal) = Ok os /\
    loop_inv proposal os (assign_proposal (cp_id proposal) set_evaluating e) a /\ roll_up (ea_verdicts a) (ea_failed a) = Ok r /\
    e' = assign_proposal (cp_id proposal) (set_evaluated (Z.of_nat (List.length os)) (Z.of_nat (List.length (ea_verdicts a))) (ea_dissent a) r) (ea_engine a).
Proof.
  unfold evaluate_control_proposal. set (e1 := assign_proposal _ _ e). change (List.filter _ (en_objectives e1)) with (others (cp_id proposal) e1). set (e2 := put_objectives _ e1).
  destruct (objectives_for _ _ _) as [os|] eqn:Eos; [|done]. cbn [res_bind]. set (a := fold_left _ os _).
  assert (H : loop_inv proposal os e1 a).
  { apply (evaluate_loop_inv proposal _ e1 os []). unfold e2. split; cbn [ea_verdicts ea_failed ea_dissent ea_engine]; rewrite ?objectives_of_none; try done.
    - intros w Hw. by apply not_elem_of_nil in Hw.
    - constructor.
    - intros _ o Ho. by apply not_elem_of_nil in Ho.
    - split; [|by eexists]. unfold others. cbn [en_objectives put_objectives]. induction (en_objectives e1) as [|o l IH]; [done|]. cbn [List.filter].
      destruct (negb (op_control_proposal_id o =? cp_id proposal)) eqn:E; [|done]. cbn [List.filter]. by rewrite E, IH. }
  destruct (roll_up _ _) as [r|] eqn:Er; [|done]. intros [= <-]. by exists os, r, a.
Qed.

(** C3: a proposal says what its objectives show. Evaluating a control leaves one row per
    label, each with the text of one of the catalog's objectives and that text's digest;
    the proposal becomes complete, counts the catalog's objectives, those evaluated and
    those contested, and carries the roll-up of exactly the verdicts stored. It is proposed
    satisfied only when every objective of the catalog has a row, under that digest, whose
    verdict is satisfied or not applicable: an objective that failed is not overlooked.
    No other proposal, no finding of record, no job and no POA&M changes. *)
Theorem proposal_says_what_its_objectives_show max proposal e e' :
  evaluate_control_proposal retrieve ask accepts dissent max proposal e = Ok e' ->
  exists os r, objectives_for max (en_catalog e) (cp_control_identifier proposal) = Ok os /\
    let rows := objectives_of (cp_id proposal) e' in
    let verdicts := omap op_verdict rows in
    let total := Z.of_nat (List.length os) in
    let evaluated := Z.of_nat (List.length verdicts) in
    NoDup (map op_label rows) /\
    (forall w, w ∈ rows -> exists o, o ∈ os /\ op_label w = ob_label o /\ op_objective_text w = ob_text o /\ op_objective_text_sha256 w = ob_text_sha256 o) /\
    evaluated <= total /\ roll_up verdicts (total - evaluated) = Ok r /\
    en_proposals e' = update_where (fun p => cp_id p =? cp_id proposal)
      (fun p => set_evaluated total evaluated (lcount (fun w => negb (bool_decide (op_challenger_verdict w = None)) && bool_decide (op_verdict w = Some "insufficient_evidence")) rows) r
                  (set_evaluating p)) (en_proposals e) /\
    (rl_finding r = "satisfied" ->
     forall o, o ∈ os -> exists w v, w ∈ rows /\ op_label w = ob_label o /\ op_objective_text_sha256 w = ob_text_sha256 o /\ op_verdict w = Some v /\
       (v = "satisfied" \/ v = "not_applicable")) /\
    others (cp_id proposal) e' = others (cp_id proposal) e /\
    en_results e' = en_results e /\ en_jobs e' = en_jobs e /\ en_targets e' = en_targets e /\ db_poams (en_db e') = db_poams (en_db e).
Proof.
  intros He. destruct (evaluated_state _ _ _ _ He) as (os & r & a & Eos & [Hv Hc Hf Ho Hl Ha Hd [Hot (l & Hr)]] & Er & ->). clear He.
  destruct (runs_only_keeps _ _ Hr) as (_ & Ep & _ & Eres & Ej & Et & Epo & _).
  exists os, r. split; [done|]. cbv zeta. change (objectives_of (cp_id proposal) (assign_proposal _ _ (ea_engine a))) with (objectives_of (cp_id proposal) (ea_engine a)).
  rewrite <-Hv. split_and!; [done|done|lia|by replace (_ - _) with (ea_failed a) by lia| | |exact Hot|exact Eres|exact Ej|exact Et|exact Epo].
  - rewrite <-Hd. unfold assign_proposal at 1. cbn [en_proposals put_proposals]. rewrite Ep. unfold assign_proposal, update_where. cbn [en_proposals put_proposals put_objectives].
    rewrite map_map. apply map_ext. intros p. destruct (cp_id p =? cp_id proposal) eqn:E; [|by rewrite E]. cbn [cp_id set_evaluating]. by rewrite E.
  - intros Hs o Hin. destruct (roll_up_satisfied _ _ _ Er Hs) as [Hz Hall]. destruct (Ha Hz o Hin) as (w & v & Hw & ? & ? & Ev). exists w, v. split_and!; [done..|].
    apply Hall. rewrite Hv. apply list_elem_of_omap. by exists w.
Qed.

End evaluation.

(** Fresh means: every stored objective is still in the catalog, word for word. *)
Lemma fresh_spec max p e e' : check_staleness max p e = Ok (false, e') ->
  e' = e /\ exists live, objectives_for max (en_catalog e) (cp_control_identifier p) = Ok live /\
    forall w, w ∈ objectives_of (cp_id p) e -> exists o, o ∈ live /\ ob_label o = op_label w /\ ob_text_sha256 o = op_objective_text_sha256 w.
Proof.
  unfold check_staleness. destruct (objectives_for _ _ _) as [live|]; [|done]. cbn [res_bind]. intros [= Es <-]. rewrite Es. split; [done|]. exists live. split; [done|].
  intros w Hw. assert (drifted live w = false) as Hd.
  { apply not_true_iff_false. intros Ht. rewrite <-not_true_iff_false in Es. apply Es, existsb_exists. exists w. split; [by apply list_elem_of_In|done]. }
  unfold drifted in Hd. destruct (List.find _ _) as [o|] eqn:Ef; [|done]. apply find_some in Ef as [Hin Hlab%bool_decide_eq_true_1].
  apply negb_false_iff, bool_decide_eq_true_1 in Hd. exists o. split; [|done]. apply elem_of_reverse. by apply list_elem_of_In.
Qed.

(** ** A worked example *)

Definition demo_row (id : Z) (identifier text : string) : CatalogRow :=
  {| cr_id := id; cr_identifier := identifier; cr_sequence_control := Some "AC-02"; cr_control_name := None; cr_assessment_objective := Some text;
     cr_ap_acronym := None; cr_source_row := Some id |}.
Definition demo_catalog : list CatalogRow :=
  [demo_row 3 "AC-02#row41" "accounts are reviewed"; demo_row 2 "AC-02a." "account types are defined"; demo_row 4 "AC-02a." "  ";
   {| cr_id := 1; cr_identifier := "AC-02"; cr_sequence_control := Some "AC-02"; cr_control_name := Some "Account Management"; cr_assessment_objective := None;
      cr_ap_acronym := None; cr_source_row := Some 1 |}].

(** The loader's row suffix never becomes a label. *)
Example demo_objectives : (map (fun o => (ob_label o, ob_text o, ob_sort_order o)) <$> match objectives_for 150 demo_catalog "AC-2(1)" with Ok l => Some l | Err _ => None end) =
  Some [("AC-02a.", "account types are defined", 0); ("AC-02b", "accounts are reviewed", 1)].
Proof. vm_compute. reflexivity. Qed.
Example demo_identifiers : map normalize_control_identifier ["AC-02"; "AC-2(10)"; " ac-002 "; "AC.L2-3.1.1"; "AC-00"] = ["AC-2"; "AC-2"; "ac-2"; "AC.L2-3.1.1"; "AC-0"].
Proof. vm_compute. reflexivity. Qed.

Definition demo_retrieve (_ : Z) (_ _ : string) (_ : option Z) : list RetrievedUnit :=
  [{| ru_unit_id := 7; ru_page_numbers := [3]; ru_section_path := Some "Accounts"; ru_content := "Types: user, admin." |}].
(** The reviewer is satisfied; the challenger is not, and cites the passage. *)
Definition demo_ask (purpose prompt : string) : res Answer :=
  Ok {| an_provider := "p"; an_model := "m";
        an_data := [("verdict", VStr (if bool_decide (purpose = "assessment.challenge_objective") then "not_satisfied" else "satisfied"));
                    ("cited_unit_ids", VList [VInt 7; VInt 7; VInt 99]); ("rationale", VStr "because"); ("confidence", VFloat (Fl 1 (-1)))] |}.
Definition demo_proposal : ControlProposal :=
  {| cp_id := 1; cp_organization_id := 5; cp_assessment_id := 9; cp_control_identifier := "AC-2"; cp_source_poam_id := None; cp_state := "draft";
     cp_proposed_finding := None; cp_rollup_rationale := None; cp_objectives_total := 0; cp_objectives_evaluated := 0; cp_dissent_count := 0; cp_error := None;
     cp_accepted_by := None; cp_accepted_at := None; cp_corrected_finding := None; cp_rejected_by := None; cp_rejected_at := None; cp_rejection_note := None |}.
Definition demo_db : Db :=
  {| db_seq := 20; db_waivers := []; db_connectors := []; db_captures := []; db_controls := []; db_webhooks := []; db_notify_url := ""; db_notify_min_severity := "";
     db_results := []; db_resources := []; db_tasks := []; db_poams := []; db_notifications := []; db_events := []; db_outbox := [] |}.
Definition demo_engine : Engine :=
  {| en_db := demo_db; en_systems := [(2, 5)]; en_assessments := [(9, 2)]; en_catalog := demo_catalog; en_proposals := [demo_proposal]; en_objectives := [];
     en_results := []; en_jobs := []; en_targets := []; en_runs := [] |}.
Definition demo_objective : Objective := objective_of "AC-02a." 0 "account types are defined".

Definition evaluated (dissent : bool) : res (ObjectiveEvaluation * Engine) :=
  evaluate_objective demo_retrieve demo_ask (fun _ => true) dissent 5 "AC-2" demo_objective (Some 2) demo_engine.

Lemma evaluation_rests_on_what_was_shown_witness :
  match evaluated true, evaluated false with
  | Ok (v, _), Ok (w, _) =>
      oe_verdict v = "insufficient_evidence" /\ oe_primary_verdict v = Some "satisfied" /\ oe_verdict w = "satisfied" /\ oe_cited_unit_ids v = [7] /\
      (forall i, i ∈ oe_cited_unit_ids v -> i ∈ oe_retrieved_unit_ids v)
  | _, _ => False
  end.
Proof.
  assert (Hv : match evaluated true with Ok (v, _) => (oe_verdict v, oe_primary_verdict v, oe_cited_unit_ids v) | Err _ => ("", None, []) end =
                ("insufficient_evidence", Some "satisfied", [7])) by (vm_compute; reflexivity).
  assert (Hw : match evaluated false with Ok (w, _) => oe_verdict w | Err _ => "" end = "satisfied") by (vm_compute; reflexivity).
  destruct (evaluated true) as [[v ev]|] eqn:Ev; [|discriminate]. destruct (evaluated false) as [[w ew]|] eqn:Ew; [|discriminate].
  destruct (evaluation_rests_on_what_was_shown _ _ _ _ _ _ _ _ _ _ _ Ev) as (_ & Hr & _ & Hin & _). injection Hv as Hv1 Hv2 Hv3.
  split_and!; [done..|]. intros i Hi. rewrite Hr. by apply Hin.
Defined.

(** Both objectives are contested, so the control is not proposed satisfied. *)
Lemma proposal_says_what_its_objectives_show_witness :
  match evaluate_control_proposal demo_retrieve demo_ask (fun _ => true) true 150 demo_proposal demo_engine with
  | Ok e' => map (fun p => (cp_state p, cp_proposed_finding p, cp_dissent_count p)) (en_proposals e') = [("complete", Some "insufficient_evidence", 2)] /\
             NoDup (map op_label (objectives_of 1 e'))
  | Err _ => False
  end.
Proof.
  assert (H : match evaluate_control_proposal demo_retrieve demo_ask (fun _ => true) true 150 demo_proposal demo_engine with
              | Ok e' => map (fun p => (cp_state p, cp_proposed_finding p, cp_dissent_count p)) (en_proposals e') | Err _ => [] end =
              [("complete", Some "insufficient_evidence", 2)]) by (vm_compute; reflexivity).
  destruct (evaluate_control_proposal _ _ _ _ _ _ _) as [e'|] eqn:E; [|discriminate]. split; [exact H|].
  destruct (proposal_says_what_its_objectives_show _ _ _ _ _ _ _ _ E) as (os & r & _ & Hnd & _). exact Hnd.
Defined.
