(* ===== verification/Adjudication.v ===== *)
(** The human gate of the assessment engine ([src/src/ccf/assessment/engine/service.py],
    [jobs.py], [calibration.py] and [api/routes/assessment_engine.py]): accepting and
    rejecting a proposal, the queue that evaluates them, the requests, and how often
    assessors agree.

    A handler's answer is the error response or its value; what an exception left behind
    is rolled back. The worker's turns are those of [Assessor] on the queue of [Queue],
    whose rows carry the proposal they are for in [en_targets]. *)

From S2P Require Import Hash Json Scanners SignIn.
From S2P Require Export Assessor.

Local Open Scope string_scope.
Local Open Scope Z_scope.

Definition CORRECTED_FINDINGS : list string := ["satisfied"; "other_than_satisfied"; "not_applicable"].
Definition OUTSTANDING_JOB_STATUSES : list string := ["pending"; "claimed"].
Definition ProposalError (m : string) : exn := Exn "ProposalError" m.
Definition AcceptanceRefused (m : string) : exn := Exn "AcceptanceRefused" m.
Definition RejectionRefused (m : string) : exn := Exn "RejectionRefused" m.

(** ** Proposals *)

Definition organization_of (assessment_id : Z) (e : Engine) : option Z :=
  sys ← system_of assessment_id e; snd <$> List.find (fun s => s.1 =? sys) (en_systems e).
Definition new_proposal (i org assessment_id : Z) (control_identifier : string) (source_poam_id : option Z) : ControlProposal :=
  {| cp_id := i; cp_organization_id := org; cp_assessment_id := assessment_id; cp_control_identifier := control_identifier; cp_source_poam_id := source_poam_id;
     cp_state := "draft"; cp_proposed_finding := None; cp_rollup_rationale := None; cp_objectives_total := 0; cp_objectives_evaluated := 0; cp_dissent_count := 0;
     cp_error := None; cp_accepted_by := None; cp_accepted_at := None; cp_corrected_finding := None; cp_rejected_by := None; cp_rejected_at := None; cp_rejection_note := None |}.
Definition add_proposal (org assessment_id : Z) (canonical : string) (source_poam_id : option Z) (e : Engine) : ControlProposal * Engine :=
  let '(i, e) := engine_id e in let p := new_proposal i org assessment_id canonical source_poam_id in (p, put_proposals (en_proposals e ++ [p])%list e).

Definition first_pass (k : Z * string) (p : ControlProposal) : bool :=
  (cp_assessment_id p =? k.1) && bool_decide (cp_control_identifier p = k.2) && bool_decide (cp_source_poam_id p = None).
Definition open_control_proposal (assessment_id : Z) (control_identifier : string) (e : Engine) : res (ControlProposal * Engine) :=
  match organization_of assessment_id e with
  | None => Err (ProposalError ("assessment " +:+ pretty assessment_id +:+ " not found"))
  | Some org =>
      let canonical := normalize_control_identifier control_identifier in
      let! existing := scalar_one_or_none (List.filter (first_pass (assessment_id, canonical)) (en_proposals e)) in
      Ok (match existing with Some p => (p, e) | None => add_proposal org assessment_id canonical None e end)
  end.
Definition from_poam (source_poam_id : Z) (p : ControlProposal) : bool := bool_decide (cp_source_poam_id p = Some source_poam_id).
Definition open_reevaluation_proposal (result : ControlResult) (source_poam_id : Z) (e : Engine) : res (ControlProposal * Engine) :=
  let! existing := scalar_one_or_none (List.filter (from_poam source_poam_id) (en_proposals e)) in
  match existing with
  | Some p => Ok (p, e)
  | None => match organization_of (ar_assessment_id result) e with
            | None => Err (ProposalError ("assessment " +:+ pretty (ar_assessment_id result) +:+ " not found"))
            | Some org => Ok (add_proposal org (ar_assessment_id result) (normalize_control_identifier (ar_control_id result)) (Some source_poam_id) e)
            end
  end.

(** ** Acceptance *)

Definition text_list (l : list string) : pyval := VList (map VStr l).
Definition or_none (o : option string) : pyval := match o with Some s => VStr s | None => VNone end.
Definition field_if {A} (present : bool) (k : string) (v : A) : list (string * A) := if present then [(k, v)] else [].
Definition objective_finding_record (o : ObjectiveProposal) : pyval :=
  VDict ([("label", VStr (op_label o)); ("text", VStr (op_objective_text o)); ("finding", VStr (str_or (or_empty (op_verdict o)) "not_assessed"))] ++
         field_if (str_truthy (or_empty (op_rationale o))) "rationale" (VStr (or_empty (op_rationale o))) ++
         field_if (negb (bool_decide (op_gaps o = []))) "gaps" (text_list (op_gaps o)) ++
         field_if (negb (bool_decide (op_contradictions o = []))) "contradictions" (text_list (op_contradictions o)) ++
         field_if (negb (bool_decide (op_cited_unit_ids o = []))) "cited_unit_ids" (VList (map VInt (op_cited_unit_ids o))) ++
         match op_primary_verdict o with
         | Some v => [("dissent", VDict [("primary_verdict", VStr v); ("challenger_verdict", or_none (op_challenger_verdict o));
                                         ("challenger_rationale", or_none (op_challenger_rationale o))])]
         | None => []
         end)%list.

Definition result_for (k : Z * string) (r : ControlResult) : bool := (ar_assessment_id r =? k.1) && bool_decide (ar_control_id r = k.2).
Definition new_result (i : Z) (k : Z * string) : ControlResult :=
  {| ar_id := i; ar_assessment_id := k.1; ar_control_id := k.2; ar_nist_id := None; ar_finding := "not_assessed"; ar_objective_findings := [];
     ar_assessor_note := None; ar_reviewed := false; ar_reviewer := None |}.
Definition set_finding (finding : string) (records : list pyval) (note : option string) (reviewer : string) (r : ControlResult) : ControlResult :=
  {| ar_id := ar_id r; ar_assessment_id := ar_assessment_id r; ar_control_id := ar_control_id r; ar_nist_id := Some (ar_control_id r); ar_finding := finding;
     ar_objective_findings := records; ar_assessor_note := note; ar_reviewed := true; ar_reviewer := Some reviewer |}.
(** The row of the control, found or new, with the finding written; [nist_id] holds sixteen
    characters. *)
Definition write_result (k : Z * string) (f : ControlResult -> ControlResult) (e : Engine) : res (ControlResult * Engine) :=
  let! existing := scalar_one_or_none (List.filter (result_for k) (en_results e)) in
  if 16 <? Z.of_nat (String.length k.2) then Err DataError else
  Ok (match existing with
      | Some r => (f r, put_results (update_where (result_for k) f (en_results e)) e)
      | None => let '(i, e) := engine_id e in let r := f (new_result i k) in (r, put_results (en_results e ++ [r])%list e)
      end).

Definition set_accepted (accepted_by : string) (now : Z) (p : ControlProposal) : ControlProposal :=
  {| cp_id := cp_id p; cp_organization_id := cp_organization_id p; cp_assessment_id := cp_assessment_id p; cp_control_identifier := cp_control_identifier p;
     cp_source_poam_id := cp_source_poam_id p; cp_state := "accepted"; cp_proposed_finding := cp_proposed_finding p; cp_rollup_rationale := cp_rollup_rationale p;
     cp_objectives_total := cp_objectives_total p; cp_objectives_evaluated := cp_objectives_evaluated p; cp_dissent_count := cp_dissent_count p; cp_error := cp_error p;
     cp_accepted_by := Some accepted_by; cp_accepted_at := Some now; cp_corrected_finding := cp_corrected_finding p; cp_rejected_by := cp_rejected_by p;
     cp_rejected_at := cp_rejected_at p; cp_rejection_note := cp_rejection_note p |}.
Definition set_rejected (rejected_by corrected_finding note : string) (now : Z) (p : ControlProposal) : ControlProposal :=
  {| cp_id := cp_id p; cp_organization_id := cp_organization_id p; cp_assessment_id := cp_assessment_id p; cp_control_identifier := cp_control_identifier p;
     cp_source_poam_id := cp_source_poam_id p; cp_state := "rejected"; cp_proposed_finding := cp_proposed_finding p; cp_rollup_rationale := cp_rollup_rationale p;
     cp_objectives_total := cp_objectives_total p; cp_objectives_evaluated := cp_objectives_evaluated p; cp_dissent_count := cp_dissent_count p; cp_error := cp_error p;
     cp_accepted_by := cp_accepted_by p; cp_accepted_at := cp_accepted_at p; cp_corrected_finding := Some corrected_finding; cp_rejected_by := Some rejected_by;
     cp_rejected_at := Some now; cp_rejection_note := Some note |}.
Definition set_failed (error : string) (p : ControlProposal) : ControlProposal :=
  {| cp_id := cp_id p; cp_organization_id := cp_organization_id p; cp_assessment_id := cp_assessment_id p; cp_control_identifier := cp_control_identifier p;
     cp_source_poam_id := cp_source_poam_id p; cp_state := "failed"; cp_proposed_finding := cp_proposed_finding p; cp_rollup_rationale := cp_rollup_rationale p;
     cp_objectives_total := cp_objectives_total p; cp_objectives_evaluated := cp_objectives_evaluated p; cp_dissent_count := cp_dissent_count p; cp_error := Some error;
     cp_accepted_by := cp_accepted_by p; cp_accepted_at := cp_accepted_at p; cp_corrected_finding := cp_corrected_finding p; cp_rejected_by := cp_rejected_by p;
     cp_rejected_at := cp_rejected_at p; cp_rejection_note := cp_rejection_note p |}.

(** The decision on every run behind the objectives. *)
Definition decide_run (reviewer disposition : string) (now : Z) (applied : bool) (r : AiRun) : AiRun :=
  {| run_id := run_id r; run_organization_id := run_organization_id r; run_action_key := run_action_key r; run_entity_id := run_entity_id r;
     run_provider := run_provider r; run_model := run_model r; run_input_hash := run_input_hash r; run_citations := run_citations r;
     run_mutation_applied := applied || run_mutation_applied r; run_reviewer := Some reviewer; run_disposition := Some disposition; run_decided_at := Some now |}.
Definition stamp_runs (reviewer disposition : string) (now : Z) (applied : bool) (objectives : list ObjectiveProposal) (e : Engine) : Engine :=
  put_runs (update_where (fun r => mem (run_id r) (omap op_ai_action_run_id objectives)) (decide_run reviewer disposition now applied) (en_runs e)) e.

Definition result_ref (r : ControlResult) : string := "assessment_control_result:" +:+ pretty (ar_id r).
Definition finding_poam (i system_id today : Z) (proposal : ControlProposal) (result : ControlResult) : POAM :=
  let due := today + default 90 (dget "moderate" SEVERITY_SLA_DAYS) in
  {| pm_id := i; pm_system_id := system_id; pm_control_id := None; pm_title := cp_control_identifier proposal +:+ " — other than satisfied";
     pm_weakness := Some (str_or (or_empty (cp_rollup_rationale proposal)) (cp_control_identifier proposal +:+ " assessed other than satisfied.")); pm_severity := "moderate";
     pm_status := "open"; pm_source := Some "assessment"; pm_remediation_plan := None; pm_plan_source := "analyst"; pm_identified_on := Some today; pm_due_on := Some due;
     pm_original_due_on := Some due; pm_source_ref := Some (result_ref result); pm_scanner := None; pm_finding_uid := None; pm_closed_on := None;
     pm_acceptance_rationale := None; pm_milestones := []; pm_details := no_details |}.
(** A failure of the savepoint leaves the tables as they were. *)
Definition ensure_poam_for_other_than_satisfied (proposal : ControlProposal) (result : ControlResult) (today : Z) (e : Engine) : Engine :=
  if negb (bool_decide (ar_finding result = "other_than_satisfied")) then e else
  match scalar_one_or_none (List.filter (fun p => bool_decide (pm_source_ref p = Some (result_ref result))) (db_poams (en_db e))), system_of (cp_assessment_id proposal) e with
  | Ok None, Some sys => let '(i, e) := engine_id e in put_en_db (set_poams (db_poams (en_db e) ++ [finding_poam i sys today proposal result])%list (en_db e)) e
  | _, _ => e
  end.

Definition sort_le (a b : ObjectiveProposal) : bool := op_sort_order a <=? op_sort_order b.
Definition sorted_objectives (i : Z) (e : Engine) : list ObjectiveProposal := stable_sort sort_le (objectives_of i e).

(** The guards of acceptance, on the state the staleness check leaves. *)
Definition acceptable (proposal_id : Z) (stale : bool) (p : ControlProposal) : res string :=
  let the := "control proposal " +:+ pretty proposal_id in
  if stale || bool_decide (cp_state p = "stale") then
    Err (AcceptanceRefused (the +:+ " is stale -- the catalog objective text changed since evaluation; re-evaluate before accepting"))
  else if negb (bool_decide (cp_state p = "complete")) then Err (AcceptanceRefused (the +:+ " is " +:+ repr_str (cp_state p) +:+ ", not complete"))
  else match cp_proposed_finding p with
       | None => Err (AcceptanceRefused (the +:+ " has no proposed finding"))
       | Some f => if bool_decide (f = "insufficient_evidence") then
                     Err (AcceptanceRefused (the +:+ " settled on insufficient_evidence -- the engine could not tell, which is not an acceptable finding"))
                   else Ok f
       end.
Definition accept_control_proposal (max_objectives proposal_id : Z) (accepted_by : string) (today now : Z) (e : Engine) : res (ControlResult * Engine) :=
  let! proposal := find_proposal proposal_id e in
  match proposal with
  | None => Err (ProposalError ("control proposal " +:+ pretty proposal_id +:+ " not found"))
  | Some p =>
      let! checked := check_staleness max_objectives p e in
      let '(stale, e) := checked in
      let! finding := acceptable proposal_id stale p in
      let objectives := sorted_objectives (cp_id p) e in
      let! w := write_result (cp_assessment_id p, cp_control_identifier p)
                  (set_finding finding (map objective_finding_record objectives) (cp_rollup_rationale p) accepted_by) e in
      let '(result, e) := w in
      let e := assign_proposal (cp_id p) (set_accepted accepted_by now) e in
      let e := stamp_runs accepted_by "accepted" now true objectives e in
      Ok (result, ensure_poam_for_other_than_satisfied p result today e)
  end.

Definition reject_control_proposal (proposal_id : Z) (rejected_by corrected_finding note : string) (now : Z) (e : Engine) : res (ControlProposal * Engine) :=
  let the := "control proposal " +:+ pretty proposal_id in
  let! proposal := find_proposal proposal_id e in
  match proposal with
  | None => Err (ProposalError (the +:+ " not found"))
  | Some p =>
      if bool_decide (cp_state p = "accepted") then Err (RejectionRefused (the +:+ " is already accepted and cannot be rejected"))
      else if bool_decide (cp_state p = "rejected") then Err (RejectionRefused (the +:+ " is already rejected"))
      else if negb (mem corrected_finding CORRECTED_FINDINGS) then
        Err (RejectionRefused ("corrected_finding " +:+ repr_str corrected_finding +:+ " is not a valid correction -- must be one of " +:+ repr_tuple CORRECTED_FINDINGS +:+
                               "; insufficient_evidence is proposal-only and cannot be asserted as a correction"))
      else if negb (str_truthy (strip note)) then Err (RejectionRefused (the +:+ " cannot be rejected without a note explaining why"))
      else
        let reject := set_rejected rejected_by corrected_finding note now in
        Ok (reject p, stamp_runs rejected_by "rejected" now false (objectives_of (cp_id p) e) (assign_proposal (cp_id p) reject e))
  end.

(** ** The queue ([jobs.py]) *)

Definition target_of (job_id : Z) (e : Engine) : option Z := snd <$> List.find (fun t => t.1 =? job_id) (en_targets e).
Definition outstanding (proposal_id : Z) (e : Engine) (j : Job) : bool :=
  bool_decide (target_of (jb_id j) e = Some proposal_id) && mem (jb_status j) OUTSTANDING_JOB_STATUSES.
Definition newest_job (l : list Job) : option Job := latest_of (fun a b => jb_id b <? jb_id a) l.
Definition new_job (i org now : Z) : Job :=
  {| jb_id := i; jb_organization_id := org; jb_status := "pending"; jb_attempts := 0; jb_claimed_at := None; jb_claimed_by := None; jb_last_error := None; jb_created_at := now |}.
Definition insert_job (p : ControlProposal) (now : Z) (e : Engine) : Job * Engine :=
  let '(i, e) := engine_id e in let j := new_job i (cp_organization_id p) now in
  (j, put_jobs (en_jobs e ++ [j])%list (en_targets e ++ [(i, cp_id p)])%list e).
(** The outstanding job of a proposal, or a new one. *)
Definition enqueue_for (p : ControlProposal) (now : Z) (e : Engine) : Job * Engine :=
  match newest_job (List.filter (outstanding (cp_id p) e) (en_jobs e)) with
  | Some j => (j, e)
  | None => insert_job p now e
  end.
Definition enqueue_control (assessment_id : Z) (control_identifier : string) (now : Z) (e : Engine) : res (Z * Job * Engine) :=
  let! opened := open_control_proposal assessment_id control_identifier e in
  let '(p, e) := opened in let '(j, e) := enqueue_for p now e in Ok (cp_id p, j, e).

Definition RESULT_PREFIX : string := "assessment_control_result:".
(** [source_ref.split(":", 1)[1]] of a reference that starts with the prefix. *)
Definition result_named (source_ref : string) (e : Engine) : res (option ControlResult) :=
  if negb (startswith RESULT_PREFIX source_ref) then Ok None else
  match py_int (str_drop (String.length RESULT_PREFIX) source_ref) with
  | Ok i => scalar_one_or_none (List.filter (fun r => ar_id r =? i) (en_results e))
  | Err _ => Ok None
  end.
Definition enqueue_reevaluation (poam_id : Z) (source_ref : string) (organization_id now : Z) (e : Engine) : res (option Job * Engine) :=
  let! named := result_named source_ref e in
  match named with
  | None => Ok (None, e)
  | Some result =>
      if negb (bool_decide (organization_of (ar_assessment_id result) e = Some organization_id)) then Ok (None, e) else
      let! opened := open_reevaluation_proposal result poam_id e in
      let '(p, e) := opened in let '(j, e) := enqueue_for p now e in Ok (Some j, e)
  end.

Section worker.
Context (retrieve : Z -> string -> string -> option Z -> list RetrievedUnit) (ask : string -> string -> res Answer) (accepts : AiRun -> bool)
        (dissent_enabled : bool) (max_objectives : Z).

(** The job's outcome and the tables, or the exception that failed it. *)
Definition drive_one (job_id : Z) (e : Engine) : res (outcome * Engine) :=
  let target := default 0 (target_of job_id e) in
  let! proposal := find_proposal target e in
  match proposal with
  | None => Ok (Failed (Some ("control proposal " +:+ pretty target +:+ " no longer exists")), e)
  | Some p => let! e := evaluate_control_proposal retrieve ask accepts dissent_enabled max_objectives p e in Ok (Done, e)
  end.
(** One claimed job: a failure is recorded on the job and on its proposal. *)
Definition run_job (e : Engine) (job_id : Z) : Engine :=
  match drive_one job_id e with
  | Ok (o, e) => put_jobs (settle o job_id (en_jobs e)) (en_targets e) e
  | Err x => let msg := truncate_last_error (exn_msg x) in
             assign_proposal (default 0 (target_of job_id e)) (set_failed msg) (put_jobs (settle (Failed (Some msg)) job_id (en_jobs e)) (en_targets e) e)
  end.
(** The claim, committed before any work, and the jobs it gave the worker; then one
    transaction per job. *)
Definition claim (worker : string) (limit now : Z) (e : Engine) : list Z * Engine :=
  let '(claimed, q) := claim_jobs worker limit now {| q_jobs := en_jobs e; q_open := [] |} in
  (map jb_id claimed, put_jobs (q_jobs q) (en_targets e) e).
Definition run_once (worker : string) (limit now : Z) (e : Engine) : Engine :=
  let '(job_ids, e) := claim worker limit now e in fold_left run_job job_ids e.
End worker.
Definition reap (stale_after_minutes max_attempts now : Z) (e : Engine) : Engine :=
  put_jobs (reap_stale_jobs stale_after_minutes max_attempts now (en_jobs e)).2 (en_targets e) e.

(** ** Requests ([api/routes/assessment_engine.py])

    Path and query parameters arrive within their bounds. *)

Definition answered (A : Type) : Type := res (Response + A) * Engine.
Definition refused {A} (status : Z) (detail : string) (e : Engine) : answered A := (Ok (inl (HTTPException status detail)), e).
(** The service's answer, committed, or its refusal as the status the route gives it. *)
Definition settled_as {A} (refusal : string) (m : res (A * Engine)) (e : Engine) : answered A :=
  match m with
  | Ok (a, e') => (Ok (inr a), e')
  | Err x => if bool_decide (exn_class x = refusal) then refused 409 (exn_msg x) e
             else if bool_decide (exn_class x = "ProposalError") then refused 404 (exn_msg x) e else (Err x, e)
  end.
Definition in_org (caller : Principal) (org : Z) : bool := bool_decide (pr_org_id caller = None) || bool_decide (pr_org_id caller = Some org).

(** A malformed body is answered 422 before the handler runs. *)
Definition create_proposal (caller : Principal) (assessment_id : Z) (control_identifier : string) (now : Z) (e : Engine) : answered (Z * Job) :=
  if negb ((1 <=? assessment_id) && (assessment_id <=? 2 ^ 31 - 1) && str_truthy control_identifier && (Z.of_nat (String.length control_identifier) <=? 64))
  then refused 422 "validation error" e else
  match organization_of assessment_id e with
  | Some org => if in_org caller org then
                  match enqueue_control assessment_id control_identifier now e with
                  | Ok (p, j, e') => (Ok (inr (p, j)), e')
                  | Err x => if bool_decide (exn_class x = "ProposalError") then refused 404 "assessment not found" e else (Err x, e)
                  end
                else refused 404 "assessment not found" e
  | None => refused 404 "assessment not found" e
  end.

Definition require_proposal (caller : Principal) (proposal_id : Z) (e : Engine) : res (Response + ControlProposal) :=
  let! row := find_proposal proposal_id e in
  Ok (match row with
      | Some p => if in_org caller (cp_organization_id p) then inr p else inl (HTTPException 404 "control proposal not found")
      | None => inl (HTTPException 404 "control proposal not found")
      end).
Definition with_proposal {A} (caller : Principal) (proposal_id : Z) (e : Engine) (k : ControlProposal -> answered A) : answered A :=
  match require_proposal caller proposal_id e with Err x => (Err x, e) | Ok (inl r) => (Ok (inl r), e) | Ok (inr p) => k p end.
Definition latest_job (proposal_id : Z) (e : Engine) : option Job :=
  newest_job (List.filter (fun j => bool_decide (target_of (jb_id j) e = Some proposal_id)) (en_jobs e)).
Definition proposal_detail (e : Engine) (p : ControlProposal) : ControlProposal * list ObjectiveProposal * option Job :=
  (p, sorted_objectives (cp_id p) e, latest_job (cp_id p) e).
Definition get_proposal (caller : Principal) (proposal_id : Z) (e : Engine) : answered (ControlProposal * list ObjectiveProposal * option Job) :=
  with_proposal caller proposal_id e (fun p => (Ok (inr (proposal_detail e p)), e)).
Definition poam_organization (poam_id : Z) (e : Engine) : option Z :=
  p ← List.find (fun p => pm_id p =? poam_id) (db_poams (en_db e)); snd <$> List.find (fun s => s.1 =? pm_system_id p) (en_systems e).
Definition proposal_id_le (a b : ControlProposal) : bool := cp_id a <=? cp_id b.
Definition list_reevaluation_proposals (caller : Principal) (source_poam_id : Z) (e : Engine) : answered (list (ControlProposal * list ObjectiveProposal * option Job)) :=
  match poam_organization source_poam_id e with
  | Some org => if in_org caller org then
                  (Ok (inr (map (proposal_detail e) (stable_sort proposal_id_le (List.filter (from_poam source_poam_id) (en_proposals e))))), e)
                else refused 404 "poam not found" e
  | None => refused 404 "poam not found" e
  end.
Definition accept_proposal (max_objectives : Z) (caller : Principal) (proposal_id today now : Z) (e : Engine) : answered ControlResult :=
  with_proposal caller proposal_id e (fun p => settled_as "AcceptanceRefused" (accept_control_proposal max_objectives (cp_id p) (pr_email caller) today now e) e).
Definition reject_proposal (caller : Principal) (proposal_id : Z) (corrected_finding note : string) (now : Z) (e : Engine) : answered ControlProposal :=
  if negb (str_truthy corrected_finding && (Z.of_nat (String.length corrected_finding) <=? 32) && str_truthy note) then refused 422 "validation error" e else
  with_proposal caller proposal_id e (fun p => settled_as "RejectionRefused" (reject_control_proposal (cp_id p) (pr_email caller) corrected_finding note now e) e).

(** ** Calibration ([calibration.py]) *)

(** [str.isalpha] below U+0100. *)
Definition is_alpha (c : ascii) : bool :=
  is_alpha_ascii c || let n := cp c in ((n =? 170) || (n =? 181) || (n =? 186) || ((192 <=? n) && negb (n =? 215) && negb (n =? 247)))%N.
Definition control_family (control_identifier : string) : string :=
  let canonical := normalize_control_identifier control_identifier in upper (str_or (take_while is_alpha canonical) canonical).

Record FamilyMetrics := { fm_decided : Z; fm_agreed : Z; fm_missed_findings : Z; fm_false_alarms : Z }.
Definition no_family : FamilyMetrics := {| fm_decided := 0; fm_agreed := 0; fm_missed_findings := 0; fm_false_alarms := 0 |}.
Record CalibrationMetrics := {
  cm_decided : Z; cm_agreed : Z; cm_agreement_rate : float; cm_missed_findings : Z; cm_false_alarms : Z; cm_other_disagreements : Z;
  cm_by_family : gmap string FamilyMetrics }.
Definition no_metrics : CalibrationMetrics :=
  {| cm_decided := 0; cm_agreed := 0; cm_agreement_rate := fl_zero; cm_missed_findings := 0; cm_false_alarms := 0; cm_other_disagreements := 0; cm_by_family := ∅ |}.

Definition agreed (p : ControlProposal) : bool := bool_decide (cp_state p = "accepted").
Definition missed (p : ControlProposal) : bool :=
  negb (agreed p) && bool_decide (cp_proposed_finding p = Some "satisfied") && bool_decide (cp_corrected_finding p = Some "other_than_satisfied").
Definition alarmed (p : ControlProposal) : bool :=
  negb (agreed p) && bool_decide (cp_proposed_finding p = Some "other_than_satisfied") && bool_decide (cp_corrected_finding p = Some "satisfied").
Definition one (b : bool) : Z := if b then 1 else 0.
Definition count_family (p : ControlProposal) (f : FamilyMetrics) : FamilyMetrics :=
  {| fm_decided := fm_decided f + 1; fm_agreed := fm_agreed f + one (agreed p); fm_missed_findings := fm_missed_findings f + one (missed p);
     fm_false_alarms := fm_false_alarms f + one (alarmed p) |}.
(** One row of the loop. *)
Definition count_decision (m : CalibrationMetrics) (p : ControlProposal) : CalibrationMetrics :=
  let family := control_family (cp_control_identifier p) in
  {| cm_decided := cm_decided m + 1; cm_agreed := cm_agreed m + one (agreed p); cm_agreement_rate := cm_agreement_rate m;
     cm_missed_findings := cm_missed_findings m + one (missed p); cm_false_alarms := cm_false_alarms m + one (alarmed p);
     cm_other_disagreements := cm_other_disagreements m + one (negb (agreed p || missed p || alarmed p));
     cm_by_family := <[family := count_family p (default no_family (cm_by_family m !! family))]> (cm_by_family m) |}.
Definition decided_in (organization_id : Z) (p : ControlProposal) : bool := (cp_organization_id p =? organization_id) && mem (cp_state p) ["accepted"; "rejected"].
Definition compute_metrics (organization_id : Z) (e : Engine) : CalibrationMetrics :=
  let m := fold_left count_decision (List.filter (decided_in organization_id) (en_proposals e)) no_metrics in
  {| cm_decided := cm_decided m; cm_agreed := cm_agreed m;
     cm_agreement_rate := if cm_decided m =? 0 then fl_zero else truediv (cm_agreed m) (cm_decided m);
     cm_missed_findings := cm_missed_findings m; cm_false_alarms := cm_false_alarms m; cm_other_disagreements := cm_other_disagreements m;
     cm_by_family := cm_by_family m |}.
Definition get_calibration (caller : Principal) (e : Engine) : answered (CalibrationMetrics * option float) :=
  match pr_org_id caller with
  | None => refused 400 "calibration requires an organization-scoped principal" e
  | Some org => let m := compute_metrics org e in (Ok (inr (m, if cm_decided m =? 0 then None else Some (cm_agreement_rate m))), e)
  end.

(** [json.dumps(payload, sort_keys=True)], digested. *)
Definition config_fingerprint (prep_screen_threshold : float) (model : option string) (dissent_enabled : bool) : string :=
  let field k v := json_str k +:+ ": " +:+ v in
  let text := "{" +:+ join ", " [field "assessment_dissent_enabled" (if dissent_enabled then "true" else "false");
                                 field "dissent_challenge_policy_version" (json_str DISSENT_CHALLENGE_POLICY_VERSION);
                                 field "model" (match model with Some m => json_str m | None => "null" end);
                                 field "prep_screen_threshold" (repr_float prep_screen_threshold);
                                 field "rollup_policy_version" (json_str ROLLUP_POLICY_VERSION)] +:+ "}" in
  hexdigest (sha256 (utf8 text)).

Record CalibrationSnapshot := { cs_id : Z; cs_organization_id : Z; cs_config_fingerprint : string; cs_metrics : CalibrationMetrics }.
Definition take_snapshot (i organization_id : Z) (prep_screen_threshold : float) (model : option string) (dissent_enabled : bool) (e : Engine) : CalibrationSnapshot :=
  {| cs_id := i; cs_organization_id := organization_id; cs_config_fingerprint := config_fingerprint prep_screen_threshold model dissent_enabled;
     cs_metrics := compute_metrics organization_id e |}.
Definition own_snapshot (i organization_id : Z) (snapshots : list CalibrationSnapshot) : option CalibrationSnapshot :=
  List.find (fun s => (cs_id s =? i) && (cs_organization_id s =? organization_id)) snapshots.
(** The two snapshots and whether they are comparable; an id unknown or foreign is an error. *)
Definition compare_snapshots (a_id b_id organization_id : Z) (snapshots : list CalibrationSnapshot) : res (bool * CalibrationSnapshot * CalibrationSnapshot) :=
  match own_snapshot a_id organization_id snapshots, own_snapshot b_id organization_id snapshots with
  | Some a, Some b => Ok (bool_decide (cs_config_fingerprint a = cs_config_fingerprint b), a, b)
  | a, b => Err (ValueError ("unknown calibration snapshot id(s): [" +:+
                   join ", " (map (fun x => pretty x.1) (List.filter (fun x => bool_decide (x.2 = None)) [(a_id, cs_id <$> a); (b_id, cs_id <$> b)])) +:+ "]"))
  end.

(** ** Lemmas *)

Lemma scalar_find {A} (p : A -> bool) l x : scalar_one_or_none (List.filter p l) = Ok (Some x) ->
  x ∈ l /\ p x = true /\ forall y, y ∈ l -> p y = true -> y = x.
Proof.
  intros E%scalar_Some. assert (Hin : forall y, y ∈ List.filter p l <-> y ∈ l /\ p y = true) by (intros y; by rewrite !list_elem_of_In, filter_In).
  rewrite E in Hin. destruct (proj1 (Hin x)) as [Hx Hp]; [by left|]. split_and!; [done..|]. intros y Hy Hpy. by apply list_elem_of_singleton, Hin.
Qed.

Lemma scalar_absent {A} (p : A -> bool) l : scalar_one_or_none (List.filter p l) = Ok None -> forall y, y ∈ l -> p y = false.
Proof.
  intros E%scalar_None y Hy. apply not_true_iff_false. intros Hp. assert (y ∈ List.filter p l) as Hin by (apply list_elem_of_In, filter_In; by rewrite <-list_elem_of_In).
  rewrite E in Hin. by apply not_elem_of_nil in Hin.
Qed.

Lemma update_outside {A} (p : A -> bool) (f : A -> A) l : (forall x, p x = true -> p (f x) = true) ->
  List.filter (fun x => negb (p x)) (update_where p f l) = List.filter (fun x => negb (p x)) l.
Proof.
  intros H. unfold update_where. induction l as [|x l IH]; [done|]. cbn [map List.filter]. destruct (p x) eqn:E; cbn [negb].
  - by rewrite (H x E).
  - by rewrite E, IH.
Qed.

(** A write at [k] leaves the other findings of record alone. *)
Lemma write_result_spec k f e r e' : (forall x, result_for k (f x) = result_for k x) -> write_result k f e = Ok (r, e') ->
  exists old l, r = f old /\ result_for k old = true /\ e' = put_results l (put_en_db (en_db e') e) /\ r ∈ l /\
    (old ∈ en_results e \/ old = new_result (ar_id old) k /\ forall x, x ∈ en_results e -> result_for k x = false) /\
    List.filter (fun x => negb (result_for k x)) l = List.filter (fun x => negb (result_for k x)) (en_results e) /\
    db_poams (en_db e') = db_poams (en_db e).
Proof.
  intros Hf. unfold write_result. destruct (scalar_one_or_none _) as [[old|]|] eqn:E; [..|done]; cbn [res_bind]; (destruct (16 <? _); [done|]).
  - destruct (scalar_find _ _ _ E) as (Hin & Hk & _). intros [= <- <-]. exists old, (update_where (result_for k) f (en_results e)).
    split_and!; [done|done|by destruct e|apply list_elem_of_fmap; exists old; by rewrite Hk|by left|apply update_outside; intros x Hx; by rewrite Hf|done].
  - unfold engine_id, next_id. intros [= <- <-]. eexists (new_result (db_seq (en_db e)) k), (en_results e ++ [f (new_result (db_seq (en_db e)) k)])%list.
    assert (Hk : result_for k (new_result (db_seq (en_db e)) k) = true) by (unfold result_for; cbn; by rewrite Z.eqb_refl, bool_decide_eq_true_2).
    split_and!; [done|done|done|apply elem_of_app; right; by left|right; split; [done|exact (scalar_absent _ _ E)]| |done].
    rewrite List.filter_app. cbn [List.filter]. rewrite Hf, Hk. cbn [negb]. by rewrite app_nil_r.
Qed.

Lemma result_for_set k finding rs note by_ x : result_for k (set_finding finding rs note by_ x) = result_for k x.
Proof. done. Qed.

Lemma bridge_poam_spec p r today e : let e' := ensure_poam_for_other_than_satisfied p r today e in
  exists new, e' = put_en_db (en_db e') e /\ db_poams (en_db e') = (db_poams (en_db e) ++ new)%list /\
    (forall q, q ∈ new -> ar_finding r = "other_than_satisfied" /\ pm_source_ref q = Some (result_ref r) /\ pm_status q = "open" /\ system_of (cp_assessment_id p) e = Some (pm_system_id q)) /\
    (ar_finding r = "other_than_satisfied" -> system_of (cp_assessment_id p) e <> None -> exists q, q ∈ db_poams (en_db e') /\ pm_source_ref q = Some (result_ref r)) /\
    (List.length new <= 1)%nat /\ ((exists q, q ∈ db_poams (en_db e) /\ pm_source_ref q = Some (result_ref r)) -> new = []).
Proof.
  unfold ensure_poam_for_other_than_satisfied. case_bool_decide as Hf; cbn [negb].
  2: { exists []. split_and!; [by destruct e|by rewrite app_nil_r|intros q Hq; by apply not_elem_of_nil in Hq|done|cbn; lia|done]. }
  set (hit := fun q => bool_decide (pm_source_ref q = Some (result_ref r))).
  destruct (scalar_one_or_none (List.filter hit (db_poams (en_db e)))) as [[q|]|] eqn:E.
  - destruct (scalar_find _ _ _ E) as (Hin & Hq & _). apply bool_decide_eq_true_1 in Hq.
    exists []. split_and!; [by destruct e|by rewrite app_nil_r|intros x Hx; by apply not_elem_of_nil in Hx|by exists q|cbn; lia|done].
  - pose proof (scalar_absent _ _ E) as Hno. destruct (system_of _ e) as [sys|] eqn:Es.
    + unfold engine_id, next_id. exists [finding_poam (db_seq (en_db e)) sys today p r]. cbn [en_db put_en_db db_poams set_poams ControlTests.set_seq]. split_and!; [done|done|..].
      * by intros q ->%list_elem_of_singleton.
      * intros _ _. eexists. split; [apply elem_of_app; right; by left|done].
      * cbn. lia.
      * intros (q & Hq & Hr). specialize (Hno q Hq). unfold hit in Hno. by apply bool_decide_eq_false_1 in Hno.
    + exists []. split_and!; [by destruct e|by rewrite app_nil_r|intros q Hq; by apply not_elem_of_nil in Hq|done|cbn; lia|done].
  - assert (exists q, q ∈ db_poams (en_db e) /\ pm_source_ref q = Some (result_ref r)) as Hex.
    { unfold scalar_one_or_none in E. destruct (List.filter hit _) as [|q l] eqn:El; [done|].
      assert (q ∈ List.filter hit (db_poams (en_db e))) as Hq by (rewrite El; by left). apply list_elem_of_In, filter_In in Hq as [Hq Hh].
      exists q. split; [by apply list_elem_of_In|by apply bool_decide_eq_true_1 in Hh]. }
    exists []. split_and!; [by destruct e|by rewrite app_nil_r|intros q Hq; by apply not_elem_of_nil in Hq|done|cbn; lia|done].
Qed.

Lemma acceptable_ok i stale p f : acceptable i stale p = Ok f ->
  stale = false /\ cp_state p = "complete" /\ cp_proposed_finding p = Some f /\ f <> "insufficient_evidence".
Proof.
  unfold acceptable. destruct (stale || _) eqn:E; [done|]. apply orb_false_iff in E as [-> _].
  case_bool_decide as Hc; [|done]. cbn [negb]. destruct (cp_proposed_finding p) as [g|]; [|done]. case_bool_decide; [done|]. by intros [= <-].
Qed.

(** C1: a finding of record is earned. Acceptance succeeds only on a proposal that is
    complete with a settled finding, none of whose stored objectives the catalog has moved:
    each is still there under its label, word for word. Then the result of the control in
    that assessment carries exactly the proposed finding, the reviewer's name and one
    record per objective in order; every other finding of record is untouched; the proposal
    is accepted, and only it. A POA&M is opened only for an other-than-satisfied finding, on
    the assessed system, at most one, and none when the result has one already; the POA&Ms
    there were stay. *)
Theorem acceptance_is_earned max proposal_id who today now e result e' :
  accept_control_proposal max proposal_id who today now e = Ok (result, e') ->
  exists p finding,
    find_proposal proposal_id e = Ok (Some p) /\ cp_state p = "complete" /\ cp_proposed_finding p = Some finding /\ finding <> "insufficient_evidence" /\
    (exists live, objectives_for max (en_catalog e) (cp_control_identifier p) = Ok live /\
       forall w, w ∈ objectives_of (cp_id p) e -> exists o, o ∈ live /\ ob_label o = op_label w /\ ob_text_sha256 o = op_objective_text_sha256 w) /\
    let k := (cp_assessment_id p, cp_control_identifier p) in
    let elsewhere := List.filter (fun r => negb (result_for k r)) in
    (result ∈ en_results e' /\ result_for k result = true /\ ar_finding result = finding /\ ar_reviewed result = true /\ ar_reviewer result = Some who /\
       ar_objective_findings result = map objective_finding_record (sorted_objectives (cp_id p) e)) /\
    elsewhere (en_results e') = elsewhere (en_results e) /\
    en_proposals e' = update_where (fun q => cp_id q =? cp_id p) (set_accepted who now) (en_proposals e) /\
    exists new, db_poams (en_db e') = (db_poams (en_db e) ++ new)%list /\ (List.length new <= 1)%nat /\
      (forall q, q ∈ new -> finding = "other_than_satisfied" /\ pm_source_ref q = Some (result_ref result) /\ system_of (cp_assessment_id p) e = Some (pm_system_id q)) /\
      ((exists q, q ∈ db_poams (en_db e) /\ pm_source_ref q = Some (result_ref result)) -> new = []) /\
      (finding = "other_than_satisfied" -> system_of (cp_assessment_id p) e <> None ->
       exists q, q ∈ db_poams (en_db e') /\ pm_source_ref q = Some (result_ref result)).
Proof.
  unfold accept_control_proposal. destruct (find_proposal _ _) as [[p|]|] eqn:Ep; [|done..]. cbn [res_bind].
  destruct (check_staleness _ _ _) as [[stale e1]|] eqn:Es; [|done]. cbn [res_bind]. destruct (acceptable _ _ _) as [finding|] eqn:Ea; [|done]. cbn [res_bind].
  apply acceptable_ok in Ea as (-> & Hc & Hp & Hne). apply fresh_spec in Es as (-> & Hfresh).
  destruct (write_result _ _ _) as [[r e2]|] eqn:Ew; [|done]. cbn [res_bind].
  destruct (write_result_spec _ _ _ _ _ (result_for_set _ _ _ _ _) Ew) as (old & l & -> & Hk & He2 & Hin & _ & Hout & Hpo). intros [= <- <-].
  set (e3 := stamp_runs _ _ _ _ _ _).
  destruct (bridge_poam_spec p (set_finding finding (map objective_finding_record (sorted_objectives (cp_id p) e)) (cp_rollup_rationale p) who old) today e3)
    as (new & He4 & Hnew & Hq & Hex & Hlen & Hold).
  assert (E3 : en_results e3 = l /\ en_proposals e3 = update_where (fun q => cp_id q =? cp_id p) (set_accepted who now) (en_proposals e) /\ db_poams (en_db e3) = db_poams (en_db e) /\
               system_of (cp_assessment_id p) e3 = system_of (cp_assessment_id p) e).
  { unfold e3. rewrite He2. done. }
  destruct E3 as (E3r & E3p & E3q & E3s). rewrite E3q in Hnew, Hold. rewrite E3s in Hq, Hex.
  exists p, finding. do 5 (split; [first [done|exact Hfresh]|]). cbv zeta. rewrite He4. cbn [en_results en_proposals put_en_db]. rewrite E3r, E3p. split_and!; [done..|].
  exists new. rewrite <-He4. split_and!; [exact Hnew|exact Hlen|intros q Hqn; by destruct (Hq q Hqn) as (? & ? & _ & ?)|exact Hold|exact Hex].
Qed.

(** ** The tables stay sound *)

Definition first_key (p : ControlProposal) : option (Z * string) :=
  match cp_source_poam_id p with None => Some (cp_assessment_id p, cp_control_identifier p) | Some _ => None end.
Definition objective_key (o : ObjectiveProposal) : Z * string := (op_control_proposal_id o, op_label o).
Definition result_key (r : ControlResult) : Z * string := (ar_assessment_id r, ar_control_id r).

Record engine_ok (e : Engine) : Prop := {
  eo_ids : NoDup (map cp_id (en_proposals e));
  eo_first : NoDup (omap first_key (en_proposals e));
  eo_source : NoDup (omap cp_source_poam_id (en_proposals e));
  eo_labels : NoDup (map objective_key (en_objectives e));
  eo_results : NoDup (map result_key (en_results e));
  eo_jobs : NoDup (map jb_id (en_jobs e));
  eo_one_job : forall i, lcount (outstanding i e) (en_jobs e) <= 1;
  eo_new : forall i, i ∈ map cp_id (en_proposals e) \/ i ∈ map jb_id (en_jobs e) \/ i ∈ map fst (en_targets e) -> i < db_seq (en_db e) }.

(** An update that keeps who a proposal is. *)
Definition same_proposal (f : ControlProposal -> ControlProposal) : Prop :=
  forall p, cp_id (f p) = cp_id p /\ first_key (f p) = first_key p /\ cp_source_poam_id (f p) = cp_source_poam_id p.

Lemma omap_update {A B} (g : A -> option B) p f l : (forall x, g (f x) = g x) -> omap g (update_where p f l) = omap g l.
Proof.
  intros H. unfold update_where. induction l as [|x l IH]; [done|]. cbn [map omap list_omap]. 
  assert (g (if p x then f x else x) = g x) as -> by by destruct (p x). destruct (g x); [f_equal|]; exact IH.
Qed.
Lemma map_update {A B} (g : A -> B) p f l : (forall x, g (f x) = g x) -> map g (update_where p f l) = map g l.
Proof. intros H. unfold update_where. rewrite map_map. apply map_ext. intros x. by destruct (p x). Qed.

(** Nothing the invariant reads has changed, but for the next id. *)
Lemma engine_ok_same e e' : engine_ok e ->
  map cp_id (en_proposals e') = map cp_id (en_proposals e) -> omap first_key (en_proposals e') = omap first_key (en_proposals e) ->
  omap cp_source_poam_id (en_proposals e') = omap cp_source_poam_id (en_proposals e) -> NoDup (map objective_key (en_objectives e')) ->
  NoDup (map result_key (en_results e')) -> en_jobs e' = en_jobs e -> en_targets e' = en_targets e -> db_seq (en_db e) <= db_seq (en_db e') -> engine_ok e'.
Proof.
  intros [] E1 E2 E3 E4 E5 E6 E7 E8. split; rewrite ?E1, ?E2, ?E3, ?E6, ?E7; try done.
  - intros i. unfold outstanding, target_of. rewrite E7. apply eo_one_job0.
  - intros i Hi. specialize (eo_new0 i Hi). lia.
Qed.

Lemma assign_ok i f e : same_proposal f -> engine_ok e -> engine_ok (assign_proposal i f e).
Proof.
  intros Hf H. unfold same_proposal in Hf. apply (engine_ok_same e); try done; cbn [assign_proposal put_proposals en_proposals en_objectives en_results].
  - apply map_update. intros p. apply Hf.
  - apply omap_update. intros p. apply Hf.
  - apply omap_update. intros p. apply Hf.
  - by destruct H.
  - by destruct H.
Qed.

Lemma stamp_ok who d now b os e : engine_ok e -> engine_ok (stamp_runs who d now b os e).
Proof. intros H. by destruct H. Qed.

Lemma labels_split i e :
  map objective_key (en_objectives e) ≡ₚ (map objective_key (objectives_of i e) ++ map objective_key (others i e))%list.
Proof.
  unfold objectives_of, others. rewrite <-map_app. apply Permutation_map. induction (en_objectives e) as [|o l IH]; [done|]. cbn [List.filter].
  destruct (op_control_proposal_id o =? i); cbn [negb]; [cbn [app]; by constructor|]. rewrite <-Permutation_middle. by constructor.
Qed.

Lemma labels_ok i e e' : NoDup (map objective_key (en_objectives e)) -> others i e' = others i e -> NoDup (map op_label (objectives_of i e')) ->
  NoDup (map objective_key (en_objectives e')).
Proof.
  intros H Ho Hl. rewrite (labels_split i) in H |- *. rewrite Ho. apply NoDup_app in H as (_ & _ & H). apply NoDup_app. split_and!; [..|done].
  - apply (NoDup_fmap_1 snd). rewrite <-list_fmap_compose. exact Hl.
  - intros k (o & -> & Hin)%list_elem_of_fmap (x & E & Hx)%list_elem_of_fmap.
    apply list_elem_of_In, filter_In in Hin as [_ Hin%Z.eqb_eq]. apply list_elem_of_In, filter_In in Hx as [_ Hx]. injection E as E _.
    rewrite <-E, Hin, Z.eqb_refl in Hx. done.
Qed.

Section soundness.
Context (retrieve : Z -> string -> string -> option Z -> list RetrievedUnit) (ask : string -> string -> res Answer) (accepts : AiRun -> bool)
        (dissent_enabled : bool) (max_objectives : Z).
Notation evaluate := (evaluate_control_proposal retrieve ask accepts dissent_enabled max_objectives).
Notation run_job := (run_job retrieve ask accepts dissent_enabled max_objectives).

Lemma evaluate_ok p e e' : evaluate p e = Ok e' -> engine_ok e -> engine_ok e' /\ en_results e' = en_results e /\ db_poams (en_db e') = db_poams (en_db e) /\
  en_jobs e' = en_jobs e /\ en_targets e' = en_targets e.
Proof.
  intros (os & r & a & _ & [_ _ _ _ Hl _ _ [Hot (l & Hr)]] & _ & ->)%evaluated_state H.
  destruct (runs_only_keeps _ _ Hr) as (_ & Ep & _ & Er & Ej & Et & Eq & Es). split; [|done]. apply assign_ok; [done|].
  assert (H1 : engine_ok (assign_proposal (cp_id p) set_evaluating e)) by by apply assign_ok. revert Hl Hot Ep Er Ej Et Es. generalize (ea_engine a). intros e2 Hl Hot Ep Er Ej Et Es.
  apply (engine_ok_same (assign_proposal (cp_id p) set_evaluating e)); rewrite ?Ep, ?Er, ?Ej, ?Et; try done.
  - eapply labels_ok; [|exact Hot|exact Hl]. by destruct H1.
  - by destruct H1.
Qed.

Lemma lcount_map_le {A B} (p : B -> bool) (q : A -> bool) g l : (forall x, x ∈ l -> p (g x) = true -> q x = true) -> lcount p (map g l) <= lcount q l.
Proof.
  intros H. induction l as [|x l IH]; [done|]. cbn [map]. rewrite !lcount_cons. specialize (IH (fun y Hy => H y (list_elem_of_further _ _ _ Hy))).
  specialize (H x (list_elem_of_here _ _)). destruct (p (g x)); [rewrite H by done|destruct (q x)]; lia.
Qed.

(** A job's rows may lose a mark of being outstanding, never gain one. *)
Lemma jobs_ok g e : (forall j, jb_id (g j) = jb_id j) -> (forall j, j ∈ en_jobs e -> mem (jb_status (g j)) OUTSTANDING_JOB_STATUSES = true -> mem (jb_status j) OUTSTANDING_JOB_STATUSES = true) ->
  engine_ok e -> engine_ok (put_jobs (map g (en_jobs e)) (en_targets e) e).
Proof.
  intros Hid Hst H. destruct H. split; cbn [en_proposals en_objectives en_results en_jobs en_targets en_db put_jobs]; rewrite ?(map_ids g) by done; try done.
  intros i. etrans; [|apply (eo_one_job0 i)]. apply lcount_map_le. intros j Hj. unfold outstanding, target_of. cbn [en_targets put_jobs]. rewrite Hid.
  intros [? ?]%andb_true_iff. apply andb_true_iff. split; [done|]. by apply Hst.
Qed.

Lemma settle_as o i jobs : settle o i jobs = map (fun j => if jb_id j =? i then settle_row o j else j) jobs.
Proof. done. Qed.

Lemma settle_ok o i e : o <> Yield -> engine_ok e -> engine_ok (put_jobs (settle o i (en_jobs e)) (en_targets e) e).
Proof.
  intros Ho. apply jobs_ok; [intros j; destruct (_ =? _); [|done]; by destruct o|]. intros j _. destruct (_ =? _); [|done]. by destruct o.
Qed.

Definition kept (e e' : Engine) : Prop := en_results e' = en_results e /\ db_poams (en_db e') = db_poams (en_db e).

Lemma run_job_ok e i : engine_ok e -> engine_ok (run_job e i) /\ kept e (run_job e i).
Proof.
  intros H. unfold run_job, drive_one. destruct (find_proposal _ _) as [[p|]|x]; cbn [res_bind].
  - destruct (evaluate_control_proposal _ _ _ _ _ _ _) as [e1|x] eqn:Ee; cbn [res_bind].
    + destruct (evaluate_ok _ _ _ Ee H) as (H1 & Er & Eq & _). split; [by apply settle_ok|done].
    + split; [|done]. apply assign_ok; [done|]. by apply settle_ok.
  - split; [|done]. by apply settle_ok.
  - split; [|done]. apply assign_ok; [done|]. by apply settle_ok.
Qed.

Lemma claim_ok w limit now e : engine_ok e -> engine_ok (claim w limit now e).2 /\ kept e (claim w limit now e).2.
Proof.
  intros H. unfold claim, claim_jobs. destruct (claim_select _ _) as [|i l] eqn:E.
  - cbn [map snd q_jobs]. split; [|done]. by destruct H.
  - cbn [snd q_jobs]. split; [|done].
    apply jobs_ok; [intros j; by destruct (mem _ _)| |done]. intros j Hj. destruct (mem_spec (jb_id j) (i :: l)) as [Hin|]; [|done]. intros _.
    rewrite <-E in Hin. destruct (claim_select_spec _ _ _ Hin) as (_ & k & Hk & Eid & Es). cbn [q_jobs] in Hk.
    rewrite (key_inj jb_id _ _ _ (eo_jobs _ H) Hj Hk (eq_sym Eid)), Es. done.
Qed.

Lemma reap_ok older cap now e : engine_ok e -> engine_ok (reap older cap now e).
Proof.
  intros H. unfold reap. rewrite reap_jobs. apply jobs_ok; [intros j; by destruct (reap_row_keeps older cap now j)| |done].
  intros j _. unfold reap_row, stale. case_bool_decide as Hs; cbn [andb]; [|done]. intros _. by rewrite Hs.
Qed.
End soundness.

Lemma first_pass_key k p : first_pass k p = bool_decide (first_key p = Some k).
Proof.
  unfold first_pass, first_key. destruct k as [a c]. cbn [fst snd]. destruct (cp_source_poam_id p); [rewrite andb_false_r; symmetry; by apply bool_decide_eq_false_2|].
  rewrite (bool_decide_eq_true_2 (None = None)), andb_true_r by done. destruct (Z.eqb_spec (cp_assessment_id p) a) as [Ha|Hne]; cbn [andb]; [subst a|].
  - apply bool_decide_ext. split; [by intros ->|by intros [= ->]].
  - symmetry. apply bool_decide_eq_false_2. congruence.
Qed.

Lemma add_proposal_ok org aid c src e : engine_ok e ->
  (forall p, p ∈ en_proposals e -> src = None -> first_pass (aid, c) p = false) -> (forall p s, p ∈ en_proposals e -> src = Some s -> from_poam s p = false) ->
  let '(p, e') := add_proposal org aid c src e in engine_ok e' /\ kept e e'.
Proof.
  intros [] Hf Hs. unfold add_proposal, engine_id, next_id. cbn. split; [|done]. split; cbn [en_proposals en_objectives en_results en_jobs en_targets en_db put_proposals put_en_db db_seq ControlTests.set_seq]; try done.
  - rewrite map_app. apply NoDup_app. split; [done|]. split; [|apply NoDup_singleton]. intros i Hi ->%list_elem_of_singleton. specialize (eo_new0 _ (or_introl Hi)). cbn in eo_new0. lia.
  - rewrite omap_app. cbn. destruct src as [s|]; [by rewrite app_nil_r|]. apply NoDup_app. split; [done|]. split; [|apply NoDup_singleton].
    intros k (p & Hp & Ek)%list_elem_of_omap ->%list_elem_of_singleton. specialize (Hf p Hp eq_refl). rewrite first_pass_key in Hf. by apply bool_decide_eq_false_1 in Hf.
  - rewrite omap_app. cbn. destruct src as [s|]; [|by rewrite app_nil_r]. apply NoDup_app. split; [done|]. split; [|apply NoDup_singleton].
    intros k (p & Hp & Ek)%list_elem_of_omap ->%list_elem_of_singleton. specialize (Hs p s Hp eq_refl). unfold from_poam in Hs. by apply bool_decide_eq_false_1 in Hs.
  - intros i. rewrite map_app. intros [[Hi| ->%list_elem_of_singleton]%elem_of_app|Hi]; [specialize (eo_new0 i (or_introl Hi)); lia|cbn; lia|specialize (eo_new0 i (or_intror Hi)); lia].
Qed.

Lemma open_first_ok aid ci e p e' : engine_ok e -> open_control_proposal aid ci e = Ok (p, e') -> engine_ok e' /\ kept e e'.
Proof.
  intros H. unfold open_control_proposal. destruct (organization_of aid e) as [org|]; [|done]. destruct (scalar_one_or_none _) as [[q|]|] eqn:E; [by intros [= _ <-]| |done].
  cbn [res_bind]. pose proof (scalar_absent _ _ E) as Hno.
  pose proof (add_proposal_ok org aid (normalize_control_identifier ci) None e H (fun p Hp _ => Hno p Hp) ltac:(done)) as Ha. intros [= <- <-]. exact Ha.
Qed.

Lemma open_again_ok r i e p e' : engine_ok e -> open_reevaluation_proposal r i e = Ok (p, e') -> engine_ok e' /\ kept e e'.
Proof.
  intros H. unfold open_reevaluation_proposal. destruct (scalar_one_or_none _) as [[q|]|] eqn:E; [by intros [= _ <-]| |done]. cbn [res_bind].
  destruct (organization_of _ e) as [org|]; [|done]. pose proof (scalar_absent _ _ E) as Hno.
  pose proof (add_proposal_ok org (ar_assessment_id r) (normalize_control_identifier (ar_control_id r)) (Some i) e H ltac:(done)) as Ha.
  intros [= <- <-]. apply Ha. intros q s Hq [= <-]. by apply Hno.
Qed.

Lemma newest_none l : newest_job l = None -> l = [].
Proof. by destruct l. Qed.

Lemma enqueue_ok p now e : engine_ok e -> let '(j, e') := enqueue_for p now e in
  engine_ok e' /\ kept e e' /\ j ∈ en_jobs e' /\ target_of (jb_id j) e' = Some (cp_id p) /\ mem (jb_status j) OUTSTANDING_JOB_STATUSES = true.
Proof.
  intros H. unfold enqueue_for. destruct (newest_job _) as [j|] eqn:E.
  - split; [done|]. split; [done|]. unfold newest_job in E. destruct (List.filter _ (en_jobs e)) as [|x l] eqn:El; [done|].
    assert (j ∈ List.filter (outstanding (cp_id p) e) (en_jobs e)) as Hin.
    { rewrite El. injection E as <-. refine (proj1 (latest_fold _ _ _ x l)); intros; lia. }
    apply list_elem_of_In, filter_In in Hin as [Hin [Ht Hs]%andb_true_iff]. apply bool_decide_eq_true_1 in Ht. split_and!; [by apply list_elem_of_In|done|done].
  - apply newest_none in E. unfold insert_job, engine_id, next_id. cbn. destruct H. set (n := db_seq (en_db e)).
    assert (Hfresh : forall q i, i < n -> List.find (fun t : Z * Z => t.1 =? i) (en_targets e ++ [(n, q)]) = List.find (fun t => t.1 =? i) (en_targets e)).
    { intros q i Hi. apply find_app_not. apply Z.eqb_neq. cbn. lia. }
    assert (Hnew : List.find (fun t : Z * Z => t.1 =? n) (en_targets e) = None).
    { destruct (List.find _ _) as [t|] eqn:Et; [|done]. exfalso. apply find_some in Et as [Ht%list_elem_of_In Et%Z.eqb_eq].
      assert (t.1 < n) by (apply eo_new0; right; right; by apply list_elem_of_fmap_2). lia. }
    split; [|split; [done|split_and!; [apply elem_of_app; right; by left| |done]]].
    2: { unfold target_of. cbn [en_targets put_jobs]. rewrite find_app_none by done. cbn [List.find fst]. by rewrite Z.eqb_refl. }
    split; cbn [en_proposals en_objectives en_results en_jobs en_targets en_db put_jobs put_en_db db_seq ControlTests.set_seq]; try done.
    + rewrite map_app. apply NoDup_app. split; [done|]. split; [|apply NoDup_singleton]. intros i Hi ->%list_elem_of_singleton.
      assert (n < n); [|lia]. apply eo_new0. right; by left.
    + intros i. rewrite lcount_snoc. set (e' := put_jobs _ _ _).
      assert (lcount (outstanding i e') (en_jobs e) = lcount (outstanding i e) (en_jobs e)) as ->.
      { apply lcount_ext. intros j Hj. unfold outstanding, target_of, e'. cbn [en_targets put_jobs]. rewrite Hfresh; [done|]. apply eo_new0. right; left. by apply list_elem_of_fmap_2. }
      unfold outstanding at 2. unfold target_of, e'. cbn [en_targets put_jobs jb_id new_job]. rewrite find_app_none by done. cbn [List.find fst]. rewrite Z.eqb_refl. cbn.
      case_bool_decide as Ei; [injection Ei as <-|]; cbn [andb]; [|specialize (eo_one_job0 i); lia].
      assert (lcount (outstanding (cp_id p) e) (en_jobs e) = 0) as ->; [|done]. apply lcount_none. intros j Hj. apply not_true_iff_false. intros Ho.
      assert (j ∈ List.filter (outstanding (cp_id p) e) (en_jobs e)) as Hin by (apply list_elem_of_In, filter_In; by rewrite <-list_elem_of_In). rewrite E in Hin. by apply not_elem_of_nil in Hin.
    + intros i. rewrite !map_app. intros Hi. assert (i < n \/ i = n); [|lia].
      destruct Hi as [Hi|[[Hi| ->%list_elem_of_singleton]%elem_of_app|[Hi| ->%list_elem_of_singleton]%elem_of_app]]; [left|left|by right|left|by right]; apply eo_new0; eauto.
Qed.

Lemma write_result_ok k f e r e' : (forall x, result_key (f x) = result_key x) -> engine_ok e -> write_result k f e = Ok (r, e') -> engine_ok e'.
Proof.
  intros Hf H. unfold write_result. destruct (scalar_one_or_none _) as [[old|]|] eqn:E; [..|done]; cbn [res_bind]; (destruct (16 <? _); [done|]).
  - intros [= _ <-]. apply (engine_ok_same e); try done; cbn [en_objectives en_results put_results]; [by destruct H|]. rewrite map_update by done. by destruct H.
  - unfold engine_id, next_id. intros [= _ <-]. pose proof (scalar_absent _ _ E) as Hno.
    apply (engine_ok_same e); try done; cbn [en_objectives en_results put_results put_en_db en_db db_seq ControlTests.set_seq]; [by destruct H| |lia].
    rewrite map_app. cbn [map]. rewrite Hf. apply NoDup_app. split; [by destruct H|]. split; [|apply NoDup_singleton].
    intros x (o & -> & Ho)%list_elem_of_fmap Ek%list_elem_of_singleton. specialize (Hno o Ho). unfold result_for in Hno. destruct k as [a c]. injection Ek as Ea Ec.
    cbn [fst snd] in Hno. by rewrite Ea, Ec, Z.eqb_refl, bool_decide_eq_true_2 in Hno.
Qed.

Lemma ensure_ok p r today e : engine_ok e -> engine_ok (ensure_poam_for_other_than_satisfied p r today e).
Proof.
  intros H. unfold ensure_poam_for_other_than_satisfied. destruct (negb _); [done|]. destruct (scalar_one_or_none _) as [[q|]|]; [done| |done].
  destruct (system_of _ e); [|done]. unfold engine_id, next_id. apply (engine_ok_same e); try done; [by destruct H..|]. cbn. lia.
Qed.

Lemma accept_ok max i who today now e r e' : engine_ok e -> accept_control_proposal max i who today now e = Ok (r, e') -> engine_ok e'.
Proof.
  intros H. unfold accept_control_proposal. destruct (find_proposal _ _) as [[p|]|]; [|done..]. cbn [res_bind].
  destruct (check_staleness _ _ _) as [[stale e1]|] eqn:Es; [|done]. cbn [res_bind]. destruct (acceptable _ _ _) as [finding|] eqn:Ea; [|done]. cbn [res_bind].
  apply acceptable_ok in Ea as (-> & _). apply fresh_spec in Es as (-> & _).
  destruct (write_result _ _ _) as [[w e2]|] eqn:Ew; [|done]. cbn [res_bind]. intros [= _ <-]. apply ensure_ok, stamp_ok, assign_ok; [done|].
  eapply write_result_ok; [|exact H|exact Ew]. done.
Qed.

Lemma reject_ok i who f note now e p e' : engine_ok e -> reject_control_proposal i who f note now e = Ok (p, e') -> engine_ok e' /\ kept e e'.
Proof.
  intros H. unfold reject_control_proposal. destruct (find_proposal _ _) as [[q|]|]; [|done..]. cbn [res_bind].
  repeat (match goal with |- context [if ?b then _ else _] => destruct b end; [done|]). intros [= _ <-]. split; [|done]. by apply stamp_ok, assign_ok.
Qed.

Lemma settled_ok {A} (R : Engine -> Engine -> Prop) refusal (m : res (A * Engine)) e : engine_ok e -> R e e -> (forall a e', m = Ok (a, e') -> engine_ok e' /\ R e e') ->
  engine_ok (settled_as refusal m e).2 /\ R e (settled_as refusal m e).2.
Proof.
  intros H HR Hm. unfold settled_as, refused. destruct m as [[a e']|x]; [by eapply Hm|]. destruct (bool_decide _); [done|]. by destruct (bool_decide _).
Qed.

Lemma with_ok {A} (R : Engine -> Engine -> Prop) caller i e (k : ControlProposal -> answered A) : engine_ok e -> R e e -> (forall p, engine_ok (k p).2 /\ R e (k p).2) ->
  engine_ok (with_proposal caller i e k).2 /\ R e (with_proposal caller i e k).2.
Proof. intros H HR Hk. unfold with_proposal. destruct (require_proposal _ _ _) as [[r|p]|x]; [done|apply Hk|done]. Qed.

Lemma kept_refl e : kept e e.
Proof. done. Qed.

Lemma create_ok caller aid ci now e : engine_ok e -> engine_ok (create_proposal caller aid ci now e).2 /\ kept e (create_proposal caller aid ci now e).2.
Proof.
  intros H. unfold create_proposal, refused. destruct (negb _); [done|]. destruct (organization_of aid e); [|done]. destruct (in_org _ _); [|done].
  unfold enqueue_control. destruct (open_control_proposal aid ci e) as [[p e1]|x] eqn:Eo; cbn [res_bind]; [|by destruct (bool_decide _)].
  destruct (open_first_ok _ _ _ _ _ H Eo) as [H1 [K1 K2]]. pose proof (enqueue_ok p now e1 H1) as H2. destruct (enqueue_for p now e1) as [j e2]. destruct H2 as (H2 & [K3 K4] & _).
  split; [done|]. split; cbn; by etrans.
Qed.

Lemma reevaluate_ok i ref org now e j e' : engine_ok e -> enqueue_reevaluation i ref org now e = Ok (j, e') -> engine_ok e' /\ kept e e'.
Proof.
  intros H. unfold enqueue_reevaluation. destruct (result_named ref e) as [[r|]|]; [|by intros [= _ <-]|done]. cbn [res_bind].
  destruct (negb _); [by intros [= _ <-]|]. destruct (open_reevaluation_proposal r i e) as [[p e1]|] eqn:Eo; [|done]. cbn [res_bind].
  destruct (open_again_ok _ _ _ _ _ H Eo) as [H1 [K1 K2]]. pose proof (enqueue_ok p now e1 H1) as H2. destruct (enqueue_for p now e1) as [k e2]. destruct H2 as (H2 & [K3 K4] & _).
  intros [= _ <-]. split; [done|]. split; by etrans.
Qed.

(** What the rest of the program may do between two steps: findings of record are seeded
    and edited under the unique constraint of their table; a deletion takes proposals with
    their objectives, and jobs, away; the catalog, the POA&Ms, systems, assessments and AI
    runs change at will. No other part of the program writes proposals or jobs. *)
Definition elsewhere (e e' : Engine) : Prop :=
  (exists keeps_proposal keeps_job : Z -> bool,
     en_proposals e' = List.filter (fun p => keeps_proposal (cp_id p)) (en_proposals e) /\
     en_objectives e' = List.filter (fun o => keeps_proposal (op_control_proposal_id o)) (en_objectives e) /\
     en_jobs e' = List.filter (fun j => keeps_job (jb_id j)) (en_jobs e) /\
     en_targets e' = List.filter (fun t => keeps_job t.1) (en_targets e)) /\
  NoDup (map result_key (en_results e')) /\ db_seq (en_db e) <= db_seq (en_db e').

Lemma filter_sub {A} (f : A -> bool) (l : list A) : List.filter f l `sublist_of` l.
Proof. induction l as [|x l IH]; [done|]. cbn [List.filter]. destruct (f x); by constructor. Qed.
Lemma omap_sub {A B} (g : A -> option B) l k : l `sublist_of` k -> omap g l `sublist_of` omap g k.
Proof. induction 1 as [|x l k _ IH|x l k _ IH]; [done|cbn; destruct (g x); [by constructor|exact IH]|]. cbn. destruct (g x); [by constructor|exact IH]. Qed.
Lemma find_kept (keeps : Z -> bool) i (l : list (Z * Z)) : keeps i = true ->
  List.find (fun t => t.1 =? i) (List.filter (fun t => keeps t.1) l) = List.find (fun t => t.1 =? i) l.
Proof.
  intros Hk. induction l as [|t l IH]; [done|]. cbn [List.filter List.find]. destruct (Z.eqb_spec t.1 i) as [E|E].
  - rewrite E, Hk. cbn [List.find]. by rewrite E, Z.eqb_refl.
  - destruct (keeps t.1); [cbn [List.find]; by rewrite (proj2 (Z.eqb_neq t.1 i))|exact IH].
Qed.
Lemma elsewhere_ok e e' : elsewhere e e' -> engine_ok e -> engine_ok e'.
Proof.
  intros ((kp & kj & Ep & Eo & Ej & Et) & Hr & Hs) [].
  assert (Hin : forall {A B} (g : A -> B) (f : A -> bool) l x, x ∈ map g (List.filter f l) -> x ∈ map g l).
  { intros A B g f l x Hx. eapply elem_of_sublist; [exact Hx|]. apply fmap_sublist, filter_sub. }
  split; rewrite ?Ep, ?Eo, ?Ej, ?Et; try done.
  - eapply sublist_NoDup; [exact eo_ids0|]. apply fmap_sublist, filter_sub.
  - eapply sublist_NoDup; [exact eo_first0|]. apply omap_sub, filter_sub.
  - eapply sublist_NoDup; [exact eo_source0|]. apply omap_sub, filter_sub.
  - eapply sublist_NoDup; [exact eo_labels0|]. apply fmap_sublist, filter_sub.
  - eapply sublist_NoDup; [exact eo_jobs0|]. apply fmap_sublist, filter_sub.
  - intros i. etrans; [|apply (eo_one_job0 i)]. clear -Et. induction (en_jobs e) as [|j l IH]; [done|]. cbn [List.filter]. destruct (kj (jb_id j)) eqn:Ek; rewrite ?lcount_cons.
    + assert (outstanding i e' j = outstanding i e j) as ->; [|lia]. unfold outstanding, target_of. by rewrite Et, find_kept.
    + destruct (outstanding i e j); lia.
  - intros i Hi. assert (i < db_seq (en_db e)); [|lia]. apply eo_new0. destruct Hi as [Hi|[Hi|Hi]]; [left|right; left|right; right]; by eapply Hin.
Qed.

Inductive elabel := ERequest | EAccept | EWorker | EElsewhere.
Section run.
Context (retrieve : Z -> string -> string -> option Z -> list RetrievedUnit) (ask : string -> string -> res Answer) (accepts : AiRun -> bool)
        (dissent_enabled : bool) (max_objectives : Z).
(** One committed transaction: a request, a worker's claim, one job a worker has claimed at
    some earlier time, a reaping, or something elsewhere. *)
Inductive estep : Engine -> elabel -> Engine -> Prop :=
| e_create caller aid ci now e : estep e ERequest (create_proposal caller aid ci now e).2
| e_reject caller i f note now e : estep e ERequest (reject_proposal caller i f note now e).2
| e_reevaluate i ref org now e j e' : enqueue_reevaluation i ref org now e = Ok (j, e') -> estep e ERequest e'
| e_accept caller i today now e : estep e EAccept (accept_proposal max_objectives caller i today now e).2
| e_claim w limit now e : estep e EWorker (claim w limit now e).2
| e_job job_id e : estep e EWorker (run_job retrieve ask accepts dissent_enabled max_objectives e job_id)
| e_reap older cap now e : estep e EWorker (reap older cap now e)
| e_elsewhere e e' : elsewhere e e' -> estep e EElsewhere e'.
Inductive erun : Engine -> list elabel -> Engine -> Prop :=
| erun_nil e : erun e [] e
| erun_snoc e ls e1 l e2 : erun e ls e1 -> estep e1 l e2 -> erun e (ls ++ [l]) e2.

Lemma estep_ok e l e' : estep e l e' -> engine_ok e ->
  engine_ok e' /\ (l <> EAccept -> l <> EElsewhere -> kept e e').
Proof.
  assert (Hk : forall e l e', engine_ok e' /\ kept e e' -> engine_ok e' /\ (l <> EAccept -> l <> EElsewhere -> kept e e')) by (intros ? ? ? [? ?]; done).
  intros Hs H. destruct Hs.
  - apply Hk. by apply create_ok.
  - apply Hk. unfold reject_proposal. destruct (negb _); [done|]. apply with_ok; [done..|]. intros p. apply settled_ok; [done..|]. intros a e' E. by eapply reject_ok.
  - apply Hk. by eapply reevaluate_ok.
  - split; [|done]. unfold accept_proposal. eapply (with_ok (fun _ _ => True)); [done..|]. intros p. apply (settled_ok (fun _ _ => True)); [done..|]. intros a e' E.
    split; [by eapply accept_ok|done].
  - apply Hk. by apply claim_ok.
  - apply Hk. by apply run_job_ok.
  - apply Hk. split; [by apply reap_ok|done].
  - split; [by eapply elsewhere_ok|done].
Qed.
Lemma erun_app e ls e1 ls' e2 : erun e ls e1 -> erun e1 ls' e2 -> erun e (ls ++ ls') e2.
Proof. intros H. induction 1 as [|e1 ls' e2 l e3 _ IH Hs]; [by rewrite app_nil_r|]. rewrite app_assoc. by eapply erun_snoc; [apply IH|]. Qed.
(** A worker's pass, undisturbed, is its claim and then its jobs. *)
Lemma pass_runs w limit now e : exists ls, EAccept ∉ ls /\ EElsewhere ∉ ls /\ erun e ls (run_once retrieve ask accepts dissent_enabled max_objectives w limit now e).
Proof.
  unfold run_once. pose proof (e_claim w limit now e) as Hc. destruct (claim w limit now e) as [ids e1]. cbn [snd] in Hc.
  assert (Hj : forall l d, exists ls, EAccept ∉ ls /\ EElsewhere ∉ ls /\ erun d ls (fold_left (run_job retrieve ask accepts dissent_enabled max_objectives) l d)).
  { intros l. induction l as [|i l IH]; intros d; [exists []; split; [by apply not_elem_of_nil|split; [by apply not_elem_of_nil|constructor]]|]. cbn [fold_left].
    destruct (IH (run_job retrieve ask accepts dissent_enabled max_objectives d i)) as (ls & Ha & He & Hr). exists ([EWorker] ++ ls)%list. rewrite !not_elem_of_app, !list_elem_of_singleton.
    split; [done|]. split; [done|]. eapply erun_app; [|exact Hr]. apply (erun_snoc _ [] d); constructor. }
  destruct (Hj ids e1) as (ls & Ha & He & Hr). exists ([EWorker] ++ ls)%list. rewrite !not_elem_of_app, !list_elem_of_singleton. split; [done|]. split; [done|].
  eapply erun_app; [|exact Hr]. apply (erun_snoc _ [] e); [constructor|done].
Qed.

(** C2: the tables of the assessment engine stay sound. Requests, the claims of workers,
    each job they have claimed, reaping and what is done elsewhere may follow one another in
    any order, each of them one committed transaction that sees what those before it
    committed; elsewhere the findings of record are edited too, and proposals deleted.
    Throughout, proposals keep distinct ids; a control of an assessment has at most one
    first-pass proposal and a POA&M at most one re-evaluation; a proposal has one row per
    objective label, an assessment one finding of record per control, and a proposal at most
    one outstanding job. Of the engine's own transactions only an acceptance touches the
    findings of record and the POA&Ms. The last of the counts is kept by no constraint: two
    transactions that look for an outstanding job at once both insert one
    ([requests_at_once_queue_twice]). *)
Theorem engine_stays_sound e ls e' :
  erun e ls e' -> engine_ok e -> engine_ok e' /\ (EAccept ∉ ls -> EElsewhere ∉ ls -> kept e e').
Proof.
  induction 1 as [e|e ls e1 l e2 Hr IH Hs]; intros H; [done|]. destruct (IH H) as (H1 & K1). destruct (estep_ok _ _ _ Hs H1) as (H2 & K2).
  split; [done|]. rewrite !not_elem_of_app, !list_elem_of_singleton. intros [Ha Hl] [Hb Hm]. destruct (K1 Ha Hb) as [E1 E2], (K2 ltac:(congruence) ltac:(congruence)) as [E3 E4].
  split; by etrans.
Qed.
End run.

(** ** Calibration *)

Definition in_family (f : string) (p : ControlProposal) : bool := bool_decide (control_family (cp_control_identifier p) = f).
(** What a family's entry should hold. *)
Definition family_counts (f : string) (rows : list ControlProposal) : FamilyMetrics :=
  {| fm_decided := lcount (in_family f) rows; fm_agreed := lcount (fun p => in_family f p && agreed p) rows;
     fm_missed_findings := lcount (fun p => in_family f p && missed p) rows; fm_false_alarms := lcount (fun p => in_family f p && alarmed p) rows |}.
Definition metrics_count (rows : list ControlProposal) (m : CalibrationMetrics) : Prop :=
  cm_decided m = Z.of_nat (List.length rows) /\ cm_agreed m = lcount agreed rows /\ cm_missed_findings m = lcount missed rows /\
  cm_false_alarms m = lcount alarmed rows /\ cm_other_disagreements m = lcount (fun p => negb (agreed p || missed p || alarmed p)) rows /\
  forall f, cm_by_family m !! f = if existsb (in_family f) rows then Some (family_counts f rows) else None.

Lemma family_snoc f rows p : family_counts f (rows ++ [p]) = if in_family f p then count_family p (family_counts f rows) else family_counts f rows.
Proof.
  unfold family_counts, count_family, one. rewrite !lcount_snoc. destruct (in_family f p); cbn [andb fm_decided fm_agreed fm_missed_findings fm_false_alarms]; f_equal; lia.
Qed.

Lemma family_none f rows : existsb (in_family f) rows = false -> family_counts f rows = no_family.
Proof.
  intros E. assert (Hn : forall p, p ∈ rows -> in_family f p = false).
  { intros p Hp. apply not_true_iff_false. intros Ht. assert (existsb (in_family f) rows = true) as E'; [|congruence]. apply existsb_exists. exists p. by rewrite <-list_elem_of_In. }
  unfold family_counts, no_family. rewrite !lcount_none; [done|intros p Hp; by rewrite (Hn p Hp)..].
Qed.

Lemma count_decision_spec rows m p : metrics_count rows m -> metrics_count (rows ++ [p]) (count_decision m p).
Proof.
  intros (H1 & H2 & H3 & H4 & H5 & H6). unfold metrics_count. rewrite !lcount_snoc, length_app. cbn [cm_decided cm_agreed cm_missed_findings cm_false_alarms cm_other_disagreements cm_by_family count_decision List.length].
  split_and!; [lia|unfold one; lia..|]. intros f. rewrite existsb_app, family_snoc. cbn [existsb]. rewrite orb_false_r. unfold in_family at 2 3. case_bool_decide as Hf.
  - subst f. rewrite lookup_insert_eq, orb_true_r, H6. destruct (existsb _ rows) eqn:E; cbn [default]; [done|]. by rewrite (family_none _ _ E).
  - rewrite lookup_insert_ne by done. by rewrite orb_false_r, H6.
Qed.

Lemma count_all_spec l : forall rows m, metrics_count rows m -> metrics_count (rows ++ l) (fold_left count_decision l m).
Proof.
  induction l as [|p l IH]; intros rows m H; cbn [fold_left]; [by rewrite app_nil_r|]. rewrite (cons_middle p rows l), app_assoc. apply IH. by apply count_decision_spec.
Qed.

(** calibration accounts for every decision, once, and for nobody else's. Over the
    organization's own proposals that are accepted or rejected, whatever other
    organizations have: decided is their number and splits into agreements, missed
    findings, false alarms and other disagreements; a family appears exactly when one of
    them is in it, with the counts of those; and the rate shown is agreed over decided, or
    none when nothing was decided. *)
Theorem calibration_accounts caller e :
  (forall org, pr_org_id caller = Some org ->
   let rows := List.filter (decided_in org) (en_proposals e) in
   exists m, get_calibration caller e = (Ok (inr (m, if bool_decide (rows = []) then None else Some (truediv (cm_agreed m) (cm_decided m)))), e) /\
     metrics_count rows m /\ cm_decided m = cm_agreed m + cm_missed_findings m + cm_false_alarms m + cm_other_disagreements m) /\
  (pr_org_id caller = None -> exists r, get_calibration caller e = (Ok (inl r), e) /\ rs_status r = 400) /\
  (forall org e', List.filter (fun p => cp_organization_id p =? org) (en_proposals e') = List.filter (fun p => cp_organization_id p =? org) (en_proposals e) ->
   compute_metrics org e' = compute_metrics org e).
Proof.
  split_and!.
  - intros org Ho. cbv zeta. unfold get_calibration. rewrite Ho. set (rows := List.filter _ _).
    assert (H : metrics_count rows (fold_left count_decision rows no_metrics)) by (apply (count_all_spec rows [] no_metrics); split_and!; try done; intros f; apply lookup_empty).
    exists (compute_metrics org e). unfold compute_metrics. fold rows. destruct H as (H1 & H2 & H3 & H4 & H5 & H6). cbn [cm_decided cm_agreed cm_agreement_rate cm_missed_findings cm_false_alarms cm_other_disagreements].
    split; [|split; [done|]].
    + rewrite H1. destruct rows as [|p rows]; [done|]. rewrite bool_decide_eq_false_2 by done. by rewrite (proj2 (Z.eqb_neq (Z.of_nat (List.length (p :: rows))) 0)) by (cbn [List.length]; lia).
    + rewrite H1, H2, H3, H4, H5. clear. induction rows as [|p rows IH]; [done|]. rewrite !lcount_cons. cbn [List.length]. unfold missed, alarmed in *.
      destruct (agreed p); cbn [negb andb orb]; [lia|]. repeat case_bool_decide; cbn [andb orb negb]; try lia; congruence.
  - intros Ho. unfold get_calibration. rewrite Ho. by eexists.
  - intros org e' E. unfold compute_metrics. assert (List.filter (decided_in org) (en_proposals e') = List.filter (decided_in org) (en_proposals e)) as ->; [|done].
    assert (Hf : forall l, List.filter (decided_in org) l = List.filter (fun p => mem (cp_state p) ["accepted"; "rejected"]) (List.filter (fun p => cp_organization_id p =? org) l)).
    { intros l. induction l as [|p l IH]; [done|]. cbn [List.filter]. unfold decided_in at 1. destruct (_ =? org); cbn [andb List.filter]; [|done]. by destruct (mem _ _); rewrite IH. }
    by rewrite !Hf, E.
Qed.

(** ** A worked example *)

Definition accepts_all (_ : AiRun) : bool := true.
(** The control of [demo_engine], evaluated without challenges: satisfied, and complete. *)
Definition assessed : res Engine := evaluate_control_proposal demo_retrieve demo_ask accepts_all false 150 demo_proposal demo_engine.
Definition result_view (r : ControlResult) : string * string * option string * Z := (ar_control_id r, ar_finding r, ar_reviewer r, Z.of_nat (List.length (ar_objective_findings r))).

Lemma acceptance_is_earned_witness :
  match assessed with
  | Ok e => match accept_control_proposal 150 1 "alice" 20000 7 e with
            | Ok (r, e') => result_view r = ("AC-2", "satisfied", Some "alice", 2) /\ r ∈ en_results e' /\ map cp_state (en_proposals e') = ["accepted"] /\ db_poams (en_db e') = []
            | Err _ => False
            end
  | Err _ => False
  end.
Proof.
  assert (Hs : match assessed with Ok e => match accept_control_proposal 150 1 "alice" 20000 7 e with
                 | Ok (r, e') => (result_view r, map cp_state (en_proposals e'), db_poams (en_db e')) | Err _ => (("", "", None, 0), [], []) end | Err _ => (("", "", None, 0), [], []) end =
               (("AC-2", "satisfied", Some "alice", 2), ["accepted"], [])) by (vm_compute; reflexivity).
  destruct assessed as [e|]; [|discriminate]. destruct (accept_control_proposal 150 1 "alice" 20000 7 e) as [[r e']|] eqn:E; [|discriminate]. injection Hs as H1 H2 H3 H4 H5 H6.
  destruct (acceptance_is_earned _ _ _ _ _ _ _ _ E) as (p & f & _ & _ & _ & _ & _ & (Hin & _) & _). split; [|done].
  unfold result_view. rewrite H1, H2, H3, H4. done.
Defined.

Definition assessor : Principal := {| pr_user_id := Some 3; pr_email := "alice"; pr_org_id := Some 5; pr_role := "analyst" |}.
Definition opened : Engine := (create_proposal assessor 9 "AC-02(3)" 1 (put_proposals [] demo_engine)).2.
Definition worked : Engine := run_once demo_retrieve demo_ask accepts_all false 150 "w" 5 2 opened.
Definition accepted : Engine := (accept_proposal 150 assessor 20 20000 3 worked).2.
Definition states (e : Engine) : list (string * option string) := map (fun p => (cp_state p, cp_proposed_finding p)) (en_proposals e).

Lemma demo_ok : engine_ok (put_proposals [] demo_engine).
Proof.
  split; cbn; try by constructor.
  - intros i. lia.
  - intros i [Hi|[Hi|Hi]]; by apply not_elem_of_nil in Hi.
Qed.

Lemma engine_stays_sound_witness :
  states worked = [("complete", Some "satisfied")] /\ states accepted = [("accepted", Some "satisfied")] /\ map ar_finding (en_results accepted) = ["satisfied"] /\
  engine_ok accepted /\ en_results worked = [].
Proof.
  assert (Ho : erun demo_retrieve demo_ask accepts_all false 150 (put_proposals [] demo_engine) [ERequest] opened).
  { apply (erun_snoc _ _ _ _ _ _ [] (put_proposals [] demo_engine)); [constructor|]. apply e_create. }
  assert (Hp : exists ls, EAccept ∉ ls /\ EElsewhere ∉ ls /\ erun demo_retrieve demo_ask accepts_all false 150 opened ls worked)
    by exact (pass_runs demo_retrieve demo_ask accepts_all false 150 "w" 5 2 opened).
  destruct Hp as (ls & Ha & He & Hw).
  pose proof (erun_app _ _ _ _ _ _ _ _ _ _ Ho Hw) as Hr.
  split; [vm_compute; reflexivity|]. split; [vm_compute; reflexivity|]. split; [vm_compute; reflexivity|]. split.
  - apply (engine_stays_sound demo_retrieve demo_ask accepts_all false 150 (put_proposals [] demo_engine) (([ERequest] ++ ls) ++ [EAccept])%list); [|apply demo_ok].
    apply (erun_snoc _ _ _ _ _ _ _ worked); [done|apply e_accept].
  - apply (engine_stays_sound _ _ _ _ _ _ _ _ Hr demo_ok); rewrite not_elem_of_app, list_elem_of_singleton; by split.
Defined.

(** Two requests for the accepted control that look for an outstanding job at the same
    time find none, and each inserts one. *)
Example requests_at_once_queue_twice :
  match en_proposals accepted with
  | [p] =>
      newest_job (List.filter (outstanding (cp_id p) accepted) (en_jobs accepted)) = None /\
      lcount (outstanding (cp_id p) (insert_job p 5 (insert_job p 4 accepted).2).2) (en_jobs (insert_job p 5 (insert_job p 4 accepted).2).2) = 2
  | _ => False
  end.
Proof. vm_compute. by split. Qed.

(** An accepted control can be queued and evaluated again, and what comes out rejected:
    the finding of record stays the accepted one. *)
Example accepted_then_rejected :
  let again := run_once demo_retrieve demo_ask accepts_all false 150 "w" 5 5 (create_proposal assessor 9 "AC-2" 4 accepted).2 in
  let rejected := (reject_proposal assessor 20 "other_than_satisfied" "no" 6 again).2 in
  map (fun p => (cp_state p, cp_accepted_by p, cp_rejected_by p)) (en_proposals rejected) = [("rejected", Some "alice", Some "alice")] /\
  map ar_finding (en_results rejected) = ["satisfied"].
Proof. vm_compute. split; reflexivity. Qed.

Definition family_of_one : FamilyMetrics := {| fm_decided := 1; fm_agreed := 1; fm_missed_findings := 0; fm_false_alarms := 0 |}.
Lemma calibration_accounts_witness :
  pr_org_id assessor = Some 5 /\
  match get_calibration assessor accepted with
  | (Ok (inr (m, rate)), _) => cm_decided m = 1 /\ rate = Some (truediv 1 1) /\ cm_by_family m !! "AC" = Some family_of_one
  | _ => False
  end.
Proof.
  split; [reflexivity|]. destruct (proj1 (calibration_accounts assessor accepted) 5 eq_refl) as (m & Hm & (H1 & H2 & _ & _ & _ & H6) & _). rewrite Hm.
  specialize (H6 "AC"). set (rows := List.filter _ _) in *.
  assert (E1 : bool_decide (rows = []) = false) by (vm_compute; reflexivity).
  assert (E2 : Z.of_nat (List.length rows) = 1) by (vm_compute; reflexivity).
  assert (E3 : lcount agreed rows = 1) by (vm_compute; reflexivity).
  assert (E4 : existsb (in_family "AC") rows = true) by (vm_compute; reflexivity).
  assert (E5 : family_counts "AC" rows = family_of_one) by (vm_compute; reflexivity).
  rewrite E1, H6, E4, E5, H1, H2, E2, E3. split; [|split]; reflexivity.
Defined.
