(* ===== verification/Poams.v ===== *)
(** POA&M requests ([src/src/ccf/api/routes/poams.py]) with the approval requests their
    gates depend on ([api/routes/approvals.py]): creating, changing and closing a POA&M,
    its milestones, the closure and acceptance gates, and the re-evaluation a closure asks
    of the assessment engine.

    The tables are those of [Adjudication] with the approvals of [Approvals] and the
    evidence the closure gate reads. A request's answer is the error response or its
    value; what an exception left behind is rolled back. References to controls, users,
    risks and vendors are taken as present. *)

From S2P Require Import Cr26 Scanners Systems.
From S2P Require Export Approvals Adjudication.
From S2P Require Import SignIn.

Local Open Scope string_scope.
Local Open Scope Z_scope.

(** ** Tables *)

(** Evidence with its date, and the implementation it hangs off: a system and a control. *)
Record DatedEvidence := { de_implementation_id : option Z; de_collected_on : option Z }.
Record ImplRef := { ir_id : Z; ir_system_id : Z; ir_control_id : Z }.
Record Desk := {
  dk_engine : Engine; dk_approvals : list Approval; dk_projects : list (Z * string); dk_impls : list ImplRef; dk_evidence : list DatedEvidence }.

Definition put_engine (e : Engine) (d : Desk) : Desk :=
  {| dk_engine := e; dk_approvals := dk_approvals d; dk_projects := dk_projects d; dk_impls := dk_impls d; dk_evidence := dk_evidence d |}.
Definition desk_db (d : Desk) : Db := en_db (dk_engine d).
Definition put_db (db : Db) (d : Desk) : Desk := put_engine (put_en_db db (dk_engine d)) d.
Definition poams (d : Desk) : list POAM := db_poams (desk_db d).
Definition put_poams (l : list POAM) (d : Desk) : Desk := put_db (set_poams l (desk_db d)) d.
Definition assign_poam (pid : Z) (f : POAM -> POAM) (d : Desk) : Desk := put_poams (update_where (fun p => pm_id p =? pid) f (poams d)) d.

Definition reply (A : Type) : Type := res (Response + A) * Desk.
Definition denied {A} (status : Z) (detail : string) (d : Desk) : reply A := (Ok (inl (HTTPException status detail)), d).
(** A guard: the refusal it found, if any. *)
Definition gate_result : Type := res (option Response).
Definition guarded {A} (g : gate_result) (d : Desk) (k : reply A) : reply A :=
  match g with Err x => (Err x, d) | Ok (Some r) => (Ok (inl r), d) | Ok None => k end.

(** ** Bodies *)

Record POAMCreate := {
  pc_system_id : Z; pc_control_id : option Z; pc_title : string; pc_weakness : option string; pc_severity : string; pc_status : string;
  pc_identified_on : option Z; pc_due_on : option Z; pc_source : option string; pc_remediation_plan : option string;
  pc_acceptance_rationale : option string; pc_details : PoamDetails }.
(** The fields a patch carries; one sent as null is not there. *)
Record POAMUpdate := {
  pu_title : option string; pu_weakness : option string; pu_severity : option string; pu_status : option string; pu_identified_on : option Z;
  pu_due_on : option Z; pu_closed_on : option Z; pu_source : option string; pu_remediation_plan : option string; pu_acceptance_rationale : option string;
  pu_details : PoamDetails }.
Record MilestoneIn := { mn_description : string; mn_due_on : option Z; mn_status : string; mn_sort_order : Z }.
Record MilestoneUpdate := {
  mu_description : option string; mu_due_on : option Z; mu_completed_on : option Z; mu_status : option string; mu_sort_order : option Z }.

Definition SEVERITIES : list string := ["low"; "moderate"; "high"; "critical"].
Definition MS_STATUS : list string := ["pending"; "in_progress"; "completed"; "delayed"].
Definition matches_opt (vocabulary : list string) (o : option string) : bool := match o with Some s => mem s vocabulary | None => true end.

(** ** The record shown *)

Definition completed_milestones (p : POAM) : Z := lcount (fun m => bool_decide (ms_status m = "completed")) (pm_milestones p).
Definition milestone_le (a b : PoamMilestone) : bool := ms_sort_order a <=? ms_sort_order b.
Record PoamView := {
  pv_poam : POAM; pv_approval_state : option string; pv_overdue : bool; pv_deviation : bool; pv_milestone_total : Z; pv_milestone_done : Z;
  pv_progress_pct : option Z; pv_milestones : list PoamMilestone }.
Definition before_opt (a b : option Z) : bool := match a, b with Some x, Some y => x <? y | _, _ => false end.
Definition poam_out (today : option Z) (approval_state : option string) (p : POAM) : PoamView :=
  let total := Z.of_nat (List.length (pm_milestones p)) in
  {| pv_poam := p; pv_approval_state := approval_state;
     pv_overdue := before_opt (pm_due_on p) today && mem (pm_status p) ["open"; "in_progress"];
     pv_deviation := before_opt (pm_original_due_on p) (pm_due_on p); pv_milestone_total := total; pv_milestone_done := completed_milestones p;
     pv_progress_pct := if total =? 0 then None else Some (round0 (truediv (100 * completed_milestones p) total));
     pv_milestones := stable_sort milestone_le (pm_milestones p) |}.

(** ** Who may reach a POA&M *)

Definition system_org (system_id : Z) (d : Desk) : option Z := snd <$> List.find (fun s => s.1 =? system_id) (en_systems (dk_engine d)).
Definition own_system (caller : Principal) (system_id : Z) (d : Desk) : bool :=
  match pr_org_id caller with None => true | Some org => bool_decide (system_org system_id d = Some org) end.
Definition require_poam (caller : Principal) (pid : Z) (d : Desk) : res (Response + POAM) :=
  let! row := scalar_one_or_none (List.filter (fun p => pm_id p =? pid) (poams d)) in
  Ok (match row with
      | Some p => if own_system caller (pm_system_id p) d then inr p else inl (HTTPException 404 "poam not found")
      | None => inl (HTTPException 404 "poam not found")
      end).
Definition with_poam {A} (caller : Principal) (pid : Z) (d : Desk) (k : POAM -> reply A) : reply A :=
  match require_poam caller pid d with Err x => (Err x, d) | Ok (inl r) => (Ok (inl r), d) | Ok (inr p) => k p end.

(** ** The gates *)

Definition milestones_satisfy_closure (p : POAM) : bool :=
  negb (bool_decide (pm_milestones p = [])) && forallb (fun m => bool_decide (ms_status m = "completed")) (pm_milestones p).
Definition proves_closure (p : POAM) (control : Z) (i : ImplRef) (ev : DatedEvidence) : bool :=
  bool_decide (de_implementation_id ev = Some (ir_id i)) && (ir_system_id i =? pm_system_id p) && (ir_control_id i =? control) &&
  match de_collected_on ev with
  | Some c => match pm_identified_on p with Some since => since <=? c | None => true end
  | None => false
  end.
Definition has_closure_evidence (p : POAM) (d : Desk) : bool :=
  match pm_control_id p with
  | None => false
  | Some c => existsb (fun ev => existsb (fun i => proves_closure p c i ev) (dk_impls d)) (dk_evidence d)
  end.
(** [str(obj.id)]: a POA&M not stored yet has none. *)
Definition poam_key (id : option Z) : string := match id with Some i => pretty i | None => "None" end.
Definition closure_gate (auth_enabled : bool) (id : option Z) (p : POAM) (d : Desk) : gate_result :=
  if negb (milestones_satisfy_closure p) && negb (has_closure_evidence p d) then
    Ok (Some (HTTPException 409 "cannot close: requires either all milestones completed or a linked closure evidence artifact for the remediated control"))
  else if negb auth_enabled then Ok None else
  let! state := entity_state "poam" (poam_key id) (dk_approvals d) in
  Ok (if bool_decide (state = "approved") then None
      else Some (HTTPException 409 "cannot close: requires an approved review (submit for approval, then have a different principal approve it — separation of duties)")).
Definition risk_accepted_gate (auth_enabled : bool) (owner_user_id due_on : option Z) (poam_id : option Z) (acceptance_rationale : option string) (d : Desk) : gate_result :=
  if bool_decide (owner_user_id = None) || bool_decide (due_on = None) then
    Ok (Some (HTTPException 409 "risk_accepted requires an owner (owner_user_id) and an expiration/due_on date"))
  else if is_blank (or_none acceptance_rationale) then
    Ok (Some (HTTPException 409 "risk_accepted requires a written acceptance rationale (acceptance_rationale)"))
  else if negb auth_enabled then Ok None else
  let refusal := Some (HTTPException 409 "risk_accepted requires an approved authorizing-official review (submit for approval, then have an AO/admin approve it)") in
  match poam_id with
  | None => Ok refusal
  | Some i => let! state := entity_state "poam" (pretty i) (dk_approvals d) in Ok (if bool_decide (state = "approved") then None else refusal)
  end.

(** ** Reading *)

Definition approval_of (p : POAM) (d : Desk) : res string := entity_state "poam" (pretty (pm_id p)) (dk_approvals d).
Definition shown (today : Z) (p : POAM) (d : Desk) : reply PoamView :=
  match approval_of p d with Ok s => (Ok (inr (poam_out (Some today) (Some s) p)), d) | Err x => (Err x, d) end.
Definition get_poam (caller : Principal) (pid today : Z) (d : Desk) : reply PoamView := with_poam caller pid d (fun p => shown today p d).
Definition list_poams (caller : Principal) (system_id : option Z) (status : option string) (today : Z) (d : Desk) : list PoamView :=
  let rows := stable_sort due_le (List.filter (fun p => own_system caller (pm_system_id p) d &&
    match system_id with Some s => pm_system_id p =? s | None => true end &&
    (negb (str_truthy (or_empty status)) || bool_decide (pm_status p = or_empty status))) (poams d)) in
  let states := entity_states "poam" (map (fun p => pretty (pm_id p)) rows) (dk_approvals d) in
  map (fun p => poam_out (Some today) (states !! pretty (pm_id p)) p) rows.

(** ** Writing *)

Definition said (verb summary : string) (caller : Principal) (pid : Z) (d : Desk) : Desk :=
  put_db (ControlTests.emit verb "poam" summary (pr_org_id caller) (Some (pr_email caller)) (Some (pretty pid)) (desk_db d)) d.
(** The answer after a commit: the row read again. *)
Definition reread (caller : Principal) (pid today : Z) (d : Desk) : reply PoamView := with_poam caller pid d (fun p => shown today p d).

Definition new_poam (id : Z) (body : POAMCreate) : POAM :=
  {| pm_id := id; pm_system_id := pc_system_id body; pm_control_id := pc_control_id body; pm_title := pc_title body; pm_weakness := pc_weakness body;
     pm_severity := pc_severity body; pm_status := pc_status body; pm_source := pc_source body; pm_remediation_plan := pc_remediation_plan body;
     pm_plan_source := "analyst"; pm_identified_on := pc_identified_on body; pm_due_on := pc_due_on body; pm_original_due_on := pc_due_on body;
     pm_source_ref := None; pm_scanner := None; pm_finding_uid := None; pm_closed_on := None; pm_acceptance_rationale := pc_acceptance_rationale body;
     pm_milestones := []; pm_details := pc_details body |}.
Definition creation_gate (auth_enabled : bool) (p : POAM) (d : Desk) : gate_result :=
  if bool_decide (pm_status p = "closed") then closure_gate auth_enabled None p d
  else if bool_decide (pm_status p = "risk_accepted") then
    risk_accepted_gate auth_enabled (pd_owner_user_id (pm_details p)) (pm_due_on p) None (pm_acceptance_rationale p) d
  else Ok None.
Definition create_poam (auth_enabled : bool) (caller : Principal) (body : POAMCreate) (today : Z) (d : Desk) : reply PoamView :=
  if negb (mem (pc_severity body) SEVERITIES && mem (pc_status body) POAM_STATUSES) then denied 422 "validation error" d
  else if negb (own_system caller (pc_system_id body) d) then denied 404 "system not found" d else
  guarded (creation_gate auth_enabled (new_poam 0 body) d) d
  (if bool_decide (system_org (pc_system_id body) d = None) then (Err IntegrityError, d) else
   let '(i, e) := engine_id (dk_engine d) in
   let p := new_poam i body in
   let d' := put_poams (poams d ++ [p])%list (put_engine e d) in
   let d' := said "created" ("POA&M opened (" +:+ pm_severity p +:+ "): " +:+ pm_title p) caller i d' in
   reread caller i today d').

Definition given {A} (new old : option A) : option A := match new with Some v => Some v | None => old end.
Definition is_given {A} (o : option A) : bool := match o with Some _ => true | None => false end.
Definition given_details (u p : PoamDetails) : PoamDetails :=
  {| pd_owner_user_id := given (pd_owner_user_id u) (pd_owner_user_id p); pd_point_of_contact := given (pd_point_of_contact u) (pd_point_of_contact p);
     pd_resources_required := given (pd_resources_required u) (pd_resources_required p); pd_cost_estimate := given (pd_cost_estimate u) (pd_cost_estimate p);
     pd_scheduled_completion := given (pd_scheduled_completion u) (pd_scheduled_completion p); pd_risk_id := given (pd_risk_id u) (pd_risk_id p);
     pd_vendor_id := given (pd_vendor_id u) (pd_vendor_id p) |}.
(** The patched row: who wrote the plan, the stale closing date of a reopened row, and
    the reason of an acceptance that ends. *)
Definition apply_poam_update (u : POAMUpdate) (p : POAM) : POAM :=
  let status := default (pm_status p) (pu_status u) in
  {| pm_id := pm_id p; pm_system_id := pm_system_id p; pm_control_id := pm_control_id p; pm_title := default (pm_title p) (pu_title u);
     pm_weakness := given (pu_weakness u) (pm_weakness p); pm_severity := default (pm_severity p) (pu_severity u); pm_status := status;
     pm_source := given (pu_source u) (pm_source p); pm_remediation_plan := given (pu_remediation_plan u) (pm_remediation_plan p);
     pm_plan_source := if is_given (pu_remediation_plan u) then "analyst" else pm_plan_source p;
     pm_identified_on := given (pu_identified_on u) (pm_identified_on p); pm_due_on := given (pu_due_on u) (pm_due_on p);
     pm_original_due_on := pm_original_due_on p; pm_source_ref := pm_source_ref p; pm_scanner := pm_scanner p; pm_finding_uid := pm_finding_uid p;
     pm_closed_on := if is_given (pu_status u) && negb (mem status POAM_CLOSED_STATUSES) && negb (is_given (pu_closed_on u)) then None
                     else given (pu_closed_on u) (pm_closed_on p);
     pm_acceptance_rationale := if poam_leaves_risk_accepted (pm_status p) status then None else given (pu_acceptance_rationale u) (pm_acceptance_rationale p);
     pm_milestones := pm_milestones p; pm_details := given_details (pu_details u) (pm_details p) |}.
Definition blanks_rationale (u : POAMUpdate) (p : POAM) : bool :=
  match pu_acceptance_rationale u with
  | Some r => is_blank (VStr r) && bool_decide (default (pm_status p) (pu_status u) = "risk_accepted")
  | None => false
  end.
Definition update_gate (auth_enabled : bool) (u : POAMUpdate) (p : POAM) (d : Desk) : gate_result :=
  if blanks_rationale u p then
    Ok (Some (HTTPException 409 "cannot blank acceptance_rationale while risk_accepted -- move the POA&M out of risk_accepted first, or supply a replacement"))
  else if bool_decide (pu_status u = Some "closed") then closure_gate auth_enabled (Some (pm_id p)) p d
  else if bool_decide (pu_status u = Some "risk_accepted") && negb (bool_decide (pm_status p = "risk_accepted")) then
    risk_accepted_gate auth_enabled (given (pd_owner_user_id (pu_details u)) (pd_owner_user_id (pm_details p))) (given (pu_due_on u) (pm_due_on p)) (Some (pm_id p))
      (given (pu_acceptance_rationale u) (pm_acceptance_rationale p)) d
  else Ok None.

(** After a closure is committed; its failure changes nothing. *)
Definition maybe_enqueue_reevaluation (p : POAM) (now : Z) (d : Desk) : Desk :=
  if negb (str_truthy (or_empty (pm_source_ref p))) then d else
  match system_org (pm_system_id p) d with
  | None => d
  | Some org => match enqueue_reevaluation (pm_id p) (or_empty (pm_source_ref p)) org now (dk_engine d) with
                | Ok (_, e) => put_engine e d
                | Err _ => d
                end
  end.

Definition update_poam (auth_enabled : bool) (caller : Principal) (pid : Z) (u : POAMUpdate) (today now : Z) (d : Desk) : reply PoamView :=
  if negb (matches_opt SEVERITIES (pu_severity u) && matches_opt POAM_STATUSES (pu_status u)) then denied 422 "validation error" d else
  with_poam caller pid d (fun p =>
    guarded (update_gate auth_enabled u p d) d
    (let p' := apply_poam_update u p in
     let d := assign_poam pid (apply_poam_update u) d in
     let d := said "updated" ("POA&M " +:+ pm_status p' +:+ ": " +:+ pm_title p') caller pid d in
     let d := if bool_decide (pu_status u = Some "closed") && negb (bool_decide (pm_status p = "closed")) then maybe_enqueue_reevaluation p' now d else d in
     reread caller pid today d)).

Definition set_poam_closed (today : Z) (p : POAM) : POAM :=
  {| pm_id := pm_id p; pm_system_id := pm_system_id p; pm_control_id := pm_control_id p; pm_title := pm_title p; pm_weakness := pm_weakness p;
     pm_severity := pm_severity p; pm_status := "closed"; pm_source := pm_source p; pm_remediation_plan := pm_remediation_plan p;
     pm_plan_source := pm_plan_source p; pm_identified_on := pm_identified_on p; pm_due_on := pm_due_on p; pm_original_due_on := pm_original_due_on p;
     pm_source_ref := pm_source_ref p; pm_scanner := pm_scanner p; pm_finding_uid := pm_finding_uid p; pm_closed_on := Some today;
     pm_acceptance_rationale := pm_acceptance_rationale p; pm_milestones := pm_milestones p; pm_details := pm_details p |}.
Definition close_poam (auth_enabled : bool) (caller : Principal) (pid today now : Z) (d : Desk) : reply PoamView :=
  with_poam caller pid d (fun p =>
    guarded (closure_gate auth_enabled (Some (pm_id p)) p d) d
    (let d := assign_poam pid (set_poam_closed today) d in
     let d := said "closed" ("POA&M closed: " +:+ pm_title p) caller pid d in
     let d := if negb (bool_decide (pm_status p = "closed")) then maybe_enqueue_reevaluation (set_poam_closed today p) now d else d in
     reread caller pid today d)).

(** ** Milestones *)

Definition set_milestones (l : list PoamMilestone) (p : POAM) : POAM :=
  {| pm_id := pm_id p; pm_system_id := pm_system_id p; pm_control_id := pm_control_id p; pm_title := pm_title p; pm_weakness := pm_weakness p;
     pm_severity := pm_severity p; pm_status := pm_status p; pm_source := pm_source p; pm_remediation_plan := pm_remediation_plan p;
     pm_plan_source := pm_plan_source p; pm_identified_on := pm_identified_on p; pm_due_on := pm_due_on p; pm_original_due_on := pm_original_due_on p;
     pm_source_ref := pm_source_ref p; pm_scanner := pm_scanner p; pm_finding_uid := pm_finding_uid p; pm_closed_on := pm_closed_on p;
     pm_acceptance_rationale := pm_acceptance_rationale p; pm_milestones := l; pm_details := pm_details p |}.
Definition new_milestone (i : Z) (body : MilestoneIn) : PoamMilestone :=
  {| ms_id := i; ms_description := mn_description body; ms_due_on := mn_due_on body; ms_completed_on := None; ms_status := mn_status body; ms_sort_order := mn_sort_order body |}.
Definition add_milestone (caller : Principal) (pid : Z) (body : MilestoneIn) (d : Desk) : reply PoamMilestone :=
  if negb (mem (mn_status body) MS_STATUS) then denied 422 "validation error" d else
  with_poam caller pid d (fun _ =>
    let '(i, e) := engine_id (dk_engine d) in
    let m := new_milestone i body in
    (Ok (inr m), assign_poam pid (fun p => set_milestones (pm_milestones p ++ [m])%list p) (put_engine e d))).
Definition apply_milestone_update (u : MilestoneUpdate) (today : Z) (m : PoamMilestone) : PoamMilestone :=
  let completed_on := given (mu_completed_on u) (ms_completed_on m) in
  {| ms_id := ms_id m; ms_description := default (ms_description m) (mu_description u); ms_due_on := given (mu_due_on u) (ms_due_on m);
     ms_completed_on := if bool_decide (mu_status u = Some "completed") && bool_decide (completed_on = None) then Some today else completed_on;
     ms_status := default (ms_status m) (mu_status u); ms_sort_order := default (ms_sort_order m) (mu_sort_order u) |}.
Definition update_milestone (caller : Principal) (pid mid : Z) (u : MilestoneUpdate) (today : Z) (d : Desk) : reply PoamMilestone :=
  if negb (matches_opt MS_STATUS (mu_status u)) then denied 422 "validation error" d else
  with_poam caller pid d (fun p =>
    match scalar_one_or_none (List.filter (fun m => ms_id m =? mid) (pm_milestones p)) with
    | Err x => (Err x, d)
    | Ok None => denied 404 "milestone not found" d
    | Ok (Some m) =>
        (Ok (inr (apply_milestone_update u today m)),
         assign_poam pid (fun p => set_milestones (update_where (fun m => ms_id m =? mid) (apply_milestone_update u today) (pm_milestones p)) p) d)
    end).

(** ** Approval requests ([api/routes/approvals.py]) *)

Definition desk_workflow (d : Desk) : WDb := {| w_approvals := dk_approvals d; w_projects := dk_projects d; w_bus := desk_db d |}.
Definition put_workflow (w : WDb) (d : Desk) : Desk :=
  let d := put_db (w_bus w) d in
  {| dk_engine := dk_engine d; dk_approvals := w_approvals w; dk_projects := w_projects w; dk_impls := dk_impls d; dk_evidence := dk_evidence d |}.
(** The workflow's refusal, with the status the route gives it. *)
Definition workflow_reply (status : string -> Z) (m : res WDb) (d : Desk) : reply unit :=
  match m with
  | Ok w => (Ok (inr ()), put_workflow w d)
  | Err x => if bool_decide (exn_class x = "WorkflowError") then denied (status (exn_msg x)) (exn_msg x) d else (Err x, d)
  end.
Definition decision_status (msg : string) : Z := if str_contains "duties" msg || str_contains "role" msg then 403 else 409.
Definition submit_for_approval (caller : Principal) (entity_type entity_id : string) (now : Z) (d : Desk) : reply unit :=
  workflow_reply (fun _ => 409) (submit entity_type entity_id (Some (pr_email caller)) (pr_org_id caller) now (desk_workflow d)) d.
Definition decide_approval (auth_enabled : bool) (caller : Principal) (entity_type entity_id : string) (approve : bool) (note : option string) (now : Z) (d : Desk) : reply unit :=
  workflow_reply decision_status
    (decide_ auth_enabled entity_type entity_id approve (Some (pr_email caller)) (Some (pr_role caller)) note (pr_org_id caller) now (desk_workflow d)) d.

(** ** Requests in sequence *)

Inductive PoamRequest :=
| RqCreate (body : POAMCreate)
| RqUpdate (pid : Z) (u : POAMUpdate)
| RqClose (pid : Z)
| RqAddMilestone (pid : Z) (body : MilestoneIn)
| RqSetMilestone (pid mid : Z) (u : MilestoneUpdate)
| RqSubmit (entity_type entity_id : string)
| RqDecide (entity_type entity_id : string) (approve : bool) (note : option string).

(** The tables a request leaves. *)
Definition serve (auth_enabled : bool) (caller : Principal) (today now : Z) (r : PoamRequest) (d : Desk) : Desk :=
  match r with
  | RqCreate body => (create_poam auth_enabled caller body today d).2
  | RqUpdate pid u => (update_poam auth_enabled caller pid u today now d).2
  | RqClose pid => (close_poam auth_enabled caller pid today now d).2
  | RqAddMilestone pid body => (add_milestone caller pid body d).2
  | RqSetMilestone pid mid u => (update_milestone caller pid mid u today d).2
  | RqSubmit et eid => (submit_for_approval caller et eid now d).2
  | RqDecide et eid approve note => (decide_approval auth_enabled caller et eid approve note now d).2
  end.

(** ** Lemmas *)

Lemma deliver_keeps_poams n db : db_poams (deliver n db) = db_poams db /\ db_seq (deliver n db) = db_seq db.
Proof. unfold deliver. destruct (negb _); [done|]. by destruct (_ <? _). Qed.

Lemma notify_frame category title org sev body et eid k db db' : notify category title org sev body et eid k db = Ok db' ->
  db_poams db' = db_poams db /\ db_seq db <= db_seq db'.
Proof.
  assert (Hn : forall n, db_poams (deliver n (set_notifications (db_notifications db ++ [n])%list (ControlTests.set_seq (db_seq db + 1) db))) = db_poams db /\
    db_seq db <= db_seq (deliver n (set_notifications (db_notifications db ++ [n])%list (ControlTests.set_seq (db_seq db + 1) db)))).
  { intros n. destruct (deliver_keeps_poams n (set_notifications (db_notifications db ++ [n])%list (ControlTests.set_seq (db_seq db + 1) db))) as [-> ->]. cbn. split; [done|lia]. }
  unfold notify. destruct (str_truthy _).
  - destruct (scalar_one_or_none _) as [[n|]|]; [..|done]; cbn [res_bind]; intros [= <-]; [done|]. apply Hn.
  - intros [= <-]. apply Hn.
Qed.

(** ** What a request may do to the POA&Ms *)

(** A row goes through a patch or a closure its gate let pass, or gets other milestones. *)
Inductive row_change (auth : bool) (d : Desk) (p : POAM) : POAM -> Prop :=
| rc_update u : matches_opt POAM_STATUSES (pu_status u) = true -> update_gate auth u p d = Ok None -> row_change auth d p (apply_poam_update u p)
| rc_close today : closure_gate auth (Some (pm_id p)) p d = Ok None -> row_change auth d p (set_poam_closed today p)
| rc_milestones l : row_change auth d p (set_milestones l p).
(** [seq] is the next id afterwards. *)
Inductive poam_effect (auth : bool) (d : Desk) (seq : Z) : list POAM -> Prop :=
| pe_same : poam_effect auth d seq (poams d)
| pe_new body : creation_gate auth (new_poam 0 body) d = Ok None -> db_seq (desk_db d) < seq ->
    poam_effect auth d seq (poams d ++ [new_poam (db_seq (desk_db d)) body])
| pe_row p f : p ∈ poams d -> (forall q, q ∈ poams d -> pm_id q = pm_id p -> q = p) -> row_change auth d p (f p) ->
    poam_effect auth d seq (update_where (fun q => pm_id q =? pm_id p) f (poams d)).

(** What no request touches, and what only the workflow does. *)
Definition desk_frame (d d' : Desk) : Prop :=
  dk_approvals d' = dk_approvals d /\ dk_projects d' = dk_projects d /\ db_seq (desk_db d) <= db_seq (desk_db d').

Lemma with_poam_cases {A} (P : Desk -> Prop) caller pid d (k : POAM -> reply A) : P d ->
  (forall p, p ∈ poams d -> pm_id p = pid -> (forall q, q ∈ poams d -> pm_id q = pid -> q = p) -> own_system caller (pm_system_id p) d = true -> P (k p).2) ->
  P (with_poam caller pid d k).2.
Proof.
  intros Hd Hk. unfold with_poam, require_poam. destruct (scalar_one_or_none _) as [[p|]|] eqn:E; cbn [res_bind]; [|done..].
  destruct (scalar_find _ _ _ E) as (Hin & Hid%Z.eqb_eq & Hu). destruct (own_system _ _ _) eqn:Ho; [|done]. apply Hk; [done..| |done].
  intros q Hq Eq. apply Hu; [done|]. by apply Z.eqb_eq.
Qed.

Lemma guarded_cases {A} (P : Desk -> Prop) g d (k : reply A) : P d -> (g = Ok None -> P k.2) -> P (guarded g d k).2.
Proof. intros Hd Hk. unfold guarded. destruct g as [[r|]|]; [done| |done]. by apply Hk. Qed.

Lemma reread_same caller pid today d : (reread caller pid today d).2 = d.
Proof. apply (with_poam_cases (fun d' => d' = d)); [done|]. intros p _ _ _ _. unfold shown. by destruct (approval_of p d). Qed.

(** The engine's id counter may move; its POA&Ms stay. *)
Definition ids_only (e e' : Engine) : Prop := db_poams (en_db e') = db_poams (en_db e) /\ db_seq (en_db e) <= db_seq (en_db e').

Lemma open_again_ids r i e p e' : open_reevaluation_proposal r i e = Ok (p, e') -> ids_only e e'.
Proof.
  unfold open_reevaluation_proposal, ids_only. destruct (scalar_one_or_none _) as [[q|]|]; [intros [= _ <-]; split; [done|lia]| |done]. cbn [res_bind].
  destruct (organization_of _ e); [|done]. unfold add_proposal, engine_id, next_id. intros [= _ <-]. cbn. split; [done|lia].
Qed.

Lemma enqueue_for_ids p now e : ids_only e (enqueue_for p now e).2.
Proof. unfold enqueue_for, insert_job, ids_only. destruct (newest_job _); [split; [done|cbn; lia]|]. unfold engine_id, next_id. cbn. split; [done|lia]. Qed.

Lemma reevaluation_ids i ref org now e j e' : enqueue_reevaluation i ref org now e = Ok (j, e') -> ids_only e e'.
Proof.
  unfold enqueue_reevaluation, ids_only. destruct (result_named ref e) as [[r|]|]; [|intros [= _ <-]; split; [done|lia]|done]. cbn [res_bind].
  destruct (negb _); [intros [= _ <-]; split; [done|lia]|]. destruct (open_reevaluation_proposal r i e) as [[p e1]|] eqn:E; [|done]. cbn [res_bind].
  apply open_again_ids in E as [E1 E2]. pose proof (enqueue_for_ids p now e1) as [F1 F2]. destruct (enqueue_for p now e1) as [k e2]. cbn [snd] in *. intros [= _ <-].
  split; [by etrans|lia].
Qed.

Lemma enqueued_frame p now d : desk_frame d (maybe_enqueue_reevaluation p now d) /\ poams (maybe_enqueue_reevaluation p now d) = poams d.
Proof.
  assert (Hd : desk_frame d d) by (repeat split; lia).
  unfold maybe_enqueue_reevaluation. destruct (negb _); [done|]. destruct (system_org _ d) as [org|]; [|done].
  destruct (enqueue_reevaluation _ _ _ _ _) as [[j e]|] eqn:E; [|done]. apply reevaluation_ids in E as [E1 E2]. done.
Qed.

Lemma said_poams v t caller i d : poams (said v t caller i d) = poams d.
Proof. reflexivity. Qed.
Lemma said_seq v t caller i d : db_seq (desk_db (said v t caller i d)) = db_seq (desk_db d) + 1.
Proof. reflexivity. Qed.

Lemma assign_seq i f d : db_seq (desk_db (assign_poam i f d)) = db_seq (desk_db d).
Proof. reflexivity. Qed.

Definition effect_and_frame (auth : bool) (d d' : Desk) : Prop := poam_effect auth d (db_seq (desk_db d')) (poams d') /\ desk_frame d d'.

Lemma no_effect auth d : effect_and_frame auth d d.
Proof. split; [constructor|]. repeat split. lia. Qed.

Lemma create_effect auth caller body today d : effect_and_frame auth d (create_poam auth caller body today d).2.
Proof.
  pose proof (no_effect auth d) as H0. unfold create_poam, denied. destruct (negb _); [done|]. destruct (negb (own_system _ _ _)); [done|].
  apply guarded_cases; [done|]. intros Hg. destruct (bool_decide _); [done|]. unfold engine_id, next_id. rewrite reread_same.
  split; [rewrite said_poams; constructor; [done|rewrite said_seq; unfold desk_db; cbn; lia]|]. split_and!; [done|done|]. rewrite said_seq. unfold desk_db. cbn. lia.
Qed.

Lemma row_effect auth d p f d' : p ∈ poams d -> (forall q, q ∈ poams d -> pm_id q = pm_id p -> q = p) -> row_change auth d p (f p) ->
  desk_frame d d' -> poams d' = update_where (fun q => pm_id q =? pm_id p) f (poams d) -> effect_and_frame auth d d'.
Proof. intros Hp Hu Hc Hf E. split; [|done]. rewrite E. by constructor. Qed.

Lemma update_effect auth caller pid u today now d : effect_and_frame auth d (update_poam auth caller pid u today now d).2.
Proof.
  pose proof (no_effect auth d) as H0. unfold update_poam, denied. destruct (matches_opt SEVERITIES _); [|done]. destruct (matches_opt POAM_STATUSES _) eqn:Hs; [|done]. cbn [andb negb].
  apply with_poam_cases; [done|]. intros p Hp <- Hu _. apply guarded_cases; [done|]. intros Hg. rewrite reread_same. set (d1 := said _ _ _ _ _).
  assert (E1 : poams d1 = update_where (fun q => pm_id q =? pm_id p) (apply_poam_update u) (poams d) /\ desk_frame d d1) by (split; [done|]; split_and!; [done|done|unfold d1; rewrite said_seq, assign_seq; lia]).
  destruct E1 as [E1 (A1 & A2 & A3)]. apply (row_effect _ _ p (apply_poam_update u)); [done|done|by constructor|..]; destruct (_ && _); try done;
    destruct (enqueued_frame (apply_poam_update u p) now d1) as [(B1 & B2 & B3) E2].
  - split_and!; [by etrans|by etrans|lia].
  - by rewrite E2.
Qed.

Lemma close_effect auth caller pid today now d : effect_and_frame auth d (close_poam auth caller pid today now d).2.
Proof.
  pose proof (no_effect auth d) as H0. unfold close_poam. apply with_poam_cases; [done|]. intros p Hp <- Hu _. apply guarded_cases; [done|]. intros Hg. rewrite reread_same. set (d1 := said _ _ _ _ _).
  assert (E1 : poams d1 = update_where (fun q => pm_id q =? pm_id p) (set_poam_closed today) (poams d) /\ desk_frame d d1) by (split; [done|]; split_and!; [done|done|unfold d1; rewrite said_seq, assign_seq; lia]).
  destruct E1 as [E1 (A1 & A2 & A3)]. apply (row_effect _ _ p (set_poam_closed today)); [done|done|by constructor|..]; destruct (negb _); try done;
    destruct (enqueued_frame (set_poam_closed today p) now d1) as [(B1 & B2 & B3) E2].
  - split_and!; [by etrans|by etrans|lia].
  - by rewrite E2.
Qed.

Lemma milestone_effect auth caller pid body d : effect_and_frame auth d (add_milestone caller pid body d).2.
Proof.
  pose proof (no_effect auth d) as H0. unfold add_milestone, denied. destruct (negb _); [done|]. apply with_poam_cases; [done|]. intros p Hp <- Hu _.
  unfold engine_id, next_id. eapply (row_effect _ _ p); [done|done| | |reflexivity]; [apply rc_milestones|]. split_and!; [done|done|]. cbn [snd]. rewrite assign_seq. cbn. unfold desk_db. lia.
Qed.

Lemma set_milestone_effect auth caller pid mid u today d : effect_and_frame auth d (update_milestone caller pid mid u today d).2.
Proof.
  pose proof (no_effect auth d) as H0. unfold update_milestone, denied. destruct (negb _); [done|]. apply with_poam_cases; [done|]. intros p Hp <- Hu _.
  destruct (scalar_one_or_none _) as [[m|]|]; [|done..]. eapply (row_effect _ _ p); [done|done| | |reflexivity]; [apply rc_milestones|]. split_and!; [done|done|]. cbn [snd]. rewrite assign_seq. cbn. unfold desk_db. lia.
Qed.

Lemma submit_bus et eid actor org now s s' : submit et eid actor org now s = Ok s' ->
  db_poams (w_bus s') = db_poams (w_bus s) /\ db_seq (w_bus s) <= db_seq (w_bus s').
Proof.
  unfold submit. destruct (negb _); [done|]. destruct (get_or_create _ _ _ _) as [[a rows]|]; [|done]. cbn [res_bind]. destruct (decide _); [done|].
  intros (b & Hb & [= <-])%res_bind_Ok. destruct (notify_frame _ _ _ _ _ _ _ _ _ _ Hb) as [E1 E2]. cbn [w_bus]. rewrite E1. split; [done|]. cbn in E2. lia.
Qed.

Lemma decide_bus auth et eid ap actor role note org now s s' : decide_ auth et eid ap actor role note org now s = Ok s' ->
  db_poams (w_bus s') = db_poams (w_bus s) /\ db_seq (w_bus s) <= db_seq (w_bus s').
Proof.
  unfold decide_. destruct (negb _); [done|]. destruct (get_or_create _ _ _ _) as [[a rows]|]; [|done]. cbn [res_bind]. destruct (bool_decide _); [done|].
  destruct (auth && negb _); [done|]. destruct (auth && both_named_same _ _); [done|].
  intros (pr & _ & (b & Hb & [= <-])%res_bind_Ok)%res_bind_Ok. destruct (notify_frame _ _ _ _ _ _ _ _ _ _ Hb) as [E1 E2]. cbn [w_bus]. rewrite E1. split; [done|]. cbn in E2. lia.
Qed.

(** What a request does: a change of POA&Ms with the approvals as they were, or a step of
    the workflow with the POA&Ms as they were. *)
Definition served_as (auth : bool) (d d' : Desk) : Prop :=
  db_seq (desk_db d) <= db_seq (desk_db d') /\
  ((poam_effect auth d (db_seq (desk_db d')) (poams d') /\ dk_approvals d' = dk_approvals d /\ dk_projects d' = dk_projects d) \/
   (poams d' = poams d /\ Approvals.step auth (desk_workflow d) (desk_workflow d'))).

Lemma workflow_served auth status m d :
  (forall w, m = Ok w -> Approvals.step auth (desk_workflow d) w /\ db_poams (w_bus w) = poams d /\ db_seq (desk_db d) <= db_seq (w_bus w)) ->
  served_as auth d (workflow_reply status m d).2.
Proof.
  intros H. assert (H0 : served_as auth d d) by (split; [lia|]; left; split; [constructor|done]).
  unfold workflow_reply, denied. destruct m as [w|x]; [|by destruct (bool_decide _)]. destruct (H w eq_refl) as (Hs & Hp & Hq). split; [done|]. right. split; [done|]. by destruct w.
Qed.

Lemma served_effect auth d d' : effect_and_frame auth d d' -> served_as auth d d'.
Proof. intros [H (E1 & E2 & E3)]. split; [done|]. by left. Qed.

Lemma serve_spec auth caller today now r d : served_as auth d (serve auth caller today now r d).
Proof.
  destruct r; cbn [serve].
  - apply served_effect, create_effect.
  - apply served_effect, update_effect.
  - apply served_effect, close_effect.
  - apply served_effect, milestone_effect.
  - apply served_effect, set_milestone_effect.
  - apply workflow_served. intros w Hw. split; [by eapply step_submit|]. exact (submit_bus _ _ _ _ _ _ _ Hw).
  - apply workflow_served. intros w Hw. split; [by eapply step_decide|]. exact (decide_bus _ _ _ _ _ _ _ _ _ _ _ Hw).
Qed.

(** ** Sound tables *)

(** An acceptance is on record with who owns it, until when, why, and who allowed it. *)
Definition acceptance_ok (auth : bool) (d : Desk) (p : POAM) : Prop :=
  pm_status p = "risk_accepted" ->
  pd_owner_user_id (pm_details p) <> None /\ pm_due_on p <> None /\ is_blank (or_none (pm_acceptance_rationale p)) = false /\
  (auth = true -> exists a, a ∈ dk_approvals d /\ is_entity "poam" (pretty (pm_id p)) a = true /\ ap_state a = "approved").

Record desk_ok (auth : bool) (d : Desk) : Prop := {
  dok_workflow : workflow_ok auth (desk_workflow d);
  dok_ids : NoDup (map pm_id (poams d));
  dok_fresh : forall p, p ∈ poams d -> pm_id p < db_seq (desk_db d);
  dok_accepted : forall p, p ∈ poams d -> acceptance_ok auth d p }.

Lemma entity_state_approved eid rows : entity_state "poam" eid rows = Ok "approved" -> exists a, a ∈ rows /\ is_entity "poam" eid a = true /\ ap_state a = "approved".
Proof.
  unfold entity_state. destruct (scalar_one_or_none _) as [[a|]|] eqn:E; [|done..]. cbn [res_bind]. intros [= Es]. apply scalar_Some in E.
  pose proof (existing_elem _ _ _ E) as [Hin He]. by exists a.
Qed.

Lemma closure_gate_open auth id p d : closure_gate auth id p d = Ok None ->
  (milestones_satisfy_closure p = true \/ has_closure_evidence p d = true) /\
  (auth = true -> exists a, a ∈ dk_approvals d /\ is_entity "poam" (poam_key id) a = true /\ ap_state a = "approved").
Proof.
  unfold closure_gate. destruct (negb (milestones_satisfy_closure p) && negb (has_closure_evidence p d)) eqn:E; [done|]. intros H. split.
  - destruct (milestones_satisfy_closure p); [by left|]. destruct (has_closure_evidence p d); [by right|done].
  - intros ->. cbn [negb] in H. destruct (entity_state _ _ _) as [s|] eqn:Es; [|done]. cbn [res_bind] in H. case_bool_decide as Hs; [|done]. subst s. by apply entity_state_approved.
Qed.

Lemma risk_gate_open auth owner due id why d : risk_accepted_gate auth owner due id why d = Ok None ->
  owner <> None /\ due <> None /\ is_blank (or_none why) = false /\
  (auth = true -> exists i a, id = Some i /\ a ∈ dk_approvals d /\ is_entity "poam" (pretty i) a = true /\ ap_state a = "approved").
Proof.
  unfold risk_accepted_gate. case_bool_decide as Ho; [done|]. case_bool_decide as Hd; [done|]. cbn [orb]. destruct (is_blank _); [done|]. intros H.
  split_and!; [done..|]. intros ->. cbn [negb] in H. destruct id as [i|]; [|done]. destruct (entity_state _ _ _) as [s|] eqn:Es; [|done]. cbn [res_bind] in H.
  case_bool_decide as Hs; [|done]. subst s. destruct (entity_state_approved _ _ Es) as (a & ? & ? & ?). by exists i, a.
Qed.

Lemma given_not_none {A} (new old : option A) : old <> None -> given new old <> None.
Proof. by destruct new. Qed.

Lemma row_change_id auth d p p' : row_change auth d p p' -> pm_id p' = pm_id p.
Proof. by destruct 1. Qed.

Lemma row_change_accepted auth d p p' : row_change auth d p p' -> acceptance_ok auth d p -> acceptance_ok auth d p'.
Proof.
  intros Hc Hp. destruct Hc as [u Hs Hg|today Hg|l]; [|intros E; done|exact Hp].
  unfold acceptance_ok in *. cbn [apply_poam_update pm_status pm_details pm_due_on pm_acceptance_rationale pm_id given_details pd_owner_user_id]. intros Est.
  unfold update_gate in Hg. destruct (blanks_rationale u p) eqn:Hb; [done|].
  assert (Hl : poam_leaves_risk_accepted (pm_status p) (default (pm_status p) (pu_status u)) = false) by (unfold poam_leaves_risk_accepted; rewrite Est; apply andb_false_r).
  rewrite Hl.
  destruct (pu_status u) as [s|] eqn:Eu; cbn [default] in Est.
  - assert (s = "risk_accepted") as -> by exact Est.
    rewrite (bool_decide_eq_false_2 (Some "risk_accepted" = Some "closed")), (bool_decide_eq_true_2 (Some "risk_accepted" = Some "risk_accepted")) in Hg by done.
    cbn [andb] in Hg. case_bool_decide as Hold; cbn [negb andb] in Hg.
    + destruct (Hp Hold) as (H1 & H2 & H3 & H4). split_and!; [by apply given_not_none..| |exact H4].
      unfold blanks_rationale in Hb. destruct (pu_acceptance_rationale u) as [r|]; cbn [given]; [|done]. rewrite Eu in Hb. cbn [default or_none] in *.
      rewrite (bool_decide_eq_true_2 ("risk_accepted" = "risk_accepted")), andb_true_r in Hb by done. done.
    + apply risk_gate_open in Hg as (H1 & H2 & H3 & H4). split_and!; [done..|]. intros Ha. destruct (H4 Ha) as (i & a & [= <-] & ?). by exists a.
  - destruct (Hp Est) as (H1 & H2 & H3 & H4). split_and!; [by apply given_not_none..| |exact H4].
    unfold blanks_rationale in Hb. destruct (pu_acceptance_rationale u) as [r|]; cbn [given]; [|done]. rewrite Eu, Est in Hb. cbn [default or_none] in *.
    rewrite (bool_decide_eq_true_2 ("risk_accepted" = "risk_accepted")), andb_true_r in Hb by done. done.
Qed.

Lemma creation_accepted auth d body i : creation_gate auth (new_poam 0 body) d = Ok None -> acceptance_ok auth d (new_poam i body).
Proof.
  unfold creation_gate, acceptance_ok. cbn [pm_status new_poam pm_details pm_due_on pm_acceptance_rationale]. intros Hg Est. rewrite Est in Hg.
  apply risk_gate_open in Hg as (H1 & H2 & H3 & H4). split_and!; [done..|]. intros Ha. by destruct (H4 Ha) as (? & ? & ? & _).
Qed.

Lemma acceptance_approvals auth d d' p : (forall a, a ∈ dk_approvals d -> ap_state a = "approved" -> a ∈ dk_approvals d') -> acceptance_ok auth d p -> acceptance_ok auth d' p.
Proof.
  intros H Hp E. destruct (Hp E) as (H1 & H2 & H3 & H4). split_and!; [done..|]. intros Ha. destruct (H4 Ha) as (a & ? & ? & ?). exists a. split; [by apply H|done].
Qed.

Lemma workflow_ok_poams auth d d' : dk_approvals d' = dk_approvals d -> workflow_ok auth (desk_workflow d) -> workflow_ok auth (desk_workflow d').
Proof. intros E [H1 H2 H3]. split; cbn [w_approvals desk_workflow] in *; rewrite E; done. Qed.

(** A changed row is the old one through [f], or another one untouched. *)
Lemma changed_row (p : POAM) f l q : (forall r, r ∈ l -> pm_id r = pm_id p -> r = p) -> q ∈ update_where (fun q => pm_id q =? pm_id p) f l -> q = f p \/ q ∈ l.
Proof.
  intros Hu (r & -> & Hr)%list_elem_of_fmap. destruct (Z.eqb_spec (pm_id r) (pm_id p)) as [E|]; [left|by right]. by rewrite (Hu r Hr E).
Qed.

Lemma served_ok auth d d' : served_as auth d d' -> desk_ok auth d -> desk_ok auth d'.
Proof.
  intros [Hseq [(He & Ea & Ep)|(Ep & Hs)]] [Hw Hi Hf Ha].
  - pose proof (workflow_ok_poams auth d d' Ea Hw) as Hw'.
    assert (Hk : forall p, acceptance_ok auth d p -> acceptance_ok auth d' p) by (intros p; apply acceptance_approvals; by rewrite Ea).
    remember (poams d') as l eqn:El. destruct He as [|body Hg Hlt|p f Hp Hu Hc]; split; rewrite <-?El; try done.
    + intros p Hp. specialize (Hf p Hp). lia.
    + intros p Hp. by apply Hk, Ha.
    + rewrite map_app. apply NoDup_app. split; [done|]. split; [|apply NoDup_singleton].
      intros i (q & -> & Hq)%list_elem_of_fmap E%list_elem_of_singleton. specialize (Hf q Hq). cbn in E. lia.
    + intros q [Hq| ->%list_elem_of_singleton]%elem_of_app; [specialize (Hf q Hq); lia|done].
    + intros q [Hq| ->%list_elem_of_singleton]%elem_of_app; [by apply Hk, Ha|by eapply Hk, creation_accepted].
    + assert (map pm_id (update_where (fun q => pm_id q =? pm_id p) f (poams d)) = map pm_id (poams d)) as ->; [|done].
      unfold update_where. rewrite map_map. apply map_ext_in. intros q Hq. destruct (Z.eqb_spec (pm_id q) (pm_id p)) as [E|]; [|done].
      rewrite (Hu q ltac:(by apply list_elem_of_In) E). by eapply row_change_id.
    + intros q Hq. destruct (changed_row _ _ _ _ Hu Hq) as [ ->|Hq']; [rewrite (row_change_id _ _ _ _ Hc); specialize (Hf p Hp)|specialize (Hf q Hq')]; lia.
    + intros q Hq. destruct (changed_row _ _ _ _ Hu Hq) as [ ->|Hq']; apply Hk; [eapply row_change_accepted; [done|]|]; by apply Ha.
  - split; rewrite ?Ep; try done.
    + by eapply Approvals.step_ok.
    + intros p Hp. specialize (Hf p Hp). lia.
    + intros p Hp. eapply acceptance_approvals; [|by apply Ha]. intros a. exact (approved_rows_are_final auth _ _ Hw Hs a).
Qed.

(** Runs of requests, by anyone, on any day, with what the rest of the program does to the
    engine's tables between them. *)
Definition leaves_poams (d d' : Desk) : Prop :=
  poams d' = poams d /\ dk_approvals d' = dk_approvals d /\ dk_projects d' = dk_projects d /\ db_seq (desk_db d) <= db_seq (desk_db d').
Inductive desk_run (auth : bool) : Desk -> Desk -> Prop :=
| dr_nil d : desk_run auth d d
| dr_serve d d1 caller today now r : desk_run auth d d1 -> desk_run auth d (serve auth caller today now r d1)
| dr_elsewhere d d1 d2 : desk_run auth d d1 -> leaves_poams d1 d2 -> desk_run auth d d2.

Lemma leaves_ok auth d d' : leaves_poams d d' -> desk_ok auth d -> desk_ok auth d'.
Proof.
  intros (Ep & Ea & Er & Hseq) [Hw Hi Hf Ha]. split; rewrite ?Ep; [by eapply workflow_ok_poams|done|intros p Hp; specialize (Hf p Hp); lia|].
  intros p Hp. eapply acceptance_approvals; [|by apply Ha]. by rewrite Ea.
Qed.

(** C5: an acceptance stays on record with its reasons. Whatever requests are made, by
    whomever, a POA&M whose risk is accepted has an owner, a due date and a written
    rationale that is not blank; with authentication on it also has an approval, given by
    someone other than who asked for it. POA&Ms keep distinct ids, and the approval
    workflow stays sound. *)
Theorem acceptances_stay_on_record auth d d' :
  desk_run auth d d' -> desk_ok auth d ->
  desk_ok auth d' /\
  (auth = true -> forall p, p ∈ poams d' -> pm_status p = "risk_accepted" ->
   exists a, a ∈ dk_approvals d' /\ is_entity "poam" (pretty (pm_id p)) a = true /\ ap_state a = "approved" /\
     is_Some (ap_reviewed_at a) /\ both_named_same (ap_reviewed_by a) (ap_submitted_by a) = false).
Proof.
  intros Hr H0. assert (H : desk_ok auth d').
  { induction Hr as [d|d d1 caller today now r Hr IH|d d1 d2 Hr IH He]; [done|eapply served_ok; [apply serve_spec|by apply IH]|eapply leaves_ok; [done|by apply IH]]. }
  split; [done|]. intros -> p Hp Hs. destruct (dok_accepted _ _ H p Hp Hs) as (_ & _ & _ & Hap). destruct (Hap eq_refl) as (a & Hin & He & Hst).
  exists a. destruct (ok_rows _ _ (dok_workflow _ _ H) a Hin) as [_ _ _ Hdec Hdut]. split_and!; [done..|apply Hdec; by left|apply Hdut; [done|by left]].
Qed.

(** What shows that a weakness is gone, and that two people agree it is. *)
Definition closure_proven (d : Desk) (p : POAM) : Prop :=
  (pm_milestones p <> [] /\ forall m, m ∈ pm_milestones p -> ms_status m = "completed") \/
  (exists ev i day, ev ∈ dk_evidence d /\ i ∈ dk_impls d /\ de_implementation_id ev = Some (ir_id i) /\ ir_system_id i = pm_system_id p /\
     pm_control_id p = Some (ir_control_id i) /\ de_collected_on ev = Some day /\ forall since, pm_identified_on p = Some since -> since <= day).
Definition approved_by_another (d : Desk) (eid : string) : Prop :=
  exists a, a ∈ dk_approvals d /\ is_entity "poam" eid a = true /\ ap_state a = "approved" /\ both_named_same (ap_reviewed_by a) (ap_submitted_by a) = false.

Lemma closure_evidence_spec p d : has_closure_evidence p d = true -> closure_proven d p.
Proof.
  unfold has_closure_evidence. destruct (pm_control_id p) as [c|] eqn:Ec; [|done]. intros (ev & Hev & (i & Hi & Hp)%existsb_exists)%existsb_exists. right.
  unfold proves_closure in Hp. rewrite !andb_true_iff in Hp. destruct Hp as [[[Hd%bool_decide_eq_true_1 Hs%Z.eqb_eq] Hc%Z.eqb_eq] Hday].
  destruct (de_collected_on ev) as [day|] eqn:Ed; [|done]. exists ev, i, day. split_and!; [by apply list_elem_of_In|by apply list_elem_of_In|done|done|congruence|done|].
  intros since Hsince. rewrite Hsince in Hday. lia.
Qed.

Lemma closure_gate_proves auth id p d : desk_ok auth d -> closure_gate auth id p d = Ok None ->
  closure_proven d p /\ (auth = true -> approved_by_another d (poam_key id)).
Proof.
  intros H [Hv Ha]%closure_gate_open. split.
  - destruct Hv as [[Hne Hall]%andb_true_iff|Hev]; [left|by apply closure_evidence_spec].
    split; [by apply negb_true_iff, bool_decide_eq_false_1 in Hne|]. intros m Hm. rewrite forallb_forall in Hall. apply list_elem_of_In, Hall in Hm. by apply bool_decide_eq_true_1 in Hm.
  - intros Hau. destruct (Ha Hau) as (a & Hin & He & Hs). exists a. split_and!; [done..|].
    destruct (ok_rows _ _ (dok_workflow _ _ H) a Hin) as [_ _ _ _ Hdut]. apply Hdut; [done|by left].
Qed.

(** C6: closing is earned. A POA&M that a request turns closed had all its milestones, at
    least one, completed, or dated evidence on its own system and control no older than
    the weakness; and with authentication on an approval of that very POA&M by someone
    other than who asked for it. One that is born closed had such evidence, but the
    approval it needed is that of an entity called None. *)
Theorem closing_is_earned auth caller today now r d p' :
  desk_ok auth d -> p' ∈ poams (serve auth caller today now r d) -> pm_status p' = "closed" ->
  (exists p, p ∈ poams d /\ pm_id p = pm_id p' /\ pm_status p = "closed") \/
  (exists p, p ∈ poams d /\ pm_id p = pm_id p' /\ closure_proven d p /\ (auth = true -> approved_by_another d (pretty (pm_id p')))) \/
  ((forall q, q ∈ poams d -> pm_id q <> pm_id p') /\ closure_proven d p' /\ (auth = true -> approved_by_another d "None")).
Proof.
  intros H Hin Hc. destruct (serve_spec auth caller today now r d) as [_ [(He & _ & _)|(Ep & _)]]; [|left; exists p'; by rewrite Ep in Hin].
  remember (poams (serve auth caller today now r d)) as l eqn:El. destruct He as [|body Hg Hlt|p f Hp Hu Hch].
  - left. by exists p'.
  - apply elem_of_app in Hin as [Hin| ->%list_elem_of_singleton]; [left; by exists p'|]. right; right.
    unfold creation_gate in Hg. change (pm_status (new_poam 0 body)) with (pm_status (new_poam (db_seq (desk_db d)) body)) in Hg. rewrite Hc in Hg.
    split; [intros q Hq; pose proof (dok_fresh _ _ H q Hq); cbn; lia|]. exact (closure_gate_proves _ None _ _ H Hg).
  - destruct (changed_row _ _ _ _ Hu Hin) as [ ->|Hq]; [|left; by exists p'].
    destruct (decide (pm_status p = "closed")) as [Hold|Hold]; [left; exists p; by rewrite (row_change_id _ _ _ _ Hch)|]. right; left. exists p.
    rewrite (row_change_id _ _ _ _ Hch). split; [done|]. split; [done|].
    destruct Hch as [u Hs Hg|today' Hg|ms]; [|by apply (closure_gate_proves _ (Some (pm_id p)))|done].
    apply (closure_gate_proves _ (Some (pm_id p))); [done|]. unfold update_gate in Hg. destruct (blanks_rationale u p); [done|].
    cbn [apply_poam_update pm_status] in Hc. destruct (pu_status u) as [s|] eqn:Eu; [|done]. cbn in Hc. subst s. exact Hg.
Qed.

(** ** Reach *)

Lemma foreign_poam {A} caller pid d (k : POAM -> reply A) : (forall p, p ∈ poams d -> pm_id p = pid -> own_system caller (pm_system_id p) d = false) ->
  NoDup (map pm_id (poams d)) -> with_poam caller pid d k = denied 404 "poam not found" d.
Proof.
  intros Hf Hn. unfold with_poam, require_poam, denied. destruct (scalar_one_or_none _) as [[p|]|x] eqn:E; cbn [res_bind].
  - destruct (scalar_find _ _ _ E) as (Hin & Hid%Z.eqb_eq & _). by rewrite (Hf p Hin Hid).
  - done.
  - exfalso. unfold scalar_one_or_none in E. destruct (List.filter _ _) as [|a [|b l]] eqn:El; [done..|].
    assert (NoDup (map pm_id (List.filter (fun p => pm_id p =? pid) (poams d)))) as Hnf by by apply nodup_filter. rewrite El in Hnf. cbn [map] in Hnf.
    assert (forall q, q ∈ a :: b :: l -> pm_id q = pid) as Hid by (intros q Hq; rewrite <-El in Hq; apply list_elem_of_In, filter_In in Hq as [_ Hq%Z.eqb_eq]; done).
    apply NoDup_cons in Hnf as [Hna _]. apply Hna. rewrite (Hid a), <-(Hid b) by (by left || (right; by left)). by left.
Qed.

(** C8: POA&Ms stay in reach. Reading, changing or closing a POA&M of a system outside the
    caller's organization, or of none, or touching its milestones, is answered 404, or 422
    when the body is malformed, and changes no table; so is opening one on such a system;
    and the list shows only POA&Ms of the organization's systems. *)
Theorem poams_stay_in_reach auth caller pid today now d :
  NoDup (map pm_id (poams d)) ->
  (forall p, p ∈ poams d -> pm_id p = pid -> own_system caller (pm_system_id p) d = false) ->
  let out {A} (m : reply A) := exists r, m = (Ok (inl r), d) /\ (rs_status r = 404 \/ rs_status r = 422) in
  out (get_poam caller pid today d) /\ (forall u, out (update_poam auth caller pid u today now d)) /\ out (close_poam auth caller pid today now d) /\
  (forall b, out (add_milestone caller pid b d)) /\ (forall mid u, out (update_milestone caller pid mid u today d)) /\
  (forall body, own_system caller (pc_system_id body) d = false -> out (create_poam auth caller body today d)) /\
  (forall sys st v, v ∈ list_poams caller sys st today d -> pv_poam v ∈ poams d /\ own_system caller (pm_system_id (pv_poam v)) d = true).
Proof.
  intros Hn Hf. cbv zeta. pose proof (fun A k => @foreign_poam A caller pid d k Hf Hn) as H404.
  assert (H0 : forall A, exists r, @denied A 404 "poam not found" d = (Ok (inl r), d) /\ (rs_status r = 404 \/ rs_status r = 422)) by (intros A; eexists; split; [done|by left]).
  unfold get_poam, update_poam, close_poam, add_milestone, update_milestone. rewrite !H404. split_and!; [apply H0| |apply H0|..].
  - intros u. rewrite H404. destruct (negb _); [|apply H0]. eexists. split; [done|by right].
  - intros b. rewrite H404. destruct (negb _); [|apply H0]. eexists. split; [done|by right].
  - intros mid u. rewrite H404. destruct (negb _); [|apply H0]. eexists. split; [done|by right].
  - intros body Ho. unfold create_poam. destruct (negb _); [eexists; split; [done|by right]|]. rewrite Ho. eexists. split; [done|by left].
  - intros sys st v Hv. unfold list_poams in Hv. apply list_elem_of_fmap in Hv as (p & -> & Hp). cbn [pv_poam poam_out].
    rewrite stable_sort_perm in Hp. apply list_elem_of_In, filter_In in Hp as [Hp Hc]. split; [by apply list_elem_of_In|].
    by apply andb_true_iff in Hc as [[Hc _]%andb_true_iff _].
Qed.

(** ** A closure asks for a fresh assessment *)

Lemma from_poam_ok i e : engine_ok e -> exists o, scalar_one_or_none (List.filter (from_poam i) (en_proposals e)) = Ok o.
Proof.
  intros H. destruct H as [_ _ Hs _ _ _ _ _]. assert (forall l, NoDup (omap cp_source_poam_id l) -> (List.length (List.filter (from_poam i) l) <= 1)%nat) as Hl.
  { intros l. induction l as [|p l IH]; [cbn; lia|]. cbn [omap list_omap List.filter]. unfold from_poam at 1. destruct (cp_source_poam_id p) as [k|] eqn:Ek; intros Hnd.
    - apply NoDup_cons in Hnd as [Hk Hnd]. case_bool_decide as E; [|by apply IH]. injection E as ->.
      destruct (List.filter (from_poam i) l) as [|q r] eqn:El; [cbn; lia|]. exfalso. apply Hk.
      assert (q ∈ List.filter (from_poam i) l) as Hq by (rewrite El; by left). apply list_elem_of_In, filter_In in Hq as [Hq Hi].
      apply list_elem_of_omap. exists q. split; [by apply list_elem_of_In|]. unfold from_poam in Hi. by apply bool_decide_eq_true_1 in Hi.
    - rewrite bool_decide_eq_false_2 by done. by apply IH. }
  specialize (Hl _ Hs). destruct (List.filter _ _) as [|a [|b l]]; [by eexists..|cbn in Hl; lia].
Qed.

Lemma reevaluation_queued i ref org r now e : engine_ok e -> result_named ref e = Ok (Some r) -> organization_of (ar_assessment_id r) e = Some org ->
  exists j e', enqueue_reevaluation i ref org now e = Ok (Some j, e') /\ engine_ok e' /\
    exists q, q ∈ en_proposals e' /\ cp_source_poam_id q = Some i /\ lcount (outstanding (cp_id q) e') (en_jobs e') = 1.
Proof.
  intros H Hr Ho. unfold enqueue_reevaluation. rewrite Hr. cbn [res_bind]. rewrite Ho, bool_decide_eq_true_2 by done. cbn [negb].
  assert (exists p e1, open_reevaluation_proposal r i e = Ok (p, e1) /\ p ∈ en_proposals e1 /\ cp_source_poam_id p = Some i) as (p & e1 & Eo & Hp & Hs).
  { unfold open_reevaluation_proposal. destruct (from_poam_ok i e H) as [[q|] E]; rewrite E; cbn [res_bind].
    - destruct (scalar_find _ _ _ E) as (Hq & Hi & _). exists q, e. split_and!; [done..|]. unfold from_poam in Hi. by apply bool_decide_eq_true_1 in Hi.
    - rewrite Ho. unfold add_proposal, engine_id, next_id. eexists _, _. split; [done|]. split; [apply elem_of_app; right; by left|done]. }
  rewrite Eo. cbn [res_bind]. destruct (open_again_ok _ _ _ _ _ H Eo) as [H1 _]. pose proof (enqueue_ok p now e1 H1) as H2.
  assert (Ep : en_proposals (enqueue_for p now e1).2 = en_proposals e1) by (unfold enqueue_for; by destruct (newest_job _)).
  destruct (enqueue_for p now e1) as [j e2]. destruct H2 as (H2 & _ & Hj & Ht & Hst). cbn [snd] in Ep. exists j, e2. split_and!; [done..|]. exists p. rewrite Ep. split_and!; [done..|].
  pose proof (eo_one_job _ H2 (cp_id p)) as Hle. assert (0 < lcount (outstanding (cp_id p) e2) (en_jobs e2)); [|lia].
  assert (outstanding (cp_id p) e2 j = true) as Hout by (unfold outstanding; by rewrite Ht, Hst, bool_decide_eq_true_2).
  destruct (Z.eq_dec (lcount (outstanding (cp_id p) e2) (en_jobs e2)) 0) as [Hz|]; [|pose proof (lcount_bounds (outstanding (cp_id p) e2) (en_jobs e2)); lia].
  exfalso. pose proof (lcount_zero _ _ Hz j Hj) as Hf. cbv beta in Hf. congruence.
Qed.

Lemma engine_ok_db db e : db_seq (en_db e) <= db_seq db -> engine_ok e -> engine_ok (put_en_db db e).
Proof. intros Hs H. apply (engine_ok_same e); try done; by destruct H. Qed.

Lemma find_own caller pid p d : NoDup (map pm_id (poams d)) -> p ∈ poams d -> pm_id p = pid -> own_system caller (pm_system_id p) d = true ->
  require_poam caller pid d = Ok (inr p).
Proof.
  intros Hn Hp <- Ho. unfold require_poam. assert (scalar_one_or_none (List.filter (fun q => pm_id q =? pm_id p) (poams d)) = Ok (Some p)) as ->; [|by cbn [res_bind]; rewrite Ho].
  assert (List.filter (fun q => pm_id q =? pm_id p) (poams d) = [p]) as ->; [|done].
  induction (poams d) as [|q l IH]; [by apply not_elem_of_nil in Hp|]. cbn [map] in Hn. apply NoDup_cons in Hn as [Hq Hn]. cbn [List.filter].
  apply elem_of_cons in Hp as [->|Hp].
  - rewrite Z.eqb_refl. f_equal. assert (forall k, k ∈ l -> (pm_id k =? pm_id q) = false) as Hk.
    { intros k Hk. apply Z.eqb_neq. intros E. apply Hq. rewrite <-E. by apply list_elem_of_fmap_2. }
    clear -Hk. induction l as [|k l IH]; [done|]. cbn [List.filter]. rewrite (Hk k) by by left. apply IH. intros m Hm. apply Hk. by right.
  - rewrite IH by done. rewrite (proj2 (Z.eqb_neq _ _)); [done|]. intros E. apply Hq. rewrite E. by apply list_elem_of_fmap_2.
Qed.

(** C7: closing a POA&M asks for its control to be assessed again, once. When the POA&M
    came from a finding of record of its own organization, closing it leaves a
    re-evaluation proposal for that very POA&M with exactly one outstanding job, on sound
    engine tables, whether or not one was there before; no finding of record changes; and
    closing it again, whenever and by whomever, queues nothing more. *)
Theorem closing_reopens_the_assessment auth caller pid today now d p ref r :
  engine_ok (dk_engine d) -> NoDup (map pm_id (poams d)) -> p ∈ poams d -> pm_id p = pid -> own_system caller (pm_system_id p) d = true ->
  pm_status p <> "closed" -> closure_gate auth (Some pid) p d = Ok None -> pm_source_ref p = Some ref ->
  result_named ref (dk_engine d) = Ok (Some r) -> (exists org, organization_of (ar_assessment_id r) (dk_engine d) = Some org /\ system_org (pm_system_id p) d = Some org) ->
  let e' := dk_engine (close_poam auth caller pid today now d).2 in
  engine_ok e' /\ en_results e' = en_results (dk_engine d) /\
  (exists q, q ∈ en_proposals e' /\ cp_source_poam_id q = Some pid /\ lcount (outstanding (cp_id q) e') (en_jobs e') = 1) /\
  forall caller' today' now',
    let e'' := dk_engine (close_poam auth caller' pid today' now' (close_poam auth caller pid today now d).2).2 in
    en_proposals e'' = en_proposals e' /\ en_jobs e'' = en_jobs e' /\ en_targets e'' = en_targets e'.
Proof.
  intros He Hn Hp Hid Ho Hs Hg Href Hr (org & Horg & Hsys). subst pid.
  assert (Hd : (close_poam auth caller (pm_id p) today now d).2 = maybe_enqueue_reevaluation (set_poam_closed today p) now
            (said "closed" ("POA&M closed: " +:+ pm_title p) caller (pm_id p) (assign_poam (pm_id p) (set_poam_closed today) d))).
  { unfold close_poam, with_poam. rewrite (find_own _ _ _ _ Hn Hp eq_refl Ho). unfold guarded. rewrite Hg, bool_decide_eq_false_2 by done. cbn [negb]. apply reread_same. }
  set (d1 := said _ _ _ _ _) in Hd. cbv zeta. rewrite Hd.
  assert (He1 : engine_ok (dk_engine d1)) by (unfold d1, said, put_db, put_engine; cbn [dk_engine]; apply engine_ok_db; [cbn; lia|]; apply engine_ok_db; [cbn; unfold desk_db; lia|done]).
  assert (Hpoams : poams (maybe_enqueue_reevaluation (set_poam_closed today p) now d1) = update_where (fun q => pm_id q =? pm_id p) (set_poam_closed today) (poams d)) by by rewrite (proj2 (enqueued_frame _ _ _)).
  assert (Hnz : str_truthy ref = true) by (unfold result_named, startswith in Hr; by destruct ref).
  destruct (reevaluation_queued (pm_id p) ref org r now (dk_engine d1) He1) as (j & e2 & Eq & He2 & q & Hq1 & Hq2 & Hq3); [exact Hr|exact Horg|].
  assert (Em : maybe_enqueue_reevaluation (set_poam_closed today p) now d1 = put_engine e2 d1).
  { unfold maybe_enqueue_reevaluation. change (pm_source_ref (set_poam_closed today p)) with (pm_source_ref p). rewrite Href.
    assert (Ex : or_empty (Some ref) = ref) by done. rewrite Ex, Hnz. cbn [negb].
    change (system_org (pm_system_id (set_poam_closed today p)) d1) with (system_org (pm_system_id p) d). rewrite Hsys.
    change (pm_id (set_poam_closed today p)) with (pm_id p). by rewrite Eq. }
  rewrite Em in Hpoams |- *. cbn [dk_engine put_engine]. split; [done|]. split; [by destruct (reevaluate_ok _ _ _ _ _ _ _ He1 Eq) as [_ [-> _]]|].
  split; [by exists q|]. intros caller' today' now'. set (d2 := put_engine e2 d1) in *. unfold close_poam.
  apply (with_poam_cases (fun d3 => en_proposals (dk_engine d3) = en_proposals e2 /\ en_jobs (dk_engine d3) = en_jobs e2 /\ en_targets (dk_engine d3) = en_targets e2)); [done|].
  intros k Hk Ek _ _. rewrite Hpoams in Hk. assert (pm_status k = "closed") as Hkc.
  { apply list_elem_of_fmap in Hk as (m & -> & _). destruct (Z.eqb_spec (pm_id m) (pm_id p)); done. }
  apply (guarded_cases (fun d3 => en_proposals (dk_engine d3) = en_proposals e2 /\ en_jobs (dk_engine d3) = en_jobs e2 /\ en_targets (dk_engine d3) = en_targets e2)); [done|].
  intros _. rewrite Hkc. cbn. by rewrite reread_same.
Qed.

(** ** A worked example *)

Definition ann : Principal := {| pr_user_id := Some 3; pr_email := "ann"; pr_org_id := Some 5; pr_role := "analyst" |}.
Definition bob : Principal := {| pr_user_id := Some 4; pr_email := "bob"; pr_org_id := Some 5; pr_role := "admin" |}.
Definition eve : Principal := {| pr_user_id := Some 6; pr_email := "eve"; pr_org_id := Some 6; pr_role := "admin" |}.
Definition demo_poam : POAM :=
  {| pm_id := 1; pm_system_id := 2; pm_control_id := Some 7; pm_title := "AC-2 — other than satisfied"; pm_weakness := None; pm_severity := "moderate"; pm_status := "open";
     pm_source := Some "assessment"; pm_remediation_plan := None; pm_plan_source := "analyst"; pm_identified_on := Some 100; pm_due_on := Some 190;
     pm_original_due_on := Some 190; pm_source_ref := Some "assessment_control_result:11"; pm_scanner := None; pm_finding_uid := None; pm_closed_on := None;
     pm_acceptance_rationale := None; pm_milestones := []; pm_details := no_details |}.
Definition demo_result : ControlResult :=
  {| ar_id := 11; ar_assessment_id := 9; ar_control_id := "AC-2"; ar_nist_id := Some "AC-2"; ar_finding := "other_than_satisfied"; ar_objective_findings := [];
     ar_assessor_note := None; ar_reviewed := true; ar_reviewer := Some "alice" |}.
(** The weakness was found on day 100; evidence on the control dates from day 120. *)
Definition demo_desk : Desk :=
  {| dk_engine := put_en_db (set_poams [demo_poam] Assessor.demo_db) (put_results [demo_result] (put_proposals [] demo_engine)); dk_approvals := []; dk_projects := [];
     dk_impls := [{| ir_id := 8; ir_system_id := 2; ir_control_id := 7 |}]; dk_evidence := [{| de_implementation_id := Some 8; de_collected_on := Some 120 |}] |}.
Definition patch (status rationale : option string) (owner : option Z) : POAMUpdate :=
  {| pu_title := None; pu_weakness := None; pu_severity := None; pu_status := status; pu_identified_on := None; pu_due_on := None; pu_closed_on := None; pu_source := None;
     pu_remediation_plan := None; pu_acceptance_rationale := rationale;
     pu_details := {| pd_owner_user_id := owner; pd_point_of_contact := None; pd_resources_required := None; pd_cost_estimate := None; pd_scheduled_completion := None;
                      pd_risk_id := None; pd_vendor_id := None |} |}.
Definition reviewed : Desk := serve true bob 130 2 (RqDecide "poam" "1" true None) (serve true ann 130 1 (RqSubmit "poam" "1") demo_desk).
Definition accepted_desk : Desk := serve true ann 131 3 (RqUpdate 1 (patch (Some "risk_accepted") (Some "Reason A.") (Some 3))) reviewed.
Definition closed_desk : Desk := serve true ann 132 4 (RqClose 1) reviewed.
Definition view (d : Desk) : list (string * option Z * option string) := map (fun p => (pm_status p, pm_closed_on p, pm_acceptance_rationale p)) (poams d).

Lemma demo_desk_ok : desk_ok true demo_desk.
Proof.
  split.
  - split; [intros a Ha; by apply not_elem_of_nil in Ha|intros et eid; unfold at_most_one; cbn; lia|intros a Ha; by apply not_elem_of_nil in Ha].
  - apply NoDup_singleton.
  - intros p ->%list_elem_of_singleton. cbn. lia.
  - intros p ->%list_elem_of_singleton. done.
Qed.

Lemma reviewed_run : desk_run true demo_desk reviewed.
Proof. apply dr_serve, dr_serve, dr_nil. Qed.

Lemma acceptances_stay_on_record_witness :
  view accepted_desk = [("risk_accepted", None, Some "Reason A.")] /\ desk_ok true accepted_desk /\
  exists p, p ∈ poams accepted_desk /\ approved_by_another accepted_desk (pretty (pm_id p)).
Proof.
  assert (Hr : desk_run true demo_desk accepted_desk) by apply dr_serve, reviewed_run.
  destruct (acceptances_stay_on_record true demo_desk accepted_desk Hr demo_desk_ok) as [Hok Hap].
  split; [vm_compute; reflexivity|]. split; [exact Hok|].
  assert (Hs : map pm_status (poams accepted_desk) = ["risk_accepted"]) by (vm_compute; reflexivity).
  destruct (poams accepted_desk) as [|p l] eqn:El; [discriminate|]. injection Hs as Hs _. exists p. split; [by left|].
  destruct (Hap eq_refl p) as (a & H1 & H2 & H3 & _ & H4); [by left|done|]. by exists a.
Defined.

Lemma closing_is_earned_witness :
  view closed_desk = [("closed", Some 132, None)] /\
  forall p', p' ∈ poams closed_desk -> pm_status p' = "closed" ->
  (exists p, p ∈ poams reviewed /\ pm_id p = pm_id p' /\ pm_status p = "closed") \/
  (exists p, p ∈ poams reviewed /\ pm_id p = pm_id p' /\ closure_proven reviewed p /\ (true = true -> approved_by_another reviewed (pretty (pm_id p')))) \/
  ((forall q, q ∈ poams reviewed -> pm_id q <> pm_id p') /\ closure_proven reviewed p' /\ (true = true -> approved_by_another reviewed "None")).
Proof.
  split; [vm_compute; reflexivity|]. intros p' Hp Hs. apply (closing_is_earned true ann 132 4 (RqClose 1)); [|exact Hp|exact Hs].
  exact (served_ok _ _ _ (serve_spec true bob 130 2 _ _) (served_ok _ _ _ (serve_spec true ann 130 1 _ _) demo_desk_ok)).
Defined.

Lemma poams_stay_in_reach_witness :
  own_system eve 2 demo_desk = false /\ exists r, close_poam true eve 1 130 1 demo_desk = (Ok (inl r), demo_desk) /\ (rs_status r = 404 \/ rs_status r = 422).
Proof.
  split; [vm_compute; reflexivity|]. apply (poams_stay_in_reach true eve 1 130 1 demo_desk).
  - apply NoDup_singleton.
  - intros p ->%list_elem_of_singleton _. vm_compute. reflexivity.
Defined.

Lemma demo_desk_engine : engine_ok (dk_engine demo_desk).
Proof. split; cbn; [constructor|constructor|constructor|constructor|apply NoDup_singleton|constructor|intros i; lia|]. intros i [Hi|[Hi|Hi]]; by apply not_elem_of_nil in Hi. Qed.

Lemma closing_reopens_the_assessment_witness :
  let e' := dk_engine (close_poam false ann 1 132 4 demo_desk).2 in
  map jb_status (en_jobs e') = ["pending"] /\ map cp_source_poam_id (en_proposals e') = [Some 1] /\ engine_ok e' /\ en_results e' = [demo_result].
Proof.
  cbv zeta. destruct (closing_reopens_the_assessment false ann 1 132 4 demo_desk demo_poam "assessment_control_result:11" demo_result demo_desk_engine) as (H1 & H2 & _);
    [apply NoDup_singleton|by left|reflexivity|vm_compute; reflexivity|discriminate|vm_compute; reflexivity|reflexivity|vm_compute; reflexivity|exists 5; split; vm_compute; reflexivity|].
  split; [vm_compute; reflexivity|]. split; [vm_compute; reflexivity|]. split; [exact H1|exact H2].
Defined.

(** Closing an accepted POA&M keeps the reason of its acceptance: reopened, it can be
    accepted again without a word, for the old reason. A patch that leaves the acceptance
    clears it. *)
Example superseded_reason :
  let closed := serve true ann 132 4 (RqClose 1) accepted_desk in
  let reopened := serve true ann 133 5 (RqUpdate 1 (patch (Some "open") None None)) closed in
  let again := serve true ann 134 6 (RqUpdate 1 (patch (Some "risk_accepted") None None)) reopened in
  view reopened = [("open", None, Some "Reason A.")] /\ view again = [("risk_accepted", None, Some "Reason A.")] /\
  view (serve true ann 133 5 (RqUpdate 1 (patch (Some "open") None None)) accepted_desk) = [("open", None, None)].
Proof. vm_compute. split_and!; reflexivity. Qed.

(** A patch to completed, which counts as closed, passes no gate and sets no date. *)
Example completed_passes_no_gate : view (serve true ann 130 1 (RqUpdate 1 (patch (Some "completed") None None)) demo_desk) = [("completed", None, None)].
Proof. vm_compute. reflexivity. Qed.

(** With an approval of an entity called None, a POA&M is born closed. *)
Definition born : POAMCreate :=
  {| pc_system_id := 2; pc_control_id := Some 7; pc_title := "t"; pc_weakness := None; pc_severity := "high"; pc_status := "closed"; pc_identified_on := None; pc_due_on := None;
     pc_source := None; pc_remediation_plan := None; pc_acceptance_rationale := None; pc_details := no_details |}.
Example born_closed :
  let approved := serve true bob 130 2 (RqDecide "poam" "None" true None) (serve true ann 130 1 (RqSubmit "poam" "None") demo_desk) in
  map fst (view (serve true ann 130 3 (RqCreate born) approved)) = [("open", None); ("closed", None)] /\
  map fst (view (serve true ann 130 3 (RqCreate born) demo_desk)) = [("open", None)].
Proof. vm_compute. split; reflexivity. Qed.

(** An approver of another organization decides on a POA&M she cannot read. *)
Example foreign_approval :
  let approved := serve true eve 130 2 (RqDecide "poam" "1" true None) (serve true ann 130 1 (RqSubmit "poam" "1") demo_desk) in
  (exists r, get_poam eve 1 130 approved = (Ok (inl r), approved)) /\ map fst (view (serve true ann 132 4 (RqClose 1) approved)) = [("closed", Some 132)].
Proof. vm_compute. split; [by eexists|reflexivity]. Qed.
