(* ===== verification/Risks.v ===== *)
(** The risk register and audit findings ([src/src/ccf/api/routes/risks.py],
    [governance/risk.py] and the findings of [api/routes/grc.py]): scoring, the acceptance
    gate, alerts and mitigation tasks, and the promotion of a finding to a POA&M or a risk.

    The tables are those of [Poams] with the risks, the findings and the engagements'
    organizations. A task's description that is null reads as empty. *)

From S2P Require Import Sla Scanners Systems.
From S2P Require Export Poams.
From S2P Require Import SignIn.

Local Open Scope string_scope.
Local Open Scope Z_scope.

(** ** Scoring ([governance/risk.py]) *)

Definition LEVEL_SCORE : list (string * Z) := [("low", 1); ("moderate", 3); ("high", 5)].
Definition RESIDUAL_FACTOR : list (string * float) :=
  [("mitigate", truediv 4 10); ("transfer", truediv 5 10); ("avoid", truediv 1 10); ("accept", fl_of_Z 1)].
Definition band (score : option Z) : string :=
  match score with
  | None => "unknown"
  | Some s => if s =? 0 then "unknown" else if s <=? 4 then "low" else if s <=? 9 then "moderate" else if s <=? 15 then "high" else "critical"
  end.
Definition level_of (o : option string) : option Z := dget (lower (or_empty o)) LEVEL_SCORE.
Definition compute_scores (likelihood impact treatment : option string) : option Z * option Z :=
  match level_of likelihood, level_of impact with
  | Some lk, Some im =>
      let inherent := lk * im in
      let factor := default (fl_of_Z 1) (dget (lower (or_empty treatment)) RESIDUAL_FACTOR) in
      (Some inherent, Some (Z.max 1 (round0 (fl_mul (fl_of_Z inherent) factor))))
  | _, _ => (None, None)
  end.

(** ** Tables *)

Record Risk := {
  rk_id : Z; rk_system_id : option Z; rk_title : string; rk_description : option string; rk_category : option string; rk_source : option string;
  rk_source_ref : option string; rk_likelihood : option string; rk_impact : option string; rk_treatment : option string; rk_status : string;
  rk_inherent_score : option Z; rk_residual_score : option Z; rk_owner_user_id : option Z; rk_next_review_on : option Z; rk_control_id : option Z;
  rk_vendor_id : option Z; rk_created_at : Z }.
Record AuditFinding := {
  af_id : Z; af_engagement_id : Z; af_title : string; af_severity : string; af_status : string; af_description : option string;
  af_management_response : option string; af_closure_evidence : option string; af_system_id : option Z; af_organization_id : option Z;
  af_poam_id : option Z; af_risk_id : option Z }.
(** Engagements with their organization. *)
Record Register := { rg_desk : Desk; rg_risks : list Risk; rg_findings : list AuditFinding; rg_engagements : list (Z * option Z) }.
Definition put_desk (d : Desk) (g : Register) : Register := {| rg_desk := d; rg_risks := rg_risks g; rg_findings := rg_findings g; rg_engagements := rg_engagements g |}.
Definition put_risks (l : list Risk) (g : Register) : Register := {| rg_desk := rg_desk g; rg_risks := l; rg_findings := rg_findings g; rg_engagements := rg_engagements g |}.
Definition put_findings (l : list AuditFinding) (g : Register) : Register :=
  {| rg_desk := rg_desk g; rg_risks := rg_risks g; rg_findings := l; rg_engagements := rg_engagements g |}.
Definition rg_db (g : Register) : Db := desk_db (rg_desk g).
Definition put_rg_db (db : Db) (g : Register) : Register := put_desk (put_db db (rg_desk g)) g.
Definition rg_id (g : Register) : Z * Register := let '(i, db) := next_id (rg_db g) in (i, put_rg_db db g).

Definition rreply (A : Type) : Type := res (Response + A) * Register.
Definition rdenied {A} (status : Z) (detail : string) (g : Register) : rreply A := (Ok (inl (HTTPException status detail)), g).
Definition rguarded {A} (x : gate_result) (g : Register) (k : rreply A) : rreply A :=
  match x with Err e => (Err e, g) | Ok (Some r) => (Ok (inl r), g) | Ok None => k end.

(** ** Bodies *)

Definition LEVEL : list string := ["low"; "moderate"; "high"].
Definition TREATMENT : list string := ["mitigate"; "transfer"; "accept"; "avoid"].
Definition STATUS : list string := ["open"; "mitigated"; "accepted"; "closed"].
Definition HIGH_RESIDUAL : Z := 15.
(** What a body may set; the fields of a risk's rating and of its bookkeeping. *)
Record RiskBody := {
  rb_title : option string; rb_description : option string; rb_category : option string; rb_source : option string; rb_likelihood : option string;
  rb_impact : option string; rb_treatment : option string; rb_status : option string; rb_owner_user_id : option Z; rb_next_review_on : option Z;
  rb_control_id : option Z; rb_vendor_id : option Z }.
Definition body_valid (b : RiskBody) : bool :=
  matches_opt LEVEL (rb_likelihood b) && matches_opt LEVEL (rb_impact b) && matches_opt TREATMENT (rb_treatment b) && matches_opt STATUS (rb_status b).

Definition rescore (r : Risk) : Risk :=
  let s := compute_scores (rk_likelihood r) (rk_impact r) (rk_treatment r) in
  {| rk_id := rk_id r; rk_system_id := rk_system_id r; rk_title := rk_title r; rk_description := rk_description r; rk_category := rk_category r;
     rk_source := rk_source r; rk_source_ref := rk_source_ref r; rk_likelihood := rk_likelihood r; rk_impact := rk_impact r; rk_treatment := rk_treatment r;
     rk_status := rk_status r; rk_inherent_score := s.1; rk_residual_score := s.2; rk_owner_user_id := rk_owner_user_id r; rk_next_review_on := rk_next_review_on r;
     rk_control_id := rk_control_id r; rk_vendor_id := rk_vendor_id r; rk_created_at := rk_created_at r |}.
Definition apply_risk_body (b : RiskBody) (r : Risk) : Risk :=
  {| rk_id := rk_id r; rk_system_id := rk_system_id r; rk_title := default (rk_title r) (rb_title b); rk_description := given (rb_description b) (rk_description r);
     rk_category := given (rb_category b) (rk_category r); rk_source := given (rb_source b) (rk_source r); rk_source_ref := rk_source_ref r;
     rk_likelihood := given (rb_likelihood b) (rk_likelihood r); rk_impact := given (rb_impact b) (rk_impact r); rk_treatment := given (rb_treatment b) (rk_treatment r);
     rk_status := default (rk_status r) (rb_status b); rk_inherent_score := rk_inherent_score r; rk_residual_score := rk_residual_score r;
     rk_owner_user_id := given (rb_owner_user_id b) (rk_owner_user_id r); rk_next_review_on := given (rb_next_review_on b) (rk_next_review_on r);
     rk_control_id := given (rb_control_id b) (rk_control_id r); rk_vendor_id := given (rb_vendor_id b) (rk_vendor_id r); rk_created_at := rk_created_at r |}.
(** A row not written yet: open, unrated. *)
Definition blank_risk (i : Z) (system_id : option Z) (title : string) (now : Z) : Risk :=
  {| rk_id := i; rk_system_id := system_id; rk_title := title; rk_description := None; rk_category := None; rk_source := None; rk_source_ref := None;
     rk_likelihood := None; rk_impact := None; rk_treatment := None; rk_status := "open"; rk_inherent_score := None; rk_residual_score := None;
     rk_owner_user_id := None; rk_next_review_on := None; rk_control_id := None; rk_vendor_id := None; rk_created_at := now |}.

(** ** The record shown *)

Definition risk_out (approval_state : option string) (r : Risk) : Risk * string * option string := (r, band (rk_residual_score r), approval_state).
Definition risk_view : Type := Risk * string * option string.
Definition risk_shown (r : Risk) (g : Register) : rreply risk_view :=
  match entity_state "risk" (pretty (rk_id r)) (dk_approvals (rg_desk g)) with Ok s => (Ok (inr (risk_out (Some s) r)), g) | Err x => (Err x, g) end.

(** ** Reach and gates *)

Definition in_systems (caller : Principal) (system_id : option Z) (g : Register) : bool :=
  match system_id with Some s => own_system caller s (rg_desk g) | None => true end.
Definition require_risk (caller : Principal) (rid : Z) (g : Register) : res (Response + Risk) :=
  let! row := scalar_one_or_none (List.filter (fun r => rk_id r =? rid) (rg_risks g)) in
  Ok (match row with
      | Some r => if in_systems caller (rk_system_id r) g then inr r else inl (HTTPException 404 "risk not found")
      | None => inl (HTTPException 404 "risk not found")
      end).
Definition with_risk {A} (caller : Principal) (rid : Z) (g : Register) (k : Risk -> rreply A) : rreply A :=
  match require_risk caller rid g with Err x => (Err x, g) | Ok (inl r) => (Ok (inl r), g) | Ok (inr r) => k r end.
Definition owned_until (owner_user_id next_review_on : option Z) : bool := negb (bool_decide (owner_user_id = None)) && negb (bool_decide (next_review_on = None)).
Definition acceptance_gate (auth_enabled : bool) (owner_user_id next_review_on : option Z) (rid : Z) (g : Register) : gate_result :=
  if negb (owned_until owner_user_id next_review_on) then
    Ok (Some (HTTPException 409 "risk acceptance requires an owner (owner_user_id) and an expiration/next_review_on date"))
  else if negb auth_enabled then Ok None else
  let! state := entity_state "risk" (pretty rid) (dk_approvals (rg_desk g)) in
  Ok (if bool_decide (state = "approved") then None
      else Some (HTTPException 409 "risk acceptance requires an approved authorizing-official review (submit for approval, then have an AO/admin approve it)")).

(** ** After a write *)

Definition risk_key (r : Risk) : string := "risk-mitigate:" +:+ pretty (rk_id r).
Definition high_key (r : Risk) : string := "risk-high:" +:+ pretty (rk_id r).
Definition keyed_task (k : string) (t : Task) : bool := bool_decide (tk_dedupe_key t = Some k).
Definition residual_text (r : Risk) : string := match rk_residual_score r with Some s => if s =? 0 then "?" else pretty s | None => "?" end.
Definition alarming (r : Risk) : bool :=
  match rk_residual_score r with Some s => HIGH_RESIDUAL <=? s | None => false end && negb (mem (rk_status r) ["closed"; "accepted"]).
Definition mitigation_task (i : Z) (org : option Z) (r : Risk) : Task :=
  {| tk_id := i; tk_organization_id := org; tk_system_id := rk_system_id r; tk_title := "Mitigate risk: " +:+ rk_title r; tk_description := or_empty (rk_description r);
     tk_kind := "remediation"; tk_priority := if HIGH_RESIDUAL <=? default 0 (rk_residual_score r) then "high" else "medium"; tk_status := "open"; tk_source := "auto";
     tk_entity_type := "risk"; tk_entity_id := pretty (rk_id r); tk_dedupe_key := Some (risk_key r); tk_due_on := rk_next_review_on r; tk_closed_at := None |}.
Definition to_mitigate (r : Risk) : bool := bool_decide (rk_treatment r = Some "mitigate") && bool_decide (rk_status r = "open").
Definition open_mitigation (caller : Principal) (r : Risk) (db : Db) : res Db :=
  if negb (to_mitigate r) then Ok db else
  let! existing := scalar_one_or_none (List.filter (keyed_task (risk_key r)) (db_tasks db)) in
  Ok (match existing with
      | Some _ => db
      | None => let '(i, db) := next_id db in set_tasks (db_tasks db ++ [mitigation_task i (pr_org_id caller) r])%list db
      end).
Definition alert_high (caller : Principal) (r : Risk) (db : Db) : res Db :=
  if negb (alarming r) then Ok db else
  notify "risk" ("High residual risk: " +:+ rk_title r) (pr_org_id caller) "critical"
    (Some ("Residual exposure " +:+ residual_text r +:+ "/25 (" +:+ band (rk_residual_score r) +:+ ").")) "risk" (pretty (rk_id r)) (Some (high_key r)) db.
Definition post_write (caller : Principal) (verb : string) (r : Risk) (db : Db) : res Db :=
  let db := ControlTests.emit verb "risk" ("Risk " +:+ verb +:+ ": " +:+ rk_title r +:+ " (residual " +:+ residual_text r +:+ ")") (pr_org_id caller)
              (Some (pr_email caller)) (Some (pretty (rk_id r))) db in
  let! db := alert_high caller r db in open_mitigation caller r db.
(** The write and its consequences, committed, or nothing. *)
Definition commit_risk (caller : Principal) (verb : string) (r : Risk) (before after : Register) : rreply risk_view :=
  match post_write caller verb r (rg_db after) with
  | Err x => (Err x, before)
  | Ok db => risk_shown r (put_rg_db db after)
  end.

(** ** Requests *)

Definition get_risk (caller : Principal) (rid : Z) (g : Register) : rreply risk_view := with_risk caller rid g (fun r => risk_shown r g).
Definition create_gate (auth_enabled : bool) (b : RiskBody) : gate_result :=
  if negb (bool_decide (rb_status b = Some "accepted")) then Ok None
  else if negb (owned_until (rb_owner_user_id b) (rb_next_review_on b)) then
    Ok (Some (HTTPException 409 "risk acceptance requires an owner (owner_user_id) and an expiration/next_review_on date"))
  else Ok (if auth_enabled then Some (HTTPException 409 "risk acceptance requires an approved authorizing-official review; create the risk first, then accept it once approved") else None).
(** The system a row names exists, or the insert fails. *)
Definition known_system (system_id : option Z) (g : Register) : bool :=
  match system_id with Some s => negb (bool_decide (system_org s (rg_desk g) = None)) | None => true end.
Definition create_risk (auth_enabled : bool) (caller : Principal) (title : string) (system_id : option Z) (b : RiskBody) (now : Z) (g : Register) : rreply risk_view :=
  if negb (body_valid b) then rdenied 422 "validation error" g
  else if negb (in_systems caller system_id g) then rdenied 404 "system not found" g else
  rguarded (create_gate auth_enabled b) g
  (if negb (known_system system_id g) then (Err IntegrityError, g) else
   let '(i, g') := rg_id g in
   let r := rescore (apply_risk_body b (blank_risk i system_id title now)) in
   commit_risk caller "created" r g (put_risks (rg_risks g' ++ [r])%list g')).
Definition patch_gate (auth_enabled : bool) (b : RiskBody) (r : Risk) (g : Register) : gate_result :=
  if bool_decide (rb_status b = Some "accepted") then
    acceptance_gate auth_enabled (given (rb_owner_user_id b) (rk_owner_user_id r)) (given (rb_next_review_on b) (rk_next_review_on r)) (rk_id r) g
  else Ok None.
Definition update_risk (auth_enabled : bool) (caller : Principal) (rid : Z) (b : RiskBody) (g : Register) : rreply risk_view :=
  if negb (body_valid b) then rdenied 422 "validation error" g else
  with_risk caller rid g (fun r =>
    rguarded (patch_gate auth_enabled b r g) g
    (let f r := rescore (apply_risk_body b r) in
     commit_risk caller "updated" (f r) g (put_risks (update_where (fun r => rk_id r =? rid) f (rg_risks g)) g))).

Definition residual_before (a b : Risk) : bool :=
  match rk_residual_score a, rk_residual_score b with
  | Some x, Some y => (y <? x) || ((x =? y) && (rk_created_at b <=? rk_created_at a))
  | Some _, None => true
  | None, Some _ => false
  | None, None => rk_created_at b <=? rk_created_at a
  end.
Definition of_systems (caller : Principal) (r : Risk) (g : Register) : bool :=
  match pr_org_id caller, rk_system_id r with None, _ => true | Some _, Some s => own_system caller s (rg_desk g) | Some _, None => false end.
Definition list_risks (caller : Principal) (system_id : option Z) (status : option string) (g : Register) : list risk_view :=
  let rows := stable_sort residual_before (List.filter (fun r => of_systems caller r g &&
    match system_id with Some s => bool_decide (rk_system_id r = Some s) | None => true end &&
    (negb (str_truthy (or_empty status)) || bool_decide (rk_status r = or_empty status))) (rg_risks g)) in
  let states := entity_states "risk" (map (fun r => pretty (rk_id r)) rows) (dk_approvals (rg_desk g)) in
  map (fun r => risk_out (states !! pretty (rk_id r)) r) rows.
Definition BANDS : list string := ["low"; "moderate"; "high"; "critical"; "unknown"].
Definition rated (lk im : string) (r : Risk) : bool := bool_decide (rk_likelihood r = Some lk) && bool_decide (rk_impact r = Some im).
Record Heatmap := { hm_open_total : Z; hm_matrix : list (list Z); hm_by_residual_band : list Z; hm_top : list risk_view }.
Definition score_before (a b : Risk) : bool := default 0 (rk_residual_score b) <=? default 0 (rk_residual_score a).
(** Rows and columns in the order of [LEVEL], bands in the order of [BANDS]. *)
Definition heatmap (caller : Principal) (g : Register) : Heatmap :=
  let rows := List.filter (fun r => mem (rk_status r) ["open"; "mitigated"] && of_systems caller r g) (rg_risks g) in
  let top := take 10 (stable_sort score_before rows) in
  let states := entity_states "risk" (map (fun r => pretty (rk_id r)) top) (dk_approvals (rg_desk g)) in
  {| hm_open_total := Z.of_nat (List.length rows); hm_matrix := map (fun lk => map (fun im => lcount (rated lk im) rows) LEVEL) LEVEL;
     hm_by_residual_band := map (fun b => lcount (fun r => bool_decide (band (rk_residual_score r) = b)) rows) BANDS;
     hm_top := map (fun r => risk_out (states !! pretty (rk_id r)) r) top |}.

(** ** Audit findings ([api/routes/grc.py]) *)

Definition find_finding (i : Z) (g : Register) : option AuditFinding := List.find (fun f => af_id f =? i) (rg_findings g).
Definition assign_finding (i : Z) (f : AuditFinding -> AuditFinding) (g : Register) : Register := put_findings (update_where (fun x => af_id x =? i) f (rg_findings g)) g.
Definition same_org (caller : Principal) (org : option Z) : bool :=
  bool_decide (pr_org_id caller = None) || bool_decide (org = None) || bool_decide (org = pr_org_id caller).
Definition with_finding {A} (detail : string) (caller : Principal) (i : Z) (g : Register) (k : AuditFinding -> rreply A) : rreply A :=
  match find_finding i g with
  | Some f => if same_org caller (af_organization_id f) then k f else rdenied 404 detail g
  | None => rdenied 404 detail g
  end.
Record FindingIn := { fi_title : string; fi_severity : string; fi_description : option string; fi_system_id : option Z }.
Record FindingUpdate := { fu_status : option string; fu_management_response : option string; fu_closure_evidence : option string; fu_system_id : option Z }.
Definition new_finding (i engagement : Z) (org : option Z) (b : FindingIn) : AuditFinding :=
  {| af_id := i; af_engagement_id := engagement; af_title := fi_title b; af_severity := fi_severity b; af_status := "open"; af_description := fi_description b;
     af_management_response := None; af_closure_evidence := None; af_system_id := fi_system_id b; af_organization_id := org; af_poam_id := None; af_risk_id := None |}.
Definition add_finding (caller : Principal) (eng_id : Z) (b : FindingIn) (g : Register) : rreply AuditFinding :=
  match List.find (fun e => e.1 =? eng_id) (rg_engagements g) with
  | None => rdenied 404 "engagement not found" g
  | Some (_, org) =>
      if negb (bool_decide (pr_org_id caller = None) || bool_decide (org = pr_org_id caller)) then rdenied 404 "engagement not found" g
      else if negb (in_systems caller (fi_system_id b) g) then rdenied 404 "system not found" g
      else if negb (known_system (fi_system_id b) g) then (Err IntegrityError, g) else
      let '(i, g') := rg_id g in
      let f := new_finding i eng_id org b in
      let g' := put_findings (rg_findings g' ++ [f])%list g' in
      (Ok (inr f), put_rg_db (ControlTests.emit "created" "audit_finding" ("Audit finding raised: " +:+ af_title f) (pr_org_id caller) (Some (pr_email caller)) (Some (pretty i)) (rg_db g')) g')
  end.
Definition get_finding (caller : Principal) (i : Z) (g : Register) : rreply AuditFinding := with_finding "finding not found" caller i g (fun f => (Ok (inr f), g)).
Definition apply_finding_update (u : FindingUpdate) (f : AuditFinding) : AuditFinding :=
  {| af_id := af_id f; af_engagement_id := af_engagement_id f; af_title := af_title f; af_severity := af_severity f; af_status := default (af_status f) (fu_status u);
     af_description := af_description f; af_management_response := given (fu_management_response u) (af_management_response f);
     af_closure_evidence := given (fu_closure_evidence u) (af_closure_evidence f); af_system_id := given (fu_system_id u) (af_system_id f);
     af_organization_id := af_organization_id f; af_poam_id := af_poam_id f; af_risk_id := af_risk_id f |}.
Definition update_finding (caller : Principal) (i : Z) (u : FindingUpdate) (g : Register) : rreply AuditFinding :=
  with_finding "finding not found" caller i g (fun f =>
    if negb (in_systems caller (fu_system_id u) g) then rdenied 404 "system not found" g
    else if bool_decide (fu_status u = Some "closed") && negb (str_truthy (or_empty (given (fu_closure_evidence u) (af_closure_evidence f)))) then
      rdenied 409 "cannot close finding: a closure_evidence artifact/reference is required" g
    else if negb (known_system (fu_system_id u) g) then (Err IntegrityError, g)
    else (Ok (inr (apply_finding_update u f)), assign_finding i (apply_finding_update u) g)).

Definition finding_ref (f : AuditFinding) : string := "audit_finding:" +:+ pretty (af_id f).
Definition link_poam (i : Z) (f : AuditFinding) : AuditFinding :=
  {| af_id := af_id f; af_engagement_id := af_engagement_id f; af_title := af_title f; af_severity := af_severity f; af_status := af_status f;
     af_description := af_description f; af_management_response := af_management_response f; af_closure_evidence := af_closure_evidence f;
     af_system_id := af_system_id f; af_organization_id := af_organization_id f; af_poam_id := Some i; af_risk_id := af_risk_id f |}.
Definition link_risk (i : Z) (f : AuditFinding) : AuditFinding :=
  {| af_id := af_id f; af_engagement_id := af_engagement_id f; af_title := af_title f; af_severity := af_severity f; af_status := af_status f;
     af_description := af_description f; af_management_response := af_management_response f; af_closure_evidence := af_closure_evidence f;
     af_system_id := af_system_id f; af_organization_id := af_organization_id f; af_poam_id := af_poam_id f; af_risk_id := Some i |}.
Definition audit_poam (i system_id today : Z) (f : AuditFinding) : POAM :=
  let severity := if mem (af_severity f) SEVERITIES then af_severity f else "moderate" in
  let due := today + default 90 (dget severity SEVERITY_SLA_DAYS) in
  {| pm_id := i; pm_system_id := system_id; pm_control_id := None; pm_title := "Audit finding: " +:+ af_title f;
     pm_weakness := Some (str_or (or_empty (af_description f)) (af_title f)); pm_severity := severity; pm_status := "open"; pm_source := Some "audit_finding";
     pm_remediation_plan := None; pm_plan_source := "analyst"; pm_identified_on := Some today; pm_due_on := Some due; pm_original_due_on := Some due;
     pm_source_ref := Some (finding_ref f); pm_scanner := None; pm_finding_uid := None; pm_closed_on := None; pm_acceptance_rationale := None; pm_milestones := [];
     pm_details := no_details |}.
(** The finding's system, which a promotion needs, or the refusal. *)
Definition system_for {A} (caller : Principal) (purpose : string) (f : AuditFinding) (g : Register) (k : Z -> rreply A) : rreply A :=
  match af_system_id f with
  | None => rdenied 400 ("audit finding has no system_id set; set one before " +:+ purpose) g
  | Some s => if own_system caller s (rg_desk g) then k s else rdenied 404 "system not found" g
  end.
Definition linked_poam (f : AuditFinding) (g : Register) : option POAM := i ← af_poam_id f; List.find (fun p => pm_id p =? i) (poams (rg_desk g)).
Definition promote_finding_to_poam (caller : Principal) (find_id today : Z) (g : Register) : rreply POAM :=
  with_finding "finding not found" caller find_id g (fun f =>
    match linked_poam f g with
    | Some p => (Ok (inr p), g)
    | None => system_for caller "promoting to a POA&M" f g (fun s =>
        let '(i, g') := rg_id g in
        let p := audit_poam i s today f in
        let g' := assign_finding find_id (link_poam i) (put_desk (put_poams (poams (rg_desk g') ++ [p])%list (rg_desk g')) g') in
        (Ok (inr p), put_rg_db (ControlTests.emit "created" "poam" ("POA&M opened from audit finding: " +:+ pm_title p) (pr_org_id caller) (Some (pr_email caller))
                                  (Some (pretty i)) (rg_db g')) g'))
    end).
Definition linked_risk (f : AuditFinding) (g : Register) : option Risk := i ← af_risk_id f; List.find (fun r => rk_id r =? i) (rg_risks g).
Definition set_origin (f : AuditFinding) (r : Risk) : Risk :=
  {| rk_id := rk_id r; rk_system_id := rk_system_id r; rk_title := rk_title r; rk_description := af_description f; rk_category := rk_category r;
     rk_source := Some "audit_finding"; rk_source_ref := Some (finding_ref f); rk_likelihood := rk_likelihood r; rk_impact := rk_impact r;
     rk_treatment := rk_treatment r; rk_status := rk_status r; rk_inherent_score := rk_inherent_score r; rk_residual_score := rk_residual_score r;
     rk_owner_user_id := rk_owner_user_id r; rk_next_review_on := rk_next_review_on r; rk_control_id := rk_control_id r; rk_vendor_id := rk_vendor_id r;
     rk_created_at := rk_created_at r |}.
(** The overrides the request may carry: category, rating, treatment, owner and review. *)
Definition overrides (b : RiskBody) : RiskBody :=
  {| rb_title := None; rb_description := None; rb_category := rb_category b; rb_source := None; rb_likelihood := rb_likelihood b; rb_impact := rb_impact b;
     rb_treatment := rb_treatment b; rb_status := None; rb_owner_user_id := rb_owner_user_id b; rb_next_review_on := rb_next_review_on b; rb_control_id := None;
     rb_vendor_id := None |}.
Definition create_risk_from_finding (caller : Principal) (finding_id : Z) (body : RiskBody) (now : Z) (g : Register) : rreply risk_view :=
  if negb (body_valid (overrides body)) then rdenied 422 "validation error" g else
  with_finding "audit finding not found" caller finding_id g (fun f =>
    match linked_risk f g with
    | Some r => risk_shown r g
    | None => system_for caller "accepting to a risk" f g (fun s =>
        let '(i, g') := rg_id g in
        let r := rescore (set_origin f (apply_risk_body (overrides body) (blank_risk i (Some s) ("Audit finding: " +:+ af_title f) now))) in
        commit_risk caller "created" r g (assign_finding finding_id (link_risk i) (put_risks (rg_risks g' ++ [r])%list g')))
    end).

(** ** Scores *)

Lemma level_cases o : level_of o = None \/ exists n, level_of o = Some n /\ n ∈ [1; 3; 5].
Proof. unfold level_of, LEVEL_SCORE. cbn [dget]. repeat case_match; simplify_eq; (by left) || (right; eexists; split; [done|set_solver]). Qed.

Definition factor_of (t : option string) : float := default (fl_of_Z 1) (dget (lower (or_empty t)) RESIDUAL_FACTOR).
Lemma factor_cases t : factor_of t ∈ [truediv 4 10; truediv 5 10; truediv 1 10; fl_of_Z 1].
Proof. unfold factor_of, RESIDUAL_FACTOR. cbn [dget]. repeat case_match; simplify_eq; cbn [default from_option]; set_solver. Qed.

Definition residual_of (inherent : Z) (f : float) : Z := Z.max 1 (round0 (fl_mul (fl_of_Z inherent) f)).
Definition SCORES : list Z := [1; 3; 5; 9; 15; 25].
Definition FACTORS : list float := [truediv 1 10; truediv 4 10; truediv 5 10; fl_of_Z 1].

Lemma compute_scores_eq lk im t : compute_scores lk im t =
  match level_of lk, level_of im with Some a, Some b => (Some (a * b), Some (residual_of (a * b) (factor_of t))) | _, _ => (None, None) end.
Proof. reflexivity. Qed.

Lemma factor_known t : factor_of t ∈ FACTORS.
Proof. pose proof (factor_cases t). unfold FACTORS. set_solver. Qed.

Lemma residual_table : forallb (fun s => forallb (fun f => (1 <=? residual_of s f) && (residual_of s f <=? s) && (s <=? 25) &&
    forallb (fun s' => negb (s <=? s') || (residual_of s f <=? residual_of s' f)) SCORES) FACTORS &&
    (residual_of s (truediv 1 10) <=? residual_of s (truediv 4 10)) && (residual_of s (truediv 4 10) <=? residual_of s (truediv 5 10)) &&
    (residual_of s (truediv 5 10) <=? residual_of s (fl_of_Z 1)) && (residual_of s (fl_of_Z 1) =? s)) SCORES = true.
Proof. vm_compute. reflexivity. Qed.

Lemma residual_facts s : s ∈ SCORES ->
  (forall f, f ∈ FACTORS -> 1 <= residual_of s f <= s /\ s <= 25 /\ forall s', s' ∈ SCORES -> s <= s' -> residual_of s f <= residual_of s' f) /\
  residual_of s (truediv 1 10) <= residual_of s (truediv 4 10) <= residual_of s (truediv 5 10) /\
  residual_of s (truediv 5 10) <= residual_of s (fl_of_Z 1) /\ residual_of s (fl_of_Z 1) = s.
Proof.
  intros Hs. pose proof residual_table as H. rewrite forallb_forall in H. specialize (H s (proj1 (list_elem_of_In _ _) Hs)).
  rewrite !andb_true_iff in H. destruct H as [[[[H H1] H2] H3] H4]. rewrite forallb_forall in H. split.
  - intros f Hf. specialize (H f (proj1 (list_elem_of_In _ _) Hf)). rewrite !andb_true_iff in H. destruct H as [[[Ha Hb] Hc] Hd]. split; [lia|]. split; [lia|].
    intros s' Hs' Hle. rewrite forallb_forall in Hd. specialize (Hd s' (proj1 (list_elem_of_In _ _) Hs')). apply orb_true_iff in Hd as [Hd|Hd]; [|lia]. apply negb_true_iff in Hd. lia.
  - lia.
Qed.

Lemma product_known a b : a ∈ [1; 3; 5] -> b ∈ [1; 3; 5] -> a * b ∈ SCORES.
Proof. intros Ha Hb. unfold SCORES. set_unfold in Ha. set_unfold in Hb. destruct Ha as [|[|[|[]]]], Hb as [|[|[|[]]]]; subst; set_solver. Qed.

(** exposure scores are in range and ordered as the treatments are. A risk is scored
    exactly when likelihood and impact are both known levels; then the residual exposure
    lies between 1 and the inherent one, which is at most 25, and has a band; raising a
    level never lowers it; avoiding leaves no more than mitigating, that no more than
    transferring, and accepting, or no treatment that is known, leaves it all. *)
Theorem exposure_is_in_range lk im t :
  (compute_scores lk im t = (None, None) <-> level_of lk = None \/ level_of im = None) /\
  forall a b, level_of lk = Some a -> level_of im = Some b ->
  exists r, compute_scores lk im t = (Some (a * b), Some r) /\ 1 <= r <= a * b /\ a * b <= 25 /\ band (Some r) <> "unknown" /\
    (forall lk' im' a' b', level_of lk' = Some a' -> level_of im' = Some b' -> a <= a' -> b <= b' ->
     exists r', compute_scores lk' im' t = (Some (a' * b'), Some r') /\ r <= r') /\
    (exists avoided mitigated transferred, compute_scores lk im (Some "avoid") = (Some (a * b), Some avoided) /\
       compute_scores lk im (Some "mitigate") = (Some (a * b), Some mitigated) /\ compute_scores lk im (Some "transfer") = (Some (a * b), Some transferred) /\
       avoided <= mitigated <= transferred /\ transferred <= a * b) /\
    (dget (lower (or_empty t)) RESIDUAL_FACTOR = None \/ lower (or_empty t) = "accept" -> r = a * b).
Proof.
  split.
  - rewrite compute_scores_eq. destruct (level_of lk), (level_of im); split; try done; [by intros [|]|by right|by left|by left].
  - intros a b Ha Hb. assert (Hin : forall o n, level_of o = Some n -> n ∈ [1; 3; 5]).
    { intros o n Ho. destruct (level_cases o) as [E|(m & E & Hm)]; rewrite E in Ho; [done|]. by injection Ho as <-. }
    pose proof (product_known _ _ (Hin _ _ Ha) (Hin _ _ Hb)) as Hs. destruct (residual_facts _ Hs) as (Hall & Hord & Hlast & Hfull).
    destruct (Hall _ (factor_known t)) as (Hr & H25 & Hmono). exists (residual_of (a * b) (factor_of t)). rewrite !compute_scores_eq, Ha, Hb.
    split; [done|]. split; [done|]. split; [done|]. split.
    { unfold band. rewrite (proj2 (Z.eqb_neq _ 0)) by lia. by repeat case_match. }
    split; [|split].
    + intros lk' im' a' b' Ha' Hb' Hla Hlb. rewrite compute_scores_eq, Ha', Hb'. eexists. split; [done|]. apply Hmono; [by apply product_known; eapply Hin|].
      assert (0 < a) by (pose proof (Hin _ _ Ha) as Hx; set_unfold in Hx; lia). assert (0 < b) by (pose proof (Hin _ _ Hb) as Hx; set_unfold in Hx; lia). nia.
    + do 3 eexists. split; [done|]. split; [done|]. split; [done|].
      change (factor_of (Some "avoid")) with (truediv 1 10). change (factor_of (Some "mitigate")) with (truediv 4 10). change (factor_of (Some "transfer")) with (truediv 5 10). lia.
    + intros Hno. assert (factor_of t = fl_of_Z 1) as ->; [|done]. unfold factor_of. destruct Hno as [-> | ->]; reflexivity.
Qed.

(** ** The register stays sound *)

(** An accepted risk has an owner and a review date, and with authentication on an
    approval by another. *)
Definition approved_risk (g : Register) (i : Z) : Prop :=
  exists a, a ∈ dk_approvals (rg_desk g) /\ is_entity "risk" (pretty i) a = true /\ ap_state a = "approved".
Definition risk_acceptance_ok (auth : bool) (g : Register) (r : Risk) : Prop :=
  rk_status r = "accepted" -> rk_owner_user_id r <> None /\ rk_next_review_on r <> None /\ (auth = true -> approved_risk g (rk_id r)).
Definition scored (r : Risk) : Prop := (rk_inherent_score r, rk_residual_score r) = compute_scores (rk_likelihood r) (rk_impact r) (rk_treatment r).
Definition followed_up (g : Register) (r : Risk) : Prop := to_mitigate r = true -> exists t, t ∈ db_tasks (rg_db g) /\ keyed_task (risk_key r) t = true.

Record register_ok (auth : bool) (g : Register) : Prop := {
  ro_workflow : workflow_ok auth (desk_workflow (rg_desk g));
  ro_ids : NoDup (map rk_id (rg_risks g));
  ro_fresh : forall r, r ∈ rg_risks g -> rk_id r < db_seq (rg_db g);
  ro_scored : forall r, r ∈ rg_risks g -> scored r;
  ro_accepted : forall r, r ∈ rg_risks g -> risk_acceptance_ok auth g r;
  ro_followed : forall r, r ∈ rg_risks g -> followed_up g r }.

Lemma deliver_tasks n db : db_tasks (deliver n db) = db_tasks db.
Proof. unfold deliver. destruct (negb _); [done|]. by destruct (_ <? _). Qed.
Lemma notify_tasks category title org sev body et eid k db db' : notify category title org sev body et eid k db = Ok db' -> db_tasks db' = db_tasks db.
Proof.
  unfold notify. destruct (str_truthy _); [destruct (scalar_one_or_none _) as [[n|]|]; [..|done]; cbn [res_bind]|]; intros [= <-]; try done; by rewrite deliver_tasks.
Qed.

(** What follows a write: the POA&Ms and the tasks there stay, and a risk to mitigate has
    its task. *)
Lemma post_write_spec caller verb r db db' : post_write caller verb r db = Ok db' ->
  db_poams db' = db_poams db /\ db_seq db <= db_seq db' /\ (forall t, t ∈ db_tasks db -> t ∈ db_tasks db') /\
  (to_mitigate r = true -> exists t, t ∈ db_tasks db' /\ keyed_task (risk_key r) t = true).
Proof.
  unfold post_write. set (d1 := ControlTests.emit _ _ _ _ _ _ db).
  assert (H1 : db_poams d1 = db_poams db /\ db_seq d1 = db_seq db + 1 /\ db_tasks d1 = db_tasks db) by done. destruct H1 as (P1 & S1 & T1). clearbody d1.
  destruct (alert_high caller r d1) as [d2|] eqn:Ea; [|done]. cbn [res_bind].
  assert (H2 : db_poams d2 = db_poams d1 /\ db_seq d1 <= db_seq d2 /\ db_tasks d2 = db_tasks d1).
  { unfold alert_high in Ea. destruct (negb _); [injection Ea as <-; split_and!; [done|lia|done]|]. destruct (notify_frame _ _ _ _ _ _ _ _ _ _ Ea). by rewrite (notify_tasks _ _ _ _ _ _ _ _ _ _ Ea). }
  destruct H2 as (P2 & S2 & T2). unfold open_mitigation. destruct (to_mitigate r); cbn [negb].
  - destruct (scalar_one_or_none _) as [[t|]|] eqn:E; [..|done]; cbn [res_bind].
    + destruct (scalar_find _ _ _ E) as (Ht & Hk & _). intros [= <-]. split_and!; [congruence|lia|by rewrite T2, T1|intros _; by exists t].
    + unfold next_id. intros [= <-]. cbn [db_poams set_tasks ControlTests.set_seq db_seq db_tasks]. split_and!; [congruence|lia|rewrite T2, T1; intros t Ht; apply elem_of_app; by left|].
      intros _. eexists. split; [apply elem_of_app; right; by left|]. by apply bool_decide_eq_true_2.
  - intros [= <-]. split_and!; [congruence|lia|by rewrite T2, T1|done].
Qed.

(** Nothing the register's invariant reads is lost. *)
Definition keeps (g g' : Register) : Prop :=
  db_seq (rg_db g) <= db_seq (rg_db g') /\ (forall t, t ∈ db_tasks (rg_db g) -> t ∈ db_tasks (rg_db g')) /\
  (forall a, a ∈ dk_approvals (rg_desk g) -> ap_state a = "approved" -> a ∈ dk_approvals (rg_desk g')).
Lemma keeps_refl g : keeps g g.
Proof. split_and!; [lia|done|done]. Qed.
Lemma keeps_accepted auth g g' r : keeps g g' -> risk_acceptance_ok auth g r -> risk_acceptance_ok auth g' r.
Proof. intros (_ & _ & Hk) H Hs. destruct (H Hs) as (H1 & H2 & H3). split_and!; [done..|]. intros Ha. destruct (H3 Ha) as (a & ? & ? & ?). exists a. split; [by apply Hk|done]. Qed.
Lemma keeps_followed g g' r : keeps g g' -> followed_up g r -> followed_up g' r.
Proof. intros (_ & Hk & _) H Hm. destruct (H Hm) as (t & ? & ?). exists t. split; [by apply Hk|done]. Qed.

Lemma ok_same_risks auth g g' : rg_risks g' = rg_risks g -> workflow_ok auth (desk_workflow (rg_desk g')) -> keeps g g' -> register_ok auth g -> register_ok auth g'.
Proof.
  intros E Hw Hk [_ Hi Hf Hs Ha Ht]. pose proof Hk as (Hseq & _ & _). split; rewrite ?E; try done.
  - intros r Hr. specialize (Hf r Hr). lia.
  - intros r Hr. by eapply keeps_accepted, Ha.
  - intros r Hr. by eapply keeps_followed, Ht.
Qed.

(** A committed write of [r], a new row or the only one of its id. *)
Lemma commit_ok auth caller verb r g g1 : register_ok auth g ->
  dk_approvals (rg_desk g1) = dk_approvals (rg_desk g) -> db_tasks (rg_db g1) = db_tasks (rg_db g) -> db_seq (rg_db g) <= db_seq (rg_db g1) ->
  scored r -> risk_acceptance_ok auth g r -> rk_id r < db_seq (rg_db g1) ->
  NoDup (map rk_id (rg_risks g1)) -> (forall q, q ∈ rg_risks g1 -> q = r \/ q ∈ rg_risks g) ->
  let g2 := (commit_risk caller verb r g g1).2 in register_ok auth g2 /\ keeps g g2.
Proof.
  intros H Ea Et Hseq Hs Hacc Hid Hnd Hq. unfold commit_risk. destruct (post_write _ _ _ _) as [db|] eqn:E; [|split; [done|apply keeps_refl]].
  destruct (post_write_spec _ _ _ _ _ E) as (_ & S1 & T1 & M1). cbv zeta.
  assert (Hsh : (risk_shown r (put_rg_db db g1)).2 = put_rg_db db g1) by (unfold risk_shown; by destruct (entity_state _ _ _)). rewrite Hsh.
  assert (Hk : keeps g (put_rg_db db g1)).
  { split_and!; cbn; [unfold rg_db, desk_db in *; lia|intros t Ht; apply T1; by rewrite Et|by rewrite Ea]. }
  split; [|done]. destruct H as [Hw Hi Hf Hsc Ha Hfo]. split; cbn [rg_risks put_rg_db put_desk].
  - split; cbn; rewrite Ea; by destruct Hw.
  - done.
  - intros q Hin. change (rg_db (put_rg_db db g1)) with db. destruct (Hq q Hin) as [ ->|Hg]; [|specialize (Hf q Hg)]; lia.
  - intros q Hin. destruct (Hq q Hin) as [ ->|Hg]; [done|by apply Hsc].
  - intros q Hin. destruct (Hq q Hin) as [ ->|Hg]; eapply keeps_accepted; try done. by apply Ha.
  - intros q Hin. destruct (Hq q Hin) as [ ->|Hg]; [exact M1|eapply keeps_followed; [done|by apply Hfo]].
Qed.

Definition good_step (auth : bool) (g g' : Register) : Prop := register_ok auth g' /\ keeps g g'.
Lemma good_same auth g : register_ok auth g -> good_step auth g g.
Proof. intros H. split; [done|apply keeps_refl]. Qed.

Lemma rguarded_cases {A} (P : Register -> Prop) x g (k : rreply A) : P g -> (x = Ok None -> P k.2) -> P (rguarded x g k).2.
Proof. intros Hg Hk. unfold rguarded. destruct x as [[r|]|]; [done| |done]. by apply Hk. Qed.
Lemma with_risk_cases {A} (P : Register -> Prop) caller rid g (k : Risk -> rreply A) : P g ->
  (forall r, r ∈ rg_risks g -> rk_id r = rid -> (forall q, q ∈ rg_risks g -> rk_id q = rid -> q = r) -> P (k r).2) -> P (with_risk caller rid g k).2.
Proof.
  intros Hg Hk. unfold with_risk, require_risk. destruct (scalar_one_or_none _) as [[r|]|] eqn:E; cbn [res_bind]; [|done..].
  destruct (scalar_find _ _ _ E) as (Hin & Hid%Z.eqb_eq & Hu). destruct (in_systems _ _ _); [|done]. apply Hk; [done..|].
  intros q Hq Eq. apply Hu; [done|]. by apply Z.eqb_eq.
Qed.
Lemma with_finding_cases {A} (P : Register -> Prop) detail caller i g (k : AuditFinding -> rreply A) : P g ->
  (forall f, find_finding i g = Some f -> same_org caller (af_organization_id f) = true -> P (k f).2) -> P (with_finding detail caller i g k).2.
Proof. intros Hg Hk. unfold with_finding. destruct (find_finding i g) as [f|]; [|done]. destruct (same_org _ _) eqn:E; [|done]. by apply Hk. Qed.

Lemma rescore_scored r : scored (rescore r).
Proof. unfold scored, rescore. cbn. by destruct (compute_scores _ _ _). Qed.

Lemma risk_gate_spec auth owner review rid g : acceptance_gate auth owner review rid g = Ok None -> owner <> None /\ review <> None /\ (auth = true -> approved_risk g rid).
Proof.
  unfold acceptance_gate, owned_until. case_bool_decide as Ho; [done|]. case_bool_decide as Hr; [done|]. cbn [negb andb]. intros H. split; [done|]. split; [done|].
  intros ->. cbn [negb] in H. destruct (entity_state _ _ _) as [s|] eqn:Es; [|done]. cbn [res_bind] in H. case_bool_decide as Hs; [|done]. subst s.
  unfold entity_state in Es. destruct (scalar_one_or_none _) as [[a|]|] eqn:E; [|done..]. cbn [res_bind] in Es. injection Es as Es. apply scalar_Some in E.
  pose proof (existing_elem _ _ _ E) as [Hin He]. by exists a.
Qed.

Lemma new_risk_ok auth caller verb r g g1 : register_ok auth g -> rk_id r = db_seq (rg_db g) -> scored r -> risk_acceptance_ok auth g r ->
  rg_risks g1 = (rg_risks g ++ [r])%list -> dk_approvals (rg_desk g1) = dk_approvals (rg_desk g) -> db_tasks (rg_db g1) = db_tasks (rg_db g) ->
  db_seq (rg_db g1) = db_seq (rg_db g) + 1 -> good_step auth g (commit_risk caller verb r g g1).2.
Proof.
  intros H Hid Hs Ha Hr Eap Et Eseq. apply commit_ok; try done; [lia|lia|..]; rewrite Hr.
  - rewrite map_app. apply NoDup_app. split; [apply H|]. split; [|apply NoDup_singleton].
    intros i (q & -> & Hq)%list_elem_of_fmap E%list_elem_of_singleton. pose proof (ro_fresh _ _ H q Hq). lia.
  - intros q [Hq| ->%list_elem_of_singleton]%elem_of_app; [by right|by left].
Qed.

Lemma create_risk_ok auth caller title sys b now g : register_ok auth g -> good_step auth g (create_risk auth caller title sys b now g).2.
Proof.
  intros H. pose proof (good_same auth g H) as H0. unfold create_risk, rdenied. destruct (negb _); [done|]. destruct (negb _); [done|].
  apply rguarded_cases; [done|]. intros Hg. destruct (negb (known_system _ _)); [done|]. unfold rg_id, next_id.
  apply new_risk_ok; try done; [apply rescore_scored|]. intros Hst. unfold create_gate in Hg.
  assert (rb_status b = Some "accepted") as Hb by (cbn in Hst; by destruct (rb_status b) as [s|]; cbn in Hst; [subst s|]).
  rewrite Hb, bool_decide_eq_true_2 in Hg by done. cbn [negb] in Hg. unfold owned_until in Hg. cbn [rescore apply_risk_body rk_owner_user_id rk_next_review_on blank_risk].
  case_bool_decide as Ho; [done|]. case_bool_decide as Hv; [done|]. cbn [negb andb] in Hg. destruct auth; [done|]. split_and!; [by destruct (rb_owner_user_id b)|by destruct (rb_next_review_on b)|done].
Qed.

Lemma update_risk_ok auth caller rid b g : register_ok auth g -> good_step auth g (update_risk auth caller rid b g).2.
Proof.
  intros H. pose proof (good_same auth g H) as H0. unfold update_risk, rdenied. destruct (negb _); [done|].
  apply with_risk_cases; [done|]. intros r Hr <- Hu. apply rguarded_cases; [done|]. intros Hg. cbv zeta. set (f := fun r => rescore (apply_risk_body b r)).
  apply commit_ok; try done.
  - apply rescore_scored.
  - intros Hst. unfold f in *. cbn [rescore apply_risk_body rk_status rk_owner_user_id rk_next_review_on rk_id] in *. unfold patch_gate in Hg.
    destruct (rb_status b) as [s|] eqn:Eb.
    + assert (s = "accepted") as -> by exact Hst. rewrite bool_decide_eq_true_2 in Hg by done. by apply risk_gate_spec.
    + destruct (ro_accepted _ _ H r Hr Hst) as (H1 & H2 & H3). split_and!; [by apply given_not_none..|done].
  - exact (ro_fresh _ _ H r Hr).
  - cbn [rg_risks put_risks]. assert (map rk_id (update_where (fun q => rk_id q =? rk_id r) f (rg_risks g)) = map rk_id (rg_risks g)) as ->; [|apply H].
    apply map_update. done.
  - cbn [rg_risks put_risks]. intros q (x & -> & Hx)%list_elem_of_fmap. destruct (Z.eqb_spec (rk_id x) (rk_id r)) as [E|]; [left; by rewrite (Hu x Hx E)|by right].
Qed.

Lemma from_finding_ok auth caller i b now g : register_ok auth g -> good_step auth g (create_risk_from_finding caller i b now g).2.
Proof.
  intros H. pose proof (good_same auth g H) as H0. unfold create_risk_from_finding, rdenied. destruct (negb _); [done|].
  apply with_finding_cases; [done|]. intros f Hf _. destruct (linked_risk f g) as [r|].
  - unfold risk_shown. by destruct (entity_state _ _ _).
  - unfold system_for, rdenied. destruct (af_system_id f) as [s|]; [|done]. destruct (own_system _ _ _); [|done]. unfold rg_id, next_id.
    apply new_risk_ok; try done. apply rescore_scored.
Qed.

(** Steps that leave the risks alone and lose nothing. *)
Lemma quiet_ok auth g g' : rg_risks g' = rg_risks g -> dk_approvals (rg_desk g') = dk_approvals (rg_desk g) -> db_tasks (rg_db g') = db_tasks (rg_db g) ->
  db_seq (rg_db g) <= db_seq (rg_db g') -> register_ok auth g -> good_step auth g g'.
Proof.
  intros Er Ea Et Es H. assert (Hk : keeps g g') by (split_and!; [done|intros t; by rewrite Et|intros a; by rewrite Ea]). split; [|done]. eapply ok_same_risks; [done| |done|done].
  destruct (ro_workflow _ _ H) as [W1 W2 W3]. split; cbn [w_approvals desk_workflow] in *; by rewrite Ea.
Qed.

Lemma add_finding_ok auth caller e b g : register_ok auth g -> good_step auth g (add_finding caller e b g).2.
Proof.
  intros H. pose proof (good_same auth g H) as H0. unfold add_finding, rdenied. destruct (List.find _ _) as [[k org]|]; [|done]. destruct (negb _); [done|]. destruct (negb _); [done|].
  destruct (negb _); [done|]. unfold rg_id, next_id. apply quiet_ok; try done. unfold rg_db, desk_db. cbn. lia.
Qed.
Lemma update_finding_ok auth caller i u g : register_ok auth g -> good_step auth g (update_finding caller i u g).2.
Proof.
  intros H. pose proof (good_same auth g H) as H0. unfold update_finding, rdenied. apply with_finding_cases; [done|]. intros f _ _.
  destruct (negb _); [done|]. destruct (_ && _); [done|]. destruct (negb _); [done|]. by apply quiet_ok.
Qed.
Lemma promote_ok auth caller i today g : register_ok auth g -> good_step auth g (promote_finding_to_poam caller i today g).2.
Proof.
  intros H. pose proof (good_same auth g H) as H0. unfold promote_finding_to_poam. apply with_finding_cases; [done|]. intros f _ _. destruct (linked_poam f g); [done|].
  unfold system_for, rdenied. destruct (af_system_id f) as [s|]; [|done]. destruct (own_system _ _ _); [|done]. unfold rg_id, next_id.
  apply quiet_ok; try done. unfold rg_db, desk_db. cbn. lia.
Qed.

(** What happens between two requests: steps of the approval workflow, and whatever else
    keeps the risks and the tasks. *)
Definition register_rest (auth : bool) (g g' : Register) : Prop :=
  rg_risks g' = rg_risks g /\ db_seq (rg_db g) <= db_seq (rg_db g') /\ (forall t, t ∈ db_tasks (rg_db g) -> t ∈ db_tasks (rg_db g')) /\
  (dk_approvals (rg_desk g') = dk_approvals (rg_desk g) \/ Approvals.step auth (desk_workflow (rg_desk g)) (desk_workflow (rg_desk g'))).
Inductive register_run (auth : bool) (g : Register) : Register -> Prop :=
| rr_nil : register_run auth g g
| rr_create g1 caller title sys b now : register_run auth g g1 -> register_run auth g (create_risk auth caller title sys b now g1).2
| rr_update g1 caller rid b : register_run auth g g1 -> register_run auth g (update_risk auth caller rid b g1).2
| rr_accept_finding g1 caller i b now : register_run auth g g1 -> register_run auth g (create_risk_from_finding caller i b now g1).2
| rr_add_finding g1 caller e b : register_run auth g g1 -> register_run auth g (add_finding caller e b g1).2
| rr_update_finding g1 caller i u : register_run auth g g1 -> register_run auth g (update_finding caller i u g1).2
| rr_promote g1 caller i today : register_run auth g g1 -> register_run auth g (promote_finding_to_poam caller i today g1).2
| rr_rest g1 g2 : register_run auth g g1 -> register_rest auth g1 g2 -> register_run auth g g2.

Lemma rest_ok auth g g' : register_rest auth g g' -> register_ok auth g -> register_ok auth g'.
Proof.
  intros (Er & Hs & Ht & Ha) H. pose proof (ro_workflow _ _ H) as Hw. destruct Ha as [Ha|Ha].
  - apply (ok_same_risks auth g); try done; [|split_and!; [done|done|intros a; by rewrite Ha]]. destruct Hw as [W1 W2 W3]. split; cbn [w_approvals desk_workflow] in *; by rewrite Ha.
  - apply (ok_same_risks auth g); try done; [by eapply Approvals.step_ok|]. split_and!; [done|done|]. intros a. exact (approved_rows_are_final auth _ _ Hw Ha a).
Qed.

(** C16: the register stays sound. Whatever requests on risks and findings are made, by
    whomever, with the approval workflow running between them: risks keep distinct ids;
    every risk carries the scores its rating asks for; an accepted risk has an owner and a
    review date and, with authentication on, an approval by someone other than who asked
    for it; and an open risk that is to be mitigated has its task. *)
Theorem risk_register_stays_sound auth g g' :
  register_run auth g g' -> register_ok auth g ->
  register_ok auth g' /\
  (auth = true -> forall r, r ∈ rg_risks g' -> rk_status r = "accepted" ->
   exists a, a ∈ dk_approvals (rg_desk g') /\ is_entity "risk" (pretty (rk_id r)) a = true /\ ap_state a = "approved" /\
     both_named_same (ap_reviewed_by a) (ap_submitted_by a) = false).
Proof.
  intros Hr H0. assert (H : register_ok auth g').
  { induction Hr; [done|eapply create_risk_ok|eapply update_risk_ok|eapply from_finding_ok|eapply add_finding_ok|eapply update_finding_ok|eapply promote_ok|by eapply rest_ok]; done. }
  split; [done|]. intros -> r Hin Hs. destruct (ro_accepted _ _ H r Hin Hs) as (_ & _ & Hap). destruct (Hap eq_refl) as (a & Ha & He & Hst). exists a.
  destruct (ok_rows _ _ (ro_workflow _ _ H) a Ha) as [_ _ _ _ Hdut]. split_and!; [done..|]. apply Hdut; [done|by left].
Qed.

(** ** Findings *)

Lemma find_assign (i : Z) (f : AuditFinding -> AuditFinding) l x : (forall y, af_id (f y) = af_id y) -> List.find (fun y => af_id y =? i) l = Some x ->
  List.find (fun y => af_id y =? i) (update_where (fun y => af_id y =? i) f l) = Some (f x).
Proof.
  intros Hf. induction l as [|y l IH]; [done|]. cbn [List.find update_where map]. destruct (af_id y =? i) eqn:E; [rewrite Hf, E; by intros [= ->]|]. by rewrite E.
Qed.

Lemma find_new {A} (key : A -> Z) l x : (forall y, y ∈ l -> key y < key x) -> List.find (fun y => key y =? key x) (l ++ [x]) = Some x.
Proof.
  intros H. rewrite find_app_none; [cbn; by rewrite Z.eqb_refl|]. destruct (List.find _ l) as [y|] eqn:E; [|done].
  apply find_some in E as [Hy%list_elem_of_In Ey%Z.eqb_eq]. specialize (H y Hy). lia.
Qed.

(** a finding is promoted once. When promoting a finding answers with a POA&M, that
    POA&M is on the tables, open on the finding's system, named after the finding and
    referring to it when it is new, and the finding names it; promoting the finding again, on whatever day and by
    whoever may reach it, answers with the same POA&M and changes nothing. *)
Theorem findings_are_promoted_once caller i today g p g' :
  (forall q, q ∈ poams (rg_desk g) -> pm_id q < db_seq (rg_db g)) ->
  promote_finding_to_poam caller i today g = (Ok (inr p), g') ->
  (exists f, find_finding i g = Some f /\
     (linked_poam f g = Some p /\ g' = g \/
      linked_poam f g = None /\ poams (rg_desk g') = (poams (rg_desk g) ++ [p])%list /\ af_system_id f = Some (pm_system_id p) /\ pm_status p = "open" /\
        pm_source_ref p = Some (finding_ref f) /\ own_system caller (pm_system_id p) (rg_desk g) = true /\ rg_risks g' = rg_risks g)) /\
  (exists f', find_finding i g' = Some f' /\ linked_poam f' g' = Some p) /\
  forall caller' today', (exists q, (promote_finding_to_poam caller' i today' g').1 = Ok (inr q)) -> promote_finding_to_poam caller' i today' g' = (Ok (inr p), g').
Proof.
  intros Hids H. assert (Hlink : (exists f, find_finding i g = Some f /\
     (linked_poam f g = Some p /\ g' = g \/
      linked_poam f g = None /\ poams (rg_desk g') = (poams (rg_desk g) ++ [p])%list /\ af_system_id f = Some (pm_system_id p) /\ pm_status p = "open" /\
        pm_source_ref p = Some (finding_ref f) /\ own_system caller (pm_system_id p) (rg_desk g) = true /\ rg_risks g' = rg_risks g)) /\
     (exists f', find_finding i g' = Some f' /\ linked_poam f' g' = Some p)).
  { unfold promote_finding_to_poam, with_finding, rdenied in H. destruct (find_finding i g) as [f|] eqn:Ef; [|discriminate]. destruct (same_org _ _); [|discriminate].
    destruct (linked_poam f g) as [q|] eqn:El.
    - injection H as -> <-. split; [exists f; split; [done|by left]|by exists f].
    - unfold system_for, rdenied in H. destruct (af_system_id f) as [s|] eqn:Es; [|discriminate]. destruct (own_system _ _ _) eqn:Eo; [|discriminate]. unfold rg_id, next_id in H.
      injection H as <- <-. split.
      + exists f. split; [done|]. right. split; [done|]. split; [reflexivity|]. done.
      + exists (link_poam (db_seq (rg_db g)) f). split.
        * unfold find_finding. cbn [rg_findings put_rg_db put_desk assign_finding put_findings]. by apply find_assign.
        * unfold linked_poam. cbn [af_poam_id link_poam]. cbn [mbind option_bind]. exact (find_new pm_id _ (audit_poam (db_seq (rg_db g)) s today f) Hids). }
  destruct Hlink as [H1 (f' & Hf' & Hl')]. split; [done|]. split; [by exists f'|]. intros caller' today' (q & Hq).
  unfold promote_finding_to_poam, with_finding, rdenied in Hq |- *. rewrite Hf' in *. destruct (same_org _ _); [|discriminate]. by rewrite Hl' in *.
Qed.

(** A closed finding had its evidence when it was closed. *)
Lemma closing_a_finding_needs_evidence caller i u g f g' : update_finding caller i u g = (Ok (inr f), g') -> fu_status u = Some "closed" -> str_truthy (or_empty (af_closure_evidence f)) = true.
Proof.
  unfold update_finding, with_finding, rdenied. destruct (find_finding i g) as [x|]; [|discriminate]. destruct (same_org _ _); [|discriminate]. destruct (negb (in_systems _ _ _)); [discriminate|].
  intros H E. rewrite E, bool_decide_eq_true_2 in H by done. cbn [andb] in H. destruct (str_truthy _) eqn:Et; cbn [negb] in H; [|discriminate].
  destruct (negb _); [discriminate|]. injection H as <- <-. exact Et.
Qed.

(** ** A worked example *)

Definition rating (lk im treatment : string) : RiskBody :=
  {| rb_title := None; rb_description := None; rb_category := None; rb_source := None; rb_likelihood := Some lk; rb_impact := Some im; rb_treatment := Some treatment;
     rb_status := None; rb_owner_user_id := None; rb_next_review_on := None; rb_control_id := None; rb_vendor_id := None |}.
Definition accepting : RiskBody :=
  {| rb_title := None; rb_description := None; rb_category := None; rb_source := None; rb_likelihood := None; rb_impact := None; rb_treatment := Some "accept";
     rb_status := Some "accepted"; rb_owner_user_id := Some 3; rb_next_review_on := Some 500; rb_control_id := None; rb_vendor_id := None |}.
Definition demo_finding : AuditFinding :=
  {| af_id := 4; af_engagement_id := 1; af_title := "Weak passwords"; af_severity := "severe"; af_status := "open"; af_description := None; af_management_response := None;
     af_closure_evidence := None; af_system_id := Some 2; af_organization_id := Some 5; af_poam_id := None; af_risk_id := None |}.
Definition demo_register : Register := {| rg_desk := demo_desk; rg_risks := []; rg_findings := [demo_finding]; rg_engagements := [(1, Some 5)] |}.
Definition opened_risk : Register := (create_risk true ann "R" (Some 2) (rating "high" "high" "mitigate") 7 demo_register).2.
(** Ann asks for a review of the risk, Bob approves it, Ann accepts it. *)
Definition on_desk (f : Desk -> Desk) (g : Register) : Register := put_desk (f (rg_desk g)) g.
Definition asked : Register := on_desk (serve true ann 130 1 (RqSubmit "risk" "20")) opened_risk.
Definition allowed : Register := on_desk (serve true bob 130 2 (RqDecide "risk" "20" true None)) asked.
Definition accepted_risk : Register := (update_risk true ann 20 accepting allowed).2.

Lemma exposure_is_in_range_witness :
  level_of (Some "HIGH") = Some 5 /\ exists r, compute_scores (Some "HIGH") (Some "high") (Some "mitigate") = (Some 25, Some r) /\ 1 <= r <= 25 /\ band (Some 10) = "high".
Proof.
  split; [vm_compute; reflexivity|]. destruct (exposure_is_in_range (Some "HIGH") (Some "high") (Some "mitigate")) as [_ H].
  destruct (H 5 5) as (r & Hr & Hb & _); [vm_compute; reflexivity|vm_compute; reflexivity|]. exists r. split; [exact Hr|]. split; [exact Hb|]. vm_compute. reflexivity.
Defined.

Lemma demo_register_ok : register_ok true demo_register.
Proof.
  split; cbn [rg_risks demo_register]; [|constructor|intros r Hr; by apply not_elem_of_nil in Hr..].
  exact (dok_workflow _ _ demo_desk_ok).
Qed.

(** A POA&M or approval request that opens no task is such a step. *)
Lemma serve_rest auth caller today now r g : db_tasks (desk_db (serve auth caller today now r (rg_desk g))) = db_tasks (rg_db g) ->
  register_rest auth g (on_desk (serve auth caller today now r) g).
Proof.
  intros Ht. destruct (serve_spec auth caller today now r (rg_desk g)) as [Hs Ha]. split; [done|]. split; [exact Hs|]. split; [intros t; cbn; unfold rg_db in *; cbn; by rewrite Ht|].
  destruct Ha as [(_ & Ha & _)|[_ Ha]]; [by left|by right].
Qed.

Lemma risk_register_stays_sound_witness :
  map (fun r => (rk_status r, rk_inherent_score r, rk_residual_score r)) (rg_risks accepted_risk) = [("accepted", Some 25, Some 25)] /\
  map (fun r => rk_residual_score r) (rg_risks opened_risk) = [Some 10] /\ map tk_title (db_tasks (rg_db opened_risk)) = ["Mitigate risk: R"] /\
  register_ok true accepted_risk.
Proof.
  assert (Hr : register_run true demo_register accepted_risk).
  { apply rr_update. apply (rr_rest _ _ asked); [apply (rr_rest _ _ opened_risk)|].
    - apply rr_create, rr_nil.
    - apply serve_rest. vm_compute. reflexivity.
    - apply serve_rest. vm_compute. reflexivity. }
  split; [vm_compute; reflexivity|]. split; [vm_compute; reflexivity|]. split; [vm_compute; reflexivity|].
  exact (proj1 (risk_register_stays_sound true _ _ Hr demo_register_ok)).
Defined.

Lemma findings_are_promoted_once_witness :
  match promote_finding_to_poam ann 4 130 demo_register with
  | (Ok (inr p), g') => pm_source_ref p = Some "audit_finding:4" /\ pm_severity p = "moderate" /\ promote_finding_to_poam bob 4 140 g' = (Ok (inr p), g')
  | _ => False
  end.
Proof.
  assert (E : match promote_finding_to_poam ann 4 130 demo_register with
              | (Ok (inr p), g') => (pm_source_ref p, pm_severity p, match (promote_finding_to_poam bob 4 140 g').1 with Ok (inr _) => true | _ => false end)
              | _ => (None, "", false) end = (Some "audit_finding:4", "moderate", true)) by (vm_compute; reflexivity).
  destruct (promote_finding_to_poam ann 4 130 demo_register) as [[[r|p]|] g'] eqn:H; [discriminate| |discriminate]. injection E as E1 E2 E3.
  split; [exact E1|]. split; [exact E2|]. destruct (findings_are_promoted_once ann 4 130 demo_register p g' (dok_fresh true demo_desk demo_desk_ok) H) as (_ & _ & Hagain). apply Hagain.
  destruct (promote_finding_to_poam bob 4 140 g').1 as [[r|q]|]; [discriminate|by exists q|discriminate].
Defined.

(** A closed finding can lose the evidence it was closed with. *)
Definition finding_patch (status evidence : option string) : FindingUpdate :=
  {| fu_status := status; fu_management_response := None; fu_closure_evidence := evidence; fu_system_id := None |}.
Example evidence_blanked_after_closing :
  let closed := (update_finding ann 4 (finding_patch (Some "closed") (Some "scan 12")) demo_register).2 in
  map (fun f => (af_status f, af_closure_evidence f)) (rg_findings (update_finding ann 4 (finding_patch None (Some "")) closed).2) = [("closed", Some "")] /\
  map af_status (rg_findings (update_finding ann 4 (finding_patch (Some "closed") None) demo_register).2) = ["open"].
Proof. vm_compute. split; reflexivity. Qed.

(** A risk without a system is read and changed by every organization. *)
Example shared_risk :
  let g := (create_risk true ann "R" None (rating "high" "high" "accept") 7 demo_register).2 in
  map rk_title (rg_risks (update_risk true eve 20 {| rb_title := Some "Z"; rb_description := None; rb_category := None; rb_source := None; rb_likelihood := None; rb_impact := None;
    rb_treatment := None; rb_status := Some "closed"; rb_owner_user_id := None; rb_next_review_on := None; rb_control_id := None; rb_vendor_id := None |} g).2) = ["Z"].
Proof. vm_compute. reflexivity. Qed.
